(* ===== verification/_CoqProject ===== *)
-Q . S2P
Prelude.v
Spinlock.v
SocketBuffer.v
Routing.v
Wire.v
Table.v
Ipv4.v
Arp.v
Icmp.v
Ipv6.v
Icmpv6.v
Ndp.v
Dns.v
NetQueue.v
NetParse.v
NetListen.v
TcpFlow.v
TcpStream.v
TcpSegment.v
NetStack.v
RateLimit.v
Smp.v
Topology.v
Scheduler.v
CoreLease.v
Security.v
Numa.v
Pmm.v
Mmu.v
Kheap.v
Arena.v
Memory.v
Elf.v
Sandbox.v
Fips180.v
Sha256.v
Update.v
Mfs.v
MfsStore.v
MfsSpec.v
MfsRefine.v
MfsImage.v
