(* ===== verification/Prelude.v ===== *)
(** * XAIOS kernel: verification library

    This library models parts of the XAIOS kernel (src/kernel) in Rocq and
    proves them correct.  Definitions are translated from the C sources and
    keep their names; they are executable, so that the boot self-tests of the
    kernel and the witnesses of the theorems run inside the logic.

    ** Conventions

    A w-bit unsigned integer is a [Z]; every result stored in a w-bit object is
    wrapped with [u8], [u16], [u32] or [u64].  A C array is a list, read with
    [l.[i]] and written with [l.[i <- x]].  A NULL pointer is [None]; a pointer
    into a static array is its index.  A function that changes global state
    takes the state and returns the new one; the network stack, which also
    reads the clock and drives the card, is written in a state-and-error monad.
    A failed [kassert] or a panic is
    the outer [None] of the result.  A loop is [for_range] over its counter, or
    a [Fixpoint] whose fuel is the bound of the loop.  Log output, memory
    barriers and cache maintenance are left out everywhere.  What a component
    expects of another one is a type class ([SmpLeasing], [Platform],
    [ArenaService], [UpdateStore], [BlockDevice], [NetDevice]); the theorems of the client
    are proved against its laws, and instances discharge them.

    ** Files

    - [Prelude]: status codes (include/xaios/status.h), machine integers,
      arrays, loops, counting, bits, and the tactics and hints shared by all
      files.
    - [Spinlock]: include/xaios/spinlock.h.  One step per atomic access,
      interleavings of any number of CPUs; mutual exclusion and FIFO progress.
    - [SocketBuffer]: net/socket_buffer.c.  The ring refines a bounded FIFO of
      bytes; the pool hands out each buffer once.
    - [Routing]: net/routing.c.  Lookup returns the longest matching prefix.
    - [Wire]: byte buffers with checked bounds, the accessors and the checksum
      that the protocols share, include/xaios/ip_addr.h, and the interface
      [NetDevice] of the card and the clock.  [Table]: finite maps stored as
      arrays of entries.
    - [Ipv4], [Icmp], [Arp], [Ipv6], [Icmpv6], [Ndp], [Dns]: the files of net/.
      Headers, checksums and fragments are exact, echo requests are answered,
      the ARP and neighbour caches refine maps with replacement, and the
      resolver stays within its arrays.
    - [NetQueue], [NetParse], [NetListen], [TcpFlow], [TcpStream],
      [TcpSegment], [NetStack]: runtime/network_stack.c.  Queues and packet
      descriptors, parsing, listeners and sockets, one TCP connection, the
      stream it delivers, the segments it sends, and the whole stack with its
      timers, application calls and driver loop.  Received bytes are a prefix
      of what the peer sent, reassembly is complete, accept queues are FIFO
      queues per port, and the segments that are sent carry valid checksums.
    - [RateLimit]: runtime/rate_limit.c.  Token buckets and quotas.
    - [Smp], [Topology]: arch/aarch64/smp.c and topology.c.  CPU table, leases
      of cores, and the hierarchy of scheduling domains.
    - [Scheduler]: sched/scheduler.c.  Task tables, run queues, ticks, yields,
      work stealing; saved frames come back unchanged.
    - [CoreLease]: runtime/core_lease.c over the interface of [Smp].
    - [Security]: runtime/security.c.  Path and credential screening, update
      signatures without replay.
    - [Numa], [Pmm], [Mmu], [Kheap], [Arena]: mm/numa.c, mm/pmm.c,
      arch/aarch64/mmu.c, mm/kheap.c, mm/arena.c.  Page allocation without
      double use, exact mapping and unmapping, disjoint heap blocks, arenas.
      Page tables are read and written at their physical addresses, which the
      kernel maps one to one.
    - [Memory]: the four allocators composed; arenas of the kernel are
      isolated from each other and from everything else.
    - [Elf]: mm/elf_loader.c.  A loaded image holds the bytes of its segments.
    - [Sandbox]: runtime/sandbox.c.  Life cycle and the build virtual machine.
    - [Sha256]: runtime/sha256.c.  Streaming equals hashing in one piece.
    - [Update]: runtime/update.c over an interface of the file store.
    - [Mfs], [MfsStore], [MfsSpec], [MfsImage]: fs/mutable_fs.c over the
      interface of a block device.  [Mfs] holds the definitions, [MfsStore] the
      volume invariant and the allocator, [MfsSpec] the refinement to an
      abstract store of named files with one snapshot, [MfsImage] the image on
      disk and the journal.

    ** Bounds and fuel

    Array sizes are those of the headers.  Fuel always equals a bound the code
    itself has: the number of slots scanned, the bits of a word, the bytes of a
    string, the instruction limit of the sandbox machine.  Where termination is
    not obvious from the shape of the loop, a theorem states that the fuel is
    enough.

    ** Not modelled

    The component list of the manifest names every part that is left out and
    why: device drivers and interrupt code that act on hardware registers,
    assembly, floating-point inference kernels, user-space programs, the UEFI
    loader, and build and test scripts. *)

From stdpp Require Export base list list_numbers gmap numbers strings sorting.
From Stdlib Require Export ZArith Lia.

#[global] Open Scope Z_scope.

(** ** Status codes (kernel/include/xaios/status.h) *)

Inductive xaios_status :=
| XAIOS_OK
| XAIOS_ERR_INVALID
| XAIOS_ERR_NO_MEMORY
| XAIOS_ERR_NOT_FOUND
| XAIOS_ERR_IO
| XAIOS_ERR_BUSY.

#[global] Instance xaios_status_eq_dec : EqDecision xaios_status.
Proof. solve_decision. Defined.

Definition status_code (s : xaios_status) : Z :=
  match s with
  | XAIOS_OK => 0
  | XAIOS_ERR_INVALID => -1
  | XAIOS_ERR_NO_MEMORY => -2
  | XAIOS_ERR_NOT_FOUND => -3
  | XAIOS_ERR_IO => -4
  | XAIOS_ERR_BUSY => -5
  end.

Definition is_ok (s : xaios_status) : bool :=
  match s with XAIOS_OK => true | _ => false end.

Definition status_eqb (a b : xaios_status) : bool := status_code a =? status_code b.

(** ** Unsigned machine integers

    A w-bit unsigned integer is a [Z]; every arithmetic result that the C code
    stores in a w-bit object is wrapped explicitly. *)

Definition UINT32_MAX : Z := 4294967295.
Definition UINT64_MAX : Z := 18446744073709551615.

Definition u8 (x : Z) : Z := x mod 256.
Definition u16 (x : Z) : Z := x mod 65536.
Definition u32 (x : Z) : Z := x mod 4294967296.
Definition u64 (x : Z) : Z := x mod 18446744073709551616.

(** Bitwise complement of a w-bit word. *)
Definition not32 (x : Z) : Z := UINT32_MAX - u32 x.
Definition not64 (x : Z) : Z := UINT64_MAX - u64 x.

(** Two's complement reading of a 64-bit word. *)
Definition s64 (x : Z) : Z :=
  if u64 x <? 9223372036854775808 then u64 x else u64 x - 18446744073709551616.

(** [align_up]/[align_down] as written in kheap.c, numa.c, arena.c and
    paged_kv_cache.c: mask arithmetic on 64-bit words. *)
Definition align_up (value align : Z) : Z :=
  Z.land (u64 (u64 (value + align) - 1)) (not64 (align - 1)).
Definition align_down (value align : Z) : Z :=
  Z.land (u64 value) (not64 (align - 1)).

(** [(x & (x - 1)) != 0] for a positive [x]: not a power of two. *)
Definition is_pow2 (x : Z) : bool := (Z.land x (x - 1) =? 0).

(** ** Arrays

    A C array is a list; [l .[ i ]] reads and [l .[ i <- x ]] writes it at an
    in-range [Z] index.  Loops that scan an array from index 0 and stop at the
    first hit are [find_idx]. *)

Declare Scope xaios_scope.
Delimit Scope xaios_scope with xaios.
Notation "l .[ i ]" := (l !!! Z.to_nat i)
  (at level 1, left associativity, format "l .[ i ]") : xaios_scope.
Notation "l .[ i <- x ]" := (<[Z.to_nat i := x]> l)
  (at level 1, left associativity, format "l .[ i  <-  x ]") : xaios_scope.
#[global] Open Scope xaios_scope.

Definition zlen {A} (l : list A) : Z := Z.of_nat (length l).

(** The character codes of a string. *)
Definition chars (s : String.string) : list Z := (fun c => Z.of_N (Ascii.N_of_ascii c)) <$> String.list_ascii_of_string s.

Fixpoint find_idx {A} (f : A -> bool) (l : list A) : option nat :=
  match l with
  | [] => None
  | x :: l' => if f x then Some O else S <$> find_idx f l'
  end.

(** Iterate a state transformer over the indices [i, i+1, ..., i+n-1]: the
    counted loops of the C code. *)
Fixpoint for_range {S} (n : nat) (i : Z) (body : Z -> S -> S) (s : S) : S :=
  match n with
  | O => s
  | Datatypes.S n' => for_range n' (i + 1) body (body i s)
  end.

(** The first index below [n] that passes the test. *)
Definition first_below (n : Z) (test : Z -> bool) : option Z := Z.of_nat <$> find_idx test (seqZ 0 n).

(** Update one field of every element of an array at one index. *)
Definition upd {A} `{Inhabited A} (l : list A) (i : Z) (f : A -> A) : list A :=
  l.[i <- f (l.[i])].

(** Update of a total function at one point: a C array indexed by a small key
    whose bounds are checked before every access. *)
Definition fupd {A} (m : Z -> A) (k : Z) (x : A) : Z -> A :=
  fun j => if j =? k then x else m j.

(** ** Record updates

    [r <| f := v |>] is the record [r] with the field [f] set to [v], the
    assignment to one member of a C structure, and [r <| f ::= g |>] applies
    [g] to the field.  An instance of [Eta] lists the fields of a record type. *)

Class Eta (R : Type) := eta : R -> R.
Class Setter {R T : Type} (proj : R -> T) := update : (T -> T) -> R -> R.
#[global] Hint Mode Setter - - + : typeclass_instances.

Ltac derive_setter :=
  match goal with
  | |- @Setter ?R ?T ?proj =>
      let i := constr:(_ : Eta R) in
      let e := eval hnf in i in
      match eval pattern proj in e with
      | ?s _ => exact (fun f : T -> T => s (fun r => f (proj r)))
      end
  end.
#[global] Hint Extern 1 (Setter _) => derive_setter : typeclass_instances.

Notation "r <| f := v |>" := (update (proj := f) (fun _ => v) r)
  (at level 1, left associativity, f constr at level 0, v at level 99, format "r  <| f  :=  v |>") : xaios_scope.
Notation "r <| f ::= g |>" := (update (proj := f) g r)
  (at level 1, left associativity, f constr at level 0, g at level 99, format "r  <| f  ::=  g |>") : xaios_scope.

(** ** Tactics and hints *)

Create HintDb xaios.
Create Rewrite HintDb xaios.

Ltac zlia := unfold u8, u16, u32, u64, zlen in *; lia.

(** [lia] with division and remainder by constants. *)
Ltac dlia := zlia || (Z.to_euclidean_division_equations; lia).

(** Split the first [if] or [match] on a boolean test in the goal or context. *)
Ltac case_if :=
  match goal with
  | |- context [if ?b then _ else _] => destruct b eqn:?
  | H : context [if ?b then _ else _] |- _ => destruct b eqn:?
  end.

Ltac case_ifs := repeat (case_if; simplify_eq/=).

(** Turn a conjunction/disjunction of boolean tests into propositions. *)
Ltac breflect :=
  repeat match goal with
  | H : (_ && _) = true |- _ => apply andb_true_iff in H as [? ?]
  | H : (_ || _) = false |- _ => apply orb_false_iff in H as [? ?]
  | H : negb _ = true |- _ => apply negb_true_iff in H
  | H : negb _ = false |- _ => apply negb_false_iff in H
  end.

(** ** Machine integer lemmas *)

Lemma u8_range x : 0 <= u8 x < 256.
Proof. unfold u8. apply Z.mod_pos_bound. lia. Qed.

Lemma u32_range x : 0 <= u32 x < 4294967296.
Proof. unfold u32. apply Z.mod_pos_bound. lia. Qed.

Lemma u64_range x : 0 <= u64 x < 18446744073709551616.
Proof. unfold u64. apply Z.mod_pos_bound. lia. Qed.

Lemma u8_small x : 0 <= x < 256 -> u8 x = x.
Proof. intros. unfold u8. apply Z.mod_small. lia. Qed.

Lemma u32_small x : 0 <= x < 4294967296 -> u32 x = x.
Proof. intros. unfold u32. apply Z.mod_small. lia. Qed.

Lemma u64_small x : 0 <= x < 18446744073709551616 -> u64 x = x.
Proof. intros. unfold u64. apply Z.mod_small. lia. Qed.

Lemma u32_le x : 0 <= x -> u32 x <= x.
Proof. intros. unfold u32. apply Z.mod_le; lia. Qed.

Lemma u64_le x : 0 <= x -> u64 x <= x.
Proof. intros. unfold u64. apply Z.mod_le; lia. Qed.

#[export] Hint Resolve u8_range u32_range u64_range : xaios.

Lemma status_eqb_eq a b : status_eqb a b = true <-> a = b.
Proof. unfold status_eqb. destruct a, b; simpl; split; intros; congruence. Qed.

Lemma is_ok_true s : is_ok s = true <-> s = XAIOS_OK.
Proof. destruct s; simpl; split; congruence. Qed.

Lemma is_ok_false s : is_ok s = false <-> s <> XAIOS_OK.
Proof. destruct s; simpl; split; congruence. Qed.

(** The complement mask of a power of two clears exactly the low bits. *)
Lemma land_not_mask x k :
  0 <= k < 64 -> 0 <= x < 2 ^ 64 ->
  Z.land x (not64 (2 ^ k - 1)) = 2 ^ k * (x / 2 ^ k).
Proof.
  intros Hk Hx.
  assert (Hp : 0 < 2 ^ k) by (apply Z.pow_pos_nonneg; lia).
  assert (Hlt : 2 ^ k < 2 ^ 64) by (apply Z.pow_lt_mono_r; lia).
  unfold not64. rewrite u64_small by (change (2 ^ 64) with 18446744073709551616 in Hlt; lia).
  replace (UINT64_MAX - (2 ^ k - 1)) with (Z.ldiff (Z.ones 64) (Z.ones k)).
  2:{ rewrite <- Z.sub_nocarry_ldiff.
      - rewrite !Z.ones_equiv. unfold UINT64_MAX.
        replace (Z.pred (2 ^ 64)) with 18446744073709551615 by reflexivity. lia.
      - apply Z.bits_inj'. intros n Hn. rewrite Z.ldiff_spec, Z.bits_0.
        destruct (Z.ltb_spec n k).
        + rewrite (Z.ones_spec_low 64) by lia. simpl. by rewrite andb_false_r.
        + by rewrite (Z.ones_spec_high k) by lia. }
  rewrite Z.mul_comm, <- Z.shiftl_mul_pow2, <- Z.shiftr_div_pow2 by lia.
  apply Z.bits_inj'. intros n Hn.
  rewrite Z.land_spec, Z.ldiff_spec, Z.shiftl_spec by lia.
  destruct (Z.ltb_spec n k).
  - rewrite (Z.ones_spec_low k) by lia. rewrite (Z.testbit_neg_r _ (n - k)) by lia.
    simpl. by rewrite !andb_false_r.
  - rewrite (Z.ones_spec_high k), Z.shiftr_spec by lia.
    replace (n - k + k) with n by lia.
    destruct (Z.ltb_spec n 64).
    + rewrite (Z.ones_spec_low 64) by lia. simpl. by rewrite andb_true_r.
    + rewrite (Z.ones_spec_high 64) by lia. simpl. rewrite andb_false_r.
      destruct (decide (x = 0)) as [->|]; [by rewrite Z.bits_0|].
      symmetry. apply Z.bits_above_log2; [lia|].
      apply Z.lt_le_trans with 64; [apply Z.log2_lt_pow2; lia|lia].
Qed.

(** On values that do not overflow, [align_up] is the least multiple of the
    alignment that is not below the value. *)
Lemma align_up_spec v k :
  0 <= k < 64 -> 0 <= v -> v + 2 ^ k <= 2 ^ 64 ->
  align_up v (2 ^ k) = 2 ^ k * ((v + (2 ^ k - 1)) / 2 ^ k).
Proof.
  intros Hk Hv Hb. assert (Hp : 0 < 2 ^ k) by (apply Z.pow_pos_nonneg; lia).
  unfold align_up.
  assert (Hu : u64 (u64 (v + 2 ^ k) - 1) = v + (2 ^ k - 1)).
  { unfold u64. change 18446744073709551616 with (2 ^ 64).
    rewrite Zminus_mod_idemp_l, Z.mod_small by lia. lia. }
  rewrite Hu. apply land_not_mask; lia.
Qed.

Lemma align_up_bounds v k :
  0 <= k < 64 -> 0 <= v -> v + 2 ^ k <= 2 ^ 64 ->
  v <= align_up v (2 ^ k) < v + 2 ^ k /\ align_up v (2 ^ k) mod 2 ^ k = 0.
Proof.
  intros Hk Hv Hb. assert (Hp : 0 < 2 ^ k) by (apply Z.pow_pos_nonneg; lia).
  rewrite align_up_spec by lia. split.
  - pose proof (Z.div_mod (v + (2 ^ k - 1)) (2 ^ k) ltac:(lia)).
    pose proof (Z.mod_pos_bound (v + (2 ^ k - 1)) (2 ^ k) Hp). lia.
  - by rewrite Z.mul_comm, Z.mod_mul by lia.
Qed.

(** [x & (2^k - 1)] is the remainder. *)
Lemma land_low_mask x k : 0 <= k -> Z.land x (2 ^ k - 1) = x mod 2 ^ k.
Proof.
  intros. rewrite <- Z.land_ones by lia. by rewrite Z.ones_equiv, Z.sub_1_r.
Qed.

(** The C test [(a & (a - 1)) == 0] accepts exactly the powers of two. *)
Lemma is_pow2_sound x : 0 < x -> is_pow2 x = true -> x = 2 ^ Z.log2 x.
Proof.
  intros Hx Hp. unfold is_pow2 in Hp. apply Z.eqb_eq in Hp.
  destruct (Z.log2_spec x Hx) as [Hlo Hhi].
  destruct (decide (x = 2 ^ Z.log2 x)) as [|Hne]; [done|exfalso].
  assert (Hb : Z.testbit (Z.land x (x - 1)) (Z.log2 x) = true); [|by rewrite Hp, Z.bits_0 in Hb].
  rewrite Z.land_spec, Z.bit_log2 by lia. simpl.
  replace (Z.log2 x) with (Z.log2 (x - 1)); [apply Z.bit_log2; pose proof (Z.pow_pos_nonneg 2 (Z.log2 x)); pose proof (Z.log2_nonneg x); lia|].
  apply Z.log2_unique; [apply Z.log2_nonneg|lia].
Qed.

(** ** Array lemmas *)

Section arrays.
Context {A : Type} `{Inhabited A}.
Implicit Types l : list A.

Lemma arr_get_set_eq l i x : 0 <= i < zlen l -> (l.[i <- x]).[i] = x.
Proof. intros. apply list_lookup_total_insert_eq. zlia. Qed.

Lemma arr_get_set_ne l i j x : 0 <= i -> 0 <= j -> i <> j -> (l.[i <- x]).[j] = l.[j].
Proof. intros. apply list_lookup_total_insert_ne. lia. Qed.

Lemma zlen_set l i x : zlen (l.[i <- x]) = zlen l.
Proof. unfold zlen. by rewrite length_insert. Qed.

Lemma zlen_upd l i f : zlen (upd l i f) = zlen l.
Proof. apply zlen_set. Qed.

Lemma upd_get_eq l i f : 0 <= i < zlen l -> (upd l i f).[i] = f (l.[i]).
Proof. apply arr_get_set_eq. Qed.

Lemma upd_get_ne l i j f : 0 <= i -> 0 <= j -> i <> j -> (upd l i f).[j] = l.[j].
Proof. apply arr_get_set_ne. Qed.

Lemma arr_get_replicate n i (x : A) : 0 <= i < Z.of_nat n -> (replicate n x).[i] = x.
Proof. intros. apply lookup_total_replicate_2. lia. Qed.

Lemma arr_lookup l i : 0 <= i < zlen l -> l !! Z.to_nat i = Some (l.[i]).
Proof. intros. apply list_lookup_lookup_total_lt. zlia. Qed.
End arrays.

Lemma zlen_app {A} (a b : list A) : zlen (a ++ b) = zlen a + zlen b.
Proof. unfold zlen. rewrite length_app. lia. Qed.

#[export] Hint Rewrite @zlen_set @zlen_upd : xaios.

(** [find_idx] is the first index whose element passes the test. *)
Lemma find_idx_Some {A} (f : A -> bool) l n :
  find_idx f l = Some n <->
  (exists x, l !! n = Some x /\ f x = true) /\
  (forall m y, (m < n)%nat -> l !! m = Some y -> f y = false).
Proof.
  revert n. induction l as [|x l IH]; intros n; simpl.
  - split; [done|]. intros [(y & Hy & _) _]. done.
  - destruct (f x) eqn:Hf.
    + split.
      * intros [= <-]. split; [by exists x|]. intros; lia.
      * intros [_ Hlt]. destruct n; [done|].
        specialize (Hlt O x ltac:(lia) eq_refl). congruence.
    + rewrite fmap_Some. split.
      * intros (k & Hk & ->). apply IH in Hk as [Hk1 Hk2]. split; [done|].
        intros [|m] y Hm Hy; simpl in Hy; [congruence|]. apply (Hk2 m); [lia|done].
      * intros [(y & Hy & Hfy) Hlt]. destruct n as [|n]; simpl in Hy; [congruence|].
        exists n. split; [|done]. apply IH. split; [by exists y|].
        intros m z Hm Hz. apply (Hlt (S m)); [lia|done].
Qed.

Lemma find_idx_None {A} (f : A -> bool) l :
  find_idx f l = None <-> Forall (fun x => f x = false) l.
Proof.
  induction l as [|x l IH]; simpl; [by split|].
  destruct (f x) eqn:Hf.
  - split; [done|]. intros Hall. inversion Hall; congruence.
  - rewrite fmap_None, IH. split; [by constructor|]. by inversion 1.
Qed.

Lemma find_idx_lt {A} (f : A -> bool) l n : find_idx f l = Some n -> (n < length l)%nat.
Proof. intros [(x & Hx & _) _]%find_idx_Some. by eapply lookup_lt_Some. Qed.

Lemma find_idx_Some_get `{!Inhabited A} (f : A -> bool) l n :
  find_idx f l = Some n ->
  Z.of_nat n < zlen l /\ f (l.[Z.of_nat n]) = true /\
  forall j, 0 <= j < Z.of_nat n -> f (l.[j]) = false.
Proof.
  intros Hf. pose proof (find_idx_lt _ _ _ Hf) as Hlt.
  apply find_idx_Some in Hf as [(x & Hx & Hfx) Hb].
  split; [zlia|]. split.
  - erewrite list_lookup_total_correct; [exact Hfx|]. by rewrite Nat2Z.id.
  - intros j Hj. eapply (Hb (Z.to_nat j)); [lia|]. apply arr_lookup. zlia.
Qed.

Lemma find_idx_None_get `{!Inhabited A} (f : A -> bool) l :
  find_idx f l = None -> forall j, 0 <= j < zlen l -> f (l.[j]) = false.
Proof.
  intros Hf j Hj. apply find_idx_None in Hf. rewrite Forall_lookup in Hf.
  eapply Hf. by apply arr_lookup.
Qed.

Lemma find_idx_ext {A B} (f : A -> bool) (g : B -> bool) l k :
  Forall2 (fun x y => f x = g y) l k -> find_idx f l = find_idx g k.
Proof. induction 1 as [|x y l k Hxy _ IH]; simpl; [done|]. by rewrite Hxy, IH. Qed.

(** Establish that a computation returns by evaluating only whether it does. *)
Definition returns {A} (x : option A) : bool := match x with Some _ => true | None => false end.

Lemma returns_is_Some {A} (x : option A) : returns x = true -> is_Some x.
Proof. destruct x; [by eexists|done]. Qed.

(** Decide a bounded universal statement by evaluation. *)
Lemma forallb_below (P : Z -> bool) n :
  forallb P (seqZ 0 n) = true -> forall j, 0 <= j < n -> P j = true.
Proof.
  intros H j Hj. rewrite forallb_forall in H. apply H.
  apply list_elem_of_In, elem_of_seqZ. lia.
Qed.

Lemma testbit_one n : Z.testbit 1 n = (n =? 0).
Proof.
  destruct (Z.lt_trichotomy n 0) as [?|[->|?]]; [|done|].
  - rewrite Z.testbit_neg_r by lia. lia.
  - rewrite Z.bits_above_log2; simpl; lia.
Qed.

(** ** Counted loops *)

(** Loop rule: an invariant indexed by the loop counter. *)
Lemma for_range_ind {S} (P : Z -> S -> Prop) body n i s :
  P i s ->
  (forall j t, i <= j < i + Z.of_nat n -> P j t -> P (j + 1) (body j t)) ->
  P (i + Z.of_nat n) (for_range n i body s).
Proof.
  revert i s. induction n as [|n IH]; intros i s H0 Hstep; simpl.
  - by rewrite Z.add_0_r.
  - replace (i + Z.of_nat (Datatypes.S n)) with (i + 1 + Z.of_nat n) by lia.
    apply IH; [apply Hstep; [lia|done]|]. intros. apply Hstep; [lia|done].
Qed.

(** The loop [for (i = 0; i < n; ++i)] with a [Z] bound. *)
Lemma for_upto_ind {S} (P : Z -> S -> Prop) body n s :
  0 <= n -> P 0 s -> (forall i t, 0 <= i < n -> P i t -> P (i + 1) (body i t)) ->
  P n (for_range (Z.to_nat n) 0 body s).
Proof.
  intros Hn H0 Hstep.
  replace n with (0 + Z.of_nat (Z.to_nat n)) at 1 by lia.
  apply for_range_ind; [done|]. intros. apply Hstep; [lia|done].
Qed.

Lemma for_range_S {S} n i (body : Z -> S -> S) s :
  for_range (Datatypes.S n) i body s = body (i + Z.of_nat n) (for_range n i body s).
Proof.
  revert i s. induction n as [|n IH]; intros i s.
  - simpl. by rewrite Z.add_0_r.
  - change (for_range (Datatypes.S (Datatypes.S n)) i body s)
      with (for_range (Datatypes.S n) (i + 1) body (body i s)).
    rewrite IH. simpl. f_equal. lia.
Qed.

Lemma fupd_eq {A} (m : Z -> A) k x : fupd m k x k = x.
Proof. unfold fupd. by rewrite Z.eqb_refl. Qed.

Lemma fupd_ne {A} (m : Z -> A) k j x : j <> k -> fupd m k x j = m j.
Proof. unfold fupd. intros. by rewrite (proj2 (Z.eqb_neq j k)). Qed.

(** ** Counting *)

(** Number of indices below [n] that pass a test. *)
Definition count (f : Z -> bool) (n : Z) : Z := zlen (List.filter f (seqZ 0 n)).

Lemma filter_flip (f g : Z -> bool) l i :
  NoDup l -> i ∈ l -> (forall j, j <> i -> f j = g j) -> f i = false -> g i = true ->
  length (List.filter g l) = S (length (List.filter f l)).
Proof.
  intros Hnd. induction Hnd as [|x l Hx Hnd IH]; intros Hin Hfg Hf Hg; [set_solver|].
  destruct (decide (x = i)) as [->|Hne]; simpl.
  - rewrite Hf, Hg. simpl. f_equal. f_equal. apply filter_ext_in. intros j Hj.
    symmetry. apply Hfg. intros ->. by apply Hx, list_elem_of_In.
  - rewrite (Hfg x Hne).
    assert (Hil : i ∈ l) by set_solver. specialize (IH Hil Hfg Hf Hg).
    destruct (g x); simpl; lia.
Qed.

(** Setting one bit of the test adds one to the count. *)
Lemma count_flip (f g : Z -> bool) n i :
  0 <= i < n -> (forall j, j <> i -> f j = g j) -> f i = false -> g i = true ->
  count g n = count f n + 1.
Proof.
  intros Hi Hfg Hf Hg. unfold count, zlen.
  rewrite (filter_flip f g (seqZ 0 n) i); [lia| |apply elem_of_seqZ; lia|done..].
  apply NoDup_seqZ.
Qed.

Lemma count_ext (f g : Z -> bool) n : (forall i, 0 <= i < n -> f i = g i) -> count f n = count g n.
Proof.
  intros H. unfold count. f_equal. apply filter_ext_in. intros i Hi.
  apply list_elem_of_In, elem_of_seqZ in Hi. apply H. lia.
Qed.

Lemma count_nonneg f n : 0 <= count f n.
Proof. unfold count. zlia. Qed.

Lemma count_zero f n : count f n = 0 <-> forall i, 0 <= i < n -> f i = false.
Proof.
  unfold count, zlen. split.
  - intros H i Hi. destruct (f i) eqn:E; [|done].
    assert (Hin : In i (List.filter f (seqZ 0 n))).
    { apply filter_In. split; [|done]. apply list_elem_of_In, elem_of_seqZ. lia. }
    destruct (List.filter f (seqZ 0 n)); [done|simpl in H; lia].
  - intros H. destruct (List.filter f (seqZ 0 n)) as [|x l] eqn:E; [done|].
    assert (Hin : In x (List.filter f (seqZ 0 n))) by (rewrite E; by left).
    apply filter_In in Hin as [Hx Hf]. apply list_elem_of_In, elem_of_seqZ in Hx.
    rewrite H in Hf by lia. done.
Qed.

Lemma count_below m n : 0 <= m <= n -> count (fun i => i <? m) n = m.
Proof.
  intros [Hm Hmn]. revert Hmn. pattern m. apply natlike_ind; [|clear m Hm; intros m Hm IH Hmn|done].
  - intros _. apply count_zero. intros i Hi. lia.
  - rewrite <- Z.add_1_r in *.
    rewrite (count_flip (fun i => i <? m) _ _ m), IH; cbv beta; intros; lia.
Qed.

Lemma count_le f n : 0 <= n -> count f n <= n.
Proof.
  intros. unfold count, zlen.
  pose proof (filter_length_le f (seqZ 0 n)). rewrite length_seqZ in *. lia.
Qed.

(** Counting with a loop. *)
Lemma count_loop (f : Z -> bool) n :
  0 <= n -> for_range (Z.to_nat n) 0 (fun i c => if f i then c else c + 1) 0 = count (fun i => negb (f i)) n.
Proof.
  intros Hn. apply (for_upto_ind (fun i c => c = count (fun i => negb (f i)) i)); [done|done|]. intros i c Hi ->.
  unfold count. rewrite (seqZ_app 0 i 1), List.filter_app by lia. unfold zlen. rewrite length_app.
  replace (seqZ (0 + i) 1) with [i] by (rewrite seqZ_cons, seqZ_nil by lia; f_equal; lia).
  simpl. destruct (f i); simpl; lia.
Qed.

(** ** Single bits of a word *)

Lemma land_le_l a b : 0 <= a -> Z.land a b <= a.
Proof.
  intros Ha. assert (H0 : 0 <= Z.ldiff a b) by (apply Z.ldiff_nonneg; by left).
  assert (H : Z.land a b + Z.ldiff a b = a); [|lia].
  rewrite Z.add_nocarry_lxor.
  - apply Z.bits_inj'. intros n Hn. rewrite Z.lxor_spec, Z.land_spec, Z.ldiff_spec.
    by destruct (Z.testbit a n), (Z.testbit b n).
  - apply Z.bits_inj'. intros n Hn. rewrite !Z.land_spec, Z.ldiff_spec, Z.bits_0.
    by destruct (Z.testbit a n), (Z.testbit b n).
Qed.

Lemma land_pow2 w b : 0 <= b -> Z.land w (2 ^ b) = if Z.testbit w b then 2 ^ b else 0.
Proof.
  intros Hb. apply Z.bits_inj'. intros n Hn. rewrite Z.land_spec, Z.pow2_bits_eqb by lia.
  destruct (Z.eqb_spec b n) as [->|Hne].
  - rewrite andb_true_r. destruct (Z.testbit w n); [by rewrite Z.pow2_bits_true|by rewrite Z.bits_0].
  - rewrite andb_false_r. destruct (Z.testbit w b); [by rewrite Z.pow2_bits_false by lia|by rewrite Z.bits_0].
Qed.

(** The C test [(w & (1 << b)) == 0]. *)
Lemma land_pow2_zero w b : 0 <= b -> (Z.land w (2 ^ b) =? 0) = negb (Z.testbit w b).
Proof.
  intros Hb. rewrite land_pow2 by done. destruct (Z.testbit w b); [|done].
  apply Z.eqb_neq. pose proof (Z.pow_pos_nonneg 2 b). lia.
Qed.

Lemma u64_shiftl_1 b : 0 <= b < 64 -> u64 (Z.shiftl 1 b) = 2 ^ b.
Proof.
  intros Hb. rewrite Z.shiftl_1_l. apply u64_small. split; [apply Z.pow_nonneg; lia|].
  change 18446744073709551616 with (2 ^ 64). apply Z.pow_lt_mono_r; lia.
Qed.

Lemma lor_pow2_testbit w b j :
  0 <= b -> 0 <= j -> Z.testbit (Z.lor w (2 ^ b)) j = (j =? b) || Z.testbit w j.
Proof.
  intros. rewrite Z.lor_spec, Z.pow2_bits_eqb by done. rewrite (Z.eqb_sym b j). apply orb_comm.
Qed.

Lemma not64_testbit m j :
  0 <= m < 18446744073709551616 -> 0 <= j < 64 -> Z.testbit (not64 m) j = negb (Z.testbit m j).
Proof.
  intros Hm Hj. unfold not64. rewrite u64_small by done.
  replace (UINT64_MAX - m) with (Z.ones 64 - m) by reflexivity.
  rewrite Z.sub_nocarry_ldiff.
  - rewrite Z.ldiff_spec, Z.ones_spec_low by lia. done.
  - apply Z.bits_inj'. intros n Hn. rewrite Z.ldiff_spec, Z.bits_0.
    destruct (Z.ltb_spec n 64); [by rewrite Z.ones_spec_low, andb_false_r by lia|].
    destruct (decide (m = 0)) as [->|]; [by rewrite Z.bits_0|].
    rewrite Z.bits_above_log2; [done|lia|].
    apply Z.lt_le_trans with 64; [apply Z.log2_lt_pow2; lia|lia].
Qed.

Lemma land_not_pow2_testbit w b j :
  0 <= b < 64 -> 0 <= j < 64 ->
  Z.testbit (Z.land w (not64 (2 ^ b))) j = negb (j =? b) && Z.testbit w j.
Proof.
  intros Hb Hj. rewrite Z.land_spec, not64_testbit; [|split; [apply Z.pow_nonneg; lia|]|done].
  - rewrite Z.pow2_bits_eqb, (Z.eqb_sym b j), andb_comm by lia. done.
  - change 18446744073709551616 with (2 ^ 64). apply Z.pow_lt_mono_r; lia.
Qed.

(** The 64-bit words are the non-negative numbers without a bit at 64 or above. *)
Lemma word_high w j : 0 <= w < 18446744073709551616 -> 64 <= j -> Z.testbit w j = false.
Proof.
  intros Hw Hj. destruct (decide (w = 0)) as [->|]; [by rewrite Z.bits_0|].
  apply Z.bits_above_log2; [lia|].
  apply Z.lt_le_trans with 64; [apply Z.log2_lt_pow2; lia|lia].
Qed.

Lemma word_of_bits w :
  0 <= w -> (forall j, 64 <= j -> Z.testbit w j = false) -> 0 <= w < 18446744073709551616.
Proof.
  intros Hw Hb. split; [done|]. apply Z.nle_gt. intros Hge.
  specialize (Hb (Z.log2 w)). rewrite Z.bit_log2 in Hb by lia.
  assert (64 <= Z.log2 w) by (change 64 with (Z.log2 18446744073709551616); apply Z.log2_le_mono; lia).
  by specialize (Hb ltac:(done)).
Qed.

Lemma word_bits_zero w :
  0 <= w < 18446744073709551616 -> (forall j, 0 <= j < 64 -> Z.testbit w j = false) -> w = 0.
Proof.
  intros Hw Hb. apply Z.bits_inj'. intros n Hn. rewrite Z.bits_0.
  destruct (Z.ltb_spec n 64); [by apply Hb; lia|]. by apply word_high.
Qed.

Lemma word_land w m :
  0 <= w < 18446744073709551616 -> 0 <= m -> 0 <= Z.land w m < 18446744073709551616.
Proof.
  intros Hw Hm. apply word_of_bits; [apply Z.land_nonneg; lia|].
  intros j Hj. by rewrite Z.land_spec, word_high.
Qed.

Lemma word_lor w m :
  0 <= w < 18446744073709551616 -> 0 <= m < 18446744073709551616 ->
  0 <= Z.lor w m < 18446744073709551616.
Proof.
  intros Hw Hm. apply word_of_bits; [apply Z.lor_nonneg; lia|].
  intros j Hj. by rewrite Z.lor_spec, !word_high.
Qed.

Lemma word_pow2 b : 0 <= b < 64 -> 0 <= 2 ^ b < 18446744073709551616.
Proof.
  intros Hb. split; [apply Z.pow_nonneg; lia|].
  change 18446744073709551616 with (2 ^ 64). apply Z.pow_lt_mono_r; lia.
Qed.

Lemma not64_range m : 0 <= not64 m < 18446744073709551616.
Proof. unfold not64, UINT64_MAX. pose proof (u64_range m). lia. Qed.

#[export] Hint Resolve word_land word_lor word_pow2 not64_range : xaios.

(** ** Searches and updates *)

Lemma seqZ_get n (i : nat) x : seqZ 0 n !! i = Some x <-> Z.of_nat i < n /\ x = Z.of_nat i.
Proof. rewrite lookup_seqZ. split; intros [? ?]; lia. Qed.

Lemma first_below_Some n test i :
  first_below n test = Some i <->
  0 <= i < n /\ test i = true /\ forall j, 0 <= j < i -> test j = false.
Proof.
  unfold first_below. rewrite fmap_Some. split.
  - intros (k & Hk & ->). apply find_idx_Some in Hk as [(x & Hx & Ht) Hb]. apply seqZ_get in Hx as [Hlt ->].
    split; [lia|]. split; [done|]. intros j Hj. apply (Hb (Z.to_nat j) j); [lia|]. apply seqZ_get. lia.
  - intros (Hi & Ht & Hb). exists (Z.to_nat i). split; [|lia]. apply find_idx_Some. split.
    + exists i. split; [apply seqZ_get; lia|done].
    + intros m y Hm Hy. apply seqZ_get in Hy as [_ ->]. apply Hb. lia.
Qed.

Lemma first_below_None n test : first_below n test = None <-> forall j, 0 <= j < n -> test j = false.
Proof.
  unfold first_below. rewrite fmap_None, find_idx_None, Forall_lookup. split.
  - intros H j Hj. apply (H (Z.to_nat j)). apply seqZ_get. lia.
  - intros H k x [Hlt ->]%seqZ_get. apply H. lia.
Qed.

Lemma first_below_ext n test test' :
  (forall j, 0 <= j < n -> test j = test' j) -> first_below n test = first_below n test'.
Proof.
  intros H. destruct (first_below n test') as [i|] eqn:E.
  - apply first_below_Some in E as (H1 & H2 & H3). apply first_below_Some. split; [done|].
    split; [by rewrite H|]. intros j Hj. rewrite H by lia. by apply H3.
  - rewrite first_below_None in E. apply first_below_None. intros j Hj. rewrite H by done. by apply E.
Qed.

Lemma filter_true {A} (P : A -> Prop) `{forall x, Decision (P x)} (l : list A) : (forall x, x ∈ l -> P x) -> filter P l = l.
Proof.
  induction l as [|x l IH]; intros Hl; [done|]. rewrite filter_cons_True by (apply Hl; set_solver).
  f_equal. apply IH. intros y Hy. apply Hl. set_solver.
Qed.

Lemma Forall_upd {A} `{Inhabited A} (P : A -> Prop) l i f :
  Forall P l -> (forall x, P x -> P (f x)) -> Forall P (upd l i f).
Proof.
  intros Hl Hf. unfold upd. destruct (decide (Z.to_nat i < length l)%nat) as [Hlt|Hge].
  - apply Forall_insert; [done|]. apply Hf. rewrite Forall_forall in Hl. apply Hl.
    by apply list_elem_of_lookup_total_2.
  - by rewrite list_insert_ge by lia.
Qed.

Lemma upd_get {A} `{Inhabited A} (l : list A) i j f :
  0 <= j < zlen l -> (upd l i f).[j] = if decide (Z.to_nat j = Z.to_nat i) then f (l.[j]) else l.[j].
Proof.
  intros Hj. unfold upd. destruct (decide _) as [E|Hne]; [rewrite E; apply list_lookup_total_insert_eq; zlia|].
  by apply list_lookup_total_insert_ne.
Qed.
