(* ===== verification/Spinlock.v ===== *)
(** * Ticket spinlock (kernel/include/xaios/spinlock.h)

    The lock word and its atomic accesses, and the lock/unlock/trylock code of
    any number of CPUs as a step relation over interleavings: every atomic
    access of the C code is one step.  [pc] says where in the inline functions
    a CPU is.  CPUs come online one by one, and [smp_online_count() <= 1]
    selects the path without tickets.  The 32-bit ticket counters wrap;
    [issued] and [served] are ghost copies that do not, and the [stamp] of a
    trylock call is the ghost copy of the value it loaded.  A trace of ticket,
    enter and exit events is recorded so that fairness can be stated.

    The code is correct only in [orderly] runs: no lock is in use when the
    second CPU comes up, trylock is not called before that, and no trylock call
    is overtaken by 2^32 tickets.  The lemmas at the end show what happens in
    other runs: [spin_mode_switch_strands], [spin_single_trylock_strands] and
    [spin_trylock_aba]. *)

From S2P Require Import Prelude.

Module Spinlock.

Record xaios_spinlock := mk_spinlock {
  next_ticket : Z;
  serve : Z;
  guard : Z
}.

Definition xaios_spin_init : xaios_spinlock := mk_spinlock 0 0 0.

(** The atomic accesses. *)
Definition fetch_and_add_next (l : xaios_spinlock) : xaios_spinlock * Z :=
  (mk_spinlock (u32 (next_ticket l + 1)) (serve l) (guard l), next_ticket l).

Definition set_guard (l : xaios_spinlock) (g : Z) : xaios_spinlock :=
  mk_spinlock (next_ticket l) (serve l) g.

Definition store_serve (l : xaios_spinlock) (v : Z) : xaios_spinlock :=
  mk_spinlock (next_ticket l) (u32 v) (guard l).

Definition cas_next (l : xaios_spinlock) (old new : Z) : xaios_spinlock * bool :=
  if next_ticket l =? old then (mk_spinlock (u32 new) (serve l) (guard l), true)
  else (l, false).

(** The single-CPU paths ([smp_online_count() <= 1]) and the guard helpers. *)
Definition xaios_spin_lock_single (l : xaios_spinlock) : xaios_spinlock := set_guard l 1.
Definition xaios_spin_unlock_single (l : xaios_spinlock) : xaios_spinlock := set_guard l 0.

Definition xaios_spin_trylock_guard (l : xaios_spinlock) : xaios_spinlock * bool :=
  if negb (guard l =? 0) then (l, false) else (set_guard l 1, true).

Definition xaios_spin_unlock_guard (l : xaios_spinlock) : xaios_spinlock := set_guard l 0.

Definition xaios_spin_held (l : xaios_spinlock) : bool := negb (serve l =? next_ticket l).

(** ** The multi-CPU code as a step relation *)

Inductive pc :=
| Idle                        (* outside the lock functions, not holding *)
| Spinning (ticket : Z)       (* xaios_spin_lock: in the wait loop *)
| Entering                    (* lock obtained, guard not yet written *)
| Holding                     (* xaios_spin_lock or trylock returned *)
| Leaving                     (* xaios_spin_unlock: guard cleared *)
| Storing (v : Z)             (* xaios_spin_unlock: serve read as v *)
| TryServe (current stamp : Z) (* xaios_spin_trylock: serve read *)
| TryCas (current stamp : Z).  (* xaios_spin_trylock: next_ticket read, equal *)

Definition critical (p : pc) : bool :=
  match p with Entering | Holding | Leaving | Storing _ => true | _ => false end.

Inductive event := Ticket (c : Z) | Enter (c : Z) | Exit (c : Z).

Record sys := mk_sys {
  lk : xaios_spinlock;
  pcs : Z -> pc;
  online : Z;
  issued : Z;
  served : Z
}.

Definition sys_init : sys := mk_sys xaios_spin_init (fun _ => Idle) 0 0 0.

Definition goto (s : sys) (c : Z) (p : pc) : sys :=
  mk_sys (lk s) (fupd (pcs s) c p) (online s) (issued s) (served s).

(** One atomic step of CPU [c].  The CPU count only grows, so reading it above
    one and the access that follows are one step; the path for one CPU reads
    it in a step of its own. *)
Inductive cpu_step (s : sys) (c : Z) : list event -> sys -> Prop :=
| StSingle :
    pcs s c = Idle -> online s <= 1 -> cpu_step s c [] (goto s c Entering)
| StTicket l t :
    pcs s c = Idle -> 1 < online s -> fetch_and_add_next (lk s) = (l, t) ->
    cpu_step s c [Ticket c] (mk_sys l (fupd (pcs s) c (Spinning t)) (online s) (issued s + 1) (served s))
| StSpin t :
    pcs s c = Spinning t -> serve (lk s) <> t -> cpu_step s c [] s
| StEnter t :
    pcs s c = Spinning t -> serve (lk s) = t -> cpu_step s c [Enter c] (goto s c Entering)
| StGuard :
    pcs s c = Entering ->
    cpu_step s c [] (mk_sys (set_guard (lk s) 1) (fupd (pcs s) c Holding) (online s) (issued s) (served s))
| StUnguard :
    pcs s c = Holding ->
    cpu_step s c [] (mk_sys (set_guard (lk s) 0) (fupd (pcs s) c Leaving) (online s) (issued s) (served s))
| StLeaveSingle :
    pcs s c = Leaving -> online s <= 1 -> cpu_step s c [] (goto s c Idle)
| StLoadServe :
    pcs s c = Leaving -> 1 < online s -> cpu_step s c [] (goto s c (Storing (serve (lk s))))
| StRelease v :
    pcs s c = Storing v ->
    cpu_step s c [Exit c]
      (mk_sys (store_serve (lk s) (v + 1)) (fupd (pcs s) c Idle) (online s) (issued s) (served s + 1))
| StTryServe :
    pcs s c = Idle -> cpu_step s c [] (goto s c (TryServe (serve (lk s)) (served s)))
| StTryBusy current stamp :
    pcs s c = TryServe current stamp -> next_ticket (lk s) <> current ->
    cpu_step s c [] (goto s c Idle)
| StTryNext current stamp :
    pcs s c = TryServe current stamp -> next_ticket (lk s) = current ->
    cpu_step s c [] (goto s c (TryCas current stamp))
| StTryFail current stamp :
    pcs s c = TryCas current stamp ->
    cas_next (lk s) current (current + 1) = (lk s, false) ->
    cpu_step s c [] (goto s c Idle)
| StTryWin current stamp l :
    pcs s c = TryCas current stamp ->
    cas_next (lk s) current (current + 1) = (l, true) ->
    cpu_step s c [Ticket c; Enter c]
      (mk_sys l (fupd (pcs s) c Entering) (online s) (issued s + 1) (served s)).

(** One step of the machine: of a CPU that is up (CPU 0 from the start), or
    [bump_online]. *)
Inductive sys_step (ncpus : Z) (s : sys) : list event -> sys -> Prop :=
| SysCpu c evs s' :
    0 <= c < ncpus -> c = 0 \/ 1 < online s -> cpu_step s c evs s' -> sys_step ncpus s evs s'
| SysOnline :
    sys_step ncpus s [] (mk_sys (lk s) (pcs s) (online s + 1) (issued s) (served s)).

(** Interleaved runs of [ncpus] CPUs, with the trace of events, in which every
    step satisfies [ok]. *)
Inductive reachable (ok : sys -> sys -> Prop) (ncpus : Z) : sys -> list event -> Prop :=
| ReachInit : reachable ok ncpus sys_init []
| ReachStep s tr evs s' :
    reachable ok ncpus s tr -> sys_step ncpus s evs s' -> ok s s' ->
    reachable ok ncpus s' (tr ++ evs).

Definition trying (p : pc) : option Z :=
  match p with TryServe _ stamp | TryCas _ stamp => Some stamp | _ => None end.

(** The steps of the runs in which the lock is used as it has to be: no trylock
    call is overtaken by 2^32 tickets, the lock is not in use when the second
    CPU comes up, and trylock is called only after that. *)
Record orderly (s s' : sys) : Prop := {
  prompt : forall c stamp, trying (pcs s c) = Some stamp -> issued s - stamp < 4294967296;
  quiet_switch : online s <= 1 -> 1 < online s' -> forall c, pcs s c = Idle;
  no_early_try : online s' <= 1 -> forall c, trying (pcs s' c) = None }.

Definition tickets (tr : list event) : list Z :=
  omap (fun e => match e with Ticket c => Some c | _ => None end) tr.
Definition enters (tr : list event) : list Z :=
  omap (fun e => match e with Enter c => Some c | _ => None end) tr.

(** ** Invariant: the tickets in circulation form a queue of distinct CPUs *)

Definition pc_ok (s : sys) (q : list Z) (c : Z) : Prop :=
  match pcs s c with
  | Spinning t => exists i, q !! i = Some c /\ t = u32 (served s + Z.of_nat i)
  | Entering | Leaving => q !! O = Some c
  | Holding => q !! O = Some c /\ guard (lk s) = 1
  | Storing v => q !! O = Some c /\ v = serve (lk s)
  | Idle => c ∉ q
  | TryServe cur stamp | TryCas cur stamp => (c ∉ q) /\ cur = u32 stamp /\ stamp <= served s
  end.

(** The entered CPUs are those that left ([out]) and, when the head of the
    queue is inside, that one. *)
Definition entered_ok (s : sys) (q out : list Z) (tr : list event) : Prop :=
  (enters tr = out /\ forall c, critical (pcs s c) = false) \/
  (exists h q', q = h :: q' /\ enters tr = out ++ [h] /\ critical (pcs s h) = true).

Definition inv (ncpus : Z) (s : sys) (tr : list event) (q out : list Z) : Prop :=
  next_ticket (lk s) = u32 (issued s) /\ serve (lk s) = u32 (served s) /\
  issued s = served s + zlen q /\ NoDup q /\ Forall (fun c => 0 <= c < ncpus) q /\
  tickets tr = out ++ q /\ entered_ok s q out tr /\ forall c, pc_ok s q c.

Section Proofs.
Context (ncpus : Z) (Hncpus : 0 < ncpus < 4294967296).

Lemma queue_bound q :
  NoDup q -> Forall (fun c => 0 <= c < ncpus) q -> zlen q <= ncpus.
Proof.
  intros Hnd Hb. assert (Hs : q ⊆ seqZ 0 ncpus).
  { intros c Hc. rewrite Forall_forall in Hb. apply elem_of_seqZ. specialize (Hb c Hc). lia. }
  apply NoDup_submseteq in Hs as Hl; [|done].
  apply submseteq_length in Hl. rewrite length_seqZ in Hl. zlia.
Qed.

(** Tickets less than 2^32 apart are equal when their 32-bit values are. *)
Lemma u32_inj a b : 0 <= b - a < 4294967296 -> u32 a = u32 b -> a = b.
Proof.
  unfold u32. intros Hd He.
  pose proof (Z.div_mod a 4294967296 ltac:(lia)).
  pose proof (Z.div_mod b 4294967296 ltac:(lia)). nia.
Qed.

Lemma critical_head s q c : pc_ok s q c -> critical (pcs s c) = true -> q !! O = Some c.
Proof. unfold pc_ok. destruct (pcs s c); simpl; intros H; try done; by destruct H. Qed.

(** What a step of one CPU leaves intact for the others: the queue may grow at
    the end, and the guard may change unless the other CPU is its head. *)
Lemma pc_ok_frame s s' q r c' :
  pcs s' c' = pcs s c' -> served s' = served s -> serve (lk s') = serve (lk s) ->
  (guard (lk s') = guard (lk s) \/ q !! O <> Some c') -> c' ∉ r ->
  pc_ok s q c' -> pc_ok s' (q ++ r) c'.
Proof.
  unfold pc_ok. intros -> -> -> Hg Hr H.
  assert (Hh : q !! O = Some c' -> (q ++ r) !! O = Some c') by apply lookup_app_l_Some.
  destruct (pcs s c'); rewrite ?not_elem_of_app; try (split_and!; by apply H || apply Hr);
    try by apply Hh.
  - destruct H as (i & Hi & ->). exists i. split; [by apply lookup_app_l_Some|done].
  - destruct H as [Hq He]. split; [by apply Hh|]. destruct Hg; congruence.
  - destruct H as [Hq He]. by split; [apply Hh|].
Qed.

Lemma entered_frame s s' q r out tr tr' :
  (forall c, critical (pcs s' c) = critical (pcs s c)) -> enters tr' = enters tr ->
  entered_ok s q out tr -> entered_ok s' (q ++ r) out tr'.
Proof.
  intros Hc Ht [[He Hn]|(h & q' & -> & He & Hh)]; [left|right].
  - split; [congruence|]. intros c. by rewrite Hc.
  - exists h, (q' ++ r). rewrite Hc, Ht. naive_solver.
Qed.

Lemma enters_app a b : enters (a ++ b) = enters a ++ enters b.
Proof. apply omap_app. Qed.

Lemma tickets_app a b : tickets (a ++ b) = tickets a ++ tickets b.
Proof. apply omap_app. Qed.

(** Steps that move one CPU between program points outside the critical section,
    or inside it, and touch at most the guard. *)
Lemma inv_local s tr q out c p l :
  inv ncpus s tr q out ->
  next_ticket l = next_ticket (lk s) -> serve l = serve (lk s) ->
  (guard l = guard (lk s) \/ q !! O = Some c) ->
  critical p = critical (pcs s c) ->
  let s' := mk_sys l (fupd (pcs s) c p) (online s) (issued s) (served s) in
  pc_ok s' q c -> inv ncpus s' (tr ++ []) q out.
Proof.
  intros (Hn & Hs & Hi & Hnd & Hb & Ht & He & Hp) Hl1 Hl2 Hg Hc s' Hok.
  rewrite app_nil_r. unfold inv; simpl. split_and!; try congruence; try done.
  - rewrite <- (app_nil_r q). eapply entered_frame; [|done|exact He].
    intros c'. unfold s', fupd; simpl. case_if; [|done].
    apply Z.eqb_eq in Heqb. congruence.
  - intros c'. destruct (decide (c' = c)) as [->|Hne]; [done|].
    rewrite <- (app_nil_r q). apply (pc_ok_frame s); simpl; try done.
    + by rewrite fupd_ne.
    + destruct Hg; [by left|right; congruence].
    + apply not_elem_of_nil.
Qed.

(** A fetched ticket appends the CPU to the queue. *)
Lemma inv_ticket s tr q out c l p :
  inv ncpus s tr q out -> 0 <= c < ncpus -> c ∉ q -> critical (pcs s c) = false ->
  critical p = false ->
  next_ticket l = u32 (next_ticket (lk s) + 1) -> serve l = serve (lk s) ->
  guard l = guard (lk s) ->
  let s' := mk_sys l (fupd (pcs s) c p) (online s) (issued s + 1) (served s) in
  pc_ok s' (q ++ [c]) c -> inv ncpus s' (tr ++ [Ticket c]) (q ++ [c]) out.
Proof.
  intros (Hn & Hs & Hi & Hnd & Hb & Ht & He & Hp) Hc Hq Hcr Hpc Hl1 Hl2 Hl3 s' Hok.
  unfold inv; simpl. split_and!; try congruence.
  - rewrite Hl1, Hn. unfold u32. by rewrite Zplus_mod_idemp_l.
  - unfold zlen in *. rewrite length_app. simpl. lia.
  - apply NoDup_app. split_and!; [done| |apply NoDup_singleton]. set_solver.
  - apply Forall_app. split; [done|by constructor].
  - rewrite tickets_app, Ht. simpl. by rewrite app_assoc.
  - eapply entered_frame; [| |exact He].
    + intros c'. unfold s', fupd; simpl. case_if; [|done].
      apply Z.eqb_eq in Heqb. congruence.
    + rewrite enters_app. simpl. apply app_nil_r.
  - intros c'. destruct (decide (c' = c)) as [->|Hne]; [done|].
    apply (pc_ok_frame s); simpl; try done; [by rewrite fupd_ne|by left|set_solver].
Qed.

(** The head of the queue enters. *)
Lemma inv_enter s tr q q' out c :
  inv ncpus s tr q out -> critical (pcs s c) = false -> q = c :: q' ->
  inv ncpus (goto s c Entering) (tr ++ [Enter c]) q out.
Proof.
  intros (Hn & Hs & Hi & Hnd & Hb & Ht & He & Hp) Hcr Hq.
  unfold inv; simpl. split_and!; try done.
  - by rewrite tickets_app, app_nil_r.
  - right. exists c, q'. rewrite enters_app. simpl. rewrite fupd_eq.
    destruct He as [[-> _]|(h & q'' & -> & _ & Hh)]; [done|congruence].
  - intros c'. destruct (decide (c' = c)) as [->|Hne].
    + unfold pc_ok, goto; simpl. rewrite fupd_eq. by subst.
    + rewrite <- (app_nil_r q). apply (pc_ok_frame s); simpl; try done;
        [by rewrite fupd_ne|by left|apply not_elem_of_nil].
Qed.

(** The head of the queue leaves: every other ticket moves one place up. *)
Lemma inv_release s tr q q' out c v :
  inv ncpus s tr q out -> pcs s c = Storing v -> q = c :: q' ->
  inv ncpus (mk_sys (store_serve (lk s) (v + 1)) (fupd (pcs s) c Idle) (online s) (issued s) (served s + 1))
    (tr ++ [Exit c]) q' (out ++ [c]).
Proof.
  intros (Hn & Hs & Hi & Hnd & Hb & Ht & He & Hp) Hc ->.
  pose proof (Hp c) as Hpc. unfold pc_ok in Hpc. rewrite Hc in Hpc. destruct Hpc as [_ ->].
  apply NoDup_cons in Hnd as [Hcq Hnd]. apply Forall_cons in Hb as [_ Hb].
  assert (Hothers : forall c', c' <> c -> critical (pcs s c') = false).
  { intros c' Hne. destruct (critical (pcs s c')) eqn:E; [|done].
    pose proof (critical_head _ _ _ (Hp c') E). naive_solver. }
  unfold inv; simpl. split_and!; try done.
  - rewrite Hs. unfold u32. by rewrite Zplus_mod_idemp_l.
  - unfold zlen in *. simpl in Hi. lia.
  - rewrite tickets_app, Ht. simpl. by rewrite app_nil_r, <- app_assoc.
  - left. rewrite enters_app. simpl. rewrite app_nil_r. split.
    + destruct He as [[_ Hnone]|(h & q'' & Hq & -> & _)]; [|naive_solver].
      specialize (Hnone c). by rewrite Hc in Hnone.
    + intros c'. unfold fupd. case_if; [done|]. apply Hothers. lia.
  - intros c'. unfold pc_ok, fupd; simpl. case_if; [apply Z.eqb_eq in Heqb; by subst|].
    assert (Hne : c' <> c) by lia. specialize (Hothers c' Hne). specialize (Hp c').
    unfold pc_ok in Hp. destruct (pcs s c'); try done; rewrite ?not_elem_of_cons in Hp.
    + apply Hp.
    + destruct Hp as ([|i] & Hq & ->); [simpl in Hq; congruence|].
      exists i. split; [done|]. f_equal. lia.
    + destruct Hp as ([_ Hq] & Hcur & Hst). split_and!; [done|done|lia].
    + destruct Hp as ([_ Hq] & Hcur & Hst). split_and!; [done|done|lia].
Qed.

(** The CPU that sees its own ticket served is the head of the queue. *)
Lemma served_is_head s tr q out c t :
  inv ncpus s tr q out -> pcs s c = Spinning t -> serve (lk s) = t -> exists q', q = c :: q'.
Proof.
  intros (Hn & Hs & Hi & Hnd & Hb & Ht & He & Hp) Hc Hsv.
  specialize (Hp c). unfold pc_ok in Hp. rewrite Hc in Hp. destruct Hp as (i & Hq & ->).
  pose proof (queue_bound q Hnd Hb). pose proof (lookup_lt_Some _ _ _ Hq).
  assert (i = O) as ->. { pose proof (u32_inj (served s) (served s + Z.of_nat i)). zlia. }
  destruct q as [|h q']; [done|]. exists q'. naive_solver.
Qed.

Lemma inv_ext s s' tr q out :
  inv ncpus s tr q out -> lk s' = lk s -> issued s' = issued s -> served s' = served s ->
  (forall c, pcs s' c = pcs s c) -> inv ncpus s' tr q out.
Proof.
  intros (Hn & Hs & Hi & Hnd & Hb & Ht & He & Hp) H1 H2 H3 H4.
  unfold inv. rewrite H1, H2, H3. do 6 (split; [done|]). rewrite <- (app_nil_r q). split.
  - eapply entered_frame; [|done|exact He]. intros c. by rewrite H4.
  - intros c. apply (pc_ok_frame s); [done|done|by rewrite H1|left; by rewrite H1| |done].
    apply not_elem_of_nil.
Qed.

Lemma inv_step s tr q out c evs s' :
  inv ncpus s tr q out -> 1 < online s -> 0 <= c < ncpus -> cpu_step s c evs s' ->
  (forall c stamp, trying (pcs s c) = Some stamp -> issued s - stamp < 4294967296) ->
  exists q' out', inv ncpus s' (tr ++ evs) q' out'.
Proof.
  intros Hinv Hon Hc Hst Hwin. pose proof Hinv as (Hn & Hs & Hi & Hnd & Hb & Ht & He & Hp).
  pose proof (Hp c) as Hpc. unfold pc_ok in Hpc.
  inversion Hst; subst; try lia; rewrite ?H in Hpc.
  - unfold fetch_and_add_next in H1. simplify_eq. eexists _, _.
    apply inv_ticket; simpl; rewrite ?H; try done.
    unfold pc_ok; simpl. rewrite fupd_eq. exists (length q).
    rewrite lookup_app_r, Nat.sub_diag by done. split; [done|]. rewrite Hn. f_equal. zlia.
  - rewrite app_nil_r. by eexists _, _.
  - destruct (served_is_head _ _ _ _ _ _ Hinv H eq_refl) as [q' Hq'].
    eexists _, _. eapply inv_enter; [done|by rewrite H|done].
  - eexists _, _. apply inv_local; simpl; rewrite ?H; try done; [by right|].
    unfold pc_ok; simpl. by rewrite fupd_eq.
  - destruct Hpc as [Hq _]. eexists _, _. apply inv_local; simpl; rewrite ?H; try done; [by right|].
    unfold pc_ok; simpl. by rewrite fupd_eq.
  - eexists _, _. apply inv_local; simpl; rewrite ?H; try done; [by left|].
    unfold pc_ok; simpl. by rewrite fupd_eq.
  - destruct q as [|h q']; [by destruct Hpc|]. destruct Hpc as [[= ->] _].
    eexists _, _. by eapply inv_release.
  - eexists _, _. apply inv_local; simpl; rewrite ?H; try done; [by left|].
    unfold pc_ok; simpl. rewrite fupd_eq. split_and!; done || lia.
  - eexists _, _. apply inv_local; simpl; rewrite ?H; try done; [by left|].
    unfold pc_ok; simpl. rewrite fupd_eq. apply Hpc.
  - eexists _, _. apply inv_local; simpl; rewrite ?H; try done; [by left|].
    unfold pc_ok; simpl. rewrite fupd_eq. apply Hpc.
  - eexists _, _. apply inv_local; simpl; rewrite ?H; try done; [by left|].
    unfold pc_ok; simpl. rewrite fupd_eq. apply Hpc.
  - destruct Hpc as (Hcq & Hcur & Hst'). unfold cas_next in H0.
    destruct (next_ticket (lk s) =? current) eqn:E; [|done]. simplify_eq.
    assert (Hz : stamp = issued s).
    { apply u32_inj; [|lia]. specialize (Hwin c stamp). rewrite H in Hwin. specialize (Hwin eq_refl). zlia. }
    assert (q = []) as ->. { destruct q; [done|]. unfold zlen in Hi. simpl in Hi. lia. }
    assert (Hspin : inv ncpus (mk_sys (mk_spinlock (u32 (u32 stamp + 1)) (serve (lk s)) (guard (lk s)))
              (fupd (pcs s) c (Spinning (u32 (served s)))) (online s) (issued s + 1) (served s))
              (tr ++ [Ticket c]) ([] ++ [c]) out).
    { apply inv_ticket; simpl; rewrite ?H; try done; [f_equal; lia|].
      unfold pc_ok; simpl. rewrite fupd_eq. exists O. by rewrite Z.add_0_r. }
    eapply (inv_enter _ _ _ []) in Hspin; [|simpl; by rewrite fupd_eq|done].
    exists [c], out. rewrite <- app_assoc in Hspin. unfold goto in Hspin; simpl in Hspin.
    eapply inv_ext; [exact Hspin|done..|].
    intros c'. simpl. unfold fupd. by case_if.
Qed.

(** While one CPU runs, no ticket is drawn. *)
Definition inv_single (s : sys) (tr : list event) : Prop :=
  online s <= 1 /\ tr = [] /\ next_ticket (lk s) = 0 /\ serve (lk s) = 0 /\ issued s = 0 /\ served s = 0 /\
  (forall c, c <> 0 -> pcs s c = Idle) /\
  match pcs s 0 with Idle | Entering | Leaving => True | Holding => guard (lk s) = 1 | _ => False end.

Definition inv_any (s : sys) (tr : list event) : Prop :=
  inv_single s tr \/ 1 < online s /\ exists q out, inv ncpus s tr q out.

Lemma cpu_step_online s c evs s' : cpu_step s c evs s' -> online s' = online s.
Proof. by destruct 1. Qed.

Lemma inv_single_step s evs s' : inv_single s [] -> orderly s s' -> online s <= 1 ->
  cpu_step s 0 evs s' -> inv_single s' ([] ++ evs).
Proof.
  intros (Ho & _ & Hn & Hs & Hi & Hsv & Hidle & Hp) Hok Hle Hst.
  pose proof (cpu_step_online _ _ _ _ Hst) as Hon.
  pose proof (no_early_try _ _ Hok ltac:(lia) 0) as Htry.
  assert (Hlocal : forall l p, next_ticket l = 0 -> serve l = 0 ->
    match p with Idle | Entering | Leaving => True | Holding => guard l = 1 | _ => False end ->
    inv_single (mk_sys l (fupd (pcs s) 0 p) (online s) (issued s) (served s)) []).
  { intros l p H1 H2 H3. unfold inv_single; simpl. rewrite fupd_eq. split_and!; try done.
    intros c Hc. rewrite fupd_ne by done. auto. }
  inversion Hst; subst; try lia; match goal with H : pcs _ 0 = _ |- _ => rewrite H in Hp end;
    simpl in *; try done; try by apply Hlocal.
Qed.

(** The second CPU comes up while no CPU uses the lock. *)
Lemma inv_switch s s' : inv_single s [] -> (forall c, pcs s c = Idle) ->
  lk s' = lk s -> pcs s' = pcs s -> issued s' = issued s -> served s' = served s -> inv ncpus s' [] [] [].
Proof.
  intros (_ & _ & Hn & Hs & Hi & Hsv & _) Hidle E1 E2 E3 E4. unfold inv, entered_ok.
  rewrite E1, E2, E3, E4, Hn, Hs, Hi, Hsv. split_and!; try done; [apply NoDup_nil_2| |].
  - left. split; [done|]. intros c. by rewrite Hidle.
  - intros c. unfold pc_ok. rewrite E2, Hidle. apply not_elem_of_nil.
Qed.

Lemma inv_any_step s tr evs s' : inv_any s tr -> sys_step ncpus s evs s' -> orderly s s' -> inv_any s' (tr ++ evs).
Proof.
  intros [Hsg|[Hon (q & out & Hinv)]] Hst Hok; destruct Hst as [c evs s' Hc Hrun Hst|].
  - pose proof Hsg as (Ho & -> & _). left. destruct Hrun as [-> |]; [|lia]. by apply inv_single_step with s.
  - pose proof Hsg as (Ho & -> & H3). destruct (Z.leb_spec (online s + 1) 1) as [Hle|Hgt].
    + left. split; [done|]. split; [done|]. apply H3.
    + right. split; [done|]. exists [], []. apply (inv_switch s); try done. by apply (quiet_switch _ _ Hok).
  - right. rewrite (cpu_step_online _ _ _ _ Hst). split; [done|]. eapply inv_step; try done. apply (prompt _ _ Hok).
  - right. split; [simpl; lia|]. exists q, out. rewrite app_nil_r. by apply (inv_ext s).
Qed.

Lemma reachable_inv s tr : reachable orderly ncpus s tr -> inv_any s tr.
Proof.
  induction 1 as [|s tr evs s' _ IH Hst Hok]; [|by eapply inv_any_step].
  left. unfold inv_single; simpl. split_and!; done || lia.
Qed.

End Proofs.

(** ** Properties *)

(** C8: mutual exclusion.  In every orderly interleaving of lock, unlock and
    trylock by up to 2^32 - 1 CPUs, from the boot of the first one through any
    number of wrap-arounds of the 32-bit ticket counters, no two CPUs are between
    obtaining and releasing the lock; the guard is set while a CPU holds it, and
    with more than one CPU online [xaios_spin_held] answers true.  Orderly means
    that the lock is not in use when the second CPU comes up, that trylock is not
    called before that, and that fewer than 2^32 tickets are drawn during one
    trylock call. *)
Theorem spin_mutual_exclusion (ncpus : Z) (s : sys) (tr : list event) (a b : Z) :
  0 < ncpus < 4294967296 -> reachable orderly ncpus s tr ->
  critical (pcs s a) = true -> critical (pcs s b) = true ->
  a = b /\ (1 < online s -> xaios_spin_held (lk s) = true) /\ (pcs s a = Holding -> guard (lk s) = 1).
Proof.
  intros Hn Hr Ha Hb.
  destruct (reachable_inv _ Hn _ _ Hr) as [(Ho & _ & _ & _ & _ & _ & Hidle & Hp)|[_ (q & out & Hinv)]].
  { destruct (decide (a = 0)) as [->|]; [|by rewrite Hidle in Ha].
    destruct (decide (b = 0)) as [->|]; [|by rewrite Hidle in Hb].
    split; [done|]. split; [lia|]. intros Hh. by rewrite Hh in Hp. }
  destruct Hinv as (H1 & H2 & Hi & Hnd & Hbd & _ & _ & Hp).
  pose proof (critical_head _ _ _ (Hp a) Ha) as Hqa.
  pose proof (critical_head _ _ _ (Hp b) Hb) as Hqb.
  split; [congruence|]. split.
  - intros _. unfold xaios_spin_held. rewrite H1, H2. apply negb_true_iff, Z.eqb_neq. intros He.
    pose proof (queue_bound _ Hn q Hnd Hbd). apply lookup_lt_Some in Hqa.
    apply u32_inj in He; zlia.
  - intros Hh. specialize (Hp a). unfold pc_ok in Hp. rewrite Hh in Hp. apply Hp.
Qed.

(** Concrete runs, for the witnesses. *)
Lemma orderly_idle s s' : (forall c, pcs s c = Idle) -> (forall c, trying (pcs s' c) = None) -> orderly s s'.
Proof. intros H1 H2. split; [intros c st; by rewrite H1|done|done]. Qed.

Lemma orderly_multi s s' : (forall c, trying (pcs s c) = None) -> 1 < online s -> 1 < online s' -> orderly s s'.
Proof. intros H1 H2 H3. split; [intros c st; by rewrite H1|lia|lia]. Qed.

Definition two_online : sys := mk_sys xaios_spin_init (fun _ => Idle) 2 0 0.

Lemma two_online_reachable ncpus : reachable orderly ncpus two_online [].
Proof.
  apply (ReachStep _ _ (mk_sys xaios_spin_init (fun _ => Idle) 1 0 0) [] []); [|apply SysOnline|by apply orderly_idle].
  apply (ReachStep _ _ sys_init [] []); [apply ReachInit|apply SysOnline|by apply orderly_idle].
Qed.

Definition waiting : sys := mk_sys (mk_spinlock 1 0 0) (fupd (fun _ => Idle) 3 (Spinning 0)) 2 1 0.

Lemma waiting_reachable : reachable orderly 256 waiting [Ticket 3].
Proof.
  apply (ReachStep _ _ two_online [] [Ticket 3]); [apply two_online_reachable| |by apply orderly_multi].
  apply (SysCpu _ _ 3); [lia|right; done|by constructor].
Qed.

(** CPU 5 waits while CPU 3 holds the lock. *)
Definition contended : sys :=
  mk_sys (mk_spinlock 2 0 1) (fupd (fupd (fupd (fupd (fun _ => Idle) 3 (Spinning 0)) 3 Entering) 5 (Spinning 1)) 3 Holding) 2 2 0.

Lemma contended_reachable : reachable orderly 256 contended [Ticket 3; Enter 3; Ticket 5].
Proof.
  assert (Hno : forall f : Z -> pc, f = fupd (fupd (fun _ => Idle) 3 (Spinning 0)) 3 Entering \/ f = fupd (fupd (fupd (fun _ => Idle) 3 (Spinning 0)) 3 Entering) 5 (Spinning 1) ->
    forall c, trying (f c) = None). { intros f Hf c. destruct Hf as [-> | ->]; unfold fupd; repeat case_if; done. }
  eapply (ReachStep _ _ (mk_sys (mk_spinlock 2 0 0) (fupd (fupd (fupd (fun _ => Idle) 3 (Spinning 0)) 3 Entering) 5 (Spinning 1)) 2 2 0) [Ticket 3; Enter 3; Ticket 5] []);
    [|apply (SysCpu _ _ 3); [lia|right; done|by apply StGuard]|apply orderly_multi; [apply Hno; auto|done|done]].
  eapply (ReachStep _ _ (mk_sys (mk_spinlock 1 0 0) (fupd (fupd (fun _ => Idle) 3 (Spinning 0)) 3 Entering) 2 1 0) [Ticket 3; Enter 3] [Ticket 5]);
    [|apply (SysCpu _ _ 5); [lia|right; done|by constructor]|apply orderly_multi; [apply Hno; auto|done|done]].
  eapply (ReachStep _ _ waiting [Ticket 3] [Enter 3]); [apply waiting_reachable|apply (SysCpu _ _ 3); [lia|right; done|exact (StEnter waiting 3 0 eq_refl eq_refl)]|].
  apply orderly_multi; [|done|done]. intros c. unfold waiting, fupd; simpl. by case_if.
Qed.

Lemma spin_mutual_exclusion_witness :
  3 = 3 /\ (1 < online contended -> xaios_spin_held (lk contended) = true) /\ (pcs contended 3 = Holding -> guard (lk contended) = 1).
Proof.
  apply (spin_mutual_exclusion 256 contended [Ticket 3; Enter 3; Ticket 5] 3 3); [lia|exact contended_reachable|reflexivity..].
Defined.

(** C40: fairness.  In every orderly run CPUs enter in the order in which they
    drew their tickets: the sequence of entries is a prefix of the sequence of
    tickets.  And whenever some ticket has not been served and nobody is inside, a
    waiting CPU's next load of [serve] lets it in, so the lock is never stuck. *)
Theorem spin_fifo_progress (ncpus : Z) (s : sys) (tr : list event) :
  0 < ncpus < 4294967296 -> reachable orderly ncpus s tr ->
  enters tr `prefix_of` tickets tr /\
  (enters tr <> tickets tr -> (forall c, critical (pcs s c) = false) ->
   exists c t, 0 <= c < ncpus /\ pcs s c = Spinning t /\ serve (lk s) = t).
Proof.
  intros Hn Hr. destruct (reachable_inv _ Hn _ _ Hr) as [(_ & -> & _)|[_ (q & out & Hinv)]]; [done|].
  destruct Hinv as (H1 & H2 & Hi & Hnd & Hbd & -> & He & Hp).
  split.
  - destruct He as [[-> _]|(h & q' & -> & -> & _)]; [by apply prefix_app_r|].
    exists q'. by rewrite <- app_assoc.
  - intros Hne Hnone.
    destruct He as [[He _]|(h & q' & -> & _ & Hh)]; [|by rewrite Hnone in Hh].
    destruct q as [|c q']; [by rewrite He, app_nil_r in Hne|].
    exists c. specialize (Hp c). specialize (Hnone c). unfold pc_ok in Hp.
    apply Forall_cons in Hbd as [Hc _].
    destruct (pcs s c) eqn:E; try done; try set_solver.
    destruct Hp as (i & Hq & ->). exists (u32 (served s + Z.of_nat i)).
    split; [done|]. split; [done|].
    assert (i = O) as -> by (eapply NoDup_lookup; [exact Hnd|exact Hq|done]).
    by rewrite Z.add_0_r.
Qed.

Lemma spin_fifo_progress_witness : exists c t, 0 <= c < 256 /\ pcs waiting c = Spinning t /\ serve (lk waiting) = t.
Proof.
  apply (spin_fifo_progress 256 waiting [Ticket 3]).
  - lia.
  - exact waiting_reachable.
  - discriminate.
  - intros c. unfold waiting, fupd; simpl. by destruct (c =? 3).
Defined.

(** The single-CPU path and the ticket path do not mix: a free lock taken while
    one CPU is online and released after a second CPU came up leaves [serve] ahead
    of [next_ticket], so the lock reads as held and the next ticket is not the one
    being served. *)
Lemma spin_mode_switch_strands (l : xaios_spinlock) :
  next_ticket l = serve l -> 0 <= serve l < 4294967296 ->
  let held := xaios_spin_lock_single l in
  let released := store_serve (set_guard held 0) (serve held + 1) in
  xaios_spin_held released = true /\
  serve released <> snd (fetch_and_add_next released).
Proof.
  intros He Hs. unfold xaios_spin_held; simpl. rewrite He.
  assert (u32 (serve l + 1) <> serve l) by (unfold u32; intros Hm;
    pose proof (Z.div_mod (serve l + 1) 4294967296 ltac:(lia)); lia).
  split; [by apply negb_true_iff, Z.eqb_neq|done].
Qed.

(** ** Runs that are not orderly *)

(** While one CPU is online, trylock draws a ticket that unlock does not serve:
    after one trylock and unlock every further trylock fails. *)
Lemma spin_single_trylock_strands :
  exists s, reachable (fun _ _ => True) 1 s [Ticket 0; Enter 0] /\ pcs s 0 = Idle /\ online s = 1 /\
    serve (lk s) = 0 /\ next_ticket (lk s) = 1.
Proof.
  set (s1 := mk_sys xaios_spin_init (fun _ => Idle) 1 0 0). set (s2 := goto s1 0 (TryServe 0 0)). set (s3 := goto s2 0 (TryCas 0 0)).
  set (s4 := mk_sys (mk_spinlock 1 0 0) (fupd (pcs s3) 0 Entering) 1 1 0).
  set (s5 := mk_sys (mk_spinlock 1 0 1) (fupd (pcs s4) 0 Holding) 1 1 0).
  set (s6 := mk_sys (mk_spinlock 1 0 0) (fupd (pcs s5) 0 Leaving) 1 1 0).
  assert (H1 : reachable (fun _ _ => True) 1 s1 []) by (apply (ReachStep _ _ sys_init [] []); [apply ReachInit|apply SysOnline|done]).
  assert (Hcpu : forall s tr evs s', reachable (fun _ _ => True) 1 s tr -> cpu_step s 0 evs s' -> reachable (fun _ _ => True) 1 s' (tr ++ evs)).
  { intros s tr evs s' Hr Hs. eapply ReachStep; [exact Hr|apply (SysCpu _ _ 0); [lia|by left|exact Hs]|done]. }
  assert (H2 := Hcpu s1 _ _ s2 H1 (StTryServe s1 0 eq_refl)). assert (H3 := Hcpu s2 _ _ s3 H2 (StTryNext s2 0 0 0 eq_refl eq_refl)).
  assert (H4 := Hcpu s3 _ _ s4 H3 (StTryWin s3 0 0 0 _ eq_refl eq_refl)). assert (H5 := Hcpu s4 _ _ s5 H4 (StGuard s4 0 eq_refl)).
  assert (H6 := Hcpu s5 _ _ s6 H5 (StUnguard s5 0 eq_refl)). assert (H7 := Hcpu s6 _ _ _ H6 (StLeaveSingle s6 0 eq_refl ltac:(simpl; lia))).
  eexists. split; [exact H7|done].
Qed.

(** A state between two uses of the lock by CPU 0, after [k] of them, while the
    trylock of CPU 1 is still about to compare. *)
Definition overtaken (k : Z) (s : sys) : Prop :=
  lk s = mk_spinlock (u32 k) (u32 k) 0 /\ online s = 2 /\ pcs s 0 = Idle /\ pcs s 1 = TryCas 0 0 /\ pcs s 2 = Idle.

Definition any_run (s : sys) : Prop := exists tr, reachable (fun _ _ => True) 3 s tr.

Lemma any_run_step s c evs s' : any_run s -> 0 <= c < 3 -> 1 < online s -> cpu_step s c evs s' -> any_run s'.
Proof. intros [tr Hr] Hc Ho Hs. eexists. eapply ReachStep; [exact Hr|by apply (SysCpu _ _ c); [|right|]|done]. Qed.

(** CPU [c] draws a ticket and is let in at once. *)
Lemma enter_free k s c : overtaken k s -> any_run s -> c = 0 \/ c = 2 ->
  exists s', any_run s' /\ lk s' = mk_spinlock (u32 (k + 1)) (u32 k) 0 /\ online s' = 2 /\ pcs s' = fupd (fupd (pcs s) c (Spinning (u32 k))) c Entering.
Proof.
  intros (Hl & Ho & H0 & H1 & H2) Hr Hc.
  assert (Hi : pcs s c = Idle) by (destruct Hc as [-> | ->]; done).
  eapply (any_run_step s c) in Hr; [|lia|lia|eapply StTicket; [done|lia|by rewrite Hl]].
  eapply (any_run_step _ c) in Hr; [|lia|simpl; lia|eapply StEnter; [simpl; apply fupd_eq|done]].
  eexists. split; [exact Hr|]. simpl. unfold u32. by rewrite Zplus_mod_idemp_l.
Qed.

Lemma overtake_once k s : overtaken k s -> any_run s -> exists s', overtaken (k + 1) s' /\ any_run s'.
Proof.
  intros Hk Hr. destruct (enter_free k s 0 Hk Hr) as (s1 & H1 & Hl & Ho & Hp); [by left|]. destruct Hk as (_ & _ & _ & K1 & K2).
  eapply (any_run_step s1 0) in H1; [|lia|lia|eapply StGuard; by rewrite Hp, fupd_eq].
  eapply (any_run_step _ 0) in H1; [|lia|simpl; lia|eapply StUnguard; simpl; apply fupd_eq].
  eapply (any_run_step _ 0) in H1; [|lia|simpl; lia|eapply StLoadServe; [simpl; apply fupd_eq|simpl; lia]].
  eapply (any_run_step _ 0) in H1; [|lia|simpl; lia|eapply StRelease; simpl; apply fupd_eq].
  eexists. split; [|exact H1]. unfold overtaken; simpl. rewrite Hl, Ho, Hp. simpl.
  rewrite ?fupd_eq, ?(fupd_ne _ 0) by lia. unfold store_serve, u32; simpl. by rewrite Zplus_mod_idemp_l.
Qed.

(** A trylock call that is overtaken by 2^32 tickets between its two loads and its
    compare-and-swap takes a lock that another CPU holds. *)
Lemma spin_trylock_aba : exists s, any_run s /\ critical (pcs s 1) = true /\ critical (pcs s 2) = true.
Proof.
  assert (Hmany : forall k, 0 <= k -> exists s, overtaken k s /\ any_run s).
  { apply natlike_ind; [|intros k _ (s & Hs & Hr); by eapply overtake_once].
    assert (Hr : any_run two_online).
    { exists []. apply (ReachStep _ _ (mk_sys xaios_spin_init (fun _ => Idle) 1 0 0) [] []); [|apply SysOnline|done].
      apply (ReachStep _ _ sys_init [] []); [apply ReachInit|apply SysOnline|done]. }
    eapply (any_run_step _ 1) in Hr; [|lia|simpl; lia|by apply StTryServe].
    eapply (any_run_step _ 1) in Hr; [|lia|simpl; lia|by eapply StTryNext].
    eexists. split; [|exact Hr]. done. }
  destruct (Hmany 4294967295) as (s & Hs & Hr); [lia|]. pose proof Hs as (_ & _ & _ & K1 & _).
  destruct (enter_free _ s 2 Hs Hr) as (s1 & H1 & Hl & Ho & Hp); [by right|].
  assert (Hc : pcs s1 1 = TryCas 0 0) by (by rewrite Hp, !fupd_ne by lia).
  eapply (any_run_step s1 1) in H1; [|lia|lia|eapply StTryWin; [exact Hc|by rewrite Hl]].
  eexists. split; [exact H1|]. simpl. rewrite Hp. done.
Qed.

End Spinlock.
