(* ===== verification/SocketBuffer.v ===== *)
(** * Socket buffers (kernel/net/socket_buffer.c, include/xaios/socket_buffer.h)

    The circular byte buffer used for socket I/O and the fixed pool it is
    allocated from.  [socket_buffer] keeps the array, the write position
    [head], the read position [tail] and [count].  The abstract specification
    is a bounded FIFO byte queue; [contents] is the abstraction function, and
    [sockbuf_simulates_fifo] the refinement over arbitrary operation
    sequences.  NULL arguments are [None].  The pool is a list of 32 entries;
    a buffer pointer is its pool index. *)

From S2P Require Import Prelude.

Module SocketBuffer.

Definition SOCKET_BUFFER_SIZE : Z := 4096.
Definition SOCKET_BUFFER_COUNT : Z := 32.

Record socket_buffer := mk_socket_buffer {
  sb_data : list Z;
  sb_head : Z;
  sb_tail : Z;
  sb_count : Z
}.

#[global] Instance socket_buffer_inhabited : Inhabited socket_buffer :=
  populate (mk_socket_buffer [] 0 0 0).

Definition sockbuf_init (buf : option socket_buffer) : option socket_buffer :=
  match buf with
  | None => None
  | Some b => Some (mk_socket_buffer (sb_data b) 0 0 0)
  end.

(** One iteration of the copy loop of [sockbuf_write]. *)
Definition put_byte (x : Z) (b : socket_buffer) : socket_buffer :=
  mk_socket_buffer ((sb_data b).[sb_head b <- x])
    ((sb_head b + 1) mod SOCKET_BUFFER_SIZE) (sb_tail b) (sb_count b).

Definition sockbuf_write (buf : option socket_buffer) (data : option (list Z))
    (len : Z) : option socket_buffer * Z :=
  match buf, data with
  | Some b, Some d =>
      if len =? 0 then (buf, 0) else
      let space := u32 (SOCKET_BUFFER_SIZE - sb_count b) in
      let to_write := if len <? space then len else space in
      let b' := for_range (Z.to_nat to_write) 0 (fun i b => put_byte (d.[i]) b) b in
      (Some (mk_socket_buffer (sb_data b') (sb_head b') (sb_tail b')
               (u32 (sb_count b' + to_write))), to_write)
  | _, _ => (buf, 0)
  end.

(** One iteration of the copy loop of [sockbuf_read], with the destination. *)
Definition take_byte (i : Z) (s : list Z * socket_buffer) : list Z * socket_buffer :=
  let '(dst, b) := s in
  (dst.[i <- (sb_data b).[sb_tail b]],
   mk_socket_buffer (sb_data b) (sb_head b)
     ((sb_tail b + 1) mod SOCKET_BUFFER_SIZE) (sb_count b)).

Definition sockbuf_read (buf : option socket_buffer) (data : option (list Z))
    (len : Z) : option socket_buffer * option (list Z) * Z :=
  match buf, data with
  | Some b, Some dst =>
      if len =? 0 then (buf, data, 0) else
      let to_read := if len <? sb_count b then len else sb_count b in
      let '(dst', b') := for_range (Z.to_nat to_read) 0 take_byte (dst, b) in
      (Some (mk_socket_buffer (sb_data b') (sb_head b') (sb_tail b')
               (u32 (sb_count b' - to_read))), Some dst', to_read)
  | _, _ => (buf, data, 0)
  end.

Definition sockbuf_available (buf : option socket_buffer) : Z :=
  match buf with None => 0 | Some b => u32 (SOCKET_BUFFER_SIZE - sb_count b) end.

Definition sockbuf_used (buf : option socket_buffer) : Z :=
  match buf with None => 0 | Some b => sb_count b end.

(** ** The pool *)

Record sockbuf_pool_entry := mk_pool_entry { pe_buf : socket_buffer; pe_in_use : Z }.

#[global] Instance pool_entry_inhabited : Inhabited sockbuf_pool_entry :=
  populate (mk_pool_entry inhabitant 0).

Definition reset_buf (b : socket_buffer) : socket_buffer :=
  mk_socket_buffer (sb_data b) 0 0 0.

Definition sockbuf_pool_init (pool : list sockbuf_pool_entry) : list sockbuf_pool_entry :=
  (fun e => mk_pool_entry (reset_buf (pe_buf e)) 0) <$> pool.

Definition sockbuf_alloc (pool : list sockbuf_pool_entry)
    : list sockbuf_pool_entry * option Z :=
  match find_idx (fun e => pe_in_use e =? 0) pool with
  | Some i =>
      (upd pool (Z.of_nat i) (fun e => mk_pool_entry (reset_buf (pe_buf e)) 1),
       Some (Z.of_nat i))
  | None => (pool, None)
  end.

Definition sockbuf_free (pool : list sockbuf_pool_entry) (p : option Z)
    : list sockbuf_pool_entry :=
  match p with
  | None => pool
  | Some i =>
      if (0 <=? i) && (i <? zlen pool)
      then upd pool i (fun e => mk_pool_entry (reset_buf (pe_buf e)) 0)
      else pool
  end.

(** ** Abstract specification: a bounded FIFO of bytes *)

Inductive sb_op :=
| SbWrite (bytes : list Z)
| SbRead (dst : list Z).

Inductive sb_out :=
| SbWritten (n : Z)
| SbGot (dst : list Z) (n : Z).

Definition fifo_step (q : list Z) (op : sb_op) : list Z * sb_out :=
  match op with
  | SbWrite bytes =>
      let n := Z.min (zlen bytes) (SOCKET_BUFFER_SIZE - zlen q) in
      (q ++ take (Z.to_nat n) bytes, SbWritten n)
  | SbRead dst =>
      let n := Z.min (zlen dst) (zlen q) in
      (drop (Z.to_nat n) q,
       SbGot (take (Z.to_nat n) q ++ drop (Z.to_nat n) dst) n)
  end.

Definition sb_step (b : socket_buffer) (op : sb_op) : socket_buffer * sb_out :=
  match op with
  | SbWrite bytes =>
      let '(b', n) := sockbuf_write (Some b) (Some bytes) (zlen bytes) in
      (default b b', SbWritten n)
  | SbRead dst =>
      let '(b', dst', n) := sockbuf_read (Some b) (Some dst) (zlen dst) in
      (default b b', SbGot (default dst dst') n)
  end.

Fixpoint run {S} (step : S -> sb_op -> S * sb_out) (s : S) (ops : list sb_op)
    : S * list sb_out :=
  match ops with
  | [] => (s, [])
  | op :: ops' =>
      let '(s1, o) := step s op in
      let '(s2, os) := run step s1 ops' in
      (s2, o :: os)
  end.

(** The bytes stored, oldest first. *)
Definition window (data : list Z) (tail n : Z) : list Z :=
  (fun i => data.[(tail + i) mod SOCKET_BUFFER_SIZE]) <$> seqZ 0 n.

Definition contents (b : socket_buffer) : list Z :=
  window (sb_data b) (sb_tail b) (sb_count b).

(** Representation invariant of the ring. *)
Definition wf (b : socket_buffer) : Prop :=
  zlen (sb_data b) = SOCKET_BUFFER_SIZE /\
  0 <= sb_tail b < SOCKET_BUFFER_SIZE /\
  0 <= sb_count b <= SOCKET_BUFFER_SIZE /\
  sb_head b = (sb_tail b + sb_count b) mod SOCKET_BUFFER_SIZE.

(** Operations whose length argument is a [uint32_t]. *)
Definition op_ok (op : sb_op) : Prop :=
  match op with SbWrite l | SbRead l => zlen l < 4294967296 end.

(** ** Lemmas *)

Lemma zlen_window d t n : 0 <= n -> zlen (window d t n) = n.
Proof. intros. unfold window, zlen. rewrite length_fmap, length_seqZ. lia. Qed.

Lemma lookup_window d t n i :
  0 <= n -> window d t n !! i =
  if decide (Z.of_nat i < n) then Some (d.[(t + Z.of_nat i) mod SOCKET_BUFFER_SIZE]) else None.
Proof.
  intros. unfold window. rewrite list_lookup_fmap. destruct (decide _).
  - rewrite lookup_seqZ_lt by lia. simpl. by rewrite Z.add_0_l.
  - by rewrite lookup_seqZ_ge by lia.
Qed.

Lemma ring_slot_ne t i n :
  0 <= i < n -> n < SOCKET_BUFFER_SIZE ->
  (t + n) mod SOCKET_BUFFER_SIZE <> (t + i) mod SOCKET_BUFFER_SIZE.
Proof.
  unfold SOCKET_BUFFER_SIZE. intros Hi Hn Heq.
  pose proof (Z.div_mod (t + n) 4096 ltac:(lia)).
  pose proof (Z.div_mod (t + i) 4096 ltac:(lia)). lia.
Qed.

(** Writing at the head position extends the window by one byte. *)
Lemma window_snoc d t n x :
  zlen d = SOCKET_BUFFER_SIZE -> 0 <= n < SOCKET_BUFFER_SIZE ->
  window (d.[(t + n) mod SOCKET_BUFFER_SIZE <- x]) t (n + 1) = window d t n ++ [x].
Proof.
  intros Hd Hn.
  assert (Hm : forall z, 0 <= z mod SOCKET_BUFFER_SIZE < SOCKET_BUFFER_SIZE)
    by (intros; apply Z.mod_pos_bound; done).
  apply list_eq. intros i. rewrite lookup_window by lia.
  destruct (decide (Z.of_nat i < n)).
  - rewrite decide_True by lia.
    rewrite lookup_app_l by (pose proof (zlen_window d t n); zlia).
    rewrite lookup_window, decide_True by lia. f_equal.
    apply arr_get_set_ne; [apply Hm|apply Hm|]. apply ring_slot_ne; lia.
  - rewrite lookup_app_r by (pose proof (zlen_window d t n); zlia).
    destruct (decide (Z.of_nat i = n)) as [<-|].
    + rewrite decide_True by lia. rewrite arr_get_set_eq by (rewrite Hd; apply Hm).
      replace (i - _)%nat with O by (pose proof (zlen_window d t (Z.of_nat i)); zlia). done.
    + rewrite decide_False by lia. symmetry. apply lookup_ge_None.
      pose proof (zlen_window d t n). simpl. zlia.
Qed.

(** Advancing the tail drops the oldest bytes. *)
Lemma window_drop d t n k :
  0 <= k <= n -> window d ((t + k) mod SOCKET_BUFFER_SIZE) (n - k) =
  drop (Z.to_nat k) (window d t n).
Proof.
  intros Hk. apply list_eq. intros i.
  rewrite lookup_drop, !lookup_window by lia.
  destruct (decide (Z.of_nat i < n - k)).
  - rewrite decide_True by lia. do 2 f_equal.
    rewrite Zplus_mod_idemp_l. do 2 f_equal. lia.
  - by rewrite decide_False by lia.
Qed.

Lemma take_snoc_get (d : list Z) j :
  0 <= j < zlen d -> take (Z.to_nat (j + 1)) d = take (Z.to_nat j) d ++ [d.[j]].
Proof.
  intros. replace (Z.to_nat (j + 1)) with (S (Z.to_nat j)) by lia.
  apply take_S_r. by apply arr_lookup.
Qed.

(** The copy loop of [sockbuf_write]. *)
Lemma write_loop_spec d b n :
  wf b -> 0 <= n -> n <= zlen d -> n <= SOCKET_BUFFER_SIZE - sb_count b ->
  let b' := for_range (Z.to_nat n) 0 (fun i b => put_byte (d.[i]) b) b in
  zlen (sb_data b') = SOCKET_BUFFER_SIZE /\ sb_tail b' = sb_tail b /\
  sb_count b' = sb_count b /\
  sb_head b' = (sb_tail b + (sb_count b + n)) mod SOCKET_BUFFER_SIZE /\
  window (sb_data b') (sb_tail b) (sb_count b + n) = contents b ++ take (Z.to_nat n) d.
Proof.
  intros (Hd & Ht & Hc & Hh) Hn Hlen Hroom. cbv zeta.
  pose (P := fun j b' =>
    zlen (sb_data b') = SOCKET_BUFFER_SIZE /\ sb_tail b' = sb_tail b /\
    sb_count b' = sb_count b /\
    sb_head b' = (sb_tail b + (sb_count b + j)) mod SOCKET_BUFFER_SIZE /\
    window (sb_data b') (sb_tail b) (sb_count b + j) = contents b ++ take (Z.to_nat j) d).
  assert (H : P (0 + Z.of_nat (Z.to_nat n))
                (for_range (Z.to_nat n) 0 (fun i b => put_byte (d.[i]) b) b)).
  2:{ rewrite Z.add_0_l, Z2Nat.id in H by lia. apply H. }
  apply (for_range_ind P).
  - unfold P. rewrite !Z.add_0_r. simpl. rewrite app_nil_r. repeat split; done || lia.
  - intros j t Hj (Hd' & Ht' & Hc' & Hh' & Hw). unfold P, put_byte; simpl.
    rewrite zlen_set, Hh', Zplus_mod_idemp_l. repeat split; [done|done|done|f_equal; lia|].
    replace (sb_count b + (j + 1)) with ((sb_count b + j) + 1) by lia.
    rewrite window_snoc, Hw, take_snoc_get, app_assoc by (done || lia). done.
Qed.

(** The copy loop of [sockbuf_read]. *)
Lemma read_loop_spec dst b n :
  wf b -> 0 <= n <= sb_count b -> n <= zlen dst ->
  for_range (Z.to_nat n) 0 take_byte (dst, b) =
  (take (Z.to_nat n) (contents b) ++ drop (Z.to_nat n) dst,
   mk_socket_buffer (sb_data b) (sb_head b)
     ((sb_tail b + n) mod SOCKET_BUFFER_SIZE) (sb_count b)).
Proof.
  intros (Hd & Ht & Hc & Hh) Hn Hlen.
  pose (P := fun j (s : list Z * socket_buffer) =>
    s = (take (Z.to_nat j) (contents b) ++ drop (Z.to_nat j) dst,
         mk_socket_buffer (sb_data b) (sb_head b)
           ((sb_tail b + j) mod SOCKET_BUFFER_SIZE) (sb_count b))).
  assert (H : P (0 + Z.of_nat (Z.to_nat n)) (for_range (Z.to_nat n) 0 take_byte (dst, b))).
  2:{ rewrite Z.add_0_l, Z2Nat.id in H by lia. apply H. }
  apply (for_range_ind P).
  - unfold P. simpl. rewrite drop_0, Z.add_0_r, Z.mod_small by lia. by destruct b.
  - intros j s Hj ->. unfold P, take_byte; simpl.
    rewrite Zplus_mod_idemp_l. f_equal; [|do 2 f_equal; lia].
    assert (Hz : zlen (contents b) = sb_count b) by (apply zlen_window; lia).
    rewrite take_snoc_get by lia.
    replace (contents b).[j] with ((sb_data b).[(sb_tail b + j) mod SOCKET_BUFFER_SIZE]).
    2:{ symmetry. apply list_lookup_total_correct. unfold contents.
        rewrite lookup_window, decide_True by lia. by rewrite Z2Nat.id by lia. }
    rewrite <- app_assoc. rewrite insert_app_r_alt by (rewrite length_take; zlia).
    f_equal. rewrite length_take_le by zlia. rewrite Nat.sub_diag.
    assert (Hl : (Z.to_nat j < length dst)%nat) by zlia.
    destruct (lookup_lt_is_Some_2 dst (Z.to_nat j) Hl) as [y Hy].
    rewrite (drop_S _ _ _ Hy). simpl. do 2 f_equal. lia.
Qed.

(** A write stores as many bytes as fit, a read takes as many as there are. *)
Lemma sockbuf_write_ok b d len :
  wf b -> 0 <= len <= zlen d -> len < 4294967296 ->
  let n := Z.min len (SOCKET_BUFFER_SIZE - sb_count b) in
  exists c, sockbuf_write (Some b) (Some d) len = (Some c, n) /\ wf c /\
    sb_count c = sb_count b + n /\ contents c = contents b ++ take (Z.to_nat n) d.
Proof.
  intros Hwf Hlen Hmax n. pose proof Hwf as (Hd & Ht & Hc & Hh). unfold sockbuf_write.
  destruct (Z.eqb_spec len 0) as [->|H0].
  { exists b. replace n with 0 by lia. simpl. rewrite app_nil_r. split_and!; (done || lia). }
  rewrite (u32_small (SOCKET_BUFFER_SIZE - _)) by (unfold SOCKET_BUFFER_SIZE in *; lia). cbv zeta.
  replace (if len <? _ then _ else _) with n by (unfold n; case_if; lia).
  destruct (write_loop_spec d b n Hwf) as (H1 & H2 & H3 & H4 & H5); [lia..|].
  eexists. split; [done|].
  assert (Hu : u32 (sb_count b + n) = sb_count b + n)
    by (apply u32_small; unfold SOCKET_BUFFER_SIZE in *; lia).
  unfold wf, contents; simpl. rewrite H2, H3, Hu, H5. repeat split; [done|lia..|done].
Qed.

Lemma sockbuf_read_ok b dst len :
  wf b -> 0 <= len <= zlen dst -> len < 4294967296 ->
  let n := Z.min len (sb_count b) in
  exists c, sockbuf_read (Some b) (Some dst) len =
      (Some c, Some (take (Z.to_nat n) (contents b) ++ drop (Z.to_nat n) dst), n) /\ wf c /\
    sb_count c = sb_count b - n /\ contents c = drop (Z.to_nat n) (contents b).
Proof.
  intros Hwf Hlen Hmax n. pose proof Hwf as (Hd & Ht & Hc & Hh). unfold sockbuf_read.
  destruct (Z.eqb_spec len 0) as [->|H0].
  { exists b. replace n with 0 by lia. simpl. rewrite !drop_0. split_and!; (done || lia). }
  cbv zeta. replace (if len <? _ then _ else _) with n by (unfold n; case_if; lia).
  rewrite read_loop_spec by (done || lia). eexists. split; [done|].
  assert (Hu : u32 (sb_count b - n) = sb_count b - n)
    by (apply u32_small; unfold SOCKET_BUFFER_SIZE in *; lia).
  unfold wf, contents; simpl. rewrite Hu, window_drop by lia.
  assert (Hm : sb_head b = ((sb_tail b + n) mod SOCKET_BUFFER_SIZE + (sb_count b - n)) mod SOCKET_BUFFER_SIZE)
    by (rewrite Hh, Zplus_mod_idemp_l; f_equal; lia).
  split_and!; try (done || lia); by apply Z.mod_pos_bound.
Qed.

Lemma sockbuf_write_refines b bytes :
  wf b -> zlen bytes < 4294967296 ->
  let '(b', n) := sockbuf_write (Some b) (Some bytes) (zlen bytes) in
  exists c, b' = Some c /\ wf c /\
  (contents c, SbWritten n) = fifo_step (contents b) (SbWrite bytes).
Proof.
  intros Hwf Hlen. destruct (sockbuf_write_ok b bytes (zlen bytes) Hwf) as (c & -> & Hc & _ & Hn); [zlia|done|].
  exists c. split; [done|]. split; [done|]. unfold fifo_step. rewrite Hn.
  replace (zlen (contents b)) with (sb_count b) by (symmetry; apply zlen_window; apply Hwf). done.
Qed.

Lemma sockbuf_read_refines b dst :
  wf b -> zlen dst < 4294967296 ->
  let '(b', dst', n) := sockbuf_read (Some b) (Some dst) (zlen dst) in
  exists c e, b' = Some c /\ dst' = Some e /\ wf c /\
  (contents c, SbGot e n) = fifo_step (contents b) (SbRead dst).
Proof.
  intros Hwf Hlen. destruct (sockbuf_read_ok b dst (zlen dst) Hwf) as (c & -> & Hc & _ & Hn); [zlia|done|].
  eexists c, _. split; [done|]. split; [done|]. split; [done|]. unfold fifo_step. rewrite Hn.
  replace (zlen (contents b)) with (sb_count b) by (symmetry; apply zlen_window; apply Hwf). done.
Qed.

Lemma sb_step_simulates b op :
  wf b -> op_ok op ->
  let '(b', o) := sb_step b op in wf b' /\ fifo_step (contents b) op = (contents b', o).
Proof.
  intros Hwf Hok. destruct op as [bytes|dst]; unfold sb_step.
  - pose proof (sockbuf_write_refines b bytes Hwf Hok) as H.
    destruct (sockbuf_write _ _ _) as [b' n]. destruct H as (c & -> & Hc & He).
    by rewrite <- He.
  - pose proof (sockbuf_read_refines b dst Hwf Hok) as H.
    destruct (sockbuf_read _ _ _) as [[b' d'] n].
    destruct H as (c & e & -> & -> & Hc & He). by rewrite <- He.
Qed.

Lemma wf_init d : zlen d = SOCKET_BUFFER_SIZE -> wf (mk_socket_buffer d 0 0 0).
Proof. intros. unfold wf; simpl. rewrite H. unfold SOCKET_BUFFER_SIZE. repeat split; lia || done. Qed.

(** ** Properties *)

(** C16: for every sequence of writes and reads on a well-formed ring buffer, the
    return values and the bytes delivered are exactly those of a FIFO byte queue
    bounded by [SOCKET_BUFFER_SIZE], the final ring holds the final queue, and
    the representation invariant is kept. *)
Theorem sockbuf_simulates_fifo (ops : list sb_op) (b : socket_buffer) :
  wf b -> Forall op_ok ops ->
  let '(b', outs) := run sb_step b ops in
  wf b' /\ run fifo_step (contents b) ops = (contents b', outs).
Proof.
  intros Hwf Hops. revert b Hwf.
  induction Hops as [|op ops Hop _ IH]; intros b Hwf; simpl; [done|].
  pose proof (sb_step_simulates b op Hwf Hop) as Hs.
  destruct (sb_step b op) as [b1 o]. destruct Hs as [Hwf1 ->].
  specialize (IH b1 Hwf1). destruct (run sb_step b1 ops) as [b2 os].
  by destruct IH as [Hwf2 ->].
Qed.

Lemma sockbuf_simulates_fifo_witness :
  let b := mk_socket_buffer (replicate 4096 0) 0 0 0 in
  let ops := [SbWrite [1; 2; 3]; SbRead [0; 0]; SbWrite [4]; SbRead [9; 9; 9]] in
  let '(b', outs) := run sb_step b ops in
  wf b' /\ run fifo_step (contents b) ops = (contents b', outs).
Proof.
  apply (sockbuf_simulates_fifo
           [SbWrite [1; 2; 3]; SbRead [0; 0]; SbWrite [4]; SbRead [9; 9; 9]]
           (mk_socket_buffer (replicate 4096 0) 0 0 0)).
  - apply wf_init. reflexivity.
  - repeat constructor.
Defined.

(** The pool hands out exclusive, empty buffers: allocation succeeds exactly
    when some entry is not in use, the entry it returns was not in use, is marked
    in use and has been reset to an empty ring, and every other entry is
    unchanged; freeing that pointer clears the mark, leaves the other entries
    alone and makes the pool allocatable again. *)
Theorem sockbuf_pool_exclusive (pool : list sockbuf_pool_entry) :
  (forall pool' i, sockbuf_alloc pool = (pool', Some i) ->
     0 <= i < zlen pool /\ pe_in_use (pool.[i]) = 0 /\ pe_in_use (pool'.[i]) = 1 /\
     contents (pe_buf (pool'.[i])) = [] /\ zlen pool' = zlen pool /\
     (forall j, 0 <= j -> j <> i -> pool'.[j] = pool.[j]) /\
     pe_in_use ((sockbuf_free pool' (Some i)).[i]) = 0 /\
     (forall j, 0 <= j -> j <> i -> (sockbuf_free pool' (Some i)).[j] = pool.[j])) /\
  (sockbuf_alloc pool = (pool, None) <->
     forall j, 0 <= j < zlen pool -> pe_in_use (pool.[j]) <> 0).
Proof.
  unfold sockbuf_alloc. destruct (find_idx _ pool) as [i|] eqn:Hf.
  - apply find_idx_Some_get in Hf as (Hlt & Hfree & _). apply Z.eqb_eq in Hfree.
    split; [|split; [congruence|]].
    + intros pool' k [= <- <-]. unfold sockbuf_free.
      rewrite zlen_upd. rewrite (proj2 (andb_true_iff _ _)) by (split; zlia).
      rewrite !upd_get_eq by (rewrite ?zlen_upd; zlia). simpl.
      split_and!; try (done || zlia); intros; rewrite ?upd_get_ne by zlia; done.
    + intros Hall. exfalso. apply (Hall (Z.of_nat i)); zlia.
  - split; [congruence|]. split; [intros _|done].
    intros j Hj He. pose proof (find_idx_None_get _ _ Hf j Hj) as Hn. simpl in Hn. lia.
Qed.

Lemma sockbuf_pool_exclusive_witness :
  let e := mk_pool_entry (mk_socket_buffer [] 0 0 0) in
  exists pool', sockbuf_alloc [e 1; e 0; e 1] = (pool', Some 1) /\
    pe_in_use (pool'.[1]) = 1 /\ pool'.[0] = e 1.
Proof.
  eexists. split; [reflexivity|].
  destruct (proj1 (sockbuf_pool_exclusive
    [mk_pool_entry (mk_socket_buffer [] 0 0 0) 1; mk_pool_entry (mk_socket_buffer [] 0 0 0) 0;
     mk_pool_entry (mk_socket_buffer [] 0 0 0) 1]) _ 1 eq_refl)
    as (_ & _ & H1 & _ & _ & H2 & _).
  split; [exact H1|]. apply (H2 0); lia.
Defined.

End SocketBuffer.
