(* ===== verification/Routing.v ===== *)
(** * IPv4 routing table (kernel/net/routing.c, include/xaios/routing.h)

    The fixed table of 32 entries, insertion, removal and the longest-prefix
    lookup.  Addresses and masks are 32-bit words.  The lookup's inner loop that
    counts the bits of a mask is [prefix_len]; its 32 rounds are enough because a
    mask has 32 bits ([prefix_len_done]). *)

From S2P Require Import Prelude.

Module Routing.

Definition ROUTING_TABLE_SIZE : Z := 32.
Definition XAIOS_IPV4_GUEST_IP : Z := 0x0a00020f.
Definition XAIOS_IPV4_GATEWAY : Z := 0x0a000202.

Record routing_entry := mk_route {
  dest_network : Z;
  netmask : Z;
  gateway : Z;
  active : Z
}.

#[global] Instance routing_entry_inhabited : Inhabited routing_entry :=
  populate (mk_route 0 0 0 0).

Definition zero_table : list routing_entry := replicate 32 (mk_route 0 0 0 0).

Definition routing_add (t : list routing_entry) (net mask gw : Z)
    : list routing_entry * xaios_status :=
  match find_idx (fun e => active e =? 0) t with
  | Some i => (t.[Z.of_nat i <- mk_route (Z.land net mask) mask gw 1], XAIOS_OK)
  | None => (t, XAIOS_ERR_NO_MEMORY)
  end.

Definition routing_clear (t : list routing_entry) : list routing_entry :=
  (fun _ => mk_route 0 0 0 0) <$> t.

Definition routing_init (t : list routing_entry) : list routing_entry :=
  let t0 := (fun _ => mk_route 0 0 0 0) <$> t in
  let t1 := (routing_add t0 0x0a000200 0xffffff00 0).1 in
  (routing_add t1 0 0 XAIOS_IPV4_GATEWAY).1.

(** Does an active entry cover an address? *)
Definition matches (ip : Z) (e : routing_entry) : bool :=
  negb (active e =? 0) && (Z.land ip (netmask e) =? dest_network e).

Definition routing_remove (t : list routing_entry) (ip : Z)
    : list routing_entry * xaios_status :=
  match find_idx (matches ip) t with
  | Some i =>
      (upd t (Z.of_nat i) (fun e => mk_route (dest_network e) (netmask e) (gateway e) 0), XAIOS_OK)
  | None => (t, XAIOS_ERR_NOT_FOUND)
  end.

(** [while (mask != 0) { prefix_len += mask & 1; mask >>= 1; }] *)
Fixpoint prefix_loop (fuel : nat) (mask len : Z) : Z * Z :=
  match fuel with
  | O => (mask, len)
  | S fuel' =>
      if mask =? 0 then (mask, len)
      else prefix_loop fuel' (Z.shiftr mask 1) (u32 (len + Z.land mask 1))
  end.

Definition prefix_len (mask : Z) : Z := (prefix_loop 32 mask 0).2.

Record scan := mk_scan { best_match : Z; best_prefix_len : Z; found : bool }.

Definition lookup_step (t : list routing_entry) (ip i : Z) (s : scan) : scan :=
  let e := t.[i] in
  if active e =? 0 then s else
  if Z.land ip (netmask e) =? dest_network e then
    let l := prefix_len (netmask e) in
    if (best_prefix_len s <? l) || negb (found s) then mk_scan i l true else s
  else s.

Definition routing_lookup (t : list routing_entry) (ip : Z) : Z :=
  let s := for_range (Z.to_nat ROUTING_TABLE_SIZE) 0 (lookup_step t ip)
             (mk_scan UINT32_MAX 0 false) in
  if negb (found s) then 0 else
  if gateway (t.[best_match s]) =? 0 then ip else gateway (t.[best_match s]).

(** [routing_self_test]: the conjunction of its assertions, in order. *)
Definition routing_self_test (t : list routing_entry) : bool :=
  let local_host := 0x0a000205 in
  let external := 0x08080808 in
  let '(t1, st) := routing_remove t 0x0a000200 in
  (routing_lookup t local_host =? local_host) &&
  (routing_lookup t external =? XAIOS_IPV4_GATEWAY) &&
  (routing_lookup t XAIOS_IPV4_GUEST_IP =? XAIOS_IPV4_GUEST_IP) &&
  is_ok st &&
  (routing_lookup t1 local_host =? XAIOS_IPV4_GATEWAY) &&
  (routing_lookup (routing_clear t1) external =? 0).

(** ** Specification *)

Definition next_hop (e : routing_entry) (ip : Z) : Z :=
  if gateway e =? 0 then ip else gateway e.

(** Entry [i] is the longest-prefix match for [ip], the first of its length. *)
Definition best_route (t : list routing_entry) (ip i : Z) : Prop :=
  0 <= i < zlen t /\ matches ip (t.[i]) = true /\
  forall j, 0 <= j < zlen t -> matches ip (t.[j]) = true ->
    prefix_len (netmask (t.[j])) <= prefix_len (netmask (t.[i])) /\
    (j < i -> prefix_len (netmask (t.[j])) < prefix_len (netmask (t.[i]))).

(** The netmask of an [n]-bit prefix. *)
Definition cidr_mask (n : Z) : Z := 2 ^ 32 - 2 ^ (32 - n).

(** A route as an administrator sees it: a network, the length of its prefix and
    a gateway (0 for a network that is reached directly). *)
Record route := mk_cidr { r_net : Z; r_len : Z; r_gateway : Z }.

(** The first [r_len] bits of the address are those of the network. *)
Definition covers (rt : route) (ip : Z) : Prop :=
  forall b, 32 - r_len rt <= b < 32 -> Z.testbit ip b = Z.testbit (r_net rt) b.

(** A slot of the table holds a route, or is free. *)
Definition holds (o : option route) (e : routing_entry) : Prop :=
  match o with
  | None => active e = 0
  | Some rt => active e <> 0 /\ 0 <= r_len rt <= 32 /\ netmask e = cidr_mask (r_len rt) /\
      dest_network e = Z.land (r_net rt) (cidr_mask (r_len rt)) /\ gateway e = r_gateway rt
  end.

(** The route in slot [i] covers the address, no covering route has a longer
    prefix, and no earlier one a prefix as long. *)
Definition chosen (rs : list (option route)) (ip : Z) (i : nat) (rt : route) : Prop :=
  rs !! i = Some (Some rt) /\ covers rt ip /\
  forall j rt', rs !! j = Some (Some rt') -> covers rt' ip ->
    r_len rt' <= r_len rt /\ ((j < i)%nat -> r_len rt' < r_len rt).

(** ** Lemmas *)

Lemma prefix_loop_done fuel mask len :
  0 <= mask < 2 ^ Z.of_nat fuel -> (prefix_loop fuel mask len).1 = 0.
Proof.
  revert mask len. induction fuel as [|fuel IH]; intros mask len Hm; simpl.
  { change (2 ^ Z.of_nat 0) with 1 in Hm. lia. }
  case_if; [simpl; lia|]. apply IH. rewrite Z.shiftr_div_pow2, Z.pow_1_r by lia.
  rewrite Nat2Z.inj_succ, Z.pow_succ_r in Hm by lia.
  split; [apply Z.div_pos; lia|]. apply Z.div_lt_upper_bound; lia.
Qed.

(** The 32 rounds exhaust every 32-bit mask: the loop has terminated. *)
Lemma prefix_len_done mask : 0 <= mask < 2 ^ 32 -> (prefix_loop 32 mask 0).1 = 0.
Proof. apply (prefix_loop_done 32). Qed.

Lemma prefix_len_cidr n : 0 <= n <= 32 -> prefix_len (cidr_mask n) = n.
Proof.
  intros Hn. apply Z.eqb_eq.
  apply (forallb_below (fun n => prefix_len (cidr_mask n) =? n) 33); [|lia].
  vm_compute. reflexivity.
Qed.

Lemma cidr_mask_bit n b : 0 <= n <= 32 -> Z.testbit (cidr_mask n) b = bool_decide (32 - n <= b < 32).
Proof.
  intros Hn. assert (Hm : cidr_mask n = Z.shiftl (Z.ones n) (32 - n)).
  { unfold cidr_mask. rewrite Z.shiftl_mul_pow2, Z.ones_equiv by lia.
    replace (2 ^ 32) with (2 ^ n * 2 ^ (32 - n)) by (rewrite <- Z.pow_add_r by lia; f_equal; lia). lia. }
  rewrite Hm. destruct (Z.ltb_spec b 0).
  { rewrite Z.testbit_neg_r by done. symmetry. apply bool_decide_eq_false_2. lia. }
  rewrite Z.shiftl_spec, Z.testbit_ones by lia. symmetry. case_bool_decide; lia.
Qed.

(** Comparing the masked addresses compares the bits of the prefix. *)
Lemma covers_masked rt ip : 0 <= r_len rt <= 32 ->
  covers rt ip <-> Z.land ip (cidr_mask (r_len rt)) = Z.land (r_net rt) (cidr_mask (r_len rt)).
Proof.
  intros Hn. unfold covers. split.
  - intros H. apply Z.bits_inj'. intros b Hb. rewrite !Z.land_spec, cidr_mask_bit by done.
    case_bool_decide as Hc; [by rewrite H|by rewrite !andb_false_r].
  - intros H b Hb. apply (f_equal (fun x => Z.testbit x b)) in H.
    rewrite !Z.land_spec, cidr_mask_bit, bool_decide_eq_true_2, !andb_true_r in H by done. done.
Qed.

Lemma holds_matches rt e ip : holds (Some rt) e -> matches ip e = true <-> covers rt ip.
Proof.
  intros (Ha & Hn & Hm & Hd & _). rewrite covers_masked by done. unfold matches. rewrite Hm, Hd.
  rewrite andb_true_iff, negb_true_iff, Z.eqb_neq, Z.eqb_eq. tauto.
Qed.

(** What the table says of slot [i]. *)
Lemma table_slot rs t ip i : Forall2 holds rs t -> 0 <= i < zlen t -> matches ip (t.[i]) = true ->
  exists rt, rs !! Z.to_nat i = Some (Some rt) /\ covers rt ip /\ prefix_len (netmask (t.[i])) = r_len rt /\ gateway (t.[i]) = r_gateway rt.
Proof.
  intros Ht Hi Hm. pose proof (arr_lookup t i Hi) as He.
  destruct (Forall2_lookup_r _ _ _ _ _ Ht He) as ([rt|] & Hr & Hh).
  - exists rt. split; [done|]. split; [by apply (holds_matches rt (t.[i]))|]. destruct Hh as (_ & Hn & -> & _ & Hg).
    by rewrite prefix_len_cidr.
  - unfold matches in Hm. simpl in Hh. by rewrite Hh in Hm.
Qed.

Lemma slot_matches rs t ip i rt : Forall2 holds rs t -> rs !! i = Some (Some rt) -> covers rt ip ->
  0 <= Z.of_nat i < zlen t /\ matches ip (t.[Z.of_nat i]) = true.
Proof.
  intros Ht Hr Hc. destruct (Forall2_lookup_l _ _ _ _ _ Ht Hr) as (e & He & Hh).
  assert (Hi : 0 <= Z.of_nat i < zlen t) by (pose proof (lookup_lt_Some _ _ _ He); zlia). split; [done|].
  pose proof (arr_lookup t (Z.of_nat i) Hi) as H. rewrite Nat2Z.id in H.
  assert (e = t.[Z.of_nat i]) as <- by (rewrite Nat2Z.id; congruence). by apply (holds_matches rt).
Qed.

#[local] Opaque prefix_len prefix_loop.

Definition scan_ok (t : list routing_entry) (ip k : Z) (s : scan) : Prop :=
  if found s then
    0 <= best_match s < k /\ matches ip (t.[best_match s]) = true /\
    best_prefix_len s = prefix_len (netmask (t.[best_match s])) /\
    forall j, 0 <= j < k -> matches ip (t.[j]) = true ->
      prefix_len (netmask (t.[j])) <= best_prefix_len s /\
      (j < best_match s -> prefix_len (netmask (t.[j])) < best_prefix_len s)
  else forall j, 0 <= j < k -> matches ip (t.[j]) = false.

(** Prove the four parts of [scan_ok], leaving the maximality of the match. *)
Ltac scan_split j Hj1 Hj2 :=
  split; [lia|split; [assumption|split; [first [assumption|reflexivity]|intros j Hj1 Hj2]]].

Lemma lookup_step_ok t ip k s :
  0 <= k -> scan_ok t ip k s -> scan_ok t ip (k + 1) (lookup_step t ip k s).
Proof.
  intros Hk Hs.
  assert (Hstep : lookup_step t ip k s =
    if matches ip (t.[k]) && ((best_prefix_len s <? prefix_len (netmask (t.[k]))) || negb (found s))
    then mk_scan k (prefix_len (netmask (t.[k]))) true else s).
  { unfold lookup_step, matches. destruct (active _ =? 0), (Z.land _ _ =? _); simpl; done. }
  rewrite Hstep. clear Hstep. unfold scan_ok in *.
  revert Hs. generalize prefix_len as plen. intros plen Hs. destruct (matches ip t.[k]) eqn:Em; simpl.
  - destruct (found s) eqn:Ef; simpl in *; rewrite ?orb_true_r, ?orb_false_r.
    + destruct Hs as (Hb & Hm & Hl & Hj). destruct (_ <? _) eqn:El; simpl; rewrite ?Ef.
      * scan_split j Hj1 Hj2.
        destruct (decide (j = k)) as [->|]; [lia|]. specialize (Hj j ltac:(lia) Hj2). lia.
      * scan_split j Hj1 Hj2.
        destruct (decide (j = k)) as [->|]; [lia|]. apply Hj; [lia|done].
    + simpl. scan_split j Hj1 Hj2.
      destruct (decide (j = k)) as [->|]; [lia|]. rewrite Hs in Hj2 by lia. done.
  - destruct (found s) eqn:Ef.
    + destruct Hs as (Hb & Hm & Hl & Hj). scan_split j Hj1 Hj2.
      destruct (decide (j = k)) as [->|]; [congruence|]. apply Hj; [lia|done].
    + intros j Hj. destruct (decide (j = k)) as [->|]; [done|]. apply Hs. lia.
Qed.

(** What a finished scan gives. *)
Lemma scan_result t ip s :
  scan_ok t ip (zlen t) s ->
  let r := if negb (found s) then 0 else
           if gateway (t.[best_match s]) =? 0 then ip else gateway (t.[best_match s]) in
  (exists i, best_route t ip i /\ r = next_hop (t.[i]) ip) \/
  ((forall i, 0 <= i < zlen t -> matches ip (t.[i]) = false) /\ r = 0).
Proof.
  unfold scan_ok. destruct (found s); simpl.
  - intros (Hb & Hm & Hl & Hj). left. exists (best_match s). split; [|reflexivity].
    split; [lia|]. split; [assumption|]. intros j Hj1 Hj2. rewrite <- Hl. by apply Hj.
  - by right.
Qed.

(** The scan finds the best route, or there is none. *)
Lemma routing_lookup_spec t ip :
  zlen t = ROUTING_TABLE_SIZE ->
  (exists i, best_route t ip i /\ routing_lookup t ip = next_hop (t.[i]) ip) \/
  ((forall i, 0 <= i < zlen t -> matches ip (t.[i]) = false) /\ routing_lookup t ip = 0).
Proof.
  intros Hz. apply scan_result. rewrite Hz.
  apply (for_upto_ind (scan_ok t ip)); [done|..].
  - intros j Hj. lia.
  - intros i s' Hi. apply lookup_step_ok. lia.
Qed.

Lemma routing_add_spec t net mask gw t' :
  routing_add t net mask gw = (t', XAIOS_OK) ->
  exists i, 0 <= i < zlen t /\ active (t.[i]) = 0 /\ zlen t' = zlen t /\
    t'.[i] = mk_route (Z.land net mask) mask gw 1 /\
    forall j, 0 <= j -> j <> i -> t'.[j] = t.[j].
Proof.
  unfold routing_add. destruct (find_idx _ t) as [n|] eqn:Hf; [|done]. intros [= <-].
  apply find_idx_Some_get in Hf as (Hlt & Ha & _). exists (Z.of_nat n).
  rewrite zlen_set, arr_get_set_eq by lia. split_and!; try (done || lia).
  intros j Hj Hne. rewrite arr_get_set_ne; done || lia.
Qed.

Lemma best_chosen rs t ip i : Forall2 holds rs t -> best_route t ip i ->
  exists rt, chosen rs ip (Z.to_nat i) rt /\ gateway (t.[i]) = r_gateway rt.
Proof.
  intros Ht (Hi & Hm & Hb). destruct (table_slot rs t ip i Ht Hi Hm) as (rt & Hr & Hc & Hl & Hg). exists rt.
  split; [|done]. split; [done|]. split; [done|]. intros j rt' Hr' Hc'.
  destruct (slot_matches rs t ip j rt' Ht Hr' Hc') as [Hj Hmj].
  destruct (table_slot rs t ip _ Ht Hj Hmj) as (rt'' & Hr'' & _ & Hl' & _). rewrite Nat2Z.id in Hr''. simplify_eq.
  specialize (Hb _ Hj Hmj). lia.
Qed.

Lemma chosen_unique rs ip i rt i' rt' : chosen rs ip i rt -> chosen rs ip i' rt' -> i = i' /\ rt = rt'.
Proof.
  intros (Hr & Hc & Hb) (Hr' & Hc' & Hb'). specialize (Hb _ _ Hr' Hc'). specialize (Hb' _ _ Hr Hc).
  assert (i = i') as -> by lia. split; [done|congruence].
Qed.

(** ** Properties *)

(** C34: lookup is longest-prefix match.  In a table whose slots hold CIDR routes or are
    free, the result for an address is, of the route with the longest prefix among
    those whose prefix bits are those of the address, and the first such, the gateway,
    or the address itself when the route is direct.  Such a route exists whenever some
    route covers the address, and the result is 0 when none does. *)
Theorem routing_lookup_longest_prefix (rs : list (option route)) (t : list routing_entry) (ip : Z) :
  zlen t = ROUTING_TABLE_SIZE -> Forall2 holds rs t ->
  (forall i rt, chosen rs ip i rt -> routing_lookup t ip = if r_gateway rt =? 0 then ip else r_gateway rt) /\
  ((exists i rt, rs !! i = Some (Some rt) /\ covers rt ip) -> exists i rt, chosen rs ip i rt) /\
  ((forall i rt, rs !! i = Some (Some rt) -> ~ covers rt ip) -> routing_lookup t ip = 0).
Proof.
  intros Hz Ht. destruct (routing_lookup_spec t ip Hz) as [(i & Hi & He)|[Hn He]].
  - destruct (best_chosen rs t ip i Ht Hi) as (rt & Hc & Hg). split_and!.
    + intros k rt' Hk. rewrite He. unfold next_hop. rewrite Hg. by destruct (chosen_unique _ _ _ _ _ _ Hk Hc) as [_ ->].
    + by exists (Z.to_nat i), rt.
    + intros Hno. destruct Hc as (Hr & Hcov & _). by destruct (Hno _ _ Hr).
  - assert (Hno : forall i rt, rs !! i = Some (Some rt) -> ~ covers rt ip).
    { intros i rt Hr Hc. destruct (slot_matches rs t ip i rt Ht Hr Hc) as [Hi Hm]. by rewrite Hn in Hm. }
    split_and!; [|intros (i & rt & Hr & Hc); by destruct (Hno i rt Hr)|done].
    intros i rt (Hr & Hc & _). by destruct (Hno i rt Hr).
Qed.

(** The table [routing_init] builds, and a longer prefix inside the local network. *)
Definition demo_routes : list (option route) :=
  [Some (mk_cidr 0x0a000200 24 0); Some (mk_cidr 0 0 XAIOS_IPV4_GATEWAY); Some (mk_cidr 0x0a000280 25 0x0a000203)] ++ replicate 29 None.

Lemma routing_lookup_longest_prefix_witness :
  routing_lookup (routing_add (routing_init zero_table) 0x0a000280 (cidr_mask 25) 0x0a000203).1 0x0a000285 = 0x0a000203 /\
  covers (mk_cidr 0x0a000200 24 0) 0x0a000285.
Proof.
  assert (Hc : forall rt ip, 0 <= r_len rt <= 32 -> Z.land ip (cidr_mask (r_len rt)) =? Z.land (r_net rt) (cidr_mask (r_len rt)) = true -> covers rt ip)
    by (intros rt ip Hn He; apply covers_masked; [done|lia]).
  split; [|apply Hc; [simpl; lia|reflexivity]].
  set (t := (routing_add _ _ _ _).1).
  apply (routing_lookup_longest_prefix demo_routes t 0x0a000285) with (i := 2%nat) (rt := mk_cidr 0x0a000280 25 0x0a000203).
  - vm_compute. reflexivity.
  - unfold t. vm_compute routing_add. cbv [fst]. unfold demo_routes. repeat constructor; try (vm_compute; congruence).
  - split; [reflexivity|]. split; [apply Hc; [simpl; lia|reflexivity]|].
    intros j rt' Hj _. do 3 (destruct j as [|j]; [simplify_eq/=; lia|]). change (replicate 29 (@None route) !! j = Some (Some rt')) in Hj. apply lookup_replicate in Hj. by destruct Hj.
Defined.

(** A route just added is used.  After a successful add of a CIDR route through a
    gateway, an address of its network is sent to that gateway when every other
    active entry covering the address has a shorter prefix. *)
Theorem routing_add_then_lookup (t t' : list routing_entry) (net n gw ip : Z) :
  zlen t = ROUTING_TABLE_SIZE -> 0 <= n <= 32 -> gw <> 0 ->
  routing_add t net (cidr_mask n) gw = (t', XAIOS_OK) ->
  Z.land ip (cidr_mask n) = Z.land net (cidr_mask n) ->
  (forall j, 0 <= j < zlen t -> matches ip (t.[j]) = true -> prefix_len (netmask (t.[j])) < n) ->
  routing_lookup t' ip = gw.
Proof.
  intros Hz Hn Hgw Hadd Hip Hshort.
  destruct (routing_add_spec _ _ _ _ _ Hadd) as (i & Hi & Ha & Hz' & Hti & Hother).
  assert (Hmi : matches ip (t'.[i]) = true) by (rewrite Hti; unfold matches; simpl; lia).
  destruct (routing_lookup_spec t' ip ltac:(lia)) as [(k & Hk & ->)|[Hnone _]].
  2:{ rewrite Hnone in Hmi by lia. done. }
  assert (k = i) as ->.
  { destruct (decide (k = i)); [done|]. destruct Hk as (Hk1 & Hk2 & Hk3).
    specialize (Hk3 i ltac:(lia) Hmi). rewrite Hti in Hk3. simpl in Hk3.
    rewrite prefix_len_cidr in Hk3 by done. rewrite Hother in Hk2, Hk3 by lia.
    specialize (Hshort k ltac:(lia) Hk2). lia. }
  unfold next_hop. rewrite Hti. simpl. by apply Z.eqb_neq in Hgw as ->.
Qed.

Lemma routing_add_then_lookup_witness :
  routing_lookup (routing_add (routing_init zero_table) 0xc0a80100 (cidr_mask 24) 0x0a000203).1
    0xc0a80105 = 0x0a000203.
Proof.
  apply (routing_add_then_lookup (routing_init zero_table) _ 0xc0a80100 24 0x0a000203 0xc0a80105).
  - reflexivity.
  - lia.
  - discriminate.
  - vm_compute. reflexivity.
  - vm_compute. reflexivity.
  - intros j Hj. change (zlen (routing_init zero_table)) with 32 in Hj.
    assert (H : negb (matches 0xc0a80105 ((routing_init zero_table).[j])) ||
                (prefix_len (netmask ((routing_init zero_table).[j])) <? 24) = true).
    { apply (forallb_below (fun j => negb (matches 0xc0a80105 ((routing_init zero_table).[j])) ||
                (prefix_len (netmask ((routing_init zero_table).[j])) <? 24)) 32); [|done].
      vm_compute. reflexivity. }
    intros Hm. rewrite Hm in H. simpl in H. lia.
Defined.

(** The boot self-test passes on the table [routing_init] builds, and fails on the
    zero-initialised one, for which [kmain] runs it. *)
Lemma routing_self_test_needs_init :
  routing_self_test (routing_init zero_table) = true /\ routing_self_test zero_table = false.
Proof. vm_compute. done. Qed.

(** Removing a destination that only the default route covers deletes the default
    route: 8.8.8.8 has no next hop afterwards although no route for the removed
    network was ever present. *)
Lemma routing_remove_drops_default :
  let t := routing_init zero_table in
  let '(t', st) := routing_remove t 0xc0a80100 in
  st = XAIOS_OK /\ routing_lookup t 0x08080808 = XAIOS_IPV4_GATEWAY /\
  routing_lookup t' 0x08080808 = 0.
Proof. vm_compute. done. Qed.

End Routing.
