(* ===== verification/Wire.v ===== *)
(** * Bytes on the wire (net/*.c helpers, include/xaios/ip_addr.h)

    A frame buffer is the list of its bytes and a pointer into it is the rest
    of the buffer from that address, so [frame + 14] is [at_ptr frame 14].
    Every read and write checks the bounds of the buffer: [None] is an access
    outside of it, which C leaves undefined.  On top of this the file has the
    big-endian accessors and copy loops that every protocol file defines for
    itself, the Internet checksum with its arithmetic meaning, and the address
    type shared by IPv4 and IPv6. *)

From S2P Require Import Prelude.

Module Wire.

(** ** Buffers *)

Definition rd (b : list Z) (i : Z) : option Z :=
  if 0 <=? i then b !! Z.to_nat i else None.

Definition wr (b : list Z) (i v : Z) : option (list Z) :=
  _ ← rd b i; Some (b.[i <- u8 v]).

(** The pointer [b + o]. *)
Definition at_ptr (b : list Z) (o : Z) : list Z := drop (Z.to_nat o) b.

(** Call a function that writes through the pointer [b + o]. *)
Definition through (b : list Z) (o : Z) (f : list Z -> option (list Z)) : option (list Z) :=
  t ← f (at_ptr b o); Some (take (Z.to_nat o) b ++ t).

(** A counted loop whose body can fail. *)
Fixpoint for_opt {S} (n : nat) (i : Z) (body : Z -> S -> option S) (s : S) : option S :=
  match n with
  | O => Some s
  | Datatypes.S n' => t ← body i s; for_opt n' (i + 1) body t
  end.

(** [for (i = 0; i < n; ++i) dst[i] = src[i];] into a fresh local array. *)
Definition read_bytes (p : list Z) (n : Z) : option (list Z) := mapM (rd p) (seqZ 0 n).

Definition bytes_zero (b : list Z) (n : Z) : option (list Z) :=
  for_opt (Z.to_nat n) 0 (fun i b => wr b i 0) b.

Definition bytes_copy (dst src : list Z) (n : Z) : option (list Z) :=
  for_opt (Z.to_nat n) 0 (fun i d => x ← rd src i; wr d i x) dst.

Definition get_be16 (b : list Z) (i : Z) : option Z :=
  h ← rd b i; l ← rd b (i + 1); Some (u16 (Z.lor (Z.shiftl h 8) l)).

Definition get_be32 (b : list Z) (i : Z) : option Z :=
  b0 ← rd b i; b1 ← rd b (i + 1); b2 ← rd b (i + 2); b3 ← rd b (i + 3);
  Some (Z.lor (Z.lor (Z.lor (Z.shiftl b0 24) (Z.shiftl b1 16)) (Z.shiftl b2 8)) b3).

Definition put_be16 (b : list Z) (i v : Z) : option (list Z) :=
  b1 ← wr b i (Z.shiftr v 8); wr b1 (i + 1) v.

Definition put_be32 (b : list Z) (i v : Z) : option (list Z) :=
  b1 ← wr b i (Z.shiftr v 24); b2 ← wr b1 (i + 1) (Z.shiftr v 16);
  b3 ← wr b2 (i + 2) (Z.shiftr v 8); wr b3 (i + 3) v.

(** ** The Internet checksum *)

(** [for (i = 0; i + 1U < length; i += 2U) sum += data[i] << 8 | data[i + 1];]
    and the odd byte at the end. *)
Definition add_words (data : list Z) (length sum : Z) : option Z :=
  s1 ← for_opt (Z.to_nat (length / 2)) 0
         (fun k s => h ← rd data (2 * k); l ← rd data (2 * k + 1);
                     Some (u64 (s + Z.lor (Z.shiftl h 8) l))) sum;
  if Z.land length 1 =? 0 then Some s1 else
  h ← rd data (length - 1); Some (u64 (s1 + Z.shiftl h 8)).

(** [while ((sum >> 16U) != 0U) sum = (sum & 0xFFFFU) + (sum >> 16U);] *)
Fixpoint fold_carry (fuel : nat) (sum : Z) : Z :=
  match fuel with
  | O => sum
  | Datatypes.S fuel' =>
      if Z.shiftr sum 16 =? 0 then sum
      else fold_carry fuel' (u64 (Z.land sum 0xFFFF + Z.shiftr sum 16))
  end.

(** [(uint16_t)(~sum & 0xFFFFU)] of the folded sum. *)
Definition complement (sum : Z) : Z := Z.land (not64 (fold_carry 8 sum)) 0xFFFF.

(** ** Addresses (ip_addr.h) *)

Definition XAIOS_IP_FAMILY_V4 : Z := 4.
Definition XAIOS_IP_FAMILY_V6 : Z := 6.

Record xaios_ip_addr := mk_addr { family : Z; addr : list Z }.

#[global] Instance xaios_ip_addr_eq_dec : EqDecision xaios_ip_addr.
Proof. solve_decision. Defined.

#[global] Instance xaios_ip_addr_inhabited : Inhabited xaios_ip_addr := populate (mk_addr 0 []).

Definition xaios_ip_addr_from_ipv4 (ip : Z) : xaios_ip_addr :=
  mk_addr XAIOS_IP_FAMILY_V4
    ([u8 (Z.shiftr ip 24); u8 (Z.shiftr ip 16); u8 (Z.shiftr ip 8); u8 ip] ++ replicate 12 0).

Definition xaios_ip_addr_to_ipv4 (a : xaios_ip_addr) : Z :=
  if negb (family a =? XAIOS_IP_FAMILY_V4) then 0 else
  Z.lor (Z.lor (Z.lor (Z.shiftl ((addr a).[0]) 24) (Z.shiftl ((addr a).[1]) 16))
           (Z.shiftl ((addr a).[2]) 8)) ((addr a).[3]).

Definition xaios_ip_addr_equal (a b : xaios_ip_addr) : bool :=
  if negb (family a =? family b) then false else
  let len := if family a =? XAIOS_IP_FAMILY_V4 then 4 else 16 in
  forallb (fun i => (addr a).[i] =? (addr b).[i]) (seqZ 0 len).

Definition xaios_ip_addr_hash (a : xaios_ip_addr) : Z :=
  let len := if family a =? XAIOS_IP_FAMILY_V4 then 4 else 16 in
  for_range (Z.to_nat (len / 4)) 0
    (fun k h =>
       Z.lxor h (Z.lor (Z.lor (Z.lor (Z.shiftl ((addr a).[4 * k]) 24) (Z.shiftl ((addr a).[4 * k + 1]) 16))
                          (Z.shiftl ((addr a).[4 * k + 2]) 8)) ((addr a).[4 * k + 3]))) 0.

Definition xaios_ip_addr_zero : xaios_ip_addr := mk_addr 0 (replicate 16 0).

Definition xaios_ip_addr_from_raw_ipv6 (raw : list Z) : option xaios_ip_addr :=
  mk_addr XAIOS_IP_FAMILY_V6 <$> read_bytes raw 16.

(** Copy the bytes of an address into a buffer. *)
Definition put_addr (b : list Z) (o : Z) (a : xaios_ip_addr) : option (list Z) :=
  for_opt 16 0 (fun i b => wr b (o + i) ((addr a).[i])) b.

(** [for (i = 0; i < 6; ++i) { frame[i] = dst_mac[i]; frame[6 + i] = src_mac[i]; }] *)
Definition put_macs (b dst_mac src_mac : list Z) : option (list Z) :=
  for_opt 6 0 (fun i b => b1 ← wr b i (dst_mac.[i]); wr b1 (6 + i) (src_mac.[i])) b.

Definition put_mac (b : list Z) (o : Z) (mac : list Z) : option (list Z) :=
  for_opt 6 0 (fun i b => wr b (o + i) (mac.[i])) b.

(** ** The driver and the clock

    What the protocol code uses of dev/virtio/virtio_net.c and
    arch/aarch64/timer.c: reading the clock, handing over the bytes of a frame,
    polling for a received frame that fits a buffer (empty when there is none)
    and the address of the card. *)

Class NetDevice (E : Type) := {
  timer_now_ns : E -> Z * E;
  net_send : E -> list Z -> E * xaios_status;
  net_poll : E -> Z -> E * list Z;
  net_mac : E -> option (list Z)
}.

(** [virtio_net_tx(frame, len)] reads [len] bytes from the pointer. *)
Definition virtio_net_tx `{NetDevice E} (e : E) (frame : list Z) (len : Z) : option (E * xaios_status) :=
  net_send e <$> read_bytes frame len.

(** ** Boot tests *)

(** [kassert(b)]: a failed assertion stops the kernel. *)
Definition check (b : bool) : option unit := if b then Some () else None.

(** ** Bytes *)

Definition byte (x : Z) : Prop := 0 <= x < 256.
Definition bytes (l : list Z) : Prop := Forall byte l.

Lemma byte_u8 x : byte (u8 x).
Proof. apply u8_range. Qed.

Lemma bytes_get l i : bytes l -> byte (l.[i]).
Proof.
  intros Hl. destruct (decide (Z.to_nat i < length l)%nat).
  - unfold bytes in Hl. rewrite Forall_forall in Hl. apply Hl. by apply list_elem_of_lookup_total_2.
  - rewrite list_lookup_total_alt, lookup_ge_None_2 by lia. unfold byte. simpl. lia.
Qed.

Lemma bytes_drop l n : bytes l -> bytes (drop n l).
Proof. apply Forall_drop. Qed.

Lemma bytes_take l n : bytes l -> bytes (take n l).
Proof. apply Forall_take. Qed.

Lemma bytes_app l k : bytes l -> bytes k -> bytes (l ++ k).
Proof. intros. by apply Forall_app. Qed.

Lemma bytes_nil : bytes [].
Proof. constructor. Qed.

Lemma bytes_cons x l : byte x -> bytes l -> bytes (x :: l).
Proof. intros. by apply Forall_cons. Qed.

Lemma bytes_replicate_0 n : bytes (replicate n 0).
Proof. apply Forall_replicate. unfold byte. lia. Qed.

(** Buffers given by their parts. *)
Ltac solve_bytes :=
  repeat first [assumption | apply bytes_nil | apply bytes_app | apply bytes_cons | apply byte_u8 | apply bytes_replicate_0
               | apply bytes_take | apply bytes_drop | (unfold byte; lia)].

#[export] Hint Resolve byte_u8 bytes_get bytes_drop bytes_take bytes_app bytes_replicate_0 bytes_nil bytes_cons : xaios.

(** Documented behaviour of the driver: clock readings are 64-bit words, a
    received frame consists of bytes and fits the buffer, and an Ethernet
    address has six bytes. *)
Class NetDeviceLaws (E : Type) `{NetDevice E} := {
  clock_range : forall e, 0 <= (timer_now_ns e).1 < 18446744073709551616;
  poll_bytes : forall e n, bytes (net_poll e n).2;
  poll_fits : forall e n, 0 <= n -> zlen (net_poll e n).2 <= n;
  mac_bytes : forall e m, net_mac e = Some m -> bytes m /\ zlen m = 6
}.

(** [256 * h + l] from the shifts and the bitwise or. *)
Lemma lor_shiftl a b k : 0 <= a -> 0 <= k -> 0 <= b < 2 ^ k -> Z.lor (Z.shiftl a k) b = a * 2 ^ k + b.
Proof.
  intros Ha Hk Hb.
  assert (Hl : Z.land (Z.shiftl a k) b = 0).
  { apply Z.bits_inj'. intros n Hn. rewrite Z.land_spec, Z.bits_0. destruct (Z.ltb_spec n k).
    - by rewrite Z.shiftl_spec_low.
    - destruct (decide (b = 0)) as [->|]; [by rewrite Z.bits_0, andb_false_r|].
      rewrite (Z.bits_above_log2 b), andb_false_r; [done|lia|].
      apply Z.lt_le_trans with k; [apply Z.log2_lt_pow2; lia|done]. }
  rewrite <- Z.shiftl_mul_pow2, <- Z.lxor_lor by done. symmetry. by apply Z.add_nocarry_lxor.
Qed.

Lemma be16_value h l : byte h -> byte l -> Z.lor (Z.shiftl h 8) l = 256 * h + l.
Proof. unfold byte. intros. rewrite lor_shiftl by (change (2 ^ 8) with 256; lia). lia. Qed.

Lemma be32_value a b c d :
  byte a -> byte b -> byte c -> byte d ->
  Z.lor (Z.lor (Z.lor (Z.shiftl a 24) (Z.shiftl b 16)) (Z.shiftl c 8)) d =
  16777216 * a + 65536 * b + 256 * c + d.
Proof.
  unfold byte. intros.
  rewrite (Z.shiftl_mul_pow2 b 16), (Z.shiftl_mul_pow2 c 8), (lor_shiftl a) by lia.
  replace (a * 2 ^ 24 + b * 2 ^ 16) with (Z.shiftl (256 * a + b) 16) by (rewrite Z.shiftl_mul_pow2; lia).
  rewrite lor_shiftl by lia.
  replace ((256 * a + b) * 2 ^ 16 + c * 2 ^ 8) with (Z.shiftl (65536 * a + 256 * b + c) 8)
    by (rewrite Z.shiftl_mul_pow2; lia).
  rewrite lor_shiftl; lia.
Qed.

(** ** Reads and writes in bounds *)

Lemma rd_ok b i : 0 <= i < zlen b -> rd b i = Some (b.[i]).
Proof. intros Hi. unfold rd. rewrite (proj2 (Z.leb_le 0 i)) by lia. by apply arr_lookup. Qed.

Lemma rd_None b i : zlen b <= i -> rd b i = None.
Proof. intros Hi. unfold rd. case_if; [|done]. apply lookup_ge_None. zlia. Qed.

Lemma rd_Some b i x : rd b i = Some x <-> 0 <= i < zlen b /\ x = b.[i].
Proof.
  split.
  - unfold rd. case_if; [|done]. intros H. pose proof (lookup_lt_Some _ _ _ H).
    split; [zlia|]. symmetry. by apply list_lookup_total_correct.
  - intros [Hi ->]. by apply rd_ok.
Qed.

Lemma wr_ok b i v : 0 <= i < zlen b -> wr b i v = Some (b.[i <- u8 v]).
Proof. intros Hi. unfold wr. by rewrite rd_ok. Qed.

Lemma wr_zlen b i v b' : wr b i v = Some b' -> zlen b' = zlen b.
Proof. unfold wr. destruct (rd b i); simpl; [|done]. intros [= <-]. apply zlen_set. Qed.

Lemma put_be16_zlen b i v b' : put_be16 b i v = Some b' -> zlen b' = zlen b.
Proof.
  unfold put_be16. destruct (wr b i _) as [b1|] eqn:E; simpl; [|done]. intros H.
  apply wr_zlen in E, H. congruence.
Qed.

Lemma put_be32_zlen b i v b' : put_be32 b i v = Some b' -> zlen b' = zlen b.
Proof.
  unfold put_be32. destruct (wr b i _) as [b1|] eqn:E1; simpl; [|done].
  destruct (wr b1 _ _) as [b2|] eqn:E2; simpl; [|done]. destruct (wr b2 _ _) as [b3|] eqn:E3; simpl; [|done].
  intros H. apply wr_zlen in E1, E2, E3, H. congruence.
Qed.

Lemma rd_at_ptr b o i : 0 <= o -> 0 <= i -> rd (at_ptr b o) i = rd b (o + i).
Proof.
  intros. unfold rd, at_ptr. rewrite (proj2 (Z.leb_le 0 i)), (proj2 (Z.leb_le 0 (o + i))) by lia.
  rewrite lookup_drop. f_equal. lia.
Qed.

Lemma zlen_at_ptr b o : 0 <= o <= zlen b -> zlen (at_ptr b o) = zlen b - o.
Proof. intros. unfold at_ptr, zlen in *. rewrite length_drop. lia. Qed.

Lemma at_ptr_get b o i : 0 <= o -> 0 <= i -> (at_ptr b o).[i] = b.[o + i].
Proof. intros. unfold at_ptr. rewrite lookup_total_drop. f_equal. lia. Qed.

Lemma bytes_at_ptr b o : bytes b -> bytes (at_ptr b o).
Proof. apply bytes_drop. Qed.

#[export] Hint Resolve bytes_at_ptr : xaios.

Lemma get_be16_ok b i :
  bytes b -> 0 <= i -> i + 1 < zlen b -> get_be16 b i = Some (256 * b.[i] + b.[i + 1]).
Proof.
  intros Hb Hi Hl. unfold get_be16. rewrite !rd_ok by lia. simpl.
  pose proof (bytes_get b i Hb). pose proof (bytes_get b (i + 1) Hb).
  rewrite be16_value by done. unfold byte in *. f_equal. unfold u16. apply Z.mod_small. lia.
Qed.

Lemma get_be32_ok b i :
  bytes b -> 0 <= i -> i + 3 < zlen b ->
  get_be32 b i = Some (16777216 * b.[i] + 65536 * b.[i + 1] + 256 * b.[i + 2] + b.[i + 3]).
Proof.
  intros Hb Hi Hl. unfold get_be32. rewrite !rd_ok by lia. simpl.
  rewrite be32_value; auto with xaios.
Qed.

Lemma get_be16_bound f i v : bytes f -> get_be16 f i = Some v -> 0 <= v < 65536.
Proof.
  intros Hb Hv. unfold get_be16 in Hv.
  destruct (rd f i) as [h|]; [|done]. destruct (rd f (i + 1)) as [l|]; [|done]. injection Hv as <-.
  unfold u16. apply Z.mod_pos_bound. lia.
Qed.

Lemma get_be16_at_ptr b o i : 0 <= o -> 0 <= i -> get_be16 (at_ptr b o) i = get_be16 b (o + i).
Proof. intros. unfold get_be16. rewrite !rd_at_ptr by lia. by rewrite Z.add_assoc. Qed.

(** ** Loops *)

Lemma for_opt_rule {S} (P : Z -> S -> Prop) body n s :
  0 <= n -> P 0 s ->
  (forall i t, 0 <= i < n -> P i t -> exists t', body i t = Some t' /\ P (i + 1) t') ->
  exists r, for_opt (Z.to_nat n) 0 body s = Some r /\ P n r.
Proof.
  intros Hn H0 Hstep.
  assert (Hgen : forall k i t, 0 <= i -> i + Z.of_nat k = n -> P i t ->
            exists r, for_opt k i body t = Some r /\ P n r).
  { induction k as [|k IH]; intros i t Hi Hk Ht; simpl; [exists t; split; [done|]; by replace n with i by lia|].
    destruct (Hstep i t) as (t' & -> & Ht'); [lia|done|]. simpl. apply IH; [lia|lia|done]. }
  apply Hgen; [lia|lia|done].
Qed.

(** A loop fails when one of its rounds always does. *)
Lemma for_opt_None {S} (body : Z -> S -> option S) n j s :
  0 <= j < n -> (forall t, body j t = None) -> for_opt (Z.to_nat n) 0 body s = None.
Proof.
  intros Hj Hb.
  assert (Hgen : forall k i t, i <= j < i + Z.of_nat k -> for_opt k i body t = None).
  { induction k as [|k IH]; intros i t Hi; simpl; [lia|].
    destruct (decide (i = j)) as [->|]; [by rewrite Hb|].
    destruct (body i t); simpl; [apply IH; lia|done]. }
  apply Hgen. lia.
Qed.

Lemma for_opt_ext {S} (f g : Z -> S -> option S) n i s :
  (forall j t, i <= j < i + Z.of_nat n -> f j t = g j t) -> for_opt n i f s = for_opt n i g s.
Proof.
  revert i s. induction n as [|n IH]; intros i s H; simpl; [done|].
  rewrite H by lia. destruct (g i s); simpl; [|done]. apply IH. intros. apply H. lia.
Qed.

(** Filling a buffer beyond its end fails. *)
Lemma fill_overrun (g : Z -> Z) n : forall i b,
  0 <= i <= zlen b -> zlen b < i + Z.of_nat n -> for_opt n i (fun i b => wr b i (g i)) b = None.
Proof.
  induction n as [|n IH]; intros i b Hi Hl; simpl; [lia|].
  destruct (Z.lt_ge_cases i (zlen b)).
  - rewrite wr_ok by lia. simpl. apply IH; rewrite zlen_set; lia.
  - unfold wr. by rewrite rd_None by lia.
Qed.

Lemma read_bytes_ok p n : 0 <= n <= zlen p -> read_bytes p n = Some (take (Z.to_nat n) p).
Proof.
  intros Hn. unfold read_bytes. apply mapM_Some. apply Forall2_same_length_lookup. split.
  - rewrite length_seqZ, length_take. zlia.
  - intros i x y Hx Hy. apply seqZ_get in Hx as [Hi ->]. apply lookup_take_Some in Hy as [Hy _].
    unfold rd. rewrite (proj2 (Z.leb_le 0 (Z.of_nat i))) by lia. by rewrite Nat2Z.id.
Qed.

(** Writing one value after the other from position [o] on. *)
Lemma fill_loop b o n (f : Z -> Z) :
  0 <= o -> 0 <= n -> o + n <= zlen b ->
  for_opt (Z.to_nat n) 0 (fun i b => wr b (o + i) (f i)) b =
  Some (take (Z.to_nat o) b ++ ((fun i => u8 (f i)) <$> seqZ 0 n) ++ drop (Z.to_nat (o + n)) b).
Proof.
  intros Ho Hn Hb.
  destruct (for_opt_rule (fun i t =>
    t = take (Z.to_nat o) b ++ ((fun i => u8 (f i)) <$> seqZ 0 i) ++ drop (Z.to_nat (o + i)) b)
    (fun i b => wr b (o + i) (f i)) n b) as (r & Hr & ->); [done| | |exact Hr].
  - simpl. rewrite Z.add_0_r. by rewrite take_drop.
  - intros i t Hi ->. eexists. split.
    { apply wr_ok. unfold zlen in *. rewrite !length_app, length_take, length_fmap, length_seqZ, length_drop. lia. }
    rewrite insert_app_r_alt by (rewrite length_take; zlia). f_equal.
    rewrite length_take, Nat.min_l by zlia.
    rewrite insert_app_r_alt by (rewrite length_fmap, length_seqZ; lia).
    rewrite length_fmap, length_seqZ.
    replace (Z.to_nat (o + i) - Z.to_nat o - Z.to_nat i)%nat with O by lia.
    rewrite (seqZ_app 0 i 1), fmap_app, <- app_assoc by lia. f_equal.
    replace (seqZ (0 + i) 1) with [i] by (rewrite seqZ_cons, seqZ_nil by lia; f_equal; lia).
    erewrite (drop_S b); [|apply arr_lookup; lia]. simpl. f_equal. f_equal. lia.
Qed.

(** ** The arithmetic of the checksum *)

(** Sum of the 16-bit words of a byte string; an odd last byte counts as the
    high half of a word. *)
Fixpoint words (l : list Z) : Z :=
  match l with
  | h :: l' => match l' with
               | lo :: t => 256 * h + lo + words t
               | [] => 256 * h
               end
  | [] => 0
  end.

(** One's complement residue: 0 for 0, otherwise in [1, 65535]. *)
Definition residue (s : Z) : Z := if s =? 0 then 0 else (s - 1) mod 65535 + 1.

(** Induction in steps of two. *)
Lemma pairs_ind (P : list Z -> Prop) :
  P [] -> (forall h, P [h]) -> (forall h lo t, P t -> P (h :: lo :: t)) -> forall l, P l.
Proof.
  intros H0 H1 H2 l. cut (P l /\ forall x, P (x :: l)); [by intros [? _]|].
  induction l as [|y l [IH1 IH2]]; [by split|]. split; [apply IH2|]. intros x. by apply H2.
Qed.

Lemma words_app a b : Nat.Even (length a) -> words (a ++ b) = words a + words b.
Proof.
  induction a as [|h|h lo t IH] using pairs_ind; intros He; [done| |].
  - simpl in He. by apply Nat.even_spec in He.
  - simpl. rewrite IH; [lia|]. apply Nat.even_spec. by apply Nat.even_spec in He.
Qed.

Lemma words_bound l : bytes l -> 0 <= words l <= 65535 * zlen l.
Proof.
  unfold bytes, zlen. induction l as [|h|h lo t IH] using pairs_ind; intros Hb; simpl; [lia| |].
  - apply Forall_cons in Hb as [Hh _]. unfold byte in Hh. lia.
  - apply Forall_cons in Hb as [Hh [Hlo Ht]%Forall_cons]. specialize (IH Ht). unfold byte in *. lia.
Qed.

Lemma words_first l : bytes l -> 0 < zlen l -> 256 * l.[0] <= words l.
Proof.
  intros Hb Hl. destruct l as [|h [|lo t]]; [done|change ([h].[0]) with h; simpl; lia|]. simpl words.
  apply Forall_cons in Hb as [Hh [Hlo Ht]%Forall_cons]. pose proof (words_bound t Ht). unfold byte in *.
  change ((h :: lo :: t).[0]) with h. lia.
Qed.

Lemma take_two (d : list Z) k :
  0 <= k -> 2 * k + 1 < zlen d ->
  take (Z.to_nat (2 * (k + 1))) d = take (Z.to_nat (2 * k)) d ++ [d.[2 * k]; d.[2 * k + 1]].
Proof.
  intros Hk Hl. replace (Z.to_nat (2 * (k + 1))) with (S (S (Z.to_nat (2 * k)))) by lia.
  erewrite take_S_r.
  2:{ replace (S (Z.to_nat (2 * k))) with (Z.to_nat (2 * k + 1)) by lia. apply arr_lookup. lia. }
  erewrite take_S_r by (apply arr_lookup; lia). by rewrite <- app_assoc.
Qed.

Lemma even_take (d : list Z) k : 0 <= k -> 2 * k <= zlen d -> Nat.Even (length (take (Z.to_nat (2 * k)) d)).
Proof.
  intros. rewrite length_take, Nat.min_l by zlia. exists (Z.to_nat k). lia.
Qed.

Lemma add_words_ok data n s :
  bytes data -> 0 <= n <= zlen data -> n < 4294967296 -> 0 <= s < 1099511627776 ->
  add_words data n s = Some (s + words (take (Z.to_nat n) data)).
Proof.
  intros Hb Hn Hmax Hs. unfold add_words.
  assert (Hw : forall m, 0 <= m <= n -> 0 <= words (take (Z.to_nat m) data) <= 65535 * m).
  { intros m Hm. pose proof (words_bound (take (Z.to_nat m) data)) as H.
    unfold zlen in *. rewrite length_take in H. specialize (H (bytes_take _ _ Hb)). lia. }
  destruct (for_opt_rule (fun k t => t = s + words (take (Z.to_nat (2 * k)) data))
    (fun k s => h ← rd data (2 * k); l ← rd data (2 * k + 1); Some (u64 (s + Z.lor (Z.shiftl h 8) l)))
    (n / 2) s) as (r & Hr & ->); [apply Z.div_pos; lia|simpl; lia| |].
  - intros k t Hk ->. rewrite !rd_ok by dlia. simpl. eexists. split; [done|].
    rewrite be16_value by auto with xaios. specialize (Hw (2 * (k + 1))).
    rewrite take_two, words_app in * by (try apply even_take; dlia). simpl in *.
    rewrite u64_small; [lia|]. dlia.
  - cbv beta in Hr. rewrite Hr. simpl.
    change 1 with (2 ^ 1 - 1) at 1. rewrite land_low_mask by lia. change (2 ^ 1) with 2.
    destruct (Z.eqb_spec (n mod 2) 0).
    + do 4 f_equal. dlia.
    + assert (H1 : 1 <= n) by dlia. rewrite rd_ok by lia. simpl. specialize (Hw (n - 1)). f_equal.
      assert (Ht : take (Z.to_nat n) data = take (Z.to_nat (2 * (n / 2))) data ++ [data.[n - 1]]).
      { replace (Z.to_nat n) with (S (Z.to_nat (n - 1))) by lia.
        replace (2 * (n / 2)) with (n - 1) by dlia. apply take_S_r, arr_lookup. lia. }
      rewrite Ht, words_app, Z.shiftl_mul_pow2 by (try apply even_take; dlia). simpl.
      pose proof (bytes_get data (n - 1) Hb) as Hy. unfold byte in Hy.
      replace (n - 1) with (2 * (n / 2)) in Hw by dlia. rewrite u64_small; dlia.
Qed.

Lemma residue_small s : 0 <= s < 65536 -> residue s = s.
Proof. intros. unfold residue. case_if; [lia|]. rewrite Z.mod_small; lia. Qed.

(** One round of carry folding keeps the residue. *)
Lemma residue_fold s : 65536 <= s -> residue (s mod 65536 + s / 65536) = residue s.
Proof.
  intros Hs. unfold residue. assert (s / 65536 > 0) by dlia.
  rewrite !(proj2 (Z.eqb_neq _ _)) by dlia. f_equal.
  replace (s - 1) with (s mod 65536 + s / 65536 - 1 + s / 65536 * 65535) by dlia.
  by rewrite Z.mod_add by lia.
Qed.

Lemma fold_carry_step f s :
  0 <= s < 18446744073709551616 ->
  fold_carry (S f) s = if s <? 65536 then s else fold_carry f (s mod 65536 + s / 65536).
Proof.
  intros Hs. simpl. rewrite Z.shiftr_div_pow2 by lia. change (2 ^ 16) with 65536.
  change 65535 with (2 ^ 16 - 1). rewrite land_low_mask by lia. change (2 ^ 16) with 65536.
  destruct (Z.ltb_spec s 65536).
  - by rewrite Z.div_small by lia.
  - rewrite (proj2 (Z.eqb_neq _ _)) by dlia. f_equal. apply u64_small. dlia.
Qed.

(** The loop stops within eight rounds, at the residue of the sum. *)
Lemma fold_carry_residue s : 0 <= s < 18446744073709551616 -> fold_carry 8 s = residue s.
Proof.
  intros Hs.
  assert (Hstep : forall f t b, 0 <= t <= b -> b < 18446744073709551616 ->
    (forall r, 0 <= r <= 65535 + b / 65536 -> fold_carry f r = residue r) ->
    fold_carry (S f) t = residue t).
  { intros f t b Ht Hb IH. rewrite fold_carry_step by lia. destruct (Z.ltb_spec t 65536).
    - by rewrite residue_small by lia.
    - rewrite <- residue_fold by lia. apply IH. dlia. }
  apply (Hstep _ _ 18446744073709551615); [lia|lia|]. change (65535 + _) with 281474976776190. intros.
  apply (Hstep _ _ 281474976776190); [lia|lia|]. change (65535 + _) with 4295032831. intros.
  apply (Hstep _ _ 4295032831); [lia|lia|]. change (65535 + _) with 131071. intros.
  apply (Hstep _ _ 131071); [lia|lia|]. change (65535 + _) with 65536. intros r2 Hr2.
  destruct (decide (r2 = 65536)) as [->|]; [done|].
  rewrite fold_carry_step, (proj2 (Z.ltb_lt _ _)), residue_small; lia.
Qed.

Lemma residue_bound s : 0 <= s -> 0 <= residue s < 65536.
Proof. intros. unfold residue. case_if; [lia|]. dlia. Qed.

Lemma complement_residue s : 0 <= s < 18446744073709551616 -> complement s = 65535 - residue s.
Proof.
  intros Hs. unfold complement. rewrite fold_carry_residue by done.
  pose proof (residue_bound s). unfold not64, UINT64_MAX. rewrite u64_small by lia.
  change 65535 with (2 ^ 16 - 1). rewrite land_low_mask by lia. change (2 ^ 16) with 65536. dlia.
Qed.

(** A sum checks out exactly when it is a positive multiple of 65535. *)
Lemma complement_zero s :
  0 <= s < 18446744073709551616 -> complement s = 0 <-> 0 < s /\ s mod 65535 = 0.
Proof.
  intros Hs. rewrite complement_residue by done. unfold residue. case_if; [lia|]. dlia.
Qed.

(** Adding the checksum to the sum it was computed from makes it check out. *)
Lemma complement_seals s : 0 <= s < 9223372036854775808 -> complement (s + complement s) = 0.
Proof.
  intros Hs. assert (Hr : 0 <= complement s < 65536).
  { rewrite complement_residue by lia. pose proof (residue_bound s). lia. }
  apply complement_zero; [lia|]. rewrite complement_residue in * by lia. unfold residue in *. case_if; dlia.
Qed.

(** ** Computations that succeed *)

(** The computation does not fail and its result satisfies [P]. *)
Definition yields {A} (P : A -> Prop) (m : option A) : Prop := exists r, m = Some r /\ P r.

Lemma yields_ret {A} (P : A -> Prop) x : P x -> yields P (Some x).
Proof. intros. by exists x. Qed.

Lemma yields_bind {A B} (P : A -> Prop) (Q : B -> Prop) (m : option A) (f : A -> option B) :
  yields P m -> (forall x, P x -> yields Q (f x)) -> yields Q (m ≫= f).
Proof. intros (x & -> & Hx) Hf. by apply Hf. Qed.

Lemma yields_weaken {A} (P Q : A -> Prop) m : yields P m -> (forall x, P x -> Q x) -> yields Q m.
Proof. intros (x & -> & Hx) HQ. exists x. auto. Qed.

Lemma yields_rd p i : bytes p -> 0 <= i < zlen p -> yields (fun v => byte v /\ v = p.[i]) (rd p i).
Proof. intros. rewrite rd_ok by done. apply yields_ret. auto with xaios. Qed.

Lemma yields_be16 p i : bytes p -> 0 <= i -> i + 1 < zlen p -> yields (fun v => 0 <= v < 65536 /\ get_be16 p i = Some v) (get_be16 p i).
Proof. intros Hp ? ?. rewrite get_be16_ok by done. apply yields_ret. split; [|done]. pose proof (bytes_get p i Hp). pose proof (bytes_get p (i + 1) Hp). unfold byte in *. lia. Qed.

Lemma yields_be32 p i : bytes p -> 0 <= i -> i + 3 < zlen p -> yields (fun v => 0 <= v < 4294967296 /\ get_be32 p i = Some v) (get_be32 p i).
Proof.
  intros Hp ? ?. rewrite get_be32_ok by done. apply yields_ret. split; [|done].
  pose proof (bytes_get p i Hp). pose proof (bytes_get p (i + 1) Hp). pose proof (bytes_get p (i + 2) Hp). pose proof (bytes_get p (i + 3) Hp).
  unfold byte in *. lia.
Qed.

(** ** Layouts *)

(** Run the next statement of a computation that has succeeded so far. *)
Ltac bind_step :=
  repeat match goal with
  | |- context [Some ?x ≫= ?f] => change (Some x ≫= f) with (f x); cbv beta
  end; cbv zeta.

(** Name the first [n] bytes of a buffer [h] one by one; the bound on its
    length excludes the short cases. *)
Tactic Notation "explode" ident(h) integer(n) :=
  do n (destruct h as [|? h]; [exfalso; unfold zlen in *; simpl in *; lia|]).

(** Split off the first bytes of a buffer. *)
Lemma split_buf (b : list Z) (n : nat) :
  Z.of_nat n <= zlen b -> exists h t, b = h ++ t /\ length h = n /\ t = drop n b.
Proof.
  intros Hn. exists (take n b), (drop n b). split; [by rewrite take_drop|].
  split; [rewrite length_take; zlia|done].
Qed.

Lemma zlen_cons {A} (x : A) l : zlen (x :: l) = 1 + zlen l.
Proof. unfold zlen. simpl. lia. Qed.

Lemma zlen_nonneg {A} (l : list A) : 0 <= zlen l.
Proof. unfold zlen. lia. Qed.

Lemma zlen_nil {A} : zlen (@nil A) = 0.
Proof. done. Qed.

#[export] Hint Rewrite @zlen_app @zlen_cons @zlen_nil : zlen.

(** Arithmetic on the lengths of concatenations. *)
Ltac len_lia :=
  autorewrite with zlen in *;
  repeat match goal with
  | |- context [zlen ?l] => lazymatch goal with H : 0 <= zlen l |- _ => fail | _ => pose proof (zlen_nonneg l) end
  | _ : context [zlen ?l] |- _ => lazymatch goal with H : 0 <= zlen l |- _ => fail | _ => pose proof (zlen_nonneg l) end
  end; lia.

(** A byte in the middle of a buffer. *)
Lemma mid_get (p h t : list Z) o i k :
  zlen p = o -> 0 <= i < zlen h -> k = o + i -> (p ++ h ++ t).[k] = h.[i].
Proof.
  intros Hp Hi ->. unfold zlen in *. rewrite lookup_total_app_r by lia.
  rewrite lookup_total_app_l by lia. f_equal. lia.
Qed.

Lemma at_ptr_app (p t : list Z) o : zlen p = o -> at_ptr (p ++ t) o = t.
Proof. intros Hp. unfold at_ptr. rewrite drop_app_length'; [done|zlia]. Qed.

Lemma u8_be16 v : 0 <= v < 65536 -> 256 * u8 (Z.shiftr v 8) + u8 v = v.
Proof. intros. rewrite Z.shiftr_div_pow2 by lia. change (2 ^ 8) with 256. unfold u8. dlia. Qed.

Lemma u8_be32 v :
  0 <= v < 4294967296 ->
  16777216 * u8 (Z.shiftr v 24) + 65536 * u8 (Z.shiftr v 16) + 256 * u8 (Z.shiftr v 8) + u8 v = v.
Proof.
  intros. rewrite !Z.shiftr_div_pow2 by lia.
  change (2 ^ 24) with 16777216. change (2 ^ 16) with 65536. change (2 ^ 8) with 256. unfold u8. dlia.
Qed.

(** Writing through a pointer leaves what is before it. *)
Lemma through_ok b o f t : f (at_ptr b o) = Some t -> through b o f = Some (take (Z.to_nat o) b ++ t).
Proof. unfold through. by intros ->. Qed.

Lemma through_app (p t : list Z) o f t' : zlen p = o -> f t = Some t' -> through (p ++ t) o f = Some (p ++ t').
Proof.
  intros Hp Hf. unfold through. rewrite at_ptr_app, Hf by done. simpl. by rewrite take_app_length' by zlia.
Qed.

Lemma zlen_take (l : list Z) n : 0 <= n <= zlen l -> zlen (take (Z.to_nat n) l) = n.
Proof. unfold zlen. intros. rewrite length_take. lia. Qed.

Lemma zlen_drop (l : list Z) n : 0 <= n <= zlen l -> zlen (drop (Z.to_nat n) l) = zlen l - n.
Proof. apply zlen_at_ptr. Qed.

(** The bytes that a copy loop writes. *)
Lemma fmap_bytes src o n :
  bytes src -> 0 <= o -> 0 <= n -> o + n <= zlen src ->
  (fun i => u8 (src.[o + i])) <$> seqZ 0 n = take (Z.to_nat n) (at_ptr src o).
Proof.
  intros Hb Ho Hn Hs. apply list_eq. intros i. rewrite list_lookup_fmap. destruct (decide (Z.of_nat i < n)).
  - rewrite lookup_seqZ_lt, lookup_take_lt by lia. simpl. rewrite u8_small by (by apply bytes_get).
    unfold at_ptr. rewrite lookup_drop. symmetry.
    replace (Z.to_nat o + i)%nat with (Z.to_nat (o + (0 + Z.of_nat i))) by lia. apply arr_lookup. lia.
  - rewrite lookup_seqZ_ge, lookup_take_ge by lia. done.
Qed.

Lemma bytes_copy_ok dst src n :
  bytes src -> 0 <= n <= zlen dst -> n <= zlen src ->
  bytes_copy dst src n = Some (take (Z.to_nat n) src ++ drop (Z.to_nat n) dst).
Proof.
  intros Hb Hd Hs. unfold bytes_copy.
  rewrite (for_opt_ext _ (fun i d => wr d (0 + i) (src.[i]))).
  2:{ intros j t Hj. by rewrite rd_ok by lia. }
  rewrite (fill_loop dst 0 n) by lia. simpl. do 2 f_equal. apply (fmap_bytes src 0 n); (done || lia).
Qed.

Lemma u8_byte x : byte x -> u8 x = x.
Proof. apply u8_small. Qed.

#[local] Arguments u8 : simpl never.

Lemma put_macs_ok b dst src :
  bytes dst -> bytes src -> 6 <= zlen dst -> 6 <= zlen src -> 12 <= zlen b ->
  put_macs b dst src = Some (take 6 dst ++ take 6 src ++ drop 12 b).
Proof.
  intros Hd Hs Hld Hls Hlb. explode b 12. explode dst 6. explode src 6.
  unfold put_macs, wr, rd. simpl.
  repeat (apply Forall_cons in Hd as [? Hd]). repeat (apply Forall_cons in Hs as [? Hs]).
  by rewrite !u8_byte by done.
Qed.

Lemma put_be16_mid (p t : list Z) o v :
  zlen p = o -> 2 <= zlen t -> put_be16 (p ++ t) o v = Some (p ++ [u8 (Z.shiftr v 8); u8 v] ++ drop 2 t).
Proof.
  intros Hp Ht. pose proof (zlen_app p t) as Hl. unfold put_be16. assert (0 <= o) by zlia.
  rewrite wr_ok by lia. bind_step. rewrite wr_ok by (rewrite zlen_set; lia).
  explode t 2. unfold zlen in *. rewrite !insert_app_r_alt by lia.
  replace (Z.to_nat o - length p)%nat with O by lia. replace (Z.to_nat (o + 1) - length p)%nat with 1%nat by lia. done.
Qed.

(** A checksum field inside a message adds its value to the sum of words. *)
Lemma words_field (a t : list Z) c :
  Nat.Even (length a) -> 0 <= c < 65536 ->
  words (a ++ [u8 (Z.shiftr c 8); u8 c] ++ t) = words (a ++ [0; 0] ++ t) + c.
Proof.
  intros Ha Hc. rewrite (words_app a (_ ++ t)), (words_app a ([0; 0] ++ t)) by done.
  pose proof (u8_be16 c Hc). cbn [words app]. lia.
Qed.

Lemma complement_bound s : 0 <= s < 18446744073709551616 -> 0 <= complement s < 65536.
Proof. intros. rewrite complement_residue by done. pose proof (residue_bound s). lia. Qed.

(** Filling the field with the complement of the sum over a zero field makes
    the sum zero; [p] is the sum of a pseudo header. *)
Lemma field_seals (a t : list Z) p :
  bytes a -> bytes t -> Nat.Even (length a) -> 0 <= p < 1099511627776 -> zlen a + zlen t < 4294967296 ->
  let c := complement (p + words (a ++ [0; 0] ++ t)) in
  0 <= c < 65536 /\ complement (p + words (a ++ [u8 (Z.shiftr c 8); u8 c] ++ t)) = 0.
Proof.
  intros Ha Ht He Hp Hl c.
  assert (Hb : bytes (a ++ [0; 0] ++ t)).
  { apply bytes_app; [done|]. apply bytes_app; [|done]. repeat constructor; unfold byte; lia. }
  pose proof (words_bound _ Hb) as Hw. rewrite !zlen_app in Hw. change (zlen [0; 0]) with 2 in Hw.
  assert (Hc : 0 <= c < 65536) by (apply complement_bound; zlia). split; [done|].
  rewrite words_field, Z.add_assoc by done. apply complement_seals. zlia.
Qed.

Lemma bytes_zero_ok b n : 0 <= n <= zlen b -> bytes_zero b n = Some (replicate (Z.to_nat n) 0 ++ drop (Z.to_nat n) b).
Proof.
  intros Hn. unfold bytes_zero. rewrite (for_opt_ext _ (fun i b => wr b (0 + i) 0)) by (by intros; simpl).
  rewrite (fill_loop b 0 n) by lia. simpl. do 2 f_equal. change (u8 0) with 0.
  apply list_eq. intros i. rewrite list_lookup_fmap. destruct (decide (Z.of_nat i < n)).
  - rewrite lookup_seqZ_lt, lookup_replicate_2 by lia. done.
  - rewrite lookup_seqZ_ge by lia. symmetry. apply lookup_replicate_None. lia.
Qed.

Lemma u16_small x : 0 <= x < 65536 -> u16 x = x.
Proof. apply Z.mod_small. Qed.

Lemma for_opt_shift {S} (f : Z -> S -> option S) n i s : for_opt n i f s = for_opt n 0 (fun k => f (i + k)) s.
Proof.
  revert f i s. induction n as [|n IH]; intros f i s; simpl; [done|]. rewrite Z.add_0_r.
  destruct (f i s) as [t|]; simpl; [|done]. rewrite IH, (IH (fun k => f (i + k))).
  apply for_opt_ext. intros. f_equal. lia.
Qed.

Lemma for_opt_split {S} (f : Z -> S -> option S) n m i s :
  for_opt (n + m) i f s = for_opt n i f s ≫= for_opt m (i + Z.of_nat n) f.
Proof.
  revert i s. induction n as [|n IH]; intros i s; simpl; [by rewrite Z.add_0_r|].
  destruct (f i s) as [t|]; simpl; [|done]. rewrite IH. destruct (for_opt n _ f t); simpl; [|done]. f_equal. lia.
Qed.

(** Access behind a prefix of known length. *)
Lemma wr_app (p t : list Z) o i v : zlen p = o -> 0 <= i -> wr (p ++ t) (o + i) v = app p <$> wr t i v.
Proof.
  intros Hp Hi. unfold wr. assert (0 <= o) by zlia.
  rewrite <- rd_at_ptr, at_ptr_app by done.
  destruct (rd t i); simpl; [|done]. f_equal. unfold zlen in Hp. rewrite insert_app_r_alt by lia. do 2 f_equal. lia.
Qed.

Lemma wr_mid (p q : list Z) i x v : zlen p = i -> wr (p ++ x :: q) i v = Some (p ++ u8 v :: q).
Proof. intros <-. rewrite <- (Z.add_0_r (zlen p)) at 1. by rewrite wr_app by done. Qed.

Lemma rd_mid (p q : list Z) i x : zlen p = i -> rd (p ++ x :: q) i = Some x.
Proof.
  intros <-. rewrite rd_ok by len_lia. f_equal. rewrite lookup_total_app_r by zlia.
  by replace (Z.to_nat (zlen p) - length p)%nat with 0%nat by zlia.
Qed.

Lemma put_be16_app (p t : list Z) o i v :
  zlen p = o -> 0 <= i -> put_be16 (p ++ t) (o + i) v = app p <$> put_be16 t i v.
Proof.
  intros Hp Hi. unfold put_be16. rewrite wr_app by done. destruct (wr t i _) as [t1|]; simpl; [|done].
  rewrite <- Z.add_assoc. apply wr_app; [done|lia].
Qed.

Lemma put_be32_app (p t : list Z) o i v :
  zlen p = o -> 0 <= i -> put_be32 (p ++ t) (o + i) v = app p <$> put_be32 t i v.
Proof.
  intros Hp Hi. unfold put_be32. rewrite wr_app by done. destruct (wr t i _) as [t1|]; simpl; [|done].
  rewrite <- !Z.add_assoc, wr_app by lia. destruct (wr t1 _ _) as [t2|]; simpl; [|done].
  rewrite wr_app by lia. destruct (wr t2 _ _) as [t3|]; simpl; [|done]. apply wr_app; lia.
Qed.

(** Evaluate the write at [o + i] behind a prefix of [o] bytes; [behind] for an
    index written as one number. *)
Ltac behind_sum o i :=
  first [rewrite (wr_app _ _ o i) by (done || lia)|rewrite (put_be16_app _ _ o i) by (done || lia)
        |rewrite (put_be32_app _ _ o i) by (done || lia)];
  match goal with |- context [app ?p <$> ?e] =>
    let e' := eval unfold put_be16, put_be32, wr, rd in e in
    let e' := eval simpl in e' in
    change (app p <$> e) with (app p <$> e');
    match e' with Some ?x => change (app p <$> Some x) with (Some (p ++ x)) end
  end; bind_step.

Ltac behind o i := let k := eval vm_compute in (o + i) in change k with (o + i); behind_sum o i.

(** A copy loop into the middle of a buffer. *)
Lemma copy_loop b src o i n :
  bytes src -> 0 <= o -> 0 <= i -> 0 <= n -> o + i + n <= zlen b -> i + n <= zlen src ->
  for_opt (Z.to_nat n) i (fun i b => x ← rd src i; wr b (o + i) x) b =
  Some (take (Z.to_nat (o + i)) b ++ take (Z.to_nat n) (at_ptr src i) ++ drop (Z.to_nat (o + i + n)) b).
Proof.
  intros Hb Ho Hi Hn Hl Hs. rewrite for_opt_shift.
  rewrite (for_opt_ext _ (fun k b => wr b (o + i + k) (src.[i + k]))).
  2:{ intros j t Hj. rewrite rd_ok by lia. simpl. f_equal. lia. }
  rewrite fill_loop by lia. by rewrite fmap_bytes.
Qed.

Lemma copy_mid (p m t src : list Z) o i n :
  bytes src -> 0 <= o -> 0 <= i -> zlen p = o + i -> zlen m = n -> i + n <= zlen src ->
  for_opt (Z.to_nat n) i (fun i b => x ← rd src i; wr b (o + i) x) (p ++ m ++ t) =
  Some (p ++ take (Z.to_nat n) (at_ptr src i) ++ t).
Proof.
  intros Hb Ho Hi Hp Hm Hs. rewrite copy_loop by (done || lia || (rewrite ?zlen_app; zlia)). unfold zlen in *.
  rewrite take_app_length' by lia. by rewrite (app_assoc p m), drop_app_length' by (rewrite length_app; lia).
Qed.

Lemma at_ptr_at_ptr b i j : 0 <= i -> 0 <= j -> at_ptr (at_ptr b i) j = at_ptr b (i + j).
Proof. intros. unfold at_ptr. rewrite drop_drop. f_equal. lia. Qed.

(** An IPv6 address: sixteen bytes. *)
Record addr_ok (a : xaios_ip_addr) : Prop := { ao_bytes : bytes (addr a); ao_len : zlen (addr a) = 16 }.

Lemma put_addr_ok b o a :
  addr_ok a -> 0 <= o -> o + 16 <= zlen b ->
  put_addr b o a = Some (take (Z.to_nat o) b ++ addr a ++ drop (Z.to_nat (o + 16)) b).
Proof.
  intros [Hb Hl] Ho Hz. unfold put_addr. change 16%nat with (Z.to_nat 16). rewrite fill_loop by lia.
  pose proof (fmap_bytes (addr a) 0 16 Hb ltac:(lia) ltac:(lia) ltac:(lia)) as Hf.
  rewrite (list_fmap_ext _ (fun i => u8 ((addr a).[0 + i]))), Hf by (intros; simpl; done).
  unfold at_ptr. rewrite drop_0, (take_ge (addr a)) by (unfold zlen in Hl; lia). done.
Qed.

Lemma put_addr_mid (p m t : list Z) o a :
  addr_ok a -> zlen p = o -> zlen m = 16 -> put_addr (p ++ m ++ t) o a = Some (p ++ addr a ++ t).
Proof.
  intros Ha Hp Hm. rewrite put_addr_ok by (done || (rewrite ?zlen_app; zlia)). unfold zlen in *.
  rewrite take_app_length' by lia. rewrite (app_assoc p m), drop_app_length' by (rewrite length_app; lia). done.
Qed.

Lemma put_mac_mid (p q t m : list Z) o :
  bytes m -> zlen m = 6 -> zlen p = o -> zlen q = 6 -> put_mac (p ++ q ++ t) o m = Some (p ++ m ++ t).
Proof.
  intros Hb Hm Hp Hq. unfold put_mac. change 6%nat with (Z.to_nat 6). rewrite fill_loop by (rewrite ?zlen_app; zlia).
  pose proof (fmap_bytes m 0 6 Hb ltac:(lia) ltac:(lia) ltac:(lia)) as Hf.
  rewrite (list_fmap_ext _ (fun i => u8 (m.[0 + i]))), Hf by (intros; simpl; done).
  unfold at_ptr. unfold zlen in *. rewrite drop_0, (take_ge m), take_app_length' by lia.
  by rewrite (app_assoc p q), drop_app_length' by (rewrite length_app; lia).
Qed.

Lemma from_raw_ok (a t : list Z) :
  zlen a = 16 -> xaios_ip_addr_from_raw_ipv6 (a ++ t) = Some (mk_addr XAIOS_IP_FAMILY_V6 a).
Proof.
  intros Ha. unfold xaios_ip_addr_from_raw_ipv6. rewrite read_bytes_ok by (rewrite zlen_app; zlia). simpl.
  by rewrite take_app_length' by (unfold zlen in Ha; lia).
Qed.

(** A full IPv6 address, and the comparison on such addresses. *)
Record v6 (a : xaios_ip_addr) : Prop := { v6_ok : addr_ok a; v6_family : family a = XAIOS_IP_FAMILY_V6 }.

Lemma list_eq_get (l k : list Z) :
  zlen l = zlen k -> l = k <-> forall i, 0 <= i < zlen l -> l.[i] = k.[i].
Proof.
  intros Hz. split; [by intros ->|]. intros Hg. apply list_eq. intros i.
  destruct (decide (Z.of_nat i < zlen l)) as [Hi|Hi].
  - rewrite <- (Nat2Z.id i), !arr_lookup, Hg by lia. done.
  - rewrite !lookup_ge_None_2 by zlia. done.
Qed.

Lemma equal_v6 a b : v6 a -> v6 b -> xaios_ip_addr_equal a b = true <-> addr a = addr b.
Proof.
  intros [[_ Ha] Hfa] [[_ Hb] Hfb]. unfold xaios_ip_addr_equal. rewrite Hfa, Hfb. cbn [Z.eqb Pos.eqb XAIOS_IP_FAMILY_V6 XAIOS_IP_FAMILY_V4 negb].
  rewrite forallb_forall, list_eq_get, Ha by lia. split.
  - intros H i Hi. apply Z.eqb_eq, H, list_elem_of_In, elem_of_seqZ. lia.
  - intros H i Hi%list_elem_of_In%elem_of_seqZ. apply Z.eqb_eq, H. lia.
Qed.

(** ** A card with received frames waiting *)

Record card := mk_card { incoming : list (list Z); sent : list (list Z) }.

#[global] Instance card_device : NetDevice card := {
  timer_now_ns c := (0, c);
  net_send c f := (mk_card (incoming c) (sent c ++ [f]), XAIOS_OK);
  net_poll c n :=
    match incoming c with
    | [] => (c, [])
    | f :: r => (mk_card r (sent c), if zlen f <=? n then u8 <$> f else [])
    end;
  net_mac _ := None }.

#[global] Instance card_laws : NetDeviceLaws card.
Proof.
  split; simpl; try done.
  - intros c n. destruct (incoming c); simpl; [apply bytes_nil|]. case_if; [|apply bytes_nil]. apply Forall_fmap, Forall_true. intros. apply byte_u8.
  - intros c n Hn. destruct (incoming c); simpl; [done|]. case_if; [|done]. unfold zlen in *. rewrite length_fmap. lia.
Qed.

End Wire.
