(* ===== verification/Table.v ===== *)
(** * Tables of keyed entries

    Several caches of the kernel are arrays of entries of which the active ones
    carry a key: the ARP and neighbour caches.  [view] is the finite map such an
    array stands for, given the projection [kv] of an active entry to its key
    and value; the lemmas say what searching, replacing, filling and evicting an
    entry means for that map. *)

From S2P Require Import Prelude.

Module Table.

Section table.
Context {E K V : Type} `{Countable K} `{Inhabited E} (kv : E -> option (K * V)).
Implicit Types (c r : list E) (e : E) (k : K) (v : V).

Definition keys (c : list E) : list K := (omap kv c).*1.
Definition view (c : list E) : gmap K V := list_to_map (omap kv c).

(** No key occurs twice among the active entries. *)
Definition unique (c : list E) : Prop := NoDup (keys c).

Lemma keys_perm c c' : c ≡ₚ c' -> keys c ≡ₚ keys c'.
Proof. intros Hp. unfold keys. by rewrite Hp. Qed.

Lemma unique_perm c c' : c ≡ₚ c' -> unique c -> unique c'.
Proof. intros Hp Hu. unfold unique. by rewrite <- (keys_perm c c' Hp). Qed.

Lemma view_perm c c' : c ≡ₚ c' -> unique c -> view c = view c'.
Proof. intros Hp Hu. apply list_to_map_proper; [done|]. by rewrite Hp. Qed.

Lemma view_cons_None e r : kv e = None -> view (e :: r) = view r.
Proof. intros He. unfold view. simpl. by rewrite He. Qed.

Lemma view_cons_Some e r k v : kv e = Some (k, v) -> view (e :: r) = <[k := v]> (view r).
Proof. intros He. unfold view. simpl. by rewrite He. Qed.

Lemma view_Some c k v : unique c -> view c !! k = Some v <-> exists i e, c !! i = Some e /\ kv e = Some (k, v).
Proof.
  intros Hu. unfold view. rewrite <- elem_of_list_to_map by done. rewrite list_elem_of_omap. split.
  - intros (e & [i Hi]%list_elem_of_lookup & Hkv). by exists i, e.
  - intros (i & e & Hi & Hkv). exists e. split; [by eapply list_elem_of_lookup_2|done].
Qed.

Lemma view_None c k : unique c -> view c !! k = None <-> forall i e v, c !! i = Some e -> kv e <> Some (k, v).
Proof.
  intros Hu. rewrite eq_None_not_Some. split.
  - intros Hn i e v Hi Hkv. apply Hn. exists v. apply view_Some; eauto.
  - intros Hn [v Hv]. apply view_Some in Hv as (i & e & Hi & Hkv); [|done]. by eapply Hn.
Qed.

Lemma unique_cons_Some e r k v : kv e = Some (k, v) -> unique (e :: r) <-> view r !! k = None /\ unique r.
Proof.
  intros He. unfold unique, keys. simpl. rewrite He. simpl. rewrite NoDup_cons. unfold view.
  by rewrite <- not_elem_of_list_to_map.
Qed.

Lemma unique_cons_None e r : kv e = None -> unique (e :: r) <-> unique r.
Proof. intros He. unfold unique, keys. simpl. by rewrite He. Qed.

(** An array and the same array with one entry replaced, as permutations. *)
Lemma insert_perm c (i : nat) e e' :
  c !! i = Some e -> c ≡ₚ e :: delete i c /\ <[i := e']> c ≡ₚ e' :: delete i c.
Proof.
  intros Hi. split; [by apply delete_Permutation|].
  pose proof (lookup_lt_Some _ _ _ Hi). rewrite insert_take_drop, delete_take_drop by done.
  by rewrite Permutation_middle.
Qed.

(** Replace the entry of a key. *)
Lemma view_update c (i : nat) e e' k v v' :
  unique c -> c !! i = Some e -> kv e = Some (k, v) -> kv e' = Some (k, v') ->
  unique (<[i := e']> c) /\ view (<[i := e']> c) = <[k := v']> (view c).
Proof.
  intros Hu Hi He He'. destruct (insert_perm c i e e' Hi) as [H1 H2].
  pose proof (unique_perm _ _ H1 Hu) as Hu1. apply (unique_cons_Some _ _ _ _ He) in Hu1 as [Hn Hr].
  assert (Hu2 : unique (e' :: delete i c)) by (by apply (unique_cons_Some _ _ _ _ He')).
  split; [by apply (unique_perm _ _ (symmetry H2))|].
  rewrite (view_perm _ _ H1 Hu), <- (view_perm _ _ (symmetry H2) Hu2).
  rewrite (view_cons_Some _ _ _ _ He), (view_cons_Some _ _ _ _ He'). by rewrite insert_insert_eq.
Qed.

(** Use an inactive entry for a new key. *)
Lemma view_fill c (i : nat) e e' k v' :
  unique c -> view c !! k = None -> c !! i = Some e -> kv e = None -> kv e' = Some (k, v') ->
  unique (<[i := e']> c) /\ view (<[i := e']> c) = <[k := v']> (view c).
Proof.
  intros Hu Hk Hi He He'. destruct (insert_perm c i e e' Hi) as [H1 H2].
  pose proof (unique_perm _ _ H1 Hu) as Hu1. rewrite (unique_cons_None _ _ He) in Hu1.
  rewrite (view_perm _ _ H1 Hu), view_cons_None in Hk by done.
  assert (Hu2 : unique (e' :: delete i c)) by (by apply (unique_cons_Some _ _ _ _ He')).
  split; [by apply (unique_perm _ _ (symmetry H2))|].
  rewrite <- (view_perm _ _ (symmetry H2) Hu2), (view_perm _ _ H1 Hu), (view_cons_None e) by done.
  by rewrite (view_cons_Some _ _ _ _ He').
Qed.

(** Replace the entry of one key by a new key. *)
Lemma view_evict c (i : nat) e e' k v k' v' :
  unique c -> view c !! k' = None -> c !! i = Some e -> kv e = Some (k, v) -> kv e' = Some (k', v') ->
  unique (<[i := e']> c) /\ view (<[i := e']> c) = <[k' := v']> (delete k (view c)).
Proof.
  intros Hu Hk Hi He He'. destruct (insert_perm c i e e' Hi) as [H1 H2].
  pose proof (unique_perm _ _ H1 Hu) as Hu1. apply (unique_cons_Some _ _ _ _ He) in Hu1 as [Hn Hr].
  rewrite (view_perm _ _ H1 Hu), (view_cons_Some _ _ _ _ He) in Hk.
  assert (Hd : delete k (<[k := v]> (view (delete i c))) = view (delete i c)) by (by rewrite delete_insert_eq, delete_id).
  assert (Hk' : view (delete i c) !! k' = None).
  { destruct (decide (k = k')) as [->|Hne]; [done|]. by rewrite lookup_insert_ne in Hk by done. }
  assert (Hu2 : unique (e' :: delete i c)) by (by apply (unique_cons_Some _ _ _ _ He')).
  split; [by apply (unique_perm _ _ (symmetry H2))|].
  rewrite <- (view_perm _ _ (symmetry H2) Hu2), (view_perm _ _ H1 Hu), (view_cons_Some _ _ _ _ He), Hd. by rewrite (view_cons_Some _ _ _ _ He').
Qed.

(** Drop the entries of an array that fail a test. *)
Lemma view_filter (P : K * V -> Prop) `{forall x, Decision (P x)} (f : E -> E) c :
  (forall e, kv (f e) = match kv e with Some x => if decide (P x) then Some x else None | None => None end) ->
  unique c -> unique (f <$> c) /\ view (f <$> c) = filter P (view c).
Proof.
  intros Hf. induction c as [|e c IH]; intros Hu; [split; [done|symmetry; apply map_filter_empty]|].
  rewrite fmap_cons. specialize (Hf e). destruct (kv e) as [[k v]|] eqn:He.
  - apply (unique_cons_Some _ _ _ _ He) in Hu as [Hn Hu]. destruct (IH Hu) as [Hu' Hv].
    rewrite (view_cons_Some _ _ _ _ He), map_filter_insert.
    destruct (decide (P (k, v))) as [HP|HP].
    + split.
      * apply (unique_cons_Some _ _ _ _ Hf). split; [|done]. rewrite Hv. apply map_lookup_filter_None. by left.
      * by rewrite (view_cons_Some _ _ _ _ Hf), Hv.
    + split; [by apply (unique_cons_None _ _ Hf)|]. by rewrite (view_cons_None _ _ Hf), Hv, delete_id.
  - rewrite (unique_cons_None _ _ He) in Hu. destruct (IH Hu) as [Hu' Hv].
    split; [by apply (unique_cons_None _ _ Hf)|]. by rewrite (view_cons_None _ _ Hf), (view_cons_None _ _ He), Hv.
Qed.

(** Change the entries of an array, or drop them. *)
Lemma view_omap (g : V -> option V) (f : E -> E) c :
  (forall e, kv (f e) = match kv e with Some (k, v) => pair k <$> g v | None => None end) ->
  unique c -> unique (f <$> c) /\ view (f <$> c) = omap g (view c).
Proof.
  intros Hf. induction c as [|e c IH]; intros Hu; [split; [done|symmetry; apply omap_empty]|].
  rewrite fmap_cons. specialize (Hf e). destruct (kv e) as [[k v]|] eqn:He.
  - apply (unique_cons_Some _ _ _ _ He) in Hu as [Hn Hu]. destruct (IH Hu) as [Hu' Hv].
    rewrite (view_cons_Some _ _ _ _ He). destruct (g v) as [v'|] eqn:Hg; simpl in Hf.
    + split.
      * apply (unique_cons_Some _ _ _ _ Hf). split; [|done]. by rewrite Hv, lookup_omap, Hn.
      * by rewrite (view_cons_Some _ _ _ _ Hf), Hv, (omap_insert_Some g _ _ _ v').
    + split; [by apply (unique_cons_None _ _ Hf)|].
      rewrite (view_cons_None _ _ Hf), Hv, omap_insert_None by done. by rewrite delete_id by (by rewrite lookup_omap, Hn).
  - rewrite (unique_cons_None _ _ He) in Hu. destruct (IH Hu) as [Hu' Hv].
    split; [by apply (unique_cons_None _ _ Hf)|]. by rewrite (view_cons_None _ _ Hf), (view_cons_None _ _ He), Hv.
Qed.

(** The number of active entries. *)
Lemma view_size c : unique c -> size (view c) = length (omap kv c).
Proof. intros Hu. by apply map_size_list_to_map. Qed.

Lemma omap_length_le c : (length (omap kv c) <= length c)%nat.
Proof. induction c as [|e c IH]; simpl; [lia|]. change (list_omap _ _ kv c) with (omap kv c). destruct (kv e); simpl; lia. Qed.

Lemma view_full c : unique c -> Forall (fun e => is_Some (kv e)) c -> size (view c) = length c.
Proof.
  intros Hu Ha. rewrite view_size by done. clear Hu.
  induction Ha as [|e c [x He] Ha IH]; simpl; [done|]. rewrite He. simpl. by rewrite <- IH.
Qed.

Lemma view_not_full c (i : nat) e : unique c -> c !! i = Some e -> kv e = None -> (size (view c) < length c)%nat.
Proof.
  intros Hu Hi He. rewrite view_size by done. pose proof (lookup_lt_Some _ _ _ Hi).
  destruct (insert_perm c i e e Hi) as [Hp _]. pose proof (omap_length_le (delete i c)) as Hl.
  rewrite length_delete in Hl by (by eexists).
  assert (Ho : length (omap kv c) = length (omap kv (delete i c))); [|lia].
  rewrite Hp at 1. simpl. by rewrite He.
Qed.

End table.

(** The scan for the entry with the smallest time: the first index of the least
    value, when every value is below the start value. *)
Lemma scan_least (n : Z) (use : Z -> bool) (key : Z -> Z) (start slot : Z) :
  0 < n -> (forall i, 0 <= i < n -> use i = true /\ key i < start) ->
  let r := for_range (Z.to_nat n) 0
             (fun i s => let '(oldest, k) := s in if use i && (key i <? oldest) then (key i, i) else s) (start, slot) in
  0 <= r.2 < n /\ forall j, 0 <= j < n -> key r.2 <= key j.
Proof.
  intros Hn Hk r.
  assert (H : (n = 0 /\ r.1 = start) \/ (0 < n /\ 0 <= r.2 < n /\ r.1 = key r.2 /\ forall j, 0 <= j < n -> r.1 <= key j)).
  { apply (for_upto_ind (fun i s => (i = 0 /\ s.1 = start) \/
      (0 < i /\ 0 <= s.2 < n /\ s.1 = key s.2 /\ forall j, 0 <= j < i -> s.1 <= key j))); [lia|by left|].
    intros i [o k] Hi Hs. simpl in *. right. destruct (Hk i Hi) as [-> Hlt]. cbn [andb].
    destruct Hs as [[-> ->]|(Hp & Hkn & -> & Hl)].
    - rewrite (proj2 (Z.ltb_lt _ _)) by lia. simpl. split_and!; try lia. intros j Hj. replace j with 0 by lia. lia.
    - destruct (Z.ltb_spec (key i) (key k)); simpl; split_and!; try lia; intros j Hj;
        (destruct (decide (j = i)) as [->|]; [lia|specialize (Hl j ltac:(lia)); lia]). }
  destruct H as [[? _]|(_ & Hs & He & Hl)]; [lia|]. split; [done|]. intros j Hj. rewrite <- He. by apply Hl.
Qed.
End Table.
