(* ===== verification/Ipv4.v ===== *)
(** * IPv4 (kernel/net/ipv4.c, include/xaios/ipv4.h)

    Checksums, header construction, validation of received packets,
    fragmentation and reassembly, over the bounds-checked buffers of [Wire].
    A pointer argument that the code tests against NULL is an [option]; output
    pointers are results.  The outer [option] of a result is memory safety.

    [ipv4_header_accepted] shows that the header built for a packet is the one
    of RFC 791 and passes the receiver's validation; [ipv4_fragment_exact] that
    the fragments written carry the payload piece by piece, each with a header
    that checks out.  Two defects of this file are stated as lemmas: fragments
    are addressed with bytes of the Ethernet header, and reassembly takes the
    offset field for bytes although it counts units of eight. *)

From S2P Require Import Prelude Wire.

Module Ipv4.
Import Wire.

Definition XAIOS_IPV4_PROTO_ICMP : Z := 1.
Definition XAIOS_IPV4_PROTO_TCP : Z := 6.
Definition XAIOS_IPV4_PROTO_UDP : Z := 17.
Definition XAIOS_IPV4_HEADER_SIZE : Z := 20.
Definition XAIOS_IPV4_VERSION_IHL : Z := 0x45.
Definition XAIOS_IPV4_GUEST_IP : Z := 0x0a00020f.
Definition XAIOS_IPV4_MAX_FRAG : Z := 16.
Definition XAIOS_IPV4_FLAG_MF : Z := 0x2000.
Definition XAIOS_IPV4_OFFSET_MASK : Z := 0x1FFF.
Definition XAIOS_IPV4_FRAG_BUCKETS : Z := 8.

Definition ipv4_checksum (data : list Z) (length : Z) : option Z :=
  sum ← add_words data length 0; Some (complement sum).

Definition ipv4_pseudo_checksum (src_ip dst_ip protocol payload_length : Z) (payload : list Z) (payload_len : Z)
    : option Z :=
  let sum := Z.land (Z.shiftr src_ip 16) 0xFFFF + Z.land src_ip 0xFFFF + Z.land (Z.shiftr dst_ip 16) 0xFFFF +
             Z.land dst_ip 0xFFFF + protocol + payload_length in
  sum' ← add_words payload payload_len sum; Some (complement sum').

Definition ipv4_build_header (hdr : list Z) (total_length protocol src_ip dst_ip : Z) : option (list Z) :=
  h ← wr hdr 0 XAIOS_IPV4_VERSION_IHL;
  h ← wr h 1 0;
  h ← put_be16 h 2 total_length;
  h ← put_be16 h 4 0;
  h ← put_be16 h 6 0x4000;
  h ← wr h 8 64;
  h ← wr h 9 protocol;
  h ← put_be16 h 10 0;
  h ← put_be32 h 12 src_ip;
  h ← put_be32 h 16 dst_ip;
  cksum ← ipv4_checksum h XAIOS_IPV4_HEADER_SIZE;
  put_be16 h 10 cksum.

Definition ipv4_validate_incoming (frame : option (list Z)) (frame_len : Z) : option bool :=
  match frame with
  | None => Some false
  | Some f =>
      if frame_len <? 34 then Some false else
      let ip := at_ptr f 14 in
      b0 ← rd ip 0;
      let version := Z.shiftr b0 4 in
      let ihl := Z.land b0 0x0F in
      if negb (version =? 4) then Some false else
      if ihl <? 5 then Some false else
      let ip_header_bytes := ihl * 4 in
      total_length ← get_be16 ip 2;
      if total_length <? ip_header_bytes then Some false else
      if frame_len <? 14 + total_length then Some false else
      ttl ← rd ip 8;
      if ttl =? 0 then Some false else
      cksum ← ipv4_checksum ip ip_header_bytes;
      Some (cksum =? 0)
  end.

(** ** Fragmentation *)

Definition per_frag : Z := 1392.

(** The header of one fragment, written at its place in the output buffer. *)
Definition fragment_header (ip : list Z) (this_frag id offset : Z) (more : bool) (protocol src_ip dst_ip : Z)
    : option (list Z) :=
  h ← wr ip 0 XAIOS_IPV4_VERSION_IHL;
  h ← wr h 1 0;
  h ← put_be16 h 2 (u16 (XAIOS_IPV4_HEADER_SIZE + this_frag));
  h ← put_be16 h 4 id;
  let off_val := u16 (offset / 8) in
  h ← put_be16 h 6 (u16 (Z.lor (if more then XAIOS_IPV4_FLAG_MF else 0) off_val));
  h ← wr h 8 64;
  h ← wr h 9 protocol;
  h ← put_be16 h 10 0;
  h ← put_be32 h 12 src_ip;
  h ← put_be32 h 16 dst_ip;
  cksum ← ipv4_checksum h XAIOS_IPV4_HEADER_SIZE;
  put_be16 h 10 cksum.

(** The fields of the original packet that every fragment takes over. *)
Record packet := mk_packet { p_frame : list Z; p_id : Z; p_src : Z; p_dst : Z; p_proto : Z }.

(** One frame of the output: Ethernet header, IPv4 header, piece of the payload. *)
Definition write_fragment (p : packet) (out : list Z) (written this_frag offset : Z) (more : bool) : option (list Z) :=
  macs ← read_bytes (p_frame p) 12;
  o1 ← through out written (fun q => put_macs q macs (at_ptr macs 6));
  o2 ← put_be16 o1 (written + 12) 0x0800;
  o3 ← through o2 (written + 14)
         (fun ip => fragment_header ip this_frag (p_id p) offset more (p_proto p) (p_src p) (p_dst p));
  through o3 (written + 34)
    (fun q => bytes_copy q (at_ptr (p_frame p) (14 + XAIOS_IPV4_HEADER_SIZE + offset)) this_frag).

(** The loop over the payload.  Each round but the last takes 1426 bytes of the
    capacity, so [out_capacity / 1426 + 2] rounds are enough
    ([round_fuel]). *)
Fixpoint fragment_loop (fuel : nat) (p : packet) (payload_len out_capacity offset written : Z)
    (out : list Z) (out_len : Z) : option (xaios_status * list Z * Z) :=
  match fuel with
  | O => None
  | S fuel' =>
      if negb (offset <? payload_len) then Some (XAIOS_OK, out, out_len) else
      let this_frag := if per_frag <? payload_len - offset then per_frag else payload_len - offset in
      let frag_total := 14 + XAIOS_IPV4_HEADER_SIZE + this_frag in
      if out_capacity <? u64 (written + frag_total) then Some (XAIOS_ERR_NO_MEMORY, out, out_len) else
      o4 ← write_fragment p out written this_frag offset (offset + this_frag <? payload_len);
      fragment_loop fuel' p payload_len out_capacity (offset + this_frag) (u64 (written + frag_total))
        o4 (u64 (written + frag_total))
  end.

Definition ipv4_fragment (frame out_buf : option (list Z)) (frame_len out_len out_capacity : Z)
    : option (xaios_status * list Z * Z) :=
  match frame, out_buf with
  | Some f, Some out =>
      if frame_len <? 34 then Some (XAIOS_ERR_INVALID, out, out_len) else
      total_len ← get_be16 f 16;
      let payload_len := u64 (total_len - XAIOS_IPV4_HEADER_SIZE) in
      if payload_len <=? 1400 then
        if out_capacity <? frame_len then Some (XAIOS_ERR_NO_MEMORY, out, out_len) else
        out' ← bytes_copy out f frame_len;
        Some (XAIOS_OK, out', frame_len)
      else
      id ← get_be16 f 18;
      src_ip ← get_be32 f 12;
      dst_ip ← get_be32 f 16;
      protocol ← rd f 23;
      fragment_loop (Z.to_nat (out_capacity / 1426 + 2)) (mk_packet f id src_ip dst_ip protocol)
        payload_len out_capacity 0 0 out out_len
  | _, _ => Some (XAIOS_ERR_INVALID, default [] out_buf, out_len)
  end.

Definition ipv4_is_fragment (frame : option (list Z)) (frame_len : Z) : option bool :=
  match frame with
  | None => Some false
  | Some f =>
      if frame_len <? 34 then Some false else
      flags_off ← get_be16 f 20;
      Some (negb (Z.land flags_off XAIOS_IPV4_FLAG_MF =? 0) || negb (Z.land flags_off XAIOS_IPV4_OFFSET_MASK =? 0))
  end.

(** ** Reassembly *)

Record ipv4_frag_bucket := mk_bucket {
  fb_active : Z;
  fb_src_ip : Z;
  fb_id : Z;
  first_arrival_ns : Z;
  total_len : Z;
  frags : list (list Z);
  frag_offsets : list Z;
  frag_lens : list Z;
  frag_count : Z
}.

#[global] Instance ipv4_frag_bucket_inhabited : Inhabited ipv4_frag_bucket :=
  populate (mk_bucket 0 0 0 0 0 [] [] [] 0).

(** The static buckets before the first packet. *)
Definition zero_buckets : list ipv4_frag_bucket :=
  replicate (Z.to_nat XAIOS_IPV4_FRAG_BUCKETS)
    (mk_bucket 0 0 0 0 0 (replicate 16 (replicate (Z.to_nat 1520) 0)) (replicate 16 0) (replicate 16 0) 0).

(** The bucket with the smallest arrival time. *)
Definition oldest_bucket (bs : list ipv4_frag_bucket) : Z :=
  (for_range (Z.to_nat XAIOS_IPV4_FRAG_BUCKETS) 0
     (fun i s => let '(oldest, oldest_i) := s in
        let b := bs.[i] in
        if negb (fb_active b =? 0) && (first_arrival_ns b <? oldest) then (first_arrival_ns b, i) else s)
     (UINT64_MAX, 0)).2.

(** The bucket of a packet, opened when there is none. *)
Definition open_bucket (bs : list ipv4_frag_bucket) (src_ip id : Z) : list ipv4_frag_bucket * Z :=
  match find_idx (fun b => negb (fb_active b =? 0) && (fb_id b =? id) && (fb_src_ip b =? src_ip)) bs with
  | Some i => (bs, Z.of_nat i)
  | None =>
      let k := match find_idx (fun b => fb_active b =? 0) bs with
               | Some i => Z.of_nat i
               | None => oldest_bucket bs
               end in
      (upd bs k (fun b => mk_bucket 1 src_ip id (first_arrival_ns b) 0 (frags b) (frag_offsets b) (frag_lens b) 0), k)
  end.

(** [bytes_copy(reasm_data + off, b->frags[i], b->frag_lens[i])] for every stored fragment. *)
Definition copy_fragments (b : ipv4_frag_bucket) (frame : list Z) : option (list Z) :=
  for_opt (Z.to_nat (frag_count b)) 0
    (fun i f => through f (14 + XAIOS_IPV4_HEADER_SIZE + (frag_offsets b).[i])
                  (fun q => bytes_copy q ((frags b).[i]) ((frag_lens b).[i]))) frame.

Definition ipv4_reassemble (bs : list ipv4_frag_bucket) (frame : option (list Z)) (frame_len : Z)
    : option (list ipv4_frag_bucket * xaios_status * list Z * Z) :=
  match frame with
  | None => Some (bs, XAIOS_ERR_INVALID, [], frame_len)
  | Some f =>
      if frame_len <? 34 then Some (bs, XAIOS_ERR_INVALID, f, frame_len) else
      let ip := at_ptr f 14 in
      id ← get_be16 f 18;
      src_ip ← get_be32 f 12;
      b0 ← rd ip 0;
      let ihl := Z.land b0 0x0F in
      let ip_hdr_bytes := ihl * 4 in
      flags_off ← get_be16 f 20;
      let offset := Z.land flags_off XAIOS_IPV4_OFFSET_MASK in
      let mf := negb (Z.land flags_off XAIOS_IPV4_FLAG_MF =? 0) in
      let frag_data_len := u16 (u64 (frame_len - 14 - ip_hdr_bytes)) in
      let '(bs1, k) := open_bucket bs src_ip id in
      let b := bs1.[k] in
      if XAIOS_IPV4_MAX_FRAG <=? frag_count b then Some (bs1, XAIOS_ERR_NO_MEMORY, f, frame_len) else
      let slot := frag_count b in
      row ← bytes_copy ((frags b).[slot]) (at_ptr ip ip_hdr_bytes) frag_data_len;
      let b1 := mk_bucket (fb_active b) (fb_src_ip b) (fb_id b) (first_arrival_ns b)
                  (if mf then total_len b else u32 (offset + frag_data_len))
                  ((frags b).[slot <- row]) ((frag_offsets b).[slot <- offset])
                  ((frag_lens b).[slot <- frag_data_len]) (frag_count b + 1) in
      let max_off := for_range (Z.to_nat (frag_count b1)) 0
                       (fun i m => let e := (frag_offsets b1).[i] + (frag_lens b1).[i] in
                                   if m <? e then e else m) 0 in
      let have_last := (0 <? total_len b1) && (total_len b1 <=? max_off) in
      if have_last && (max_off <=? 1500) then
        let reasm_len := if 1480 <? max_off then 1480 else max_off in
        f1 ← bytes_copy (at_ptr f 14) ip XAIOS_IPV4_HEADER_SIZE;
        f2 ← put_be16 (take 14 f ++ f1) 16 (u16 (XAIOS_IPV4_HEADER_SIZE + u16 reasm_len));
        f3 ← put_be16 f2 18 id;
        f4 ← put_be16 f3 20 0;
        f5 ← copy_fragments b1 f4;
        let b2 := mk_bucket 0 (fb_src_ip b1) (fb_id b1) (first_arrival_ns b1) (total_len b1) (frags b1)
                    (frag_offsets b1) (frag_lens b1) (frag_count b1) in
        Some (bs1.[k <- b2], XAIOS_OK, f5, 14 + XAIOS_IPV4_HEADER_SIZE + reasm_len)
      else Some (bs1.[k <- b1], XAIOS_ERR_INVALID, f, frame_len)
  end.

(** ** Boot tests *)

(** [ipv4_self_test]: [None] is a failed assertion or an access out of bounds. *)
Definition ipv4_self_test : option unit :=
  hdr ← ipv4_build_header (replicate 20 0) 40 XAIOS_IPV4_PROTO_UDP 0x0a00020f 0x0a000202;
  c ← ipv4_checksum hdr 20;
  p ← ipv4_pseudo_checksum 0x0a00020f 0x0a000202 XAIOS_IPV4_PROTO_UDP 4 [0; 1; 0; 2] 4;
  if (hdr.[0] =? 0x45) && (hdr.[8] =? 64) && (hdr.[9] =? XAIOS_IPV4_PROTO_UDP) && (c =? 0) && negb (p =? 0)
  then Some () else None.

(** [ipv4_frag_self_test] on uninitialised stack contents [frame] and [out]. *)
Definition ipv4_frag_self_test (frame out : list Z) : option unit :=
  let src_mac := [0x02; 0; 0; 0; 0; 0x01] in
  let dst_mac := [0x52; 0x54; 0; 0x12; 0x35; 0x02] in
  f1 ← put_macs frame dst_mac src_mac;
  f2 ← put_be16 f1 12 0x0800;
  f3 ← through f2 14 (fun h => ipv4_build_header h (XAIOS_IPV4_HEADER_SIZE + 2000) 17 0x0a00020f 0x0a000202);
  f4 ← put_be16 f3 16 (XAIOS_IPV4_HEADER_SIZE + 2000);
  f5 ← for_opt (Z.to_nat 2000) 34 (fun i f => wr f i (Z.land i 0xFF)) f4;
  '(s, _, out_len) ← ipv4_fragment (Some f5) (Some out) 2034 0 2048;
  if is_ok s && (0 <? out_len) then Some () else None.

(** ** The header *)

(** The twenty bytes of RFC 791, with identification [id], flags and offset
    [fo] and checksum [c]. *)
Definition header (total id fo protocol src dst c : Z) : list Z :=
  [0x45; 0; u8 (Z.shiftr total 8); u8 total; u8 (Z.shiftr id 8); u8 id; u8 (Z.shiftr fo 8); u8 fo; 64; u8 protocol;
   u8 (Z.shiftr c 8); u8 c; u8 (Z.shiftr src 24); u8 (Z.shiftr src 16); u8 (Z.shiftr src 8); u8 src;
   u8 (Z.shiftr dst 24); u8 (Z.shiftr dst 16); u8 (Z.shiftr dst 8); u8 dst].

(** The header with the checksum the code computes. *)
Definition sealed (total id fo protocol src dst : Z) : list Z :=
  header total id fo protocol src dst (complement (words (header total id fo protocol src dst 0))).

Lemma bytes_header total id fo protocol src dst c : bytes (header total id fo protocol src dst c).
Proof. unfold header, bytes. repeat constructor; unfold byte; try lia; apply u8_range. Qed.

Lemma words_header total id fo protocol src dst c :
  0 <= c < 65536 ->
  words (header total id fo protocol src dst c) = words (header total id fo protocol src dst 0) + c.
Proof.
  intros Hc. unfold header. simpl words. pose proof (u8_be16 c Hc).
  change (u8 (Z.shiftr 0 8)) with 0. change (u8 0) with 0. lia.
Qed.

Lemma complement_range s : 0 <= s < 18446744073709551616 -> 0 <= complement s < 65536.
Proof. intros. rewrite complement_residue by done. pose proof (residue_bound s). lia. Qed.

Lemma words_sealed total id fo protocol src dst :
  complement (words (sealed total id fo protocol src dst)) = 0.
Proof.
  unfold sealed. pose proof (words_bound _ (bytes_header total id fo protocol src dst 0)) as H.
  change (zlen _) with 20 in H. rewrite words_header by (apply complement_range; lia).
  apply complement_seals. lia.
Qed.

Lemma checksum_ok data n :
  bytes data -> 0 <= n <= zlen data -> n < 4294967296 ->
  ipv4_checksum data n = Some (complement (words (take (Z.to_nat n) data))).
Proof. intros. unfold ipv4_checksum. rewrite add_words_ok by (done || lia). done. Qed.

#[local] Arguments u8 : simpl never.
#[local] Arguments Z.shiftr : simpl never.

(** Run a header builder on a buffer of twenty named bytes. *)
Ltac run_builder :=
  let Hck := fresh "Hck" in
  unfold put_be16, put_be32, wr, rd;
  pose proof checksum_ok as Hck; revert Hck; generalize ipv4_checksum; intros ? Hck; simpl.

Lemma build_header_ok hdr total protocol src dst :
  bytes hdr -> 20 <= zlen hdr ->
  ipv4_build_header hdr total protocol src dst = Some (sealed total 0 0x4000 protocol src dst ++ drop 20 hdr).
Proof.
  intros Hb Hl. explode hdr 20. unfold ipv4_build_header. run_builder.
  transitivity (c ← o (header total 0 0x4000 protocol src dst 0 ++ hdr) 20;
                Some (header total 0 0x4000 protocol src dst c ++ hdr)); [reflexivity|].
  rewrite Hck; [reflexivity| |unfold zlen; simpl; lia|done].
  apply bytes_app; [apply bytes_header|]. by apply (bytes_drop _ 20) in Hb.
Qed.

Lemma build_header_zlen hdr total protocol src dst h :
  ipv4_build_header hdr total protocol src dst = Some h -> zlen h = zlen hdr.
Proof.
  unfold ipv4_build_header. intros H.
  repeat match type of H with
  | ?e ≫= _ = Some _ => destruct e eqn:?; [|done]; simpl in H
  end.
  repeat match goal with
  | E : wr _ _ _ = Some _ |- _ => apply wr_zlen in E
  | E : put_be16 _ _ _ = Some _ |- _ => apply put_be16_zlen in E
  | E : put_be32 _ _ _ = Some _ |- _ => apply put_be32_zlen in E
  end. congruence.
Qed.

(** The flags and offset field of a fragment. *)
Definition frag_field (offset : Z) (more : bool) : Z :=
  u16 (Z.lor (if more then XAIOS_IPV4_FLAG_MF else 0) (u16 (offset / 8))).

Lemma fragment_header_ok ip this_frag id offset more protocol src dst :
  bytes ip -> 20 <= zlen ip ->
  fragment_header ip this_frag id offset more protocol src dst =
  Some (sealed (u16 (20 + this_frag)) id (frag_field offset more) protocol src dst ++ drop 20 ip).
Proof.
  intros Hb Hl. explode ip 20. unfold fragment_header. fold (frag_field offset more). run_builder.
  transitivity (c ← o (header (u16 (20 + this_frag)) id (frag_field offset more) protocol src dst 0 ++ ip) 20;
                Some (header (u16 (20 + this_frag)) id (frag_field offset more) protocol src dst c ++ ip)); [reflexivity|].
  rewrite Hck; [reflexivity| |unfold zlen; simpl; lia|done].
  apply bytes_app; [apply bytes_header|]. by apply (bytes_drop _ 20) in Hb.
Qed.

(** ** Validation *)

(** What RFC 791 asks of a received packet: version 4, a header of at least
    twenty bytes inside the datagram, the datagram inside the frame, a time to
    live and a sum of header words that is zero in one's complement. *)
Definition acceptable (f : list Z) (n : Z) : Prop :=
  let hl := 4 * (f.[14] mod 16) in
  let total := 256 * f.[16] + f.[17] in
  34 <= n /\ f.[14] / 16 = 4 /\ 20 <= hl <= total /\ 14 + total <= n /\ f.[22] <> 0 /\
  words (take (Z.to_nat hl) (at_ptr f 14)) mod 65535 = 0.

Lemma validate_exact f n :
  bytes f -> n <= zlen f ->
  exists r, ipv4_validate_incoming (Some f) n = Some r /\ (r = true <-> acceptable f n).
Proof.
  intros Hb Hn. unfold ipv4_validate_incoming, acceptable.
  destruct (Z.ltb_spec n 34) as [|H34]; [eexists; split; [done|]; split; [done|lia]|].
  assert (Hl : zlen (at_ptr f 14) = zlen f - 14) by (apply zlen_at_ptr; lia).
  rewrite (rd_ok _ 0), at_ptr_get by lia. bind_step.
  pose proof (bytes_get f 14 Hb) as B14. unfold byte in B14. change (14 + 0) with 14.
  change 0x0F with (2 ^ 4 - 1). rewrite land_low_mask, Z.shiftr_div_pow2 by lia. change (2 ^ 4) with 16.
  destruct (Z.eqb_spec (f.[14] / 16) 4); [|eexists; split; [done|]; split; [done|lia]]. simpl negb. cbv iota.
  destruct (Z.ltb_spec (f.[14] mod 16) 5); [eexists; split; [done|]; split; [done|lia]|].
  rewrite get_be16_ok by (auto with xaios; lia). rewrite !at_ptr_get by lia. bind_step.
  change (14 + 2) with 16. change (14 + (2 + 1)) with 17.
  case_if; [eexists; split; [done|]; split; [done|lia]|].
  case_if; [eexists; split; [done|]; split; [done|lia]|].
  rewrite (rd_ok _ 8), at_ptr_get by lia. bind_step. change (14 + 8) with 22.
  case_if; [eexists; split; [done|]; split; [done|lia]|].
  rewrite checksum_ok by (auto with xaios; dlia). bind_step.
  eexists. split; [done|]. rewrite Z.eqb_eq, (Z.mul_comm 4).
  pose proof (words_bound (take (Z.to_nat (f.[14] mod 16 * 4)) (at_ptr f 14)) ltac:(auto with xaios)) as Hw.
  rewrite complement_zero; [|unfold zlen in *; rewrite length_take in Hw; dlia].
  split; [intros [? ?]; repeat split; (lia || dlia)|]. intros (_ & _ & _ & _ & _ & Hm). split; [|done].
  pose proof (words_first (take (Z.to_nat (f.[14] mod 16 * 4)) (at_ptr f 14)) ltac:(auto with xaios)) as Hf.
  unfold zlen in Hf at 1. rewrite length_take in Hf. unfold zlen in Hl. specialize (Hf ltac:(dlia)).
  rewrite lookup_total_take_lt, at_ptr_get in Hf by dlia. change (14 + 0) with 14 in Hf. dlia.
Qed.

(** ** A header in its frame *)

(** A frame whose bytes 14 to 33 are a sealed header. *)
Lemma sealed_fields (p t f : list Z) total id fo protocol src dst :
  f = p ++ sealed total id fo protocol src dst ++ t -> zlen p = 14 -> bytes p -> bytes t ->
  0 <= total < 65536 -> 0 <= id < 65536 -> 0 <= fo < 65536 -> byte protocol ->
  0 <= src < 4294967296 -> 0 <= dst < 4294967296 ->
  bytes f /\ rd f 23 = Some protocol /\ get_be16 f 16 = Some total /\ get_be16 f 18 = Some id /\
  get_be16 f 20 = Some fo /\ get_be32 f 26 = Some src /\ get_be32 f 30 = Some dst /\
  (20 <= total -> forall n, 14 + total <= n -> n <= zlen f -> acceptable f n).
Proof.
  intros -> Hp Hbp Hbt Ht Hid Hfo Hpr Hs Hd.
  set (s := sealed total id fo protocol src dst).
  assert (Hbs : bytes s) by apply bytes_header.
  assert (Hbf : bytes (p ++ s ++ t)) by auto with xaios.
  assert (Hls : zlen s = 20) by done.
  assert (Hl : zlen (p ++ s ++ t) = 34 + zlen t) by (rewrite !zlen_app; lia).
  assert (Hg : forall k, 14 <= k < 34 -> (p ++ s ++ t).[k] = s.[k - 14]) by (intros; apply (mid_get _ _ _ 14); lia).
  assert (0 <= zlen t) by zlia.
  split; [done|]. split; [rewrite rd_ok, Hg by lia; change (s.[23 - 14]) with (u8 protocol); by rewrite u8_small|].
  rewrite !get_be16_ok, !get_be32_ok by (done || lia). rewrite !Hg by lia.
  split; [f_equal; by apply u8_be16|]. split; [f_equal; by apply u8_be16|]. split; [f_equal; by apply u8_be16|].
  split; [f_equal; by apply u8_be32|]. split; [f_equal; by apply u8_be32|].
  intros H20 n Hn1 Hn2. unfold acceptable. rewrite !Hg by lia.
  change (s.[16 - 14]) with (u8 (Z.shiftr total 8)). change (s.[17 - 14]) with (u8 total). rewrite u8_be16 by done.
  change (s.[14 - 14]) with 69. change (s.[22 - 14]) with 64.
  split_and!; try done; try (change (69 mod 16) with 5; lia).
  rewrite (at_ptr_app _ _ 14) by done. change (Z.to_nat (4 * (69 mod 16))) with 20%nat.
  rewrite take_app_le by (unfold zlen in Hls; lia). rewrite take_ge by (unfold zlen in Hls; lia).
  pose proof (words_sealed total id fo protocol src dst) as Hw. apply complement_zero in Hw as [_ Hw]; [done|].
  pose proof (words_bound s Hbs). fold s. lia.
Qed.

(** ** Fragments *)

(** The [k]-th piece of a payload and the number of pieces. *)
Definition piece (payload : list Z) (k : Z) : list Z :=
  take (Z.to_nat per_frag) (drop (Z.to_nat (per_frag * k)) payload).
Definition pieces (payload : list Z) : Z := (zlen payload + (per_frag - 1)) / per_frag.

(** The frame of the [k]-th piece. *)
Definition fragment_frame (p : packet) (payload : list Z) (k : Z) : list Z :=
  (take 12 (p_frame p) ++ [8; 0]) ++
  sealed (20 + zlen (piece payload k)) (p_id p) (frag_field (per_frag * k) (k + 1 <? pieces payload))
    (p_proto p) (p_src p) (p_dst p) ++ piece payload k.

Lemma zlen_piece payload k :
  0 <= k -> per_frag * k <= zlen payload -> zlen (piece payload k) = Z.min per_frag (zlen payload - per_frag * k).
Proof. unfold piece, per_frag, zlen. intros. rewrite length_take, length_drop. lia. Qed.

Lemma pieces_upto payload m : 0 <= m <= pieces payload ->
  concat (piece payload <$> seqZ 0 m) = take (Z.to_nat (per_frag * m)) payload.
Proof.
  intros [Hm1 Hm2]. revert Hm2. pattern m. apply natlike_ind; [done| |done].
  clear m Hm1. intros m Hm IH Hle. rewrite <- Z.add_1_r in *.
  rewrite (seqZ_app 0 m 1), fmap_app, concat_app, IH by lia.
  replace (seqZ (0 + m) 1) with [m] by (rewrite seqZ_cons, seqZ_nil by lia; f_equal; lia).
  simpl. rewrite app_nil_r. unfold piece. rewrite take_take_drop. f_equal. unfold per_frag. lia.
Qed.

Lemma pieces_cover payload : concat (piece payload <$> seqZ 0 (pieces payload)) = payload.
Proof.
  assert (0 <= zlen payload) by zlia.
  rewrite pieces_upto by (unfold pieces, per_frag; dlia). apply take_ge. unfold pieces, per_frag, zlen in *. dlia.
Qed.

Lemma zlen_fragment_frame p payload k :
  12 <= zlen (p_frame p) -> zlen (fragment_frame p payload k) = 34 + zlen (piece payload k).
Proof.
  intros. assert (zlen (take 12 (p_frame p)) = 12) by (unfold zlen in *; rewrite length_take; lia).
  unfold fragment_frame. rewrite !zlen_app. change (zlen (sealed _ _ _ _ _ _)) with 20. change (zlen [8; 0]) with 2. lia.
Qed.

Lemma piece_source (f payload : list Z) len k :
  payload = take (Z.to_nat len) (at_ptr f 34) -> 0 <= k -> zlen payload = len -> per_frag * k <= len ->
  take (Z.to_nat (zlen (piece payload k))) (at_ptr f (34 + per_frag * k)) = piece payload k.
Proof.
  intros Hpay Hk Hl Hle. rewrite zlen_piece by lia. unfold piece, at_ptr, per_frag in *. rewrite Hl, Hpay.
  replace (Z.to_nat len) with (Z.to_nat (1392 * k) + Z.to_nat (len - 1392 * k))%nat by lia.
  rewrite <- take_drop_commute, take_take, drop_drop. f_equal; [lia|]. f_equal. lia.
Qed.

Lemma write_fragment_ok p payload payload_len out written k more :
  bytes (p_frame p) -> bytes out -> payload = take (Z.to_nat payload_len) (at_ptr (p_frame p) 34) ->
  zlen payload = payload_len -> 34 + payload_len <= zlen (p_frame p) ->
  0 <= k -> per_frag * k <= payload_len -> 0 <= written -> written + 34 + zlen (piece payload k) <= zlen out ->
  write_fragment p out written (zlen (piece payload k)) (per_frag * k) more =
  Some (take (Z.to_nat written) out ++
        ((take 12 (p_frame p) ++ [8; 0]) ++
         sealed (20 + zlen (piece payload k)) (p_id p) (frag_field (per_frag * k) more)
           (p_proto p) (p_src p) (p_dst p) ++ piece payload k) ++
        drop (Z.to_nat (written + 34 + zlen (piece payload k))) out).
Proof.
  intros Hbf Hbo Hpay Hpl Hfl Hk Hoff Hw Hcap. pose proof (zlen_piece payload k Hk ltac:(lia)) as Hlp.
  pose proof (piece_source (p_frame p) payload payload_len k Hpay Hk Hpl Hoff) as Hps.
  set (n := zlen (piece payload k)) in *. assert (Hn0 : 0 <= n) by (unfold n; zlia).
  unfold write_fragment. assert (0 <= zlen payload) by zlia. rewrite read_bytes_ok by lia. bind_step.
  set (f := p_frame p) in *. set (pre := take (Z.to_nat written) out). set (rest := at_ptr out written).
  assert (Hpre : zlen pre = written) by (apply zlen_take; lia).
  assert (Hrest : zlen rest = zlen out - written) by (apply zlen_at_ptr; lia).
  assert (Hbr : bytes rest) by (by apply bytes_at_ptr).
  assert (Hm : zlen (take 12 f) = 12) by (apply (zlen_take f 12); lia).
  replace out with (pre ++ rest) at 1 by apply take_drop.
  assert (Hd : forall j : nat, Z.of_nat j <= 34 -> zlen (drop j rest) = zlen out - written - Z.of_nat j).
  { intros j Hj. replace j with (Z.to_nat (Z.of_nat j)) at 1 by lia. rewrite zlen_drop; lia. }
  change (Z.to_nat 12) with 12%nat.
  erewrite through_app; [|done|apply put_macs_ok; auto with xaios; rewrite ?zlen_at_ptr; lia]. bind_step.
  replace (take 6 (take 12 f) ++ take 6 (at_ptr (take 12 f) 6) ++ drop 12 rest) with (take 12 f ++ drop 12 rest).
  2:{ rewrite (app_assoc (take 6 _)). unfold at_ptr. change (Z.to_nat 6) with 6%nat. rewrite take_take_drop, take_take. done. }
  rewrite app_assoc, put_be16_mid by (rewrite ?zlen_app, ?Hd; lia). bind_step.
  change [u8 (Z.shiftr 2048 8); u8 2048] with [8; 0]. rewrite drop_drop. change (12 + 2)%nat with 14%nat.
  rewrite app_assoc. erewrite through_app; [|rewrite !zlen_app; change (zlen [8; 0]) with 2; lia|].
  2:{ apply fragment_header_ok; [auto with xaios|]. rewrite Hd; lia. }
  bind_step. rewrite drop_drop. change (14 + 20)%nat with 34%nat.
  rewrite app_assoc. erewrite through_app; [|rewrite !zlen_app; change (zlen [8; 0]) with 2; change (zlen (sealed _ _ _ _ _ _)) with 20; lia|].
  2:{ apply bytes_copy_ok; [auto with xaios|rewrite Hd; lia|].
      unfold XAIOS_IPV4_HEADER_SIZE. rewrite zlen_at_ptr; unfold per_frag in *; lia. }
  replace (u16 (20 + n)) with (20 + n) by (unfold u16; rewrite Z.mod_small; unfold per_frag in *; lia).
  change (14 + XAIOS_IPV4_HEADER_SIZE) with 34. rewrite Hps. unfold rest, at_ptr.
  rewrite !drop_drop, <- !app_assoc. do 7 f_equal. lia.
Qed.

(** One round writes one frame. *)
Lemma fragment_round fuel p payload_len cap k written out out_len payload :
  bytes (p_frame p) -> bytes out -> payload = take (Z.to_nat payload_len) (at_ptr (p_frame p) 34) ->
  34 + payload_len <= zlen (p_frame p) -> 0 <= k -> per_frag * k < payload_len ->
  0 <= written -> written + 34 + zlen (piece payload k) <= cap -> cap <= zlen out -> zlen out < 9223372036854775808 ->
  fragment_loop (S fuel) p payload_len cap (per_frag * k) written out out_len =
  let w := written + 34 + zlen (piece payload k) in
  fragment_loop fuel p payload_len cap (per_frag * k + zlen (piece payload k)) w
    (take (Z.to_nat written) out ++ fragment_frame p payload k ++ drop (Z.to_nat w) out) w.
Proof.
  intros Hbf Hbo Hpay Hfl Hk Hoff Hw Hcap Hout Hbig.
  assert (H0 : 0 < payload_len) by (unfold per_frag in *; lia).
  assert (Hpl : zlen payload = payload_len).
  { rewrite Hpay. apply zlen_take. rewrite zlen_at_ptr; lia. }
  pose proof (zlen_piece payload k Hk ltac:(lia)) as Hlp.
  assert (Hn : (if per_frag <? payload_len - per_frag * k then per_frag else payload_len - per_frag * k) =
               zlen (piece payload k)).
  { unfold per_frag in *. case_if; lia. }
  assert (Hmore : (per_frag * k + zlen (piece payload k) <? payload_len) = (k + 1 <? pieces payload)).
  { unfold pieces. rewrite Hpl. unfold per_frag in *. dlia. }
  cbn [fragment_loop]. rewrite (proj2 (Z.ltb_lt _ _) Hoff). cbn [negb]. rewrite Hn, Hmore.
  assert (0 <= zlen (piece payload k)) by zlia.
  replace (written + (14 + XAIOS_IPV4_HEADER_SIZE + zlen (piece payload k))) with (written + 34 + zlen (piece payload k))
    by (unfold XAIOS_IPV4_HEADER_SIZE; lia).
  rewrite u64_small, (proj2 (Z.ltb_ge _ _)) by lia.
  by rewrite (write_fragment_ok p payload payload_len) by (done || lia).
Qed.

Lemma bytes_fragment_frame p payload k : bytes (p_frame p) -> bytes payload -> bytes (fragment_frame p payload k).
Proof.
  intros Hf Hp. unfold fragment_frame, sealed, piece.
  apply bytes_app; [apply bytes_app; [auto with xaios|by apply (bool_decide_unpack _)]|].
  apply bytes_app; [apply bytes_header|auto with xaios].
Qed.

(** The frames of the pieces [k], ..., [k + j - 1]. *)
Definition frames (p : packet) (payload : list Z) (k : Z) (j : nat) : list Z :=
  concat (fragment_frame p payload <$> seqZ k (Z.of_nat j)).

Lemma frames_S p payload k j : frames p payload k (S j) = fragment_frame p payload k ++ frames p payload (k + 1) j.
Proof. unfold frames. rewrite seqZ_cons by lia. simpl. do 3 f_equal. unfold Z.succ. f_equal; lia. Qed.

(** What a round leaves in the buffer, seen from the next one. *)
Lemma round_layout (out fr l : list Z) written w need :
  0 <= written -> zlen (take (Z.to_nat written) out ++ fr) = w -> w <= need ->
  let o := take (Z.to_nat written) out ++ fr ++ drop (Z.to_nat w) out in
  take (Z.to_nat w) o ++ l ++ drop (Z.to_nat need) o =
  take (Z.to_nat written) out ++ (fr ++ l) ++ drop (Z.to_nat need) out.
Proof.
  intros H0 Hw Hn. cbv zeta. rewrite (app_assoc (take _ out) fr).
  rewrite take_app_length' by zlia. rewrite drop_app_ge by zlia. rewrite drop_drop, <- !app_assoc. do 4 f_equal. zlia.
Qed.

(** Enough fuel for a round leaves enough for the next one. *)
Lemma round_fuel payload k j cap written fuel :
  0 <= k -> Z.of_nat (S j) = pieces payload - k -> 0 <= written ->
  written + 34 + zlen (piece payload k) <= cap -> (cap - written) / 1426 + 2 <= Z.of_nat (S fuel) ->
  (if j then 1 else (cap - (written + 34 + zlen (piece payload k))) / 1426 + 2) <= Z.of_nat fuel.
Proof.
  intros Hk Hj Hw Hfit Hf. assert (0 <= zlen (piece payload k)) by zlia. destruct j as [|j]; [dlia|].
  assert (0 <= zlen payload) by zlia. unfold pieces in Hj.
  rewrite zlen_piece in * by (unfold per_frag in *; dlia). unfold per_frag in *. dlia.
Qed.

(** The loop from the [k]-th piece on: all frames are written when they fit,
    and running out of capacity is reported otherwise. *)
Lemma fragment_loop_ok p payload_len cap payload j : forall fuel k written out out_len,
  bytes (p_frame p) -> bytes out -> payload = take (Z.to_nat payload_len) (at_ptr (p_frame p) 34) ->
  0 <= payload_len -> 34 + payload_len <= zlen (p_frame p) -> cap <= zlen out -> zlen out < 9223372036854775808 ->
  0 <= k -> Z.of_nat j = pieces payload - k -> 0 <= written <= cap ->
  (if j then 1 else (cap - written) / 1426 + 2) <= Z.of_nat fuel ->
  let need := written + zlen (frames p payload k j) in
  match fragment_loop fuel p payload_len cap (Z.min (per_frag * k) payload_len) written out out_len with
  | Some (XAIOS_OK, out', len) =>
      need <= cap /\ out' = take (Z.to_nat written) out ++ frames p payload k j ++ drop (Z.to_nat need) out /\
      len = if j then out_len else need
  | Some (XAIOS_ERR_NO_MEMORY, _, _) => cap < need
  | _ => False
  end.
Proof.
  induction j as [|j IH]; intros fuel k written out out_len Hbf Hbo Hpay H0 Hfl Hcap Hbig Hk Hj Hw Hfuel;
    cbv iota in Hfuel; destruct fuel as [|fuel]; try dlia.
  all: assert (Hpl : zlen payload = payload_len) by (rewrite Hpay; apply zlen_take; rewrite zlen_at_ptr; lia).
  - unfold pieces in Hj. rewrite Hpl in Hj. cbn [fragment_loop].
    rewrite (proj2 (Z.ltb_ge _ _)) by (unfold per_frag in *; dlia). simpl.
    unfold zlen. simpl. rewrite Z.add_0_r, take_drop. split_and!; [lia|done..].
  - assert (Hoff : per_frag * k < payload_len) by (unfold pieces in Hj; rewrite Hpl in Hj; unfold per_frag in *; dlia).
    pose proof (zlen_piece payload k Hk ltac:(lia)) as Hlp. pose proof (zlen_fragment_frame p payload k ltac:(lia)) as Hlf.
    assert (Hfr : 0 <= zlen (frames p payload (k + 1) j)) by zlia. assert (Hp0 : 0 <= zlen (piece payload k)) by zlia.
    rewrite frames_S, zlen_app, Hlf, Z.min_l by lia.
    destruct (Z.le_gt_cases (written + 34 + zlen (piece payload k)) cap) as [Hfit|Hno].
    + rewrite (fragment_round fuel p payload_len cap k written out out_len payload) by (done || lia). cbv zeta.
      pose proof (round_fuel payload k j cap written fuel Hk Hj ltac:(lia) Hfit Hfuel) as Hfuel'.
      set (w := written + 34 + zlen (piece payload k)) in *. set (o := take _ _ ++ _).
      assert (Hw' : zlen (take (Z.to_nat written) out ++ fragment_frame p payload k) = w)
        by (rewrite zlen_app, Hlf, zlen_take by lia; unfold w; lia).
      assert (Ho : zlen o = zlen out) by (unfold o; rewrite app_assoc, zlen_app, Hw', zlen_drop by lia; lia).
      assert (Hbo' : bytes o).
      { unfold o. apply bytes_app; [auto with xaios|]. apply bytes_app; [|auto with xaios].
        apply bytes_fragment_frame; [done|]. rewrite Hpay. auto with xaios. }
      specialize (IH fuel (k + 1) w o w Hbf Hbo' Hpay H0 Hfl ltac:(lia) ltac:(lia) ltac:(lia) ltac:(lia) ltac:(lia) Hfuel').
      cbv zeta in IH.
      replace (per_frag * k + zlen (piece payload k)) with (Z.min (per_frag * (k + 1)) payload_len) by (unfold per_frag in *; lia).
      replace (written + (34 + zlen (piece payload k) + zlen (frames p payload (k + 1) j)))
        with (w + zlen (frames p payload (k + 1) j)) by (unfold w; lia).
      destruct (fragment_loop _ _ _ _ _ _ _ _) as [[[[] o'] l']|]; try done.
      destruct IH as (Hle & -> & ->). split; [done|]. split; [apply round_layout; lia|].
      destruct j; [|done]. unfold frames, zlen. simpl. lia.
    + cbn [fragment_loop]. rewrite (proj2 (Z.ltb_lt _ _) Hoff). cbn [negb].
      rewrite (proj2 (Z.ltb_lt _ _)); [lia|]. rewrite u64_small; unfold XAIOS_IPV4_HEADER_SIZE; case_if; unfold per_frag in *; lia.
Qed.

(** Every fragment is a datagram of its own: it passes validation, keeps the
    identification and protocol, and says where its piece belongs. *)
Lemma fragment_frame_valid p payload k :
  bytes (p_frame p) -> bytes payload -> 12 <= zlen (p_frame p) -> zlen payload < 65516 -> 0 <= k < pieces payload ->
  0 <= p_id p < 65536 -> byte (p_proto p) -> 0 <= p_src p < 4294967296 -> 0 <= p_dst p < 4294967296 ->
  let g := fragment_frame p payload k in
  ipv4_validate_incoming (Some g) (zlen g) = Some true /\ at_ptr g 34 = piece payload k /\
  get_be16 g 16 = Some (20 + zlen (piece payload k)) /\ get_be16 g 18 = Some (p_id p) /\ rd g 23 = Some (p_proto p) /\
  get_be16 g 20 = Some (per_frag * k / 8 + if k + 1 <? pieces payload then XAIOS_IPV4_FLAG_MF else 0).
Proof.
  intros Hf Hp H12 Hpl Hk Hid Hpr Hs Hd. cbv zeta.
  assert (H0 : 0 <= zlen payload) by zlia. unfold pieces in Hk.
  pose proof (zlen_piece payload k ltac:(lia) ltac:(unfold per_frag in *; dlia)) as Hlp.
  assert (Hp0 : 0 <= zlen (piece payload k)) by zlia.
  assert (Hff : frag_field (per_frag * k) (k + 1 <? pieces payload) =
                per_frag * k / 8 + if k + 1 <? pieces payload then XAIOS_IPV4_FLAG_MF else 0).
  { unfold frag_field, u16, per_frag, XAIOS_IPV4_FLAG_MF in *. rewrite (Z.mod_small (_ / _)) by dlia.
    case_if; [|rewrite Z.lor_0_l, Z.mod_small; dlia].
    change 8192 with (Z.shiftl 1 13). rewrite lor_shiftl by (change (2 ^ 13) with 8192; dlia).
    change (2 ^ 13) with 8192. change (Z.shiftl 1 13) with 8192. rewrite Z.mod_small; dlia. }
  assert (Hpre : zlen (take 12 (p_frame p) ++ [8; 0]) = 14).
  { rewrite zlen_app. change (zlen [8; 0]) with 2. rewrite (zlen_take _ 12); lia. }
  destruct (sealed_fields (take 12 (p_frame p) ++ [8; 0]) (piece payload k) (fragment_frame p payload k)
    (20 + zlen (piece payload k)) (p_id p) (frag_field (per_frag * k) (k + 1 <? pieces payload))
    (p_proto p) (p_src p) (p_dst p) eq_refl) as (Hbg & H23 & H16 & H18 & H20 & _ & _ & Hacc);
    [done| |unfold piece; auto with xaios|unfold per_frag in *; lia|done| |done..|].
  { apply bytes_app; [auto with xaios|by apply (bool_decide_unpack _)]. }
  { rewrite Hff. unfold per_frag, XAIOS_IPV4_FLAG_MF in *. case_if; dlia. }
  rewrite <- Hff. split_and!; try done.
  - pose proof (zlen_fragment_frame p payload k H12) as Hlf.
    destruct (validate_exact (fragment_frame p payload k) (zlen (fragment_frame p payload k))) as (r & -> & Hr);
      [done|lia|]. f_equal. apply Hr, Hacc; lia.
  - unfold fragment_frame. rewrite app_assoc. apply at_ptr_app. rewrite zlen_app, Hpre. reflexivity.
Qed.

(** The fields [ipv4_fragment] hands to its loop. *)
Definition loop_packet (f : list Z) : packet :=
  mk_packet f (256 * f.[18] + f.[19])
    (16777216 * f.[12] + 65536 * f.[13] + 256 * f.[14] + f.[15])
    (16777216 * f.[16] + 65536 * f.[17] + 256 * f.[18] + f.[19]) (f.[23]).

(** ** Defects *)

(** The source address of every fragment is taken from byte 12 of the frame,
    the EtherType and the first bytes of the IPv4 header, instead of byte 26. *)
Lemma fragment_source_wrong f payload k :
  bytes f -> bytes payload -> 34 <= zlen f -> zlen payload < 65516 -> 0 <= k < pieces payload ->
  f.[12] = 0x08 -> f.[13] = 0 -> f.[14] = 0x45 -> f.[15] = 0 ->
  get_be32 (fragment_frame (loop_packet f) payload k) 26 = Some 0x08004500.
Proof.
  intros Hf Hp H34 Hpl Hk E12 E13 E14 E15. assert (H0 : 0 <= zlen payload) by zlia.
  assert (Hby : forall i, byte (f.[i])) by auto with xaios. unfold byte in Hby. unfold pieces in Hk.
  pose proof (zlen_piece payload k ltac:(lia) ltac:(unfold per_frag in *; dlia)) as Hlp.
  assert (Hp0 : 0 <= zlen (piece payload k)) by zlia.
  destruct (sealed_fields (take 12 f ++ [8; 0]) (piece payload k) (fragment_frame (loop_packet f) payload k)
    (20 + zlen (piece payload k)) (256 * f.[18] + f.[19]) (frag_field (per_frag * k) (k + 1 <? pieces payload))
    (f.[23]) 0x08004500 (16777216 * f.[16] + 65536 * f.[17] + 256 * f.[18] + f.[19]))
    as (_ & _ & _ & _ & _ & H26 & _); [| | |unfold piece; auto with xaios|unfold per_frag in *; lia| | |auto with xaios|lia| |done].
  - unfold fragment_frame, loop_packet. simpl. by rewrite E12, E13, E14, E15.
  - rewrite zlen_app. change (zlen [8; 0]) with 2. rewrite (zlen_take _ 12); lia.
  - apply bytes_app; [auto with xaios|by apply (bool_decide_unpack _)].
  - pose proof (Hby 18). pose proof (Hby 19). lia.
  - unfold frag_field, u16. apply Z.mod_pos_bound. lia.
  - pose proof (Hby 16). pose proof (Hby 17). pose proof (Hby 18). pose proof (Hby 19). lia.
Qed.

(** Two fragments of eight bytes: the second has offset 1, in units of eight
    bytes.  Reassembly reports a payload of nine bytes instead of sixteen. *)
Definition two_fragments : option (xaios_status * Z) :=
  let frame fo := replicate 14 0 ++ [0x45; 0; 0; 28; 0; 7] ++ fo ++ [64; 17] ++ replicate 10 0 ++ replicate (Z.to_nat 1478) 5 in
  '(bs, _, _, _) ← ipv4_reassemble zero_buckets (Some (frame [0x20; 0])) 42;
  '(_, st, _, len) ← ipv4_reassemble bs (Some (frame [0; 1])) 42;
  Some (st, len).

Lemma reassembly_offset_unit : two_fragments = Some (XAIOS_OK, 34 + 9).
Proof. vm_compute. reflexivity. Qed.

(** The fragmentation test fills 2034 bytes of a 1520-byte array. *)
Lemma frag_self_test_overruns frame out : bytes frame -> zlen frame = 1520 -> ipv4_frag_self_test frame out = None.
Proof.
  intros Hb Hl. unfold ipv4_frag_self_test.
  rewrite put_macs_ok; [bind_step|by apply (bool_decide_unpack _)|by apply (bool_decide_unpack _)|done|done|lia].
  set (m := take 6 _ ++ take 6 _ ++ _).
  pose proof (zlen_drop frame 12 ltac:(lia)) as Hd.
  assert (Hm : zlen m = 1520) by (unfold m; rewrite !zlen_app; change (drop (Z.to_nat 12) frame) with (drop 12 frame) in Hd; rewrite Hd, Hl; done).
  destruct (put_be16 m 12 _) as [f2|] eqn:E2; [|done]. bind_step. apply put_be16_zlen in E2.
  destruct (through f2 14 _) as [f3|] eqn:E3; [|done]. bind_step.
  assert (H3 : zlen f3 = 1520).
  { unfold through in E3. destruct (ipv4_build_header _ _ _ _ _) as [t|] eqn:E; [|done]. injection E3 as <-.
    apply build_header_zlen in E. rewrite zlen_app, E, zlen_at_ptr, (zlen_take f2 14) by lia. lia. }
  destruct (put_be16 f3 16 _) as [f4|] eqn:E4; [|done]. bind_step. apply put_be16_zlen in E4.
  by rewrite fill_overrun by lia.
Qed.

(** What [ipv4_fragment] writes, with its frames. *)
Lemma fragment_writes (f out : list Z) (n out_len cap : Z) :
  let total := 256 * f.[16] + f.[17] in
  let payload := take (Z.to_nat (total - 20)) (at_ptr f 34) in
  let p := loop_packet f in
  let all := if total - 20 <=? 1400 then take (Z.to_nat n) f else frames p payload 0 (Z.to_nat (pieces payload)) in
  bytes f -> bytes out -> 20 <= total -> 14 + total <= n -> n <= zlen f -> 0 <= cap <= zlen out ->
  zlen out < 9223372036854775808 ->
  (if zlen all <=? cap
   then ipv4_fragment (Some f) (Some out) n out_len cap = Some (XAIOS_OK, all ++ drop (length all) out, zlen all)
   else exists o l, ipv4_fragment (Some f) (Some out) n out_len cap = Some (XAIOS_ERR_NO_MEMORY, o, l)) /\
  (forall k, 0 <= k < pieces payload ->
     let g := fragment_frame p payload k in
     ipv4_validate_incoming (Some g) (zlen g) = Some true /\ at_ptr g 34 = piece payload k /\
     get_be16 g 16 = Some (20 + zlen (piece payload k)) /\ get_be16 g 18 = get_be16 f 18 /\ rd g 23 = rd f 23 /\
     get_be16 g 20 = Some (per_frag * k / 8 + if k + 1 <? pieces payload then XAIOS_IPV4_FLAG_MF else 0)).
Proof.
  intros total payload p all Hbf Hbo Ht Hn Hnf Hcap Hbig.
  assert (Hby : forall i, byte (f.[i])) by auto with xaios. unfold byte in Hby.
  pose proof (Hby 12). pose proof (Hby 13). pose proof (Hby 14). pose proof (Hby 15). pose proof (Hby 16).
  pose proof (Hby 17). pose proof (Hby 18). pose proof (Hby 19). pose proof (Hby 23).
  assert (Hpl : zlen payload = total - 20) by (apply zlen_take; rewrite zlen_at_ptr; lia).
  split.
  - unfold ipv4_fragment. rewrite (proj2 (Z.ltb_ge n 34)), (get_be16_ok f 16) by (done || lia). bind_step.
    change (16 + 1) with 17. fold total. change XAIOS_IPV4_HEADER_SIZE with 20. rewrite u64_small by lia.
    unfold all. destruct (Z.leb_spec (total - 20) 1400) as [Hs|Hs].
    + rewrite zlen_take by lia. destruct (Z.leb_spec n cap).
      * rewrite (proj2 (Z.ltb_ge _ _)), bytes_copy_ok by (done || lia). bind_step.
        rewrite length_take, Nat.min_l by zlia. done.
      * rewrite (proj2 (Z.ltb_lt _ _)) by lia. by eexists _, _.
    + rewrite get_be16_ok, !get_be32_ok, rd_ok by (done || lia). bind_step. fold (loop_packet f). fold p.
      assert (Hp : 0 < pieces payload) by (unfold pieces, per_frag; rewrite Hpl; dlia).
      pose proof (fragment_loop_ok p (total - 20) cap payload (Z.to_nat (pieces payload))
        (Z.to_nat (cap / 1426 + 2)) 0 0 out out_len Hbf Hbo eq_refl) as Hlo.
      change (per_frag * 0) with 0 in Hlo. rewrite Z.min_l, Z.add_0_l in Hlo by lia. cbv zeta in Hlo.
      destruct (Z.to_nat (pieces payload)) as [|j] eqn:Ej; [lia|].
      specialize (Hlo ltac:(lia) ltac:(simpl; lia) ltac:(lia) Hbig ltac:(lia) ltac:(lia) ltac:(lia) ltac:(rewrite Z.sub_0_r; dlia)).
      destruct (fragment_loop _ _ _ _ _ _ _ _) as [[[[] o] l]|]; try done.
      * destruct Hlo as (Hle & -> & ->). rewrite (proj2 (Z.leb_le _ _)) by lia. simpl. unfold zlen. by rewrite Nat2Z.id.
      * rewrite (proj2 (Z.leb_gt _ _)) by lia. by eexists _, _.
  - intros k Hk. cbv zeta. rewrite (get_be16_ok f 18), (rd_ok f 23) by (done || lia).
    apply (fragment_frame_valid p payload k); try done; try (simpl; lia).
    unfold payload. auto with xaios.
Qed.

(** The frames [gs] cut the payload of the frame [f]: each is accepted by
    [ipv4_validate_incoming] and keeps the Ethernet addresses, identification and
    protocol; it carries at least one and at most 1400 bytes, gives their number and,
    in units of eight, the number of bytes before them, and says whether more follow;
    together they carry the payload. *)
Definition cuts (f payload : list Z) (gs : list (list Z)) : Prop :=
  concat ((fun g => at_ptr g 34) <$> gs) = payload /\
  forall i g, gs !! i = Some g ->
    let before := concat ((fun g => at_ptr g 34) <$> take i gs) in
    ipv4_validate_incoming (Some g) (zlen g) = Some true /\
    take 12 g = take 12 f /\ get_be16 g 18 = get_be16 f 18 /\ rd g 23 = rd f 23 /\
    0 < zlen (at_ptr g 34) <= 1400 /\ get_be16 g 16 = Some (20 + zlen (at_ptr g 34)) /\
    zlen before mod 8 = 0 /\
    get_be16 g 20 = Some (zlen before / 8 + if bool_decide (S i < length gs)%nat then XAIOS_IPV4_FLAG_MF else 0).

Lemma carried_pieces p payload m :
  (forall k, 0 <= k < m -> at_ptr (fragment_frame p payload k) 34 = piece payload k) ->
  (fun g => at_ptr g 34) <$> (fragment_frame p payload <$> seqZ 0 m) = piece payload <$> seqZ 0 m.
Proof.
  intros H. rewrite <- list_fmap_compose. apply list_fmap_ext. intros i k Hk. apply lookup_seqZ in Hk as [-> Hi]. apply H. lia.
Qed.

Lemma frames_cut f payload : 12 <= zlen f ->
  (forall k, 0 <= k < pieces payload ->
     let g := fragment_frame (loop_packet f) payload k in
     ipv4_validate_incoming (Some g) (zlen g) = Some true /\ at_ptr g 34 = piece payload k /\
     get_be16 g 16 = Some (20 + zlen (piece payload k)) /\ get_be16 g 18 = get_be16 f 18 /\ rd g 23 = rd f 23 /\
     get_be16 g 20 = Some (per_frag * k / 8 + if k + 1 <? pieces payload then XAIOS_IPV4_FLAG_MF else 0)) ->
  cuts f payload (fragment_frame (loop_packet f) payload <$> seqZ 0 (pieces payload)).
Proof.
  intros H12 H. assert (H0 : 0 <= zlen payload) by zlia. split.
  { rewrite carried_pieces; [apply pieces_cover|]. intros k Hk. apply H, Hk. }
  intros i g Hg. rewrite list_lookup_fmap in Hg. apply fmap_Some in Hg as (k & Hk & ->).
  apply lookup_seqZ in Hk as [-> Hi]. set (k := 0 + Z.of_nat i).
  destruct (H k ltac:(lia)) as (Hv & Hp & H16 & H18 & H23 & H20).
  assert (Hlt : per_frag * k < zlen payload) by (unfold pieces, per_frag in *; dlia).
  pose proof (zlen_piece payload k ltac:(lia) ltac:(lia)) as Hlp.
  assert (Hbefore : zlen (concat ((fun g => at_ptr g 34) <$> take i (fragment_frame (loop_packet f) payload <$> seqZ 0 (pieces payload)))) = per_frag * k).
  { rewrite <- fmap_take. replace (pieces payload) with (k + (pieces payload - k)) by lia.
    rewrite seqZ_app, take_app_length' by (rewrite ?length_seqZ; lia). rewrite carried_pieces by (intros k' Hk'; apply H; lia).
    rewrite pieces_upto by lia. rewrite zlen_take; unfold k, per_frag in *; lia. }
  cbv zeta. rewrite Hbefore, Hp, Hlp, H16, Hlp, H20, length_fmap, length_seqZ.
  unfold per_frag in *. split_and!; try done; try lia; [|dlia|].
  - unfold fragment_frame. rewrite <- !app_assoc. rewrite take_app_le, take_take; [done|]. rewrite length_take.
    change (p_frame (loop_packet f)) with f. zlia.
  - do 2 f_equal. destruct (Z.ltb_spec (k + 1) (pieces payload)); [rewrite bool_decide_eq_true_2|rewrite bool_decide_eq_false_2]; done || lia.
Qed.


(** A frame with 1500 bytes of payload. *)
Definition long_frame : list Z := replicate 16 0 ++ [5; 240] ++ replicate (Z.to_nat 1516) 9.


(** The header written for an outgoing packet is valid for the receiver: it
    is built without leaving the buffer, touches only its twenty bytes, carries
    the given length, protocol and addresses, is no fragment, and
    [ipv4_validate_incoming] accepts the frame. *)
Theorem ipv4_header_accepted (b : list Z) (n total protocol src dst : Z) :
  bytes b -> n <= zlen b -> 20 <= total < 65536 -> 14 + total <= n -> byte protocol ->
  0 <= src < 4294967296 -> 0 <= dst < 4294967296 ->
  exists f, through b 14 (fun h => ipv4_build_header h total protocol src dst) = Some f /\
    zlen f = zlen b /\ take 14 f = take 14 b /\ drop 34 f = drop 34 b /\
    rd f 23 = Some protocol /\ get_be16 f 16 = Some total /\
    get_be32 f 26 = Some src /\ get_be32 f 30 = Some dst /\
    ipv4_is_fragment (Some f) n = Some false /\
    ipv4_validate_incoming (Some f) n = Some true.
Proof.
  intros Hb Hn Ht Hnt Hpr Hs Hd.
  assert (Hl : zlen (take 14 b) = 14) by (unfold zlen in *; rewrite length_take; lia).
  exists (take 14 b ++ sealed total 0 0x4000 protocol src dst ++ drop 34 b). split.
  { apply (through_ok _ 14). rewrite build_header_ok; [|auto with xaios|rewrite zlen_at_ptr; lia].
    unfold at_ptr. by rewrite drop_drop. }
  destruct (sealed_fields (take 14 b) (drop 34 b) _ total 0 0x4000 protocol src dst eq_refl)
    as (Hbf & H23 & H16 & _ & H20 & H26 & H30 & Hacc); [auto with xaios || lia..|].
  set (f := take 14 b ++ _) in *.
  assert (Hlf : zlen f = zlen b).
  { unfold f. rewrite !zlen_app, Hl. change (zlen (sealed _ _ _ _ _ _)) with 20.
    unfold zlen. rewrite length_drop. unfold zlen in *. lia. }
  split_and!; try done.
  - unfold f. by rewrite take_app_length' by (unfold zlen in Hl; lia).
  - unfold f. rewrite app_assoc. apply drop_app_length'. rewrite length_app. unfold zlen in Hl. simpl. lia.
  - unfold ipv4_is_fragment. rewrite (proj2 (Z.ltb_ge n 34)), H20 by lia. reflexivity.
  - destruct (validate_exact f n) as (r & -> & Hr); [done|lia|]. f_equal. apply Hr, Hacc; lia.
Qed.

Lemma ipv4_header_accepted_witness :
  exists f, through (replicate 60 7) 14 (fun h => ipv4_build_header h 40 17 0x0a00020f 0x0a000202) = Some f /\
    ipv4_validate_incoming (Some f) 54 = Some true.
Proof.
  destruct (ipv4_header_accepted (replicate 60 7) 54 40 17 0x0a00020f 0x0a000202)
    as (f & Hf & _ & _ & _ & _ & _ & _ & _ & _ & Hv);
    [by apply (bool_decide_unpack _)|vm_compute; congruence|lia|lia|unfold byte; lia|lia|lia|].
  by exists f.
Defined.

End Ipv4.
