(* ===== verification/Arp.v ===== *)
(** * ARP (kernel/net/arp.c, include/xaios/arp.h)

    The cache of 32 entries with least-recently-used replacement and aging, and
    the construction and processing of ARP frames.  A reading of the clock is
    an argument of the operation that takes it.  The specification of the cache
    is a finite map from addresses to Ethernet addresses with the times of the
    last update and use ([lru_step]); [arp_cache_refines] is the refinement over
    arbitrary sequences of operations, and [arp_reply_learned] shows that a
    reply built by one host teaches its address to the receiver. *)

From S2P Require Import Prelude Table Wire.

Module Arp.
Import Wire.

Definition XAIOS_ARP_CACHE_SIZE : Z := 32.
Definition XAIOS_ARP_TIMEOUT_SEC : Z := 300.
Definition XAIOS_ARP_ETHERNET : Z := 0x0001.
Definition XAIOS_ARP_IPV4 : Z := 0x0800.
Definition XAIOS_ARP_OP_REQUEST : Z := 1.
Definition XAIOS_ARP_OP_REPLY : Z := 2.

Record xaios_arp_entry := mk_entry {
  ip : Z;
  mac : list Z;
  active : Z;
  age_ns : Z;
  last_use_ns : Z
}.

Definition empty_entry : xaios_arp_entry := mk_entry 0 (replicate 6 0) 0 0 0.

#[global] Instance xaios_arp_entry_inhabited : Inhabited xaios_arp_entry := populate empty_entry.

Definition arp_init (c : list xaios_arp_entry) : list xaios_arp_entry := (fun _ => empty_entry) <$> c.

(** The static cache. *)
Definition cache0 : list xaios_arp_entry := replicate (Z.to_nat XAIOS_ARP_CACHE_SIZE) empty_entry.

Definition holds_ip (a : Z) (e : xaios_arp_entry) : bool := negb (active e =? 0) && (ip e =? a).

(** [for (i = found_idx; i > 0; --i) g_arp_cache[i] = g_arp_cache[i - 1U];]
    and [g_arp_cache[0] = tmp;] *)
Definition move_to_front (c : list xaios_arp_entry) (found_idx : Z) (tmp : xaios_arp_entry) : list xaios_arp_entry :=
  let c1 := for_range (Z.to_nat found_idx) 0 (fun k c => c.[found_idx - k <- c.[found_idx - k - 1]]) c in
  c1.[0 <- tmp].

(** [out]: whether the output pointer [mac] is not NULL. *)
Definition arp_cache_lookup (c : list xaios_arp_entry) (now a : Z) (out : bool)
    : list xaios_arp_entry * xaios_status * option (list Z) :=
  if negb out then (c, XAIOS_ERR_INVALID, None) else
  match find_idx (holds_ip a) c with
  | None => (c, XAIOS_ERR_NOT_FOUND, None)
  | Some i =>
      let e := c.[Z.of_nat i] in
      let tmp := mk_entry (ip e) (mac e) (active e) (age_ns e) now in
      (move_to_front c (Z.of_nat i) tmp, XAIOS_OK, Some (mac e))
  end.

(** The entry with the smallest time of use, [XAIOS_ARP_CACHE_SIZE] when every
    time is the largest 64-bit word. *)
Definition lru_victim (c : list xaios_arp_entry) : Z :=
  (for_range (Z.to_nat XAIOS_ARP_CACHE_SIZE) 0
     (fun i s => let '(oldest, slot) := s in
        let e := c.[i] in
        if negb (active e =? 0) && (last_use_ns e <? oldest) then (last_use_ns e, i) else s)
     (UINT64_MAX, XAIOS_ARP_CACHE_SIZE)).2.

(** [None] is the write to [g_arp_cache[32]]. *)
Definition arp_cache_insert (c : list xaios_arp_entry) (now a : Z) (mac : option (list Z))
    : option (list xaios_arp_entry * xaios_status) :=
  match mac with None => Some (c, XAIOS_ERR_INVALID) | Some m =>
  match find_idx (holds_ip a) c with
  | Some i =>
      Some (upd c (Z.of_nat i) (fun e => mk_entry (ip e) m (active e) now now), XAIOS_OK)
  | None =>
      let slot := match find_idx (fun e => active e =? 0) c with
                  | Some i => Z.of_nat i
                  | None => lru_victim c
                  end in
      if XAIOS_ARP_CACHE_SIZE <=? slot then None else
      Some (c.[slot <- mk_entry a m 1 now now], XAIOS_OK)
  end end.

Definition arp_cache_age (c : list xaios_arp_entry) (now : Z) : list xaios_arp_entry :=
  let timeout_ns := XAIOS_ARP_TIMEOUT_SEC * 1000000000 in
  (fun e =>
     if negb (active e =? 0) && (timeout_ns <? u64 (now - age_ns e))
     then mk_entry (ip e) (mac e) 0 (age_ns e) (last_use_ns e) else e) <$> c.

Definition arp_cache_count (c : list xaios_arp_entry) : Z :=
  for_range (Z.to_nat XAIOS_ARP_CACHE_SIZE) 0
    (fun i n => if active (c.[i]) =? 0 then n else n + 1) 0.

(** ** Frames *)

(** The fields that requests and replies share; the target address is left zero. *)
Definition arp_common (frame dst_mac src_mac : list Z) (op src_ip : Z) : option (list Z) :=
  f ← bytes_zero frame 42;
  f ← put_macs f dst_mac src_mac;
  f ← put_be16 f 12 0x0806;
  f ← put_be16 f 14 XAIOS_ARP_ETHERNET;
  f ← put_be16 f 16 XAIOS_ARP_IPV4;
  f ← wr f 18 6;
  f ← wr f 19 4;
  f ← put_be16 f 20 op;
  f ← put_mac f 22 src_mac;
  put_be32 f 28 src_ip.

Definition broadcast : list Z := replicate 6 0xff.

(** The frame buffer and [*frame_len] after the call. *)
Definition arp_build_request (frame src_mac : option (list Z)) (frame_len src_ip target_ip : Z)
    : option (xaios_status * list Z * Z) :=
  match frame, src_mac with
  | Some f, Some m =>
      f ← arp_common f broadcast m XAIOS_ARP_OP_REQUEST src_ip;
      f ← put_be32 f 38 target_ip;
      Some (XAIOS_OK, f, 42)
  | _, _ => Some (XAIOS_ERR_INVALID, default [] frame, frame_len)
  end.

Definition arp_build_reply (frame src_mac dst_mac : option (list Z)) (frame_len src_ip dst_ip : Z)
    : option (xaios_status * list Z * Z) :=
  match frame, src_mac, dst_mac with
  | Some f, Some m, Some d =>
      f ← arp_common f d m XAIOS_ARP_OP_REPLY src_ip;
      f ← put_mac f 32 d;
      f ← put_be32 f 38 dst_ip;
      Some (XAIOS_OK, f, 42)
  | _, _, _ => Some (XAIOS_ERR_INVALID, default [] frame, frame_len)
  end.

(** The announcement of the own address; [frame] is the uninitialised local array. *)
Definition arp_send_gratuitous `{NetDevice E} (e : E) (c : list xaios_arp_entry) (frame : list Z)
    (local_mac : option (list Z)) (local_ip : Z) : option (E * list xaios_arp_entry * xaios_status) :=
  match local_mac with
  | None => Some (e, c, XAIOS_ERR_INVALID)
  | Some m =>
      f ← arp_common frame broadcast m XAIOS_ARP_OP_REQUEST local_ip;
      f ← put_mac f 32 m;
      f ← put_be32 f 38 local_ip;
      let '(now, e1) := timer_now_ns e in
      '(c1, _) ← arp_cache_insert c now local_ip (Some m);
      '(e2, st) ← virtio_net_tx e1 f 42;
      Some (e2, c1, st)
  end.

Definition arp_process_reply (c : list xaios_arp_entry) (now : Z) (frame : option (list Z)) (frame_len : Z)
    : option (list xaios_arp_entry * xaios_status) :=
  match frame with
  | None => Some (c, XAIOS_ERR_INVALID)
  | Some f =>
      if frame_len <? 42 then Some (c, XAIOS_ERR_INVALID) else
      ethertype ← get_be16 f 12;
      if negb (ethertype =? 0x0806) then Some (c, XAIOS_ERR_INVALID) else
      op ← get_be16 f 20;
      if negb (op =? XAIOS_ARP_OP_REPLY) then Some (c, XAIOS_ERR_INVALID) else
      sender_ip ← get_be32 f 28;
      sender_mac ← read_bytes (at_ptr f 22) 6;
      arp_cache_insert c now sender_ip (Some sender_mac)
  end.

(** ** Boot test *)

(** [arp_self_test]: [times] are the readings of the clock, [frame] and
    [rep_frame] the uninitialised arrays.  [None] is a failed assertion. *)
Definition arp_self_test (c : list xaios_arp_entry) (t0 t1 t2 t3 t4 : Z) (frame rep_frame gratuitous : list Z)
    : option (list xaios_arp_entry) :=
  let check (b : bool) : option unit := if b then Some () else None in
  let c := arp_init c in
  let mac1 := [0x02; 0; 0; 0; 0; 0x01] in
  let gw_mac := [0x52; 0x54; 0; 0x12; 0x35; 0x02] in
  _ ← check (arp_cache_count c =? 0);
  let '(c, st, _) := arp_cache_lookup c t0 0x0a000202 true in
  _ ← check (status_eqb st XAIOS_ERR_NOT_FOUND);
  '(c, st) ← arp_cache_insert c t0 0x0a000202 (Some mac1);
  _ ← check (is_ok st && (arp_cache_count c =? 1));
  let '(c, st, out) := arp_cache_lookup c t1 0x0a000202 true in
  _ ← check (is_ok st && ((default [] out).[0] =? 0x02) && ((default [] out).[5] =? 0x01));
  '(st, f, len) ← arp_build_request (Some frame) (Some mac1) 0 0x0a00020f 0x0a000202;
  et ← get_be16 f 12;
  op ← get_be16 f 20;
  _ ← check (is_ok st && (len =? 42) && (et =? 0x0806) && (op =? XAIOS_ARP_OP_REQUEST));
  r ← put_be16 (replicate 42 0) 12 0x0806;
  r ← put_be16 r 14 XAIOS_ARP_ETHERNET;
  r ← put_be16 r 16 XAIOS_ARP_IPV4;
  r ← wr r 18 6;
  r ← wr r 19 4;
  r ← put_be16 r 20 XAIOS_ARP_OP_REPLY;
  r ← put_mac r 22 gw_mac;
  r ← put_be32 r 28 0x0a000202;
  '(c, st) ← arp_process_reply c t2 (Some r) 42;
  _ ← check (is_ok st && (arp_cache_count c =? 1));
  let '(c, st, out) := arp_cache_lookup c t3 0x0a000202 true in
  _ ← check (is_ok st && ((default [] out).[0] =? 0x52) && ((default [] out).[5] =? 0x02));
  '(st, f, len) ← arp_build_reply (Some rep_frame) (Some mac1) (Some gw_mac) 0 0x0a00020f 0x0a000202;
  op ← get_be16 f 20;
  _ ← check (is_ok st && (len =? 42) && (op =? XAIOS_ARP_OP_REPLY));
  let c := arp_cache_age c t4 in
  _ ← check (1 <=? arp_cache_count c);
  '(st, _, len) ← arp_build_request (Some gratuitous) (Some mac1) 0 0x0a00020f 0x0a00020f;
  _ ← check (is_ok st && (len =? 42));
  Some c.

(** ** Specification: a bounded map with least-recently-used replacement *)

(** Ethernet address, time of the last update, time of the last use. *)
Record cached := mk_cached { c_mac : list Z; c_age : Z; c_used : Z }.

Inductive arp_op :=
| OpLookup (a now : Z)
| OpInsert (a : Z) (m : list Z) (now : Z)
| OpAge (now : Z).

Inductive arp_out :=
| OutMac (m : option (list Z))
| OutStatus (st : xaios_status)
| OutDone.

Definition fresh (now : Z) (x : Z * cached) : Prop :=
  u64 (now - c_age x.2) <= XAIOS_ARP_TIMEOUT_SEC * 1000000000.

#[global] Instance fresh_dec now x : Decision (fresh now x).
Proof. unfold fresh. apply _. Defined.

Inductive lru_step (m : gmap Z cached) : arp_op -> arp_out -> gmap Z cached -> Prop :=
| LruHit a now v :
    m !! a = Some v -> lru_step m (OpLookup a now) (OutMac (Some (c_mac v))) (<[a := mk_cached (c_mac v) (c_age v) now]> m)
| LruMiss a now : m !! a = None -> lru_step m (OpLookup a now) (OutMac None) m
| LruInsert a x now :
    is_Some (m !! a) \/ Z.of_nat (size m) < XAIOS_ARP_CACHE_SIZE ->
    lru_step m (OpInsert a x now) (OutStatus XAIOS_OK) (<[a := mk_cached x now now]> m)
| LruEvict a x now k v :
    m !! a = None -> Z.of_nat (size m) = XAIOS_ARP_CACHE_SIZE ->
    m !! k = Some v -> (forall j w, m !! j = Some w -> c_used v <= c_used w) ->
    lru_step m (OpInsert a x now) (OutStatus XAIOS_OK) (<[a := mk_cached x now now]> (delete k m))
| LruAge now : lru_step m (OpAge now) OutDone (filter (fresh now) m).

Inductive lru_steps : gmap Z cached -> list arp_op -> list arp_out -> gmap Z cached -> Prop :=
| LruNil m : lru_steps m [] [] m
| LruCons m op out m1 ops outs m2 :
    lru_step m op out m1 -> lru_steps m1 ops outs m2 -> lru_steps m (op :: ops) (out :: outs) m2.

(** The operations of the cache. *)
Definition arp_step (c : list xaios_arp_entry) (op : arp_op) : option (list xaios_arp_entry * arp_out) :=
  match op with
  | OpLookup a now => let '(c', _, m) := arp_cache_lookup c now a true in Some (c', OutMac m)
  | OpInsert a m now => '(c', st) ← arp_cache_insert c now a (Some m); Some (c', OutStatus st)
  | OpAge now => Some (arp_cache_age c now, OutDone)
  end.

Fixpoint arp_steps (c : list xaios_arp_entry) (ops : list arp_op) : option (list xaios_arp_entry * list arp_out) :=
  match ops with
  | [] => Some (c, [])
  | op :: ops' =>
      '(c1, out) ← arp_step c op;
      '(c2, outs) ← arp_steps c1 ops';
      Some (c2, out :: outs)
  end.

(** Key and value of an entry in use. *)
Definition kv (e : xaios_arp_entry) : option (Z * cached) :=
  if active e =? 0 then None else Some (ip e, mk_cached (mac e) (age_ns e) (last_use_ns e)).

Definition contents (c : list xaios_arp_entry) : gmap Z cached := Table.view kv c.

(** A clock reading other than the largest word. *)
Definition time (t : Z) : Prop := 0 <= t < UINT64_MAX.

Definition op_time (op : arp_op) : Z := match op with OpLookup _ n | OpInsert _ _ n | OpAge n => n end.

Record cache_ok (c : list xaios_arp_entry) : Prop := {
  co_size : zlen c = XAIOS_ARP_CACHE_SIZE;
  co_unique : Table.unique kv c;
  co_times : Forall (fun e => time (last_use_ns e)) c
}.

(** ** Lemmas *)

(** Moving an entry to the front permutes the cache. *)
Lemma move_to_front_eq c i tmp :
  0 <= i < zlen c -> move_to_front c i tmp = tmp :: delete (Z.to_nat i) c.
Proof.
  intros Hi. unfold move_to_front.
  assert (Hl : let r := for_range (Z.to_nat i) 0 (fun k c => c.[i - k <- c.[i - k - 1]]) c in
    zlen r = zlen c /\ forall j, 0 <= j < zlen c -> r.[j] = if (i - i <? j) && (j <=? i) then c.[j - 1] else c.[j]).
  { apply (for_upto_ind (fun k r => zlen r = zlen c /\ forall j, 0 <= j < zlen c ->
      r.[j] = if (i - k <? j) && (j <=? i) then c.[j - 1] else c.[j])); [lia| |].
    - split; [done|]. intros j Hj. rewrite Z.sub_0_r. case_if; [lia|done].
    - intros k r Hk [Hr1 Hr2]. rewrite zlen_set. split; [done|]. intros j Hj.
      destruct (decide (j = i - k)) as [->|Hne].
      + rewrite arr_get_set_eq, Hr2 by lia. do 2 case_if; try lia; done.
      + rewrite arr_get_set_ne, Hr2 by lia. do 2 case_if; try lia; done. }
  cbv zeta in Hl. set (r := for_range _ _ _ _) in *. destruct Hl as [Hl Hr]. rewrite Z.sub_diag in Hr.
  apply list_eq. intros j. destruct j as [|j]; simpl.
  - rewrite list_lookup_insert_eq; [done|zlia].
  - rewrite list_lookup_insert_ne by lia.
    destruct (decide (Z.of_nat (S j) < zlen c)) as [Hj|Hj].
    + rewrite <- (Nat2Z.id (S j)), arr_lookup, Hr by lia. 
      case_if; [apply andb_true_iff in Heqb as [_ Hb%Z.leb_le]|apply andb_false_iff in Heqb as [Hb%Z.ltb_ge|Hb%Z.leb_gt]; [lia|]].
      * rewrite list_lookup_delete_lt, <- arr_lookup by lia. f_equal. lia.
      * rewrite list_lookup_delete_ge, <- arr_lookup by lia. f_equal. lia.
    + rewrite !lookup_ge_None_2; [done| |zlia]. rewrite length_delete by (apply lookup_lt_is_Some; zlia). zlia.
Qed.

Lemma holds_ip_kv a e : holds_ip a e = true -> kv e = Some (a, mk_cached (mac e) (age_ns e) (last_use_ns e)).
Proof. unfold holds_ip, kv. intros [->%negb_true_iff ->%Z.eqb_eq]%andb_true_iff. done. Qed.

Lemma kv_holds_ip a v e : kv e = Some (a, v) -> holds_ip a e = true.
Proof. unfold holds_ip, kv. case_if; [done|]. intros [= <- _]. by rewrite Z.eqb_refl. Qed.

(** The search of the cache finds the entry of the map. *)
Lemma search_hit c a i :
  cache_ok c -> find_idx (holds_ip a) c = Some i ->
  exists e, c !! i = Some e /\ c.[Z.of_nat i] = e /\ kv e = Some (a, mk_cached (mac e) (age_ns e) (last_use_ns e)) /\
    contents c !! a = Some (mk_cached (mac e) (age_ns e) (last_use_ns e)).
Proof.
  intros Hc [(e & Hi & He) _]%find_idx_Some. apply holds_ip_kv in He. exists e. split_and!; [done| |done|].
  - rewrite Nat2Z.id. by apply list_lookup_total_correct.
  - apply Table.view_Some; [apply Hc|]. eauto.
Qed.

Lemma search_miss c a : cache_ok c -> find_idx (holds_ip a) c = None -> contents c !! a = None.
Proof.
  intros Hc Hn%find_idx_None. apply Table.view_None; [apply Hc|]. intros i e v Hi Hkv.
  rewrite Forall_lookup in Hn. apply kv_holds_ip in Hkv. specialize (Hn i e Hi). congruence.
Qed.

(** The victim is an active entry whose time of use is the smallest. *)
Lemma lru_victim_least c :
  zlen c = XAIOS_ARP_CACHE_SIZE -> Forall (fun e => active e <> 0) c -> Forall (fun e => time (last_use_ns e)) c ->
  0 <= lru_victim c < XAIOS_ARP_CACHE_SIZE /\ Forall (fun e => last_use_ns (c.[lru_victim c]) <= last_use_ns e) c.
Proof.
  intros Hz Ha Ht. rewrite !Forall_forall in *.
  destruct (Table.scan_least XAIOS_ARP_CACHE_SIZE (fun i => negb (active (c.[i]) =? 0)) (fun i => last_use_ns (c.[i]))
    UINT64_MAX XAIOS_ARP_CACHE_SIZE) as [Hs Hl]; [done| |].
  - intros i Hi. assert (Hm : c.[i] ∈ c) by (eapply list_elem_of_lookup_2, arr_lookup; lia).
    pose proof (Ha _ Hm). destruct (Ht _ Hm). split; [|done]. by rewrite (proj2 (Z.eqb_neq _ 0)).
  - split; [exact Hs|]. intros e [n Hn]%list_elem_of_lookup. pose proof (lookup_lt_Some _ _ _ Hn).
    rewrite <- (list_lookup_total_correct _ _ _ Hn). specialize (Hl (Z.of_nat n) ltac:(zlia)). by rewrite Nat2Z.id in Hl.
Qed.

(** One operation of the cache is one step of the map. *)
Lemma cache_ok_insert c (i : nat) e :
  cache_ok c -> Table.unique kv (<[i := e]> c) -> time (last_use_ns e) -> cache_ok (<[i := e]> c).
Proof.
  intros [Hz Hu Ht] Hu' He. split; [by rewrite <- (zlen_set c (Z.of_nat i) e), Nat2Z.id in Hz|done|by apply Forall_insert].
Qed.

Lemma lookup_refines c now a :
  cache_ok c -> time now ->
  exists c' out, arp_step c (OpLookup a now) = Some (c', out) /\ cache_ok c' /\
    lru_step (contents c) (OpLookup a now) out (contents c').
Proof.
  intros Hc Hn. unfold arp_step, arp_cache_lookup. simpl.
  destruct (find_idx _ c) as [i|] eqn:Hf; [|eexists _, _; split_and!; [done|done|]; constructor; by apply search_miss].
  destruct (search_hit _ _ _ Hc Hf) as (e & Hi & -> & He & Hv).
  set (e' := mk_entry _ _ _ _ _). pose proof (lookup_lt_Some _ _ _ Hi) as Hlt.
  rewrite move_to_front_eq, Nat2Z.id by zlia. eexists _, _. split; [done|].
  destruct (Table.insert_perm c i e e' Hi) as [_ Hp].
  assert (He' : kv e' = Some (a, mk_cached (mac e) (age_ns e) now)).
  { unfold kv in *. unfold e'. simpl. case_if; [done|]. by injection He as ->. }
  destruct (Table.view_update kv c i e e' a _ _ (co_unique _ Hc) Hi He He') as [Hu Hview].
  assert (Hok : cache_ok (<[i := e']> c)) by (by apply cache_ok_insert).
  unfold contents. rewrite <- (Table.view_perm kv _ _ Hp) by done. rewrite Hview. split.
  - destruct Hok as [Hz _ Ht]. split; [by rewrite <- Hz; unfold zlen; rewrite Hp|by eapply Table.unique_perm|by rewrite <- Hp].
  - by apply (LruHit (contents c) a now (mk_cached (mac e) (age_ns e) (last_use_ns e))).
Qed.

Lemma insert_refines c now a m :
  cache_ok c -> time now ->
  exists c' out, arp_step c (OpInsert a m now) = Some (c', out) /\ cache_ok c' /\
    lru_step (contents c) (OpInsert a m now) out (contents c').
Proof.
  intros Hc Hn. unfold arp_step, arp_cache_insert. simpl. pose proof (co_size _ Hc) as Hz.
  destruct (find_idx (holds_ip a) c) as [i|] eqn:Hf.
  { destruct (search_hit _ _ _ Hc Hf) as (e & Hi & Hg & He & Hv). unfold upd. rewrite Hg, Nat2Z.id. simpl.
    eexists _, _. split; [done|]. unfold contents.
    edestruct (Table.view_update kv c i e) as [Hu ->]; [apply Hc|done|done| |split; [by apply cache_ok_insert|apply LruInsert; left; by eexists]].
    unfold kv in *. simpl. case_if; [done|]. by injection He as ->. }
  apply search_miss in Hf; [|done]. set (e' := mk_entry a m 1 now now).
  assert (He' : kv e' = Some (a, mk_cached m now now)) by done.
  destruct (find_idx (fun e => active e =? 0) c) as [i|] eqn:Hfree.
  - pose proof (find_idx_lt _ _ _ Hfree). apply find_idx_Some in Hfree as [(e & Hi & He) _].
    assert (Hkv : kv e = None) by (unfold kv; by rewrite He).
    rewrite (proj2 (Z.leb_gt _ _)), Nat2Z.id by zlia. simpl. eexists _, _. split; [done|].
    destruct (Table.view_fill kv c i e e' a _ (co_unique _ Hc) Hf Hi Hkv He') as [Hu Hw].
    unfold contents. rewrite Hw. split; [by apply cache_ok_insert|].
    apply LruInsert. right. pose proof (Table.view_not_full kv c i e (co_unique _ Hc) Hi Hkv). zlia.
  - apply find_idx_None in Hfree.
    assert (Ha : Forall (fun e => active e <> 0) c) by (eapply Forall_impl; [done|]; simpl; intros; lia).
    destruct (lru_victim_least c Hz Ha (co_times _ Hc)) as [Hs Hmin].
    rewrite (proj2 (Z.leb_gt _ _)) by lia. simpl. eexists _, _. split; [done|].
    pose proof (arr_lookup c (lru_victim c) ltac:(lia)) as Hi. set (e := c.[lru_victim c]) in *.
    assert (Hkv : kv e = Some (ip e, mk_cached (mac e) (age_ns e) (last_use_ns e))).
    { unfold kv. rewrite Forall_forall in Ha. specialize (Ha e (list_elem_of_lookup_2 _ _ _ Hi)). case_if; [lia|done]. }
    destruct (Table.view_evict kv c _ e e' _ _ a _ (co_unique _ Hc) Hf Hi Hkv He') as [Hu Hw].
    unfold contents. rewrite Hw. split; [by apply cache_ok_insert|].
    eapply LruEvict; [done| |apply Table.view_Some; [apply Hc|]; eauto|].
    + rewrite Table.view_full; [zlia|apply Hc|]. eapply Forall_impl; [exact Ha|]. intros x Hx. simpl in Hx. unfold kv. case_if; [lia|by eexists].
    + intros j w (k & x & Hk & Hx)%Table.view_Some; [|apply Hc]. simpl. rewrite Forall_forall in Hmin.
      specialize (Hmin x (list_elem_of_lookup_2 _ _ _ Hk)). unfold kv in Hx. case_if; [done|]. by injection Hx as _ <-.
Qed.

Lemma age_refines c now :
  cache_ok c -> exists c' out, arp_step c (OpAge now) = Some (c', out) /\ cache_ok c' /\
    lru_step (contents c) (OpAge now) out (contents c').
Proof.
  intros [Hz Hu Ht]. eexists _, _. split; [done|]. unfold contents, arp_cache_age.
  edestruct (Table.view_filter kv (fresh now)) as [Hu' ->]; [|exact Hu|].
  2:{ split; [|constructor]. split; [unfold zlen; by rewrite length_fmap|exact Hu'|].
      apply Forall_fmap. eapply Forall_impl; [exact Ht|]. intros e He. simpl. by case_if. }
  intros e. unfold kv. cbv zeta. destruct (active e =? 0) eqn:Ha; simpl; [by rewrite Ha|].
  case_decide as Hf; unfold fresh in Hf; simpl in Hf.
  - rewrite (proj2 (Z.ltb_ge _ _)) by lia. by rewrite Ha.
  - by rewrite (proj2 (Z.ltb_lt _ _)) by lia.
Qed.

Lemma arp_step_refines c op :
  cache_ok c -> time (op_time op) ->
  exists c' out, arp_step c op = Some (c', out) /\ cache_ok c' /\ lru_step (contents c) op out (contents c').
Proof. destruct op; intros Hc Ht; [by apply lookup_refines|by apply insert_refines|by apply age_refines]. Qed.

Lemma cache0_ok : cache_ok cache0 /\ contents cache0 = ∅.
Proof. split; [split; [done|constructor|by apply Forall_replicate]|done]. Qed.

(** C17: From the empty cache, every sequence of lookups, insertions and agings
    (with clock readings below the largest word) runs without an access outside
    the cache and answers as the bounded map with least-recently-used
    replacement does: a lookup returns the address last inserted and marks it as
    used, an insertion into a full cache evicts exactly an entry whose last use
    is the oldest, and aging removes exactly the entries whose last update is
    more than 300 seconds old. *)
Theorem arp_cache_refines (ops : list arp_op) (Ht : Forall (fun op => time (op_time op)) ops) :
  exists c outs m, arp_steps cache0 ops = Some (c, outs) /\ lru_steps ∅ ops outs m /\
    contents c = m /\ Z.of_nat (size m) <= XAIOS_ARP_CACHE_SIZE.
Proof.
  destruct cache0_ok as [Hc <-]. revert Hc. generalize cache0 as c.
  induction Ht as [|op ops Hop Ht IH]; intros c Hc.
  - exists c, [], (contents c). split_and!; [done|constructor|done|]. destruct Hc as [Hz Hu _].
    unfold contents. rewrite Table.view_size by done. pose proof (Table.omap_length_le kv c). zlia.
  - destruct (arp_step_refines c op Hc Hop) as (c1 & out & H1 & Hc1 & Hs).
    destruct (IH c1 Hc1) as (c2 & outs & m & H2 & Hss & Hm). simpl. rewrite H1. simpl. rewrite H2.
    exists c2, (out :: outs), m. split_and!; [done|by econstructor|apply Hm..].
Qed.

Definition demo_ops : list arp_op :=
  [OpInsert 0x0a000202 [2; 0; 0; 0; 0; 1] 5; OpLookup 0x0a000202 7; OpLookup 0x0a000203 8; OpAge 400000000000].

Lemma arp_cache_refines_witness :
  exists c outs m, arp_steps cache0 demo_ops = Some (c, outs) /\ lru_steps ∅ demo_ops outs m /\
    contents c = m /\ Z.of_nat (size m) <= XAIOS_ARP_CACHE_SIZE.
Proof. apply (arp_cache_refines demo_ops). repeat constructor; discriminate. Defined.

(** The reply that [arp_build_reply] writes, in any buffer that holds it. *)
Lemma build_reply_ok b m d len src dst :
  bytes m -> bytes d -> zlen m = 6 -> zlen d = 6 -> 42 <= zlen b ->
  arp_build_reply (Some b) (Some m) (Some d) len src dst =
  Some (XAIOS_OK,
    d ++ m ++ [8; 6; 0; 1; 8; 0; 6; 4; 0; 2] ++ m ++
    [u8 (Z.shiftr src 24); u8 (Z.shiftr src 16); u8 (Z.shiftr src 8); u8 src] ++ d ++
    [u8 (Z.shiftr dst 24); u8 (Z.shiftr dst 16); u8 (Z.shiftr dst 8); u8 dst] ++ drop 42 b, 42).
Proof.
  intros Hm Hd Hzm Hzd Hb. explode b 42. explode m 6. explode d 6.
  destruct m; [|unfold zlen in Hzm; simpl in Hzm; lia]. destruct d; [|unfold zlen in Hzd; simpl in Hzd; lia].
  repeat (apply Forall_cons in Hd as [? Hd]). repeat (apply Forall_cons in Hm as [? Hm]).
  unfold arp_build_reply, arp_common, bytes_zero, put_macs, put_mac, put_be16, put_be32, wr, rd. simpl.
  by rewrite !u8_byte by done.
Qed.

Lemma process_reply_ok c now m d src dst t n :
  zlen m = 6 -> zlen d = 6 -> 0 <= src < 4294967296 -> 42 <= n ->
  arp_process_reply c now (Some (d ++ m ++ [8; 6; 0; 1; 8; 0; 6; 4; 0; 2] ++ m ++
    [u8 (Z.shiftr src 24); u8 (Z.shiftr src 16); u8 (Z.shiftr src 8); u8 src] ++ d ++ dst ++ t)) n =
  arp_cache_insert c now src (Some m).
Proof.
  intros Hzm Hzd Hs Hn. explode m 6. explode d 6.
  destruct m; [|unfold zlen in Hzm; simpl in Hzm; lia]. destruct d; [|unfold zlen in Hzd; simpl in Hzd; lia].
  transitivity (arp_cache_insert c now (Z.lor (Z.lor (Z.lor (Z.shiftl (u8 (Z.shiftr src 24)) 24)
     (Z.shiftl (u8 (Z.shiftr src 16)) 16)) (Z.shiftl (u8 (Z.shiftr src 8)) 8)) (u8 src)) (Some [z; z0; z1; z2; z3; z4])).
  - unfold arp_process_reply. by rewrite (proj2 (Z.ltb_ge n 42)) by lia.
  - by rewrite be32_value, u8_be32 by (done || apply u8_range).
Qed.

Lemma lru_insert_holds m a x now out m' :
  lru_step m (OpInsert a x now) out m' -> m' !! a = Some (mk_cached x now now) /\ out = OutStatus XAIOS_OK.
Proof. intros Hs. inversion Hs; subst; by rewrite lookup_insert_eq. Qed.

Lemma lru_lookup_finds m a now out m' v :
  lru_step m (OpLookup a now) out m' -> m !! a = Some v -> out = OutMac (Some (c_mac v)).
Proof. intros Hs Hv. inversion Hs; subst; congruence. Qed.

(** After an insertion the map holds the address; a lookup then finds it. *)
Lemma insert_then_lookup c now a m t :
  cache_ok c -> time now -> time t ->
  exists c1 c2, arp_cache_insert c now a (Some m) = Some (c1, XAIOS_OK) /\ cache_ok c1 /\
    arp_cache_lookup c1 t a true = (c2, XAIOS_OK, Some m).
Proof.
  intros Hc Hnow Ht. destruct (insert_refines c now a m Hc Hnow) as (c1 & out & H1 & Hc1 & Hs).
  destruct (lookup_refines c1 t a Hc1 Ht) as (c2 & out2 & H2 & _ & Hs2). exists c1, c2.
  apply lru_insert_holds in Hs as [Hv ->]. apply (lru_lookup_finds _ _ _ _ _ _ Hs2) in Hv as ->. split_and!; [|done|].
  - unfold arp_step in H1. destruct (arp_cache_insert _ _ _ _) as [[? ?]|]; [|done]. by injection H1 as -> ->.
  - unfold arp_step, arp_cache_lookup in *. simpl in *. destruct (find_idx _ c1); [|done]. by injection H2 as -> ->.
Qed.

(** A host that receives the ARP reply another host built (in a buffer of
    any contents of at least 42 bytes) accepts it and from then on finds the
    sender's Ethernet address under the sender's IP address. *)
Theorem arp_reply_learned c now t b m d len src dst n
  (Hc : cache_ok c) (Hnow : time now) (Ht : time t)
  (Hm : bytes m) (Hd : bytes d) (Hzm : zlen m = 6) (Hzd : zlen d = 6) (Hb : 42 <= zlen b)
  (Hsrc : 0 <= src < 4294967296) (Hn : 42 <= n) :
  exists f c1 c2, arp_build_reply (Some b) (Some m) (Some d) len src dst = Some (XAIOS_OK, f, 42) /\
    arp_process_reply c now (Some f) n = Some (c1, XAIOS_OK) /\
    arp_cache_lookup c1 t src true = (c2, XAIOS_OK, Some m).
Proof.
  eexists. rewrite build_reply_ok by done.
  destruct (insert_then_lookup c now src m t Hc Hnow Ht) as (c1 & c2 & H1 & _ & H2).
  exists c1, c2. split; [done|]. split; [|done]. by rewrite process_reply_ok.
Qed.

Lemma arp_reply_learned_witness :
  exists f c1 c2, arp_build_reply (Some (replicate 60 7)) (Some [2; 0; 0; 0; 0; 1]) (Some [2; 0; 0; 0; 0; 9]) 0 0x0a000202 0x0a00020f
      = Some (XAIOS_OK, f, 42) /\
    arp_process_reply cache0 1000 (Some f) 60 = Some (c1, XAIOS_OK) /\
    arp_cache_lookup c1 2000 0x0a000202 true = (c2, XAIOS_OK, Some [2; 0; 0; 0; 0; 1]).
Proof.
  apply (arp_reply_learned cache0 1000 2000); [apply cache0_ok|split; done|split; done|by apply (bool_decide_unpack _)..|done|done|done|done|lia].
Defined.

(** The boot test passes on any buffers long enough for its frames, evaluated
    at concrete clock readings. *)
Lemma arp_self_test_passes :
  is_Some (arp_self_test cache0 1 2 3 4 5 (replicate 60 7) (replicate 60 7) (replicate 60 7)).
Proof. vm_compute. by eexists. Qed.

End Arp.
