(* ===== verification/Icmp.v ===== *)
(** * ICMP (kernel/net/icmp.c, include/xaios/icmp.h)

    Echo requests and replies, the error messages and the limit on their rate.
    [icmp_echo_answered] shows what the reply to an accepted request is;
    the lemmas after it state where the code leaves its buffers or its
    description. *)

From S2P Require Import Prelude Wire Ipv4.

Module Icmp.
Import Wire Ipv4.

Definition XAIOS_ICMP_ECHO_REPLY : Z := 0.
Definition XAIOS_ICMP_ECHO_REQUEST : Z := 8.
Definition XAIOS_ICMP_DEST_UNREACHABLE : Z := 3.
Definition XAIOS_ICMP_TIME_EXCEEDED : Z := 11.
Definition XAIOS_ICMP_CODE_PORT_UNREACHABLE : Z := 3.
Definition XAIOS_ICMP_CODE_TTL_EXCEEDED : Z := 0.
Definition XAIOS_ICMP_MAX_ERROR_RATE : Z := 100.

(** ** The rate of errors *)

Record icmp_rate := mk_rate { g_icmp_error_count : Z; g_icmp_error_last_ns : Z }.

Definition icmp_error_can_send (r : icmp_rate) (now : Z) : icmp_rate * bool :=
  let elapsed := u64 (now - g_icmp_error_last_ns r) in
  if 1000000000 <=? elapsed then (mk_rate 0 now, true) else
  if g_icmp_error_count r <? XAIOS_ICMP_MAX_ERROR_RATE
  then (mk_rate (g_icmp_error_count r + 1) (g_icmp_error_last_ns r), true)
  else (r, false).

Definition icmp_error_tick (r : icmp_rate) (now : Z) : icmp_rate :=
  let elapsed := u64 (now - g_icmp_error_last_ns r) in
  if 1000000000 <=? elapsed then mk_rate 0 now else r.

(** ** Messages *)

(** Ethernet and IPv4 header of a message: [bytes_zero(frame, total)], the two
    addresses, the type and [ipv4_build_header]. *)
Definition headers (frame : list Z) (total : Z) (dst_mac src_mac : list Z) (length src_ip dst_ip : Z) : option (list Z) :=
  f ← bytes_zero frame total;
  f ← put_macs f dst_mac src_mac;
  f ← put_be16 f 12 0x0800;
  through f 14 (fun h => ipv4_build_header h length XAIOS_IPV4_PROTO_ICMP src_ip dst_ip).

(** [icmp[2..3] = ipv4_checksum(icmp, len)] through the pointer [frame + 34]. *)
Definition seal (frame : list Z) (len : Z) : option (list Z) :=
  cksum ← ipv4_checksum (at_ptr frame 34) len;
  put_be16 frame (34 + 2) cksum.

(** The result, the frame buffer and [*frame_len]. *)
Definition icmp_build_dest_unreachable (frame src_mac dst_mac orig_frame : option (list Z)) (frame_len : Z)
    (src_ip dst_ip code orig_len : Z) : option (xaios_status * list Z * Z) :=
  match frame, src_mac, dst_mac, orig_frame with
  | Some b, Some smac, Some dmac, Some orig =>
      if orig_len <? 34 then Some (XAIOS_ERR_INVALID, b, frame_len) else
      ip_total_len ← get_be16 orig 16;
      let icmp_payload := if 28 <=? ip_total_len then 28 else 8 in
      let total := 14 + XAIOS_IPV4_HEADER_SIZE + icmp_payload in
      if (orig_len <? total) && (1520 <? total) then Some (XAIOS_ERR_NO_MEMORY, b, frame_len) else
      f ← headers b total dmac smac (u16 (XAIOS_IPV4_HEADER_SIZE + icmp_payload)) src_ip dst_ip;
      f ← wr f (34 + 0) XAIOS_ICMP_DEST_UNREACHABLE;
      f ← wr f (34 + 1) code;
      f ← put_be16 f (34 + 2) 0;
      f ← put_be16 f (34 + 4) 0;
      f ← put_be16 f (34 + 6) 0;
      let copy_len := XAIOS_IPV4_HEADER_SIZE + 8 in
      let copy_len := if orig_len <? 14 + copy_len then orig_len - 14 else copy_len in
      f ← through f (34 + 8) (fun q => bytes_copy q (at_ptr orig 14) copy_len);
      f ← seal f icmp_payload;
      Some (XAIOS_OK, f, total)
  | _, _, _, _ => Some (XAIOS_ERR_INVALID, default [] frame, frame_len)
  end.

Definition icmp_build_time_exceeded (frame src_mac dst_mac orig_frame : option (list Z)) (frame_len : Z)
    (src_ip dst_ip orig_len : Z) : option (xaios_status * list Z * Z) :=
  icmp_build_dest_unreachable frame src_mac dst_mac orig_frame frame_len src_ip dst_ip
    XAIOS_ICMP_CODE_TTL_EXCEEDED orig_len.

(** Identifier and sequence number of an accepted request. *)
Definition icmp_process_echo_request (frame : option (list Z)) (frame_len : Z) (outs : bool)
    : option (xaios_status * option (Z * Z)) :=
  match frame with
  | None => Some (XAIOS_ERR_INVALID, None)
  | Some f =>
      if (frame_len <? 34) || negb outs then Some (XAIOS_ERR_INVALID, None) else
      if frame_len <? 42 then Some (XAIOS_ERR_INVALID, None) else
      ethertype ← get_be16 f 12;
      if negb (ethertype =? 0x0800) then Some (XAIOS_ERR_INVALID, None) else
      let icmp := at_ptr f 34 in
      type ← rd icmp 0;
      if negb (type =? XAIOS_ICMP_ECHO_REQUEST) then Some (XAIOS_ERR_INVALID, None) else
      ip_total_len ← get_be16 f 16;
      let icmp_len := u64 (ip_total_len - XAIOS_IPV4_HEADER_SIZE) in
      if frame_len <? u64 (34 + icmp_len) then Some (XAIOS_ERR_INVALID, None) else
      cksum ← ipv4_checksum icmp (u32 icmp_len);
      if negb (cksum =? 0) then Some (XAIOS_ERR_INVALID, None) else
      identifier ← get_be16 icmp 4;
      sequence ← get_be16 icmp 6;
      Some (XAIOS_OK, Some (identifier, sequence))
  end.

Definition icmp_build_echo_reply (frame src_mac dst_mac request_frame : option (list Z)) (frame_len : Z)
    (src_ip dst_ip request_len : Z) : option (xaios_status * list Z * Z) :=
  match frame, src_mac, dst_mac, request_frame with
  | Some b, Some smac, Some dmac, Some req =>
      if request_len <? 42 then Some (XAIOS_ERR_INVALID, b, frame_len) else
      let req_icmp := at_ptr req 34 in
      ip_total_len ← get_be16 req 16;
      let icmp_len := u64 (ip_total_len - XAIOS_IPV4_HEADER_SIZE) in
      if (request_len <? u64 (34 + icmp_len)) || (icmp_len <? 8) then Some (XAIOS_ERR_INVALID, b, frame_len) else
      let total := u64 (14 + XAIOS_IPV4_HEADER_SIZE + icmp_len) in
      f ← headers b total dmac smac (u16 (XAIOS_IPV4_HEADER_SIZE + icmp_len)) src_ip dst_ip;
      f ← wr f (34 + 0) XAIOS_ICMP_ECHO_REPLY;
      f ← wr f (34 + 1) 0;
      f ← put_be16 f (34 + 2) 0;
      f ← for_opt 4 4 (fun i f => x ← rd req_icmp i; wr f (34 + i) x) f;
      f ← for_opt (Z.to_nat (icmp_len - 8)) 8 (fun i f => x ← rd req_icmp i; wr f (34 + i) x) f;
      f ← seal f (u32 icmp_len);
      Some (XAIOS_OK, f, total)
  | _, _, _, _ => Some (XAIOS_ERR_INVALID, default [] frame, frame_len)
  end.

(** ** Boot test *)

(** The echo request that [icmp_self_test] builds. *)
Definition test_request : option (list Z) :=
  r ← bytes_zero (replicate 64 0) 64;
  r ← put_macs r [0x02; 0; 0; 0; 0; 0x15] [0x52; 0x54; 0; 0x12; 0x35; 0x02];
  r ← put_be16 r 12 0x0800;
  r ← through r 14 (fun h => ipv4_build_header h 28 XAIOS_IPV4_PROTO_ICMP 0x0a000202 0x0a00020f);
  r ← wr r 34 XAIOS_ICMP_ECHO_REQUEST;
  r ← wr r 35 0;
  r ← put_be16 r 36 0;
  r ← put_be16 r 38 0x1234;
  r ← put_be16 r 40 0x0001;
  seal r 8.

(** [icmp_self_test] on uninitialised arrays [reply] and [err_frame]; [None] is
    a failed assertion. *)
Definition icmp_self_test (reply err_frame : list Z) : option unit :=
  let src_mac := [0x52; 0x54; 0; 0x12; 0x35; 0x02] in
  let dst_mac := [0x02; 0; 0; 0; 0; 0x15] in
  request ← test_request;
  '(st, ids) ← icmp_process_echo_request (Some request) 42 true;
  _ ← check (is_ok st && bool_decide (ids = Some (0x1234, 0x0001)));
  '(st, reply, reply_len) ← icmp_build_echo_reply (Some reply) (Some dst_mac) (Some src_mac) (Some request) 0 0x0a00020f 0x0a000202 42;
  ty ← rd reply 34;
  ck ← ipv4_checksum (at_ptr reply 34) 8;
  _ ← check (is_ok st && (reply_len =? 42) && (ty =? XAIOS_ICMP_ECHO_REPLY) && (ck =? 0));
  '(st, err_frame, err_len) ← icmp_build_dest_unreachable (Some err_frame) (Some dst_mac) (Some src_mac) (Some request) 0
      0x0a00020f 0x0a000202 XAIOS_ICMP_CODE_PORT_UNREACHABLE 42;
  ty ← rd err_frame 34;
  code ← rd err_frame 35;
  _ ← check (is_ok st && (0 <? err_len) && (ty =? XAIOS_ICMP_DEST_UNREACHABLE) && (code =? XAIOS_ICMP_CODE_PORT_UNREACHABLE));
  '(st, err_frame, _) ← icmp_build_time_exceeded (Some err_frame) (Some dst_mac) (Some src_mac) (Some request) 0
      0x0a00020f 0x0a000202 42;
  ty ← rd err_frame 34;
  check (is_ok st && (ty =? XAIOS_ICMP_TIME_EXCEEDED)).

(** ** Lemmas *)

Lemma headers_ok b total dmac smac len src dst :
  bytes b -> bytes dmac -> bytes smac -> zlen dmac = 6 -> zlen smac = 6 -> 34 <= total <= zlen b ->
  headers b total dmac smac len src dst =
  Some ((dmac ++ smac ++ [8; 0]) ++ sealed len 0 0x4000 XAIOS_IPV4_PROTO_ICMP src dst ++
        replicate (Z.to_nat (total - 34)) 0 ++ drop (Z.to_nat total) b).
Proof.
  intros Hb Hd Hs Hzd Hzs Ht. unfold headers. rewrite bytes_zero_ok by lia. bind_step.
  replace (replicate (Z.to_nat total) 0) with (replicate 34 0 ++ replicate (Z.to_nat (total - 34)) 0)
    by (rewrite <- replicate_add; f_equal; lia).
  rewrite <- (app_assoc (replicate 34 0)). set (t := replicate (Z.to_nat (total - 34)) 0 ++ _).
  assert (Hbt : bytes t) by (unfold t; auto using bytes_app, bytes_replicate_0, bytes_drop).
  rewrite put_macs_ok by (done || lia || (rewrite zlen_app; change (zlen (replicate 34 0)) with 34; zlia)). bind_step.
  rewrite (take_ge dmac), (take_ge smac) by (unfold zlen in *; lia).
  change (drop 12 (replicate 34 0 ++ t)) with (replicate 22 0 ++ t). rewrite app_assoc.
  rewrite put_be16_mid by (rewrite zlen_app; try change (zlen (replicate 22 0)) with 22; zlia). bind_step.
  rewrite (app_assoc _ [_; _]), <- (app_assoc dmac).
  apply through_app; [rewrite !zlen_app; change (zlen [_; _]) with 2; lia|].
  change (drop 2 (replicate 22 0 ++ t)) with (replicate 20 0 ++ t).
  rewrite build_header_ok; [done|auto using bytes_app, bytes_replicate_0|].
  rewrite zlen_app. change (zlen (replicate 20 0)) with 20. zlia.
Qed.

(** The checksum of a message of [len] bytes behind 34 bytes of headers whose
    field is zero. *)
Lemma seal_ok (p a t r : list Z) len :
  zlen p = 34 -> zlen a = 2 -> len = 4 + zlen t -> bytes a -> bytes t -> bytes r -> len < 65536 ->
  let c := complement (words (a ++ [0; 0] ++ t)) in
  seal (p ++ (a ++ [0; 0] ++ t) ++ r) len = Some (p ++ (a ++ [u8 (Z.shiftr c 8); u8 c] ++ t) ++ r).
Proof.
  intros Hp Ha Hl Hba Hbt Hbr Hlen c. unfold seal. rewrite at_ptr_app by done.
  assert (Hm : zlen (a ++ [0; 0] ++ t) = len) by (rewrite !zlen_app; change (zlen [0; 0]) with 2; lia).
  assert (Hb0 : bytes [0; 0]) by (repeat constructor; unfold byte; lia).
  rewrite checksum_ok by (auto using bytes_app || (rewrite ?zlen_app in *; zlia)).
  rewrite take_app_length' by (unfold zlen in Hm; lia). bind_step. fold c.
  rewrite put_be16_app by (done || lia). rewrite <- !app_assoc.
  rewrite (put_be16_mid a) by (try rewrite zlen_app; try change (zlen [0; 0]) with 2; zlia). done.
Qed.

(** The first word of the message is already zero. *)
Lemma write_zero (p t : list Z) k v :
  zlen p = 34 -> 0 <= k < 4 -> u8 v = 0 -> wr (p ++ [0; 0; 0; 0] ++ t) (34 + k) v = Some (p ++ [0; 0; 0; 0] ++ t).
Proof.
  intros Hp Hk Hv. rewrite wr_app by (done || lia).
  assert (k = 0 \/ k = 1 \/ k = 2 \/ k = 3) as Hc by lia. unfold wr. rewrite Hv.
  destruct Hc as [->|[->|[->| ->]]]; done.
Qed.

(** The two loops that copy the rest of the request. *)
Lemma copy_request (p r q req : list Z) len :
  zlen p = 34 -> zlen r = len - 4 -> bytes req -> 8 <= len -> 34 + len <= zlen req ->
  let body i f := x ← rd (at_ptr req 34) i; wr f (34 + i) x in
  for_opt 4 4 body (p ++ [0; 0; 0; 0] ++ r ++ q) ≫= for_opt (Z.to_nat (len - 8)) 8 body =
  Some (p ++ [0; 0; 0; 0] ++ take (Z.to_nat (len - 4)) (at_ptr req 38) ++ q).
Proof.
  intros Hp Hr Hb Hl Hq body. pose proof (for_opt_split body 4 (Z.to_nat (len - 8)) 4) as Hs.
  change (4 + Z.of_nat 4) with 8 in Hs. rewrite <- Hs. clear Hs.
  replace (4 + Z.to_nat (len - 8))%nat with (Z.to_nat (len - 4)) by lia. unfold body.
  rewrite copy_loop; [|auto with xaios|lia..|rewrite !zlen_app; change (zlen [0; 0; 0; 0]) with 4; zlia|rewrite zlen_at_ptr by lia; lia].
  change (Z.to_nat (34 + 4)) with 38%nat. unfold zlen in Hp, Hr. unfold at_ptr. rewrite drop_drop.
  f_equal. rewrite (app_assoc p), take_app_length' by (rewrite length_app; simpl; lia).
  rewrite <- app_assoc. do 3 f_equal. rewrite app_assoc. apply drop_app_length'. rewrite !length_app. simpl. lia.
Qed.

(** The reply to the echo request [req]. *)
Definition echo_message (req : list Z) (len : Z) : list Z :=
  let t := take (Z.to_nat (len - 4)) (at_ptr req 38) in
  let c := complement (words ([0; 0] ++ [0; 0] ++ t)) in
  [0; 0] ++ [u8 (Z.shiftr c 8); u8 c] ++ t.

Lemma build_echo_reply_ok b smac dmac req fl src dst n total :
  bytes b -> bytes smac -> bytes dmac -> bytes req -> zlen smac = 6 -> zlen dmac = 6 ->
  n <= zlen req -> get_be16 req 16 = Some total -> 28 <= total -> 14 + total <= n -> 14 + total <= zlen b ->
  icmp_build_echo_reply (Some b) (Some smac) (Some dmac) (Some req) fl src dst n =
  Some (XAIOS_OK, (dmac ++ smac ++ [8; 0]) ++ sealed total 0 0x4000 XAIOS_IPV4_PROTO_ICMP src dst ++
          echo_message req (total - 20) ++ drop (Z.to_nat (14 + total)) b, 14 + total).
Proof.
  intros Hb Hs Hd Hr Hzs Hzd Hn Ht H28 Htn Htb. unfold icmp_build_echo_reply.
  rewrite (proj2 (Z.ltb_ge n 42)), Ht by lia. bind_step.
  rewrite get_be16_ok in Ht by (done || lia). injection Ht as Ht.
  pose proof (bytes_get req 16 Hr) as B1. pose proof (bytes_get req 17 Hr) as B2. unfold byte in B1, B2.
  unfold XAIOS_IPV4_HEADER_SIZE. change (16 + 1) with 17 in Ht.
  rewrite (u64_small (total - 20)), !(u64_small (_ + (total - 20))), u16_small, (u32_small (total - 20)) by lia.
  rewrite (proj2 (Z.ltb_ge n _)), (proj2 (Z.ltb_ge _ 8)) by lia. cbn [orb].
  replace (14 + 20 + (total - 20)) with (14 + total) by lia. replace (20 + (total - 20)) with total by lia.
  rewrite headers_ok by (done || lia). bind_step. rewrite app_assoc.
  set (P := (dmac ++ smac ++ [8; 0]) ++ sealed _ _ _ _ _ _).
  assert (HP : zlen P = 34) by (unfold P; rewrite !zlen_app, Hzs, Hzd; done).
  replace (Z.to_nat (14 + total - 34)) with (4 + Z.to_nat (total - 24))%nat by lia. rewrite replicate_add.
  set (R := replicate (Z.to_nat (total - 24)) 0). rewrite <- app_assoc. simpl replicate.
  rewrite !write_zero by (done || lia). bind_step. unfold put_be16. rewrite <- Z.add_assoc.
  rewrite !write_zero by (done || lia). bind_step. rewrite write_zero by (done || lia). bind_step.
  rewrite write_zero by (done || lia). bind_step.
  pose proof (copy_request P R (drop (Z.to_nat (14 + total)) b) req (total - 20)) as Hc. cbv zeta in Hc.
  unfold R in Hc at 1. unfold zlen at 2 in Hc. rewrite length_replicate in Hc. specialize (Hc HP ltac:(lia) Hr ltac:(lia) ltac:(lia)).
  destruct (for_opt 4 4 _ _) as [f|]; [|done]. bind_step. cbn [mbind option_bind] in Hc. rewrite Hc. bind_step.
  set (t := take _ _). unfold echo_message. fold t.
  assert (Hzt : zlen t = total - 24).
  { unfold t. rewrite zlen_take; [lia|]. rewrite zlen_at_ptr by lia. lia. }
  pose proof (seal_ok P [0; 0] t (drop (Z.to_nat (14 + total)) b) (total - 20) HP eq_refl ltac:(lia)) as Hse.
  rewrite <- !app_assoc in Hse. simpl app in Hse |- *. rewrite Hse.
  - unfold P. rewrite <- !app_assoc. done.
  - repeat constructor; unfold byte; lia.
  - unfold t. auto with xaios.
  - auto with xaios.
  - lia.
Qed.

(** What the test of a request accepts, when the IPv4 length covers the ICMP
    header. *)
Lemma process_echo_exact f n total :
  bytes f -> 42 <= n <= zlen f -> get_be16 f 16 = Some total -> 28 <= total ->
  exists r, icmp_process_echo_request (Some f) n true = Some r /\
    (is_ok r.1 = true <->
       get_be16 f 12 = Some 0x0800 /\ rd f 34 = Some 8 /\ 14 + total <= n /\
       ipv4_checksum (at_ptr f 34) (total - 20) = Some 0) /\
    (is_ok r.1 = true -> exists id seq, r.2 = Some (id, seq) /\ get_be16 f 38 = Some id /\ get_be16 f 40 = Some seq).
Proof.
  intros Hb Hn Ht H28. unfold icmp_process_echo_request.
  rewrite (proj2 (Z.ltb_ge n 34)), (proj2 (Z.ltb_ge n 42)) by lia. cbn [orb negb].
  assert (Htb : total < 65536).
  { rewrite get_be16_ok in Ht by (done || lia). injection Ht as <-.
    pose proof (bytes_get f 16 Hb). pose proof (bytes_get f (16 + 1) Hb). unfold byte in *. lia. }
  rewrite (get_be16_ok f 12), (rd_at_ptr f 34 0), Ht by (done || lia).
  change (34 + 0) with 34. rewrite !(rd_ok f 34) by lia. bind_step. unfold XAIOS_IPV4_HEADER_SIZE, XAIOS_ICMP_ECHO_REQUEST.
  rewrite (u64_small (total - 20)), (u64_small (34 + _)), (u32_small (total - 20)) by lia.
  assert (Hno : forall Q : Prop, ~ Q -> exists r, Some (XAIOS_ERR_INVALID, None) = Some r /\ (is_ok r.1 = true <-> Q) /\
    (is_ok r.1 = true -> exists id seq, r.2 = Some (id, seq) /\ get_be16 f 38 = Some id /\ get_be16 f 40 = Some seq)).
  { intros Q HQ. eexists. split; [done|]. split; [by split|done]. }
  case_if; [apply Hno; intros ([=] & _); lia|]. case_if; [apply Hno; intros (_ & [=] & _); lia|].
  case_if; [apply Hno; lia|].
  rewrite checksum_ok by (auto with xaios || (rewrite ?zlen_at_ptr by lia; lia)). bind_step.
  case_if; [apply Hno; intros (_ & _ & _ & [=]); lia|].
  rewrite !get_be16_at_ptr, (get_be16_ok f (34 + 4)), (get_be16_ok f (34 + 6)) by (done || lia). bind_step.
  eexists. split; [done|]. split; [split; [intros _|done]; repeat split; try f_equal; lia|]. intros _.
  eexists _, _. split; [done|]. by rewrite !get_be16_ok by (done || lia).
Qed.

Lemma zlen_echo_message req len :
  4 <= len -> 34 + len <= zlen req -> zlen (echo_message req len) = len.
Proof.
  intros Hl Hr. unfold echo_message. cbv zeta. rewrite !zlen_app.
  rewrite zlen_take by (rewrite zlen_at_ptr by lia; lia). change (zlen [_; _]) with 2. change (zlen [0; 0]) with 2. lia.
Qed.

Lemma bytes_echo_message req len : bytes req -> bytes (echo_message req len).
Proof.
  intros Hr. unfold echo_message. apply bytes_app; [repeat constructor; unfold byte; lia|].
  apply bytes_app; [repeat constructor; apply u8_range|auto with xaios].
Qed.

Lemma echo_message_sealed req len :
  bytes req -> 4 <= len < 65536 -> 34 + len <= zlen req ->
  ipv4_checksum (echo_message req len) len = Some 0.
Proof.
  intros Hr Hl Hz. pose proof (zlen_echo_message req len ltac:(lia) Hz) as He.
  rewrite checksum_ok by (auto using bytes_echo_message || lia). rewrite take_ge by (unfold zlen in He; lia).
  unfold echo_message. cbv zeta. f_equal. set (t := take _ _).
  assert (Hzt : zlen t = len - 4) by (unfold t; rewrite zlen_take; [lia|rewrite zlen_at_ptr by lia; lia]).
  assert (Hbt : bytes t) by (unfold t; auto with xaios).
  destruct (field_seals [0; 0] t 0) as [_ H]; [repeat constructor; unfold byte; lia|done|by exists 1%nat|lia| |exact H].
  rewrite Hzt. change (zlen [0; 0]) with 2. lia.
Qed.

Lemma echo_message_get req len i :
  bytes req -> 34 + len <= zlen req -> 4 <= i < len -> (echo_message req len).[i] = req.[34 + i].
Proof.
  intros Hr Hz Hi. unfold echo_message. cbv zeta. rewrite app_assoc.
  rewrite <- (app_nil_r (take _ _)) at 3.
  rewrite (mid_get _ _ _ 4 (i - 4)); [|done|rewrite zlen_take; [lia|rewrite zlen_at_ptr by lia; lia]|lia].
  rewrite lookup_total_take_lt, at_ptr_get by lia. f_equal. lia.
Qed.

(** C21: An echo request that the test accepts and that has a complete ICMP
    header (an IPv4 length of at least 28) is answered in any buffer that holds the reply: the reply
    stays inside its bytes, goes to the given addresses, is accepted by the
    IPv4 layer of the receiver, is an echo reply with the identifier, the
    sequence number and the data of the request, and its checksum is valid. *)
Theorem icmp_echo_answered (b req smac dmac : list Z) (fl src dst n total id seq : Z)
  (Hb : bytes b) (Hr : bytes req) (Hs : bytes smac) (Hd : bytes dmac) (Hzs : zlen smac = 6) (Hzd : zlen dmac = 6)
  (Hsrc : 0 <= src < 4294967296) (Hdst : 0 <= dst < 4294967296)
  (Hn : 42 <= n <= zlen req) (Ht : get_be16 req 16 = Some total) (H28 : 28 <= total) (Hroom : 14 + total <= zlen b)
  (Hacc : icmp_process_echo_request (Some req) n true = Some (XAIOS_OK, Some (id, seq))) :
  exists f,
    icmp_build_echo_reply (Some b) (Some smac) (Some dmac) (Some req) fl src dst n = Some (XAIOS_OK, f, 14 + total) /\
    zlen f = zlen b /\ at_ptr f (14 + total) = at_ptr b (14 + total) /\ take 12 f = dmac ++ smac /\
    ipv4_validate_incoming (Some f) (14 + total) = Some true /\
    rd f 23 = Some XAIOS_IPV4_PROTO_ICMP /\ get_be32 f 26 = Some src /\ get_be32 f 30 = Some dst /\
    rd f 34 = Some XAIOS_ICMP_ECHO_REPLY /\ get_be16 f 38 = Some id /\ get_be16 f 40 = Some seq /\
    (forall i, 42 <= i < 14 + total -> rd f i = rd req i) /\
    ipv4_checksum (at_ptr f 34) (total - 20) = Some 0.
Proof.
  destruct (process_echo_exact req n total Hr Hn Ht H28) as (r & Hp & Hex & Hid).
  rewrite Hacc in Hp. injection Hp as <-. destruct (proj1 Hex eq_refl) as (_ & _ & Htn & _).
  destruct (Hid eq_refl) as (? & ? & [= <- <-] & H38 & H40).
  pose proof (get_be16_bound _ _ _ Hr Ht) as Htb.
  eexists. rewrite (build_echo_reply_ok b smac dmac req fl src dst n total) by (done || lia). split; [done|].
  set (P := dmac ++ smac ++ [8; 0]). set (m := echo_message req (total - 20)).
  assert (HP : zlen P = 14) by (unfold P; rewrite !zlen_app, Hzd, Hzs; done).
  assert (Hm : zlen m = total - 20) by (apply zlen_echo_message; lia).
  assert (Hbm : bytes m) by (by apply bytes_echo_message).
  assert (HbP : bytes P) by (unfold P; apply bytes_app; [done|]; apply bytes_app; [done|repeat constructor; unfold byte; lia]).
  destruct (sealed_fields P (m ++ drop (Z.to_nat (14 + total)) b) _ total 0 0x4000 XAIOS_IPV4_PROTO_ICMP src dst eq_refl HP)
    as (Hbf & H23 & _ & _ & _ & H26 & H30 & Hok); [auto with xaios; unfold byte, XAIOS_IPV4_PROTO_ICMP; lia..|].
  set (S := sealed _ _ _ _ _ _) in *. assert (HS : zlen S = 20) by done.
  set (f := P ++ S ++ _) in *.
  assert (Hf : zlen f = zlen b) by (unfold f; rewrite !zlen_app, zlen_drop by lia; lia).
  assert (H34 : at_ptr f 34 = m ++ drop (Z.to_nat (14 + total)) b).
  { unfold f. rewrite app_assoc. apply at_ptr_app. rewrite zlen_app. lia. }
  assert (Hget : forall i, 34 <= i < 14 + total -> rd f i = Some (m.[i - 34])).
  { intros i Hi. rewrite rd_ok by lia. unfold f. rewrite app_assoc. f_equal.
    apply (mid_get _ _ _ 34); [rewrite zlen_app; lia|lia|lia]. }
  assert (Hrest : forall i, 38 <= i < 14 + total -> rd f i = rd req i).
  { intros i Hi. rewrite Hget, (rd_ok req) by lia. unfold m. rewrite echo_message_get by (done || lia). do 2 f_equal. lia. }
  split; [done|]. split; [unfold f; rewrite !app_assoc; apply at_ptr_app; rewrite !zlen_app; lia|].
  split; [unfold f, P; rewrite (app_assoc dmac), <- app_assoc; apply take_app_length'; rewrite length_app; unfold zlen in *; lia|].
  split. { destruct (validate_exact f (14 + total) Hbf) as (v & -> & Hv); [lia|]. f_equal. apply Hv, Hok; lia. }
  split_and!; [done..|by rewrite Hget by lia| | | |].
  - rewrite <- H38. unfold get_be16. by rewrite !Hrest by lia.
  - rewrite <- H40. unfold get_be16. by rewrite !Hrest by lia.
  - intros i Hi. apply Hrest. lia.
  - rewrite H34, <- (echo_message_sealed req (total - 20)) by (done || lia). fold m.
    rewrite !checksum_ok by (auto with xaios || (rewrite ?zlen_app; zlia)).
    by rewrite take_app_le by (unfold zlen in Hm; lia).
Qed.

Lemma icmp_echo_answered_witness :
  exists f, icmp_build_echo_reply (Some (replicate 64 7)) (Some [2; 0; 0; 0; 0; 0x15]) (Some [0x52; 0x54; 0; 0x12; 0x35; 2])
      (Some (default [] test_request)) 0 0x0a00020f 0x0a000202 42 = Some (XAIOS_OK, f, 42) /\
    rd f 34 = Some 0 /\ ipv4_checksum (at_ptr f 34) 8 = Some 0.
Proof.
  destruct (icmp_echo_answered (replicate 64 7) (default [] test_request) [2; 0; 0; 0; 0; 0x15] [0x52; 0x54; 0; 0x12; 0x35; 2]
    0 0x0a00020f 0x0a000202 42 28 0x1234 1) as (f & Hf & _ & _ & _ & _ & _ & _ & _ & H34 & _ & _ & _ & Hck);
    [..|exists f; split; [exact Hf|split; [exact H34|exact Hck]]];
    first [vm_compute; reflexivity|vm_compute; split; congruence|vm_compute; congruence|apply (bool_decide_unpack _); vm_compute; exact I].
Defined.

(** ** Where the code leaves its buffers or its description *)

(** A sum over more bytes than the buffer has reads beyond it. *)
Lemma checksum_overrun d n : 0 <= n -> zlen d + 1 < n -> ipv4_checksum d n = None.
Proof.
  intros Hn Hd. unfold ipv4_checksum, add_words.
  rewrite (for_opt_None _ (n / 2) (zlen d / 2)); [done| |].
  - unfold zlen in *. dlia.
  - intros t. rewrite (rd_None d (_ + 1)) by (unfold zlen; dlia). by destruct (rd d _).
Qed.

(** A request whose IPv4 length leaves no room for the eight bytes of an ICMP
    header is accepted, with identifier and sequence number from behind the
    message, and then not answered. *)
Definition short_request : list Z :=
  replicate 12 2 ++ [8; 0; 0x45; 0; 0; 24; 0; 0; 0x40; 0; 64; 1] ++ replicate 10 0 ++ [8; 0; 0xf7; 0xff; 0x12; 0x34; 0; 1].

Lemma short_request_accepted :
  icmp_process_echo_request (Some short_request) 42 true = Some (XAIOS_OK, Some (0x1234, 1)) /\
  exists f l, icmp_build_echo_reply (Some (replicate 64 7)) (Some [2; 0; 0; 0; 0; 0x15]) (Some [0x52; 0x54; 0; 0x12; 0x35; 2])
    (Some short_request) 0 0x0a00020f 0x0a000202 42 = Some (XAIOS_ERR_INVALID, f, l).
Proof. split; [|eexists _, _]; vm_compute; reflexivity. Qed.

(** A frame whose IPv4 length is below 20 passes the length test by
    wrap-around, and the checksum reads 4 GiB from the frame. *)
Lemma echo_request_underflow f n total :
  bytes f -> 42 <= n <= zlen f -> zlen f < 4294967000 ->
  get_be16 f 12 = Some 0x0800 -> rd f 34 = Some 8 -> get_be16 f 16 = Some total -> total < 20 ->
  icmp_process_echo_request (Some f) n true = None.
Proof.
  intros Hb Hn Hz H12 H34 H16 Ht. pose proof (get_be16_bound _ _ _ Hb H16) as Hp. unfold icmp_process_echo_request.
  rewrite (proj2 (Z.ltb_ge n 34)), (proj2 (Z.ltb_ge n 42)), H12, rd_at_ptr by lia. change (34 + 0) with 34.
  rewrite H34, H16. bind_step. cbn [orb negb Z.eqb Pos.eqb XAIOS_ICMP_ECHO_REQUEST].
  unfold XAIOS_IPV4_HEADER_SIZE.
  assert (Hu : u64 (total - 20) = total - 20 + 18446744073709551616) by (unfold u64; dlia).
  assert (Hw : u64 (34 + u64 (total - 20)) = 14 + total) by (rewrite Hu; unfold u64; dlia).
  assert (Hv : u32 (u64 (total - 20)) = total - 20 + 4294967296) by (rewrite Hu; unfold u32; dlia).
  rewrite Hw, Hv, (proj2 (Z.ltb_ge _ _)) by lia. rewrite checksum_overrun; [done|lia|].
  rewrite zlen_at_ptr by lia. lia.
Qed.

(** The message built for an exceeded time to live has the type of an
    unreachable destination, so the boot test stops at its last assertion. *)
Lemma time_exceeded_type :
  exists f, (req ← test_request;
    icmp_build_time_exceeded (Some (replicate 80 0)) (Some (replicate 6 2)) (Some (replicate 6 3)) (Some req) 0 1 2 42)
    = Some (XAIOS_OK, f, 62) /\ rd f 34 = Some XAIOS_ICMP_DEST_UNREACHABLE.
Proof. eexists. split; vm_compute; reflexivity. Qed.

Lemma icmp_self_test_panics : icmp_self_test (replicate 64 0) (replicate 1520 0) = None.
Proof. vm_compute. reflexivity. Qed.

(** 101 errors pass within the same nanosecond. *)
Lemma error_rate_101 :
  let calls := fun n => Nat.iter n (fun '(r, c) => let '(r', ok) := icmp_error_can_send r 5000000000 in
                                       (r', if ok : bool then c + 1 else c)) (mk_rate 0 0, 0) in
  (calls 200%nat).2 = 101.
Proof. vm_compute. reflexivity. Qed.

End Icmp.
