(* ===== verification/Ipv6.v ===== *)
(** * IPv6 (kernel/net/ipv6.c, include/xaios/ipv6.h)

    The fixed header, the pseudo-header checksum, link-local addresses, the walk
    along the chain of extension headers, the detection of fragments and the
    boot test.  [chain] is what a chain of extension headers is; the theorems
    relate the two loops of the code to it ([ipv6_walk_exact],
    [is_fragment_exact]) and the header builder to the parser
    ([ipv6_header_roundtrip]). *)

From S2P Require Import Prelude Wire Ipv4.

Module Ipv6.
Import Wire.

Definition XAIOS_IPV6_HEADER_SIZE : Z := 40.
Definition XAIOS_IPV6_VERSION_TC_FLOW : Z := 0x60000000.
Definition XAIOS_IPV6_ETHERTYPE : Z := 0x86DD.
Definition XAIOS_IPV6_NEXT_ICMPV6 : Z := 58.
Definition XAIOS_IPV6_NEXT_TCP : Z := 6.
Definition XAIOS_IPV6_NEXT_UDP : Z := 17.
Definition XAIOS_IPV6_DEFAULT_HOP_LIMIT : Z := 64.
Definition XAIOS_IPV6_NEXT_HOP_BY_HOP : Z := 0.
Definition XAIOS_IPV6_NEXT_ROUTING : Z := 43.
Definition XAIOS_IPV6_NEXT_FRAGMENT : Z := 44.
Definition XAIOS_IPV6_NEXT_AH : Z := 51.
Definition XAIOS_IPV6_NEXT_ESP : Z := 50.
Definition XAIOS_IPV6_NEXT_DEST : Z := 60.
Definition XAIOS_IPV6_FRAG_HEADER_SIZE : Z := 8.
Definition XAIOS_IPV6_MAX_EXTENSION_CHAIN_DEPTH : Z := 16.

(** The three pointers are not NULL. *)
Definition ipv6_build_header (hdr : list Z) (payload_length next_header : Z) (src dst : xaios_ip_addr) : option (list Z) :=
  h ← put_be32 hdr 0 XAIOS_IPV6_VERSION_TC_FLOW;
  h ← put_be16 h 4 payload_length;
  h ← wr h 6 next_header;
  h ← wr h 7 XAIOS_IPV6_DEFAULT_HOP_LIMIT;
  h ← put_addr h 8 src;
  put_addr h 24 dst.

(** What a caller that passes all four output pointers receives; the inner
    [None] is the result -1. *)
Record parsed := mk_parsed { p_payload_length : Z; p_next_header : Z; p_src : xaios_ip_addr; p_dst : xaios_ip_addr }.

Definition ipv6_parse_header (hdr : option (list Z)) (hdr_len : Z) : option (option parsed) :=
  match hdr with
  | None => Some None
  | Some h =>
      if hdr_len <? XAIOS_IPV6_HEADER_SIZE then Some None else
      b0 ← rd h 0;
      if negb (Z.shiftr b0 4 =? 6) then Some None else
      payload_length ← get_be16 h 4;
      next_header ← rd h 6;
      src ← xaios_ip_addr_from_raw_ipv6 (at_ptr h 8);
      dst ← xaios_ip_addr_from_raw_ipv6 (at_ptr h 24);
      Some (Some (mk_parsed payload_length next_header src dst))
  end.

(** The forty bytes of the pseudo header. *)
Definition pseudo_header (src dst : xaios_ip_addr) (next_header upper_layer_length : Z) : option (list Z) :=
  p ← put_addr (replicate 40 0) 0 src;
  p ← put_addr p 16 dst;
  p ← put_be32 p 32 upper_layer_length;
  p ← wr p 36 0;
  p ← wr p 37 0;
  p ← wr p 38 0;
  wr p 39 next_header.

Definition ipv6_pseudo_checksum (src dst : xaios_ip_addr) (next_header upper_layer_length : Z)
    (payload : option (list Z)) (payload_len : Z) : option Z :=
  pseudo ← pseudo_header src dst next_header upper_layer_length;
  sum ← add_words pseudo 40 0;
  sum ← match payload with Some p => add_words p payload_len sum | None => Some sum end;
  Some (complement sum).

(** The address after the call; [None] for a NULL pointer leaves it. *)
Definition ipv6_link_local_from_mac (a : xaios_ip_addr) (mac : option (list Z)) : xaios_ip_addr :=
  match mac with
  | None => a
  | Some m =>
      mk_addr XAIOS_IP_FAMILY_V6
        ([0xFE; 0x80] ++ replicate 6 0 ++
         [Z.lxor (m.[0]) 0x02; m.[1]; m.[2]; 0xFF; 0xFE; m.[3]; m.[4]; m.[5]])
  end.

(** ** Extension headers *)

Definition is_extension (nh : Z) : bool :=
  (nh =? XAIOS_IPV6_NEXT_HOP_BY_HOP) || (nh =? XAIOS_IPV6_NEXT_ROUTING) || (nh =? XAIOS_IPV6_NEXT_FRAGMENT) ||
  (nh =? XAIOS_IPV6_NEXT_AH) || (nh =? XAIOS_IPV6_NEXT_ESP) || (nh =? XAIOS_IPV6_NEXT_DEST).

(** The loop over the headers; [fuel] rounds of
    [for (depth = 0; depth < 16; ++depth)] are left.  The result is the
    protocol, the offset of its data and their length. *)
Fixpoint walk_loop (fuel : nat) (ip6 : list Z) (hdr_len next_hdr offset : Z) : option (option (Z * Z * Z)) :=
  match fuel with
  | O => Some None
  | S fuel' =>
      if negb (is_extension next_hdr) then
        if hdr_len <? offset then Some None else Some (Some (next_hdr, offset, u32 (hdr_len - offset)))
      else
      if hdr_len <? offset + 2 then Some None else
      ext_next ← rd ip6 offset;
      ext_len_byte ← rd ip6 (offset + 1);
      if next_hdr =? XAIOS_IPV6_NEXT_ESP then Some None else
      let ext_size :=
        if next_hdr =? XAIOS_IPV6_NEXT_FRAGMENT then XAIOS_IPV6_FRAG_HEADER_SIZE
        else if next_hdr =? XAIOS_IPV6_NEXT_AH then (ext_len_byte + 2) * 4
        else (ext_len_byte + 1) * 8 in
      if (hdr_len <? offset + ext_size) || (ext_size =? 0) then Some None else
      walk_loop fuel' ip6 hdr_len ext_next (offset + ext_size)
  end.

(** [outs]: whether the output pointers are not NULL. *)
Definition ipv6_walk_extension_headers (ip6_hdr : option (list Z)) (hdr_len : Z) (outs : bool)
    : option (option (Z * Z * Z)) :=
  match ip6_hdr with
  | None => Some None
  | Some ip6 =>
      if (hdr_len <? XAIOS_IPV6_HEADER_SIZE) || negb outs then Some None else
      next_hdr ← rd ip6 6;
      walk_loop (Z.to_nat XAIOS_IPV6_MAX_EXTENSION_CHAIN_DEPTH) ip6 hdr_len next_hdr XAIOS_IPV6_HEADER_SIZE
  end.

(** ** Fragments *)

Fixpoint fragment_scan (fuel : nat) (ip6 : list Z) (ip6_len nh offset : Z) : option bool :=
  match fuel with
  | O => Some false
  | S fuel' =>
      if nh =? XAIOS_IPV6_NEXT_FRAGMENT then Some true else
      if negb (nh =? XAIOS_IPV6_NEXT_HOP_BY_HOP) && negb (nh =? XAIOS_IPV6_NEXT_ROUTING) &&
         negb (nh =? XAIOS_IPV6_NEXT_AH) && negb (nh =? XAIOS_IPV6_NEXT_ESP) && negb (nh =? XAIOS_IPV6_NEXT_DEST)
      then Some false else
      if ip6_len <? offset + 2 then Some false else
      ext_next ← rd ip6 offset;
      ext_len ← rd ip6 (offset + 1);
      if nh =? XAIOS_IPV6_NEXT_ESP then Some false else
      let skip := if nh =? XAIOS_IPV6_NEXT_AH then (ext_len + 2) * 4 else (ext_len + 1) * 8 in
      if ip6_len <? offset + skip then Some false else
      fragment_scan fuel' ip6 ip6_len ext_next (offset + skip)
  end.

Definition ipv6_is_fragment_v6 (frame : option (list Z)) (frame_len : Z) : option bool :=
  match frame with
  | None => Some false
  | Some f =>
      if frame_len <? XAIOS_IPV6_HEADER_SIZE + 14 then Some false else
      ethertype ← get_be16 f 12;
      if negb (ethertype =? XAIOS_IPV6_ETHERTYPE) then Some false else
      let ip6 := at_ptr f 14 in
      let ip6_len := frame_len - 14 in
      if ip6_len <? XAIOS_IPV6_HEADER_SIZE then Some false else
      nh ← rd ip6 6;
      fragment_scan (Z.to_nat XAIOS_IPV6_MAX_EXTENSION_CHAIN_DEPTH) ip6 ip6_len nh XAIOS_IPV6_HEADER_SIZE
  end.

Definition ipv6_fragment_v6 (frame out_buf : option (list Z)) (frame_len out_len out_capacity : Z)
    : option (xaios_status * list Z * Z) :=
  match frame, out_buf with
  | Some f, Some out =>
      if (frame_len <? 54) || (out_capacity <? frame_len) then Some (XAIOS_ERR_INVALID, out, out_len) else
      let plen := u16 (frame_len - 14 - XAIOS_IPV6_HEADER_SIZE) in
      if plen <=? 1400 then
        out' ← bytes_copy out f frame_len;
        Some (XAIOS_OK, out', frame_len)
      else Some (XAIOS_ERR_NO_MEMORY, out, out_len)
  | _, _ => Some (XAIOS_ERR_INVALID, default [] out_buf, out_len)
  end.

(** The frame and its length after the call. *)
Definition ipv6_reassemble_v6 (frame : option (list Z)) (frame_len : Z) : option (xaios_status * list Z * Z) :=
  match frame with
  | None => Some (XAIOS_ERR_INVALID, [], frame_len)
  | Some f =>
      if frame_len <? 54 then Some (XAIOS_ERR_INVALID, f, frame_len) else
      fragmented ← ipv6_is_fragment_v6 (Some f) frame_len;
      if negb fragmented then Some (XAIOS_OK, f, frame_len) else
      let fh := 14 + XAIOS_IPV6_HEADER_SIZE in
      b2 ← rd f (fh + 2);
      b3 ← rd f (fh + 3);
      let fh_offset := u16 (Z.lor (Z.shiftl (Z.land b2 0xF8) 5) b3) in
      let more_frags := Z.shiftr b2 7 in
      if (fh_offset =? 0) && (more_frags =? 0) then
        next_hdr ← rd f fh;
        h ← rd f (14 + 4);
        l ← rd f (14 + 5);
        let original := u16 (Z.lor (Z.shiftl h 8) l) in
        let remaining := u16 (original - 8) in
        f ← for_opt (Z.to_nat remaining) 0 (fun i f => x ← rd f (fh + 8 + i); wr f (fh + i) x) f;
        f ← wr f (14 + 6) next_hdr;
        f ← put_be16 f (14 + 4) remaining;
        Some (XAIOS_OK, f, 14 + XAIOS_IPV6_HEADER_SIZE + remaining)
      else Some (XAIOS_ERR_NO_MEMORY, f, frame_len)
  end.

(** ** Boot test *)

(** [fe80::n] and [::n]. *)
Definition link_local (n : Z) : xaios_ip_addr := mk_addr XAIOS_IP_FAMILY_V6 ([0xFE; 0x80] ++ replicate 13 0 ++ [n]).
Definition plain_addr (n : Z) : xaios_ip_addr := mk_addr XAIOS_IP_FAMILY_V6 (replicate 15 0 ++ [n]).

(** [ipv6_self_test] on the uninitialised arrays [hdr], [pkt] and [fbuf]. *)
Definition ipv6_self_test (hdr pkt fbuf : list Z) : option unit :=
  let src := link_local 0x01 in
  let dst := link_local 0x02 in
  hdr ← ipv6_build_header hdr 8 XAIOS_IPV6_NEXT_ICMPV6 src dst;
  plen ← get_be16 hdr 4;
  _ ← check ((Z.shiftr (hdr.[0]) 4 =? 6) && (plen =? 8) && (hdr.[6] =? 58) && (hdr.[7] =? 64) &&
             (hdr.[8] =? 0xFE) && (hdr.[9] =? 0x80) && (hdr.[23] =? 0x01) &&
             (hdr.[24] =? 0xFE) && (hdr.[25] =? 0x80) && (hdr.[39] =? 0x02));
  r ← ipv6_parse_header (Some hdr) 40;
  p ← r;
  _ ← check ((p_payload_length p =? 8) && (p_next_header p =? 58) &&
             xaios_ip_addr_equal (p_src p) src && xaios_ip_addr_equal (p_dst p) dst);
  let payload := [0x80; 0; 0; 0; 0; 0x01; 0; 0x01] in
  cksum ← ipv6_pseudo_checksum src dst XAIOS_IPV6_NEXT_ICMPV6 8 (Some payload) 8;
  _ ← check (negb (cksum =? 0));
  payload ← put_be16 payload 2 cksum;
  verify ← ipv6_pseudo_checksum src dst XAIOS_IPV6_NEXT_ICMPV6 8 (Some payload) 8;
  _ ← check (verify =? 0);
  let ll := ipv6_link_local_from_mac (mk_addr 0 []) (Some [0x52; 0x54; 0; 0x12; 0x34; 0x56]) in
  _ ← check ((family ll =? XAIOS_IP_FAMILY_V6) && ((addr ll).[0] =? 0xFE) && ((addr ll).[1] =? 0x80) &&
             ((addr ll).[8] =? Z.lxor 0x52 0x02) && ((addr ll).[11] =? 0xFF) && ((addr ll).[12] =? 0xFE) &&
             ((addr ll).[15] =? 0x56));
  pkt ← ipv6_build_header pkt 40 XAIOS_IPV6_NEXT_HOP_BY_HOP (plain_addr 0x01) (plain_addr 0x02);
  pkt ← wr pkt 40 XAIOS_IPV6_NEXT_ROUTING;
  pkt ← wr pkt 41 0;
  pkt ← wr pkt 48 XAIOS_IPV6_NEXT_ICMPV6;
  pkt ← wr pkt 49 0;
  pkt ← wr pkt 56 128;
  w ← ipv6_walk_extension_headers (Some pkt) 60 true;
  _ ← check (bool_decide (w = Some (XAIOS_IPV6_NEXT_ICMPV6, 56, 4)));
  pkt ← wr pkt 40 XAIOS_IPV6_NEXT_FRAGMENT;
  pkt ← wr pkt 48 XAIOS_IPV6_NEXT_ICMPV6;
  w ← ipv6_walk_extension_headers (Some pkt) 60 true;
  '(nh, off, _) ← w;
  _ ← check ((nh =? XAIOS_IPV6_NEXT_ICMPV6) && (off =? 56));
  fbuf ← put_macs fbuf (replicate 6 0) (replicate 6 0);
  fbuf ← put_be16 fbuf 12 XAIOS_IPV6_ETHERTYPE;
  fbuf ← through fbuf 14 (fun h => ipv6_build_header h 8 XAIOS_IPV6_NEXT_ICMPV6 (plain_addr 0x01) (plain_addr 0x02));
  b ← ipv6_is_fragment_v6 (Some fbuf) 62;
  _ ← check (negb b);
  fbuf ← wr fbuf 20 XAIOS_IPV6_NEXT_FRAGMENT;
  b ← ipv6_is_fragment_v6 (Some fbuf) 62;
  _ ← check b;
  fbuf ← wr fbuf 20 XAIOS_IPV6_NEXT_ICMPV6;
  '(st, fbuf, rlen) ← ipv6_reassemble_v6 (Some fbuf) 62;
  _ ← check (is_ok st);
  fbuf ← wr fbuf 20 XAIOS_IPV6_NEXT_FRAGMENT;
  '(st, _, _) ← ipv6_reassemble_v6 (Some fbuf) rlen;
  check (status_eqb st XAIOS_ERR_NO_MEMORY).

(** ** Specification of the extension headers *)

(** The size of an extension header of type [nh] with length byte [l]. *)
Definition ext_size (nh l : Z) : Z :=
  if nh =? XAIOS_IPV6_NEXT_FRAGMENT then 8 else if nh =? XAIOS_IPV6_NEXT_AH then (l + 2) * 4 else (l + 1) * 8.

(** [chain p len k nh off nh' off']: from the header of type [nh] at [off] the
    packet [p] of [len] bytes has [k] complete extension headers with readable
    length, after which comes a header of type [nh'] at [off']. *)
Inductive chain (p : list Z) (len : Z) : nat -> Z -> Z -> Z -> Z -> Prop :=
| ChainNil nh off : chain p len 0 nh off nh off
| ChainCons k nh off next l nh' off' :
    is_extension nh = true -> nh <> XAIOS_IPV6_NEXT_ESP -> off + 2 <= len ->
    rd p off = Some next -> rd p (off + 1) = Some l -> off + ext_size nh l <= len ->
    chain p len k next (off + ext_size nh l) nh' off' -> chain p len (S k) nh off nh' off'.

Lemma chain_stop p len k nh off nh' off' :
  is_extension nh = false \/ nh = XAIOS_IPV6_NEXT_ESP -> chain p len k nh off nh' off' -> k = 0%nat /\ nh' = nh /\ off' = off.
Proof. intros Hs Hc. inversion Hc; subst; [done|]. destruct Hs; congruence. Qed.

(** A step of a chain is determined by the packet. *)
Lemma chain_step p len k nh off next l nh' off' :
  rd p off = Some next -> rd p (off + 1) = Some l ->
  chain p len (S k) nh off nh' off' -> chain p len k next (off + ext_size nh l) nh' off'.
Proof. intros Hn Hl Hc. inversion Hc; subst. by simplify_eq. Qed.

Lemma ext_size_pos nh l : byte l -> 8 <= ext_size nh l.
Proof. unfold byte, ext_size. intros. repeat case_if; lia. Qed.

Section walk.
Context (p : list Z) (len : Z) (Hb : bytes p) (Hlen : len <= zlen p).

(** The header at an offset can be read when two bytes are left. *)
Lemma header_read off :
  0 <= off -> off + 2 <= len -> rd p off = Some (p.[off]) /\ rd p (off + 1) = Some (p.[off + 1]) /\ byte (p.[off + 1]).
Proof. intros. rewrite !rd_ok by lia. auto using bytes_get. Qed.

Lemma walk_loop_exact fuel : forall nh off, 0 <= off <= len -> len < 4294967296 ->
  exists r, walk_loop fuel p len nh off = Some r /\
    forall nh' off' n, r = Some (nh', off', n) <->
      exists k, (k < fuel)%nat /\ chain p len k nh off nh' off' /\ is_extension nh' = false /\ n = len - off' /\ off' <= len.
Proof.
  induction fuel as [|fuel IH]; intros nh off Ho Hl; simpl.
  { exists None. split; [done|]. intros. split; [done|]. intros (k & Hk & _). lia. }
  assert (Hno : (forall k nh' off', (k < S fuel)%nat -> chain p len k nh off nh' off' -> is_extension nh' = false -> False) ->
    exists r, Some None = Some r /\ forall nh' off' n, r = Some (nh', off', n) <->
      exists k, (k < S fuel)%nat /\ chain p len k nh off nh' off' /\ is_extension nh' = false /\ n = len - off' /\ off' <= len).
  { intros Hn. exists None. split; [done|]. intros. split; [done|]. intros (k & Hk & Hc & He & _). by edestruct Hn. }
  destruct (is_extension nh) eqn:Hext; simpl.
  2:{ rewrite (proj2 (Z.ltb_ge _ _)) by lia. eexists. split; [done|]. intros nh' off' n. rewrite u32_small by lia. split.
      - intros [= <- <- <-]. exists 0%nat. split_and!; [lia|constructor|done|done|lia].
      - intros (k & Hk & Hc & He & -> & _). by apply chain_stop in Hc as (_ & -> & ->); [|left]. }
  case_if; [apply Hno; intros k nh' off' Hk Hc He; inversion Hc; subst; [congruence|lia]|].
  destruct (header_read off) as (H1 & H2 & H3); [lia..|]. rewrite H1, H2. simpl.
  destruct (Z.eqb_spec nh XAIOS_IPV6_NEXT_ESP) as [He|He].
  { apply Hno. intros k nh' off' Hk Hc Hx. apply chain_stop in Hc as (_ & -> & _); [congruence|by right]. }
  change (if nh =? _ then XAIOS_IPV6_FRAG_HEADER_SIZE else _) with (ext_size nh (p.[off + 1])).
  pose proof (ext_size_pos nh _ H3) as H8.
  rewrite (proj2 (Z.eqb_neq _ 0)), orb_false_r by lia.
  case_if; [apply Hno; intros k nh' off' Hk Hc Hx; inversion Hc; subst; [congruence|simplify_eq; lia]|].
  destruct (IH (p.[off]) (off + ext_size nh (p.[off + 1]))) as (r & -> & Hr); [lia..|]. exists r. split; [done|].
  intros nh' off' n. rewrite Hr. split.
  - intros (k & Hk & Hc & Hx). exists (S k). split; [lia|]. split; [|done]. eapply ChainCons; [done..|lia|done|done|lia|done].
  - intros (k & Hk & Hc & Hx & Hn). destruct k as [|k]; [inversion Hc; congruence|].
    exists k. split; [lia|]. split; [|done]. by eapply chain_step.
Qed.

Lemma fragment_scan_exact fuel : forall nh off, 0 <= off <= len ->
  exists r, fragment_scan fuel p len nh off = Some r /\
    (r = true <-> exists k off', (k < fuel)%nat /\ chain p len k nh off XAIOS_IPV6_NEXT_FRAGMENT off').
Proof.
  induction fuel as [|fuel IH]; intros nh off Ho; simpl.
  { exists false. split; [done|]. split; [done|]. intros (k & ? & Hk & _). lia. }
  destruct (Z.eqb_spec nh XAIOS_IPV6_NEXT_FRAGMENT) as [->|Hf].
  { exists true. split; [done|]. split; [|done]. intros _. exists 0%nat, off. split; [lia|constructor]. }
  assert (Hno : (forall k off', chain p len k nh off XAIOS_IPV6_NEXT_FRAGMENT off' -> False) ->
    exists r, Some false = Some r /\ (r = true <-> exists k off', (k < S fuel)%nat /\ chain p len k nh off XAIOS_IPV6_NEXT_FRAGMENT off')).
  { intros Hn. exists false. split; [done|]. split; [done|]. intros (k & o & _ & Hc). by edestruct Hn. }
  set (stop := _ && _ && _ && _ && _).
  assert (Hstop : stop = negb (is_extension nh)).
  { unfold stop, is_extension. rewrite (proj2 (Z.eqb_neq nh _) Hf). rewrite orb_false_r, !negb_orb. done. }
  rewrite Hstop. destruct (is_extension nh) eqn:Hext; simpl.
  2:{ apply Hno. intros k o Hc. apply chain_stop in Hc as (_ & ? & _); [congruence|by left]. }
  case_if; [apply Hno; intros k o Hc; inversion Hc; subst; [congruence|lia]|].
  destruct (header_read off) as (H1 & H2 & H3); [lia..|]. rewrite H1, H2. simpl.
  destruct (Z.eqb_spec nh XAIOS_IPV6_NEXT_ESP) as [He|He].
  { apply Hno. intros k o Hc. apply chain_stop in Hc as (_ & ? & _); [congruence|by right]. }
  set (skip := if nh =? XAIOS_IPV6_NEXT_AH then _ else _).
  assert (Hsk : skip = ext_size nh (p.[off + 1])) by (unfold skip, ext_size; by rewrite (proj2 (Z.eqb_neq nh _) Hf)).
  rewrite Hsk. pose proof (ext_size_pos nh _ H3) as H8.
  case_if; [apply Hno; intros k o Hc; inversion Hc; subst; [congruence|simplify_eq; lia]|].
  destruct (IH (p.[off]) (off + ext_size nh (p.[off + 1]))) as (r & -> & Hr); [lia..|]. exists r. split; [done|].
  rewrite Hr. split.
  - intros (k & o & Hk & Hc). exists (S k), o. split; [lia|]. eapply ChainCons; [done..|lia|done|done|lia|done].
  - intros (k & o & Hk & Hc). destruct k as [|k]; [inversion Hc; congruence|].
    exists k, o. split; [lia|]. by eapply chain_step.
Qed.
End walk.

(** ** The header *)

(** The forty bytes of RFC 8200. *)
Definition header (payload_length next_header hop : Z) (src dst : xaios_ip_addr) : list Z :=
  [0x60; 0; 0; 0; u8 (Z.shiftr payload_length 8); u8 payload_length; u8 next_header; u8 hop] ++ addr src ++ addr dst.

#[local] Arguments u8 : simpl never.
#[local] Arguments Z.shiftr : simpl never.

Lemma build_header6_ok hdr len nh src dst :
  addr_ok src -> addr_ok dst -> 40 <= zlen hdr ->
  ipv6_build_header hdr len nh src dst = Some (header len nh XAIOS_IPV6_DEFAULT_HOP_LIMIT src dst ++ drop 40 hdr).
Proof.
  intros Hs Hd Hl. destruct (split_buf hdr 40 Hl) as (h & t & -> & Hh & _).
  assert (Hz : zlen h = 40) by (unfold zlen; lia). rewrite drop_app_length' by lia.
  explode h 8. unfold ipv6_build_header, put_be32, put_be16, wr, rd. simpl mbind. simpl app.
  destruct (split_buf h 16) as (h1 & h2 & -> & Hh1 & _); [unfold zlen in *; simpl in Hz; lia|].
  simpl in Hh. rewrite length_app in Hh.
  match goal with |- put_addr (?a :: ?b :: ?c :: ?d :: ?e :: ?f :: ?g :: ?i :: _) _ _ ≫= _ = _ =>
    set (P := [a; b; c; d; e; f; g; i]) end.
  rewrite <- app_assoc. change (put_addr _ 8 src) with (put_addr (P ++ h1 ++ h2 ++ t) 8 src).
  rewrite put_addr_mid by (done || (unfold zlen; lia)). bind_step. rewrite (app_assoc P).
  rewrite (put_addr_mid (P ++ addr src)); [by rewrite <- !app_assoc|done| |unfold zlen; lia].
  rewrite zlen_app, (ao_len _ Hs). done.
Qed.

Lemma bytes_header6 len nh hop src dst : addr_ok src -> addr_ok dst -> bytes (header len nh hop src dst).
Proof.
  intros [Hs _] [Hd _]. unfold header. apply bytes_app; [|by apply bytes_app].
  repeat constructor; unfold byte; try lia; apply u8_range.
Qed.

Lemma zlen_header len nh hop src dst : addr_ok src -> addr_ok dst -> zlen (header len nh hop src dst) = 40.
Proof. intros [_ Hs] [_ Hd]. unfold header. rewrite !zlen_app, Hs, Hd. done. Qed.

(** The parser reads back what is in the header. *)
Lemma parse_header_ok len nh hop src dst t n :
  addr_ok src -> addr_ok dst -> family src = XAIOS_IP_FAMILY_V6 -> family dst = XAIOS_IP_FAMILY_V6 ->
  0 <= len < 65536 -> byte nh -> 40 <= n ->
  ipv6_parse_header (Some (header len nh hop src dst ++ t)) n = Some (Some (mk_parsed len nh src dst)).
Proof.
  intros Hs Hd Hfs Hfd Hl Hn Hz. destruct src as [fs s], dst as [fd d]. simpl in Hfs, Hfd. subst.
  pose proof (ao_len _ Hs) as Hls. pose proof (ao_len _ Hd) as Hld. simpl in Hls, Hld.
  unfold ipv6_parse_header. rewrite (proj2 (Z.ltb_ge n _)) by (unfold XAIOS_IPV6_HEADER_SIZE; lia).
  set (h := header _ _ _ _ _ ++ t).
  change (rd h 0) with (Some 0x60). change (rd h 6) with (Some (u8 nh)).
  change (get_be16 h 4) with (Some (u16 (Z.lor (Z.shiftl (u8 (Z.shiftr len 8)) 8) (u8 len)))).
  change (at_ptr h 8) with ((s ++ d) ++ t). bind_step. simpl negb. cbv iota.
  rewrite be16_value, u8_be16, u16_small, (u8_byte nh), <- app_assoc, from_raw_ok by (done || apply u8_range). bind_step.
  assert (H24 : at_ptr h 24 = d ++ t).
  { unfold h, header. rewrite <- app_assoc, <- (app_assoc s), app_assoc. apply at_ptr_app. rewrite zlen_app, Hls. done. }
  rewrite H24, from_raw_ok by done. done.
Qed.

(** A header built for an outgoing packet is read back by the parser of the
    receiver as exactly the length, the protocol and the two addresses, whatever
    follows it, and nothing behind its forty bytes is touched. *)
Theorem ipv6_header_roundtrip (b : list Z) (n len nh : Z) (src dst : xaios_ip_addr)
  (Hs : addr_ok src) (Hd : addr_ok dst) (Hfs : family src = XAIOS_IP_FAMILY_V6) (Hfd : family dst = XAIOS_IP_FAMILY_V6)
  (Hl : 0 <= len < 65536) (Hn : byte nh) (Hb : 40 <= n <= zlen b) :
  exists h, ipv6_build_header b len nh src dst = Some h /\ drop 40 h = drop 40 b /\
    ipv6_parse_header (Some h) n = Some (Some (mk_parsed len nh src dst)).
Proof.
  eexists. split; [apply build_header6_ok; (done || lia)|]. split.
  - apply drop_app_length'. pose proof (zlen_header len nh XAIOS_IPV6_DEFAULT_HOP_LIMIT src dst Hs Hd) as H. unfold zlen in H. lia.
  - apply parse_header_ok; (done || lia).
Qed.

Lemma link_local_ok n : byte n -> addr_ok (link_local n).
Proof.
  intros Hn. split; [|done]. unfold bytes, byte in *. simpl. repeat (apply Forall_cons; split; [lia|]). constructor.
Qed.

Lemma ipv6_header_roundtrip_witness :
  exists h, ipv6_build_header (replicate 60 7) 8 58 (link_local 1) (link_local 2) = Some h /\ drop 40 h = replicate 20 7 /\
    ipv6_parse_header (Some h) 60 = Some (Some (mk_parsed 8 58 (link_local 1) (link_local 2))).
Proof.
  apply (ipv6_header_roundtrip (replicate 60 7) 60 8 58); try done; try apply link_local_ok; unfold byte; try lia.
Defined.

(** What the walk returns: the end of a chain of fewer than sixteen headers. *)
Lemma walk_result p len : bytes p -> len <= zlen p -> 40 <= len < 4294967296 ->
  exists r, ipv6_walk_extension_headers (Some p) len true = Some r /\
    forall nh off n, r = Some (nh, off, n) <->
      exists k, (k < 16)%nat /\ chain p len k (p.[6]) 40 nh off /\ is_extension nh = false /\ n = len - off /\ off <= len.
Proof.
  intros Hb Hz Hl. unfold ipv6_walk_extension_headers. rewrite (proj2 (Z.ltb_ge len _)) by (unfold XAIOS_IPV6_HEADER_SIZE; lia).
  rewrite rd_ok by lia. apply (walk_loop_exact p len Hb Hz 16); unfold XAIOS_IPV6_HEADER_SIZE; lia.
Qed.

Lemma chain_bound p len k nh off nh' off' : chain p len k nh off nh' off' -> off <= len -> off' <= len.
Proof. induction 1; auto. Qed.

(** C19: The walk along the extension headers ends and never reads outside the
    packet.  When fewer than sixteen complete extension headers, none of them
    encrypted, lead to a protocol, it returns that protocol with the place and the
    length of its data; and what it returns is always the end of such a chain of
    at most sixteen headers, so it fails on every packet without one. *)
Theorem ipv6_walk_exact (p : list Z) (len : Z)
  (Hb : bytes p) (Hz : len <= zlen p) (Hl : 40 <= len < 4294967296) :
  exists r, ipv6_walk_extension_headers (Some p) len true = Some r /\
    (forall k nh off, (k < 16)%nat -> chain p len k (p.[6]) 40 nh off -> is_extension nh = false -> r = Some (nh, off, len - off)) /\
    (forall nh off n, r = Some (nh, off, n) ->
       exists k, (k <= 16)%nat /\ chain p len k (p.[6]) 40 nh off /\ is_extension nh = false /\ n = len - off /\ off <= len).
Proof.
  destruct (walk_result p len Hb Hz Hl) as (r & Hr & Hex). exists r. split; [done|]. split.
  - intros k nh off Hk Hc Hx. apply Hex. exists k. split_and!; try done. eapply chain_bound; [exact Hc|lia].
  - intros nh off n Hn. apply Hex in Hn as (k & Hk & H). exists k. split; [lia|done].
Qed.

(** A packet with a hop-by-hop and a routing header before its message. *)
Definition two_extensions : list Z :=
  [0x60; 0; 0; 0; 0; 20; 0; 64] ++ replicate 32 1 ++ [43; 0; 0; 0; 0; 0; 0; 0] ++ [58; 0; 0; 0; 0; 0; 0; 0] ++ [128; 0; 1; 2].

Lemma ipv6_walk_exact_witness :
  ipv6_walk_extension_headers (Some two_extensions) 60 true = Some (Some (58, 56, 4)) /\
  exists k, (k <= 16)%nat /\ chain two_extensions 60 k 0 40 58 56.
Proof.
  destruct (ipv6_walk_exact two_extensions 60) as (r & Hr & Hex & Hso);
    [by apply (bool_decide_unpack _)|vm_compute; congruence|lia|].
  assert (H : r = Some (58, 56, 4)).
  { apply (Hex 2%nat 58 56); [lia| |reflexivity]. eapply (ChainCons _ _ 1 0 40 43 0); [vm_compute; congruence..|].
    eapply (ChainCons _ _ 0 43 48 58 0); [vm_compute; congruence..|]. constructor. }
  subst r. split; [exact Hr|]. destruct (Hso 58 56 4 eq_refl) as (k & Hk & Hc & _). by exists k.
Defined.

(** Sixteen headers, the number given as the maximum, are already too many. *)
Definition sixteen_extensions : list Z :=
  [0x60; 0; 0; 0; 0; 132; 0; 64] ++ replicate 32 1 ++ concat (replicate 15 [0; 0; 0; 0; 0; 0; 0; 0]) ++ [58; 0; 0; 0; 0; 0; 0; 0] ++ [128; 0; 1; 2].

Lemma ipv6_walk_sixteen_fails :
  chain sixteen_extensions 172 16 0 40 58 168 /\ ipv6_walk_extension_headers (Some sixteen_extensions) 172 true = Some None.
Proof.
  split; [|vm_compute; reflexivity].
  do 15 (eapply (ChainCons _ _ _ _ _ 0 0); [vm_compute; congruence..|]).
  eapply (ChainCons _ _ _ _ _ 58 0); [vm_compute; congruence..|]. constructor.
Qed.

(** The fragment test finds exactly the packets with a fragment header among
    the first sixteen headers. *)
Lemma is_fragment_exact f n :
  bytes f -> 54 <= n <= zlen f ->
  exists r, ipv6_is_fragment_v6 (Some f) n = Some r /\
    (r = true <-> get_be16 f 12 = Some XAIOS_IPV6_ETHERTYPE /\
       exists k off, (k < 16)%nat /\ chain (at_ptr f 14) (n - 14) k (f.[20]) 40 XAIOS_IPV6_NEXT_FRAGMENT off).
Proof.
  intros Hb Hn. unfold ipv6_is_fragment_v6. unfold XAIOS_IPV6_HEADER_SIZE. rewrite (proj2 (Z.ltb_ge n _)) by lia.
  rewrite get_be16_ok by (done || lia). bind_step.
  destruct (Z.eqb_spec (256 * f.[12] + f.[12 + 1]) XAIOS_IPV6_ETHERTYPE) as [He|He]; cbn [negb].
  2:{ exists false. split; [done|]. split; [done|]. intros [[=] _]. congruence. }
  rewrite (proj2 (Z.ltb_ge _ _)), rd_at_ptr, rd_ok by lia. bind_step. change (14 + 6) with 20.
  destruct (fragment_scan_exact (at_ptr f 14) (n - 14) (bytes_at_ptr _ _ Hb) ltac:(rewrite zlen_at_ptr by lia; lia)
    16 (f.[20]) 40) as (r & Hr & Hx); [lia|]. exists r. split; [exact Hr|]. rewrite Hx. rewrite He. naive_solver.
Qed.

(** ** The checksum *)

Lemma pseudo_header_ok src dst nh len :
  addr_ok src -> addr_ok dst ->
  pseudo_header src dst nh len =
  Some (addr src ++ addr dst ++ [u8 (Z.shiftr len 24); u8 (Z.shiftr len 16); u8 (Z.shiftr len 8); u8 len; 0; 0; 0; u8 nh]).
Proof.
  intros Hs Hd. unfold pseudo_header.
  change (replicate 40 0) with ([] ++ replicate 16 0 ++ replicate 16 0 ++ replicate 8 0).
  rewrite put_addr_mid by done. bind_step. rewrite app_nil_l.
  rewrite put_addr_mid by (done || apply Hs). bind_step.
  assert (H32 : zlen (addr src ++ addr dst) = 32) by (rewrite zlen_app, (ao_len _ Hs), (ao_len _ Hd); done).
  rewrite app_assoc. behind 32 0. behind 32 4. behind 32 5. behind 32 6. behind 32 7.
  by rewrite <- !app_assoc.
Qed.

(** The sum of the pseudo header. *)
Definition pseudo_sum (src dst : xaios_ip_addr) (nh len : Z) : Z :=
  words (addr src ++ addr dst ++ [u8 (Z.shiftr len 24); u8 (Z.shiftr len 16); u8 (Z.shiftr len 8); u8 len; 0; 0; 0; u8 nh]).

Lemma pseudo_bytes src dst nh len : addr_ok src -> addr_ok dst ->
  bytes (addr src ++ addr dst ++ [u8 (Z.shiftr len 24); u8 (Z.shiftr len 16); u8 (Z.shiftr len 8); u8 len; 0; 0; 0; u8 nh]).
Proof.
  intros [Hs _] [Hd _]. apply bytes_app; [done|]. apply bytes_app; [done|].
  repeat constructor; unfold byte; try lia; apply u8_range.
Qed.

Lemma pseudo_sum_bound src dst nh len : addr_ok src -> addr_ok dst -> 0 <= pseudo_sum src dst nh len <= 2621400.
Proof.
  intros Hs Hd. pose proof (words_bound _ (pseudo_bytes src dst nh len Hs Hd)) as H.
  rewrite !zlen_app, (ao_len _ Hs), (ao_len _ Hd) in H. change (zlen [_; _; _; _; _; _; _; _]) with 8 in H.
  unfold pseudo_sum. lia.
Qed.

Lemma pseudo_checksum_ok src dst nh len p n :
  addr_ok src -> addr_ok dst -> bytes p -> 0 <= n <= zlen p -> n < 4294967296 ->
  ipv6_pseudo_checksum src dst nh len (Some p) n = Some (complement (pseudo_sum src dst nh len + words (take (Z.to_nat n) p))).
Proof.
  intros Hs Hd Hb Hn Hmax. unfold ipv6_pseudo_checksum. rewrite pseudo_header_ok by done. bind_step.
  set (q := addr src ++ _).
  assert (Hq : zlen q = 40) by (unfold q; rewrite !zlen_app, (ao_len _ Hs), (ao_len _ Hd); done).
  rewrite add_words_ok by (first [by apply pseudo_bytes|lia]). bind_step. rewrite take_ge by (unfold zlen in Hq; lia).
  change (0 + words q) with (pseudo_sum src dst nh len). pose proof (pseudo_sum_bound src dst nh len Hs Hd).
  rewrite add_words_ok by (done || lia). done.
Qed.

(** A message whose checksum field holds the checksum over the message with a
    zero field has checksum zero. *)
Lemma pseudo_checksum_seals src dst nh len a t r n :
  addr_ok src -> addr_ok dst -> bytes a -> bytes t -> bytes r -> Nat.Even (length a) -> n = zlen a + 2 + zlen t -> n < 65536 ->
  let c := complement (pseudo_sum src dst nh len + words (a ++ [0; 0] ++ t)) in
  ipv6_pseudo_checksum src dst nh len (Some ((a ++ [0; 0] ++ t) ++ r)) n = Some c /\
  ipv6_pseudo_checksum src dst nh len (Some ((a ++ [u8 (Z.shiftr c 8); u8 c] ++ t) ++ r)) n = Some 0.
Proof.
  intros Hs Hd Ha Ht Hr He Hn Hmax c. pose proof (pseudo_sum_bound src dst nh len Hs Hd) as Hp.
  assert (Hz : forall x y, n = zlen (a ++ [x; y] ++ t)) by (intros; rewrite !zlen_app; change (zlen [x; y]) with 2; lia).
  assert (Hb : forall x y, byte x -> byte y -> bytes ((a ++ [x; y] ++ t) ++ r)).
  { intros x y Hx Hy. apply bytes_app; [|done]. apply bytes_app; [done|]. apply bytes_app; [|done]. auto with xaios. }
  rewrite !pseudo_checksum_ok; try done;
    try (apply Hb; first [apply u8_range|unfold byte; lia]); try (rewrite zlen_app, <- Hz; zlia); try lia.
  assert (Hnat : forall x y, length (a ++ [x; y] ++ t) = Z.to_nat n) by (intros x y; rewrite (Hz x y); unfold zlen; lia).
  rewrite !take_app_length' by (by rewrite Hnat). split; [done|].
  destruct (field_seals a t (pseudo_sum src dst nh len)) as [_ H]; [done|done|done|lia|zlia|]. f_equal. exact H.
Qed.

(** ** Where the code departs from its description *)

(** The result of the boot test depends on uninitialised stack memory: with
    zeros behind the header the fragment counts as complete and the last
    assertion fails, with ones it passes. *)
Lemma ipv6_self_test_uninitialised :
  ipv6_self_test (replicate 40 0) (replicate 80 0) (replicate 128 0) = None /\
  ipv6_self_test (replicate 40 0) (replicate 80 0) (replicate 128 255) = Some ().
Proof. split; vm_compute; reflexivity. Qed.

(** A fragment at offset 1024 (128 units in the upper thirteen bits of bytes 56
    and 57) is taken for a complete packet, because the code looks for the offset
    and the flag in other bits. *)
Definition second_fragment : list Z :=
  replicate 12 2 ++ [0x86; 0xDD] ++ [0x60; 0; 0; 0; 0; 16; 44; 64] ++ replicate 32 1 ++
  [17; 0; 0x04; 0; 0; 0; 0; 9] ++ [1; 2; 3; 4; 5; 6; 7; 8].

Lemma reassemble_v6_wrong_bits :
  exists f, ipv6_reassemble_v6 (Some second_fragment) 70 = Some (XAIOS_OK, f, 62) /\
    256 * second_fragment.[56] + second_fragment.[57] = 8 * 128.
Proof. eexists. split; vm_compute; reflexivity. Qed.

End Ipv6.
