(* ===== verification/Icmpv6.v ===== *)
(** * ICMPv6 (kernel/net/icmpv6.c, include/xaios/icmpv6.h)

    Echo requests and replies, neighbour advertisements, error messages and the
    limit on their rate.  [icmpv6_echo_answered] and [icmpv6_error_exact] show
    what the reply to an accepted request and an error message are. *)

From S2P Require Import Prelude Wire Ipv4 Ipv6.

Module Icmpv6.
Import Wire Ipv6.

Definition XAIOS_ICMPV6_ECHO_REQUEST : Z := 128.
Definition XAIOS_ICMPV6_ECHO_REPLY : Z := 129.
Definition XAIOS_ICMPV6_NEIGHBOR_SOLICIT : Z := 135.
Definition XAIOS_ICMPV6_NEIGHBOR_ADVERT : Z := 136.
Definition XAIOS_ICMPV6_ROUTER_SOLICIT : Z := 133.
Definition XAIOS_ICMPV6_ROUTER_ADVERT : Z := 134.
Definition XAIOS_ICMPV6_DEST_UNREACHABLE : Z := 1.
Definition XAIOS_ICMPV6_TIME_EXCEEDED : Z := 3.
Definition XAIOS_ICMPV6_CODE_NO_ROUTE : Z := 0.
Definition XAIOS_ICMPV6_CODE_HOP_LIMIT_EXCEEDED : Z := 0.
Definition XAIOS_ICMPV6_MIN_FRAME : Z := 62.
Definition XAIOS_ICMPV6_OFFSET : Z := 54.
Definition XAIOS_ICMPV6_ERROR_EMBED_LEN : Z := 128.
Definition XAIOS_ICMPV6_RATE_MAX : Z := 100.

(** ** Messages *)

(** What an accepted request delivers: identifier, sequence number, addresses. *)
Definition icmpv6_process_echo_request (frame : option (list Z)) (frame_len : Z) (outs : bool)
    : option (xaios_status * option (Z * Z * xaios_ip_addr * xaios_ip_addr)) :=
  match frame with
  | None => Some (XAIOS_ERR_INVALID, None)
  | Some f =>
      if (frame_len <? XAIOS_ICMPV6_MIN_FRAME) || negb outs then Some (XAIOS_ERR_INVALID, None) else
      ethertype ← get_be16 f 12;
      if negb (ethertype =? XAIOS_IPV6_ETHERTYPE) then Some (XAIOS_ERR_INVALID, None) else
      r ← ipv6_parse_header (Some (at_ptr f 14)) (frame_len - 14);
      match r with
      | None => Some (XAIOS_ERR_INVALID, None)
      | Some h =>
          if negb (p_next_header h =? XAIOS_IPV6_NEXT_ICMPV6) then Some (XAIOS_ERR_INVALID, None) else
          let icmpv6 := at_ptr f XAIOS_ICMPV6_OFFSET in
          type ← rd icmpv6 0;
          if negb (type =? XAIOS_ICMPV6_ECHO_REQUEST) then Some (XAIOS_ERR_INVALID, None) else
          let icmpv6_len := p_payload_length h in
          if (frame_len <? XAIOS_ICMPV6_OFFSET + icmpv6_len) || (icmpv6_len <? 8) then Some (XAIOS_ERR_INVALID, None) else
          cksum ← ipv6_pseudo_checksum (p_src h) (p_dst h) XAIOS_IPV6_NEXT_ICMPV6 icmpv6_len (Some icmpv6) icmpv6_len;
          if negb (cksum =? 0) then Some (XAIOS_ERR_INVALID, None) else
          identifier ← get_be16 icmpv6 4;
          sequence ← get_be16 icmpv6 6;
          Some (XAIOS_OK, Some (identifier, sequence, p_src h, p_dst h))
      end
  end.

(** [bytes_zero(frame, total)], the Ethernet header and [ipv6_build_header]. *)
Definition headers6 (frame : list Z) (total : Z) (dst_mac src_mac : list Z) (len : Z) (src dst : xaios_ip_addr)
    : option (list Z) :=
  f ← bytes_zero frame total;
  f ← put_macs f dst_mac src_mac;
  f ← put_be16 f 12 XAIOS_IPV6_ETHERTYPE;
  through f 14 (fun h => ipv6_build_header h (u16 len) XAIOS_IPV6_NEXT_ICMPV6 src dst).

(** [put_be16(icmpv6 + 2, ipv6_pseudo_checksum(...))]. *)
Definition seal6 (frame : list Z) (src dst : xaios_ip_addr) (len : Z) : option (list Z) :=
  cksum ← ipv6_pseudo_checksum src dst XAIOS_IPV6_NEXT_ICMPV6 (u32 len) (Some (at_ptr frame XAIOS_ICMPV6_OFFSET)) (u32 len);
  put_be16 frame (XAIOS_ICMPV6_OFFSET + 2) cksum.

Definition icmpv6_build_echo_reply (frame src_mac dst_mac : option (list Z)) (frame_len : Z)
    (src_ip dst_ip : option xaios_ip_addr) (request_frame : option (list Z)) (request_len : Z)
    : option (xaios_status * list Z * Z) :=
  match frame, src_mac, dst_mac, src_ip, dst_ip, request_frame with
  | Some b, Some smac, Some dmac, Some sip, Some dip, Some req =>
      if request_len <? XAIOS_ICMPV6_MIN_FRAME then Some (XAIOS_ERR_INVALID, b, frame_len) else
      let req_icmpv6 := at_ptr req XAIOS_ICMPV6_OFFSET in
      icmpv6_len ← get_be16 req 18;
      if (request_len <? XAIOS_ICMPV6_OFFSET + icmpv6_len) || (icmpv6_len <? 8)
      then Some (XAIOS_ERR_INVALID, b, frame_len) else
      let total := 14 + XAIOS_IPV6_HEADER_SIZE + icmpv6_len in
      f ← headers6 b total dmac smac icmpv6_len sip dip;
      f ← wr f (XAIOS_ICMPV6_OFFSET + 0) XAIOS_ICMPV6_ECHO_REPLY;
      f ← wr f (XAIOS_ICMPV6_OFFSET + 1) 0;
      f ← put_be16 f (XAIOS_ICMPV6_OFFSET + 2) 0;
      f ← for_opt (Z.to_nat (icmpv6_len - 4)) 4
            (fun i f => x ← rd req_icmpv6 i; wr f (XAIOS_ICMPV6_OFFSET + i) x) f;
      f ← seal6 f sip dip icmpv6_len;
      Some (XAIOS_OK, f, total)
  | _, _, _, _, _, _ => Some (XAIOS_ERR_INVALID, default [] frame, frame_len)
  end.

(** The pointers are not NULL; [ns_frame] and [ns_len] are not used. *)
Definition icmpv6_build_neighbor_advertisement (frame src_mac dst_mac : list Z) (src_ip dst_ip target : xaios_ip_addr)
    : option (xaios_status * list Z * Z) :=
  let icmpv6_len := 32 in
  let total := 14 + XAIOS_IPV6_HEADER_SIZE + icmpv6_len in
  f ← headers6 frame total dst_mac src_mac icmpv6_len src_ip dst_ip;
  f ← wr f (14 + 7) 255;
  f ← wr f (XAIOS_ICMPV6_OFFSET + 0) XAIOS_ICMPV6_NEIGHBOR_ADVERT;
  f ← wr f (XAIOS_ICMPV6_OFFSET + 1) 0;
  f ← put_be16 f (XAIOS_ICMPV6_OFFSET + 2) 0;
  f ← wr f (XAIOS_ICMPV6_OFFSET + 4) 0x60;
  f ← wr f (XAIOS_ICMPV6_OFFSET + 5) 0;
  f ← wr f (XAIOS_ICMPV6_OFFSET + 6) 0;
  f ← wr f (XAIOS_ICMPV6_OFFSET + 7) 0;
  f ← put_addr f (XAIOS_ICMPV6_OFFSET + 8) target;
  f ← wr f (XAIOS_ICMPV6_OFFSET + 24) 2;
  f ← wr f (XAIOS_ICMPV6_OFFSET + 25) 1;
  f ← put_mac f (XAIOS_ICMPV6_OFFSET + 26) src_mac;
  f ← seal6 f src_ip dst_ip icmpv6_len;
  Some (XAIOS_OK, f, total).

(** The body that the two error builders share, for a message of the given type. *)
Definition build_error (type : Z) (frame src_mac dst_mac : option (list Z)) (frame_len : Z)
    (src_ip dst_ip : option xaios_ip_addr) (code : Z) (orig_frame : option (list Z)) (orig_len : Z)
    : option (xaios_status * list Z * Z) :=
  match frame, src_mac, dst_mac, src_ip, dst_ip, orig_frame with
  | Some b, Some smac, Some dmac, Some sip, Some dip, Some orig =>
      let embed_len := if orig_len <? XAIOS_ICMPV6_ERROR_EMBED_LEN then orig_len else XAIOS_ICMPV6_ERROR_EMBED_LEN in
      let icmpv6_len := if 8 + embed_len <? 8 then 8 else 8 + embed_len in
      let total := 14 + XAIOS_IPV6_HEADER_SIZE + icmpv6_len in
      f ← headers6 b total dmac smac icmpv6_len sip dip;
      f ← wr f (XAIOS_ICMPV6_OFFSET + 0) type;
      f ← wr f (XAIOS_ICMPV6_OFFSET + 1) code;
      f ← put_be16 f (XAIOS_ICMPV6_OFFSET + 2) 0;
      f ← wr f (XAIOS_ICMPV6_OFFSET + 4) 0;
      f ← wr f (XAIOS_ICMPV6_OFFSET + 5) 0;
      f ← wr f (XAIOS_ICMPV6_OFFSET + 6) 0;
      f ← wr f (XAIOS_ICMPV6_OFFSET + 7) 0;
      f ← for_opt (Z.to_nat embed_len) 0 (fun i f => x ← rd orig i; wr f (XAIOS_ICMPV6_OFFSET + 8 + i) x) f;
      f ← seal6 f sip dip icmpv6_len;
      Some (XAIOS_OK, f, total)
  | _, _, _, _, _, _ => Some (XAIOS_ERR_INVALID, default [] frame, frame_len)
  end.

Definition icmpv6_build_dest_unreachable := build_error XAIOS_ICMPV6_DEST_UNREACHABLE.
Definition icmpv6_build_time_exceeded := build_error XAIOS_ICMPV6_TIME_EXCEEDED.

(** ** The rate of errors *)

Record icmpv6_rate := mk_rate6 {
  g_icmpv6_error_count : Z;
  g_icmpv6_error_last_reset_ns : Z;
  g_icmpv6_error_window_start_ns : Z
}.

Definition icmpv6_error_can_send (r : icmpv6_rate) : icmpv6_rate * bool :=
  let w := if g_icmpv6_error_window_start_ns r =? 0 then 1 else g_icmpv6_error_window_start_ns r in
  if g_icmpv6_error_count r <? XAIOS_ICMPV6_RATE_MAX
  then (mk_rate6 (g_icmpv6_error_count r + 1) (g_icmpv6_error_last_reset_ns r) w, true)
  else (mk_rate6 (g_icmpv6_error_count r)
          (if g_icmpv6_error_last_reset_ns r =? 0 then 1 else g_icmpv6_error_last_reset_ns r) w, false).

Definition icmpv6_error_rate_reset (r : icmpv6_rate) (now_ns : Z) : icmpv6_rate :=
  mk_rate6 0 (g_icmpv6_error_last_reset_ns r) now_ns.

(** ** Boot test *)

(** The echo request from [fe80::1] to [fe80::2] that [icmpv6_self_test] builds. *)
Definition test_request6 : option (list Z) :=
  r ← headers6 (replicate 96 0) 96 [0x02; 0; 0; 0; 0; 0x15] [0x52; 0x54; 0; 0x12; 0x35; 0x02] 8 (link_local 1) (link_local 2);
  r ← wr r (XAIOS_ICMPV6_OFFSET + 0) XAIOS_ICMPV6_ECHO_REQUEST;
  r ← wr r (XAIOS_ICMPV6_OFFSET + 1) 0;
  r ← put_be16 r (XAIOS_ICMPV6_OFFSET + 2) 0;
  r ← put_be16 r (XAIOS_ICMPV6_OFFSET + 4) 0xABCD;
  r ← put_be16 r (XAIOS_ICMPV6_OFFSET + 6) 0x0042;
  seal6 r (link_local 1) (link_local 2) 8.

(** [icmpv6_self_test] on uninitialised arrays; [None] is a failed assertion. *)
Definition icmpv6_self_test (rate : icmpv6_rate) (reply error_frame te_frame na_frame : list Z) : option icmpv6_rate :=
  let src_mac := Some [0x52; 0x54; 0; 0x12; 0x35; 0x02] in
  let dst_mac := Some [0x02; 0; 0; 0; 0; 0x15] in
  let src := link_local 1 in
  let dst := link_local 2 in
  request ← test_request6;
  let request_len := 62 in
  '(st, out) ← icmpv6_process_echo_request (Some request) request_len true;
  '(id, seq, psrc, pdst) ← out;
  _ ← check (is_ok st && (id =? 0xABCD) && (seq =? 0x0042) && xaios_ip_addr_equal psrc src && xaios_ip_addr_equal pdst dst);
  '(st, reply, reply_len) ← icmpv6_build_echo_reply (Some reply) dst_mac src_mac 0 (Some dst) (Some src) (Some request) request_len;
  ty ← rd reply XAIOS_ICMPV6_OFFSET;
  ck ← ipv6_pseudo_checksum dst src XAIOS_IPV6_NEXT_ICMPV6 8 (Some (at_ptr reply XAIOS_ICMPV6_OFFSET)) 8;
  _ ← check (is_ok st && (reply_len =? request_len) && (ty =? XAIOS_ICMPV6_ECHO_REPLY) && (ck =? 0));
  '(st, e, error_len) ← icmpv6_build_dest_unreachable (Some error_frame) src_mac dst_mac 0 (Some dst) (Some src)
      XAIOS_ICMPV6_CODE_NO_ROUTE (Some request) request_len;
  ty ← rd e XAIOS_ICMPV6_OFFSET;
  code ← rd e (XAIOS_ICMPV6_OFFSET + 1);
  h ← ipv6_parse_header (Some (at_ptr e 14)) (error_len - 14);
  ck ← ipv6_pseudo_checksum dst src XAIOS_IPV6_NEXT_ICMPV6 (u32 (error_len - 54)) (Some (at_ptr e XAIOS_ICMPV6_OFFSET)) (u32 (error_len - 54));
  _ ← check (is_ok st && (14 + XAIOS_IPV6_HEADER_SIZE <? error_len) && (ty =? XAIOS_ICMPV6_DEST_UNREACHABLE) &&
             (code =? XAIOS_ICMPV6_CODE_NO_ROUTE) && bool_decide (is_Some h) && (ck =? 0));
  '(st, e, _) ← icmpv6_build_time_exceeded (Some te_frame) src_mac dst_mac 0 (Some dst) (Some src)
      XAIOS_ICMPV6_CODE_HOP_LIMIT_EXCEEDED (Some request) request_len;
  ty ← rd e XAIOS_ICMPV6_OFFSET;
  code ← rd e (XAIOS_ICMPV6_OFFSET + 1);
  _ ← check (is_ok st && (ty =? XAIOS_ICMPV6_TIME_EXCEEDED) && (code =? XAIOS_ICMPV6_CODE_HOP_LIMIT_EXCEEDED));
  let '(rate, allowed) :=
    for_range (Z.to_nat XAIOS_ICMPV6_RATE_MAX) 0 (fun _ s => icmpv6_error_can_send s.1) (rate, false) in
  _ ← check allowed;
  let '(rate, allowed) := icmpv6_error_can_send rate in
  _ ← check (negb allowed);
  '(st, na, na_len) ← icmpv6_build_neighbor_advertisement na_frame [0x02; 0; 0; 0; 0; 0x15] [0x52; 0x54; 0; 0x12; 0x35; 0x02] dst src src;
  ty ← rd na XAIOS_ICMPV6_OFFSET;
  ck ← ipv6_pseudo_checksum dst src XAIOS_IPV6_NEXT_ICMPV6 32 (Some (at_ptr na XAIOS_ICMPV6_OFFSET)) 32;
  _ ← check (is_ok st && (na_len =? 14 + XAIOS_IPV6_HEADER_SIZE + 32) && (ty =? XAIOS_ICMPV6_NEIGHBOR_ADVERT) && (ck =? 0));
  Some rate.

(** ** Lemmas *)

Lemma headers6_ok b total dmac smac len src dst :
  bytes b -> bytes dmac -> bytes smac -> zlen dmac = 6 -> zlen smac = 6 -> addr_ok src -> addr_ok dst -> 54 <= total <= zlen b ->
  headers6 b total dmac smac len src dst =
  Some ((dmac ++ smac ++ [0x86; 0xDD]) ++ header (u16 len) XAIOS_IPV6_NEXT_ICMPV6 64 src dst ++
        replicate (Z.to_nat (total - 54)) 0 ++ drop (Z.to_nat total) b).
Proof.
  intros Hb Hd Hs Hzd Hzs Has Had Ht. unfold headers6. rewrite bytes_zero_ok by lia. bind_step.
  replace (replicate (Z.to_nat total) 0) with (replicate 54 0 ++ replicate (Z.to_nat (total - 54)) 0)
    by (rewrite <- replicate_add; f_equal; lia).
  rewrite <- (app_assoc (replicate 54 0)). set (t := replicate (Z.to_nat (total - 54)) 0 ++ _).
  rewrite put_macs_ok by (done || lia || (rewrite zlen_app; change (zlen (replicate 54 0)) with 54; zlia)). bind_step.
  rewrite (take_ge dmac), (take_ge smac) by (unfold zlen in *; lia).
  change (drop 12 (replicate 54 0 ++ t)) with (replicate 42 0 ++ t). rewrite app_assoc.
  rewrite put_be16_mid by (rewrite zlen_app; try change (zlen (replicate 42 0)) with 42; zlia). bind_step.
  rewrite (app_assoc _ [_; _]), <- (app_assoc dmac).
  apply through_app; [rewrite !zlen_app; change (zlen [_; _]) with 2; lia|].
  change (drop 2 (replicate 42 0 ++ t)) with (replicate 40 0 ++ t).
  rewrite build_header6_ok; [done..|]. rewrite zlen_app. change (zlen (replicate 40 0)) with 40. zlia.
Qed.

(** The checksum of a message of [len] bytes behind its headers whose field is zero. *)
Lemma seal6_ok (p a t r : list Z) src dst len :
  addr_ok src -> addr_ok dst -> zlen p = 54 -> zlen a = 2 -> len = 4 + zlen t -> bytes a -> bytes t -> bytes r -> len < 65536 ->
  exists c, seal6 (p ++ (a ++ [0; 0] ++ t) ++ r) src dst len = Some (p ++ (a ++ [u8 (Z.shiftr c 8); u8 c] ++ t) ++ r) /\
    ipv6_pseudo_checksum src dst XAIOS_IPV6_NEXT_ICMPV6 len (Some ((a ++ [u8 (Z.shiftr c 8); u8 c] ++ t) ++ r)) len = Some 0.
Proof.
  intros Hs Hd Hp Ha Hl Hba Hbt Hbr Hlen. unfold seal6, XAIOS_ICMPV6_OFFSET. rewrite at_ptr_app, u32_small by (done || zlia).
  destruct (pseudo_checksum_seals src dst XAIOS_IPV6_NEXT_ICMPV6 len a t r len) as [Hc Hv];
    [done..|exists 1%nat; unfold zlen in Ha; lia|lia|lia|].
  eexists. split; [|exact Hv]. rewrite Hc. bind_step. rewrite put_be16_app by (done || lia). rewrite <- !app_assoc.
  rewrite (put_be16_mid a) by (try rewrite zlen_app; try change (zlen [0; 0]) with 2; zlia). done.
Qed.

(** ** Fields of a frame with an IPv6 header *)

(** A frame: Ethernet header, IPv6 header, message and what is behind it. *)
Lemma frame_fields (e m r f : list Z) hop src dst len :
  f = e ++ header len XAIOS_IPV6_NEXT_ICMPV6 hop src dst ++ m ++ r -> zlen e = 14 -> zlen m = len ->
  addr_ok src -> addr_ok dst -> family src = XAIOS_IP_FAMILY_V6 -> family dst = XAIOS_IP_FAMILY_V6 -> len < 65536 ->
  zlen f = 54 + len + zlen r /\ at_ptr f 54 = m ++ r /\ at_ptr f (54 + len) = r /\
  (forall n, 54 <= n -> ipv6_parse_header (Some (at_ptr f 14)) (n - 14) = Some (Some (mk_parsed len XAIOS_IPV6_NEXT_ICMPV6 src dst))) /\
  (forall i, 0 <= i < len -> rd f (54 + i) = Some (m.[i])).
Proof.
  intros -> He Hm Hs Hd Hfs Hfd Hl. pose proof (zlen_header len XAIOS_IPV6_NEXT_ICMPV6 hop src dst Hs Hd) as Hh.
  set (h := header _ _ _ _ _) in *. set (f := e ++ _).
  assert (Hz : zlen f = 54 + len + zlen r) by (unfold f; rewrite !zlen_app; lia).
  assert (H54 : at_ptr f 54 = m ++ r) by (unfold f; rewrite app_assoc; apply at_ptr_app; rewrite zlen_app; lia).
  split; [done|]. split; [done|]. split; [unfold f; rewrite !app_assoc; apply at_ptr_app; rewrite !zlen_app; lia|]. split.
  - intros n Hn. unfold f. rewrite at_ptr_app by done. apply parse_header_ok; try done; zlia || (unfold byte, XAIOS_IPV6_NEXT_ICMPV6; lia).
  - intros i Hi. rewrite rd_ok by zlia. f_equal. rewrite <- at_ptr_get, H54 by lia. apply lookup_total_app_l. zlia.
Qed.

#[local] Arguments u8 : simpl never.

(** Split the zeros of a fresh message. *)
Lemma zeros_split (k : nat) n : Z.of_nat k <= n -> replicate (Z.to_nat n) 0 = replicate k 0 ++ replicate (Z.to_nat (n - Z.of_nat k)) 0.
Proof. intros. rewrite <- replicate_add. f_equal. lia. Qed.

Lemma build_echo_reply6_ok b smac dmac req fl src dst n len :
  bytes b -> bytes smac -> bytes dmac -> bytes req -> zlen smac = 6 -> zlen dmac = 6 -> addr_ok src -> addr_ok dst ->
  n <= zlen req -> get_be16 req 18 = Some len -> 8 <= len -> 54 + len <= n -> 54 + len <= zlen b ->
  let r := drop (Z.to_nat (54 + len)) b in
  exists c, let m := [129; 0] ++ [u8 (Z.shiftr c 8); u8 c] ++ take (Z.to_nat (len - 4)) (at_ptr req 58) in
    icmpv6_build_echo_reply (Some b) (Some smac) (Some dmac) fl (Some src) (Some dst) (Some req) n =
      Some (XAIOS_OK, (dmac ++ smac ++ [0x86; 0xDD]) ++ header len XAIOS_IPV6_NEXT_ICMPV6 64 src dst ++ m ++ r, 54 + len) /\
    ipv6_pseudo_checksum src dst XAIOS_IPV6_NEXT_ICMPV6 len (Some (m ++ r)) len = Some 0.
Proof.
  intros Hb Hs Hd Hr Hzs Hzd Has Had Hn Hl H8 Hln Hlb r. unfold icmpv6_build_echo_reply, XAIOS_ICMPV6_MIN_FRAME, XAIOS_ICMPV6_OFFSET.
  pose proof (get_be16_bound _ _ _ Hr Hl) as Hlb16.
  rewrite (proj2 (Z.ltb_ge n 62)), Hl by lia. bind_step.
  rewrite (proj2 (Z.ltb_ge n _)), (proj2 (Z.ltb_ge len 8)) by lia. cbn [orb]. unfold XAIOS_IPV6_HEADER_SIZE. change (14 + 40) with 54.
  rewrite headers6_ok by (done || lia). bind_step. rewrite u16_small by lia.
  set (H := header len _ _ _ _). rewrite app_assoc. set (P := _ ++ H).
  assert (HP : zlen P = 54) by (unfold P, H; rewrite !zlen_app, zlen_header, Hzs, Hzd by done; done).
  replace (54 + len - 54) with len by lia. rewrite (zeros_split 4), <- app_assoc by lia. fold r.
  set (R := replicate (Z.to_nat (len - Z.of_nat 4)) 0). simpl replicate.
  behind_sum 54 0. behind_sum 54 1. behind_sum 54 2.
  change (P ++ _ :: _ :: _ :: _ :: R ++ r) with (P ++ [129; 0; 0; 0] ++ R ++ r). rewrite (app_assoc P).
  rewrite copy_mid; [|auto with xaios|lia|lia|by rewrite zlen_app, HP|unfold R, zlen; rewrite length_replicate; lia|rewrite zlen_at_ptr; lia].
  bind_step. rewrite at_ptr_at_ptr, <- app_assoc by lia. change (54 + 4) with 58. set (t := take _ (at_ptr req 58)).
  assert (Ht : zlen t = len - 4) by (unfold t; rewrite zlen_take; [lia|rewrite zlen_at_ptr; lia]).
  destruct (seal6_ok P [129; 0] t r src dst len) as (c & Hc & Hv);
    [done..|lia|repeat constructor; unfold byte; lia|unfold t; auto with xaios|unfold r; auto with xaios|lia|].
  exists c. cbv zeta. fold H. clearbody H. split; [|exact Hv]. rewrite <- !app_assoc in Hc. simpl app in Hc |- *. rewrite Hc. simpl. unfold P. by rewrite <- !app_assoc.
Qed.

(** The parser on any bytes: what it returns, without leaving the packet. *)
Lemma parse_header_total p n :
  bytes p -> 40 <= n <= zlen p ->
  exists r, ipv6_parse_header (Some p) n = Some r /\
    (r = None \/ exists h, r = Some h /\ get_be16 p 4 = Some (p_payload_length h) /\ rd p 6 = Some (p_next_header h) /\
       addr_ok (p_src h) /\ addr_ok (p_dst h)).
Proof.
  intros Hb Hn. unfold ipv6_parse_header. rewrite (proj2 (Z.ltb_ge n _)) by (unfold XAIOS_IPV6_HEADER_SIZE; lia).
  rewrite (rd_ok p 0) by lia. bind_step. case_if; [by exists None; split; [|left]|].
  rewrite get_be16_ok, (rd_ok p 6) by (done || lia). bind_step. unfold xaios_ip_addr_from_raw_ipv6.
  rewrite !read_bytes_ok by (rewrite zlen_at_ptr by lia; lia). simpl. eexists. split; [done|]. right. eexists. split; [done|].
  simpl. split_and!; try done; (split; simpl; [auto with xaios|apply (zlen_take _ 16); rewrite zlen_at_ptr by lia; lia]).
Qed.

(** The test of a request reads only the frame; what it accepts. *)
Lemma process_echo6_total f n :
  bytes f -> 62 <= n <= zlen f ->
  exists r, icmpv6_process_echo_request (Some f) n true = Some r /\
    (is_ok r.1 = true -> exists len id seq s d, r.2 = Some (id, seq, s, d) /\ get_be16 f 18 = Some len /\ 8 <= len /\ 54 + len <= n /\
       rd f 54 = Some XAIOS_ICMPV6_ECHO_REQUEST /\ get_be16 f 58 = Some id /\ get_be16 f 60 = Some seq).
Proof.
  intros Hb Hn. unfold icmpv6_process_echo_request, XAIOS_ICMPV6_MIN_FRAME, XAIOS_ICMPV6_OFFSET.
  rewrite (proj2 (Z.ltb_ge n 62)), (get_be16_ok f 12) by (done || lia). bind_step. cbn [orb negb].
  assert (Hno : forall Q : xaios_status * option (Z * Z * xaios_ip_addr * xaios_ip_addr) -> Prop,
    exists r, Some (XAIOS_ERR_INVALID, None) = Some r /\ (is_ok r.1 = true -> Q r)) by (intros; by eexists).
  case_if; [apply Hno|].
  destruct (parse_header_total (at_ptr f 14) (n - 14)) as (r & -> & [->|(h & -> & H4 & _ & Hs & Hd)]);
    [auto with xaios|rewrite zlen_at_ptr by lia; lia|apply Hno|]. bind_step. cbv iota beta.
  rewrite get_be16_at_ptr in H4 by lia. change (14 + 4) with 18 in H4. pose proof (get_be16_bound _ _ _ Hb H4) as Hl.
  case_if; [apply Hno|]. rewrite rd_at_ptr by lia. change (54 + 0) with 54. rewrite (rd_ok f 54) by lia. bind_step. case_if; [apply Hno|].
  case_if; [apply Hno|]. rewrite pseudo_checksum_ok by (try done; auto with xaios; try (rewrite zlen_at_ptr by lia); lia). bind_step.
  case_if; [apply Hno|]. rewrite !get_be16_at_ptr by lia. change (54 + 4) with 58. change (54 + 6) with 60.
  rewrite (get_be16_ok f 58), (get_be16_ok f 60) by (done || lia). bind_step.
  eexists. split; [done|]. intros _. eexists _, _, _, _, _. split_and!; [done|exact H4|lia|lia| |done|done]. f_equal. lia.
Qed.

(** C22: The test of an ICMPv6 echo request never reads outside the frame, and a
    request it accepts is answered in any buffer that holds the reply: the
    reply stays inside its bytes, its IPv6 header parses to the given addresses,
    it is an echo reply with the identifier, the sequence number and the data of
    the request, and its checksum is valid. *)
Theorem icmpv6_echo_answered (b req smac dmac : list Z) (src dst : xaios_ip_addr) (fl n : Z)
  (Hb : bytes b) (Hr : bytes req) (Hs : bytes smac) (Hd : bytes dmac) (Hzs : zlen smac = 6) (Hzd : zlen dmac = 6)
  (Has : addr_ok src) (Had : addr_ok dst) (Hfs : family src = XAIOS_IP_FAMILY_V6) (Hfd : family dst = XAIOS_IP_FAMILY_V6)
  (Hn : 62 <= n <= zlen req) (Hroom : n <= zlen b) :
  exists st out, icmpv6_process_echo_request (Some req) n true = Some (st, out) /\
  (is_ok st = true -> exists len id seq s d f,
    out = Some (id, seq, s, d) /\ get_be16 req 18 = Some len /\
    icmpv6_build_echo_reply (Some b) (Some smac) (Some dmac) fl (Some src) (Some dst) (Some req) n =
      Some (XAIOS_OK, f, 54 + len) /\
    zlen f = zlen b /\ at_ptr f (54 + len) = at_ptr b (54 + len) /\
    ipv6_parse_header (Some (at_ptr f 14)) (40 + len) = Some (Some (mk_parsed len XAIOS_IPV6_NEXT_ICMPV6 src dst)) /\
    rd f 54 = Some XAIOS_ICMPV6_ECHO_REPLY /\ get_be16 f 58 = Some id /\ get_be16 f 60 = Some seq /\
    (forall i, 62 <= i < 54 + len -> rd f i = rd req i) /\
    ipv6_pseudo_checksum src dst XAIOS_IPV6_NEXT_ICMPV6 len (Some (at_ptr f 54)) len = Some 0).
Proof.
  destruct (process_echo6_total req n Hr Hn) as ([st out] & Hp & Hok). exists st, out. split; [done|].
  intros Hst. destruct (Hok Hst) as (len & id & seq & s & d & Ho & H18 & H8 & Hln & _ & H58 & H60). simpl in Ho.
  pose proof (get_be16_bound _ _ _ Hr H18) as Hl.
  destruct (build_echo_reply6_ok b smac dmac req fl src dst n len) as (c & Hrep & Hv); [done || lia..|].
  set (r := drop _ b) in *. set (t := take _ (at_ptr req 58)) in *. set (m := [129; 0] ++ [_; _] ++ t) in *.
  assert (Ht : zlen t = len - 4) by (unfold t; rewrite zlen_take; [lia|rewrite zlen_at_ptr by lia; lia]).
  assert (Hm : zlen m = len) by (unfold m; rewrite !zlen_app, Ht; change (zlen [_; _]) with 2; lia).
  edestruct (frame_fields (dmac ++ smac ++ [0x86; 0xDD]) m r _ 64 src dst len eq_refl) as (Hz & H54 & Hend & Hpar & Hget);
    [rewrite !zlen_app, Hzd, Hzs; done|done..|lia|].
  exists len, id, seq, s, d. eexists. split; [done|]. split; [done|]. split; [exact Hrep|].
  set (f := (dmac ++ _) ++ header _ _ _ _ _ ++ m ++ r) in *.
  assert (Hrest : forall i, 58 <= i < 54 + len -> rd f i = rd req i).
  { intros i Hi. replace i with (54 + (i - 54)) at 1 by lia. rewrite Hget, rd_ok by lia. f_equal. unfold m. rewrite app_assoc.
    rewrite <- (app_nil_r t), (mid_get _ _ _ 4 (i - 58)); [|reflexivity|lia|lia]. unfold t.
    rewrite lookup_total_take_lt, at_ptr_get by lia. f_equal. lia. }
  split_and!.
  - rewrite Hz. unfold r. rewrite zlen_drop; lia.
  - exact Hend.
  - rewrite <- (Hpar (54 + len)) by lia. f_equal. lia.
  - by rewrite <- (Z.add_0_r 54), Hget by lia.
  - rewrite <- H58. unfold get_be16. by rewrite !Hrest by lia.
  - rewrite <- H60. unfold get_be16. by rewrite !Hrest by lia.
  - intros i Hi. apply Hrest. lia.
  - by rewrite H54.
Qed.

Lemma icmpv6_echo_answered_witness :
  exists f, icmpv6_build_echo_reply (Some (replicate 96 7)) (Some [2; 0; 0; 0; 0; 0x15]) (Some [0x52; 0x54; 0; 0x12; 0x35; 2]) 0
      (Some (link_local 2)) (Some (link_local 1)) (Some (default [] test_request6)) 62 = Some (XAIOS_OK, f, 62) /\
    rd f 54 = Some 129 /\ get_be16 f 58 = Some 0xABCD.
Proof.
  destruct (icmpv6_echo_answered (replicate 96 7) (default [] test_request6) [2; 0; 0; 0; 0; 0x15] [0x52; 0x54; 0; 0x12; 0x35; 2]
    (link_local 2) (link_local 1) 0 62) as (st & out & Hp & Hok);
    [apply (bool_decide_unpack _); vm_compute; exact I..|reflexivity|reflexivity|apply link_local_ok; unfold byte; lia
    |apply link_local_ok; unfold byte; lia|reflexivity|reflexivity|vm_compute; split; congruence|vm_compute; congruence|].
  vm_compute in Hp. injection Hp as <- <-. destruct (Hok eq_refl) as (len & id & seq & s & d & f & [= <- <- <- <-] & Hlen & Hf & Hrest).
  vm_compute in Hlen. injection Hlen as <-.
  exists f. split; [exact Hf|]. split; apply Hrest.
Defined.

(** An error message. *)
Lemma build_error_ok ty code b smac dmac orig fl src dst n :
  bytes b -> bytes smac -> bytes dmac -> bytes orig -> zlen smac = 6 -> zlen dmac = 6 -> addr_ok src -> addr_ok dst ->
  0 <= n <= zlen orig -> byte ty -> byte code -> 62 + Z.min n 128 <= zlen b ->
  let e := Z.min n 128 in let r := drop (Z.to_nat (62 + e)) b in
  exists c, let m := [ty; code] ++ [u8 (Z.shiftr c 8); u8 c] ++ [0; 0; 0; 0] ++ take (Z.to_nat e) orig in
    build_error ty (Some b) (Some smac) (Some dmac) fl (Some src) (Some dst) code (Some orig) n =
      Some (XAIOS_OK, (dmac ++ smac ++ [0x86; 0xDD]) ++ header (8 + e) XAIOS_IPV6_NEXT_ICMPV6 64 src dst ++ m ++ r, 62 + e) /\
    ipv6_pseudo_checksum src dst XAIOS_IPV6_NEXT_ICMPV6 (8 + e) (Some (m ++ r)) (8 + e) = Some 0.
Proof.
  intros Hb Hs Hd Hr Hzs Hzd Has Had Hn Hty Hco Hlb e r. unfold build_error, XAIOS_ICMPV6_OFFSET, XAIOS_ICMPV6_ERROR_EMBED_LEN.
  replace (if n <? 128 then n else 128) with e by (unfold e; case_if; lia). cbv zeta.
  rewrite (proj2 (Z.ltb_ge _ 8)) by lia. unfold XAIOS_IPV6_HEADER_SIZE. replace (14 + 40 + (8 + e)) with (62 + e) by lia.
  rewrite headers6_ok by (done || lia). bind_step. rewrite u16_small by lia.
  set (H := header (8 + e) _ _ _ _). rewrite app_assoc. set (P := _ ++ H).
  assert (HP : zlen P = 54) by (unfold P, H; rewrite !zlen_app, zlen_header, Hzs, Hzd by done; done).
  rewrite (zeros_split 8), <- app_assoc by lia. fold r.
  set (R := replicate (Z.to_nat (_ - Z.of_nat 8)) 0). simpl replicate.
  behind_sum 54 0. behind_sum 54 1. behind_sum 54 2. behind_sum 54 4. behind_sum 54 5. behind_sum 54 6. behind_sum 54 7.
  rewrite (u8_byte ty), (u8_byte code) by done.
  change (P ++ _ :: _ :: _ :: _ :: _ :: _ :: _ :: _ :: R ++ r) with (P ++ [ty; code; 0; 0; 0; 0; 0; 0] ++ R ++ r). rewrite (app_assoc P).
  rewrite (copy_mid _ _ _ orig (54 + 8) 0); [|done|lia|lia|by rewrite zlen_app, HP|unfold R, zlen; rewrite length_replicate; lia|lia].
  bind_step. rewrite <- app_assoc. unfold at_ptr at 1. rewrite drop_0. set (t := take _ orig).
  assert (Ht : zlen t = e) by (unfold t; rewrite zlen_take; lia).
  destruct (seal6_ok P [ty; code] ([0; 0; 0; 0] ++ t) r src dst (8 + e)) as (c & Hc & Hv);
    [done..|rewrite zlen_app, Ht; change (zlen [0; 0; 0; 0]) with 4; lia|auto with xaios
    |apply bytes_app; [repeat constructor; unfold byte; lia|unfold t; auto with xaios]|unfold r; auto with xaios|lia|].
  exists c. cbv zeta. fold H. clearbody H. split; [|exact Hv]. rewrite <- !app_assoc in Hc. simpl app in Hc |- *. rewrite Hc. simpl. unfold P. by rewrite <- !app_assoc.
Qed.

(** A destination-unreachable or time-exceeded message is built inside its
    bytes of any buffer that holds it; its IPv6 header parses to the given
    addresses and length, it carries the type of the message and the given code,
    four zero bytes and the first bytes (at most 128) of the offending frame, and
    its checksum is valid. *)
Theorem icmpv6_error_exact (ty : Z) (b smac dmac orig : list Z) (src dst : xaios_ip_addr) (fl code n : Z)
  (Hty : ty = XAIOS_ICMPV6_DEST_UNREACHABLE \/ ty = XAIOS_ICMPV6_TIME_EXCEEDED)
  (Hb : bytes b) (Hs : bytes smac) (Hd : bytes dmac) (Hr : bytes orig) (Hzs : zlen smac = 6) (Hzd : zlen dmac = 6)
  (Has : addr_ok src) (Had : addr_ok dst) (Hfs : family src = XAIOS_IP_FAMILY_V6) (Hfd : family dst = XAIOS_IP_FAMILY_V6)
  (Hn : 0 <= n <= zlen orig) (Hco : byte code) (Hroom : 62 + Z.min n 128 <= zlen b) :
  let e := Z.min n 128 in
  exists f,
    (if ty =? XAIOS_ICMPV6_DEST_UNREACHABLE then icmpv6_build_dest_unreachable else icmpv6_build_time_exceeded)
      (Some b) (Some smac) (Some dmac) fl (Some src) (Some dst) code (Some orig) n = Some (XAIOS_OK, f, 62 + e) /\
    zlen f = zlen b /\ at_ptr f (62 + e) = at_ptr b (62 + e) /\ take 12 f = dmac ++ smac /\
    ipv6_parse_header (Some (at_ptr f 14)) (48 + e) = Some (Some (mk_parsed (8 + e) XAIOS_IPV6_NEXT_ICMPV6 src dst)) /\
    rd f 54 = Some ty /\ rd f 55 = Some code /\ get_be16 f 58 = Some 0 /\ get_be16 f 60 = Some 0 /\
    (forall i, 0 <= i < e -> rd f (62 + i) = rd orig i) /\
    ipv6_pseudo_checksum src dst XAIOS_IPV6_NEXT_ICMPV6 (8 + e) (Some (at_ptr f 54)) (8 + e) = Some 0.
Proof.
  intros e.
  destruct (build_error_ok ty code b smac dmac orig fl src dst n) as (c & Hrep & Hv); try assumption.
  { destruct Hty; subst; unfold byte, XAIOS_ICMPV6_DEST_UNREACHABLE, XAIOS_ICMPV6_TIME_EXCEEDED; lia. }
  fold e in Hrep, Hv. set (r := drop _ b) in *. set (t := take _ orig) in *. set (m := [ty; code] ++ _) in *.
  assert (Ht : zlen t = e) by (unfold t; rewrite zlen_take; lia).
  assert (Hm : zlen m = 8 + e) by (unfold m; rewrite !zlen_app, Ht; unfold zlen; simpl length; lia).
  edestruct (frame_fields (dmac ++ smac ++ [0x86; 0xDD]) m r _ 64 src dst (8 + e) eq_refl) as (Hz & H54 & Hend & Hpar & Hget);
    [rewrite !zlen_app, Hzd, Hzs; done|done..|lia|].
  eexists. split.
  { rewrite <- Hrep. by destruct Hty as [-> | ->]. }
  set (f := (dmac ++ _) ++ header _ _ _ _ _ ++ m ++ r) in *.
  assert (Hconst : forall i x, 0 <= i < 8 -> m.[i] = x -> rd f (54 + i) = Some x) by (intros i x Hi <-; apply Hget; lia).
  split_and!.
  - rewrite Hz. unfold r. rewrite zlen_drop; lia.
  - replace (62 + e) with (54 + (8 + e)) by lia. rewrite Hend. unfold r, at_ptr. do 2 f_equal. lia.
  - unfold f. rewrite (app_assoc dmac), <- app_assoc. apply take_app_length'. rewrite length_app. unfold zlen in *. lia.
  - rewrite <- (Hpar (62 + e)) by lia. f_equal. lia.
  - apply (Hconst 0); [lia|reflexivity].
  - apply (Hconst 1); [lia|reflexivity].
  - unfold get_be16. change 58 with (54 + 4). change (54 + 4 + 1) with (54 + 5). rewrite (Hconst 4 0), (Hconst 5 0); [reflexivity|lia|reflexivity|lia|reflexivity].
  - unfold get_be16. change 60 with (54 + 6). change (54 + 6 + 1) with (54 + 7). rewrite (Hconst 6 0), (Hconst 7 0); [reflexivity|lia|reflexivity|lia|reflexivity].
  - intros i Hi. replace (62 + i) with (54 + (8 + i)) by lia. rewrite Hget, rd_ok by lia. f_equal.
    change m with ([ty; code; u8 (Z.shiftr c 8); u8 c; 0; 0; 0; 0] ++ t). rewrite <- (app_nil_r t), (mid_get _ _ _ 8 i); [|reflexivity|lia|lia]. unfold t.
    by rewrite lookup_total_take_lt by lia.
  - by rewrite H54.
Qed.

Lemma icmpv6_error_exact_witness :
  exists f, icmpv6_build_time_exceeded (Some (replicate 256 7)) (Some (replicate 6 2)) (Some (replicate 6 3)) 0
      (Some (link_local 2)) (Some (link_local 1)) 0 (Some (replicate 200 9)) 200 = Some (XAIOS_OK, f, 190) /\
    rd f 54 = Some XAIOS_ICMPV6_TIME_EXCEEDED.
Proof.
  destruct (icmpv6_error_exact XAIOS_ICMPV6_TIME_EXCEEDED (replicate 256 7) (replicate 6 2) (replicate 6 3) (replicate 200 9)
    (link_local 2) (link_local 1) 0 0 200) as (f & Hf & _ & _ & _ & _ & H54 & _);
    [by right|apply (bool_decide_unpack _); vm_compute; exact I..|reflexivity|reflexivity|apply link_local_ok; unfold byte; lia
    |apply link_local_ok; unfold byte; lia|reflexivity|reflexivity|vm_compute; split; congruence|unfold byte; lia|vm_compute; congruence|].
  exists f. split; [exact Hf|exact H54].
Defined.

(** Writing the hop limit into a built header. *)
Lemma hop_write (e t : list Z) len nh hop src dst v :
  zlen e = 14 -> wr (e ++ header len nh hop src dst ++ t) (14 + 7) v = Some (e ++ header len nh v src dst ++ t).
Proof. intros He. by rewrite wr_app by (done || lia). Qed.

(** The message of a neighbour advertisement. *)
Definition advertisement (target : xaios_ip_addr) (smac : list Z) (c : Z) : list Z :=
  ([136; 0] ++ [u8 (Z.shiftr c 8); u8 c]) ++ [0x60; 0; 0; 0] ++ addr target ++ [2; 1] ++ smac.

Lemma build_advertisement_ok b smac dmac src dst target :
  bytes b -> bytes smac -> bytes dmac -> zlen smac = 6 -> zlen dmac = 6 -> addr_ok src -> addr_ok dst -> addr_ok target ->
  86 <= zlen b ->
  exists c, let m := advertisement target smac c in let r := drop 86 b in
    icmpv6_build_neighbor_advertisement b smac dmac src dst target =
      Some (XAIOS_OK, (dmac ++ smac ++ [0x86; 0xDD]) ++ header 32 XAIOS_IPV6_NEXT_ICMPV6 255 src dst ++ m ++ r, 86) /\
    ipv6_pseudo_checksum src dst XAIOS_IPV6_NEXT_ICMPV6 32 (Some (m ++ r)) 32 = Some 0.
Proof.
  intros Hb Hs Hd Hzs Hzd Has Had Hat Hlb. unfold icmpv6_build_neighbor_advertisement, XAIOS_ICMPV6_OFFSET, XAIOS_IPV6_HEADER_SIZE.
  change (14 + 40 + 32) with 86. cbv zeta. rewrite headers6_ok by (done || lia). bind_step.
  change (u16 32) with 32. rewrite hop_write by (rewrite !zlen_app, Hzd, Hzs; done). bind_step.
  set (r := drop (Z.to_nat 86) b). change (drop 86 b) with r.
  set (H := header 32 _ 255 _ _). rewrite app_assoc. set (P := _ ++ H).
  assert (HP : zlen P = 54) by (unfold P, H; rewrite !zlen_app, zlen_header, Hzs, Hzd by done; done). clearbody H.
  change (replicate (Z.to_nat (86 - 54)) 0) with ([0; 0; 0; 0; 0; 0; 0; 0] ++ replicate 16 0 ++ [0; 0] ++ replicate 6 0).
  rewrite <- !(app_assoc _ _ r). simpl app at 2.
  behind_sum 54 0. behind_sum 54 1. behind_sum 54 2. behind_sum 54 4. behind_sum 54 5. behind_sum 54 6. behind_sum 54 7.
  match goal with |- context [put_addr (P ++ ?l) _ _] =>
    change l with ([136; 0; 0; 0; 96; 0; 0; 0] ++ replicate 16 0 ++ [0; 0] ++ replicate 6 0 ++ r) end.
  rewrite (app_assoc P). change (54 + 8) with 62. rewrite put_addr_mid by (done || by rewrite zlen_app, HP). bind_step.
  rewrite app_assoc. set (P2 := _ ++ addr target).
  assert (HP2 : zlen P2 = 78) by (unfold P2; rewrite !zlen_app, HP, (ao_len _ Hat); done).
  change (54 + 24) with (78 + 0). behind_sum 78 0. change (54 + 25) with (78 + 1). behind_sum 78 1.
  match goal with |- context [put_mac (P2 ++ ?l) _ _] => change l with ([2; 1] ++ replicate 6 0 ++ r) end.
  rewrite (app_assoc P2). change (54 + 26) with 80. rewrite put_mac_mid by (done || by rewrite zlen_app, HP2). bind_step.
  destruct (seal6_ok P [136; 0] ([0x60; 0; 0; 0] ++ addr target ++ [2; 1] ++ smac) r src dst 32) as (c & Hc & Hv);
    [done..|rewrite !zlen_app, (ao_len _ Hat), Hzs; done|repeat constructor; unfold byte; lia| |unfold r; auto with xaios|lia|].
  { apply bytes_app; [repeat constructor; unfold byte; lia|]. apply bytes_app; [apply Hat|].
    apply bytes_app; [repeat constructor; unfold byte; lia|done]. }
  exists c. unfold advertisement. rewrite <- (app_assoc [136; 0]). split; [|exact Hv].
  unfold P2. rewrite <- !app_assoc in Hc |- *. simpl app in Hc |- *. rewrite Hc. unfold P. by rewrite <- !app_assoc.
Qed.

(** Once a hundred errors have passed, none passes again without a reset,
    however much time goes by. *)
Lemma rate6_never_recovers r k :
  100 <= g_icmpv6_error_count r ->
  forall s, s = Nat.iter k (fun s => (icmpv6_error_can_send s).1) r -> (icmpv6_error_can_send s).2 = false.
Proof.
  intros Hr. assert (Hk : 100 <= g_icmpv6_error_count (Nat.iter k (fun s => (icmpv6_error_can_send s).1) r)).
  { induction k as [|k IH]; [done|]. simpl. unfold icmpv6_error_can_send at 1, XAIOS_ICMPV6_RATE_MAX. case_if; simpl; lia. }
  intros s ->. unfold icmpv6_error_can_send, XAIOS_ICMPV6_RATE_MAX. by rewrite (proj2 (Z.ltb_ge _ _)).
Qed.

Lemma icmpv6_self_test_passes :
  is_Some (icmpv6_self_test (mk_rate6 0 0 0) (replicate 96 7) (replicate 256 7) (replicate 256 7) (replicate 128 7)).
Proof. vm_compute. by eexists. Qed.

End Icmpv6.
