(* ===== verification/Ndp.v ===== *)
(** * Neighbour discovery (kernel/net/ndp.c, include/xaios/ndp.h)

    The neighbour cache with its reachability states, the messages of neighbour
    and router discovery and duplicate address detection.  The specification of
    the cache is a finite map from addresses to neighbours ([neigh_step]);
    [ndp_cache_refines] is the refinement over sequences of operations and
    [ndp_advertisement_learned] shows that an advertisement teaches its sender's
    Ethernet address to the receiver. *)

From S2P Require Import Prelude Table Wire Ipv4 Ipv6 Icmpv6.

Module Ndp.
Import Wire Ipv6 Icmpv6.

Definition XAIOS_NDP_CACHE_SIZE : Z := 32.
Definition XAIOS_NDP_REACHABLE_TIME_NS : Z := 30000000000.
Definition XAIOS_NDP_DELAY_FIRST_PROBE_NS : Z := 5000000000.
Definition XAIOS_NDP_RETRANS_TIMER_NS : Z := 1000000000.
Definition XAIOS_NDP_MAX_PROBES : Z := 3.

Inductive xaios_ndp_nud_state :=
| XAIOS_NDP_NUD_INCOMPLETE
| XAIOS_NDP_NUD_REACHABLE
| XAIOS_NDP_NUD_STALE
| XAIOS_NDP_NUD_DELAY
| XAIOS_NDP_NUD_PROBE.

#[global] Instance xaios_ndp_nud_state_eq_dec : EqDecision xaios_ndp_nud_state.
Proof. solve_decision. Defined.

Record xaios_ndp_entry := mk_neigh {
  ip : xaios_ip_addr;
  mac : list Z;
  active : Z;
  nud_state : xaios_ndp_nud_state;
  nud_timestamp_ns : Z;
  last_used_ns : Z;
  insert_ns : Z;
  probe_count : Z
}.

Definition empty_entry : xaios_ndp_entry :=
  mk_neigh xaios_ip_addr_zero (replicate 6 0) 0 XAIOS_NDP_NUD_INCOMPLETE 0 0 0 0.

#[global] Instance xaios_ndp_entry_inhabited : Inhabited xaios_ndp_entry := populate empty_entry.

Record xaios_dad_state := mk_dad {
  tentative_addr : xaios_ip_addr;
  start_ns : Z;
  dad_active : Z;
  duplicate_found : Z
}.

(** The static variables. *)
Record ndp := mk_ndp {
  g_ndp_cache : list xaios_ndp_entry;
  g_ndp_last_tick_ns : Z;
  ndp_default_gateway : xaios_ip_addr;
  g_has_default_gateway : Z;
  g_dad_state : xaios_dad_state;
  g_dad_active : Z
}.

Definition set_cache (n : ndp) (c : list xaios_ndp_entry) : ndp :=
  mk_ndp c (g_ndp_last_tick_ns n) (ndp_default_gateway n) (g_has_default_gateway n) (g_dad_state n) (g_dad_active n).
Definition set_tick (n : ndp) (t : Z) : ndp :=
  mk_ndp (g_ndp_cache n) t (ndp_default_gateway n) (g_has_default_gateway n) (g_dad_state n) (g_dad_active n).
Definition set_gateway (n : ndp) (g : xaios_ip_addr) (has : Z) : ndp :=
  mk_ndp (g_ndp_cache n) (g_ndp_last_tick_ns n) g has (g_dad_state n) (g_dad_active n).
Definition set_dad (n : ndp) (d : xaios_dad_state) (a : Z) : ndp :=
  mk_ndp (g_ndp_cache n) (g_ndp_last_tick_ns n) (ndp_default_gateway n) (g_has_default_gateway n) d a.

(** The zeroed static variables. *)
Definition ndp0 : ndp :=
  mk_ndp (replicate (Z.to_nat XAIOS_NDP_CACHE_SIZE) empty_entry) 0 xaios_ip_addr_zero 0 (mk_dad xaios_ip_addr_zero 0 0 0) 0.

Definition ndp_init (n : ndp) : ndp :=
  mk_ndp ((fun _ => empty_entry) <$> g_ndp_cache n) (g_ndp_last_tick_ns n) xaios_ip_addr_zero 0 (g_dad_state n) 0.

(** ** Addresses *)

Definition solicited_node_mcast (target : xaios_ip_addr) : xaios_ip_addr :=
  mk_addr XAIOS_IP_FAMILY_V6
    ([0xFF; 0x02] ++ replicate 9 0 ++ [0x01; 0xFF; (addr target).[13]; (addr target).[14]; (addr target).[15]]).

Definition mcast_eth_from_ipv6 (ip6 : xaios_ip_addr) : list Z :=
  [0x33; 0x33; (addr ip6).[12]; (addr ip6).[13]; (addr ip6).[14]; (addr ip6).[15]].

Definition hop_limit_is_valid (frame : option (list Z)) : option bool :=
  match frame with
  | None => Some false
  | Some f => h ← rd f (14 + 7); Some (h =? 255)
  end.

(** ** The cache *)

Definition holds (a : xaios_ip_addr) (e : xaios_ndp_entry) : bool := negb (active e =? 0) && xaios_ip_addr_equal (ip e) a.

Definition lru_touch (now_ns : Z) (e : xaios_ndp_entry) : xaios_ndp_entry :=
  mk_neigh (ip e) (mac e) (active e) (nud_state e) (nud_timestamp_ns e) now_ns (insert_ns e) (probe_count e).

Definition expire_entry (e : xaios_ndp_entry) : xaios_ndp_entry :=
  mk_neigh xaios_ip_addr_zero (replicate 6 0) 0 XAIOS_NDP_NUD_INCOMPLETE
    (nud_timestamp_ns e) (last_used_ns e) (insert_ns e) (probe_count e).

Definition set_nud (s : xaios_ndp_nud_state) (t : Z) (e : xaios_ndp_entry) : xaios_ndp_entry :=
  mk_neigh (ip e) (mac e) (active e) s t (last_used_ns e) (insert_ns e) (probe_count e).

(** Traffic to a neighbour: a stale entry is delayed, a reachable one refreshed. *)
Definition on_traffic (tick : Z) (e : xaios_ndp_entry) : xaios_ndp_entry :=
  let e := lru_touch tick e in
  match nud_state e with
  | XAIOS_NDP_NUD_STALE => set_nud XAIOS_NDP_NUD_DELAY tick e
  | XAIOS_NDP_NUD_REACHABLE => set_nud XAIOS_NDP_NUD_REACHABLE tick e
  | _ => e
  end.

(** [out]: whether the output pointer is not NULL. *)
Definition ndp_cache_lookup (n : ndp) (a : option xaios_ip_addr) (out : bool) : ndp * xaios_status * option (list Z) :=
  match a with
  | None => (n, XAIOS_ERR_INVALID, None)
  | Some a =>
      if negb out then (n, XAIOS_ERR_INVALID, None) else
      match find_idx (holds a) (g_ndp_cache n) with
      | None => (n, XAIOS_ERR_NOT_FOUND, None)
      | Some i =>
          (set_cache n (upd (g_ndp_cache n) (Z.of_nat i) (on_traffic (g_ndp_last_tick_ns n))), XAIOS_OK,
           Some (mac ((g_ndp_cache n).[Z.of_nat i])))
      end
  end.

(** The least recently used entry, [XAIOS_NDP_CACHE_SIZE] when every time is
    the largest 64-bit word. *)
Definition lru_idx (c : list xaios_ndp_entry) : Z :=
  (for_range (Z.to_nat XAIOS_NDP_CACHE_SIZE) 0
     (fun i s => let '(oldest, k) := s in
        if last_used_ns (c.[i]) <? oldest then (last_used_ns (c.[i]), i) else s)
     (UINT64_MAX, XAIOS_NDP_CACHE_SIZE)).2.

(** [mac] is the pointer from which the six bytes are copied. *)
Definition ndp_cache_insert (n : ndp) (a : option xaios_ip_addr) (mac_ptr : option (list Z)) : option (ndp * xaios_status) :=
  match a, mac_ptr with
  | Some a, Some p =>
      let c := g_ndp_cache n in
      let tick := g_ndp_last_tick_ns n in
      match find_idx (holds a) c with
      | Some i =>
          m ← read_bytes p 6;
          Some (set_cache n (upd c (Z.of_nat i)
                  (fun e => mk_neigh (ip e) m (active e) XAIOS_NDP_NUD_REACHABLE tick tick (insert_ns e) 0)), XAIOS_OK)
      | None =>
          let insert_idx := match find_idx (fun e => active e =? 0) c with Some i => Z.of_nat i | None => lru_idx c end in
          if insert_idx =? XAIOS_NDP_CACHE_SIZE then Some (n, XAIOS_ERR_NO_MEMORY) else
          m ← read_bytes p 6;
          Some (set_cache n (c.[insert_idx <- mk_neigh a m 1 XAIOS_NDP_NUD_REACHABLE tick tick tick 0]), XAIOS_OK)
      end
  | _, _ => Some (n, XAIOS_ERR_INVALID)
  end.

(** One entry in [ndp_cache_age]. *)
Definition age_entry (now_ns : Z) (e : xaios_ndp_entry) : xaios_ndp_entry :=
  if active e =? 0 then e else
  let e1 :=
    if bool_decide (nud_state e = XAIOS_NDP_NUD_REACHABLE) &&
       (XAIOS_NDP_REACHABLE_TIME_NS <=? u64 (now_ns - nud_timestamp_ns e))
    then set_nud XAIOS_NDP_NUD_STALE (nud_timestamp_ns e) e else e in
  if bool_decide (nud_state e1 = XAIOS_NDP_NUD_INCOMPLETE) &&
     (XAIOS_NDP_REACHABLE_TIME_NS <=? u64 (now_ns - insert_ns e1))
  then expire_entry e1 else e1.

Definition ndp_cache_age (n : ndp) (now_ns : Z) : ndp := set_cache n (age_entry now_ns <$> g_ndp_cache n).

Definition ndp_nud_update_on_traffic (n : ndp) (target : option xaios_ip_addr) : ndp :=
  match target with
  | None => n
  | Some a =>
      match find_idx (holds a) (g_ndp_cache n) with
      | None => n
      | Some i => set_cache n (upd (g_ndp_cache n) (Z.of_nat i) (on_traffic (g_ndp_last_tick_ns n)))
      end
  end.

(** One entry in the loop of [ndp_nud_tick]. *)
Definition tick_entry (now_ns : Z) (e : xaios_ndp_entry) : xaios_ndp_entry :=
  if active e =? 0 then e else
  match nud_state e with
  | XAIOS_NDP_NUD_DELAY =>
      if XAIOS_NDP_DELAY_FIRST_PROBE_NS <=? u64 (now_ns - nud_timestamp_ns e)
      then mk_neigh (ip e) (mac e) (active e) XAIOS_NDP_NUD_PROBE now_ns (last_used_ns e) (insert_ns e) 0 else e
  | XAIOS_NDP_NUD_PROBE =>
      if (XAIOS_NDP_RETRANS_TIMER_NS <=? u64 (now_ns - nud_timestamp_ns e)) && (XAIOS_NDP_MAX_PROBES <=? probe_count e)
      then set_nud XAIOS_NDP_NUD_INCOMPLETE (nud_timestamp_ns e) e else e
  | _ => e
  end.

Definition ndp_nud_tick (n : ndp) (now_ns : Z) : ndp :=
  let n1 := ndp_cache_age (set_tick n now_ns) now_ns in
  set_cache n1 (tick_entry now_ns <$> g_ndp_cache n1).

Definition ndp_cache_count (n : ndp) : Z :=
  for_range (Z.to_nat XAIOS_NDP_CACHE_SIZE) 0 (fun i k => if active ((g_ndp_cache n).[i]) =? 0 then k else k + 1) 0.

(** ** Messages *)

(** Headers of a discovery message: those of every ICMPv6 message with hop limit 255. *)
Definition ndp_headers (frame : list Z) (dst_mac src_mac : list Z) (len : Z) (src dst : xaios_ip_addr) : option (list Z) :=
  f ← headers6 frame (14 + XAIOS_IPV6_HEADER_SIZE + len) dst_mac src_mac len src dst;
  wr f (14 + 7) 255.

Definition ndp_build_neighbor_solicitation (frame src_mac : option (list Z)) (frame_len : Z) (src_ip target_ip : option xaios_ip_addr)
    : option (xaios_status * list Z * Z) :=
  match frame, src_mac, src_ip, target_ip with
  | Some b, Some smac, Some src, Some target =>
      let icmpv6_len := 28 in
      let mcast_dst := solicited_node_mcast target in
      f ← ndp_headers b (mcast_eth_from_ipv6 mcast_dst) smac icmpv6_len src mcast_dst;
      f ← wr f (XAIOS_ICMPV6_OFFSET + 0) XAIOS_ICMPV6_NEIGHBOR_SOLICIT;
      f ← wr f (XAIOS_ICMPV6_OFFSET + 1) 0;
      f ← put_be16 f (XAIOS_ICMPV6_OFFSET + 2) 0;
      f ← put_addr f (XAIOS_ICMPV6_OFFSET + 8) target;
      f ← wr f (XAIOS_ICMPV6_OFFSET + 24) 1;
      f ← wr f (XAIOS_ICMPV6_OFFSET + 25) 1;
      f ← put_mac f (XAIOS_ICMPV6_OFFSET + 26) smac;
      f ← seal6 f src mcast_dst icmpv6_len;
      Some (XAIOS_OK, f, 14 + XAIOS_IPV6_HEADER_SIZE + icmpv6_len)
  | _, _, _, _ => Some (XAIOS_ERR_INVALID, default [] frame, frame_len)
  end.

(** The tests at the head of the three processing functions: length, hop limit,
    EtherType, IPv6 header, protocol, type and minimal length of the message.
    The inner [None] is [XAIOS_ERR_INVALID]. *)
Definition open_message (frame : option (list Z)) (frame_len type min_len : Z) : option (option parsed) :=
  match frame with
  | None => Some None
  | Some f =>
      if frame_len <? XAIOS_ICMPV6_MIN_FRAME then Some None else
      valid ← hop_limit_is_valid frame;
      if negb valid then Some None else
      ethertype ← get_be16 f 12;
      if negb (ethertype =? XAIOS_IPV6_ETHERTYPE) then Some None else
      r ← ipv6_parse_header (Some (at_ptr f 14)) (frame_len - 14);
      match r with
      | None => Some None
      | Some h =>
          if negb (p_next_header h =? XAIOS_IPV6_NEXT_ICMPV6) then Some None else
          t ← rd f XAIOS_ICMPV6_OFFSET;
          if negb (t =? type) then Some None else
          if p_payload_length h <? min_len then Some None else Some (Some h)
      end
  end.

(** [while (offset + 8U <= icmpv6_len)]: the offset of the first option of the
    given type with length 1.  An option advances the offset by at least eight,
    so [len / 8 + 1] rounds are enough ([find_option_fuel]). *)
Fixpoint find_option (fuel : nat) (icmpv6 : list Z) (len type offset : Z) : option (option Z) :=
  match fuel with
  | O => None
  | S fuel' =>
      if len <? offset + 8 then Some None else
      opt_type ← rd icmpv6 offset;
      opt_len ← rd icmpv6 (offset + 1);
      if opt_len =? 0 then Some None else
      if (opt_type =? type) && (opt_len =? 1) then Some (Some offset) else
      find_option fuel' icmpv6 len type (offset + opt_len * 8)
  end.

Definition option_fuel (len : Z) : nat := Z.to_nat (len / 8 + 1).

Definition ndp_process_neighbor_solicitation (n : ndp) (frame : option (list Z)) (frame_len : Z) : option (ndp * xaios_status) :=
  r ← open_message frame frame_len XAIOS_ICMPV6_NEIGHBOR_SOLICIT 24;
  match r, frame with
  | Some h, Some f =>
      let icmpv6 := at_ptr f XAIOS_ICMPV6_OFFSET in
      target ← xaios_ip_addr_from_raw_ipv6 (at_ptr icmpv6 8);
      o ← find_option (option_fuel (p_payload_length h)) icmpv6 (p_payload_length h) 1 24;
      src_mac ← match o with Some offset => read_bytes (at_ptr icmpv6 (offset + 2)) 6 | None => Some (replicate 6 0) end;
      if (family (p_src h) =? XAIOS_IP_FAMILY_V6) && negb (src_mac.[0] =? 0) then
        '(n1, _) ← ndp_cache_insert n (Some (p_src h)) (Some src_mac);
        Some (n1, XAIOS_OK)
      else Some (n, XAIOS_OK)
  | _, _ => Some (n, XAIOS_ERR_INVALID)
  end.

Definition ndp_process_neighbor_advertisement (n : ndp) (frame : option (list Z)) (frame_len : Z) : option (ndp * xaios_status) :=
  r ← open_message frame frame_len XAIOS_ICMPV6_NEIGHBOR_ADVERT 24;
  match r, frame with
  | Some h, Some f =>
      let icmpv6 := at_ptr f XAIOS_ICMPV6_OFFSET in
      target ← xaios_ip_addr_from_raw_ipv6 (at_ptr icmpv6 8);
      if negb (g_dad_active n =? 0) && xaios_ip_addr_equal target (tentative_addr (g_dad_state n)) then
        let d := g_dad_state n in
        Some (set_dad n (mk_dad (tentative_addr d) (start_ns d) (dad_active d) 1) (g_dad_active n), XAIOS_OK)
      else
      o ← find_option (option_fuel (p_payload_length h)) icmpv6 (p_payload_length h) 2 24;
      match o with
      | Some offset => ndp_cache_insert n (Some target) (Some (at_ptr icmpv6 (offset + 2)))
      | None => ndp_cache_insert n (Some target) (Some (replicate 6 0))
      end
  | _, _ => Some (n, XAIOS_ERR_INVALID)
  end.

(** The loop over the options of a router advertisement: every source link-layer
    address is cached. *)
Fixpoint ra_options (fuel : nat) (n : ndp) (icmpv6 : list Z) (len : Z) (src : xaios_ip_addr) (offset : Z) : option ndp :=
  match fuel with
  | O => None
  | S fuel' =>
      if len <? offset + 8 then Some n else
      opt_type ← rd icmpv6 offset;
      opt_len ← rd icmpv6 (offset + 1);
      if opt_len =? 0 then Some n else
      n1 ← (if (opt_type =? 1) && (opt_len =? 1)
            then fst <$> ndp_cache_insert n (Some src) (Some (at_ptr icmpv6 (offset + 2))) else Some n);
      ra_options fuel' n1 icmpv6 len src (offset + opt_len * 8)
  end.

Definition ndp_process_router_advertisement (n : ndp) (frame : option (list Z)) (frame_len : Z) : option (ndp * xaios_status) :=
  r ← open_message frame frame_len XAIOS_ICMPV6_ROUTER_ADVERT 16;
  match r, frame with
  | Some h, Some f =>
      n1 ← ra_options (option_fuel (p_payload_length h)) n (at_ptr f XAIOS_ICMPV6_OFFSET) (p_payload_length h) (p_src h) 16;
      Some (set_gateway n1 (p_src h) 1, XAIOS_OK)
  | _, _ => Some (n, XAIOS_ERR_INVALID)
  end.

(** The frame that [ndp_send_router_solicitation] builds on its stack array and
    drops; only the result is visible. *)
Definition ndp_send_router_solicitation (rs_frame : list Z) (src_mac : option (list Z)) (src_ip : option xaios_ip_addr)
    : option (xaios_status * list Z) :=
  match src_mac, src_ip with
  | Some smac, Some src =>
      let all_routers := mk_addr XAIOS_IP_FAMILY_V6 ([0xFF; 0x02] ++ replicate 13 0 ++ [0x02]) in
      let icmpv6_len := 12 in
      f ← ndp_headers rs_frame (mcast_eth_from_ipv6 all_routers) smac icmpv6_len src all_routers;
      f ← wr f (XAIOS_ICMPV6_OFFSET + 0) XAIOS_ICMPV6_ROUTER_SOLICIT;
      f ← wr f (XAIOS_ICMPV6_OFFSET + 1) 0;
      f ← put_be16 f (XAIOS_ICMPV6_OFFSET + 2) 0;
      f ← wr f (XAIOS_ICMPV6_OFFSET + 4) 1;
      f ← wr f (XAIOS_ICMPV6_OFFSET + 5) 1;
      f ← put_mac f (XAIOS_ICMPV6_OFFSET + 6) smac;
      f ← seal6 f src all_routers icmpv6_len;
      Some (XAIOS_OK, f)
  | _, _ => Some (XAIOS_ERR_INVALID, rs_frame)
  end.

(** ** Duplicate address detection *)

(** [ndp_dad_init]: the caller's structure after the call.  The solicitation is
    built on the stack array [dad_frame] and dropped. *)
Definition ndp_dad_init (n : ndp) (dad_frame : list Z) (a : xaios_ip_addr) : option (ndp * xaios_dad_state) :=
  let dad := mk_dad a (g_ndp_last_tick_ns n) 1 0 in
  let n1 := set_dad n dad 1 in
  let unspecified := mk_addr XAIOS_IP_FAMILY_V6 (replicate 16 0) in
  let mcast_dst := solicited_node_mcast a in
  f ← ndp_headers dad_frame (mcast_eth_from_ipv6 mcast_dst) (replicate 6 0) 28 unspecified mcast_dst;
  f ← wr f (XAIOS_ICMPV6_OFFSET + 0) XAIOS_ICMPV6_NEIGHBOR_SOLICIT;
  f ← wr f (XAIOS_ICMPV6_OFFSET + 1) 0;
  f ← put_be16 f (XAIOS_ICMPV6_OFFSET + 2) 0;
  f ← put_addr f (XAIOS_ICMPV6_OFFSET + 8) a;
  _ ← seal6 f unspecified mcast_dst 28;
  Some (n1, dad).

(** The caller's structure [dad] is not the static [g_dad_state]. *)
Definition ndp_dad_tick (n : ndp) (dad : xaios_dad_state) (now_ns : Z) : ndp * xaios_dad_state * Z :=
  if dad_active dad =? 0 then (n, dad, 1) else
  if negb (duplicate_found dad =? 0) then
    (set_dad n (g_dad_state n) 0, mk_dad (tentative_addr dad) (start_ns dad) 0 (duplicate_found dad), -1)
  else if XAIOS_NDP_RETRANS_TIMER_NS <=? u64 (now_ns - start_ns dad) then
    (set_dad n (g_dad_state n) 0, mk_dad (tentative_addr dad) (start_ns dad) 0 (duplicate_found dad), 1)
  else (n, dad, 0).

(** ** Boot test *)

(** [::n], the addresses of the boot test outside the link-local prefix. *)
Definition short_addr (n : Z) : xaios_ip_addr := mk_addr XAIOS_IP_FAMILY_V6 (replicate 15 0 ++ [n]).

(** The cache and reachability part; [frame] and [na_frame] are uninitialised. *)
Definition ndp_self_test_cache (n : ndp) (frame na_frame : list Z) : option ndp :=
  let n := set_tick (ndp_init n) 1000000 in
  _ ← check (ndp_cache_count n =? 0);
  let test_ip := link_local 0x01 in
  let test_mac := [0x02; 0; 0; 0; 0; 0x01] in
  let '(n, st, _) := ndp_cache_lookup n (Some test_ip) true in
  _ ← check (status_eqb st XAIOS_ERR_NOT_FOUND);
  '(n, st) ← ndp_cache_insert n (Some test_ip) (Some test_mac);
  _ ← check (is_ok st && (ndp_cache_count n =? 1));
  let '(n, st, out) := ndp_cache_lookup n (Some test_ip) true in
  _ ← check (is_ok st && ((default [] out).[0] =? 0x02) && ((default [] out).[5] =? 0x01));
  nud_idx ← Z.of_nat <$> find_idx (fun e => negb (active e =? 0)) (g_ndp_cache n);
  let state n := nud_state ((g_ndp_cache n).[nud_idx]) in
  _ ← check (bool_decide (state n = XAIOS_NDP_NUD_REACHABLE));
  let n := ndp_nud_tick n (u64 (g_ndp_last_tick_ns n + XAIOS_NDP_REACHABLE_TIME_NS + 1)) in
  _ ← check (bool_decide (state n = XAIOS_NDP_NUD_STALE));
  let n := ndp_nud_update_on_traffic n (Some test_ip) in
  _ ← check (bool_decide (state n = XAIOS_NDP_NUD_DELAY));
  let n := ndp_nud_tick n (u64 (g_ndp_last_tick_ns n + XAIOS_NDP_DELAY_FIRST_PROBE_NS + 1)) in
  _ ← check (bool_decide (state n = XAIOS_NDP_NUD_PROBE));
  let n := set_cache n (upd (g_ndp_cache n) nud_idx (fun e =>
             mk_neigh (ip e) (mac e) (active e) (nud_state e) (nud_timestamp_ns e) (last_used_ns e) (insert_ns e) XAIOS_NDP_MAX_PROBES)) in
  let n := ndp_nud_tick n (u64 (g_ndp_last_tick_ns n + XAIOS_NDP_RETRANS_TIMER_NS + 1)) in
  _ ← check (bool_decide (state n = XAIOS_NDP_NUD_INCOMPLETE));
  '(n, _) ← ndp_cache_insert n (Some test_ip) (Some test_mac);
  let src := link_local 0x0A in
  let src_mac := [0x52; 0x54; 0; 0x12; 0x35; 0x02] in
  '(st, frame, frame_len) ← ndp_build_neighbor_solicitation (Some frame) (Some src_mac) 0 (Some src) (Some test_ip);
  et ← get_be16 frame 12;
  ty ← rd frame XAIOS_ICMPV6_OFFSET;
  hl ← hop_limit_is_valid (Some frame);
  _ ← check (is_ok st && (frame_len =? 14 + XAIOS_IPV6_HEADER_SIZE + 28) && (et =? XAIOS_IPV6_ETHERTYPE) &&
             (ty =? XAIOS_ICMPV6_NEIGHBOR_SOLICIT) && (frame.[0] =? 0x33) && (frame.[1] =? 0x33) && (frame.[2] =? 0xFF) && hl);
  f64 ← wr frame (14 + 7) 64;
  hl ← hop_limit_is_valid (Some f64);
  _ ← check (negb hl);
  let na_mac := [0xAA; 0xBB; 0xCC; 0xDD; 0xEE; 0xFF] in
  '(_, na, na_len) ← icmpv6_build_neighbor_advertisement na_frame na_mac src_mac test_ip src test_ip;
  '(n, st) ← ndp_process_neighbor_advertisement n (Some na) na_len;
  _ ← check (is_ok st);
  let '(n, st, out) := ndp_cache_lookup n (Some test_ip) true in
  _ ← check (is_ok st && ((default [] out).[0] =? 0xAA) && ((default [] out).[5] =? 0xFF));
  na64 ← wr na (14 + 7) 64;
  '(n, st) ← ndp_process_neighbor_advertisement n (Some na64) na_len;
  _ ← check (status_eqb st XAIOS_ERR_INVALID);
  let test_mac2 := [0x02; 0; 0; 0; 0; 0x02] in
  n ← for_opt (Z.to_nat XAIOS_NDP_CACHE_SIZE) 1
        (fun i n => fst <$> ndp_cache_insert n (Some (short_addr (u8 (0x10 + i)))) (Some test_mac2)) n;
  _ ← check (ndp_cache_count n =? XAIOS_NDP_CACHE_SIZE);
  let '(n, _, out) := ndp_cache_lookup n (Some (short_addr 0x15)) true in
  _ ← check (match out with Some m => m.[0] =? 0x02 | None => false end);
  '(n, st) ← ndp_cache_insert n (Some (short_addr 0xFF)) (Some test_mac2);
  _ ← check (is_ok st && (ndp_cache_count n =? XAIOS_NDP_CACHE_SIZE));
  Some n.

(** The part on duplicate addresses. *)
Definition ndp_self_test_dad (n : ndp) (dad_frame dad_na : list Z) : option ndp :=
  let src := link_local 0x0A in
  let src_mac := [0x52; 0x54; 0; 0x12; 0x35; 0x02] in
  let na_mac := [0xAA; 0xBB; 0xCC; 0xDD; 0xEE; 0xFF] in
  let test_ip := link_local 0x01 in
  let dad_addr := short_addr 0xFE in
  '(n, dad) ← ndp_dad_init n dad_frame dad_addr;
  let n := set_dad n dad 1 in
  '(_, na, na_len) ← icmpv6_build_neighbor_advertisement dad_na na_mac src_mac test_ip src dad_addr;
  na ← wr na (14 + 7) 255;
  '(n, _) ← ndp_cache_insert n (Some dad_addr) (Some na_mac);
  '(n, _) ← ndp_process_neighbor_advertisement n (Some na) na_len;
  let '(n, dad, result) := ndp_dad_tick n dad (u64 (g_ndp_last_tick_ns n + XAIOS_NDP_RETRANS_TIMER_NS + 1)) in
  _ ← check ((result =? -1) && (duplicate_found dad =? 1));
  Some n.

(** The part on routers. *)
Definition ndp_self_test_router (n : ndp) (rs_frame : list Z) : option ndp :=
  let src := link_local 0x0A in
  let src_mac := [0x52; 0x54; 0; 0x12; 0x35; 0x02] in
  '(st, _) ← ndp_send_router_solicitation rs_frame (Some src_mac) (Some src);
  _ ← check (is_ok st);
  let ra_src := short_addr 0xFE in
  let ra_mac := [0; 0x11; 0x22; 0x33; 0x44; 0x55] in
  f ← headers6 (replicate 128 0) 128 src_mac ra_mac 24 ra_src src;
  f ← wr f (14 + 7) 255;
  f ← wr f (XAIOS_ICMPV6_OFFSET + 0) XAIOS_ICMPV6_ROUTER_ADVERT;
  f ← wr f (XAIOS_ICMPV6_OFFSET + 1) 0;
  f ← put_be16 f (XAIOS_ICMPV6_OFFSET + 2) 0;
  f ← wr f (XAIOS_ICMPV6_OFFSET + 4) 64;
  f ← wr f (XAIOS_ICMPV6_OFFSET + 5) 0;
  f ← put_be16 f (XAIOS_ICMPV6_OFFSET + 6) 0;
  f ← put_be32 f (XAIOS_ICMPV6_OFFSET + 8) 0;
  f ← put_be32 f (XAIOS_ICMPV6_OFFSET + 12) 0;
  f ← wr f (XAIOS_ICMPV6_OFFSET + 16) 1;
  f ← wr f (XAIOS_ICMPV6_OFFSET + 17) 1;
  f ← put_mac f (XAIOS_ICMPV6_OFFSET + 18) ra_mac;
  f ← seal6 f ra_src src 24;
  '(n, st) ← ndp_process_router_advertisement n (Some f) (14 + 40 + 24);
  _ ← check (is_ok st && negb (g_has_default_gateway n =? 0) && xaios_ip_addr_equal (ndp_default_gateway n) ra_src);
  Some n.

Definition ndp_self_test (n : ndp) (frame na_frame dad_frame dad_na rs_frame : list Z) : option ndp :=
  n ← ndp_self_test_cache n frame na_frame;
  n ← ndp_self_test_dad n dad_frame dad_na;
  ndp_self_test_router n rs_frame.

(** The boot test stops at the detection of the duplicate: [ndp_dad_init]
    copies the caller's structure, the advertisement marks the copy and the tick
    looks at the original. *)
Lemma ndp_self_test_panics :
  is_Some (ndp_self_test_cache ndp0 (replicate 128 7) (replicate 128 7)) /\
  ndp_self_test ndp0 (replicate 128 7) (replicate 128 7) (replicate 128 7) (replicate 128 7) (replicate 128 7) = None.
Proof. split; [vm_compute; by eexists|vm_compute; reflexivity]. Qed.

(** ** Specification: neighbours and their reachability (RFC 4861, 7.3) *)

Record neigh := mk_neighbour {
  n_mac : list Z;
  n_state : xaios_ndp_nud_state;
  n_since : Z;
  n_used : Z;
  n_inserted : Z;
  n_probes : Z
}.

(** A neighbour to which a packet goes at time [t]. *)
Definition traffic (t : Z) (v : neigh) : neigh :=
  match n_state v with
  | XAIOS_NDP_NUD_STALE => mk_neighbour (n_mac v) XAIOS_NDP_NUD_DELAY t t (n_inserted v) (n_probes v)
  | XAIOS_NDP_NUD_REACHABLE => mk_neighbour (n_mac v) XAIOS_NDP_NUD_REACHABLE t t (n_inserted v) (n_probes v)
  | s => mk_neighbour (n_mac v) s (n_since v) t (n_inserted v) (n_probes v)
  end.

(** A neighbour after a tick at time [now]; [None] when it is dropped. *)
Definition elapse (now : Z) (v : neigh) : option neigh :=
  let go s since probes := Some (mk_neighbour (n_mac v) s since (n_used v) (n_inserted v) probes) in
  match n_state v with
  | XAIOS_NDP_NUD_REACHABLE =>
      if 30000000000 <=? u64 (now - n_since v) then go XAIOS_NDP_NUD_STALE (n_since v) (n_probes v) else Some v
  | XAIOS_NDP_NUD_STALE => Some v
  | XAIOS_NDP_NUD_DELAY => if 5000000000 <=? u64 (now - n_since v) then go XAIOS_NDP_NUD_PROBE now 0 else Some v
  | XAIOS_NDP_NUD_PROBE =>
      if (1000000000 <=? u64 (now - n_since v)) && (3 <=? n_probes v)
      then go XAIOS_NDP_NUD_INCOMPLETE (n_since v) (n_probes v) else Some v
  | XAIOS_NDP_NUD_INCOMPLETE => if 30000000000 <=? u64 (now - n_inserted v) then None else Some v
  end.

Inductive ndp_op :=
| OpLookup (a : xaios_ip_addr)
| OpTraffic (a : xaios_ip_addr)
| OpInsert (a : xaios_ip_addr) (m : list Z)
| OpTick (now : Z).

Inductive ndp_out :=
| OutMac (m : option (list Z))
| OutStatus (st : xaios_status)
| OutDone.

(** The abstract state: the neighbours by address and the time of the last tick. *)
Definition neighbours : Type := gmap (list Z) neigh * Z.

Inductive neigh_step : neighbours -> ndp_op -> ndp_out -> neighbours -> Prop :=
| NbHit m t a v : m !! addr a = Some v ->
    neigh_step (m, t) (OpLookup a) (OutMac (Some (n_mac v))) (<[addr a := traffic t v]> m, t)
| NbMiss m t a : m !! addr a = None -> neigh_step (m, t) (OpLookup a) (OutMac None) (m, t)
| NbTraffic m t a : neigh_step (m, t) (OpTraffic a) OutDone (alter (traffic t) (addr a) m, t)
| NbConfirm m t a x v : m !! addr a = Some v ->
    neigh_step (m, t) (OpInsert a x) (OutStatus XAIOS_OK)
      (<[addr a := mk_neighbour x XAIOS_NDP_NUD_REACHABLE t t (n_inserted v) 0]> m, t)
| NbNew m t a x : m !! addr a = None -> Z.of_nat (size m) < XAIOS_NDP_CACHE_SIZE ->
    neigh_step (m, t) (OpInsert a x) (OutStatus XAIOS_OK)
      (<[addr a := mk_neighbour x XAIOS_NDP_NUD_REACHABLE t t t 0]> m, t)
| NbEvict m t a x k v : m !! addr a = None -> Z.of_nat (size m) = XAIOS_NDP_CACHE_SIZE ->
    m !! k = Some v -> (forall j w, m !! j = Some w -> n_used v <= n_used w) ->
    neigh_step (m, t) (OpInsert a x) (OutStatus XAIOS_OK)
      (<[addr a := mk_neighbour x XAIOS_NDP_NUD_REACHABLE t t t 0]> (delete k m), t)
| NbTick m t now : neigh_step (m, t) (OpTick now) OutDone (omap (elapse now) m, now).

Inductive neigh_steps : neighbours -> list ndp_op -> list ndp_out -> neighbours -> Prop :=
| NbNil s : neigh_steps s [] [] s
| NbCons s op out s1 ops outs s2 :
    neigh_step s op out s1 -> neigh_steps s1 ops outs s2 -> neigh_steps s (op :: ops) (out :: outs) s2.

(** The operations of the code. *)
Definition ndp_step (n : ndp) (op : ndp_op) : option (ndp * ndp_out) :=
  match op with
  | OpLookup a => let '(n', _, m) := ndp_cache_lookup n (Some a) true in Some (n', OutMac m)
  | OpTraffic a => Some (ndp_nud_update_on_traffic n (Some a), OutDone)
  | OpInsert a m => '(n', st) ← ndp_cache_insert n (Some a) (Some m); Some (n', OutStatus st)
  | OpTick now => Some (ndp_nud_tick n now, OutDone)
  end.

Fixpoint ndp_steps (n : ndp) (ops : list ndp_op) : option (ndp * list ndp_out) :=
  match ops with
  | [] => Some (n, [])
  | op :: ops' =>
      '(n1, out) ← ndp_step n op;
      '(n2, outs) ← ndp_steps n1 ops';
      Some (n2, out :: outs)
  end.

(** What the callers pass: full IPv6 addresses, six-byte Ethernet addresses and
    clock readings below the largest word. *)
Definition op_ok (op : ndp_op) : Prop :=
  match op with
  | OpLookup a | OpTraffic a => v6 a
  | OpInsert a m => v6 a /\ zlen m = 6
  | OpTick now => 0 <= now < UINT64_MAX
  end.

Definition neigh_of (e : xaios_ndp_entry) : neigh :=
  mk_neighbour (mac e) (nud_state e) (nud_timestamp_ns e) (last_used_ns e) (insert_ns e) (probe_count e).

Definition kv (e : xaios_ndp_entry) : option (list Z * neigh) :=
  if active e =? 0 then None else Some (addr (ip e), neigh_of e).

Definition contents (n : ndp) : neighbours := (Table.view kv (g_ndp_cache n), g_ndp_last_tick_ns n).

Definition entry_ok (e : xaios_ndp_entry) : Prop :=
  0 <= last_used_ns e < UINT64_MAX /\ (active e <> 0 -> v6 (ip e)).

Record ndp_ok (n : ndp) : Prop := {
  no_size : zlen (g_ndp_cache n) = XAIOS_NDP_CACHE_SIZE;
  no_unique : Table.unique kv (g_ndp_cache n);
  no_entries : Forall entry_ok (g_ndp_cache n);
  no_tick : 0 <= g_ndp_last_tick_ns n < UINT64_MAX
}.

(** ** The refinement *)

Lemma kv_active e k v : kv e = Some (k, v) -> active e <> 0 /\ k = addr (ip e) /\ v = neigh_of e.
Proof. unfold kv. case_if; [done|]. intros [= <- <-]. split; [lia|done]. Qed.

Lemma kv_Some e : active e <> 0 -> kv e = Some (addr (ip e), neigh_of e).
Proof. intros He. unfold kv. by rewrite (proj2 (Z.eqb_neq _ 0)). Qed.

(** The scan finds an entry whose last use is the oldest. *)
Lemma lru_idx_least c :
  zlen c = XAIOS_NDP_CACHE_SIZE -> Forall entry_ok c ->
  0 <= lru_idx c < XAIOS_NDP_CACHE_SIZE /\ forall j, 0 <= j < XAIOS_NDP_CACHE_SIZE -> last_used_ns (c.[lru_idx c]) <= last_used_ns (c.[j]).
Proof.
  intros Hz Hent.
  apply (Table.scan_least XAIOS_NDP_CACHE_SIZE (fun _ => true) (fun i => last_used_ns (c.[i])) UINT64_MAX XAIOS_NDP_CACHE_SIZE); [done|].
  intros i Hi. split; [done|]. rewrite Forall_lookup in Hent. destruct (Hent (Z.to_nat i) (c.[i])) as [? _]; [apply arr_lookup; lia|lia].
Qed.

Section refinement.
Context (n : ndp) (Hn : ndp_ok n).
Notation c := (g_ndp_cache n).
Notation m := (Table.view kv c).

Lemma neigh_search_hit a i :
  v6 a -> find_idx (holds a) c = Some i ->
  exists e, c !! i = Some e /\ c.[Z.of_nat i] = e /\ kv e = Some (addr a, neigh_of e) /\ active e <> 0 /\
    m !! addr a = Some (neigh_of e).
Proof.
  intros Ha [(e & Hi & He) _]%find_idx_Some. unfold holds in He. apply andb_true_iff in He as [Hact%negb_true_iff%Z.eqb_neq Heq].
  destruct Hn as [_ Hu Hent _]. rewrite Forall_lookup in Hent. destruct (Hent i e Hi) as [_ Hv6].
  rewrite equal_v6 in Heq by auto. assert (Hkv : kv e = Some (addr a, neigh_of e)) by (by rewrite kv_Some, Heq).
  exists e. split_and!; try done.
  - rewrite Nat2Z.id. by apply list_lookup_total_correct.
  - apply Table.view_Some; eauto.
Qed.

Lemma neigh_search_miss a : v6 a -> find_idx (holds a) c = None -> m !! addr a = None.
Proof.
  intros Ha Hf%find_idx_None. destruct Hn as [_ Hu Hent _]. apply Table.view_None; [done|].
  intros i e v Hi (Hact & Hk & _)%kv_active. rewrite Forall_lookup in Hf, Hent. specialize (Hf i e Hi).
  destruct (Hent i e Hi) as [_ Hv6]. unfold holds in Hf.
  assert (He : xaios_ip_addr_equal (ip e) a = true) by (apply equal_v6; auto).
  rewrite He, (proj2 (Z.eqb_neq _ 0)) in Hf by done. done.
Qed.

(** Replace an entry by one for the same state of the invariant. *)
Lemma set_entry_ok (i : nat) e :
  Table.unique kv (<[i := e]> c) -> entry_ok e -> ndp_ok (set_cache n (<[i := e]> c)).
Proof.
  intros Hu He. destruct Hn as [Hz _ Hent Ht]. split; simpl; [|done|by apply Forall_insert|done].
  unfold zlen in *. by rewrite length_insert.
Qed.

Lemma on_traffic_neigh t e : neigh_of (on_traffic t e) = traffic t (neigh_of e).
Proof. unfold on_traffic, lru_touch, traffic, neigh_of. destruct e as [? ? ? [] ? ? ? ?]; done. Qed.

Lemma on_traffic_kept t e : active (on_traffic t e) = active e /\ ip (on_traffic t e) = ip e /\ last_used_ns (on_traffic t e) = t.
Proof. unfold on_traffic, lru_touch. destruct e as [? ? ? [] ? ? ? ?]; done. Qed.

Lemma traffic_refines a i :
  v6 a -> find_idx (holds a) c = Some i ->
  let n' := set_cache n (upd c (Z.of_nat i) (on_traffic (g_ndp_last_tick_ns n))) in
  ndp_ok n' /\ exists v, m !! addr a = Some v /\ mac (c.[Z.of_nat i]) = n_mac v /\
    contents n' = (<[addr a := traffic (g_ndp_last_tick_ns n) v]> m, g_ndp_last_tick_ns n).
Proof.
  intros Ha Hf n'. destruct (neigh_search_hit a i Ha Hf) as (e & Hi & Hg & Hkv & Hact & Hm).
  set (t := g_ndp_last_tick_ns n) in *. destruct (on_traffic_kept t e) as (Ka & Ki & Ku).
  assert (Hkv' : kv (on_traffic t e) = Some (addr a, traffic t (neigh_of e))).
  { rewrite kv_Some by congruence. rewrite on_traffic_neigh, Ki. apply kv_active in Hkv as (_ & -> & _). done. }
  destruct (Table.view_update kv c i e _ _ _ _ (no_unique _ Hn) Hi Hkv Hkv') as [Hu Hv].
  unfold n', upd. rewrite Hg, Nat2Z.id. split.
  - apply set_entry_ok; [done|]. split; [rewrite Ku; apply Hn|]. rewrite Ka, Ki. intros _.
    destruct Hn as [_ _ Hent _]. rewrite Forall_lookup in Hent. by apply (Hent i e Hi).
  - exists (neigh_of e). split_and!; [done|done|]. unfold contents. simpl. by rewrite Hv.
Qed.

Lemma neigh_insert_refines a x :
  v6 a -> zlen x = 6 ->
  exists n' out, ndp_step n (OpInsert a x) = Some (n', out) /\ ndp_ok n' /\ neigh_step (contents n) (OpInsert a x) out (contents n').
Proof.
  intros Ha Hx. unfold ndp_step, ndp_cache_insert, contents. set (t := g_ndp_last_tick_ns n).
  assert (Hr : read_bytes x 6 = Some x) by (rewrite read_bytes_ok by lia; by rewrite take_ge by (unfold zlen in Hx; lia)).
  pose proof (no_size _ Hn) as Hz. pose proof (no_tick _ Hn) as Ht.
  destruct (find_idx (holds a) c) as [i|] eqn:Hf.
  { destruct (neigh_search_hit a i Ha Hf) as (e & Hi & Hg & Hkv & Hact & Hm). rewrite Hr. bind_step. unfold upd. rewrite Hg, Nat2Z.id.
    eexists _, _. split; [done|].
    set (e' := mk_neigh (ip e) x (active e) XAIOS_NDP_NUD_REACHABLE t t (insert_ns e) 0).
    assert (Hkv' : kv e' = Some (addr a, neigh_of e')).
    { rewrite kv_Some by done. apply kv_active in Hkv as (_ & -> & _). done. }
    destruct (Table.view_update kv c i e _ _ _ _ (no_unique _ Hn) Hi Hkv Hkv') as [Hu Hv]. simpl. fold e'. rewrite Hv. split.
    - apply set_entry_ok; [done|]. split; [done|]. intros _. pose proof (no_entries _ Hn) as Hent. rewrite Forall_lookup in Hent.
      by apply (Hent i e Hi).
    - by apply (NbConfirm _ _ _ _ (neigh_of e)). }
  apply neigh_search_miss in Hf; [|done]. set (e' := mk_neigh a x 1 XAIOS_NDP_NUD_REACHABLE t t t 0).
  assert (Hkv' : kv e' = Some (addr a, neigh_of e')) by done. assert (He' : entry_ok e') by done.
  destruct (find_idx (fun e => active e =? 0) c) as [i|] eqn:Hfree.
  - pose proof (find_idx_lt _ _ _ Hfree). apply find_idx_Some in Hfree as [(e & Hi & He) _].
    assert (Hkv : kv e = None) by (unfold kv; by rewrite He).
    rewrite (proj2 (Z.eqb_neq _ _)), Hr, Nat2Z.id by zlia. bind_step. eexists _, _. split; [done|].
    destruct (Table.view_fill kv c i e e' _ _ (no_unique _ Hn) Hf Hi Hkv Hkv') as [Hu Hv]. simpl. fold e'. rewrite Hv.
    split; [by apply set_entry_ok|]. apply NbNew; [done|].
    pose proof (Table.view_not_full kv c i e (no_unique _ Hn) Hi Hkv). zlia.
  - apply find_idx_None in Hfree. pose proof (no_entries _ Hn) as Hent.
    destruct (lru_idx_least c Hz Hent) as [Hs Hmin].
    rewrite (proj2 (Z.eqb_neq _ _)), Hr by lia. bind_step. eexists _, _. split; [done|].
    pose proof (arr_lookup c (lru_idx c) ltac:(lia)) as Hi. set (e := c.[lru_idx c]) in *.
    assert (Hall : Forall (fun e => is_Some (kv e)) c).
    { eapply Forall_impl; [exact Hfree|]. intros y Hy. simpl in Hy. rewrite kv_Some by lia. by eexists. }
    assert (Hkv : kv e = Some (addr (ip e), neigh_of e)).
    { apply kv_Some. rewrite Forall_lookup in Hfree. specialize (Hfree _ _ Hi). simpl in Hfree. lia. }
    destruct (Table.view_evict kv c _ e e' _ _ _ _ (no_unique _ Hn) Hf Hi Hkv Hkv') as [Hu Hv]. simpl. fold e'. rewrite Hv.
    split; [by apply set_entry_ok|]. eapply NbEvict; [done| |apply Table.view_Some; [apply Hn|]; eauto|].
    + rewrite Table.view_full; [zlia|apply Hn|done].
    + intros j w (k & y & Hk & (_ & _ & ->)%kv_active)%Table.view_Some; [|apply Hn]. simpl.
      pose proof (lookup_lt_Some _ _ _ Hk). specialize (Hmin (Z.of_nat k) ltac:(zlia)). rewrite Nat2Z.id in Hmin.
      by rewrite (list_lookup_total_correct _ _ _ Hk) in Hmin.
Qed.

Lemma tick_refines now :
  0 <= now < UINT64_MAX ->
  ndp_ok (ndp_nud_tick n now) /\ contents (ndp_nud_tick n now) = (omap (elapse now) m, now).
Proof.
  intros Ht. destruct Hn as [Hz Hu Hent _]. unfold ndp_nud_tick, ndp_cache_age, contents. simpl. rewrite <- list_fmap_compose.
  set (f := tick_entry now ∘ age_entry now).
  assert (Hf : forall e, kv (f e) = match kv e with Some (k, v) => pair k <$> elapse now v | None => None end).
  { intros e. unfold f, compose, kv, age_entry. destruct (active e =? 0) eqn:Ha; simpl; [unfold tick_entry; by rewrite Ha, Ha|].
    unfold elapse, tick_entry, neigh_of, set_nud, expire_entry, XAIOS_NDP_REACHABLE_TIME_NS, XAIOS_NDP_DELAY_FIRST_PROBE_NS,
      XAIOS_NDP_RETRANS_TIMER_NS, XAIOS_NDP_MAX_PROBES.
    destruct e as [ei em ea es et eu en ep]. simpl in *.
    destruct es; simpl;
      destruct (30000000000 <=? u64 (now - et)); simpl; destruct (30000000000 <=? u64 (now - en)); simpl; rewrite ?Ha; simpl;
      destruct (5000000000 <=? u64 (now - et)), (1000000000 <=? u64 (now - et)), (3 <=? ep); simpl; rewrite ?Ha; done. }
  destruct (Table.view_omap kv (elapse now) f c Hf Hu) as [Hu' Hv]. split; [|by rewrite Hv].
  split; simpl; [unfold zlen; by rewrite length_fmap|done| |done].
  apply Forall_fmap. eapply Forall_impl; [exact Hent|]. intros e [He1 He2]. simpl. unfold f, compose.
  assert (Hk : last_used_ns (tick_entry now (age_entry now e)) = last_used_ns e /\
    (active (tick_entry now (age_entry now e)) <> 0 -> active e <> 0 /\ ip (tick_entry now (age_entry now e)) = ip e)).
  { unfold tick_entry, age_entry, set_nud, expire_entry. destruct e as [ei em ea es et eu en ep]. simpl in *.
    destruct (Z.eqb_spec ea 0) as [->|Hne]; [done|].
    pose proof (proj2 (Z.eqb_neq ea 0) Hne) as Ha. destruct es; simpl;
      destruct (XAIOS_NDP_REACHABLE_TIME_NS <=? u64 (now - et)); simpl; destruct (XAIOS_NDP_REACHABLE_TIME_NS <=? u64 (now - en)); simpl;
      rewrite ?Ha; simpl;
      destruct (XAIOS_NDP_DELAY_FIRST_PROBE_NS <=? u64 (now - et)), (XAIOS_NDP_RETRANS_TIMER_NS <=? u64 (now - et)),
      (XAIOS_NDP_MAX_PROBES <=? ep); simpl; done. }
  destruct Hk as [Hk1 Hk2]. split; [by rewrite Hk1|]. intros Ha. destruct (Hk2 Ha) as [Ha' ->]. by apply He2.
Qed.

Lemma ndp_step_refines op :
  op_ok op -> exists n' out, ndp_step n op = Some (n', out) /\ ndp_ok n' /\ neigh_step (contents n) op out (contents n').
Proof.
  destruct op as [a|a|a x|now]; simpl; intros Hop.
  - unfold ndp_cache_lookup. destruct (find_idx (holds a) c) as [i|] eqn:Hf.
    + destruct (traffic_refines a i Hop Hf) as (Hok & v & Hm & Hv & Hc). eexists _, _. split; [done|]. split; [done|].
      rewrite Hc, Hv. by apply NbHit.
    + eexists _, _. split; [done|]. split; [done|]. apply NbMiss. by apply neigh_search_miss.
  - unfold ndp_nud_update_on_traffic. eexists _, _. split; [done|].
    assert (Hstep : neigh_step (contents n) (OpTraffic a) OutDone (alter (traffic (g_ndp_last_tick_ns n)) (addr a) m, g_ndp_last_tick_ns n))
      by apply NbTraffic.
    destruct (find_idx (holds a) c) as [i|] eqn:Hf.
    + destruct (traffic_refines a i Hop Hf) as (Hok & v & Hm & _ & Hc). split; [done|]. rewrite Hc.
      assert (Halt : alter (traffic (g_ndp_last_tick_ns n)) (addr a) m = <[addr a := traffic (g_ndp_last_tick_ns n) v]> m); [|by rewrite <- Halt].
      apply map_eq. intros j. destruct (decide (addr a = j)) as [<-|Hj];
        [by rewrite lookup_alter_eq, Hm, lookup_insert_eq|by rewrite lookup_alter_ne, lookup_insert_ne].
    + split; [done|]. rewrite alter_id in Hstep; [done|]. intros y Hy. by rewrite (neigh_search_miss a Hop Hf) in Hy.
  - destruct Hop. by apply neigh_insert_refines.
  - eexists _, _. split; [done|]. destruct (tick_refines now Hop) as [Hok ->]. split; [done|]. apply NbTick.
Qed.
End refinement.

Lemma ndp0_ok : ndp_ok ndp0 /\ contents ndp0 = (∅, 0).
Proof. split; [split; [done|constructor|by apply Forall_replicate|done]|done]. Qed.

(** C18: From the empty cache every sequence of lookups, insertions, traffic
    notifications and ticks (with full IPv6 addresses, six-byte Ethernet
    addresses and clock readings below the largest word) runs without an access
    outside the cache and answers as the map of neighbours with the reachability
    states of RFC 4861 does; a full cache evicts exactly a neighbour whose last
    use is the oldest. *)
Theorem ndp_cache_refines (ops : list ndp_op) (Hops : Forall op_ok ops) :
  exists n outs s, ndp_steps ndp0 ops = Some (n, outs) /\ neigh_steps (∅, 0) ops outs s /\
    contents n = s /\ Z.of_nat (size s.1) <= XAIOS_NDP_CACHE_SIZE.
Proof.
  destruct ndp0_ok as [Hn <-]. revert Hn. generalize ndp0 as n.
  induction Hops as [|op ops Hop Hops IH]; intros n Hn.
  - exists n, [], (contents n). split_and!; [done|constructor|done|]. destruct Hn as [Hz Hu _ _].
    simpl. rewrite Table.view_size by done. pose proof (Table.omap_length_le kv (g_ndp_cache n)). zlia.
  - destruct (ndp_step_refines n Hn op Hop) as (n1 & out & H1 & Hn1 & Hs).
    destruct (IH n1 Hn1) as (n2 & outs & s & H2 & Hss & Hm). simpl. rewrite H1. simpl. rewrite H2.
    exists n2, (out :: outs), s. split_and!; [done|by econstructor|apply Hm..].
Qed.

Lemma short_addr_v6 x : byte x -> v6 (short_addr x).
Proof. intros Hx. split; [split; [|done]|done]. unfold bytes. simpl. repeat (apply Forall_cons; split; [unfold byte in *; lia|]). constructor. Qed.

Definition demo_ops : list ndp_op :=
  [OpTick 5; OpInsert (short_addr 1) [2; 0; 0; 0; 0; 1]; OpTick 40000000000; OpLookup (short_addr 1); OpTraffic (short_addr 2)].

Lemma ndp_cache_refines_witness :
  exists n outs s, ndp_steps ndp0 demo_ops = Some (n, outs) /\ neigh_steps (∅, 0) demo_ops outs s /\
    contents n = s /\ Z.of_nat (size s.1) <= XAIOS_NDP_CACHE_SIZE.
Proof.
  apply (ndp_cache_refines demo_ops). unfold demo_ops, op_ok, UINT64_MAX.
  repeat (apply Forall_cons; split); try apply Forall_nil; try lia; try (split; [|done]); try (apply short_addr_v6; unfold byte; lia); done.
Defined.

(** ** Messages *)

(** The loop over the options ends within its rounds and reads only the message. *)
Lemma find_option_fuel p len ty : forall fuel offset,
  bytes p -> len <= zlen p -> 0 <= offset -> (len - offset) / 8 < Z.of_nat fuel -> 0 < Z.of_nat fuel ->
  exists r, find_option fuel p len ty offset = Some r /\
    match r with Some o => offset <= o /\ o + 8 <= len /\ rd p o = Some ty | None => True end.
Proof.
  induction fuel as [|fuel IH]; intros offset Hb Hl Ho Hf Hp; simpl; [lia|].
  case_if; [by exists None|]. rewrite !rd_ok by lia. bind_step. case_if; [by exists None|].
  pose proof (bytes_get p (offset + 1) Hb) as B. unfold byte in B.
  case_if; [eexists; split; [done|]; simpl; rewrite rd_ok by lia; split; [lia|split; [lia|f_equal; lia]]|].
  destruct (IH (offset + p.[offset + 1] * 8)) as (r & -> & Hr); [done|done|lia|dlia|dlia|].
  exists r. split; [done|]. destruct r; [|done]. split; [lia|tauto].
Qed.

(** A message behind its headers passes the tests of the processing functions. *)
Lemma open_message_ok (e m r f : list Z) ty min_len src dst len n :
  f = e ++ header len XAIOS_IPV6_NEXT_ICMPV6 255 src dst ++ m ++ r -> zlen e = 14 -> get_be16 e 12 = Some XAIOS_IPV6_ETHERTYPE ->
  zlen m = len -> v6 src -> v6 dst -> len < 65536 -> 8 <= len -> min_len <= len -> m.[0] = ty -> 54 + len <= n ->
  open_message (Some f) n ty min_len = Some (Some (mk_parsed len XAIOS_IPV6_NEXT_ICMPV6 src dst)).
Proof.
  intros -> He Hety Hm [Hs Hfs] [Hd Hfd] Hl H8 Hmin Hty Hn. set (f := _ ++ _).
  destruct (frame_fields e m r f 255 src dst len eq_refl He Hm Hs Hd Hfs Hfd Hl) as (Hz & _ & _ & Hpar & Hget).
  unfold open_message, XAIOS_ICMPV6_MIN_FRAME. rewrite (proj2 (Z.ltb_ge n 62)) by lia.
  assert (Hhop : hop_limit_is_valid (Some f) = Some true).
  { unfold hop_limit_is_valid. rewrite <- rd_at_ptr by lia. unfold f. by rewrite at_ptr_app. }
  rewrite Hhop. bind_step. cbn [negb].
  assert (H12 : get_be16 f 12 = Some XAIOS_IPV6_ETHERTYPE).
  { rewrite <- Hety. unfold get_be16. rewrite !rd_ok by (zlia || (rewrite ?zlen_app; zlia)). unfold f. by rewrite !lookup_total_app_l by zlia. }
  rewrite H12. bind_step. rewrite Z.eqb_refl. cbn [negb]. rewrite Hpar by lia. bind_step. cbv iota beta. cbn [p_next_header p_payload_length].
  rewrite Z.eqb_refl. cbn [negb]. unfold XAIOS_ICMPV6_OFFSET. change 54 with (54 + 0) at 1. rewrite Hget by lia. bind_step.
  rewrite Hty, Z.eqb_refl. cbn [negb]. by rewrite (proj2 (Z.ltb_ge len min_len)) by lia.
Qed.

Lemma neigh_insert_holds s a x out s' :
  neigh_step s (OpInsert a x) out s' -> out = OutStatus XAIOS_OK /\ exists v, s'.1 !! addr a = Some v /\ n_mac v = x.
Proof. intros Hs. inversion Hs; subst; (split; [done|]); eexists; (split; [apply lookup_insert_eq|done]). Qed.

Lemma neigh_lookup_finds s a out s' v : neigh_step s (OpLookup a) out s' -> s.1 !! addr a = Some v -> out = OutMac (Some (n_mac v)).
Proof. intros Hs Hv. inversion Hs; subst; simpl in Hv; congruence. Qed.

(** After an insertion a lookup finds the address. *)
Lemma neigh_insert_then_lookup n a x :
  ndp_ok n -> v6 a -> zlen x = 6 ->
  exists n1 n2, ndp_cache_insert n (Some a) (Some x) = Some (n1, XAIOS_OK) /\ ndp_ok n1 /\
    ndp_cache_lookup n1 (Some a) true = (n2, XAIOS_OK, Some x).
Proof.
  intros Hn Ha Hx. destruct (neigh_insert_refines n Hn a x Ha Hx) as (n1 & out & H1 & Hn1 & Hs).
  destruct (ndp_step_refines n1 Hn1 (OpLookup a) Ha) as (n2 & out2 & H2 & _ & Hs2). exists n1, n2.
  apply neigh_insert_holds in Hs as (-> & v & Hv & <-). apply (neigh_lookup_finds _ _ _ _ _ Hs2) in Hv as ->. split_and!; [|done|].
  - unfold ndp_step in H1. destruct (ndp_cache_insert _ _ _) as [[? ?]|]; [|done]. by injection H1 as -> ->.
  - unfold ndp_step in H2. unfold ndp_cache_lookup in *. cbn [negb] in *. destruct (find_idx _ _); [|done]. by injection H2 as -> ->.
Qed.

Lemma read_prefix (x t : list Z) : zlen x = 6 -> read_bytes (x ++ t) 6 = Some x.
Proof. intros Hx. rewrite read_bytes_ok by (rewrite zlen_app; zlia). f_equal. apply take_app_length'. unfold zlen in Hx. lia. Qed.

(** Only the six bytes behind the pointer matter for an insertion. *)
Lemma insert_prefix n a x t : zlen x = 6 -> ndp_cache_insert n a (Some (x ++ t)) = ndp_cache_insert n a (Some x).
Proof.
  intros Hx. assert (Hr : read_bytes x 6 = Some x) by (rewrite <- (app_nil_r x) at 1; by apply read_prefix).
  unfold ndp_cache_insert. by rewrite read_prefix, Hr.
Qed.

(** The fields of an advertisement, read the way the processing function does. *)
Lemma advertisement_fields target smac c (r : list Z) : v6 target -> zlen smac = 6 ->
  zlen (advertisement target smac c) = 32 /\
  let p := advertisement target smac c ++ r in
  xaios_ip_addr_from_raw_ipv6 (at_ptr p 8) = Some target /\ find_option (option_fuel 32) p 32 2 24 = Some (Some 24) /\
  at_ptr p (24 + 2) = smac ++ r.
Proof.
  intros Ht Hzs. pose proof (ao_len _ (v6_ok _ Ht)) as Hzt. split; [unfold advertisement; rewrite !zlen_app, Hzt, Hzs; done|]. intros p.
  assert (H8 : at_ptr p 8 = addr target ++ [2; 1] ++ smac ++ r) by (unfold p, advertisement; by rewrite <- !app_assoc).
  assert (H24 : at_ptr p 24 = [2; 1] ++ smac ++ r) by (change 24 with (8 + 16); rewrite <- at_ptr_at_ptr, H8 by lia; by apply at_ptr_app).
  split_and!.
  - rewrite H8, from_raw_ok by done. f_equal. destruct target; f_equal. symmetry. apply Ht.
  - change (option_fuel 32) with 5%nat. cbn [find_option]. change (32 <? 24 + 8) with false. cbv iota.
    assert (Hrd : forall i, 0 <= i -> rd p (24 + i) = rd ([2; 1] ++ smac ++ r) i) by (intros; by rewrite <- rd_at_ptr, H24 by lia).
    rewrite (Hrd 1 ltac:(lia)), (Hrd 0 ltac:(lia) : rd p 24 = _). reflexivity.
  - by rewrite <- at_ptr_at_ptr, H24 by lia.
Qed.

(** A host that receives the neighbour advertisement another host built (in
    a buffer of any contents of at least 86 bytes) accepts it, when it is not
    itself probing for that address, and from then on finds the advertised
    Ethernet address under the target address. *)
Theorem ndp_advertisement_learned n b smac dmac src dst target k
  (Hn : ndp_ok n) (Hb : bytes b) (Hlb : 86 <= zlen b) (Hs : bytes smac) (Hd : bytes dmac) (Hzs : zlen smac = 6) (Hzd : zlen dmac = 6)
  (Hsrc : v6 src) (Hdst : v6 dst) (Htg : v6 target) (Hk : 86 <= k)
  (Hdad : g_dad_active n = 0 \/ xaios_ip_addr_equal target (tentative_addr (g_dad_state n)) = false) :
  exists f n1 n2, icmpv6_build_neighbor_advertisement b smac dmac src dst target = Some (XAIOS_OK, f, 86) /\
    ndp_process_neighbor_advertisement n (Some f) k = Some (n1, XAIOS_OK) /\
    ndp_cache_lookup n1 (Some target) true = (n2, XAIOS_OK, Some smac).
Proof.
  destruct (build_advertisement_ok b smac dmac src dst target) as (c & Hf & _); try done; try apply Hsrc; try apply Hdst; try apply Htg.
  destruct (advertisement_fields target smac c (drop 86 b) Htg Hzs) as (Hm & Hraw & Hopt & H26).
  set (m := advertisement target smac c) in *. set (r := drop 86 b) in *.
  destruct (neigh_insert_then_lookup n target smac Hn Htg Hzs) as (n1 & n2 & H1 & _ & H2).
  eexists _, n1, n2. split; [exact Hf|]. split; [|done]. unfold ndp_process_neighbor_advertisement.
  set (e := dmac ++ smac ++ [0x86; 0xDD]). assert (He : zlen e = 14) by (unfold e; rewrite !zlen_app, Hzd, Hzs; done).
  erewrite (open_message_ok e m r _ _ 24 src dst 32 k eq_refl He); try done; try lia.
  2:{ unfold e. rewrite app_assoc. change 12 with (12 + 0). rewrite <- get_be16_at_ptr by lia. rewrite at_ptr_app; [done|rewrite zlen_app; lia]. }
  bind_step. cbv iota beta. cbn [p_payload_length]. unfold XAIOS_ICMPV6_OFFSET.
  assert (H54 : at_ptr (e ++ header 32 XAIOS_IPV6_NEXT_ICMPV6 255 src dst ++ m ++ r) 54 = m ++ r).
  { rewrite (app_assoc e). apply at_ptr_app. rewrite zlen_app, zlen_header, He; [done|apply Hsrc|apply Hdst]. }
  rewrite H54, Hraw. bind_step.
  assert (Hd0 : negb (g_dad_active n =? 0) && xaios_ip_addr_equal target (tentative_addr (g_dad_state n)) = false)
    by (destruct Hdad as [-> | ->]; [done|apply andb_false_r]).
  rewrite Hd0, Hopt. cbv beta iota delta [mbind option_bind]. rewrite H26, insert_prefix by done. exact H1.
Qed.

Lemma ndp_advertisement_learned_witness :
  exists f n1 n2, icmpv6_build_neighbor_advertisement (replicate 100 7) [2;0;0;0;0;1] [2;0;0;0;0;2] (short_addr 1) (short_addr 2) (short_addr 1)
      = Some (XAIOS_OK, f, 86) /\
    ndp_process_neighbor_advertisement ndp0 (Some f) 100 = Some (n1, XAIOS_OK) /\
    ndp_cache_lookup n1 (Some (short_addr 1)) true = (n2, XAIOS_OK, Some [2;0;0;0;0;1]).
Proof.
  apply (ndp_advertisement_learned ndp0 (replicate 100 7) [2;0;0;0;0;1] [2;0;0;0;0;2] (short_addr 1) (short_addr 2) (short_addr 1) 100);
    try (apply short_addr_v6; unfold byte; lia); try apply (bool_decide_unpack _); try (vm_compute; exact I); try reflexivity; try lia.
  - apply ndp0_ok.
Defined.

(** ** Where the code departs from its description *)

(** No probe is ever counted: along any sequence of operations every neighbour
    in the cache has probe count zero and none is incomplete, so a neighbour that
    does not answer is probed for ever. *)
Definition never_failed (s : neighbours) : Prop :=
  map_Forall (fun _ v => n_probes v = 0 /\ n_state v <> XAIOS_NDP_NUD_INCOMPLETE) s.1.

Lemma probes_never_fail ops outs s s' : never_failed s -> neigh_steps s ops outs s' -> never_failed s'.
Proof.
  intros H0 Hs. induction Hs as [|s op out s1 ops outs s2 Hop _ IH]; [done|]. apply IH. clear IH. unfold never_failed in *.
  assert (Htr : forall t v, n_probes v = 0 /\ n_state v <> XAIOS_NDP_NUD_INCOMPLETE ->
    n_probes (traffic t v) = 0 /\ n_state (traffic t v) <> XAIOS_NDP_NUD_INCOMPLETE).
  { intros t [? [] ? ? ? ?] [? ?]; done. }
  destruct Hop as [m t a v Hv|m t a Hv|m t a|m t a x v Hv|m t a x Hv Hz|m t a x k v Hv Hz Hk Hmin|m t now]; simpl in *; try done.
  - apply map_Forall_insert_2; [|done]. apply Htr, (H0 _ _ Hv).
  - intros j w Hw. destruct (decide (addr a = j)) as [<-|Hj].
    + rewrite lookup_alter_eq in Hw. destruct (m !! addr a) as [v|] eqn:Hv; [|done]. injection Hw as <-. apply Htr, (H0 _ _ Hv).
    + rewrite lookup_alter_ne in Hw by done. by apply (H0 j).
  - by apply map_Forall_insert_2.
  - by apply map_Forall_insert_2.
  - apply map_Forall_insert_2; [done|]. intros j w [_ Hw]%lookup_delete_Some. by apply (H0 j).
  - intros j w Hw. rewrite lookup_omap in Hw. destruct (m !! j) as [v|] eqn:Hv; [|done]. simpl in Hw.
    destruct (H0 _ _ Hv) as [Hp Hst]. unfold elapse in Hw. rewrite Hp in Hw. change (3 <=? 0) with false in Hw. rewrite andb_false_r in Hw.
    destruct (n_state v) eqn:Hsv; try done; repeat case_if; simplify_eq/=; try done; split; congruence.
Qed.

Lemma never_incomplete ops n outs : Forall op_ok ops -> ndp_steps ndp0 ops = Some (n, outs) -> never_failed (contents n).
Proof.
  intros Hops. destruct ndp0_ok as [Hn Hc]. assert (H0 : never_failed (contents ndp0)) by (rewrite Hc; apply map_Forall_empty).
  clear Hc. revert Hn H0 outs. generalize ndp0 as n0.
  induction Hops as [|op ops Hop Hops IH]; intros n0 Hn H0 outs Hrun; [by injection Hrun as <- _|]. simpl in Hrun.
  destruct (ndp_step_refines n0 Hn op Hop) as (n1 & out & H1 & Hn1 & Hs). rewrite H1 in Hrun. simpl in Hrun.
  destruct (ndp_steps n1 ops) as [[n2 outs2]|] eqn:H2; [|done]. injection Hrun as <- _.
  eapply IH; [exact Hn1| |exact H2]. eapply probes_never_fail; [exact H0|]. econstructor; [exact Hs|constructor].
Qed.

(** The structure that the caller of [ndp_dad_init] ticks never shows a duplicate. *)
Lemma dad_never_detects n f a n' dad : ndp_dad_init n f a = Some (n', dad) -> forall m t, (ndp_dad_tick m dad t).2 <> -1.
Proof.
  intros H m t. assert (Hd : duplicate_found dad = 0).
  { unfold ndp_dad_init in H. repeat match type of H with ?e ≫= _ = _ => destruct e; [|done]; simpl in H end. by injection H as _ <-. }
  unfold ndp_dad_tick. rewrite Hd. repeat case_if; simpl; done.
Qed.

End Ndp.
