(* ===== verification/Dns.v ===== *)
(** * The DNS resolver (kernel/net/dns.c, include/xaios/dns.h)

    Names on the wire, the cache of resolved names, the query frame, and the
    background tick that retransmits the query and reads responses.  A string
    argument is the list of its characters, and [cstr] the memory it occupies
    with its terminator; a [char] array is the list of its bytes.

    The loop over a compressed name follows pointers wherever they lead, so the
    functions that decode names have a number of rounds as an argument and a
    result of their own: [Done] with the value, [Running] when the rounds are
    used up, [Fault] for an access outside of an array or a failed assertion.

    [dns_name_roundtrip] shows that decoding gives back the name that was
    encoded; [dns_calls_safe] that no frame from the network makes the resolver
    leave its arrays, and that only a loop of compression pointers keeps it from
    returning; [dns_query_exact] what the query on the wire is.  The
    lemmas at the end show where the code departs from its description: a name
    that points to itself is decoded for ever, the position behind a name is
    wrong so that an ordinary response is not understood, and cached addresses
    never expire for [dns_resolve]. *)

From S2P Require Import Prelude Wire Ipv4.

Module Dns.
Import Wire Ipv4.

Definition DNS_BUFFER_SIZE : Z := 512.
Definition DNS_MAX_HOSTNAME : Z := 64.
Definition DNS_RETRANSMIT_NS : Z := 5000000000.
Definition DNS_EPHEMERAL_PORT : Z := 0xC001.
Definition DNS_GATEWAY_MAC : list Z := [0x02; 0; 0; 0; 0; 0x15].
Definition XAIOS_DNS_PORT : Z := 53.
Definition XAIOS_DNS_MAX_NAME : Z := 256.
Definition XAIOS_DNS_CACHE_SIZE : Z := 16.
Definition XAIOS_DNS_TYPE_A : Z := 1.
Definition XAIOS_DNS_CLASS_IN : Z := 1.

(** ** Computations that may run for ever *)

Inductive run (A : Type) : Type := Done (a : A) | Running | Fault.
Arguments Done {A} a.
Arguments Running {A}.
Arguments Fault {A}.

#[global] Instance run_bind : MBind run := fun A B f m =>
  match m with Done a => f a | Running => Running | Fault => Fault end.

#[global] Instance run_ret : MRet run := fun A a => Done a.

(** An access that may be out of bounds, as a step of such a computation. *)
Definition lift {A} (m : option A) : run A := match m with Some a => Done a | None => Fault end.

(** ** State *)

Record dns_cache_entry := mk_dns_entry { valid : Z; e_hostname : list Z; e_ip : Z; expiry_ns : Z }.

#[global] Instance dns_cache_entry_inhabited : Inhabited dns_cache_entry := populate (mk_dns_entry 0 [] 0 0).

Record dns_pending := mk_pending {
  p_active : Z; p_id : Z; p_hostname : list Z; p_sent_ns : Z; p_retransmits : Z; p_frame : list Z; p_frame_len : Z }.

Record dns := mk_dns { g_dns_server_ip : Z; g_next_dns_id : Z; g_cache : list dns_cache_entry; g_pending : dns_pending }.

Definition set_cache (d : dns) (c : list dns_cache_entry) : dns := mk_dns (g_dns_server_ip d) (g_next_dns_id d) c (g_pending d).
Definition set_pending (d : dns) (p : dns_pending) : dns := mk_dns (g_dns_server_ip d) (g_next_dns_id d) (g_cache d) p.

Definition inactive (p : dns_pending) : dns_pending :=
  mk_pending 0 (p_id p) (p_hostname p) (p_sent_ns p) (p_retransmits p) (p_frame p) (p_frame_len p).

(** The static variables at start-up. *)
Definition dns0 : dns :=
  mk_dns 0x08080808 1 (replicate 16 (mk_dns_entry 0 (replicate 64 0) 0 0)) (mk_pending 0 0 (replicate 64 0) 0 0 (replicate 512 0) 0).

(** ** Strings *)

Definition cstr (s : list Z) : list Z := s ++ [0].

Definition str_len (s : list Z) : Z := zlen s.

Fixpoint str_n_cmp (n : nat) (i : Z) (a b : list Z) : option Z :=
  match n with
  | O => Some 0
  | S n' =>
      x ← rd a i;
      y ← rd b i;
      if negb (x =? y) then Some (x - y) else
      if x =? 0 then Some 0 else str_n_cmp n' (i + 1) a b
  end.

(** [for (i = 0; i + 1U < max && src[i] != '\0'; ++i) dst[i] = src[i]; dst[i] = '\0';]
    with [n = max - 1 - i] rounds left. *)
Fixpoint cpy_loop (n : nat) (i : Z) (dst src : list Z) : option (list Z) :=
  match n with
  | O => wr dst i 0
  | S n' =>
      x ← rd src i;
      if x =? 0 then wr dst i 0 else
      d ← wr dst i x;
      cpy_loop n' (i + 1) d src
  end.

Definition str_cpy (dst src : list Z) (max : Z) : option (list Z) := cpy_loop (Z.to_nat (max - 1)) 0 dst src.

Definition dns_configure (d : dns) (server_ip : Z) : dns := mk_dns server_ip (g_next_dns_id d) (g_cache d) (g_pending d).

(** ** Names on the wire *)

Definition dot : Z := 46.

(** The inner loop: copy characters up to a dot or the end.  [inl] is [return 0]
    with the buffer as it is then. *)
Fixpoint encode_label (name buf : list Z) (wi buf_size : Z) : option (list Z + list Z * list Z * Z) :=
  match name with
  | c :: rest =>
      if c =? dot then Some (inr (name, buf, wi)) else
      if buf_size <=? wi then Some (inl buf) else
      b ← wr buf wi c;
      encode_label rest b (wi + 1) buf_size
  | [] => Some (inr (name, buf, wi))
  end.

(** The outer loop.  Every round takes at least one character of the name. *)
Fixpoint encode_labels (fuel : nat) (name buf : list Z) (wi buf_size : Z) : option (Z * list Z) :=
  match fuel with
  | O => None
  | S fuel' =>
      match name with
      | [] =>
          if buf_size <=? wi then Some (0, buf) else
          b ← wr buf wi 0;
          Some (wi + 1, b)
      | _ :: _ =>
          if buf_size <=? wi then Some (0, buf) else
          b ← wr buf wi 0;
          r ← encode_label name b (wi + 1) buf_size;
          match r with
          | inl b => Some (0, b)
          | inr (rest, b, wi1) =>
              let label_len := wi1 - wi - 1 in
              if 63 <? label_len then Some (0, b) else
              b ← wr b wi label_len;
              let rest := match rest with c :: t => if c =? dot then t else rest | [] => [] end in
              encode_labels fuel' rest b wi1 buf_size
          end
      end
  end.

Definition dns_encode_name (buf : list Z) (buf_size : Z) (name : list Z) : option (Z * list Z) :=
  encode_labels (S (length name)) name buf 0 buf_size.

(** [(int)x] of a 32-bit word. *)
Definition to_int (x : Z) : Z := if x <? 2147483648 then x else x - 4294967296.

Record decode_state := mk_decode { d_oi : Z; d_pos : Z; d_jumped : bool; d_out : list Z }.

(** The characters of one label; [false] is [return -1]. *)
Fixpoint decode_label (n : nat) (i : Z) (msg : list Z) (pos : Z) (out : list Z) (oi out_size : Z) : option (bool * list Z * Z) :=
  match n with
  | O => Some (true, out, oi)
  | S n' =>
      if out_size <=? oi then Some (false, out, oi) else
      c ← rd msg (pos + 1 + i);
      o ← wr out oi c;
      decode_label n' (i + 1) msg pos o (oi + 1) out_size
  end.

(** One round of the loop: the next state, or the value returned with the
    output array. *)
Definition decode_step (msg : list Z) (msg_len out_size : Z) (s : decode_state) : option (decode_state + Z * list Z) :=
  let pos := d_pos s in
  let out := d_out s in
  let oi := d_oi s in
  if msg_len <=? pos then Some (inr (-1, out)) else
  len ← rd msg pos;
  if len =? 0 then
    let pos := if d_jumped s then pos else u32 (pos + 1) in
    out ← (if out_size <=? oi then wr out (out_size - 1) 0 else wr out oi 0);
    Some (inr (if d_jumped s then to_int pos else to_int (u32 (pos + 1)), out))
  else
  if Z.land len 0xC0 =? 0xC0 then
    if msg_len <=? u32 (pos + 1) then Some (inr (-1, out)) else
    l ← rd msg (u32 (pos + 1));
    Some (inl (mk_decode oi (u16 (Z.lor (Z.shiftl (Z.land len 0x3F) 8) l)) true out))
  else
  if msg_len <? u32 (pos + 1 + len) then Some (inr (-1, out)) else
  if (0 <? oi) && (out_size <=? oi) then Some (inr (-1, out)) else
  '(out, oi) ← (if 0 <? oi then o ← wr out oi dot; Some (o, oi + 1) else Some (out, oi));
  '(ok, out, oi) ← decode_label (Z.to_nat len) 0 msg pos out oi out_size;
  Some (if ok : bool then inl (mk_decode oi (u32 (pos + 1 + len)) (d_jumped s) out) else inr (-1, out)).

Fixpoint decode_run (fuel : nat) (msg : list Z) (msg_len out_size : Z) (s : decode_state) : run (Z * list Z) :=
  match fuel with
  | O => Running
  | S fuel' =>
      match decode_step msg msg_len out_size s with
      | None => Fault
      | Some (inr r) => Done r
      | Some (inl s') => decode_run fuel' msg msg_len out_size s'
      end
  end.

Definition dns_decode_name (fuel : nat) (msg : list Z) (msg_len offset : Z) (out : list Z) (out_size : Z) : run (Z * list Z) :=
  decode_run fuel msg msg_len out_size (mk_decode 0 offset false out).

(** ** The cache *)

Fixpoint cache_scan (c : list dns_cache_entry) (hostname : list Z) (now_ns : Z) : option (option Z) :=
  match c with
  | [] => Some None
  | e :: c' =>
      if valid e =? 0 then cache_scan c' hostname now_ns else
      r ← str_n_cmp (Z.to_nat DNS_MAX_HOSTNAME) 0 (e_hostname e) hostname;
      if (r =? 0) && (now_ns <? expiry_ns e) then Some (Some (e_ip e)) else cache_scan c' hostname now_ns
  end.

(** [None] inside: nothing found ([return 0]). *)
Definition cache_lookup (d : dns) (hostname : list Z) (now_ns : Z) : option (option Z) := cache_scan (g_cache d) hostname now_ns.

Fixpoint oldest (c : list dns_cache_entry) (i oldest_idx oldest_time : Z) : Z :=
  match c with
  | [] => oldest_idx
  | e :: c' =>
      if valid e =? 0 then i else
      if expiry_ns e <? oldest_time then oldest c' (i + 1) i (expiry_ns e) else oldest c' (i + 1) oldest_idx oldest_time
  end.

Definition cache_insert (d : dns) (hostname : list Z) (ip ttl_secs now_ns : Z) : option dns :=
  let i := oldest (g_cache d) 0 0 now_ns in
  h ← str_cpy (e_hostname ((g_cache d).[i])) hostname DNS_MAX_HOSTNAME;
  Some (set_cache d ((g_cache d).[i <- mk_dns_entry 1 h ip (u64 (now_ns + u64 (ttl_secs * 1000000000)))])).

(** ** Queries *)

Section Device.
Context `{NetDevice E}.

(** [g_dns_server_ip] with its bytes in the opposite order. *)
Definition dst_ip_be (server : Z) : Z :=
  Z.lor (Z.lor (Z.lor (Z.shiftl (Z.land server 0xFF) 24) (Z.shiftl (Z.land (Z.shiftr server 8) 0xFF) 16))
           (Z.shiftl (Z.land (Z.shiftr server 16) 0xFF) 8)) (Z.land (Z.shiftr server 24) 0xFF).

(** The header of a query with one question, behind the UDP header. *)
Definition question_header (b : list Z) (id : Z) : option (list Z) :=
  b ← put_be16 b 42 id;
  b ← put_be16 b 44 0x0100;
  b ← put_be16 b 46 1;
  b ← put_be16 b 48 0;
  b ← put_be16 b 50 0;
  put_be16 b 52 0.

Definition udp_header (b : list Z) (udp_len : Z) : option (list Z) :=
  b ← put_be16 b 34 DNS_EPHEMERAL_PORT;
  b ← put_be16 b 36 XAIOS_DNS_PORT;
  b ← put_be16 b 38 udp_len;
  put_be16 b 40 0.

(** The Ethernet header and the header of the query. *)
Definition query_front (buf local_mac : list Z) (id : Z) : option (list Z) :=
  b ← put_macs buf DNS_GATEWAY_MAC local_mac;
  b ← put_be16 b 12 0x0800;
  question_header b id.

(** The query in the array [buf] and its length; [None] inside when the name
    cannot be encoded. *)
Definition build_query (buf local_mac : list Z) (id server : Z) (hostname : list Z) : option (option (list Z * Z)) :=
  b ← query_front buf local_mac id;
  '(enc_len, t) ← dns_encode_name (at_ptr b 54) (DNS_BUFFER_SIZE - 54) hostname;
  let b := take (Z.to_nat 54) b ++ t in
  if enc_len =? 0 then Some None else
  let wi := 54 + enc_len in
  b ← put_be16 b wi XAIOS_DNS_TYPE_A;
  b ← put_be16 b (wi + 2) XAIOS_DNS_CLASS_IN;
  let wi := wi + 4 in
  b ← udp_header b (u16 (wi - 34));
  b ← through b 14 (fun h => ipv4_build_header h (u16 (wi - 14)) XAIOS_IPV4_PROTO_UDP XAIOS_IPV4_GUEST_IP (dst_ip_be server));
  Some (Some (b, wi)).

(** [buf] is the uninitialised array, [out] whether [out_ip] is not NULL; the
    last component is the address written to it. *)
Definition dns_resolve (d : dns) (e : E) (buf : list Z) (hostname : option (list Z)) (out : bool) : option (dns * E * xaios_status * option Z) :=
  match hostname with
  | Some h =>
      if negb out then Some (d, e, XAIOS_ERR_INVALID, None) else
      c ← cache_lookup d (cstr h) 0;
      match c with
      | Some ip => Some (d, e, XAIOS_OK, Some ip)
      | None =>
          let nlen := str_len h in
          if (nlen =? 0) || (DNS_MAX_HOSTNAME <=? nlen) then Some (d, e, XAIOS_ERR_INVALID, None) else
          let id := g_next_dns_id d in
          let d := mk_dns (g_dns_server_ip d) (u16 (id + 1)) (g_cache d) (g_pending d) in
          let local_mac := default [0x02; 0; 0; 0; 0; 0x01] (net_mac e) in
          q ← build_query buf local_mac id (g_dns_server_ip d) h;
          match q with
          | None => Some (d, e, XAIOS_ERR_INVALID, None)
          | Some (b, wi) =>
              name ← str_cpy (p_hostname (g_pending d)) (cstr h) DNS_MAX_HOSTNAME;
              frame ← bytes_copy (p_frame (g_pending d)) b wi;
              let d := set_pending d (mk_pending 1 id name 0 0 frame (u16 wi)) in
              '(e, _) ← virtio_net_tx e b wi;
              Some (d, e, XAIOS_OK, None)
          end
      end
  | None => Some (d, e, XAIOS_ERR_INVALID, None)
  end.

(** ** Responses *)

(** The loop over [n] answers; [tmp] is the scratch array. *)
Fixpoint answers (n fuel : nat) (d : dns) (payload : list Z) (len pos : Z) (tmp : list Z) (now_ns : Z) : run dns :=
  match n with
  | O => Done d
  | S n' =>
      if len <=? pos then Done d else
      '(res, tmp) ← dns_decode_name fuel payload len pos tmp XAIOS_DNS_MAX_NAME;
      if res <? 0 then Done d else
      let pos := res in
      if len <? u32 (pos + 10) then Done d else
      rtype ← lift (get_be16 payload pos);
      rclass ← lift (get_be16 payload (pos + 2));
      ttl ← lift (get_be32 payload (pos + 4));
      rdlength ← lift (get_be16 payload (pos + 8));
      let pos := pos + 10 in
      if len <? u32 (pos + rdlength) then Done d else
      if (rtype =? XAIOS_DNS_TYPE_A) && (rclass =? XAIOS_DNS_CLASS_IN) && (rdlength =? 4) then
        ip ← lift (get_be32 payload pos);
        d ← lift (cache_insert d (p_hostname (g_pending d)) ip ttl now_ns);
        Done (set_pending d (inactive (g_pending d)))
      else answers n' fuel d payload len (u32 (pos + rdlength)) tmp now_ns
  end.

Definition process_dns_response (fuel : nat) (d : dns) (payload : list Z) (len : Z) (tmp : list Z) (now_ns : Z) : run dns :=
  if len <? 12 then Done d else
  rcv_id ← lift (get_be16 payload 0);
  if negb (rcv_id =? p_id (g_pending d)) then Done d else
  flags ← lift (get_be16 payload 2);
  if Z.land flags 0x8000 =? 0 then Done d else
  let rcode := u8 (Z.land flags 0x0F) in
  if negb (rcode =? 0) then Done (set_pending d (inactive (g_pending d))) else
  ancount ← lift (get_be16 payload 6);
  if ancount =? 0 then Done d else
  '(res, tmp) ← dns_decode_name fuel payload len 12 tmp XAIOS_DNS_MAX_NAME;
  if res <? 0 then Done d else
  answers (Z.to_nat ancount) fuel d payload len (u32 (res + 4)) tmp now_ns.

(** The frame in [rx_buf] of length [rlen]. *)
Definition dns_receive (fuel : nat) (d : dns) (rx_buf : list Z) (rlen : Z) (tmp : list Z) (now_ns : Z) : run dns :=
  if rlen <? 42 then Done d else
  ethertype ← lift (get_be16 rx_buf 12);
  if negb (ethertype =? 0x0800) then Done d else
  protocol ← lift (rd rx_buf 23);
  if negb (protocol =? XAIOS_IPV4_PROTO_UDP) then Done d else
  dst_port ← lift (get_be16 rx_buf 36);
  if negb (dst_port =? DNS_EPHEMERAL_PORT) then Done d else
  b14 ← lift (rd rx_buf 14);
  let dns_off := 14 + Z.land b14 0x0F * 4 + 8 in
  if rlen <? dns_off then Done d else
  process_dns_response fuel d (at_ptr rx_buf dns_off) (rlen - dns_off) tmp now_ns.

(** The bytes of [rx_buf] behind the received frame are not read: the array is
    the frame. *)
Definition dns_tick (fuel : nat) (d : dns) (e : E) (tmp : list Z) (now_ns : Z) : run (dns * E) :=
  let p := g_pending d in
  if p_active p =? 0 then Done (d, e) else
  if p_sent_ns p =? 0 then
    Done (set_pending d (mk_pending (p_active p) (p_id p) (p_hostname p) now_ns (p_retransmits p) (p_frame p) (p_frame_len p)), e)
  else
  '(d, e) ← (if (p_retransmits p <? 1) && (p_sent_ns p <? now_ns) && (DNS_RETRANSMIT_NS <=? now_ns - p_sent_ns p) then
               '(e, _) ← lift (virtio_net_tx e (p_frame p) (p_frame_len p));
               Done (set_pending d (mk_pending (p_active p) (p_id p) (p_hostname p) now_ns 1 (p_frame p) (p_frame_len p)), e)
             else Done (d, e));
  let '(e, rx_buf) := net_poll e DNS_BUFFER_SIZE in
  d ← (if 0 <? zlen rx_buf then dns_receive fuel d rx_buf (zlen rx_buf) tmp now_ns else Done d);
  Done (d, e).

End Device.

(** ** Boot test *)

Definition test_name (fuel : nat) (enc dec name : list Z) : run (list Z) :=
  '(elen, enc) ← lift (dns_encode_name enc 64 name);
  _ ← lift (check (0 <? elen));
  '(dlen, dec) ← dns_decode_name fuel enc elen 0 dec 64;
  _ ← lift (check (0 <? dlen));
  r ← lift (str_n_cmp 64 0 dec (cstr name));
  _ ← lift (check (r =? 0));
  Done enc.

Definition test_cache (d : dns) : option dns :=
  let now := 1000000 in
  r ← cache_lookup d (cstr (chars "nonexistent")) now;
  _ ← check (bool_decide (r = None));
  d ← cache_insert d (cstr (chars "test.example.com")) 0x08080808 60 now;
  r ← cache_lookup d (cstr (chars "test.example.com")) now;
  _ ← check (bool_decide (r = Some 0x08080808));
  r ← cache_lookup d (cstr (chars "test.example.com")) (now + 61000000000);
  _ ← check (bool_decide (r = None));
  r ← cache_lookup d (cstr (chars "other")) now;
  _ ← check (bool_decide (r = None));
  d ← cache_insert d (cstr (chars "other.example.com")) 0x01020304 60 now;
  r ← cache_lookup d (cstr (chars "other.example.com")) now;
  _ ← check (bool_decide (r = Some 0x01020304));
  Some d.

(** The arrays are uninitialised. *)
Definition dns_self_test (fuel : nat) (d : dns) (enc dec comp dec2 : list Z) : run dns :=
  '(elen, enc) ← lift (dns_encode_name enc 64 (chars "www.google.com"));
  _ ← lift (check (elen =? 16));
  let expected := [3] ++ chars "www" ++ [6] ++ chars "goo" ++ [6] ++ chars "gle" ++ [3] ++ chars "com" in
  _ ← lift (check (enc.[15] =? 0));
  _ ← lift (check (forallb (fun i => enc.[i] =? expected.[i]) (seqZ 0 15)));
  '(elen, enc) ← lift (dns_encode_name enc 64 []);
  _ ← lift (check ((elen =? 1) && (enc.[0] =? 0)));
  enc ← test_name fuel enc dec (chars "www.google.com");
  enc ← test_name fuel enc dec (chars "example.org");
  enc ← test_name fuel enc dec (chars "a.b.c.d.e");
  enc ← test_name fuel enc dec [];
  '(elen, comp) ← lift (dns_encode_name comp 64 (chars "google.com"));
  _ ← lift (check (0 <? elen));
  let ptr_off := elen in
  '(elen, t) ← lift (dns_encode_name (at_ptr comp ptr_off) (64 - ptr_off) (chars "www"));
  let comp := take (Z.to_nat ptr_off) comp ++ t in
  _ ← lift (check (0 <? elen));
  let ptr_off := ptr_off + elen in
  comp ← lift (wr comp ptr_off 0xC0);
  comp ← lift (wr comp (ptr_off + 1) 0);
  comp ← lift (wr comp (ptr_off + 2) 0);
  let ptr_off := ptr_off + 3 in
  '(dlen, dec2) ← dns_decode_name fuel comp ptr_off elen dec2 64;
  _ ← lift (check (0 <? dlen));
  r ← lift (str_n_cmp 64 0 dec2 (cstr (chars "www.google.com")));
  _ ← lift (check (r =? 0));
  lift (test_cache d).

(** ** Names, as labels *)

Definition nul_free (s : list Z) : Prop := Forall (fun c => c <> 0) s.

(** A label: between 1 and 63 characters, none of them a dot. *)
Definition label_ok (l : list Z) : Prop := 0 < zlen l <= 63 /\ Forall (fun c => byte c /\ c <> dot) l /\ nul_free l.

#[global] Instance label_ok_dec l : Decision (label_ok l).
Proof. unfold label_ok, nul_free, byte. apply _. Defined.

(** The labels with dots between them. *)
Fixpoint join (ls : list (list Z)) : list Z :=
  match ls with
  | [] => []
  | [l] => l
  | l :: r => l ++ dot :: join r
  end.

(** The labels on the wire: each behind its length, and a zero at the end. *)
Definition wire (ls : list (list Z)) : list Z := concat ((fun l => zlen l :: l) <$> ls) ++ [0].

(** The output of decoding further labels behind [cur]. *)
Fixpoint extend (cur : list Z) (ls : list (list Z)) : list Z :=
  match ls with
  | [] => cur
  | l :: r => extend ((if 0 <? zlen cur then cur ++ [dot] else cur) ++ l) r
  end.

#[local] Arguments u8 : simpl never.

Lemma wire_cons l r : wire (l :: r) = (zlen l :: l) ++ wire r.
Proof. unfold wire. simpl. by rewrite <- app_assoc. Qed.

Lemma join_cons l r : exists t, join (l :: r) = l ++ t /\ ((t = [] /\ r = []) \/ t = dot :: join r).
Proof. destruct r as [|l' r]; [exists []; rewrite app_nil_r; auto|]. eexists. split; [done|auto]. Qed.

(** ** Encoding *)

Lemma encode_label_ok l : forall p q r size,
  Forall (fun c => byte c /\ c <> dot) l -> r = [] \/ head r = Some dot -> zlen p + zlen l <= size -> size <= zlen (p ++ q) ->
  encode_label (l ++ r) (p ++ q) (zlen p) size = Some (inr (r, p ++ l ++ drop (length l) q, zlen p + zlen l)).
Proof.
  induction l as [|c l IH]; intros p q r size Hl Hr Hs Hb; simpl.
  { rewrite Z.add_0_r. destruct r as [|x r]; [done|]. destruct Hr as [|[= ->]]; [done|]. done. }
  apply Forall_cons in Hl as [[Hc Hd] Hl]. rewrite (proj2 (Z.eqb_neq c dot)) by done. 
  rewrite (proj2 (Z.leb_gt size (zlen p))) by len_lia. destruct q as [|x q]; [len_lia|].
  rewrite wr_mid by done. bind_step. rewrite u8_byte by done.
  assert (Hz : zlen (p ++ [c]) = zlen p + 1) by (rewrite zlen_app; done).
  change (c :: q) with ([c] ++ q). rewrite app_assoc, <- Hz, IH; [| done| done| len_lia|].
  - rewrite <- app_assoc, zlen_cons, Hz. simpl. do 3 f_equal. lia.
  - len_lia.
Qed.

Lemma encode_labels_ok ls : forall fuel p q size,
  Forall label_ok ls -> (length (join ls) < fuel)%nat -> zlen p + zlen (wire ls) <= size -> size <= zlen (p ++ q) ->
  encode_labels fuel (join ls) (p ++ q) (zlen p) size = Some (zlen p + zlen (wire ls), p ++ wire ls ++ drop (length (wire ls)) q).
Proof.
  induction ls as [|l ls IH]; intros [|fuel] p q size Hl Hf Hs Hb; try lia.
  { change (zlen (wire [])) with 1 in *. destruct q as [|x q]; [len_lia|].
    simpl. rewrite (proj2 (Z.leb_gt size (zlen p))) by lia. by rewrite wr_mid. }
  apply Forall_cons in Hl as [(Hz & Hd & _) Hl]. destruct (join_cons l ls) as (t & Hj & Ht). rewrite wire_cons in *.
  destruct q as [|x q]; [len_lia|]. rewrite Hj in *. destruct l as [|c l]; [len_lia|].
  cbn [encode_labels app]. rewrite (proj2 (Z.leb_gt size (zlen p))) by len_lia. rewrite wr_mid by done. bind_step.
  change (c :: l ++ t) with ((c :: l) ++ t). set (l1 := c :: l) in *. change (p ++ u8 0 :: q) with (p ++ [0] ++ q).
  assert (Hp : zlen (p ++ [0]) = zlen p + 1) by len_lia.
  rewrite app_assoc, <- Hp, encode_label_ok; [|done|destruct Ht as [[-> _]| ->]; auto|len_lia|len_lia]. bind_step. cbv iota beta.
  replace (zlen (p ++ [0]) + zlen l1 - zlen p - 1) with (zlen l1) by lia. rewrite (proj2 (Z.ltb_ge 63 (zlen l1))) by lia.
  rewrite <- app_assoc. cbn [app]. rewrite wr_mid by done. bind_step. rewrite u8_byte by (unfold byte; len_lia).
  set (rest := match t with [] => [] | _ => _ end). assert (Hr : rest = join ls) by (unfold rest; by destruct Ht as [[-> ->]| ->]).
  rewrite Hr. change (p ++ zlen l1 :: l1 ++ drop (length l1) q) with (p ++ [zlen l1] ++ l1 ++ drop (length l1) q).
  rewrite !app_assoc. replace (zlen (p ++ [0]) + zlen l1) with (zlen ((p ++ [zlen l1]) ++ l1)) by len_lia.
  rewrite IH; [|done| |len_lia|].
  - subst l1. rewrite <- !app_assoc. cbn [app length drop]. rewrite drop_drop, length_app. cbn [app plus].
    f_equal. f_equal. len_lia.
  - rewrite length_app in Hf. assert (length l1 <> 0)%nat by (unfold l1; simpl; lia). destruct Ht as [[-> ->]| ->]; simpl in *; lia.
  - assert (Hlq : zlen l1 <= zlen q) by len_lia.
    assert (Hq : zlen (drop (length l1) q) = zlen q - zlen l1) by (unfold zlen in *; rewrite length_drop; lia). len_lia.
Qed.

(** ** Decoding *)

Lemma short_label n : 0 <= n < 64 -> Z.land n 0xC0 = 0.
Proof.
  intros Hn. assert (Hall : forallb (fun n => Z.land n 0xC0 =? 0) (seqZ 0 64) = true) by reflexivity.
  rewrite forallb_forall in Hall. apply Z.eqb_eq, Hall. apply list_elem_of_In, elem_of_seqZ. lia.
Qed.

Lemma decode_label_ok cs : forall a b w o i pos size,
  bytes cs -> zlen a = pos + 1 + i -> zlen w + zlen cs <= size -> size <= zlen (w ++ o) ->
  exists o', decode_label (length cs) i (a ++ cs ++ b) pos (w ++ o) (zlen w) size = Some (true, (w ++ cs) ++ o', zlen (w ++ cs)) /\
    zlen ((w ++ cs) ++ o') = zlen (w ++ o).
Proof.
  induction cs as [|c cs IH]; intros a b w o i pos size Hc Ha Hs Hb; simpl.
  { exists o. by rewrite app_nil_r. }
  apply Forall_cons in Hc as [Hc Hcs]. rewrite (proj2 (Z.leb_gt size (zlen w))) by len_lia. rewrite rd_mid by lia. bind_step.
  destruct o as [|x o]; [len_lia|]. rewrite wr_mid by done. bind_step. rewrite u8_byte by done.
  destruct (IH (a ++ [c]) b (w ++ [c]) o (i + 1) pos size) as (o' & He & Hz); [done|len_lia|len_lia|len_lia|].
  rewrite <- !app_assoc in He. cbn [app] in He. replace (zlen (w ++ [c])) with (zlen w + 1) in He by len_lia.
  exists o'. rewrite He. rewrite <- !app_assoc in *. cbn [app] in *. split; [done|len_lia].
Qed.

Lemma extend_zlen ls : forall w, zlen w <= zlen (extend w ls).
Proof. induction ls as [|l ls IH]; intros w; simpl; [lia|]. etransitivity; [|apply IH]. destruct (0 <? zlen w); len_lia. Qed.

(** The dot in front of every label but the first. *)
Definition dotted (w : list Z) : list Z := if 0 <? zlen w then w ++ [dot] else w.

Lemma dotted_ok w o size : zlen (dotted w) <= size -> size <= zlen (w ++ o) ->
  exists o1, (if 0 <? zlen w then o' ← wr (w ++ o) (zlen w) dot; Some (o', zlen w + 1) else Some (w ++ o, zlen w))
    = Some (dotted w ++ o1, zlen (dotted w)) /\ zlen (dotted w ++ o1) = zlen (w ++ o).
Proof.
  unfold dotted. intros Hw Hb. destruct (0 <? zlen w); [|by exists o]. destruct o as [|x o]; [len_lia|]. exists o.
  rewrite wr_mid by done. bind_step. rewrite <- app_assoc. split; [do 2 f_equal; len_lia|len_lia].
Qed.

Lemma decode_labels_ok ls : forall fuel a b w o len size,
  Forall label_ok ls -> (length ls < fuel)%nat -> zlen a + zlen (wire ls) <= len -> len < 2147483647 ->
  zlen (extend w ls) < size -> size <= zlen (w ++ o) ->
  exists o', decode_run fuel (a ++ wire ls ++ b) len size (mk_decode (zlen w) (zlen a) false (w ++ o))
    = Done (zlen a + zlen (wire ls) + 1, cstr (extend w ls) ++ o').
Proof.
  induction ls as [|l ls IH]; intros [|fuel] a b w o len size Hl Hf Hlen Hmax Hs Hb; try (simpl in Hf; lia).
  { change (zlen (wire [])) with 1 in *. change (wire [] ++ b) with (0 :: b). simpl in Hs. cbn [decode_run]. unfold decode_step. cbn [d_pos d_oi d_out d_jumped].
    rewrite (proj2 (Z.leb_gt len (zlen a))), (rd_mid a b (zlen a) 0 eq_refl) by lia. bind_step. cbn [Z.eqb].
    rewrite (proj2 (Z.leb_gt size (zlen w))) by lia. destruct o as [|x o]; [len_lia|]. rewrite wr_mid by done. bind_step. cbn [d_jumped].
    exists o. unfold to_int, u32. pose proof (zlen_nonneg a). rewrite (Z.mod_small (zlen a + 1)), (Z.mod_small (zlen a + 1 + 1)) by lia. rewrite (proj2 (Z.ltb_lt _ _)) by lia.
    change (u8 0) with 0. unfold cstr. by rewrite <- app_assoc, <- Z.add_assoc. }
  apply Forall_cons in Hl as [(Hz & Hd & _) Hl]. rewrite wire_cons in *. cbn [decode_run]. unfold decode_step. cbn [d_pos d_oi d_out d_jumped].
  rewrite (proj2 (Z.leb_gt len (zlen a))) by len_lia. cbn [app].
  rewrite (rd_mid a _ (zlen a) (zlen l) eq_refl). bind_step.
  rewrite (proj2 (Z.eqb_neq (zlen l) 0)) by lia. rewrite short_label by lia. cbn [Z.eqb Pos.eqb].
  unfold u32. rewrite (Z.mod_small (zlen a + 1 + zlen l)) by len_lia. rewrite (proj2 (Z.ltb_ge len _)) by len_lia.
  change (extend w (l :: ls)) with (extend (dotted w ++ l) ls) in *. pose proof (extend_zlen ls (dotted w ++ l)) as Hx.
  destruct (dotted_ok w o size) as (o1 & Hw & Ho1); [len_lia|done|].
  replace ((0 <? zlen w) && (size <=? zlen w)) with false by (symmetry; apply andb_false_iff; unfold dotted in *; destruct (0 <? zlen w); [right; apply Z.leb_gt; len_lia|by left]).
  rewrite Hw. bind_step. cbv iota beta. replace (Z.to_nat (zlen l)) with (length l) by zlia.
  destruct (decode_label_ok l (a ++ [zlen l]) (wire ls ++ b) (dotted w) o1 0 (zlen a) size) as (o2 & Hdl & Ho2);
    [eapply Forall_impl; [exact Hd|tauto]|len_lia|len_lia|lia|].
  rewrite <- !app_assoc in *. cbn [app] in *. rewrite Hdl. bind_step. cbv iota beta.
  destruct (IH fuel (a ++ zlen l :: l) b (dotted w ++ l) o2 len size) as (o' & He); [done|simpl in Hf; lia|len_lia|done|done|len_lia|].
  exists o'. rewrite <- !app_assoc in He. cbn [app] in He.
  replace (zlen a + 1 + zlen l) with (zlen (a ++ zlen l :: l)) by len_lia. rewrite He. do 2 f_equal. len_lia.
Qed.

Lemma extend_join ls : forall w, Forall label_ok ls -> 0 < zlen w -> extend w ls = match ls with [] => w | _ => w ++ dot :: join ls end.
Proof.
  induction ls as [|l ls IH]; intros w Hl Hw; [done|]. apply Forall_cons in Hl as [[Hz _] Hl]. cbn [extend].
  rewrite (proj2 (Z.ltb_lt 0 (zlen w))) by lia. rewrite IH by (done || len_lia). destruct ls; rewrite <- ?app_assoc; done.
Qed.

Lemma extend_nil ls : Forall label_ok ls -> extend [] ls = join ls.
Proof.
  destruct ls as [|l ls]; [done|]. intros [[Hz _] Hl]%Forall_cons. cbn [extend app]. change (0 <? zlen []) with false. cbv iota.
  cbn [app]. rewrite extend_join by (done || lia). by destruct ls.
Qed.

Lemma zlen_wire ls : ls <> [] -> zlen (wire ls) = zlen (join ls) + 2.
Proof.
  induction ls as [|l ls IH]; [done|]. intros _. rewrite wire_cons. destruct ls as [|l' ls]; [simpl; change (wire []) with [0]; len_lia|].
  change (join (l :: l' :: ls)) with (l ++ dot :: join (l' :: ls)). specialize (IH ltac:(done)). len_lia.
Qed.

(** C23: A name made of labels of 1 to 63 characters is encoded whenever the
    buffer has room, to two bytes more than it has characters (one byte for the
    empty name), and decoding the encoding, at any place in a message, gives back
    the name, terminated, after one round per label. *)
Theorem dns_name_roundtrip (ls : list (list Z)) (buf out a b : list Z) (size out_size : Z)
  (Hl : Forall label_ok ls) (Hs : zlen (join ls) + 2 <= size <= zlen buf) (Ho : zlen (join ls) < out_size <= zlen out)
  (Hmax : zlen a + size + zlen b < 2147483647) :
  exists enc rest, dns_encode_name buf size (join ls) = Some (zlen enc, enc ++ rest) /\
    zlen enc = zlen (join ls) + (if decide (ls = []) then 1 else 2) /\
    exists pos out', 0 < pos /\
      dns_decode_name (S (length ls)) (a ++ enc ++ b) (zlen (a ++ enc ++ b)) (zlen a) out out_size = Done (pos, cstr (join ls) ++ out').
Proof.
  assert (Hw : zlen (wire ls) = zlen (join ls) + (if decide (ls = []) then 1 else 2)).
  { case_decide as E; [by subst|by apply zlen_wire]. }
  assert (Hw2 : zlen (wire ls) <= zlen (join ls) + 2) by (rewrite Hw; case_decide; lia).
  pose proof (encode_labels_ok ls (S (length (join ls))) [] buf size Hl) as He.
  destruct (decode_labels_ok ls (S (length ls)) a b [] out (zlen (a ++ wire ls ++ b)) out_size) as (o' & Hd);
    [done|lia|pose proof (zlen_nonneg b); len_lia|len_lia|rewrite extend_nil by done; lia|cbn [app]; lia|].
  rewrite extend_nil in Hd by done. exists (wire ls), (drop (length (wire ls)) buf). split; [apply He; [lia|change (zlen []) with 0; lia|cbn [app]; lia]|].
  split; [done|]. eexists _, o'. split; [|exact Hd]. pose proof (zlen_nonneg a). pose proof (zlen_nonneg (wire ls)). lia.
Qed.

Lemma dns_name_roundtrip_witness :
  exists enc rest, dns_encode_name (replicate 64 7) 64 (chars "a.b.c.d.e") = Some (zlen enc, enc ++ rest) /\ zlen enc = 11 /\
    exists pos out', 0 < pos /\
      dns_decode_name 6 ([9; 9] ++ enc ++ [8]) (zlen ([9; 9] ++ enc ++ [8])) 2 (replicate 64 9) 64 = Done (pos, cstr (chars "a.b.c.d.e") ++ out').
Proof.
  apply (dns_name_roundtrip [chars "a"; chars "b"; chars "c"; chars "d"; chars "e"] (replicate 64 7) (replicate 64 9) [9; 9] [8] 64 64).
  - apply (bool_decide_unpack _). vm_compute. exact I.
  - vm_compute. split; congruence.
  - vm_compute. split; congruence.
  - vm_compute. reflexivity.
Defined.

(** ** Safety *)

(** The computation never leaves its arrays, its result satisfies [P], and it
    ends within its rounds if [ends]. *)
Definition safe {A} (ends : bool) (P : A -> Prop) (m : run A) : Prop :=
  match m with Done a => P a | Running => ends = false | Fault => False end.

Lemma safe_bind {A B} ends (P : A -> Prop) (Q : B -> Prop) m f : safe ends P m -> (forall a, P a -> safe ends Q (f a)) -> safe ends Q (m ≫= f).
Proof. destruct m; simpl; auto. Qed.

(** A string that can be read for [n] more characters, or ends before. *)
Definition readable (n : nat) (i : Z) (s : list Z) : Prop := i + Z.of_nat n <= zlen s \/ exists k, i <= k < zlen s /\ s.[k] = 0.

Lemma readable_step n i s : 0 <= i -> readable (S n) i s -> i < zlen s /\ (s.[i] <> 0 -> readable n (i + 1) s).
Proof.
  intros Hi [H|(k & Hk & H0)]; (split; [lia|]); intros Hs; [left; lia|]. right. exists k. split; [|done].
  destruct (decide (k = i)) as [->|]; [done|lia].
Qed.

Lemma readable_cstr n h : readable n 0 (cstr h).
Proof.
  right. exists (zlen h). pose proof (zlen_nonneg h). split; [unfold cstr; len_lia|]. unfold cstr.
  rewrite lookup_total_app_r by zlia. by replace (Z.to_nat (zlen h) - length h)%nat with 0%nat by zlia.
Qed.

Lemma str_n_cmp_safe n : forall i a b, 0 <= i -> readable n i a -> readable n i b -> exists r, str_n_cmp n i a b = Some r.
Proof.
  induction n as [|n IH]; intros i a b Hi Ha Hb; simpl; [eauto|].
  apply readable_step in Ha as [Ha1 Ha]; [|done]. apply readable_step in Hb as [Hb1 Hb]; [|done].
  rewrite !rd_ok by lia. bind_step. case_if; [eauto|]. case_if; [eauto|]. apply IH; [lia|apply Ha|apply Hb]; lia.
Qed.

Lemma cpy_loop_safe n : forall i dst src, 0 <= i -> i + Z.of_nat n < zlen dst -> readable n i src ->
  exists d, cpy_loop n i dst src = Some d /\ zlen d = zlen dst.
Proof.
  induction n as [|n IH]; intros i dst src Hi Hd Hs; cbn [cpy_loop].
  { rewrite wr_ok by lia. eexists. split; [done|apply zlen_set]. }
  apply readable_step in Hs as [Hs1 Hs]; [|done]. rewrite rd_ok by lia. bind_step. rewrite !wr_ok by lia. case_if.
  { eexists. split; [done|apply zlen_set]. }
  bind_step. destruct (IH (i + 1) (dst.[i <- u8 (src.[i])]) src) as (d & -> & Hz); [lia|rewrite zlen_set; lia|apply Hs; lia|].
  exists d. by rewrite Hz, zlen_set.
Qed.

Lemma str_cpy_safe dst src : zlen dst = 64 -> readable 63 0 src -> exists d, str_cpy dst src DNS_MAX_HOSTNAME = Some d /\ zlen d = 64.
Proof. intros Hd Hs. destruct (cpy_loop_safe 63 0 dst src) as (d & He & Hz); [lia|lia|done|]. exists d. split; [exact He|lia]. Qed.

Lemma decode_label_safe n : forall i msg pos out oi size,
  0 <= i -> 0 <= pos -> pos + 1 + i + Z.of_nat n <= zlen msg -> 0 <= oi <= size -> size <= zlen out ->
  exists ok out' oi', decode_label n i msg pos out oi size = Some (ok, out', oi') /\ zlen out' = zlen out /\ 0 <= oi' <= size.
Proof.
  induction n as [|n IH]; intros i msg pos out oi size Hi Hp Hm Ho Hz; cbn [decode_label]; [eauto 10|].
  case_if; [eauto 10|]. rewrite rd_ok by lia. bind_step. rewrite wr_ok by lia. bind_step.
  destruct (IH (i + 1) msg pos (out.[oi <- u8 (msg.[pos + 1 + i])]) (oi + 1) size) as (ok & out' & oi' & -> & Hz' & Ho');
    [lia|lia|lia|lia|rewrite zlen_set; lia|]. rewrite zlen_set in Hz'. eauto 10.
Qed.

Lemma decode_label_count n : forall i msg pos out oi size out' oi',
  decode_label n i msg pos out oi size = Some (true, out', oi') -> oi' = oi + Z.of_nat n.
Proof.
  induction n as [|n IH]; intros i msg pos out oi size out' oi' H; cbn [decode_label] in H; [simplify_eq; lia|].
  destruct (size <=? oi); [done|]. destruct (rd _ _) in H; [|done]. simpl in H. destruct (wr _ _ _) in H; [|done]. simpl in H.
  apply IH in H. lia.
Qed.

(** *** Compression pointers *)

Section Pointers.
Context (msg : list Z) (len : Z).

(** At [p] the message has a pointer to [q]. *)
Definition points (p q : Z) : Prop :=
  0 <= p /\ p + 1 < len /\ Z.land (msg.[p]) 0xC0 = 0xC0 /\ q = u16 (Z.lor (Z.shiftl (Z.land (msg.[p]) 0x3F) 8) (msg.[p + 1])).

(** No pointers lead from a place back to it. *)
Definition loop_free : Prop := forall p, ~ tc points p p.

(** At most [h] pointers lead on from a place. *)
Inductive settles : nat -> Z -> Prop :=
| SettleStop h p : (forall q, ~ points p q) -> settles h p
| SettleHop h p q : points p q -> settles h q -> settles (S h) p.

(** The places of successive pointers. *)
Inductive trail : Z -> list Z -> Prop :=
| TrailNil p : trail p []
| TrailCons p q l : points p q -> trail q l -> trail p (p :: l).

Lemma points_dec p : (exists q, points p q) \/ (forall q, ~ points p q).
Proof.
  destruct (decide (0 <= p /\ p + 1 < len /\ Z.land (msg.[p]) 0xC0 = 0xC0)) as [(H1 & H2 & H3)|Hn]; [left; eexists; by repeat split|].
  right. intros q (H1 & H2 & H3 & _). by apply Hn.
Qed.

Lemma points_det p q q' : points p q -> points p q' -> q = q'.
Proof. intros (_ & _ & _ & ->) (_ & _ & _ & ->). done. Qed.

Lemma settles_or_trail n : forall p, settles n p \/ exists l, trail p l /\ length l = S n.
Proof.
  induction n as [|n IH]; intros p; destruct (points_dec p) as [[q Hq]|Hn]; try (left; by apply SettleStop).
  - right. exists [p]. split; [by apply (TrailCons p q); [|apply TrailNil]|done].
  - destruct (IH q) as [Hs|(l & Hl & Hlen)]; [left; by apply (SettleHop n p q)|].
    right. exists (p :: l). split; [by apply (TrailCons p q)|simpl; lia].
Qed.

Lemma trail_reaches p l x : trail p l -> x ∈ l -> rtc points p x /\ 0 <= x < len.
Proof.
  induction 1 as [p|p q l Hq Hl IH]; [by intros ?%not_elem_of_nil|]. intros [->|Hx]%elem_of_cons.
  - split; [apply rtc_refl|]. destruct Hq as (? & ? & _). lia.
  - destruct (IH Hx) as [Hr Hb]. split; [by eapply rtc_l|done].
Qed.

Lemma trail_distinct p l : loop_free -> trail p l -> NoDup l.
Proof.
  intros Hf. induction 1 as [p|p q l Hq Hl IH]; constructor; [|done]. intros Hp.
  apply (Hf p). eapply tc_rtc_r; [by apply tc_once|]. by apply (trail_reaches q l).
Qed.

(** Without a loop there are no more successive pointers than bytes. *)
Lemma loop_free_settles p : 0 <= len -> loop_free -> settles (Z.to_nat len) p.
Proof.
  intros Hlen Hf. destruct (settles_or_trail (Z.to_nat len) p) as [|(l & Hl & Hz)]; [done|].
  assert (Hs : l ⊆ seqZ 0 len) by (intros x Hx; apply elem_of_seqZ; pose proof (trail_reaches p l x Hl Hx); lia).
  apply NoDup_submseteq, submseteq_length in Hs; [|by eapply trail_distinct]. rewrite length_seqZ in Hs. lia.
Qed.

End Pointers.

Section Decode.
Context (msg : list Z) (len size : Z) (Hmsg : bytes msg) (Hlen : 0 <= len <= zlen msg) (Hmax : len < 2147483646) (Hsize : 0 < size).

Definition decode_inv (n : Z) (s : decode_state) : Prop :=
  0 <= d_oi s <= size /\ 0 <= d_pos s < 4294967296 /\ size <= zlen (d_out s) /\ zlen (d_out s) = n.

(** What decoding returns: -1, or a position that is at most one behind the message. *)
Definition decoded (n : Z) (r : Z * list Z) : Prop := -1 <= r.1 <= len + 1 /\ zlen r.2 = n.

Lemma decode_step_safe n s : decode_inv n s ->
  exists r, decode_step msg len size s = Some r /\ match r with inl s' => decode_inv n s' | inr v => decoded n v end.
Proof.
  intros (Ho & Hp & Hz & Hn). unfold decode_step.
  destruct (Z.leb_spec len (d_pos s)); [eexists; split; [done|split; simpl; lia]|].
  rewrite (rd_ok msg (d_pos s)) by lia. bind_step. pose proof (bytes_get msg (d_pos s) Hmsg) as Hb. set (l := msg.[d_pos s]) in *. unfold byte in Hb.
  destruct (l =? 0).
  { unfold u32, to_int. destruct (Z.leb_spec size (d_oi s)); rewrite wr_ok by lia; bind_step; (eexists; split; [reflexivity|]);
      (split; [|simpl; rewrite zlen_set; lia]); simpl; destruct (d_jumped s); case_if; dlia. }
  case_if.
  { destruct (Z.leb_spec len (u32 (d_pos s + 1))); [eexists; split; [done|split; simpl; lia]|].
    rewrite rd_ok by (unfold u32 in *; dlia). bind_step. eexists. split; [done|]. split_and!; simpl; try lia; unfold u16; dlia. }
  destruct (Z.ltb_spec len (u32 (d_pos s + 1 + l))); [eexists; split; [done|split; simpl; lia]|].
  destruct ((0 <? d_oi s) && (size <=? d_oi s)) eqn:Hfull; [eexists; split; [done|split; simpl; lia]|].
  assert (Hsep : exists o oi, (if 0 <? d_oi s then o ← wr (d_out s) (d_oi s) dot; Some (o, d_oi s + 1) else Some (d_out s, d_oi s)) = Some (o, oi) /\
    0 <= oi <= size /\ zlen o = n).
  { destruct (Z.ltb_spec 0 (d_oi s)); [|eexists _, _; split; [done|lia]]. simpl in Hfull. apply Z.leb_gt in Hfull. rewrite wr_ok by lia.
    eexists _, _. split; [done|]. rewrite zlen_set. lia. }
  destruct Hsep as (o & oi & -> & Hoi & Hzo). bind_step. cbv iota beta.
  destruct (decode_label_safe (Z.to_nat l) 0 msg (d_pos s) o oi size) as (ok & out' & oi' & -> & Hz' & Ho'); [lia|lia|unfold u32 in *; dlia|lia|lia|].
  bind_step. cbv iota beta. eexists. split; [done|]. destruct ok; split_and!; simpl; try lia; unfold u32; dlia.
Qed.

(** A round that goes on follows a pointer, or adds a label to the output. *)
Lemma decode_step_progress n s s' : decode_inv n s -> decode_step msg len size s = Some (inl s') ->
  (points msg len (d_pos s) (d_pos s') /\ d_oi s' = d_oi s) \/ d_oi s < d_oi s'.
Proof.
  intros (Ho & Hp & Hz & Hn) He. unfold decode_step in He. destruct (Z.leb_spec len (d_pos s)); [done|].
  rewrite (rd_ok msg (d_pos s)) in He by lia. cbn [mbind option_bind] in He. pose proof (bytes_get msg (d_pos s) Hmsg) as Hb.
  set (l := msg.[d_pos s]) in *. unfold byte in Hb. destruct (Z.eqb_spec l 0).
  { destruct (if size <=? d_oi s then _ else _) in He; simplify_eq/=. }
  destruct (Z.eqb_spec (Z.land l 0xC0) 0xC0) as [Hl|_].
  { unfold u32 in He. rewrite (Z.mod_small (d_pos s + 1)) in He by lia. destruct (Z.leb_spec len (d_pos s + 1)); [done|].
    rewrite rd_ok in He by lia. simplify_eq/=. left. split; [|done]. unfold points. fold l. split_and!; (done || lia). }
  right. destruct (Z.ltb_spec len (u32 (d_pos s + 1 + l))); [done|]. case_if; [done|].
  destruct (if 0 <? d_oi s then _ else _) as [[o oi]|] eqn:Hsep in He; [|done]. simpl in He.
  assert (Hoi : d_oi s <= oi).
  { destruct (0 <? d_oi s) in Hsep; [|simplify_eq; lia]. destruct (wr _ _ _) in Hsep; simplify_eq/=. lia. }
  destruct (decode_label _ _ _ _ _ _ _) as [[[[|] out'] oi']|] eqn:Hd in He; simplify_eq/=.
  apply decode_label_count in Hd. lia.
Qed.

(** Decoding stays in bounds; without a loop of pointers it ends, since the
    output takes at most [size] labels and there are at most [len] pointers
    between two of them. *)
Lemma decode_run_safe ends n fuel : forall s, decode_inv n s ->
  (ends = true -> loop_free msg len /\ exists h, settles msg len h (d_pos s) /\ (size - d_oi s) * (len + 2) + Z.of_nat h < Z.of_nat fuel) ->
  safe ends (decoded n) (decode_run fuel msg len size s).
Proof.
  induction fuel as [|fuel IH]; intros s Hs He; cbn [decode_run].
  { destruct ends; [|done]. destruct (He eq_refl) as (_ & h & _ & Hf). destruct Hs as (Ho & _). nia. }
  destruct (decode_step_safe n s Hs) as ([s'|r] & Hst & H); rewrite Hst; [|done]. apply IH; [done|]. intros Ht.
  destruct (He Ht) as (Hlf & h & Hh & Hf). split; [done|].
  destruct (decode_step_progress n s s' Hs Hst) as [[Hp Ho]|Ho].
  - destruct Hh as [h p Hno|h p q Hq Hh]; [by destruct (Hno _ Hp)|]. exists h.
    rewrite (points_det _ _ _ _ _ Hp Hq), Ho. split; [done|lia].
  - exists (Z.to_nat len). split; [by apply loop_free_settles; [lia|]|]. nia.
Qed.

Lemma dns_decode_safe ends fuel offset out : 0 <= offset < 4294967296 -> size <= zlen out ->
  (ends = true -> loop_free msg len /\ size * (len + 2) + len < Z.of_nat fuel) ->
  safe ends (decoded (zlen out)) (dns_decode_name fuel msg len offset out size).
Proof.
  intros Ho Hz He. apply decode_run_safe; [repeat split; simpl; lia|]. intros Ht. destruct (He Ht). split; [done|].
  exists (Z.to_nat len). simpl. split; [by apply loop_free_settles; [lia|]|lia].
Qed.

End Decode.

(** The arrays of the resolver have the sizes they are declared with. *)
Record dns_ok (d : dns) : Prop := {
  ok_cache : length (g_cache d) = 16%nat;
  ok_names : Forall (fun e => zlen (e_hostname e) = 64) (g_cache d);
  ok_host : zlen (p_hostname (g_pending d)) = 64;
  ok_frame : zlen (p_frame (g_pending d)) = 512;
  ok_frame_len : 0 <= p_frame_len (g_pending d) <= 512 }.

Lemma cache_scan_safe c h now : Forall (fun e => zlen (e_hostname e) = 64) c -> readable 64 0 h -> exists r, cache_scan c h now = Some r.
Proof.
  intros Hc Hh. induction Hc as [|e c He Hc IH]; cbn [cache_scan]; [eauto|]. case_if; [done|].
  destruct (str_n_cmp_safe 64 0 (e_hostname e) h) as [r Hr]; [lia|left; lia|done|].
  change (Z.to_nat DNS_MAX_HOSTNAME) with 64%nat. rewrite Hr. bind_step. case_if; eauto.
Qed.

Lemma oldest_bound c : forall i idx t, 0 <= idx < i + Z.of_nat (length c) -> 0 <= i -> 0 <= oldest c i idx t < i + Z.of_nat (length c).
Proof. induction c as [|e c IH]; intros i idx t Hx Hi; simpl in *; [lia|]. case_if; [lia|]. case_if; specialize (IH (i + 1)); [specialize (IH i (expiry_ns e))|specialize (IH idx t)]; lia. Qed.

Lemma cache_insert_safe d h ip ttl now : dns_ok d -> readable 63 0 h ->
  exists d', cache_insert d h ip ttl now = Some d' /\ dns_ok d' /\ g_pending d' = g_pending d.
Proof.
  intros [Hc Hn Hh Hf Hl] Hr. unfold cache_insert. pose proof (oldest_bound (g_cache d) 0 0 now) as Hb. rewrite Hc in Hb.
  set (i := oldest _ _ _ _) in *. destruct (str_cpy_safe (e_hostname ((g_cache d).[i])) h) as (t & -> & Hz); [|done|].
  { rewrite Forall_forall in Hn. apply Hn, list_elem_of_lookup_total_2. lia. }
  bind_step. eexists. split; [done|]. split; [|done]. split; simpl; try done; [by rewrite length_insert|by apply Forall_insert].
Qed.

Lemma inactive_ok d : dns_ok d -> dns_ok (set_pending d (inactive (g_pending d))).
Proof. by intros [? ? ? ? ?]. Qed.

Lemma be16_safe ends p i : bytes p -> 0 <= i -> i + 2 <= zlen p -> safe ends (fun v => 0 <= v < 65536) (lift (get_be16 p i)).
Proof.
  intros Hp Hi Hl. destruct (get_be16 p i) as [v|] eqn:Hv; simpl; [by eapply get_be16_bound|].
  unfold get_be16 in Hv. by rewrite !rd_ok in Hv by lia.
Qed.

Lemma be32_safe ends p i : 0 <= i -> i + 4 <= zlen p -> safe ends (fun _ => True) (lift (get_be32 p i)).
Proof. intros Hi Hl. unfold get_be32. by rewrite !rd_ok by lia. Qed.

Lemma rd_safe ends p i : bytes p -> 0 <= i < zlen p -> safe ends byte (lift (rd p i)).
Proof. intros Hp Hi. rewrite rd_ok by lia. simpl. auto with xaios. Qed.

(** Pass a read at the head of a computation. *)
Ltac safe_read x H :=
  eapply safe_bind; [first [apply be16_safe|apply be32_safe|apply rd_safe]; (done || lia)|]; cbv beta; intros x H.

Lemma answers_safe ends n fuel : forall d payload len pos tmp now,
  dns_ok d -> bytes payload -> 0 <= len <= zlen payload -> len < 2147483646 -> 0 <= pos < 4294967296 -> zlen tmp = 256 ->
  (ends = true -> loop_free payload len /\ XAIOS_DNS_MAX_NAME * (len + 2) + len < Z.of_nat fuel) ->
  safe ends dns_ok (answers n fuel d payload len pos tmp now).
Proof.
  induction n as [|n IH]; intros d payload len pos tmp now Hd Hp Hl Hm Hpos Ht He; cbn [answers]; [done|]. case_if; [done|].
  eapply safe_bind; [apply (dns_decode_safe payload len XAIOS_DNS_MAX_NAME Hp); (done || unfold XAIOS_DNS_MAX_NAME; lia)|].
  intros [res tmp'] [Hres Htmp]. simpl in Hres, Htmp.
  destruct (Z.ltb_spec res 0); [done|]. unfold u32. rewrite (Z.mod_small (res + 10)) by lia. destruct (Z.ltb_spec len (res + 10)); [done|].
  safe_read rtype H1. safe_read rclass H2. safe_read ttl H3. safe_read rdlength H4.
  rewrite (Z.mod_small (res + 10 + rdlength)) by lia. destruct (Z.ltb_spec len (res + 10 + rdlength)); [done|].
  destruct (_ && (rdlength =? 4)) eqn:Hty.
  - apply andb_true_iff in Hty as [_ Hty%Z.eqb_eq]. safe_read ip H9.
    destruct (cache_insert_safe d (p_hostname (g_pending d)) ip ttl now) as (d' & -> & Hd' & _); [done|left; rewrite (ok_host d Hd); lia|].
    simpl. by apply inactive_ok.
  - apply IH; (done || lia).
Qed.

Lemma process_safe ends fuel d payload len tmp now :
  dns_ok d -> bytes payload -> 0 <= len <= zlen payload -> len < 2147483646 -> zlen tmp = 256 ->
  (ends = true -> loop_free payload len /\ XAIOS_DNS_MAX_NAME * (len + 2) + len < Z.of_nat fuel) ->
  safe ends dns_ok (process_dns_response fuel d payload len tmp now).
Proof.
  intros Hd Hp Hl Hm Ht He. unfold process_dns_response. destruct (Z.ltb_spec len 12); [done|].
  safe_read rcv_id H1. case_if; [done|]. safe_read flags H2. case_if; [done|]. case_if; [by apply inactive_ok|].
  safe_read ancount H3. case_if; [done|].
  eapply safe_bind; [apply (dns_decode_safe payload len XAIOS_DNS_MAX_NAME Hp); (done || unfold XAIOS_DNS_MAX_NAME; lia)|].
  intros [res tmp'] [Hres Htmp]. simpl in Hres, Htmp. case_if; [done|].
  apply answers_safe; try done; [unfold u32; dlia|lia].
Qed.

(** The bytes that a received frame offers as a DNS message have no loop of
    compression pointers. *)
Definition loop_free_frame (rx : list Z) : Prop :=
  let dns_off := 14 + Z.land (rx.[14]) 0x0F * 4 + 8 in loop_free (at_ptr rx dns_off) (zlen rx - dns_off).

(** Rounds that are enough for a name in a message of up to 512 bytes: at most
    256 labels, with at most 512 pointers before each. *)
Definition DECODE_ROUNDS : Z := 132096.

Lemma receive_safe ends fuel d rx tmp now : dns_ok d -> bytes rx -> zlen rx <= 512 -> zlen tmp = 256 ->
  (ends = true -> loop_free_frame rx /\ DECODE_ROUNDS < Z.of_nat fuel) ->
  safe ends dns_ok (dns_receive fuel d rx (zlen rx) tmp now).
Proof.
  intros Hd Hr Hz Ht He. unfold dns_receive. destruct (Z.ltb_spec (zlen rx) 42); [done|].
  safe_read ety H1. case_if; [done|]. safe_read proto H2. case_if; [done|]. safe_read port H3. case_if; [done|].
  rewrite (rd_ok rx 14) by lia. cbn [lift mbind run_bind]. pose proof (bytes_get rx 14 Hr) as H4. unfold loop_free_frame in He. set (b14 := rx.[14]) in *. unfold byte in H4.
  assert (Hi : 0 <= Z.land b14 0x0F) by (apply Z.land_nonneg; lia).
  destruct (Z.ltb_spec (zlen rx) (14 + Z.land b14 15 * 4 + 8)); [done|].
  apply process_safe; [done|auto with xaios|rewrite zlen_at_ptr; lia|lia|done|].
  intros Htr. destruct (He Htr). split; [done|]. unfold XAIOS_DNS_MAX_NAME, DECODE_ROUNDS in *. lia.
Qed.

(** ** Strings in arrays *)

Lemma cpy_loop_ok h : forall n p q t, nul_free h -> bytes h -> zlen q = zlen p -> (length h <= n)%nat -> (length h < length t)%nat ->
  cpy_loop n (zlen p) (q ++ t) (p ++ cstr h) = Some (q ++ cstr h ++ drop (S (length h)) t).
Proof.
  unfold cstr. induction h as [|c h IH]; intros n p q t Hn Hb Hq Hl Ht; (destruct t as [|x t]; [simpl in Ht; lia|]).
  { destruct n; cbn [cpy_loop app]; [by rewrite wr_mid|]. rewrite rd_mid by done. bind_step. rewrite Z.eqb_refl. by rewrite wr_mid. }
  apply Forall_cons in Hn as [Hc Hn], Hb as [Hbc Hb]. destruct n as [|n]; [simpl in Hl; lia|]. cbn [cpy_loop app]. rewrite rd_mid by done. bind_step.
  rewrite (proj2 (Z.eqb_neq c 0)) by done. rewrite wr_mid by done. bind_step. rewrite u8_byte by done.
  specialize (IH n (p ++ [c]) (q ++ [c]) t Hn Hb). rewrite <- !app_assoc in IH. simpl in Hl, Ht.
  replace (zlen (p ++ [c])) with (zlen p + 1) in IH by len_lia.
  cbn [length drop]. rewrite <- app_assoc. apply IH; [len_lia|lia|lia].
Qed.

Lemma str_cpy_ok dst h : zlen dst = 64 -> nul_free h -> bytes h -> zlen h < 64 ->
  str_cpy dst (cstr h) DNS_MAX_HOSTNAME = Some (cstr h ++ drop (S (length h)) dst).
Proof. intros Hd Hn Hb Hz. apply (cpy_loop_ok h 63 [] [] dst); (done || zlia). Qed.

Lemma str_n_cmp_exact h : forall n p k t, nul_free h -> nul_free k -> (length h < n)%nat ->
  exists r, str_n_cmp n (zlen p) (p ++ cstr h ++ t) (p ++ cstr k) = Some r /\ (r = 0 <-> h = k).
Proof.
  unfold cstr. induction h as [|c h IH]; intros [|n] p k t Hh Hk Hl; try (simpl in Hl; lia); cbn [str_n_cmp app]; rewrite rd_mid by done; bind_step.
  - destruct k as [|x k]; cbn [app]; rewrite rd_mid by done; bind_step; [by exists 0|]. apply Forall_cons in Hk as [Hx _].
    destruct (Z.eqb_spec 0 x); [congruence|]. cbn [negb]. eexists. split; [done|]. split; [lia|done].
  - apply Forall_cons in Hh as [Hc Hh]. destruct k as [|x k]; cbn [app]; rewrite rd_mid by done; bind_step.
    + destruct (Z.eqb_spec c 0); [done|]. cbn [negb]. eexists. split; [done|]. split; [lia|done].
    + apply Forall_cons in Hk as [Hx Hk]. destruct (Z.eqb_spec c x) as [->|Hne]; cbn [negb].
      2:{ eexists. split; [done|]. split; [lia|congruence]. }
      rewrite (proj2 (Z.eqb_neq x 0)) by done. simpl in Hl.
      destruct (IH n (p ++ [x]) k t Hh Hk) as (r & Hr & Heq); [lia|]. rewrite <- !app_assoc in Hr. simpl in Hr.
      replace (zlen (p ++ [x])) with (zlen p + 1) in Hr by len_lia. exists r. split; [by rewrite <- app_assoc|]. rewrite Heq. split; congruence.
Qed.

Lemma join_forall (P : Z -> Prop) ls : P dot -> Forall (Forall P) ls -> Forall P (join ls).
Proof.
  intros Hd. induction 1 as [|l ls Hl Hls IH]; [constructor|]. destruct (join_cons l ls) as (t & -> & [[-> _]| ->]); [by rewrite app_nil_r|].
  apply Forall_app. split; [done|]. by constructor.
Qed.

Lemma bytes_join ls : Forall label_ok ls -> bytes (join ls).
Proof.
  intros Hl. apply join_forall; [unfold byte, dot; lia|]. eapply Forall_impl; [exact Hl|]. intros l (_ & Hd & _).
  eapply Forall_impl; [exact Hd|]. by intros c [Hc _].
Qed.

Lemma nul_free_join ls : Forall label_ok ls -> nul_free (join ls).
Proof. intros Hl. apply join_forall; [done|]. eapply Forall_impl; [exact Hl|]. by intros l (_ & _ & Hd). Qed.

Lemma bytes_wire ls : Forall label_ok ls -> bytes (wire ls).
Proof.
  induction 1 as [|l ls (Hz & Hd & _) Hls IH]; [apply bytes_cons; [unfold byte; lia|apply bytes_nil]|]. rewrite wire_cons.
  apply bytes_app; [apply bytes_cons; [unfold byte; lia|eapply Forall_impl; [exact Hd|by intros c [Hc _]]]|done].
Qed.

Lemma cache_scan_insert h t e : valid e <> 0 -> str_n_cmp 64 0 (e_hostname e) h = Some 0 -> t < expiry_ns e ->
  forall c i, (i < length c)%nat -> cache_scan c h t = Some None -> cache_scan (<[i:=e]> c) h t = Some (Some (e_ip e)).
Proof.
  intros Hv He Ht. induction c as [|x c IH]; intros i Hi Hs; [simpl in Hi; lia|]. destruct i as [|i]; cbn [insert list_insert cache_scan] in *.
  - rewrite (proj2 (Z.eqb_neq _ _) Hv). change (Z.to_nat DNS_MAX_HOSTNAME) with 64%nat. rewrite He. bind_step.
    by rewrite (proj2 (Z.ltb_lt _ _) Ht).
  - simpl in Hi. destruct (valid x =? 0); [apply IH; [lia|done]|]. destruct (str_n_cmp (Z.to_nat DNS_MAX_HOSTNAME) 0 (e_hostname x) h) as [r|]; [|done]. cbn [mbind option_bind] in *.
    destruct ((r =? 0) && (t <? expiry_ns x)); [done|]. apply IH; [lia|done].
Qed.

(** A cached address is found under its name until it expires, unless the cache
    already had an answer for the name. *)
Lemma cache_insert_found d h ip ttl now t d' :
  dns_ok d -> nul_free h -> bytes h -> zlen h < 64 -> 0 <= now -> 0 <= ttl -> now + ttl * 1000000000 < 18446744073709551616 ->
  cache_insert d (cstr h) ip ttl now = Some d' -> cache_lookup d (cstr h) t = Some None -> t < now + ttl * 1000000000 ->
  cache_lookup d' (cstr h) t = Some (Some ip).
Proof.
  intros Hd Hn Hb Hz Hnow Httl Hov Hi Hm Ht. unfold cache_insert in Hi. set (i := oldest _ _ _ _) in *.
  pose proof (oldest_bound (g_cache d) 0 0 now) as Hib. fold i in Hib. rewrite (ok_cache d Hd) in Hib.
  rewrite str_cpy_ok in Hi; [|pose proof (ok_names d Hd) as Hs; rewrite Forall_forall in Hs; apply Hs, list_elem_of_lookup_total_2; rewrite (ok_cache d Hd); lia|done..].
  injection Hi as <-. unfold cache_lookup, set_cache in *. cbn [g_cache].
  apply (cache_scan_insert (cstr h) t (mk_dns_entry 1 _ ip _)); try done.
  - destruct (str_n_cmp_exact h 64 [] h (drop (S (length h)) (e_hostname ((g_cache d).[i]))) Hn Hn) as (r & Hr & Heq); [zlia|].
    rewrite (proj2 Heq eq_refl) in Hr. exact Hr.
  - simpl. unfold u64. rewrite (Z.mod_small (ttl * 1000000000)), Z.mod_small by lia. lia.
  - rewrite (ok_cache d Hd). lia.
Qed.

(** ** Queries *)

Definition question_fields (id : Z) : list Z := [u8 (Z.shiftr id 8); u8 id; 1; 0; 0; 1; 0; 0; 0; 0; 0; 0].

Definition udp_fields (udp_len : Z) : list Z := [0xC0; 0x01; 0; 53; u8 (Z.shiftr udp_len 8); u8 udp_len; 0; 0].

(** The first 54 bytes of a query to [dst] whose name takes [n] bytes. *)
Definition query_head (mac : list Z) (id dst n : Z) : list Z :=
  (DNS_GATEWAY_MAC ++ mac ++ [0x08; 0]) ++
  sealed (u16 (44 + n)) 0 0x4000 XAIOS_IPV4_PROTO_UDP XAIOS_IPV4_GUEST_IP dst ++
  udp_fields (u16 (24 + n)) ++ question_fields id.

Lemma question_header_ok (p t : list Z) id : zlen p = 42 -> 12 <= zlen t ->
  question_header (p ++ t) id = Some (p ++ question_fields id ++ drop 12 t).
Proof.
  intros Hp Ht. explode t 12. unfold question_header.
  behind 42 0. behind 42 2. behind 42 4. behind 42 6. behind 42 8. behind 42 10. done.
Qed.

Lemma udp_header_ok (p t : list Z) n : zlen p = 34 -> 8 <= zlen t -> udp_header (p ++ t) n = Some (p ++ udp_fields n ++ drop 8 t).
Proof.
  intros Hp Ht. explode t 8. unfold udp_header. behind 34 0. behind 34 2. behind 34 4. behind 34 6. done.
Qed.

Lemma bytes_sealed total id fo protocol src dst : bytes (sealed total id fo protocol src dst).
Proof. apply bytes_header. Qed.

Lemma zlen_gateway : zlen DNS_GATEWAY_MAC = 6.
Proof. done. Qed.

Lemma bytes_gateway : bytes DNS_GATEWAY_MAC.
Proof. unfold DNS_GATEWAY_MAC. repeat constructor; unfold byte; lia. Qed.

(** The array as its parts: Ethernet, IPv4 and UDP headers, question header, rest. *)
Lemma query_parts (buf : list Z) : zlen buf = 512 ->
  exists e a u q r, buf = e ++ a ++ u ++ q ++ r /\ zlen e = 14 /\ zlen a = 20 /\ zlen u = 8 /\ zlen q = 12 /\ zlen r = 458 /\ r = drop 54 buf.
Proof.
  intros Hb. exists (take 14 buf), (take 20 (drop 14 buf)), (take 8 (drop 34 buf)), (take 12 (drop 42 buf)), (drop 54 buf).
  assert (Hd : forall i j, take i (drop j buf) ++ drop (j + i) buf = drop j buf) by (intros; by rewrite <- drop_drop, take_drop).
  split; [by rewrite (Hd 12%nat 42%nat : _ ++ drop 54 buf = _), (Hd 8%nat 34%nat : _ ++ drop 42 buf = _), (Hd 20%nat 14%nat : _ ++ drop 34 buf = _), take_drop|].
  unfold zlen in *. rewrite !length_take, !length_drop. split_and!; (done || lia).
Qed.

Lemma query_front_ok buf mac id : bytes buf -> zlen buf = 512 -> bytes mac -> zlen mac = 6 ->
  exists a u, query_front buf mac id = Some (((DNS_GATEWAY_MAC ++ mac ++ [0x08; 0]) ++ a ++ u ++ question_fields id) ++ drop 54 buf) /\
    zlen a = 20 /\ zlen u = 8 /\ bytes a.
Proof.
  intros Hb Hz Hm Hzm. destruct (query_parts buf Hz) as (e & a & u & q & r & Hbuf & Ee & Ea & Eu & Eq & Er & Hr).
  exists a, u. split_and!; [|done|done|rewrite Hbuf in Hb; unfold bytes in *; rewrite !Forall_app in Hb; tauto].
  unfold query_front. rewrite put_macs_ok by (done || lia || apply bytes_gateway). bind_step. rewrite (take_ge mac) by zlia.
  change (take 6 DNS_GATEWAY_MAC) with DNS_GATEWAY_MAC. pose proof zlen_gateway as Hg.
  assert (Ht : drop 14 buf = a ++ u ++ q ++ r) by (rewrite Hbuf; apply drop_app_length'; zlia).
  rewrite app_assoc, put_be16_mid by (len_lia || (unfold zlen in *; rewrite length_drop; lia)). bind_step.
  rewrite drop_drop. change (12 + 2)%nat with 14%nat. rewrite Ht. change ([u8 (Z.shiftr 0x0800 8); u8 0x0800]) with [0x08; 0].
  rewrite (app_assoc _ [0x08; 0]), <- (app_assoc DNS_GATEWAY_MAC). set (e2 := DNS_GATEWAY_MAC ++ _).
  assert (He2 : zlen e2 = 14) by (unfold e2; len_lia).
  rewrite (app_assoc a), (app_assoc e2), (question_header_ok (e2 ++ a ++ u) (q ++ r)) by len_lia.
  rewrite drop_app_length' by zlia. rewrite Hr. by rewrite <- !app_assoc.
Qed.

Lemma build_query_ok buf mac id server h n (w x r : list Z) :
  bytes buf -> zlen buf = 512 -> bytes mac -> zlen mac = 6 ->
  dns_encode_name (drop 54 buf) 458 h = Some (n, w ++ x ++ r) -> bytes (w ++ x ++ r) -> zlen w = n -> zlen x = 4 -> 0 < n ->
  build_query buf mac id server h = Some (Some (query_head mac id (dst_ip_be server) n ++ w ++ [0; 1; 0; 1] ++ r, 58 + n)).
Proof.
  intros Hb Hz Hm Hzm He Hbt Hw Hx Hn. destruct (query_front_ok buf mac id Hb Hz Hm Hzm) as (a & u & Hf & Ea & Eu & Ba).
  unfold build_query. rewrite Hf. bind_step. pose proof zlen_gateway as Hg.
  set (e2 := DNS_GATEWAY_MAC ++ mac ++ [0x08; 0]) in *. assert (He2 : zlen e2 = 14) by (unfold e2; len_lia).
  set (qf := question_fields id) in *. assert (Hqf : zlen qf = 12) by done. assert (Hp : zlen (e2 ++ a ++ u ++ qf) = 54) by len_lia.
  rewrite at_ptr_app by done. change (DNS_BUFFER_SIZE - 54) with 458. rewrite He. bind_step. cbv iota beta.
  rewrite take_app_length' by zlia. rewrite (proj2 (Z.eqb_neq n 0)) by lia.
  rewrite (app_assoc _ w), put_be16_mid by len_lia. bind_step. explode x 4. destruct x; [|len_lia].
  change (drop 2 ([z; z0; z1; z2] ++ r)) with ([z1; z2] ++ r). rewrite (app_assoc _ [u8 _; _]), put_be16_mid by len_lia. bind_step.
  change (drop 2 ([z1; z2] ++ r)) with r. set (t := [u8 (Z.shiftr XAIOS_DNS_CLASS_IN 8); _] ++ r).
  rewrite <- !app_assoc. rewrite (app_assoc e2), udp_header_ok by len_lia. bind_step. rewrite drop_app_length' by zlia. rewrite <- app_assoc.
  assert (Hwr : bytes w /\ bytes r) by (unfold bytes in *; rewrite !Forall_app in Hbt; tauto).
  erewrite (through_app e2); [|done|apply build_header_ok; [|len_lia]].
  - bind_step. rewrite drop_app_length' by zlia. unfold query_head. fold e2. rewrite <- !app_assoc.
    replace (54 + n + 4 - 14) with (44 + n) by lia. replace (54 + n + 4 - 34) with (24 + n) by lia. replace (54 + n + 4) with (58 + n) by lia. done.
  - unfold t, udp_fields, qf, question_fields. destruct Hwr as (? & ?). solve_bytes.
Qed.

Lemma bytes_store b i v : bytes b -> bytes (b.[i <- u8 v]).
Proof. intros. apply Forall_insert; auto with xaios. Qed.

Lemma encode_label_safe name : forall buf wi size, 0 <= wi -> size <= zlen buf -> bytes buf ->
  exists r, encode_label name buf wi size = Some r /\
    match r with
    | inl b => zlen b = zlen buf /\ bytes b
    | inr (rest, b, wi') => zlen b = zlen buf /\ bytes b /\ wi' - wi = zlen name - zlen rest /\ zlen rest <= zlen name /\
        (rest = [] \/ head rest = Some dot) /\ (wi <= size -> wi' <= size)
    end.
Proof.
  induction name as [|c name IH]; intros buf wi size Hw Hs Hb; cbn [encode_label].
  { eexists. split; [done|]. split_and!; try done; try lia. by left. }
  destruct (Z.eqb_spec c dot) as [->|Hc].
  { eexists. split; [done|]. split_and!; try done; try lia. by right. }
  destruct (Z.leb_spec size wi); [eexists; by split|]. rewrite wr_ok by lia. bind_step.
  destruct (IH (buf.[wi <- u8 c]) (wi + 1) size) as (r & -> & Hr); [lia|by rewrite zlen_set|by apply bytes_store|].
  exists r. split; [done|]. rewrite zlen_set in Hr. rewrite zlen_cons. destruct r as [b|[[rest b] wi']]; [done|].
  destruct Hr as (? & ? & ? & ? & ? & ?). split_and!; try done; try lia. 
Qed.

Lemma encode_labels_safe fuel : forall name buf wi size, (length name < fuel)%nat -> 0 <= wi -> size <= zlen buf -> bytes buf ->
  exists n b, encode_labels fuel name buf wi size = Some (n, b) /\ zlen b = zlen buf /\ bytes b /\
    0 <= n <= wi + zlen name + (if decide (name = []) then 1 else 2).
Proof.
  induction fuel as [|fuel IH]; intros name buf wi size Hf Hw Hs Hb; [lia|]. cbn [encode_labels].
  pose proof (zlen_nonneg name). destruct name as [|c name].
  { destruct (Z.leb_spec size wi); [exists 0, buf; split_and!; (done || (case_decide; lia))|]. rewrite wr_ok by lia. bind_step.
    eexists _, _. split; [done|]. rewrite zlen_set. split_and!; [done|by apply bytes_store|lia|]. rewrite decide_True by done. change (zlen []) with 0. lia. }
  rewrite decide_False by done. destruct (Z.leb_spec size wi); [exists 0, buf; split_and!; (done || lia)|]. rewrite wr_ok by lia. bind_step.
  destruct (encode_label_safe (c :: name) (buf.[wi <- u8 0]) (wi + 1) size) as (r & -> & Hr); [lia|by rewrite zlen_set|by apply bytes_store|].
  bind_step. rewrite zlen_set in Hr. destruct r as [b|[[rest b] wi1]]; [eexists 0, b; split_and!; (done || lia || tauto)|].
  destruct Hr as (Hzb & Hbb & Hwi & Hzr & Hr & Hsz). case_if; [exists 0, b; split_and!; (done || lia)|]. pose proof (zlen_nonneg rest).
  rewrite wr_ok by lia. bind_step.
  set (rest' := match rest with [] => _ | _ => _ end).
  assert (Hrest : zlen rest' + (if decide (rest' = []) then 1 else 2) + wi1 <= wi + zlen (c :: name) + 2 /\ (length rest' < fuel)%nat).
  { unfold rest'. destruct Hr as [->|Hd]; [rewrite decide_True by done; change (zlen []) with 0 in *; simpl in *; split; lia|].
    destruct rest as [|d rest]; [done|]. injection Hd as ->. rewrite Z.eqb_refl. autorewrite with zlen in *. simpl in Hf. case_decide; split; unfold zlen in *; lia. }
  destruct (IH rest' (b.[wi <- u8 (wi1 - wi - 1)]) wi1 size) as (n & b' & -> & Hz' & Hb' & Hn); [lia|lia|rewrite zlen_set; lia|by apply bytes_store|].
  exists n, b'. rewrite zlen_set in Hz'. split_and!; (done || lia).
Qed.

Lemma bytes_query_head mac id dst n : bytes mac -> bytes (query_head mac id dst n).
Proof.
  intros Hm. unfold query_head, udp_fields, question_fields. pose proof bytes_gateway.
  pose proof (bytes_sealed (u16 (44 + n)) 0 0x4000 XAIOS_IPV4_PROTO_UDP XAIOS_IPV4_GUEST_IP dst). solve_bytes.
Qed.

Lemma zlen_query_head mac id dst n : zlen mac = 6 -> zlen (query_head mac id dst n) = 54.
Proof.
  intros Hm. unfold query_head, udp_fields, question_fields. pose proof zlen_gateway.
  assert (zlen (sealed (u16 (44 + n)) 0 0x4000 XAIOS_IPV4_PROTO_UDP XAIOS_IPV4_GUEST_IP dst) = 20) by done. len_lia.
Qed.

Lemma build_query_safe buf mac id server h : bytes buf -> zlen buf = 512 -> bytes mac -> zlen mac = 6 -> 0 < zlen h < 64 ->
  exists q, build_query buf mac id server h = Some q /\ match q with Some (b, wi) => zlen b = 512 /\ 0 <= wi <= 512 /\ bytes b | None => True end.
Proof.
  intros Hb Hz Hm Hzm Hh. assert (Hr : zlen (drop 54 buf) = 458) by (unfold zlen in *; rewrite length_drop; lia).
  destruct (encode_labels_safe (S (length h)) h (drop 54 buf) 0 458) as (n & t & He & Hzt & Hbt & Hn); [lia|lia|lia|auto with xaios|].
  assert (Hn66 : 0 <= n <= 66) by (case_decide; lia). destruct (decide (n = 0)) as [->|Hn0].
  - exists None. split; [|done]. destruct (query_front_ok buf mac id Hb Hz Hm Hzm) as (a & u & Hf & Ea & Eu & _).
    unfold build_query. rewrite Hf. bind_step. pose proof zlen_gateway as Hg.
    rewrite at_ptr_app by (unfold question_fields; len_lia). change (DNS_BUFFER_SIZE - 54) with 458. unfold dns_encode_name. by rewrite He.
  - exists (Some (query_head mac id (dst_ip_be server) n ++ take (Z.to_nat n) t ++ [0; 1; 0; 1] ++ drop (Z.to_nat (n + 4)) t, 58 + n)).
    assert (Ht : t = take (Z.to_nat n) t ++ take 4 (drop (Z.to_nat n) t) ++ drop (Z.to_nat (n + 4)) t).
    { replace (Z.to_nat (n + 4)) with (Z.to_nat n + 4)%nat by lia. by rewrite <- drop_drop, !take_drop. }
    split.
    + apply (build_query_ok _ _ _ _ _ _ _ (take 4 (drop (Z.to_nat n) t))); try done; rewrite <- ?Ht; try done.
      * apply zlen_take. lia.
      * unfold zlen in *. rewrite length_take, length_drop. lia.
      * lia.
    + pose proof (zlen_query_head mac id (dst_ip_be server) n Hzm). assert (zlen (take (Z.to_nat n) t) = n) by (apply zlen_take; lia). assert (zlen (drop (Z.to_nat (n + 4)) t) = zlen t - (n + 4)) by (apply zlen_drop; lia).
      split_and!; [len_lia|lia|lia|].
      apply bytes_app; [by apply bytes_query_head|solve_bytes].
Qed.

Section Frames.
Context `{NetDeviceLaws E}.

(** The states of the device after sending and receiving frames. *)
Definition device_step (e e' : E) : Prop := (exists f, e' = (net_send e f).1) \/ (exists n, e' = (net_poll e n).1).

(** No frame received from now on has a loop of compression pointers. *)
Definition quiet (e : E) : Prop := forall e' n, rtc device_step e e' -> loop_free_frame (net_poll e' n).2.

Lemma quiet_later e e' : quiet e -> rtc device_step e e' -> quiet e'.
Proof. intros Hq Hr e'' n Hr'. apply Hq. by etrans. Qed.

Lemma sent_later e f : rtc device_step e (net_send e f).1.
Proof. apply rtc_once. left. by exists f. Qed.

Lemma polled_later e n : rtc device_step e (net_poll e n).1.
Proof. apply rtc_once. right. by exists n. Qed.

Lemma tick_safe ends fuel d e tmp now : dns_ok d -> zlen tmp = 256 ->
  (ends = true -> quiet e /\ DECODE_ROUNDS < Z.of_nat fuel) ->
  safe ends (fun r => dns_ok r.1 /\ rtc device_step e r.2) (dns_tick fuel d e tmp now).
Proof.
  intros Hd Ht He. unfold dns_tick. case_if; [by split; [|apply rtc_refl]|]. case_if; [split; [by destruct Hd|apply rtc_refl]|].
  eapply (safe_bind _ (fun r => dns_ok r.1 /\ rtc device_step e r.2)).
  - case_if; [|by split; [|apply rtc_refl]]. unfold virtio_net_tx. destruct Hd as [? ? ? ? ?]. rewrite read_bytes_ok by lia. simpl.
    pose proof (sent_later e (take (Z.to_nat (p_frame_len (g_pending d))) (p_frame (g_pending d)))) as Hs. destruct (net_send _ _). by split.
  - intros [d' e'] [Hd' Hr]. simpl in Hd', Hr. pose proof (poll_bytes e' DNS_BUFFER_SIZE) as Hb. pose proof (poll_fits e' DNS_BUFFER_SIZE ltac:(done)) as Hf.
    assert (Hpl : ends = true -> loop_free_frame (net_poll e' DNS_BUFFER_SIZE).2 /\ DECODE_ROUNDS < Z.of_nat fuel)
      by (intros Htr; destruct (He Htr) as [Hq ?]; split; [by apply Hq|done]).
    pose proof (polled_later e' DNS_BUFFER_SIZE) as Hr'.
    destruct (net_poll e' DNS_BUFFER_SIZE) as [e'' rx]. simpl in *.
    eapply (safe_bind _ dns_ok); [|intros; split; [done|by etrans]].
    case_if; [|done]. by apply receive_safe.
Qed.

Lemma local_mac_ok e : bytes (default [0x02; 0; 0; 0; 0; 0x01] (net_mac e)) /\ zlen (default [0x02; 0; 0; 0; 0; 0x01] (net_mac e)) = 6.
Proof. destruct (net_mac e) as [m|] eqn:Hm; [by apply mac_bytes in Hm|]. split; [simpl; solve_bytes|done]. Qed.

Lemma resolve_safe d e buf hostname out : dns_ok d -> bytes buf -> zlen buf = 512 ->
  exists d' e' st o, dns_resolve d e buf hostname out = Some (d', e', st, o) /\ dns_ok d' /\ rtc device_step e e'.
Proof.
  intros Hd Hb Hz. pose proof (rtc_refl device_step e). unfold dns_resolve. destruct hostname as [h|]; [|by eauto 10]. destruct out; cbn [negb]; [|by eauto 10].
  destruct (cache_scan_safe (g_cache d) (cstr h) 0 (ok_names d Hd) (readable_cstr _ h)) as [c Hc]. unfold cache_lookup. rewrite Hc. bind_step.
  destruct c as [ip|]; [by eauto 10|]. unfold str_len, DNS_MAX_HOSTNAME.
  destruct ((zlen h =? 0) || (64 <=? zlen h)) eqn:Hl; [by eauto 10|]. apply orb_false_iff in Hl as [Hl0%Z.eqb_neq Hl%Z.leb_gt].
  destruct (local_mac_ok e) as [Hm Hzm].
  destruct (build_query_safe buf (default [0x02; 0; 0; 0; 0; 0x01] (net_mac e)) (g_next_dns_id d) (g_dns_server_ip d) h) as (q & Hq & Hqs);
    try done; [pose proof (zlen_nonneg h); lia|].
  cbn [g_dns_server_ip]. rewrite Hq. bind_step. destruct q as [[b wi]|]; [|eexists _, _, _, _; split; [done|split; [by destruct Hd|done]]]. destruct Hqs as (Hzb & Hwi & Hbb).
  destruct (str_cpy_safe (p_hostname (g_pending d)) (cstr h) (ok_host d Hd) (readable_cstr _ h)) as (name & Hn & Hzn).
  cbn [g_pending]. unfold DNS_MAX_HOSTNAME in Hn. rewrite Hn. bind_step. pose proof (ok_frame d Hd) as Hf.
  rewrite bytes_copy_ok by (done || lia). bind_step. unfold virtio_net_tx. rewrite read_bytes_ok by lia. cbn [fmap option_fmap option_map].
  pose proof (sent_later e (take (Z.to_nat wi) b)) as Hs.
  destruct (net_send e _) as [e' st']. bind_step. cbv iota beta. eexists _, _, _, _. split; [done|]. split; [|done]. destruct Hd as [? ? ? ? ?]. split; simpl; try done.
  - rewrite zlen_app, zlen_take, zlen_drop by lia. lia.
  - unfold u16. rewrite Z.mod_small by lia. lia.
Qed.

(** The query on the wire for a name with the encoding [enc], sent to the address [dst]. *)
Definition query (mac : list Z) (id dst : Z) (enc : list Z) : list Z :=
  query_head mac id dst (zlen enc) ++ enc ++ [0; 1; 0; 1].

(** Decoding [enc] gives the name [h]. *)
Definition decodes_to (enc h : list Z) : Prop :=
  exists fuel pos t, dns_decode_name fuel enc (zlen enc) 0 (replicate 256 0) XAIOS_DNS_MAX_NAME = Done (pos, cstr h ++ t).

Lemma wire_decodes ls : Forall label_ok ls -> zlen (join ls) < 64 -> decodes_to (wire ls) (join ls).
Proof.
  intros Hl Hz. destruct (decode_labels_ok ls (S (length ls)) [] [] [] (replicate 256 0) (zlen (wire ls)) XAIOS_DNS_MAX_NAME) as (t & Hd);
    [done|lia|change (zlen []) with 0; lia| |rewrite extend_nil by done; unfold XAIOS_DNS_MAX_NAME; lia|done|].
  { destruct (decide (ls = [])) as [->|Hne]; [done|]. rewrite zlen_wire by done. lia. }
  rewrite extend_nil in Hd by done. cbn [app] in Hd. rewrite app_nil_r in Hd. by eexists _, _, _.
Qed.

(** C25: Resolving a name of labels of 1 to 63 characters, shorter than 64
    characters in all and not in the cache, sends exactly one frame, the query
    with the next identifier: Ethernet, an IPv4 header with a valid checksum to
    some address, UDP from the ephemeral port to port 53 and one question, whose
    name decodes to the one asked for; the resolver keeps this frame and the name for the retransmission, and
    the cache as it was. *)
Theorem dns_query_exact (d : dns) (e : E) (buf : list Z) (ls : list (list Z))
  (Hd : dns_ok d) (Hb : bytes buf) (Hz : zlen buf = 512) (Hl : Forall label_ok ls) (Hh : 0 < zlen (join ls) < 64)
  (Hc : cache_lookup d (cstr (join ls)) 0 = Some None) :
  exists dst enc, let frame := query (default [0x02; 0; 0; 0; 0; 0x01] (net_mac e)) (g_next_dns_id d) dst enc in
  decodes_to enc (join ls) /\
  exists d' st o, dns_resolve d e buf (Some (join ls)) true = Some (d', (net_send e frame).1, st, o) /\ dns_ok d' /\
    p_active (g_pending d') = 1 /\ p_id (g_pending d') = g_next_dns_id d /\ g_cache d' = g_cache d /\
    read_bytes (p_frame (g_pending d')) (p_frame_len (g_pending d')) = Some frame /\
    (exists t, p_hostname (g_pending d') = cstr (join ls) ++ t).
Proof.
  exists (dst_ip_be (g_dns_server_ip d)), (wire ls). intros frame. split; [apply wire_decodes; [done|lia]|]. destruct (local_mac_ok e) as [Hm Hzm]. set (mac := default _ _) in *. pose proof (zlen_nonneg (join ls)).
  assert (Hw : zlen (wire ls) = zlen (join ls) + 2) by (apply zlen_wire; intros ->; change (zlen (join [])) with 0 in Hh; lia).
  pose proof (bytes_wire ls Hl) as Hbw. assert (Hr : zlen (drop 54 buf) = 458) by (unfold zlen in *; rewrite length_drop; lia).
  set (rest := drop (length (wire ls)) (drop 54 buf)). assert (Hzr : zlen rest = 458 - zlen (wire ls)) by (unfold rest, zlen in *; rewrite length_drop; lia).
  assert (Hq : build_query buf mac (g_next_dns_id d) (g_dns_server_ip d) (join ls) = Some (Some (frame ++ drop 4 rest, 58 + zlen (wire ls)))).
  { rewrite (build_query_ok buf mac _ _ _ (zlen (wire ls)) (wire ls) (take 4 rest) (drop 4 rest)); try done; try lia.
    - unfold frame, query. by rewrite <- !app_assoc.
    - rewrite take_drop. apply (encode_labels_ok ls (S (length (join ls))) [] (drop 54 buf) 458); (done || (cbn [app]; rewrite ?zlen_nil; lia)).
    - rewrite take_drop. unfold rest. auto with xaios.
    - unfold zlen in *. rewrite length_take. lia. }
  assert (Hzf : zlen frame = 58 + zlen (wire ls)) by (unfold frame, query; pose proof (zlen_query_head mac (g_next_dns_id d) (dst_ip_be (g_dns_server_ip d)) (zlen (wire ls)) Hzm); len_lia).
  assert (Hbf : bytes frame) by (unfold frame, query; apply bytes_app; [by apply bytes_query_head|solve_bytes]).
  unfold dns_resolve. rewrite Hc. bind_step. unfold str_len, DNS_MAX_HOSTNAME.
  rewrite (proj2 (Z.eqb_neq (zlen (join ls)) 0)), (proj2 (Z.leb_gt 64 (zlen (join ls)))) by lia. cbn [orb g_dns_server_ip g_pending]. fold mac. rewrite Hq. bind_step. cbv iota beta.
  change 64 with DNS_MAX_HOSTNAME. rewrite str_cpy_ok; [|apply Hd|by apply nul_free_join|by apply bytes_join|lia]. bind_step.
  pose proof (ok_frame d Hd) as Hf. set (n := zlen (wire ls)) in *.
  rewrite bytes_copy_ok; [|apply bytes_app; [done|unfold rest; auto with xaios]|lia|len_lia]. bind_step.
  unfold virtio_net_tx. assert (Ht : take (Z.to_nat (58 + n)) (frame ++ drop 4 rest) = frame) by (apply take_app_length'; zlia).
  rewrite read_bytes_ok by len_lia. rewrite !Ht. cbn [fmap option_fmap option_map]. destruct (net_send e frame) as [e' st']. bind_step. cbv iota beta.
  eexists _, _, _. split; [done|]. cbn [set_pending g_pending g_cache p_active p_id p_frame p_frame_len p_hostname].
  assert (Hu : u16 (58 + n) = 58 + n) by (unfold u16; apply Z.mod_small; lia). pose proof (zlen_drop (p_frame (g_pending d)) (58 + n)) as Hzd.
  clearbody frame. split_and!; try done; [| |by eexists].
  - destruct Hd as [? ? Hhost ? ?]. split; cbn; try done; [|len_lia|lia]. unfold cstr.
    assert (zlen (drop (S (length (join ls))) (p_hostname (g_pending d))) = 64 - (zlen (join ls) + 1)) by (unfold zlen in *; rewrite length_drop; lia). len_lia.
  - rewrite Hu, read_bytes_ok by len_lia. f_equal. apply take_app_length'. zlia.
Qed.

(** ** Sequences of calls *)

Inductive dns_op :=
| OpConfigure (server_ip : Z)
| OpResolve (buf : list Z) (hostname : option (list Z)) (out : bool)
| OpTick (tmp : list Z) (now_ns : Z).

Definition dns_step (fuel : nat) (s : dns * E) (op : dns_op) : run (dns * E) :=
  let '(d, e) := s in
  match op with
  | OpConfigure ip => Done (dns_configure d ip, e)
  | OpResolve buf h out => '(d', e', _, _) ← lift (dns_resolve d e buf h out); Done (d', e')
  | OpTick tmp now => dns_tick fuel d e tmp now
  end.

Fixpoint dns_steps (fuel : nat) (s : dns * E) (ops : list dns_op) : run (dns * E) :=
  match ops with
  | [] => Done s
  | op :: ops' => s' ← dns_step fuel s op; dns_steps fuel s' ops'
  end.

(** The local arrays of the calls have their declared sizes. *)
Definition op_ok (op : dns_op) : Prop :=
  match op with
  | OpConfigure _ => True
  | OpResolve buf _ _ => bytes buf /\ zlen buf = 512
  | OpTick tmp _ => zlen tmp = 256
  end.

Lemma steps_safe ends fuel s ops : dns_ok s.1 -> Forall op_ok ops ->
  (ends = true -> quiet s.2 /\ DECODE_ROUNDS < Z.of_nat fuel) -> safe ends (fun r => dns_ok r.1) (dns_steps fuel s ops).
Proof.
  intros Hs Hops. revert s Hs. induction Hops as [|op ops Hop Hops IH]; intros [d e] Hd He; cbn [dns_steps]; [done|].
  eapply (safe_bind _ (fun r => dns_ok r.1 /\ rtc device_step e r.2)).
  - simpl in Hd. destruct op as [ip|buf h out|tmp now]; simpl in *.
    + split; [by destruct Hd|apply rtc_refl].
    + destruct Hop as [Hb Hz]. destruct (resolve_safe d e buf h out Hd Hb Hz) as (d' & e'' & st & o & -> & Hd' & Hr). done.
    + by apply tick_safe.
  - intros [d' e'] [Hd' Hr]. apply IH; [done|]. intros Ht. destruct (He Ht). split; [by eapply quiet_later|done].
Qed.

Lemma dns0_ok : dns_ok dns0.
Proof. split; simpl; try done. by repeat constructor. Qed.

(** C24: Whatever frames arrive from the network and whatever names are asked
    for, no sequence of calls to the resolver accesses memory outside of its
    arrays, however many rounds the loops over names take; and when no message
    received on the way has a loop of compression pointers, every sequence of
    calls ends, with at most [DECODE_ROUNDS] rounds for each name. *)
Theorem dns_calls_safe (fuel : nat) (e : E) (ops : list dns_op) (Hops : Forall op_ok ops) :
  dns_steps fuel (dns0, e) ops <> Fault /\
  (quiet e -> DECODE_ROUNDS < Z.of_nat fuel -> exists r, dns_steps fuel (dns0, e) ops = Done r /\ dns_ok r.1).
Proof.
  split.
  - pose proof (steps_safe false fuel (dns0, e) ops dns0_ok Hops) as Hs. intros Hf. rewrite Hf in Hs. by apply Hs.
  - intros Hp Hf. pose proof (steps_safe true fuel (dns0, e) ops dns0_ok Hops) as Hs.
    destruct (dns_steps fuel (dns0, e) ops) as [r| |]; simpl in Hs; [eauto| |]; by specialize (Hs (fun _ => conj Hp Hf)).
Qed.

End Frames.

(** A message in which all pointers point back has no loop. *)
Definition points_back (msg : list Z) (len : Z) : bool :=
  forallb (fun p => negb (Z.land (msg.[p]) 0xC0 =? 0xC0) || (u16 (Z.lor (Z.shiftl (Z.land (msg.[p]) 0x3F) 8) (msg.[p + 1])) <? p)) (seqZ 0 len).

Lemma points_back_loop_free msg len : points_back msg len = true -> loop_free msg len.
Proof.
  intros Hb p Hp. assert (H : forall q, tc (points msg len) p q -> q < p); [|specialize (H p Hp); lia].
  assert (Hone : forall p q, points msg len p q -> q < p).
  { intros a b (H0 & H1 & H2 & ->). unfold points_back in Hb. rewrite forallb_forall in Hb. specialize (Hb a).
    rewrite H2 in Hb. simpl in Hb. apply Z.ltb_lt, Hb. apply list_elem_of_In, elem_of_seqZ. lia. }
  clear Hp. intros q. induction 1 as [x y|x y z Hxy _ IH]; [by apply Hone|]. specialize (Hone x y Hxy). lia.
Qed.

(** On the card only the queued frames are received. *)
Lemma card_quiet c : Forall (fun f => loop_free_frame (u8 <$> f)) (incoming c) -> quiet c.
Proof.
  intros Hc e n Hr. assert (He : Forall (fun f => loop_free_frame (u8 <$> f)) (incoming e)).
  { induction Hr as [x|x y z Hxy _ IH]; [done|]. apply IH. destruct Hxy as [[f ->]|[m ->]]; [done|]. simpl.
    destruct (incoming x) as [|f r] eqn:Ex; simpl; [by rewrite Ex|by apply Forall_cons in Hc as [_ Hc]]. }
  assert (Hnil : loop_free_frame []) by (by apply points_back_loop_free).
  simpl. destruct (incoming e) as [|f r]; simpl; [done|]. apply Forall_cons in He as [Hf _]. by case_if.
Qed.

(** A frame for the resolver with the given DNS message. *)
Definition dns_frame (message : list Z) : list Z :=
  replicate 12 0 ++ [0x08; 0; 0x45] ++ replicate 8 0 ++ [17] ++ replicate 12 0 ++ [0xC0; 1] ++ replicate 4 0 ++ message.

(** A response to the first query. *)
Definition response (question : list Z) (answer : list Z) : list Z :=
  dns_frame ([0; 1; 0x80; 0; 0; 1; 0; 1; 0; 0; 0; 0] ++ question ++ [0; 1; 0; 1] ++ answer).

(** A response with a compression pointer for the name of its answer. *)
Definition compressed_response : list Z :=
  response (wire [chars "a"; chars "b"]) [0xC0; 12; 0; 1; 0; 1; 0; 0; 0; 60; 0; 4; 1; 2; 3; 4].

Lemma dns_calls_safe_witness :
  let ops := [OpResolve (replicate 512 7) (Some (chars "a.b")) true; OpTick (replicate 256 0) 5; OpTick (replicate 256 0) 9] in
  let c := mk_card [compressed_response] [] in
  exists r, dns_steps (Z.to_nat 140000) (dns0, c) ops = Done r /\ dns_ok r.1.
Proof.
  apply (dns_calls_safe (Z.to_nat 140000) (mk_card [compressed_response] [])
    [OpResolve (replicate 512 7) (Some (chars "a.b")) true; OpTick (replicate 256 0) 5; OpTick (replicate 256 0) 9]).
  - repeat (apply Forall_cons; split); try apply Forall_nil; try done. split; [|done]. apply Forall_replicate. unfold byte. lia.
  - apply card_quiet. repeat constructor. apply points_back_loop_free. vm_compute. reflexivity.
  - rewrite Z2Nat.id; [reflexivity|discriminate].
Defined.

Lemma dns_query_exact_witness :
  exists dst enc, let frame := query [2; 0; 0; 0; 0; 1] 1 dst enc in
  decodes_to enc (chars "a.b") /\
  exists d' st o, dns_resolve dns0 (mk_card [] []) (replicate 512 7) (Some (chars "a.b")) true = Some (d', mk_card [] [frame], st, o) /\ dns_ok d' /\
    p_active (g_pending d') = 1 /\ p_id (g_pending d') = 1 /\ g_cache d' = g_cache dns0 /\
    read_bytes (p_frame (g_pending d')) (p_frame_len (g_pending d')) = Some frame /\
    (exists t, p_hostname (g_pending d') = cstr (chars "a.b") ++ t).
Proof.
  refine (dns_query_exact dns0 (mk_card [] []) (replicate 512 7) [chars "a"; chars "b"] dns0_ok _ _ _ _ _).
  - apply Forall_replicate. unfold byte. lia.
  - reflexivity.
  - apply (bool_decide_unpack _). vm_compute. exact I.
  - vm_compute. split; congruence.
  - vm_compute. reflexivity.
Defined.

(** ** Where the code departs from its description *)

(** A name that points to itself is decoded for ever. *)
Lemma decode_cycle msg len size s s' fuel :
  decode_step msg len size s = Some (inl s') -> decode_step msg len size s' = Some (inl s') -> decode_run fuel msg len size s = Running.
Proof.
  intros H1 H2. destruct fuel as [|fuel]; [done|]. cbn [decode_run]. rewrite H1.
  induction fuel as [|fuel IH]; [done|]. cbn [decode_run]. by rewrite H2.
Qed.

(** The resolver after its first query for "a.b" and a tick. *)
Definition waiting : dns := set_pending dns0 (mk_pending 1 1 (cstr (chars "a.b") ++ replicate 60 0) 5 0 (replicate 512 0) 0).

(** One frame from the network, with a name that points to itself, keeps the
    tick from ever returning. *)
Lemma tick_hangs fuel : dns_tick fuel waiting (mk_card [response [0xC0; 12] []] []) (replicate 256 0) 9 = Running.
Proof.
  set (message := [0; 1; 0x80; 0; 0; 1; 0; 1; 0; 0; 0; 0; 0xC0; 12; 0; 1; 0; 1]).
  assert (Hd : dns_decode_name fuel message 18 12 (replicate 256 0) XAIOS_DNS_MAX_NAME = Running)
    by (apply (decode_cycle _ _ _ _ (mk_decode 0 12 true (replicate 256 0))); vm_compute; reflexivity).
  transitivity (d ← process_dns_response fuel waiting message 18 (replicate 256 0) 9; Done (d, mk_card [] [])); [reflexivity|].
  unfold process_dns_response. change (lift (get_be16 message 0)) with (Done 1). change (lift (get_be16 message 2)) with (Done 0x8000).
  change (lift (get_be16 message 6)) with (Done 1). cbn [mbind run_bind]. change (18 <? 12) with false.
  change (negb (1 =? p_id (g_pending waiting))) with false. change (Z.land 0x8000 0x8000 =? 0) with false. change (negb (u8 (Z.land 0x8000 15) =? 0)) with false.
  change (1 =? 0) with false. cbv iota. by rewrite Hd.
Qed.

(** The position behind a name is off by one, so an ordinary response, with the
    address 1.2.3.4 for the name asked for, is read from the wrong place and
    leaves the resolver as it was: the query is never answered. *)
Lemma answer_not_understood :
  dns_receive 600 waiting (response (wire [chars "a"; chars "b"]) ([0xC0; 12; 0; 1; 0; 1; 0; 0; 0; 60; 0; 4; 1; 2; 3; 4]))
    (zlen (response (wire [chars "a"; chars "b"]) ([0xC0; 12; 0; 1; 0; 1; 0; 0; 0; 60; 0; 4; 1; 2; 3; 4]))) (replicate 256 0) 9 = Done waiting.
Proof. vm_compute. reflexivity. Qed.

(** [dns_resolve] looks into the cache at time zero: an address whose life time
    is over is still returned. *)
Lemma resolve_ignores_expiry :
  match cache_insert dns0 (cstr (chars "a.b")) 7 60 1000000000 with
  | Some d => cache_lookup d (cstr (chars "a.b")) 62000000000 = Some None /\
              dns_resolve d (mk_card [] []) (replicate 512 0) (Some (chars "a.b")) true = Some (d, mk_card [] [], XAIOS_OK, Some 7)
  | None => False
  end.
Proof. vm_compute. split; reflexivity. Qed.

(** The header is built from addresses with the first byte on top, as 10.0.2.15
    is for the guest, but the server address is turned around first: queries
    for 1.2.3.4 go to 4.3.2.1. *)
Lemma server_address_reversed : dst_ip_be 0x01020304 = 0x04030201.
Proof. reflexivity. Qed.

(** The table of expected bytes in the boot test is wrong: the test stops the kernel. *)
Lemma dns_self_test_panics : dns_self_test 100 dns0 (replicate 64 7) (replicate 64 7) (replicate 64 7) (replicate 64 7) = Fault.
Proof. vm_compute. reflexivity. Qed.

End Dns.
