(* ===== verification/NetQueue.v ===== *)
(** * Queues of the network stack (kernel/runtime/network_stack.c)

    The bindings of queues to cells, the ring of each queue, the descriptors
    that follow a packet through the stack, the counters and the latency
    samples.  A pointer to a table entry is its index.  The statistics counters
    are one table indexed by [counter].

    The stack finishes every packet before it looks at the next one:
    [quiet] says that no descriptor is owned and no ring entry is taken, and
    the lemmas on [alloc_packet_desc], [packet_mark_tx], [packet_mark_complete]
    and [packet_mark_dropped] show how one packet leaves that state and returns
    to it.  [percentile_exact] shows what the sorting loop and the index of a
    percentile select. *)

From S2P Require Import Prelude Wire.

Module NetQueue.
Import Wire.

Definition XAIOS_NETWORK_MAX_QUEUE_BINDINGS : Z := 4.
Definition XAIOS_NETWORK_QUEUE_ID_INVALID : Z := 0xffffffff.
Definition NETWORK_BUFFER_SIZE : Z := 1520.
Definition NETWORK_MAX_SAMPLES : Z := 64.
Definition NETWORK_PACKET_DESCRIPTORS : Z := 16.
Definition NETWORK_QUEUE_RING_SIZE : Z := 8.

Record network_queue_binding := mk_binding { b_queue_id : Z; b_cell_id : Z; core_mask : Z; in_use : Z }.

#[global] Instance binding_inhabited : Inhabited network_queue_binding :=
  populate (mk_binding XAIOS_NETWORK_QUEUE_ID_INVALID 0 0 0).

Record network_queue_ring := mk_ring { r_queue_id : Z; rx_depth : Z; tx_depth : Z; completed : Z; drops : Z }.

#[global] Instance ring_inhabited : Inhabited network_queue_ring := populate (mk_ring 0 0 0 0 0).

Inductive network_packet_state :=
| NETWORK_PACKET_FREE
| NETWORK_PACKET_RX_OWNED
| NETWORK_PACKET_TX_QUEUED
| NETWORK_PACKET_COMPLETE
| NETWORK_PACKET_DROPPED.

#[global] Instance packet_state_eq_dec : EqDecision network_packet_state.
Proof. solve_decision. Defined.

Record network_packet_desc := mk_desc {
  d_state : network_packet_state;
  d_queue_id : Z;
  d_cell_id : Z;
  d_src_port : Z;
  d_dst_port : Z;
  d_src_address : Z;
  d_dst_address : Z;
  d_src_addr : xaios_ip_addr;
  d_dst_addr : xaios_ip_addr;
  d_length : Z;
  d_created_ns : Z
}.

#[global] Instance desc_inhabited : Inhabited network_packet_desc :=
  populate (mk_desc NETWORK_PACKET_FREE XAIOS_NETWORK_QUEUE_ID_INVALID 0 0 0 0 0 xaios_ip_addr_zero xaios_ip_addr_zero 0 0).

Inductive counter :=
| udp_tx | udp_rx | udp_malformed | udp_dropped | udp_flow_hit | udp_expired
| tcp_handshake | tcp_reset | tcp_timeout | tcp_retransmit | tcp_established | tcp_closed
| queue_binding | rx_packet | tx_packet | packet_drop | packet_lifecycle
| queue_rx_enqueue | queue_tx_enqueue | queue_completion | queue_backpressure_drop | flow_core_mismatch
| poll_tick | icmp_reply | arp_reply | icmpv6_reply | ndp_reply | ipv6_rx.

#[global] Instance counter_eq_dec : EqDecision counter.
Proof. solve_decision. Defined.

Record queues := mk_queues {
  g_queue_bindings : list network_queue_binding;
  g_queue_rings : list network_queue_ring;
  g_packet_descs : list network_packet_desc;
  g_count : counter -> Z
}.

Definition set_bindings (q : queues) (b : list network_queue_binding) : queues := mk_queues b (g_queue_rings q) (g_packet_descs q) (g_count q).
Definition set_rings (q : queues) (r : list network_queue_ring) : queues := mk_queues (g_queue_bindings q) r (g_packet_descs q) (g_count q).
Definition set_descs (q : queues) (d : list network_packet_desc) : queues := mk_queues (g_queue_bindings q) (g_queue_rings q) d (g_count q).

(** [++g_<c>_count;] *)
Definition bump (c : counter) (q : queues) : queues :=
  mk_queues (g_queue_bindings q) (g_queue_rings q) (g_packet_descs q) (fun k => if decide (k = c) then u64 (g_count q k + 1) else g_count q k).

Definition set_count (c : counter) (v : Z) (q : queues) : queues :=
  mk_queues (g_queue_bindings q) (g_queue_rings q) (g_packet_descs q) (fun k => if decide (k = c) then v else g_count q k).

(** ** Bindings *)

Definition bound_to (queue_id : Z) (b : network_queue_binding) : bool := negb (in_use b =? 0) && (b_queue_id b =? queue_id).

Definition find_binding (q : queues) (queue_id : Z) : option Z := Z.of_nat <$> find_idx (bound_to queue_id) (g_queue_bindings q).

Definition find_queue_ring (q : queues) (queue_id : Z) : option Z :=
  Z.of_nat <$> find_idx (fun r => r_queue_id r =? queue_id) (g_queue_rings q).

Definition active_binding_count (q : queues) : Z :=
  foldl (fun n b => if in_use b =? 0 then n else n + 1) 0 (g_queue_bindings q).

(** The loop from entry [i]. *)
Fixpoint by_active_index (l : list network_queue_binding) (i index : Z) : option Z :=
  match l with
  | [] => None
  | b :: l' =>
      if in_use b =? 0 then by_active_index l' (i + 1) index else
      if index =? 0 then Some i else by_active_index l' (i + 1) (index - 1)
  end.

Definition binding_by_active_index (q : queues) (index : Z) : option Z := by_active_index (g_queue_bindings q) 0 index.

Definition select_binding_for_flow (q : queues) (local_port remote_port local_address remote_address : Z) : option Z :=
  let active := active_binding_count q in
  if active =? 0 then None else
  let hash := Z.lxor (Z.lxor (Z.lxor local_port (Z.shiftl remote_port 3)) local_address) (Z.shiftr remote_address 8) in
  binding_by_active_index q (hash mod active).

(** ** Rings *)

Definition upd_ring (q : queues) (i : Z) (f : network_queue_ring -> network_queue_ring) : queues := set_rings q (upd (g_queue_rings q) i f).

Definition queue_ring_reset (q : queues) (queue_id : Z) : queues :=
  match find_queue_ring q queue_id with
  | None => q
  | Some i => upd_ring q i (fun r => mk_ring (r_queue_id r) 0 0 0 0)
  end.

Definition count_drop (r : network_queue_ring) : network_queue_ring :=
  mk_ring (r_queue_id r) (rx_depth r) (tx_depth r) (completed r) (u64 (drops r + 1)).

Definition queue_ring_rx_enqueue (q : queues) (queue_id : Z) : queues * bool :=
  match find_queue_ring q queue_id with
  | None => (bump queue_backpressure_drop q, false)
  | Some i =>
      if NETWORK_QUEUE_RING_SIZE <=? rx_depth ((g_queue_rings q).[i])
      then (upd_ring (bump queue_backpressure_drop q) i count_drop, false)
      else (bump queue_rx_enqueue (upd_ring q i (fun r => mk_ring (r_queue_id r) (u32 (rx_depth r + 1)) (tx_depth r) (completed r) (drops r))), true)
  end.

Definition queue_ring_rx_complete (q : queues) (queue_id : Z) : queues :=
  match find_queue_ring q queue_id with
  | None => q
  | Some i =>
      if 0 <? rx_depth ((g_queue_rings q).[i])
      then upd_ring q i (fun r => mk_ring (r_queue_id r) (rx_depth r - 1) (tx_depth r) (completed r) (drops r))
      else q
  end.

Definition queue_ring_tx_enqueue (q : queues) (queue_id : Z) : queues * bool :=
  match find_queue_ring q queue_id with
  | None => (bump queue_backpressure_drop q, false)
  | Some i =>
      if NETWORK_QUEUE_RING_SIZE <=? tx_depth ((g_queue_rings q).[i])
      then (upd_ring (bump queue_backpressure_drop q) i count_drop, false)
      else (bump queue_tx_enqueue (upd_ring q i (fun r => mk_ring (r_queue_id r) (rx_depth r) (u32 (tx_depth r + 1)) (completed r) (drops r))), true)
  end.

Definition queue_ring_tx_complete (q : queues) (queue_id : Z) : queues :=
  match find_queue_ring q queue_id with
  | None => q
  | Some i =>
      bump queue_completion (upd_ring q i (fun r =>
        mk_ring (r_queue_id r) (rx_depth r) (if 0 <? tx_depth r then tx_depth r - 1 else tx_depth r) (u64 (completed r + 1)) (drops r)))
  end.

(** ** Packets *)

Definition reusable (d : network_packet_desc) : bool :=
  bool_decide (d_state d = NETWORK_PACKET_FREE) || bool_decide (d_state d = NETWORK_PACKET_COMPLETE) || bool_decide (d_state d = NETWORK_PACKET_DROPPED).

Definition alloc_packet_desc (q : queues) (queue_id length now_ns : Z) : queues * option Z :=
  match find_binding q queue_id with
  | None => (bump packet_drop q, None)
  | Some b =>
      if (length =? 0) || (NETWORK_BUFFER_SIZE <? length) then (bump packet_drop q, None) else
      let '(q, ok) := queue_ring_rx_enqueue q queue_id in
      if negb ok then (bump packet_drop q, None) else
      match find_idx reusable (g_packet_descs q) with
      | Some i =>
          (bump packet_lifecycle (bump rx_packet (set_descs q (upd (g_packet_descs q) (Z.of_nat i) (fun d =>
             mk_desc NETWORK_PACKET_RX_OWNED queue_id (b_cell_id ((g_queue_bindings q).[b])) 0 0 0 0 (d_src_addr d) (d_dst_addr d) length now_ns)))),
           Some (Z.of_nat i))
      | None => (bump packet_drop (queue_ring_rx_complete q queue_id), None)
      end
  end.

Definition set_packet_state (q : queues) (p : Z) (s : network_packet_state) : queues :=
  set_descs q (upd (g_packet_descs q) p (fun d =>
    mk_desc s (d_queue_id d) (d_cell_id d) (d_src_port d) (d_dst_port d) (d_src_address d) (d_dst_address d) (d_src_addr d) (d_dst_addr d)
      (d_length d) (d_created_ns d))).

(** [packet->src_port = ...] and the other address fields. *)
Definition set_packet_ports (q : queues) (p src_port dst_port : Z) : queues :=
  set_descs q (upd (g_packet_descs q) p (fun d =>
    mk_desc (d_state d) (d_queue_id d) (d_cell_id d) src_port dst_port (d_src_address d) (d_dst_address d) (d_src_addr d) (d_dst_addr d)
      (d_length d) (d_created_ns d))).

Definition set_packet_v4 (q : queues) (p src dst : Z) : queues :=
  set_descs q (upd (g_packet_descs q) p (fun d =>
    mk_desc (d_state d) (d_queue_id d) (d_cell_id d) (d_src_port d) (d_dst_port d) src dst (d_src_addr d) (d_dst_addr d) (d_length d) (d_created_ns d))).

Definition set_packet_v6 (q : queues) (p : Z) (src dst : xaios_ip_addr) : queues :=
  set_descs q (upd (g_packet_descs q) p (fun d =>
    mk_desc (d_state d) (d_queue_id d) (d_cell_id d) (d_src_port d) (d_dst_port d) (d_src_address d) (d_dst_address d) src dst (d_length d) (d_created_ns d))).

Definition packet_mark_dropped (q : queues) (p : Z) : queues :=
  let d := (g_packet_descs q).[p] in
  if bool_decide (d_state d = NETWORK_PACKET_DROPPED) then q else
  let q := if bool_decide (d_state d = NETWORK_PACKET_RX_OWNED) then queue_ring_rx_complete q (d_queue_id d)
           else if bool_decide (d_state d = NETWORK_PACKET_TX_QUEUED) then queue_ring_tx_complete q (d_queue_id d) else q in
  bump packet_lifecycle (bump packet_drop (set_packet_state q p NETWORK_PACKET_DROPPED)).

Definition packet_mark_tx (q : queues) (p : Z) : queues :=
  let d := (g_packet_descs q).[p] in
  if negb (bool_decide (d_state d = NETWORK_PACKET_RX_OWNED)) then q else
  let '(q, ok) := queue_ring_tx_enqueue q (d_queue_id d) in
  if negb ok then packet_mark_dropped q p else
  bump packet_lifecycle (bump tx_packet (set_packet_state (queue_ring_rx_complete q (d_queue_id d)) p NETWORK_PACKET_TX_QUEUED)).

Definition packet_mark_complete (q : queues) (p : Z) : queues :=
  let d := (g_packet_descs q).[p] in
  if negb (bool_decide (d_state d = NETWORK_PACKET_TX_QUEUED)) then q else
  bump packet_lifecycle (set_packet_state (queue_ring_tx_complete q (d_queue_id d)) p NETWORK_PACKET_COMPLETE).

(** ** Binding and releasing *)

Definition network_stack_bind_queue (q : queues) (cell_id queue_id mask : Z) : queues * xaios_status :=
  if (XAIOS_NETWORK_MAX_QUEUE_BINDINGS <=? queue_id) || (mask =? 0) || (cell_id =? 0xffffffff) then (q, XAIOS_ERR_INVALID) else
  match find_binding q queue_id with
  | Some _ => (q, XAIOS_ERR_BUSY)
  | None =>
      match find_idx (fun b => in_use b =? 0) (g_queue_bindings q) with
      | Some i =>
          let q := set_bindings q ((g_queue_bindings q).[Z.of_nat i <- mk_binding queue_id cell_id mask 1]) in
          (bump queue_binding (queue_ring_reset q queue_id), XAIOS_OK)
      | None => (q, XAIOS_ERR_NO_MEMORY)
      end
  end.

Definition network_stack_release_queue (q : queues) (queue_id cell_id : Z) : queues * xaios_status :=
  match find_idx (fun b => bound_to queue_id b && (b_cell_id b =? cell_id)) (g_queue_bindings q) with
  | Some i =>
      let q := set_bindings q ((g_queue_bindings q).[Z.of_nat i <- mk_binding XAIOS_NETWORK_QUEUE_ID_INVALID 0 0 0]) in
      let q := queue_ring_reset q queue_id in
      (set_count queue_binding (if g_count q queue_binding =? 0 then 0 else g_count q queue_binding - 1) q, XAIOS_OK)
  | None => (q, XAIOS_ERR_NOT_FOUND)
  end.

(** ** Latency samples *)

Record samples := mk_samples { sample_array : list Z; sample_count : Z }.

Definition record_latency (s : samples) (value : Z) : samples :=
  if sample_count s <? NETWORK_MAX_SAMPLES
  then mk_samples ((sample_array s).[sample_count s <- value]) (sample_count s + 1)
  else s.

(** [if (sorted[j] < sorted[i]) swap] *)
Definition sort_swap (i j : Z) (l : list Z) : list Z :=
  if l.[j] <? l.[i] then (l.[i <- l.[j]]).[j <- l.[i]] else l.

Definition sort_samples (count : Z) (l : list Z) : list Z :=
  for_range (Z.to_nat count) 0 (fun i l => for_range (Z.to_nat (count - (i + 1))) (i + 1) (sort_swap i) l) l.

Definition percentile (s : samples) (p : Z) : Z :=
  let count := sample_count s in
  if count =? 0 then 0 else
  let sorted := sort_samples count (take (Z.to_nat count) (sample_array s)) in
  let divisor := if 100 <? p then 1000 else 100 in
  let index := u32 (count * p) / divisor in
  let index := if count <=? index then count - 1 else index in
  sorted.[index].

(** ** Invariants *)

(** The tables have their sizes, every ring its own queue, and no two bindings
    in use share a queue. *)
Record queues_ok (q : queues) : Prop := {
  ok_bindings : zlen (g_queue_bindings q) = 4;
  ok_rings : zlen (g_queue_rings q) = 4;
  ok_ring_ids : forall i, 0 <= i < 4 -> r_queue_id ((g_queue_rings q).[i]) = i;
  ok_descs : zlen (g_packet_descs q) = 16;
  ok_bound : forall i, 0 <= i < 4 -> in_use ((g_queue_bindings q).[i]) <> 0 -> 0 <= b_queue_id ((g_queue_bindings q).[i]) < 4;
  ok_unique : forall i j, 0 <= i < 4 -> 0 <= j < 4 -> in_use ((g_queue_bindings q).[i]) <> 0 -> in_use ((g_queue_bindings q).[j]) <> 0 ->
    b_queue_id ((g_queue_bindings q).[i]) = b_queue_id ((g_queue_bindings q).[j]) -> i = j }.

(** The packet in descriptor [p] is the only one in the stack; it is owned by
    the receiving side of queue [id], or waits in its transmit ring. *)
Definition only_packet (q : queues) (p : option Z) (id : Z) (s : network_packet_state) : Prop :=
  (forall j, 0 <= j < 16 -> Some j <> p -> reusable ((g_packet_descs q).[j]) = true) /\
  (forall j, 0 <= j < 4 ->
     rx_depth ((g_queue_rings q).[j]) = (if bool_decide (j = id /\ p <> None /\ s = NETWORK_PACKET_RX_OWNED) then 1 else 0) /\
     tx_depth ((g_queue_rings q).[j]) = (if bool_decide (j = id /\ p <> None /\ s = NETWORK_PACKET_TX_QUEUED) then 1 else 0)) /\
  (forall k, p = Some k -> 0 <= k < 16 /\ 0 <= id < 4 /\ d_queue_id ((g_packet_descs q).[k]) = id /\ d_state ((g_packet_descs q).[k]) = s).

(** No packet is in the stack. *)
Definition quiet (q : queues) : Prop := only_packet q None 0 NETWORK_PACKET_FREE.

(** The packet [p] of queue [id] has been received and not been finished. *)
Definition owned (q : queues) (p id : Z) : Prop := only_packet q (Some p) id NETWORK_PACKET_RX_OWNED.

(** ** Lemmas *)

Lemma find_ring q id : queues_ok q -> 0 <= id < 4 -> find_queue_ring q id = Some id.
Proof.
  intros Hq Hid. unfold find_queue_ring.
  destruct (find_idx _ _) as [i|] eqn:Hf.
  - apply find_idx_Some_get in Hf as (Hlt & He & _). apply Z.eqb_eq in He. rewrite (ok_ring_ids q Hq) in He by (pose proof (ok_rings q Hq); zlia).
    simpl. by rewrite He.
  - pose proof (find_idx_None_get _ _ Hf id) as Hn. rewrite (ok_rings q Hq) in Hn. specialize (Hn Hid). simpl in Hn.
    rewrite (ok_ring_ids q Hq) in Hn by done. lia.
Qed.

Lemma find_binding_ok q id b : queues_ok q -> find_binding q id = Some b ->
  0 <= b < 4 /\ 0 <= id < 4 /\ in_use ((g_queue_bindings q).[b]) <> 0 /\ b_queue_id ((g_queue_bindings q).[b]) = id.
Proof.
  intros Hq Hb. unfold find_binding in Hb. destruct (find_idx _ _) as [i|] eqn:Hf; [|done]. injection Hb as <-.
  apply find_idx_Some_get in Hf as (Hlt & He & _). unfold bound_to in He. breflect. rewrite (ok_bindings q Hq) in Hlt.
  pose proof (ok_bound q Hq (Z.of_nat i)) as Hbd. split_and!; try lia.
Qed.

Lemma by_active_ok l : forall i index b, by_active_index l i index = Some b ->
  i <= b < i + zlen l /\ in_use (l.[b - i]) <> 0.
Proof.
  induction l as [|x l IH]; intros i index b Hb; [done|]. cbn [by_active_index] in Hb.
  assert (Hstep : forall idx, by_active_index l (i + 1) idx = Some b -> i <= b < i + zlen (x :: l) /\ in_use ((x :: l).[b - i]) <> 0).
  { intros idx H. apply IH in H as [H1 H2]. split; [len_lia|].
    replace (Z.to_nat (b - i)) with (S (Z.to_nat (b - (i + 1)))) by lia. done. }
  case_if; [by apply (Hstep index)|]. case_if; [|by apply (Hstep (index - 1))]. injection Hb as <-.
  split; [len_lia|]. rewrite Z.sub_diag. simpl. lia.
Qed.

Lemma select_binding_ok q lp rp la ra b : queues_ok q -> select_binding_for_flow q lp rp la ra = Some b ->
  0 <= b < 4 /\ in_use ((g_queue_bindings q).[b]) <> 0.
Proof.
  intros Hq. unfold select_binding_for_flow. case_if; [done|]. intros Hb. apply by_active_ok in Hb. rewrite (ok_bindings q Hq), Z.sub_0_r in Hb. lia.
Qed.

(** A binding in use is the one found for its queue. *)
Lemma find_binding_self q b : queues_ok q -> 0 <= b < 4 -> in_use ((g_queue_bindings q).[b]) <> 0 ->
  find_binding q (b_queue_id ((g_queue_bindings q).[b])) = Some b.
Proof.
  intros Hq Hb Hu. unfold find_binding. destruct (find_idx _ _) as [i|] eqn:Hf.
  - apply find_idx_Some_get in Hf as (Hlt & He & _). unfold bound_to in He. breflect. rewrite (ok_bindings q Hq) in Hlt. simpl. f_equal.
    apply (ok_unique q Hq); lia.
  - pose proof (find_idx_None_get _ _ Hf b) as Hn. rewrite (ok_bindings q Hq) in Hn. specialize (Hn Hb). unfold bound_to in Hn. lia.
Qed.

Lemma bump_queues_ok c q : queues_ok (bump c q) <-> queues_ok q.
Proof. split; intros [? ? ? ? ? ?]; by split. Qed.

Lemma bump_only c q p id s : only_packet (bump c q) p id s <-> only_packet q p id s.
Proof. done. Qed.

Lemma upd_ring_ok q i f : queues_ok q -> (forall r, r_queue_id (f r) = r_queue_id r) -> queues_ok (upd_ring q i f).
Proof.
  intros [Hb Hr Hi Hd Hbd Hu] Hf. split; simpl; try done; [by rewrite zlen_upd|]. intros j Hj. rewrite upd_get by lia.
  case_decide; rewrite ?Hf; by apply Hi.
Qed.

Lemma set_descs_ok q l : queues_ok q -> zlen l = 16 -> queues_ok (set_descs q l).
Proof. intros [? ? ? ? ? ?] Hl. by split. Qed.

Lemma upd_descs_ok q p f : queues_ok q -> queues_ok (set_descs q (upd (g_packet_descs q) p f)).
Proof. intros Hq. apply set_descs_ok; [done|]. rewrite zlen_upd. by apply ok_descs. Qed.

(** A change of the descriptor that keeps its queue and state. *)
Lemma upd_descs_only q p k id s f : queues_ok q -> only_packet q p id s ->
  (forall d, d_queue_id (f d) = d_queue_id d /\ d_state (f d) = d_state d) -> only_packet (set_descs q (upd (g_packet_descs q) k f)) p id s.
Proof.
  intros Hq (H1 & H2 & H3) Hf. pose proof (ok_descs q Hq) as Hz. split_and!; [| |]; simpl.
  - intros j Hj Hne. rewrite upd_get by lia. specialize (H1 j Hj Hne). destruct (decide (Z.to_nat j = Z.to_nat k)); [|done]. unfold reusable in *. by rewrite (proj2 (Hf _)).
  - done.
  - intros k' ->. destruct (H3 k' eq_refl) as (? & ? & ? & ?). rewrite upd_get by lia. destruct (decide (Z.to_nat k' = Z.to_nat k)); [destruct (Hf ((g_packet_descs q).[k'])) as [-> ->]|]; split_and!; done || lia.
Qed.

(** On a stack without packets, a packet for a bound queue gets a descriptor. *)
Lemma alloc_ok q id b len now : queues_ok q -> quiet q -> find_binding q id = Some b -> 0 < len <= NETWORK_BUFFER_SIZE ->
  exists q' p, alloc_packet_desc q id len now = (q', Some p) /\ queues_ok q' /\ owned q' p id /\ g_queue_bindings q' = g_queue_bindings q.
Proof.
  intros Hq (H1 & H2 & _) Hb Hl. pose proof (find_binding_ok q id b Hq Hb) as (_ & Hid & _ & _). unfold alloc_packet_desc. rewrite Hb.
  rewrite (proj2 (Z.eqb_neq len 0)), (proj2 (Z.ltb_ge NETWORK_BUFFER_SIZE len)) by lia. cbn [orb].
  unfold queue_ring_rx_enqueue. rewrite find_ring by done. destruct (H2 id Hid) as [Hrx Htx]. rewrite bool_decide_false in Hrx, Htx by tauto.
  rewrite Hrx. change (NETWORK_QUEUE_RING_SIZE <=? 0) with false. cbv iota beta. cbn [negb].
  set (q1 := upd_ring q id _). assert (Hq1 : queues_ok q1) by (by apply upd_ring_ok). pose proof (ok_descs q Hq) as Hd.
  destruct (find_idx reusable _) as [i|] eqn:Hf.
  2:{ exfalso. pose proof (find_idx_None_get _ _ Hf 0) as Hn. cbn [g_packet_descs set_rings upd_ring bump q1] in Hn.
      specialize (Hn ltac:(simpl; lia)). by rewrite (H1 0 ltac:(lia) ltac:(done)) in Hn. }
  apply find_idx_Some_get in Hf as (Hi & _ & _). simpl in Hi. rewrite Hd in Hi.
  eexists _, (Z.of_nat i). split; [done|]. split; [rewrite !bump_queues_ok; apply upd_descs_ok; by rewrite bump_queues_ok|]. split; [|done].
  pose proof (ok_rings q Hq) as Hr. split_and!; simpl.
  - intros j Hj Hne. rewrite upd_get by lia. rewrite decide_False by (intros E; apply Hne; f_equal; lia). by apply H1.
  - intros j Hj. destruct (H2 j Hj) as [Hrx' Htx']. rewrite bool_decide_false in Hrx', Htx' by tauto. rewrite upd_get by lia. destruct (decide (Z.to_nat j = Z.to_nat id)).
    + assert (j = id) as -> by lia. rewrite bool_decide_true by done. rewrite bool_decide_false by (intros (_ & _ & ?); done). simpl. rewrite Hrx'. done.
    + rewrite !bool_decide_false by lia. done.
  - intros k [= <-]. rewrite upd_get by lia. rewrite decide_True by lia. split_and!; (done || lia).
Qed.

(** Without a bound queue or with a wrong length there is no descriptor. *)
Lemma alloc_None q id len now : queues_ok q -> quiet q -> find_binding q id = None \/ ~ 0 < len <= NETWORK_BUFFER_SIZE -> 0 <= len ->
  alloc_packet_desc q id len now = (bump packet_drop q, None).
Proof.
  intros Hq Hquiet H Hlen. unfold alloc_packet_desc. destruct (find_binding q id) as [b|]; [|done]. destruct H as [|H]; [done|].
  destruct ((len =? 0) || (NETWORK_BUFFER_SIZE <? len)) eqn:E; [done|]. apply orb_false_iff in E as [E1 E2]. exfalso. lia.
Qed.

Lemma dropped_ok q p id : queues_ok q -> owned q p id -> queues_ok (packet_mark_dropped q p) /\ quiet (packet_mark_dropped q p) /\
  g_queue_bindings (packet_mark_dropped q p) = g_queue_bindings q.
Proof.
  intros Hq (H1 & H2 & H3). destruct (H3 p eq_refl) as (Hp & Hid & Hpq & Hps). unfold packet_mark_dropped. rewrite Hps. simpl.
  unfold queue_ring_rx_complete. rewrite Hpq, find_ring by done. destruct (H2 id Hid) as [Hrx Htx]. rewrite bool_decide_true in Hrx by done. rewrite Hrx.
  change (0 <? 1) with true. cbv iota. pose proof (ok_descs q Hq) as Hd. pose proof (ok_rings q Hq) as Hr.
  split; [rewrite !bump_queues_ok; apply upd_descs_ok; by apply upd_ring_ok|]. split; [|done]. split_and!; simpl; [| |done].
  - intros j Hj _. rewrite upd_get by lia. destruct (decide (Z.to_nat j = Z.to_nat p)); [done|]. apply H1; [done|]. intros [= ->]. lia.
  - intros j Hj. destruct (H2 j Hj) as [Hrx' Htx']. rewrite upd_get by lia. rewrite !bool_decide_false by tauto. destruct (decide (Z.to_nat j = Z.to_nat id)).
    + assert (j = id) as -> by lia. simpl. rewrite Hrx, Htx'. rewrite bool_decide_false by (intros (_ & _ & ?); done). done.
    + rewrite bool_decide_false in Hrx', Htx' by lia. done.
Qed.

Lemma mark_tx_ok q p id : queues_ok q -> owned q p id ->
  queues_ok (packet_mark_tx q p) /\ only_packet (packet_mark_tx q p) (Some p) id NETWORK_PACKET_TX_QUEUED /\
  g_queue_bindings (packet_mark_tx q p) = g_queue_bindings q.
Proof.
  intros Hq (H1 & H2 & H3). destruct (H3 p eq_refl) as (Hp & Hid & Hpq & Hps). unfold packet_mark_tx. rewrite Hps. simpl.
  unfold queue_ring_tx_enqueue. rewrite Hpq, find_ring by done. destruct (H2 id Hid) as [Hrx Htx]. rewrite bool_decide_true in Hrx by done.
  rewrite bool_decide_false in Htx by (intros (_ & _ & ?); done). rewrite Htx. change (NETWORK_QUEUE_RING_SIZE <=? 0) with false. cbv iota beta. cbn [negb].
  pose proof (ok_descs q Hq) as Hd. pose proof (ok_rings q Hq) as Hr.
  set (q1 := bump queue_tx_enqueue _). assert (Hq1 : queues_ok q1) by (by apply bump_queues_ok, upd_ring_ok).
  unfold queue_ring_rx_complete. rewrite find_ring by done. replace (rx_depth _) with 1 by (simpl; rewrite upd_get_eq by lia; simpl; lia).
  change (0 <? 1) with true. cbv iota. split; [rewrite !bump_queues_ok; apply upd_descs_ok; by apply upd_ring_ok|]. split; [|done]. split_and!; simpl.
  - intros j Hj Hne. rewrite upd_get by lia. rewrite decide_False by (intros E; apply Hne; f_equal; lia). by apply H1.
  - intros j Hj. destruct (H2 j Hj) as [Hrx' Htx']. rewrite !upd_get by (rewrite ?zlen_upd; lia). destruct (decide (Z.to_nat j = Z.to_nat id)).
    + assert (j = id) as -> by lia. simpl. rewrite bool_decide_false by (intros (_ & _ & ?); done). rewrite bool_decide_true by done.
      rewrite Hrx, Htx. done.
    + rewrite bool_decide_false in Hrx', Htx' by lia. by rewrite !bool_decide_false by lia.
  - intros k [= <-]. rewrite upd_get by lia. rewrite decide_True by lia. split_and!; (done || lia).
Qed.

(** A packet in the transmit ring is finished. *)
Lemma complete_ok q p id : queues_ok q -> only_packet q (Some p) id NETWORK_PACKET_TX_QUEUED -> let q' := packet_mark_complete q p in
  queues_ok q' /\ quiet q' /\ g_queue_bindings q' = g_queue_bindings q.
Proof.
  intros Hq (H1 & H2 & H3). destruct (H3 p eq_refl) as (Hp & Hid & Hpq & Hps). unfold packet_mark_complete. rewrite Hps. simpl.
  unfold queue_ring_tx_complete. rewrite Hpq, find_ring by done. pose proof (ok_descs q Hq) as Hd. pose proof (ok_rings q Hq) as Hr.
  split; [rewrite bump_queues_ok; apply upd_descs_ok; rewrite bump_queues_ok; by apply upd_ring_ok|]. split; [|done]. split_and!; simpl; [| |done].
  - intros j Hj _. rewrite upd_get by lia. destruct (decide (Z.to_nat j = Z.to_nat p)); [done|]. apply H1; [done|]. intros [= ->]. lia.
  - intros j Hj. destruct (H2 j Hj) as [Hrx' Htx']. rewrite upd_get by lia. rewrite !bool_decide_false by tauto. destruct (decide (Z.to_nat j = Z.to_nat id)).
    + assert (j = id) as -> by lia. simpl. rewrite bool_decide_false in Hrx' by (intros (_ & _ & ?); done).
      rewrite bool_decide_true in Htx' by done. by rewrite Hrx', Htx'.
    + rewrite bool_decide_false in Hrx', Htx' by lia. done.
Qed.

Lemma upd_ring_quiet q i f : queues_ok q -> quiet q -> (forall r, rx_depth r = 0 -> tx_depth r = 0 -> rx_depth (f r) = 0 /\ tx_depth (f r) = 0) ->
  quiet (upd_ring q i f).
Proof.
  intros Hq (H1 & H2 & H3) Hf. pose proof (ok_rings q Hq) as Hr. split_and!; simpl; [done| |done]. intros j Hj.
  destruct (H2 j Hj) as [Hrx Htx]. rewrite !bool_decide_false in * by tauto. rewrite upd_get by lia. destruct (decide _); [by apply Hf|done].
Qed.

Lemma reset_ok q id : queues_ok q -> quiet q -> queues_ok (queue_ring_reset q id) /\ quiet (queue_ring_reset q id).
Proof.
  intros Hq Hquiet. unfold queue_ring_reset. destruct (find_queue_ring q id); [|done].
  split; [by apply upd_ring_ok|by apply upd_ring_quiet].
Qed.

Lemma set_binding_ok q i b : queues_ok q -> 0 <= i < 4 ->
  (in_use b <> 0 -> 0 <= b_queue_id b < 4 /\ forall j, 0 <= j < 4 -> j <> i -> in_use ((g_queue_bindings q).[j]) <> 0 -> b_queue_id ((g_queue_bindings q).[j]) <> b_queue_id b) ->
  queues_ok (set_bindings q ((g_queue_bindings q).[i <- b])).
Proof.
  intros [Hb Hr Hi Hd Hbd Hu] Hix Hnew. assert (Hget : forall j, 0 <= j < 4 -> ((g_queue_bindings q).[i <- b]).[j] = if decide (j = i) then b else (g_queue_bindings q).[j]).
  { intros j Hj. destruct (decide (j = i)) as [->|]; [apply arr_get_set_eq; lia|apply arr_get_set_ne; lia]. }
  split; simpl; try done; [by rewrite zlen_set| |].
  - intros j Hj Huse. rewrite Hget in * by done. destruct (decide (j = i)); [by apply Hnew|by apply Hbd].
  - intros j k Hj Hk Huj Huk He. rewrite Hget in Huj, Huk, He by done. rewrite Hget in He by done.
    destruct (decide (j = i)) as [->|], (decide (k = i)) as [->|]; try done; [|..].
    + exfalso. by apply (proj2 (Hnew Huj) k).
    + exfalso. by apply (proj2 (Hnew Huk) j).
    + by apply Hu.
Qed.

Lemma bind_queue_ok q cell id mask : queues_ok q -> quiet q -> 0 <= id ->
  queues_ok (network_stack_bind_queue q cell id mask).1 /\ quiet (network_stack_bind_queue q cell id mask).1.
Proof.
  intros Hq Hquiet Hid. unfold network_stack_bind_queue. destruct (_ || _ || _) eqn:Hv; [done|]. rewrite !orb_false_iff in Hv. destruct Hv as [[Hv%Z.leb_gt _] _].
  destruct (find_binding q id) eqn:Hf; [done|]. destruct (find_idx _ _) as [i|] eqn:Hi; [|done]. cbn [fst].
  apply find_idx_Some_get in Hi as (Hlt & _ & _). rewrite (ok_bindings q Hq) in Hlt.
  unfold quiet. rewrite bump_queues_ok, bump_only. apply reset_ok; [|done]. apply set_binding_ok; [done|lia|]. cbn [in_use b_queue_id]. intros _. split; [unfold XAIOS_NETWORK_MAX_QUEUE_BINDINGS in Hv; lia|].
  intros j Hj _ Hu He. unfold find_binding in Hf. destruct (find_idx _ _) eqn:Hn; [done|].
  pose proof (find_idx_None_get _ _ Hn j) as H. rewrite (ok_bindings q Hq) in H. specialize (H Hj). unfold bound_to in H. lia.
Qed.

Lemma release_queue_ok q id cell : queues_ok q -> quiet q ->
  queues_ok (network_stack_release_queue q id cell).1 /\ quiet (network_stack_release_queue q id cell).1.
Proof.
  intros Hq Hquiet. unfold network_stack_release_queue. destruct (find_idx _ _) as [i|] eqn:Hi; [|done]. cbn [fst].
  apply find_idx_Some_get in Hi as (Hlt & _ & _). rewrite (ok_bindings q Hq) in Hlt.
  pose proof (reset_ok (set_bindings q ((g_queue_bindings q).[Z.of_nat i <- mk_binding XAIOS_NETWORK_QUEUE_ID_INVALID 0 0 0])) id) as [H1 H2];
    [apply set_binding_ok; [done|lia|]; by intros|done|]. split; [|done]. by destruct H1.
Qed.

(** ** Percentiles *)

(** The entries below [i] are in their final places. *)
Definition placed (count i : Z) (l : list Z) : Prop := forall a b, 0 <= a < i -> a <= b < count -> l.[a] <= l.[b].

Lemma sort_swap_ok count i j (l : list Z) : zlen l = count -> 0 <= i < j -> j < count -> placed count i l ->
  sort_swap i j l ≡ₚ l /\ placed count i (sort_swap i j l) /\ (sort_swap i j l).[i] <= (sort_swap i j l).[j] /\
  (sort_swap i j l).[i] <= l.[i] /\ (forall k, 0 <= k < count -> k <> i -> k <> j -> (sort_swap i j l).[k] = l.[k]).
Proof.
  intros Hz Hij Hj Hp. unfold sort_swap. destruct (Z.ltb_spec (l.[j]) (l.[i])) as [Hlt|Hge]; [|split_and!; try done; lia].
  assert (Hget : forall k, 0 <= k < count -> ((l.[i <- l.[j]]).[j <- l.[i]]).[k] = if decide (k = j) then l.[i] else if decide (k = i) then l.[j] else l.[k]).
  { intros k Hk. destruct (decide (k = j)) as [->|]; [apply arr_get_set_eq; rewrite zlen_set; lia|]. rewrite arr_get_set_ne by lia.
    destruct (decide (k = i)) as [->|]; [apply arr_get_set_eq; lia|apply arr_get_set_ne; lia]. }
  split_and!.
  - apply Permutation_insert_swap; apply arr_lookup; lia.
  - intros a b Ha Hb. rewrite !Hget by lia. repeat destruct (decide _); try lia; apply Hp; lia.
  - rewrite !Hget by lia. repeat destruct (decide _); try lia.
  - rewrite !Hget by lia. repeat destruct (decide _); try lia.
  - intros k Hk Hki Hkj. rewrite Hget by lia. repeat destruct (decide _); try lia.
Qed.

Lemma sort_pass_ok count i (l : list Z) : zlen l = count -> 0 <= i < count -> placed count i l ->
  let l' := for_range (Z.to_nat (count - (i + 1))) (i + 1) (sort_swap i) l in l' ≡ₚ l /\ placed count (i + 1) l'.
Proof.
  intros Hz Hi Hp. cbv zeta.
  pose (P := fun j t => t ≡ₚ l /\ placed count i t /\ forall k, i <= k < j -> t.[i] <= t.[k]).
  assert (H : P (i + 1 + Z.of_nat (Z.to_nat (count - (i + 1)))) (for_range (Z.to_nat (count - (i + 1))) (i + 1) (sort_swap i) l)).
  { apply (for_range_ind P).
    - split_and!; [done|done|]. intros k Hk. by replace k with i by lia.
    - intros j t Hj (Ht & Hpt & Hmin). assert (Hzt : zlen t = count) by (unfold zlen in *; by rewrite (Permutation_length Ht)).
      destruct (sort_swap_ok count i j t) as (H1 & H2 & H3 & H4 & H5); [done|lia|lia|done|]. split_and!; [by rewrite H1|done|].
      intros k Hk. destruct (decide (k = j)) as [->|]; [done|]. destruct (decide (k = i)) as [->|]; [done|].
      rewrite (H5 k) by lia. specialize (Hmin k ltac:(lia)). lia. }
  rewrite Z2Nat.id in H by lia. replace (i + 1 + (count - (i + 1))) with count in H by lia. destruct H as (H1 & H2 & H3). split; [done|].
  intros a b Ha Hb. destruct (decide (a = i)) as [->|]; [by apply H3|]. apply H2; lia.
Qed.

Lemma sort_samples_ok count (l : list Z) : zlen l = count -> sort_samples count l ≡ₚ l /\ placed count count (sort_samples count l).
Proof.
  intros Hz. unfold sort_samples. pose proof (zlen_nonneg l).
  pose (P := fun i t => t ≡ₚ l /\ placed count i t).
  assert (H' : P (0 + Z.of_nat (Z.to_nat count)) (for_range (Z.to_nat count) 0 (fun i l => for_range (Z.to_nat (count - (i + 1))) (i + 1) (sort_swap i) l) l)).
  { apply (for_range_ind P).
    - split; [done|]. intros a b Ha. lia.
    - intros i t Hi (Ht & Hpt). assert (Hzt : zlen t = count) by (unfold zlen in *; by rewrite (Permutation_length Ht)).
      destruct (sort_pass_ok count i t) as (H1 & H2); [done|lia|done|]. split; [by rewrite H1|done]. }
  by rewrite Z.add_0_l, Z2Nat.id in H' by lia.
Qed.

(** A percentile is the entry of the recorded samples, sorted in ascending
    order, at the position the percentage of their number gives, or the largest
    one when that position is behind the last. *)
Lemma percentile_exact s p : zlen (sample_array s) = 64 -> 0 < sample_count s <= 64 -> 0 <= p < 1000 ->
  exists sorted, sorted ≡ₚ take (Z.to_nat (sample_count s)) (sample_array s) /\
    (forall a b, 0 <= a <= b -> b < sample_count s -> sorted.[a] <= sorted.[b]) /\
    percentile s p = sorted.[Z.min (sample_count s * p / (if 100 <? p then 1000 else 100)) (sample_count s - 1)].
Proof.
  intros Hz Hc Hp. set (l := take (Z.to_nat (sample_count s)) (sample_array s)).
  assert (Hl : zlen l = sample_count s) by (apply zlen_take; lia). destruct (sort_samples_ok (sample_count s) l Hl) as [H1 H2].
  exists (sort_samples (sample_count s) l). split_and!; [done|intros; apply H2; lia|]. unfold percentile.
  rewrite (proj2 (Z.eqb_neq (sample_count s) 0)) by lia. fold l. rewrite u32_small by nia. do 2 f_equal. destruct (Z.leb_spec (sample_count s) (sample_count s * p / (if 100 <? p then 1000 else 100))); lia.
Qed.

End NetQueue.
