(* ===== verification/NetParse.v ===== *)
(** * Parsing of UDP and TCP frames (kernel/runtime/network_stack.c)

    The functions that take a received frame apart.  A structure laid over the
    frame is read at the offsets of its fields; its 32-bit fields are loaded
    with the least significant byte first, as the machine does.  The outer
    [option] is memory safety, the inner one the result of the C function.

    The lemmas [parse_udp_safe], [parse_tcp_safe], [parse_udp_v6_safe] and
    [parse_tcp_v6_safe] show that no frame makes a parser read outside of it,
    and which facts on the lengths an accepted frame gives its caller. *)

From S2P Require Import Prelude Wire Ipv4 Ipv6.

Module NetParse.
Import Wire Ipv4.

Definition NETWORK_ETHERTYPE_IPV4 : Z := 0x0800.
Definition NETWORK_ETHERTYPE_IPV6 : Z := 0x86DD.
Definition NETWORK_IP_PROTO_UDP : Z := 17.
Definition NETWORK_IP_PROTO_TCP : Z := 6.
Definition TCP_OPT_END : Z := 0.
Definition TCP_OPT_NOP : Z := 1.
Definition TCP_OPT_MSS : Z := 2.
Definition TCP_OPT_WSCALE : Z := 3.

(** A 32-bit load. *)
Definition load32 (b : list Z) (i : Z) : option Z :=
  b0 ← rd b i; b1 ← rd b (i + 1); b2 ← rd b (i + 2); b3 ← rd b (i + 3);
  Some (Z.lor (Z.lor (Z.lor b0 (Z.shiftl b1 8)) (Z.shiftl b2 16)) (Z.shiftl b3 24)).

(** [src[k]] is byte [k] of the word in memory. *)
Definition ip4_addr_host_order (a : Z) : Z :=
  Z.lor (Z.lor (Z.lor (u8 a) (Z.shiftl (u8 (Z.shiftr a 8)) 8)) (Z.shiftl (u8 (Z.shiftr a 16)) 16)) (Z.shiftl (u8 (Z.shiftr a 24)) 24).

Definition checksum_u16 (data : list Z) (length : Z) : option Z :=
  sum ← add_words data length 0; Some (complement sum).

(** ** TCP options *)

(** The loop, with the largest segment size and the window scale read so far.
    Every round moves the offset forward, so [hdr_bytes] rounds are enough
    ([options_safe]). *)
Fixpoint options_loop (fuel : nat) (tcp_hdr : list Z) (hdr_bytes offset mss ws : Z) : option (Z * Z) :=
  match fuel with
  | O => None
  | S fuel' =>
      if hdr_bytes <? offset + 1 then Some (mss, ws) else
      kind ← rd tcp_hdr offset;
      if kind =? TCP_OPT_END then Some (mss, ws) else
      if kind =? TCP_OPT_NOP then options_loop fuel' tcp_hdr hdr_bytes (offset + 1) mss ws else
      if hdr_bytes <? offset + 2 then Some (mss, ws) else
      len ← rd tcp_hdr (offset + 1);
      if (len <? 2) || (hdr_bytes <? offset + len) then Some (mss, ws) else
      '(mss, ws) ← (if (kind =? TCP_OPT_MSS) && (len =? 4) && (offset + 4 <=? hdr_bytes) then m ← get_be16 tcp_hdr (offset + 2); Some (m, ws)
                    else if (kind =? TCP_OPT_WSCALE) && (len =? 3) then w ← rd tcp_hdr (offset + 2); Some (mss, w)
                    else Some (mss, ws));
      options_loop fuel' tcp_hdr hdr_bytes (offset + len) mss ws
  end.

Definition parse_tcp_options (tcp_hdr : list Z) (hdr_bytes : Z) : option (Z * Z) :=
  options_loop (S (Z.to_nat hdr_bytes)) tcp_hdr hdr_bytes 20 0 0.

(** ** IPv4 *)

Definition eth_frame_has_ipv4 (frame : list Z) (frame_len : Z) : option bool :=
  if frame_len <? 14 + 20 then Some false else
  ethertype ← get_be16 frame 12;
  if negb (ethertype =? NETWORK_ETHERTYPE_IPV4) then Some false else
  version_ihl ← rd frame 14;
  Some (Z.shiftr version_ihl 4 =? 4).

Record udp_info := mk_udp { u_src_port : Z; u_dst_port : Z; u_len : Z; u_src_address : Z; u_dst_address : Z }.

(** [(ip->checksum != 0U) && (checksum_u16(ip, ip_header_bytes) != 0U)] *)
Definition header_corrupt (ip : list Z) (ip_header_bytes : Z) : option bool :=
  c ← get_be16 ip 10;
  if c =? 0 then Some false else
  s ← checksum_u16 ip ip_header_bytes;
  Some (negb (s =? 0)).

Definition parse_udp (frame : list Z) (frame_len : Z) : option (option udp_info) :=
  ipv4 ← eth_frame_has_ipv4 frame frame_len;
  if negb ipv4 then Some None else
  let ip := at_ptr frame 14 in
  version_ihl ← rd ip 0;
  let ip_header_bytes := Z.land version_ihl 0x0f * 4 in
  ip_len ← get_be16 ip 2;
  protocol ← rd ip 9;
  if negb (protocol =? NETWORK_IP_PROTO_UDP) then Some None else
  if (ip_header_bytes <? 20) || (ip_len <? ip_header_bytes) then Some None else
  let udp := at_ptr ip ip_header_bytes in
  let udp_start := 14 + ip_header_bytes in
  let udp_end := 14 + ip_len in
  if (frame_len <? udp_end) || (ip_len <? ip_header_bytes + 8) then Some None else
  udp_length ← get_be16 udp 4;
  if (udp_length <? 8) || (udp_end <? udp_start + 8) || (udp_end <? udp_start + udp_length) then Some None else
  bad ← header_corrupt ip ip_header_bytes;
  if bad : bool then Some None else
  src_port ← get_be16 udp 0;
  dst_port ← get_be16 udp 2;
  source ← load32 ip 12;
  destination ← load32 ip 16;
  Some (Some (mk_udp src_port dst_port udp_length (ip4_addr_host_order source) (ip4_addr_host_order destination))).

Record tcp_info := mk_tcp { t_src_port : Z; t_dst_port : Z; t_seq : Z; t_ack : Z; t_flags : Z }.

Definition tcp_fields (tcp : list Z) : option tcp_info :=
  src_port ← get_be16 tcp 0;
  dst_port ← get_be16 tcp 2;
  seq ← get_be32 tcp 4;
  ack ← get_be32 tcp 8;
  flags ← rd tcp 13;
  Some (mk_tcp src_port dst_port seq ack flags).

Definition parse_tcp (frame : list Z) (frame_len : Z) : option (option tcp_info) :=
  ipv4 ← eth_frame_has_ipv4 frame frame_len;
  if negb ipv4 then Some None else
  let ip := at_ptr frame 14 in
  version_ihl ← rd ip 0;
  let ip_header_bytes := Z.land version_ihl 0x0f * 4 in
  ip_len ← get_be16 ip 2;
  protocol ← rd ip 9;
  if negb (protocol =? NETWORK_IP_PROTO_TCP) then Some None else
  if (ip_header_bytes <? 20) || (ip_len <? ip_header_bytes + 20) then Some None else
  if frame_len <? 14 + ip_len then Some None else
  let tcp := at_ptr ip ip_header_bytes in
  b12 ← rd tcp 12;
  let data_offset_words := Z.shiftr b12 4 in
  if data_offset_words <? 5 then Some None else
  if 15 <? data_offset_words then Some None else
  let tcp_header_bytes := data_offset_words * 4 in
  if ip_len - ip_header_bytes <? tcp_header_bytes then Some None else
  if 60 <? tcp_header_bytes then Some None else
  let tcp_payload_len := ip_len - ip_header_bytes - tcp_header_bytes in
  let tcp_len := u16 (tcp_header_bytes + tcp_payload_len) in
  if ip_len <? tcp_header_bytes then Some None else
  bad ← header_corrupt ip ip_header_bytes;
  if bad : bool then Some None else
  src_ip_be ← load32 ip 12;
  dst_ip_be ← load32 ip 16;
  wire_cksum ← get_be16 tcp 16;
  computed ← (if wire_cksum =? 0 then Some 0 else ipv4_pseudo_checksum src_ip_be dst_ip_be NETWORK_IP_PROTO_TCP tcp_len tcp tcp_len);
  if negb (computed =? 0) then Some None else
  t ← tcp_fields tcp;
  Some (Some t).

(** ** IPv6 *)

Definition eth_frame_has_ipv6 (frame : list Z) (frame_len : Z) : option bool :=
  if frame_len <? 14 + Ipv6.XAIOS_IPV6_HEADER_SIZE then Some false else
  ethertype ← get_be16 frame 12;
  if negb (ethertype =? NETWORK_ETHERTYPE_IPV6) then Some false else
  b ← rd frame 14;
  Some (Z.shiftr b 4 =? 6).

Record udp6_info := mk_udp6 { u6_src_port : Z; u6_dst_port : Z; u6_len : Z; u6_src : xaios_ip_addr; u6_dst : xaios_ip_addr }.

(** The pseudo-header checksum of [len] bytes behind the IPv6 header. *)
Definition upper_checksum (ip6 : list Z) (protocol len : Z) : option Z :=
  src ← xaios_ip_addr_from_raw_ipv6 (at_ptr ip6 8);
  dst ← xaios_ip_addr_from_raw_ipv6 (at_ptr ip6 24);
  Ipv6.ipv6_pseudo_checksum src dst protocol len (Some (at_ptr ip6 Ipv6.XAIOS_IPV6_HEADER_SIZE)) len.

Definition parse_udp_v6 (frame : list Z) (frame_len : Z) : option (option udp6_info) :=
  ipv6 ← eth_frame_has_ipv6 frame frame_len;
  if negb ipv6 then Some None else
  let ip6 := at_ptr frame 14 in
  plen ← get_be16 ip6 4;
  next_hdr ← rd ip6 6;
  if negb (next_hdr =? NETWORK_IP_PROTO_UDP) then Some None else
  if frame_len <? 14 + Ipv6.XAIOS_IPV6_HEADER_SIZE + 8 then Some None else
  if frame_len <? 14 + Ipv6.XAIOS_IPV6_HEADER_SIZE + plen then Some None else
  let udp := at_ptr ip6 Ipv6.XAIOS_IPV6_HEADER_SIZE in
  udp_len ← get_be16 udp 4;
  if (udp_len <? 8) || (plen <? udp_len) then Some None else
  src_port ← get_be16 udp 0;
  dst_port ← get_be16 udp 2;
  wire_udp_cksum ← get_be16 udp 6;
  if wire_udp_cksum =? 0 then Some None else
  computed ← upper_checksum ip6 NETWORK_IP_PROTO_UDP udp_len;
  if negb (computed =? 0) then Some None else
  src ← xaios_ip_addr_from_raw_ipv6 (at_ptr ip6 8);
  dst ← xaios_ip_addr_from_raw_ipv6 (at_ptr ip6 24);
  Some (Some (mk_udp6 src_port dst_port udp_len src dst)).

Record tcp6_info := mk_tcp6 { t6 : tcp_info; t6_src : xaios_ip_addr; t6_dst : xaios_ip_addr }.

Definition parse_tcp_v6 (frame : list Z) (frame_len : Z) : option (option tcp6_info) :=
  ipv6 ← eth_frame_has_ipv6 frame frame_len;
  if negb ipv6 then Some None else
  let ip6 := at_ptr frame 14 in
  plen ← get_be16 ip6 4;
  next_hdr ← rd ip6 6;
  if negb (next_hdr =? NETWORK_IP_PROTO_TCP) then Some None else
  if frame_len <? 14 + Ipv6.XAIOS_IPV6_HEADER_SIZE + 20 then Some None else
  if frame_len <? 14 + Ipv6.XAIOS_IPV6_HEADER_SIZE + plen then Some None else
  let tcp := at_ptr ip6 Ipv6.XAIOS_IPV6_HEADER_SIZE in
  b12 ← rd tcp 12;
  let data_offset_words := Z.shiftr b12 4 in
  if (data_offset_words <? 5) || (15 <? data_offset_words) then Some None else
  let tcp_hdr_bytes := data_offset_words * 4 in
  if plen <? tcp_hdr_bytes then Some None else
  t ← tcp_fields tcp;
  let tcp_total := tcp_hdr_bytes + (plen - tcp_hdr_bytes) in
  wire_cksum ← get_be16 tcp 16;
  computed ← (if wire_cksum =? 0 then Some 0 else upper_checksum ip6 NETWORK_IP_PROTO_TCP tcp_total);
  if negb (computed =? 0) then Some None else
  src ← xaios_ip_addr_from_raw_ipv6 (at_ptr ip6 8);
  dst ← xaios_ip_addr_from_raw_ipv6 (at_ptr ip6 24);
  Some (Some (mk_tcp6 t src dst)).

(** ** Safety *)

Ltac next_read x H := eapply yields_bind; [first [apply yields_rd|apply yields_be16|apply yields_be32]; (auto with xaios; lia)|]; cbv beta; intros x H.

(** Options never lead outside of the header. *)
Lemma options_safe tcp hdr : bytes tcp -> hdr <= zlen tcp -> forall fuel offset mss ws, 0 <= offset -> hdr - offset < Z.of_nat fuel -> (0 < fuel)%nat ->
  0 <= mss < 65536 -> byte ws -> yields (fun r => 0 <= r.1 < 65536 /\ byte r.2) (options_loop fuel tcp hdr offset mss ws).
Proof.
  intros Hb Hh. induction fuel as [|fuel IH]; intros offset mss ws Ho Hf Hp Hm Hw; [lia|]. cbn [options_loop].
  destruct (Z.ltb_spec hdr (offset + 1)); [by apply yields_ret|]. next_read kind Hk. case_if; [by apply yields_ret|].
  case_if; [apply IH; (done || lia)|]. destruct (Z.ltb_spec hdr (offset + 2)); [by apply yields_ret|]. next_read len Hl.
  destruct ((len <? 2) || (hdr <? offset + len)) eqn:Hbad; [by apply yields_ret|]. apply orb_false_iff in Hbad as [H1%Z.ltb_ge H2%Z.ltb_ge].
  eapply (yields_bind (fun r => 0 <= r.1 < 65536 /\ byte r.2)).
  - case_if; [|case_if; [|by apply yields_ret]].
    + apply andb_true_iff in Heqb1 as [[_ _]%andb_true_iff H4%Z.leb_le]. next_read m Hv. apply yields_ret. by destruct Hv.
    + apply andb_true_iff in Heqb2 as [_ H3%Z.eqb_eq]. next_read w Hv. apply yields_ret. by destruct Hv.
  - intros [m w] [Hm' Hw']. apply IH; (done || lia).
Qed.

Lemma parse_tcp_options_safe tcp hdr : bytes tcp -> 0 <= hdr <= zlen tcp -> yields (fun r => 0 <= r.1 < 65536 /\ byte r.2) (parse_tcp_options tcp hdr).
Proof. intros Hb Hh. apply options_safe; try done; unfold byte; lia. Qed.

Lemma has_ipv4_safe f n : bytes f -> n <= zlen f -> yields (fun r => r = true -> 34 <= n) (eth_frame_has_ipv4 f n).
Proof.
  intros Hb Hn. unfold eth_frame_has_ipv4. destruct (Z.ltb_spec n (14 + 20)); [by apply yields_ret|]. next_read e He. case_if; [by apply yields_ret|].
  next_read v Hv. apply yields_ret. lia.
Qed.

Lemma has_ipv6_safe f n : bytes f -> n <= zlen f -> yields (fun r => r = true -> 54 <= n) (eth_frame_has_ipv6 f n).
Proof.
  intros Hb Hn. unfold eth_frame_has_ipv6, Ipv6.XAIOS_IPV6_HEADER_SIZE. destruct (Z.ltb_spec n (14 + 40)); [by apply yields_ret|].
  next_read e He. case_if; [by apply yields_ret|]. next_read v Hv. apply yields_ret. lia.
Qed.

Lemma checksum_safe d n : bytes d -> 0 <= n <= zlen d -> n < 65536 -> yields (fun _ => True) (checksum_u16 d n).
Proof.
  intros Hb Hn Hm. unfold checksum_u16. rewrite add_words_ok by (done || lia). by apply yields_ret.
Qed.

Lemma header_corrupt_safe ip n : bytes ip -> 12 <= n <= zlen ip -> n < 65536 -> yields (fun _ => True) (header_corrupt ip n).
Proof.
  intros Hb Hn Hm. unfold header_corrupt. next_read c Hc. case_if; [by apply yields_ret|].
  eapply yields_bind; [by apply checksum_safe; [|lia|]|]. intros s _. by apply yields_ret.
Qed.

Lemma load32_safe b i : bytes b -> 0 <= i -> i + 3 < zlen b -> yields (fun v => 0 <= v < 4294967296) (load32 b i).
Proof.
  intros Hb Hi Hl. unfold load32. next_read b0 H0. next_read b1 H1. next_read b2 H2. next_read b3 H3. apply yields_ret.
  destruct H0 as [H0 _], H1 as [H1 _], H2 as [H2 _], H3 as [H3 _].
  rewrite (Z.lor_comm (Z.lor _ _)), (Z.lor_comm (Z.lor _ _) (Z.shiftl b2 16)), (Z.lor_comm b0), !Z.lor_assoc.
  rewrite be32_value by done. unfold byte in *. lia.
Qed.

Definition ip_bytes (f : list Z) : Z := Z.land (f.[14]) 0x0f * 4.
Definition tcp_bytes (f : list Z) (o : Z) : Z := Z.shiftr (f.[o + 12]) 4 * 4.
Definition word16 (f : list Z) (o : Z) : Z := 256 * f.[o] + f.[o + 1].

Lemma ip_bytes_bound f : 0 <= ip_bytes f <= 60.
Proof. unfold ip_bytes. change 0x0f with (2 ^ 4 - 1). rewrite land_low_mask by lia. change (2 ^ 4) with 16. dlia. Qed.

Lemma tcp_bytes_bound f o : bytes f -> 0 <= tcp_bytes f o <= 60.
Proof. intros Hb. unfold tcp_bytes. pose proof (bytes_get f (o + 12) Hb) as H. unfold byte in H. rewrite Z.shiftr_div_pow2 by lia. change (2 ^ 4) with 16. dlia. Qed.

(** What an accepted UDP frame of [n] bytes guarantees. *)
Record udp_ok (f : list Z) (n : Z) (u : udp_info) : Prop := {
  uo_header : 20 <= ip_bytes f;
  uo_len : 8 <= u_len u < 65536;
  uo_end : 14 + ip_bytes f + u_len u <= n;
  uo_src : 0 <= u_src_port u < 65536;
  uo_dst : 0 <= u_dst_port u < 65536
}.

Lemma parse_udp_safe f n : bytes f -> n <= zlen f -> yields (fun r => forall u, r = Some u -> udp_ok f n u) (parse_udp f n).
Proof.
  intros Hb Hn. unfold parse_udp. eapply yields_bind; [by apply has_ipv4_safe|]. cbv beta. intros [] H4; [specialize (H4 eq_refl)|by apply yields_ret].
  cbn [negb]. cbv iota. pose proof (bytes_at_ptr f 14 Hb) as Hbi. pose proof (zlen_at_ptr f 14 ltac:(lia)) as Hzi. next_read v Hv. destruct Hv as [_ Hv].
  rewrite at_ptr_get in Hv by lia. change (14 + 0) with 14 in Hv. subst v. fold (ip_bytes f). pose proof (ip_bytes_bound f). next_read len Hlen. next_read pr Hpr. cbv zeta.
  case_if; [by apply yields_ret|]. destruct (Z.ltb_spec (ip_bytes f) 20); [by apply yields_ret|]. cbn [orb]. destruct (Z.ltb_spec len (ip_bytes f)); [by apply yields_ret|].
  destruct (Z.ltb_spec n (14 + len)); [by apply yields_ret|]. cbn [orb]. destruct (Z.ltb_spec len (ip_bytes f + 8)); [by apply yields_ret|].
  pose proof (bytes_at_ptr (at_ptr f 14) (ip_bytes f) Hbi) as Hbu. pose proof (zlen_at_ptr (at_ptr f 14) (ip_bytes f) ltac:(lia)) as Hzu.
  next_read ul Hul. destruct ((ul <? 8) || _ || _) eqn:Hbad; [by apply yields_ret|]. apply orb_false_iff in Hbad as [[B1%Z.ltb_ge B2%Z.ltb_ge]%orb_false_iff B3%Z.ltb_ge].
  eapply yields_bind; [apply header_corrupt_safe; [done|lia|lia]|]. cbv beta. intros [] _; [by apply yields_ret|].
  next_read sp Hsp. next_read dp Hdp. eapply yields_bind; [apply load32_safe; [done|lia|lia]|]. intros src _. eapply yields_bind; [apply load32_safe; [done|lia|lia]|]. intros dst _.
  apply yields_ret. intros u [= <-]. destruct Hul, Hsp, Hdp. split; simpl; lia.
Qed.

(** What an accepted TCP frame guarantees; [o] is where the TCP header starts
    and [e] where the packet ends. *)
Record tcp_ok (f : list Z) (o e : Z) (t : tcp_info) : Prop := {
  tk_words : 20 <= tcp_bytes f o;
  tk_end : o + tcp_bytes f o <= e;
  tk_src : 0 <= t_src_port t < 65536;
  tk_dst : 0 <= t_dst_port t < 65536;
  tk_seq : 0 <= t_seq t < 4294967296;
  tk_ack : 0 <= t_ack t < 4294967296
}.

Lemma tcp_fields_safe tcp : bytes tcp -> 20 <= zlen tcp ->
  yields (fun t => 0 <= t_src_port t < 65536 /\ 0 <= t_dst_port t < 65536 /\ 0 <= t_seq t < 4294967296 /\ 0 <= t_ack t < 4294967296) (tcp_fields tcp).
Proof.
  intros Hb Hl. unfold tcp_fields. next_read sp Hsp. next_read dp Hdp. next_read sq Hsq. next_read ak Hak. next_read fl Hfl. apply yields_ret. simpl.
  destruct Hsp, Hdp, Hsq, Hak. lia.
Qed.

(** The sum of the pseudo-header of an IPv4 packet. *)
Definition pseudo4 (src dst pr len : Z) : Z :=
  Z.land (Z.shiftr src 16) 0xFFFF + Z.land src 0xFFFF + Z.land (Z.shiftr dst 16) 0xFFFF + Z.land dst 0xFFFF + pr + len.

Lemma pseudo4_bound src dst pr len : 0 <= pr < 256 -> 0 <= len < 65536 -> 0 <= pseudo4 src dst pr len < 400000.
Proof.
  intros Hp Hl. assert (L : forall x, 0 <= Z.land x 0xFFFF < 65536).
  { intros x. change 0xFFFF with (2 ^ 16 - 1). rewrite land_low_mask by lia. change (2 ^ 16) with 65536. dlia. }
  unfold pseudo4. pose proof (L (Z.shiftr src 16)). pose proof (L src). pose proof (L (Z.shiftr dst 16)). pose proof (L dst). lia.
Qed.

Lemma pseudo4_ok src dst pr len p : bytes p -> 0 <= len <= zlen p -> len < 65536 -> 0 <= pr < 256 ->
  ipv4_pseudo_checksum src dst pr len p len = Some (complement (pseudo4 src dst pr len + words (take (Z.to_nat len) p))).
Proof.
  intros Hb Hl Hm Hp. unfold ipv4_pseudo_checksum. cbv zeta. fold (pseudo4 src dst pr len). pose proof (pseudo4_bound src dst pr len Hp ltac:(lia)).
  by rewrite add_words_ok by (done || lia).
Qed.

Lemma parse_tcp_safe f n : bytes f -> n <= zlen f ->
  yields (fun r => forall t, r = Some t -> 20 <= ip_bytes f /\ 14 + word16 f 16 <= n /\ tcp_ok f (14 + ip_bytes f) (14 + word16 f 16) t) (parse_tcp f n).
Proof.
  intros Hb Hn. unfold parse_tcp. eapply yields_bind; [by apply has_ipv4_safe|]. cbv beta. intros [] H4; [specialize (H4 eq_refl)|by apply yields_ret].
  cbn [negb]. cbv iota. pose proof (bytes_at_ptr f 14 Hb) as Hbi. pose proof (zlen_at_ptr f 14 ltac:(lia)) as Hzi. next_read v Hv. destruct Hv as [_ Hv].
  rewrite at_ptr_get in Hv by lia. change (14 + 0) with 14 in Hv. subst v. fold (ip_bytes f). pose proof (ip_bytes_bound f). next_read len Hlen. destruct Hlen as [Hlr Hlen].
  rewrite get_be16_at_ptr, get_be16_ok in Hlen by (done || lia). change (14 + 2) with 16 in Hlen. fold (word16 f 16) in Hlen. injection Hlen as Hlen. subst len.
  set (len := word16 f 16) in *. clearbody len. next_read pr Hpr. cbv zeta.
  case_if; [by apply yields_ret|]. destruct (Z.ltb_spec (ip_bytes f) 20); [by apply yields_ret|]. cbn [orb]. destruct (Z.ltb_spec len (ip_bytes f + 20)); [by apply yields_ret|].
  destruct (Z.ltb_spec n (14 + len)); [by apply yields_ret|]. set (hb := ip_bytes f) in *.
  pose proof (bytes_at_ptr (at_ptr f 14) hb Hbi) as Hbt. pose proof (zlen_at_ptr (at_ptr f 14) hb ltac:(lia)) as Hzt.
  next_read b12 H12. destruct H12 as [_ H12]. rewrite !at_ptr_get in H12 by lia. subst b12. rewrite Z.add_assoc. change (Z.shiftr (f.[14 + hb + 12]) 4 * 4) with (tcp_bytes f (14 + hb)).
  pose proof (tcp_bytes_bound f (14 + hb) Hb) as Htb. unfold tcp_bytes in Htb. set (w := Z.shiftr (f.[14 + hb + 12]) 4) in *.
  destruct (Z.ltb_spec w 5); [by apply yields_ret|]. destruct (Z.ltb_spec 15 w); [by apply yields_ret|]. unfold tcp_bytes. fold w.
  destruct (Z.ltb_spec (len - hb) (w * 4)); [by apply yields_ret|]. case_if; [by apply yields_ret|]. case_if; [by apply yields_ret|].
  eapply yields_bind; [apply header_corrupt_safe; [done|lia|lia]|]. cbv beta. intros [] _; [by apply yields_ret|].
  eapply yields_bind; [apply load32_safe; [done|lia|lia]|]. intros src _. eapply yields_bind; [apply load32_safe; [done|lia|lia]|]. intros dst _. next_read ck Hck.
  replace (w * 4 + (len - hb - w * 4)) with (len - hb) by lia. rewrite u16_small by lia.
  eapply (yields_bind (fun _ => True)); [case_if; [by apply yields_ret|rewrite pseudo4_ok by (done || lia || (unfold NETWORK_IP_PROTO_TCP; lia)); by apply yields_ret]|].
  intros c _. case_if; [by apply yields_ret|]. eapply yields_bind; [apply tcp_fields_safe; [done|lia]|]. intros t (T1 & T2 & T3 & T4). apply yields_ret. intros u [= <-].
  split; [done|]. split; [lia|]. split; unfold tcp_bytes; fold w; (done || lia).
Qed.

Lemma raw_v6_safe p : bytes p -> 16 <= zlen p -> yields v6 (xaios_ip_addr_from_raw_ipv6 p).
Proof.
  intros Hb Hl. unfold xaios_ip_addr_from_raw_ipv6. rewrite read_bytes_ok by lia. apply yields_ret. split; [|done]. split; [by apply bytes_take|].
  simpl. by rewrite zlen_take by lia.
Qed.

Lemma upper_checksum_safe ip6 pr len : bytes ip6 -> 40 + len <= zlen ip6 -> 0 <= len < 65536 -> yields (fun _ => True) (upper_checksum ip6 pr len).
Proof.
  intros Hb Hl Hn. unfold upper_checksum, Ipv6.XAIOS_IPV6_HEADER_SIZE.
  eapply yields_bind; [apply raw_v6_safe; [auto with xaios|rewrite zlen_at_ptr by lia; lia]|]. intros src [Hs _].
  eapply yields_bind; [apply raw_v6_safe; [auto with xaios|rewrite zlen_at_ptr by lia; lia]|]. intros dst [Hd _].
  rewrite Ipv6.pseudo_checksum_ok; [by apply yields_ret|done|done|auto with xaios|rewrite zlen_at_ptr by lia; lia|lia].
Qed.

(** The ports, the length and the addresses of an accepted IPv6 UDP frame. *)
Record udp6_ok (n : Z) (u : udp6_info) : Prop := {
  u6o_len : 8 <= u6_len u < 65536;
  u6o_end : 54 + u6_len u <= n;
  u6o_src : v6 (u6_src u);
  u6o_dst : v6 (u6_dst u)
}.

Lemma parse_udp_v6_safe f n : bytes f -> n <= zlen f -> yields (fun r => forall u, r = Some u -> udp6_ok n u) (parse_udp_v6 f n).
Proof.
  intros Hb Hn. unfold parse_udp_v6, Ipv6.XAIOS_IPV6_HEADER_SIZE. eapply yields_bind; [by apply has_ipv6_safe|]. cbv beta. intros [] H6; [specialize (H6 eq_refl)|by apply yields_ret].
  cbn [negb]. cbv iota. pose proof (bytes_at_ptr f 14 Hb) as Hbi. pose proof (zlen_at_ptr f 14 ltac:(lia)) as Hzi. next_read len Hlen. next_read nh Hnh. cbv zeta.
  case_if; [by apply yields_ret|]. destruct (Z.ltb_spec n (14 + 40 + 8)); [by apply yields_ret|]. destruct (Z.ltb_spec n (14 + 40 + len)); [by apply yields_ret|].
  pose proof (bytes_at_ptr (at_ptr f 14) 40 Hbi) as Hbu. pose proof (zlen_at_ptr (at_ptr f 14) 40 ltac:(lia)) as Hzu. next_read ul Hul.
  destruct (Z.ltb_spec ul 8); [by apply yields_ret|]. cbn [orb]. destruct (Z.ltb_spec len ul); [by apply yields_ret|]. next_read sp Hsp. next_read dp Hdp. next_read ck Hck.
  case_if; [by apply yields_ret|]. eapply yields_bind; [apply upper_checksum_safe; [done|lia|lia]|]. intros c _. case_if; [by apply yields_ret|].
  eapply yields_bind; [apply raw_v6_safe; [auto with xaios|rewrite zlen_at_ptr by lia; lia]|]. intros src Hs.
  eapply yields_bind; [apply raw_v6_safe; [auto with xaios|rewrite zlen_at_ptr by lia; lia]|]. intros dst Hd.
  apply yields_ret. intros u [= <-]. split; simpl; (done || lia).
Qed.

Lemma parse_tcp_v6_safe f n : bytes f -> n <= zlen f ->
  yields (fun r => forall t, r = Some t -> 54 + word16 f 18 <= n /\ tcp_ok f 54 (54 + word16 f 18) (t6 t) /\ v6 (t6_src t) /\ v6 (t6_dst t)) (parse_tcp_v6 f n).
Proof.
  intros Hb Hn. unfold parse_tcp_v6, Ipv6.XAIOS_IPV6_HEADER_SIZE. eapply yields_bind; [by apply has_ipv6_safe|]. cbv beta. intros [] H6; [specialize (H6 eq_refl)|by apply yields_ret].
  cbn [negb]. cbv iota. pose proof (bytes_at_ptr f 14 Hb) as Hbi. pose proof (zlen_at_ptr f 14 ltac:(lia)) as Hzi. next_read len Hlen. destruct Hlen as [Hlr Hlen].
  rewrite get_be16_at_ptr, get_be16_ok in Hlen by (done || lia). change (14 + 4) with 18 in Hlen. fold (word16 f 18) in Hlen. injection Hlen as Hlen. subst len.
  set (len := word16 f 18) in *. clearbody len. next_read nh Hnh. cbv zeta.
  case_if; [by apply yields_ret|]. destruct (Z.ltb_spec n (14 + 40 + 20)); [by apply yields_ret|]. destruct (Z.ltb_spec n (14 + 40 + len)); [by apply yields_ret|].
  pose proof (bytes_at_ptr (at_ptr f 14) 40 Hbi) as Hbt. pose proof (zlen_at_ptr (at_ptr f 14) 40 ltac:(lia)) as Hzt.
  next_read b12 H12. destruct H12 as [_ H12]. rewrite !at_ptr_get in H12 by lia. change (14 + (40 + 12)) with (54 + 12) in H12. subst b12.
  pose proof (tcp_bytes_bound f 54 Hb) as Htb. unfold tcp_bytes in Htb. set (w := Z.shiftr (f.[54 + 12]) 4) in *.
  destruct (Z.ltb_spec w 5); [by apply yields_ret|]. destruct (Z.ltb_spec 15 w); [by apply yields_ret|]. cbn [orb]. destruct (Z.ltb_spec len (w * 4)); [by apply yields_ret|].
  eapply yields_bind; [apply tcp_fields_safe; [done|lia]|]. intros t (T1 & T2 & T3 & T4). next_read ck Hck. replace (w * 4 + (len - w * 4)) with len by lia.
  eapply (yields_bind (fun _ => True)); [case_if; [by apply yields_ret|apply upper_checksum_safe; [done|lia|lia]]|]. intros c _. case_if; [by apply yields_ret|].
  eapply yields_bind; [apply raw_v6_safe; [auto with xaios|rewrite zlen_at_ptr by lia; lia]|]. intros src Hs.
  eapply yields_bind; [apply raw_v6_safe; [auto with xaios|rewrite zlen_at_ptr by lia; lia]|]. intros dst Hd.
  apply yields_ret. intros u [= <-]. simpl. split; [lia|]. split; [|done]. split; unfold tcp_bytes; fold w; (done || lia).
Qed.

End NetParse.
