(* ===== verification/NetListen.v ===== *)
(** * Listeners and sockets (kernel/runtime/network_stack.c)

    The table of listeners, each with the queue of connections that wait to be
    accepted, and the map from sockets to flows.  A listener's queue is the
    first [backlog_count] entries of its array; dequeuing moves the others down.

    [accept_queues_refine] shows that the table behaves as a map from ports to
    lists of bounded first-in first-out queues, one for each listener of the
    port, of which the first one receives and gives out the connections. *)

From S2P Require Import Prelude Wire.

Module NetListen.
Import Wire.

Definition NETWORK_MAX_LISTENERS : Z := 8.
Definition NETWORK_LISTENER_BACKLOG : Z := 8.
Definition NETWORK_SOCK_FLOW_MAP_SIZE : Z := 16.

Record listener_accept_entry := mk_accept {
  a_flow_id : Z;
  a_peer_ip : Z;
  a_peer_addr : xaios_ip_addr;
  a_peer_port : Z;
  a_local_port : Z;
  a_active : Z
}.

#[global] Instance accept_inhabited : Inhabited listener_accept_entry := populate (mk_accept 0 0 xaios_ip_addr_zero 0 0 0).

Record network_listener_ex := mk_listener {
  port : Z;
  sockfd : Z;
  active : Z;
  backlog : list listener_accept_entry;
  backlog_count : Z
}.

#[global] Instance listener_eta : Eta network_listener_ex := fun r => mk_listener (port r) (sockfd r) (active r) (backlog r) (backlog_count r).

Definition zero_listener : network_listener_ex := mk_listener 0 0 0 (replicate (Z.to_nat NETWORK_LISTENER_BACKLOG) inhabitant) 0.

#[global] Instance listener_inhabited : Inhabited network_listener_ex := populate zero_listener.

Definition listeners0 : list network_listener_ex := replicate (Z.to_nat NETWORK_MAX_LISTENERS) zero_listener.

Definition listens (p : Z) (l : network_listener_ex) : bool := negb (active l =? 0) && (port l =? p).

Definition find_listener_ex (t : list network_listener_ex) (p : Z) : option Z := Z.of_nat <$> find_idx (listens p) t.

Definition network_stack_has_listener (t : list network_listener_ex) (p : Z) : bool := bool_decide (is_Some (find_listener_ex t p)).

(** The entry that is queued: without an address it is the zero address of the
    IPv4 family. *)
Definition accept_entry (p flow_id peer_ip peer_port : Z) (peer_addr : option xaios_ip_addr) : listener_accept_entry :=
  mk_accept flow_id peer_ip
    (match peer_addr with Some a => a | None => mk_addr XAIOS_IP_FAMILY_V4 (addr xaios_ip_addr_zero) end) peer_port p 1.

Definition listener_enqueue_backlog (t : list network_listener_ex) (p flow_id peer_ip peer_port : Z) (peer_addr : option xaios_ip_addr)
    : list network_listener_ex * bool :=
  match find_listener_ex t p with
  | None => (t, false)
  | Some i =>
      let l := t.[i] in
      if NETWORK_LISTENER_BACKLOG <=? backlog_count l then (t, false) else
      (t.[i <- l <| backlog ::= fun b => b.[backlog_count l <- accept_entry p flow_id peer_ip peer_port peer_addr] |>
                 <| backlog_count := backlog_count l + 1 |>], true)
  end.

(** [for (i = 1; i < count; ++i) backlog[i - 1] = backlog[i];] *)
Definition shift_down (b : list listener_accept_entry) (count : Z) : list listener_accept_entry :=
  for_range (Z.to_nat (count - 1)) 1 (fun i b => b.[i - 1 <- b.[i]]) b.

(** The outputs are the flow, the peer's address and its port. *)
Definition listener_dequeue_backlog (t : list network_listener_ex) (p : Z) : list network_listener_ex * option (Z * Z * Z) :=
  match find_listener_ex t p with
  | None => (t, None)
  | Some i =>
      let l := t.[i] in
      if backlog_count l =? 0 then (t, None) else
      let e := (backlog l).[0] in
      (t.[i <- l <| backlog ::= fun b => shift_down b (backlog_count l) |> <| backlog_count := backlog_count l - 1 |>],
       Some (a_flow_id e, a_peer_ip e, a_peer_port e))
  end.

Definition network_stack_register_listener (t : list network_listener_ex) (p fd : Z) : list network_listener_ex :=
  match find_idx (fun l => active l =? 0) t with
  | Some i => upd t (Z.of_nat i) (fun l => l <| port := p |> <| sockfd := fd |> <| active := 1 |> <| backlog_count := 0 |>)
  | None => t
  end.

Definition network_stack_unregister_listener (t : list network_listener_ex) (p : Z) : list network_listener_ex :=
  match find_idx (listens p) t with
  | Some i => upd t (Z.of_nat i) (fun l => l <| active := 0 |> <| backlog_count := 0 |>)
  | None => t
  end.

(** [outs]: whether the output pointers are not NULL. *)
Definition network_stack_accept_connection (t : list network_listener_ex) (listen_port : Z) (outs : bool)
    : list network_listener_ex * xaios_status * option (Z * Z * Z) :=
  if negb outs then (t, XAIOS_ERR_INVALID, None) else
  let '(t, r) := listener_dequeue_backlog t listen_port in
  (t, match r with Some _ => XAIOS_OK | None => XAIOS_ERR_NOT_FOUND end, r).

(** ** Sockets *)

Record socket_flow_mapping := mk_mapping { s_sockfd : Z; s_flow_id : Z; s_protocol : Z; s_active : Z }.

#[global] Instance mapping_inhabited : Inhabited socket_flow_mapping := populate (mk_mapping 0 0 0 0).

Definition socket_map0 : list socket_flow_mapping := replicate (Z.to_nat NETWORK_SOCK_FLOW_MAP_SIZE) inhabitant.

Definition maps (fd : Z) (m : socket_flow_mapping) : bool := negb (s_active m =? 0) && (s_sockfd m =? fd).

Definition network_stack_map_socket (t : list socket_flow_mapping) (fd flow_id protocol : Z) : list socket_flow_mapping :=
  match find_idx (fun m => s_active m =? 0) t with
  | Some i => t.[Z.of_nat i <- mk_mapping fd flow_id protocol 1]
  | None => t
  end.

Definition network_stack_get_socket_mapping (t : list socket_flow_mapping) (fd : Z) : option Z := Z.of_nat <$> find_idx (maps fd) t.

Definition network_stack_unmap_socket (t : list socket_flow_mapping) (fd : Z) : list socket_flow_mapping :=
  match find_idx (maps fd) t with
  | Some i => upd t (Z.of_nat i) (fun m => mk_mapping (s_sockfd m) (s_flow_id m) (s_protocol m) 0)
  | None => t
  end.

(** ** The queues of a table of listeners *)

Definition queue (l : network_listener_ex) : list listener_accept_entry := take (Z.to_nat (backlog_count l)) (backlog l).

(** The queue of a listener of port [p]. *)
Definition queue_at (p : Z) (l : network_listener_ex) : option (list listener_accept_entry) := if listens p l then Some (queue l) else None.

(** The queues of the listeners of a port, in the order of the table. *)
Definition queues_at (t : list network_listener_ex) (p : Z) : list (list listener_accept_entry) := omap (queue_at p) t.

Definition in_use (l : network_listener_ex) : bool := negb (active l =? 0).

(** The number of listeners. *)
Definition listening (t : list network_listener_ex) : Z := zlen (filter (fun l => in_use l = true) t).

Inductive listen_op :=
| OpRegister (p fd : Z)
| OpUnregister (p : Z)
| OpArrive (p flow_id peer_ip peer_port : Z) (peer_addr : option xaios_ip_addr)
| OpAccept (p : Z).

Inductive listen_out :=
| OutDone
| OutQueued (b : bool)
| OutAccepted (r : option (Z * Z * Z)).

Definition listen_step (t : list network_listener_ex) (op : listen_op) : list network_listener_ex * listen_out :=
  match op with
  | OpRegister p fd => (network_stack_register_listener t p fd, OutDone)
  | OpUnregister p => (network_stack_unregister_listener t p, OutDone)
  | OpArrive p f ip pp a => let '(t, b) := listener_enqueue_backlog t p f ip pp a in (t, OutQueued b)
  | OpAccept p => let '(t, _, r) := network_stack_accept_connection t p true in (t, OutAccepted r)
  end.

(** The listeners as ports with queues: their number, and for every port the
    queues of its listeners. *)
Record ports := mk_ports { number : Z; waiting : Z -> list (list listener_accept_entry) }.

Definition no_ports : ports := mk_ports 0 (fun _ => []).

(** [m'] is [m] with [qs] as the queues of [p]. *)
Definition becomes (m m' : ports) (p : Z) (qs : list (list listener_accept_entry)) : Prop :=
  waiting m' p = qs /\ forall k, k <> p -> waiting m' k = waiting m k.

(** The operations on ports with queues.  There are at most eight listeners, and
    at most eight connections in a queue; a new listener of a port has an empty
    queue and any place among the listeners of the port. *)
Definition ports_step (m : ports) (op : listen_op) (m' : ports) (o : listen_out) : Prop :=
  match op with
  | OpRegister p _ =>
      o = OutDone /\
      if number m <? NETWORK_MAX_LISTENERS
      then number m' = number m + 1 /\ exists l1 l2, waiting m p = l1 ++ l2 /\ becomes m m' p (l1 ++ [] :: l2)
      else number m' = number m /\ becomes m m' p (waiting m p)
  | OpUnregister p =>
      o = OutDone /\
      match waiting m p with
      | _ :: qs => number m' = number m - 1 /\ becomes m m' p qs
      | [] => number m' = number m /\ becomes m m' p []
      end
  | OpArrive p f ip pp a =>
      number m' = number m /\
      match waiting m p with
      | q :: qs => if zlen q <? NETWORK_LISTENER_BACKLOG
                   then o = OutQueued true /\ becomes m m' p ((q ++ [accept_entry p f ip pp a]) :: qs)
                   else o = OutQueued false /\ becomes m m' p (q :: qs)
      | [] => o = OutQueued false /\ becomes m m' p []
      end
  | OpAccept p =>
      number m' = number m /\
      match waiting m p with
      | (e :: q) :: qs => o = OutAccepted (Some (a_flow_id e, a_peer_ip e, a_peer_port e)) /\ becomes m m' p (q :: qs)
      | qs => o = OutAccepted None /\ becomes m m' p qs
      end
  end.

Inductive ports_steps : ports -> list listen_op -> ports -> list listen_out -> Prop :=
| PortsNil m : ports_steps m [] m []
| PortsCons m op m1 o ops m2 os : ports_step m op m1 o -> ports_steps m1 ops m2 os -> ports_steps m (op :: ops) m2 (o :: os).

Fixpoint listen_steps (t : list network_listener_ex) (ops : list listen_op) : list network_listener_ex * list listen_out :=
  match ops with
  | [] => (t, [])
  | op :: ops' => let '(t, o) := listen_step t op in let '(t, os) := listen_steps t ops' in (t, o :: os)
  end.

(** The array of a listener has eight entries and its count is within them. *)
Definition listener_ok (l : network_listener_ex) : Prop := zlen (backlog l) = NETWORK_LISTENER_BACKLOG /\ 0 <= backlog_count l <= NETWORK_LISTENER_BACKLOG.

Record table_ok (t : list network_listener_ex) : Prop := {
  to_size : zlen t = NETWORK_MAX_LISTENERS;
  to_listeners : Forall listener_ok t
}.

(** The table as ports with queues. *)
Definition ports_of (t : list network_listener_ex) : ports := mk_ports (listening t) (queues_at t).

(** ** Lemmas *)

Lemma shift_down_ok b count : 0 < count <= zlen b -> take (Z.to_nat (count - 1)) (shift_down b count) = drop 1 (take (Z.to_nat count) b) /\ zlen (shift_down b count) = zlen b.
Proof.
  intros Hc.
  pose (P := fun i c => zlen c = zlen b /\ forall j, 0 <= j < zlen b -> c.[j] = if j <? i - 1 then b.[j + 1] else b.[j]).
  assert (H : P count (shift_down b count)).
  { unfold shift_down. replace count with (1 + Z.of_nat (Z.to_nat (count - 1))) at 1 by lia. apply (for_range_ind P).
    - split; [done|]. intros j Hj. rewrite (proj2 (Z.ltb_ge _ _)) by lia. done.
    - intros i c Hi [Hz Hg]. split; [by rewrite zlen_set|]. intros j Hj. destruct (decide (j = i - 1)) as [->|Hne].
      + rewrite arr_get_set_eq by lia. rewrite Hg by lia. rewrite (proj2 (Z.ltb_ge _ _)), (proj2 (Z.ltb_lt _ _)) by lia. f_equal. lia.
      + rewrite arr_get_set_ne by lia. rewrite Hg by lia. destruct (Z.ltb_spec j (i - 1)), (Z.ltb_spec j (i + 1 - 1)); (done || lia). }
  destruct H as [Hz Hg]. split; [|done]. apply list_eq. intros k. destruct (decide (Z.of_nat k < count - 1)).
  - rewrite lookup_take_lt, lookup_drop, lookup_take_lt by lia.
    rewrite <- (Nat2Z.id k), <- (Nat2Z.id 1), <- Z2Nat.inj_add by lia. rewrite !arr_lookup by zlia. f_equal.
    rewrite Hg by zlia. rewrite (proj2 (Z.ltb_lt _ _)) by lia. f_equal. lia.
  - rewrite !lookup_ge_None_2; [done| |]; rewrite ?length_drop, length_take; lia.
Qed.

(** *** One slot of the table *)

Lemma omap_none {A B} (f : A -> option B) l : Forall (fun x => f x = None) l -> omap f l = [].
Proof. induction 1 as [|x l Hx _ IH]; [done|]. simpl. by rewrite Hx. Qed.

Lemma queues_at_slot t (i : nat) l p : t !! i = Some l ->
  queues_at t p = queues_at (take i t) p ++ option_list (queue_at p l) ++ queues_at (drop (S i) t) p.
Proof.
  intros Hi. rewrite <- (take_drop_middle t i l Hi) at 1. unfold queues_at. rewrite omap_app. simpl. by destruct (queue_at p l).
Qed.

Lemma queues_at_set t (i : nat) l' p : (i < length t)%nat ->
  queues_at (<[i := l']> t) p = queues_at (take i t) p ++ option_list (queue_at p l') ++ queues_at (drop (S i) t) p.
Proof. intros Hi. rewrite insert_take_drop by done. unfold queues_at. rewrite omap_app. simpl. by destruct (queue_at p l'). Qed.

Lemma listening_set t (i : nat) l l' : t !! i = Some l ->
  listening (<[i := l']> t) = listening t - Z.b2z (in_use l) + Z.b2z (in_use l').
Proof.
  intros Hi. pose proof (lookup_lt_Some _ _ _ Hi). unfold listening. rewrite <- (take_drop_middle t i l Hi) at 2.
  rewrite insert_take_drop by done. rewrite !filter_app, !filter_cons, !zlen_app. destruct (in_use l), (in_use l'); simpl; rewrite ?zlen_cons; lia.
Qed.

(** Before the slot that is found no listener has the port. *)
Lemma queues_before t p i : find_idx (listens p) t = Some i -> queues_at (take i t) p = [].
Proof.
  intros [_ Hb]%find_idx_Some. unfold queues_at. apply omap_none, Forall_lookup. intros j l Hl.
  apply lookup_take_Some in Hl as [Hl Hj]. unfold queue_at. by rewrite (Hb j l Hj Hl).
Qed.

Lemma search_listener t p i :
  table_ok t -> find_idx (listens p) t = Some i ->
  exists l, t !! i = Some l /\ t.[Z.of_nat i] = l /\ listener_ok l /\ active l <> 0 /\ port l = p /\
    queues_at t p = queue l :: queues_at (drop (S i) t) p.
Proof.
  intros Ht Hf. pose proof (queues_before t p i Hf) as Hb. apply find_idx_Some in Hf as [(l & Hi & Hl) _]. exists l.
  rewrite (queues_at_slot t i l p Hi), Hb. unfold queue_at. rewrite Hl.
  unfold listens in Hl. apply andb_true_iff in Hl as [Ha%negb_true_iff%Z.eqb_neq Hp%Z.eqb_eq].
  split_and!; try done.
  - rewrite Nat2Z.id. by apply list_lookup_total_correct.
  - pose proof (to_listeners _ Ht) as Hf. rewrite Forall_lookup in Hf. by eapply Hf.
Qed.

Lemma search_no_listener t p : find_idx (listens p) t = None -> queues_at t p = [].
Proof.
  intros Hn%find_idx_None. unfold queues_at. apply omap_none. eapply Forall_impl; [exact Hn|]. intros l Hl. unfold queue_at. by rewrite Hl.
Qed.

Lemma listens_other l p k : active l = 0 \/ port l = p -> k <> p -> queue_at k l = None.
Proof.
  intros Hl Hk. unfold queue_at, listens. destruct (Z.eqb_spec (active l) 0); [done|]. destruct Hl as [|Hl]; [done|].
  by rewrite (proj2 (Z.eqb_neq (port l) k)) by congruence.
Qed.

(** Changing a slot that belongs to [p] or to nobody leaves the other ports alone. *)
Lemma others_kept t (i : nat) l l' p k : t !! i = Some l -> active l = 0 \/ port l = p -> active l' = 0 \/ port l' = p -> k <> p ->
  queues_at (<[i := l']> t) k = queues_at t k.
Proof.
  intros Hi Hl Hl' Hk. rewrite (queues_at_set t i l' k (lookup_lt_Some _ _ _ Hi)), (queues_at_slot t i l k Hi).
  by rewrite !(listens_other _ p k).
Qed.

Lemma set_listener_ok t (i : nat) l : table_ok t -> listener_ok l -> table_ok (<[i := l]> t).
Proof. intros [Hz Hf] Hl. split; [by rewrite <- (Nat2Z.id i), zlen_set|by apply Forall_insert]. Qed.

Lemma unchanged t p : becomes (ports_of t) (ports_of t) p (queues_at t p).
Proof. done. Qed.

Lemma zlen_queue l : listener_ok l -> zlen (queue l) = backlog_count l.
Proof. intros [Hz Hc]. unfold queue. unfold zlen in *. rewrite length_take. lia. Qed.

(** Replace the queue of the listener found at [i]. *)
Lemma set_queue_ok t p (i : nat) l l' :
  table_ok t -> find_idx (listens p) t = Some i -> t !! i = Some l -> port l = p -> active l' = active l -> active l <> 0 -> port l' = p -> listener_ok l' ->
  table_ok (<[i := l']> t) /\ number (ports_of (<[i := l']> t)) = number (ports_of t) /\
  becomes (ports_of t) (ports_of (<[i := l']> t)) p (queue l' :: queues_at (drop (S i) t) p).
Proof.
  intros Ht Hf Hi Hp Ha Hne Hp' Hok. split; [by apply set_listener_ok|]. split; [|split]; simpl.
  - rewrite (listening_set t i l l' Hi). unfold in_use. rewrite Ha. lia.
  - rewrite queues_at_set, (queues_before t p i Hf) by (by eapply lookup_lt_Some). unfold queue_at, listens.
    by rewrite Ha, (proj2 (Z.eqb_neq _ _) Hne), Hp', Z.eqb_refl.
  - intros k Hk. by apply (others_kept t i l l' p k Hi); [right|right|].
Qed.

Lemma arrive_refines t p f ip pp a : table_ok t ->
  let '(t', b) := listener_enqueue_backlog t p f ip pp a in
  table_ok t' /\ ports_step (ports_of t) (OpArrive p f ip pp a) (ports_of t') (OutQueued b).
Proof.
  intros Ht. unfold listener_enqueue_backlog, find_listener_ex. simpl.
  destruct (find_idx (listens p) t) as [i|] eqn:Hf; simpl.
  2:{ split; [done|]. split; [done|]. rewrite (search_no_listener _ _ Hf). split; [done|]. rewrite <- (search_no_listener t p Hf). apply unchanged. }
  destruct (search_listener _ _ _ Ht Hf) as (l & Hi & -> & Hok & Ha & Hp & Hq). rewrite Hq, Nat2Z.id. pose proof (zlen_queue l Hok) as Hz.
  rewrite Hz. destruct (Z.leb_spec NETWORK_LISTENER_BACKLOG (backlog_count l)).
  - rewrite (proj2 (Z.ltb_ge _ _)) by lia. split_and!; done.
  - rewrite (proj2 (Z.ltb_lt _ _)) by lia. destruct Hok as [Hb Hc]. set (l' := _ <| backlog_count := _ |>).
    assert (Hq' : queue l' = queue l ++ [accept_entry p f ip pp a]).
    { unfold queue, l'. simpl. replace (Z.to_nat (backlog_count l + 1)) with (S (Z.to_nat (backlog_count l))) by lia.
      erewrite take_S_r by (apply list_lookup_insert_eq; zlia). by rewrite take_insert_ge by lia. }
    destruct (set_queue_ok t p i l l' Ht Hf Hi Hp eq_refl Ha Hp) as (Ht' & Hn & Hm); [split; simpl; [by rewrite zlen_set|lia]|].
    rewrite Hq' in Hm. done.
Qed.

Lemma accept_refines t p : table_ok t ->
  let '(t', _, r) := network_stack_accept_connection t p true in
  table_ok t' /\ ports_step (ports_of t) (OpAccept p) (ports_of t') (OutAccepted r).
Proof.
  intros Ht. unfold network_stack_accept_connection, listener_dequeue_backlog, find_listener_ex. simpl.
  destruct (find_idx (listens p) t) as [i|] eqn:Hf; simpl.
  2:{ split; [done|]. split; [done|]. rewrite (search_no_listener _ _ Hf). split; [done|]. rewrite <- (search_no_listener t p Hf). apply unchanged. }
  destruct (search_listener _ _ _ Ht Hf) as (l & Hi & -> & Hok & Ha & Hp & Hq). rewrite Hq, Nat2Z.id. pose proof (zlen_queue l Hok) as Hz.
  destruct Hok as [Hb Hc]. destruct (Z.eqb_spec (backlog_count l) 0) as [H0|H0].
  - split; [done|]. split; [done|]. destruct (queue l) eqn:Eq; [|rewrite H0 in Hz; unfold zlen in Hz; simpl in Hz; lia].
    split; [done|]. rewrite <- Hq. apply unchanged.
  - destruct (shift_down_ok (backlog l) (backlog_count l)) as [Hs Hzs]; [lia|]. fold (queue l) in Hs.
    set (l' := _ <| backlog_count := _ |>). assert (Hq' : queue l' = drop 1 (queue l)) by exact Hs.
    destruct (set_queue_ok t p i l l' Ht Hf Hi Hp eq_refl Ha Hp) as (Ht' & Hn & Hm); [split; simpl; [by rewrite Hzs|lia]|].
    assert (He : (backlog l).[0] = queue l !!! O) by (unfold queue; rewrite lookup_total_take_lt by lia; done).
    split; [done|]. split; [done|]. rewrite Hq' in Hm. rewrite He. destruct (queue l); [unfold zlen in Hz; simpl in Hz; lia|]. done.
Qed.

Lemma all_in_use t : Forall (fun l => in_use l = true) t -> filter (fun l => in_use l = true) t = t.
Proof. induction 1 as [|l t Hl _ IH]; [done|]. by rewrite filter_cons_True, IH. Qed.

Lemma listening_full t : table_ok t -> (listening t <? NETWORK_MAX_LISTENERS) = bool_decide (is_Some (find_idx (fun l => active l =? 0) t)).
Proof.
  intros [Hz Hf]. unfold listening. rewrite <- Hz. destruct (find_idx _ t) as [i|] eqn:Hn.
  - rewrite bool_decide_eq_true_2 by (by eexists). apply find_idx_Some in Hn as [(l & Hi & Hl) _]. apply Z.ltb_lt.
    assert (Hlt : (length (filter (fun l => in_use l = true) t) < length t)%nat); [|unfold zlen; lia].
    apply length_filter_lt with l; [by eapply list_elem_of_lookup_2|]. unfold in_use. by rewrite Hl.
  - rewrite bool_decide_eq_false_2 by (by intros [? ?]). apply find_idx_None in Hn. apply Z.ltb_ge.
    rewrite all_in_use; [done|]. eapply Forall_impl; [exact Hn|]. intros l Hl. unfold in_use. by rewrite Hl.
Qed.

Lemma register_refines t p fd : table_ok t ->
  table_ok (network_stack_register_listener t p fd) /\
  ports_step (ports_of t) (OpRegister p fd) (ports_of (network_stack_register_listener t p fd)) OutDone.
Proof.
  intros Ht. pose proof (listening_full t Ht) as Hs. unfold network_stack_register_listener. simpl. rewrite Hs.
  destruct (find_idx _ t) as [i|] eqn:Hf; [rewrite bool_decide_eq_true_2 by (by eexists)|rewrite bool_decide_eq_false_2 by (by intros [? ?]); done].
  apply find_idx_Some in Hf as [(l & Hi & Hl%Z.eqb_eq) _]. unfold upd. rewrite Nat2Z.id, (list_lookup_total_correct _ _ _ Hi).
  set (l' := _ <| backlog_count := _ |>). pose proof (lookup_lt_Some _ _ _ Hi) as Hlt. pose proof (to_listeners _ Ht) as Hall. rewrite Forall_lookup in Hall.
  destruct (Hall i l Hi) as [Hb Hc]. split; [apply set_listener_ok; [done|split; simpl; [done|unfold NETWORK_LISTENER_BACKLOG; lia]]|].
  split; [done|]. split; [rewrite (listening_set t i l l' Hi); unfold in_use; rewrite Hl; simpl; lia|].
  exists (queues_at (take i t) p), (queues_at (drop (S i) t) p). split; [|split].
  - rewrite (queues_at_slot t i l p Hi). unfold queue_at, listens. by rewrite Hl.
  - simpl. rewrite queues_at_set by done. unfold queue_at, listens, l'. simpl. by rewrite Z.eqb_refl.
  - intros k Hk. simpl. apply (others_kept t i l l' p k Hi); [by left|by right|done].
Qed.

Lemma unregister_refines t p : table_ok t ->
  table_ok (network_stack_unregister_listener t p) /\
  ports_step (ports_of t) (OpUnregister p) (ports_of (network_stack_unregister_listener t p)) OutDone.
Proof.
  intros Ht. unfold network_stack_unregister_listener. simpl.
  destruct (find_idx (listens p) t) as [i|] eqn:Hf.
  2:{ split; [done|]. split; [done|]. rewrite (search_no_listener _ _ Hf). split; [done|]. rewrite <- (search_no_listener t p Hf). apply unchanged. }
  destruct (search_listener _ _ _ Ht Hf) as (l & Hi & Hg & Hok & Ha & Hp & Hq). unfold upd. rewrite Hg, Nat2Z.id, Hq.
  set (l' := _ <| backlog_count := _ |>). destruct Hok as [Hb Hc].
  split; [apply set_listener_ok; [done|split; simpl; [done|unfold NETWORK_LISTENER_BACKLOG; lia]]|].
  split; [done|]. split; [rewrite (listening_set t i l l' Hi); unfold in_use; rewrite (proj2 (Z.eqb_neq _ _) Ha); simpl; lia|]. split.
  - simpl. by rewrite queues_at_set, (queues_before t p i Hf) by (by eapply lookup_lt_Some).
  - intros k Hk. simpl. apply (others_kept t i l l' p k Hi); [by right|by left|done].
Qed.

Lemma listen_step_refines t op : table_ok t ->
  let '(t', o) := listen_step t op in table_ok t' /\ ports_step (ports_of t) op (ports_of t') o.
Proof.
  intros Ht. destruct op as [p fd|p|p f ip pp a|p].
  - by apply register_refines.
  - by apply unregister_refines.
  - pose proof (arrive_refines t p f ip pp a Ht) as H. unfold listen_step. by destruct (listener_enqueue_backlog _ _ _ _ _ _).
  - pose proof (accept_refines t p Ht) as H. unfold listen_step. by destruct (network_stack_accept_connection _ _ _) as [[? ?] ?].
Qed.

Lemma listeners0_ok : table_ok listeners0.
Proof. split; [done|]. apply Forall_replicate. split; [done|]. unfold NETWORK_LISTENER_BACKLOG. simpl. lia. Qed.

Lemma listen_steps_refine ops : forall t, table_ok t ->
  ports_steps (ports_of t) ops (ports_of (listen_steps t ops).1) (listen_steps t ops).2.
Proof.
  induction ops as [|op ops IH]; intros t Ht; [constructor|]. simpl. pose proof (listen_step_refines t op Ht) as Hs.
  destruct (listen_step t op) as [t' o]. destruct Hs as [Ht' Hs]. specialize (IH t' Ht').
  destruct (listen_steps t' ops) as [t'' os]. by apply (PortsCons _ _ (ports_of t')).
Qed.

(** C13: the table of listeners behaves as ports with first-in first-out queues of
    at most eight connections: for every sequence of registrations, removals,
    arrivals and accepts, from the empty table, every answer is one that the ports
    give, and the table ends with their queues.  A port may be registered more than
    once, up to eight listeners in all; arrivals, accepts and removals then go to the
    first listener of the port, and a new one may come before the others. *)
Theorem accept_queues_refine (ops : list listen_op) :
  exists m, ports_steps no_ports ops m (listen_steps listeners0 ops).2 /\
    number m = listening (listen_steps listeners0 ops).1 /\
    forall p, waiting m p = queues_at (listen_steps listeners0 ops).1 p.
Proof. eexists. split; [exact (listen_steps_refine ops listeners0 listeners0_ok)|done]. Qed.

(** With two listeners on a port, closing the second one takes the first one out
    of the table, with the connection that waits for it. *)
Lemma second_listener_closes_first :
  let t := (listen_steps listeners0 [OpRegister 80 3; OpRegister 80 4; OpArrive 80 1 7 1000 None]).1 in
  let t' := network_stack_unregister_listener t 80 in
  zlen <$> queues_at t 80 = [1; 0] /\ zlen <$> queues_at t' 80 = [0] /\
  find_listener_ex t' 80 = Some 1 /\ sockfd (t'.[1]) = 4.
Proof. vm_compute. done. Qed.

End NetListen.
