(* ===== verification/TcpFlow.v ===== *)
(** * TCP flows (kernel/runtime/network_stack.c)

    The structure of a TCP connection and the parts of the stack that act on
    one connection: the buffer for segments that arrive out of order and the
    treatment of a segment that arrives on an established connection.  A pointer
    to a socket buffer is its index in the pool of [SocketBuffer].

    [segment_v4_handled] and [segment_v6_handled] show that every segment is
    handled within the arrays and leaves a well-formed flow; the file
    [TcpStream] is about the bytes an application receives. *)

From S2P Require Import Prelude Table SocketBuffer Wire NetQueue NetParse.

Module TcpFlow.
Import SocketBuffer Wire NetQueue.

Definition NETWORK_TCP_CONNECTIONS : Z := 16.
Definition NETWORK_TCP_RETRANSMIT_NS : Z := 500000.
Definition NETWORK_TCP_MSS : Z := 1400.
Definition TCP_OOO_BUF_ENTRIES : Z := 4.
Definition TCP_INIT_CWND : Z := 1.
Definition TCP_INIT_SSTHRESH : Z := 16.
Definition TCP_MAX_DUP_ACK : Z := 3.
Definition NETWORK_TCP_FLAG_FIN : Z := 0x01.
Definition NETWORK_TCP_FLAG_SYN : Z := 0x02.
Definition NETWORK_TCP_FLAG_RST : Z := 0x04.
Definition NETWORK_TCP_FLAG_PSH : Z := 0x08.
Definition NETWORK_TCP_FLAG_ACK : Z := 0x10.

(** [(flags & m) != 0U] *)
Definition has_flag (flags m : Z) : bool := negb (Z.land flags m =? 0).

Inductive xaios_network_flow_state :=
| XAIOS_NETWORK_FLOW_FREE
| XAIOS_NETWORK_FLOW_SYN_RECV
| XAIOS_NETWORK_FLOW_ESTABLISHED
| XAIOS_NETWORK_FLOW_CLOSED
| XAIOS_NETWORK_FLOW_FIN_WAIT
| XAIOS_NETWORK_FLOW_FIN_WAIT_2
| XAIOS_NETWORK_FLOW_CLOSE_WAIT
| XAIOS_NETWORK_FLOW_LAST_ACK
| XAIOS_NETWORK_FLOW_TIME_WAIT.

#[global] Instance flow_state_eq_dec : EqDecision xaios_network_flow_state.
Proof. solve_decision. Defined.

(** An entry of [ooo_buf]. *)
Record ooo_entry := mk_ooo { o_seq : Z; o_len : Z; o_in_use : Z; o_data : list Z }.

#[global] Instance ooo_eta : Eta ooo_entry := fun r => mk_ooo (o_seq r) (o_len r) (o_in_use r) (o_data r).
#[global] Instance ooo_inhabited : Inhabited ooo_entry := populate (mk_ooo 0 0 0 []).

Record network_tcp_flow := mk_flow {
  state : xaios_network_flow_state;
  flow_id : Z;
  queue_id : Z;
  cell_id : Z;
  local_port : Z;
  remote_port : Z;
  remote_address : Z;
  local_address : Z;
  remote_addr : xaios_ip_addr;
  local_addr : xaios_ip_addr;
  remote_seq : Z;
  local_seq : Z;
  last_seen_ns : Z;
  retransmits : Z;
  packets_rx : Z;
  packets_tx : Z;
  rx_buf : option Z;
  tx_buf : option Z;
  expected_seq : Z;
  next_send_seq : Z;
  window_size : Z;
  pending_synack : Z;
  pending_fin : Z;
  pending_ack : Z;
  close_requested : Z;
  remote_mac : list Z;
  remote_mac_valid : Z;
  last_tx_ns : Z;
  rto_ns : Z;
  rto_retries : Z;
  in_retransmit : Z;
  ooo_buf : list ooo_entry;
  peer_mss : Z;
  mss_parsed : Z;
  ws_parsed : Z;
  peer_ws : Z;
  our_ws : Z;
  cwnd : Z;
  ssthresh : Z;
  dup_ack_count : Z;
  highest_acked : Z;
  in_flight : Z;
  keepalive_last_tx_ns : Z;
  keepalive_probes_sent : Z
}.

#[global] Instance flow_eta : Eta network_tcp_flow := fun r =>
  mk_flow (state r) (flow_id r) (queue_id r) (cell_id r) (local_port r) (remote_port r) (remote_address r) (local_address r)
    (remote_addr r) (local_addr r) (remote_seq r) (local_seq r) (last_seen_ns r) (retransmits r) (packets_rx r) (packets_tx r)
    (rx_buf r) (tx_buf r) (expected_seq r) (next_send_seq r) (window_size r) (pending_synack r) (pending_fin r) (pending_ack r)
    (close_requested r) (remote_mac r) (remote_mac_valid r) (last_tx_ns r) (rto_ns r) (rto_retries r) (in_retransmit r) (ooo_buf r)
    (peer_mss r) (mss_parsed r) (ws_parsed r) (peer_ws r) (our_ws r) (cwnd r) (ssthresh r) (dup_ack_count r) (highest_acked r)
    (in_flight r) (keepalive_last_tx_ns r) (keepalive_probes_sent r).

(** An entry of the static table before any use. *)
Definition zero_flow : network_tcp_flow :=
  mk_flow XAIOS_NETWORK_FLOW_FREE 0 0 0 0 0 0 0 xaios_ip_addr_zero xaios_ip_addr_zero 0 0 0 0 0 0 None None 0 0 0 0 0 0 0
    (replicate 6 0) 0 0 0 0 0 (replicate (Z.to_nat TCP_OOO_BUF_ENTRIES) (mk_ooo 0 0 0 (replicate (Z.to_nat NETWORK_TCP_MSS) 0)))
    0 0 0 0 0 0 0 0 0 0 0 0.

#[global] Instance flow_inhabited : Inhabited network_tcp_flow := populate zero_flow.

Definition in_state (s : xaios_network_flow_state) (f : network_tcp_flow) : bool := bool_decide (state f = s).

(** The part of [alloc_tcp_flow] that resets an entry. *)
Definition reset_flow (f : network_tcp_flow) : network_tcp_flow :=
  f <| state := XAIOS_NETWORK_FLOW_SYN_RECV |> <| retransmits := 0 |> <| packets_rx := 0 |> <| packets_tx := 0 |>
    <| rx_buf := None |> <| tx_buf := None |> <| expected_seq := 0 |> <| next_send_seq := 0 |> <| window_size := 0 |>
    <| pending_synack := 0 |> <| pending_fin := 0 |> <| pending_ack := 0 |> <| close_requested := 0 |> <| remote_mac_valid := 0 |>
    <| last_tx_ns := 0 |> <| rto_ns := NETWORK_TCP_RETRANSMIT_NS |> <| rto_retries := 0 |> <| in_retransmit := 0 |>
    <| ooo_buf ::= fmap (fun e => e <| o_in_use := 0 |> <| o_seq := 0 |> <| o_len := 0 |>) |>
    <| peer_mss := 0 |> <| mss_parsed := 0 |> <| ws_parsed := 0 |> <| peer_ws := 0 |> <| our_ws := 0 |>
    <| cwnd := TCP_INIT_CWND * NETWORK_TCP_MSS |> <| ssthresh := TCP_INIT_SSTHRESH * NETWORK_TCP_MSS |> <| dup_ack_count := 0 |>
    <| highest_acked := 0 |> <| in_flight := 0 |> <| keepalive_last_tx_ns := 0 |> <| keepalive_probes_sent := 0 |>.

(** ** Socket buffers behind a pointer *)

Definition buf (pool : list sockbuf_pool_entry) (p : option Z) : option socket_buffer := (fun i => pe_buf (pool.[i])) <$> p.

Definition set_buf (pool : list sockbuf_pool_entry) (i : Z) (b : socket_buffer) : list sockbuf_pool_entry :=
  upd pool i (fun e => mk_pool_entry b (pe_in_use e)).

Definition set_buf_opt (pool : list sockbuf_pool_entry) (p : option Z) (b : option socket_buffer) : list sockbuf_pool_entry :=
  match p, b with Some i, Some c => set_buf pool i c | _, _ => pool end.

(** [sockbuf_write] reads the bytes that it stores from [data]. *)
Definition write_to (pool : list sockbuf_pool_entry) (p : option Z) (data : list Z) (len : Z) : option (list sockbuf_pool_entry * Z) :=
  let '(b, written) := sockbuf_write (buf pool p) (Some data) len in
  _ ← read_bytes data written;
  Some (set_buf_opt pool p b, written).

(** ** Segments out of order *)

Definition ooo_buffer_store (flow : network_tcp_flow) (seq : Z) (data : list Z) (len expected : Z) : option (network_tcp_flow * Z) :=
  if (len =? 0) || (seq <=? expected) then Some (flow, 0) else
  match find_idx (fun e => o_in_use e =? 0) (ooo_buf flow) with
  | Some i =>
      let copy_len := if len <? NETWORK_TCP_MSS then len else NETWORK_TCP_MSS in
      let e := (ooo_buf flow).[Z.of_nat i] in
      d ← bytes_copy (o_data e) data copy_len;
      Some (flow <| ooo_buf ::= fun l => l.[Z.of_nat i <- mk_ooo seq (u16 copy_len) 1 d] |>, copy_len)
  | None => Some (flow, 0)
  end.

(** The pool, the flow and the values of [total] and [progress]. *)
Record drain := mk_drain { dr_pool : list sockbuf_pool_entry; dr_flow : network_tcp_flow; dr_total : Z; dr_progress : bool }.

(** The body of the inner loop. *)
Definition drain_slot (i : Z) (s : drain) : option drain :=
  let e := (ooo_buf (dr_flow s)).[i] in
  if negb (o_in_use e =? 0) && (o_seq e =? expected_seq (dr_flow s)) then
    '(pool, written) ← write_to (dr_pool s) (rx_buf (dr_flow s)) (o_data e) (o_len e);
    Some (mk_drain pool
            ((dr_flow s) <| expected_seq := u32 (expected_seq (dr_flow s) + written) |> <| pending_ack := 1 |>
               <| window_size := u16 (sockbuf_available (buf pool (rx_buf (dr_flow s)))) |>
               <| ooo_buf ::= fun l => upd l i (fun e => e <| o_in_use := 0 |>) |>)
            (u32 (dr_total s + written)) true)
  else Some s.

(** [while (progress)]: every round but the last empties an entry, so five
    rounds are enough ([drain_rounds_ok]). *)
Fixpoint drain_rounds (fuel : nat) (s : drain) : option drain :=
  match fuel with
  | O => None
  | S fuel' =>
      s ← for_opt (Z.to_nat TCP_OOO_BUF_ENTRIES) 0 drain_slot (mk_drain (dr_pool s) (dr_flow s) (dr_total s) false);
      if dr_progress s then drain_rounds fuel' s else Some s
  end.

Definition ooo_buffer_drain (pool : list sockbuf_pool_entry) (flow : network_tcp_flow) : option (list sockbuf_pool_entry * network_tcp_flow * Z) :=
  s ← drain_rounds 5 (mk_drain pool flow 0 true);
  Some (dr_pool s, dr_flow s, dr_total s).

(** ** A segment on an established connection *)

(** The payload goes to the buffer when it is the next one, and is kept aside
    when it is a later one. *)
Definition receive_payload (pool : list sockbuf_pool_entry) (flow : network_tcp_flow) (seq : Z) (payload : list Z) (payload_len : Z)
    : option (list sockbuf_pool_entry * network_tcp_flow) :=
  if (0 <? payload_len) && bool_decide (is_Some (rx_buf flow)) then
    if seq =? expected_seq flow then
      '(pool, written) ← write_to pool (rx_buf flow) payload payload_len;
      let flow := flow <| expected_seq := u32 (expected_seq flow + written) |> <| pending_ack := 1 |>
                       <| window_size := u16 (sockbuf_available (buf pool (rx_buf flow))) |> in
      '(pool, flow, _) ← ooo_buffer_drain pool flow;
      Some (pool, flow)
    else if expected_seq flow <? seq then
      '(flow, _) ← ooo_buffer_store flow seq payload payload_len (expected_seq flow);
      Some (pool, flow)
    else Some (pool, flow)
  else Some (pool, flow).

(** [if ((flags & FIN) != 0U)] of the IPv4 path. *)
Definition receive_fin (flow : network_tcp_flow) (flags seq start : Z) : network_tcp_flow :=
  if has_flag flags NETWORK_TCP_FLAG_FIN then
    let flow := flow <| expected_seq := u32 (seq + 1) |> <| pending_ack := 1 |> in
    if in_state XAIOS_NETWORK_FLOW_ESTABLISHED flow then flow <| state := XAIOS_NETWORK_FLOW_CLOSE_WAIT |>
    else if in_state XAIOS_NETWORK_FLOW_FIN_WAIT_2 flow then flow <| state := XAIOS_NETWORK_FLOW_TIME_WAIT |> <| last_seen_ns := start |>
    else flow
  else flow.

Definition receive_fin_ack (flow : network_tcp_flow) (flags ack start : Z) : network_tcp_flow :=
  if has_flag flags NETWORK_TCP_FLAG_ACK && in_state XAIOS_NETWORK_FLOW_FIN_WAIT flow && (local_seq flow <? ack)
  then flow <| state := XAIOS_NETWORK_FLOW_FIN_WAIT_2 |> <| last_seen_ns := start |> else flow.

(** Acknowledgements and the congestion window (IPv4). *)
Definition receive_ack (flow : network_tcp_flow) (flags ack : Z) : network_tcp_flow :=
  if has_flag flags NETWORK_TCP_FLAG_ACK && (local_seq flow <? ack) then
    let newly_acked := u32 (ack - local_seq flow) in
    let flow := flow <| local_seq := ack |>
                     <| in_flight := if (0 <? newly_acked) && (newly_acked <=? in_flight flow) then in_flight flow - newly_acked else 0 |>
                     <| dup_ack_count := 0 |> in
    let mss := if 0 <? peer_mss flow then peer_mss flow else NETWORK_TCP_MSS in
    if cwnd flow <? ssthresh flow
    then (if 0 <? mss then flow <| cwnd := u32 (cwnd flow + mss) |> else flow)
    else flow <| cwnd := u32 (cwnd flow + u32 (mss * mss) / (if 0 <? cwnd flow then cwnd flow else 1)) |>
  else if has_flag flags NETWORK_TCP_FLAG_ACK && (ack =? local_seq flow) then
    let flow := flow <| dup_ack_count := u32 (dup_ack_count flow + 1) |> in
    if (TCP_MAX_DUP_ACK <=? dup_ack_count flow) && (0 <? in_flight flow) && (in_retransmit flow =? 0) then
      let half := if 1 <? cwnd flow then Z.shiftr (cwnd flow) 1 else 1 in
      flow <| ssthresh := half |> <| cwnd := u32 (half + TCP_MAX_DUP_ACK * NETWORK_TCP_MSS) |> <| in_retransmit := 1 |> <| in_flight := 0 |>
    else flow
  else flow.

(** [flow->tx_buf == 0 || sockbuf_used(flow->tx_buf) == 0] *)
Definition nothing_to_send (pool : list sockbuf_pool_entry) (flow : network_tcp_flow) : bool :=
  bool_decide (tx_buf flow = None) || (sockbuf_used (buf pool (tx_buf flow)) =? 0).

Definition close_when_sent (pool : list sockbuf_pool_entry) (flow : network_tcp_flow) : network_tcp_flow :=
  if negb (close_requested flow =? 0) && nothing_to_send pool flow then flow <| pending_fin := 1 |> else flow.

Definition touch (flow : network_tcp_flow) (start : Z) : network_tcp_flow :=
  flow <| last_seen_ns := start |> <| packets_rx := u64 (packets_rx flow + 1) |>.

(** Everything [network_stack_process_tcp_frame] does to an established flow. *)
Definition segment_v4 (pool : list sockbuf_pool_entry) (flow : network_tcp_flow) (start flags seq ack : Z) (payload : list Z) (payload_len : Z)
    : option (list sockbuf_pool_entry * network_tcp_flow) :=
  let flow := receive_fin (touch flow start) flags seq start in
  let flow := receive_fin_ack flow flags ack start in
  '(pool, flow) ← receive_payload pool flow seq payload payload_len;
  let flow := receive_ack flow flags ack in
  let flow := flow <| keepalive_last_tx_ns := 0 |> <| keepalive_probes_sent := 0 |> in
  Some (pool, close_when_sent pool flow).

(** The same of [network_stack_process_tcp_frame_v6]. *)
Definition segment_v6 (pool : list sockbuf_pool_entry) (flow : network_tcp_flow) (start flags seq ack : Z) (payload : list Z) (payload_len : Z)
    : option (list sockbuf_pool_entry * network_tcp_flow) :=
  let flow := touch flow start in
  let flow :=
    if has_flag flags NETWORK_TCP_FLAG_FIN then
      let flow := flow <| expected_seq := u32 (seq + 1) |> <| pending_ack := 1 |> in
      if in_state XAIOS_NETWORK_FLOW_ESTABLISHED flow then flow <| state := XAIOS_NETWORK_FLOW_CLOSE_WAIT |> else flow
    else flow in
  '(pool, flow) ← receive_payload pool flow seq payload payload_len;
  let flow := if has_flag flags NETWORK_TCP_FLAG_ACK && (local_seq flow <? ack) then flow <| local_seq := ack |> else flow in
  Some (pool, close_when_sent pool flow).

(** The part of [network_stack_tcp_recv] behind the search for the flow; the
    caller's buffer must have room for the bytes that are read. *)
Definition recv_from (pool : list sockbuf_pool_entry) (flow : network_tcp_flow) (buffer : list Z) (buffer_size : Z)
    : option (list sockbuf_pool_entry * network_tcp_flow * list Z * Z) :=
  let '(b, dst, bytes_read) := sockbuf_read (buf pool (rx_buf flow)) (Some buffer) buffer_size in
  if zlen buffer <? bytes_read then None else
  let pool := set_buf_opt pool (rx_buf flow) b in
  Some (pool, flow <| window_size := u16 (sockbuf_available (buf pool (rx_buf flow))) |>, default buffer dst, bytes_read).

(** ** Invariants *)

Definition pool_ok (pool : list sockbuf_pool_entry) : Prop := zlen pool = SOCKET_BUFFER_COUNT /\ Forall (fun e => wf (pe_buf e)) pool.

(** A pointer to a socket buffer is NULL or points into the pool. *)
Definition ptr_ok (p : option Z) : Prop := match p with Some i => 0 <= i < SOCKET_BUFFER_COUNT | None => True end.

Definition slot_ok (e : ooo_entry) : Prop := zlen (o_data e) = NETWORK_TCP_MSS /\ 0 <= o_len e <= NETWORK_TCP_MSS.

Definition slots_ok (l : list ooo_entry) : Prop := zlen l = TCP_OOO_BUF_ENTRIES /\ Forall slot_ok l.

(** The marks of the pool entries. *)
Definition uses (pool : list sockbuf_pool_entry) : list Z := pe_in_use <$> pool.

(** ** Pool lemmas *)

Lemma pool_get pool i : pool_ok pool -> 0 <= i < SOCKET_BUFFER_COUNT -> wf (pe_buf (pool.[i])).
Proof. intros [Hz Hf] Hi. rewrite Forall_lookup in Hf. eapply Hf, arr_lookup. lia. Qed.

Lemma set_buf_ok pool i b : pool_ok pool -> 0 <= i < SOCKET_BUFFER_COUNT -> wf b ->
  pool_ok (set_buf pool i b) /\ uses (set_buf pool i b) = uses pool /\ pe_buf ((set_buf pool i b).[i]) = b.
Proof.
  intros [Hz Hf] Hi Hb. unfold set_buf. split_and!.
  - split; [by rewrite zlen_upd|]. unfold upd. by apply Forall_insert.
  - unfold uses, upd. rewrite list_fmap_insert. simpl. apply list_insert_id. rewrite list_lookup_fmap, arr_lookup by lia. done.
  - by rewrite upd_get_eq by lia.
Qed.

Lemma write_to_ok pool i data len : pool_ok pool -> 0 <= i < SOCKET_BUFFER_COUNT -> 0 <= len <= zlen data -> len < 4294967296 ->
  let b := pe_buf (pool.[i]) in
  let n := Z.min len (SOCKET_BUFFER_SIZE - sb_count b) in
  exists c, write_to pool (Some i) data len = Some (set_buf pool i c, n) /\ wf c /\ sb_count c = sb_count b + n /\ contents c = contents b ++ take (Z.to_nat n) data.
Proof.
  intros Hp Hi Hl Hm b n. pose proof (pool_get pool i Hp Hi) as Hw. fold b in Hw. destruct (sockbuf_write_ok b data len Hw Hl Hm) as (c & He & Hc).
  exists c. split; [|done]. unfold write_to. change (buf pool (Some i)) with (Some b). rewrite He. fold n.
  assert (0 <= sb_count b <= SOCKET_BUFFER_SIZE) by apply Hw. rewrite read_bytes_ok by lia. done.
Qed.

Lemma available_eq b : wf b -> u16 (sockbuf_available (Some b)) = SOCKET_BUFFER_SIZE - sb_count b.
Proof. intros (_ & _ & Hc & _). unfold sockbuf_available, SOCKET_BUFFER_SIZE in *. unfold u16, u32. rewrite !Z.mod_small; rewrite ?Z.mod_small; lia. Qed.

(** ** Draining *)

(** The flow after an entry has been written. *)
Definition drained (flow : network_tcp_flow) (i : Z) (pool : list sockbuf_pool_entry) (written : Z) : network_tcp_flow :=
  flow <| expected_seq := u32 (expected_seq flow + written) |> <| pending_ack := 1 |>
       <| window_size := u16 (sockbuf_available (buf pool (rx_buf flow))) |>
       <| ooo_buf ::= fun l => upd l i (fun e => e <| o_in_use := 0 |>) |>.

Definition is_next (flow : network_tcp_flow) (e : ooo_entry) : bool := negb (o_in_use e =? 0) && (o_seq e =? expected_seq flow).

Definition used (l : list ooo_entry) : nat := length (filter (fun e => o_in_use e <> 0) l).

Lemma used_clear l i : 0 <= i < zlen l -> o_in_use (l.[i]) <> 0 -> (used (upd l i (fun e => e <| o_in_use := 0%Z |>)) < used l)%nat.
Proof.
  intros Hi Hu. unfold used, upd. pose proof (arr_lookup l i Hi) as Hl. destruct (Table.insert_perm l _ _ (l.[i] <| o_in_use := 0 |>) Hl) as [H1 H2].
  rewrite H1 at 3. rewrite H2. rewrite filter_cons_False, filter_cons_True by (simpl; lia). simpl. lia.
Qed.

Lemma used_bound l : zlen l = TCP_OOO_BUF_ENTRIES -> (used l <= 4)%nat.
Proof. intros Hz. unfold used. pose proof (length_filter (fun e => o_in_use e <> 0) l). unfold zlen, TCP_OOO_BUF_ENTRIES in Hz. lia. Qed.

Section drain_rule.

(** A property of the pool and the flow that every write of an entry keeps. *)
Context (I : list sockbuf_pool_entry -> network_tcp_flow -> Prop).
Hypothesis I_slots : forall pool f, I pool f -> zlen (ooo_buf f) = TCP_OOO_BUF_ENTRIES.
Hypothesis I_step : forall pool f i, 0 <= i < TCP_OOO_BUF_ENTRIES -> I pool f -> is_next f ((ooo_buf f).[i]) = true ->
  exists pool' n, write_to pool (rx_buf f) (o_data ((ooo_buf f).[i])) (o_len ((ooo_buf f).[i])) = Some (pool', n) /\ I pool' (drained f i pool' n).

Definition none_next (f : network_tcp_flow) : Prop := forall j, 0 <= j < TCP_OOO_BUF_ENTRIES -> is_next f ((ooo_buf f).[j]) = false.

Lemma drain_pass s : I (dr_pool s) (dr_flow s) -> dr_progress s = false ->
  exists s', for_opt (Z.to_nat TCP_OOO_BUF_ENTRIES) 0 drain_slot s = Some s' /\ I (dr_pool s') (dr_flow s') /\
    (if dr_progress s' then (used (ooo_buf (dr_flow s')) < used (ooo_buf (dr_flow s)))%nat else none_next (dr_flow s')).
Proof.
  intros Hs Hp.
  pose (P := fun i t => I (dr_pool t) (dr_flow t) /\
    if dr_progress t then (used (ooo_buf (dr_flow t)) < used (ooo_buf (dr_flow s)))%nat
    else dr_flow t = dr_flow s /\ forall j, 0 <= j < i -> is_next (dr_flow s) ((ooo_buf (dr_flow s)).[j]) = false).
  destruct (for_opt_rule P drain_slot TCP_OOO_BUF_ENTRIES s) as (s' & He & HI & Hr); [done| | |].
  - unfold P. rewrite Hp. split; [done|]. split; [done|]. lia.
  - intros i t Hi [Ht Hr]. unfold drain_slot. cbv zeta. fold (is_next (dr_flow t) ((ooo_buf (dr_flow t)).[i])).
    destruct (is_next _ _) eqn:Hn.
    + destruct (I_step _ _ i Hi Ht Hn) as (pool' & n & -> & HI). bind_step. eexists. split; [done|]. split; [done|]. cbn [dr_progress dr_flow].
      pose proof (I_slots _ _ Ht) as Hz. unfold is_next in Hn. apply andb_true_iff in Hn as [Hu%negb_true_iff%Z.eqb_neq _].
      pose proof (used_clear (ooo_buf (dr_flow t)) i ltac:(lia) Hu) as Hc. change (ooo_buf _) with (upd (ooo_buf (dr_flow t)) i (fun e => e <| o_in_use := 0 |>)) at 1.
      destruct (dr_progress t); [lia|]. destruct Hr as [Hfl _]. by rewrite <- Hfl.
    + exists t. split; [done|]. split; [done|]. destruct (dr_progress t); [done|]. destruct Hr as [Hf Hr]. split; [done|]. intros j Hj.
      destruct (decide (j = i)) as [->|]; [by rewrite <- Hf|apply Hr; lia].
  - exists s'. split; [done|]. split; [done|]. destruct (dr_progress s'); [done|]. destruct Hr as [-> Hr]. exact Hr.
Qed.

Lemma drain_rounds_ok fuel : forall s, I (dr_pool s) (dr_flow s) -> (used (ooo_buf (dr_flow s)) < fuel)%nat ->
  exists s', drain_rounds fuel s = Some s' /\ I (dr_pool s') (dr_flow s') /\ none_next (dr_flow s').
Proof.
  induction fuel as [|fuel IH]; intros s Hs Hf; [lia|]. cbn [drain_rounds].
  destruct (drain_pass (mk_drain (dr_pool s) (dr_flow s) (dr_total s) false) Hs eq_refl) as (s' & -> & HI & Hr). bind_step.
  destruct (dr_progress s') eqn:Hp; [|by exists s']. apply IH; [done|]. cbn [dr_flow] in Hr. lia.
Qed.

Lemma drain_ok pool f : I pool f -> exists pool' f' n, ooo_buffer_drain pool f = Some (pool', f', n) /\ I pool' f' /\ none_next f'.
Proof.
  intros Hf. unfold ooo_buffer_drain. destruct (drain_rounds_ok 5 (mk_drain pool f 0 true)) as (s & -> & Hs); [done| |].
  - pose proof (used_bound _ (I_slots _ _ Hf)). cbn [dr_flow]. lia.
  - bind_step. by eexists _, _, _.
Qed.

End drain_rule.

(** ** Every segment is handled safely *)

Definition flow_ok (f : network_tcp_flow) : Prop := ptr_ok (rx_buf f) /\ ptr_ok (tx_buf f) /\ slots_ok (ooo_buf f).

(** What a segment leaves alone. *)
Definition fixed (f : network_tcp_flow) : Z * option Z * option Z := (flow_id f, rx_buf f, tx_buf f).

(** The state of a flow and the pool after some steps of a segment. *)
Record evolved (pool : list sockbuf_pool_entry) (f : network_tcp_flow) (pool' : list sockbuf_pool_entry) (f' : network_tcp_flow) : Prop := {
  ev_pool : pool_ok pool';
  ev_uses : uses pool' = uses pool;
  ev_fixed : fixed f' = fixed f;
  ev_flow : flow_ok f';
  ev_state : state f' = state f
}.

Lemma evolved_refl pool f : pool_ok pool -> flow_ok f -> evolved pool f pool f.
Proof. by split. Qed.

Lemma write_evolves pool f pool1 f1 data len :
  evolved pool f pool1 f1 -> is_Some (rx_buf f1) -> 0 <= len <= zlen data -> len < 4294967296 ->
  exists pool2 n, write_to pool1 (rx_buf f1) data len = Some (pool2, n) /\ evolved pool f pool2 f1.
Proof.
  intros [Hp Hu Hf (Hr & Hrest) Hs] [i Hi] Hl Hm. rewrite Hi in *. simpl in Hr.
  destruct (write_to_ok pool1 i data len Hp Hr Hl Hm) as (c & -> & Hw & _). eexists _, _. split; [done|].
  destruct (set_buf_ok pool1 i c Hp Hr Hw) as (Hp' & Hu' & _). split; [done|congruence|done| |done].
  split; [by rewrite Hi|done].
Qed.

Lemma slots_upd l i (f : ooo_entry -> ooo_entry) : slots_ok l -> 0 <= i < TCP_OOO_BUF_ENTRIES -> (forall e, slot_ok e -> slot_ok (f e)) -> slots_ok (upd l i f).
Proof.
  intros [Hz Hf] Hi Hs. split; [by rewrite zlen_upd|]. unfold upd. apply Forall_insert; [done|]. apply Hs. rewrite Forall_lookup in Hf. eapply Hf, arr_lookup. lia.
Qed.

Lemma slots_get l i : slots_ok l -> 0 <= i < TCP_OOO_BUF_ENTRIES -> slot_ok (l.[i]).
Proof. intros [Hz Hf] Hi. rewrite Forall_lookup in Hf. eapply Hf, arr_lookup. lia. Qed.

Lemma drained_evolves pool f pool1 f1 i pool2 n :
  evolved pool f pool2 f1 -> 0 <= i < TCP_OOO_BUF_ENTRIES -> evolved pool f pool2 (drained f1 i pool1 n).
Proof.
  intros [Hp Hu Hf (Hr & Ht & Hs) Hst] Hi. split; [done..| |done]. do 2 (split; [done|]). simpl. apply slots_upd; [done|done|]. by intros e [? ?].
Qed.

Lemma drain_evolves pool f pool1 f1 : evolved pool f pool1 f1 -> is_Some (rx_buf f1) ->
  exists pool2 f2 n, ooo_buffer_drain pool1 f1 = Some (pool2, f2, n) /\ evolved pool f pool2 f2.
Proof.
  intros He Hr. destruct (drain_ok (fun p g => evolved pool f p g /\ is_Some (rx_buf g))) with (pool := pool1) (f := f1) as (pool2 & f2 & n & -> & [He2 _] & _).
  - intros p g [Hg _]. apply Hg.
  - intros p g i Hi [Hg Hrx] _. destruct (ev_flow _ _ _ _ Hg) as (_ & _ & Hs). destruct (slots_get _ i Hs Hi) as [Hd Hl].
    destruct (write_evolves pool f p g (o_data ((ooo_buf g).[i])) (o_len ((ooo_buf g).[i])) Hg Hrx) as (p' & m & Hw & Hg'); [unfold NETWORK_TCP_MSS in *; lia..|].
    exists p', m. split; [done|]. split; [by apply drained_evolves|done].
  - done.
  - by eexists _, _, _.
Qed.

Lemma store_evolves pool f seq data len expected : pool_ok pool -> flow_ok f -> bytes data -> 0 <= len <= zlen data ->
  exists f' n, ooo_buffer_store f seq data len expected = Some (f', n) /\ evolved pool f pool f'.
Proof.
  intros Hp Hf Hb Hl. unfold ooo_buffer_store. case_if; [eexists _, _; split; [done|by apply evolved_refl]|].
  destruct (find_idx _ _) as [i|] eqn:Hi; [|eexists _, _; split; [done|by apply evolved_refl]]. cbv zeta.
  apply find_idx_lt in Hi. pose proof Hf as (Hr & Ht & Hs). pose proof Hs as [Hz _].
  destruct (slots_get _ (Z.of_nat i) Hs) as [Hd _]; [zlia|]. set (k := if len <? _ then _ else _).
  assert (Hk : 0 <= k <= NETWORK_TCP_MSS /\ k <= len) by (unfold k, NETWORK_TCP_MSS; case_if; lia).
  rewrite bytes_copy_ok by (done || lia). bind_step. eexists _, _. split; [done|]. split; [done..| |done]. do 2 (split; [done|]). simpl.
  split; [by rewrite zlen_set|]. apply Forall_insert; [apply Hs|]. clearbody k. split; simpl; unfold NETWORK_TCP_MSS in *.
  - rewrite zlen_app, zlen_drop by lia. rewrite zlen_take by lia. lia.
  - rewrite u16_small by lia. lia.
Qed.

Lemma receive_payload_evolves pool f seq payload len : pool_ok pool -> flow_ok f -> bytes payload -> 0 <= len <= zlen payload -> len < 4294967296 ->
  exists pool' f', receive_payload pool f seq payload len = Some (pool', f') /\ evolved pool f pool' f'.
Proof.
  intros Hp Hf Hb Hl Hm. pose proof (evolved_refl pool f Hp Hf) as He. unfold receive_payload.
  destruct ((0 <? len) && _) eqn:Hg; [|by eexists _, _]. apply andb_true_iff in Hg as [_ Hr%bool_decide_eq_true].
  destruct (seq =? expected_seq f).
  - destruct (write_evolves pool f pool f payload len He Hr Hl Hm) as (p1 & n & -> & H1). bind_step. cbv iota beta. match goal with |- context [ooo_buffer_drain p1 ?g] => set (f1 := g) end.
    destruct (drain_evolves pool f p1 f1) as (p2 & f2 & m & -> & H2); [by destruct H1|done|]. bind_step. by eexists _, _.
  - destruct (expected_seq f <? seq); [|by eexists _, _].
    destruct (store_evolves pool f seq payload len (expected_seq f) Hp Hf Hb Hl) as (f' & n & -> & H1). bind_step. by eexists _, _.
Qed.

(** Neither free nor half open. *)
Definition live (f : network_tcp_flow) : Prop := state f <> XAIOS_NETWORK_FLOW_FREE /\ state f <> XAIOS_NETWORK_FLOW_SYN_RECV.

(** The result of a segment on a live flow. *)
Record handled (pool : list sockbuf_pool_entry) (f : network_tcp_flow) (r : list sockbuf_pool_entry * network_tcp_flow) : Prop := {
  ha_pool : pool_ok r.1;
  ha_uses : uses r.1 = uses pool;
  ha_fixed : fixed r.2 = fixed f;
  ha_flow : flow_ok r.2;
  ha_live : live r.2
}.

Definition keeps (f f' : network_tcp_flow) : Prop := (flow_ok f -> flow_ok f') /\ fixed f' = fixed f /\ (live f -> live f').

Lemma flow_keeps_refl f : keeps f f.
Proof. by split_and!. Qed.

Lemma flow_keeps_trans f g h : keeps f g -> keeps g h -> keeps f h.
Proof. intros (H1 & H2 & H3) (G1 & G2 & G3). split_and!; [auto|congruence|auto]. Qed.

Ltac solve_keeps := repeat case_if; split_and!; (done || (intros; split; simpl; congruence)).

Lemma touch_keeps f t : keeps f (touch f t).
Proof. unfold touch. solve_keeps. Qed.

Lemma receive_fin_keeps f flags seq t : keeps f (receive_fin f flags seq t).
Proof. unfold receive_fin. cbv zeta. solve_keeps. Qed.

Lemma receive_fin_ack_keeps f flags ack t : keeps f (receive_fin_ack f flags ack t).
Proof. unfold receive_fin_ack. solve_keeps. Qed.

Lemma receive_ack_keeps f flags ack : keeps f (receive_ack f flags ack).
Proof. unfold receive_ack. cbv zeta. solve_keeps. Qed.

Lemma close_keeps pool f : keeps f (close_when_sent pool f).
Proof. unfold close_when_sent. solve_keeps. Qed.

Lemma payload_handled pool f f0 seq payload len : pool_ok pool -> flow_ok f0 -> live f0 -> keeps f0 f -> bytes payload -> 0 <= len <= zlen payload -> len < 4294967296 ->
  exists pool' f', receive_payload pool f seq payload len = Some (pool', f') /\ pool_ok pool' /\ uses pool' = uses pool /\ keeps f0 f' /\ flow_ok f'.
Proof.
  intros Hp Hf Hl (K1 & K2 & K3) Hb Hn Hm. destruct (receive_payload_evolves pool f seq payload len Hp (K1 Hf) Hb Hn Hm) as (pool' & f' & -> & [E1 E2 E3 E4 E5]).
  eexists _, _. split; [done|]. split_and!; [done|done| |done]. split_and!; [done|congruence|]. intros H0. unfold live. rewrite E5. by apply K3.
Qed.

Lemma segment_v4_handled pool f start flags seq ack payload len : pool_ok pool -> flow_ok f -> live f -> bytes payload -> 0 <= len <= zlen payload -> len < 4294967296 ->
  yields (handled pool f) (segment_v4 pool f start flags seq ack payload len).
Proof.
  intros Hp Hf Hl Hb Hn Hm. unfold segment_v4. cbv zeta.
  destruct (payload_handled pool (receive_fin_ack (receive_fin (touch f start) flags seq start) flags ack start) f seq payload len) as (p1 & f1 & -> & H1 & H2 & H3 & H4); try done.
  { eapply flow_keeps_trans; [|apply receive_fin_ack_keeps]. eapply flow_keeps_trans; [apply touch_keeps|apply receive_fin_keeps]. }
  bind_step. apply yields_ret. cbv iota beta.
  match goal with |- handled _ _ (_, close_when_sent _ ?g) => assert (K : keeps f1 g) by apply (receive_ack_keeps f1 flags ack) end.
  pose proof (flow_keeps_trans _ _ _ H3 (flow_keeps_trans _ _ _ K (close_keeps p1 _))) as (K1 & K2 & K3). split; simpl; auto.
Qed.

Lemma segment_v6_handled pool f start flags seq ack payload len : pool_ok pool -> flow_ok f -> live f -> bytes payload -> 0 <= len <= zlen payload -> len < 4294967296 ->
  yields (handled pool f) (segment_v6 pool f start flags seq ack payload len).
Proof.
  intros Hp Hf Hl Hb Hn Hm. unfold segment_v6. cbv zeta.
  match goal with |- context [receive_payload pool ?g] => set (f0 := g) end.
  destruct (payload_handled pool f0 f seq payload len) as (p1 & f1 & -> & H1 & H2 & H3 & H4); try done.
  { unfold f0. eapply flow_keeps_trans; [apply touch_keeps|]. solve_keeps. }
  bind_step. apply yields_ret. cbv iota beta.
  match goal with |- handled _ _ (_, close_when_sent _ ?g) => assert (K : keeps f1 g) by solve_keeps end.
  pose proof (flow_keeps_trans _ _ _ H3 (flow_keeps_trans _ _ _ K (close_keeps p1 _))) as (K1 & K2 & K3). split; simpl; auto.
Qed.

End TcpFlow.
