(* ===== verification/TcpStream.v ===== *)
(** * The byte stream of a TCP connection

    The specification of the receiving half of a connection, over the
    operations of [TcpFlow].  The peer sends the bytes [S] from the sequence
    number [base] on, modulo 2^32, and then a FIN; a segment is genuine when it
    carries a piece of [S] at its place.

    [tcp_stream_in_order]: whatever genuine segments arrive, in whatever order
    and how often, and however the application reads, the bytes it gets are a
    prefix of [S].  The FIN comes in a segment without payload: the payload of
    a segment with FIN is lost ([fin_payload_lost]).

    [tcp_reassembly_complete]: when the stream comes in at most five segments of
    at most 1400 bytes and fits the buffer, all of it is delivered for every
    order of arrival.  Here the sequence numbers do not wrap around, because the
    code compares them as plain 32-bit words. *)

From S2P Require Import Prelude Table SocketBuffer Wire NetQueue NetParse TcpFlow.

Module TcpStream.
Import SocketBuffer Wire TcpFlow.

(** ** Segments and reads *)

Inductive event :=
| Arrive (v6 : bool) (start flags seq ack : Z) (payload pad : list Z)
| Take (buffer : list Z).

(** The pool, the flow and the bytes handed to the application.  [pad] stands
    for what follows the payload in the frame. *)
Definition step (pool : list sockbuf_pool_entry) (f : network_tcp_flow) (ev : event) : option (list sockbuf_pool_entry * network_tcp_flow * list Z) :=
  match ev with
  | Arrive v6 start flags seq ack payload pad =>
      '(pool, f) ← (if v6 then segment_v6 else segment_v4) pool f start flags seq ack (payload ++ pad) (zlen payload);
      Some (pool, f, [])
  | Take buffer =>
      '(pool, f, b, n) ← recv_from pool f buffer (zlen buffer);
      Some (pool, f, take (Z.to_nat n) b)
  end.

Fixpoint steps (pool : list sockbuf_pool_entry) (f : network_tcp_flow) (evs : list event) : option (list sockbuf_pool_entry * network_tcp_flow * list Z) :=
  match evs with
  | [] => Some (pool, f, [])
  | ev :: evs' =>
      '(pool, f, o) ← step pool f ev;
      '(pool, f, os) ← steps pool f evs';
      Some (pool, f, o ++ os)
  end.

Section stream.
Context (S : list Z) (base : Z).

(** [data] is the part of the stream at the sequence number [seq]. *)
Definition genuine (seq : Z) (data : list Z) : Prop := exists a c, S = a ++ data ++ c /\ seq = u32 (base + zlen a).

(** A genuine FIN comes alone, behind the last byte. *)
Definition genuine_fin (seq : Z) (payload : list Z) : Prop := payload = [] /\ seq = u32 (base + zlen S).

Definition is_fin (ev : event) : bool :=
  match ev with Arrive _ _ flags _ _ _ _ => has_flag flags NETWORK_TCP_FLAG_FIN | Take _ => false end.

Definition event_ok (ev : event) : Prop :=
  match ev with
  | Arrive _ _ flags seq _ payload pad => bytes pad /\ if has_flag flags NETWORK_TCP_FLAG_FIN then genuine_fin seq payload else genuine seq payload
  | Take buffer => zlen buffer < 4294967296
  end.

(** A connection right after the handshake, with the receive buffer [i]. *)
Record fresh_flow (pool : list sockbuf_pool_entry) (f : network_tcp_flow) (i : Z) : Prop := {
  ff_pool : pool_ok pool;
  ff_flow : flow_ok f;
  ff_rx : rx_buf f = Some i;
  ff_empty : sb_count (pe_buf (pool.[i])) = 0;
  ff_expected : expected_seq f = base;
  ff_window : window_size f = SOCKET_BUFFER_SIZE;
  ff_slots : Forall (fun e => o_in_use e = 0) (ooo_buf f)
}.

(** What is acknowledged: the bytes that have been received, or the FIN. *)
Definition acknowledged (fin : bool) (received : list Z) : Z := if fin then u32 (base + zlen S + 1) else u32 (base + zlen received).

(** The bytes [got] have been handed over, and the buffer holds the next ones. *)
Record stream_ok (i : Z) (fin : bool) (got : list Z) (pool : list sockbuf_pool_entry) (f : network_tcp_flow) : Prop := {
  so_pool : pool_ok pool;
  so_flow : flow_ok f;
  so_rx : rx_buf f = Some i;
  so_prefix : exists rest, S = (got ++ contents (pe_buf (pool.[i]))) ++ rest;
  so_expected : expected_seq f = acknowledged fin (got ++ contents (pe_buf (pool.[i])));
  so_window : window_size f = SOCKET_BUFFER_SIZE - sb_count (pe_buf (pool.[i]));
  so_slots : Forall (fun e => o_in_use e <> 0 -> genuine (o_seq e) (take (Z.to_nat (o_len e)) (o_data e))) (ooo_buf f)
}.

Hypothesis Hend : zlen S < 4294967295.
Hypothesis Hbytes : bytes S.

(** Places of the stream are told apart by their sequence numbers. *)
Lemma seq_inj x y : 0 <= x < 4294967296 -> 0 <= y < 4294967296 -> u32 (base + x) = u32 (base + y) -> x = y.
Proof. unfold u32. intros Hx Hy He. Z.to_euclidean_division_equations. lia. Qed.

Lemma genuine_take seq data n : genuine seq data -> genuine seq (take n data).
Proof. intros (a & c & Hs & Hq). exists a, (drop n data ++ c). split; [|done]. by rewrite (app_assoc (take n data)), take_drop. Qed.

Lemma genuine_facts seq data : genuine seq data -> bytes data /\ zlen data <= zlen S.
Proof.
  intros (a & c & Hs & _). split.
  - unfold bytes in *. rewrite Hs in Hbytes. apply Forall_app in Hbytes as [_ H]. by apply Forall_app in H as [? _].
  - rewrite Hs. rewrite !zlen_app. pose proof (zlen_nonneg a). pose proof (zlen_nonneg c). lia.
Qed.

Lemma rx_range i fin got pool f : stream_ok i fin got pool f -> 0 <= i < SOCKET_BUFFER_COUNT.
Proof. intros Hs. destruct (so_flow _ _ _ _ _ Hs) as [Hr _]. by rewrite (so_rx _ _ _ _ _ Hs) in Hr. Qed.

(** Bytes of the stream at the expected place extend what has been received. *)
Lemma deliver i fin got pool f data len :
  stream_ok i fin got pool f -> 0 <= len <= zlen data -> genuine (expected_seq f) (take (Z.to_nat len) data) ->
  exists pool' n, write_to pool (rx_buf f) data len = Some (pool', n) /\
    forall f', flow_ok f' -> rx_buf f' = Some i -> expected_seq f' = u32 (expected_seq f + n) ->
      window_size f' = u16 (sockbuf_available (buf pool' (rx_buf f))) ->
      Forall (fun e => o_in_use e <> 0 -> genuine (o_seq e) (take (Z.to_nat (o_len e)) (o_data e))) (ooo_buf f') -> stream_ok i fin got pool' f'.
Proof.
  intros Hs Hl Hg. pose proof (rx_range _ _ _ _ _ Hs) as Hi. destruct Hs as [Hp Hf Hr [rest Hpre] He Hw Ho].
  set (b := pe_buf (pool.[i])) in *. rewrite Hr. pose proof Hg as Hg0. apply genuine_facts in Hg0 as [_ Hlen]. rewrite zlen_take in Hlen by done.
  destruct (write_to_ok pool i data len Hp Hi Hl) as (c & -> & Hc & Hcount & Hcont); [lia|]. fold b in Hcount, Hcont |- *.
  set (n := Z.min _ _) in *. pose proof (pool_get pool i Hp Hi) as Hwf. fold b in Hwf. assert (Hcb : 0 <= sb_count b <= SOCKET_BUFFER_SIZE) by apply Hwf.
  eexists _, n. split; [done|]. intros f' Hf' Hr' He' Hw' Ho'. destruct (set_buf_ok pool i c Hp Hi Hc) as (Hp' & _ & Hget).
  destruct Hg as (a & z & HS & Hseq). pose proof (zlen_nonneg a) as Ha0. pose proof (f_equal zlen HS) as HaS. rewrite !zlen_app in HaS.
  pose proof (zlen_nonneg z) as Hz0. pose proof (f_equal zlen Hpre) as HpS. rewrite zlen_app in HpS. pose proof (zlen_nonneg (got ++ contents b)). pose proof (zlen_nonneg rest).
  pose proof (zlen_nonneg (take (Z.to_nat len) data)).
  destruct fin; simpl in He; rewrite He in Hseq.
  { rewrite <- Z.add_assoc in Hseq. apply seq_inj in Hseq; lia. }
  apply seq_inj in Hseq; [|lia..].
  assert (Ha : got ++ contents b = a /\ rest = take (Z.to_nat len) data ++ z).
  { apply app_inj_1; [unfold zlen in *; lia|]. by rewrite <- Hpre, <- HS. }
  destruct Ha as [Ha Hrest].
  assert (Hall : zlen (got ++ contents c) = zlen (got ++ contents b) + n).
  { rewrite Hcont, app_assoc, zlen_app, zlen_take by lia. done. }
  assert (HS' : exists rest', S = (got ++ contents c) ++ rest').
  { exists (drop (Z.to_nat n) (take (Z.to_nat len) data) ++ z). rewrite Hcont, HS, <- Ha, !app_assoc. f_equal. rewrite <- !app_assoc. do 2 f_equal.
    rewrite <- (take_drop (Z.to_nat n) (take (Z.to_nat len) data)) at 1. f_equal. rewrite take_take. f_equal. lia. }
  assert (Hfit : zlen (got ++ contents c) <= zlen S) by (destruct HS' as [r ->]; rewrite (zlen_app _ r); pose proof (zlen_nonneg r); lia).
  split; rewrite ?Hget; try done.
  - rewrite He', He. simpl. unfold u32. rewrite Zplus_mod_idemp_l, Hall. f_equal. lia.
  - rewrite Hw'. cbn [buf fmap option_fmap option_map]. rewrite Hget. by apply available_eq.
Qed.

Lemma drain_stream i fin got pool f : stream_ok i fin got pool f ->
  exists pool' f' n, ooo_buffer_drain pool f = Some (pool', f', n) /\ stream_ok i fin got pool' f'.
Proof.
  intros Hs. destruct (drain_ok (stream_ok i fin got)) with (pool := pool) (f := f) as (p & g & n & H & Hg & _); [| |done|by eexists _, _, _].
  - intros p g Hg. apply (so_flow _ _ _ _ _ Hg).
  - intros p g j Hj Hg Hn. destruct (so_flow _ _ _ _ _ Hg) as (Hr & Ht & Hsl). destruct (slots_get _ j Hsl Hj) as [Hd Hl].
    unfold is_next in Hn. apply andb_true_iff in Hn as [Hu%negb_true_iff%Z.eqb_neq Hq%Z.eqb_eq].
    pose proof (so_slots _ _ _ _ _ Hg) as Ho. assert (Hlk : ooo_buf g !! Z.to_nat j = Some ((ooo_buf g).[j])) by (apply arr_lookup; destruct Hsl; lia).
    destruct (deliver i fin got p g (o_data ((ooo_buf g).[j])) (o_len ((ooo_buf g).[j])) Hg) as (p' & m & Hw & Hk); [lia| |].
    { rewrite <- Hq. rewrite Forall_lookup in Ho. by eapply Ho. }
    exists p', m. split; [done|]. apply Hk; try done.
    + do 2 (split; [done|]). apply slots_upd; [done|done|]. by intros e [? ?].
    + by rewrite <- (so_rx _ _ _ _ _ Hg).
    + simpl. unfold upd. apply Forall_insert; [done|]. by intros [].
Qed.

(** Fields that the stream does not depend on may change. *)
Definition stream_fields (f : network_tcp_flow) := (rx_buf f, tx_buf f, expected_seq f, window_size f, ooo_buf f).

Lemma stream_ok_ext i fin got pool f f' : stream_fields f' = stream_fields f -> stream_ok i fin got pool f -> stream_ok i fin got pool f'.
Proof.
  intros [= H1 H2 H3 H4 H5] [Hp Hf Hr Hpre He Hw Ho]. split; try congruence.
  unfold flow_ok in *. by rewrite H1, H2, H5.
Qed.

Lemma store_stream i fin got pool f seq data len : stream_ok i fin got pool f -> bytes data -> 0 <= len <= zlen data ->
  genuine seq (take (Z.to_nat len) data) ->
  exists f' n, ooo_buffer_store f seq data len (expected_seq f) = Some (f', n) /\ stream_ok i fin got pool f'.
Proof.
  intros Hs Hb Hl Hg. destruct (store_evolves pool f seq data len (expected_seq f)) as (f' & n & He & Hev); [apply Hs|apply Hs|done|done|].
  exists f', n. split; [done|]. pose proof (ev_flow _ _ _ _ Hev) as Hf'. unfold ooo_buffer_store in He.
  case_if; [by injection He as <- _|]. destruct (find_idx _ _) as [j|] eqn:Hj; [|by injection He as <- _]. cbv zeta in He.
  destruct (so_flow _ _ _ _ _ Hs) as (_ & _ & Hsl). apply find_idx_lt in Hj. destruct (slots_get _ (Z.of_nat j) Hsl) as [Hd _]; [destruct Hsl; zlia|].
  set (k := if len <? _ then _ else _) in *. assert (Hk : 0 <= k <= NETWORK_TCP_MSS /\ k <= len) by (unfold k, NETWORK_TCP_MSS; case_if; lia). clearbody k.
  rewrite bytes_copy_ok in He by (done || lia). injection He as <- _. destruct Hs as [Hp Hf Hr Hpre He Hw Ho]. split; try done.
  simpl. apply Forall_insert; [done|]. simpl. intros _. rewrite u16_small by (unfold NETWORK_TCP_MSS in *; lia).
  rewrite take_app_le, take_take, Nat.min_id by (rewrite length_take; zlia).
  replace (take (Z.to_nat k) data) with (take (Z.to_nat k) (take (Z.to_nat len) data)) by (rewrite take_take; f_equal; lia). by apply genuine_take.
Qed.

Lemma payload_stream i fin got pool f seq data len : stream_ok i fin got pool f -> bytes data -> 0 <= len <= zlen data ->
  genuine seq (take (Z.to_nat len) data) ->
  exists pool' f', receive_payload pool f seq data len = Some (pool', f') /\ stream_ok i fin got pool' f'.
Proof.
  intros Hs Hb Hl Hg. unfold receive_payload. case_if; [|by eexists _, _]. destruct (Z.eqb_spec seq (expected_seq f)) as [->|Hne].
  - destruct (deliver i fin got pool f data len Hs Hl Hg) as (p1 & n & -> & Hk). bind_step. cbv iota beta.
    match goal with |- context [ooo_buffer_drain p1 ?g] => destruct (drain_stream i fin got p1 g) as (p2 & f2 & m & -> & H2) end; [|bind_step; by eexists _, _].
    apply Hk; try done; [apply Hs..].
  - case_if; [|by eexists _, _]. destruct (store_stream i fin got pool f seq data len Hs Hb Hl Hg) as (f' & n & -> & H1). bind_step. by eexists _, _.
Qed.

Lemma no_fin_fields f flags seq ack t : has_flag flags NETWORK_TCP_FLAG_FIN = false ->
  stream_fields (receive_fin_ack (receive_fin (touch f t) flags seq t) flags ack t) = stream_fields f.
Proof. intros Hf. unfold receive_fin_ack, receive_fin. rewrite Hf. by case_if. Qed.

Lemma receive_ack_fields f flags ack : stream_fields (receive_ack f flags ack) = stream_fields f.
Proof. unfold receive_ack. cbv zeta. by repeat case_if. Qed.

Lemma close_fields pool f : stream_fields (close_when_sent pool f) = stream_fields f.
Proof. unfold close_when_sent. by case_if. Qed.

(** A segment without FIN keeps the stream. *)
Lemma segment_stream (v6 : bool) i fin got pool f start flags seq ack data len : stream_ok i fin got pool f -> bytes data -> 0 <= len <= zlen data ->
  has_flag flags NETWORK_TCP_FLAG_FIN = false -> genuine seq (take (Z.to_nat len) data) ->
  exists pool' f', (if v6 then segment_v6 else segment_v4) pool f start flags seq ack data len = Some (pool', f') /\ stream_ok i fin got pool' f'.
Proof.
  intros Hs Hb Hl Hfin Hg. destruct v6; unfold segment_v4, segment_v6; cbv zeta; [rewrite Hfin|].
  - destruct (payload_stream i fin got pool (touch f start) seq data len) as (p1 & f1 & -> & H1); [by apply (stream_ok_ext i fin got pool f)|done..|].
    bind_step. cbv iota beta. eexists _, _. split; [done|]. eapply stream_ok_ext; [apply close_fields|]. case_if; [|done]. by apply (stream_ok_ext i fin got p1 f1).
  - destruct (payload_stream i fin got pool (receive_fin_ack (receive_fin (touch f start) flags seq start) flags ack start) seq data len) as (p1 & f1 & -> & H1);
      [eapply stream_ok_ext; [by apply no_fin_fields|done]|done..|].
    bind_step. cbv iota beta. eexists _, _. split; [done|]. eapply stream_ok_ext; [apply close_fields|].
    eapply stream_ok_ext; [|eapply stream_ok_ext; [apply receive_ack_fields|exact H1]]. done.
Qed.

(** A FIN acknowledges itself and touches nothing else of the stream. *)
Lemma fin_stream (v6 : bool) i fin got pool f start flags seq ack pad : stream_ok i fin got pool f -> has_flag flags NETWORK_TCP_FLAG_FIN = true ->
  seq = u32 (base + zlen S) ->
  exists f', (if v6 then segment_v6 else segment_v4) pool f start flags seq ack pad 0 = Some (pool, f') /\ stream_ok i true got pool f'.
Proof.
  intros Hs Hfin Hseq.
  assert (Hf : forall f', stream_fields f' = stream_fields (f <| expected_seq := u32 (seq + 1) |>) -> stream_ok i true got pool f').
  { intros f' Hx. eapply stream_ok_ext; [exact Hx|]. destruct Hs as [Hp Hf Hr Hpre He Hw Ho]. split; try done.
    simpl. rewrite Hseq. unfold u32. by rewrite Zplus_mod_idemp_l. }
  destruct v6; unfold segment_v4, segment_v6, receive_fin, receive_payload; rewrite Hfin; cbn [Z.ltb Z.compare andb]; cbv zeta; bind_step; cbv iota beta;
    (eexists; split; [done|]; apply Hf; rewrite close_fields).
  - by repeat case_if.
  - etransitivity; [apply receive_ack_fields|]. unfold receive_fin_ack. by repeat case_if.
Qed.

(** A read moves bytes from the buffer to the application. *)
Lemma recv_stream i fin got pool f buffer : stream_ok i fin got pool f -> zlen buffer < 4294967296 ->
  exists pool' f' b n, recv_from pool f buffer (zlen buffer) = Some (pool', f', b, n) /\ stream_ok i fin (got ++ take (Z.to_nat n) b) pool' f'.
Proof.
  intros Hs Hb. pose proof (rx_range _ _ _ _ _ Hs) as Hi. destruct Hs as [Hp Hf Hr Hpre He Hw Ho]. unfold recv_from. rewrite Hr.
  set (b := pe_buf (pool.[i])) in *. change (buf pool (Some i)) with (Some b). pose proof (pool_get pool i Hp Hi) as Hwf. fold b in Hwf.
  destruct (sockbuf_read_ok b buffer (zlen buffer) Hwf) as (c & -> & Hc & Hcount & Hcont); [zlia|done|]. set (n := Z.min _ _) in *.
  assert (Hn : 0 <= n <= zlen buffer) by (destruct Hwf as (_ & _ & ? & _); unfold n; zlia).
  assert (Hzc : zlen (contents b) = sb_count b) by (apply zlen_window; apply Hwf).
  rewrite (proj2 (Z.ltb_ge _ _)) by lia. cbn [set_buf_opt default from_option id]. destruct (set_buf_ok pool i c Hp Hi Hc) as (Hp' & _ & Hget).
  eexists _, _, _, n. split; [done|]. rewrite take_app_le, take_take, Nat.min_id by (rewrite length_take; zlia).
  assert (Hcat : (got ++ take (Z.to_nat n) (contents b)) ++ contents c = got ++ contents b) by (by rewrite Hcont, <- app_assoc, take_drop).
  split; rewrite ?Hget, ?Hcat; try done. cbn [buf fmap option_fmap option_map]. simpl. rewrite Hget. by apply available_eq.
Qed.

Lemma step_stream i fin got pool f ev : stream_ok i fin got pool f -> event_ok ev ->
  exists pool' f' o, step pool f ev = Some (pool', f', o) /\ stream_ok i (fin || is_fin ev) (got ++ o) pool' f'.
Proof.
  intros Hs He. destruct ev as [v6 start flags seq ack payload pad|buffer]; unfold step; cbn [is_fin].
  - destruct He as [Hpad He]. destruct (has_flag flags NETWORK_TCP_FLAG_FIN) eqn:Hfin.
    + destruct He as [-> Hseq]. destruct (fin_stream v6 i fin got pool f start flags seq ack pad Hs Hfin Hseq) as (g & Heq & H).
      change ([] ++ pad) with pad. change (zlen (@nil Z)) with 0. rewrite Heq. bind_step. eexists _, _, []. rewrite app_nil_r, orb_true_r. done.
    + destruct (genuine_facts _ _ He) as [Hpb _].
      destruct (segment_stream v6 i fin got pool f start flags seq ack (payload ++ pad) (zlen payload) Hs) as (p & g & -> & H);
        [by apply bytes_app|len_lia|done|by rewrite take_app_length' by zlia|].
      bind_step. eexists _, _, []. rewrite app_nil_r, orb_false_r. done.
  - destruct (recv_stream i fin got pool f buffer Hs He) as (p & g & b & n & -> & H). bind_step. rewrite orb_false_r. by eexists _, _, _.
Qed.

Lemma steps_stream i evs : forall fin got pool f, stream_ok i fin got pool f -> Forall event_ok evs ->
  exists pool' f' o, steps pool f evs = Some (pool', f', o) /\ stream_ok i (fin || existsb is_fin evs) (got ++ o) pool' f'.
Proof.
  induction evs as [|ev evs IH]; intros fin got pool f Hs He; cbn [steps existsb].
  - eexists _, _, []. split; [done|]. by rewrite app_nil_r, orb_false_r.
  - apply Forall_cons in He as [He1 He2]. destruct (step_stream _ _ _ _ _ _ Hs He1) as (p & g & o & -> & H1). bind_step. cbv iota beta.
    destruct (IH _ _ _ _ H1 He2) as (p2 & g2 & os & -> & H2). bind_step. cbv iota beta. eexists _, _, _. split; [done|]. by rewrite app_assoc, orb_assoc.
Qed.

Lemma fresh_stream i pool f : 0 <= base < 4294967296 -> fresh_flow pool f i -> stream_ok i false [] pool f.
Proof.
  intros Hbase [Hp Hf Hr He Hx Hw Ho]. assert (Hc : contents (pe_buf (pool.[i])) = []) by (unfold contents; by rewrite He).
  split; rewrite ?Hc; try done.
  - by exists S.
  - simpl. change (zlen (@nil Z)) with 0. rewrite Hx, Z.add_0_r. symmetry. by apply u32_small.
  - by rewrite He, Z.sub_0_r.
  - eapply Forall_impl; [exact Ho|]. intros e H0 H1. by rewrite H0 in H1.
Qed.

End stream.

(** C11: TCP delivers the peer's stream in order.  The peer sends the bytes [S],
    fewer than 2^32 - 1, from any sequence number [base] on, modulo 2^32, and
    closes with a FIN of its own, without payload.  Whatever of its segments
    arrive (in any order, repeated, overlapping, any of them missing, over IPv4
    or IPv6) and however the application reads in between, no step fails, the
    bytes read so far followed by the bytes in the receive buffer are a prefix
    of [S], the acknowledgement number is the end of that prefix, or the number
    behind the FIN once a FIN has come, and the advertised window is the room
    left in the buffer. *)
Theorem tcp_stream_in_order (S : list Z) (base : Z) (pool : list sockbuf_pool_entry) (f : network_tcp_flow) (i : Z) (evs : list event)
  (Hbase : 0 <= base < 4294967296) (Hend : zlen S < 4294967295) (Hbytes : bytes S)
  (Hf : fresh_flow base pool f i) (Hevs : Forall (event_ok S base) evs) :
  exists pool' f' out rest, steps pool f evs = Some (pool', f', out) /\
    let kept := contents (pe_buf (pool'.[i])) in
    S = (out ++ kept) ++ rest /\
    expected_seq f' = u32 (base + (if existsb is_fin evs then zlen S + 1 else zlen (out ++ kept))) /\
    window_size f' = SOCKET_BUFFER_SIZE - zlen kept.
Proof.
  destruct (steps_stream S base Hend Hbytes i evs false [] pool f) as (pool' & f' & out & Hs & Hok); [by apply fresh_stream|done|].
  destruct (so_prefix _ _ _ _ _ _ _ Hok) as [rest Hrest]. exists pool', f', out, rest. split; [done|]. simpl in Hrest. split; [done|]. split.
  - rewrite (so_expected _ _ _ _ _ _ _ Hok). unfold acknowledged. simpl. case_if; [|done]. by rewrite Z.add_assoc.
  - rewrite (so_window _ _ _ _ _ _ _ Hok). f_equal. symmetry. apply zlen_window. apply (pool_get pool'); [apply Hok|by eapply rx_range].
Qed.

(** A pool of empty buffers, and a connection that uses the first one. *)
Definition demo_pool : list sockbuf_pool_entry := replicate (Z.to_nat SOCKET_BUFFER_COUNT) (mk_pool_entry (mk_socket_buffer (replicate (Z.to_nat SOCKET_BUFFER_SIZE) 0) 0 0 0) 1).

Definition demo_flow (base : Z) : network_tcp_flow :=
  zero_flow <| state := XAIOS_NETWORK_FLOW_ESTABLISHED |> <| rx_buf := Some 0 |> <| expected_seq := base |> <| window_size := SOCKET_BUFFER_SIZE |>.

Lemma demo_pool_ok : pool_ok demo_pool.
Proof. split; [done|]. apply Forall_replicate. by apply wf_init. Qed.

Lemma demo_fresh base : fresh_flow base demo_pool (demo_flow base) 0.
Proof.
  split; [exact demo_pool_ok| |done..|by repeat constructor]. split; [unfold ptr_ok, SOCKET_BUFFER_COUNT; simpl; lia|]. split; [done|].
  split; [done|]. apply Forall_replicate. split; [done|]. unfold NETWORK_TCP_MSS. simpl. lia.
Qed.

(** A stream of six bytes that crosses the end of the sequence numbers: a later
    segment before the first one, a read, a repetition, and the FIN, which
    overtakes the last byte. *)
Lemma tcp_stream_in_order_witness :
  let base := 4294967294 in
  let evs := [Arrive false 7 0x10 1 0 [4; 5] []; Arrive true 8 0x10 base 0 [1; 2; 3] [9]; Take (replicate 2 0); Arrive false 9 0x10 1 0 [4; 5] []; Arrive true 10 0x11 4 0 [] [0]] in
  exists pool' f' out rest, steps demo_pool (demo_flow base) evs = Some (pool', f', out) /\
    let kept := contents (pe_buf (pool'.[0])) in
    [1; 2; 3; 4; 5; 6] = (out ++ kept) ++ rest /\ expected_seq f' = 5 /\ window_size f' = SOCKET_BUFFER_SIZE - zlen kept.
Proof.
  intros base evs. apply (tcp_stream_in_order [1; 2; 3; 4; 5; 6] base demo_pool (demo_flow base) 0 evs); [lia|done|solve_bytes|apply demo_fresh|].
  assert (G1 : genuine [1; 2; 3; 4; 5; 6] base 1 [4; 5]) by (by exists [1; 2; 3], [6]).
  assert (G2 : genuine [1; 2; 3; 4; 5; 6] base base [1; 2; 3]) by (by exists [], [4; 5; 6]).
  repeat constructor; simpl; (done || solve_bytes).
Defined.

(** A segment with FIN acknowledges one number behind its own sequence number,
    whatever it carries and wherever it belongs; its payload is not delivered. *)
Lemma fin_payload_lost pool f start flags seq ack payload len :
  has_flag flags NETWORK_TCP_FLAG_FIN = true -> 0 <= seq < 4294967295 -> state f = XAIOS_NETWORK_FLOW_ESTABLISHED ->
  exists f', segment_v4 pool f start flags seq ack payload len = Some (pool, f') /\ expected_seq f' = seq + 1 /\ ooo_buf f' = ooo_buf f.
Proof.
  intros Hfin Hseq Hst. unfold segment_v4, receive_fin. rewrite Hfin. unfold in_state. cbv zeta. rewrite bool_decide_eq_true_2 by done.
  unfold receive_payload. match goal with |- context [expected_seq (receive_fin_ack ?g _ _ _)] => set (f1 := receive_fin_ack g flags ack start) end.
  assert (H1 : stream_fields f1 = stream_fields (f <| expected_seq := seq + 1 |>)).
  { unfold f1, receive_fin_ack. case_if; unfold stream_fields; simpl; rewrite u32_small by lia; done. }
  assert (He : expected_seq f1 = seq + 1) by (by injection H1). clearbody f1.
  rewrite He, (proj2 (Z.eqb_neq seq (seq + 1))), (proj2 (Z.ltb_ge (seq + 1) seq)) by lia. match goal with |- context [if ?c then Some (pool, f1) else Some (pool, f1)] => replace (if c then Some (pool, f1) else Some (pool, f1)) with (Some (pool, f1)) by (by destruct c) end. bind_step. cbv iota beta. eexists. split; [done|].
  match goal with |- context [close_when_sent pool ?g] => pose proof (close_fields pool g) as H2; set (f2 := close_when_sent pool g) in * end.
  assert (H3 : stream_fields f2 = stream_fields (f <| expected_seq := seq + 1 |>)) by (rewrite H2, <- H1; apply (receive_ack_fields f1 flags ack)).
  by injection H3.
Qed.

(** ** Reassembly *)

Section reassembly.
Context (ps : list (list Z)) (base i : Z).

(** The segments are the pieces [ps] of the stream, one after the other. *)
Definition place (j : nat) : Z := base + zlen (concat (take j ps)).
Definition piece (j : nat) : list Z := ps !!! j.
Definition segment_of (j : nat) : Z * list Z := (place j, piece j).

(** The segments that wait in the buffer of a flow. *)
Definition held (e : ooo_entry) : Z * list Z := (o_seq e, take (Z.to_nat (o_len e)) (o_data e)).
Definition waiting (l : list ooo_entry) : list (Z * list Z) := held <$> filter (fun e => o_in_use e <> 0) l.

Hypothesis Hbase : 0 <= base.
Hypothesis Hend : base + zlen (concat ps) < 4294967296.
Hypothesis Hbytes : bytes (concat ps).
Hypothesis Hpieces : Forall (fun p => 0 < zlen p <= NETWORK_TCP_MSS) ps.
Hypothesis Hfits : zlen (concat ps) <= SOCKET_BUFFER_SIZE.
Hypothesis Hcount : (length ps <= 5)%nat.

(** The first [m] pieces are in the buffer, the pieces [W] wait; [A] are the
    ones that have arrived. *)
Record assembled (A : list nat) (pool : list sockbuf_pool_entry) (f : network_tcp_flow) (m : nat) (W : list nat) : Prop := {
  as_pool : pool_ok pool;
  as_flow : flow_ok f;
  as_rx : rx_buf f = Some i;
  as_got : contents (pe_buf (pool.[i])) = concat (take m ps);
  as_expected : expected_seq f = place m;
  as_m : (m <= length ps)%nat;
  as_W : Forall (fun w => m <= w < length ps)%nat W;
  as_waiting : waiting (ooo_buf f) ≡ₚ segment_of <$> W;
  as_A : A ≡ₚ seq 0 m ++ W
}.

Lemma piece_lookup j : (j < length ps)%nat -> ps !! j = Some (piece j).
Proof. intros. by apply list_lookup_lookup_total_lt. Qed.

Lemma piece_len j : (j < length ps)%nat -> 0 < zlen (piece j) <= NETWORK_TCP_MSS.
Proof. intros Hj. pose proof Hpieces as H. rewrite Forall_lookup in H. eapply H, piece_lookup, Hj. Qed.

Lemma concat_take_S j : (j < length ps)%nat -> concat (take (S j) ps) = concat (take j ps) ++ piece j.
Proof. intros Hj. rewrite (take_S_r _ _ _ (piece_lookup j Hj)), concat_app. simpl. by rewrite app_nil_r. Qed.

Lemma place_S j : (j < length ps)%nat -> place (S j) = place j + zlen (piece j).
Proof. intros Hj. unfold place. rewrite concat_take_S, zlen_app by done. lia. Qed.

Lemma place_lt a b : (a < b)%nat -> (b <= length ps)%nat -> place a < place b.
Proof.
  intros Hab Hb. induction Hab as [|b Hab IH]; rewrite place_S by lia; [pose proof (piece_len a ltac:(lia)); lia|].
  pose proof (piece_len b ltac:(lia)). specialize (IH ltac:(lia)). lia.
Qed.

Lemma place_inj a b : (a <= length ps)%nat -> (b <= length ps)%nat -> place a = place b -> a = b.
Proof. intros Ha Hb He. destruct (Nat.lt_trichotomy a b) as [H|[H|H]]; [|done|]; apply place_lt in H; (done || lia). Qed.

Lemma prefix_len j : zlen (concat (take j ps)) <= zlen (concat ps).
Proof. rewrite <- (take_drop j ps) at 2. rewrite concat_app, zlen_app. pose proof (zlen_nonneg (concat (drop j ps))). lia. Qed.

Lemma piece_bytes j : (j < length ps)%nat -> bytes (piece j).
Proof.
  intros Hj. pose proof Hbytes as H. unfold bytes in H. rewrite Forall_concat in H. rewrite Forall_lookup in H. eapply H, piece_lookup, Hj.
Qed.

(** Writing the piece that comes next. *)
Lemma write_piece A pool f m W data len : assembled A pool f m W -> (m < length ps)%nat -> 0 <= len <= zlen data -> take (Z.to_nat len) data = piece m ->
  exists pool', write_to pool (rx_buf f) data len = Some (pool', len) /\
    forall f' W' A', flow_ok f' -> rx_buf f' = Some i -> expected_seq f' = u32 (expected_seq f + len) -> Forall (fun w => S m <= w < length ps)%nat W' ->
      waiting (ooo_buf f') ≡ₚ segment_of <$> W' -> A' ≡ₚ seq 0 (S m) ++ W' -> assembled A' pool' f' (S m) W'.
Proof.
  intros [Hp Hf Hr Hg He Hm HW Hw HA] Hlt Hl Hd. assert (Hi : 0 <= i < SOCKET_BUFFER_COUNT) by (destruct Hf as [Hx _]; by rewrite Hr in Hx).
  rewrite Hr. set (b := pe_buf (pool.[i])) in *. pose proof (pool_get pool i Hp Hi) as Hwf. fold b in Hwf.
  assert (Hcb : sb_count b = zlen (concat (take m ps))) by (rewrite <- Hg; symmetry; apply zlen_window; apply Hwf).
  assert (Hlen : len = zlen (piece m)) by (by rewrite <- Hd, zlen_take).
  pose proof (prefix_len (S m)) as Hpre. rewrite concat_take_S, zlen_app in Hpre by done. pose proof (zlen_nonneg (concat (take m ps))).
  pose proof (piece_len m Hlt). destruct (write_to_ok pool i data len Hp Hi Hl) as (c & -> & Hc & _ & Hcont); [unfold NETWORK_TCP_MSS in *; lia|]. fold b in Hcont |- *.
  rewrite Z.min_l in Hcont |- * by lia. exists (set_buf pool i c). split; [done|]. intros f' W' A' F1 F2 F3 F4 F5 F6.
  destruct (set_buf_ok pool i c Hp Hi Hc) as (Hp' & _ & Hget). split; try done; try lia.
  - by rewrite Hget, Hcont, Hg, Hd, concat_take_S.
  - rewrite F3, He, place_S by done. rewrite Hlen. unfold place. apply u32_small. lia.
Qed.

Lemma waiting_clear l j : 0 <= j < zlen l -> o_in_use (l.[j]) <> 0 -> waiting l ≡ₚ held (l.[j]) :: waiting (upd l j (fun e => e <| o_in_use := 0 |>)).
Proof.
  intros Hj Hu. unfold waiting, upd. pose proof (arr_lookup l j Hj) as Hl. destruct (Table.insert_perm l _ _ (l.[j] <| o_in_use := 0 |>) Hl) as [H1 H2].
  rewrite H1 at 1. rewrite H2. rewrite filter_cons_True by done. rewrite filter_cons_False by (simpl; lia). done.
Qed.

Lemma waiting_fill l (j : nat) e e' : l !! j = Some e -> o_in_use e = 0 -> o_in_use e' <> 0 -> waiting (<[j := e']> l) ≡ₚ held e' :: waiting l.
Proof.
  intros Hl H0 H1. unfold waiting. destruct (Table.insert_perm l _ _ e' Hl) as [P1 P2]. rewrite P2, filter_cons_True, fmap_cons by done.
  constructor. rewrite P1 at 2. by rewrite filter_cons_False by (rewrite H0; lia).
Qed.

Lemma used_waiting l : used l = length (waiting l).
Proof. unfold used, waiting. by rewrite length_fmap. Qed.

(** An entry with the expected sequence number holds the next piece. *)
Lemma next_entry A pool f m W j : assembled A pool f m W -> 0 <= j < TCP_OOO_BUF_ENTRIES -> is_next f ((ooo_buf f).[j]) = true ->
  let e := (ooo_buf f).[j] in
  exists W', W ≡ₚ m :: W' /\ (m < length ps)%nat /\ take (Z.to_nat (o_len e)) (o_data e) = piece m /\
    waiting (upd (ooo_buf f) j (fun e => e <| o_in_use := 0 |>)) ≡ₚ segment_of <$> W'.
Proof.
  intros [Hp Hf Hr Hg He Hm HW Hw HA] Hj Hn e. unfold is_next in Hn. apply andb_true_iff in Hn as [Hu%negb_true_iff%Z.eqb_neq Hq%Z.eqb_eq].
  destruct Hf as (_ & _ & [Hz _]). pose proof (waiting_clear (ooo_buf f) j ltac:(lia) Hu) as Hc. rewrite Hw in Hc.
  assert (Hin : held e ∈ segment_of <$> W) by (rewrite Hc; left). apply list_elem_of_fmap in Hin as (w & Hseg & HwW).
  pose proof HW as HW2. rewrite Forall_forall in HW2. pose proof (HW2 w HwW) as Hwr. unfold held, segment_of in Hseg. injection Hseg as Hs Hd.
  assert (w = m) as -> by (apply place_inj; [lia|lia|]; fold e in Hq; congruence).
  apply elem_of_Permutation in HwW as [W' HW']. exists W'. split_and!; [done|lia|done|].
  rewrite HW', fmap_cons in Hc. replace (held (ooo_buf f).[j]) with (segment_of m) in Hc by (unfold segment_of, held; by rewrite <- Hs, <- Hd).
  by apply Permutation_cons_inv in Hc.
Qed.

Lemma fewer_A A m W' W : A ≡ₚ seq 0 m ++ W -> W ≡ₚ m :: W' -> A ≡ₚ seq 0 (S m) ++ W'.
Proof. intros -> ->. rewrite seq_S, <- app_assoc. done. Qed.

Lemma later_W W m W' : Forall (fun w => m <= w < length ps)%nat W -> NoDup W -> W ≡ₚ m :: W' -> Forall (fun w => S m <= w < length ps)%nat W'.
Proof.
  intros HW Hnd HP. rewrite HP in HW, Hnd. apply Forall_cons in HW as [_ HW]. apply NoDup_cons in Hnd as [Hm _].
  rewrite Forall_forall in HW |- *. intros w Hw. specialize (HW w Hw). assert (w <> m) by congruence. lia.
Qed.

Lemma assembled_nodup A pool f m W : assembled A pool f m W -> NoDup A -> NoDup W.
Proof. intros Ha Hnd. rewrite (as_A _ _ _ _ _ Ha) in Hnd. by apply NoDup_app in Hnd as (_ & _ & ?). Qed.

(** Draining leaves no segment that could be delivered. *)
Lemma drain_assembled A pool f m W : assembled A pool f m W -> NoDup A ->
  exists pool' f' n m' W', ooo_buffer_drain pool f = Some (pool', f', n) /\ assembled A pool' f' m' W' /\ m' ∉ W'.
Proof.
  intros Ha Hnd. destruct (drain_ok (fun p g => exists m W, assembled A p g m W)) with (pool := pool) (f := f) as (p & g & n & Hd & (m' & W' & H') & Hnone).
  - intros p g (? & ? & Hg). destruct (as_flow _ _ _ _ _ Hg) as (_ & _ & [Hz _]). done.
  - intros p g j Hj (m1 & W1 & Hg) Hn. destruct (next_entry _ _ _ _ _ j Hg Hj Hn) as (W' & HP & Hlt & Hd & Hw).
    destruct (as_flow _ _ _ _ _ Hg) as (F1 & F2 & F3). destruct (slots_get _ j F3 Hj) as [Hsz Hsl].
    destruct (write_piece A p g m1 W1 (o_data ((ooo_buf g).[j])) (o_len ((ooo_buf g).[j])) Hg Hlt) as (p' & Hwr & Hk); [lia|done|].
    eexists p', _. split; [done|]. exists (S m1), W'. apply Hk; try done.
    + do 2 (split; [done|]). apply slots_upd; [done|done|]. by intros e [? ?].
    + by rewrite <- (as_rx _ _ _ _ _ Hg).
    + eapply later_W; [apply Hg|by eapply assembled_nodup|done].
    + eapply fewer_A; [apply Hg|done].
  - by exists m, W.
  - exists p, g, n, m', W'. split; [done|]. split; [done|]. intros Hin.
    assert (Hs : segment_of m' ∈ waiting (ooo_buf g)) by (rewrite (as_waiting _ _ _ _ _ H'); by apply list_elem_of_fmap_2).
    apply list_elem_of_fmap in Hs as (e & He & [Hu [k Hk]%list_elem_of_lookup]%list_elem_of_filter). destruct (as_flow _ _ _ _ _ H') as (_ & _ & [Hz _]).
    pose proof (lookup_lt_Some _ _ _ Hk). specialize (Hnone (Z.of_nat k) ltac:(zlia)). rewrite Nat2Z.id, (list_lookup_total_correct _ _ _ Hk) in Hnone.
    unfold is_next in Hnone. rewrite (as_expected _ _ _ _ _ H') in Hnone. unfold segment_of, held in He. injection He as Hseq _.
    rewrite <- Hseq, Z.eqb_refl, (proj2 (Z.eqb_neq _ _)) in Hnone by done. done.
Qed.

Lemma assembled_ext A pool f f' m W : stream_fields f' = stream_fields f -> assembled A pool f m W -> assembled A pool f' m W.
Proof.
  intros [= H1 H2 H3 H4 H5] [Hp Hf Hr Hg He Hm HW Hw HA]. split; try congruence. unfold flow_ok in *. by rewrite H1, H2, H5.
Qed.

Lemma not_expected_is_later A pool f m W j : assembled A pool f m W -> j ∉ A -> j <> m -> (m < j)%nat.
Proof.
  intros Ha Hj Hne. destruct (Nat.lt_ge_cases m j) as [?|Hle]; [done|]. exfalso. apply Hj. rewrite (as_A _ _ _ _ _ Ha). apply elem_of_app. left.
  apply elem_of_seq. lia.
Qed.

Lemma used_full l : Forall (fun e => (o_in_use e =? 0) = false) l -> used l = length l.
Proof. unfold used. induction 1 as [|e l He _ IH]; [done|]. rewrite filter_cons_True by lia. simpl. by rewrite IH. Qed.

(** There is a free entry for a segment that comes too early. *)
Lemma free_entry A pool f m W j : assembled A pool f m W -> NoDup A -> m ∉ W -> j ∉ A -> (m < j < length ps)%nat ->
  exists k e, find_idx (fun e => o_in_use e =? 0) (ooo_buf f) = Some k /\ ooo_buf f !! k = Some e /\ o_in_use e = 0.
Proof.
  intros Ha Hnd Hm Hj Hlt. destruct (as_flow _ _ _ _ _ Ha) as (_ & _ & [Hz _]).
  destruct (find_idx _ (ooo_buf f)) as [k|] eqn:Hf.
  { apply find_idx_Some in Hf as [(e & He & Hu%Z.eqb_eq) _]. by exists k, e. }
  exfalso. apply find_idx_None in Hf.
  pose proof (used_full _ Hf) as Hused. rewrite used_waiting, (as_waiting _ _ _ _ _ Ha), length_fmap in Hused.
  assert (Hsub : j :: m :: W ⊆+ seq 0 (length ps)).
  { apply NoDup_submseteq.
    - constructor; [|constructor; [done|by eapply assembled_nodup]]. intros [->|Hin]%elem_of_cons; [lia|]. apply Hj. rewrite (as_A _ _ _ _ _ Ha). set_solver.
    - intros x Hx. apply elem_of_seq. rewrite !elem_of_cons in Hx. destruct Hx as [->|[->|Hx]]; [lia|lia|].
      pose proof (as_W _ _ _ _ _ Ha) as HW. rewrite Forall_forall in HW. specialize (HW x Hx). lia. }
  apply submseteq_length in Hsub. rewrite length_seq in Hsub. cbn [length] in Hsub. unfold zlen, TCP_OOO_BUF_ENTRIES in Hz. lia.
Qed.

Lemma store_assembled A pool f m W j pad : assembled A pool f m W -> NoDup A -> m ∉ W -> j ∉ A -> (m < j < length ps)%nat -> bytes pad ->
  exists f' n, ooo_buffer_store f (place j) (piece j ++ pad) (zlen (piece j)) (expected_seq f) = Some (f', n) /\ assembled (j :: A) pool f' m (j :: W).
Proof.
  intros Ha Hnd Hm Hj Hlt Hpad. destruct (free_entry _ _ _ _ _ j Ha Hnd Hm Hj Hlt) as (k & e & Hf & He & Hu).
  pose proof (piece_len j ltac:(lia)) as Hl. pose proof (piece_bytes j ltac:(lia)) as Hb. pose proof (place_lt m j ltac:(lia) ltac:(lia)) as Hpl.
  destruct (as_flow _ _ _ _ _ Ha) as (F1 & F2 & [Hz F3]).
  assert (Hd : slot_ok e) by (rewrite Forall_lookup in F3; by eapply F3). destruct Hd as [Hd _].
  unfold ooo_buffer_store. rewrite (proj2 (Z.eqb_neq _ 0)) by lia. rewrite (proj2 (Z.leb_gt _ _)) by (rewrite (as_expected _ _ _ _ _ Ha); lia). cbn [orb].
  rewrite Hf. cbv zeta. rewrite Nat2Z.id, (list_lookup_total_correct _ _ _ He).
  replace (if zlen (piece j) <? _ then _ else _) with (zlen (piece j)) by (case_if; lia).
  rewrite bytes_copy_ok by (solve_bytes || (rewrite ?zlen_app; len_lia)). bind_step. eexists _, _. split; [done|].
  rewrite take_app_length' by zlia. rewrite u16_small by (unfold NETWORK_TCP_MSS in *; lia). set (e' := mk_ooo _ _ _ _).
  destruct Ha as [Hp Hfl Hr Hg Hx Hmm HW Hw HA]. split; try done.
  - do 2 (split; [done|]). split; simpl; [by rewrite <- (Nat2Z.id k), zlen_set|]. apply Forall_insert; [done|].
    split; simpl; [|lia]. rewrite zlen_app, zlen_drop by zlia. lia.
  - constructor; [lia|done].
  - simpl. rewrite (waiting_fill _ k e e' He Hu) by done. rewrite Hw. unfold held, e'. simpl. by rewrite take_app_length' by zlia.
  - rewrite HA. by rewrite Permutation_middle.
Qed.

(** A segment arrives for the first time. *)
Lemma arrive_assembled A pool f m W j pad : assembled A pool f m W -> NoDup A -> m ∉ W -> j ∉ A -> (j < length ps)%nat -> bytes pad ->
  exists pool' f' m' W', receive_payload pool f (place j) (piece j ++ pad) (zlen (piece j)) = Some (pool', f') /\ assembled (j :: A) pool' f' m' W' /\ m' ∉ W'.
Proof.
  intros Ha Hnd Hm Hj Hlt Hpad. pose proof (piece_len j Hlt) as Hl. unfold receive_payload. rewrite (as_rx _ _ _ _ _ Ha).
  rewrite (proj2 (Z.ltb_lt _ _)), bool_decide_eq_true_2 by (lia || by eexists). cbn [andb]. rewrite (as_expected _ _ _ _ _ Ha).
  destruct (decide (j = m)) as [->|Hne].
  - rewrite Z.eqb_refl. destruct (write_piece A pool f m W (piece m ++ pad) (zlen (piece m)) Ha Hlt) as (p1 & Hw & Hk).
    { rewrite zlen_app. pose proof (zlen_nonneg pad). lia. } { by rewrite take_app_length' by zlia. }
    rewrite (as_rx _ _ _ _ _ Ha) in Hw. rewrite Hw. bind_step. cbv iota beta.
    match goal with |- context [ooo_buffer_drain p1 ?g] => assert (H1 : assembled (m :: A) p1 g (S m) W) end.
    { apply Hk; try done; try apply Ha; [by rewrite (as_expected _ _ _ _ _ Ha)| |].
      - pose proof (as_W _ _ _ _ _ Ha) as HW. rewrite Forall_forall in HW |- *. intros w Hw'. specialize (HW w Hw'). assert (w <> m) by congruence. lia.
      - rewrite (as_A _ _ _ _ _ Ha), seq_S, <- app_assoc. simpl. by rewrite Permutation_middle. }
    destruct (drain_assembled _ _ _ _ _ H1) as (p2 & f2 & n & m' & W' & -> & H2); [by constructor|]. bind_step. by eexists _, _, _, _.
  - pose proof (not_expected_is_later _ _ _ _ _ j Ha Hj Hne) as Hgt. pose proof (place_lt m j Hgt ltac:(lia)).
    rewrite (proj2 (Z.eqb_neq _ _)), (proj2 (Z.ltb_lt _ _)) by lia.
    destruct (store_assembled A pool f m W j pad Ha Hnd Hm Hj ltac:(lia) Hpad) as (f' & n & Hs & H1). rewrite (as_expected _ _ _ _ _ Ha) in Hs. rewrite Hs. bind_step.
    eexists _, _, m, (j :: W). split; [done|]. split; [done|]. intros [->|Hin]%elem_of_cons; [lia|done].
Qed.

(** The event is the arrival of segment [j]. *)
Definition carries (j : nat) (ev : event) : Prop :=
  exists v6 start flags ack pad, ev = Arrive v6 start flags (place j) ack (piece j) pad /\ has_flag flags NETWORK_TCP_FLAG_FIN = false /\ bytes pad.

Lemma step_assembled A pool f m W j ev : assembled A pool f m W -> NoDup A -> m ∉ W -> j ∉ A -> (j < length ps)%nat -> carries j ev ->
  exists pool' f' m' W', step pool f ev = Some (pool', f', []) /\ assembled (j :: A) pool' f' m' W' /\ m' ∉ W'.
Proof.
  intros Ha Hnd Hm Hj Hlt (v6 & start & flags & ack & pad & -> & Hfin & Hpad). unfold step, segment_v4, segment_v6. cbv zeta.
  destruct v6; [rewrite Hfin|].
  - destruct (arrive_assembled A pool (touch f start) m W j pad) as (p1 & f1 & m' & W' & -> & H1 & H2); [by apply (assembled_ext A pool f)|done..|].
    bind_step. cbv iota beta. eexists _, _, m', W'. split; [done|]. split; [|done]. eapply assembled_ext; [apply close_fields|]. case_if; [|done]. by apply (assembled_ext _ _ f1).
  - destruct (arrive_assembled A pool (receive_fin_ack (receive_fin (touch f start) flags (place j) start) flags ack start) m W j pad) as (p1 & f1 & m' & W' & -> & H1 & H2);
      [eapply assembled_ext; [by apply no_fin_fields|done]|done..|].
    bind_step. cbv iota beta. eexists _, _, m', W'. split; [done|]. split; [|done]. eapply assembled_ext; [apply close_fields|].
    eapply assembled_ext; [|eapply assembled_ext; [apply receive_ack_fields|exact H1]]. done.
Qed.

Lemma steps_assembled order evs : Forall2 carries order evs -> forall A pool f m W, assembled A pool f m W -> m ∉ W -> NoDup (order ++ A) -> Forall (fun j => j < length ps)%nat order ->
  exists pool' f' m' W', steps pool f evs = Some (pool', f', []) /\ assembled (rev order ++ A) pool' f' m' W' /\ m' ∉ W'.
Proof.
  induction 1 as [|j ev order evs Hc _ IH]; intros A pool f m W Ha Hm Hnd Hlt; cbn [steps]; [by eexists _, _, m, W|].
  apply Forall_cons in Hlt as [Hj Hlt]. simpl in Hnd. pose proof Hnd as Hnd2. apply NoDup_cons in Hnd2 as [Hin Hnd2]. pose proof Hnd2 as HA. apply NoDup_app in HA as (_ & _ & HA).
  destruct (step_assembled A pool f m W j ev Ha HA Hm) as (p & g & m1 & W1 & -> & H1 & Hm1); [set_solver|done|done|]. bind_step. cbv iota beta.
  destruct (IH (j :: A) p g m1 W1 H1 Hm1) as (p2 & g2 & m2 & W2 & -> & H2 & Hm2); [by rewrite <- Permutation_middle|done|].
  bind_step. eexists _, _, m2, W2. split; [done|]. split; [|done]. simpl. by rewrite <- app_assoc.
Qed.

(** When every piece has arrived, all of the stream is in the buffer. *)
Lemma all_assembled A pool f m W : assembled A pool f m W -> m ∉ W -> A ≡ₚ seq 0 (length ps) ->
  contents (pe_buf (pool.[i])) = concat ps /\ expected_seq f = base + zlen (concat ps).
Proof.
  intros Ha Hm HA. assert (m = length ps) as ->.
  { destruct (decide (m = length ps)) as [|Hne]; [done|]. exfalso. pose proof (as_m _ _ _ _ _ Ha). apply Hm.
    assert (Hin : m ∈ A) by (rewrite HA; apply elem_of_seq; lia). rewrite (as_A _ _ _ _ _ Ha) in Hin. apply elem_of_app in Hin as [Hin|?]; [|done].
    apply elem_of_seq in Hin. lia. }
  destruct Ha as [_ _ _ Hg He _ _ _ _]. unfold place in He. rewrite firstn_all in Hg, He. done.
Qed.

Lemma fresh_assembled pool f : fresh_flow base pool f i -> assembled [] pool f 0 [].
Proof.
  intros [Hp Hf Hr He Hx Hw Ho]. split; try done; [unfold contents; by rewrite He|rewrite Hx; unfold place; simpl; change (zlen (@nil Z)) with 0; lia|lia|].
  unfold waiting. replace (filter _ (ooo_buf f)) with (@nil ooo_entry); [done|]. symmetry. induction Ho as [|e l H0 _ IH]; [done|]. by rewrite filter_cons_False by (rewrite H0; lia).
Qed.

End reassembly.

(** C12: reassembly is complete.  The peer's stream is cut into at most five
    segments of 1 to 1400 bytes without FIN, fits the receive buffer, and its
    sequence numbers do not wrap around.  For every order in which the segments
    arrive, each of them once, over IPv4 or IPv6, with no read in between, the
    receive buffer holds the whole stream and all of it is acknowledged. *)
Theorem tcp_reassembly_complete (ps : list (list Z)) (base : Z) (pool : list sockbuf_pool_entry) (f : network_tcp_flow) (i : Z) (order : list nat) (evs : list event)
  (Hbase : 0 <= base) (Hend : base + zlen (concat ps) < 4294967296) (Hbytes : bytes (concat ps))
  (Hpieces : Forall (fun p => 0 < zlen p <= NETWORK_TCP_MSS) ps) (Hfits : zlen (concat ps) <= SOCKET_BUFFER_SIZE) (Hcount : (length ps <= 5)%nat)
  (Hf : fresh_flow base pool f i) (Horder : order ≡ₚ seq 0 (length ps)) (Hevs : Forall2 (carries ps base) order evs) :
  exists pool' f', steps pool f evs = Some (pool', f', []) /\ contents (pe_buf (pool'.[i])) = concat ps /\ expected_seq f' = base + zlen (concat ps).
Proof.
  destruct (steps_assembled ps base i Hbase Hend Hbytes Hpieces Hfits Hcount order evs Hevs [] pool f 0 []) as (pool' & f' & m & W & Hs & Ha & Hm).
  - by apply fresh_assembled.
  - apply not_elem_of_nil.
  - rewrite app_nil_r, Horder. apply NoDup_seq.
  - rewrite Horder. apply Forall_forall. intros j Hj%elem_of_seq. lia.
  - exists pool', f'. split; [done|]. eapply all_assembled; [try done..|exact Ha|done|]. rewrite app_nil_r, <- Horder. symmetry. apply Permutation_rev.
Qed.

Lemma tcp_reassembly_complete_witness :
  let evs := [Arrive false 1 0x10 1005 0 [6; 7] []; Arrive true 2 0x10 1003 0 [4; 5] [0; 0]; Arrive false 3 0x18 1000 0 [1; 2; 3] []] in
  exists pool' f', steps demo_pool (demo_flow 1000) evs = Some (pool', f', []) /\ contents (pe_buf (pool'.[0])) = [1; 2; 3; 4; 5; 6; 7] /\ expected_seq f' = 1007.
Proof.
  intros evs. apply (tcp_reassembly_complete [[1; 2; 3]; [4; 5]; [6; 7]] 1000 demo_pool (demo_flow 1000) 0 [2; 1; 0]%nat evs);
    [lia|done|simpl; solve_bytes|apply (bool_decide_unpack _); vm_compute; exact I|done|simpl; lia|apply demo_fresh| |].
  - apply (bool_decide_unpack _). vm_compute. exact I.
  - repeat constructor; eexists _, _, _, _, _; (split; [reflexivity|split; [reflexivity|solve_bytes]]).
Defined.

End TcpStream.
