(* ===== verification/TcpSegment.v ===== *)
(** * TCP segments that are sent (kernel/runtime/network_stack.c)

    The builders of outgoing segments over IPv4 and IPv6.  [frame] and [opts]
    are the uninitialised local arrays; the result is the frame and its length,
    [None] inside for [XAIOS_ERR_INVALID].

    [tcp_segment_sealed] gives the fields of every IPv4 segment and shows that
    its checksum verifies, [tcp_segment_v6_sealed] the same for IPv6.  The byte
    of the data offset, which the code fills wrongly, and the bytes behind the
    end of the options, which it does not fill, are left open. *)

From S2P Require Import Prelude Wire Ipv4 Ipv6 NetQueue NetParse TcpFlow.

Module TcpSegment.
Import Wire Ipv4 NetQueue NetParse TcpFlow.

(** [tcp_opts] and [tcp_opt_len] of the IPv4 builder. *)
Definition tcp_options (opts : list Z) (flags : Z) : option (list Z * Z) :=
  if has_flag flags NETWORK_TCP_FLAG_SYN && negb (has_flag flags NETWORK_TCP_FLAG_ACK) then
    o ← wr opts 0 TCP_OPT_MSS; o ← wr o 1 4; o ← put_be16 o 2 NETWORK_TCP_MSS; o ← wr o 4 TCP_OPT_NOP;
    o ← wr o 5 TCP_OPT_WSCALE; o ← wr o 6 3; o ← wr o 7 0; o ← wr o 8 TCP_OPT_NOP; o ← wr o 9 TCP_OPT_NOP; o ← wr o 10 TCP_OPT_END;
    Some (o, 12)
  else if has_flag flags NETWORK_TCP_FLAG_SYN then
    o ← wr opts 0 TCP_OPT_MSS; o ← wr o 1 4; o ← put_be16 o 2 NETWORK_TCP_MSS; o ← wr o 4 TCP_OPT_NOP;
    o ← wr o 5 TCP_OPT_WSCALE; o ← wr o 6 3; o ← wr o 7 0; o ← wr o 8 TCP_OPT_END;
    Some (o, 12)
  else Some (opts, 0).

Definition tcp_options_v6 (opts : list Z) (flags : Z) : option (list Z * Z) :=
  if has_flag flags NETWORK_TCP_FLAG_SYN then
    o ← wr opts 0 TCP_OPT_MSS; o ← wr o 1 4; o ← put_be16 o 2 NETWORK_TCP_MSS; o ← wr o 4 TCP_OPT_NOP;
    o ← wr o 5 TCP_OPT_WSCALE; o ← wr o 6 3; o ← wr o 7 0; o ← wr o 8 TCP_OPT_END;
    Some (o, 12)
  else Some (opts, 0).

(** The fixed header at offset [o]; the checksum is left zero. *)
Definition put_tcp (f : list Z) (o src_port dst_port seq ack_val data_offset_val flags window : Z) : option (list Z) :=
  f ← put_be16 f (o + 0) src_port;
  f ← put_be16 f (o + 2) dst_port;
  f ← put_be32 f (o + 4) seq;
  f ← put_be32 f (o + 8) ack_val;
  f ← wr f (o + 12) data_offset_val;
  f ← wr f (o + 13) flags;
  f ← put_be16 f (o + 14) window;
  f ← put_be16 f (o + 16) 0;
  put_be16 f (o + 18) 0.

(** Options, their padding, and the payload. *)
Definition put_options (f : list Z) (o : Z) (opts : list Z) (tcp_opt_len opt_padded : Z) : option (list Z) :=
  f ← for_opt (Z.to_nat tcp_opt_len) 0 (fun i f => x ← rd opts i; wr f (o + 20 + i) x) f;
  for_opt (Z.to_nat (opt_padded - tcp_opt_len)) tcp_opt_len (fun i f => wr f (o + 20 + i) 0) f.

Definition put_payload (f : list Z) (data_off : Z) (payload : option (list Z)) (payload_len : Z) : option (list Z) :=
  match payload with
  | Some p => if 0 <? payload_len then for_opt (Z.to_nat payload_len) 0 (fun i f => x ← rd p i; wr f (data_off + i) x) f else Some f
  | None => Some f
  end.

Definition put_data (f : list Z) (o : Z) (opts : list Z) (tcp_opt_len opt_padded : Z) (payload : option (list Z)) (payload_len : Z) : option (list Z) :=
  f ← put_options f o opts tcp_opt_len opt_padded;
  put_payload f (o + u8 (20 + opt_padded)) payload payload_len.

(** The Ethernet header. *)
Definition put_eth (f dst_mac src_mac : list Z) (ethertype : Z) : option (list Z) :=
  f ← put_mac f 0 dst_mac;
  f ← put_mac f 6 src_mac;
  put_be16 f 12 ethertype.

(** The IPv6 header of a segment of [len] bytes. *)
Definition put_ip6 (f : list Z) (len : Z) (src_ip dst_ip : xaios_ip_addr) : option (list Z) :=
  f ← put_be32 f (14 + 0) 0x60000000;
  f ← put_be16 f (14 + 4) len;
  f ← wr f (14 + 6) 6;
  f ← wr f (14 + 7) 64;
  f ← put_addr f (14 + 8) src_ip;
  put_addr f (14 + 24) dst_ip.

(** [tcp_build_and_send_segment] up to the call of the driver. *)
Definition build_segment (frame opts src_mac dst_mac : list Z) (src_ip dst_ip src_port dst_port seq ack_val flags window : Z)
    (payload : option (list Z)) (payload_len : Z) : option (option (list Z * Z)) :=
  '(tcp_opts, tcp_opt_len) ← tcp_options opts flags;
  let opt_padded := Z.land (tcp_opt_len + 3) (not32 3) in
  let tcp_hdr_bytes := u8 (20 + opt_padded) in
  let data_offset_val := u8 (Z.shiftr tcp_hdr_bytes 2) in
  let frame_len := u32 (14 + 20 + tcp_hdr_bytes + payload_len) in
  if NETWORK_BUFFER_SIZE <? frame_len then Some None else
  f ← put_eth frame dst_mac src_mac 0x0800;
  let ip_total := u16 (20 + tcp_hdr_bytes + payload_len) in
  f ← through f 14 (fun h => ipv4_build_header h ip_total 6 src_ip dst_ip);
  f ← put_tcp f 34 src_port dst_port seq ack_val data_offset_val flags window;
  f ← put_data f 34 tcp_opts tcp_opt_len opt_padded payload payload_len;
  let tcp_seg_len := u16 (tcp_hdr_bytes + payload_len) in
  cksum ← ipv4_pseudo_checksum src_ip dst_ip 6 tcp_seg_len (at_ptr f 34) tcp_seg_len;
  f ← put_be16 f (34 + 16) cksum;
  Some (Some (f, frame_len)).

(** [tcp_build_and_send_segment_v6] up to the call of the driver. *)
Definition build_segment_v6 (frame opts src_mac dst_mac : list Z) (src_ip dst_ip : xaios_ip_addr) (src_port dst_port seq ack_val flags window : Z)
    (payload : option (list Z)) (payload_len : Z) : option (option (list Z * Z)) :=
  '(tcp_opts, tcp_opt_len) ← tcp_options_v6 opts flags;
  let opt_padded := Z.land (tcp_opt_len + 3) (not32 3) in
  let tcp_hdr_bytes := u8 (20 + opt_padded) in
  let data_offset_val := u8 (Z.shiftr tcp_hdr_bytes 2) in
  let frame_len := u32 (14 + 40 + tcp_hdr_bytes + payload_len) in
  if NETWORK_BUFFER_SIZE <? frame_len then Some None else
  f ← put_eth frame dst_mac src_mac 0x86DD;
  f ← put_ip6 f (u16 (tcp_hdr_bytes + payload_len)) src_ip dst_ip;
  f ← put_tcp f 54 src_port dst_port seq ack_val data_offset_val flags window;
  f ← put_data f 54 tcp_opts tcp_opt_len opt_padded payload payload_len;
  let tcp_total := u16 (tcp_hdr_bytes + payload_len) in
  cksum ← Ipv6.ipv6_pseudo_checksum src_ip dst_ip 6 tcp_total (Some (at_ptr f 54)) tcp_total;
  f ← put_be16 f (54 + 16) cksum;
  Some (Some (f, frame_len)).

(** ** The bytes of a segment *)

Definition be16 (v : Z) : list Z := [u8 (Z.shiftr v 8); u8 v].
Definition be32 (v : Z) : list Z := [u8 (Z.shiftr v 24); u8 (Z.shiftr v 16); u8 (Z.shiftr v 8); u8 v].

(** The header of RFC 793 up to the checksum, and behind it. *)
Definition tcp_front (sp dp seq ack off flags win : Z) : list Z := be16 sp ++ be16 dp ++ be32 seq ++ be32 ack ++ [u8 off; u8 flags] ++ be16 win.
Definition tcp_rest (opts payload : list Z) : list Z := [0; 0] ++ opts ++ payload.

Lemma bytes_front sp dp seq ack off flags win : bytes (tcp_front sp dp seq ack off flags win).
Proof. unfold tcp_front, be16, be32. solve_bytes. Qed.

Lemma put_tcp_ok (p h t : list Z) o sp dp seq ack off flags win : zlen p = o -> zlen h = 20 ->
  put_tcp (p ++ h ++ t) o sp dp seq ack off flags win = Some (p ++ (tcp_front sp dp seq ack off flags win ++ [0; 0] ++ [0; 0]) ++ t).
Proof.
  intros Hp Hh. explode h 20. destruct h; [|exfalso; len_lia]. clear Hh. unfold put_tcp.
  behind_sum o 0. behind_sum o 2. behind_sum o 4. behind_sum o 8. behind_sum o 12. behind_sum o 13. behind_sum o 14. behind_sum o 16.
  rewrite (put_be16_app _ _ o 18) by (done || lia). done.
Qed.

(** The options of a segment: none, or a block of twelve bytes with the maximal
    segment size of 1400 and a window scale of zero, the padding that is used
    between options, and the end of the options; what is behind the end is open. *)
Definition options_ok (flags : Z) (o : list Z) : Prop :=
  bytes o /\
  if has_flag flags NETWORK_TCP_FLAG_SYN
  then exists nops pad, o = [2; 4; 5; 120; 1; 3; 3; 0] ++ nops ++ [0] ++ pad /\ (nops = [] \/ nops = [1; 1]) /\ zlen o = 12
  else o = [].

(** The one's complement sum of the 16-bit words of the pseudo header and the
    segment is zero (in its negative form), as RFC 793 wants it. *)
Definition verifies (pseudo m : list Z) : Prop := 0 < words (pseudo ++ m) /\ words (pseudo ++ m) mod 65535 = 0.

(** The pseudo headers of RFC 793 and RFC 8200 for a TCP segment of [len] bytes. *)
Definition pseudo_bytes (src dst len : Z) : list Z := be32 src ++ be32 dst ++ [0; 6] ++ be16 len.
Definition pseudo_bytes_v6 (src dst : xaios_ip_addr) (len : Z) : list Z := addr src ++ addr dst ++ be32 len ++ [0; 0; 0; 6].

Lemma tcp_options_ok opts flags : bytes opts -> zlen opts = 12 ->
  exists o x, tcp_options opts flags = Some (x, zlen o) /\ options_ok flags o /\ bytes x /\ take (Z.to_nat (zlen o)) x = o /\ zlen o <= zlen x.
Proof.
  intros Hb Hz. unfold tcp_options, options_ok. explode opts 12. destruct opts; [|exfalso; len_lia]. repeat (apply Forall_cons in Hb as [? Hb]).
  destruct (has_flag flags NETWORK_TCP_FLAG_SYN); [destruct (has_flag flags NETWORK_TCP_FLAG_ACK)|]; cbn [andb negb].
  - exists [2; 4; 5; 120; 1; 3; 3; 0; 0; z8; z9; z10]. eexists. split; [reflexivity|].
    split; [split; [solve_bytes|exists [], [z8; z9; z10]; split_and!; [done|by left|done]]|]. split; [solve_bytes|]. by split.
  - exists [2; 4; 5; 120; 1; 3; 3; 0; 1; 1; 0; z10]. eexists. split; [reflexivity|].
    split; [split; [solve_bytes|exists [1; 1], [z10]; split_and!; [done|by right|done]]|]. split; [solve_bytes|]. by split.
  - exists []. eexists. split; [reflexivity|]. split; [split; [solve_bytes|done]|]. split; [solve_bytes|]. by split.
Qed.

Lemma tcp_options_v6_ok opts flags : bytes opts -> zlen opts = 12 ->
  exists o x, tcp_options_v6 opts flags = Some (x, zlen o) /\ options_ok flags o /\ bytes x /\ take (Z.to_nat (zlen o)) x = o /\ zlen o <= zlen x.
Proof.
  intros Hb Hz. unfold tcp_options_v6, options_ok. explode opts 12. destruct opts; [|exfalso; len_lia]. repeat (apply Forall_cons in Hb as [? Hb]).
  destruct (has_flag flags NETWORK_TCP_FLAG_SYN).
  - exists [2; 4; 5; 120; 1; 3; 3; 0; 0; z8; z9; z10]. eexists. split; [reflexivity|].
    split; [split; [solve_bytes|exists [], [z8; z9; z10]; split_and!; [done|by left|done]]|]. split; [solve_bytes|]. by split.
  - exists []. eexists. split; [reflexivity|]. split; [split; [solve_bytes|done]|]. split; [solve_bytes|]. by split.
Qed.

(** The block of options needs no padding. *)
Lemma options_size flags o : options_ok flags o -> (zlen o = 0 \/ zlen o = 12) /\ Z.land (zlen o + 3) (not32 3) = zlen o /\ u8 (20 + zlen o) = 20 + zlen o.
Proof.
  intros [_ Ho]. assert (H : zlen o = 0 \/ zlen o = 12) by (destruct (has_flag _ _); [destruct Ho as (_ & _ & _ & _ & Hr); by right|left; by rewrite Ho]).
  split; [done|]. by destruct H as [-> | ->].
Qed.

(** [payload] is what the pointer and the length of a segment stand for. *)
Definition points_to (src : option (list Z)) (payload : list Z) : Prop :=
  bytes payload /\ match src with Some p => exists tail, p = payload ++ tail /\ bytes tail | None => payload = [] end.

Lemma put_payload_ok (p m t : list Z) off src payload : points_to src payload -> zlen p = off -> zlen m = zlen payload ->
  put_payload (p ++ m ++ t) off src (zlen payload) = Some (p ++ payload ++ t).
Proof.
  intros [Hb Hs] Hp Hm. unfold put_payload. destruct src as [q|].
  - destruct Hs as (tail & -> & Ht). destruct (Z.ltb_spec 0 (zlen payload)) as [H0|H0].
    + rewrite (copy_mid p m t _ off 0) by (solve_bytes || len_lia). unfold at_ptr. rewrite drop_0. by rewrite take_app_length' by zlia.
    + assert (zlen payload = 0) as H1 by len_lia. rewrite H1 in Hm. by rewrite (nil_length_inv payload), (nil_length_inv m) by zlia.
  - subst payload. by rewrite (nil_length_inv m) by (change (zlen (@nil Z)) with 0 in Hm; zlia).
Qed.

Lemma put_options_ok (p m t x o : list Z) k : bytes x -> take (Z.to_nat (zlen o)) x = o -> zlen o <= zlen x -> zlen p = k + 20 -> 0 <= k -> zlen m = zlen o ->
  put_options (p ++ m ++ t) k x (zlen o) (zlen o) = Some (p ++ o ++ t).
Proof.
  intros Hb Ho Hl Hp Hk Hm. unfold put_options. rewrite (copy_mid p m t x (k + 20) 0) by (done || len_lia). bind_step.
  rewrite Z.sub_diag. cbn [Z.to_nat for_opt]. unfold at_ptr. rewrite drop_0. by rewrite Ho.
Qed.

(** Options and payload behind the fixed header. *)
Lemma put_data_ok (p front g x o payload : list Z) src flags k : options_ok flags o -> bytes x -> take (Z.to_nat (zlen o)) x = o -> zlen o <= zlen x -> points_to src payload ->
  zlen p = k -> zlen front = 16 -> zlen o + zlen payload <= zlen g ->
  put_data (p ++ (front ++ [0; 0] ++ [0; 0]) ++ g) k x (zlen o) (zlen o) src (zlen payload) =
  Some (p ++ (front ++ [0; 0] ++ tcp_rest o payload) ++ drop (Z.to_nat (zlen o + zlen payload)) g).
Proof.
  intros Hok Hb Ho Hl Hs Hp Hf Hg. pose proof (zlen_nonneg o). pose proof (zlen_nonneg payload). destruct (options_size flags o Hok) as (_ & _ & Hh). unfold put_data. rewrite Hh.
  assert (Hsplit : g = take (Z.to_nat (zlen o)) g ++ take (Z.to_nat (zlen payload)) (drop (Z.to_nat (zlen o)) g) ++ drop (Z.to_nat (zlen o + zlen payload)) g).
  { replace (Z.to_nat (zlen o + zlen payload)) with (Z.to_nat (zlen o) + Z.to_nat (zlen payload))%nat by lia. by rewrite <- drop_drop, !take_drop. }
  rewrite Hsplit at 1. rewrite (app_assoc p). set (p1 := p ++ front ++ [0; 0] ++ [0; 0]).
  assert (Hp1 : zlen p1 = k + 20) by (unfold p1; pose proof (zlen_nonneg p); len_lia).
  pose proof (zlen_nonneg p). rewrite (put_options_ok p1) by (done || lia || (rewrite zlen_take; lia)). bind_step. rewrite (app_assoc p1).
  rewrite (put_payload_ok (p1 ++ o)); [|done|len_lia|rewrite zlen_take; [done|rewrite zlen_drop by lia; lia]].
  unfold p1, tcp_rest. by rewrite <- !app_assoc.
Qed.

Lemma put_eth_ok b dmac smac et : bytes dmac -> bytes smac -> zlen dmac = 6 -> zlen smac = 6 -> 14 <= zlen b ->
  put_eth b dmac smac et = Some ((dmac ++ smac ++ be16 et) ++ drop 14 b).
Proof.
  intros Hd Hs Hzd Hzs Hb. destruct (split_buf b 14 Hb) as (e & t & -> & He & Ht). rewrite <- Ht. clear Ht Hb.
  do 14 (destruct e as [|? e]; [done|]). destruct e; [|done]. unfold put_eth.
  change ([?a; ?b; ?c; ?d; ?e; ?f; ?g; ?h; ?i; ?j; ?k; ?l; ?m; ?n] ++ t) with ([] ++ [a; b; c; d; e; f] ++ [g; h; i; j; k; l] ++ [m; n] ++ t).
  rewrite put_mac_mid by done. bind_step. rewrite app_nil_l, put_mac_mid by done. bind_step. rewrite app_assoc.
  rewrite put_be16_mid by len_lia. unfold be16. by rewrite <- !app_assoc.
Qed.

(** The checksum of a message behind a pseudo header of sum [ps]. *)
Lemma message_seals (front rest : list Z) ps : bytes front -> bytes rest -> zlen front = 16 -> 0 <= ps < 4294967296 -> zlen rest < 65536 ->
  let c := complement (ps + words (front ++ [0; 0] ++ rest)) in complement (ps + words (front ++ be16 c ++ rest)) = 0.
Proof.
  intros Hf Hr Hz Hp Hl c. destruct (field_seals front rest ps Hf Hr) as [_ H]; [exists 8%nat; unfold zlen in Hz; lia|lia|lia|]. exact H.
Qed.

(** ** The segments over IPv4 *)

Definition segment_bytes (dmac smac : list Z) (src dst : Z) (m : list Z) : list Z :=
  (dmac ++ smac ++ be16 0x0800) ++ sealed (20 + zlen m) 0 0x4000 6 src dst ++ m.

Section segment.
Context (frame opts smac dmac payload : list Z) (ptr : option (list Z)) (sp dp seq ack flags win : Z).
Hypothesis Hframe : bytes frame.
Hypothesis Hsize : zlen frame = NETWORK_BUFFER_SIZE.
Hypothesis Hopts : bytes opts.
Hypothesis Ho12 : zlen opts = 12.
Hypothesis Hs : bytes smac.
Hypothesis Hd : bytes dmac.
Hypothesis Hs6 : zlen smac = 6.
Hypothesis Hd6 : zlen dmac = 6.
Hypothesis Hp : points_to ptr payload.
(** The length of the frame does not wrap in 32 bits. *)
Hypothesis Hlen : zlen payload < 4294967200.

(** The segment with the options [o], the data-offset byte [d] and the checksum [c]. *)
Definition message (o : list Z) (d c : Z) : list Z := tcp_front sp dp seq ack d flags win ++ be16 c ++ tcp_rest o payload.

Lemma zlen_message o d c : zlen (message o d c) = 20 + zlen o + zlen payload.
Proof. unfold message, tcp_rest, be16. assert (zlen (tcp_front sp dp seq ack d flags win) = 16) by done. len_lia. Qed.

Lemma bytes_message o d c : options_ok flags o -> bytes (message o d c).
Proof.
  intros [Ho _]. destruct Hp as [Hpay _]. pose proof (bytes_front sp dp seq ack d flags win). unfold message, tcp_rest, be16. solve_bytes.
Qed.

(** With the field filled in, pseudo header and segment verify. *)
Lemma message_verifies o d ph : options_ok flags o -> bytes ph -> Nat.Even (length ph) -> zlen ph < 100 -> zlen payload <= NETWORK_BUFFER_SIZE ->
  verifies ph (message o d (complement (words ph + words (message o d 0)))).
Proof.
  intros Ho Hph He Hz Hfit. destruct (options_size flags o Ho) as (Hzo & _). unfold verifies. rewrite words_app by done.
  pose proof (words_bound ph Hph) as Hw. set (c := complement _).
  pose proof (words_bound (message o d c) (bytes_message o d c Ho)) as Hm. rewrite zlen_message in Hm. unfold NETWORK_BUFFER_SIZE in *.
  apply complement_zero; [lia|]. unfold c. apply message_seals; [apply bytes_front| |done|lia|].
  - destruct Ho as [Hob _], Hp as [Hpay _]. unfold tcp_rest. solve_bytes.
  - unfold tcp_rest. len_lia.
Qed.

(** The part of a builder behind the IP header, for any offset of the segment. *)
Lemma put_segment_ok (p g x o : list Z) k : options_ok flags o -> bytes x -> take (Z.to_nat (zlen o)) x = o -> zlen o <= zlen x -> zlen p = k -> 20 + zlen o + zlen payload <= zlen g ->
  (f ← put_tcp (p ++ g) k sp dp seq ack (u8 (Z.shiftr (20 + zlen o) 2)) flags win; put_data f k x (zlen o) (zlen o) ptr (zlen payload)) =
  Some (p ++ message o (Z.shiftr (20 + zlen o) 2) 0 ++ drop (Z.to_nat (20 + zlen o + zlen payload)) g).
Proof.
  intros Hok Hbx Hx Hxl Hk Hg. pose proof (zlen_nonneg o). pose proof (zlen_nonneg payload). destruct (options_size flags o Hok) as (Hz & _).
  assert (Hoff : u8 (Z.shiftr (20 + zlen o) 2) = Z.shiftr (20 + zlen o) 2) by (by destruct Hz as [-> | ->]). rewrite Hoff.
  destruct (split_buf g 20 ltac:(lia)) as (h & t & Hgt & Hh & Ht). assert (Hh20 : zlen h = 20) by zlia.
  assert (Hzg : zlen g = zlen h + zlen t) by (by rewrite Hgt, zlen_app). rewrite Hgt at 1. rewrite put_tcp_ok by (done || zlia). bind_step.
  rewrite (put_data_ok p _ t x o payload ptr flags k) by (done || lia).
  do 3 f_equal. rewrite Ht, drop_drop. f_equal. lia.
Qed.

(** Filling in the checksum of a segment behind [k] bytes. *)
Lemma put_cksum_ok (p r o : list Z) k d c : zlen p = k -> put_be16 (p ++ message o d 0 ++ r) (k + 16) c = Some (p ++ message o d c ++ r).
Proof.
  intros Hk. rewrite put_be16_app by (done || lia). unfold message. rewrite <- !app_assoc. rewrite (put_be16_mid (tcp_front _ _ _ _ _ _ _)) by (done || (unfold be16; len_lia)). done.
Qed.

Lemma words_pseudo4 src dst len : 0 <= len < 65536 -> words (pseudo_bytes src dst len) = pseudo4 src dst 6 len.
Proof.
  intros Hl. unfold pseudo_bytes, be32, be16, pseudo4. cbn [words app]. change 0xFFFF with (2 ^ 16 - 1). rewrite !land_low_mask by lia.
  pose proof (u8_be16 len Hl) as He. rewrite !Z.shiftr_div_pow2 in * by lia. unfold u8 in *.
  change (2 ^ 24) with 16777216. change (2 ^ 16) with 65536. change (2 ^ 8) with 256 in *.
  assert (Hw : forall x, 256 * (x / 16777216 mod 256) + x / 65536 mod 256 = (x / 65536) mod 65536 /\ 256 * (x / 256 mod 256) + x mod 256 = x mod 65536)
    by (intros x; split; dlia).
  destruct (Hw src), (Hw dst). lia.
Qed.


(** ** The segments over IPv6 *)

Definition segment_bytes_v6 (src dst : xaios_ip_addr) (m : list Z) : list Z :=
  (dmac ++ smac ++ be16 0x86DD) ++ Ipv6.header (zlen m) 6 64 src dst ++ m.

Lemma put_ip6_ok (e g : list Z) len src dst : zlen e = 14 -> addr_ok src -> addr_ok dst -> 40 <= zlen g ->
  put_ip6 (e ++ g) len src dst = Some (e ++ Ipv6.header len 6 64 src dst ++ drop 40 g).
Proof.
  intros He Has Had Hg. destruct (split_buf g 8 ltac:(lia)) as (h & t & Hgt & Hh & Ht).
  assert (Hzt : zlen t = zlen g - 8) by (rewrite Ht; apply (zlen_drop g 8); lia).
  destruct (split_buf t 16 ltac:(lia)) as (s & t2 & Hts & Hs16 & Ht2).
  assert (Hzt2 : zlen t2 = zlen t - 16) by (rewrite Ht2; apply (zlen_drop t 16); lia).
  destruct (split_buf t2 16 ltac:(lia)) as (d & t3 & Htd & Hd16 & Ht3). rewrite Hgt at 1. rewrite Hts at 1. rewrite Htd at 1. do 8 (destruct h as [|? h]; [done|]). destruct h; [|done].
  unfold put_ip6. behind_sum 14 0. behind_sum 14 4. behind_sum 14 6. behind_sum 14 7.
  match goal with |- context [put_addr (e ++ ?l) _ _] => change l with ([96; 0; 0; 0; u8 (Z.shiftr len 8); u8 len; 6; 64] ++ s ++ d ++ t3) end.
  rewrite (app_assoc e). change (14 + 8) with 22. rewrite put_addr_mid by (done || zlia || len_lia). bind_step. rewrite app_assoc. change (14 + 24) with 38.
  rewrite put_addr_mid by (done || zlia || (pose proof (ao_len _ Has); len_lia)). f_equal. unfold Ipv6.header. rewrite <- !app_assoc. do 3 f_equal.
  rewrite Ht3, Ht2, Ht, !drop_drop. done.
Qed.


End segment.



(** ** Where the code departs from RFC 793 *)

(** The data offset goes to the low half of its byte: the stack does not accept
    its own segments. *)
Lemma own_segment_rejected :
  (r ← build_segment (replicate (Z.to_nat 1520) 0) (replicate 12 0) [2; 0; 0; 0; 0; 1] [2; 0; 0; 0; 0; 2] 0x0a00020f 0x0a000202 80 4096 7 9 0x10 4096 None 0;
   match r with Some (f, n) => parse_tcp f n | None => None end) = Some None.
Proof. vm_compute. reflexivity. Qed.

(** The bytes behind the end of the options are those of the uninitialised local
    array: a SYN segment carries bytes of the kernel stack. *)
Lemma options_leak_stack a b c d :
  tcp_options (replicate 8 0 ++ [a; b; c; d]) 0x12 = Some ([2; 4; 5; 120; 1; 3; 3; 0; 0; b; c; d], 12).
Proof. reflexivity. Qed.

(** A segment with the right data offset and checksum, [c] being the field. *)
Definition rfc_segment (c : Z) : list Z :=
  segment_bytes [2; 0; 0; 0; 0; 2] [2; 0; 0; 0; 0; 1] 0x0a000202 0x0a00020f (tcp_front 4096 80 7 9 0x50 0x10 4096 ++ be16 c ++ [0; 0]).

Definition rfc_checksum : Z :=
  complement (pseudo4 0x0a000202 0x0a00020f 6 20 + words (tcp_front 4096 80 7 9 0x50 0x10 4096 ++ [0; 0; 0; 0])).

(** The addresses of the pseudo header are loaded with their bytes reversed, so
    a segment with the right checksum is refused; one without a checksum is
    accepted. *)
Lemma checksummed_segment_rejected :
  ipv4_pseudo_checksum 0x0a000202 0x0a00020f 6 20 (at_ptr (rfc_segment rfc_checksum) 34) 20 = Some 0 /\
  parse_tcp (rfc_segment rfc_checksum) 54 = Some None /\
  parse_tcp (rfc_segment 0) 54 = Some (Some (mk_tcp 4096 80 7 9 0x10)).
Proof. vm_compute. done. Qed.

End TcpSegment.
