(* ===== verification/NetStack.v ===== *)
(** * The network stack (kernel/runtime/network_stack.c)

    The stack as one state: queues and packet descriptors ([NetQueue]), UDP and
    TCP flows ([TcpFlow]), listeners and sockets ([NetListen]), the pool of
    socket buffers, the ARP and neighbour caches and the routing table.  The
    driver and the clock are behind the interface [NetDevice].

    Operations that read the clock or use the driver are computations of the
    monad [M], which passes the state and the device along and stops on an
    access outside of an array or on a failed assertion.  An uninitialised local
    array is the next element of [stack], about which nothing is known. *)

From S2P Require Import Prelude Table SocketBuffer Routing Wire Ipv4 Arp Icmp Ipv6 Icmpv6 Ndp NetQueue NetParse TcpFlow NetListen TcpSegment.

Module NetStack.
Import SocketBuffer Wire Ipv6 NetQueue NetParse TcpFlow.

Definition NETWORK_UDP_FLOWS : Z := 16.
Definition NETWORK_UDP_IDLE_TIMEOUT_NS : Z := 2000000.
Definition NETWORK_TCP_SYN_TIMEOUT_NS : Z := 3000000.
Definition NETWORK_TCP_MAX_RETRANSMITS : Z := 2.
Definition NETWORK_TCP_MAX_HALF_OPEN : Z := 8.
Definition TCP_KEEPALIVE_INTERVAL_NS : Z := 10000000000.
Definition TCP_KEEPALIVE_PROBES : Z := 3.
Definition XAIOS_NETWORK_PROTOCOL_UDP : Z := 17.
Definition XAIOS_NETWORK_PROTOCOL_TCP : Z := 6.

Record network_udp_flow := mk_udp_flow {
  u_active : Z;
  u_flow_id : Z;
  u_queue_id : Z;
  u_cell_id : Z;
  u_local_port : Z;
  u_remote_port : Z;
  u_local_address : Z;
  u_remote_address : Z;
  u_local_addr : xaios_ip_addr;
  u_remote_addr : xaios_ip_addr;
  u_packets_rx : Z;
  u_packets_tx : Z;
  u_last_seen_ns : Z;
  u_rx_buf : option Z
}.

#[global] Instance udp_flow_eta : Eta network_udp_flow := fun r =>
  mk_udp_flow (u_active r) (u_flow_id r) (u_queue_id r) (u_cell_id r) (u_local_port r) (u_remote_port r) (u_local_address r) (u_remote_address r)
    (u_local_addr r) (u_remote_addr r) (u_packets_rx r) (u_packets_tx r) (u_last_seen_ns r) (u_rx_buf r).

Definition zero_udp_flow : network_udp_flow := mk_udp_flow 0 0 0 0 0 0 0 0 xaios_ip_addr_zero xaios_ip_addr_zero 0 0 0 None.

#[global] Instance udp_flow_inhabited : Inhabited network_udp_flow := populate zero_udp_flow.

Record net := mk_net {
  nq : queues;
  g_next_flow_id : Z;
  g_udp_flows : list network_udp_flow;
  g_tcp_flows : list network_tcp_flow;
  g_half_open_count : Z;
  g_local_mac : list Z;
  g_persistent_initialized : Z;
  g_link_local_v6 : xaios_ip_addr;
  g_socket_flow_map : list NetListen.socket_flow_mapping;
  g_listeners_ex : list NetListen.network_listener_ex;
  g_udp_latency : samples;
  g_tcp_latency : samples;
  pool : list sockbuf_pool_entry;
  g_arp_cache : list Arp.xaios_arp_entry;
  g_ndp : Ndp.ndp;
  g_routes : list Routing.routing_entry;
  stack : nat -> list Z
}.

#[global] Instance net_eta : Eta net := fun r =>
  mk_net (nq r) (g_next_flow_id r) (g_udp_flows r) (g_tcp_flows r) (g_half_open_count r) (g_local_mac r) (g_persistent_initialized r) (g_link_local_v6 r)
    (g_socket_flow_map r) (g_listeners_ex r) (g_udp_latency r) (g_tcp_latency r) (pool r) (g_arp_cache r) (g_ndp r) (g_routes r) (stack r).

(** ** The monad *)

Definition M (E A : Type) : Type := net -> E -> option (A * net * E).

#[global] Instance M_ret {E} : MRet (M E) := fun A x s e => Some (x, s, e).
#[global] Instance M_bind {E} : MBind (M E) := fun A B f m s e => match m s e with Some (x, s', e') => f x s' e' | None => None end.

Definition read {E A} (f : net -> A) : M E A := fun s e => Some (f s, s, e).
Definition modify {E} (f : net -> net) : M E () := fun s e => Some ((), f s, e).
Definition lift {E A} (o : option A) : M E A := fun s e => x ← o; Some (x, s, e).

(** A function on the state that also returns a value. *)
Definition call {E A} (f : net -> net * A) : M E A := fun s e => let '(s, x) := f s in Some (x, s, e).

(** A change of the state that can fail. *)
Definition attempt {E} (f : net -> option net) : M E () := fun s e => s ← f s; Some ((), s, e).

(** An uninitialised local array of [n] bytes. *)
Definition fresh {E} (n : Z) : M E (list Z) := fun s e => Some (take (Z.to_nat n) (stack s O), s <| stack := fun k => stack s (S k) |>, e).

Definition on_queues {E} (f : queues -> queues) : M E () := modify (fun s => s <| nq ::= f |>).
Definition inc {E} (c : counter) : M E () := on_queues (bump c).
Definition on_udp {E} (i : Z) (f : network_udp_flow -> network_udp_flow) : M E () := modify (fun s => s <| g_udp_flows ::= fun l => upd l i f |>).
Definition on_tcp {E} (i : Z) (f : network_tcp_flow -> network_tcp_flow) : M E () := modify (fun s => s <| g_tcp_flows ::= fun l => upd l i f |>).

(** [kassert(b)] *)
Definition assert {E} (b : bool) : M E () := lift (check b).

Section device.
Context {E : Type} `{NetDevice E}.

Definition now : M E Z := fun s e => let '(t, e) := timer_now_ns e in Some (t, s, e).
Definition tx (frame : list Z) (len : Z) : M E xaios_status := fun s e => '(e, st) ← virtio_net_tx e frame len; Some (st, s, e).

(** [virtio_net_rx_poll] and [virtio_net_get_mac]. *)
Definition rx_poll (size : Z) : M E (list Z) := fun s e => let '(e, d) := net_poll e size in Some (d, s, e).
Definition card_address : M E (option (list Z)) := fun s e => Some (net_mac e, s, e).

(** ** Flows *)

Definition find_flow_by_ports (s : net) (lp rp ra : Z) : option Z :=
  Z.of_nat <$> find_idx (fun f => negb (in_state XAIOS_NETWORK_FLOW_FREE f) && (local_port f =? lp) && (remote_port f =? rp) && (remote_address f =? ra)) (g_tcp_flows s).

Definition find_flow_by_ports_v6 (s : net) (lp rp : Z) (ra : xaios_ip_addr) : option Z :=
  Z.of_nat <$> find_idx (fun f => negb (in_state XAIOS_NETWORK_FLOW_FREE f) && (local_port f =? lp) && (remote_port f =? rp) &&
    xaios_ip_addr_equal (remote_addr f) ra) (g_tcp_flows s).

Definition find_udp_flow (s : net) (lp rp la ra : Z) : option Z :=
  Z.of_nat <$> find_idx (fun f => negb (u_active f =? 0) && (u_local_port f =? lp) && (u_remote_port f =? rp) && (u_local_address f =? la) && (u_remote_address f =? ra))
    (g_udp_flows s).

Definition find_udp_flow_v6 (s : net) (lp rp : Z) (la ra : xaios_ip_addr) : option Z :=
  Z.of_nat <$> find_idx (fun f => negb (u_active f =? 0) && (u_local_port f =? lp) && (u_remote_port f =? rp) &&
    xaios_ip_addr_equal (u_local_addr f) la && xaios_ip_addr_equal (u_remote_addr f) ra) (g_udp_flows s).

(** [(uint32_t)(g_next_flow_id++)], and 1 instead of 0. *)
Definition next_flow_id (s : net) : net * Z :=
  let id := u32 (g_next_flow_id s) in
  let s := s <| g_next_flow_id := u64 (g_next_flow_id s + 1) |> in
  if id =? 0 then (s <| g_next_flow_id := 2 |>, 1) else (s, id).

Definition alloc_udp_flow (s : net) (queue cell lp rp la ra now_ns : Z) : net * option Z :=
  match find_udp_flow s lp rp la ra with
  | Some i => (s <| nq ::= bump udp_flow_hit |> <| g_udp_flows ::= fun l => upd l i (fun f => f <| u_last_seen_ns := now_ns |>) |>, Some i)
  | None =>
      match find_idx (fun f => u_active f =? 0) (g_udp_flows s) with
      | Some i =>
          let '(s, id) := next_flow_id s in
          let '(p, b) := sockbuf_alloc (pool s) in
          (s <| pool := p |> <| g_udp_flows ::= fun l => upd l (Z.of_nat i) (fun f =>
             f <| u_active := 1 |> <| u_flow_id := id |> <| u_queue_id := queue |> <| u_cell_id := cell |> <| u_local_port := lp |> <| u_remote_port := rp |>
               <| u_local_address := la |> <| u_remote_address := ra |> <| u_packets_rx := 0 |> <| u_packets_tx := 0 |> <| u_rx_buf := b |>
               <| u_last_seen_ns := now_ns |>) |>, Some (Z.of_nat i))
      | None => (s, None)
      end
  end.

Definition alloc_tcp_flow (s : net) : net * option Z :=
  if NETWORK_TCP_MAX_HALF_OPEN <=? g_half_open_count s then (s, None) else
  match find_idx (in_state XAIOS_NETWORK_FLOW_FREE) (g_tcp_flows s) with
  | Some i => (s <| g_tcp_flows ::= fun l => upd l (Z.of_nat i) reset_flow |> <| g_half_open_count := u32 (g_half_open_count s + 1) |>, Some (Z.of_nat i))
  | None => (s, None)
  end.

(** [if (g_half_open_count > 0) g_half_open_count--;] *)
Definition half_open_done (s : net) : net := if 0 <? g_half_open_count s then s <| g_half_open_count := g_half_open_count s - 1 |> else s.

(** ** Initialisation *)

Definition clear_flow (f : network_tcp_flow) : network_tcp_flow :=
  f <| state := XAIOS_NETWORK_FLOW_FREE |> <| flow_id := 0 |> <| queue_id := XAIOS_NETWORK_QUEUE_ID_INVALID |> <| cell_id := 0 |> <| local_port := 0 |>
    <| remote_port := 0 |> <| remote_address := 0 |> <| local_address := 0 |> <| remote_seq := 0 |> <| local_seq := 0 |> <| last_seen_ns := 0 |>
    <| retransmits := 0 |> <| packets_rx := 0 |> <| packets_tx := 0 |>.

Definition clear_udp_flow (f : network_udp_flow) : network_udp_flow :=
  f <| u_active := 0 |> <| u_flow_id := 0 |> <| u_queue_id := XAIOS_NETWORK_QUEUE_ID_INVALID |> <| u_cell_id := 0 |> <| u_local_port := 0 |>
    <| u_remote_port := 0 |> <| u_local_address := 0 |> <| u_remote_address := 0 |> <| u_packets_rx := 0 |> <| u_packets_tx := 0 |> <| u_last_seen_ns := 0 |>.

(** The counters of the driver loop are not reset. *)
Definition kept_counter (c : counter) : bool :=
  match c with poll_tick | icmp_reply | arp_reply | icmpv6_reply | ndp_reply | ipv6_rx => true | _ => false end.

Definition network_stack_init (s : net) : net :=
  s <| nq := mk_queues
         ((fun _ => mk_binding XAIOS_NETWORK_QUEUE_ID_INVALID 0 0 0) <$> g_queue_bindings (nq s))
         ((fun i => mk_ring i 0 0 0 0) <$> seqZ 0 (zlen (g_queue_rings (nq s))))
         ((fun d => mk_desc NETWORK_PACKET_FREE XAIOS_NETWORK_QUEUE_ID_INVALID 0 0 0 0 0 (d_src_addr d) (d_dst_addr d) 0 0) <$> g_packet_descs (nq s))
         (fun c => if kept_counter c then g_count (nq s) c else 0) |>
    <| g_tcp_flows ::= fmap clear_flow |> <| g_udp_flows ::= fmap clear_udp_flow |>
    <| g_listeners_ex ::= fmap (fun l => NetListen.mk_listener 0 0 0 (NetListen.backlog l) 0) |>
    <| g_next_flow_id := 1 |>
    <| g_udp_latency := mk_samples (replicate (Z.to_nat NETWORK_MAX_SAMPLES) 0) 0 |> <| g_tcp_latency := mk_samples (replicate (Z.to_nat NETWORK_MAX_SAMPLES) 0) 0 |>.

(** ** UDP *)

(** [record_latency(samples, &count, timer_now_ns() - start)] *)
Definition udp_latency (start : Z) : M E () := t ← now; modify (fun s => s <| g_udp_latency ::= fun l => record_latency l (u64 (t - start)) |>).
Definition tcp_latency (start : Z) : M E () := t ← now; modify (fun s => s <| g_tcp_latency ::= fun l => record_latency l (u64 (t - start)) |>).

Definition udp_malformed_frame : M E xaios_status := inc udp_dropped;; inc udp_malformed;; inc packet_drop;; mret XAIOS_ERR_INVALID.

(** [alloc_packet_desc(binding->queue_id, frame_len, start)] *)
Definition alloc_packet (queue frame_len start : Z) : M E (option Z) :=
  call (fun s => let '(q, p) := alloc_packet_desc (nq s) queue frame_len start in (s <| nq := q |>, p)).

(** [packet_mark_dropped(packet); return status;] *)
Definition drop_packet (p : Z) (status : xaios_status) : M E xaios_status := on_queues (fun q => packet_mark_dropped q p);; mret status.

(** [sockbuf_write(flow->rx_buf, data, len)] *)
Definition write_buf (p : option Z) (data : list Z) (len : Z) : M E Z :=
  fun s e => '(pl, n) ← write_to (pool s) p data len; Some (n, s <| pool := pl |>, e).

(** From [++flow->packets_rx] to the end of the function; [payload] is the
    pointer computation, done only when there is something to deliver. *)
Definition deliver_udp (i p start : Z) (payload : option (list Z)) (payload_len : Z) : M E xaios_status :=
  on_udp i (fun f => f <| u_packets_rx := u64 (u_packets_rx f + 1) |>);;
  inc udp_rx;;
  b ← read (fun s => u_rx_buf ((g_udp_flows s).[i]));
  (if bool_decide (is_Some b) && (8 <? payload_len) then d ← lift payload; write_buf b d (payload_len - 8);; mret () else mret ());;
  on_queues (fun q => packet_mark_tx q p);;
  on_udp i (fun f => f <| u_packets_tx := u64 (u_packets_tx f + 1) |>);;
  inc udp_tx;;
  on_queues (fun q => packet_mark_complete q p);;
  udp_latency start;;
  mret XAIOS_OK.

(** From the search for a binding on; the two protocols differ in the words that
    select the binding ([hl], [hr]), in the fields of the descriptor ([mark]),
    in the addresses that identify the flow ([key]) and in what they note when
    the flow is known ([note]) and accepted ([accepted]). *)
Definition udp_packet (frame_len start sp dp : Z) (existing : option Z) (hl hr : Z) (mark : Z -> queues -> queues) (key : network_packet_desc -> Z * Z)
    (note : network_udp_flow -> network_udp_flow) (accepted : M E ()) (payload : option (list Z)) (payload_len : Z) : M E xaios_status :=
  binding ← read (fun s => match existing with
                           | Some i => find_binding (nq s) (u_queue_id ((g_udp_flows s).[i]))
                           | None => select_binding_for_flow (nq s) dp sp hl hr
                           end);
  match binding with
  | None => inc udp_dropped;; inc packet_drop;; mret XAIOS_ERR_NOT_FOUND
  | Some b =>
      bd ← read (fun s => (g_queue_bindings (nq s)).[b]);
      packet ← alloc_packet (b_queue_id bd) frame_len start;
      match packet with
      | None => inc udp_dropped;; mret XAIOS_ERR_NO_MEMORY
      | Some p =>
          on_queues (mark p);;
          k ← read (fun s => key ((g_packet_descs (nq s)).[p]));
          flow ← call (fun s => alloc_udp_flow s (b_queue_id bd) (b_cell_id bd) dp sp k.1 k.2 start);
          match flow with
          | None => inc udp_dropped;; drop_packet p XAIOS_ERR_NO_MEMORY
          | Some i =>
              on_udp i note;;
              g ← read (fun s => (g_udp_flows s).[i]);
              if negb (u_queue_id g =? b_queue_id bd) || negb (u_cell_id g =? b_cell_id bd)
              then inc flow_core_mismatch;; drop_packet p XAIOS_ERR_BUSY else
              accepted;;
              deliver_udp i p start payload payload_len
          end
      end
  end.

Definition network_stack_process_udp_frame (frame : option (list Z)) (frame_len : Z) : M E xaios_status :=
  match frame with
  | None => udp_malformed_frame
  | Some f =>
      if frame_len <? 34 then udp_malformed_frame else
      start ← now;
      r ← lift (parse_udp f frame_len);
      match r with
      | None => udp_malformed_frame
      | Some u =>
          let sp := u_src_port u in let dp := u_dst_port u in let sa := u_src_address u in let da := u_dst_address u in
          if (sp =? 0) || (dp =? 0) || (u_len u =? 0) then inc udp_dropped;; inc packet_drop;; mret XAIOS_ERR_INVALID else
          existing ← read (fun s => find_udp_flow s dp sp da sa);
          udp_packet frame_len start sp dp existing da sa (fun p q => set_packet_v4 (set_packet_ports q p sp dp) p sa da)
            (fun _ => (da, sa)) (fun g => g) (mret ())
            (vihl ← rd f 14; Some (at_ptr f (14 + Z.land vihl 0x0F * 4 + 8))) (u_len u)
      end
  end.

Definition network_stack_process_udp_frame_v6 (frame : option (list Z)) (frame_len : Z) : M E xaios_status :=
  match frame with
  | None => udp_malformed_frame
  | Some f =>
      if frame_len <? 62 then udp_malformed_frame else
      start ← now;
      r ← lift (parse_udp_v6 f frame_len);
      match r with
      | None => udp_malformed_frame
      | Some u =>
          let sp := u6_src_port u in let dp := u6_dst_port u in let sa := u6_src u in let da := u6_dst u in
          if (sp =? 0) || (dp =? 0) || (u6_len u =? 0) then inc udp_dropped;; inc packet_drop;; mret XAIOS_ERR_INVALID else
          existing ← read (fun s => find_udp_flow_v6 s dp sp da sa);
          udp_packet frame_len start sp dp existing (xaios_ip_addr_hash da) (xaios_ip_addr_hash sa)
            (fun p q => let q := set_packet_v6 (set_packet_ports q p sp dp) p sa da in
               if family sa =? XAIOS_IP_FAMILY_V4 then set_packet_v4 q p (xaios_ip_addr_to_ipv4 sa) (xaios_ip_addr_to_ipv4 da) else q)
            (fun d => (d_dst_address d, d_src_address d)) (fun g => g <| u_local_addr := da |> <| u_remote_addr := sa |>) (inc ipv6_rx)
            (Some (at_ptr f (14 + 40 + 8))) (u6_len u)
      end
  end.

(** ** TCP *)

Definition tcp_refused : M E xaios_status := inc tcp_reset;; inc packet_drop;; mret XAIOS_ERR_INVALID.

(** The packet is answered and done. *)
Definition finish_packet (p start : Z) : M E xaios_status :=
  on_queues (fun q => packet_mark_tx q p);; on_queues (fun q => packet_mark_complete q p);; tcp_latency start;; mret XAIOS_OK.

(** The socket buffers go back to the pool. *)
Definition free_buffers (s : net) (i : Z) : net :=
  let f := (g_tcp_flows s).[i] in
  s <| pool := sockbuf_free (sockbuf_free (pool s) (rx_buf f)) (tx_buf f) |>
    <| g_tcp_flows ::= fun l => upd l i (fun f => f <| rx_buf := None |> <| tx_buf := None |>) |>.

(** [if ((flags & NETWORK_TCP_FLAG_RST) != 0U)] for a known flow. *)
Definition reset_connection (i : Z) : M E () :=
  prev_state ← read (fun s => state ((g_tcp_flows s).[i]));
  on_tcp i (fun f => f <| state := XAIOS_NETWORK_FLOW_CLOSED |>);;
  inc tcp_reset;; inc tcp_closed;;
  (if bool_decide (prev_state = XAIOS_NETWORK_FLOW_SYN_RECV) then modify half_open_done else mret ());;
  modify (fun s => free_buffers s i).

Definition alloc_buf : M E (option Z) := call (fun s => let '(p, b) := sockbuf_alloc (pool s) in (s <| pool := p |>, b)).

(** The new flow of a connection request; [addresses] sets the address fields
    of the protocol. *)
Definition open_flow (i b start local remote seq : Z) (addresses : network_tcp_flow -> network_tcp_flow) : M E () :=
  id ← call next_flow_id;
  bd ← read (fun s => (g_queue_bindings (nq s)).[b]);
  on_tcp i (fun f => addresses (f <| flow_id := id |> <| local_port := local |> <| remote_port := remote |> <| queue_id := b_queue_id bd |>
                                  <| cell_id := b_cell_id bd |>) <| remote_seq := seq |> <| expected_seq := u32 (seq + 1) |>);;
  t ← now;
  on_tcp i (fun f => f <| local_seq := u32 (Z.lxor t id) |> <| next_send_seq := u32 (u32 (Z.lxor t id) + 1) |> <| window_size := u16 SOCKET_BUFFER_SIZE |>
                       <| pending_synack := 1 |> <| pending_fin := 0 |> <| pending_ack := 0 |> <| close_requested := 0 |> <| remote_mac_valid := 0 |>);;
  rx ← alloc_buf;
  on_tcp i (fun f => f <| rx_buf := rx |>);;
  tx ← alloc_buf;
  on_tcp i (fun f => f <| tx_buf := tx |> <| last_seen_ns := start |> <| state := XAIOS_NETWORK_FLOW_SYN_RECV |> <| retransmits := 0 |>
                       <| packets_rx := 1 |> <| packets_tx := 0 |>).

(** A request without a flow: it needs a listener and a free entry.  [rest] is
    what the protocol does with the new flow. *)
Definition tcp_request (b p start local remote seq : Z) (addresses : network_tcp_flow -> network_tcp_flow) (rest : Z -> M E ()) : M E xaios_status :=
  listening ← read (fun s => NetListen.network_stack_has_listener (g_listeners_ex s) local);
  if negb listening then inc tcp_reset;; drop_packet p XAIOS_ERR_NOT_FOUND else
  flow ← call alloc_tcp_flow;
  match flow with
  | None => inc tcp_reset;; drop_packet p XAIOS_ERR_NO_MEMORY
  | Some i => open_flow i b start local remote seq addresses;; rest i;; finish_packet p start
  end.

(** The acknowledgement that completes a handshake. *)
Definition tcp_establish (i p start ack src_port dst_port peer_ip : Z) (peer_addr : option xaios_ip_addr) : M E xaios_status :=
  on_tcp i (fun f => f <| state := XAIOS_NETWORK_FLOW_ESTABLISHED |> <| local_seq := ack |> <| next_send_seq := ack |> <| last_seen_ns := start |>
                       <| packets_rx := u64 (packets_rx f + 1) |>);;
  inc tcp_handshake;; inc tcp_established;;
  modify half_open_done;;
  modify (fun s => s <| g_listeners_ex ::= fun t =>
    (NetListen.listener_enqueue_backlog t dst_port (flow_id ((g_tcp_flows s).[i])) peer_ip src_port peer_addr).1 |>);;
  finish_packet p start.

(** A segment on a connection, [handle] being [segment_v4] or [segment_v6]. *)
Definition tcp_segment (i p start : Z) (handle : list sockbuf_pool_entry -> network_tcp_flow -> option (list sockbuf_pool_entry * network_tcp_flow))
    : M E xaios_status :=
  pf ← read (fun s => (pool s, (g_tcp_flows s).[i]));
  r ← lift (handle pf.1 pf.2);
  modify (fun s => s <| pool := r.1 |> <| g_tcp_flows ::= fun l => l.[i <- r.2] |>);;
  finish_packet p start.

(** [((a & 0xFFU) << 24U) | ...] *)
Definition swap32 (a : Z) : Z :=
  Z.lor (Z.lor (Z.lor (Z.shiftl (Z.land a 0xFF) 24) (Z.shiftl (Z.land (Z.shiftr a 8) 0xFF) 16)) (Z.shiftl (Z.land (Z.shiftr a 16) 0xFF) 8))
    (Z.land (Z.shiftr a 24) 0xFF).

(** The options of a connection request (IPv4). *)
Definition syn_options (f : list Z) : option (Z * Z) :=
  vihl ← rd f 14;
  let thdr := at_ptr f (14 + Z.land vihl 0x0f * 4) in
  off ← rd thdr 12;
  parse_tcp_options thdr (Z.shiftr off 4 * 4).

Definition note_options (i : Z) (f : list Z) : M E () :=
  o ← lift (syn_options f);
  let '(p_mss, p_ws) := o in
  on_tcp i (fun f => f <| peer_mss := if (0 <? p_mss) && (p_mss <? NETWORK_TCP_MSS) then p_mss else NETWORK_TCP_MSS |> <| mss_parsed := 1 |>
                       <| peer_ws := p_ws |> <| ws_parsed := if 0 <? p_ws then 1 else 0 |> <| our_ws := 0 |>);;
  inc tcp_handshake.

(** The payload of an IPv4 segment and its length. *)
Definition payload_v4 (f : list Z) : option (list Z * Z) :=
  vihl ← rd f 14;
  let ip_hdr_bytes := Z.land vihl 0x0F * 4 in
  ip_total ← get_be16 f 16;
  let tcp_hdr := at_ptr f (14 + ip_hdr_bytes) in
  off ← rd tcp_hdr 12;
  let tcp_hdr_bytes := Z.shiftr off 4 * 4 in
  Some (at_ptr tcp_hdr tcp_hdr_bytes, u32 (ip_total - ip_hdr_bytes - tcp_hdr_bytes)).

Definition payload_v6 (f : list Z) : option (list Z * Z) :=
  let tcp_hdr := at_ptr f 54 in
  off ← rd tcp_hdr 12;
  let tcp_hdr_bytes := Z.shiftr off 4 * 4 in
  len ← get_be16 f 18;
  Some (at_ptr tcp_hdr tcp_hdr_bytes, u32 (len - tcp_hdr_bytes)).

Definition flow_state (i : Z) : M E xaios_network_flow_state := read (fun s => state ((g_tcp_flows s).[i])).

Definition open_v4 (st : xaios_network_flow_state) : bool :=
  bool_decide (st = XAIOS_NETWORK_FLOW_ESTABLISHED) || bool_decide (st = XAIOS_NETWORK_FLOW_CLOSE_WAIT).

Definition open_v6 (st : xaios_network_flow_state) : bool :=
  open_v4 st || bool_decide (st = XAIOS_NETWORK_FLOW_FIN_WAIT_2) || bool_decide (st = XAIOS_NETWORK_FLOW_TIME_WAIT).

(** From the search for a binding on.  [peer] is what the accept queue learns,
    [handle] the treatment of a segment on a connection in one of the states
    [is_open]. *)
Definition tcp_packet (frame_len start : Z) (t : tcp_info) (flow : option Z) (hl hr : Z) (mark : Z -> queues -> queues)
    (addresses : network_tcp_flow -> network_tcp_flow) (rest : Z -> M E ()) (peer : Z * option xaios_ip_addr) (is_open : xaios_network_flow_state -> bool)
    (handle : list sockbuf_pool_entry -> network_tcp_flow -> option (list sockbuf_pool_entry * network_tcp_flow)) : M E xaios_status :=
  let sp := t_src_port t in let dp := t_dst_port t in
  binding ← read (fun s => match flow with
                           | Some i => find_binding (nq s) (queue_id ((g_tcp_flows s).[i]))
                           | None => select_binding_for_flow (nq s) dp sp hl hr
                           end);
  match binding with
  | None => inc tcp_reset;; inc packet_drop;; mret XAIOS_ERR_NOT_FOUND
  | Some b =>
      bd ← read (fun s => (g_queue_bindings (nq s)).[b]);
      packet ← alloc_packet (b_queue_id bd) frame_len start;
      match packet with
      | None => inc tcp_reset;; mret XAIOS_ERR_NO_MEMORY
      | Some p =>
          on_queues (mark p);;
          if has_flag (t_flags t) NETWORK_TCP_FLAG_RST then
            match flow with Some i => reset_connection i | None => mret () end;; drop_packet p XAIOS_ERR_INVALID
          else
          match flow with
          | None =>
              if has_flag (t_flags t) NETWORK_TCP_FLAG_SYN then tcp_request b p start dp sp (t_seq t) addresses rest
              else inc tcp_reset;; drop_packet p XAIOS_ERR_INVALID
          | Some i =>
              st ← flow_state i;
              if bool_decide (st = XAIOS_NETWORK_FLOW_SYN_RECV) && has_flag (t_flags t) NETWORK_TCP_FLAG_ACK
              then tcp_establish i p start (t_ack t) sp dp peer.1 peer.2
              else if is_open st then tcp_segment i p start handle
              else inc tcp_reset;; drop_packet p XAIOS_ERR_INVALID
          end
      end
  end.

Definition network_stack_process_tcp_frame (frame : option (list Z)) (frame_len : Z) : M E xaios_status :=
  match frame with
  | None => tcp_refused
  | Some f =>
      if frame_len <? 54 then tcp_refused else
      start ← now;
      r ← lift (parse_tcp f frame_len);
      match r with
      | None => tcp_refused
      | Some t =>
          src ← lift (load32 f 26);
          dst ← lift (load32 f 30);
          let ra := ip4_addr_host_order src in let la := ip4_addr_host_order dst in
          flow ← read (fun s => find_flow_by_ports s (t_dst_port t) (t_src_port t) ra);
          tcp_packet frame_len start t flow la ra (fun p q => set_packet_v4 (set_packet_ports q p (t_src_port t) (t_dst_port t)) p ra la)
            (fun g => g <| remote_address := ra |> <| local_address := la |>) (fun i => note_options i f) (swap32 ra, None) open_v4
            (fun pl g => '(d, n) ← payload_v4 f; segment_v4 pl g start (t_flags t) (t_seq t) (t_ack t) d n)
      end
  end.

Definition network_stack_process_tcp_frame_v6 (frame : option (list Z)) (frame_len : Z) : M E xaios_status :=
  match frame with
  | None => tcp_refused
  | Some f =>
      if frame_len <? 74 then tcp_refused else
      start ← now;
      r ← lift (parse_tcp_v6 f frame_len);
      match r with
      | None => tcp_refused
      | Some r =>
          let t := t6 r in let sa := t6_src r in let da := t6_dst r in
          flow ← read (fun s => find_flow_by_ports_v6 s (t_dst_port t) (t_src_port t) sa);
          tcp_packet frame_len start t flow (xaios_ip_addr_hash da) (xaios_ip_addr_hash sa)
            (fun p q => set_packet_v6 (set_packet_ports q p (t_src_port t) (t_dst_port t)) p sa da)
            (fun g => g <| remote_addr := sa |> <| local_addr := da |>) (fun _ => inc tcp_handshake;; inc ipv6_rx) (0, Some sa) open_v6
            (fun pl g => '(d, n) ← payload_v6 f; segment_v6 pl g start (t_flags t) (t_seq t) (t_ack t) d n)
      end
  end.

(** ** Sending *)

(** [arp_cache_lookup] reads the clock only when it finds the address. *)
Definition arp_lookup (a : Z) : M E (option (list Z)) :=
  hit ← read (fun s => bool_decide (is_Some (find_idx (Arp.holds_ip a) (g_arp_cache s))));
  t ← (if hit : bool then now else mret 0);
  call (fun s => let '(c, _, m) := Arp.arp_cache_lookup (g_arp_cache s) t a true in (s <| g_arp_cache := c |>, m)).

(** The address on the link of the next hop, when it is known; otherwise it is
    asked for. *)
Definition tcp_resolve_mac (dest : Z) : M E (option (list Z)) :=
  next_hop ← read (fun s => Routing.routing_lookup (g_routes s) dest);
  if next_hop =? 0 then mret None else
  m ← arp_lookup next_hop;
  match m with
  | Some m => mret (Some m)
  | None =>
      arp_frame ← fresh 42;
      mac ← read g_local_mac;
      r ← lift (Arp.arp_build_request (Some arp_frame) (Some mac) 0 Ipv4.XAIOS_IPV4_GUEST_IP next_hop);
      let '(st, f, len) := r in
      (if bool_decide (st = XAIOS_OK) then tx f len;; mret () else mret ());;
      mret None
  end.

(** [tcp_build_and_send_segment] and its counterpart for IPv6. *)
Definition send_segment (g : network_tcp_flow) (seq flags : Z) (payload : option (list Z)) (payload_len : Z) : M E () :=
  frame ← fresh NETWORK_BUFFER_SIZE;
  opts ← fresh 12;
  mac ← read g_local_mac;
  r ← lift (if family (local_addr g) =? XAIOS_IP_FAMILY_V6
            then TcpSegment.build_segment_v6 frame opts mac (remote_mac g) (local_addr g) (remote_addr g) (local_port g) (remote_port g)
                   seq (expected_seq g) flags (window_size g) payload payload_len
            else TcpSegment.build_segment frame opts mac (remote_mac g) Ipv4.XAIOS_IPV4_GUEST_IP (swap32 (remote_address g)) (local_port g) (remote_port g)
                   seq (expected_seq g) flags (window_size g) payload payload_len);
  match r with
  | Some (f, len) => tx f len;; mret ()
  | None => mret ()
  end.

Definition get_flow (i : Z) : M E network_tcp_flow := read (fun s => (g_tcp_flows s).[i]).

(** [flow->tx_buf == 0 || sockbuf_used(flow->tx_buf) == 0] *)
Definition all_sent (i : Z) : M E bool := read (fun s => nothing_to_send (pool s) ((g_tcp_flows s).[i])).

Definition send_synack (i : Z) : M E () :=
  g ← get_flow i;
  if pending_synack g =? 0 then mret () else
  send_segment g (local_seq g) (Z.lor NETWORK_TCP_FLAG_SYN NETWORK_TCP_FLAG_ACK) None 0;;
  on_tcp i (fun g => g <| pending_synack := 0 |>).

(** [sockbuf_read(flow->tx_buf, dst, len)] *)
Definition read_buf (p : option Z) (dst : list Z) (len : Z) : M E (list Z * Z) :=
  fun s e =>
    let '(b, d, n) := sockbuf_read (buf (pool s) p) (Some dst) len in
    if zlen dst <? n then None else Some ((default dst d, n), s <| pool := set_buf_opt (pool s) p b |>, e).

Definition send_data (i : Z) : M E () :=
  g ← get_flow i;
  idle ← all_sent i;
  if idle || negb (open_v4 (state g)) then mret () else
  tx_data ← fresh NETWORK_TCP_MSS;
  r ← read_buf (tx_buf g) tx_data NETWORK_TCP_MSS;
  let '(d, n) := r in
  if negb (0 <? n) then mret () else
  send_segment g (next_send_seq g) (Z.lor NETWORK_TCP_FLAG_ACK NETWORK_TCP_FLAG_PSH) (Some d) n;;
  on_tcp i (fun g => g <| next_send_seq := u32 (next_send_seq g + n) |>).

Definition send_ack (i : Z) : M E () :=
  g ← get_flow i;
  idle ← all_sent i;
  if (pending_ack g =? 0) || negb idle then mret () else
  send_segment g (next_send_seq g) NETWORK_TCP_FLAG_ACK None 0;;
  on_tcp i (fun g => g <| pending_ack := 0 |>).

Definition after_fin (g : network_tcp_flow) : network_tcp_flow :=
  if in_state XAIOS_NETWORK_FLOW_ESTABLISHED g then g <| state := XAIOS_NETWORK_FLOW_FIN_WAIT |>
  else if in_state XAIOS_NETWORK_FLOW_CLOSE_WAIT g then g <| state := XAIOS_NETWORK_FLOW_LAST_ACK |> else g.

Definition send_fin (i : Z) : M E () :=
  g ← get_flow i;
  idle ← all_sent i;
  if (pending_fin g =? 0) || negb idle then mret () else
  send_segment g (next_send_seq g) (Z.lor NETWORK_TCP_FLAG_FIN NETWORK_TCP_FLAG_ACK) None 0;;
  on_tcp i (fun g => after_fin (g <| pending_fin := 0 |> <| next_send_seq := u32 (next_send_seq g + 1) |>)).

(** The address of the peer's card: the result says whether it is known. *)
Definition resolve_flow (i : Z) : M E bool :=
  g ← get_flow i;
  if negb (remote_mac_valid g =? 0) then mret true else
  m ← (if family (local_addr g) =? XAIOS_IP_FAMILY_V6
       then call (fun s => let '(n, _, m) := Ndp.ndp_cache_lookup (g_ndp s) (Some (remote_addr g)) true in (s <| g_ndp := n |>, m))
       else tcp_resolve_mac (swap32 (remote_address g)));
  match m with
  | Some m => on_tcp i (fun g => g <| remote_mac := m |> <| remote_mac_valid := 1 |>);; mret true
  | None => mret false
  end.

Definition drain_flow (i : Z) : M E () :=
  g ← get_flow i;
  if in_state XAIOS_NETWORK_FLOW_FREE g || in_state XAIOS_NETWORK_FLOW_CLOSED g then mret () else
  known ← resolve_flow i;
  if negb known then mret () else
  send_synack i;; send_data i;; send_ack i;; send_fin i.

(** [for (i = 0; i < n; ++i)] *)
Fixpoint each (n : nat) (i : Z) (body : Z -> M E ()) : M E () :=
  match n with
  | O => mret ()
  | S n' => body i;; each n' (i + 1) body
  end.

Definition tcp_drain_pending : M E () := each (Z.to_nat NETWORK_TCP_CONNECTIONS) 0 drain_flow.

(** ** Calls of the socket layer *)

(** The status and [*bytes_written] when it is set. *)
Definition network_stack_tcp_send (flow : Z) (data : option (list Z)) (len : Z) : M E (xaios_status * option Z) :=
  hit ← read (fun s => find_idx (fun g => (flow_id g =? flow) && open_v4 (state g)) (g_tcp_flows s));
  match hit with
  | None => mret (XAIOS_ERR_NOT_FOUND, None)
  | Some i =>
      g ← get_flow (Z.of_nat i);
      match tx_buf g, data with
      | None, _ => mret (XAIOS_ERR_INVALID, None)
      | _, None => mret (XAIOS_OK, Some 0)
      | b, Some d => n ← write_buf b d len; mret (XAIOS_OK, Some n)
      end
  end.

Definition network_stack_tcp_close_flow (flow : Z) : M E xaios_status :=
  hit ← read (fun s => find_idx (fun g => flow_id g =? flow) (g_tcp_flows s));
  match hit with
  | None => mret XAIOS_ERR_NOT_FOUND
  | Some i => on_tcp (Z.of_nat i) (fun g => g <| close_requested := 1 |> <| pending_fin := 1 |>);; mret XAIOS_OK
  end.

(** The caller's buffer and the number of bytes that were read. *)
Definition network_stack_tcp_recv (flow : Z) (buffer : list Z) (buffer_size : Z) : M E (list Z * Z) :=
  hit ← read (fun s => find_idx (fun g => (flow_id g =? flow) && bool_decide (is_Some (rx_buf g))) (g_tcp_flows s));
  match hit with
  | None => mret (buffer, 0)
  | Some i =>
      g ← get_flow (Z.of_nat i);
      pl ← read pool;
      r ← lift (recv_from pl g buffer buffer_size);
      let '(pl, g, buffer, n) := r in
      modify (fun s => s <| pool := pl |> <| g_tcp_flows ::= fun l => l.[Z.of_nat i <- g] |>);;
      mret (buffer, n)
  end.

(** The datagram in the local array. *)
Definition udp_frame (frame dst_mac src_mac : list Z) (dst_ip lport rport len : Z) (data : list Z) : option (list Z) :=
  let udp_len := u16 (8 + len) in
  let ip_total := u16 (20 + udp_len) in
  f ← put_mac frame 0 dst_mac;
  f ← put_mac f 6 src_mac;
  f ← put_be16 f 12 0x0800;
  f ← through f 14 (fun h => Ipv4.ipv4_build_header h ip_total 17 Ipv4.XAIOS_IPV4_GUEST_IP dst_ip);
  f ← put_be16 f 34 lport;
  f ← put_be16 f (34 + 2) rport;
  f ← put_be16 f (34 + 4) udp_len;
  f ← put_be16 f (34 + 6) 0;
  for_opt (Z.to_nat len) 0 (fun j f => x ← rd data j; wr f (42 + j) x) f.

Definition network_stack_udp_send (flow : Z) (data : list Z) (len : Z) : M E (xaios_status * option Z) :=
  hit ← read (fun s => find_idx (fun g => (u_flow_id g =? flow) && negb (u_active g =? 0)) (g_udp_flows s));
  match hit with
  | None => mret (XAIOS_ERR_NOT_FOUND, None)
  | Some i =>
      frame ← fresh NETWORK_BUFFER_SIZE;
      let frame_len := 14 + u16 (20 + u16 (8 + len)) in
      if NETWORK_BUFFER_SIZE <? frame_len then mret (XAIOS_ERR_INVALID, None) else
      g ← read (fun s => (g_udp_flows s).[Z.of_nat i]);
      dst_mac ← tcp_resolve_mac (swap32 (u_remote_address g));
      match dst_mac with
      | None => mret (XAIOS_ERR_BUSY, None)
      | Some m =>
          mac ← read g_local_mac;
          f ← lift (udp_frame frame m mac (swap32 (u_remote_address g)) (u_local_port g) (u_remote_port g) len data);
          st ← tx f frame_len;
          mret (st, Some len)
      end
  end.

(** ** Timers *)

(** [now > last && now - last >= limit] *)
Definition passed (now_ns last limit : Z) : bool := (last <? now_ns) && (limit <=? now_ns - last).

Definition expire_udp (now_ns i : Z) (r : net * Z) : net * Z :=
  let '(s, expired) := r in
  let g := (g_udp_flows s).[i] in
  if negb (u_active g =? 0) && passed now_ns (u_last_seen_ns g) NETWORK_UDP_IDLE_TIMEOUT_NS
  then (s <| g_udp_flows ::= fun l => upd l i (fun g => g <| u_active := 0 |>) |> <| nq ::= bump udp_expired |>, expired + 1)
  else r.

Definition network_stack_expire_udp_flows (s : net) (now_ns : Z) : net * Z := for_range (Z.to_nat NETWORK_UDP_FLOWS) 0 (expire_udp now_ns) (s, 0).

Definition retransmit_tcp (now_ns i : Z) (r : net * Z) : net * Z :=
  let '(s, n) := r in
  let g := (g_tcp_flows s).[i] in
  if in_state XAIOS_NETWORK_FLOW_SYN_RECV g && passed now_ns (last_seen_ns g) NETWORK_TCP_RETRANSMIT_NS && (retransmits g <? NETWORK_TCP_MAX_RETRANSMITS)
  then (s <| g_tcp_flows ::= fun l => upd l i (fun g => g <| retransmits := u32 (retransmits g + 1) |> <| packets_tx := u64 (packets_tx g + 1) |>
                                                         <| last_seen_ns := now_ns |>) |> <| nq ::= bump tcp_retransmit |>, n + 1)
  else r.

Definition network_stack_retransmit_tcp_flows (s : net) (now_ns : Z) : net * Z :=
  for_range (Z.to_nat NETWORK_TCP_CONNECTIONS) 0 (retransmit_tcp now_ns) (s, 0).

(** A closing connection without traffic for a minute. *)
Definition expire_closing (now_ns i : Z) (st : xaios_network_flow_state) (r : net * Z) : net * Z :=
  let '(s, expired) := r in
  let g := (g_tcp_flows s).[i] in
  if in_state st g && passed now_ns (last_seen_ns g) 60000000000
  then (s <| g_tcp_flows ::= fun l => upd l i (fun g => g <| state := XAIOS_NETWORK_FLOW_CLOSED |>) |> <| nq ::= bump tcp_closed |>, expired + 1)
  else r.

Definition back_off (g : network_tcp_flow) : network_tcp_flow :=
  g <| retransmits := u32 (retransmits g + 1) |> <| rto_retries := u32 (rto_retries g + 1) |>
    <| rto_ns := if 60000000000 <? u64 (rto_ns g * 2) then 60000000000 else u64 (rto_ns g * 2) |>
    <| in_retransmit := 1 |> <| in_flight := 0 |> <| ssthresh := if 1 <? cwnd g then Z.shiftr (cwnd g) 1 else 1 |> <| cwnd := NETWORK_TCP_MSS |>.

Definition expire_data (now_ns i : Z) (r : net * Z) : net * Z :=
  let '(s, expired) := r in
  let g := (g_tcp_flows s).[i] in
  if open_v4 (state g) && (0 <? last_tx_ns g) && (0 <? in_flight g) && passed now_ns (last_tx_ns g) (rto_ns g)
  then (s <| g_tcp_flows ::= fun l => upd l i back_off |> <| nq ::= bump tcp_retransmit |>, expired + 1)
  else r.

Definition expire_keepalive (now_ns i : Z) (r : net * Z) : net * Z :=
  let '(s, expired) := r in
  let g := (g_tcp_flows s).[i] in
  if in_state XAIOS_NETWORK_FLOW_ESTABLISHED g && (0 <? keepalive_last_tx_ns g) && passed now_ns (keepalive_last_tx_ns g) TCP_KEEPALIVE_INTERVAL_NS
  then if keepalive_probes_sent g <? TCP_KEEPALIVE_PROBES
       then (s <| g_tcp_flows ::= fun l => upd l i (fun g => g <| keepalive_probes_sent := u32 (keepalive_probes_sent g + 1) |>
                                                              <| keepalive_last_tx_ns := now_ns |> <| pending_ack := 1 |>) |>, expired)
       else (s <| g_tcp_flows ::= fun l => upd l i (fun g => g <| state := XAIOS_NETWORK_FLOW_CLOSED |>) |> <| nq ::= bump tcp_closed |>, expired + 1)
  else r.

Definition expire_tcp (now_ns i : Z) (r : net * Z) : net * Z :=
  let r := expire_closing now_ns i XAIOS_NETWORK_FLOW_TIME_WAIT r in
  let r := expire_closing now_ns i XAIOS_NETWORK_FLOW_FIN_WAIT r in
  let '(s, expired) := r in
  let g := (g_tcp_flows s).[i] in
  if in_state XAIOS_NETWORK_FLOW_SYN_RECV g && passed now_ns (last_seen_ns g) NETWORK_TCP_SYN_TIMEOUT_NS
  then (half_open_done (s <| g_tcp_flows ::= fun l => upd l i (fun g => g <| state := XAIOS_NETWORK_FLOW_CLOSED |>) |>
                          <| nq ::= fun q => bump packet_drop (bump tcp_closed (bump tcp_timeout q)) |>), expired + 1)
  else expire_keepalive now_ns i (expire_data now_ns i r).

Definition network_stack_expire_tcp_flows (s : net) (now_ns : Z) : net * Z := for_range (Z.to_nat NETWORK_TCP_CONNECTIONS) 0 (expire_tcp now_ns) (s, 0).

(** ** Statistics *)

Definition network_stack_udp_flow_count (s : net) : Z := foldl (fun n g => if u_active g =? 0 then n else n + 1) 0 (g_udp_flows s).
Definition network_stack_tcp_connections (s : net) : Z := foldl (fun n g => if in_state XAIOS_NETWORK_FLOW_ESTABLISHED g then n + 1 else n) 0 (g_tcp_flows s).

(** [network_stack_<c>_count()] *)
Definition stat (s : net) (c : counter) : Z := g_count (nq s) c.

Definition emit_latency_snapshot (s : net) : list Z :=
  (percentile (g_udp_latency s) <$> [50; 95; 99; 999]) ++ (percentile (g_tcp_latency s) <$> [50; 95; 99; 999]).

(** ** Frames of the applications *)

(** [frame[i] = v;] for each pair. *)
Definition poke (f : list Z) (l : list (Z * Z)) : option (list Z) := foldl (fun f x => f ← f; wr f x.1 x.2) (Some f) l.

Definition build_app_udp_frame (frame : list Z) (payload_len : Z) : option (list Z) :=
  f ← bytes_zero frame NETWORK_BUFFER_SIZE;
  let total := u16 (20 + 8 + payload_len) in
  let udp_len := u16 (8 + payload_len) in
  poke f [(12, 0x08); (13, 0x00); (14, 0x45); (15, 0x00); (16, Z.shiftr total 8); (17, total); (22, 64); (23, NETWORK_IP_PROTO_UDP);
          (26, 10); (27, 0); (28, 2); (29, 15); (30, 10); (31, 0); (32, 2); (33, 2); (34, 0x60); (35, 0x01); (36, 0x22); (37, 0xB8);
          (38, Z.shiftr udp_len 8); (39, udp_len)].

Definition build_app_tcp_frame (frame : list Z) (flags remote : Z) : option (list Z) :=
  f ← bytes_zero frame NETWORK_BUFFER_SIZE;
  poke f [(12, 0x08); (13, 0x00); (14, 0x45); (15, 0x00); (16, 0x00); (17, 0x2c); (22, 64); (23, NETWORK_IP_PROTO_TCP);
          (26, 10); (27, 0); (28, 2); (29, 15); (30, 10); (31, 0); (32, 2); (33, 2); (34, Z.shiftr remote 8); (35, remote);
          (36, 0x00); (37, 0x16); (41, 1); (46, 0x60); (47, flags)].

Definition bind_queue (cell queue mask : Z) : M E xaios_status :=
  call (fun s => let '(q, st) := network_stack_bind_queue (nq s) cell queue mask in (s <| nq := q |>, st)).

Definition release_queue (queue cell : Z) : M E xaios_status :=
  call (fun s => let '(q, st) := network_stack_release_queue (nq s) queue cell in (s <| nq := q |>, st)).

(** [outs]: whether the output pointer is not NULL; the second result is
    [*echoed_bytes] when it is set. *)
Definition network_stack_app_udp_echo (payload : option (list Z)) (payload_len : Z) (outs : bool) : M E (xaios_status * option Z) :=
  match payload with
  | None => mret (XAIOS_ERR_INVALID, None)
  | Some d =>
      if negb outs || (payload_len =? 0) || (64 <? payload_len) then mret (XAIOS_ERR_INVALID, None) else
      frame ← fresh NETWORK_BUFFER_SIZE;
      f ← lift (build_app_udp_frame frame payload_len);
      f ← lift (for_opt (Z.to_nat payload_len) 0 (fun i f => x ← rd d i; wr f (42 + i) x) f);
      st ← bind_queue 3 3 0x8;
      if negb (bool_decide (st = XAIOS_OK)) then mret (XAIOS_ERR_BUSY, None) else
      status ← network_stack_process_udp_frame (Some f) (42 + payload_len);
      st ← release_queue 3 3;
      assert (bool_decide (st = XAIOS_OK));;
      mret (if bool_decide (status = XAIOS_OK) then (XAIOS_OK, Some payload_len) else (status, None))
  end.

Definition network_stack_app_tcp_connect (outs : bool) : M E (xaios_status * option Z) :=
  if negb outs then mret (XAIOS_ERR_INVALID, None) else
  syn ← fresh NETWORK_BUFFER_SIZE;
  ack ← fresh NETWORK_BUFFER_SIZE;
  rst ← fresh NETWORK_BUFFER_SIZE;
  st ← bind_queue 3 3 0x8;
  if negb (bool_decide (st = XAIOS_OK)) then mret (XAIOS_ERR_BUSY, None) else
  syn ← lift (build_app_tcp_frame syn NETWORK_TCP_FLAG_SYN 0x6010);
  ack ← lift (build_app_tcp_frame ack NETWORK_TCP_FLAG_ACK 0x6010);
  rst ← lift (build_app_tcp_frame rst NETWORK_TCP_FLAG_RST 0x6010);
  status ← network_stack_process_tcp_frame (Some syn) 58;
  status ← (if bool_decide (status = XAIOS_OK) then network_stack_process_tcp_frame (Some ack) 58 else mret status);
  status ← (if bool_decide (status = XAIOS_OK) then network_stack_process_tcp_frame (Some rst) 58 else mret status);
  st ← release_queue 3 3;
  assert (bool_decide (st = XAIOS_OK));;
  mret (if bool_decide (status = XAIOS_OK) || bool_decide (status = XAIOS_ERR_INVALID) then (XAIOS_OK, Some 2) else (status, None)).

(** ** Text *)

(** The loop over the characters of [text]. *)
Fixpoint append_chars (output : list Z) (capacity offset : Z) (text : list Z) : option (list Z * Z) :=
  match text with
  | [] => Some (output, offset)
  | c :: t => if offset + 1 <? capacity then o ← wr output offset c; append_chars o capacity (offset + 1) t else Some (output, offset)
  end.

Definition network_append (output : list Z) (capacity offset : Z) (text : list Z) : option (list Z * Z) :=
  if capacity =? 0 then Some (output, offset) else
  '(o, offset) ← append_chars output capacity offset text;
  o ← wr o offset 0;
  Some (o, offset).

(** The digits from the last one on: a 64-bit number has at most twenty. *)
Fixpoint digits (count : nat) (value : Z) : list Z :=
  match count with
  | O => []
  | S n => if value =? 0 then [] else (48 + value mod 10) :: digits n (value / 10)
  end.

Definition network_append_u64 (output : list Z) (capacity offset value : Z) : option (list Z * Z) :=
  if value =? 0 then network_append output capacity offset (chars "0") else
  foldl (fun r d => '(o, offset) ← r; network_append o capacity offset [d]) (Some (output, offset)) (rev (digits 20 value)).

(** The line [<protocol>:<port>:<what>:<n>] and a line feed. *)
Definition session_line (output : list Z) (capacity : Z) (protocol : String.string) (port : Z) (what : String.string) (n : Z) : option (list Z * Z) :=
  '(o, offset) ← network_append output capacity 0 (chars protocol);
  '(o, offset) ← network_append_u64 o capacity offset port;
  '(o, offset) ← network_append o capacity offset (chars what);
  '(o, offset) ← network_append_u64 o capacity offset n;
  network_append o capacity offset [10].

(** The status, the output buffer and [*output_bytes] when it is set.  NULL is
    [None] for the payload and the output. *)
Definition network_stack_external_session (protocol port : Z) (payload : option (list Z)) (payload_len : Z) (output : option (list Z)) (capacity : Z) (outs : bool)
    : M E (xaios_status * list Z * option Z) :=
  match payload, output with
  | Some d, Some o =>
      if (payload_len =? 0) || (64 <? payload_len) || (capacity <? 16) || negb outs || (port =? 0) || (65535 <? port)
      then mret (XAIOS_ERR_INVALID, o, None) else
      o ← lift (wr o 0 0);
      if protocol =? XAIOS_NETWORK_PROTOCOL_UDP then
        r ← network_stack_app_udp_echo (Some d) payload_len true;
        match r with
        | (XAIOS_OK, Some echoed) => r ← lift (session_line o capacity "udp:" port ":echo:" echoed); mret (XAIOS_OK, r.1, Some r.2)
        | _ => mret (XAIOS_ERR_IO, o, None)
        end
      else if protocol =? XAIOS_NETWORK_PROTOCOL_TCP then
        r ← network_stack_app_tcp_connect true;
        match r with
        | (XAIOS_OK, Some round_trips) => r ← lift (session_line o capacity "tcp:" port ":established:" round_trips); mret (XAIOS_OK, r.1, Some r.2)
        | _ => mret (XAIOS_ERR_IO, o, None)
        end
      else mret (XAIOS_ERR_INVALID, o, None)
  | _, _ => mret (XAIOS_ERR_INVALID, default [] output, None)
  end.

(** ** The driver loop *)

Definition network_init_persistent : M E () :=
  done ← read g_persistent_initialized;
  if negb (done =? 0) then mret () else
  mac ← card_address;
  modify (fun s =>
    let s := match mac with Some m => s <| g_local_mac := m |> | None => s end in
    s <| g_arp_cache ::= Arp.arp_init |> <| g_ndp ::= Ndp.ndp_init |> <| pool ::= sockbuf_pool_init |> <| g_routes ::= Routing.routing_init |>
                <| g_link_local_v6 ::= fun a => ipv6_link_local_from_mac a (Some (g_local_mac s)) |> <| g_persistent_initialized := 1 |>
                <| nq ::= fun q => foldr (fun c q => set_count c 0 q) q [poll_tick; icmp_reply; arp_reply; icmpv6_reply; ndp_reply; ipv6_rx] |>).

(** [if (status == XAIOS_OK) { virtio_net_tx(frame, len); ++g_<c>_count; }] *)
Definition reply (r : xaios_status * list Z * Z) (c : counter) : M E () :=
  let '(st, f, len) := r in
  if bool_decide (st = XAIOS_OK) then tx f len;; inc c else mret ().

Definition poll_arp (f : list Z) (frame_len : Z) : M E () :=
  if frame_len <? 42 then mret () else
  op ← lift (get_be16 f 20);
  if op =? Arp.XAIOS_ARP_OP_REPLY then
    t ← now;
    attempt (fun s => '(c, _) ← Arp.arp_process_reply (g_arp_cache s) t (Some f) frame_len; Some (s <| g_arp_cache := c |>))
  else if op =? Arp.XAIOS_ARP_OP_REQUEST then
    target_ip ← lift (get_be32 f 38);
    if negb (target_ip =? Ipv4.XAIOS_IPV4_GUEST_IP) then mret () else
    reply_frame ← fresh 64;
    mac ← read g_local_mac;
    sender ← lift (get_be32 f 28);
    r ← lift (Arp.arp_build_reply (Some reply_frame) (Some mac) (Some (at_ptr f 6)) 0 Ipv4.XAIOS_IPV4_GUEST_IP sender);
    reply r arp_reply
  else mret ().

Definition poll_icmp (f : list Z) (frame_len : Z) : M E () :=
  r ← lift (Icmp.icmp_process_echo_request (Some f) frame_len true);
  if negb (bool_decide (r.1 = XAIOS_OK)) then mret () else
  reply_buf ← fresh NETWORK_BUFFER_SIZE;
  mac ← read g_local_mac;
  src ← lift (get_be32 f 26);
  r ← lift (Icmp.icmp_build_echo_reply (Some reply_buf) (Some mac) (Some (at_ptr f 6)) (Some f) 0 Ipv4.XAIOS_IPV4_GUEST_IP src frame_len);
  reply r icmp_reply.

Definition poll_echo_v6 (f : list Z) (frame_len : Z) : M E () :=
  r ← lift (Icmpv6.icmpv6_process_echo_request (Some f) frame_len true);
  match r with
  | (XAIOS_OK, Some (_, _, echo_src, _)) =>
      reply_buf ← fresh NETWORK_BUFFER_SIZE;
      mac ← read g_local_mac;
      own ← read g_link_local_v6;
      r ← lift (Icmpv6.icmpv6_build_echo_reply (Some reply_buf) (Some mac) (Some (at_ptr f 6)) 0 (Some own) (Some echo_src) (Some f) frame_len);
      reply r icmpv6_reply
  | _ => mret ()
  end.

Definition poll_solicitation (f : list Z) : M E () :=
  ns_target ← lift (xaios_ip_addr_from_raw_ipv6 (at_ptr f (Icmpv6.XAIOS_ICMPV6_OFFSET + 8)));
  na_src ← read g_link_local_v6;
  na_dst ← lift (xaios_ip_addr_from_raw_ipv6 (at_ptr f 22));
  na_frame ← fresh 128;
  mac ← read g_local_mac;
  r ← lift (Icmpv6.icmpv6_build_neighbor_advertisement na_frame mac (at_ptr f 6) na_src na_dst ns_target);
  reply r ndp_reply.

Definition poll_icmpv6 (f : list Z) (frame_len : Z) : M E () :=
  if frame_len <? Icmpv6.XAIOS_ICMPV6_MIN_FRAME then mret () else
  icmpv6_type ← lift (rd f Icmpv6.XAIOS_ICMPV6_OFFSET);
  if icmpv6_type =? Icmpv6.XAIOS_ICMPV6_ECHO_REQUEST then poll_echo_v6 f frame_len
  else if icmpv6_type =? Icmpv6.XAIOS_ICMPV6_NEIGHBOR_SOLICIT then poll_solicitation f
  else if icmpv6_type =? Icmpv6.XAIOS_ICMPV6_NEIGHBOR_ADVERT then
    attempt (fun s => '(n, _) ← Ndp.ndp_process_neighbor_advertisement (g_ndp s) (Some f) frame_len; Some (s <| g_ndp := n |>))
  else mret ().

Definition poll_ipv4 (f : list Z) (frame_len : Z) : M E () :=
  protocol ← lift (rd f 23);
  if protocol =? Ipv4.XAIOS_IPV4_PROTO_ICMP then poll_icmp f frame_len
  else if protocol =? NETWORK_IP_PROTO_UDP then network_stack_process_udp_frame (Some f) frame_len;; mret ()
  else if protocol =? NETWORK_IP_PROTO_TCP then network_stack_process_tcp_frame (Some f) frame_len;; mret ()
  else mret ().

Definition poll_ipv6 (f : list Z) (frame_len : Z) : M E () :=
  next_header ← lift (rd f 20);
  if next_header =? XAIOS_IPV6_NEXT_ICMPV6 then poll_icmpv6 f frame_len
  else if next_header =? NETWORK_IP_PROTO_UDP then network_stack_process_udp_frame_v6 (Some f) frame_len;; mret ()
  else if next_header =? NETWORK_IP_PROTO_TCP then network_stack_process_tcp_frame_v6 (Some f) frame_len;; mret ()
  else mret ().

(** A received frame: the result says whether the connections are served
    afterwards. *)
Definition poll_frame (f : list Z) (frame_len : Z) : M E bool :=
  if frame_len <? 14 then mret false else
  ethertype ← lift (get_be16 f 12);
  if ethertype =? 0x0806 then poll_arp f frame_len;; mret true
  else if ethertype =? NETWORK_ETHERTYPE_IPV4 then
    if frame_len <? 34 then mret false else poll_ipv4 f frame_len;; mret true
  else if ethertype =? NETWORK_ETHERTYPE_IPV6 then
    inc ipv6_rx;; if frame_len <? 54 then mret false else poll_ipv6 f frame_len;; mret true
  else mret true.

(** [virtio_net_rx_poll(rx_buf, sizeof(rx_buf))] fills the front of the array. *)
Definition receive_frame : M E (list Z * Z) :=
  junk ← fresh NETWORK_BUFFER_SIZE;
  d ← rx_poll NETWORK_BUFFER_SIZE;
  mret (d ++ drop (length d) junk, zlen d).

Definition network_poll_tick : M E () :=
  ready ← read g_persistent_initialized;
  if ready =? 0 then mret () else
  r ← receive_frame;
  let '(rx_buf, frame_len) := r in
  inc poll_tick;;
  if frame_len =? 0 then mret () else
  serve ← poll_frame rx_buf frame_len;
  if serve : bool then tcp_drain_pending else mret ().

(** ** Boot test *)

Definition test_udp : list (Z * Z) :=
  [(12, 0x08); (13, 0x00); (14, 0x45); (15, 0x00); (16, 0x00); (17, 0x20); (18, 0x00); (19, 0x00); (20, 0x00); (21, 0x00); (22, 64);
   (23, NETWORK_IP_PROTO_UDP); (24, 0x00); (25, 0x00); (26, 10); (27, 0); (28, 2); (29, 15); (30, 10); (31, 0); (32, 2); (33, 2);
   (34, 0x12); (35, 0x34); (36, 0x56); (37, 0x78); (38, 0x00); (39, 0x0C); (40, 0x00); (41, 0x00); (42, 1); (43, 2); (44, 3); (45, 4)].

Definition test_syn : list (Z * Z) :=
  [(12, 0x08); (13, 0x00); (14, 0x45); (15, 0x00); (16, 0x00); (17, 0x2c); (18, 0x00); (19, 0x00); (20, 0x00); (21, 0x40); (22, 64);
   (23, NETWORK_IP_PROTO_TCP); (26, 10); (27, 0); (28, 2); (29, 15); (30, 10); (31, 0); (32, 2); (33, 2); (34, 0x1f); (35, 0x90); (36, 0x00);
   (37, 0x50); (38, 0); (39, 0); (40, 0); (41, 1); (42, 0); (43, 0); (44, 0); (45, 0); (46, 0x60); (47, NETWORK_TCP_FLAG_SYN)].

Definition test_ack : list (Z * Z) :=
  [(23, NETWORK_IP_PROTO_TCP); (34, 0x1f); (35, 0x90); (36, 0x00); (37, 0x50); (38, 0); (39, 0); (40, 0); (41, 0); (42, 0); (43, 0); (44, 0); (45, 0);
   (46, 0x60); (47, NETWORK_TCP_FLAG_ACK)].

(** [kassert(call == status)] *)
Definition expect (m : M E xaios_status) (status : xaios_status) : M E () := st ← m; assert (bool_decide (st = status)).

Definition expect_n (m : M E Z) (n : Z) : M E () := x ← m; assert (x =? n).

Definition expect_counts (l : list (counter * Z)) : M E () := b ← read (fun s => forallb (fun x => stat s x.1 =? x.2) l); assert b.

Definition test_queues : M E () :=
  expect (bind_queue 0 1 0x2) XAIOS_OK;;
  expect (bind_queue 0 1 0x2) XAIOS_ERR_BUSY;;
  expect (bind_queue 1 2 0x4) XAIOS_OK;;
  expect (bind_queue 2 2 0x8) XAIOS_ERR_BUSY;;
  expect (release_queue 2 1) XAIOS_OK;;
  expect (bind_queue 1 2 0x4) XAIOS_OK;;
  expect_counts [(queue_binding, 2)].

Definition test_datagrams (frame_udp frame_udp_bad : list Z) : M E () :=
  f ← lift (poke frame_udp test_udp);
  expect (network_stack_process_udp_frame (Some f) 46) XAIOS_OK;;
  expect (network_stack_process_udp_frame (Some f) 46) XAIOS_OK;;
  expect_counts [(udp_rx, 2); (udp_flow_hit, 1)];;
  expect_n (read network_stack_udp_flow_count) 1;;
  expect_n (t ← now; call (fun s => network_stack_expire_udp_flows s (u64 (t + NETWORK_UDP_IDLE_TIMEOUT_NS + 1)))) 1;;
  expect_counts [(udp_expired, 1)];;
  expect_n (read network_stack_udp_flow_count) 0;;
  expect (network_stack_process_udp_frame (Some f) 46) XAIOS_OK;;
  expect_counts [(udp_rx, 3)];;
  expect_n (read network_stack_udp_flow_count) 1;;
  bad ← lift (poke frame_udp_bad [(13, 0x06)]);
  expect (network_stack_process_udp_frame (Some bad) 4) XAIOS_ERR_INVALID;;
  expect_counts [(udp_dropped, 1); (udp_malformed, 1)].

Definition test_connections (frame_tcp_syn frame_tcp_syn_ack frame_tcp_timeout : list Z) : M E () :=
  syn ← lift (poke frame_tcp_syn test_syn);
  expect (network_stack_process_tcp_frame (Some syn) 58) XAIOS_OK;;
  expect_counts [(tcp_handshake, 1)];;
  expect_n (read network_stack_tcp_connections) 0;;
  ack ← lift (a ← wr frame_tcp_syn_ack 14 0x45; a ← bytes_copy a syn 58; x ← rd syn 14; a ← wr a 14 x; poke a test_ack);
  expect (network_stack_process_tcp_frame (Some ack) 58) XAIOS_OK;;
  expect_n (read network_stack_tcp_connections) 1;;
  expect_counts [(tcp_established, 1)];;
  late ← lift (a ← bytes_copy frame_tcp_timeout syn 58; wr a 35 0x91);
  expect (network_stack_process_tcp_frame (Some late) 58) XAIOS_OK;;
  expect_n (t ← now; call (fun s => network_stack_retransmit_tcp_flows s (u64 (t + NETWORK_TCP_RETRANSMIT_NS + 1)))) 1;;
  expect_counts [(tcp_retransmit, 1)];;
  expect_n (t ← now; call (fun s => network_stack_expire_tcp_flows s (u64 (t + NETWORK_TCP_RETRANSMIT_NS + NETWORK_TCP_SYN_TIMEOUT_NS + 2)))) 1;;
  expect_counts [(tcp_timeout, 1); (tcp_closed, 1)];;
  expect_n (read network_stack_tcp_connections) 1.

Definition network_stack_self_test : M E (list Z) :=
  let zero := replicate (Z.to_nat NETWORK_BUFFER_SIZE) 0 in
  modify network_stack_init;;
  test_queues;;
  test_datagrams zero zero;;
  test_connections zero zero zero;;
  expect (release_queue 1 0) XAIOS_OK;;
  expect (release_queue 2 1) XAIOS_OK;;
  expect_counts [(queue_binding, 0); (udp_tx, 3); (udp_rx, 3); (tcp_reset, 0); (rx_packet, 6); (tx_packet, 6); (packet_drop, 2); (packet_lifecycle, 18);
                 (queue_rx_enqueue, 6); (queue_tx_enqueue, 6); (queue_completion, 6); (queue_backpressure_drop, 0); (flow_core_mismatch, 0)];;
  read emit_latency_snapshot.

End device.

(** The static variables at the start of the kernel. *)
Definition net0 (stack : nat -> list Z) : net :=
  mk_net (mk_queues (replicate (Z.to_nat XAIOS_NETWORK_MAX_QUEUE_BINDINGS) (mk_binding 0 0 0 0)) (replicate (Z.to_nat XAIOS_NETWORK_MAX_QUEUE_BINDINGS) (mk_ring 0 0 0 0 0))
            (replicate (Z.to_nat NETWORK_PACKET_DESCRIPTORS) (mk_desc NETWORK_PACKET_FREE 0 0 0 0 0 0 xaios_ip_addr_zero xaios_ip_addr_zero 0 0)) (fun _ => 0))
    1 (replicate (Z.to_nat NETWORK_UDP_FLOWS) zero_udp_flow) (replicate (Z.to_nat NETWORK_TCP_CONNECTIONS) zero_flow) 0 (replicate 6 0) 0 xaios_ip_addr_zero
    NetListen.socket_map0 NetListen.listeners0
    (mk_samples (replicate (Z.to_nat NETWORK_MAX_SAMPLES) 0) 0) (mk_samples (replicate (Z.to_nat NETWORK_MAX_SAMPLES) 0) 0)
    (replicate (Z.to_nat SOCKET_BUFFER_COUNT) (mk_pool_entry (mk_socket_buffer (replicate (Z.to_nat SOCKET_BUFFER_SIZE) 0) 0 0 0) 0))
    Arp.cache0 Ndp.ndp0 Routing.zero_table stack.

(** ** What the boot test and some calls do *)

(** The answer of a computation. *)
Definition answer {E A} (m : M E A) (s : net) (e : E) : option A := (fun r => r.1.1) <$> m s e.

Definition boot : net := net0 (fun _ => replicate (Z.to_nat NETWORK_BUFFER_SIZE) 7).

Definition listen (p : Z) : M card () := modify (fun s => s <| g_listeners_ex ::= fun t => NetListen.network_stack_register_listener t p 3 |>).

(** The boot test sends a connection request to a port without a listener,
    which is refused, so its assertion stops the kernel; with a listener the
    rest of the test of connections succeeds. *)
Lemma network_self_test_panics :
  let zero := replicate (Z.to_nat NETWORK_BUFFER_SIZE) 0 in
  network_stack_self_test boot (mk_card [] []) = None /\
  is_Some (answer (modify network_stack_init;; test_queues;; test_datagrams zero zero) boot (mk_card [] [])) /\
  is_Some (answer (modify network_stack_init;; test_queues;; test_datagrams zero zero;; listen 80;; test_connections zero zero zero) boot (mk_card [] [])).
Proof. split_and!; [vm_compute; reflexivity|apply returns_is_Some; vm_compute; reflexivity..]. Qed.

(** A connection identifier of zero closes an entry that is free. *)
Lemma close_flow_zero : answer (modify network_stack_init;; network_stack_tcp_close_flow 0) boot (mk_card [] []) = Some XAIOS_OK.
Proof. vm_compute. reflexivity. Qed.

(** A datagram flow to a peer on the local network whose address is known. *)
Definition datagram_flow : M card () :=
  modify network_stack_init;; network_init_persistent;; test_queues;;
  f ← lift (poke (replicate (Z.to_nat NETWORK_BUFFER_SIZE) 0) test_udp);
  expect (network_stack_process_udp_frame (Some f) 46) XAIOS_OK;;
  attempt (fun s => '(c, _) ← Arp.arp_cache_insert (g_arp_cache s) 0 (swap32 (u_remote_address ((g_udp_flows s).[0]))) (Some [2; 0; 0; 0; 0; 1]);
                    Some (s <| g_arp_cache := c |>)).

(** The length of a datagram is reduced to 16 bits before it is compared with
    the size of the frame: 65536 bytes pass the test and are copied beyond the
    end of the local array. *)
Lemma udp_send_overflow :
  answer (datagram_flow;; network_stack_udp_send 1 (replicate 100 5) 100) boot (mk_card [] []) = Some (XAIOS_OK, Some 100) /\
  answer (datagram_flow;; network_stack_udp_send 1 (replicate (Z.to_nat 1600) 5) 1500) boot (mk_card [] []) = Some (XAIOS_ERR_INVALID, None) /\
  answer (datagram_flow;; network_stack_udp_send 1 (replicate (Z.to_nat 65536) 5) 65536) boot (mk_card [] []) = None.
Proof. split_and!; vm_compute; reflexivity. Qed.

End NetStack.
