(* ===== verification/RateLimit.v ===== *)
(** * Per-cell rate limits (kernel/runtime/rate_limit.c, include/xaios/rate_limit.h)

    Token buckets for CPU and network and a memory cap per cell.  The clock
    [timer_now_ns()] is an input of every operation that reads it.  The state is
    the array [g_rate_limits] and the counter [g_total_throttle_events]; [rl_step]
    runs any operation of the interface, and the theorems quantify over
    arbitrary sequences of operations on all cells. *)

From S2P Require Import Prelude.

Module RateLimit.

Definition XAIOS_RATE_LIMIT_MAX_CELLS : Z := 8.
Definition NS_PER_SEC : Z := 1000000000.

Record xaios_token_bucket := mk_bucket {
  capacity : Z;
  tokens : Z;
  refill_rate : Z;
  last_refill_ns : Z
}.

Record xaios_rate_limit := mk_rl {
  cell_id : Z;
  active : Z;
  cpu_bucket : xaios_token_bucket;
  net_rx_bucket : xaios_token_bucket;
  net_tx_bucket : xaios_token_bucket;
  memory_cap_bytes : Z;
  memory_used_bytes : Z;
  cpu_violations : Z;
  net_violations : Z;
  memory_violations : Z;
  total_throttle_events : Z
}.

Definition zero_bucket : xaios_token_bucket := mk_bucket 0 0 0 0.

#[global] Instance rate_limit_inhabited : Inhabited xaios_rate_limit :=
  populate (mk_rl 0 0 zero_bucket zero_bucket zero_bucket 0 0 0 0 0 0).

Record rl_state := mk_state {
  g_rate_limits : list xaios_rate_limit;
  g_total_throttle_events : Z
}.

(** ** Token buckets *)

Definition bucket_init (cap rate now : Z) : xaios_token_bucket := mk_bucket cap cap rate now.

Definition bucket_refill (b : xaios_token_bucket) (now : Z) : xaios_token_bucket :=
  if now <=? last_refill_ns b then b else
  let elapsed_ns := u64 (now - last_refill_ns b) in
  let new_tokens := u64 (elapsed_ns * refill_rate b) / NS_PER_SEC in
  if 0 <? new_tokens then
    let t := u64 (tokens b + new_tokens) in
    mk_bucket (capacity b) (if capacity b <? t then capacity b else t) (refill_rate b) now
  else b.

Definition bucket_consume (b : xaios_token_bucket) (count now : Z)
    : xaios_token_bucket * xaios_status :=
  let b1 := bucket_refill b now in
  if tokens b1 <? count then (b1, XAIOS_ERR_BUSY)
  else (mk_bucket (capacity b1) (u64 (tokens b1 - count)) (refill_rate b1) (last_refill_ns b1),
        XAIOS_OK).

(** ** Field updates of one cell *)

Definition set_cpu_bucket (b : xaios_token_bucket) (r : xaios_rate_limit) : xaios_rate_limit :=
  mk_rl (cell_id r) (active r) b (net_rx_bucket r) (net_tx_bucket r) (memory_cap_bytes r)
    (memory_used_bytes r) (cpu_violations r) (net_violations r) (memory_violations r)
    (total_throttle_events r).

Definition set_net_bucket (is_tx : bool) (b : xaios_token_bucket) (r : xaios_rate_limit)
    : xaios_rate_limit :=
  mk_rl (cell_id r) (active r) (cpu_bucket r) (if is_tx then net_rx_bucket r else b)
    (if is_tx then b else net_tx_bucket r) (memory_cap_bytes r)
    (memory_used_bytes r) (cpu_violations r) (net_violations r) (memory_violations r)
    (total_throttle_events r).

Definition set_used (n : Z) (r : xaios_rate_limit) : xaios_rate_limit :=
  mk_rl (cell_id r) (active r) (cpu_bucket r) (net_rx_bucket r) (net_tx_bucket r)
    (memory_cap_bytes r) n (cpu_violations r) (net_violations r) (memory_violations r)
    (total_throttle_events r).

Inductive violation := VCpu | VNet | VMemory.

(** The violation counters of the cell, [++rl->..._violations] and
    [++rl->total_throttle_events]. *)
Definition count_violation (v : violation) (r : xaios_rate_limit) : xaios_rate_limit :=
  mk_rl (cell_id r) (active r) (cpu_bucket r) (net_rx_bucket r) (net_tx_bucket r)
    (memory_cap_bytes r) (memory_used_bytes r)
    (match v with VCpu => u64 (cpu_violations r + 1) | _ => cpu_violations r end)
    (match v with VNet => u64 (net_violations r + 1) | _ => net_violations r end)
    (match v with VMemory => u64 (memory_violations r + 1) | _ => memory_violations r end)
    (u64 (total_throttle_events r + 1)).

Definition upd_cell (s : rl_state) (c : Z) (f : xaios_rate_limit -> xaios_rate_limit) : rl_state :=
  mk_state (upd (g_rate_limits s) c f) (g_total_throttle_events s).

Definition throttle (s : rl_state) (c : Z) (v : violation) : rl_state :=
  let s1 := upd_cell s c (count_violation v) in
  mk_state (g_rate_limits s1) (u64 (g_total_throttle_events s1 + 1)).

(** ** Operations *)

Definition rate_limit_init (s : rl_state) : rl_state :=
  mk_state
    (imap (fun i r => mk_rl (Z.of_nat i) 0 (cpu_bucket r) (net_rx_bucket r) (net_tx_bucket r)
                        0 0 0 0 0 0) (g_rate_limits s)) 0.

Definition rate_limit_create (s : rl_state) (c cpu_cap cpu_rate net_cap net_rate mem_cap : Z)
    (now1 now2 now3 : Z) : rl_state * xaios_status :=
  if XAIOS_RATE_LIMIT_MAX_CELLS <=? c then (s, XAIOS_ERR_INVALID) else
  (upd_cell s c (fun _ =>
     mk_rl c 1 (bucket_init cpu_cap cpu_rate now1) (bucket_init net_cap net_rate now2)
       (bucket_init net_cap net_rate now3) mem_cap 0 0 0 0 0), XAIOS_OK).

Definition rate_limit_destroy (s : rl_state) (c : Z) : rl_state * xaios_status :=
  if XAIOS_RATE_LIMIT_MAX_CELLS <=? c then (s, XAIOS_ERR_INVALID) else
  (upd_cell s c (fun r =>
     mk_rl (cell_id r) 0 (cpu_bucket r) (net_rx_bucket r) (net_tx_bucket r)
       (memory_cap_bytes r) 0 (cpu_violations r) (net_violations r) (memory_violations r)
       (total_throttle_events r)), XAIOS_OK).

Definition rejected (s : rl_state) (c : Z) : bool :=
  (XAIOS_RATE_LIMIT_MAX_CELLS <=? c) || (active ((g_rate_limits s).[c]) =? 0).

Definition rate_limit_cpu_consume (s : rl_state) (c n now : Z) : rl_state * xaios_status :=
  if rejected s c then (s, XAIOS_ERR_INVALID) else
  let '(b, status) := bucket_consume (cpu_bucket ((g_rate_limits s).[c])) n now in
  let s1 := upd_cell s c (set_cpu_bucket b) in
  if negb (is_ok status) then (throttle s1 c VCpu, status) else (s1, status).

Definition rate_limit_check_memory (s : rl_state) (c bytes : Z) : rl_state * xaios_status :=
  if rejected s c then (s, XAIOS_ERR_INVALID) else
  let rl := (g_rate_limits s).[c] in
  if memory_cap_bytes rl <? u64 (memory_used_bytes rl + bytes)
  then (throttle s c VMemory, XAIOS_ERR_NO_MEMORY)
  else (s, XAIOS_OK).

Definition rate_limit_memory_commit (s : rl_state) (c bytes : Z) : rl_state * xaios_status :=
  let '(s1, status) := rate_limit_check_memory s c bytes in
  if negb (is_ok status) then (s1, status) else
  (upd_cell s1 c (fun r => set_used (u64 (memory_used_bytes r + bytes)) r), XAIOS_OK).

Definition rate_limit_memory_release (s : rl_state) (c bytes : Z) : rl_state :=
  if rejected s c then s else
  if memory_used_bytes ((g_rate_limits s).[c]) <? bytes
  then upd_cell s c (set_used 0)
  else upd_cell s c (fun r => set_used (u64 (memory_used_bytes r - bytes)) r).

Definition rate_limit_check_network (s : rl_state) (c bytes : Z) (is_tx : bool) (now : Z)
    : rl_state * xaios_status :=
  if rejected s c then (s, XAIOS_ERR_INVALID) else
  let rl := (g_rate_limits s).[c] in
  let '(b, status) := bucket_consume (if is_tx then net_tx_bucket rl else net_rx_bucket rl)
                        bytes now in
  let s1 := upd_cell s c (set_net_bucket is_tx b) in
  if negb (is_ok status) then (throttle s1 c VNet, status) else (s1, status).

Definition violations_of (f : xaios_rate_limit -> Z) (s : rl_state) (c : Z) : Z :=
  if XAIOS_RATE_LIMIT_MAX_CELLS <=? c then 0 else f ((g_rate_limits s).[c]).
Definition rate_limit_cpu_violations := violations_of cpu_violations.
Definition rate_limit_net_violations := violations_of net_violations.
Definition rate_limit_memory_violations := violations_of memory_violations.
Definition rate_limit_total_throttle_events (s : rl_state) : Z := g_total_throttle_events s.

(** Any call of the interface, with the clock values it reads. *)
Inductive rl_op :=
| OpCreate (c cpu_cap cpu_rate net_cap net_rate mem_cap now1 now2 now3 : Z)
| OpInit
| OpDestroy (c : Z)
| OpCpu (c n now : Z)
| OpCheckMem (c bytes : Z)
| OpCommit (c bytes : Z)
| OpRelease (c bytes : Z)
| OpNet (c bytes : Z) (is_tx : bool) (now : Z).

Definition rl_step (s : rl_state) (op : rl_op) : rl_state * xaios_status :=
  match op with
  | OpCreate c a b d e m n1 n2 n3 => rate_limit_create s c a b d e m n1 n2 n3
  | OpInit => (rate_limit_init s, XAIOS_OK)
  | OpDestroy c => rate_limit_destroy s c
  | OpCpu c n now => rate_limit_cpu_consume s c n now
  | OpCheckMem c b => rate_limit_check_memory s c b
  | OpCommit c b => rate_limit_memory_commit s c b
  | OpRelease c b => (rate_limit_memory_release s c b, XAIOS_OK)
  | OpNet c b tx now => rate_limit_check_network s c b tx now
  end.

Fixpoint rl_run (s : rl_state) (ops : list rl_op) : rl_state * list xaios_status :=
  match ops with
  | [] => (s, [])
  | op :: ops' =>
      let '(s1, st) := rl_step s op in
      let '(s2, sts) := rl_run s1 ops' in (s2, st :: sts)
  end.

(** ** Invariant *)

Definition word (x : Z) : Prop := 0 <= x < 18446744073709551616.

Definition bucket_ok (b : xaios_token_bucket) : Prop :=
  0 <= tokens b <= capacity b /\ word (capacity b) /\ word (refill_rate b) /\
  word (last_refill_ns b).

Definition cell_ok (r : xaios_rate_limit) : Prop :=
  bucket_ok (cpu_bucket r) /\ bucket_ok (net_rx_bucket r) /\ bucket_ok (net_tx_bucket r) /\
  0 <= memory_used_bytes r <= memory_cap_bytes r /\ word (memory_cap_bytes r).

Definition state_ok (s : rl_state) : Prop :=
  zlen (g_rate_limits s) = XAIOS_RATE_LIMIT_MAX_CELLS /\ Forall cell_ok (g_rate_limits s).

(** Arguments are machine words and the clock has not passed [T]. *)
Definition op_ok (T : Z) (op : rl_op) : Prop :=
  match op with
  | OpCreate c a b d e m n1 n2 n3 =>
      0 <= c /\ word a /\ word b /\ word d /\ word e /\ word m /\
      0 <= n1 <= T /\ 0 <= n2 <= T /\ 0 <= n3 <= T
  | OpInit => True
  | OpDestroy c => 0 <= c
  | OpCpu c n now | OpNet c n _ now => 0 <= c /\ word n /\ 0 <= now <= T
  | OpCheckMem c n | OpCommit c n | OpRelease c n => 0 <= c /\ word n
  end.

Definition creates (c : Z) (op : rl_op) : bool :=
  match op with OpCreate k _ _ _ _ _ _ _ _ => k =? c | _ => false end.

(** CPU tokens granted to cell [c] by one call, and by a run. *)
Definition grant (c : Z) (op : rl_op) (st : xaios_status) : Z :=
  match op with OpCpu k n _ => if (k =? c) && is_ok st then n else 0 | _ => 0 end.

(** What a bucket can grant up to the time [T], in tokens times [NS_PER_SEC]: its
    tokens and the refill for the time from its last refill. *)
Definition allowance (T : Z) (b : xaios_token_bucket) : Z :=
  NS_PER_SEC * tokens b + refill_rate b * (T - last_refill_ns b).

(** The full buckets that creations of cell [c] bring in. *)
Fixpoint created (T c : Z) (ops : list rl_op) : Z :=
  match ops with
  | [] => 0
  | OpCreate k cpu_cap cpu_rate _ _ _ now1 _ _ :: ops' =>
      (if k =? c then allowance T (mk_bucket cpu_cap cpu_cap cpu_rate now1) else 0) + created T c ops'
  | _ :: ops' => created T c ops'
  end.

Fixpoint granted (c : Z) (ops : list rl_op) (sts : list xaios_status) : Z :=
  match ops, sts with
  | op :: ops', st :: sts' => grant c op st + granted c ops' sts'
  | _, _ => 0
  end.

(** ** Lemmas *)


Lemma bucket_refill_spec b now :
  bucket_ok b -> word now ->
  let b' := bucket_refill b now in
  bucket_ok b' /\ capacity b' = capacity b /\ refill_rate b' = refill_rate b /\
  last_refill_ns b <= last_refill_ns b' <= Z.max now (last_refill_ns b) /\
  NS_PER_SEC * tokens b' <=
    NS_PER_SEC * tokens b + refill_rate b * (last_refill_ns b' - last_refill_ns b).
Proof.
  unfold bucket_ok, word. intros (Ht & Hc & Hr & Hl) Hnow. cbv zeta. unfold bucket_refill.
  case_if; [split_and!; lia|]. rewrite (u64_small (now - _)) by lia.
  set (d := now - last_refill_ns b).
  assert (Hd : 0 <= u64 (d * refill_rate b) <= d * refill_rate b)
    by (pose proof (u64_range (d * refill_rate b)); pose proof (u64_le (d * refill_rate b)); nia).
  set (n := u64 (d * refill_rate b) / NS_PER_SEC).
  assert (Hn : 0 <= NS_PER_SEC * n <= d * refill_rate b).
  { pose proof (Z.mul_div_le (u64 (d * refill_rate b)) NS_PER_SEC ltac:(done)).
    pose proof (Z.div_pos (u64 (d * refill_rate b)) NS_PER_SEC ltac:(lia) ltac:(done)).
    unfold n, NS_PER_SEC in *. lia. }
  pose proof (u64_range (tokens b + n)).
  assert (u64 (tokens b + n) <= tokens b + n) by (apply u64_le; unfold NS_PER_SEC in *; lia).
  case_if; simpl; [|split_and!; lia].
  split_and!; try lia; try (case_if; lia); case_if; unfold NS_PER_SEC in *; nia.
Qed.

Lemma bucket_consume_spec b count now :
  bucket_ok b -> word now -> word count ->
  let '(b', st) := bucket_consume b count now in
  bucket_ok b' /\ capacity b' = capacity b /\ refill_rate b' = refill_rate b /\
  last_refill_ns b <= last_refill_ns b' <= Z.max now (last_refill_ns b) /\
  NS_PER_SEC * (tokens b' + if is_ok st then count else 0) <=
    NS_PER_SEC * tokens b + refill_rate b * (last_refill_ns b' - last_refill_ns b).
Proof.
  intros Hb Hnow Hcount. pose proof (bucket_refill_spec b now Hb Hnow) as (Hb' & H1 & H2 & H3 & H4).
  unfold bucket_consume. set (b1 := bucket_refill b now) in *.
  case_if; simpl; [split_and!; done || lia|].
  unfold bucket_ok, word in *. simpl. rewrite u64_small by lia. split_and!; lia.
Qed.

Lemma get_upd_cell s k c f :
  zlen (g_rate_limits s) = XAIOS_RATE_LIMIT_MAX_CELLS -> 0 <= c ->
  0 <= k < XAIOS_RATE_LIMIT_MAX_CELLS ->
  (g_rate_limits (upd_cell s k f)).[c] =
  if k =? c then f ((g_rate_limits s).[k]) else (g_rate_limits s).[c].
Proof.
  intros Hz Hc Hk. unfold upd_cell; simpl. case_if.
  - apply Z.eqb_eq in Heqb as ->. apply upd_get_eq. lia.
  - apply upd_get_ne; lia.
Qed.

Lemma upd_cell_ok s k f :
  state_ok s -> 0 <= k < XAIOS_RATE_LIMIT_MAX_CELLS ->
  cell_ok (f ((g_rate_limits s).[k])) -> state_ok (upd_cell s k f).
Proof.
  intros [Hz Hf] Hk Hc. split; [by rewrite <- Hz; apply zlen_upd|].
  by apply Forall_insert.
Qed.

Lemma cell_ok_get s c :
  state_ok s -> 0 <= c < XAIOS_RATE_LIMIT_MAX_CELLS -> cell_ok ((g_rate_limits s).[c]).
Proof.
  intros [Hz Hf] Hc. rewrite Forall_lookup in Hf. eapply Hf, arr_lookup. lia.
Qed.

Lemma throttle_ok s c v :
  state_ok s -> 0 <= c < XAIOS_RATE_LIMIT_MAX_CELLS -> state_ok (throttle s c v).
Proof.
  intros Hs Hc. apply (upd_cell_ok s c (count_violation v)); [done..|].
  pose proof (cell_ok_get s c Hs Hc). done.
Qed.

Lemma throttle_cpu_bucket s k c v :
  zlen (g_rate_limits s) = XAIOS_RATE_LIMIT_MAX_CELLS -> 0 <= c ->
  0 <= k < XAIOS_RATE_LIMIT_MAX_CELLS ->
  cpu_bucket ((g_rate_limits (throttle s k v)).[c]) = cpu_bucket ((g_rate_limits s).[c]).
Proof.
  intros.
  change (g_rate_limits (throttle s k v)) with (g_rate_limits (upd_cell s k (count_violation v))).
  rewrite (get_upd_cell s k c (count_violation v)) by done.
  case_if; [|done]. by apply Z.eqb_eq in Heqb as ->.
Qed.

Lemma not_rejected s c :
  rejected s c = false -> c < XAIOS_RATE_LIMIT_MAX_CELLS.
Proof. unfold rejected. intros. breflect. lia. Qed.

#[local] Hint Resolve upd_cell_ok throttle_ok cell_ok_get : xaios.

Lemma cpu_consume_ok s c n now :
  state_ok s -> 0 <= c -> word n -> word now ->
  state_ok (rate_limit_cpu_consume s c n now).1.
Proof.
  intros Hs Hc Hn Hnow. unfold rate_limit_cpu_consume.
  destruct (rejected s c) eqn:Er; [done|]. apply not_rejected in Er.
  pose proof (cell_ok_get s c Hs ltac:(lia)) as Hcell.
  pose proof (bucket_consume_spec _ n now (proj1 Hcell) Hnow Hn) as Hb.
  destruct (bucket_consume _ _ _) as [b st].
  assert (state_ok (upd_cell s c (set_cpu_bucket b))).
  { apply upd_cell_ok; [done|lia|]. unfold cell_ok in *; simpl. naive_solver. }
  case_if; simpl; [apply throttle_ok; done || lia|done].
Qed.

Lemma check_network_ok s c n tx now :
  state_ok s -> 0 <= c -> word n -> word now ->
  state_ok (rate_limit_check_network s c n tx now).1.
Proof.
  intros Hs Hc Hn Hnow. unfold rate_limit_check_network.
  destruct (rejected s c) eqn:Er; [done|]. apply not_rejected in Er.
  pose proof (cell_ok_get s c Hs ltac:(lia)) as Hcell.
  assert (Hbk : bucket_ok (if tx then net_tx_bucket ((g_rate_limits s).[c])
                           else net_rx_bucket ((g_rate_limits s).[c])))
    by (destruct tx; apply Hcell).
  pose proof (bucket_consume_spec _ n now Hbk Hnow Hn) as Hb.
  destruct (bucket_consume _ _ _) as [b st].
  assert (state_ok (upd_cell s c (set_net_bucket tx b))).
  { apply upd_cell_ok; [done|lia|]. unfold cell_ok in *; simpl. destruct tx; naive_solver. }
  case_if; simpl; [apply throttle_ok; done || lia|done].
Qed.

Lemma check_memory_ok s c n : state_ok s -> 0 <= c -> state_ok (rate_limit_check_memory s c n).1.
Proof.
  intros Hs Hc. unfold rate_limit_check_memory. destruct (rejected s c) eqn:Er; [done|].
  apply not_rejected in Er. case_if; simpl; [apply throttle_ok; done || lia|done].
Qed.

Lemma commit_ok s c n : state_ok s -> 0 <= c -> state_ok (rate_limit_memory_commit s c n).1.
Proof.
  intros Hs Hc. unfold rate_limit_memory_commit.
  pose proof (check_memory_ok s c n Hs Hc) as Hm.
  destruct (rate_limit_check_memory s c n) as [s1 st] eqn:E. simpl in Hm.
  destruct st; simpl; try done. unfold rate_limit_check_memory in E.
  destruct (rejected s c) eqn:Er; [done|]. apply not_rejected in Er. case_if; simplify_eq.
  apply upd_cell_ok; [done|lia|]. pose proof (cell_ok_get s1 c Hs ltac:(lia)) as Hcell.
  unfold cell_ok in *; simpl. pose proof (u64_range (memory_used_bytes ((g_rate_limits s1).[c]) + n)).
  split_and!; try apply Hcell; lia.
Qed.

Lemma release_ok s c n :
  state_ok s -> 0 <= c -> word n -> state_ok (rate_limit_memory_release s c n).
Proof.
  intros Hs Hc Hn. unfold rate_limit_memory_release, word in *.
  destruct (rejected s c) eqn:Er; [done|]. apply not_rejected in Er.
  pose proof (cell_ok_get s c Hs ltac:(lia)) as Hcell. unfold cell_ok, word in Hcell.
  case_if; (apply upd_cell_ok; [done|lia|]); unfold cell_ok, word; simpl;
    rewrite ?u64_small by lia; split_and!; try apply Hcell; lia.
Qed.

Lemma init_cell s c : 0 <= c < zlen (g_rate_limits s) ->
  cpu_bucket ((g_rate_limits (rate_limit_init s)).[c]) = cpu_bucket ((g_rate_limits s).[c]).
Proof.
  intros Hc. unfold rate_limit_init; simpl. rewrite list_lookup_total_alt, list_lookup_imap.
  by rewrite (arr_lookup (g_rate_limits s) c Hc).
Qed.

Lemma rate_init_ok s : state_ok s -> state_ok (rate_limit_init s).
Proof.
  intros [Hz Hf]. split; simpl; [by unfold zlen in *; rewrite length_imap|].
  apply Forall_lookup. intros i r. rewrite list_lookup_imap. intros (r0 & Hr & ->)%fmap_Some.
  rewrite Forall_lookup in Hf. specialize (Hf i r0 Hr). unfold cell_ok, word in *; simpl. split_and!; try apply Hf; lia.
Qed.

Lemma rl_step_ok T s op : T < 18446744073709551616 ->
  state_ok s -> op_ok T op -> state_ok (rl_step s op).1.
Proof.
  intros HT Hs Hop. destruct op; simpl in *.
  - unfold rate_limit_create. case_if; [done|].
    apply upd_cell_ok; [done|lia|]. unfold cell_ok, bucket_ok, word in *; simpl. split_and!; lia.
  - by apply rate_init_ok.
  - unfold rate_limit_destroy. case_if; [done|]. apply upd_cell_ok; [done|lia|].
    pose proof (cell_ok_get s c Hs ltac:(lia)) as Hc. unfold cell_ok, word in *; simpl. split_and!; try apply Hc; lia.
  - apply cpu_consume_ok; unfold word in *; try done; lia.
  - apply check_memory_ok; try done; lia.
  - apply commit_ok; try done; lia.
  - apply release_ok; [done|lia|apply Hop].
  - apply check_network_ok; unfold word in *; try done; lia.
Qed.

(** Every call but [rate_limit_create] on cell [c] keeps the budget of its CPU
    bucket: what it grants plus what is left is covered by what was there and
    the refill for the time that passed. *)
Definition budget (b b' : xaios_token_bucket) (T spent : Z) : Prop :=
  capacity b' = capacity b /\ refill_rate b' = refill_rate b /\
  last_refill_ns b <= last_refill_ns b' <= Z.max T (last_refill_ns b) /\
  NS_PER_SEC * (tokens b' + spent) <=
    NS_PER_SEC * tokens b + refill_rate b * (last_refill_ns b' - last_refill_ns b).

Lemma budget_refl b T : budget b b T 0.
Proof. unfold budget. lia. Qed.

Lemma budget_trans b b1 b2 T n m :
  budget b b1 T n -> budget b1 b2 T m -> budget b b2 T (n + m).
Proof.
  unfold budget. intros (H1 & H2 & H3 & H4) (G1 & G2 & G3 & G4). rewrite H2 in *.
  split_and!; try congruence; nia.
Qed.

Definition cpu_of (s : rl_state) (c : Z) : xaios_token_bucket :=
  cpu_bucket ((g_rate_limits s).[c]).

Lemma cpu_of_upd s k c f :
  state_ok s -> 0 <= c -> 0 <= k < XAIOS_RATE_LIMIT_MAX_CELLS ->
  (forall r, cpu_bucket (f r) = cpu_bucket r) -> cpu_of (upd_cell s k f) c = cpu_of s c.
Proof.
  intros [Hz _] Hc Hk Hf. unfold cpu_of. rewrite get_upd_cell by done.
  case_if; [|done]. apply Z.eqb_eq in Heqb as ->. apply Hf.
Qed.

Lemma cpu_of_throttle s k c v :
  state_ok s -> 0 <= c -> 0 <= k < XAIOS_RATE_LIMIT_MAX_CELLS ->
  cpu_of (throttle s k v) c = cpu_of s c.
Proof. intros [Hz _] Hc Hk. by apply throttle_cpu_bucket. Qed.

Lemma cpu_consume_budget T s k n now c :
  T < 18446744073709551616 -> state_ok s -> 0 <= c -> 0 <= k -> word n -> 0 <= now <= T ->
  let '(s', st) := rate_limit_cpu_consume s k n now in
  budget (cpu_of s c) (cpu_of s' c) T (grant c (OpCpu k n now) st).
Proof.
  intros HT Hs Hc Hk Hn Hnow. unfold rate_limit_cpu_consume.
  destruct (rejected s k) eqn:Er; simpl; [rewrite andb_false_r; apply budget_refl|].
  apply not_rejected in Er.
  pose proof (cell_ok_get s k Hs ltac:(lia)) as Hcell.
  pose proof (bucket_consume_spec _ n now (proj1 Hcell) ltac:(unfold word; lia) Hn) as Hb.
  destruct (bucket_consume _ _ _) as [b st]. destruct Hb as (Hbok & H1 & H2 & H3 & H4).
  assert (Hs1 : state_ok (upd_cell s k (set_cpu_bucket b))).
  { apply upd_cell_ok; [done|lia|]. unfold cell_ok in *; simpl. naive_solver. }
  assert (Hcpu : budget (cpu_of s c) (cpu_of (upd_cell s k (set_cpu_bucket b)) c) T
                   (if (k =? c) && is_ok st then n else 0)).
  { unfold cpu_of at 2. rewrite get_upd_cell by (apply Hs || lia). destruct (k =? c) eqn:E.
    - apply Z.eqb_eq in E as ->. unfold budget, cpu_of; simpl. split_and!; done || lia.
    - apply budget_refl. }
  destruct (is_ok st) eqn:Est; simpl; [by rewrite Est|].
  rewrite Est. rewrite cpu_of_throttle by (done || lia). done.
Qed.

Lemma check_memory_cpu s k n c :
  state_ok s -> 0 <= c -> 0 <= k -> cpu_of (rate_limit_check_memory s k n).1 c = cpu_of s c.
Proof.
  intros Hs Hc Hk. unfold rate_limit_check_memory. destruct (rejected s k) eqn:Er; [done|].
  apply not_rejected in Er. case_if; simpl; [apply cpu_of_throttle; done || lia|done].
Qed.

Lemma rl_step_budget T s op c :
  T < 18446744073709551616 -> state_ok s -> 0 <= c < XAIOS_RATE_LIMIT_MAX_CELLS -> op_ok T op -> creates c op = false ->
  let '(s', st) := rl_step s op in budget (cpu_of s c) (cpu_of s' c) T (grant c op st).
Proof.
  intros HT Hs Hrange Hop Hcr. assert (Hc : 0 <= c) by lia. destruct op; simpl in Hop, Hcr |- *.
  - unfold rate_limit_create. case_if; [apply budget_refl|]. unfold cpu_of.
    rewrite get_upd_cell by (apply Hs || lia). rewrite Hcr. apply budget_refl.
  - unfold cpu_of. rewrite init_cell by (rewrite (proj1 Hs); lia). apply budget_refl.
  - unfold rate_limit_destroy. case_if; [apply budget_refl|].
    rewrite cpu_of_upd by (done || lia). apply budget_refl.
  - apply cpu_consume_budget; try (done || lia); apply Hop.
  - pose proof (check_memory_cpu s c0 bytes c Hs Hc ltac:(lia)) as H.
    destruct (rate_limit_check_memory _ _ _); simpl in H. rewrite H. apply budget_refl.
  - unfold rate_limit_memory_commit.
    pose proof (check_memory_cpu s c0 bytes c Hs Hc ltac:(lia)) as H.
    pose proof (check_memory_ok s c0 bytes Hs ltac:(lia)) as Hok.
    destruct (rate_limit_check_memory s c0 bytes) as [s1 st] eqn:E; simpl in H, Hok.
    destruct (is_ok st) eqn:Est; simpl; [|rewrite H; apply budget_refl].
    unfold rate_limit_check_memory in E. destruct (rejected s c0) eqn:Er; [by simplify_eq|].
    apply not_rejected in Er. rewrite cpu_of_upd, H by (done || lia). apply budget_refl.
  - unfold rate_limit_memory_release. destruct (rejected s c0) eqn:Er; [apply budget_refl|].
    apply not_rejected in Er.
    case_if; rewrite cpu_of_upd by (done || lia); apply budget_refl.
  - unfold rate_limit_check_network. destruct (rejected s c0) eqn:Er; [apply budget_refl|].
    apply not_rejected in Er.
    destruct (bucket_consume _ _ _) as [b st].
    assert (Hu : cpu_of (upd_cell s c0 (set_net_bucket is_tx b)) c = cpu_of s c)
      by (apply cpu_of_upd; done || lia).
    case_if; [|rewrite Hu; apply budget_refl].
    unfold cpu_of in *. rewrite throttle_cpu_bucket, Hu; [apply budget_refl| |lia..].
    rewrite <- (proj1 Hs). apply zlen_upd.
Qed.

Lemma allowance_nonneg T s c : state_ok s -> 0 <= c < XAIOS_RATE_LIMIT_MAX_CELLS ->
  last_refill_ns (cpu_of s c) <= T -> 0 <= allowance T (cpu_of s c).
Proof.
  intros Hs Hc Hl. destruct (cell_ok_get s c Hs Hc) as ((Ht & _ & Hr & _) & _).
  unfold allowance, cpu_of, word, NS_PER_SEC in *. nia.
Qed.

Lemma created_cons T c op ops : created T c (op :: ops) = created T c [op] + created T c ops.
Proof. destruct op; simpl; lia. Qed.

(** A call spends from the allowance of the cell; only a creation adds to it. *)
Lemma rl_step_allowance T s op c :
  T < 18446744073709551616 -> state_ok s -> 0 <= c < XAIOS_RATE_LIMIT_MAX_CELLS -> op_ok T op ->
  last_refill_ns (cpu_of s c) <= T ->
  let '(s', st) := rl_step s op in
  last_refill_ns (cpu_of s' c) <= T /\
  NS_PER_SEC * grant c op st + allowance T (cpu_of s' c) <= allowance T (cpu_of s c) + created T c [op].
Proof.
  intros HT Hs Hc Hop Hl. pose proof (allowance_nonneg T s c Hs Hc Hl) as Hpos.
  destruct (creates c op) eqn:Hcr.
  - destruct op; try done. simpl in *. apply Z.eqb_eq in Hcr as ->. unfold rate_limit_create.
    rewrite (proj2 (Z.leb_gt _ _)), Z.eqb_refl by lia. unfold cpu_of in *. rewrite get_upd_cell by (apply Hs || lia).
    rewrite Z.eqb_refl. simpl. unfold bucket_init. lia.
  - pose proof (rl_step_budget T s op c HT Hs Hc Hop Hcr) as Hb. destruct (rl_step s op) as [s' st].
    assert (Hz : created T c [op] = 0) by (destruct op; simpl in *; rewrite ?Hcr; done).
    rewrite Hz. unfold budget, allowance in *. split; [lia|]. destruct Hb as (_ & Hr & H3 & H4). rewrite Hr. nia.
Qed.

(** ** Properties *)

(** Whatever calls are made, in whatever order and with whatever clock readings,
    every bucket keeps at most its capacity of tokens and every cell keeps its
    committed memory at or below its cap. *)
Theorem rate_limit_invariant (T : Z) (ops : list rl_op) (s : rl_state) :
  T < 18446744073709551616 -> state_ok s -> Forall (op_ok T) ops ->
  state_ok (rl_run s ops).1.
Proof.
  intros HT Hs Hops. revert s Hs. induction Hops as [|op ops Hop _ IH]; intros s Hs; [done|].
  simpl. pose proof (rl_step_ok T s op HT Hs Hop) as Hs1.
  destruct (rl_step s op) as [s1 st]. specialize (IH s1 Hs1).
  by destruct (rl_run s1 ops) as [s2 sts].
Qed.

Definition idle_state : rl_state := mk_state (replicate 8 inhabitant) 0.

Lemma rate_limit_invariant_witness :
  state_ok (rl_run idle_state [OpCreate 0 100 1 4096 1 4096 5 6 7; OpCommit 0 4096;
                               OpRelease 0 2048; OpCpu 0 7 9]).1.
Proof.
  apply (rate_limit_invariant 100).
  - lia.
  - split; [done|]. unfold cell_ok, bucket_ok, word. apply Forall_replicate. simpl. lia.
  - repeat constructor; simpl; unfold word; lia.
Defined.

(** C35: the token bucket enforces the rate.  Over any sequence of calls, creations of
    the cell and re-initialisations included, the CPU tokens granted to cell [c] are at
    most the tokens in its bucket, the refill at its rate for the time from the last
    refill, and for every creation of the cell in the sequence one full bucket and the
    refill for the time from then; wrap-around in the refill arithmetic never grants
    more. *)
Theorem rate_limit_cpu_rate (T : Z) (ops : list rl_op) (s : rl_state) (c : Z) :
  0 <= c < XAIOS_RATE_LIMIT_MAX_CELLS -> T < 18446744073709551616 -> state_ok s ->
  Forall (op_ok T) ops -> last_refill_ns (cpu_of s c) <= T ->
  NS_PER_SEC * granted c ops (rl_run s ops).2 <= allowance T (cpu_of s c) + created T c ops.
Proof.
  intros Hc HT Hs Hops Hlast. revert s Hs Hlast. induction Hops as [|op ops Hop _ IH]; intros s Hs Hlast.
  { pose proof (allowance_nonneg T s c Hs Hc Hlast). simpl. lia. }
  simpl rl_run. pose proof (rl_step_allowance T s op c HT Hs Hc Hop Hlast) as Hb.
  pose proof (rl_step_ok T s op HT Hs Hop) as Hs1.
  destruct (rl_step s op) as [s1 st]. destruct Hb as [Hl1 Hb]. specialize (IH s1 Hs1 Hl1).
  destruct (rl_run s1 ops) as [s2 sts]. rewrite created_cons. cbn [granted snd fst] in *. lia.
Qed.

Lemma rate_limit_cpu_rate_witness :
  let s := (rate_limit_create idle_state 0 3 1 4096 1 4096 0 0 0).1 in
  let ops := [OpCpu 0 2 10; OpCpu 0 2 20; OpCpu 1 5 30; OpCpu 0 2 1500000000;
              OpCreate 0 4 1 4096 1 4096 1600000000 1600000000 1600000000; OpCpu 0 4 1700000000] in
  granted 0 ops (rl_run s ops).2 = 8 /\
  NS_PER_SEC * granted 0 ops (rl_run s ops).2 <= (NS_PER_SEC * 3 + 1 * (2000000000 - 0)) + (NS_PER_SEC * 4 + 1 * (2000000000 - 1600000000) + 0).
Proof.
  split; [vm_compute; reflexivity|].
  apply (rate_limit_cpu_rate 2000000000 [OpCpu 0 2 10; OpCpu 0 2 20; OpCpu 1 5 30; OpCpu 0 2 1500000000;
              OpCreate 0 4 1 4096 1 4096 1600000000 1600000000 1600000000; OpCpu 0 4 1700000000]
           (rate_limit_create idle_state 0 3 1 4096 1 4096 0 0 0).1 0);
    try (unfold XAIOS_RATE_LIMIT_MAX_CELLS; lia).
  - split; [done|]. apply Forall_insert; [apply Forall_replicate|];
      unfold cell_ok, bucket_ok, word; simpl; lia.
  - repeat constructor; simpl; unfold word; lia.
  - vm_compute. discriminate.
Defined.

(** Memory accounting.  For an active cell and a request whose sum with the
    committed bytes fits 64 bits, commit succeeds exactly when the sum is within the
    cap and then adds the request; a rejected commit changes no committed bytes and
    counts one memory violation; releasing what was committed restores the count. *)
Theorem rate_limit_commit_exact (s : rl_state) (c bytes : Z) :
  state_ok s -> 0 <= c < XAIOS_RATE_LIMIT_MAX_CELLS -> active ((g_rate_limits s).[c]) <> 0 ->
  word bytes -> word (memory_used_bytes ((g_rate_limits s).[c]) + bytes) ->
  let rl := (g_rate_limits s).[c] in
  let '(s1, st) := rate_limit_memory_commit s c bytes in
  let rl1 := (g_rate_limits s1).[c] in
  (st = XAIOS_OK <-> memory_used_bytes rl + bytes <= memory_cap_bytes rl) /\
  (st = XAIOS_OK -> memory_used_bytes rl1 = memory_used_bytes rl + bytes /\
     memory_used_bytes ((g_rate_limits (rate_limit_memory_release s1 c bytes)).[c]) =
       memory_used_bytes rl) /\
  (st <> XAIOS_OK -> st = XAIOS_ERR_NO_MEMORY /\ memory_used_bytes rl1 = memory_used_bytes rl /\
     memory_violations rl1 = u64 (memory_violations rl + 1)).
Proof.
  intros Hs Hc Ha Hb Hw. cbv zeta.
  unfold rate_limit_memory_commit, rate_limit_check_memory, rejected.
  assert (Hrej : (XAIOS_RATE_LIMIT_MAX_CELLS <=? c) || (active ((g_rate_limits s).[c]) =? 0) = false)
    by (apply orb_false_iff; lia).
  rewrite Hrej, u64_small by done. pose proof (cell_ok_get s c Hs Hc) as Hcell.
  unfold cell_ok, word in *. case_if; simpl.
  - rewrite !upd_get_eq by (rewrite (proj1 Hs); lia). simpl.
    split_and!; try done; split; try done; lia.
  - rewrite !upd_get_eq by (rewrite (proj1 Hs); lia). simpl.
    rewrite (u64_small (_ + bytes)) by lia.
    split_and!; [split; [lia|done]| |done]. intros _. split; [done|].
    unfold rate_limit_memory_release, rejected. simpl.
    rewrite !upd_get_eq by (rewrite (proj1 Hs); lia). simpl.
    rewrite Hrej, (u64_small (_ + bytes)) by lia.
    replace (_ + bytes <? bytes) with false by lia. simpl.
    rewrite !upd_get_eq by (rewrite ?zlen_upd, (proj1 Hs); lia). simpl.
    rewrite (u64_small (_ + bytes)) by lia. rewrite u64_small; lia.
Qed.

Definition sample_state : rl_state :=
  mk_state [mk_rl 0 1 zero_bucket zero_bucket zero_bucket 4096 1024 0 0 0 0;
            inhabitant; inhabitant; inhabitant; inhabitant; inhabitant; inhabitant; inhabitant] 0.

Lemma rate_limit_commit_exact_witness :
  let '(s1, st) := rate_limit_memory_commit sample_state 0 3072 in
  st = XAIOS_OK <-> 1024 + 3072 <= 4096.
Proof.
  assert (H1 : state_ok sample_state).
  { split; [done|]. unfold cell_ok, bucket_ok, word. repeat constructor; simpl; lia. }
  pose proof (rate_limit_commit_exact sample_state 0 3072 H1) as H.
  destruct (rate_limit_memory_commit sample_state 0 3072) as [s1 st].
  apply H; unfold XAIOS_RATE_LIMIT_MAX_CELLS, word; simpl; lia.
Defined.

(** The check adds in 64 bits, so a request near 2^64 wraps below the cap and is
    accepted, and committing it lowers the committed count. *)
Lemma rate_limit_memory_wraps :
  let s := (rate_limit_create idle_state 0 100 1 4096 1 4096 0 0 0).1 in
  let s1 := (rate_limit_memory_commit s 0 4096).1 in
  rate_limit_check_memory s1 0 18446744073709551615 = (s1, XAIOS_OK) /\
  memory_used_bytes ((g_rate_limits (rate_limit_memory_commit s1 0 18446744073709551615).1).[0]) = 4095.
Proof. vm_compute. done. Qed.

(** The refill product wraps: an empty bucket refilled at the default network rate
    of 1048576 bytes per second is still empty after 2^44 ns (about 4.9 hours). *)
Lemma bucket_refill_wraps :
  bucket_consume (mk_bucket 1048576 0 1048576 0) 1 (2 ^ 44) =
  (mk_bucket 1048576 0 1048576 0, XAIOS_ERR_BUSY).
Proof. vm_compute. done. Qed.

End RateLimit.
