(* ===== verification/Smp.v ===== *)
(** * Per-CPU registry (kernel/arch/aarch64/smp.c, include/xaios/smp.h)

    The array [g_cpu_states] with the role and lease fields of every CPU, the
    operations that lease a CPU to an owner and give it back, the masks and
    totals derived from the array, the start-up of the boot CPU and of the
    secondaries, and the two user task routines.  The registers read at start-up
    ([mpidr], the GIC type register) are arguments.

    [SmpLeasing] is the interface the lease table of CoreLease.v relies on;
    [smp_leasing_laws] shows that this component provides it. *)

From S2P Require Import Prelude.

Definition XAIOS_MAX_CPUS : Z := 256.

(** ** The interface offered to the lease table *)

Class SmpLeasing (S : Type) := {
  cpu_leasable : S -> Z -> bool;
  leased_to : S -> Z -> option Z;
  smp_mark : S -> Z -> Z -> S * xaios_status;
  smp_release : S -> Z -> Z -> S * xaios_status;
  smp_wf : S -> Prop
}.

(** Marking a leasable CPU for a valid owner succeeds and moves exactly that CPU
    from leasable to leased; releasing it for the same owner is the inverse;
    the reserved owner id is refused without any effect. *)
Class SmpLeasingLaws (S : Type) `{!SmpLeasing S} : Prop := {
  mark_succeeds s cpu owner :
    smp_wf s -> 1 <= cpu < 32 -> 0 <= owner < UINT32_MAX -> cpu_leasable s cpu = true ->
    exists s', smp_mark s cpu owner = (s', XAIOS_OK) /\ smp_wf s' /\
      leased_to s' cpu = Some owner /\ cpu_leasable s' cpu = false /\
      forall c, 0 <= c -> c <> cpu -> leased_to s' c = leased_to s c /\ cpu_leasable s' c = cpu_leasable s c;
  mark_reserved s cpu : 1 <= cpu < 32 -> smp_mark s cpu UINT32_MAX = (s, XAIOS_ERR_INVALID);
  release_succeeds s cpu owner :
    smp_wf s -> 1 <= cpu < 32 -> leased_to s cpu = Some owner ->
    exists s', smp_release s cpu owner = (s', XAIOS_OK) /\ smp_wf s' /\
      leased_to s' cpu = None /\ cpu_leasable s' cpu = true /\
      forall c, 0 <= c -> c <> cpu -> leased_to s' c = leased_to s c /\ cpu_leasable s' c = cpu_leasable s c;
  leasable_not_leased s cpu : smp_wf s -> cpu_leasable s cpu = true -> leased_to s cpu = None
}.

Module Smp.

Inductive xaios_cpu_role :=
| XAIOS_CPU_ROLE_OFFLINE
| XAIOS_CPU_ROLE_HOUSEKEEPING
| XAIOS_CPU_ROLE_SCHEDULING
| XAIOS_CPU_ROLE_AI_HOT.

#[global] Instance cpu_role_eq_dec : EqDecision xaios_cpu_role.
Proof. solve_decision. Defined.

Definition is_scheduling (r : xaios_cpu_role) : bool := bool_decide (r = XAIOS_CPU_ROLE_SCHEDULING).
Definition is_hot (r : xaios_cpu_role) : bool := bool_decide (r = XAIOS_CPU_ROLE_AI_HOT).

Record xaios_cpu_state := mk_cpu {
  cpu_id : Z;
  online : Z;
  mpidr : Z;
  role : xaios_cpu_role;
  lease_owner_id : Z;
  irq_routed_away : Z;
  tick_suppressed : Z;
  migration_count : Z;
  involuntary_context_switch_count : Z;
  scheduling_enabled : Z;
  steal_count : Z
}.

#[global] Instance cpu_state_inhabited : Inhabited xaios_cpu_state :=
  populate (mk_cpu 0 0 0 XAIOS_CPU_ROLE_OFFLINE 0 0 0 0 0 0 0).

Record smp_state := mk_smp {
  g_cpu_states : list xaios_cpu_state;
  g_online_count : Z
}.

Definition cpu (s : smp_state) (i : Z) : xaios_cpu_state := (g_cpu_states s).[i].

Definition upd_cpu (s : smp_state) (i : Z) (f : xaios_cpu_state -> xaios_cpu_state) : smp_state :=
  mk_smp (upd (g_cpu_states s) i f) (g_online_count s).

Definition bump_online (s : smp_state) : smp_state :=
  mk_smp (g_cpu_states s) (u32 (g_online_count s + 1)).

Definition smp_online_count (s : smp_state) : Z := g_online_count s.

(** The count encoded in the GIC distributor's type register. *)
Definition detect_cpu_count (typer : Z) : Z :=
  let cpu_hint := Z.land (Z.shiftr typer 5) 7 + 1 in
  if XAIOS_MAX_CPUS <? cpu_hint then XAIOS_MAX_CPUS else cpu_hint.

(** The registry part of [smp_init_qemu_virt]: every detected CPU reset, then the
    boot CPU brought online. *)
Definition smp_init_states (s : smp_state) (typer boot_mpidr : Z) : smp_state :=
  let hw := detect_cpu_count typer in
  let init_limit := if hw <? XAIOS_MAX_CPUS then hw else XAIOS_MAX_CPUS in
  let s1 := for_range (Z.to_nat init_limit) 0
              (fun i s => upd_cpu s i (fun _ =>
                 mk_cpu i 0 i XAIOS_CPU_ROLE_OFFLINE 0 0 0 0 0 0 0)) s in
  let s2 := mk_smp (g_cpu_states s1) 0 in
  bump_online (upd_cpu s2 0 (fun c =>
    mk_cpu (cpu_id c) 1 boot_mpidr XAIOS_CPU_ROLE_HOUSEKEEPING (lease_owner_id c) 0 0
      (migration_count c) (involuntary_context_switch_count c) (scheduling_enabled c)
      (steal_count c))).

(** The registry part of [smp_secondary_main]: what the CPU has recorded when it
    enters its idle loop. *)
Definition smp_secondary_main (s : smp_state) (id this_mpidr : Z) : smp_state :=
  if id <? XAIOS_MAX_CPUS then
    bump_online (upd_cpu s id (fun c =>
      mk_cpu (u32 id) 1 this_mpidr XAIOS_CPU_ROLE_SCHEDULING 0 0 0 (migration_count c)
        (involuntary_context_switch_count c) 1 0))
  else s.

Definition smp_cpu_state (s : smp_state) (id : Z) : option xaios_cpu_state :=
  if XAIOS_MAX_CPUS <=? id then None else Some (cpu s id).

Definition smp_mark_core_leased (s : smp_state) (id owner : Z) : smp_state * xaios_status :=
  if (id =? 0) || (XAIOS_MAX_CPUS <=? id) || (owner =? UINT32_MAX) ||
     (online (cpu s id) =? 0) || negb (is_scheduling (role (cpu s id)))
  then (s, XAIOS_ERR_INVALID) else
  if negb (lease_owner_id (cpu s id) =? 0) &&
     negb (lease_owner_id (cpu s id) =? u32 (owner + 1))
  then (upd_cpu s id (fun c =>
          mk_cpu (cpu_id c) (online c) (mpidr c) (role c) (lease_owner_id c)
            (irq_routed_away c) (tick_suppressed c) (u64 (migration_count c + 1))
            (involuntary_context_switch_count c) (scheduling_enabled c) (steal_count c)),
        XAIOS_ERR_BUSY)
  else (upd_cpu s id (fun c =>
          mk_cpu (cpu_id c) (online c) (mpidr c) XAIOS_CPU_ROLE_AI_HOT (u32 (owner + 1)) 1 1
            (migration_count c) (involuntary_context_switch_count c) 0 (steal_count c)),
        XAIOS_OK).

Definition smp_release_core_lease (s : smp_state) (id owner : Z) : smp_state * xaios_status :=
  if (id =? 0) || (XAIOS_MAX_CPUS <=? id) || (online (cpu s id) =? 0) ||
     negb (is_hot (role (cpu s id))) || negb (lease_owner_id (cpu s id) =? u32 (owner + 1))
  then (s, XAIOS_ERR_INVALID)
  else (upd_cpu s id (fun c =>
          mk_cpu (cpu_id c) (online c) (mpidr c) XAIOS_CPU_ROLE_SCHEDULING 0 0 0
            (migration_count c) (involuntary_context_switch_count c) 1 (steal_count c)),
        XAIOS_OK).

(** Bits of the CPUs below 32 that satisfy a test. *)
Definition cpu_mask (s : smp_state) (test : xaios_cpu_state -> bool) : Z :=
  let limit := if XAIOS_MAX_CPUS <? 32 then XAIOS_MAX_CPUS else 32 in
  for_range (Z.to_nat limit) 0
    (fun i mask => if test (cpu s i) then Z.lor mask (u32 (Z.shiftl 1 i)) else mask) 0.

Definition smp_hot_core_mask (s : smp_state) : Z := cpu_mask s (fun c => is_hot (role c)).
Definition smp_irq_isolated_mask (s : smp_state) : Z :=
  cpu_mask s (fun c => negb (irq_routed_away c =? 0)).

Definition smp_total (s : smp_state) (f : xaios_cpu_state -> Z) : Z :=
  let limit := if 32 <? g_online_count s then 32 else g_online_count s in
  for_range (Z.to_nat limit) 0 (fun i total => u64 (total + f (cpu s i))) 0.
Definition smp_total_migration_count (s : smp_state) : Z := smp_total s migration_count.
Definition smp_total_involuntary_context_switch_count (s : smp_state) : Z :=
  smp_total s involuntary_context_switch_count.

(** ** User task routines *)

Definition task_set_local (cpu assigned iterations : Z) : Z :=
  for_range (Z.to_nat iterations) 0
    (fun i l =>
       let l1 := Z.lxor l (u64 (u64 (i + 1) * u64 (assigned + 3))) in
       Z.lor (u64 (Z.shiftl l1 7)) (Z.shiftr l1 57))
    (u64 ((cpu + 1) * 0x9e3779b185ebca87)).

(** The loop over CPUs; [assigned] and [total] are its state. *)
Definition task_set_step (s : smp_state) (workers iterations i : Z) (st : Z * Z) : Z * Z :=
  let '(assigned, total) := st in
  if negb (assigned <? workers) then st else
  if online (cpu s i) =? 0 then st else
  (assigned + 1,
   Z.lxor total (u64 (task_set_local i assigned iterations +
                      u64 (Z.shiftl iterations (Z.land assigned 7))))).

(** Result: status and, when the outputs are written, (ran_workers, checksum). *)
Definition smp_run_user_task_set (s : smp_state) (requested iterations : Z)
    : xaios_status * option (Z * Z) :=
  if (requested =? 0) || (iterations =? 0) then (XAIOS_ERR_INVALID, None) else
  if g_online_count s =? 0 then (XAIOS_ERR_INVALID, None) else
  let workers := if g_online_count s <? requested then g_online_count s else requested in
  let iters := if 100000 <? iterations then 100000 else iterations in
  let '(assigned, total) :=
    for_range (Z.to_nat (g_online_count s)) 0 (task_set_step s workers iters) (0, 0) in
  (if assigned =? 0 then XAIOS_ERR_INVALID else XAIOS_OK, Some (assigned, total)).

Definition thread_local (online_count tid iterations : Z) : Z :=
  for_range (Z.to_nat iterations) 0
    (fun i l =>
       let l1 := Z.lxor l (u64 (u64 (i + 17) + u64 (Z.shiftl tid 8) + tid mod online_count)) in
       let l2 := u64 (l1 * 0x9e3779b185ebca87) in
       Z.lor (Z.shiftr l2 11) (u64 (Z.shiftl l2 53)))
    (u64 ((tid + 1) * 0x100000001b3)).

Definition smp_run_user_thread_group (s : smp_state) (requested iterations : Z)
    : xaios_status * option (Z * Z) :=
  if (requested =? 0) || (iterations =? 0) then (XAIOS_ERR_INVALID, None) else
  let threads := if 32 <? requested then 32 else requested in
  let iters := if 200000 <? iterations then 200000 else iterations in
  let total :=
    for_range (Z.to_nat threads) 0
      (fun tid t => Z.lxor t (u64 (thread_local (g_online_count s) tid iters +
                                   u64 (Z.shiftl tid 32)))) 0 in
  (XAIOS_OK, Some (threads, total)).

(** ** Invariant and interface *)

(** The lease fields agree with the role. *)
Definition cpu_wf (c : xaios_cpu_state) : Prop :=
  match role c with
  | XAIOS_CPU_ROLE_AI_HOT =>
      online c <> 0 /\ 1 <= lease_owner_id c <= UINT32_MAX /\
      irq_routed_away c = 1 /\ tick_suppressed c = 1 /\ scheduling_enabled c = 0
  | _ => lease_owner_id c = 0 /\ irq_routed_away c = 0 /\ tick_suppressed c = 0
  end.

Definition wf (s : smp_state) : Prop :=
  zlen (g_cpu_states s) = XAIOS_MAX_CPUS /\ Forall cpu_wf (g_cpu_states s).

#[global] Instance smp_leasing : SmpLeasing smp_state := {|
  cpu_leasable s i :=
    match smp_cpu_state s i with
    | Some c => negb (online c =? 0) && is_scheduling (role c)
    | None => false
    end;
  leased_to s i := if is_hot (role (cpu s i)) then Some (lease_owner_id (cpu s i) - 1) else None;
  smp_mark := smp_mark_core_leased;
  smp_release := smp_release_core_lease;
  smp_wf := wf
|}.

Lemma cpu_upd s i j f :
  wf s -> 0 <= i < XAIOS_MAX_CPUS -> 0 <= j ->
  cpu (upd_cpu s i f) j = if j =? i then f (cpu s i) else cpu s j.
Proof.
  intros [Hz _] Hi Hj. unfold cpu, upd_cpu; simpl. case_if.
  - apply Z.eqb_eq in Heqb as ->. apply upd_get_eq. lia.
  - apply upd_get_ne; lia.
Qed.

Lemma wf_upd s i f :
  wf s -> 0 <= i < XAIOS_MAX_CPUS -> cpu_wf (f (cpu s i)) -> wf (upd_cpu s i f).
Proof.
  intros [Hz Hf] Hi Hc. split; [by rewrite <- Hz; apply zlen_upd|]. by apply Forall_insert.
Qed.

Lemma wf_cpu s i : wf s -> 0 <= i < XAIOS_MAX_CPUS -> cpu_wf (cpu s i).
Proof. intros [Hz Hf] Hi. rewrite Forall_lookup in Hf. eapply Hf, arr_lookup. lia. Qed.

(** How an update of one CPU shows through the interface. *)
Lemma interface_upd s i f c :
  wf s -> 0 <= i < XAIOS_MAX_CPUS -> 0 <= c -> c <> i ->
  leased_to (upd_cpu s i f) c = leased_to s c /\
  cpu_leasable (upd_cpu s i f) c = cpu_leasable s c.
Proof.
  intros Hw Hi Hc Hne. simpl. unfold smp_cpu_state. rewrite cpu_upd by done.
  by replace (c =? i) with false by lia.
Qed.

Lemma leasable_spec s i :
  0 <= i -> cpu_leasable s i = true ->
  i < XAIOS_MAX_CPUS /\ online (cpu s i) <> 0 /\ role (cpu s i) = XAIOS_CPU_ROLE_SCHEDULING.
Proof.
  simpl. unfold smp_cpu_state. intros Hi H. case_if; [done|]. breflect.
  apply bool_decide_eq_true in H0. split_and!; [lia|lia|done].
Qed.

Lemma smp_mark_ok s i owner :
  wf s -> 1 <= i < 32 -> 0 <= owner < UINT32_MAX -> cpu_leasable s i = true ->
  exists s', smp_mark_core_leased s i owner = (s', XAIOS_OK) /\ wf s' /\
    leased_to s' i = Some owner /\ cpu_leasable s' i = false /\
    forall c, 0 <= c -> c <> i -> leased_to s' c = leased_to s c /\ cpu_leasable s' c = cpu_leasable s c.
Proof.
  intros Hw Hi Ho Hl. apply leasable_spec in Hl as (Hi2 & Hon & Hr); [|lia].
  assert (Hi3 : 0 <= i < XAIOS_MAX_CPUS) by lia.
  pose proof (wf_cpu s i Hw Hi3) as Hc. unfold cpu_wf in Hc. rewrite Hr in Hc.
  assert (Hu : u32 (owner + 1) = owner + 1) by (apply u32_small; unfold UINT32_MAX in *; lia).
  unfold smp_mark_core_leased. rewrite Hr. destruct Hc as (-> & _ & _).
  case_if; [exfalso; rewrite !orb_true_iff in Heqb; simpl in Heqb; lia|].
  simpl. rewrite Hu. eexists. split; [done|]. split_and!.
  - apply wf_upd; [done|lia|]. unfold cpu_wf; simpl. lia.
  - rewrite cpu_upd, Z.eqb_refl by (done || lia). simpl. f_equal. lia.
  - unfold smp_cpu_state. rewrite cpu_upd, Z.eqb_refl by (done || lia). case_if; [done|].
    simpl. apply andb_false_r.
  - intros c Hc0 Hc1. apply interface_upd; done || lia.
Qed.

Lemma smp_release_ok s i owner :
  wf s -> 1 <= i < 32 -> leased_to s i = Some owner ->
  exists s', smp_release_core_lease s i owner = (s', XAIOS_OK) /\ wf s' /\
    leased_to s' i = None /\ cpu_leasable s' i = true /\
    forall c, 0 <= c -> c <> i -> leased_to s' c = leased_to s c /\ cpu_leasable s' c = cpu_leasable s c.
Proof.
  intros Hw Hi Hl. simpl in Hl. unfold is_hot in Hl. case_bool_decide; [|done]. simplify_eq.
  assert (Hi3 : 0 <= i < XAIOS_MAX_CPUS) by (unfold XAIOS_MAX_CPUS; lia).
  pose proof (wf_cpu s i Hw Hi3) as Hc. unfold cpu_wf in Hc. rewrite H in Hc.
  destruct Hc as (Hon & Hown & _).
  unfold smp_release_core_lease. rewrite H.
  rewrite (u32_small (_ - 1 + 1)) by (unfold UINT32_MAX in *; lia).
  case_if; [exfalso; rewrite !orb_true_iff in Heqb; simpl in Heqb; lia|].
  eexists. split; [done|]. split_and!.
  - apply wf_upd; [done|lia|]. unfold cpu_wf; simpl. lia.
  - simpl. by rewrite cpu_upd, Z.eqb_refl by (done || lia).
  - simpl. unfold smp_cpu_state. rewrite cpu_upd, Z.eqb_refl by (done || lia).
    case_if; [lia|]. simpl. rewrite andb_true_r. apply negb_true_iff. lia.
  - intros c Hc0 Hc1. apply interface_upd; done || lia.
Qed.

(** Bit [c] of a derived mask tells whether CPU [c] passes the test. *)
Lemma testbit_cpu_mask s test c :
  0 <= c < 32 -> Z.testbit (cpu_mask s test) c = test (cpu s c).
Proof.
  intros Hc. unfold cpu_mask.
  pose (P := fun k m => forall n, 0 <= n < 32 -> Z.testbit m n = (n <? k) && test (cpu s n)).
  assert (H : P 32 (for_range (Z.to_nat 32) 0
    (fun i mask => if test (cpu s i) then Z.lor mask (u32 (Z.shiftl 1 i)) else mask) 0)).
  { apply for_upto_ind; [lia| |].
    - intros n Hn. rewrite Z.bits_0. by replace (n <? 0) with false by lia.
    - intros i m Hi Hm n Hn. specialize (Hm n Hn).
      assert (Hu : u32 (Z.shiftl 1 i) = Z.shiftl 1 i).
      { apply u32_small. rewrite Z.shiftl_1_l. split; [apply Z.pow_nonneg; lia|].
        change 4294967296 with (2 ^ 32). apply Z.pow_lt_mono_r; lia. }
      destruct (Z.eq_dec n i) as [->|Hne].
      + replace (i <? i + 1) with true by lia. simpl. replace (i <? i) with false in Hm by lia.
        destruct (test (cpu s i)); [|done].
        rewrite Z.lor_spec, Hu, Z.shiftl_spec, testbit_one, Z.sub_diag by lia. apply orb_true_r.
      + replace (n <? i + 1) with (n <? i) by lia. rewrite <- Hm.
        destruct (test (cpu s i)); [|done].
        rewrite Z.lor_spec, Hu, Z.shiftl_spec, testbit_one by lia.
        replace (n - i =? 0) with false by lia. apply orb_false_r. }
  etransitivity; [exact (H c Hc)|]. by replace (c <? 32) with true by lia.
Qed.

#[global] Instance smp_leasing_laws : SmpLeasingLaws smp_state.
Proof.
  constructor.
  - apply smp_mark_ok.
  - intros s i Hi. simpl. unfold smp_mark_core_leased. case_if; [done|].
    rewrite !orb_false_iff in Heqb. lia.
  - apply smp_release_ok.
  - intros s i Hw Hl. simpl in *. unfold smp_cpu_state in Hl.
    destruct (_ <=? _); [done|]. breflect.
    apply bool_decide_eq_true in H0. by rewrite H0.
Qed.

End Smp.
