(* ===== verification/Topology.v ===== *)
(** * CPU topology (kernel/arch/aarch64/topology.c, include/xaios/topology.h)

    The scheduling domains built at start-up from the CPU registry (Smp.v) and the queries
    the scheduler makes.  Zeroing the arrays is building them anew; log output is left out.
    An array store with the index UINT32_MAX, which [next_domain_id] returns when the
    domains are used up, is outside the array and has no effect in the model;
    [topology_init_ok] shows that it does not happen. *)

From S2P Require Import Prelude Smp.

Module Topology.

Definition TOPOLOGY_MAX_DOMAINS : Z := 8192.
Definition XAIOS_SCHED_DOMAIN_MAX_MEMBERS : Z := 16.

Record xaios_sched_domain := mk_domain {
  domain_id : Z;
  level : Z;
  parent_domain : Z;
  member_count : Z;
  members : list Z;
  load_estimate : Z
}.

Record xaios_cpu_topology := mk_cpu_topology {
  cpu_id : Z;
  numa_node : Z;
  socket_id : Z;
  core_id : Z;
  thread_id : Z;
  sched_domain_id : Z
}.

Definition zero_domain : xaios_sched_domain :=
  mk_domain 0 0 0 0 (replicate (Z.to_nat XAIOS_SCHED_DOMAIN_MAX_MEMBERS) 0) 0.
Definition zero_cpu : xaios_cpu_topology := mk_cpu_topology 0 0 0 0 0 0.

#[global] Instance domain_inhabited : Inhabited xaios_sched_domain := populate zero_domain.
#[global] Instance cpu_topology_inhabited : Inhabited xaios_cpu_topology := populate zero_cpu.

Record topology := mk_topology {
  g_cpu_topology : list xaios_cpu_topology;
  g_sched_domains : list xaios_sched_domain;
  g_domain_count : Z;
  g_topology_initialized : bool
}.

Definition upd_domain (t : topology) (d : Z) (f : xaios_sched_domain -> xaios_sched_domain) : topology :=
  mk_topology (g_cpu_topology t) (upd (g_sched_domains t) d f) (g_domain_count t) (g_topology_initialized t).

Definition next_domain_id (t : topology) : topology * Z :=
  if TOPOLOGY_MAX_DOMAINS <=? g_domain_count t then (t, UINT32_MAX) else
  (mk_topology (g_cpu_topology t) (g_sched_domains t) (g_domain_count t + 1) (g_topology_initialized t),
   g_domain_count t).

(** A new domain of a level below a parent. *)
Definition new_domain (t : topology) (lvl parent : Z) : topology * Z :=
  let '(t1, d) := next_domain_id t in
  (upd_domain t1 d (fun x => mk_domain d lvl parent 0 (members x) 0), d).

Definition add_member (t : topology) (d m : Z) : topology :=
  if member_count ((g_sched_domains t).[d]) <? XAIOS_SCHED_DOMAIN_MAX_MEMBERS then
    upd_domain t d (fun x =>
      mk_domain (domain_id x) (level x) (parent_domain x) (member_count x + 1)
        ((members x).[member_count x <- m]) (load_estimate x))
  else t.

(** The body of the loop over the CPUs; the second component is [core_domain]. *)
Definition init_cpu (s : Smp.smp_state) (socket_domain : Z) (cpu : Z) (st : topology * Z) : topology * Z :=
  let '(t, core_domain) := st in
  match Smp.smp_cpu_state s cpu with
  | None => st
  | Some c =>
      if Smp.online c =? 0 then st else
      let '(t1, core1) :=
        (if cpu mod 16 =? 0 then
           let '(t1, d) := new_domain t 0 socket_domain in (add_member t1 socket_domain d, d)
         else (t, core_domain)) in
      let t2 := mk_topology ((g_cpu_topology t1).[cpu <- mk_cpu_topology cpu 0 0 cpu 0 core1])
                  (g_sched_domains t1) (g_domain_count t1) (g_topology_initialized t1) in
      (add_member t2 core1 cpu, core1)
  end.

Definition topology_init (s : Smp.smp_state) (t : topology) : topology :=
  if Smp.smp_online_count s =? 0 then t else
  let t0 := mk_topology (replicate (Z.to_nat XAIOS_MAX_CPUS) zero_cpu)
              (replicate (Z.to_nat TOPOLOGY_MAX_DOMAINS) zero_domain) 0 (g_topology_initialized t) in
  let '(t1, sys_domain) := new_domain t0 3 UINT32_MAX in
  let '(t2, numa_domain) := new_domain t1 2 sys_domain in
  let t3 := add_member t2 sys_domain numa_domain in
  let '(t4, socket_domain) := new_domain t3 1 numa_domain in
  let t5 := add_member t4 numa_domain socket_domain in
  let '(t6, _) := for_range (Z.to_nat (Smp.smp_online_count s)) 0 (init_cpu s socket_domain) (t5, UINT32_MAX) in
  mk_topology (g_cpu_topology t6) (g_sched_domains t6) (g_domain_count t6) true.

Definition topology_get_core_domain (t : topology) (id : Z) : Z :=
  if (XAIOS_MAX_CPUS <=? id) || negb (g_topology_initialized t) then UINT32_MAX
  else sched_domain_id ((g_cpu_topology t).[id]).

Definition topology_get_socket_domain (t : topology) (id : Z) : Z :=
  if (XAIOS_MAX_CPUS <=? id) || negb (g_topology_initialized t) then UINT32_MAX else
  let core_domain := sched_domain_id ((g_cpu_topology t).[id]) in
  if TOPOLOGY_MAX_DOMAINS <=? core_domain then UINT32_MAX else
  let socket_domain := parent_domain ((g_sched_domains t).[core_domain]) in
  if TOPOLOGY_MAX_DOMAINS <=? socket_domain then UINT32_MAX
  else parent_domain ((g_sched_domains t).[socket_domain]).

(** The walk up the hierarchy, [n] levels left. *)
Fixpoint find_numa (n : nat) (t : topology) (dom_id : Z) : Z :=
  match n with
  | O => UINT32_MAX
  | S n' =>
      if dom_id <? TOPOLOGY_MAX_DOMAINS then
        if level ((g_sched_domains t).[dom_id]) =? 2 then dom_id else
        let up := parent_domain ((g_sched_domains t).[dom_id]) in
        if up =? UINT32_MAX then UINT32_MAX else find_numa n' t up
      else UINT32_MAX
  end.

Definition topology_get_numa_domain (t : topology) (id : Z) : Z :=
  if (XAIOS_MAX_CPUS <=? id) || negb (g_topology_initialized t) then UINT32_MAX
  else find_numa 4 t (sched_domain_id ((g_cpu_topology t).[id])).

Definition topology_get_domain (t : topology) (d : Z) : option xaios_sched_domain :=
  if (TOPOLOGY_MAX_DOMAINS <=? d) || negb (g_topology_initialized t) then None
  else Some ((g_sched_domains t).[d]).

Definition topology_get_cpu (t : topology) (id : Z) : option xaios_cpu_topology :=
  if (XAIOS_MAX_CPUS <=? id) || negb (g_topology_initialized t) then None
  else Some ((g_cpu_topology t).[id]).

Definition topology_get_numa_node_for_cpu (t : topology) (id : Z) : Z :=
  if (XAIOS_MAX_CPUS <=? id) || negb (g_topology_initialized t) then UINT32_MAX
  else numa_node ((g_cpu_topology t).[id]).

(** The assertions of the boot test. *)
Definition topology_self_test (s : Smp.smp_state) (t : topology) : bool :=
  g_topology_initialized t && (1 <=? Smp.smp_online_count s) &&
  match topology_get_cpu t 0 with
  | None => false
  | Some c => (cpu_id c =? 0) && negb (sched_domain_id c =? UINT32_MAX)
  end &&
  negb (topology_get_core_domain t 0 =? UINT32_MAX) &&
  match topology_get_domain t (topology_get_core_domain t 0) with
  | None => false
  | Some d => (level d =? 0) && (1 <=? member_count d)
  end &&
  negb (topology_get_numa_domain t 0 =? UINT32_MAX) &&
  match topology_get_domain t (topology_get_numa_domain t 0) with
  | None => false
  | Some d => level d =? 2
  end.

(** ** The hierarchy built at start-up *)

Definition dom (t : topology) (d : Z) : xaios_sched_domain := (g_sched_domains t).[d].

(** [t'] differs from [t] in the domain [d] only. *)
Definition only_domain (t t' : topology) (d : Z) : Prop :=
  zlen (g_sched_domains t') = zlen (g_sched_domains t) /\ g_cpu_topology t' = g_cpu_topology t /\
  g_topology_initialized t' = g_topology_initialized t /\ forall e, 0 <= e -> e <> d -> dom t' e = dom t e.

Lemma new_domain_spec t lvl parent :
  zlen (g_sched_domains t) = TOPOLOGY_MAX_DOMAINS -> 0 <= g_domain_count t < TOPOLOGY_MAX_DOMAINS ->
  exists t', new_domain t lvl parent = (t', g_domain_count t) /\ g_domain_count t' = g_domain_count t + 1 /\
    only_domain t t' (g_domain_count t) /\
    dom t' (g_domain_count t) =
      mk_domain (g_domain_count t) lvl parent 0 (members (dom t (g_domain_count t))) 0.
Proof.
  intros Hl Hc. unfold new_domain, next_domain_id. rewrite (proj2 (Z.leb_gt _ _)) by lia. eexists.
  split; [reflexivity|]. split; [done|].
  unfold only_domain, dom, upd_domain. cbn [g_sched_domains g_cpu_topology g_topology_initialized].
  split; [|by rewrite upd_get_eq by lia]. rewrite zlen_upd. split; [done|]. split; [done|]. split; [done|].
  intros e He Hne. rewrite upd_get_ne by lia. done.
Qed.

Lemma add_member_spec t d m :
  0 <= d < zlen (g_sched_domains t) ->
  only_domain t (add_member t d m) d /\ g_domain_count (add_member t d m) = g_domain_count t /\
  dom (add_member t d m) d =
    (let x := dom t d in
     if member_count x <? XAIOS_SCHED_DOMAIN_MAX_MEMBERS
     then mk_domain (domain_id x) (level x) (parent_domain x) (member_count x + 1)
            ((members x).[member_count x <- m]) (load_estimate x)
     else x).
Proof.
  intros Hd. unfold add_member, only_domain. fold (dom t d). destruct (member_count (dom t d) <? _) eqn:E.
  - unfold dom, upd_domain. cbn [g_sched_domains g_cpu_topology g_topology_initialized g_domain_count].
    rewrite zlen_upd, upd_get_eq by lia. split; [|by rewrite E || done]. split; [done|]. split; [done|]. split; [done|].
    intros e He Hne. by rewrite upd_get_ne by lia.
  - done.
Qed.

(** The first [k] CPUs have been placed, in the [n] core domains opened so far. *)
Record built (k n : Z) (t : topology) : Prop := {
  bt_len : zlen (g_sched_domains t) = TOPOLOGY_MAX_DOMAINS /\ zlen (g_cpu_topology t) = XAIOS_MAX_CPUS;
  bt_count : g_domain_count t = 3 + n;
  bt_numa : level (dom t 1) = 2;
  bt_socket : level (dom t 2) = 1 /\ parent_domain (dom t 2) = 1;
  bt_core : forall b, 0 <= b < n -> exists ms,
    dom t (3 + b) = mk_domain (3 + b) 0 2 (Z.min 16 (k - 16 * b)) ms 0 /\ zlen ms = 16 /\
    forall j, 0 <= j < Z.min 16 (k - 16 * b) -> ms.[j] = 16 * b + j;
  bt_rest : forall d, 3 + n <= d < TOPOLOGY_MAX_DOMAINS -> zlen (members (dom t d)) = 16;
  bt_cpu : forall c, 0 <= c < k -> (g_cpu_topology t).[c] = mk_cpu_topology c 0 0 c 0 (3 + c / 16)
}.

(** Opening a core domain under the socket. *)
Lemma built_open k n t :
  built k n t -> 0 <= n -> k = 16 * n -> 3 + n < TOPOLOGY_MAX_DOMAINS ->
  exists t', new_domain t 0 2 = (t', 3 + n) /\ built k (n + 1) (add_member t' 2 (3 + n)).
Proof.
  intros [[L1 L2] Hc Hn [S1 S2] Hcore Hrest Hcpu] H0 Hk Hlt.
  destruct (new_domain_spec t 0 2 L1 ltac:(lia)) as (t' & E & C1 & (A1 & A2 & _ & A4) & D1). rewrite Hc in *.
  exists t'. split; [done|]. destruct (add_member_spec t' 2 (3 + n)) as ((B1 & B2 & _ & B4) & C2 & D2);
    [unfold TOPOLOGY_MAX_DOMAINS in *; lia|].
  constructor.
  - by rewrite B1, B2, A1, A2.
  - lia.
  - by rewrite B4, A4 by lia.
  - rewrite D2. cbv zeta. case_if; cbn [level parent_domain]; by rewrite A4 by lia.
  - intros b Hb. rewrite B4 by lia. destruct (decide (b = n)) as [->|Hne].
    + rewrite D1. eexists. split; [f_equal; lia|]. split; [apply Hrest; lia|]. intros; lia.
    + rewrite A4 by lia. apply Hcore. lia.
  - intros d Hd. rewrite B4, A4 by lia. apply Hrest. lia.
  - rewrite B2, A2. exact Hcpu.
Qed.

(** Placing the next CPU in the last core domain. *)
Lemma built_place k n t :
  built k n t -> 0 <= k < XAIOS_MAX_CPUS -> k / 16 = n - 1 -> 3 + n <= TOPOLOGY_MAX_DOMAINS ->
  built (k + 1) n
    (add_member (mk_topology ((g_cpu_topology t).[k <- mk_cpu_topology k 0 0 k 0 (3 + k / 16)])
       (g_sched_domains t) (g_domain_count t) (g_topology_initialized t)) (3 + k / 16) k).
Proof.
  intros [[L1 L2] Hc Hn [S1 S2] Hcore Hrest Hcpu] Hk Hb Hlt. set (t1 := mk_topology _ _ _ _).
  destruct (add_member_spec t1 (3 + k / 16) k) as ((B1 & B2 & _ & B4) & C2 & D2);
    [cbn [t1 g_sched_domains]; rewrite L1; dlia|].
  assert (Hsame : forall e, dom t1 e = dom t e) by done.
  assert (Hk16 : 0 <= k / 16) by dlia. constructor.
  - rewrite B1, B2. cbn [t1 g_sched_domains g_cpu_topology]. by rewrite zlen_set.
  - by rewrite C2.
  - by rewrite B4, Hsame by lia.
  - by rewrite B4, Hsame by lia.
  - intros b Hbn. destruct (Hcore b Hbn) as (ms & E & Hm & Hms). destruct (decide (b = k / 16)) as [->|Hne].
    + rewrite D2, Hsame. cbv zeta. rewrite E. cbn [member_count domain_id level parent_domain members load_estimate].
      rewrite (proj2 (Z.ltb_lt _ _)) by (unfold XAIOS_SCHED_DOMAIN_MAX_MEMBERS; dlia).
      eexists. split; [f_equal; dlia|]. split; [by rewrite zlen_set|]. intros j Hj.
      destruct (decide (j = Z.min 16 (k - 16 * (k / 16)))) as [->|].
      * rewrite arr_get_set_eq by dlia. dlia.
      * rewrite arr_get_set_ne by dlia. apply Hms. dlia.
    + rewrite B4, Hsame by lia. exists ms. split; [rewrite E; f_equal; dlia|]. split; [done|].
      intros j Hj. apply Hms. dlia.
  - intros d Hd. rewrite B4, Hsame by lia. by apply Hrest.
  - intros c Hcc. rewrite B2. cbn [t1 g_cpu_topology]. destruct (decide (c = k)) as [->|].
    + by rewrite arr_get_set_eq by lia.
    + rewrite arr_get_set_ne by lia. apply Hcpu. lia.
Qed.

Lemma init_cpu_built s k t :
  0 <= k < XAIOS_MAX_CPUS -> Smp.online (Smp.cpu s k) <> 0 -> built k ((k + 15) / 16) t ->
  exists t', init_cpu s 2 k (t, if k =? 0 then UINT32_MAX else 3 + (k - 1) / 16) = (t', 3 + k / 16) /\
    built (k + 1) ((k + 16) / 16) t'.
Proof.
  intros Hk Hon Hb. unfold init_cpu, Smp.smp_cpu_state. rewrite (proj2 (Z.leb_gt _ _)), (proj2 (Z.eqb_neq _ _) Hon) by lia.
  unfold XAIOS_MAX_CPUS in Hk. destruct (Z.eqb_spec (k mod 16) 0) as [E|E].
  - destruct (built_open k ((k + 15) / 16) t Hb) as (t1 & -> & Hb1); [dlia|dlia|unfold TOPOLOGY_MAX_DOMAINS; dlia|].
    replace (3 + (k + 15) / 16) with (3 + k / 16) in * by dlia. eexists. split; [reflexivity|].
    replace ((k + 16) / 16) with ((k + 15) / 16 + 1) by dlia.
    apply built_place; [done|done|dlia|unfold TOPOLOGY_MAX_DOMAINS; dlia].
  - rewrite (proj2 (Z.eqb_neq k 0)) by dlia. replace (3 + (k - 1) / 16) with (3 + k / 16) by dlia.
    eexists. split; [reflexivity|]. replace ((k + 16) / 16) with ((k + 15) / 16) by dlia.
    apply built_place; [done|done|dlia|unfold TOPOLOGY_MAX_DOMAINS; dlia].
Qed.

Lemma init_cpus_built s n t :
  0 <= n <= XAIOS_MAX_CPUS -> (forall c, 0 <= c < n -> Smp.online (Smp.cpu s c) <> 0) -> built 0 0 t ->
  exists t' d, for_range (Z.to_nat n) 0 (init_cpu s 2) (t, UINT32_MAX) = (t', d) /\ built n ((n + 15) / 16) t'.
Proof.
  intros Hn Hon Hb.
  assert (H : let r := for_range (Z.to_nat n) 0 (init_cpu s 2) (t, UINT32_MAX) in
    r.2 = (if n =? 0 then UINT32_MAX else 3 + (n - 1) / 16) /\ built n ((n + 15) / 16) r.1).
  { cbv zeta. apply (for_upto_ind (fun k (r : topology * Z) => r.2 = (if k =? 0 then UINT32_MAX else 3 + (k - 1) / 16) /\
      built k ((k + 15) / 16) r.1)); [lia|done|].
    intros k [t1 core] Hk [E Hb1]. cbn [fst snd] in E, Hb1. subst core.
    destruct (init_cpu_built s k t1 ltac:(lia) (Hon k Hk) Hb1) as (t2 & -> & Hb2). cbn [fst snd].
    rewrite (proj2 (Z.eqb_neq (k + 1) 0)) by lia. replace (k + 1 - 1) with k by lia. split; [done|].
    by replace (k + 1 + 15) with (k + 16) by lia. }
  destruct (for_range _ _ _ _) as [t' d]. destruct H as [_ H]. by exists t', d.
Qed.

(** The three upper levels. *)
Lemma init_levels t0 :
  zlen (g_sched_domains t0) = TOPOLOGY_MAX_DOMAINS -> zlen (g_cpu_topology t0) = XAIOS_MAX_CPUS ->
  g_domain_count t0 = 0 -> (forall d, 0 <= d < TOPOLOGY_MAX_DOMAINS -> zlen (members (dom t0 d)) = 16) ->
  exists t1 t2 t4, new_domain t0 3 UINT32_MAX = (t1, 0) /\ new_domain t1 2 0 = (t2, 1) /\
    new_domain (add_member t2 0 1) 1 1 = (t4, 2) /\ built 0 0 (add_member t4 1 2).
Proof.
  intros L1 L2 Hc Hm. unfold TOPOLOGY_MAX_DOMAINS in *.
  destruct (new_domain_spec t0 3 UINT32_MAX L1 ltac:(unfold TOPOLOGY_MAX_DOMAINS; lia)) as (t1 & E1 & C1 & (A1 & A2 & _ & A4) & D1).
  rewrite Hc in *. destruct (new_domain_spec t1 2 0) as (t2 & E2 & C2 & (B1 & B2 & _ & B4) & D2);
    [unfold TOPOLOGY_MAX_DOMAINS; lia|unfold TOPOLOGY_MAX_DOMAINS; lia|]. rewrite C1 in *. change (0 + 1) with 1 in *.
  destruct (add_member_spec t2 0 1 ltac:(lia)) as ((F1 & F2 & _ & F4) & C3 & _). set (t3 := add_member t2 0 1) in *.
  destruct (new_domain_spec t3 1 1) as (t4 & E4 & C4 & (G1 & G2 & _ & G4) & D4);
    [unfold TOPOLOGY_MAX_DOMAINS; lia|unfold TOPOLOGY_MAX_DOMAINS; lia|]. rewrite C3, C2 in *. change (1 + 1) with 2 in *.
  destruct (add_member_spec t4 1 2 ltac:(lia)) as ((H1 & H2 & _ & H4) & C5 & D5).
  exists t1, t2, t4. split; [done|]. split; [done|]. split; [done|].
  assert (Hd1 : dom t4 1 = dom t2 1) by (by rewrite G4, F4 by lia).
  constructor.
  - split; [unfold TOPOLOGY_MAX_DOMAINS; lia|congruence].
  - lia.
  - rewrite D5. cbv zeta. rewrite Hd1, D2. by case_if.
  - by rewrite H4, D4 by lia.
  - intros; lia.
  - intros d Hd. rewrite H4, G4, F4, B4, A4 by lia. apply Hm. unfold TOPOLOGY_MAX_DOMAINS in *. lia.
  - intros; lia.
Qed.

Lemma topology_init_built s t n :
  Smp.smp_online_count s = n -> 1 <= n <= XAIOS_MAX_CPUS ->
  (forall c, 0 <= c < n -> Smp.online (Smp.cpu s c) <> 0) ->
  built n ((n + 15) / 16) (topology_init s t) /\ g_topology_initialized (topology_init s t) = true.
Proof.
  intros Hn Hr Hon. unfold topology_init. rewrite Hn, (proj2 (Z.eqb_neq n 0)) by lia.
  set (t0 := mk_topology _ _ _ _). destruct (init_levels t0) as (t1 & t2 & t4 & E1 & E2 & E4 & Hb).
  - unfold t0, zlen. cbn [g_sched_domains]. by rewrite length_replicate.
  - unfold t0, zlen. cbn [g_cpu_topology]. by rewrite length_replicate.
  - done.
  - intros d Hd. unfold dom, t0. cbn [g_sched_domains]. by rewrite arr_get_replicate by lia.
  - rewrite E1, E2, E4. destruct (init_cpus_built s n _ ltac:(lia) Hon Hb) as (t' & d & -> & Hb').
    split; [|done]. destruct Hb'. by constructor.
Qed.

Lemma built_core n t c :
  built n ((n + 15) / 16) t -> g_topology_initialized t = true -> 0 <= c < n -> n <= XAIOS_MAX_CPUS ->
  topology_get_cpu t c = Some (mk_cpu_topology c 0 0 c 0 (3 + c / 16)) /\
  topology_get_core_domain t c = 3 + c / 16 /\
  topology_get_numa_domain t c = 1 /\ topology_get_numa_node_for_cpu t c = 0 /\
  exists ms, topology_get_domain t (3 + c / 16) =
      Some (mk_domain (3 + c / 16) 0 2 (Z.min 16 (n - 16 * (c / 16))) ms 0) /\
    forall j, 0 <= j < Z.min 16 (n - 16 * (c / 16)) -> ms.[j] = 16 * (c / 16) + j.
Proof.
  intros [_ _ Hnu [Hls Hso] Hcore _ Hcpu] Hi Hc Hn. unfold XAIOS_MAX_CPUS in *.
  destruct (Hcore (c / 16) ltac:(dlia)) as (ms & Ed & _ & Hms).
  assert (Hd : 3 <= 3 + c / 16 < 8192) by dlia.
  unfold topology_get_cpu, topology_get_core_domain, topology_get_numa_domain, topology_get_numa_node_for_cpu,
    topology_get_domain, XAIOS_MAX_CPUS, TOPOLOGY_MAX_DOMAINS.
  rewrite Hi, (Hcpu c Hc), !(proj2 (Z.leb_gt _ _)) by lia.
  cbn [negb orb sched_domain_id numa_node find_numa]. fold (dom t (3 + c / 16)). rewrite Ed.
  cbn [level parent_domain]. fold (dom t 2). rewrite Hls, Hso. fold (dom t 1). rewrite Hnu.
  unfold TOPOLOGY_MAX_DOMAINS. rewrite (proj2 (Z.ltb_lt (3 + c / 16) 8192)) by lia.
  split; [done|]. split; [done|]. split; [done|].
  split; [done|by exists ms].
Qed.

(** ** Properties *)

(** The scheduling hierarchy.  With the CPUs [0 .. n-1] online, start-up puts CPU [c]
    in the core domain [3 + c / 16], whose members are exactly the CPUs of its group of
    sixteen in order; the core domains hang below the socket domain 2, it below the NUMA
    domain 1, which is the NUMA domain of every CPU; and the boot test passes. *)
Theorem topology_init_hierarchy (s : Smp.smp_state) (t : topology) (n : Z) :
  Smp.smp_online_count s = n -> 1 <= n <= XAIOS_MAX_CPUS ->
  (forall c, 0 <= c < n -> Smp.online (Smp.cpu s c) <> 0) ->
  let t' := topology_init s t in
  topology_self_test s t' = true /\
  forall c, 0 <= c < n ->
    topology_get_core_domain t' c = 3 + c / 16 /\ topology_get_numa_domain t' c = 1 /\
    topology_get_numa_node_for_cpu t' c = 0 /\
    exists d, topology_get_domain t' (3 + c / 16) = Some d /\ level d = 0 /\ parent_domain d = 2 /\
      member_count d = Z.min 16 (n - 16 * (c / 16)) /\
      forall j, 0 <= j < member_count d -> (members d).[j] = 16 * (c / 16) + j.
Proof.
  intros Hn Hr Hon t'. destruct (topology_init_built s t n Hn Hr Hon) as [Hb Hi].
  pose proof (fun c Hc => built_core n _ c Hb Hi Hc ltac:(lia)) as H. fold t' in H, Hb, Hi. clearbody t'. split.
  - destruct (H 0 ltac:(lia)) as (H1 & H2 & H3 & _ & ms & H4 & _). change (3 + 0 / 16) with 3 in *.
    unfold topology_self_test. rewrite Hi, Hn, H1, H2, H3, H4. cbn [level member_count cpu_id sched_domain_id].
    unfold topology_get_domain. rewrite Hi. fold (dom t' 1).
    change ((TOPOLOGY_MAX_DOMAINS <=? 1) || negb true) with false. cbv iota.
    rewrite (bt_numa _ _ _ Hb). rewrite (proj2 (Z.leb_le 1 n)), (proj2 (Z.leb_le 1 (Z.min _ _))) by dlia. done.
  - intros c Hc. destruct (H c Hc) as (_ & H2 & H3 & H4 & ms & H5 & H6).
    split; [done|]. split; [done|]. split; [done|]. by eexists.
Qed.

(** A registry of twenty CPUs. *)
Definition demo_smp : Smp.smp_state :=
  Smp.mk_smp (replicate 20 (Smp.mk_cpu 0 1 0 Smp.XAIOS_CPU_ROLE_SCHEDULING 0 0 0 0 0 1 0) ++
    replicate 236 (Smp.mk_cpu 0 0 0 Smp.XAIOS_CPU_ROLE_OFFLINE 0 0 0 0 0 0 0)) 20.

Definition no_topology : topology := mk_topology [] [] 0 false.

Lemma demo_online c : 0 <= c < 20 -> Smp.online (Smp.cpu demo_smp c) <> 0.
Proof.
  intros Hc. apply (forallb_below (fun c => negb (Smp.online (Smp.cpu demo_smp c) =? 0)) 20) in Hc; [|by vm_compute].
  by apply negb_true_iff, Z.eqb_neq in Hc.
Qed.

Lemma topology_init_hierarchy_witness :
  topology_get_core_domain (topology_init demo_smp no_topology) 17 = 4 /\
  topology_get_numa_domain (topology_init demo_smp no_topology) 17 = 1.
Proof.
  destruct (topology_init_hierarchy demo_smp no_topology 20 eq_refl ltac:(done) demo_online) as [_ H].
  destruct (H 17 ltac:(lia)) as (H1 & H2 & _). change (3 + 17 / 16) with 4 in H1. exact (conj H1 H2).
Defined.

(** [topology_get_socket_domain] returns the NUMA domain: one parent too many. *)
Lemma socket_domain_is_numa : topology_get_socket_domain (topology_init demo_smp no_topology) 17 = 1.
Proof. by vm_compute. Qed.

End Topology.
