(* ===== verification/Scheduler.v ===== *)
(** * Scheduler (kernel/sched/scheduler.c, include/xaios/scheduler.h)

    Per-CPU task tables, run queues, ticks, yields and work stealing, over the CPU registry
    of Smp.v and the domains of Topology.v, which the scheduler only reads.

    Each call is one step, made by the CPU [this_cpu] of its environment; the environment
    also gives the timer counter and, for every run queue, whether a trylock on it succeeds.
    The queue locks themselves, which serialise the calls, are left out, and with them the
    retry of the compare-and-swap in [alloc_task_slot].  A task pointer is the index of its
    slot in a table.  The address space a call switches to is part of its result.  Log
    output is left out. *)

From S2P Require Import Prelude Smp Topology.

Module Scheduler.

Definition XAIOS_SCHEDULER_MAX_TASKS : Z := 32768.
Definition XAIOS_SCHEDULER_PER_CPU_RUNQUEUE : Z := 128.
Definition XAIOS_TASK_SLOTS_PER_CPU : Z := 128.

(** [xaios_task_priority_t] as the integer it is. *)
Definition XAIOS_PRIORITY_HIGH : Z := 0.
Definition XAIOS_PRIORITY_NORMAL : Z := 1.
Definition XAIOS_PRIORITY_LOW : Z := 2.
Definition XAIOS_PRIORITY_HIGH_SLICE : Z := 4.
Definition XAIOS_PRIORITY_NORMAL_SLICE : Z := 2.
Definition XAIOS_PRIORITY_LOW_SLICE : Z := 1.

Inductive xaios_task_state :=
| XAIOS_TASK_STATE_UNUSED
| XAIOS_TASK_STATE_REGISTERED
| XAIOS_TASK_STATE_RUNNABLE
| XAIOS_TASK_STATE_RUNNING
| XAIOS_TASK_STATE_BLOCKED.

#[global] Instance task_state_eq_dec : EqDecision xaios_task_state.
Proof. solve_decision. Defined.

(** The frame is the list of its register values; the scheduler only copies it. *)
Record xaios_sched_task := mk_task {
  pid : Z;
  active : Z;
  frame : list Z;
  t_tick_count : Z;
  t_switch_count : Z;
  priority : Z;
  state : xaios_task_state;
  assigned_cpu : Z;
  remaining_ticks : Z
}.

Record xaios_runqueue := mk_rq {
  tasks : list Z;
  count : Z;
  current_pid : Z;
  rq_cpu_id : Z;
  rq_idle_ticks : Z;
  rq_busy_ticks : Z
}.

Record xaios_cpu_task_table := mk_table { slot_bitmap : list Z; slots : list xaios_sched_task }.

Record xaios_sched_stats := mk_stats {
  s_tick_count : Z;
  s_context_switch_count : Z;
  s_yield_count : Z;
  s_steal_success_count : Z;
  s_steal_fail_count : Z;
  s_load_balance_count : Z;
  s_migration_count : Z;
  s_idle_ticks : Z;
  s_busy_ticks : Z
}.

Definition zero_task : xaios_sched_task := mk_task 0 0 [] 0 0 0 XAIOS_TASK_STATE_UNUSED 0 0.
Definition zero_table : xaios_cpu_task_table :=
  mk_table [0; 0] (replicate (Z.to_nat XAIOS_TASK_SLOTS_PER_CPU) zero_task).
Definition zero_rq : xaios_runqueue :=
  mk_rq (replicate (Z.to_nat XAIOS_SCHEDULER_PER_CPU_RUNQUEUE) 0) 0 0 0 0 0.
Definition zero_stats : xaios_sched_stats := mk_stats 0 0 0 0 0 0 0 0 0.

#[global] Instance task_inhabited : Inhabited xaios_sched_task := populate zero_task.
#[global] Instance table_inhabited : Inhabited xaios_cpu_task_table := populate zero_table.
#[global] Instance rq_inhabited : Inhabited xaios_runqueue := populate zero_rq.
#[global] Instance stats_inhabited : Inhabited xaios_sched_stats := populate zero_stats.

Record sched := mk_sched {
  g_cpu_tasks : list xaios_cpu_task_table;
  g_runqueues : list xaios_runqueue;
  g_sched_stats : list xaios_sched_stats;
  g_tick_count : Z;
  g_context_switch_count : Z;
  g_yield_count : Z;
  g_steal_count : Z;
  g_initialized : bool;
  g_lock_depth_per_cpu : list Z;
  g_balance_counter : Z
}.

(** What a call reads besides the state. *)
Record env := mk_env { this_cpu : Z; timer_counter : Z; trylock : Z -> bool }.

(** ** Updates *)

Definition table (s : sched) (c : Z) : xaios_cpu_task_table := (g_cpu_tasks s).[c].
Definition rq (s : sched) (c : Z) : xaios_runqueue := (g_runqueues s).[c].
Definition task (s : sched) (c k : Z) : xaios_sched_task := (slots (table s c)).[k].

Definition set_tables (s : sched) (l : list xaios_cpu_task_table) : sched :=
  mk_sched l (g_runqueues s) (g_sched_stats s) (g_tick_count s) (g_context_switch_count s) (g_yield_count s)
    (g_steal_count s) (g_initialized s) (g_lock_depth_per_cpu s) (g_balance_counter s).
Definition upd_table (s : sched) (c : Z) (f : xaios_cpu_task_table -> xaios_cpu_task_table) : sched :=
  set_tables s (upd (g_cpu_tasks s) c f).
Definition upd_task (s : sched) (c k : Z) (f : xaios_sched_task -> xaios_sched_task) : sched :=
  upd_table s c (fun t => mk_table (slot_bitmap t) (upd (slots t) k f)).
Definition upd_rq (s : sched) (c : Z) (f : xaios_runqueue -> xaios_runqueue) : sched :=
  mk_sched (g_cpu_tasks s) (upd (g_runqueues s) c f) (g_sched_stats s) (g_tick_count s) (g_context_switch_count s)
    (g_yield_count s) (g_steal_count s) (g_initialized s) (g_lock_depth_per_cpu s) (g_balance_counter s).
Definition upd_stats (s : sched) (c : Z) (f : xaios_sched_stats -> xaios_sched_stats) : sched :=
  mk_sched (g_cpu_tasks s) (g_runqueues s) (upd (g_sched_stats s) c f) (g_tick_count s) (g_context_switch_count s)
    (g_yield_count s) (g_steal_count s) (g_initialized s) (g_lock_depth_per_cpu s) (g_balance_counter s).
Definition set_counters (s : sched) (ticks switches yields steals balance : Z) : sched :=
  mk_sched (g_cpu_tasks s) (g_runqueues s) (g_sched_stats s) ticks switches yields steals (g_initialized s)
    (g_lock_depth_per_cpu s) balance.
Definition set_depth (s : sched) (l : list Z) : sched :=
  mk_sched (g_cpu_tasks s) (g_runqueues s) (g_sched_stats s) (g_tick_count s) (g_context_switch_count s)
    (g_yield_count s) (g_steal_count s) (g_initialized s) l (g_balance_counter s).

Definition stat_tick (x : xaios_sched_stats) : xaios_sched_stats :=
  mk_stats (u64 (s_tick_count x + 1)) (s_context_switch_count x) (s_yield_count x) (s_steal_success_count x)
    (s_steal_fail_count x) (s_load_balance_count x) (s_migration_count x) (s_idle_ticks x) (s_busy_ticks x).
Definition stat_switch (x : xaios_sched_stats) : xaios_sched_stats :=
  mk_stats (s_tick_count x) (u64 (s_context_switch_count x + 1)) (s_yield_count x) (s_steal_success_count x)
    (s_steal_fail_count x) (s_load_balance_count x) (s_migration_count x) (s_idle_ticks x) (s_busy_ticks x).
Definition stat_yield (x : xaios_sched_stats) : xaios_sched_stats :=
  mk_stats (s_tick_count x) (s_context_switch_count x) (u64 (s_yield_count x + 1)) (s_steal_success_count x)
    (s_steal_fail_count x) (s_load_balance_count x) (s_migration_count x) (s_idle_ticks x) (s_busy_ticks x).
Definition stat_steal (x : xaios_sched_stats) : xaios_sched_stats :=
  mk_stats (s_tick_count x) (s_context_switch_count x) (s_yield_count x) (u64 (s_steal_success_count x + 1))
    (s_steal_fail_count x) (s_load_balance_count x) (s_migration_count x) (s_idle_ticks x) (s_busy_ticks x).
Definition stat_steal_fail (x : xaios_sched_stats) : xaios_sched_stats :=
  mk_stats (s_tick_count x) (s_context_switch_count x) (s_yield_count x) (s_steal_success_count x)
    (u64 (s_steal_fail_count x + 1)) (s_load_balance_count x) (s_migration_count x) (s_idle_ticks x) (s_busy_ticks x).
Definition stat_balance (x : xaios_sched_stats) : xaios_sched_stats :=
  mk_stats (s_tick_count x) (s_context_switch_count x) (s_yield_count x) (s_steal_success_count x)
    (s_steal_fail_count x) (u64 (s_load_balance_count x + 1)) (s_migration_count x) (s_idle_ticks x) (s_busy_ticks x).
Definition stat_idle (x : xaios_sched_stats) : xaios_sched_stats :=
  mk_stats (s_tick_count x) (s_context_switch_count x) (s_yield_count x) (s_steal_success_count x)
    (s_steal_fail_count x) (s_load_balance_count x) (s_migration_count x) (u64 (s_idle_ticks x + 1)) (s_busy_ticks x).
Definition stat_busy (x : xaios_sched_stats) : xaios_sched_stats :=
  mk_stats (s_tick_count x) (s_context_switch_count x) (s_yield_count x) (s_steal_success_count x)
    (s_steal_fail_count x) (s_load_balance_count x) (s_migration_count x) (s_idle_ticks x) (u64 (s_busy_ticks x + 1)).

(** ** Task tables *)

Definition slot_bit (t : xaios_cpu_task_table) (i : Z) : bool :=
  negb (Z.land ((slot_bitmap t).[Z.shiftr i 6]) (Z.shiftl 1 (Z.land i 63)) =? 0).

Definition find_task_local (s : sched) (cpu_id p : Z) : option Z :=
  if XAIOS_MAX_CPUS <=? cpu_id then None else
  let t := table s cpu_id in
  first_below XAIOS_TASK_SLOTS_PER_CPU
    (fun i => slot_bit t i && negb (active ((slots t).[i]) =? 0) && (pid ((slots t).[i]) =? p)).

(** The scan of one word of the bitmap. *)
Definition free_bit (t : xaios_cpu_task_table) (word : Z) : option Z :=
  let bitmap := (slot_bitmap t).[word] in
  if bitmap =? UINT64_MAX then None else
  first_below 64 (fun bit => (word * 64 + bit <? XAIOS_TASK_SLOTS_PER_CPU) && (Z.land bitmap (Z.shiftl 1 bit) =? 0)).

Definition claim_slot (t : xaios_cpu_task_table) (word bit : Z) : xaios_cpu_task_table :=
  mk_table (upd (slot_bitmap t) word (fun b => Z.lor b (Z.shiftl 1 bit))) ((slots t).[word * 64 + bit <- zero_task]).

Definition alloc_task_slot (s : sched) (cpu_id : Z) : sched * option Z :=
  if XAIOS_MAX_CPUS <=? cpu_id then (s, None) else
  let t := table s cpu_id in
  match free_bit t 0 with
  | Some bit => (upd_table s cpu_id (fun t => claim_slot t 0 bit), Some bit)
  | None =>
      match free_bit t 1 with
      | Some bit => (upd_table s cpu_id (fun t => claim_slot t 1 bit), Some (64 + bit))
      | None => (s, None)
      end
  end.

Definition free_task_slot (s : sched) (cpu_id index : Z) : sched :=
  if (XAIOS_MAX_CPUS <=? cpu_id) || (XAIOS_TASK_SLOTS_PER_CPU <=? index) then s else
  upd_table s cpu_id (fun t =>
    mk_table (upd (slot_bitmap t) (Z.shiftr index 6) (fun b => Z.land b (not64 (Z.shiftl 1 (Z.land index 63))))) (slots t)).

Definition priority_slice (prio : Z) : Z :=
  if prio =? XAIOS_PRIORITY_HIGH then XAIOS_PRIORITY_HIGH_SLICE
  else if prio =? XAIOS_PRIORITY_NORMAL then XAIOS_PRIORITY_NORMAL_SLICE
  else if prio =? XAIOS_PRIORITY_LOW then XAIOS_PRIORITY_LOW_SLICE
  else XAIOS_PRIORITY_NORMAL_SLICE.

(** ** Run queues *)

Definition rq_index (q : xaios_runqueue) (p : Z) : option Z := first_below (count q) (fun i => (tasks q).[i] =? p).

Definition with_tasks (q : xaios_runqueue) (l : list Z) (n : Z) : xaios_runqueue :=
  mk_rq l n (current_pid q) (rq_cpu_id q) (rq_idle_ticks q) (rq_busy_ticks q).

Definition rq_add (q : xaios_runqueue) (p : Z) : xaios_runqueue :=
  if (count q <? XAIOS_SCHEDULER_PER_CPU_RUNQUEUE) && negb (bool_decide (is_Some (rq_index q p)))
  then with_tasks q ((tasks q).[count q <- p]) (count q + 1) else q.

Definition rq_remove (q : xaios_runqueue) (p : Z) : xaios_runqueue :=
  match rq_index q p with
  | None => q
  | Some idx =>
      with_tasks q
        (for_range (Z.to_nat (count q - 1 - idx)) idx (fun i l => l.[i <- l.[i + 1]]) (tasks q))
        (count q - 1)
  end.

(** The loop of [rq_pick_best] from index [i] on, [n] entries left. *)
Fixpoint best_from (n : nat) (s : sched) (cpu_id : Z) (q : xaios_runqueue) (i best_pid best_prio : Z) : Z :=
  match n with
  | O => best_pid
  | S n' =>
      let '(bp, pr) :=
        match find_task_local s cpu_id ((tasks q).[i]) with
        | Some k =>
            let t := task s cpu_id k in
            if priority t <? best_prio then (pid t, priority t) else (best_pid, best_prio)
        | None => (best_pid, best_prio)
        end in
      if pr =? XAIOS_PRIORITY_HIGH then bp else best_from n' s cpu_id q (i + 1) bp pr
  end.

(** The queue is that of the same CPU. *)
Definition rq_pick_best (s : sched) (cpu_id : Z) : sched * Z :=
  let q := rq s cpu_id in
  if count q =? 0 then (s, 0) else
  let best := best_from (Z.to_nat (count q)) s cpu_id q 0 ((tasks q).[0]) XAIOS_PRIORITY_LOW in
  (upd_rq s cpu_id (fun q => rq_remove q best), best).

Definition stealable_step (s : sched) (victim : Z) (i : Z) (best : Z * Z) : Z * Z :=
  let q := rq s victim in
  let '(best_pid, best_prio) := best in
  let p := (tasks q).[i] in
  if p =? current_pid q then best else
  match find_task_local s victim p with
  | Some k =>
      let t := task s victim k in
      if (priority t <=? best_prio) && ((priority t <? best_prio) || (best_pid =? 0)) then (p, priority t) else best
  | None => best
  end.

Definition rq_pick_stealable (s : sched) (victim : Z) : sched * Z :=
  let q := rq s victim in
  if count q =? 0 then (s, 0) else
  let '(best_pid, _) := for_range (Z.to_nat (count q)) 0 (stealable_step s victim) (0, XAIOS_PRIORITY_LOW) in
  (if negb (best_pid =? 0) then upd_rq s victim (fun q => rq_remove q best_pid) else s, best_pid).

Section Machine.
Context (smp : Smp.smp_state) (topo : Topology.topology).

(** ** Work stealing *)

Definition steal_from (s : sched) (e : env) (victim stolen : Z) : sched :=
  let s1 :=
    match find_task_local s victim stolen with
    | Some k =>
        upd_task s victim k (fun t =>
          mk_task (pid t) (active t) (frame t) (t_tick_count t) (t_switch_count t) (priority t) (state t)
            (this_cpu e) (priority_slice (priority t)))
    | None => s
    end in
  let s2 := upd_rq s1 (this_cpu e) (fun q => rq_add q stolen) in
  let s3 := upd_stats s2 (this_cpu e) stat_steal in
  set_counters s3 (g_tick_count s3) (g_context_switch_count s3) (g_yield_count s3) (u64 (g_steal_count s3 + 1))
    (g_balance_counter s3).

(** The loop over the members of the domain from index [i] on, [n] of them left. *)
Fixpoint steal_loop (n : nat) (s : sched) (e : env) (dom : Topology.xaios_sched_domain) (i attempts : Z) : sched * Z :=
  let failed := (upd_stats s (this_cpu e) stat_steal_fail, 0) in
  match n with
  | O => failed
  | S n' =>
      if negb (attempts <? 3) then failed else
      let victim := (Topology.members dom).[i] in
      if victim =? this_cpu e then steal_loop n' s e dom (i + 1) attempts else
      match Smp.smp_cpu_state smp victim with
      | None => steal_loop n' s e dom (i + 1) attempts
      | Some c =>
          if (Smp.online c =? 0) || (Smp.scheduling_enabled c =? 0) then steal_loop n' s e dom (i + 1) attempts else
          if count (rq s victim) <=? 2 then steal_loop n' s e dom (i + 1) attempts else
          if trylock e victim then
            let '(s1, stolen) := rq_pick_stealable s victim in
            if negb (stolen =? 0) then (steal_from s1 e victim stolen, stolen)
            else steal_loop n' s1 e dom (i + 1) (attempts + 1)
          else steal_loop n' s e dom (i + 1) attempts
      end
  end.

Definition try_steal_domain (s : sched) (e : env) (domain_id : Z) : sched * Z :=
  if domain_id =? UINT32_MAX then (s, 0) else
  match Topology.topology_get_domain topo domain_id with
  | None => (s, 0)
  | Some dom =>
      if Topology.member_count dom =? 0 then (s, 0)
      else steal_loop (Z.to_nat (Topology.member_count dom)) s e dom 0 0
  end.

Definition try_steal_hierarchical (s : sched) (e : env) : sched * Z :=
  let '(s1, stolen) := try_steal_domain s e (Topology.topology_get_core_domain topo (this_cpu e)) in
  if negb (stolen =? 0) then (s1, stolen) else
  let socket_domain := Topology.topology_get_socket_domain topo (this_cpu e) in
  let '(s2, stolen) := try_steal_domain s1 e socket_domain in
  if negb (stolen =? 0) then (s2, stolen) else
  let numa_domain := Topology.topology_get_numa_domain topo (this_cpu e) in
  if negb (numa_domain =? socket_domain) then
    let '(s3, stolen) := try_steal_domain s2 e numa_domain in
    if negb (stolen =? 0) then (s3, stolen) else (s3, 0)
  else (s2, 0).

(** ** Placement and balancing *)

(** An online CPU that takes tasks. *)
Definition takes_tasks (c : Z) : bool :=
  match Smp.smp_cpu_state smp c with
  | None => false
  | Some st =>
      negb (Smp.online st =? 0) &&
      (Smp.is_scheduling (Smp.role st) || bool_decide (Smp.role st = Smp.XAIOS_CPU_ROLE_HOUSEKEEPING))
  end.

Definition find_least_loaded_cpu (e : env) : Z :=
  let online := Smp.smp_online_count smp in
  if online =? 0 then 0 else
  let local_node := Topology.topology_get_numa_node_for_cpu topo (this_cpu e) in
  let start := u32 (timer_counter e) mod online in
  let cpu_at i := u32 (start + i) mod online in
  match first_below online
          (fun i => takes_tasks (cpu_at i) &&
             ((local_node =? UINT32_MAX) ||
              (Topology.topology_get_numa_node_for_cpu topo (cpu_at i) =? local_node))) with
  | Some i => cpu_at i
  | None =>
      match first_below online (fun i => takes_tasks (cpu_at i)) with
      | Some i => cpu_at i
      | None => 0
      end
  end.

Definition periodic_load_balance (s : sched) (cpu : Z) : sched :=
  let s1 := set_counters s (g_tick_count s) (g_context_switch_count s) (g_yield_count s) (g_steal_count s)
              (u32 (g_balance_counter s + 1)) in
  if negb (g_balance_counter s mod 1000 =? 0) then s1 else
  let core_domain := Topology.topology_get_core_domain topo cpu in
  if core_domain =? UINT32_MAX then s1 else
  match Topology.topology_get_domain topo core_domain with
  | None => s1
  | Some dom =>
      if Topology.member_count dom =? 0 then s1 else
      let '(busiest_cpu, busiest_count) :=
        for_range (Z.to_nat (Topology.member_count dom)) 0
          (fun i '(bc, bn) =>
             let c := (Topology.members dom).[i] in
             if bn <? count (rq s1 c) then (c, count (rq s1 c)) else (bc, bn)) (UINT32_MAX, 0) in
      if (u32 (count (rq s1 cpu) * 2) <? busiest_count) && (4 <? busiest_count) &&
         negb (busiest_cpu =? UINT32_MAX) && negb (busiest_cpu =? cpu)
      then upd_stats s1 cpu stat_balance else s1
  end.

(** ** Calls *)

Definition scheduler_init (s : sched) : sched :=
  let s1 := for_range (Z.to_nat (Smp.smp_online_count smp)) 0
    (fun c s => upd_stats (upd_rq (upd_table s c (fun _ => zero_table)) c
       (fun q => mk_rq (tasks q) 0 0 c 0 0)) c (fun _ => zero_stats)) s in
  mk_sched (g_cpu_tasks s1) (g_runqueues s1) (g_sched_stats s1) 0 0 0 0 true
    (replicate (Z.to_nat XAIOS_MAX_CPUS) 0) 0.

Definition scheduler_register_with_priority (s : sched) (e : env) (p prio : Z) : sched * xaios_status :=
  if (p =? 0) || (XAIOS_SCHEDULER_MAX_TASKS <? p) then (s, XAIOS_ERR_INVALID) else
  let cpu := find_least_loaded_cpu e in
  match alloc_task_slot s cpu with
  | (s1, None) => (s1, XAIOS_ERR_NO_MEMORY)
  | (s1, Some k) =>
      (upd_task s1 cpu k (fun t =>
         mk_task p 1 (frame t) (t_tick_count t) (t_switch_count t) prio XAIOS_TASK_STATE_REGISTERED cpu
           (priority_slice prio)), XAIOS_OK)
  end.

Definition scheduler_register (s : sched) (e : env) (p : Z) : sched * xaios_status :=
  scheduler_register_with_priority s e p XAIOS_PRIORITY_NORMAL.

Definition set_state (x : xaios_task_state) (ticks : Z -> Z) (t : xaios_sched_task) : xaios_sched_task :=
  mk_task (pid t) (active t) (frame t) (t_tick_count t) (t_switch_count t) (priority t) x (assigned_cpu t)
    (ticks (remaining_ticks t)).

Definition with_current (q : xaios_runqueue) (p : Z) : xaios_runqueue :=
  mk_rq (tasks q) (count q) p (rq_cpu_id q) (rq_idle_ticks q) (rq_busy_ticks q).

Definition scheduler_unregister (s : sched) (e : env) (p : Z) : sched :=
  let cpu := this_cpu e in
  match find_task_local s cpu p with
  | None => s
  | Some k =>
      let assigned := assigned_cpu (task s cpu k) in
      let s1 := upd_task s cpu k (fun t =>
        mk_task (pid t) 0 (frame t) (t_tick_count t) (t_switch_count t) (priority t) XAIOS_TASK_STATE_UNUSED
          (assigned_cpu t) (remaining_ticks t)) in
      let s2 := free_task_slot s1 cpu k in
      if assigned <? XAIOS_MAX_CPUS then
        upd_rq s2 assigned (fun q =>
          let q1 := rq_remove q p in if current_pid q1 =? p then with_current q1 0 else q1)
      else s2
  end.

Definition scheduler_set_runnable (s : sched) (e : env) (p : Z) : sched * xaios_status :=
  let cpu := this_cpu e in
  match find_task_local s cpu p with
  | None => (s, XAIOS_ERR_INVALID)
  | Some k =>
      let s1 := upd_task s cpu k (fun t => set_state XAIOS_TASK_STATE_RUNNABLE (fun _ => priority_slice (priority t)) t) in
      let assigned := assigned_cpu (task s1 cpu k) in
      (if assigned <? XAIOS_MAX_CPUS then upd_rq s1 assigned (fun q => rq_add q p) else s1, XAIOS_OK)
  end.

Definition scheduler_set_blocked (s : sched) (e : env) (p : Z) : sched * xaios_status :=
  let cpu := this_cpu e in
  match find_task_local s cpu p with
  | None => (s, XAIOS_ERR_INVALID)
  | Some k =>
      let s1 := upd_task s cpu k (set_state XAIOS_TASK_STATE_BLOCKED (fun r => r)) in
      let assigned := assigned_cpu (task s1 cpu k) in
      (if assigned <? XAIOS_MAX_CPUS then upd_rq s1 assigned (fun q => rq_remove q p) else s1, XAIOS_OK)
  end.

(** The slot whose frame the caller may write. *)
Definition scheduler_task_frame (s : sched) (e : env) (p : Z) : option Z := find_task_local s (this_cpu e) p.

Definition scheduler_lock (s : sched) (e : env) : sched :=
  if this_cpu e <? XAIOS_MAX_CPUS
  then set_depth s (upd (g_lock_depth_per_cpu s) (this_cpu e) (fun d => u32 (d + 1))) else s.

Definition scheduler_unlock (s : sched) (e : env) : sched :=
  if (this_cpu e <? XAIOS_MAX_CPUS) && (0 <? (g_lock_depth_per_cpu s).[this_cpu e])
  then set_depth s (upd (g_lock_depth_per_cpu s) (this_cpu e) (fun d => d - 1)) else s.

(** *** The tick *)

Definition busy (q : xaios_runqueue) : xaios_runqueue :=
  mk_rq (tasks q) (count q) (current_pid q) (rq_cpu_id q) (rq_idle_ticks q) (u64 (rq_busy_ticks q + 1)).

Definition count_switch (s : sched) (cpu : Z) : sched :=
  let s1 := set_counters s (g_tick_count s) (u64 (g_context_switch_count s + 1)) (g_yield_count s) (g_steal_count s)
              (g_balance_counter s) in
  upd_stats s1 cpu stat_switch.

(** Saving the frame of the current task and charging it the tick. *)
Definition tick_account (s : sched) (cpu cur : Z) (irq_frame : list Z) : sched :=
  if cur =? 0 then s else
  match find_task_local s cpu cur with
  | None => s
  | Some k =>
      upd_task s cpu k (fun t =>
        mk_task (pid t) (active t) irq_frame (u64 (t_tick_count t + 1)) (t_switch_count t) (priority t) (state t)
          (assigned_cpu t) (if 0 <? remaining_ticks t then remaining_ticks t - 1 else remaining_ticks t))
  end.

(** The decision to reschedule, which requeues a task whose slice is used up. *)
Definition tick_decide (s : sched) (cpu cur : Z) : sched * bool :=
  if cur =? 0 then (s, true) else
  match find_task_local s cpu cur with
  | None => (s, true)
  | Some k =>
      let t := task s cpu k in
      if negb (bool_decide (state t = XAIOS_TASK_STATE_RUNNABLE)) then (s, true) else
      if remaining_ticks t =? 0 then
        let s1 := upd_task s cpu k (fun t =>
          set_state XAIOS_TASK_STATE_RUNNABLE (fun _ => priority_slice (priority t)) t) in
        (upd_rq s1 cpu (fun q => rq_add q cur), true)
      else (s, false)
  end.

(** Switching to [next]: the state, the frame to return to, the address space. *)
Definition tick_switch (s : sched) (cpu cur next : Z) (irq_frame : list Z) : sched * list Z * option Z :=
  if next =? 0 then
    let s1 := upd_rq s cpu (fun q => mk_rq (tasks q) (count q) 0 (rq_cpu_id q) (u64 (rq_idle_ticks q + 1)) (rq_busy_ticks q)) in
    (periodic_load_balance (upd_stats s1 cpu stat_idle) cpu, irq_frame, None)
  else if next =? cur then (upd_stats (upd_rq s cpu busy) cpu stat_busy, irq_frame, None)
  else
    match find_task_local s cpu next with
    | None => (s, irq_frame, None)
    | Some k =>
        let s1 := upd_task s cpu k (fun t =>
          mk_task (pid t) (active t) (frame t) (t_tick_count t) (u64 (t_switch_count t + 1)) (priority t)
            XAIOS_TASK_STATE_RUNNING (assigned_cpu t) (remaining_ticks t)) in
        let s2 := count_switch (upd_rq s1 cpu (fun q => busy (with_current q next))) cpu in
        (s2, frame (task s2 cpu k), Some next)
    end.

(** From the decision on. *)
Definition tick_rest (s : sched) (e : env) (cur : Z) (irq_frame : list Z) : sched * list Z * option Z :=
  let cpu := this_cpu e in
  let '(s3, need_reschedule) := tick_decide s cpu cur in
  if negb need_reschedule then (upd_stats (upd_rq s3 cpu busy) cpu stat_busy, irq_frame, None) else
  let '(s4, next) := rq_pick_best s3 cpu in
  let '(s5, next) := if next =? 0 then try_steal_hierarchical s4 e else (s4, next) in
  tick_switch s5 cpu cur next irq_frame.

Definition scheduler_tick (s : sched) (e : env) (irq_frame : list Z) : sched * list Z * option Z :=
  let cpu := this_cpu e in
  if negb (g_initialized s) then (s, irq_frame, None) else
  if (XAIOS_MAX_CPUS <=? cpu) || (0 <? (g_lock_depth_per_cpu s).[cpu]) then (s, irq_frame, None) else
  if match Smp.smp_cpu_state smp cpu with Some c => Smp.scheduling_enabled c =? 0 | None => false end
  then (s, irq_frame, None) else
  let s1 := upd_stats (set_counters s (u64 (g_tick_count s + 1)) (g_context_switch_count s) (g_yield_count s)
              (g_steal_count s) (g_balance_counter s)) cpu stat_tick in
  let cur := current_pid (rq s1 cpu) in
  tick_rest (tick_account s1 cpu cur irq_frame) e cur irq_frame.

(** The address space switched to is the second component. *)
Definition scheduler_yield (s : sched) (e : env) : sched * option Z :=
  let cpu := this_cpu e in
  if negb (g_initialized s) then (s, None) else
  let s1 := set_counters s (g_tick_count s) (g_context_switch_count s) (u64 (g_yield_count s + 1)) (g_steal_count s)
              (g_balance_counter s) in
  if XAIOS_MAX_CPUS <=? cpu then (s1, None) else
  let s2 := upd_stats s1 cpu stat_yield in
  let cur := current_pid (rq s2 cpu) in
  let s3 :=
    if cur =? 0 then s2 else
    match find_task_local s2 cpu cur with
    | None => s2
    | Some k => upd_rq (upd_task s2 cpu k (set_state XAIOS_TASK_STATE_RUNNABLE (fun _ => 0))) cpu (fun q => rq_add q cur)
    end in
  let '(s4, next) := rq_pick_best s3 cpu in
  if negb (next =? 0) && negb (next =? cur) then
    let s5 :=
      match find_task_local s4 cpu next with
      | None => s4
      | Some k => upd_task s4 cpu k (fun t =>
          mk_task (pid t) (active t) (frame t) (t_tick_count t) (u64 (t_switch_count t + 1)) (priority t)
            XAIOS_TASK_STATE_RUNNING (assigned_cpu t) (remaining_ticks t))
      end in
    (count_switch (upd_rq s5 cpu (fun q => with_current q next)) cpu, Some next)
  else (s4, None).

Definition scheduler_current_pid_on_cpu (s : sched) (cpu_id : Z) : Z :=
  if XAIOS_MAX_CPUS <=? cpu_id then 0 else current_pid (rq s cpu_id).

Definition scheduler_current_pid (s : sched) (e : env) : Z := scheduler_current_pid_on_cpu s (this_cpu e).

Definition scheduler_runnable_count (s : sched) : Z :=
  let online := Smp.smp_online_count smp in
  let limit := if online <? 32 then online else 32 in
  for_range (Z.to_nat limit) 0 (fun c total => u32 (total + count (rq s c))) 0.

(** The assertions of the boot test, made by one CPU with its timer standing still. *)
Definition scheduler_self_test (s : sched) (e : env) : sched * bool :=
  let dummy_frame := replicate 33 0 ++ [4096; 0] in
  let '(s1, r1) := scheduler_register_with_priority s e 1 XAIOS_PRIORITY_HIGH in
  let '(s2, r2) := scheduler_register_with_priority s1 e 2 XAIOS_PRIORITY_NORMAL in
  let '(s3, r3) := scheduler_register_with_priority s2 e 3 XAIOS_PRIORITY_LOW in
  let '(s4, r4) := scheduler_set_runnable s3 e 1 in
  let '(s5, r5) := scheduler_set_runnable s4 e 2 in
  let '(s6, r6) := scheduler_set_runnable s5 e 3 in
  let has_prio p prio := match find_task_local s6 0 p with Some k => priority (task s6 0 k) =? prio | None => false end in
  let checks := g_initialized s && is_ok r1 && is_ok r2 && is_ok r3 && is_ok r4 && is_ok r5 && is_ok r6 &&
    (scheduler_runnable_count s6 =? 3) && has_prio 1 XAIOS_PRIORITY_HIGH && has_prio 2 XAIOS_PRIORITY_NORMAL &&
    has_prio 3 XAIOS_PRIORITY_LOW in
  let '(s7, f7, _) := scheduler_tick (upd_rq s6 0 (fun q => with_current q 0)) e dummy_frame in
  let picked := current_pid (rq s7 0) in
  let s8 := scheduler_lock s7 e in
  let '(s9, _, _) := scheduler_tick s8 e f7 in
  let s10 := scheduler_unlock s9 e in
  let '(s11, r11) := scheduler_set_blocked s10 e 2 in
  let '(s12, r12) := scheduler_set_runnable s11 e 2 in
  let s13 := scheduler_unregister (scheduler_unregister (scheduler_unregister s12 e 1) e 2) e 3 in
  let gone p := negb (bool_decide (is_Some (find_task_local s13 0 p))) in
  (s13, checks && ((picked =? 1) || (picked =? 2) || (picked =? 3)) && (current_pid (rq s9 0) =? current_pid (rq s8 0)) &&
        is_ok r11 && is_ok r12 && gone 1 && gone 2 && gone 3).

Definition scheduler_get_stats (s : sched) (cpu_id : Z) : option xaios_sched_stats :=
  if XAIOS_MAX_CPUS <=? cpu_id then None else Some ((g_sched_stats s).[cpu_id]).

End Machine.
(** ** Searches and queues *)

(** The tasks waiting in a run queue, in order. *)
Definition queue (q : xaios_runqueue) : list Z := take (Z.to_nat (count q)) (tasks q).

(** Within its capacity, without duplicates and without the reserved pid 0. *)
Definition rq_ok (q : xaios_runqueue) : Prop :=
  0 <= count q <= XAIOS_SCHEDULER_PER_CPU_RUNQUEUE /\ zlen (tasks q) = XAIOS_SCHEDULER_PER_CPU_RUNQUEUE /\
  NoDup (queue q) /\ 0 ∉ queue q.

Lemma queue_length q : rq_ok q -> zlen (queue q) = count q.
Proof. intros (H1 & H2 & _). unfold queue, zlen in *. rewrite length_take. lia. Qed.

Lemma queue_get q i : rq_ok q -> 0 <= i < count q -> queue q !! Z.to_nat i = Some ((tasks q).[i]).
Proof. intros (H1 & H2 & _) Hi. unfold queue. rewrite lookup_take_lt by lia. apply arr_lookup. lia. Qed.

Lemma queue_lookup q (i : nat) : rq_ok q -> Z.of_nat i < count q -> queue q !! i = Some ((tasks q).[Z.of_nat i]).
Proof. intros Hok Hi. rewrite <- queue_get by (done || lia). by rewrite Nat2Z.id. Qed.

Lemma queue_in q p : rq_ok q -> p ∈ queue q <-> exists i, 0 <= i < count q /\ (tasks q).[i] = p.
Proof.
  intros Hok. rewrite list_elem_of_lookup. split.
  - intros [i Hi]. pose proof (lookup_lt_Some _ _ _ Hi) as Hlt. pose proof (queue_length q Hok) as Hl. unfold zlen in Hl.
    exists (Z.of_nat i). split; [lia|]. pose proof (queue_get q (Z.of_nat i) Hok ltac:(lia)) as Hg.
    rewrite Nat2Z.id in *. congruence.
  - intros (i & Hi & <-). exists (Z.to_nat i). by apply queue_get.
Qed.

Lemma rq_index_None q p : rq_ok q -> rq_index q p = None <-> p ∉ queue q.
Proof.
  intros Hok. unfold rq_index. rewrite first_below_None, queue_in by done. split.
  - intros H (i & Hi & <-). specialize (H i Hi). by rewrite Z.eqb_refl in H.
  - intros H j Hj. apply Z.eqb_neq. intros E. apply H. by exists j.
Qed.

Lemma rq_add_spec q p :
  rq_ok q -> p <> 0 -> rq_ok (rq_add q p) /\
  queue (rq_add q p) =
    (if decide (p ∈ queue q) then queue q
     else if count q <? XAIOS_SCHEDULER_PER_CPU_RUNQUEUE then queue q ++ [p] else queue q).
Proof.
  intros Hok Hp. unfold rq_add. destruct (Z.ltb_spec (count q) XAIOS_SCHEDULER_PER_CPU_RUNQUEUE) as [Hlt|Hge]; cbn [andb].
  2:{ split; [done|]. by destruct (decide _). }
  destruct (decide (p ∈ queue q)) as [Hin|Hin].
  - rewrite bool_decide_true; [done|]. destruct (rq_index q p) eqn:E; [done|]. by apply rq_index_None in E.
  - rewrite bool_decide_false by (rewrite (proj2 (rq_index_None q p Hok) Hin); by intros [? ?]). cbn [negb].
    pose proof Hok as (H1 & H2 & H3 & H4).
    assert (Hq : queue (with_tasks q ((tasks q).[count q <- p]) (count q + 1)) = queue q ++ [p]).
    { unfold queue. cbn [with_tasks tasks count]. replace (Z.to_nat (count q + 1)) with (S (Z.to_nat (count q))) by lia.
      rewrite (take_S_r _ _ p) by (apply list_lookup_insert_eq; zlia). by rewrite take_insert_ge by lia. }
    split; [|exact Hq]. split; [cbn [with_tasks count]; lia|]. split; [cbn [with_tasks tasks]; by rewrite zlen_set|].
    rewrite Hq. split; [|set_solver]. apply NoDup_app. split; [done|]. split; [|apply NoDup_singleton]. set_solver.
Qed.

(** The loop that closes the gap. *)
Lemma shift_spec (l : list Z) idx n :
  0 <= idx -> 0 <= n -> idx + n < zlen l ->
  let r := for_range (Z.to_nat n) idx (fun i l => l.[i <- l.[i + 1]]) l in
  zlen r = zlen l /\ forall j, 0 <= j < zlen l ->
    r.[j] = if (idx <=? j) && (j <? idx + n) then l.[j + 1] else l.[j].
Proof.
  intros Hi Hn Hl r.
  assert (H : let k := idx + Z.of_nat (Z.to_nat n) in zlen r = zlen l /\ forall j, 0 <= j < zlen l ->
    r.[j] = if (idx <=? j) && (j <? k) then l.[j + 1] else l.[j]); [|by rewrite Z2Nat.id in H].
  apply (for_range_ind (fun k r => zlen r = zlen l /\ forall j, 0 <= j < zlen l ->
    r.[j] = if (idx <=? j) && (j <? k) then l.[j + 1] else l.[j])).
  - split; [done|]. intros j Hj. case_if; [breflect; lia|done].
  - intros k r' Hk [Hz Hg]. split; [by rewrite zlen_set|]. intros j Hj.
    destruct (decide (j = k)) as [->|Hne].
    + rewrite arr_get_set_eq, Hg by lia. case_if; case_if; breflect; lia || done.
    + rewrite arr_get_set_ne, Hg by lia. by replace (j <? k + 1) with (j <? k) by lia.
Qed.

(** What is left is the queue without its entry [idx]. *)
Lemma shift_queue q idx :
  rq_ok q -> 0 <= idx < count q ->
  let r := for_range (Z.to_nat (count q - 1 - idx)) idx (fun i l => l.[i <- l.[i + 1]]) (tasks q) in
  zlen r = XAIOS_SCHEDULER_PER_CPU_RUNQUEUE /\
  queue (with_tasks q r (count q - 1)) = take (Z.to_nat idx) (queue q) ++ drop (S (Z.to_nat idx)) (queue q).
Proof.
  intros Hok Hi r. pose proof Hok as (H1 & H2 & _). pose proof (queue_length q Hok) as Hl.
  destruct (shift_spec (tasks q) idx (count q - 1 - idx)) as [Hz Hg]; [lia..|]. fold r in Hz, Hg. clearbody r.
  split; [lia|]. apply list_eq. intros i. unfold queue at 1. cbn [with_tasks count tasks].
  assert (Hla : length (take (Z.to_nat idx) (queue q)) = Z.to_nat idx) by (rewrite length_take; zlia).
  destruct (decide (Z.of_nat i < count q - 1)) as [Hlt|Hge].
  - rewrite lookup_take_lt by lia. replace i with (Z.to_nat (Z.of_nat i)) at 1 by lia.
    rewrite arr_lookup, Hg by lia. destruct (decide (Z.of_nat i < idx)).
    + rewrite lookup_app_l, lookup_take_lt, queue_lookup by (done || lia). case_if; [breflect; lia|done].
    + rewrite lookup_app_r, lookup_drop by lia. rewrite Hla.
      replace (S (Z.to_nat idx) + (i - Z.to_nat idx))%nat with (Z.to_nat (Z.of_nat i + 1)) by lia.
      rewrite queue_get by (done || lia). case_if; [done|lia].
  - rewrite lookup_take_ge by lia. symmetry. apply lookup_ge_None_2. rewrite length_app, length_drop. zlia.
Qed.

Lemma rq_remove_spec q p :
  rq_ok q -> rq_ok (rq_remove q p) /\ queue (rq_remove q p) = filter (.≠ p) (queue q).
Proof.
  intros Hok. unfold rq_remove. destruct (rq_index q p) as [idx|] eqn:E.
  2:{ split; [done|]. symmetry. apply filter_true. intros x Hx ->. by apply rq_index_None in E. }
  apply first_below_Some in E as (Hi & Ht & _). apply Z.eqb_eq in Ht. pose proof Hok as (H1 & H2 & H3 & H4).
  destruct (shift_queue q idx Hok Hi) as [Hz Hq]. set (r := for_range _ _ _ _) in *. clearbody r.
  pose proof (queue_get q idx Hok Hi) as Hp. rewrite Ht in Hp. apply take_drop_middle in Hp.
  assert (Hf : queue (with_tasks q r (count q - 1)) = filter (.≠ p) (queue q)).
  { rewrite Hq. rewrite <- Hp in H3. rewrite <- Hp at 3. rewrite filter_app, filter_cons_False by naive_solver.
    apply NoDup_app in H3 as (_ & Ha & [Hb _]%NoDup_cons). rewrite !filter_true; [done| |].
    - intros x Hx ->. done.
    - intros x Hx ->. apply (Ha p Hx). set_solver. }
  split; [|exact Hf]. split; [cbn [with_tasks count]; lia|]. split; [exact Hz|]. rewrite Hf. split.
  - by apply NoDup_filter.
  - intros [_ H]%list_elem_of_filter. done.
Qed.

(** ** Choosing a task *)

(** The priority of a queued pid on a CPU: an unknown task counts as a low one. *)
Definition eprio (s : sched) (c p : Z) : Z :=
  match find_task_local s c p with
  | Some k => Z.min XAIOS_PRIORITY_LOW (priority (task s c k))
  | None => XAIOS_PRIORITY_LOW
  end.

(** The first entry of the highest priority (the least number). *)
Definition first_best (s : sched) (c : Z) (l : list Z) (p : Z) : Prop :=
  exists b, l !! b = Some p /\ (forall j x, l !! j = Some x -> eprio s c p <= eprio s c x) /\
    (forall j x, (j < b)%nat -> l !! j = Some x -> eprio s c p < eprio s c x).

Lemma find_task_Some s c p k :
  find_task_local s c p = Some k ->
  c < XAIOS_MAX_CPUS /\ 0 <= k < XAIOS_TASK_SLOTS_PER_CPU /\ slot_bit (table s c) k = true /\
  active (task s c k) <> 0 /\ pid (task s c k) = p.
Proof.
  unfold find_task_local, task. destruct (Z.leb_spec XAIOS_MAX_CPUS c); [done|].
  intros (Hk & Ht & _)%first_below_Some. apply andb_true_iff in Ht as [[Hb Ha]%andb_true_iff Hp].
  apply negb_true_iff, Z.eqb_neq in Ha. apply Z.eqb_eq in Hp. done.
Qed.

(** What the scan knows about the entries before [i]. *)
Definition scanned (s : sched) (c : Z) (q : xaios_runqueue) (i bp pr : Z) : Prop :=
  pr <= XAIOS_PRIORITY_LOW /\ (forall j, 0 <= j < i -> pr <= eprio s c ((tasks q).[j])) /\
  ((pr = XAIOS_PRIORITY_LOW /\ bp = (tasks q).[0]) \/
   exists b, 0 <= b < i /\ bp = (tasks q).[b] /\ pr = eprio s c bp /\
     forall j, 0 <= j < b -> pr < eprio s c ((tasks q).[j])).

Lemma scanned_step s c q i bp pr :
  0 <= i -> scanned s c q i bp pr ->
  let p := (tasks q).[i] in
  let r := match find_task_local s c p with
           | Some k => if priority (task s c k) <? pr then (pid (task s c k), priority (task s c k)) else (bp, pr)
           | None => (bp, pr)
           end in
  scanned s c q (i + 1) r.1 r.2.
Proof.
  intros Hi (H1 & H2 & H3) p r. pose proof (eq_refl (eprio s c p)) as He. unfold eprio at 1 in He.
  assert (Hold : pr <= eprio s c p -> scanned s c q (i + 1) bp pr).
  { intros Hle. split; [done|]. split.
    - intros j Hj. destruct (decide (j = i)) as [->|]; [done|apply H2; lia].
    - destruct H3 as [?|(b & Hb & H3)]; [by left|]. right. exists b. split; [lia|done]. }
  unfold r. destruct (find_task_local s c p) as [k|] eqn:Ef; [|apply Hold; lia].
  destruct (find_task_Some s c p k Ef) as (_ & _ & _ & _ & Hp).
  destruct (Z.ltb_spec (priority (task s c k)) pr) as [Hlt|Hge]; cbn [fst snd]; [|apply Hold; lia].
  rewrite Hp. split; [lia|]. split.
  - intros j Hj. destruct (decide (j = i)) as [->|]; [fold p; lia|specialize (H2 j); lia].
  - right. exists i. split; [lia|]. split; [done|]. split; [lia|]. intros j Hj. specialize (H2 j). lia.
Qed.

Lemma scanned_best s c q bp pr :
  rq_ok q -> 0 < count q -> scanned s c q (count q) bp pr -> first_best s c (queue q) bp.
Proof.
  intros Hok Hc (H1 & H2 & H3). pose proof (queue_length q Hok) as Hl.
  assert (Hget : forall j x, queue q !! j = Some x -> 0 <= Z.of_nat j < count q /\ x = (tasks q).[Z.of_nat j]).
  { intros j x Hx. pose proof (lookup_lt_Some _ _ _ Hx). rewrite queue_lookup in Hx by (done || zlia).
    split; [zlia|congruence]. }
  assert (Hlow : forall x, eprio s c x <= XAIOS_PRIORITY_LOW) by (intros x; unfold eprio; destruct (find_task_local _ _ _); lia).
  destruct H3 as [[-> ->]|(b & Hb & -> & -> & H4)].
  - exists 0%nat. split; [by rewrite queue_lookup by (done || lia)|]. split; [|intros; lia].
    intros j x [Hj ->]%Hget. specialize (H2 _ Hj). specialize (Hlow ((tasks q).[0])). lia.
  - exists (Z.to_nat b). split; [by apply queue_get|]. split.
    + intros j x [Hj ->]%Hget. by apply H2.
    + intros j x Hjb [Hj ->]%Hget. apply H4. lia.
Qed.

Lemma best_from_scanned s c q n i bp pr :
  (forall p k, find_task_local s c p = Some k -> 0 <= priority (task s c k)) ->
  0 <= i -> count q = i + Z.of_nat n -> scanned s c q i bp pr ->
  exists pr', scanned s c q (count q) (best_from n s c q i bp pr) pr'.
Proof.
  intros Hpos. revert i bp pr. induction n as [|n IH]; intros i bp pr Hi Hc Hs; cbn [best_from].
  { exists pr. by replace (count q) with i by lia. }
  pose proof (scanned_step s c q i bp pr Hi Hs) as Hn. cbv zeta in Hn |- *.
  destruct (match find_task_local s c _ with Some k => _ | None => _ end) as [bp' pr']. cbn [fst snd] in Hn.
  destruct (Z.eqb_spec pr' XAIOS_PRIORITY_HIGH) as [->|_]; [|apply (IH (i + 1) bp' pr'); [lia|lia|done]].
  exists XAIOS_PRIORITY_HIGH. destruct Hn as (H1 & H2 & H3). split; [done|]. split.
  - intros j _. unfold eprio. destruct (find_task_local s c _) as [k|] eqn:E; [|done].
    specialize (Hpos _ k E). unfold XAIOS_PRIORITY_HIGH, XAIOS_PRIORITY_LOW. lia.
  - destruct H3 as [?|(b & Hb & H3)]; [by left|]. right. exists b. split; [lia|done].
Qed.

(** ** The invariant *)

(** A slot whose bit of the bitmap is [b]: the bit tells whether the slot is in use, and a
    task in use has a valid pid, a CPU, a state, and no more ticks than its slice. *)
Definition slot_ok (b : bool) (x : xaios_sched_task) : Prop :=
  0 <= priority x /\ (b = true <-> active x <> 0) /\
  (active x <> 0 -> 1 <= pid x <= XAIOS_SCHEDULER_MAX_TASKS /\ 0 <= assigned_cpu x < XAIOS_MAX_CPUS /\
     0 <= remaining_ticks x <= priority_slice (priority x) /\ state x <> XAIOS_TASK_STATE_UNUSED).

Definition table_ok (t : xaios_cpu_task_table) : Prop :=
  zlen (slot_bitmap t) = 2 /\ zlen (slots t) = XAIOS_TASK_SLOTS_PER_CPU /\
  forall i, 0 <= i < XAIOS_TASK_SLOTS_PER_CPU -> slot_ok (slot_bit t i) ((slots t).[i]).

Record sched_ok (s : sched) : Prop := {
  so_tables : Forall table_ok (g_cpu_tasks s);
  so_queues : Forall rq_ok (g_runqueues s);
  so_sizes : zlen (g_cpu_tasks s) = XAIOS_MAX_CPUS /\ zlen (g_runqueues s) = XAIOS_MAX_CPUS /\
    zlen (g_lock_depth_per_cpu s) = XAIOS_MAX_CPUS;
  so_depth : Forall (Z.le 0) (g_lock_depth_per_cpu s)
}.

Lemma table_ok_upd t k f :
  table_ok t -> (forall b x, slot_ok b x -> slot_ok b (f x)) -> table_ok (mk_table (slot_bitmap t) (upd (slots t) k f)).
Proof.
  intros (H1 & H2 & H3) Hf. split; [done|]. split; [cbn [slots]; by rewrite zlen_upd|]. intros i Hi. cbn [slots].
  change (slot_bit (mk_table _ _) i) with (slot_bit t i). rewrite upd_get by lia. destruct (decide _); auto.
Qed.

Lemma ok_upd_rq s c f : sched_ok s -> (forall q, rq_ok q -> rq_ok (f q)) -> sched_ok (upd_rq s c f).
Proof.
  intros [H1 H2 H3 H4] Hf. constructor; cbn [upd_rq g_cpu_tasks g_runqueues g_lock_depth_per_cpu]; try done.
  - by apply Forall_upd.
  - by rewrite zlen_upd.
Qed.

Lemma ok_upd_table s c f : sched_ok s -> (forall t, table_ok t -> table_ok (f t)) -> sched_ok (upd_table s c f).
Proof.
  intros [H1 H2 H3 H4] Hf. constructor; cbn [upd_table set_tables g_cpu_tasks g_runqueues g_lock_depth_per_cpu]; try done.
  - by apply Forall_upd.
  - by rewrite zlen_upd.
Qed.

Lemma ok_upd_task s c k f :
  sched_ok s -> (forall b x, slot_ok b x -> slot_ok b (f x)) -> sched_ok (upd_task s c k f).
Proof. intros H Hf. apply ok_upd_table; [done|]. intros t Ht. by apply table_ok_upd. Qed.

Lemma ok_upd_stats s c f : sched_ok s -> sched_ok (upd_stats s c f).
Proof. by intros [? ? ? ?]. Qed.

Lemma ok_set_counters s a b d e f : sched_ok s -> sched_ok (set_counters s a b d e f).
Proof. by intros [? ? ? ?]. Qed.

Lemma rq_ok_add q p : p <> 0 -> rq_ok q -> rq_ok (rq_add q p).
Proof. intros Hp Hq. by apply rq_add_spec. Qed.

Lemma rq_ok_remove q p : rq_ok q -> rq_ok (rq_remove q p).
Proof. intros Hq. by apply rq_remove_spec. Qed.

Lemma priority_slice_pos p : 1 <= priority_slice p <= 4.
Proof. unfold priority_slice. repeat case_if; done. Qed.

Create HintDb sched.
#[export] Hint Resolve ok_upd_rq ok_upd_task ok_upd_stats ok_set_counters rq_ok_add rq_ok_remove : sched.

(** *** Slots *)

Lemma slot_bit_testbit t i :
  0 <= i < XAIOS_TASK_SLOTS_PER_CPU -> slot_bit t i = Z.testbit ((slot_bitmap t).[i / 64]) (i mod 64).
Proof.
  intros Hi. unfold slot_bit. rewrite Z.shiftr_div_pow2, Z.shiftl_1_l by lia. change 63 with (2 ^ 6 - 1).
  rewrite land_low_mask by lia. change (2 ^ 6) with 64. rewrite land_pow2_zero by dlia. apply negb_involutive.
Qed.

(** Changing one word changes one bit. *)
Lemma slot_bit_upd bm sl sl' k f (b : bool) :
  zlen bm = 2 -> 0 <= k < XAIOS_TASK_SLOTS_PER_CPU ->
  (forall w j, 0 <= j < 64 -> Z.testbit (f w) j = if j =? k mod 64 then b else Z.testbit w j) ->
  forall i, 0 <= i < XAIOS_TASK_SLOTS_PER_CPU ->
    slot_bit (mk_table (upd bm (k / 64) f) sl) i = if i =? k then b else slot_bit (mk_table bm sl') i.
Proof.
  unfold XAIOS_TASK_SLOTS_PER_CPU. intros Hl Hk Hf i Hi.
  rewrite !slot_bit_testbit by (unfold XAIOS_TASK_SLOTS_PER_CPU; lia). cbn [slot_bitmap].
  rewrite upd_get by (rewrite Hl; dlia). destruct (decide _) as [E|E].
  - rewrite Hf by dlia. replace (i =? k) with (i mod 64 =? k mod 64) by dlia. done.
  - by rewrite (proj2 (Z.eqb_neq i k)) by (intros ->; done).
Qed.

(** The new table of an allocation. *)
Lemma claim_slot_spec t w bit :
  table_ok t -> 0 <= w < 2 -> 0 <= bit < 64 ->
  forall i, 0 <= i < XAIOS_TASK_SLOTS_PER_CPU ->
    slot_bit (claim_slot t w bit) i = (if i =? w * 64 + bit then true else slot_bit t i) /\
    (slots (claim_slot t w bit)).[i] = if i =? w * 64 + bit then zero_task else (slots t).[i].
Proof.
  intros (H1 & H2 & _) Hw Hb i Hi. unfold XAIOS_TASK_SLOTS_PER_CPU in *. split.
  - unfold claim_slot. replace w with ((w * 64 + bit) / 64) at 1 by dlia. destruct t as [bm sl].
    apply (slot_bit_upd bm _ sl (w * 64 + bit) _ true); [done|unfold XAIOS_TASK_SLOTS_PER_CPU; lia| |done].
    intros x j Hj. rewrite Z.shiftl_1_l, lor_pow2_testbit by lia.
    replace ((w * 64 + bit) mod 64) with bit by dlia. by destruct (j =? bit).
  - unfold claim_slot. cbn [slots]. destruct (Z.eqb_spec i (w * 64 + bit)) as [->|].
    + by rewrite arr_get_set_eq by lia.
    + by rewrite arr_get_set_ne by lia.
Qed.

Lemma free_bit_Some t w bit :
  table_ok t -> 0 <= w < 2 -> free_bit t w = Some bit -> 0 <= bit < 64 /\ slot_bit t (w * 64 + bit) = false.
Proof.
  intros Ht Hw. unfold free_bit. case_if; [done|]. intros (Hb & Hz & _)%first_below_Some. split; [done|].
  apply andb_true_iff in Hz as [_ Hz]. rewrite Z.shiftl_1_l, land_pow2_zero in Hz by lia. apply negb_true_iff in Hz.
  rewrite slot_bit_testbit by (unfold XAIOS_TASK_SLOTS_PER_CPU; lia).
  replace ((w * 64 + bit) / 64) with w by dlia. by replace ((w * 64 + bit) mod 64) with bit by dlia.
Qed.

(** Both words of the bitmap, as one search. *)
Lemma alloc_task_slot_spec s c s1 r :
  sched_ok s -> 0 <= c -> alloc_task_slot s c = (s1, r) ->
  match r with
  | None => s1 = s
  | Some k => c < XAIOS_MAX_CPUS /\ 0 <= k < XAIOS_TASK_SLOTS_PER_CPU /\ slot_bit (table s c) k = false /\
      exists w bit, 0 <= w < 2 /\ 0 <= bit < 64 /\ k = w * 64 + bit /\
        s1 = upd_table s c (fun t => claim_slot t w bit)
  end.
Proof.
  intros [H1 _ [H3 _] _] Hc. unfold alloc_task_slot. destruct (Z.leb_spec XAIOS_MAX_CPUS c) as [|Hlt]; [by intros [= <- <-]|].
  assert (Ht : table_ok (table s c)).
  { rewrite Forall_forall in H1. apply H1, list_elem_of_lookup_total_2. zlia. }
  unfold XAIOS_TASK_SLOTS_PER_CPU. destruct (free_bit (table s c) 0) as [bit|] eqn:E0.
  { intros [= <- <-]. destruct (free_bit_Some _ 0 bit Ht ltac:(lia) E0) as [Hb Hf]. split; [done|]. split; [lia|].
    split; [done|]. exists 0, bit. split; [lia|]. split; [lia|]. done. }
  destruct (free_bit (table s c) 1) as [bit|] eqn:E1; intros [= <- <-]; [|done].
  destruct (free_bit_Some _ 1 bit Ht ltac:(lia) E1) as [Hb Hf]. split; [done|]. split; [lia|].
  split; [done|]. exists 1, bit. split; [lia|]. split; [lia|]. done.
Qed.

Lemma ok_upd_table_at s c f :
  sched_ok s -> table_ok (f (table s c)) -> sched_ok (upd_table s c f).
Proof.
  intros [H1 H2 H3 H4] Hf. constructor; cbn [upd_table set_tables g_cpu_tasks g_runqueues g_lock_depth_per_cpu]; try done.
  - unfold upd. by apply Forall_insert.
  - by rewrite zlen_upd.
Qed.

Lemma ok_table s c : sched_ok s -> 0 <= c < XAIOS_MAX_CPUS -> table_ok (table s c).
Proof. intros [H1 _ [H3 _] _] Hc. rewrite Forall_forall in H1. apply H1, list_elem_of_lookup_total_2. zlia. Qed.

Lemma ok_rq s c : sched_ok s -> 0 <= c < XAIOS_MAX_CPUS -> rq_ok (rq s c).
Proof. intros [_ H2 (_ & H3 & _) _] Hc. rewrite Forall_forall in H2. apply H2, list_elem_of_lookup_total_2. zlia. Qed.

Lemma upd_table_twice s c f g :
  0 <= c < zlen (g_cpu_tasks s) -> upd_table (upd_table s c f) c g = upd_table s c (fun t => g (f t)).
Proof.
  intros Hc. unfold upd_table, set_tables. cbn. f_equal. unfold upd at 1.
  rewrite upd_get_eq by done. unfold upd. by rewrite list_insert_insert_eq.
Qed.

(** Updates of a task that the invariant does not mind. *)
Lemma slot_ok_state x f b t :
  x <> XAIOS_TASK_STATE_UNUSED -> (0 <= f (remaining_ticks t) <= priority_slice (priority t) \/ f (remaining_ticks t) = remaining_ticks t) ->
  slot_ok b t -> slot_ok b (set_state x f t).
Proof.
  intros Hx Hf (H1 & H2 & H3). split; [done|]. split; [done|]. intros Ha. destruct (H3 Ha) as (P1 & P2 & P3 & _).
  split; [done|]. split; [done|]. split; [|done]. cbn [set_state remaining_ticks priority]. destruct Hf as [?|Hf]; [done|lia].
Qed.

Lemma ok_pick_best s c : sched_ok s -> sched_ok (rq_pick_best s c).1.
Proof. intros H. unfold rq_pick_best. case_if; [done|]. cbn [fst]. auto with sched. Qed.

Lemma ok_pick_stealable s c : sched_ok s -> sched_ok (rq_pick_stealable s c).1.
Proof.
  intros H. unfold rq_pick_stealable. case_if; [done|]. destruct (for_range _ _ _ _) as [p x]. cbn [fst].
  case_if; auto with sched.
Qed.

Lemma ok_set_depth s l :
  sched_ok s -> zlen l = XAIOS_MAX_CPUS -> Forall (Z.le 0) l -> sched_ok (set_depth s l).
Proof. intros [? ? (? & ? & ?) ?] Hl Hp. by constructor. Qed.

#[export] Hint Resolve ok_pick_best ok_pick_stealable slot_ok_state : sched.

Lemma ok_account s c cur f : sched_ok s -> sched_ok (tick_account s c cur f).
Proof.
  intros H. unfold tick_account. case_if; [done|]. destruct (find_task_local _ _ _) as [k|]; [|done].
  apply ok_upd_task; [done|]. intros b x (H1 & H2 & H3). split; [done|]. split; [done|]. intros Ha.
  destruct (H3 Ha) as (P1 & P2 & P3 & P4). cbn [pid assigned_cpu remaining_ticks priority state] in *.
  split; [done|]. split; [done|]. split; [case_if; lia|done].
Qed.

Lemma ok_requeue s c k cur (x : xaios_sched_task -> Z) :
  sched_ok s -> cur <> 0 -> (forall t, 0 <= x t <= priority_slice (priority t)) ->
  sched_ok (upd_rq (upd_task s c k (fun t => set_state XAIOS_TASK_STATE_RUNNABLE (fun _ => x t) t)) c (fun q => rq_add q cur)).
Proof. intros H Hc Hx. apply ok_upd_rq; auto with sched. Qed.

Lemma slice_range t : 0 <= priority_slice (priority t) <= priority_slice (priority t).
Proof. pose proof (priority_slice_pos (priority t)). lia. Qed.

Lemma ok_decide s c cur : sched_ok s -> sched_ok (tick_decide s c cur).1.
Proof.
  intros H. unfold tick_decide. destruct (Z.eqb_spec cur 0); [done|]. destruct (find_task_local _ _ _) as [k|]; [|done].
  case_if; [done|]. case_if; [|done]. cbn [fst]. apply ok_requeue; [done|done|apply slice_range].
Qed.

Lemma ok_running s c k : sched_ok s -> sched_ok (upd_task s c k (fun t =>
  mk_task (pid t) (active t) (frame t) (t_tick_count t) (u64 (t_switch_count t + 1)) (priority t)
    XAIOS_TASK_STATE_RUNNING (assigned_cpu t) (remaining_ticks t))).
Proof.
  intros H. apply ok_upd_task; [done|]. intros b x (H1 & H2 & H3). split; [done|]. split; [done|]. intros Ha.
  destruct (H3 Ha) as (P1 & P2 & P3 & P4). done.
Qed.

(** ** Calls *)

Section Calls.
Context (smp : Smp.smp_state) (topo : Topology.topology).

Inductive call :=
| Init
| Register (p prio : Z)
| Unregister (p : Z)
| Set_runnable (p : Z)
| Set_blocked (p : Z)
| Lock
| Unlock
| Tick (irq_frame : list Z)
| Yield.

(** The arguments are unsigned, and the caller is one of the CPUs. *)
Definition call_ok (e : env) (x : call) : Prop :=
  0 <= this_cpu e < XAIOS_MAX_CPUS /\
  match x with
  | Register p prio => 0 <= p /\ 0 <= prio
  | Set_runnable p | Unregister p | Set_blocked p => 0 <= p
  | _ => True
  end.

Definition step (s : sched) (ex : env * call) : sched :=
  let '(e, x) := ex in
  match x with
  | Init => scheduler_init smp s
  | Register p prio => (scheduler_register_with_priority smp topo s e p prio).1
  | Unregister p => scheduler_unregister s e p
  | Set_runnable p => (scheduler_set_runnable s e p).1
  | Set_blocked p => (scheduler_set_blocked s e p).1
  | Lock => scheduler_lock s e
  | Unlock => scheduler_unlock s e
  | Tick f => (scheduler_tick smp topo s e f).1.1
  | Yield => (scheduler_yield s e).1
  end.

Definition run (s : sched) (l : list (env * call)) : sched := foldl step s l.

Lemma rq_ok_empty q n : rq_ok q -> rq_ok (mk_rq (tasks q) 0 0 n 0 0).
Proof.
  intros (_ & H2 & _). split; [done|]. split; [done|]. unfold queue. cbn [count]. rewrite take_0.
  split; [apply NoDup_nil_2|set_solver].
Qed.

Lemma zero_table_ok : table_ok zero_table.
Proof.
  split; [done|]. split; [done|]. intros i Hi. rewrite slot_bit_testbit by done.
  replace ((slot_bitmap zero_table).[i / 64]) with 0.
  - cbn [zero_table slots]. rewrite Z.bits_0, arr_get_replicate by (unfold XAIOS_TASK_SLOTS_PER_CPU in *; lia). done.
  - cbn [zero_table slot_bitmap]. unfold XAIOS_TASK_SLOTS_PER_CPU in Hi.
    assert (i / 64 = 0 \/ i / 64 = 1) as [-> | ->] by dlia; done.
Qed.

Lemma init_ok s : sched_ok s -> sched_ok (scheduler_init smp s).
Proof.
  intros H. unfold scheduler_init. set (s1 := for_range _ _ _ _).
  assert (H1 : sched_ok s1).
  { apply (for_range_ind (fun _ t => sched_ok t)); [done|]. intros c t _ Ht. apply ok_upd_stats, ok_upd_rq.
    - apply ok_upd_table; [done|]. intros _ _. apply zero_table_ok.
    - intros q Hq. by apply rq_ok_empty. }
  destruct H1 as [Q1 Q2 (Q3 & Q4 & _) _]. constructor; try done.
  cbn [g_lock_depth_per_cpu]. apply Forall_replicate. lia.
Qed.

Lemma register_ok s e p prio :
  sched_ok s -> 0 <= p -> 0 <= prio -> 0 <= find_least_loaded_cpu smp topo e ->
  sched_ok (scheduler_register_with_priority smp topo s e p prio).1.
Proof.
  intros H Hp Hpr Hc. unfold scheduler_register_with_priority. destruct (_ || _) eqn:Ep; [done|].
  apply orb_false_iff in Ep as [Ep1%Z.eqb_neq Ep2%Z.ltb_ge]. set (c := find_least_loaded_cpu smp topo e) in *.
  destruct (alloc_task_slot s c) as [s1 r] eqn:Ea. pose proof (alloc_task_slot_spec s c s1 r H Hc Ea) as Hs.
  destruct r as [k|]; [|by subst]. destruct Hs as (Hc2 & Hk & Hf & w & bit & Hw & Hb & -> & ->). cbn [fst].
  unfold upd_task. rewrite upd_table_twice by (destruct H as [_ _ [-> _] _]; lia). apply ok_upd_table_at; [done|].
  pose proof (ok_table s c H ltac:(lia)) as Ht. pose proof (claim_slot_spec _ w bit Ht Hw Hb) as Hcl.
  destruct Ht as (T1 & T2 & T3). unfold XAIOS_TASK_SLOTS_PER_CPU in *.
  split; [unfold claim_slot; cbn [slot_bitmap]; by rewrite zlen_upd|].
  split; [unfold claim_slot; cbn [slots]; by rewrite zlen_upd, zlen_set|].
  intros i Hi. destruct (Hcl i Hi) as [C1 C2]. cbn [slots].
  change (slot_bit (mk_table (slot_bitmap (claim_slot (table s c) w bit)) _) i) with (slot_bit (claim_slot (table s c) w bit) i).
  rewrite C1, upd_get by (unfold claim_slot; cbn [slots]; rewrite zlen_set, T2; done). rewrite C2.
  destruct (Z.eqb_spec i (w * 64 + bit)) as [->|Hne].
  - rewrite decide_True by done. pose proof (priority_slice_pos prio). split; [done|]. split; [done|]. intros _.
    cbn [pid assigned_cpu remaining_ticks priority state]. split; [lia|]. split; [lia|]. split; [lia|done].
  - rewrite decide_False by lia. by apply T3.
Qed.

Lemma find_least_loaded_pos e : 0 <= Smp.smp_online_count smp -> 0 <= find_least_loaded_cpu smp topo e.
Proof.
  intros Hon. unfold find_least_loaded_cpu. case_if; [done|].
  assert (Hm : forall z, 0 <= z mod Smp.smp_online_count smp) by (intros z; apply Z.mod_pos_bound; lia).
  destruct (first_below _ _); [apply Hm|]. destruct (first_below _ _); [apply Hm|done].
Qed.

Lemma unregister_ok s e p : sched_ok s -> 0 <= this_cpu e -> sched_ok (scheduler_unregister s e p).
Proof.
  intros H He. unfold scheduler_unregister. destruct (find_task_local _ _ _) as [k|] eqn:Ef; [|done].
  destruct (find_task_Some _ _ _ _ Ef) as (Hc & Hk & _ & _ & Hp).
  assert (H2 : sched_ok (free_task_slot (upd_task s (this_cpu e) k (fun t =>
    mk_task (pid t) 0 (frame t) (t_tick_count t) (t_switch_count t) (priority t) XAIOS_TASK_STATE_UNUSED
      (assigned_cpu t) (remaining_ticks t))) (this_cpu e) k)).
  { unfold free_task_slot. rewrite !(proj2 (Z.leb_gt _ _)) by lia. cbn [orb]. unfold upd_task.
    rewrite upd_table_twice by (destruct H as [_ _ [-> _] _]; lia). apply ok_upd_table_at; [done|].
    destruct (ok_table s (this_cpu e) H ltac:(lia)) as (T1 & T2 & T3). cbn [slots slot_bitmap].
    rewrite Z.shiftr_div_pow2 by lia. change 63 with (2 ^ 6 - 1). rewrite land_low_mask by lia. change (2 ^ 6) with 64.
    split; [cbn [slot_bitmap]; by rewrite zlen_upd|]. split; [cbn [slots]; by rewrite zlen_upd|]. intros i Hi. cbn [slots].
    destruct (table s (this_cpu e)) as [bm sl]. cbn [slot_bitmap slots] in *.
    erewrite (slot_bit_upd bm _ sl k _ false T1 Hk); [|intros w j Hj|done].
    2:{ rewrite Z.shiftl_1_l, land_not_pow2_testbit by dlia. by destruct (j =? _). }
    rewrite upd_get by lia. destruct (Z.eqb_spec i k) as [->|Hne].
    - rewrite decide_True by done. destruct (T3 k Hi) as (P1 & _). split; [done|]. split; [done|]. done.
    - rewrite decide_False by lia. by apply T3. }
  case_if; [|exact H2]. apply ok_upd_rq; [exact H2|]. intros q Hq.
  pose proof (rq_ok_remove q p Hq) as Hr. cbv zeta. case_if; [|done]. exact Hr.
Qed.

Lemma steal_from_ok s e victim p :
  sched_ok s -> 0 <= this_cpu e < XAIOS_MAX_CPUS -> p <> 0 -> sched_ok (steal_from s e victim p).
Proof.
  intros H He Hp. unfold steal_from. apply ok_set_counters, ok_upd_stats, ok_upd_rq; [|auto with sched].
  destruct (find_task_local s victim p) as [k|]; [|done]. apply ok_upd_task; [done|].
  intros b x (H1 & H2 & H3). split; [done|]. split; [done|]. intros Ha. destruct (H3 Ha) as (P1 & P2 & P3 & P4).
  cbn [pid assigned_cpu remaining_ticks priority state] in *. pose proof (priority_slice_pos (priority x)).
  split; [done|]. split; [done|]. split; [lia|done].
Qed.

Lemma steal_loop_ok n s e dom i attempts :
  sched_ok s -> 0 <= this_cpu e < XAIOS_MAX_CPUS -> sched_ok (steal_loop smp n s e dom i attempts).1.
Proof.
  intros H He. revert s i attempts H. induction n as [|n IH]; intros s i attempts H; cbn [steal_loop].
  { cbn [fst]. auto with sched. }
  case_if; [cbn [fst]; auto with sched|]. case_if; [auto|]. destruct (Smp.smp_cpu_state _ _) as [c|]; [|auto].
  case_if; [auto|]. case_if; [auto|]. case_if; [|auto].
  pose proof (ok_pick_stealable s ((Topology.members dom).[i]) H) as Hs.
  destruct (rq_pick_stealable _ _) as [s1 p]. cbn [fst] in Hs. destruct (Z.eqb_spec p 0); cbn [negb]; [auto|].
  cbn [fst]. by apply steal_from_ok.
Qed.

Lemma steal_domain_ok s e d :
  sched_ok s -> 0 <= this_cpu e < XAIOS_MAX_CPUS -> sched_ok (try_steal_domain smp topo s e d).1.
Proof.
  intros H He. unfold try_steal_domain. case_if; [done|]. destruct (Topology.topology_get_domain _ _); [|done].
  case_if; [done|]. by apply steal_loop_ok.
Qed.

Lemma steal_ok s e :
  sched_ok s -> 0 <= this_cpu e < XAIOS_MAX_CPUS -> sched_ok (try_steal_hierarchical smp topo s e).1.
Proof.
  intros H He. unfold try_steal_hierarchical.
  pose proof (steal_domain_ok s e (Topology.topology_get_core_domain topo (this_cpu e)) H He) as H1.
  destruct (try_steal_domain _ _ s _ _) as [s1 p1]. cbn [fst] in H1. case_if; [done|].
  pose proof (steal_domain_ok s1 e (Topology.topology_get_socket_domain topo (this_cpu e)) H1 He) as H2.
  destruct (try_steal_domain _ _ s1 _ _) as [s2 p2]. cbn [fst] in H2. case_if; [done|].
  pose proof (steal_domain_ok s2 e (Topology.topology_get_numa_domain topo (this_cpu e)) H2 He) as H3.
  destruct (try_steal_domain _ _ s2 _ _) as [s3 p3]. cbn [fst] in H3. repeat case_if; done.
Qed.

Lemma balance_ok s c : sched_ok s -> sched_ok (periodic_load_balance topo s c).
Proof.
  intros H. unfold periodic_load_balance. case_if; [auto with sched|]. case_if; [auto with sched|].
  destruct (Topology.topology_get_domain _ _) as [dm|]; [|auto with sched]. case_if; [auto with sched|].
  destruct (for_range _ _ _ _) as [x y]. case_if; auto with sched.
Qed.

Lemma switch_ok s c cur next f : sched_ok s -> sched_ok (tick_switch topo s c cur next f).1.1.
Proof.
  intros H. unfold tick_switch. case_if; [cbn [fst]|].
  - apply balance_ok, ok_upd_stats, ok_upd_rq; [done|]. by intros q (Q1 & Q2 & Q3).
  - case_if; [cbn [fst]|].
    + apply ok_upd_stats, ok_upd_rq; [done|]. by intros q (Q1 & Q2 & Q3).
    + destruct (find_task_local _ _ _) as [k|]; [|done]. cbn [fst]. unfold count_switch.
      apply ok_upd_stats, ok_set_counters, ok_upd_rq; [by apply ok_running|]. by intros q (Q1 & Q2 & Q3).
Qed.

Lemma rest_ok s e cur f :
  sched_ok s -> 0 <= this_cpu e < XAIOS_MAX_CPUS -> sched_ok (tick_rest smp topo s e cur f).1.1.
Proof.
  intros H He. unfold tick_rest. pose proof (ok_decide _ (this_cpu e) cur H) as H3.
  destruct (tick_decide _ _ _) as [s3 need]. cbn [fst] in H3. destruct need; cbn [negb].
  2:{ cbn [fst]. apply ok_upd_stats, ok_upd_rq; [done|]. by intros q (Q1 & Q2 & Q3). }
  pose proof (ok_pick_best s3 (this_cpu e) H3) as H4. destruct (rq_pick_best s3 _) as [s4 p]. cbn [fst] in H4.
  pose proof (steal_ok s4 e H4 He) as H5. destruct (p =? 0); [|by apply switch_ok].
  destruct (try_steal_hierarchical _ _ _ _) as [s5 p5]. by apply switch_ok.
Qed.

Lemma tick_ok s e f :
  sched_ok s -> 0 <= this_cpu e < XAIOS_MAX_CPUS -> sched_ok (scheduler_tick smp topo s e f).1.1.
Proof.
  intros H He. unfold scheduler_tick. case_if; [done|]. case_if; [done|]. case_if; [done|].
  apply rest_ok; [|done]. apply ok_account. auto with sched.
Qed.

Lemma yield_ok s e : sched_ok s -> sched_ok (scheduler_yield s e).1.
Proof.
  intros H. unfold scheduler_yield. case_if; [done|]. case_if; [cbn [fst]; auto with sched|].
  set (s2 := upd_stats _ _ _). assert (H2 : sched_ok s2) by (unfold s2; auto with sched). clearbody s2. cbv zeta.
  set (cur := current_pid (rq s2 (this_cpu e))). set (s3 := if cur =? 0 then _ else _).
  assert (H3 : sched_ok s3).
  { unfold s3. destruct (Z.eqb_spec cur 0) as [|Hc]; [done|]. destruct (find_task_local _ _ _) as [k|]; [|done].
    apply (ok_requeue s2 (this_cpu e) k cur (fun _ => 0) H2 Hc). intros t. pose proof (priority_slice_pos (priority t)). lia. }
  clearbody s3. pose proof (ok_pick_best s3 (this_cpu e) H3) as H4. destruct (rq_pick_best s3 _) as [s4 p]. cbn [fst] in H4.
  case_if; [|done]. cbn [fst]. unfold count_switch. apply ok_upd_stats, ok_set_counters, ok_upd_rq.
  - destruct (find_task_local _ _ _) as [k|]; [by apply ok_running|done].
  - by intros q (Q1 & Q2 & Q3).
Qed.

Lemma sched_step_ok s e x :
  sched_ok s -> call_ok e x -> 0 <= Smp.smp_online_count smp -> sched_ok (step s (e, x)).
Proof.
  intros H [He Hx] Hon. destruct x; cbn [step]; cbn in Hx.
  - by apply init_ok.
  - apply register_ok; [done|lia|lia|]. by apply find_least_loaded_pos.
  - by apply unregister_ok; [|lia].
  - unfold scheduler_set_runnable. destruct (find_task_local _ _ _) as [k|] eqn:Ef; [|done]. cbn [fst].
    assert (Hp : p <> 0).
    { destruct (find_task_Some _ _ _ _ Ef) as (_ & Hk & _ & Ha & <-).
      destruct (ok_table s (this_cpu e) H He) as (_ & _ & T). destruct (T k Hk) as (_ & _ & T3). destruct (T3 Ha). unfold task. lia. }
    case_if; [apply ok_upd_rq; [|auto with sched]|];
      (apply ok_upd_task; [done|]; intros b t; apply slot_ok_state; [done|left; apply slice_range]).
  - unfold scheduler_set_blocked. destruct (find_task_local _ _ _) as [k|]; [|done]. cbn [fst].
    case_if; [apply ok_upd_rq; [|auto with sched]|]; apply ok_upd_task; auto with sched.
  - unfold scheduler_lock. case_if; [|done]. destruct H as [? ? (? & ? & ?) ?]. apply ok_set_depth; [done|by rewrite zlen_upd|].
    apply Forall_upd; [done|]. intros d _. apply u32_range.
  - unfold scheduler_unlock. case_if; [|done]. breflect. destruct H as [? ? (? & ? & ?) ?].
    apply ok_set_depth; [done|by rewrite zlen_upd|].
    unfold upd. apply Forall_insert; [done|lia].
  - by apply tick_ok.
  - by apply yield_ok.
Qed.

Lemma sched_run_ok l s :
  sched_ok s -> Forall (fun ex => call_ok ex.1 ex.2) l -> 0 <= Smp.smp_online_count smp -> sched_ok (run s l).
Proof.
  intros H Hl Hon. revert s H. induction Hl as [|[e x] l Hx _ IH]; intros s H; [done|]. apply IH. by apply sched_step_ok.
Qed.

End Calls.
(** ** Saved frames *)

(** Slot [i] of CPU [c] is a task with pid [p]. *)
Definition slot_is (s : sched) (c p i : Z) : bool :=
  slot_bit (table s c) i && negb (active (task s c i) =? 0) && (pid (task s c i) =? p).

(** The tasks of CPU [c] with pid [p] are the same and have the same frames. *)
Definition keeps (c p : Z) (s s' : sched) : Prop :=
  forall i, 0 <= i < XAIOS_TASK_SLOTS_PER_CPU ->
    slot_is s' c p i = slot_is s c p i /\ (slot_is s c p i = true -> frame (task s' c i) = frame (task s c i)).

(** The task [p] of CPU [c] was interrupted with frame [f]. *)
Definition saved (s : sched) (c p : Z) (f : list Z) : Prop :=
  exists k, find_task_local s c p = Some k /\ frame (task s c k) = f.

Lemma keeps_refl c p s : keeps c p s s.
Proof. by intros i Hi. Qed.

Lemma keeps_trans c p s1 s2 s3 : keeps c p s1 s2 -> keeps c p s2 s3 -> keeps c p s1 s3.
Proof.
  intros H1 H2 i Hi. destruct (H1 i Hi) as [A1 B1], (H2 i Hi) as [A2 B2]. split; [congruence|].
  intros H. rewrite B2, B1 by congruence. done.
Qed.

Lemma keeps_tables c p s s' : g_cpu_tasks s' = g_cpu_tasks s -> keeps c p s s'.
Proof. intros E i Hi. unfold slot_is, task, table. rewrite E. done. Qed.

Lemma find_slot_is s c p :
  c < XAIOS_MAX_CPUS -> find_task_local s c p = first_below XAIOS_TASK_SLOTS_PER_CPU (slot_is s c p).
Proof. intros Hc. unfold find_task_local. by rewrite (proj2 (Z.leb_gt _ _)) by lia. Qed.

Lemma keeps_find c p s s' : keeps c p s s' -> find_task_local s' c p = find_task_local s c p.
Proof.
  intros H. destruct (decide (c < XAIOS_MAX_CPUS)) as [Hc|Hc].
  - rewrite !find_slot_is by done. apply first_below_ext. intros j Hj. by apply H.
  - unfold find_task_local. by rewrite !(proj2 (Z.leb_le _ _)) by lia.
Qed.

Lemma find_is s c p k : find_task_local s c p = Some k -> slot_is s c p k = true.
Proof.
  intros H. destruct (find_task_Some _ _ _ _ H) as (Hc & _). rewrite find_slot_is in H by done.
  by apply first_below_Some in H as (_ & H & _).
Qed.

Lemma keeps_saved c p s s' f : keeps c p s s' -> saved s c p f -> saved s' c p f.
Proof.
  intros H (k & Hk & <-). exists k. split; [by rewrite (keeps_find c p s s' H)|].
  destruct (find_task_Some _ _ _ _ Hk) as (_ & Hr & _). apply H; [done|by apply find_is].
Qed.

(** Reading a table after an update. *)
Lemma table_upd s c c' f :
  sched_ok s -> 0 <= c < XAIOS_MAX_CPUS -> 0 <= c' -> table (upd_table s c' f) c = if c =? c' then f (table s c) else table s c.
Proof.
  intros [_ _ [H3 _] _] Hc Hc'. unfold table, upd_table, set_tables. cbn [g_cpu_tasks]. rewrite upd_get by lia.
  destruct (Z.eqb_spec c c') as [->|]; [by rewrite decide_True|]. by rewrite decide_False by lia.
Qed.

Lemma keeps_upd_table c p s c' f :
  sched_ok s -> 0 <= c < XAIOS_MAX_CPUS -> 0 <= c' ->
  (c' = c -> forall i, 0 <= i < XAIOS_TASK_SLOTS_PER_CPU ->
     let t := table s c in let x := (slots t).[i] in let y := (slots (f t)).[i] in
     let hit b z := b && negb (active z =? 0) && (pid z =? p) in
     hit (slot_bit (f t) i) y = hit (slot_bit t i) x /\ (hit (slot_bit t i) x = true -> frame y = frame x)) ->
  keeps c p s (upd_table s c' f).
Proof.
  intros Hok Hc Hc' Hf i Hi. unfold slot_is, task. rewrite table_upd by done.
  destruct (Z.eqb_spec c c') as [<-|]; [|done]. by apply Hf.
Qed.

(** Updating one task. *)
Lemma keeps_upd_task c p s c' k f :
  sched_ok s -> 0 <= c < XAIOS_MAX_CPUS -> 0 <= c' -> 0 <= k ->
  (forall x, pid (f x) = pid x /\ active (f x) = active x) ->
  (c' = c -> pid (task s c k) = p -> frame (f (task s c k)) = frame (task s c k)) ->
  keeps c p s (upd_task s c' k f).
Proof.
  intros Hok Hc Hc' Hk Hf Hfr. apply keeps_upd_table; [done..|]. intros -> i Hi. cbv zeta. cbn [slots].
  destruct (ok_table s c Hok Hc) as (_ & T2 & _). rewrite upd_get by lia.
  change (slot_bit (mk_table (slot_bitmap (table s c)) _) i) with (slot_bit (table s c) i).
  destruct (decide _) as [E|]; [|done]. replace i with k in * by lia.
  destruct (Hf ((slots (table s c)).[k])) as [-> ->]. split; [done|]. intros [_ Hp%Z.eqb_eq]%andb_true_iff. by apply Hfr.
Qed.

(** Updating what is not the identity or the frame of a task, wherever it is. *)
Lemma keeps_upd_same c p s c' k f :
  sched_ok s -> 0 <= c < XAIOS_MAX_CPUS ->
  (forall x, pid (f x) = pid x /\ active (f x) = active x /\ frame (f x) = frame x) -> keeps c p s (upd_task s c' k f).
Proof.
  intros Hok Hc Hf i Hi. unfold slot_is, task, table, upd_task, upd_table, set_tables. cbn [g_cpu_tasks].
  pose proof Hok as [_ _ [H3 _] _]. rewrite upd_get by lia. destruct (decide _); [|done]. cbn [slots].
  destruct (ok_table s c Hok Hc) as (_ & T2 & _). unfold table in T2. rewrite upd_get by lia.
  change (slot_bit (mk_table (slot_bitmap ?t) _) i) with (slot_bit t i).
  destruct (decide _); [|done]. destruct (Hf ((slots ((g_cpu_tasks s).[c])).[i])) as (-> & -> & ->). done.
Qed.

Section Frames.
Context (smp : Smp.smp_state) (topo : Topology.topology) (c p : Z).
Hypothesis Hc : 0 <= c < XAIOS_MAX_CPUS.

Lemma keeps_pick_best s c' : keeps c p s (rq_pick_best s c').1.
Proof. unfold rq_pick_best. case_if; by apply keeps_tables. Qed.

Lemma keeps_stealable s c' : keeps c p s (rq_pick_stealable s c').1.
Proof.
  unfold rq_pick_stealable. case_if; [by apply keeps_tables|]. destruct (for_range _ _ _ _) as [x y]. cbn [fst].
  case_if; by apply keeps_tables.
Qed.

Lemma keeps_steal_from s e victim x : sched_ok s -> keeps c p s (steal_from s e victim x).
Proof.
  intros H. unfold steal_from. destruct (find_task_local s victim x) as [k|]; [|by apply keeps_tables].
  eapply keeps_trans; [apply (keeps_upd_same c p s victim k); [done|done|]|by apply keeps_tables]. done.
Qed.

Lemma keeps_steal_loop n s e dom i attempts :
  sched_ok s -> keeps c p s (steal_loop smp n s e dom i attempts).1.
Proof.
  intros H. revert s i attempts H. induction n as [|n IH]; intros s i attempts H; cbn [steal_loop].
  { by apply keeps_tables. }
  case_if; [by apply keeps_tables|]. case_if; [auto|]. destruct (Smp.smp_cpu_state _ _) as [x|]; [|auto].
  case_if; [auto|]. case_if; [auto|]. case_if; [|auto].
  pose proof (ok_pick_stealable s ((Topology.members dom).[i]) H) as Hs.
  pose proof (keeps_stealable s ((Topology.members dom).[i])) as Hk.
  destruct (rq_pick_stealable _ _) as [s1 q]. cbn [fst] in *.
  eapply keeps_trans; [exact Hk|]. case_if; [|auto]. by apply keeps_steal_from.
Qed.

Lemma keeps_steal_domain s e d : sched_ok s -> keeps c p s (try_steal_domain smp topo s e d).1.
Proof.
  intros H. unfold try_steal_domain. case_if; [apply keeps_refl|].
  destruct (Topology.topology_get_domain _ _); [|apply keeps_refl]. case_if; [apply keeps_refl|]. by apply keeps_steal_loop.
Qed.

Lemma keeps_steal s e :
  sched_ok s -> 0 <= this_cpu e < XAIOS_MAX_CPUS -> keeps c p s (try_steal_hierarchical smp topo s e).1.
Proof.
  intros H He. unfold try_steal_hierarchical.
  pose proof (steal_domain_ok smp topo s e (Topology.topology_get_core_domain topo (this_cpu e)) H He) as H1.
  pose proof (keeps_steal_domain s e (Topology.topology_get_core_domain topo (this_cpu e)) H) as K1.
  destruct (try_steal_domain _ _ s _ _) as [s1 p1]. cbn [fst] in *. case_if; [done|].
  pose proof (steal_domain_ok smp topo s1 e (Topology.topology_get_socket_domain topo (this_cpu e)) H1 He) as H2.
  pose proof (keeps_steal_domain s1 e (Topology.topology_get_socket_domain topo (this_cpu e)) H1) as K2.
  destruct (try_steal_domain _ _ s1 _ _) as [s2 p2]. cbn [fst] in *. pose proof (keeps_trans _ _ _ _ _ K1 K2) as K.
  case_if; [done|].
  pose proof (keeps_steal_domain s2 e (Topology.topology_get_numa_domain topo (this_cpu e)) H2) as K3.
  destruct (try_steal_domain _ _ s2 _ _) as [s3 p3]. cbn [fst] in *. pose proof (keeps_trans _ _ _ _ _ K K3).
  repeat case_if; done.
Qed.

Lemma keeps_decide s c' cur : sched_ok s -> keeps c p s (tick_decide s c' cur).1.
Proof.
  intros H. unfold tick_decide. case_if; [apply keeps_refl|].
  destruct (find_task_local _ _ _) as [k|]; [|apply keeps_refl]. case_if; [apply keeps_refl|].
  case_if; [|apply keeps_refl]. cbn [fst].
  eapply keeps_trans; [apply (keeps_upd_same c p s c' k); [done|done|]|by apply keeps_tables]. done.
Qed.

Lemma balance_tables s c' : g_cpu_tasks (periodic_load_balance topo s c') = g_cpu_tasks s.
Proof.
  unfold periodic_load_balance. case_if; [done|]. case_if; [done|]. destruct (Topology.topology_get_domain _ _); [|done].
  case_if; [done|]. destruct (for_range _ _ _ _). by case_if.
Qed.

Lemma keeps_switch s c' cur next f : sched_ok s -> keeps c p s (tick_switch topo s c' cur next f).1.1.
Proof.
  intros H. unfold tick_switch. case_if; [apply keeps_tables; cbn [fst]; by rewrite balance_tables|].
  case_if; [by apply keeps_tables|]. destruct (find_task_local _ _ _) as [k|]; [|apply keeps_refl]. cbn [fst].
  eapply keeps_trans; [apply (keeps_upd_same c p s c' k); [done|done|]|by apply keeps_tables]. done.
Qed.

(** The part of the tick after the frame was saved keeps every frame, and a switch to [p]
    returns its frame. *)
Lemma rest_frames s e cur g :
  sched_ok s -> 0 <= this_cpu e < XAIOS_MAX_CPUS ->
  keeps c p s (tick_rest smp topo s e cur g).1.1 /\
  forall s' h f, this_cpu e = c -> tick_rest smp topo s e cur g = (s', h, Some p) -> saved s c p f -> h = f.
Proof.
  intros H He. unfold tick_rest. pose proof (ok_decide s (this_cpu e) cur H) as H3.
  pose proof (keeps_decide s (this_cpu e) cur H) as K3. destruct (tick_decide _ _ _) as [s3 need]. cbn [fst] in *.
  destruct need; cbn [negb].
  2:{ split; [|done]. cbn [fst]. eapply keeps_trans; [exact K3|by apply keeps_tables]. }
  pose proof (ok_pick_best s3 (this_cpu e) H3) as H4. pose proof (keeps_pick_best s3 (this_cpu e)) as K4.
  destruct (rq_pick_best s3 _) as [s4 q]. cbn [fst] in *.
  assert (H5 : exists s5 q5, (if q =? 0 then try_steal_hierarchical smp topo s4 e else (s4, q)) = (s5, q5) /\
    sched_ok s5 /\ keeps c p s4 s5).
  { case_if; [|exists s4, q; by split; [|split; [|apply keeps_refl]]].
    pose proof (steal_ok smp topo s4 e H4 He). pose proof (keeps_steal s4 e H4 He).
    destruct (try_steal_hierarchical _ _ _ _) as [s5 q5]. by exists s5, q5. }
  destruct H5 as (s5 & q5 & -> & H5 & K5).
  pose proof (keeps_trans _ _ _ _ _ K3 (keeps_trans _ _ _ _ _ K4 K5)) as K. split.
  - eapply keeps_trans; [exact K|]. by apply keeps_switch.
  - intros s' h f E Et Hs. pose proof (keeps_saved _ _ _ _ _ K Hs) as (k & Hk & Hf). rewrite E in Et.
    pose proof (keeps_switch s5 c cur q5 g H5) as K6.
    rewrite Et in K6. cbn [fst] in K6. unfold tick_switch in Et. destruct (q5 =? 0); [done|].
    destruct (q5 =? cur); [done|]. destruct (find_task_local s5 c q5) as [k'|] eqn:E'; [|done].
    injection Et as Es Eh Eq. subst q5. rewrite Hk in E'. injection E' as <-. rewrite <- Eh, Es, <- Hf.
    destruct (find_task_Some _ _ _ _ Hk) as (_ & Hr & _). by apply K6, find_is.
Qed.

Lemma keeps_account s c' cur f :
  sched_ok s -> 0 <= c' -> (c' = c -> cur <> p) -> keeps c p s (tick_account s c' cur f).
Proof.
  intros H Hc' Hp. unfold tick_account. case_if; [apply keeps_refl|].
  destruct (find_task_local s c' cur) as [k|] eqn:E; [|apply keeps_refl].
  destruct (find_task_Some _ _ _ _ E) as (_ & Hk & _ & _ & Hpid).
  apply keeps_upd_task; [done|done|done|lia|done|]. intros -> Hq. exfalso. apply Hp; congruence.
Qed.

Lemma tick_keeps s e f :
  sched_ok s -> 0 <= this_cpu e < XAIOS_MAX_CPUS -> (this_cpu e = c -> current_pid (rq s c) <> p) ->
  keeps c p s (scheduler_tick smp topo s e f).1.1.
Proof.
  intros H He Hp. unfold scheduler_tick. case_if; [apply keeps_refl|]. case_if; [apply keeps_refl|].
  case_if; [apply keeps_refl|]. set (s1 := upd_stats _ _ _).
  assert (H1 : sched_ok s1) by (unfold s1; auto with sched). change (rq s1 (this_cpu e)) with (rq s (this_cpu e)).
  eapply keeps_trans; [by apply (keeps_tables c p s s1)|].
  eapply keeps_trans; [|apply rest_frames; [|done]].
  - apply keeps_account; [done|lia|]. intros E. rewrite E. by apply Hp.
  - by apply ok_account.
Qed.

(** The tick is not suppressed. *)
Definition ticking (s : sched) (e : env) : bool :=
  g_initialized s && negb (0 <? (g_lock_depth_per_cpu s).[this_cpu e]) &&
  match Smp.smp_cpu_state smp (this_cpu e) with Some x => negb (Smp.scheduling_enabled x =? 0) | None => true end.

Lemma ticking_rest s e f :
  this_cpu e = c -> ticking s e = true -> exists s1, g_cpu_tasks s1 = g_cpu_tasks s /\ (sched_ok s -> sched_ok s1) /\
    scheduler_tick smp topo s e f = tick_rest smp topo (tick_account s1 c (current_pid (rq s c)) f) e (current_pid (rq s c)) f.
Proof.
  intros E Ht. apply andb_true_iff in Ht as [[Hi Hd%negb_true_iff]%andb_true_iff Hen]. unfold scheduler_tick.
  rewrite Hi, Hd, E, (proj2 (Z.leb_gt _ _)) by lia. cbn [negb orb]. rewrite E in Hen.
  eexists. split; [|split; [|destruct (Smp.smp_cpu_state smp c) as [x|]; [|reflexivity]]].
  - reflexivity.
  - intros H. by apply ok_upd_stats, ok_set_counters.
  - apply negb_true_iff in Hen. rewrite Hen. reflexivity.
Qed.

Lemma tick_saves s e f k :
  sched_ok s -> this_cpu e = c -> ticking s e = true -> p <> 0 -> current_pid (rq s c) = p ->
  find_task_local s c p = Some k -> saved (scheduler_tick smp topo s e f).1.1 c p f.
Proof.
  intros H E Ht Hp Hcur Hk. destruct (ticking_rest s e f E Ht) as (s1 & Es & H1 & ->). rewrite Hcur. specialize (H1 H).
  assert (Ha : saved (tick_account s1 c p f) c p f).
  { unfold tick_account. rewrite (proj2 (Z.eqb_neq p 0)) by done.
    assert (Hk1 : find_task_local s1 c p = Some k) by (rewrite <- Hk; by apply keeps_find, keeps_tables).
    rewrite Hk1. set (g := fun t : xaios_sched_task => _). exists k.
    destruct (find_task_Some _ _ _ _ Hk1) as (_ & Hr & _ & _ & _).
    destruct (ok_table s1 c H1 Hc) as (_ & T2 & _). split.
    - rewrite <- Hk1. rewrite !find_slot_is by lia. apply first_below_ext. intros j Hj.
      unfold slot_is, task, upd_task. rewrite table_upd, Z.eqb_refl by (done || lia). cbn [slots].
      rewrite upd_get by lia. by destruct (decide _).
    - unfold task, upd_task. rewrite table_upd, Z.eqb_refl by (done || lia). cbn [slots].
      by rewrite upd_get, decide_True by lia. }
  eapply keeps_saved; [|exact Ha]. apply rest_frames; [by apply ok_account|lia].
Qed.

Lemma tick_restores s e f g s' h :
  sched_ok s -> this_cpu e = c -> current_pid (rq s c) <> p -> saved s c p f ->
  scheduler_tick smp topo s e g = (s', h, Some p) -> h = f.
Proof.
  intros H E Hcur Hs Et. destruct (ticking s e) eqn:Htk.
  - destruct (ticking_rest s e g E Htk) as (s1 & Es & H1 & Eq). rewrite Eq in Et. specialize (H1 H).
    eapply (rest_frames _ e _ g); [by apply ok_account|lia|exact E|exact Et|].
    eapply keeps_saved; [|exact Hs]. eapply keeps_trans; [apply keeps_tables; exact Es|].
    apply keeps_account; [done|lia|done].
  - exfalso. unfold ticking in Htk. unfold scheduler_tick in Et. destruct (g_initialized s); [|done].
    destruct (0 <? _); cbn [negb andb] in *; [by rewrite orb_true_r in Et|].
    rewrite E, (proj2 (Z.leb_gt _ _)) in * by lia. cbn [orb] in Et.
    destruct (Smp.smp_cpu_state smp c); [|done]. apply negb_false_iff in Htk. by rewrite Htk in Et.
Qed.

(** Calls that do not end, rename or run the task [p] of CPU [c]. *)
Definition leaves (s : sched) (ex : env * call) : Prop :=
  let '(e, x) := ex in
  match x with
  | Init => False
  | Register q _ => q <> p
  | Unregister q => this_cpu e = c -> q <> p
  | Tick _ => this_cpu e = c -> current_pid (rq s c) <> p
  | _ => True
  end.

Lemma keeps_register s e q prio :
  sched_ok s -> q <> p -> 0 <= find_least_loaded_cpu smp topo e ->
  keeps c p s (scheduler_register_with_priority smp topo s e q prio).1.
Proof.
  intros H Hq Hl. unfold scheduler_register_with_priority. destruct (_ || _); [apply keeps_refl|].
  set (c' := find_least_loaded_cpu smp topo e) in *. destruct (alloc_task_slot s c') as [s1 r] eqn:Ea.
  pose proof (alloc_task_slot_spec s c' s1 r H Hl Ea) as Hs. destruct r as [k|]; [|subst; apply keeps_refl].
  destruct Hs as (Hc2 & Hk & Hf & w & bit & Hw & Hb & -> & ->). cbn [fst].
  unfold upd_task. rewrite upd_table_twice by (destruct H as [_ _ [-> _] _]; lia).
  apply keeps_upd_table; [done|done|done|]. intros E i Hi. rewrite E in Hf. cbv zeta. cbn [slots].
  pose proof (ok_table s c H Hc) as Ht. destruct (claim_slot_spec _ w bit Ht Hw Hb i Hi) as [C1 C2].
  destruct Ht as (_ & T2 & _).
  change (slot_bit (mk_table (slot_bitmap (claim_slot (table s c) w bit)) _) i) with (slot_bit (claim_slot (table s c) w bit) i).
  rewrite C1, upd_get by (unfold claim_slot; cbn [slots]; rewrite zlen_set, T2; done). rewrite C2.
  destruct (Z.eqb_spec i (w * 64 + bit)) as [->|Hne].
  - rewrite decide_True by done. rewrite Hf. cbn [active pid andb]. by rewrite (proj2 (Z.eqb_neq q p)) by done.
  - by rewrite decide_False by lia.
Qed.

Lemma keeps_unregister s e q :
  sched_ok s -> 0 <= this_cpu e -> (this_cpu e = c -> q <> p) -> keeps c p s (scheduler_unregister s e q).
Proof.
  intros H He Hq. unfold scheduler_unregister. destruct (find_task_local _ _ _) as [k|] eqn:Ef; [|apply keeps_refl].
  destruct (find_task_Some _ _ _ _ Ef) as (Hlt & Hk & _ & _ & Hp). cbv zeta. set (s2 := free_task_slot _ _ _).
  assert (H2 : keeps c p s s2).
  { unfold s2, free_task_slot. rewrite !(proj2 (Z.leb_gt _ _)) by lia. cbn [orb]. unfold upd_task.
    rewrite upd_table_twice by (destruct H as [_ _ [-> _] _]; lia). apply keeps_upd_table; [done|done|done|].
    intros E i Hi. specialize (Hq E). rewrite E in Hp. unfold task in Hp. cbv zeta. cbn [slots slot_bitmap].
    destruct (ok_table s c H Hc) as (T1 & T2 & _). destruct (table s c) as [bm sl]. cbn [slots slot_bitmap] in *.
    rewrite Z.shiftr_div_pow2 by lia. change 63 with (2 ^ 6 - 1). rewrite land_low_mask by lia. change (2 ^ 6) with 64.
    erewrite (slot_bit_upd bm _ sl k _ false T1 Hk); [|intros w j Hj|done].
    2:{ rewrite Z.shiftl_1_l, land_not_pow2_testbit by dlia. by destruct (j =? _). }
    rewrite upd_get by lia. destruct (Z.eqb_spec i k) as [->|Hne]; [|by rewrite decide_False by lia].
    rewrite decide_True by done. rewrite Hp, (proj2 (Z.eqb_neq q p)) by done. by rewrite !andb_false_r. }
  clearbody s2. case_if; [|exact H2]. eapply keeps_trans; [exact H2|by apply keeps_tables].
Qed.

Lemma keeps_yield s e : sched_ok s -> keeps c p s (scheduler_yield s e).1.
Proof.
  intros H. unfold scheduler_yield. case_if; [apply keeps_refl|]. case_if; [by apply keeps_tables|].
  set (s2 := upd_stats _ _ _). assert (H2 : sched_ok s2) by (unfold s2; auto with sched).
  assert (K2 : keeps c p s s2) by (by apply keeps_tables). clearbody s2. cbv zeta.
  set (cur := current_pid (rq s2 (this_cpu e))). set (s3 := if cur =? 0 then _ else _).
  assert (H3 : sched_ok s3 /\ keeps c p s s3).
  { unfold s3. destruct (Z.eqb_spec cur 0) as [|Hc0]; [done|]. destruct (find_task_local _ _ _) as [k|]; [|done]. split.
    - apply (ok_requeue s2 (this_cpu e) k cur (fun _ => 0) H2 Hc0). intros t. pose proof (priority_slice_pos (priority t)). lia.
    - eapply keeps_trans; [exact K2|]. eapply keeps_trans; [apply (keeps_upd_same c p s2 (this_cpu e) k); [done|done|]|by apply keeps_tables]. done. }
  destruct H3 as [H3 K3]. clearbody s3. pose proof (ok_pick_best s3 (this_cpu e) H3) as H4.
  pose proof (keeps_pick_best s3 (this_cpu e)) as K4. destruct (rq_pick_best s3 _) as [s4 q]. cbn [fst] in *.
  pose proof (keeps_trans _ _ _ _ _ K3 K4) as K. case_if; [|done]. cbn [fst].
  destruct (find_task_local _ _ _) as [k|]; [|eapply keeps_trans; [exact K|by apply keeps_tables]].
  eapply keeps_trans; [exact K|]. eapply keeps_trans; [apply (keeps_upd_same c p s4 (this_cpu e) k); [done|done|]|by apply keeps_tables].
  done.
Qed.

Lemma step_keeps s e x :
  sched_ok s -> call_ok e x -> 0 <= Smp.smp_online_count smp -> leaves s (e, x) -> keeps c p s (step smp topo s (e, x)).
Proof.
  intros H [He Hx] Hon Hl. destruct x; cbn [step leaves] in *.
  - done.
  - apply keeps_register; [done|done|]. by apply find_least_loaded_pos.
  - apply keeps_unregister; [done|lia|done].
  - unfold scheduler_set_runnable. destruct (find_task_local _ _ _) as [k|]; [|apply keeps_refl]. cbn [fst].
    set (s1 := upd_task _ _ _ _). assert (K : keeps c p s s1) by (by apply keeps_upd_same). clearbody s1.
    case_if; [eapply keeps_trans; [exact K|by apply keeps_tables]|exact K].
  - unfold scheduler_set_blocked. destruct (find_task_local _ _ _) as [k|]; [|apply keeps_refl]. cbn [fst].
    set (s1 := upd_task _ _ _ _). assert (K : keeps c p s s1) by (by apply keeps_upd_same). clearbody s1.
    case_if; [eapply keeps_trans; [exact K|by apply keeps_tables]|exact K].
  - unfold scheduler_lock. case_if; by apply keeps_tables.
  - unfold scheduler_unlock. case_if; by apply keeps_tables.
  - by apply tick_keeps.
  - by apply keeps_yield.
Qed.

(** A sequence of such calls. *)
Fixpoint quiet (s : sched) (l : list (env * call)) : Prop :=
  match l with
  | [] => True
  | ex :: l' => call_ok ex.1 ex.2 /\ leaves s ex /\ quiet (step smp topo s ex) l'
  end.

Lemma run_keeps l s :
  sched_ok s -> 0 <= Smp.smp_online_count smp -> quiet s l -> sched_ok (run smp topo s l) /\ keeps c p s (run smp topo s l).
Proof.
  intros H Hon. revert s H. induction l as [|[e x] l IH]; intros s H Hq; [split; [done|apply keeps_refl]|].
  destruct Hq as (H1 & H2 & H3). cbn [fst snd] in H1. destruct (IH _ (sched_step_ok smp topo s e x H H1 Hon) H3) as [Ho Hk].
  split; [done|]. eapply keeps_trans; [by apply step_keeps|exact Hk].
Qed.

End Frames.
(** ** Properties *)

(** Static storage before [scheduler_init]. *)
Definition boot : sched :=
  mk_sched (replicate (Z.to_nat XAIOS_MAX_CPUS) zero_table) (replicate (Z.to_nat XAIOS_MAX_CPUS) zero_rq)
    (replicate (Z.to_nat XAIOS_MAX_CPUS) zero_stats) 0 0 0 0 false (replicate (Z.to_nat XAIOS_MAX_CPUS) 0) 0.

Lemma boot_ok : sched_ok boot.
Proof.
  constructor; cbn [boot g_cpu_tasks g_runqueues g_lock_depth_per_cpu].
  - apply Forall_replicate, zero_table_ok.
  - apply Forall_replicate. split; [done|]. split; [done|]. split; [apply NoDup_nil_2|set_solver].
  - unfold zlen. by rewrite !length_replicate.
  - by apply Forall_replicate.
Qed.

(** C28: under any sequence of scheduler calls by any CPUs, with any timer values and any
    outcome of the trylocks, every run queue stays within its capacity without duplicates or
    the reserved pid, every bitmap marks exactly the slots in use, every task in use has a
    valid pid, CPU and state and no more ticks left than the slice of its priority. *)
Theorem sched_calls_ok (smp : Smp.smp_state) (topo : Topology.topology) (l : list (env * call)) :
  0 <= Smp.smp_online_count smp -> Forall (fun ex => call_ok ex.1 ex.2) l -> sched_ok (run smp topo boot l).
Proof. intros Hon Hl. apply sched_run_ok; [apply boot_ok|done|done]. Qed.

(** The choice of the next task is exact: nothing on an empty queue, otherwise the
    first task of the highest priority (unknown tasks count as low), which leaves the queue
    while the others keep their order; no other queue and no task changes. *)
Theorem sched_pick_best_exact (s : sched) (c : Z) :
  sched_ok s -> 0 <= c < XAIOS_MAX_CPUS ->
  let q := queue (rq s c) in
  let '(s', p) := rq_pick_best s c in
  (q = [] -> p = 0 /\ s' = s) /\
  (q <> [] -> p <> 0 /\ first_best s c q p /\ queue (rq s' c) = filter (.≠ p) q /\ g_cpu_tasks s' = g_cpu_tasks s /\
     forall c', 0 <= c' < XAIOS_MAX_CPUS -> c' <> c -> rq s' c' = rq s c').
Proof.
  intros H Hc. pose proof (ok_rq s c H Hc) as Hq. pose proof (queue_length _ Hq) as Hl. cbv zeta.
  unfold rq_pick_best. destruct (Z.eqb_spec (count (rq s c)) 0) as [E0|E0].
  { split; [done|]. intros Hne. exfalso. apply Hne. apply length_zero_iff_nil. zlia. }
  set (best := best_from _ _ _ _ _ _ _). split; [intros Hn; exfalso; apply E0; by rewrite <- Hl, Hn|].
  intros _.
  assert (Hb : first_best s c (queue (rq s c)) best).
  { pose proof Hq as (Hcnt & _). destruct (best_from_scanned s c (rq s c) (Z.to_nat (count (rq s c))) 0
      ((tasks (rq s c)).[0]) XAIOS_PRIORITY_LOW) as [pr Hs]; [|done|lia|by split; [|split; [intros; lia|left]]|].
    - intros p k Hk. destruct (find_task_Some _ _ _ _ Hk) as (_ & Hk2 & _). destruct (ok_table s c H Hc) as (_ & _ & T).
      by destruct (T k Hk2).
    - apply (scanned_best s c (rq s c) best pr Hq); [lia|exact Hs]. }
  pose proof H as [_ _ (_ & Hsz & _) _].
  split; [|split; [exact Hb|split; [|split; [done|]]]].
  - intros E. destruct Hb as (b & Hb & _). destruct Hq as (_ & _ & _ & Hz). apply Hz. rewrite <- E.
    by eapply list_elem_of_lookup_2.
  - unfold rq at 1, upd_rq. cbn [g_runqueues]. rewrite upd_get_eq by lia. by apply rq_remove_spec.
  - intros c' Hc' Hne. unfold rq, upd_rq. cbn [g_runqueues]. by rewrite upd_get_ne by lia.
Qed.

(** C5: an interrupted task resumes where it was.  When a tick interrupts the current task
    [p] of CPU [c] with frame [f], then after any sequence of scheduler calls by any CPUs
    that neither end nor run that task (work stealing included), a tick on [c] that switches
    to [p] returns exactly [f]. *)
Theorem sched_frame_roundtrip (smp : Smp.smp_state) (topo : Topology.topology) (s : sched) (c p k : Z) (e e' : env)
    (f g h : list Z) (l : list (env * call)) (s' : sched) :
  sched_ok s -> 0 <= Smp.smp_online_count smp -> 0 <= c < XAIOS_MAX_CPUS -> this_cpu e = c -> this_cpu e' = c ->
  ticking smp s e = true -> current_pid (rq s c) = p -> p <> 0 -> find_task_local s c p = Some k ->
  let s1 := (scheduler_tick smp topo s e f).1.1 in
  quiet smp topo c p s1 l ->
  let s2 := run smp topo s1 l in
  current_pid (rq s2 c) <> p -> scheduler_tick smp topo s2 e' g = (s', h, Some p) -> h = f.
Proof.
  intros H Hon Hc E E' Ht Hcur Hp Hk s1 Hq s2 Hcur2 Ht2.
  assert (H1 : sched_ok s1) by (apply tick_ok; [done|lia]).
  pose proof (tick_saves smp topo c p Hc s e f k H E Ht Hp Hcur Hk) as Hs. fold s1 in Hs.
  destruct (run_keeps smp topo c p Hc l s1 H1 Hon Hq) as [H2 K]. fold s2 in H2, K.
  eapply (tick_restores smp topo c p Hc s2 e' f g s' h); [done|done|done| |exact Ht2]. by eapply keeps_saved.
Qed.

(** *** Examples *)

(** CPUs [0 .. n-1] online. *)
Definition some_cpus (n : Z) : Smp.smp_state :=
  Smp.mk_smp (replicate (Z.to_nat n) (Smp.mk_cpu 0 1 0 Smp.XAIOS_CPU_ROLE_SCHEDULING 0 0 0 0 0 1 0) ++
    replicate (Z.to_nat (256 - n)) (Smp.mk_cpu 0 0 0 Smp.XAIOS_CPU_ROLE_OFFLINE 0 0 0 0 0 0 0)) n.

Definition on_cpu (c timer : Z) : env := mk_env c timer (fun _ => true).

(** Two runnable tasks, 1 of low and 2 of high priority, on one CPU. *)
Definition demo_calls : list (env * call) :=
  (fun x => (on_cpu 0 0, x)) <$>
    [Init; Register 1 XAIOS_PRIORITY_LOW; Register 2 XAIOS_PRIORITY_HIGH; Set_runnable 1; Set_runnable 2].

Definition demo_run (l : list (env * call)) : sched := run (some_cpus 1) Topology.no_topology boot (demo_calls ++ l).

Definition demo_tick (f : list Z) : env * call := (on_cpu 0 0, Tick f).

Lemma demo_calls_ok l : Forall (fun ex => call_ok ex.1 ex.2) l -> Forall (fun ex => call_ok ex.1 ex.2) (demo_calls ++ l).
Proof. intros Hl. apply Forall_app. split; [|done]. by repeat constructor. Qed.

Lemma demo_ok l : Forall (fun ex => call_ok ex.1 ex.2) l -> sched_ok (demo_run l).
Proof.
  intros Hl. unfold demo_run. apply sched_run_ok; [exact boot_ok|exact (demo_calls_ok l Hl)|]. discriminate.
Qed.

Lemma sched_calls_ok_witness : sched_ok (demo_run [demo_tick [7]]).
Proof.
  unfold demo_run. apply sched_calls_ok; [discriminate|]. apply demo_calls_ok. by repeat constructor.
Defined.

Lemma sched_pick_best_exact_witness : exists s', rq_pick_best (demo_run []) 0 = (s', 2) /\ queue (rq s' 0) = [1].
Proof.
  pose proof (sched_pick_best_exact (demo_run []) 0 (demo_ok [] (Forall_nil_2 _)) ltac:(done)) as H. cbv zeta in H.
  assert (Hq : queue (rq (demo_run []) 0) = [1; 2]) by (vm_compute; reflexivity).
  assert (Hp : (rq_pick_best (demo_run []) 0).2 = 2) by (vm_compute; reflexivity).
  destruct (rq_pick_best (demo_run []) 0) as [s' p]. cbn [snd] in Hp. subst p. rewrite Hq in H.
  destruct H as [_ H]. destruct (H ltac:(discriminate)) as (_ & _ & H2 & _).
  exists s'. split; [reflexivity|]. rewrite H2. reflexivity.
Defined.

(** The task interrupted with frame [7] and made runnable again. *)
#[local] Notation demo_interrupted :=
  (run (some_cpus 1) Topology.no_topology
    (scheduler_tick (some_cpus 1) Topology.no_topology (demo_run [demo_tick [0]]) (on_cpu 0 0) [7]).1.1
    [(on_cpu 0 0, Set_runnable 2)]).

Lemma demo_resumes s h r :
  scheduler_tick (some_cpus 1) Topology.no_topology demo_interrupted (on_cpu 0 0) [9] = (s, h, r) ->
  r = Some 2 /\ current_pid (rq demo_interrupted 0) <> 2.
Proof.
  intros E. split; [|vm_compute; discriminate].
  change r with (s, h, r).2. rewrite <- E. vm_compute. reflexivity.
Qed.

Lemma demo_interruptible :
  ticking (some_cpus 1) (demo_run [demo_tick [0]]) (on_cpu 0 0) = true /\
  current_pid (rq (demo_run [demo_tick [0]]) 0) = 2 /\ find_task_local (demo_run [demo_tick [0]]) 0 2 = Some 1.
Proof. vm_compute. done. Qed.

Lemma demo_quiet s : quiet (some_cpus 1) Topology.no_topology 0 2 s [(on_cpu 0 0, Set_runnable 2)].
Proof. split; [split; [split; [discriminate|reflexivity]|discriminate]|]. split; exact I. Qed.

Lemma sched_frame_roundtrip_witness :
  exists s', scheduler_tick (some_cpus 1) Topology.no_topology demo_interrupted (on_cpu 0 0) [9] = (s', [7], Some 2).
Proof.
  destruct (scheduler_tick (some_cpus 1) Topology.no_topology demo_interrupted (on_cpu 0 0) [9]) as [[s' h] r] eqn:E.
  destruct (demo_resumes s' h r E) as [-> Hcur]. destruct demo_interruptible as (H1 & H2 & H3).
  exists s'. replace h with [7]; [reflexivity|]. symmetry.
  refine (sched_frame_roundtrip (some_cpus 1) Topology.no_topology (demo_run [demo_tick [0]]) 0 2 1 (on_cpu 0 0) (on_cpu 0 0)
    [7] [9] h [(on_cpu 0 0, Set_runnable 2)] s' (demo_ok _ _) _ _ eq_refl eq_refl H1 H2 _ H3 (demo_quiet _) Hcur E).
  - by repeat constructor.
  - discriminate.
  - split; [discriminate|reflexivity].
  - discriminate.
Defined.

(** A task picked by a tick is marked running, which the next tick takes for a reason to
    reschedule: it loses the CPU after one tick, whatever its slice, and is not queued again. *)
Lemma tick_drops_running_task :
  let s := demo_run [demo_tick [0]; demo_tick [7]] in
  current_pid (rq s 0) = 1 /\ queue (rq s 0) = [] /\
  match find_task_local s 0 2 with Some k => remaining_ticks (task s 0 k) = 3 | None => False end.
Proof. vm_compute. done. Qed.

(** A task is registered on a CPU the timer picks, but made runnable only by that CPU: with
    two CPUs online the boot test can fail, as it passes with one. *)
Lemma self_test_depends_on_timer :
  (scheduler_self_test (some_cpus 1) Topology.no_topology (scheduler_init (some_cpus 1) boot) (on_cpu 0 0)).2 = true /\
  (scheduler_self_test (some_cpus 2) Topology.no_topology (scheduler_init (some_cpus 2) boot) (on_cpu 0 1)).2 = false.
Proof. vm_compute. done. Qed.

(** A stolen task is put in the thief's queue but stays in the victim's table, where the
    thief does not look: its next two ticks take the task off the queue without running it. *)
Lemma stolen_task_lost :
  let smp := some_cpus 2 in
  let topo := Topology.topology_init smp Topology.no_topology in
  let s := run smp topo boot
    ((fun x => (on_cpu 0 0, x)) <$> [Init; Register 1 0; Register 2 0; Register 3 0; Register 4 0; Set_runnable 1;
       Set_runnable 2; Set_runnable 3; Set_runnable 4; Tick []]) in
  let s1 := step smp topo s (on_cpu 1 0, Tick []) in
  let s2 := step smp topo s1 (on_cpu 1 0, Tick []) in
  queue (rq s 0) = [2; 3; 4] /\ queue (rq s1 0) = [3; 4] /\ queue (rq s1 1) = [2] /\
  queue (rq s2 0) = [3; 4] /\ queue (rq s2 1) = [] /\ current_pid (rq s2 0) = 1 /\ current_pid (rq s2 1) = 0.
Proof. vm_compute. done. Qed.

End Scheduler.
