(* ===== verification/CoreLease.v ===== *)
(** * Core leases (kernel/runtime/core_lease.c)

    The lease table: an owner leases a set of CPUs, given as a 32-bit mask, for
    exclusive use.  The table calls into the per-CPU registry, here through the
    interface [SmpLeasing] of Smp.v, so the theorems hold for any registry that
    satisfies [SmpLeasingLaws].  A failed [kassert] is [None]: the theorems show
    that none fails. *)

From S2P Require Import Prelude Smp.

Module CoreLease.

Definition MAX_CORE_LEASES : Z := 4096.

Record core_lease := mk_lease {
  owner_id : Z;
  core_mask : Z;
  irq_isolated_mask : Z;
  active : Z
}.

#[global] Instance core_lease_inhabited : Inhabited core_lease := populate (mk_lease 0 0 0 0).

(** [(mask & (UINT32_C(1) << cpu)) != 0] *)
Definition has_cpu (mask cpu : Z) : bool := negb (Z.land mask (Z.shiftl 1 cpu) =? 0).

Definition core_lease_init (l : list core_lease) : list core_lease :=
  (fun _ => mk_lease 0 0 0 0) <$> l.

Definition union_masks (f : core_lease -> Z) (l : list core_lease) : Z :=
  foldl (fun mask e => if negb (active e =? 0) then Z.lor mask (f e) else mask) 0 l.
Definition core_lease_used_mask : list core_lease -> Z := union_masks core_mask.
Definition core_lease_irq_isolated_mask : list core_lease -> Z := union_masks irq_isolated_mask.

Section Table.
Context {S : Type} `{!SmpLeasing S}.

Definition validate_core_mask (s : S) (mask : Z) : xaios_status :=
  if (mask =? 0) || negb (Z.land mask 1 =? 0) then XAIOS_ERR_INVALID else
  if forallb (fun cpu => negb (has_cpu mask cpu) || cpu_leasable s cpu) (seqZ 0 32)
  then XAIOS_OK else XAIOS_ERR_INVALID.

(** The loop [for (cpu = 1; cpu < 32; ++cpu)] over the CPUs of a mask. *)
Fixpoint release_cores (owner mask : Z) (cpus : list Z) (s : S) : option S :=
  match cpus with
  | [] => Some s
  | cpu :: rest =>
      if has_cpu mask cpu then
        let '(s1, st) := smp_release s cpu owner in
        if is_ok st then release_cores owner mask rest s1 else None
      else release_cores owner mask rest s
  end.

Definition release_marked_cores (owner marked : Z) (s : S) : option S :=
  release_cores owner marked (seqZ 1 31) s.

Fixpoint mark_cores (owner mask : Z) (cpus : list Z) (marked : Z) (s : S) : S * Z * bool :=
  match cpus with
  | [] => (s, marked, true)
  | cpu :: rest =>
      if has_cpu mask cpu then
        let '(s1, st) := smp_mark s cpu owner in
        if is_ok st then mark_cores owner mask rest (Z.lor marked (Z.shiftl 1 cpu)) s1
        else (s1, marked, false)
      else mark_cores owner mask rest marked s
  end.

Definition core_lease_acquire (l : list core_lease) (s : S) (owner mask : Z)
    : option (list core_lease * S * xaios_status) :=
  if negb (is_ok (validate_core_mask s mask)) ||
     negb (Z.land (core_lease_used_mask l) mask =? 0)
  then Some (l, s, XAIOS_ERR_INVALID) else
  match find_idx (fun e => active e =? 0) l with
  | None => Some (l, s, XAIOS_ERR_NO_MEMORY)
  | Some i =>
      let '(s1, marked, ok) := mark_cores owner mask (seqZ 1 31) 0 s in
      if ok then
        Some (l.[Z.of_nat i <- mk_lease owner mask marked 1], s1, XAIOS_OK)
      else
        s2 ← release_marked_cores owner marked s1;
        Some (l, s2, XAIOS_ERR_INVALID)
  end.

(** The loop over the table in [core_lease_release]. *)
Fixpoint release_scan (owner : Z) (l : list core_lease) (s : S)
    : option (list core_lease * S * bool) :=
  match l with
  | [] => Some ([], s, false)
  | e :: rest =>
      if negb (active e =? 0) && (owner_id e =? owner) then
        s1 ← release_cores owner (core_mask e) (seqZ 1 31) s;
        match release_scan owner rest s1 with
        | Some (rest', s2, _) => Some (mk_lease (owner_id e) 0 0 0 :: rest', s2, true)
        | None => None
        end
      else
        match release_scan owner rest s with
        | Some (rest', s2, found) => Some (e :: rest', s2, found)
        | None => None
        end
  end.

Definition core_lease_release (l : list core_lease) (s : S) (owner : Z)
    : option (list core_lease * S * xaios_status) :=
  match release_scan owner l s with
  | Some (l', s', found) => Some (l', s', if found then XAIOS_OK else XAIOS_ERR_INVALID)
  | None => None
  end.

(** ** Invariant *)

Definition mask_ok (e : core_lease) : Prop :=
  active e <> 0 ->
  0 < core_mask e < 4294967296 /\ Z.testbit (core_mask e) 0 = false /\
  irq_isolated_mask e = core_mask e.

(** No CPU is in two active leases. *)
Definition disjoint_leases (l : list core_lease) : Prop :=
  forall i j a b cpu, l !! i = Some a -> l !! j = Some b -> i <> j ->
  active a <> 0 -> active b <> 0 ->
  Z.testbit (core_mask a) cpu = true -> Z.testbit (core_mask b) cpu = false.

(** [cpu] is leased to [o] in the table. *)
Definition table_lease (l : list core_lease) (cpu o : Z) : Prop :=
  exists e, e ∈ l /\ active e <> 0 /\ owner_id e = o /\ Z.testbit (core_mask e) cpu = true.

(** The table and the registry agree on who holds which CPU. *)
Definition lease_inv (l : list core_lease) (s : S) : Prop :=
  smp_wf s /\ Forall mask_ok l /\ disjoint_leases l /\
  forall cpu o, 1 <= cpu < 32 -> leased_to s cpu = Some o <-> table_lease l cpu o.

End Table.

(** ** Lemmas on masks *)

Lemma has_cpu_testbit mask cpu : 0 <= cpu -> has_cpu mask cpu = Z.testbit mask cpu.
Proof.
  intros Hc. unfold has_cpu. destruct (Z.testbit mask cpu) eqn:Ht.
  - apply negb_true_iff, Z.eqb_neq. intros Hz.
    assert (Hb : Z.testbit (Z.land mask (Z.shiftl 1 cpu)) cpu = true)
      by (rewrite Z.land_spec, Ht, Z.shiftl_spec, Z.sub_diag by lia; done).
    by rewrite Hz, Z.bits_0 in Hb.
  - apply negb_false_iff, Z.eqb_eq, Z.bits_inj'. intros n Hn.
    rewrite Z.land_spec, Z.bits_0, Z.shiftl_spec, testbit_one by lia.
    destruct (decide (n = cpu)) as [->|]; [by rewrite Ht|].
    replace (n - cpu =? 0) with false by lia. apply andb_false_r.
Qed.

Lemma testbit_union f l cpu :
  0 <= cpu ->
  Z.testbit (union_masks f l) cpu = existsb (fun e => negb (active e =? 0) && Z.testbit (f e) cpu) l.
Proof.
  intros Hc. unfold union_masks.
  assert (H : forall m, Z.testbit (foldl (fun mask e =>
      if negb (active e =? 0) then Z.lor mask (f e) else mask) m l) cpu =
      Z.testbit m cpu || existsb (fun e => negb (active e =? 0) && Z.testbit (f e) cpu) l).
  { induction l as [|e l IH]; intros m; simpl; [by rewrite orb_false_r|].
    rewrite IH. destruct (negb (active e =? 0)); simpl; [|done].
    by rewrite Z.lor_spec, orb_assoc. }
  by rewrite H, Z.bits_0.
Qed.

(** ** The loops over CPUs, against the registry interface *)

Section Loops.
Context {S : Type} `{!SmpLeasing S} `{!SmpLeasingLaws S}.

(** CPU [c] is one the loop over [cpus] acts on. *)
Definition selected (cpus : list Z) (mask c : Z) : bool :=
  bool_decide (c ∈ cpus) && Z.testbit mask c.

Lemma selected_cons cpu cpus mask c :
  selected (cpu :: cpus) mask c = (c =? cpu) && Z.testbit mask c || selected cpus mask c.
Proof.
  unfold selected. destruct (Z.testbit mask c); rewrite ?andb_true_r, ?andb_false_r; [|done].
  destruct (Z.eqb_spec c cpu) as [->|Hne]; simpl.
  - apply bool_decide_eq_true. left.
  - apply bool_decide_ext. rewrite elem_of_cons. naive_solver.
Qed.

Lemma release_cores_spec owner mask cpus s :
  smp_wf s -> NoDup cpus -> Forall (fun c => 1 <= c < 32) cpus ->
  (forall c, selected cpus mask c = true -> leased_to s c = Some owner) ->
  exists s', release_cores owner mask cpus s = Some s' /\ smp_wf s' /\
    forall c, 0 <= c ->
      leased_to s' c = (if selected cpus mask c then None else leased_to s c) /\
      cpu_leasable s' c = (if selected cpus mask c then true else cpu_leasable s c).
Proof.
  revert s. induction cpus as [|cpu cpus IH]; intros s Hw Hnd Hr Hl; simpl; [by exists s|].
  apply NoDup_cons in Hnd as [Hni Hnd]. apply Forall_cons in Hr as [Hc Hr].
  rewrite has_cpu_testbit by lia. destruct (Z.testbit mask cpu) eqn:Hb.
  - assert (Hlc : leased_to s cpu = Some owner)
      by (apply Hl; rewrite selected_cons, Z.eqb_refl, Hb; done).
    destruct (release_succeeds s cpu owner Hw Hc Hlc) as (s1 & -> & Hw1 & H1 & H2 & Ho). simpl.
    destruct (IH s1 Hw1 Hnd Hr) as (s' & -> & Hw' & Hs').
    { intros c Hsel. assert (c ∈ cpus) by (apply andb_true_iff in Hsel as [H _]; by apply bool_decide_eq_true in H).
      rewrite Forall_forall in Hr. specialize (Hr c H).
      rewrite (proj1 (Ho c ltac:(lia) ltac:(set_solver))). apply Hl.
      by rewrite selected_cons, Hsel, orb_true_r. }
    exists s'. split_and!; [done|done|]. intros c Hc0. destruct (Hs' c Hc0) as [-> ->].
    rewrite selected_cons. destruct (Z.eqb_spec c cpu) as [->|Hne].
    + rewrite Hb. simpl. by destruct (selected cpus mask cpu).
    + simpl. destruct (Ho c Hc0 Hne) as [-> ->]. done.
  - destruct (IH s Hw Hnd Hr) as (s' & -> & Hw' & Hs').
    { intros c Hsel. apply Hl. by rewrite selected_cons, Hsel, orb_true_r. }
    exists s'. split_and!; [done|done|]. intros c Hc0. destruct (Hs' c Hc0) as [-> ->].
    rewrite selected_cons. destruct (Z.eqb_spec c cpu) as [->|Hne]; [|done]. by rewrite Hb.
Qed.

Lemma mark_cores_spec owner mask cpus marked s :
  smp_wf s -> NoDup cpus -> Forall (fun c => 1 <= c < 32) cpus -> 0 <= owner < UINT32_MAX ->
  (forall c, selected cpus mask c = true -> cpu_leasable s c = true) ->
  exists s' marked', mark_cores owner mask cpus marked s = (s', marked', true) /\ smp_wf s' /\
    (forall c, 0 <= c ->
      leased_to s' c = (if selected cpus mask c then Some owner else leased_to s c)) /\
    (forall n, 0 <= n -> Z.testbit marked' n = Z.testbit marked n || selected cpus mask n).
Proof.
  revert s marked. induction cpus as [|cpu cpus IH]; intros s marked Hw Hnd Hr Hown Hl; simpl.
  { exists s, marked. split_and!; [done..|]. intros n Hn. by rewrite orb_false_r. }
  apply NoDup_cons in Hnd as [Hni Hnd]. apply Forall_cons in Hr as [Hc Hr].
  rewrite has_cpu_testbit by lia. destruct (Z.testbit mask cpu) eqn:Hb.
  - assert (Hlc : cpu_leasable s cpu = true)
      by (apply Hl; rewrite selected_cons, Z.eqb_refl, Hb; done).
    destruct (mark_succeeds s cpu owner Hw Hc Hown Hlc) as (s1 & -> & Hw1 & H1 & H2 & Ho). simpl.
    destruct (IH s1 (Z.lor marked (Z.shiftl 1 cpu)) Hw1 Hnd Hr Hown) as (s' & m' & -> & Hw' & Hs' & Hm').
    { intros c Hsel. assert (c ∈ cpus) by (apply andb_true_iff in Hsel as [H _]; by apply bool_decide_eq_true in H).
      rewrite Forall_forall in Hr. specialize (Hr c H).
      rewrite (proj2 (Ho c ltac:(lia) ltac:(set_solver))). apply Hl.
      by rewrite selected_cons, Hsel, orb_true_r. }
    exists s', m'. split_and!; [done|done| |].
    + intros c Hc0. rewrite Hs', selected_cons by done. destruct (Z.eqb_spec c cpu) as [->|Hne].
      * rewrite Hb. simpl. by destruct (selected cpus mask cpu).
      * simpl. by rewrite (proj1 (Ho c Hc0 Hne)).
    + intros n Hn. rewrite Hm', selected_cons, Z.lor_spec, Z.shiftl_spec, testbit_one by done.
      destruct (Z.eqb_spec n cpu) as [->|Hne]; [rewrite Z.sub_diag, Hb; simpl; by rewrite orb_true_r|].
      replace (n - cpu =? 0) with false by lia. by rewrite orb_false_r.
  - destruct (IH s marked Hw Hnd Hr Hown) as (s' & m' & -> & Hw' & Hs' & Hm').
    { intros c Hsel. apply Hl. by rewrite selected_cons, Hsel, orb_true_r. }
    exists s', m'. split_and!; [done|done| |]; intros c Hc0;
      rewrite ?Hs', ?Hm', selected_cons by done;
      (destruct (Z.eqb_spec c cpu) as [->|Hne]; [by rewrite Hb|done]).
Qed.

(** The reserved owner id is refused at the first CPU, with nothing marked. *)
Lemma mark_cores_reserved mask cpus marked s :
  Forall (fun c => 1 <= c < 32) cpus -> (exists c, selected cpus mask c = true) ->
  mark_cores UINT32_MAX mask cpus marked s = (s, marked, false).
Proof.
  induction cpus as [|cpu cpus IH]; intros Hr [c Hsel]; simpl; [done|].
  apply Forall_cons in Hr as [Hc Hr]. rewrite has_cpu_testbit by lia.
  destruct (Z.testbit mask cpu) eqn:Hb; [by rewrite mark_reserved|].
  apply IH; [done|]. exists c. rewrite selected_cons in Hsel.
  destruct (Z.eqb_spec c cpu) as [Heq|]; [|done].
  subst c. rewrite Hb in Hsel. exact Hsel.
Qed.

Lemma selected_cpus mask c : selected (seqZ 1 31) mask c = true <-> 1 <= c < 32 /\ Z.testbit mask c = true.
Proof.
  unfold selected. rewrite andb_true_iff, bool_decide_eq_true, elem_of_seqZ.
  split; intros [H1 H2]; (split; [lia|done]).
Qed.

Lemma cpus_range : Forall (fun c => 1 <= c < 32) (seqZ 1 31).
Proof. apply Forall_forall. intros c Hc. apply elem_of_seqZ in Hc. lia. Qed.

(** A mask that passes validation names some CPU above 0. *)
Lemma mask_has_cpu mask :
  0 < mask < 4294967296 -> Z.testbit mask 0 = false ->
  exists c, 1 <= c < 32 /\ Z.testbit mask c = true.
Proof.
  intros Hm H0. exists (Z.log2 mask).
  assert (Hb : Z.testbit mask (Z.log2 mask) = true) by (apply Z.bit_log2; lia).
  assert (Z.log2 mask < 32) by (apply Z.log2_lt_pow2; lia).
  pose proof (Z.log2_nonneg mask).
  assert (Z.log2 mask <> 0) by congruence. split; [lia|done].
Qed.

Lemma validate_spec (s : S) mask :
  0 <= mask < 4294967296 ->
  validate_core_mask s mask = XAIOS_OK <->
  mask <> 0 /\ Z.testbit mask 0 = false /\
  forall c, 1 <= c < 32 -> Z.testbit mask c = true -> cpu_leasable s c = true.
Proof.
  intros Hm. unfold validate_core_mask.
  replace (Z.land mask 1 =? 0) with (negb (Z.testbit mask 0)).
  2:{ rewrite <- (has_cpu_testbit mask 0) by lia. unfold has_cpu. simpl. by rewrite negb_involutive. }
  rewrite negb_involutive.
  destruct (mask =? 0) eqn:E0; cbn [orb]; [split; [done|lia]|].
  destruct (Z.testbit mask 0) eqn:Et; [split; [done|by intros (_ & ? & _)]|].
  destruct (forallb _ _) eqn:Ef.
  - split; [intros _|done]. split; [lia|]. split; [done|]. intros c Hc Hb.
    pose proof (forallb_below _ _ Ef c ltac:(lia)) as H. simpl in H.
    rewrite has_cpu_testbit, Hb in H by lia. done.
  - split; [done|]. intros (_ & _ & Hall). exfalso. apply not_true_iff_false in Ef. apply Ef, forallb_forall.
    intros c Hc. apply list_elem_of_In, elem_of_seqZ in Hc. rewrite has_cpu_testbit by lia.
    destruct (Z.testbit mask c) eqn:Eb; [|done]. simpl. apply Hall; [|done].
    destruct (decide (c = 0)) as [->|]; [congruence|lia].
Qed.

(** Leased CPUs are in the table's masks, so a valid mask is disjoint from them. *)
Lemma valid_mask_unused l (s : S) mask :
  lease_inv l s -> 0 <= mask < 4294967296 -> validate_core_mask s mask = XAIOS_OK ->
  Z.land (core_lease_used_mask l) mask = 0.
Proof.
  intros (Hw & Hm & _ & Ht) Hmask Hv. apply validate_spec in Hv as (_ & H0 & Hl); [|done].
  apply Z.bits_inj'. intros n Hn. rewrite Z.land_spec, Z.bits_0. unfold core_lease_used_mask.
  rewrite testbit_union by done. destruct (Z.testbit mask n) eqn:Eb; [|apply andb_false_r].
  rewrite andb_true_r. apply not_true_iff_false. intros He.
  apply existsb_exists in He as (e & He & Ha). apply list_elem_of_In in He. breflect.
  assert (Hn1 : 1 <= n < 32).
  { destruct (decide (n = 0)) as [->|]; [congruence|]. split; [lia|].
    apply Z.nle_gt. intros Hge. rewrite Z.bits_above_log2 in Eb; [done|lia|].
    destruct (decide (mask = 0)) as [->|]; [simpl; lia|].
    pose proof (proj1 (Z.log2_lt_pow2 mask 32 ltac:(lia)) ltac:(lia)). lia. }
  assert (Hlt : leased_to s n = Some (owner_id e)) by (apply Ht; [done|]; exists e; split_and!; done || lia).
  rewrite leasable_not_leased in Hlt; [done|done|by apply Hl].
Qed.

Lemma release_none owner cpus (s : S) : release_cores owner 0 cpus s = Some s.
Proof. induction cpus as [|c cpus IH]; [done|]. exact IH. Qed.

(** What acquire does: either it fails and changes nothing, or it fills a free
    slot and moves exactly the CPUs of the mask to the owner. *)
Lemma acquire_cases l (s : S) owner mask :
  lease_inv l s -> 0 <= mask < 4294967296 -> 0 <= owner <= UINT32_MAX ->
  (exists st, core_lease_acquire l s owner mask = Some (l, s, st) /\ st <> XAIOS_OK /\
     (validate_core_mask s mask <> XAIOS_OK \/ owner = UINT32_MAX \/
      Forall (fun e => active e <> 0) l)) \/
  (exists i e s', core_lease_acquire l s owner mask =
      Some (<[i := mk_lease owner mask mask 1]> l, s', XAIOS_OK) /\
     validate_core_mask s mask = XAIOS_OK /\ owner < UINT32_MAX /\
     l !! i = Some e /\ active e = 0 /\ smp_wf s' /\
     forall c, 0 <= c ->
       leased_to s' c = if selected (seqZ 1 31) mask c then Some owner else leased_to s c).
Proof.
  intros Hinv Hmask Hown. pose proof Hinv as (Hw & _). unfold core_lease_acquire.
  destruct (is_ok (validate_core_mask s mask)) eqn:Hv; cbn [negb orb].
  2:{ left. eexists. split; [done|]. split; [done|]. left. by apply is_ok_false. }
  apply is_ok_true in Hv. rewrite (valid_mask_unused l s mask), Z.eqb_refl by done. cbn [negb].
  pose proof (proj1 (validate_spec s mask Hmask) Hv) as (Hnz & H0 & Hl).
  destruct (find_idx _ l) as [i|] eqn:Hf.
  2:{ left. eexists. split; [done|]. split; [done|]. right; right.
      apply find_idx_None in Hf. eapply Forall_impl; [exact Hf|]. simpl. lia. }
  apply find_idx_Some in Hf as [(e & He & Ha) _].
  destruct (decide (owner = UINT32_MAX)) as [->|Hne].
  - left. rewrite mark_cores_reserved; [|apply cpus_range|].
    + unfold release_marked_cores. rewrite release_none.
      eexists. split; [done|]. split; [done|]. by right; left.
    + destruct (mask_has_cpu mask ltac:(lia) H0) as (c & Hc & Hb). exists c. by apply selected_cpus.
  - right. destruct (mark_cores_spec owner mask (seqZ 1 31) 0 s) as (s' & m' & -> & Hw' & Hs' & Hm');
      [done|apply NoDup_seqZ|apply cpus_range|lia| |].
    { intros c [Hc Hb]%selected_cpus. by apply Hl. }
    assert (m' = mask) as ->.
    { apply Z.bits_inj'. intros n Hn. rewrite Hm', Z.bits_0 by done. simpl.
      destruct (selected (seqZ 1 31) mask n) eqn:Es; [apply selected_cpus in Es as [_ ->]; done|].
      destruct (Z.testbit mask n) eqn:Eb; [|done]. rewrite <- Es. apply selected_cpus.
      split; [|done]. destruct (decide (n = 0)) as [->|]; [congruence|]. split; [lia|].
      apply Z.nle_gt. intros Hge. rewrite Z.bits_above_log2 in Eb; [done|lia|].
      pose proof (proj1 (Z.log2_lt_pow2 mask 32 ltac:(lia)) ltac:(lia)). lia. }
    exists i, e, s'. rewrite Nat2Z.id. split_and!; try done; lia.
Qed.

(** Filling a free slot extends the table's leases by the new mask. *)
Lemma table_lease_insert l i e owner mask cpu o :
  l !! i = Some e -> active e = 0 ->
  table_lease (<[i := mk_lease owner mask mask 1]> l) cpu o <->
  (Z.testbit mask cpu = true /\ o = owner) \/ table_lease l cpu o.
Proof.
  intros Hi Ha. unfold table_lease. split.
  - intros (x & Hx & Hax & Hox & Hbx). apply list_elem_of_lookup in Hx as [j Hj].
    destruct (decide (i = j)) as [<-|Hne].
    + rewrite list_lookup_insert_eq in Hj by (by eapply lookup_lt_Some). simplify_eq/=. by left.
    + rewrite list_lookup_insert_ne in Hj by done. right. exists x.
      split; [by eapply list_elem_of_lookup_2|done].
  - intros [[Hb ->]|(x & Hx & Hax & Hox & Hbx)].
    + exists (mk_lease owner mask mask 1). split; [|done].
      apply (list_elem_of_lookup_2 _ i). apply list_lookup_insert_eq. by eapply lookup_lt_Some.
    + apply list_elem_of_lookup in Hx as [j Hj]. exists x. split; [|done].
      apply (list_elem_of_lookup_2 _ j). rewrite list_lookup_insert_ne; [done|].
      intros <-. congruence.
Qed.

Lemma disjoint_insert l i e owner mask :
  disjoint_leases l -> l !! i = Some e -> active e = 0 ->
  (forall x cpu, x ∈ l -> active x <> 0 -> Z.testbit (core_mask x) cpu = true ->
     Z.testbit mask cpu = false) ->
  disjoint_leases (<[i := mk_lease owner mask mask 1]> l).
Proof.
  intros Hd Hi Ha Hnew j k a b cpu Hj Hk Hjk Haa Hab Hb.
  apply list_lookup_insert_Some in Hj as [(<- & <- & _)|[Hij Hj]];
    apply list_lookup_insert_Some in Hk as [(<- & <- & _)|[Hik Hk]]; [done|..].
  - destruct (Z.testbit (core_mask b) cpu) eqn:E; [|done].
    simpl in Hb. rewrite (Hnew b cpu) in Hb; [done|by eapply list_elem_of_lookup_2|done|done].
  - apply (Hnew a); [by eapply list_elem_of_lookup_2|done|done].
  - exact (Hd j k a b cpu Hj Hk Hjk Haa Hab Hb).
Qed.

Lemma unused_no_lease l mask x cpu :
  Z.land (core_lease_used_mask l) mask = 0 -> x ∈ l -> active x <> 0 ->
  Z.testbit (core_mask x) cpu = true -> Z.testbit mask cpu = false.
Proof.
  intros Hun Hx Ha Hb. destruct (Z.testbit mask cpu) eqn:Eb; [|done].
  assert (Hcpu : 0 <= cpu) by (apply Z.nlt_ge; intros ?; by rewrite Z.testbit_neg_r in Eb).
  assert (Hz : Z.testbit (Z.land (core_lease_used_mask l) mask) cpu = true);
    [|by rewrite Hun, Z.bits_0 in Hz].
  rewrite Z.land_spec, Eb, andb_true_r. unfold core_lease_used_mask. rewrite testbit_union by done.
  apply existsb_exists. exists x. split; [by apply list_elem_of_In|]. rewrite Hb, andb_true_r.
  apply negb_true_iff. lia.
Qed.

Lemma acquire_preserves l (s : S) owner mask l' s' st :
  lease_inv l s -> 0 <= mask < 4294967296 -> 0 <= owner <= UINT32_MAX ->
  core_lease_acquire l s owner mask = Some (l', s', st) -> lease_inv l' s'.
Proof.
  intros Hinv Hmask Hown Hacq.
  destruct (acquire_cases l s owner mask Hinv Hmask Hown)
    as [(st' & He & _)|(i & e & s1 & He & Hv & Ho & Hi & Ha & Hw & Hl)];
    rewrite He in Hacq; simplify_eq; [done|].
  pose proof (valid_mask_unused _ _ _ Hinv Hmask Hv) as Hun.
  apply validate_spec in Hv as (Hnz & H0 & _); [|done].
  destruct Hinv as (Hw0 & Hm & Hd & Ht). split_and!; [done| | |].
  - apply Forall_insert; [done|]. intros _. simpl. split_and!; [lia|lia|done|done].
  - eapply disjoint_insert; [done..|]. intros x cpu. by apply unused_no_lease.
  - intros cpu o Hc. rewrite (table_lease_insert l i e) by done. rewrite Hl, <- Ht by lia.
    destruct (selected (seqZ 1 31) mask cpu) eqn:Es.
    + apply selected_cpus in Es as [_ Hb]. split; [naive_solver|].
      intros [[_ ->]|Hlo]; [done|]. apply Ht in Hlo as (x & Hx & Hax & Hox & Hbx); [|done].
      rewrite (unused_no_lease l mask x cpu) in Hb; done.
    + split; [by right|]. intros [[Hb _]|?]; [|done].
      assert (selected (seqZ 1 31) mask cpu = true) by (by apply selected_cpus). congruence.
Qed.

(** ** Release *)

Definition owned (owner : Z) (e : core_lease) : bool :=
  negb (active e =? 0) && (owner_id e =? owner).

Definition drop_lease (owner : Z) (e : core_lease) : core_lease :=
  if owned owner e then mk_lease (owner_id e) 0 0 0 else e.

Definition owns (owner : Z) (l : list core_lease) (cpu : Z) : bool :=
  existsb (fun e => owned owner e && Z.testbit (core_mask e) cpu) l.

Lemma drop_lease_eq owner e :
  drop_lease owner e = if owned owner e then mk_lease (owner_id e) 0 0 0 else e.
Proof. done. Qed.

Lemma disjoint_tail e l : disjoint_leases (e :: l) -> disjoint_leases l.
Proof.
  intros Hd i j a b cpu Hi Hj Hne. apply (Hd (Datatypes.S i) (Datatypes.S j)); [done|done|congruence].
Qed.

Lemma disjoint_head e l x cpu :
  disjoint_leases (e :: l) -> active e <> 0 -> x ∈ l -> active x <> 0 ->
  Z.testbit (core_mask e) cpu = true -> Z.testbit (core_mask x) cpu = false.
Proof.
  intros Hd Ha Hx Hax Hb. apply list_elem_of_lookup in Hx as [j Hj].
  exact (Hd O (Datatypes.S j) e x cpu eq_refl Hj ltac:(done) Ha Hax Hb).
Qed.

Lemma release_scan_spec owner l s :
  smp_wf s -> disjoint_leases l ->
  (forall e cpu, e ∈ l -> owned owner e = true -> 1 <= cpu < 32 ->
     Z.testbit (core_mask e) cpu = true -> leased_to s cpu = Some owner) ->
  exists s', release_scan owner l s = Some (drop_lease owner <$> l, s', existsb (owned owner) l) /\
    smp_wf s' /\
    forall c, 1 <= c < 32 ->
      leased_to s' c = (if owns owner l c then None else leased_to s c) /\
      cpu_leasable s' c = (if owns owner l c then true else cpu_leasable s c).
Proof.
  revert s. induction l as [|e l IH]; intros s Hw Hd Hl; [by exists s|].
  pose proof (disjoint_tail _ _ Hd) as Hdt. cbn [release_scan existsb].
  change (negb (active e =? 0) && (owner_id e =? owner)) with (owned owner e).
  destruct (owned owner e) eqn:Eo.
  - destruct (release_cores_spec owner (core_mask e) (seqZ 1 31) s) as (s1 & -> & Hw1 & H1);
      [done|apply NoDup_seqZ|apply cpus_range| |].
    { intros c [Hc Hb]%selected_cpus. apply (Hl e); [left|done..]. }
    assert (Ha : active e <> 0) by (unfold owned in Eo; breflect; lia).
    destruct (IH s1 Hw1 Hdt) as (s' & Hrun & Hw' & Hs').
    { intros x cpu Hx Hox Hc Hb. rewrite (proj1 (H1 cpu ltac:(lia))).
      destruct (selected (seqZ 1 31) (core_mask e) cpu) eqn:Es; [|apply (Hl x); [by right|done..]].
      apply selected_cpus in Es as [_ Hb']. exfalso.
      rewrite (disjoint_head e l x cpu) in Hb; try done. unfold owned in Hox. breflect. lia. }
    exists s'. cbn [mbind option_bind]. rewrite Hrun. split_and!.
    + rewrite fmap_cons. by rewrite (drop_lease_eq owner e), Eo.
    + done.
    + intros c Hc. destruct (Hs' c Hc) as [-> ->]. destruct (H1 c ltac:(lia)) as [-> ->].
      unfold owns. cbn [existsb]. rewrite Eo. cbn [andb].
      destruct (selected (seqZ 1 31) (core_mask e) c) eqn:Es.
      * apply selected_cpus in Es as [_ ->]. cbn [orb]. split; by case_if.
      * destruct (Z.testbit (core_mask e) c) eqn:Eb; [|done].
        assert (selected (seqZ 1 31) (core_mask e) c = true) by (by apply selected_cpus). congruence.
  - destruct (IH s Hw Hdt) as (s' & Hrun & Hw' & Hs').
    { intros x cpu Hx. apply (Hl x). by right. }
    exists s'. rewrite Hrun. split_and!.
    + rewrite fmap_cons. by rewrite (drop_lease_eq owner e), Eo.
    + done.
    + intros c Hc. destruct (Hs' c Hc) as [-> ->]. unfold owns. cbn [existsb]. by rewrite Eo.
Qed.

Lemma table_lease_drop owner l cpu o :
  table_lease (drop_lease owner <$> l) cpu o <-> o <> owner /\ table_lease l cpu o.
Proof.
  unfold table_lease. split.
  - intros (e & He & Ha & Ho & Hb). apply list_elem_of_fmap in He as (x & -> & Hx).
    rewrite drop_lease_eq in *. destruct (owned owner x) eqn:Eo; [done|].
    split; [|by exists x]. intros ->. unfold owned in Eo. apply andb_false_iff in Eo. lia.
  - intros (Hne & e & He & Ha & Ho & Hb). exists e. split_and!; try done.
    apply list_elem_of_fmap. exists e. split; [|done]. rewrite drop_lease_eq.
    destruct (owned owner e) eqn:Eo; [|done]. unfold owned in Eo. breflect. lia.
Qed.

(** In a consistent state the table names the owner of a CPU exactly. *)
Lemma owns_leased l (s : S) owner cpu :
  lease_inv l s -> 1 <= cpu < 32 ->
  owns owner l cpu = true <-> leased_to s cpu = Some owner.
Proof.
  intros (_ & _ & _ & Ht) Hc. rewrite Ht by done. unfold owns, table_lease, owned.
  rewrite existsb_exists. split; intros (e & He & Hp); exists e.
  - apply list_elem_of_In in He. breflect. split_and!; done || lia.
  - destruct Hp as (Ha & Ho & Hb). split; [by apply list_elem_of_In|].
    rewrite Hb, !andb_true_iff, negb_true_iff. split_and!; done || lia.
Qed.

Lemma release_total l (s : S) owner :
  lease_inv l s ->
  exists s', core_lease_release l s owner =
      Some (drop_lease owner <$> l, s',
            if existsb (owned owner) l then XAIOS_OK else XAIOS_ERR_INVALID) /\
    lease_inv (drop_lease owner <$> l) s' /\
    forall c, 1 <= c < 32 ->
      leased_to s' c = (if bool_decide (leased_to s c = Some owner) then None else leased_to s c) /\
      (leased_to s c = Some owner -> cpu_leasable s' c = true).
Proof.
  intros Hinv. pose proof Hinv as (Hw & Hm & Hd & Ht).
  destruct (release_scan_spec owner l s Hw Hd) as (s' & Hrun & Hw' & Hs').
  { intros e cpu He Ho Hc Hb. apply (owns_leased l s owner cpu Hinv Hc).
    apply existsb_exists. exists e. split; [by apply list_elem_of_In|]. by rewrite Ho, Hb. }
  exists s'. unfold core_lease_release. rewrite Hrun. split; [done|].
  assert (Hleased : forall c, 1 <= c < 32 -> leased_to s' c =
    if bool_decide (leased_to s c = Some owner) then None else leased_to s c).
  { intros c Hc. rewrite (proj1 (Hs' c Hc)). pose proof (owns_leased l s owner c Hinv Hc) as Ho.
    case_bool_decide as Hb; destruct (owns owner l c); naive_solver. }
  split.
  - split_and!; [done| | |].
    + apply Forall_fmap. eapply Forall_impl; [exact Hm|]. intros e He. simpl.
      unfold drop_lease. destruct (owned owner e); [intros Hx; done|done].
    + intros i j a b cpu Hi Hj Hne. rewrite !list_lookup_fmap_Some in *.
      destruct Hi as (a0 & -> & Hi), Hj as (b0 & -> & Hj). unfold drop_lease.
      destruct (owned owner a0), (owned owner b0); simpl; try done.
      intros. by eapply (Hd i j a0 b0 cpu).
    + intros cpu o Hc. rewrite Hleased by done. rewrite table_lease_drop.
      case_bool_decide as Hco; [split; [done|]|].
      * intros [Hno Hto]. apply Ht in Hto; [|done]. congruence.
      * rewrite Ht by done. split; [|naive_solver]. intros Hto. split; [|done].
        intros ->. by apply Ht in Hto.
  - intros c Hc. split; [by apply Hleased|]. intros Hlo.
    rewrite (proj2 (Hs' c Hc)). apply (owns_leased l s owner c Hinv Hc) in Hlo. by rewrite Hlo.
Qed.

End Loops.

(** ** Properties *)

Inductive lease_op := OpAcquire (owner mask : Z) | OpRelease (owner : Z).

Definition op_ok (op : lease_op) : Prop :=
  match op with
  | OpAcquire owner mask => 0 <= owner <= UINT32_MAX /\ 0 <= mask < 4294967296
  | OpRelease owner => True
  end.

(** Run a sequence of calls; [None] is a failed assertion. *)
Fixpoint lease_run {S} `{!SmpLeasing S} (l : list core_lease) (s : S) (ops : list lease_op)
    : option (list core_lease * S) :=
  match ops with
  | [] => Some (l, s)
  | op :: ops' =>
      match (match op with
             | OpAcquire owner mask => core_lease_acquire l s owner mask
             | OpRelease owner => core_lease_release l s owner
             end) with
      | Some (l1, s1, _) => lease_run l1 s1 ops'
      | None => None
      end
  end.

(** A registry of 256 CPUs of which the first four are online, 1 to 3 schedulable. *)
Definition four_cpus : Smp.smp_state :=
  let cpu i r on := Smp.mk_cpu i on i r 0 0 0 0 0 on 0 in
  Smp.mk_smp ([cpu 0 Smp.XAIOS_CPU_ROLE_HOUSEKEEPING 1; cpu 1 Smp.XAIOS_CPU_ROLE_SCHEDULING 1;
               cpu 2 Smp.XAIOS_CPU_ROLE_SCHEDULING 1; cpu 3 Smp.XAIOS_CPU_ROLE_SCHEDULING 1] ++
              replicate 252 (cpu 4 Smp.XAIOS_CPU_ROLE_OFFLINE 0)) 4.

Definition empty_table : list core_lease := replicate 8 (mk_lease 0 0 0 0).

Lemma four_cpus_inv : lease_inv empty_table four_cpus.
Proof.
  split_and!.
  - split; [done|]. apply Forall_app. split; [|by apply Forall_replicate].
    repeat constructor; done.
  - by apply Forall_replicate.
  - intros i j a b cpu Ha _ _ Hac. apply lookup_replicate in Ha as [-> _]. done.
  - intros cpu o Hc. split.
    + intros Hl. exfalso.
      assert (H : negb (Smp.is_hot (Smp.role (Smp.cpu four_cpus cpu))) = true)
        by (apply (forallb_below (fun c => negb (Smp.is_hot (Smp.role (Smp.cpu four_cpus c)))) 32);
            [vm_compute; reflexivity|lia]).
      simpl in Hl. by destruct (Smp.is_hot _).
    + intros (e & He & Ha & _). apply elem_of_replicate in He as [-> _]. done.
Qed.

(** C27: leases are exclusive.  From any consistent table and registry, every sequence of
    acquire and release calls runs without a failed assertion and ends in a consistent
    state: no CPU is in two active leases, CPU 0 is in none, and the registry shows a
    CPU as held by an owner exactly when an active lease of that owner contains it. *)
Theorem core_lease_consistent {S} `{!SmpLeasing S} `{!SmpLeasingLaws S}
    (ops : list lease_op) (l : list core_lease) (s : S) :
  lease_inv l s -> Forall op_ok ops ->
  exists l' s', lease_run l s ops = Some (l', s') /\ lease_inv l' s'.
Proof.
  intros Hinv Hops. revert l s Hinv.
  induction Hops as [|op ops Hop _ IH]; intros l s Hinv; [by exists l, s|].
  cbn [lease_run]. destruct op as [owner mask|owner].
  - destruct Hop as [Ho Hm].
    destruct (acquire_cases l s owner mask Hinv Hm Ho) as [(st & He & _)|(i & e & s1 & He & _)];
      pose proof (acquire_preserves l s owner mask _ _ _ Hinv Hm Ho He); rewrite He; by apply IH.
  - destruct (release_total l s owner Hinv) as (s1 & -> & Hinv1 & _). by apply IH.
Qed.

Lemma core_lease_consistent_witness :
  exists l' s', lease_run empty_table four_cpus
      [OpAcquire 7 6; OpAcquire 8 2; OpAcquire 8 8; OpRelease 7; OpAcquire UINT32_MAX 2]
    = Some (l', s') /\ lease_inv l' s'.
Proof.
  apply (core_lease_consistent [OpAcquire 7 6; OpAcquire 8 2; OpAcquire 8 8; OpRelease 7;
                                OpAcquire UINT32_MAX 2]).
  - apply four_cpus_inv.
  - repeat constructor; unfold UINT32_MAX; lia.
Defined.

(** Acquire is all or nothing.  It succeeds exactly when the mask is non-zero, without
    CPU 0, names only online scheduling CPUs, the owner id is not reserved and a slot is
    free; then exactly the CPUs of the mask move to the owner.  Otherwise the table and
    the registry are unchanged. *)
Theorem core_lease_acquire_exact {S} `{!SmpLeasing S} `{!SmpLeasingLaws S}
    (l : list core_lease) (s : S) (owner mask : Z) :
  lease_inv l s -> 0 <= mask < 4294967296 -> 0 <= owner <= UINT32_MAX ->
  exists l' s' st, core_lease_acquire l s owner mask = Some (l', s', st) /\
  (st = XAIOS_OK <->
     mask <> 0 /\ Z.testbit mask 0 = false /\
     (forall c, 1 <= c < 32 -> Z.testbit mask c = true -> cpu_leasable s c = true) /\
     owner <> UINT32_MAX /\ exists e, e ∈ l /\ active e = 0) /\
  (st = XAIOS_OK -> forall c, 1 <= c < 32 ->
     leased_to s' c = if Z.testbit mask c then Some owner else leased_to s c) /\
  (st <> XAIOS_OK -> l' = l /\ s' = s).
Proof.
  intros Hinv Hm Ho. pose proof (validate_spec s mask Hm) as Hv.
  destruct (acquire_cases l s owner mask Hinv Hm Ho)
    as [(st & He & Hst & Hwhy)|(i & e & s1 & He & Hv1 & Ho1 & Hi & Ha & Hw & Hl)].
  - exists l, s, st. split; [done|]. split_and!; [|done|done]. split; [done|].
    intros (H1 & H2 & H3 & H4 & e & Hel & Hea). exfalso.
    destruct Hwhy as [Hwhy|[Hwhy|Hwhy]]; [|done|].
    + apply Hwhy, Hv. done.
    + rewrite Forall_forall in Hwhy. by apply (Hwhy e).
  - exists (<[i := mk_lease owner mask mask 1]> l), s1, XAIOS_OK. split; [done|].
    split_and!; [|intros _|done].
    + split; [|done]. intros _. apply Hv in Hv1 as (H1 & H2 & H3). split_and!; try done; [lia|].
      exists e. split; [by eapply list_elem_of_lookup_2|done].
    + intros c Hc. rewrite Hl by lia. pose proof (selected_cpus mask c) as Hs.
      destruct (selected (seqZ 1 31) mask c), (Z.testbit mask c); naive_solver.
Qed.

Lemma core_lease_acquire_exact_witness :
  exists l' s' st, core_lease_acquire empty_table four_cpus 7 6 = Some (l', s', st) /\
    (st <> XAIOS_OK -> l' = empty_table /\ s' = four_cpus).
Proof.
  destruct (core_lease_acquire_exact empty_table four_cpus 7 6 four_cpus_inv)
    as (l' & s' & st & He & _ & _ & Hf); [lia|unfold UINT32_MAX; lia|].
  exists l', s', st. split; [exact He|exact Hf].
Defined.

(** Release gives back everything an owner holds and nothing else: it succeeds exactly
    when the owner has an active lease, afterwards it has none, its CPUs are leasable
    again, every other CPU's holder is unchanged and no assertion fails. *)
Theorem core_lease_release_exact {S} `{!SmpLeasing S} `{!SmpLeasingLaws S}
    (l : list core_lease) (s : S) (owner : Z) :
  lease_inv l s ->
  exists l' s' st, core_lease_release l s owner = Some (l', s', st) /\ lease_inv l' s' /\
  (st = XAIOS_OK <-> exists e, e ∈ l /\ active e <> 0 /\ owner_id e = owner) /\
  (forall e, e ∈ l' -> active e <> 0 -> owner_id e <> owner) /\
  (forall c, 1 <= c < 32 ->
     leased_to s' c = (if bool_decide (leased_to s c = Some owner) then None else leased_to s c) /\
     (leased_to s c = Some owner -> cpu_leasable s' c = true)).
Proof.
  intros Hinv. destruct (release_total l s owner Hinv) as (s' & He & Hinv' & Hc).
  exists (drop_lease owner <$> l), s', (if existsb (owned owner) l then XAIOS_OK else XAIOS_ERR_INVALID).
  split; [done|]. split; [done|]. split_and!; [| |done].
  - destruct (existsb (owned owner) l) eqn:Ex.
    + apply existsb_exists in Ex as (e & Hel & Ho). split; [intros _|done]. exists e.
      split; [by apply list_elem_of_In|]. unfold owned in Ho. breflect. lia.
    + split; [done|]. intros (e & Hel & Ha & Ho). apply not_true_iff_false in Ex. exfalso.
      apply Ex, existsb_exists. exists e. split; [by apply list_elem_of_In|]. unfold owned. lia.
  - intros e Hel Ha Ho. apply list_elem_of_fmap in Hel as (x & -> & Hx).
    rewrite drop_lease_eq in *. destruct (owned owner x) eqn:Eo; [done|]. unfold owned in Eo. lia.
Qed.

Lemma core_lease_release_exact_witness :
  exists l' s' st, core_lease_release empty_table four_cpus 7 = Some (l', s', st) /\ lease_inv l' s'.
Proof.
  destruct (core_lease_release_exact empty_table four_cpus 7 four_cpus_inv)
    as (l' & s' & st & He & Hi & _).
  exists l', s', st. split; [exact He|exact Hi].
Defined.

(** The masks agree.  In a consistent state the hot-core and IRQ-isolation masks derived
    from the registry are, for CPUs 1 to 31, the used and isolated masks of the table. *)
Theorem core_lease_masks_agree (l : list core_lease) (s : Smp.smp_state) (c : Z) :
  lease_inv l s -> 1 <= c < 32 ->
  Z.testbit (Smp.smp_hot_core_mask s) c = Z.testbit (core_lease_used_mask l) c /\
  Z.testbit (Smp.smp_irq_isolated_mask s) c = Z.testbit (core_lease_irq_isolated_mask l) c.
Proof.
  intros (Hw & Hm & Hd & Ht) Hc.
  assert (Hirq : Z.testbit (core_lease_irq_isolated_mask l) c = Z.testbit (core_lease_used_mask l) c).
  { unfold core_lease_irq_isolated_mask, core_lease_used_mask. rewrite !testbit_union by lia.
    clear -Hm. induction Hm as [|e l He _ IH]; [done|]. simpl. rewrite IH. f_equal.
    destruct (active e =? 0) eqn:Ea; [done|]. destruct (He ltac:(lia)) as (_ & _ & ->). done. }
  assert (Hhot : Smp.is_hot (Smp.role (Smp.cpu s c)) = Z.testbit (core_lease_used_mask l) c).
  { unfold core_lease_used_mask. rewrite testbit_union by lia. apply eq_true_iff_eq.
    rewrite existsb_exists. split.
    - intros Hh. assert (Hlt : leased_to s c = Some (Smp.lease_owner_id (Smp.cpu s c) - 1))
        by (simpl; by rewrite Hh).
      apply Ht in Hlt as (e & He & Ha & _ & Hb); [|done]. exists e.
      split; [by apply list_elem_of_In|]. rewrite Hb, andb_true_r, negb_true_iff. lia.
    - intros (e & He & Hp). breflect.
      assert (Hlt : leased_to s c = Some (owner_id e))
        by (apply Ht; [done|]; exists e; split_and!; [by apply list_elem_of_In|lia|done|done]).
      simpl in Hlt. by destruct (Smp.is_hot _). }
  unfold Smp.smp_hot_core_mask, Smp.smp_irq_isolated_mask.
  rewrite !Smp.testbit_cpu_mask, Hirq by lia. split; [done|]. rewrite <- Hhot.
  pose proof (Smp.wf_cpu s c Hw ltac:(unfold XAIOS_MAX_CPUS; lia)) as Hcw. unfold Smp.cpu_wf in Hcw.
  destruct (Smp.role (Smp.cpu s c)); try (by destruct Hcw as (_ & -> & _)).
  by destruct Hcw as (_ & _ & -> & _).
Qed.

Lemma core_lease_masks_agree_witness :
  Z.testbit (Smp.smp_hot_core_mask four_cpus) 2 = Z.testbit (core_lease_used_mask empty_table) 2.
Proof. apply (core_lease_masks_agree empty_table four_cpus 2 four_cpus_inv). lia. Defined.

End CoreLease.
