(* ===== verification/Security.v ===== *)
(** * Security policy (kernel/runtime/security.c)

    String matching, credential screening, capability and path authorisation, and
    the update-signature check with its generation counter.  A C string is a
    [string] without its terminating NUL, NULL is [None]; a cursor into a string
    is the rest of the string.  The seventeen static counters are [counter] and
    [g_last_update_generation].  The text of a denial reason is only logged and is
    left out. *)

From S2P Require Import Prelude.
From Stdlib Require Import Ascii String.
#[local] Open Scope string_scope.
#[local] Open Scope Z_scope.

Module Security.

Definition XAIOS_CAP_UPDATE : Z := 16.
Definition XAIOS_CAP_ADMIN : Z := 128.

(** ** State *)

Inductive counter :=
| denied_operations | capability_denials | fs_denials | workspace_denials
| sandbox_denials | rollback_denials | update_policy_rejects | signature_accepts
| signature_rejects | credential_rejects | admin_denials | update_authorizations
| update_replay_rejects | key_accepts | key_rejects | sandbox_escape_rejects.

#[global] Instance counter_eq_dec : EqDecision counter.
Proof. solve_decision. Defined.

Record policy := mk_policy {
  count : counter -> Z;
  last_update_generation : Z
}.

Definition bump (c : counter) (s : policy) : policy :=
  mk_policy (fun d => if decide (c = d) then u64 (count s d + 1) else count s d)
    (last_update_generation s).

Definition security_policy_init : policy := mk_policy (fun _ => 0) 0.

(** ** Strings *)

Definition chr_eqb : ascii -> ascii -> bool := Ascii.eqb.

(** [text[i] == c], false past the end for a character other than NUL. *)
Definition head_is (c : ascii) (text : string) : bool :=
  match text with String d _ => chr_eqb d c | EmptyString => false end.

Fixpoint prefix_loop (text prefix : string) {struct prefix} : bool :=
  match prefix with
  | EmptyString => true
  | String p ps =>
      match text with
      | EmptyString => false
      | String t ts => if chr_eqb t p then prefix_loop ts ps else false
      end
  end.

Definition starts_with (text prefix : option string) : bool :=
  match text, prefix with Some t, Some p => prefix_loop t p | _, _ => false end.

(** The inner loop of [contains]: what is left of the pattern when the loop stops. *)
Fixpoint match_loop (hay pat : string) : string :=
  match hay, pat with
  | String h hs, String p ps => if chr_eqb h p then match_loop hs ps else pat
  | _, _ => pat
  end.

Fixpoint contains_loop (cursor needle : string) : bool :=
  match cursor with
  | EmptyString => false
  | String _ rest =>
      match match_loop cursor needle with
      | EmptyString => true
      | _ => contains_loop rest needle
      end
  end.

Definition contains (text needle : option string) : bool :=
  match text, needle with
  | Some t, Some n => match n with EmptyString => false | _ => contains_loop t n end
  | _, _ => false
  end.

Fixpoint cstr_length (text : string) : Z :=
  match text with EmptyString => 0 | String _ t => 1 + cstr_length t end.

(** The text from byte [i] on. *)
Fixpoint skip (i : nat) (text : string) : string :=
  match i, text with
  | O, _ => text
  | S i', String _ t => skip i' t
  | S _, EmptyString => EmptyString
  end.

Definition at_end (text : string) : bool :=
  match text with EmptyString => true | _ => false end.

Definition path_in_tree (path : string) (root : string) : bool :=
  if prefix_loop path root then
    let rest := skip (Z.to_nat (cstr_length root)) path in
    at_end rest || head_is "/"%char rest
  else false.

(** The inner loop of [contains_buffer] at one cursor. *)
Fixpoint match_at (text : string) (cursor : nat) (needle : string) : bool :=
  match needle with
  | EmptyString => true
  | String c rest =>
      match String.get cursor text with
      | Some d => if chr_eqb d c then match_at text (S cursor) rest else false
      | None => false
      end
  end.

Definition contains_buffer (text : option string) (length : Z) (needle : string) : bool :=
  let needle_len := cstr_length needle in
  match text with
  | None => false
  | Some t =>
      if (needle_len =? 0) || (length <? needle_len) then false else
      existsb (fun cursor => match_at t (Z.to_nat cursor) needle)
        (seqZ 0 (length - needle_len + 1))
  end.

(** ** Denials *)

Definition reject_security_operation (s : policy) : policy * xaios_status :=
  (bump denied_operations s, XAIOS_ERR_INVALID).

Definition reject_update_signature (s : policy) : policy * xaios_status :=
  reject_security_operation (bump update_policy_rejects (bump signature_rejects s)).

Definition reject_update_key (s : policy) : policy * xaios_status :=
  reject_update_signature (bump key_rejects s).

Definition reject_update_replay (s : policy) : policy * xaios_status :=
  reject_update_signature (bump update_replay_rejects s).

Definition security_record_denied_operation (s : policy) : policy := bump denied_operations s.

(** ** Credential screening *)

Definition credential_patterns : list string :=
  ["github_pat_"; "ghp_"; "BEGIN "; "PRIVATE KEY"; "password="; "token="; "secret="].

Definition security_reject_credential_material (s : policy) (text : option string)
    : policy * xaios_status :=
  match text with
  | None => reject_security_operation (bump credential_rejects s)
  | Some _ =>
      if existsb (fun p => contains text (Some p)) credential_patterns
      then reject_security_operation (bump credential_rejects s)
      else (s, XAIOS_OK)
  end.

Definition security_reject_credential_material_buffer (s : policy) (text : option string)
    (length : Z) : policy * xaios_status :=
  match text with
  | None => reject_security_operation (bump credential_rejects s)
  | Some _ =>
      if existsb (contains_buffer text length) credential_patterns
      then reject_security_operation (bump credential_rejects s)
      else (s, XAIOS_OK)
  end.

(** The common shape: screen, then decide; either denial bumps the operation's
    own counter. *)
Definition screened (s : policy) (text : option string) (c : counter)
    (k : policy -> policy * xaios_status) : policy * xaios_status :=
  let '(s1, st) := security_reject_credential_material s text in
  if negb (is_ok st) then (bump c s1, XAIOS_ERR_INVALID) else k s1.

(** ** Authorisation *)

Definition security_authorize_capability (s : policy) (granted required : Z)
    : policy * xaios_status :=
  if Z.land granted required =? required then (s, XAIOS_OK)
  else reject_security_operation (bump capability_denials s).

Definition write_roots : list string := ["/tmp"; "/home"; "/apps"; "/state"; "/logs"].

Definition security_authorize_fs_read (s : policy) (path : option string)
    : policy * xaios_status :=
  screened s path fs_denials (fun s1 =>
    let p := default "" path in
    if starts_with path (Some "/etc/") || existsb (path_in_tree p) write_roots
    then (s1, XAIOS_OK) else reject_security_operation (bump fs_denials s1)).

Definition security_authorize_fs_write (s : policy) (path : option string)
    : policy * xaios_status :=
  screened s path fs_denials (fun s1 =>
    if existsb (path_in_tree (default "" path)) write_roots
    then (s1, XAIOS_OK) else reject_security_operation (bump fs_denials s1)).

Definition security_authorize_git_workspace (s : policy) (owner actor : Z)
    (operation : option string) : policy * xaios_status :=
  screened s operation workspace_denials (fun s1 =>
    if actor =? owner then (s1, XAIOS_OK)
    else reject_security_operation (bump workspace_denials s1)).

Definition security_authorize_sandbox (s : policy) (owner actor : Z)
    (operation : option string) : policy * xaios_status :=
  screened s operation sandbox_denials (fun s1 =>
    if actor =? owner then (s1, XAIOS_OK)
    else reject_security_operation (bump sandbox_denials s1)).

Definition security_authorize_rollback (s : policy) (target : option string) (authorized : Z)
    : policy * xaios_status :=
  screened s target rollback_denials (fun s1 =>
    if negb (authorized =? 0) then (s1, XAIOS_OK)
    else reject_security_operation (bump rollback_denials s1)).

Definition security_authorize_admin (s : policy) (operation : option string) (granted : Z)
    : policy * xaios_status :=
  screened s operation admin_denials (fun s1 =>
    if Z.land granted XAIOS_CAP_ADMIN =? XAIOS_CAP_ADMIN then (s1, XAIOS_OK)
    else reject_security_operation (bump capability_denials (bump admin_denials s1))).

(** ** Update signatures *)

Definition code (c : ascii) : Z := Z.of_nat (nat_of_ascii c).

Definition is_digit (c : ascii) : bool := (48 <=? code c) && (code c <=? 57).

Definition is_hex_char (c : ascii) : bool :=
  is_digit c || ((97 <=? code c) && (code c <=? 102)) || ((65 <=? code c) && (code c <=? 70)).

(** The digit loop of [parse_generation]: [None] is the error return, otherwise the
    value parsed and the cursor where the loop stopped. *)
Fixpoint digits_loop (value : string) (parsed : Z) : option (Z * string) :=
  match value with
  | EmptyString => Some (parsed, value)
  | String c rest =>
      if chr_eqb c ":"%char then Some (parsed, value) else
      if negb (is_digit c) || ((UINT64_MAX - (code c - 48)) / 10 <? parsed) then None
      else digits_loop rest (u64 (u64 (parsed * 10) + (code c - 48)))
  end.

Definition parse_generation (cursor : string) : option (Z * string) :=
  if negb (prefix_loop cursor "gen=") then None else
  let value := skip 4 cursor in
  match value with
  | String c _ =>
      if negb (is_digit c) then None else
      match digits_loop value 0 with
      | Some (parsed, String d rest) =>
          if negb (chr_eqb d ":"%char) || (parsed =? 0) then None else Some (parsed, rest)
      | _ => None
      end
  | EmptyString => None
  end.

(** [for (i = 0; i < n; ++i) if (!is_hex_char(cursor[i])) return ...; cursor += n] *)
Fixpoint hex_run (n : nat) (cursor : string) : option string :=
  match n with
  | O => Some cursor
  | S n' =>
      match cursor with
      | String c rest => if is_hex_char c then hex_run n' rest else None
      | EmptyString => None
      end
  end.

Definition SIG_PREFIX : string := "xaios-update:v1:".
Definition SHA_FIELD : string := "sha256=".
Definition KEY_FIELD : string := "key=XAIOS-QEMU-DEV-PUBKEY".
Definition SIG_FIELD : string := "sig=".

Definition after_field (field cursor : string) : option string :=
  if prefix_loop cursor field then Some (skip (String.length field) cursor) else None.

Definition after_colon (cursor : string) : option string :=
  match cursor with
  | String c rest => if chr_eqb c ":"%char then Some rest else None
  | EmptyString => None
  end.

Definition security_validate_update_signature (s : policy) (signature : option string)
    : policy * xaios_status :=
  let '(s1, st) := security_reject_credential_material s signature in
  if negb (is_ok st) then (bump update_policy_rejects (bump signature_rejects s1), XAIOS_ERR_INVALID) else
  match after_field SIG_PREFIX (default "" signature) with
  | None => reject_update_signature s1
  | Some c1 =>
  match parse_generation c1 with
  | None => reject_update_signature s1
  | Some (generation, c2) =>
  if generation <=? last_update_generation s1 then reject_update_replay s1 else
  match after_field SHA_FIELD c2 with
  | None => reject_update_signature s1
  | Some c3 =>
  match hex_run 64 c3 with
  | None => reject_update_signature s1
  | Some c4 =>
  match after_colon c4 with
  | None => reject_update_signature s1
  | Some c5 =>
  match after_field KEY_FIELD c5 with
  | None => reject_update_key s1
  | Some c6 =>
  match after_colon c6 with
  | None => reject_update_signature s1
  | Some c7 =>
  match after_field SIG_FIELD c7 with
  | None => reject_update_signature s1
  | Some c8 =>
  match hex_run 64 c8 with
  | None => reject_update_signature s1
  | Some c9 =>
  if negb (at_end c9) then reject_update_signature s1 else
  (bump signature_accepts (bump key_accepts (mk_policy (count s1) generation)), XAIOS_OK)
  end end end end end end end end end.

Definition security_authorize_update_signature (s : policy) (signature : option string)
    (granted : Z) : policy * xaios_status :=
  if negb (Z.land granted XAIOS_CAP_UPDATE =? XAIOS_CAP_UPDATE) then
    let '(s1, _) := security_authorize_capability s granted XAIOS_CAP_UPDATE in
    (s1, XAIOS_ERR_INVALID)
  else
    let '(s1, st1) := security_authorize_admin s (Some "service.update") granted in
    if negb (is_ok st1) then (s1, XAIOS_ERR_INVALID) else
    let '(s2, st2) := security_validate_update_signature s1 signature in
    if negb (is_ok st2) then (s2, XAIOS_ERR_INVALID) else
    (bump update_authorizations s2, XAIOS_OK).

(** ** Sandbox paths and benchmark records *)

(** The loop of [security_validate_sandbox_path]; [prev] is [cursor[-1]], [None] at
    the start of the path.  True when the loop returns an escape. *)
Fixpoint escape_loop (prev : option ascii) (cursor : string) : bool :=
  match cursor with
  | EmptyString => false
  | String c rest =>
      (chr_eqb c "/"%char && head_is "/"%char rest) ||
      (chr_eqb c "."%char && head_is "."%char rest &&
       (match prev with None => true | Some p => chr_eqb p "/"%char end) &&
       (head_is "/"%char (skip 1 rest) || at_end (skip 1 rest))) ||
      escape_loop (Some c) rest
  end.

Definition security_validate_sandbox_path (s : policy) (path : option string)
    : policy * xaios_status :=
  screened s path sandbox_escape_rejects (fun s1 =>
    if negb (head_is "/"%char (default "" path)) then
      reject_security_operation (bump sandbox_escape_rejects s1)
    else if escape_loop None (default "" path) then
      reject_security_operation (bump sandbox_escape_rejects s1)
    else (s1, XAIOS_OK)).

(** The double quote character. *)
Definition dq : string := String (ascii_of_nat 34) "".

Definition DESIGN_TARGETS : string := dq ++ "design_targets" ++ dq ++ ":true".

Definition security_validate_benchmark_record (s : policy) (record : option string)
    : policy * xaios_status :=
  let '(s1, st) := security_reject_credential_material s record in
  if negb (is_ok st) then (s1, XAIOS_ERR_INVALID) else
  if negb (contains record (Some DESIGN_TARGETS)) then reject_security_operation s1
  else (s1, XAIOS_OK).

Definition security_counter (c : counter) (s : policy) : Z := count s c.

(** ** The boot self-test *)

Definition HEX64 : string := "0123456789abcdef0123456789abcdef0123456789abcdef0123456789abcdef".

Definition test_signature (key : string) : string :=
  "xaios-update:v1:gen=1:sha256=" ++ HEX64 ++ ":key=" ++ key ++ ":sig=" ++ HEX64.

(** Run one call after another and compare each status with the expected one. *)
Fixpoint expect (calls : list ((policy -> policy * xaios_status) * xaios_status)) (s : policy)
    : policy * bool :=
  match calls with
  | [] => (s, true)
  | (f, st) :: rest =>
      let '(s1, got) := f s in
      let '(s2, ok) := expect rest s1 in (s2, status_eqb got st && ok)
  end.

Definition security_self_test : bool :=
  let good := Some (test_signature "XAIOS-QEMU-DEV-PUBKEY") in
  let '(s, ok) := expect
    [(fun s => security_reject_credential_material s (Some "normal-update-request"), XAIOS_OK);
     (fun s => security_reject_credential_material s (Some "github_pat_example"), XAIOS_ERR_INVALID);
     (fun s => security_validate_update_signature s (Some "unsigned-update"), XAIOS_ERR_INVALID);
     (fun s => security_authorize_capability s 0 16, XAIOS_ERR_INVALID);
     (fun s => security_authorize_fs_read s (Some "/etc/services/source-index.svc"), XAIOS_OK);
     (fun s => security_authorize_fs_write s (Some "/etc/services/source-index.svc"), XAIOS_ERR_INVALID);
     (fun s => security_authorize_git_workspace s 1 2 (Some "patch"), XAIOS_ERR_INVALID);
     (fun s => security_authorize_sandbox s 1 2 (Some "build"), XAIOS_ERR_INVALID);
     (fun s => security_authorize_rollback s (Some "/init") 0, XAIOS_ERR_INVALID);
     (fun s => security_authorize_admin s (Some "admin.shell") 0, XAIOS_ERR_INVALID);
     (fun s => security_validate_sandbox_path s (Some "/workspace/1/../escape"), XAIOS_ERR_INVALID);
     (fun s => security_validate_benchmark_record s
                 (Some ("{" ++ DESIGN_TARGETS ++ "," ++ dq ++ "latency" ++ dq ++ ":" ++ dq ++ "target" ++ dq ++ "}")),
      XAIOS_OK);
     (fun s => security_validate_benchmark_record s (Some "token=bad"), XAIOS_ERR_INVALID);
     (fun s => security_validate_update_signature s (Some (test_signature "BAD")), XAIOS_ERR_INVALID);
     (fun s => security_authorize_update_signature s good XAIOS_CAP_UPDATE, XAIOS_ERR_INVALID);
     (fun s => security_authorize_update_signature s good (Z.lor XAIOS_CAP_UPDATE XAIOS_CAP_ADMIN), XAIOS_OK);
     (fun s => security_validate_update_signature s good, XAIOS_ERR_INVALID)]
    security_policy_init in
  ok &&
  forallb (fun '(c, n) => count s c =? n)
    [(credential_rejects, 2); (signature_rejects, 3); (signature_accepts, 1);
     (capability_denials, 3); (fs_denials, 1); (workspace_denials, 1); (sandbox_denials, 1);
     (rollback_denials, 1); (update_policy_rejects, 3); (admin_denials, 2);
     (update_authorizations, 1); (update_replay_rejects, 1); (key_accepts, 1);
     (key_rejects, 1); (sandbox_escape_rejects, 1); (denied_operations, 13)].

(** ** Specification vocabulary *)

Definition substring_of (n t : string) : Prop := exists a b, t = a ++ n ++ b.

(** No credential pattern occurs in the text. *)
Definition clean (t : string) : Prop :=
  forall p, p ∈ credential_patterns -> ~ substring_of p t.

Fixpoint all_chars (P : ascii -> bool) (s : string) : bool :=
  match s with EmptyString => true | String c r => P c && all_chars P r end.

(** Decimal value of a digit string, continuing from [p]. *)
Fixpoint decimal_from (p : Z) (ds : string) : Z :=
  match ds with EmptyString => p | String c r => decimal_from (p * 10 + (code c - 48)) r end.

(** The grammar of an update signature with generation [g]. *)
Definition signature_format (t : string) (g : Z) : Prop :=
  exists ds h1 h2,
    t = SIG_PREFIX ++ "gen=" ++ ds ++ ":" ++ SHA_FIELD ++ h1 ++ ":" ++ KEY_FIELD ++ ":" ++
        SIG_FIELD ++ h2 /\
    ds <> "" /\ all_chars is_digit ds = true /\ g = decimal_from 0 ds /\ 0 < g <= UINT64_MAX /\
    all_chars is_hex_char h1 = true /\ String.length h1 = 64%nat /\
    all_chars is_hex_char h2 = true /\ String.length h2 = 64%nat.

(** ** String lemmas *)

#[local] Arguments String.append !_ _ / : simpl nomatch.

Lemma sapp_assoc (a b c : string) : (a ++ b) ++ c = a ++ b ++ c.
Proof. induction a as [|x a IH]; simpl; [done|]. by rewrite IH. Qed.

Lemma sapp_nil_r (a : string) : a ++ "" = a.
Proof. induction a as [|x a IH]; simpl; [done|]. by rewrite IH. Qed.

Lemma chr_eqb_eq a b : chr_eqb a b = true <-> a = b.
Proof. apply Ascii.eqb_eq. Qed.

Lemma prefix_loop_spec t p : prefix_loop t p = true <-> exists b, t = p ++ b.
Proof.
  revert t. induction p as [|c p IH]; intros t; simpl; [split; [by exists t|done]|].
  destruct t as [|d t]; [split; [done|by intros [b Hb]]|].
  destruct (chr_eqb d c) eqn:E.
  - apply chr_eqb_eq in E as ->. rewrite IH. split; intros [b Hb]; exists b; [by rewrite Hb|by simplify_eq/=].
  - split; [done|]. intros [b Hb]. simplify_eq/=. by rewrite (proj2 (chr_eqb_eq c c)) in E.
Qed.

Lemma skip_app p b : skip (String.length p) (p ++ b) = b.
Proof. by induction p. Qed.

Lemma match_loop_prefix hay pat : match_loop hay pat = "" <-> prefix_loop hay pat = true.
Proof.
  revert pat. induction hay as [|h hay IH]; intros [|p pat]; simpl; try done.
  destruct (chr_eqb h p); [apply IH|done].
Qed.

Lemma contains_loop_spec t n :
  n <> "" -> contains_loop t n = true <-> substring_of n t.
Proof.
  intros Hn. induction t as [|c t IH]; cbn [contains_loop].
  - split; [done|]. intros (a & b & H). destruct a, n; simpl in *; congruence.
  - destruct (match_loop (String c t) n) as [|x y] eqn:E; unfold substring_of.
    + apply match_loop_prefix, prefix_loop_spec in E as [b Hb].
      split; [|done]. intros _. by exists "", b.
    + rewrite IH. unfold substring_of. split.
      * intros (a & b & ->). by exists (String c a), b.
      * intros (a & b & Hab). destruct a as [|d a]; simpl in Hab; [|simplify_eq; by exists a, b].
        assert (Hp : prefix_loop (String c t) n = true) by (apply prefix_loop_spec; by exists b).
        apply match_loop_prefix in Hp. congruence.
Qed.

Lemma contains_spec t n : n <> "" -> contains (Some t) (Some n) = true <-> substring_of n t.
Proof. intros Hn. destruct n; [done|]. by apply contains_loop_spec. Qed.

Lemma pattern_nonempty p : p ∈ credential_patterns -> p <> "".
Proof. intros Hp ->. unfold credential_patterns in Hp. set_solver. Qed.

(** Screening: accepted exactly for clean text, with no effect; otherwise counted. *)
Lemma screen_spec s text :
  (exists t, text = Some t /\ clean t /\
     security_reject_credential_material s text = (s, XAIOS_OK)) \/
  ((forall t, text = Some t -> ~ clean t) /\
     security_reject_credential_material s text =
       reject_security_operation (bump credential_rejects s)).
Proof.
  destruct text as [t|]; [|by right]. simpl.
  destruct (contains_loop t "github_pat_" || _) eqn:E.
  - right. split; [|done]. intros t' [= <-] Hc.
    change (existsb (fun p => contains (Some t) (Some p)) credential_patterns = true) in E.
    apply existsb_exists in E as (p & Hp & Hcp). apply list_elem_of_In in Hp.
    apply (Hc p Hp). apply contains_spec; [by apply pattern_nonempty|done].
  - left. exists t. split_and!; [done| |done]. intros p Hp Hs.
    change (existsb (fun p => contains (Some t) (Some p)) credential_patterns = false) in E.
    apply not_true_iff_false in E. apply E, existsb_exists. exists p.
    split; [by apply list_elem_of_In|]. apply contains_spec; [by apply pattern_nonempty|done].
Qed.

(** ** Parsing lemmas *)

Lemma after_field_spec f c r : after_field f c = Some r <-> c = f ++ r.
Proof.
  unfold after_field. destruct (prefix_loop c f) eqn:E.
  - apply prefix_loop_spec in E as [b ->]. rewrite skip_app. split; [by intros [= ->]|].
    intros H. by apply (inj (String.append f)) in H as ->.
  - split; [done|]. intros ->. assert (prefix_loop (f ++ r) f = true) by (apply prefix_loop_spec; by exists r).
    congruence.
Qed.

Lemma after_colon_spec c r : after_colon c = Some r <-> c = ":" ++ r.
Proof.
  destruct c as [|d c]; simpl; [done|]. destruct (chr_eqb d ":"%char) eqn:E.
  - apply chr_eqb_eq in E as ->. split; [by intros [= ->]|by intros [= ->]].
  - split; [done|]. intros [= -> ->]. done.
Qed.

Lemma hex_run_spec n c r :
  hex_run n c = Some r <->
  exists h, c = h ++ r /\ String.length h = n /\ all_chars is_hex_char h = true.
Proof.
  revert c. induction n as [|n IH]; intros c; simpl.
  - split; [intros [= ->]; by exists ""|]. by intros ([|x h] & -> & Hl & _).
  - destruct c as [|x c]; simpl.
    + split; [done|]. by intros ([|y h] & Hc & Hl & _).
    + destruct (is_hex_char x) eqn:Ex.
      * rewrite IH. split.
        -- intros (h & -> & <- & Hh). exists (String x h). simpl. by rewrite Ex.
        -- intros ([|y h] & Hc & Hl & Hh); simplify_eq/=. exists h.
           apply andb_true_iff in Hh as [_ ?]. done.
      * split; [done|]. intros ([|y h] & Hc & Hl & Hh); simplify_eq/=. by rewrite Ex in Hh.
Qed.

Lemma digit_value c : is_digit c = true -> 0 <= code c - 48 <= 9.
Proof. unfold is_digit. lia. Qed.

Lemma decimal_from_ge p ds : 0 <= p -> all_chars is_digit ds = true -> p <= decimal_from p ds.
Proof.
  revert p. induction ds as [|c ds IH]; intros p Hp Hd; simpl in *; [lia|].
  apply andb_true_iff in Hd as [Hc Hd]. apply digit_value in Hc.
  specialize (IH (p * 10 + (code c - 48)) ltac:(lia) Hd). lia.
Qed.

(** The overflow test of the digit loop is exact. *)
Lemma digit_overflow p d :
  0 <= p <= UINT64_MAX -> 0 <= d <= 9 ->
  ((UINT64_MAX - d) / 10 <? p) = (UINT64_MAX <? p * 10 + d).
Proof.
  unfold UINT64_MAX. intros Hp Hd.
  pose proof (Z.div_mod (18446744073709551615 - d) 10 ltac:(lia)).
  pose proof (Z.mod_pos_bound (18446744073709551615 - d) 10 ltac:(lia)). lia.
Qed.

Definition stops (r : string) : bool := at_end r || head_is ":"%char r.

Lemma digits_loop_spec v p g r :
  0 <= p <= UINT64_MAX ->
  digits_loop v p = Some (g, r) <->
  exists ds, v = ds ++ r /\ all_chars is_digit ds = true /\ stops r = true /\
    g = decimal_from p ds /\ g <= UINT64_MAX.
Proof.
  revert p. induction v as [|c v IH]; intros p Hp; simpl.
  - split; [intros [= <- <-]; exists ""; simpl; split_and!; done || lia|].
    by intros ([|x ds] & Hv & _ & _ & -> & _); simplify_eq/=.
  - destruct (chr_eqb c ":"%char) eqn:Ec.
    + apply chr_eqb_eq in Ec as ->. split.
      * intros [= <- <-]. exists "". split_and!; done || lia.
      * by intros ([|x ds] & Hv & Hd & _ & -> & _); simplify_eq/=.
    + destruct (is_digit c) eqn:Ed; simpl.
      2:{ split; [done|]. intros ([|x ds] & Hv & Hd & Hst & _); simplify_eq/=.
          - unfold stops in Hst. simpl in Hst. by rewrite Ec in Hst.
          - by rewrite Ed in Hd. }
      pose proof (digit_value c Ed) as Hv. rewrite digit_overflow by done.
      destruct (UINT64_MAX <? p * 10 + (code c - 48)) eqn:Eo.
      * split; [done|]. intros ([|x ds] & Hc & Hd & Hst & -> & Hg); simplify_eq/=.
        -- unfold stops in Hst. simpl in Hst. by rewrite Ec in Hst.
        -- apply andb_true_iff in Hd as [_ Hd].
           pose proof (decimal_from_ge (p * 10 + (code x - 48)) ds ltac:(lia) Hd). lia.
      * rewrite (u64_small (p * 10)) by (unfold UINT64_MAX in *; lia).
        rewrite u64_small by (unfold UINT64_MAX in *; lia). rewrite IH by (unfold UINT64_MAX in *; lia).
        split.
        -- intros (ds & -> & Hd & Hst & -> & Hg). exists (String c ds). simpl. by rewrite Ed.
        -- intros ([|x ds] & Hc & Hd & Hst & -> & Hg); simplify_eq/=.
           ++ unfold stops in Hst. simpl in Hst. by rewrite Ec in Hst.
           ++ exists ds. apply andb_true_iff in Hd as [_ Hd]. done.
Qed.

Lemma parse_generation_spec c g r :
  parse_generation c = Some (g, r) <->
  exists ds, c = "gen=" ++ ds ++ ":" ++ r /\ ds <> "" /\ all_chars is_digit ds = true /\
    g = decimal_from 0 ds /\ 0 < g <= UINT64_MAX.
Proof.
  unfold parse_generation.
  destruct (prefix_loop c "gen=") eqn:Ep; cbn [negb].
  2:{ split; [done|]. intros (ds & -> & _).
      assert (prefix_loop ("gen=" ++ ds ++ ":" ++ r) "gen=" = true)
        by (apply prefix_loop_spec; eexists; done). congruence. }
  apply prefix_loop_spec in Ep as [v ->].
  change (skip 4 ("gen=" ++ v)) with v.
  assert (Hz : 0 <= 0 <= UINT64_MAX) by (unfold UINT64_MAX; lia).
  split.
  - destruct v as [|x v']; [done|]. destruct (is_digit x) eqn:Ex; [|done]. cbn [negb].
    destruct (digits_loop (String x v') 0) as [[g0 [|d r0]]|] eqn:El; try done.
    destruct (chr_eqb d ":"%char) eqn:Ed; [|done]. apply chr_eqb_eq in Ed as ->. simpl.
    destruct (g0 =? 0) eqn:E0; [done|]. intros [= -> ->].
    apply digits_loop_spec in El as (ds & Hv & Hd & _ & -> & Hle); [|done].
    exists ds. rewrite Hv. split_and!; [done| |done|done| |done].
    + intros ->. simpl in Hv. by simplify_eq.
    + pose proof (decimal_from_ge 0 ds ltac:(lia) Hd). lia.
  - intros (ds & Hc & Hne & Hd & -> & Hg). apply (inj (String.append "gen=")) in Hc as ->.
    destruct ds as [|x ds]; [done|]. cbn [String.append].
    assert (Hx : is_digit x = true) by (simpl in Hd; by apply andb_true_iff in Hd as [? _]).
    rewrite Hx. cbn [negb].
    assert (El : digits_loop (String x (ds ++ String ":"%char r)) 0 =
      Some (decimal_from 0 (String x ds), String ":"%char r)).
    { apply digits_loop_spec; [done|]. exists (String x ds). split_and!; try done. lia. }
    rewrite El. change (chr_eqb ":"%char ":"%char) with true. cbn [negb orb].
    by replace (decimal_from 0 (String x ds) =? 0) with false by lia.
Qed.

(** ** What each call does to the audit counter and to the generation *)

(** A denied call adds one to [denied_operations], an allowed one leaves it. *)
Definition audited (s : policy) (r : policy * xaios_status) : Prop :=
  count r.1 denied_operations =
  if is_ok r.2 then count s denied_operations else u64 (count s denied_operations + 1).

Lemma count_bump_ne c s : c <> denied_operations ->
  count (bump c s) denied_operations = count s denied_operations.
Proof. intros Hc. simpl. by rewrite decide_False. Qed.

Lemma audited_reject s s0 :
  count s0 denied_operations = count s denied_operations ->
  audited s (reject_security_operation s0).
Proof. unfold audited, reject_security_operation. simpl. by intros ->. Qed.

Lemma audited_screened s text c k :
  c <> denied_operations -> audited s (k s) -> audited s (screened s text c k).
Proof.
  intros Hc Hk. unfold screened.
  destruct (screen_spec s text) as [(t & -> & _ & ->)|[_ ->]]; [done|].
  unfold audited, reject_security_operation. simpl. by rewrite decide_False by done.
Qed.

Lemma screened_generation s text c k :
  last_update_generation (k s).1 = last_update_generation s ->
  last_update_generation (screened s text c k).1 = last_update_generation s.
Proof.
  intros Hk. unfold screened. by destruct (screen_spec s text) as [(t & -> & _ & ->)|[_ ->]].
Qed.

(** The outcome of the signature check: it accepts exactly the clean texts of the
    grammar with a fresh generation. *)
Definition acceptable (s : policy) (sig : option string) (g : Z) : Prop :=
  exists t, sig = Some t /\ clean t /\ signature_format t g /\ last_update_generation s < g.

Definition accept (s : policy) (g : Z) : policy :=
  bump signature_accepts (bump key_accepts (mk_policy (count s) g)).

Lemma validate_complete s sig g :
  acceptable s sig g -> security_validate_update_signature s sig = (accept s g, XAIOS_OK).
Proof.
  intros (t & -> & Hcl & (ds & h1 & h2 & -> & Hne & Hd & Hg & Hb & Hh1 & Hl1 & Hh2 & Hl2) & Hlast).
  unfold security_validate_update_signature.
  destruct (screen_spec s (Some (SIG_PREFIX ++ "gen=" ++ ds ++ ":" ++ SHA_FIELD ++ h1 ++ ":" ++
      KEY_FIELD ++ ":" ++ SIG_FIELD ++ h2))) as [(t & _ & _ & ->)|[Hn _]]; [|by destruct (Hn _ eq_refl)].
  cbn [is_ok negb from_option id].
  rewrite (proj2 (after_field_spec _ _ _) eq_refl).
  rewrite (proj2 (parse_generation_spec _ g _)) by (exists ds; done).
  replace (g <=? last_update_generation s) with false by lia.
  rewrite (proj2 (after_field_spec _ _ _) eq_refl).
  rewrite (proj2 (hex_run_spec _ _ _)) by (exists h1; done).
  rewrite (proj2 (after_colon_spec _ _) eq_refl).
  rewrite (proj2 (after_field_spec _ _ _) eq_refl).
  rewrite (proj2 (after_colon_spec _ _) eq_refl).
  rewrite (proj2 (after_field_spec _ _ _) eq_refl).
  rewrite (proj2 (hex_run_spec 64 h2 "")) by (exists h2; rewrite sapp_nil_r; done).
  done.
Qed.

Lemma validate_sound s sig s' :
  security_validate_update_signature s sig = (s', XAIOS_OK) ->
  exists g, acceptable s sig g /\ s' = accept s g.
Proof.
  unfold security_validate_update_signature.
  destruct (screen_spec s sig) as [(t & -> & Hcl & ->)|[_ ->]]; [|done]. cbn [is_ok negb from_option id].
  destruct (after_field SIG_PREFIX t) as [c1|] eqn:H1; [|done].
  destruct (parse_generation c1) as [[g c2]|] eqn:H2; [|done].
  destruct (g <=? last_update_generation s) eqn:H3; [done|].
  destruct (after_field SHA_FIELD c2) as [c3|] eqn:H4; [|done].
  destruct (hex_run 64 c3) as [c4|] eqn:H5; [|done].
  destruct (after_colon c4) as [c5|] eqn:H6; [|done].
  destruct (after_field KEY_FIELD c5) as [c6|] eqn:H7; [|done].
  destruct (after_colon c6) as [c7|] eqn:H8; [|done].
  destruct (after_field SIG_FIELD c7) as [c8|] eqn:H9; [|done].
  destruct (hex_run 64 c8) as [[|x c9]|] eqn:H10; [|done|done]. intros [= <-].
  apply after_field_spec in H1 as ->. apply after_field_spec in H4 as ->.
  apply after_colon_spec in H6 as ->. apply after_field_spec in H7 as ->.
  apply after_colon_spec in H8 as ->. apply after_field_spec in H9 as ->.
  apply hex_run_spec in H5 as (h1 & -> & Hl1 & Hh1).
  apply hex_run_spec in H10 as (h2 & -> & Hl2 & Hh2).
  apply parse_generation_spec in H2 as (ds & -> & Hne & Hd & Hg & Hb).
  exists g. split; [|done]. eexists. split; [done|]. split; [done|]. split; [|lia].
  exists ds, h1, h2. rewrite sapp_nil_r. split_and!; done || apply Hb.
Qed.

Lemma validate_reject s sig s' st :
  security_validate_update_signature s sig = (s', st) -> st <> XAIOS_OK ->
  last_update_generation s' = last_update_generation s /\
  count s' denied_operations = u64 (count s denied_operations + 1).
Proof.
  unfold security_validate_update_signature.
  destruct (screen_spec s sig) as [(t & -> & Hcl & ->)|[_ ->]]; cbn [is_ok negb from_option id].
  - intros Hv Hst.
    repeat (match goal with
            | H : (match ?x with _ => _ end) = _ |- _ => destruct x
            end; try (injection Hv as <- <-; done)).
  - intros [= <- <-] _. done.
Qed.

Lemma validate_status s sig :
  let r := security_validate_update_signature s sig in
  r.2 = XAIOS_OK \/ (r.2 = XAIOS_ERR_INVALID /\ count r.1 signature_accepts = count s signature_accepts).
Proof.
  cbv zeta. unfold security_validate_update_signature.
  destruct (screen_spec s sig) as [(t & -> & Hcl & ->)|[_ ->]]; cbn [is_ok negb from_option id]; [|by right].
  repeat (case_match; try (by right)). by left.
Qed.

Lemma audited_validate s sig : audited s (security_validate_update_signature s sig).
Proof.
  destruct (security_validate_update_signature s sig) as [s' st] eqn:E. unfold audited; simpl.
  destruct (is_ok st) eqn:Est.
  - apply is_ok_true in Est as ->. apply validate_sound in E as (g & _ & ->). done.
  - by eapply validate_reject; [exact E|apply is_ok_false].
Qed.

(** ** All calls of the interface *)

Inductive sec_op :=
| ORecord
| OCapability (granted required : Z)
| OFsRead (path : option string)
| OFsWrite (path : option string)
| OWorkspace (owner actor : Z) (operation : option string)
| OSandbox (owner actor : Z) (operation : option string)
| ORollback (target : option string) (authorized : Z)
| OAdmin (operation : option string) (granted : Z)
| OCredential (text : option string)
| OCredentialBuffer (text : option string) (length : Z)
| OValidate (signature : option string)
| OAuthorize (signature : option string) (granted : Z)
| OSandboxPath (path : option string)
| OBenchmark (record : option string).

(** Recording a denial for another component has no result and counts as one. *)
Definition sec_step (s : policy) (op : sec_op) : policy * xaios_status :=
  match op with
  | ORecord => (security_record_denied_operation s, XAIOS_ERR_INVALID)
  | OCapability g r => security_authorize_capability s g r
  | OFsRead p => security_authorize_fs_read s p
  | OFsWrite p => security_authorize_fs_write s p
  | OWorkspace o a x => security_authorize_git_workspace s o a x
  | OSandbox o a x => security_authorize_sandbox s o a x
  | ORollback t a => security_authorize_rollback s t a
  | OAdmin x g => security_authorize_admin s x g
  | OCredential t => security_reject_credential_material s t
  | OCredentialBuffer t n => security_reject_credential_material_buffer s t n
  | OValidate g => security_validate_update_signature s g
  | OAuthorize g c => security_authorize_update_signature s g c
  | OSandboxPath p => security_validate_sandbox_path s p
  | OBenchmark r => security_validate_benchmark_record s r
  end.

Definition sec_run (s : policy) (ops : list sec_op) : policy :=
  fold_left (fun s op => (sec_step s op).1) ops s.

Lemma admin_cases s x granted :
  security_authorize_admin s x granted = (s, XAIOS_OK) \/
  (is_ok (security_authorize_admin s x granted).2 = false /\
   audited s (security_authorize_admin s x granted) /\
   last_update_generation (security_authorize_admin s x granted).1 = last_update_generation s).
Proof.
  unfold security_authorize_admin, screened.
  destruct (screen_spec s x) as [(t & -> & _ & ->)|[_ ->]]; cbn [is_ok negb].
  - destruct (_ =? _); [by left|by right].
  - by right.
Qed.

Lemma authorize_cases s sig granted :
  let r := security_authorize_update_signature s sig granted in
  audited s r /\
  (is_ok r.2 = true -> exists g, acceptable s sig g /\
     Z.land granted XAIOS_CAP_UPDATE = XAIOS_CAP_UPDATE /\
     security_authorize_admin s (Some "service.update") granted = (s, XAIOS_OK) /\
     r.1 = bump update_authorizations (accept s g)) /\
  (is_ok r.2 = false -> last_update_generation r.1 = last_update_generation s).
Proof.
  cbv zeta. unfold security_authorize_update_signature.
  destruct (Z.land granted XAIOS_CAP_UPDATE =? XAIOS_CAP_UPDATE) eqn:Ec; cbn [negb].
  2:{ unfold security_authorize_capability. rewrite Ec. done. }
  destruct (admin_cases s (Some "service.update") granted) as [Ha|(Hb & Hc & Hd)].
  2:{ destruct (security_authorize_admin s (Some "service.update") granted) as [s1 st].
      simpl in Hb, Hd. unfold audited in Hc. simpl in Hc. rewrite Hb in *. cbn [negb].
      split_and!; [exact Hc|done|done]. }
  rewrite Ha. cbn [is_ok negb]. pose proof (audited_validate s sig) as Hau.
  destruct (security_validate_update_signature s sig) as [s2 st2] eqn:Ev.
  unfold audited in Hau; simpl in Hau. destruct (is_ok st2) eqn:Est; cbn [negb].
  - apply is_ok_true in Est as ->. apply validate_sound in Ev as (g & Hg & ->).
    split_and!; [done| |done]. intros _. exists g. split_and!; try done. lia.
  - split_and!; [exact Hau|done|]. intros _. eapply validate_reject; [exact Ev|by apply is_ok_false].
Qed.

(** Expose the common shape of the screened authorisations. *)
Ltac unfold_screened :=
  unfold security_authorize_fs_read, security_authorize_fs_write,
    security_authorize_git_workspace, security_authorize_sandbox,
    security_authorize_rollback, security_authorize_admin, security_validate_sandbox_path.

Lemma generation_step s op :
  last_update_generation s <= last_update_generation (sec_step s op).1.
Proof.
  destruct op; cbn [sec_step]; try (unfold_screened; rewrite screened_generation; [lia|case_ifs; done]).
  - done.
  - unfold security_authorize_capability. case_if; done.
  - destruct (screen_spec s text) as [(t & -> & _ & ->)|[_ ->]]; done.
  - unfold security_reject_credential_material_buffer. destruct text; [case_if|]; done.
  - destruct (security_validate_update_signature s signature) as [s' st] eqn:E. simpl.
    destruct (is_ok st) eqn:Est.
    + apply is_ok_true in Est as ->. apply validate_sound in E as (g & (t & _ & _ & _ & Hg) & ->).
      simpl. lia.
    + apply validate_reject in E as [-> _]; [lia|by apply is_ok_false].
  - destruct (authorize_cases s signature granted) as (_ & Hok & Hno).
    destruct (is_ok (security_authorize_update_signature s signature granted).2).
    + destruct (Hok eq_refl) as (g & (t & _ & _ & _ & Hg) & _ & _ & ->). simpl. lia.
    + rewrite (Hno eq_refl). lia.
  - unfold security_validate_benchmark_record.
    destruct (screen_spec s record) as [(t & -> & _ & ->)|[_ ->]]; cbn [is_ok negb]; [case_if|]; done.
Qed.

Lemma generation_run s ops : last_update_generation s <= last_update_generation (sec_run s ops).
Proof.
  revert s. induction ops as [|op ops IH]; intros s; simpl; [lia|].
  etransitivity; [apply (generation_step s op)|apply IH].
Qed.

Lemma acceptable_unique s sig g h : acceptable s sig g -> acceptable s sig h -> g = h.
Proof.
  intros Hg%validate_complete Hh%validate_complete. rewrite Hg in Hh.
  by injection Hh as Hh.
Qed.

(** ** Path lemmas *)

(** The components of a path, split at every slash. *)
Fixpoint split_path (p : string) : list string :=
  match p with
  | EmptyString => [""]
  | String c r =>
      if chr_eqb c "/"%char then "" :: split_path r
      else match split_path r with
           | h :: t => String c h :: t
           | [] => [String c ""]
           end
  end.

Lemma split_path_cons p : exists h t, split_path p = h :: t.
Proof.
  destruct p as [|c r]; simpl; [by eexists _, _|].
  destruct (chr_eqb c "/"%char); [by eexists _, _|]. destruct (split_path r); by eexists _, _.
Qed.

(** The first component is a single dot exactly when the text is a dot followed by
    a slash or the end. *)
Lemma first_dot r h t :
  split_path r = h :: t ->
  head_is "."%char r && (head_is "/"%char (skip 1 r) || at_end (skip 1 r)) = true <-> h = ".".
Proof.
  destruct r as [|c r]; simpl.
  - intros [= <- <-]. split; done.
  - destruct (chr_eqb c "/"%char) eqn:E1.
    + apply chr_eqb_eq in E1 as ->. intros [= <- <-]. by split.
    + destruct r as [|d r].
      * simpl. intros [= <- <-]. rewrite andb_true_r, chr_eqb_eq. split; [by intros ->|by intros [= ->]].
      * simpl. destruct (chr_eqb d "/"%char) eqn:E2.
        -- intros [= <- <-]. rewrite andb_true_r, chr_eqb_eq. split; [by intros ->|by intros [= ->]].
        -- destruct (split_path_cons r) as (h' & t' & ->). intros [= <- <-].
           rewrite andb_false_r. split; [done|]. intros [= -> ?].
Qed.

Definition boundary (prev : option ascii) : bool :=
  match prev with None => true | Some p => chr_eqb p "/"%char end.

Lemma dslash_cons c r :
  substring_of "//" (String c r) <->
  (chr_eqb c "/"%char && head_is "/"%char r = true) \/ substring_of "//" r.
Proof.
  rewrite andb_true_iff, chr_eqb_eq. unfold substring_of. split.
  - intros ([|x a] & b & Hab); simplify_eq/=; [by left|]. right. by exists a, b.
  - intros [[-> Hh]|(a & b & ->)].
    + destruct r as [|d r]; [done|]. apply chr_eqb_eq in Hh as ->. by exists "", r.
    + by exists (String c a), b.
Qed.

Lemma escape_loop_spec prev cur :
  escape_loop prev cur = true <->
  substring_of "//" cur \/
  ".." ∈ (if boundary prev then split_path cur else tail (split_path cur)).
Proof.
  revert prev. induction cur as [|c r IH]; intros prev; cbn [escape_loop].
  - split; [done|]. intros [([|? ?] & b & ?)|H]; [done|done|].
    destruct (boundary prev); simpl in H; [|by apply not_elem_of_nil in H].
    by apply list_elem_of_singleton in H.
  - rewrite !orb_true_iff, IH, dslash_cons. cbn [boundary].
    change (match prev with None => true | Some p => chr_eqb p "/"%char end) with (boundary prev).
    destruct (chr_eqb c "/"%char) eqn:Ec; cbn [split_path]; rewrite Ec.
    + assert (chr_eqb c "."%char = false) as -> by (apply chr_eqb_eq in Ec as ->; done).
      cbn [andb tail]. destruct (boundary prev); rewrite ?elem_of_cons; naive_solver.
    + destruct (split_path_cons r) as (h & t & Hs). pose proof (first_dot r h t Hs) as Hd.
      rewrite Hs. cbn [andb tail]. destruct (boundary prev).
      * rewrite elem_of_cons, andb_true_r, <- andb_assoc, andb_true_iff, Hd, chr_eqb_eq.
        assert (Hh : ".." = String c h <-> c = "."%char /\ h = ".").
        { split; [by intros [= <- <-]|by intros [-> ->]]. }
        rewrite Hh. naive_solver.
      * rewrite andb_false_r. cbn [andb]. naive_solver.
Qed.

Lemma cstr_length_eq p : cstr_length p = Z.of_nat (String.length p).
Proof. induction p as [|c p IH]; simpl; [done|]. rewrite IH. lia. Qed.

Lemma path_in_tree_spec p root :
  path_in_tree p root = true <-> p = root \/ exists r, p = root ++ "/" ++ r.
Proof.
  unfold path_in_tree. rewrite cstr_length_eq, Nat2Z.id.
  destruct (prefix_loop p root) eqn:E.
  - apply prefix_loop_spec in E as [b ->]. rewrite skip_app. destruct b as [|c b]; simpl.
    + rewrite sapp_nil_r. split; [by left|done].
    + rewrite chr_eqb_eq. split; [intros ->; right; by exists b|].
      intros [H|[r H]].
      * rewrite <- (sapp_nil_r root) in H at 2. by apply (inj (String.append root)) in H.
      * apply (inj (String.append root)) in H. by injection H.
  - split; [done|]. intros H. apply not_true_iff_false in E. destruct E. apply prefix_loop_spec.
    destruct H as [->|[r ->]]; [exists ""; by rewrite sapp_nil_r|by eexists].
Qed.

(** The path check, shared by its users. *)
Lemma sandbox_path_iff s p :
  (security_validate_sandbox_path s (Some p)).2 = XAIOS_OK <->
  clean p /\ head_is "/"%char p = true /\ ~ substring_of "//" p /\ ".." ∉ split_path p.
Proof.
  unfold security_validate_sandbox_path, screened.
  destruct (screen_spec s (Some p)) as [(t & [= <-] & Hcl & ->)|[Hn ->]]; cbn [is_ok negb from_option id].
  - destruct (head_is "/"%char p); cbn [negb]; [|split; [done|naive_solver]].
    pose proof (escape_loop_spec None p) as He. cbn [boundary] in He.
    destruct (escape_loop None p); simpl.
    + split; [done|]. intros (_ & _ & H1 & H2). by destruct (proj1 He eq_refl).
    + split; [intros _|done]. split_and!; [done|done| |]; intros H; discriminate (proj2 He ltac:(auto)).
  - split; [done|]. intros [Hc _]. by apply Hn in Hc.
Qed.

Lemma sandbox_path_ok s p :
  (security_validate_sandbox_path s (Some p)).2 = XAIOS_OK -> ".." ∉ split_path p.
Proof. intros H. by apply sandbox_path_iff in H as (_ & _ & _ & ?). Qed.

(** ** Buffer screening *)

Lemma get_skip k t :
  String.get k t = match skip k t with String c _ => Some c | EmptyString => None end.
Proof. revert t. induction k as [|k IH]; intros [|c t]; simpl; done || apply IH. Qed.

Lemma skip_S k t : skip (S k) t = skip 1 (skip k t).
Proof. revert t. induction k as [|k IH]; intros [|c t]; simpl; try done. apply IH. Qed.

Lemma match_at_prefix t k n : match_at t k n = prefix_loop (skip k t) n.
Proof.
  revert k. induction n as [|c n IH]; intros k; simpl; [done|].
  rewrite get_skip. specialize (IH (S k)). rewrite skip_S in IH.
  destruct (skip k t) as [|d r]; [done|]. simpl in IH. by rewrite IH.
Qed.

Lemma skip_split k t : (k <= String.length t)%nat ->
  exists a, t = a ++ skip k t /\ String.length a = k.
Proof.
  revert t. induction k as [|k IH]; intros t Hk; [by exists ""|].
  destruct t as [|c t]; simpl in *; [lia|]. destruct (IH t ltac:(lia)) as (a & Ha & Hl).
  exists (String c a). simpl. split; [by rewrite <- Ha|by rewrite Hl].
Qed.

Lemma length_sapp a b : String.length (a ++ b) = (String.length a + String.length b)%nat.
Proof. induction a as [|c a IH]; simpl; [done|]. by rewrite IH. Qed.

Lemma contains_buffer_spec t n :
  n <> "" ->
  contains_buffer (Some t) (Z.of_nat (String.length t)) n = true <-> substring_of n t.
Proof.
  intros Hn. unfold contains_buffer. rewrite cstr_length_eq.
  assert (Hl : (0 < String.length n)%nat) by (destruct n; [done|simpl; lia]).
  destruct ((Z.of_nat (String.length n) =? 0) || _) eqn:E.
  - split; [done|]. intros (a & b & ->). rewrite !length_sapp in E.
    apply orb_true_iff in E as [E|E%Z.ltb_lt]; lia.
  - apply orb_false_iff in E as [_ E%Z.ltb_ge]. rewrite existsb_exists. split.
    + intros (k & Hk & Hm). apply list_elem_of_In, elem_of_seqZ in Hk.
      rewrite match_at_prefix in Hm. apply prefix_loop_spec in Hm as [b Hb].
      destruct (skip_split (Z.to_nat k) t ltac:(lia)) as (a & Ha & _). exists a, b. by rewrite <- Hb.
    + intros (a & b & ->). exists (Z.of_nat (String.length a)). rewrite !length_sapp in *. split.
      * apply list_elem_of_In, elem_of_seqZ. lia.
      * rewrite match_at_prefix, Nat2Z.id, skip_app. apply prefix_loop_spec. by exists b.
Qed.

(** ** Properties *)

(** An accepted update signature is not accepted again: whatever calls of the
    interface happen after its acceptance, short of initialising the policy anew,
    validating it, or authorising an update with it under any capabilities, is refused. *)
Lemma update_signature_no_replay (s s1 : policy) (sig : option string) (ops : list sec_op) :
  security_validate_update_signature s sig = (s1, XAIOS_OK) ->
  let s2 := sec_run s1 ops in
  (security_validate_update_signature s2 sig).2 <> XAIOS_OK /\
  forall granted, (security_authorize_update_signature s2 sig granted).2 <> XAIOS_OK.
Proof.
  intros Hacc. cbv zeta. apply validate_sound in Hacc as (g & Hg & ->).
  pose proof (generation_run (accept s g) ops) as Hmono. set (s2 := sec_run (accept s g) ops) in *.
  change (last_update_generation (accept s g)) with g in Hmono.
  assert (Hno : forall h, ~ acceptable s2 sig h).
  { intros h (t & -> & Hcl & Hf & Hlast). destruct Hg as (t' & [= <-] & Hcl' & Hf' & Hlast').
    assert (g = h) as ->; [|lia].
    apply (acceptable_unique s (Some t)); exists t; split_and!; done || lia. }
  split.
  - intros Hst. destruct (security_validate_update_signature s2 sig) as [s3 st] eqn:E.
    simpl in Hst. subst st. apply validate_sound in E as (h & Hh & _). by apply (Hno h).
  - intros granted Hst. destruct (authorize_cases s2 sig granted) as (_ & Hok & _).
    rewrite Hst in Hok. destruct (Hok eq_refl) as (h & Hh & _). by apply (Hno h).
Qed.

(** C26: the signature check decides the documented grammar.  A text is well formed when
    it is free of credential material and reads
    xaios-update:v1:gen=<digits>:sha256=<64 hex>:key=XAIOS-QEMU-DEV-PUBKEY:sig=<64 hex>
    with a positive generation that fits 64 bits.  A well-formed text of a higher
    generation than the last one is accepted and counted, and its generation is recorded;
    only well-formed texts are accepted; every other one is refused with one denial
    counted, and the generation stays. *)
Theorem update_signature_grammar (s : policy) (sig : option string) :
  let '(s1, st) := security_validate_update_signature s sig in
  let well_formed g := exists t, sig = Some t /\ clean t /\ signature_format t g in
  (forall g, well_formed g -> last_update_generation s < g ->
     st = XAIOS_OK /\ last_update_generation s1 = g /\
     count s1 signature_accepts = u64 (count s signature_accepts + 1) /\
     count s1 denied_operations = count s denied_operations) /\
  (st = XAIOS_OK -> well_formed (last_update_generation s1)) /\
  ((forall g, ~ well_formed g) ->
     st = XAIOS_ERR_INVALID /\ last_update_generation s1 = last_update_generation s /\
     count s1 signature_accepts = count s signature_accepts /\
     count s1 denied_operations = u64 (count s denied_operations + 1)).
Proof.
  destruct (security_validate_update_signature s sig) as [s1 st] eqn:E. cbv zeta. split; [|split].
  - intros g (t & Ht & Hc & Hf) Hlt. rewrite (validate_complete s sig g) in E by (by exists t). by injection E as <- <-.
  - intros ->. apply validate_sound in E as (g & (t & Ht & Hc & Hf & _) & ->). by exists t.
  - intros Hno. destruct (validate_status s sig) as [Hs|[Hs Ha]]; rewrite E in *; cbn [fst snd] in *; subst st.
    + apply validate_sound in E as (g & (t & Ht & Hc & Hf & _) & _). exfalso. apply (Hno g). by exists t.
    + apply validate_reject in E as [? ?]; done.
Qed.

(** An update is authorised only with both capabilities: the update and the admin
    capability bits are granted and the signature is of the grammar and fresh. *)
Theorem update_authorization_requires (s : policy) (sig : option string) (granted : Z) :
  (security_authorize_update_signature s sig granted).2 = XAIOS_OK ->
  Z.land granted XAIOS_CAP_UPDATE = XAIOS_CAP_UPDATE /\
  Z.land granted XAIOS_CAP_ADMIN = XAIOS_CAP_ADMIN /\
  exists g, acceptable s sig g.
Proof.
  intros Hst. destruct (authorize_cases s sig granted) as (_ & Hok & _). rewrite Hst in Hok.
  destruct (Hok eq_refl) as (g & Hg & Hu & Ha & _). split_and!; [done| |by exists g].
  unfold security_authorize_admin, screened in Ha.
  destruct (screen_spec s (Some "service.update")) as [(t & _ & _ & He)|[_ He]]; rewrite He in Ha; [|done].
  cbn [is_ok negb] in Ha. destruct (_ =? _) eqn:Eq; [lia|done].
Qed.

Lemma update_authorization_requires_witness :
  Z.land 144 XAIOS_CAP_ADMIN = XAIOS_CAP_ADMIN.
Proof.
  apply (update_authorization_requires security_policy_init
           (Some (test_signature "XAIOS-QEMU-DEV-PUBKEY")) 144).
  vm_compute. reflexivity.
Defined.

(** Sandbox path confinement.  A path is accepted exactly when it is free of
    credential material, absolute, has no empty component in the middle (no double slash)
    and no component equal to two dots. *)
Theorem sandbox_path_confined (s : policy) (p : string) :
  (security_validate_sandbox_path s (Some p)).2 = XAIOS_OK <->
  clean p /\ head_is "/"%char p = true /\ ~ substring_of "//" p /\ ".." ∉ split_path p.
Proof. apply sandbox_path_iff. Qed.

(** File writes are confined to the writable trees.  A write is authorised exactly
    when the path is free of credential material and is one of the roots /tmp, /home,
    /apps, /state and /logs or lies below one of them. *)
Theorem fs_write_confined (s : policy) (p : string) :
  (security_authorize_fs_write s (Some p)).2 = XAIOS_OK <->
  clean p /\ exists root, root ∈ write_roots /\ (p = root \/ exists r, p = root ++ "/" ++ r).
Proof.
  unfold security_authorize_fs_write, screened.
  destruct (screen_spec s (Some p)) as [(t & [= <-] & Hcl & ->)|[Hn ->]]; cbn [is_ok negb from_option id].
  - destruct (existsb (path_in_tree p) write_roots) eqn:E; cbn [snd].
    + apply existsb_exists in E as (root & Hr & Hp). split; [intros _|done]. split; [done|].
      exists root. split; [by apply list_elem_of_In|by apply path_in_tree_spec].
    + split; [done|]. intros (_ & root & Hr & Hp). apply not_true_iff_false in E. destruct E.
      apply existsb_exists. exists root. split; [by apply list_elem_of_In|by apply path_in_tree_spec].
  - split; [done|]. intros [Hc _]. by apply Hn in Hc.
Qed.

(** The audit counter is complete and exact: every call of the interface that is
    refused adds one to the denied-operations counter, and every call that is allowed
    leaves it unchanged. *)
Theorem denials_audited (s : policy) (op : sec_op) : audited s (sec_step s op).
Proof.
  destruct op; cbn [sec_step];
    try (unfold_screened; apply audited_screened; [done|];
         repeat case_if; done || (apply audited_reject; by rewrite ?count_bump_ne)).
  - done.
  - unfold security_authorize_capability. case_if; [done|]. apply audited_reject. by rewrite count_bump_ne.
  - destruct (screen_spec s text) as [(t & -> & _ & ->)|[_ ->]]; [done|].
    apply audited_reject. by rewrite count_bump_ne.
  - unfold security_reject_credential_material_buffer.
    destruct text; [case_if; [|done]|]; apply audited_reject; by rewrite count_bump_ne.
  - apply audited_validate.
  - apply authorize_cases.
  - unfold security_validate_benchmark_record.
    destruct (screen_spec s record) as [(t & -> & _ & ->)|[_ ->]]; cbn [is_ok negb]; [|done].
    case_if; [|done]. by apply audited_reject.
Qed.

(** Screening a whole buffer by length and screening it as a string are the same. *)
Theorem screening_buffer_equiv (s : policy) (t : string) :
  security_reject_credential_material_buffer s (Some t) (Z.of_nat (String.length t)) =
  security_reject_credential_material s (Some t).
Proof.
  unfold security_reject_credential_material_buffer, security_reject_credential_material.
  assert (H : existsb (contains_buffer (Some t) (Z.of_nat (String.length t))) credential_patterns =
              existsb (fun p => contains (Some t) (Some p)) credential_patterns); [|by rewrite H].
  apply eq_true_iff_eq. rewrite !existsb_exists.
  split; intros (p & Hp & Hc); exists p; (split; [done|]);
    assert (Hne : p <> "") by (by apply pattern_nonempty, list_elem_of_In).
  - by apply contains_spec, (contains_buffer_spec t p Hne).
  - by apply contains_buffer_spec, (contains_spec t p Hne).
Qed.

(** The boot self-test passes, counters included. *)
Lemma security_self_test_passes : security_self_test = true.
Proof. vm_compute. reflexivity. Qed.

End Security.
