(* ===== verification/Numa.v ===== *)
(** * NUMA page allocator (kernel/mm/numa.c, include/xaios/numa.h, boot_info.h)

    Per-node bitmaps of free 4 KiB pages with a next-fit hint.  The firmware memory map
    is read through [read_desc], the contents of memory at an address.  The loops whose
    termination depends on the map carry fuel and return [None] when it runs out;
    [map_descs_total] and [region_pages_total] show that the fuel given is enough.
    The per-node spinlock and the log output are left out. *)

From S2P Require Import Prelude.

(** ** Boot information *)

Record xaios_memory_descriptor := mk_desc {
  type : Z; pad : Z; physical_start : Z; virtual_start : Z; number_of_pages : Z; attribute : Z
}.

Record xaios_boot_info := mk_boot {
  magic : Z; version : Z; reserved : Z;
  memory_map : Z; memory_map_size : Z; memory_descriptor_size : Z;
  memory_descriptor_version : Z;
  kernel_phys_base : Z; kernel_phys_end : Z; uart_base : Z
}.

Definition XAIOS_MEMORY_TYPE_CONVENTIONAL : Z := 7.
Definition SIZEOF_DESCRIPTOR : Z := 40.

Module Numa.

Definition PAGE_SIZE : Z := 4096.
Definition XAIOS_NUMA_MAX_NODES : Z := 8.
Definition XAIOS_NUMA_BITMAP_BITS : Z := 262144.
Definition XAIOS_NUMA_BITMAP_WORDS : Z := 4096.
Definition NO_NODE : Z := 4294967295.

Record xaios_numa_node := mk_node {
  node_id : Z; online : Z;
  phys_start : Z; phys_end : Z;
  total_pages : Z; free_count : Z;
  cpu_mask : Z; alloc_hint : Z;
  bitmap : list Z
}.

Definition zero_bitmap : list Z := replicate 4096 0.

Definition blank_node (i : Z) : xaios_numa_node :=
  mk_node i 0 0 0 0 0 0 0 zero_bitmap.
#[global] Instance node_inhabited : Inhabited xaios_numa_node := populate (mk_node 0 0 0 0 0 0 0 0 []).

Record numa_state := mk_numa { g_numa_nodes : list xaios_numa_node; g_numa_node_count : Z }.

Definition node (s : numa_state) (i : Z) : xaios_numa_node := (g_numa_nodes s).[i].

(** ** Bitmap *)

Definition overlaps (start stop used_start used_end : Z) : bool :=
  (start <? used_end) && (used_start <? stop).

Definition page_is_reserved (boot : xaios_boot_info) (page : Z) : bool :=
  let page_end := u64 (page + PAGE_SIZE) in
  let map_start := memory_map boot in
  let map_end := u64 (memory_map boot + memory_map_size boot) in
  if overlaps page page_end (kernel_phys_base boot) (kernel_phys_end boot) then true else
  if overlaps page page_end map_start map_end then true else false.

Definition set_bitmap (n : xaios_numa_node) (b : list Z) (free hint : Z) : xaios_numa_node :=
  mk_node (node_id n) (online n) (phys_start n) (phys_end n) (total_pages n) free (cpu_mask n)
    hint b.

Definition bitmap_set_free (n : xaios_numa_node) (page_index : Z) : xaios_numa_node :=
  if XAIOS_NUMA_BITMAP_BITS <=? page_index then n else
  let word := page_index / 64 in
  let bit := page_index mod 64 in
  set_bitmap n ((bitmap n).[word <- Z.lor ((bitmap n).[word]) (u64 (Z.shiftl 1 bit))])
    (free_count n) (alloc_hint n).

Definition bitmap_is_free (n : xaios_numa_node) (page_index : Z) : bool :=
  if XAIOS_NUMA_BITMAP_BITS <=? page_index then false else
  let word := page_index / 64 in
  let bit := page_index mod 64 in
  negb (Z.land ((bitmap n).[word]) (u64 (Z.shiftl 1 bit)) =? 0).

(** ** Initialisation *)

(** The descriptors the [while (offset + sizeof(desc) <= memory_map_size)] loops visit. *)
Fixpoint map_descs (fuel : nat) (read_desc : Z -> xaios_memory_descriptor)
    (boot : xaios_boot_info) (offset : Z) : option (list xaios_memory_descriptor) :=
  match fuel with
  | O => None
  | S fuel' =>
      if u64 (offset + SIZEOF_DESCRIPTOR) <=? memory_map_size boot then
        cons (read_desc (u64 (memory_map boot + offset))) <$>
          map_descs fuel' read_desc boot (u64 (offset + memory_descriptor_size boot))
      else Some []
  end.

Definition conventional (d : xaios_memory_descriptor) : bool :=
  type d =? XAIOS_MEMORY_TYPE_CONVENTIONAL.

Definition region_end (d : xaios_memory_descriptor) : Z :=
  u64 (physical_start d + u64 (number_of_pages d * PAGE_SIZE)).

(** First walk: the lowest and highest address of conventional memory. *)
Definition extent_step (acc : Z * Z) (d : xaios_memory_descriptor) : Z * Z :=
  if conventional d then
    (if physical_start d <? acc.1 then physical_start d else acc.1,
     if acc.2 <? region_end d then region_end d else acc.2)
  else acc.

(** The pages the [while (page + PAGE_SIZE <= end)] loop visits. *)
Fixpoint region_pages (fuel : nat) (page stop : Z) : option (list Z) :=
  match fuel with
  | O => None
  | S fuel' =>
      if u64 (page + PAGE_SIZE) <=? stop
      then cons page <$> region_pages fuel' (u64 (page + PAGE_SIZE)) stop
      else Some []
  end.

Definition add_total (n : xaios_numa_node) : xaios_numa_node :=
  mk_node (node_id n) (online n) (phys_start n) (phys_end n) (u64 (total_pages n + 1))
    (free_count n) (cpu_mask n) (alloc_hint n) (bitmap n).

(** Body of the page loop. *)
Definition init_page (boot : xaios_boot_info) (n0 : xaios_numa_node) (page : Z) : xaios_numa_node :=
  let n := add_total n0 in
  if (page <? phys_start n) || (phys_end n <=? page) then n else
  let page_index := (page - phys_start n) / PAGE_SIZE in
  if XAIOS_NUMA_BITMAP_BITS <=? page_index then n else
  if negb (page_is_reserved boot page) then
    let n1 := bitmap_set_free n page_index in
    set_bitmap n1 (bitmap n1) (u64 (free_count n1 + 1)) (alloc_hint n1)
  else n.

Definition init_region (boot : xaios_boot_info) (n : xaios_numa_node) (d : xaios_memory_descriptor)
    : option xaios_numa_node :=
  if conventional d then
    let page := align_up (physical_start d) PAGE_SIZE in
    let stop := align_down (region_end d) PAGE_SIZE in
    foldl (init_page boot) n <$> region_pages (Z.to_nat (stop / PAGE_SIZE + 1)) page stop
  else Some n.

Fixpoint init_regions (boot : xaios_boot_info) (n : xaios_numa_node)
    (ds : list xaios_memory_descriptor) : option xaios_numa_node :=
  match ds with
  | [] => Some n
  | d :: ds' => n1 ← init_region boot n d; init_regions boot n1 ds'
  end.

Definition init_cpu_mask (online_cpus : Z) : Z :=
  for_range (Z.to_nat (if online_cpus <? 64 then online_cpus else 64)) 0
    (fun c m => Z.lor m (u64 (Z.shiftl 1 c))) 0.

Definition numa_init (read_desc : Z -> xaios_memory_descriptor) (boot : xaios_boot_info)
    (online_cpus : Z) : option numa_state :=
  let blank := blank_node <$> seqZ 0 XAIOS_NUMA_MAX_NODES in
  ds ← map_descs (Z.to_nat (memory_map_size boot + 1)) read_desc boot 0;
  let '(lowest, highest) := foldl extent_step (UINT64_MAX, 0) ds in
  if highest <=? lowest then Some (mk_numa blank 0) else
  let n := mk_node 0 1 lowest highest 0 0 (init_cpu_mask online_cpus) 0 zero_bitmap in
  n1 ← init_regions boot n ds;
  Some (mk_numa (blank.[0 <- n1]) 1).

(** ** Queries *)

Definition numa_node_count (s : numa_state) : Z := g_numa_node_count s.

Definition numa_node (s : numa_state) (i : Z) : option xaios_numa_node :=
  if g_numa_node_count s <=? i then None else Some (node s i).

Definition covers (phys : Z) (n : xaios_numa_node) : bool :=
  (phys_start n <=? phys) && (phys <? phys_end n).

Definition numa_node_of_phys (s : numa_state) (phys : Z) : Z :=
  match find_idx (covers phys) (take (Z.to_nat (g_numa_node_count s)) (g_numa_nodes s)) with
  | Some i => Z.of_nat i
  | None => NO_NODE
  end.

(** ** Allocation *)

(** [while ((word & mask) == 0) { ++bit; mask <<= 1U; }]: 64 bits are enough for a
    non-zero word. *)
Fixpoint lowest_bit (fuel : nat) (word bit mask : Z) : Z * Z :=
  match fuel with
  | O => (bit, mask)
  | S fuel' =>
      if Z.land word mask =? 0 then lowest_bit fuel' word (bit + 1) (u64 (Z.shiftl mask 1))
      else (bit, mask)
  end.

Definition max_page (n : xaios_numa_node) : Z :=
  let m := u64 (phys_end n - phys_start n) / PAGE_SIZE in
  if XAIOS_NUMA_BITMAP_BITS <? m then XAIOS_NUMA_BITMAP_BITS else m.

Definition used_words (n : xaios_numa_node) : Z :=
  let w := (max_page n + 63) / 64 in if w =? 0 then 1 else w.

Definition start_word (n : xaios_numa_node) : Z :=
  let w := alloc_hint n / 64 in if used_words n <=? w then 0 else w.

(** The scan over the words: index of the word, bit and mask of the page taken. *)
Fixpoint scan_words (k : nat) (n : xaios_numa_node) (i : Z) : option (Z * Z * Z) :=
  match k with
  | O => None
  | S k' =>
      let word_idx := (start_word n + i) mod used_words n in
      let word := (bitmap n).[word_idx] in
      if word =? 0 then scan_words k' n (i + 1) else
      let '(bit, mask) := lowest_bit 64 word 0 1 in
      if max_page n <=? word_idx * 64 + bit then scan_words k' n (i + 1)
      else Some (word_idx, bit, mask)
  end.

Definition with_node (s : numa_state) (i : Z) (n : xaios_numa_node) : numa_state :=
  mk_numa ((g_numa_nodes s).[i <- n]) (g_numa_node_count s).

(** An address as a pointer: 0 is NULL. *)
Definition pointer (address : Z) : option Z := if address =? 0 then None else Some address.

Definition numa_alloc_page_on_node (s : numa_state) (id : Z) : numa_state * option Z :=
  if g_numa_node_count s <=? id then (s, None) else
  let n := node s id in
  if free_count n =? 0 then (s, None) else
  match scan_words (Z.to_nat (used_words n)) n 0 with
  | None => (s, None)
  | Some (word_idx, bit, mask) =>
      let page_index := word_idx * 64 + bit in
      (with_node s id
         (set_bitmap n ((bitmap n).[word_idx <- Z.land ((bitmap n).[word_idx]) (not64 mask)])
            (u64 (free_count n - 1)) (page_index + 1)),
       pointer (u64 (phys_start n + page_index * PAGE_SIZE)))
  end.

Definition numa_free_page (s : numa_state) (page : Z) : numa_state :=
  if page =? 0 then s else
  let id := numa_node_of_phys s page in
  if id =? NO_NODE then s else
  let n := node s id in
  let page_index := (page - phys_start n) / PAGE_SIZE in
  if (page_index <? XAIOS_NUMA_BITMAP_BITS) && negb (bitmap_is_free n page_index) then
    let n1 := bitmap_set_free n page_index in
    with_node s id (set_bitmap n1 (bitmap n1) (u64 (free_count n1 + 1)) (alloc_hint n1))
  else s.

(** ** Bitmap lemmas *)

Definition shape (n : xaios_numa_node) : Prop :=
  zlen (bitmap n) = XAIOS_NUMA_BITMAP_WORDS /\
  forall w, 0 <= w < XAIOS_NUMA_BITMAP_WORDS -> 0 <= (bitmap n).[w] < 18446744073709551616.

Ltac consts := unfold XAIOS_NUMA_BITMAP_BITS, XAIOS_NUMA_BITMAP_WORDS, PAGE_SIZE in *.

Lemma is_free_bit n i :
  0 <= i < XAIOS_NUMA_BITMAP_BITS ->
  bitmap_is_free n i = Z.testbit ((bitmap n).[i / 64]) (i mod 64).
Proof.
  intros Hi. unfold bitmap_is_free. rewrite (proj2 (Z.leb_gt _ _)) by lia.
  rewrite u64_shiftl_1 by (apply Z.mod_pos_bound; lia).
  rewrite land_pow2_zero by (apply Z.mod_pos_bound; lia). apply negb_involutive.
Qed.

Lemma is_free_high n i : XAIOS_NUMA_BITMAP_BITS <= i -> bitmap_is_free n i = false.
Proof. intros. unfold bitmap_is_free. by rewrite (proj2 (Z.leb_le _ _)). Qed.

Lemma word_index i : 0 <= i < XAIOS_NUMA_BITMAP_BITS ->
  0 <= i / 64 < XAIOS_NUMA_BITMAP_WORDS /\ 0 <= i mod 64 < 64 /\ i = i / 64 * 64 + i mod 64.
Proof.
  consts. intros Hi. pose proof (Z.div_mod i 64 ltac:(lia)). pose proof (Z.mod_pos_bound i 64 ltac:(lia)).
  split; [|lia]. split; [apply Z.div_pos; lia|]. apply Z.div_lt_upper_bound; lia.
Qed.

(** Rewriting one word so that only bit [b] changes changes one page. *)
Lemma word_change n i v x fc hint :
  shape n -> 0 <= i < XAIOS_NUMA_BITMAP_BITS -> 0 <= v < 18446744073709551616 ->
  (forall j, 0 <= j < 64 -> Z.testbit v j = if j =? i mod 64 then x else Z.testbit ((bitmap n).[i / 64]) j) ->
  let n' := set_bitmap n ((bitmap n).[i / 64 <- v]) fc hint in
  shape n' /\
  forall j, 0 <= j -> bitmap_is_free n' j = if j =? i then x else bitmap_is_free n j.
Proof.
  intros [Hlen Hw] Hi Hv Hbits n'. destruct (word_index i Hi) as (Hd & Hm & He). split.
  - split; simpl; [by rewrite zlen_set|]. intros w Hwr. destruct (decide (w = i / 64)) as [->|].
    + rewrite arr_get_set_eq by lia. done.
    + rewrite arr_get_set_ne by lia. by apply Hw.
  - intros j Hj. destruct (Z.leb_spec XAIOS_NUMA_BITMAP_BITS j).
    { rewrite !is_free_high by done. destruct (Z.eqb_spec j i); [lia|done]. }
    rewrite !is_free_bit by lia. destruct (word_index j ltac:(lia)) as (Hjd & Hjm & Hje).
    unfold n'. simpl. destruct (decide (j / 64 = i / 64)) as [Heq|Hne].
    + rewrite Heq, arr_get_set_eq, Hbits by lia.
      replace (j mod 64 =? i mod 64) with (j =? i); [done|].
      destruct (Z.eqb_spec j i), (Z.eqb_spec (j mod 64) (i mod 64)); congruence || lia.
    + rewrite arr_get_set_ne by lia. destruct (Z.eqb_spec j i); [congruence|done].
Qed.

Lemma bitmap_set_free_spec n i :
  shape n -> 0 <= i < XAIOS_NUMA_BITMAP_BITS ->
  let n' := bitmap_set_free n i in
  shape n' /\ (forall j, 0 <= j -> bitmap_is_free n' j = (j =? i) || bitmap_is_free n j).
Proof.
  intros Hs Hi. destruct (word_index i Hi) as (Hd & Hm & He).
  unfold bitmap_set_free. rewrite (proj2 (Z.leb_gt _ _)) by lia. cbv zeta.
  rewrite u64_shiftl_1 by done.
  destruct (word_change n i (Z.lor ((bitmap n).[i / 64]) (2 ^ (i mod 64))) true (free_count n) (alloc_hint n))
    as [H1 H2].
  - done.
  - done.
  - apply word_lor; [by apply Hs|by apply word_pow2].
  - intros j Hj. rewrite lor_pow2_testbit by lia. by destruct (j =? _).
  - split; [done|]. intros j Hj. rewrite H2 by done. by destruct (j =? i).
Qed.

(** ** Lowest set bit *)

Lemma lowest_bit_gen fuel word b :
  0 <= word < 18446744073709551616 -> word <> 0 -> 0 <= b -> b + Z.of_nat fuel = 64 ->
  (forall j, 0 <= j < b -> Z.testbit word j = false) ->
  exists c, lowest_bit fuel word b (u64 (2 ^ b)) = (c, 2 ^ c) /\ 0 <= c < 64 /\
    Z.testbit word c = true /\ forall j, 0 <= j < c -> Z.testbit word j = false.
Proof.
  intros Hw Hnz. revert b. induction fuel as [|fuel IH]; intros b Hb Hf Hlow; simpl.
  - exfalso. apply Hnz, word_bits_zero; [done|]. intros. apply Hlow. lia.
  - rewrite u64_small by (apply word_pow2; lia). rewrite land_pow2_zero by done.
    destruct (Z.testbit word b) eqn:Eb; simpl.
    + exists b. split; [done|]. split; [lia|]. done.
    + rewrite Z.shiftl_mul_pow2 by lia. replace (2 ^ b * 2 ^ 1) with (2 ^ (b + 1)) by (rewrite Z.pow_add_r; lia).
      apply IH; [lia|lia|]. intros j Hj. destruct (decide (j = b)) as [->|]; [done|]. apply Hlow. lia.
Qed.

Lemma lowest_bit_spec word :
  0 <= word < 18446744073709551616 -> word <> 0 ->
  exists c, lowest_bit 64 word 0 1 = (c, 2 ^ c) /\ 0 <= c < 64 /\
    Z.testbit word c = true /\ forall j, 0 <= j < c -> Z.testbit word j = false.
Proof.
  intros Hw Hnz. change 1 with (u64 (2 ^ 0)) at 1.
  apply lowest_bit_gen; try done. intros. lia.
Qed.

(** ** The node invariant *)

Definition node_ok (n : xaios_numa_node) : Prop :=
  shape n /\
  0 < phys_start n < phys_end n /\ phys_end n < 18446744073709551616 /\
  phys_start n mod PAGE_SIZE = 0 /\ phys_end n mod PAGE_SIZE = 0 /\
  (forall i, 0 <= i -> bitmap_is_free n i = true -> i < max_page n) /\
  free_count n = count (bitmap_is_free n) XAIOS_NUMA_BITMAP_BITS /\
  0 <= alloc_hint n.

Lemma max_page_range n : 0 <= max_page n <= XAIOS_NUMA_BITMAP_BITS.
Proof.
  unfold max_page. consts. pose proof (u64_range (phys_end n - phys_start n)).
  case_if; dlia.
Qed.

Lemma used_words_range n : 0 < used_words n <= XAIOS_NUMA_BITMAP_WORDS /\ max_page n <= used_words n * 64.
Proof.
  pose proof (max_page_range n). unfold used_words. consts. case_if; dlia.
Qed.

Lemma start_word_range n : 0 <= alloc_hint n -> 0 <= start_word n < used_words n.
Proof.
  intros. pose proof (used_words_range n). unfold start_word. case_if; [lia|].
  pose proof (Z.div_pos (alloc_hint n) 64). lia.
Qed.

(** What the scan returns is a free page below the limit ... *)
Lemma scan_words_sound k n i w b m :
  node_ok n -> scan_words k n i = Some (w, b, m) ->
  0 <= w < used_words n /\ 0 <= b < 64 /\ m = 2 ^ b /\ w * 64 + b < max_page n /\
  bitmap_is_free n (w * 64 + b) = true.
Proof.
  intros (Hs & _). revert i. induction k as [|k IH]; intros i; cbn [scan_words]; [done|].
  pose proof (used_words_range n) as Hu. pose proof (max_page_range n) as Hmx.
  set (wi := (start_word n + i) mod used_words n).
  assert (Hwi : 0 <= wi < used_words n) by (apply Z.mod_pos_bound; lia).
  destruct (Z.eqb_spec ((bitmap n).[wi]) 0) as [|Hnz]; [apply IH|].
  destruct (lowest_bit_spec ((bitmap n).[wi])) as (c & -> & Hc & Ht & _); [apply Hs; lia|done|].
  destruct (Z.leb_spec (max_page n) (wi * 64 + c)); [apply IH|]. intros [= <- <- <-].
  split_and!; try lia. rewrite is_free_bit by lia.
  replace ((wi * 64 + c) / 64) with wi by dlia. by replace ((wi * 64 + c) mod 64) with c by dlia.
Qed.

(** ... and the scan finds one when there is one. *)
Lemma scan_words_complete k n i p :
  node_ok n -> 0 <= i -> 0 <= p -> bitmap_is_free n p = true ->
  (exists d, i <= d < i + Z.of_nat k /\ (start_word n + d) mod used_words n = p / 64) ->
  scan_words k n i <> None.
Proof.
  intros (Hs & _ & _ & _ & _ & Hb & _) Hi Hp Hfree. pose proof (Hb p Hp Hfree) as Hlt.
  pose proof (max_page_range n) as Hmx. pose proof (used_words_range n) as Hu.
  rewrite is_free_bit in Hfree by lia.
  revert i Hi. induction k as [|k IH]; intros i Hi (d & Hd & Hdw); cbn [scan_words]; [lia|].
  set (wi := (start_word n + i) mod used_words n).
  assert (Hwi : 0 <= wi < used_words n) by (apply Z.mod_pos_bound; lia).
  destruct (decide (d = i)) as [->|Hne].
  - assert (Ew : wi = p / 64) by done. rewrite Ew.
    assert (Hnz : (bitmap n).[p / 64] <> 0) by (intros E; by rewrite E, Z.bits_0 in Hfree).
    rewrite (proj2 (Z.eqb_neq _ _) Hnz).
    destruct (lowest_bit_spec ((bitmap n).[p / 64])) as (c & -> & Hc & _ & Hlow); [apply Hs; lia|done|].
    destruct (Z.leb_spec (max_page n) (p / 64 * 64 + c)); [|done].
    exfalso. destruct (Z.lt_ge_cases (p mod 64) c); [|dlia].
    rewrite Hlow in Hfree by dlia. done.
  - assert (Hn : scan_words k n (i + 1) <> None) by (apply IH; [lia|]; exists d; split; [lia|done]).
    case_if; [done|]. destruct (lowest_bit _ _ _ _). case_if; done.
Qed.

(** ** The state *)

Definition state_ok (s : numa_state) : Prop :=
  zlen (g_numa_nodes s) = XAIOS_NUMA_MAX_NODES /\
  0 <= g_numa_node_count s <= XAIOS_NUMA_MAX_NODES /\
  (forall i, 0 <= i < g_numa_node_count s -> node_ok (node s i)) /\
  (forall i j, 0 <= i < j -> j < g_numa_node_count s ->
     phys_end (node s i) <= phys_start (node s j) \/ phys_end (node s j) <= phys_start (node s i)).

(** Is the page at an address free? *)
Definition page_free (s : numa_state) (p : Z) : bool :=
  let id := numa_node_of_phys s p in
  negb (id =? NO_NODE) && bitmap_is_free (node s id) ((p - phys_start (node s id)) / PAGE_SIZE).

Lemma node_with s id n j :
  zlen (g_numa_nodes s) = XAIOS_NUMA_MAX_NODES -> 0 <= id < XAIOS_NUMA_MAX_NODES -> 0 <= j ->
  node (with_node s id n) j = if j =? id then n else node s j.
Proof.
  intros Hl Hi Hj. unfold node, with_node. simpl. destruct (Z.eqb_spec j id) as [->|].
  - rewrite arr_get_set_eq by lia. done.
  - rewrite arr_get_set_ne by lia. done.
Qed.

Lemma node_of_phys_inv s p :
  state_ok s -> numa_node_of_phys s p <> NO_NODE ->
  0 <= numa_node_of_phys s p < g_numa_node_count s /\
  covers p (node s (numa_node_of_phys s p)) = true.
Proof.
  intros (Hl & Hc & _). unfold numa_node_of_phys.
  destruct (find_idx _ _) as [i|] eqn:E; [|done]. intros _.
  pose proof (find_idx_lt _ _ _ E) as Hlt. rewrite length_take in Hlt.
  apply find_idx_Some_get in E as (_ & Hcov & _).
  split; [lia|]. rewrite lookup_total_take_lt in Hcov by lia. exact Hcov.
Qed.

Lemma node_of_phys_unique s p i :
  state_ok s -> 0 <= i < g_numa_node_count s -> covers p (node s i) = true ->
  numa_node_of_phys s p = i.
Proof.
  intros Hok Hi Hcov.
  assert (Hne : numa_node_of_phys s p <> NO_NODE).
  { destruct Hok as (Hl & Hc & _). unfold numa_node_of_phys, NO_NODE.
    destruct (find_idx _ _) as [k|] eqn:E.
    - apply find_idx_lt in E. rewrite length_take in E. unfold XAIOS_NUMA_MAX_NODES in *. lia.
    - pose proof (find_idx_None_get _ _ E i) as Hn.
      rewrite lookup_total_take_lt in Hn by lia. unfold node in Hcov. rewrite Hn in Hcov; [done|].
      unfold zlen in *. rewrite length_take. lia. }
  destruct (node_of_phys_inv s p Hok Hne) as [Hr Hcov'].
  destruct Hok as (_ & _ & _ & Hdis).
  set (k := numa_node_of_phys s p) in *. unfold covers in *. breflect.
  destruct (Z.lt_trichotomy i k) as [H'|[H'|H']]; [| |]; [|done|].
  - destruct (Hdis i k); lia.
  - destruct (Hdis k i); lia.
Qed.

Lemma node_of_phys_same s id n p :
  zlen (g_numa_nodes s) = XAIOS_NUMA_MAX_NODES -> 0 <= id < XAIOS_NUMA_MAX_NODES ->
  phys_start n = phys_start (node s id) -> phys_end n = phys_end (node s id) ->
  numa_node_of_phys (with_node s id n) p = numa_node_of_phys s p.
Proof.
  intros Hl Hi Hs He. unfold numa_node_of_phys. simpl.
  erewrite find_idx_ext; [reflexivity|]. apply Forall2_take.
  apply Forall2_same_length_lookup. split; [by rewrite length_insert|].
  intros k x y Hx Hy. apply list_lookup_insert_Some in Hx as [(<- & <- & _)|[_ Hx]].
  - unfold covers. rewrite Hs, He. unfold node. by erewrite (list_lookup_total_correct _ (Z.to_nat id)).
  - congruence.
Qed.

(** Replacing a node by one over the same range that differs in the state of one page. *)
Lemma with_node_ok s id n i x :
  state_ok s -> 0 <= id < g_numa_node_count s -> node_ok n ->
  phys_start n = phys_start (node s id) -> phys_end n = phys_end (node s id) ->
  0 <= i < max_page (node s id) ->
  (forall j, 0 <= j -> bitmap_is_free n j = if j =? i then x else bitmap_is_free (node s id) j) ->
  let p := phys_start (node s id) + i * PAGE_SIZE in
  state_ok (with_node s id n) /\ numa_node_of_phys s p = id /\ 0 < p /\ p mod PAGE_SIZE = 0 /\
  p < phys_end (node s id) /\ page_free s p = bitmap_is_free (node s id) i /\
  (forall q, q mod PAGE_SIZE = 0 ->
     page_free (with_node s id n) q = if q =? p then x else page_free s q).
Proof.
  intros Hok Hid Hn Hs He Hi Hbit p. pose proof Hok as (Hl & Hc & Hnodes & Hdis).
  destruct (Hnodes id Hid) as (_ & Hr & Hmax & Ha & Hae & _).
  assert (Hpe : 0 < p < phys_end (node s id)).
  { unfold p, max_page in *. rewrite u64_small in Hi by lia. consts. case_if; dlia. }
  assert (Hpid : numa_node_of_phys s p = id).
  { apply node_of_phys_unique; [done|done|]. unfold covers. consts. lia. }
  assert (Hpm : p mod PAGE_SIZE = 0) by (unfold p; consts; dlia).
  assert (Hidx : (p - phys_start (node s id)) / PAGE_SIZE = i) by (unfold p; consts; dlia).
  split.
  { split; simpl; [by rewrite zlen_set|]. split; [done|]. split.
    - intros j Hj. rewrite node_with by lia. case_if; [done|]. by apply Hnodes.
    - intros j k Hj Hk. rewrite !node_with by lia. pose proof (Hdis j k Hj Hk).
      do 2 case_if; rewrite ?Hs, ?He; try (by apply Hdis).
      + lia.
      + assert (j = id) as -> by lia. by apply Hdis.
      + assert (k = id) as -> by lia. by apply Hdis. }
  split; [done|]. split; [lia|]. split; [done|]. split; [lia|]. split.
  { unfold page_free. rewrite Hpid, Hidx.
    destruct (Z.eqb_spec id NO_NODE); [unfold NO_NODE, XAIOS_NUMA_MAX_NODES in *; lia|done]. }
  intros q Hq. unfold page_free. rewrite node_of_phys_same by lia.
  destruct (Z.eqb_spec (numa_node_of_phys s q) NO_NODE) as [Eq|Eq].
  { destruct (Z.eqb_spec q p) as [->|]; [|done].
    rewrite Hpid in Eq. unfold NO_NODE, XAIOS_NUMA_MAX_NODES in *. lia. }
  destruct (node_of_phys_inv s q Hok Eq) as [Hqr Hqc].
  rewrite node_with by lia. destruct (Z.eqb_spec (numa_node_of_phys s q) id) as [Hqid|Hqid].
  - rewrite Hqid in *. unfold covers in Hqc. breflect. rewrite Hs. simpl.
    rewrite Hbit by (consts; dlia).
    destruct (Z.eqb_spec q p) as [->|Hqp]; [by rewrite Hidx, Z.eqb_refl|].
    rewrite (proj2 (Z.eqb_neq _ _)); [done|]. unfold p in *. consts. dlia.
  - destruct (Z.eqb_spec q p) as [->|]; [by rewrite Hpid in Hqid|done].
Qed.

Lemma max_page_same n n' :
  phys_start n' = phys_start n -> phys_end n' = phys_end n -> max_page n' = max_page n.
Proof. unfold max_page. by intros -> ->. Qed.

(** One page more or less is one more or less in the count. *)
Lemma count_page_flip n n' i (x : bool) :
  0 <= i < XAIOS_NUMA_BITMAP_BITS -> bitmap_is_free n i = negb x ->
  (forall j, 0 <= j -> bitmap_is_free n' j = if j =? i then x else bitmap_is_free n j) ->
  count (bitmap_is_free n') XAIOS_NUMA_BITMAP_BITS =
    count (bitmap_is_free n) XAIOS_NUMA_BITMAP_BITS + (if x then 1 else -1).
Proof.
  intros Hi Hx Hbit.
  set (f j := if j <? 0 then false else bitmap_is_free n j).
  set (g j := if j <? 0 then false else bitmap_is_free n' j).
  rewrite (count_ext (bitmap_is_free n) f), (count_ext (bitmap_is_free n') g)
    by (intros j Hj; unfold f, g; by rewrite (proj2 (Z.ltb_ge j 0)) by lia).
  assert (Hfi : f i = negb x) by (unfold f; by rewrite (proj2 (Z.ltb_ge i 0)) by lia).
  assert (Hgi : g i = x) by (unfold g; by rewrite (proj2 (Z.ltb_ge i 0)), Hbit, Z.eqb_refl by lia).
  assert (Hne : forall j, j <> i -> f j = g j).
  { intros j Hj. unfold f, g. destruct (Z.ltb_spec j 0); [done|].
    by rewrite Hbit, (proj2 (Z.eqb_neq _ _) Hj) by lia. }
  destruct x.
  - apply count_flip with i; [lia|done|by rewrite Hfi|done].
  - rewrite (count_flip g f XAIOS_NUMA_BITMAP_BITS i);
      [lia|lia|intros; symmetry; by apply Hne|done|by rewrite Hfi].
Qed.

(** A node whose page [i] went from [negb x] to [x] is still well formed. *)
Lemma node_ok_flip n n' i (x : bool) :
  node_ok n -> shape n' -> 0 <= i < max_page n ->
  phys_start n' = phys_start n -> phys_end n' = phys_end n -> 0 <= alloc_hint n' ->
  bitmap_is_free n i = negb x ->
  (forall j, 0 <= j -> bitmap_is_free n' j = if j =? i then x else bitmap_is_free n j) ->
  free_count n' = u64 (free_count n + (if x then 1 else -1)) ->
  node_ok n'.
Proof.
  intros (_ & Hr & He & Ha & Hae & Hb & Hc & _) Hs Hi Hps Hpe Hh Hx Hbit Hfc.
  pose proof (max_page_range n) as Hmx.
  pose proof (count_page_flip n n' i x ltac:(lia) Hx Hbit) as Hcnt.
  pose proof (count_nonneg (bitmap_is_free n') XAIOS_NUMA_BITMAP_BITS).
  pose proof (count_le (bitmap_is_free n') XAIOS_NUMA_BITMAP_BITS ltac:(done)).
  unfold node_ok. rewrite Hps, Hpe, (max_page_same n n') by done.
  split_and!; try done; try lia.
  - intros j Hj. rewrite Hbit by done. destruct (Z.eqb_spec j i); [lia|by apply Hb].
  - rewrite Hfc, Hc, <- Hcnt. apply u64_small. consts. lia.
Qed.

(** ** Specification of allocation and release *)

Definition unchanged_but (s s' : numa_state) (p : Z) : Prop :=
  g_numa_node_count s' = g_numa_node_count s /\
  (forall q, numa_node_of_phys s' q = numa_node_of_phys s q) /\
  (forall q, q mod PAGE_SIZE = 0 -> q <> p -> page_free s' q = page_free s q).

Lemma scan_found_free s id :
  state_ok s -> 0 <= id < g_numa_node_count s ->
  scan_words (Z.to_nat (used_words (node s id))) (node s id) 0 = None ->
  forall i, 0 <= i -> bitmap_is_free (node s id) i = false.
Proof.
  intros (_ & _ & Hn & _) Hid Hscan i Hi. destruct (bitmap_is_free _ i) eqn:E; [|done]. exfalso.
  pose proof (Hn id Hid) as Hok. pose proof Hok as (_ & _ & _ & _ & _ & Hb & _ & Hh).
  pose proof (used_words_range (node s id)) as [Hu Hmu].
  pose proof (start_word_range (node s id) Hh) as Hsw. pose proof (Hb i Hi E).
  eapply (scan_words_complete _ _ 0 i); [exact Hok|lia|done|exact E| |exact Hscan].
  exists ((i / 64 - start_word (node s id)) mod used_words (node s id)). split.
  - pose proof (Z.mod_pos_bound (i / 64 - start_word (node s id)) (used_words (node s id))). lia.
  - rewrite Zplus_mod_idemp_r. replace (_ + (_ - _)) with (i / 64) by lia. apply Z.mod_small. dlia.
Qed.

Lemma numa_alloc_spec s id :
  state_ok s -> 0 <= id ->
  match numa_alloc_page_on_node s id with
  | (s', Some p) =>
      state_ok s' /\ 0 < p < 18446744073709551616 /\ p mod PAGE_SIZE = 0 /\
      numa_node_of_phys s p = id /\ id < g_numa_node_count s /\
      page_free s p = true /\ page_free s' p = false /\ unchanged_but s s' p
  | (s', None) =>
      s' = s /\ (g_numa_node_count s <= id \/ forall i, 0 <= i -> bitmap_is_free (node s id) i = false)
  end.
Proof.
  intros Hok Hid. unfold numa_alloc_page_on_node.
  destruct (Z.leb_spec (g_numa_node_count s) id) as [|Hlt]; [split; [done|by left]|].
  pose proof Hok as (Hl & Hc & Hn & _). pose proof (Hn id ltac:(lia)) as Hnok.
  pose proof Hnok as (Hs & Hr & He & _ & _ & _ & Hcnt & Hh).
  destruct (Z.eqb_spec (free_count (node s id)) 0) as [Hz|Hz].
  { split; [done|]. right. intros i Hi. destruct (Z.ltb_spec i XAIOS_NUMA_BITMAP_BITS).
    - rewrite Hz in Hcnt. symmetry in Hcnt. apply (proj1 (count_zero _ _) Hcnt). lia.
    - by apply is_free_high. }
  destruct (scan_words _ _ 0) as [[[w b] m]|] eqn:Escan.
  2:{ split; [done|]. right. by apply scan_found_free. }
  apply scan_words_sound in Escan as (Hw & Hb & -> & Hlim & Hfree); [|done].
  pose proof (max_page_range (node s id)). pose proof (used_words_range (node s id)) as [Hu _].
  set (i := w * 64 + b) in *. assert (Ew : i / 64 = w) by dlia. assert (Eb : i mod 64 = b) by dlia.
  destruct (word_change (node s id) i (Z.land ((bitmap (node s id)).[w]) (not64 (2 ^ b))) false
    (u64 (free_count (node s id) - 1)) (i + 1)) as [Hs' Hbit]; [done|lia| | |].
  { apply word_land; [apply Hs; lia|]. pose proof (not64_range (2 ^ b)). lia. }
  { intros j Hj. rewrite Eb, Ew, land_not_pow2_testbit by lia. by destruct (j =? b). }
  rewrite Ew in *. set (n' := set_bitmap _ _ _ _) in *.
  assert (Hn' : node_ok n').
  { apply (node_ok_flip (node s id) n' i false); try done; simpl; try lia. }
  destruct (with_node_ok s id n' i false) as (H1 & H2 & H3 & H4 & H5 & H6 & H7); try done; [lia..|].
  set (p := phys_start (node s id) + i * PAGE_SIZE) in *.
  rewrite u64_small by lia. unfold pointer. rewrite (proj2 (Z.eqb_neq p 0)) by lia.
  split; [done|]. split; [lia|]. split; [done|]. split; [done|]. split; [lia|].
  split; [by rewrite H6|]. split; [by rewrite H7, Z.eqb_refl|].
  split; [done|]. split; [intros q; apply node_of_phys_same; try done; lia|].
  intros q Hq Hne. by rewrite H7, (proj2 (Z.eqb_neq _ _) Hne).
Qed.

Lemma numa_free_spec s p :
  state_ok s -> 0 <= p -> p mod PAGE_SIZE = 0 ->
  let s' := numa_free_page s p in
  state_ok s' /\ unchanged_but s s' p /\
  page_free s' p = page_free s p ||
    (negb (numa_node_of_phys s p =? NO_NODE) &&
     ((p - phys_start (node s (numa_node_of_phys s p))) / PAGE_SIZE <? XAIOS_NUMA_BITMAP_BITS)).
Proof.
  intros Hok Hp Ha s'.
  assert (Hself : unchanged_but s s p) by done.
  unfold s', numa_free_page. destruct (Z.eqb_spec p 0) as [->|Hp0].
  { split; [done|]. split; [done|].
    destruct (Z.eqb_spec (numa_node_of_phys s 0) NO_NODE) as [|Hne]; [by rewrite orb_false_r|].
    destruct (node_of_phys_inv s 0 Hok Hne) as [Hr Hcv]. destruct Hok as (_ & _ & Hn & _).
    destruct (Hn _ Hr) as (_ & Hpos & _). unfold covers in Hcv. breflect. lia. }
  destruct (Z.eqb_spec (numa_node_of_phys s p) NO_NODE) as [E|Hne].
  { split; [done|]. split; [done|]. by rewrite orb_false_r. }
  destruct (node_of_phys_inv s p Hok Hne) as [Hr Hcv].
  set (id := numa_node_of_phys s p) in *. set (n := node s id) in *.
  set (i := (p - phys_start n) / PAGE_SIZE) in *.
  pose proof Hok as (Hl & Hc & Hn & _). pose proof (Hn id Hr) as Hnok. fold n in Hnok.
  pose proof Hnok as (Hs & Hpos & Hlim & Has & Hae & _ & _ & Hh).
  unfold covers in Hcv. breflect.
  assert (Epf : page_free s p = bitmap_is_free n i).
  { unfold page_free. fold id. by rewrite (proj2 (Z.eqb_neq _ _) Hne). }
  destruct (Z.ltb_spec i XAIOS_NUMA_BITMAP_BITS) as [Hib|Hib].
  2:{ split; [done|]. split; [done|]. by rewrite orb_false_r. }
  destruct (bitmap_is_free n i) eqn:Ef; cbn [negb andb].
  { split; [done|]. split; [done|]. by rewrite Epf. }
  assert (Hi : 0 <= i < max_page n).
  { unfold i, max_page. rewrite u64_small by lia. consts. case_if; dlia. }
  destruct (bitmap_set_free_spec n i Hs ltac:(lia)) as [Hs' Hbit].
  set (n1 := bitmap_set_free n i) in *. set (n' := set_bitmap n1 _ _ _) in *.
  assert (Hsame : phys_start n' = phys_start n /\ phys_end n' = phys_end n /\
    free_count n1 = free_count n /\ alloc_hint n' = alloc_hint n).
  { unfold n', n1, bitmap_set_free. by rewrite (proj2 (Z.leb_gt _ _)) by lia. }
  destruct Hsame as (Es & Ee & Efc & Eh).
  assert (Hbit' : forall j, 0 <= j -> bitmap_is_free n' j = if j =? i then true else bitmap_is_free n j).
  { intros j Hj. change (bitmap_is_free n' j) with (bitmap_is_free n1 j). rewrite Hbit by done.
    by destruct (j =? i). }
  assert (Hn' : node_ok n').
  { apply (node_ok_flip n n' i true); try done; [by rewrite Eh|]. unfold n'. simpl. by rewrite Efc. }
  destruct (with_node_ok s id n' i true) as (H1 & _ & _ & _ & _ & _ & H7); try done.
  assert (Epp : phys_start n + i * PAGE_SIZE = p) by (unfold i; consts; dlia).
  fold n in H7. rewrite Epp in H7. split; [done|]. split.
  - split; [done|]. split; [intros q; apply node_of_phys_same; try done; lia|].
    intros q Hq Hqp. by rewrite H7, (proj2 (Z.eqb_neq _ _) Hqp).
  - rewrite H7, Z.eqb_refl by done. by rewrite orb_true_r.
Qed.

(** ** Initialisation from the memory map *)

(** The walk over the map ends for every positive descriptor size ... *)
Lemma map_descs_total fuel read boot offset :
  0 < memory_descriptor_size boot -> 0 <= offset ->
  memory_map_size boot + SIZEOF_DESCRIPTOR + memory_descriptor_size boot < 18446744073709551616 ->
  offset <= memory_map_size boot + memory_descriptor_size boot ->
  Z.max 0 (memory_map_size boot - offset) < Z.of_nat fuel ->
  exists ds, map_descs fuel read boot offset = Some ds.
Proof.
  unfold SIZEOF_DESCRIPTOR. intros Hd. revert offset.
  induction fuel as [|fuel IH]; intros offset Ho Hb Hle Hf; [lia|]. cbn [map_descs].
  rewrite u64_small by (unfold SIZEOF_DESCRIPTOR; lia). unfold SIZEOF_DESCRIPTOR.
  destruct (Z.leb_spec (offset + 40) (memory_map_size boot)); [|by eexists].
  rewrite (u64_small (offset + memory_descriptor_size boot)) by lia.
  destruct (IH (offset + memory_descriptor_size boot)) as [ds ->]; [lia..|]. by eexists.
Qed.

(** ... and for the size 0 it never does. *)
Lemma map_descs_zero_size fuel read boot :
  memory_descriptor_size boot = 0 -> 40 <= memory_map_size boot -> map_descs fuel read boot 0 = None.
Proof.
  intros Hz Hs. induction fuel as [|fuel IH]; [done|]. cbn [map_descs].
  rewrite (u64_small (0 + SIZEOF_DESCRIPTOR)) by (unfold SIZEOF_DESCRIPTOR; lia).
  rewrite (proj2 (Z.leb_le _ _)) by (unfold SIZEOF_DESCRIPTOR; lia).
  rewrite Hz. by change (u64 (0 + 0)) with 0; rewrite IH.
Qed.

Lemma region_pages_total fuel page stop :
  0 <= page -> page + PAGE_SIZE < 18446744073709551616 -> stop + PAGE_SIZE < 18446744073709551616 ->
  page mod PAGE_SIZE = 0 -> stop mod PAGE_SIZE = 0 ->
  Z.max 0 ((stop - page) / PAGE_SIZE) < Z.of_nat fuel ->
  exists l, region_pages fuel page stop = Some l /\ NoDup l /\
    forall q, q ∈ l <-> q mod PAGE_SIZE = 0 /\ page <= q /\ q + PAGE_SIZE <= stop.
Proof.
  revert page. induction fuel as [|fuel IH]; intros page Hp Hb Hsb Hpm Hsm Hf; [lia|].
  cbn [region_pages]. rewrite u64_small by (consts; lia).
  destruct (Z.leb_spec (page + PAGE_SIZE) stop) as [Hle|Hgt].
  - destruct (IH (page + PAGE_SIZE)) as (l & -> & Hnd & Hl); [consts; dlia..|].
    exists (page :: l). split; [done|]. split.
    + constructor; [|done]. rewrite Hl. consts. lia.
    + intros q. rewrite elem_of_cons, Hl. split.
      * intros [->|?]; [done|]. consts. lia.
      * intros (H1 & H2 & H3). destruct (decide (q = page)); [by left|right]. consts. dlia.
  - exists []. split; [done|]. split; [constructor|]. intros q.
    split; [intros Hq; by apply not_elem_of_nil in Hq|]. intros. lia.
Qed.

(** While the pages are entered: the bitmap holds exactly the visited pages ([V]) that are
    not reserved and within its capacity. *)
Definition init_inv (boot : xaios_boot_info) (lo hi : Z) (V : Z -> Prop) (n : xaios_numa_node) : Prop :=
  shape n /\ phys_start n = lo /\ phys_end n = hi /\ alloc_hint n = 0 /\
  (forall i, 0 <= i -> bitmap_is_free n i = true <->
     i < XAIOS_NUMA_BITMAP_BITS /\ V (lo + i * PAGE_SIZE) /\
     page_is_reserved boot (lo + i * PAGE_SIZE) = false) /\
  free_count n = count (bitmap_is_free n) XAIOS_NUMA_BITMAP_BITS.

Lemma init_inv_ext boot lo hi (V W : Z -> Prop) n :
  (forall q, V q <-> W q) -> init_inv boot lo hi V n -> init_inv boot lo hi W n.
Proof.
  intros HVW (H1 & H2 & H3 & H4 & H5 & H6). split_and!; try done.
  intros i Hi. by rewrite H5, HVW.
Qed.

Lemma init_page_inv boot lo hi V n p :
  init_inv boot lo hi V n -> lo mod PAGE_SIZE = 0 -> p mod PAGE_SIZE = 0 -> lo <= p < hi -> ~ V p ->
  init_inv boot lo hi (fun q => V q \/ q = p) (init_page boot n p).
Proof.
  intros (Hs & Hlo & Hhi & Hh & Hbit & Hc) Hla Hpa Hp HV.
  set (i := (p - lo) / PAGE_SIZE). assert (Ep : lo + i * PAGE_SIZE = p) by (unfold i; consts; dlia).
  assert (Hi : 0 <= i) by (unfold i; consts; dlia).
  assert (Hskip : (XAIOS_NUMA_BITMAP_BITS <= i \/ page_is_reserved boot p = true) ->
    init_inv boot lo hi (fun q => V q \/ q = p) (add_total n)).
  { intros Hor. split_and!; try done. intros j Hj. change (bitmap_is_free (add_total n) j) with (bitmap_is_free n j).
    rewrite Hbit by done. split; [naive_solver|]. intros (H1 & [H2|H2] & H3); [done|].
    exfalso. assert (j = i) as -> by (consts; lia). rewrite Ep in H3. destruct Hor; [lia|congruence]. }
  unfold init_page. change (phys_start (add_total n)) with (phys_start n).
  change (phys_end (add_total n)) with (phys_end n). rewrite Hlo, Hhi.
  rewrite (proj2 (Z.ltb_ge _ _)), (proj2 (Z.leb_gt _ _)) by lia. cbn [orb]. fold i.
  destruct (Z.leb_spec XAIOS_NUMA_BITMAP_BITS i) as [|Hib]; [by apply Hskip; left|].
  destruct (page_is_reserved boot p) eqn:Er; cbn [negb]; [by apply Hskip; right|].
  assert (Hst : shape (add_total n)) by done.
  destruct (bitmap_set_free_spec (add_total n) i Hst ltac:(lia)) as [Hs1 Hb1].
  set (n1 := bitmap_set_free (add_total n) i) in *.
  assert (Hsame : phys_start n1 = phys_start n /\ phys_end n1 = phys_end n /\
    free_count n1 = free_count n /\ alloc_hint n1 = alloc_hint n).
  { unfold n1, bitmap_set_free. by rewrite (proj2 (Z.leb_gt _ _)) by lia. }
  destruct Hsame as (E1 & E2 & E3 & E4).
  assert (Hni : bitmap_is_free n i = false).
  { apply not_true_is_false. rewrite Hbit, Ep by done. tauto. }
  set (n2 := set_bitmap n1 _ _ _).
  assert (Hcnt : count (bitmap_is_free n2) XAIOS_NUMA_BITMAP_BITS =
                 count (bitmap_is_free n) XAIOS_NUMA_BITMAP_BITS + 1).
  { apply (count_page_flip n n2 i true); [lia|done|]. intros j Hj.
    change (bitmap_is_free n2 j) with (bitmap_is_free n1 j). rewrite Hb1 by done. by destruct (j =? i). }
  pose proof (count_le (bitmap_is_free n2) XAIOS_NUMA_BITMAP_BITS ltac:(done)).
  pose proof (count_nonneg (bitmap_is_free n) XAIOS_NUMA_BITMAP_BITS).
  split; [done|]. split; [simpl; congruence|]. split; [simpl; congruence|]. split; [simpl; congruence|].
  split.
  - intros j Hj. change (bitmap_is_free n2 j) with (bitmap_is_free n1 j).
    rewrite Hb1, orb_true_iff, Z.eqb_eq by done. change (bitmap_is_free (add_total n) j) with (bitmap_is_free n j).
    rewrite Hbit by done. split.
    + intros [->|(? & ? & ?)]; [|tauto]. rewrite Ep. tauto.
    + intros (H1 & [H2|H2] & H3); [tauto|left]. consts. lia.
  - rewrite Hcnt, <- Hc, <- E3. apply u64_small. rewrite E3, Hc. consts. lia.
Qed.

Lemma init_pages_inv boot lo hi l V n :
  init_inv boot lo hi V n -> lo mod PAGE_SIZE = 0 -> NoDup l ->
  (forall p, p ∈ l -> p mod PAGE_SIZE = 0 /\ lo <= p < hi /\ ~ V p) ->
  init_inv boot lo hi (fun q => V q \/ q ∈ l) (foldl (init_page boot) n l).
Proof.
  intros Hinv Hla Hnd. revert V n Hinv. induction Hnd as [|p l Hp Hnd IH]; intros V n Hinv Hl; simpl.
  - eapply init_inv_ext; [|exact Hinv]. intros q. set_solver.
  - apply (init_inv_ext _ _ _ (fun q => (V q \/ q = p) \/ q ∈ l)); [|apply IH].
    + intros q. rewrite elem_of_cons. tauto.
    + destruct (Hl p) as (? & ? & ?); [by left|]. by apply init_page_inv.
    + intros q Hq. destruct (Hl q) as (? & ? & ?); [by right|]. split_and!; try lia; try done.
      intros [?| ->]; done.
Qed.

(** What the firmware promises about a descriptor. *)
Definition sane_desc (d : xaios_memory_descriptor) : Prop :=
  conventional d = true ->
  0 < physical_start d /\ physical_start d mod PAGE_SIZE = 0 /\ 0 <= number_of_pages d /\
  physical_start d + number_of_pages d * PAGE_SIZE + PAGE_SIZE < 9223372036854775808.

Definition apart (a b : xaios_memory_descriptor) : Prop :=
  conventional a = true -> conventional b = true ->
  region_end a <= physical_start b \/ region_end b <= physical_start a.

(** The pages of a descriptor. *)
Definition in_region (d : xaios_memory_descriptor) (q : Z) : Prop :=
  conventional d = true /\ q mod PAGE_SIZE = 0 /\ physical_start d <= q /\
  q + PAGE_SIZE <= region_end d.

Lemma region_end_sane d :
  sane_desc d -> conventional d = true ->
  region_end d = physical_start d + number_of_pages d * PAGE_SIZE /\ region_end d mod PAGE_SIZE = 0 /\
  align_up (physical_start d) PAGE_SIZE = physical_start d /\
  align_down (region_end d) PAGE_SIZE = region_end d.
Proof.
  intros Hs Hc. destruct (Hs Hc) as (H1 & H2 & H3 & H4). consts.
  assert (He : region_end d = physical_start d + number_of_pages d * 4096).
  { unfold region_end. consts. rewrite (u64_small (number_of_pages d * 4096)) by lia. by rewrite u64_small by lia. }
  split; [done|]. assert (Hm : region_end d mod 4096 = 0) by (rewrite He; dlia). split; [done|]. split.
  - change 4096 with (2 ^ 12).
    destruct (align_up_bounds (physical_start d) 12 ltac:(lia) ltac:(lia) ltac:(lia)) as [Hb Ha].
    change (2 ^ 12) with 4096 in *. dlia.
  - unfold align_down. rewrite u64_small by lia. change (4096 - 1) with (2 ^ 12 - 1).
    rewrite land_not_mask by (change (2 ^ 64) with 18446744073709551616; lia). change (2 ^ 12) with 4096. dlia.
Qed.

Lemma init_region_inv boot lo hi V n d :
  init_inv boot lo hi V n -> lo mod PAGE_SIZE = 0 -> sane_desc d ->
  (conventional d = true -> lo <= physical_start d /\ region_end d <= hi) ->
  (forall q, in_region d q -> ~ V q) ->
  exists n', init_region boot n d = Some n' /\ init_inv boot lo hi (fun q => V q \/ in_region d q) n'.
Proof.
  intros Hinv Hla Hs Hlim HV. unfold init_region. destruct (conventional d) eqn:Hc.
  2:{ exists n. split; [done|]. eapply init_inv_ext; [|exact Hinv]. unfold in_region. intros q. rewrite Hc. intuition congruence. }
  destruct (region_end_sane d Hs Hc) as (He & Hem & -> & ->).
  destruct (Hs Hc) as (H1 & H2 & H3 & H4). specialize (Hlim eq_refl).
  destruct (region_pages_total (Z.to_nat (region_end d / PAGE_SIZE + 1)) (physical_start d) (region_end d))
    as (l & -> & Hnd & Hl); [lia|consts; lia|consts; lia|done|done|consts; dlia|].
  eexists. split; [done|].
  apply (init_inv_ext _ _ _ (fun q => V q \/ q ∈ l)); [|apply init_pages_inv; [exact Hinv|done|exact Hnd|]].
  - intros q. rewrite Hl. unfold in_region. tauto.
  - intros q Hq%Hl. split; [tauto|]. split; [consts; lia|]. apply HV. unfold in_region. tauto.
Qed.

Lemma init_regions_inv boot lo hi ds V n :
  init_inv boot lo hi V n -> lo mod PAGE_SIZE = 0 -> Forall sane_desc ds -> ForallOrdPairs apart ds ->
  (forall d, d ∈ ds -> conventional d = true -> lo <= physical_start d /\ region_end d <= hi) ->
  (forall d q, d ∈ ds -> in_region d q -> ~ V q) ->
  exists n', init_regions boot n ds = Some n' /\
    init_inv boot lo hi (fun q => V q \/ exists d, d ∈ ds /\ in_region d q) n'.
Proof.
  intros Hinv Hla Hsane Hap. revert V n Hinv.
  induction Hap as [|d ds Hd Hap IH]; intros V n Hinv Hlim HV; simpl.
  - exists n. split; [done|]. eapply init_inv_ext; [|exact Hinv]. intros q. set_solver.
  - apply Forall_cons in Hsane as [Hsd Hsane].
    destruct (init_region_inv boot lo hi V n d) as (n1 & -> & Hinv1); try done.
    { apply Hlim. set_solver. }
    { intros q. apply HV. set_solver. }
    simpl. destruct (IH Hsane _ n1 Hinv1) as (n' & -> & Hinv').
    { intros d' Hd'. apply Hlim. set_solver. }
    { intros d' q Hd' Hq [Hv|Hv]; [eapply HV; [|exact Hq|exact Hv]; set_solver|].
      rewrite List.Forall_forall in Hd. apply list_elem_of_In in Hd'. pose proof (Hd d' Hd') as Hx.
      destruct Hq as (? & ? & ? & ?), Hv as (? & ? & ? & ?). unfold apart in Hx. consts.
      destruct Hx; try done; lia. }
    exists n'. split; [done|]. eapply init_inv_ext; [|exact Hinv']. intros q. set_solver.
Qed.

(** The extent of conventional memory. *)
Lemma extent_spec ds acc lo hi :
  foldl extent_step acc ds = (lo, hi) ->
  lo <= acc.1 /\ acc.2 <= hi /\
  (lo = acc.1 \/ exists d, d ∈ ds /\ conventional d = true /\ lo = physical_start d) /\
  (hi = acc.2 \/ exists d, d ∈ ds /\ conventional d = true /\ hi = region_end d) /\
  forall d, d ∈ ds -> conventional d = true -> lo <= physical_start d /\ region_end d <= hi.
Proof.
  revert acc. induction ds as [|d ds IH]; intros acc; simpl.
  { intros ->. simpl. split_and!; try lia; try (by left). set_solver. }
  intros H. apply IH in H as (H1 & H2 & H3 & H4 & H5). clear IH.
  assert (Hacc : (extent_step acc d).1 <= acc.1 /\ acc.2 <= (extent_step acc d).2 /\
    ((extent_step acc d).1 = acc.1 \/ conventional d = true /\ (extent_step acc d).1 = physical_start d) /\
    ((extent_step acc d).2 = acc.2 \/ conventional d = true /\ (extent_step acc d).2 = region_end d) /\
    (conventional d = true -> (extent_step acc d).1 <= physical_start d /\ region_end d <= (extent_step acc d).2)).
  { unfold extent_step. destruct (conventional d); simpl; [|split_and!; try lia; done].
    destruct (Z.ltb_spec (physical_start d) acc.1), (Z.ltb_spec acc.2 (region_end d)); split_and!; try lia;
      (by left) || (by right) || (intros; lia). }
  destruct Hacc as (A1 & A2 & A3 & A4 & A5). split; [lia|]. split; [lia|]. split; [|split].
  - destruct H3 as [->|(x & ? & ? & ?)]; [|right; exists x; set_solver].
    destruct A3 as [?|[? ?]]; [by left|right; exists d; set_solver].
  - destruct H4 as [->|(x & ? & ? & ?)]; [|right; exists x; set_solver].
    destruct A4 as [?|[? ?]]; [by left|right; exists d; set_solver].
  - intros x [->|Hx]%elem_of_cons Hcx; [specialize (A5 Hcx); lia|by apply H5].
Qed.

Lemma zero_bitmap_spec :
  zlen zero_bitmap = XAIOS_NUMA_BITMAP_WORDS /\
  forall w, 0 <= w < XAIOS_NUMA_BITMAP_WORDS -> zero_bitmap.[w] = 0.
Proof.
  unfold zero_bitmap. split; [unfold zlen; by rewrite length_replicate|].
  intros w Hw. consts. rewrite lookup_total_replicate_2 by lia. reflexivity.
Qed.

Lemma blank_inv boot lo hi m l :
  zlen l = XAIOS_NUMA_BITMAP_WORDS -> (forall w, 0 <= w < XAIOS_NUMA_BITMAP_WORDS -> l.[w] = 0) ->
  init_inv boot lo hi (fun _ => False) (mk_node 0 1 lo hi 0 0 m 0 l).
Proof.
  intros Hl Hz.
  assert (Hf : forall i, 0 <= i -> bitmap_is_free (mk_node 0 1 lo hi 0 0 m 0 l) i = false).
  { intros i Hi. destruct (Z.leb_spec XAIOS_NUMA_BITMAP_BITS i); [by apply is_free_high|].
    destruct (word_index i ltac:(lia)) as (Hw & _ & _). rewrite is_free_bit by lia. cbn [bitmap].
    rewrite Hz by done. apply Z.bits_0. }
  split; [|split; [done|split; [done|split; [done|split]]]].
  - split; [done|]. cbn [bitmap]. intros w Hw. rewrite Hz by done. done.
  - intros i Hi. rewrite Hf by done. split; [done|tauto].
  - cbn [free_count]. symmetry. apply count_zero. intros i Hi. apply Hf. lia.
Qed.

Lemma blank_nodes_len : zlen (blank_node <$> seqZ 0 XAIOS_NUMA_MAX_NODES) = XAIOS_NUMA_MAX_NODES.
Proof. unfold zlen. rewrite length_fmap, length_seqZ. reflexivity. Qed.

Lemma one_node_ok n bl :
  node_ok n -> zlen bl = XAIOS_NUMA_MAX_NODES -> state_ok (mk_numa (bl.[0 <- n]) 1).
Proof.
  intros Hn Hl. split; simpl; [by rewrite zlen_set|]. split; [done|]. split; [|lia].
  intros i Hi. assert (i = 0) as -> by lia. unfold node. simpl g_numa_nodes.
  rewrite arr_get_set_eq by (rewrite Hl; done). done.
Qed.

Lemma one_node_page_free n bl p :
  zlen bl = XAIOS_NUMA_MAX_NODES ->
  page_free (mk_numa (bl.[0 <- n]) 1) p =
    covers p n && bitmap_is_free n ((p - phys_start n) / PAGE_SIZE).
Proof.
  intros Hl. destruct bl as [|x bl]; [done|].
  unfold page_free, numa_node_of_phys, node. simpl. destruct (covers p n); reflexivity.
Qed.

(** Everything the visited pages satisfy once all regions are entered. *)
Lemma entered_ok boot lo hi (ds : list xaios_memory_descriptor) n :
  init_inv boot lo hi (fun q => False \/ exists d, d ∈ ds /\ in_region d q) n ->
  0 < lo < hi -> hi < 9223372036854775808 -> lo mod PAGE_SIZE = 0 -> hi mod PAGE_SIZE = 0 ->
  (forall d, d ∈ ds -> conventional d = true -> lo <= physical_start d /\ region_end d <= hi) ->
  node_ok n.
Proof.
  intros (Hs & Hlo & Hhi & Hh & Hbit & Hc) Hr Hb Hla Hha Hlim. unfold node_ok. rewrite Hlo, Hhi.
  split_and!; try done; try lia. intros i Hi Hf. apply Hbit in Hf as (Hib & [[]|(d & Hd & Hcd & _ & H1 & H2)] & _); [|done].
  destruct (Hlim d Hd Hcd). unfold max_page. rewrite Hlo, Hhi, u64_small by lia. consts. case_if; dlia.
Qed.

(** The allocator starts with exactly the usable memory.  For every memory map whose
    conventional regions are page aligned and disjoint, initialisation terminates and
    leaves free exactly the pages that lie inside a conventional region, do not touch the
    kernel image or the memory map itself, and are within the capacity of the bitmap;
    the free counter equals their number. *)
Theorem numa_init_free_set (read : Z -> xaios_memory_descriptor) (boot : xaios_boot_info) (cpus : Z) :
  0 < memory_descriptor_size boot -> 0 <= memory_map_size boot ->
  memory_map_size boot + SIZEOF_DESCRIPTOR + memory_descriptor_size boot < 18446744073709551616 ->
  exists ds, map_descs (Z.to_nat (memory_map_size boot + 1)) read boot 0 = Some ds /\
    (Forall sane_desc ds -> ForallOrdPairs apart ds ->
     exists s, numa_init read boot cpus = Some s /\ state_ok s /\
       forall p, p mod PAGE_SIZE = 0 ->
         page_free s p = true <->
           (exists d, d ∈ ds /\ in_region d p) /\ page_is_reserved boot p = false /\
           (p - phys_start (node s 0)) / PAGE_SIZE < XAIOS_NUMA_BITMAP_BITS).
Proof.
  intros Hd Hsz Hb. destruct (map_descs_total (Z.to_nat (memory_map_size boot + 1)) read boot 0)
    as [ds Hds]; try lia. exists ds. split; [exact Hds|]. intros Hsane Hap. unfold numa_init. rewrite Hds.
  cbn [mbind option_bind]. destruct zero_bitmap_spec as [Hzl Hzw].
  pose proof blank_nodes_len as Hbl. revert Hzl Hzw Hbl.
  generalize (blank_node <$> seqZ 0 XAIOS_NUMA_MAX_NODES) as bl. generalize zero_bitmap as zb. intros zb bl Hzl Hzw Hbl.
  destruct (foldl extent_step (UINT64_MAX, 0) ds) as [lo hi] eqn:Eext.
  apply extent_spec in Eext as (_ & H2 & H3 & H4 & Hlim). simpl in H2, H3, H4.
  rewrite Forall_forall in Hsane.
  assert (Hhi : hi < 9223372036854775808 /\ hi mod PAGE_SIZE = 0).
  { destruct H4 as [->|(d & Hdd & Hcd & ->)]; [done|].
    destruct (region_end_sane d (Hsane d Hdd) Hcd) as (-> & _ & _).
    destruct (Hsane d Hdd Hcd) as (? & ? & ? & ?). consts. split; dlia. }
  destruct (Z.leb_spec hi lo) as [Hle|Hlt].
  { eexists. split; [reflexivity|]. split.
    - split; [done|]. split; [done|]. split; simpl; intros; lia.
    - intros p Hp. split; [done|]. intros ((d & Hdd & Hcd & _ & H5 & H6) & _).
      destruct (Hlim d Hdd Hcd). consts. lia. }
  assert (Hlo : 0 < lo /\ lo mod PAGE_SIZE = 0).
  { destruct H3 as [->|(d & Hdd & Hcd & ->)]; [unfold UINT64_MAX in *; lia|].
    destruct (Hsane d Hdd Hcd) as (? & ? & _). done. }
  destruct (init_regions_inv boot lo hi ds (fun _ => False)
    (mk_node 0 1 lo hi 0 0 (init_cpu_mask cpus) 0 zb)) as (n & Hn & Hinv);
    [by apply blank_inv|tauto|by apply Forall_forall|exact Hap|exact Hlim|tauto|].
  rewrite Hn. cbn [mbind option_bind]. eexists. split; [reflexivity|].
  pose proof (entered_ok _ _ _ _ _ Hinv ltac:(lia) ltac:(lia) ltac:(tauto) ltac:(tauto) Hlim) as Hok.
  split; [by apply one_node_ok|]. intros p Hp. rewrite one_node_page_free by done.
  destruct Hinv as (_ & Elo & Ehi & _ & Hbit & _).
  unfold covers. rewrite !andb_true_iff, Z.leb_le, Z.ltb_lt, Elo, Ehi.
  unfold node. cbn [g_numa_nodes]. rewrite arr_get_set_eq by (rewrite Hbl; done). rewrite Elo.
  assert (Ep : lo <= p -> lo + (p - lo) / PAGE_SIZE * PAGE_SIZE = p) by (intros; consts; dlia).
  split.
  - intros [[? ?] Hf]. apply Hbit in Hf; [|consts; dlia]. rewrite Ep in Hf by done. naive_solver.
  - intros ((d & Hdd & Hreg) & Hres & Hcap). pose proof Hreg as (Hcd & _ & H5 & H6).
    destruct (Hlim d Hdd Hcd). split; [consts; lia|]. apply Hbit; [consts; dlia|].
    rewrite Ep by lia. split; [done|]. split; [right; by exists d|done].
Qed.

(** A map of two regions, the kernel in the first. *)
Definition demo_boot : xaios_boot_info := mk_boot 0 1 0 1207959552 80 40 1 1073745920 1073754112 150994944.
Definition demo_read (a : Z) : xaios_memory_descriptor :=
  if a =? 1207959552 then mk_desc 7 0 1073741824 0 16 0 else mk_desc 7 0 1075838976 0 4 0.
Definition demo_descs : list xaios_memory_descriptor := [demo_read 1207959552; demo_read 1207959592].

Lemma demo_sane : Forall sane_desc demo_descs /\ ForallOrdPairs apart demo_descs.
Proof.
  split.
  - apply Forall_forall. intros d Hd. unfold demo_descs in Hd.
    apply elem_of_cons in Hd as [->|Hd]; [|apply elem_of_cons in Hd as [->|Hd]; [|by apply not_elem_of_nil in Hd]];
      intros _; vm_compute; done.
  - apply FOP_cons; [|apply FOP_cons; [constructor|constructor]].
    constructor; [|constructor]. intros _ _. left. vm_compute. discriminate.
Qed.

Lemma numa_init_free_set_witness :
  exists s, numa_init demo_read demo_boot 2 = Some s /\ state_ok s.
Proof.
  destruct (numa_init_free_set demo_read demo_boot 2) as (ds & Hds & H); [reflexivity|discriminate|reflexivity|].
  assert (ds = demo_descs) as -> by (vm_compute in Hds; injection Hds as <-; reflexivity).
  destruct (H (proj1 demo_sane) (proj2 demo_sane)) as (s & H1 & H2 & _).
  exists s. split; [exact H1|exact H2].
Defined.

End Numa.
