(* ===== verification/Pmm.v ===== *)
(** * Physical memory manager (kernel/mm/pmm.c)

    Page allocation on top of the NUMA bitmaps, with the table of freed pages used to
    detect double frees.  [pmm_free_page] returns the words it stores into the released
    page besides the new state.  The lock and the log output are left out; a failed
    [kassert] is [None]. *)

From S2P Require Import Prelude Numa.

Module Pmm.

Definition PMM_FREE_MAGIC : Z := 16045690984503098046.
Definition PMM_MAX_FREED_TRACK : Z := 64.

Record pmm_freed_entry := mk_freed { page_addr : Z; freed_count : Z }.
#[global] Instance freed_inhabited : Inhabited pmm_freed_entry := populate (mk_freed 0 0).

Record pmm_state := mk_pmm {
  numa : Numa.numa_state;
  g_total_pages : Z;
  g_reserved_pages : Z;
  g_freed_pages : list pmm_freed_entry;
  g_freed_count : Z
}.

Definition with_numa (s : pmm_state) (n : Numa.numa_state) : pmm_state :=
  mk_pmm n (g_total_pages s) (g_reserved_pages s) (g_freed_pages s) (g_freed_count s).

Definition pmm_total_pages (s : pmm_state) : Z := g_total_pages s.

(** Sum over the nodes below the node count. *)
Definition sum_nodes (n : Numa.numa_state) (f : Numa.xaios_numa_node -> Z) : Z :=
  for_range (Z.to_nat (Numa.numa_node_count n)) 0
    (fun i total => match Numa.numa_node n i with Some nd => u64 (total + f nd) | None => total end) 0.

Definition pmm_free_pages (s : pmm_state) : Z := sum_nodes (numa s) Numa.free_count.

Definition pmm_init (s : pmm_state) : option pmm_state :=
  let total := sum_nodes (numa s) Numa.total_pages in
  let total_free := pmm_free_pages s in
  let reserved := if total_free <? total then total - total_free else 0 in
  if total_free =? 0 then None else
  Some (mk_pmm (numa s) total reserved (g_freed_pages s) (g_freed_count s)).

(** The fallback loop over the nodes [i, i+1, ...], [k] of them, except [skip]. *)
Fixpoint try_nodes (k : nat) (n : Numa.numa_state) (i : Z) (skip : option Z) : Numa.numa_state * option Z :=
  match k with
  | O => (n, None)
  | S k' =>
      if bool_decide (skip = Some i) then try_nodes k' n (i + 1) skip else
      match Numa.numa_alloc_page_on_node n i with
      | (n1, Some p) => (n1, Some p)
      | (n1, None) => try_nodes k' n1 (i + 1) skip
      end
  end.

Definition lift (s : pmm_state) (r : Numa.numa_state * option Z) : pmm_state * option Z :=
  (with_numa s r.1, r.2).

Definition pmm_alloc_page_on_node (s : pmm_state) (id : Z) : pmm_state * option Z :=
  lift s (Numa.numa_alloc_page_on_node (numa s) id).

Definition pmm_alloc_page (s : pmm_state) : pmm_state * option Z :=
  lift s
    match Numa.numa_alloc_page_on_node (numa s) 0 with
    | (n1, Some p) => (n1, Some p)
    | (n1, None) => try_nodes (Z.to_nat (Numa.numa_node_count n1 - 1)) n1 1 None
    end.

Definition pmm_alloc_page_near (s : pmm_state) (preferred : Z) : pmm_state * option Z :=
  lift s
    match Numa.numa_alloc_page_on_node (numa s) preferred with
    | (n1, Some p) => (n1, Some p)
    | (n1, None) => try_nodes (Z.to_nat (Numa.numa_node_count n1)) n1 0 (Some preferred)
    end.

(** The loop [for (i = 0; i < g_freed_count && i < PMM_MAX_FREED_TRACK; ++i)]. *)
Definition tracked (s : pmm_state) (page : Z) : option nat :=
  find_idx (fun e => page_addr e =? page)
    (take (Z.to_nat (Z.min (g_freed_count s) PMM_MAX_FREED_TRACK)) (g_freed_pages s)).

Definition pmm_free_page (s : pmm_state) (page : Z) : pmm_state * list (Z * Z) :=
  if page =? 0 then (s, []) else
  match tracked s page with
  | Some i =>
      (mk_pmm (numa s) (g_total_pages s) (g_reserved_pages s)
         (upd (g_freed_pages s) (Z.of_nat i)
            (fun e => mk_freed (page_addr e) (u64 (freed_count e + 1)))) (g_freed_count s), [])
  | None =>
      let '(fp, fc) :=
        if g_freed_count s <? PMM_MAX_FREED_TRACK
        then ((g_freed_pages s).[g_freed_count s <- mk_freed page 1], g_freed_count s + 1)
        else (g_freed_pages s, g_freed_count s) in
      (mk_pmm (Numa.numa_free_page (numa s) page) (g_total_pages s) (g_reserved_pages s) fp fc,
       [(page, PMM_FREE_MAGIC); (page + 8, PMM_FREE_MAGIC)])
  end.

Definition pmm_node_of_page (s : pmm_state) (page : Z) : Z :=
  if page =? 0 then Numa.NO_NODE else Numa.numa_node_of_phys (numa s) page.

(** ** Invariant and specifications *)

Definition pmm_ok (s : pmm_state) : Prop :=
  Numa.state_ok (numa s) /\ zlen (g_freed_pages s) = PMM_MAX_FREED_TRACK /\
  0 <= g_freed_count s <= PMM_MAX_FREED_TRACK.

Definition is_free (s : pmm_state) (p : Z) : bool := Numa.page_free (numa s) p.

(** No page of any node is free. *)
Definition exhausted (n : Numa.numa_state) : Prop :=
  forall id i, 0 <= id < Numa.g_numa_node_count n -> 0 <= i ->
    Numa.bitmap_is_free (Numa.node n id) i = false.

(** What every allocation function promises. *)
Definition alloc_post (n : Numa.numa_state) (r : Numa.numa_state * option Z) (full : Prop) : Prop :=
  match r with
  | (n', Some p) =>
      Numa.state_ok n' /\ 0 < p < 18446744073709551616 /\ p mod Numa.PAGE_SIZE = 0 /\
      Numa.page_free n p = true /\ Numa.page_free n' p = false /\ Numa.unchanged_but n n' p
  | (n', None) => n' = n /\ full
  end.

Lemma alloc_on_node_post n id :
  Numa.state_ok n -> 0 <= id ->
  alloc_post n (Numa.numa_alloc_page_on_node n id)
    (Numa.g_numa_node_count n <= id \/ forall i, 0 <= i -> Numa.bitmap_is_free (Numa.node n id) i = false).
Proof.
  intros Hok Hid. pose proof (Numa.numa_alloc_spec n id Hok Hid) as H.
  destruct (Numa.numa_alloc_page_on_node n id) as [n' [p|]]; simpl; [|done].
  destruct H as (H1 & H2 & H3 & _ & _ & H4 & H5 & H6). done.
Qed.

Lemma try_nodes_post k n i skip :
  Numa.state_ok n -> 0 <= i ->
  alloc_post n (try_nodes k n i skip)
    (forall id j, i <= id < i + Z.of_nat k -> skip <> Some id -> 0 <= j ->
       id < Numa.g_numa_node_count n -> Numa.bitmap_is_free (Numa.node n id) j = false).
Proof.
  intros Hok. revert i. induction k as [|k IH]; intros i Hi; cbn [try_nodes].
  { simpl. split; [done|]. lia. }
  assert (Hrest : forall r, alloc_post n r
      (forall id j, i + 1 <= id < i + 1 + Z.of_nat k -> skip <> Some id -> 0 <= j ->
         id < Numa.g_numa_node_count n -> Numa.bitmap_is_free (Numa.node n id) j = false) ->
      (skip <> Some i -> forall j, 0 <= j -> i < Numa.g_numa_node_count n ->
         Numa.bitmap_is_free (Numa.node n i) j = false) ->
      alloc_post n r
      (forall id j, i <= id < i + Z.of_nat (S k) -> skip <> Some id -> 0 <= j ->
         id < Numa.g_numa_node_count n -> Numa.bitmap_is_free (Numa.node n id) j = false)).
  { intros [n' [p|]] Hr Hself; simpl in *; [done|]. destruct Hr as [-> Hr]. split; [done|].
    intros id j Hid Hsk Hj Hlt. destruct (decide (id = i)) as [->|]; [by apply Hself|apply Hr; [lia|done..]]. }
  case_bool_decide as Hsk; [by apply Hrest; [apply IH; lia|]|].
  pose proof (alloc_on_node_post n i Hok Hi) as H.
  destruct (Numa.numa_alloc_page_on_node n i) as [n1 [p|]]; [done|]. simpl in H. destruct H as [-> H].
  apply Hrest; [apply IH; lia|]. intros _ j Hj Hlt. destruct H; [lia|auto].
Qed.

Lemma pmm_alloc_page_post s :
  pmm_ok s ->
  let r := pmm_alloc_page s in
  alloc_post (numa s) (numa r.1, r.2) (exhausted (numa s)) /\ r.1 = with_numa s (numa r.1).
Proof.
  intros [Hok _]. unfold pmm_alloc_page, lift. cbn [fst snd]. split; [|done].
  pose proof (alloc_on_node_post (numa s) 0 Hok ltac:(lia)) as H.
  destruct (Numa.numa_alloc_page_on_node (numa s) 0) as [n1 [p|]]; [done|].
  simpl in H. destruct H as [-> H0]. unfold Numa.numa_node_count.
  pose proof (try_nodes_post (Z.to_nat (Numa.g_numa_node_count (numa s) - 1)) (numa s) 1 None Hok ltac:(lia)) as Hn.
  destruct (try_nodes _ _ _ _) as [n2 [p|]]; [done|]. simpl in *. destruct Hn as [-> Hn]. split; [done|].
  intros id i Hid Hi. destruct (decide (id = 0)) as [->|]; [destruct H0; [lia|auto]|apply Hn; (lia || done)].
Qed.

Lemma pmm_alloc_page_near_post s preferred :
  pmm_ok s -> 0 <= preferred ->
  let r := pmm_alloc_page_near s preferred in
  alloc_post (numa s) (numa r.1, r.2) (exhausted (numa s)) /\ r.1 = with_numa s (numa r.1).
Proof.
  intros [Hok _] Hp. unfold pmm_alloc_page_near, lift. cbn [fst snd]. split; [|done].
  pose proof (alloc_on_node_post (numa s) preferred Hok Hp) as H.
  destruct (Numa.numa_alloc_page_on_node (numa s) preferred) as [n1 [p|]]; [done|].
  simpl in H. destruct H as [-> H0]. unfold Numa.numa_node_count.
  pose proof (try_nodes_post (Z.to_nat (Numa.g_numa_node_count (numa s))) (numa s) 0 (Some preferred) Hok ltac:(lia)) as Hn.
  destruct (try_nodes _ _ _ _) as [n2 [p|]]; [done|]. simpl in *. destruct Hn as [-> Hn]. split; [done|].
  intros id i Hid Hi. destruct (decide (id = preferred)) as [->|]; [destruct H0; [lia|auto]|].
  apply Hn; try lia. congruence.
Qed.

Lemma pmm_free_page_post s p :
  pmm_ok s -> 0 <= p -> p mod Numa.PAGE_SIZE = 0 ->
  let '(s', writes) := pmm_free_page s p in
  pmm_ok s' /\ Numa.unchanged_but (numa s) (numa s') p /\
  (p = 0 \/ tracked s p <> None -> numa s' = numa s /\ writes = []) /\
  (p <> 0 -> tracked s p = None ->
     numa s' = Numa.numa_free_page (numa s) p /\
     writes = [(p, PMM_FREE_MAGIC); (p + 8, PMM_FREE_MAGIC)]).
Proof.
  intros (Hok & Hl & Hc) Hp Ha. unfold pmm_free_page.
  destruct (Z.eqb_spec p 0) as [->|Hp0]; [by split_and!|].
  destruct (tracked s p) as [i|] eqn:Et.
  - split; [split_and!; simpl; try done; [by rewrite zlen_upd|tauto..]|].
    split; [done|]. split; [done|]. done.
  - destruct (Numa.numa_free_spec (numa s) p Hok Hp Ha) as (H1 & H2 & _).
    destruct (Z.ltb_spec (g_freed_count s) PMM_MAX_FREED_TRACK) as [Hlt|Hge].
    + split; [split_and!; simpl; try done; [by rewrite zlen_set|lia..]|].
      split; [done|]. split; [|done]. intros [?|?]; done.
    + split; [split_and!; simpl; try done; lia|]. split; [done|]. split; [|done]. intros [?|?]; done.
Qed.

(** ** Properties *)

Inductive pmm_op := PAlloc | PAllocOn (id : Z) | PAllocNear (id : Z) | PFree (p : Z).

Definition op_ok (op : pmm_op) : Prop :=
  match op with
  | PAlloc => True
  | PAllocOn id | PAllocNear id => 0 <= id
  | PFree p => 0 <= p /\ p mod Numa.PAGE_SIZE = 0
  end.

(** A step with the pages handed out and not released since. *)
Definition give (held : list Z) (r : pmm_state * option Z) : pmm_state * list Z :=
  match r with
  | (s', Some p) => (s', p :: held)
  | (s', None) => (s', held)
  end.

Definition pmm_step (st : pmm_state * list Z) (op : pmm_op) : pmm_state * list Z :=
  let '(s, held) := st in
  match op with
  | PAlloc => give held (pmm_alloc_page s)
  | PAllocOn id => give held (pmm_alloc_page_on_node s id)
  | PAllocNear id => give held (pmm_alloc_page_near s id)
  | PFree p => ((pmm_free_page s p).1, List.filter (fun q => negb (q =? p)) held)
  end.

(** Pages held are distinct, aligned, and not free. *)
Definition exclusive (s : pmm_state) (held : list Z) : Prop :=
  NoDup held /\
  forall p, p ∈ held -> 0 < p /\ p mod Numa.PAGE_SIZE = 0 /\ is_free s p = false.

Lemma with_numa_ok s n : pmm_ok s -> Numa.state_ok n -> pmm_ok (with_numa s n).
Proof. intros (_ & ? & ?) ?. by split. Qed.

Lemma give_ok s held r full :
  pmm_ok s -> exclusive s held -> alloc_post (numa s) (numa r.1, r.2) full ->
  r.1 = with_numa s (numa r.1) ->
  pmm_ok (give held r).1 /\ exclusive (give held r).1 (give held r).2.
Proof.
  intros Hok [Hnd Hh] Hpost Hs. destruct r as [s' [p|]]; cbn [fst snd give] in *.
  - destruct Hpost as (H1 & H2 & H3 & H4 & H5 & _ & _ & H6). split.
    { rewrite Hs. by apply with_numa_ok. }
    split.
    + constructor; [|done]. intros Hin. destruct (Hh p Hin) as (_ & _ & Hf). unfold is_free in Hf. congruence.
    + intros q [->|Hq]%elem_of_cons; [split; [lia|done]|].
      destruct (Hh q Hq) as (Hq0 & Hqa & Hqf). split; [done|]. split; [done|].
      destruct (decide (q = p)) as [->|Hne]; [done|]. unfold is_free. rewrite H6 by done. done.
  - destruct Hpost as [Hn _]. assert (s' = s) as -> by (rewrite Hs, Hn; by destruct s).
    split; [done|]. by split.
Qed.

Lemma pmm_step_ok s held op :
  pmm_ok s -> exclusive s held -> op_ok op ->
  let st := pmm_step (s, held) op in pmm_ok st.1 /\ exclusive st.1 st.2.
Proof.
  intros Hok Hex Hop. destruct op as [|id|id|p]; cbn [pmm_step op_ok] in *.
  - destruct (pmm_alloc_page_post s Hok). by eapply give_ok.
  - pose proof (alloc_on_node_post (numa s) id (proj1 Hok) Hop) as H.
    rewrite (surjective_pairing (Numa.numa_alloc_page_on_node _ _)) in H. by eapply give_ok.
  - destruct (pmm_alloc_page_near_post s id Hok Hop). by eapply give_ok.
  - destruct Hop as [Hp Ha]. pose proof (pmm_free_page_post s p Hok Hp Ha) as H.
    destruct (pmm_free_page s p) as [s' w]. cbn [fst snd]. destruct H as (H1 & (_ & _ & H2) & _).
    destruct Hex as [Hnd Hh]. split; [done|]. split; [by apply NoDup_ListNoDup, List.NoDup_filter, NoDup_ListNoDup|].
    intros q Hq. apply list_elem_of_In, filter_In in Hq as [Hq Hne]. apply list_elem_of_In in Hq.
    apply negb_true_iff, Z.eqb_neq in Hne. destruct (Hh q Hq) as (? & ? & Hf). split; [done|]. split; [done|].
    unfold is_free. rewrite H2 by done. done.
Qed.

(** C7: no page is handed out twice.  Starting from any well-formed state, after any sequence
    of allocations (plain, on a node, near a node) and releases, the pages handed out and not
    released since are pairwise distinct, page aligned, not NULL and not free. *)
Theorem pmm_no_double_allocation (ops : list pmm_op) (s : pmm_state) (held : list Z) :
  pmm_ok s -> exclusive s held -> Forall op_ok ops ->
  let st := foldl pmm_step (s, held) ops in pmm_ok st.1 /\ exclusive st.1 st.2.
Proof.
  intros Hok Hex Hops. revert s held Hok Hex.
  induction Hops as [|op ops Hop _ IH]; intros s held Hok Hex; [done|]. cbn [foldl].
  destruct (pmm_step_ok s held op Hok Hex Hop) as [H1 H2].
  destruct (pmm_step (s, held) op) as [s1 held1]. by apply IH.
Qed.

(** One node of [n] free pages. *)
Definition few_pages (n : Z) : pmm_state :=
  mk_pmm (Numa.mk_numa ((Numa.blank_node <$> seqZ 0 8).[0 <-
            Numa.mk_node 0 1 1073741824 (1073741824 + n * 4096) n n 1 0 (Numa.zero_bitmap.[0 <- Z.ones n])]) 1)
    n 0 (replicate 64 (mk_freed 0 0)) 0.

Definition two_pages : pmm_state := few_pages 2.

Lemma few_pages_ok n : 1 <= n <= 64 -> pmm_ok (few_pages n).
Proof.
  intros Hn. split; [|done]. apply Numa.one_node_ok; [|apply Numa.blank_nodes_len].
  destruct Numa.zero_bitmap_spec as [Hl Hz]. revert Hl Hz. generalize Numa.zero_bitmap as zb. intros zb Hl Hz.
  set (nd := Numa.mk_node 0 1 1073741824 (1073741824 + n * 4096) n n 1 0 (zb.[0 <- Z.ones n])).
  assert (Ho : 0 <= Z.ones n < 18446744073709551616).
  { rewrite Z.ones_equiv. pose proof (Z.pow_pos_nonneg 2 n). pose proof (Z.pow_le_mono_r 2 n 64). lia. }
  assert (Hs : Numa.shape nd).
  { split; cbn [nd Numa.bitmap]; [by rewrite zlen_set|]. intros w Hw. destruct (decide (w = 0)) as [->|].
    - rewrite arr_get_set_eq by (rewrite Hl; done). done.
    - rewrite arr_get_set_ne, Hz by lia. lia. }
  assert (Hf : forall i, 0 <= i -> Numa.bitmap_is_free nd i = (i <? n)).
  { intros i Hi. destruct (Z.leb_spec Numa.XAIOS_NUMA_BITMAP_BITS i).
    { rewrite Numa.is_free_high by done. unfold Numa.XAIOS_NUMA_BITMAP_BITS in *. lia. }
    rewrite Numa.is_free_bit by lia. destruct (Numa.word_index i ltac:(lia)) as (Hd & Hm & He).
    unfold nd. cbn [Numa.bitmap]. destruct (decide (i / 64 = 0)) as [Hz0|Hne].
    - rewrite Hz0, arr_get_set_eq by (rewrite Hl; done).
      replace (i mod 64) with i by dlia. rewrite Z.testbit_ones by lia.
      by rewrite (proj2 (Z.leb_le 0 i)) by lia.
    - rewrite arr_get_set_ne, Hz, Z.bits_0 by lia. dlia. }
  assert (Hmp : Numa.max_page nd = n).
  { unfold Numa.max_page, nd. cbn [Numa.phys_end Numa.phys_start]. rewrite u64_small by lia.
    replace (1073741824 + n * 4096 - 1073741824) with (n * 4096) by lia. unfold Numa.PAGE_SIZE.
    rewrite Z.div_mul by lia. unfold Numa.XAIOS_NUMA_BITMAP_BITS. case_if; lia. }
  split; [done|]. change (Numa.phys_end nd) with (1073741824 + n * 4096). change (Numa.phys_start nd) with 1073741824.
  change (Numa.free_count nd) with n. change (Numa.alloc_hint nd) with 0. unfold Numa.PAGE_SIZE.
  split; [lia|]. split; [lia|]. split; [done|]. split; [dlia|]. split; [|split; [|lia]].
  - intros i Hi. rewrite Hf by done. intros ?%Z.ltb_lt. rewrite Hmp. lia.
  - rewrite (count_ext _ (fun i => i <? n)) by (intros; apply Hf; lia). symmetry. apply count_below.
    unfold Numa.XAIOS_NUMA_BITMAP_BITS. lia.
Qed.

Lemma two_pages_ok : pmm_ok two_pages.
Proof. apply few_pages_ok. lia. Qed.

Lemma pmm_no_double_allocation_witness :
  let st := foldl pmm_step (two_pages, []) [PAlloc; PAllocNear 3; PFree 1073741824; PAllocOn 0] in
  st.2 = [1073741824; 1073745920] /\ exclusive st.1 st.2.
Proof.
  split; [vm_compute; reflexivity|].
  apply (pmm_no_double_allocation [PAlloc; PAllocNear 3; PFree 1073741824; PAllocOn 0] two_pages []).
  - exact two_pages_ok.
  - split; [constructor|]. intros p Hp. by apply not_elem_of_nil in Hp.
  - repeat (apply Forall_cons; split; [vm_compute; try split; discriminate || reflexivity || exact I|]).
    apply Forall_nil. exact I.
Defined.

(** Allocation fails only when memory is exhausted.  [pmm_alloc_page], and likewise
    [pmm_alloc_page_near], returns NULL exactly when no page of any node is free, and then
    changes nothing; otherwise it returns a page that was free, takes exactly that page and
    keeps the allocator well formed. *)
Theorem pmm_alloc_page_exact (s : pmm_state) (preferred : Z) :
  pmm_ok s -> 0 <= preferred ->
  forall r, r = pmm_alloc_page s \/ r = pmm_alloc_page_near s preferred ->
  (r.2 = None <-> exhausted (numa s)) /\
  match r.2 with
  | None => numa r.1 = numa s
  | Some p => pmm_ok r.1 /\ is_free s p = true /\ is_free r.1 p = false /\
      forall q, q mod Numa.PAGE_SIZE = 0 -> q <> p -> is_free r.1 q = is_free s q
  end.
Proof.
  intros Hok Hp r Hr.
  assert (H : alloc_post (numa s) (numa r.1, r.2) (exhausted (numa s)) /\ r.1 = with_numa s (numa r.1)).
  { destruct Hr as [->| ->]; [by apply pmm_alloc_page_post|by apply pmm_alloc_page_near_post]. }
  destruct H as [H Hs]. destruct r as [s' [p|]]; cbn [fst snd alloc_post] in *.
  - destruct H as (H1 & H2 & H3 & H4 & H5 & _ & _ & H6). split; [split; [done|]|].
    + intros Hex. exfalso. unfold Numa.page_free in H4. breflect.
      destruct Hok as [Hok _]. apply Z.eqb_neq in H. destruct (Numa.node_of_phys_inv _ _ Hok H) as [Hr' Hcv].
      rewrite (Hex _ _ Hr') in H0; [done|]. unfold Numa.covers in Hcv. breflect. apply Z.div_pos; [lia|done].
    + split; [|done]. rewrite Hs. by apply with_numa_ok.
  - destruct H as [H1 H2]. split; [by split|done].
Qed.

Lemma pmm_alloc_page_exact_witness :
  is_free (pmm_alloc_page two_pages).1 1073741824 = false.
Proof.
  destruct (pmm_alloc_page_exact two_pages 0 two_pages_ok ltac:(lia) (pmm_alloc_page two_pages) ltac:(by left))
    as [_ H]. assert (E : (pmm_alloc_page two_pages).2 = Some 1073741824) by (vm_compute; reflexivity).
  rewrite E in H. apply H.
Defined.

(** The table of freed pages is never cleared when a page is handed out again: a page that
    was released once, allocated again and released again is taken for a double free and
    stays allocated for good. *)
Lemma pmm_page_recycled_once :
  let run := foldl pmm_step (two_pages, []) in
  let cycle := [PAlloc; PAlloc; PFree 1073741824; PAlloc; PFree 1073741824; PAlloc] in
  (run cycle).2 = [1073745920] /\ pmm_free_pages (run cycle).1 = 0.
Proof. split; vm_compute; reflexivity. Qed.

End Pmm.
