(* ===== verification/Mmu.v ===== *)
(** * Page tables (kernel/arch/aarch64/mmu.c, include/xaios/vmm.h)

    The four-level translation tables of the kernel.  Memory is a map from word addresses
    to 64-bit words, in which the tables live at their physical addresses: the code reaches
    a table through the identity mapping of its page, which the model takes to be in place
    (a table page whose own address has been mapped elsewhere is outside of it); pages for new tables come from the page allocator.  The addresses of
    the static tables and the section boundaries of the linker script are the record
    [layout].  System register writes and TLB maintenance have no effect in the model; a
    failed [kassert] is [None]. *)

From S2P Require Import Prelude Numa Pmm.

Module Mmu.

Definition PAGE_SIZE : Z := 4096.
Definition L2_BLOCK_SIZE : Z := 2097152.
Definition EARLY_IDENTITY_SIZE : Z := 4294967296.
Definition EARLY_L1_TABLES : Z := 4.
Definition EARLY_KERNEL_L3_TABLES : Z := 16.

Definition PTE_VALID : Z := 1.
Definition PTE_TABLE : Z := 2.
Definition PTE_ATTR_NORMAL : Z := 0.
Definition PTE_ATTR_DEVICE : Z := 4.
Definition PTE_AP_RO : Z := 128.
Definition PTE_AP_EL0 : Z := 64.
Definition PTE_SH_INNER : Z := 768.
Definition PTE_AF : Z := 1024.
Definition PTE_NG : Z := 2048.
Definition PTE_PXN : Z := Eval cbv in Z.shiftl 1 53.
Definition PTE_UXN : Z := Eval cbv in Z.shiftl 1 54.
Definition PTE_ADDR_MASK : Z := 281474976706560.
Definition PTE_BLOCK_L2_ADDR_MASK : Z := 281474974613504.

Definition XAIOS_VMM_PRESENT : Z := 1.
Definition XAIOS_VMM_WRITABLE : Z := 2.
Definition XAIOS_VMM_EXECUTABLE : Z := 4.
Definition XAIOS_VMM_DEVICE : Z := 8.
Definition XAIOS_VMM_USER : Z := 16.
Definition XAIOS_USER_BASE : Z := 1090519040.
Definition XAIOS_USER_LIMIT : Z := 1342177280.
Definition XAIOS_USER_STACK_TOP : Z := 1325400064.

(** [~PTE_UXN] and [~PTE_PXN]: the macros are not parenthesised, so the complement
    applies to the 1 and is shifted afterwards. *)
Definition not_PTE_UXN : Z := Eval cbv in u64 (Z.shiftl (not64 1) 54).
Definition not_PTE_PXN : Z := Eval cbv in u64 (Z.shiftl (not64 1) 53).

(** Linker symbols and static tables. *)
Record layout := mk_layout {
  g_l0_table : Z; g_l1_table : Z; g_l2_tables : Z; g_kernel_l3_tables : Z;
  text_start : Z; text_end : Z; rodata_start : Z; rodata_end : Z;
  data_start : Z; data_end : Z; bss_start : Z; bss_end : Z;
  user_text_start : Z; user_text_end : Z; user_rodata_start : Z; user_rodata_end : Z;
  user_stack_start : Z; user_stack_end : Z
}.

Record vm := mk_vm { phys : Pmm.pmm_state; mem : gmap Z Z; g_mmio_start : Z; g_mmio_end : Z }.

Definition load (s : vm) (a : Z) : Z := default 0 (mem s !! a).
Definition store (s : vm) (a v : Z) : vm :=
  mk_vm (phys s) (<[a := v]> (mem s)) (g_mmio_start s) (g_mmio_end s).
Definition with_phys (s : vm) (p : Pmm.pmm_state) : vm :=
  mk_vm p (mem s) (g_mmio_start s) (g_mmio_end s).

(** [table[i]]. *)
Definition slot (table i : Z) : Z := table + 8 * i.

(** A bit test [(x & mask) != 0]. *)
Definition has (x mask : Z) : bool := negb (Z.land x mask =? 0).

(** ** Descriptors *)

Definition zero_table (s : vm) (table entries : Z) : vm :=
  for_range (Z.to_nat entries) 0 (fun i s => store s (slot table i) 0) s.

Definition table_descriptor (table : Z) : Z :=
  Z.lor (Z.lor (Z.land table PTE_ADDR_MASK) PTE_VALID) PTE_TABLE.

Definition page_descriptor (physical_address attrs : Z) : Z :=
  Z.lor (Z.lor (Z.lor (Z.lor (Z.land physical_address PTE_ADDR_MASK) attrs) PTE_VALID) PTE_TABLE)
    PTE_AF.

Definition block_descriptor (physical_address attrs : Z) : Z :=
  Z.lor (Z.lor (Z.lor (Z.land physical_address PTE_BLOCK_L2_ADDR_MASK) attrs) PTE_VALID) PTE_AF.

Definition lors (l : list Z) : Z := foldl Z.lor 0 l.

Definition normal_rw_nx_attrs : Z := Eval cbv in lors [PTE_ATTR_NORMAL; PTE_SH_INNER; PTE_PXN; PTE_UXN].
Definition device_rw_nx_attrs : Z := Eval cbv in lors [PTE_ATTR_DEVICE; PTE_PXN; PTE_UXN].
Definition normal_ro_nx_attrs : Z :=
  Eval cbv in lors [PTE_ATTR_NORMAL; PTE_SH_INNER; PTE_AP_RO; PTE_PXN; PTE_UXN].
Definition normal_rx_attrs : Z := Eval cbv in lors [PTE_ATTR_NORMAL; PTE_SH_INNER; PTE_UXN].
Definition user_rx_attrs : Z := Eval cbv in lors [PTE_ATTR_NORMAL; PTE_SH_INNER; PTE_AP_EL0; PTE_PXN].
Definition user_ro_nx_attrs : Z :=
  Eval cbv in lors [PTE_ATTR_NORMAL; PTE_SH_INNER; PTE_AP_EL0; PTE_AP_RO; PTE_PXN; PTE_UXN].
Definition user_rw_nx_attrs : Z :=
  Eval cbv in lors [PTE_ATTR_NORMAL; PTE_SH_INNER; PTE_AP_EL0; PTE_PXN; PTE_UXN].

Definition in_range (value start stop : Z) : bool := (start <=? value) && (value <? stop).

Definition kernel_page_attrs (lay : layout) (address : Z) : Z :=
  let page_end := u64 (address + PAGE_SIZE) in
  if Numa.overlaps address page_end (user_text_start lay) (user_text_end lay) then user_rx_attrs else
  if Numa.overlaps address page_end (user_rodata_start lay) (user_rodata_end lay) then user_ro_nx_attrs else
  if Numa.overlaps address page_end (user_stack_start lay) (user_stack_end lay) then user_rw_nx_attrs else
  if in_range address (text_start lay) (text_end lay) then normal_rx_attrs else
  if in_range address (rodata_start lay) (rodata_end lay) then normal_ro_nx_attrs else
  if in_range address (data_start lay) (data_end lay) || in_range address (bss_start lay) (bss_end lay)
  then normal_rw_nx_attrs else
  normal_rw_nx_attrs.

Definition attrs_from_flags (flags : Z) : Z :=
  let attrs := if has flags XAIOS_VMM_DEVICE then device_rw_nx_attrs else normal_rw_nx_attrs in
  let attrs := if has flags XAIOS_VMM_USER then Z.lor (Z.lor attrs PTE_AP_EL0) PTE_NG else attrs in
  let attrs := if has flags XAIOS_VMM_WRITABLE then attrs else Z.lor attrs PTE_AP_RO in
  let attrs := if has flags XAIOS_VMM_EXECUTABLE then Z.land attrs not_PTE_UXN else attrs in
  if negb (has flags XAIOS_VMM_USER) && has flags XAIOS_VMM_EXECUTABLE
  then Z.land attrs not_PTE_PXN else attrs.

Definition descriptor_to_flags (s : vm) (virtual_address descriptor : Z) : option Z :=
  if negb (has descriptor PTE_VALID) then None else
  let out := XAIOS_VMM_PRESENT in
  let attr_index := Z.land (Z.shiftr descriptor 2) 7 in
  let out := if attr_index =? 1 then Z.lor out XAIOS_VMM_DEVICE else out in
  let out := if (g_mmio_start s <=? virtual_address) && (virtual_address <? g_mmio_end s)
             then Z.lor out XAIOS_VMM_DEVICE else out in
  let out := if has descriptor PTE_AP_RO then out else Z.lor out XAIOS_VMM_WRITABLE in
  let out := if has descriptor PTE_PXN then out else Z.lor out XAIOS_VMM_EXECUTABLE in
  Some (if has descriptor PTE_AP_EL0 then Z.lor out XAIOS_VMM_USER else out).

(** ** Walks *)

Definition l0_index (va : Z) : Z := Z.land (Z.shiftr va 39) 511.
Definition l1_index (va : Z) : Z := Z.land (Z.shiftr va 30) 511.
Definition l2_index (va : Z) : Z := Z.land (Z.shiftr va 21) 511.
Definition l3_index (va : Z) : Z := Z.land (Z.shiftr va 12) 511.

Definition is_table (desc : Z) : bool :=
  Z.land desc (Z.lor PTE_VALID PTE_TABLE) =? Z.lor PTE_VALID PTE_TABLE.
Definition target (desc : Z) : Z := Z.land desc PTE_ADDR_MASK.

Section Tables.
Context (lay : layout).

(** A page for a new table: [pmm_alloc_page], the assertion and the zeroing. *)
Definition new_table (s : vm) : option (vm * Z) :=
  match Pmm.pmm_alloc_page (phys s) with
  | (_, None) => None
  | (p1, Some page) => Some (zero_table (with_phys s p1) page 512, page)
  end.

(** Fill a new L3 table with the pages of the block it replaces. *)
Definition split_block (s : vm) (l3 l2_desc : Z) : vm :=
  let block_base := Z.land l2_desc PTE_BLOCK_L2_ADDR_MASK in
  let attrs := Z.land l2_desc (not64 PTE_BLOCK_L2_ADDR_MASK) in
  for_range 512 0
    (fun i s => store s (slot l3 i) (page_descriptor (u64 (block_base + i * PAGE_SIZE)) attrs)) s.

Definition ensure_l2_table (s : vm) (i1 : Z) : option vm :=
  if is_table (load s (slot (g_l1_table lay) i1)) then Some s else
  '(s1, new_l2) ← new_table s;
  Some (store s1 (slot (g_l1_table lay) i1) (table_descriptor new_l2)).

Definition ensure_l3_table (s : vm) (va : Z) : option (vm * Z) :=
  if negb (l0_index va =? 0) then None else
  s1 ← ensure_l2_table s (l1_index va);
  let l2 := target (load s1 (slot (g_l1_table lay) (l1_index va))) in
  let l2_desc := load s1 (slot l2 (l2_index va)) in
  if is_table l2_desc then Some (s1, target l2_desc) else
  '(s2, l3) ← new_table s1;
  let s3 := if has l2_desc PTE_VALID && negb (has l2_desc PTE_TABLE)
            then split_block s2 l3 l2_desc else s2 in
  Some (store s3 (slot l2 (l2_index va)) (table_descriptor l3), l3).

Definition vmm_translate (s : vm) (va : Z) : option (Z * Z) :=
  let l0_desc := load s (slot (g_l0_table lay) (l0_index va)) in
  if negb (is_table l0_desc) then None else
  let l1_desc := load s (slot (target l0_desc) (l1_index va)) in
  if negb (is_table l1_desc) then None else
  let l2_desc := load s (slot (target l1_desc) (l2_index va)) in
  if negb (has l2_desc PTE_VALID) then None else
  if negb (has l2_desc PTE_TABLE) then
    flags ← descriptor_to_flags s va l2_desc;
    Some (Z.land l2_desc PTE_BLOCK_L2_ADDR_MASK + Z.land va (L2_BLOCK_SIZE - 1), flags)
  else
  let l3_desc := load s (slot (target l2_desc) (l3_index va)) in
  if negb (has l3_desc PTE_VALID) then None else
  flags ← descriptor_to_flags s va l3_desc;
  Some (target l3_desc + Z.land va 4095, flags).

Definition vmm_map_page (s : vm) (va pa flags : Z) : option (vm * xaios_status) :=
  if has va (PAGE_SIZE - 1) || has pa (PAGE_SIZE - 1) || negb (has flags XAIOS_VMM_PRESENT)
  then Some (s, XAIOS_ERR_INVALID) else
  '(s1, l3) ← ensure_l3_table s va;
  Some (store s1 (slot l3 (l3_index va)) (page_descriptor pa (attrs_from_flags flags)), XAIOS_OK).

Definition vmm_unmap_page (s : vm) (va : Z) : option (vm * xaios_status) :=
  if has va (PAGE_SIZE - 1) then Some (s, XAIOS_ERR_INVALID) else
  '(s1, l3) ← ensure_l3_table s va;
  Some (store s1 (slot l3 (l3_index va)) 0, XAIOS_OK).

(** The page loop of [vmm_validate_user_buffer]. *)
Fixpoint validate_pages (fuel : nat) (s : vm) (page stop required_flags : Z) : option xaios_status :=
  match fuel with
  | O => None
  | S fuel' =>
      if page <? stop then
        match vmm_translate s page with
        | None => Some XAIOS_ERR_INVALID
        | Some (_, flags) =>
            if negb (has flags XAIOS_VMM_USER) ||
               negb (Z.land flags required_flags =? required_flags)
            then Some XAIOS_ERR_INVALID
            else validate_pages fuel' s (u64 (page + PAGE_SIZE)) stop required_flags
        end
      else Some XAIOS_OK
  end.

Definition vmm_validate_user_buffer (s : vm) (va size required_flags : Z) : option xaios_status :=
  if (size =? 0) || (va <? XAIOS_USER_BASE) || (u64 (va + size) <? va) ||
     (XAIOS_USER_LIMIT <? u64 (va + size))
  then Some XAIOS_ERR_INVALID else
  let start := align_down va PAGE_SIZE in
  let stop := align_up (u64 (va + size)) PAGE_SIZE in
  validate_pages (Z.to_nat ((stop - start) / PAGE_SIZE + 1)) s start stop required_flags.

(** ** Boot *)

Fixpoint map_identity_l2_blocks (fuel : nat) (s : vm) (address stop attrs : Z) : option vm :=
  match fuel with
  | O => None
  | S fuel' =>
      if address <? stop then
        if negb (l1_index address <? EARLY_L1_TABLES) then None else
        map_identity_l2_blocks fuel'
          (store s (slot (g_l2_tables lay + l1_index address * PAGE_SIZE) (l2_index address))
             (block_descriptor address attrs))
          (u64 (address + L2_BLOCK_SIZE)) stop attrs
      else Some s
  end.

Definition kernel_l3 (i : Z) : Z := g_kernel_l3_tables lay + i * PAGE_SIZE.

(** One region of [map_kernel_pages]: its L3 table and the L2 entry. *)
Definition map_kernel_region (s : vm) (table_index region : Z) : vm :=
  let l3 := kernel_l3 table_index in
  let s1 := for_range 512 0
    (fun page s =>
       let address := u64 (region + page * PAGE_SIZE) in
       store s (slot l3 page) (page_descriptor address (kernel_page_attrs lay address))) s in
  store s1 (slot (g_l2_tables lay + l1_index region * PAGE_SIZE) (l2_index region)) (table_descriptor l3).

Fixpoint map_kernel_regions (fuel : nat) (s : vm) (table_index region table_end : Z) : option vm :=
  match fuel with
  | O => None
  | S fuel' =>
      if region <? table_end then
        if negb (table_index <? EARLY_KERNEL_L3_TABLES) then None else
        map_kernel_regions fuel' (map_kernel_region s table_index region) (table_index + 1)
          (u64 (region + L2_BLOCK_SIZE)) table_end
      else Some s
  end.

Definition map_kernel_pages (s : vm) (start stop : Z) : option vm :=
  let table_start := align_down start L2_BLOCK_SIZE in
  let table_end := align_up stop L2_BLOCK_SIZE in
  map_kernel_regions 17 s 0 table_start table_end.

Definition zero_tables (s : vm) (base : Z) (n : Z) : vm :=
  for_range (Z.to_nat n) 0 (fun i s => zero_table s (base + i * PAGE_SIZE) 512) s.

Definition build_tables (s : vm) (boot : xaios_boot_info) : option vm :=
  let s := zero_table s (g_l0_table lay) 512 in
  let s := zero_table s (g_l1_table lay) 512 in
  let s := zero_tables s (g_l2_tables lay) EARLY_L1_TABLES in
  let s := zero_tables s (g_kernel_l3_tables lay) EARLY_KERNEL_L3_TABLES in
  let s := store s (slot (g_l0_table lay) 0) (table_descriptor (g_l1_table lay)) in
  let s := for_range (Z.to_nat EARLY_L1_TABLES) 0
    (fun i s => store s (slot (g_l1_table lay) i) (table_descriptor (g_l2_tables lay + i * PAGE_SIZE))) s in
  s ← map_identity_l2_blocks 2049 s 0 EARLY_IDENTITY_SIZE normal_rw_nx_attrs;
  let mmio_start := align_down (uart_base boot) L2_BLOCK_SIZE in
  let mmio_end := align_up (u64 (uart_base boot + PAGE_SIZE)) L2_BLOCK_SIZE in
  let s := mk_vm (phys s) (mem s) mmio_start mmio_end in
  s ← map_identity_l2_blocks 3 s mmio_start mmio_end normal_rw_nx_attrs;
  map_kernel_pages s (kernel_phys_base boot) (kernel_phys_end boot).

Definition vmm_init (s : vm) (boot : xaios_boot_info) : option vm :=
  s1 ← build_tables s boot;
  '(s2, _) ← vmm_map_page s1 0 0 XAIOS_VMM_PRESENT;
  Some s2.

(** ** Per-process address spaces *)

Definition USER_L2_INDEX : Z := 8.

(** [l3_tables], the array of the caller, is returned. *)
Definition vmm_create_user_aspace (s : vm) (max_tables : Z) : option (vm * list Z * Z) :=
  if negb (2 <=? max_tables) then None else
  '(s1, t0) ← new_table s;
  '(s2, t1) ← new_table s1;
  Some (s2, (replicate (Z.to_nat max_tables) 0).[0 <- t0].[1 <- t1], 2).

Definition l3_slot (va : Z) : Z := if XAIOS_USER_STACK_TOP - 3 * PAGE_SIZE <=? va then 1 else 0.

Definition vmm_map_user_page (s : vm) (va pa flags : Z) (l3_tables : list Z) (l3_count : Z)
    : option (vm * xaios_status) :=
  if has va (PAGE_SIZE - 1) || has pa (PAGE_SIZE - 1) || negb (has flags XAIOS_VMM_PRESENT)
  then Some (s, XAIOS_ERR_INVALID) else
  if (va <? XAIOS_USER_BASE) || (XAIOS_USER_LIMIT <=? va) then Some (s, XAIOS_ERR_INVALID) else
  if negb (l2_index va =? USER_L2_INDEX) then Some (s, XAIOS_ERR_INVALID) else
  if (l3_count <=? l3_slot va) || (l3_tables.[l3_slot va] =? 0) then Some (s, XAIOS_ERR_INVALID) else
  let s1 := store s (slot (l3_tables.[l3_slot va]) (l3_index va))
              (page_descriptor pa (attrs_from_flags flags)) in
  '(s2, _) ← vmm_map_page s1 va pa flags;
  Some (s2, XAIOS_OK).

Definition vmm_unmap_user_page (s : vm) (va : Z) (l3_tables : list Z) (l3_count : Z)
    : option (vm * xaios_status) :=
  if has va (PAGE_SIZE - 1) then Some (s, XAIOS_ERR_INVALID) else
  let s1 := if (l3_slot va <? l3_count) && negb (l3_tables.[l3_slot va] =? 0)
            then store s (slot (l3_tables.[l3_slot va]) (l3_index va)) 0 else s in
  '(s2, _) ← vmm_unmap_page s1 va;
  Some (s2, XAIOS_OK).

(** [None] is the NULL array. *)
Definition vmm_switch_user_aspace (s : vm) (l3_tables : option (list Z)) (l3_count : Z) : vm :=
  let l0_desc := load s (slot (g_l0_table lay) (l0_index XAIOS_USER_BASE)) in
  if negb (is_table l0_desc) then s else
  let l1_desc := load s (slot (target l0_desc) (l1_index XAIOS_USER_BASE)) in
  if negb (is_table l1_desc) then s else
  let l2 := target l1_desc in
  let i2 := l2_index XAIOS_USER_BASE in
  match l3_tables with
  | Some tables =>
      if 0 <? l3_count then
        for_range (Z.to_nat (Z.min l3_count 2)) 0
          (fun i s => if negb (tables.[i] =? 0)
                      then store s (slot l2 (i2 + i)) (table_descriptor (tables.[i])) else s) s
      else for_range 2 0 (fun i s => store s (slot l2 (i2 + i)) 0) s
  | None => for_range 2 0 (fun i s => store s (slot l2 (i2 + i)) 0) s
  end.

(** [pmm_free_page] with its stores into the page. *)
Definition free_page (s : vm) (page : Z) : vm :=
  let '(p1, writes) := Pmm.pmm_free_page (phys s) page in
  foldl (fun s w => store s w.1 w.2) (with_phys s p1) writes.

Definition vmm_destroy_user_aspace (s : vm) (l3_tables : list Z) (l3_count : Z) : vm * list Z :=
  for_range (Z.to_nat l3_count) 0
    (fun i st => let '(s, ts) := st in
       if negb (ts.[i] =? 0) then (free_page s (ts.[i]), ts.[i <- 0]) else (s, ts)) (s, l3_tables).

End Tables.

(** ** Bits of descriptors *)

(** A page address below 2^48. *)
Definition page (t : Z) : Prop := 0 < t < 281474976710656 /\ t mod PAGE_SIZE = 0.

Lemma testbit_addr_mask n : 0 <= n -> Z.testbit PTE_ADDR_MASK n = (12 <=? n) && (n <? 48).
Proof.
  intros Hn. change PTE_ADDR_MASK with (Z.shiftl (Z.ones 36) 12).
  rewrite Z.shiftl_spec, Z.testbit_ones by lia.
  destruct (Z.leb_spec 12 n), (Z.leb_spec 0 (n - 12)), (Z.ltb_spec (n - 12) 36), (Z.ltb_spec n 48);
    simpl; lia || done.
Qed.

Lemma addr_bit x n :
  0 <= x < 281474976710656 -> x mod PAGE_SIZE = 0 -> 0 <= n -> Z.testbit x n = true -> 12 <= n < 48.
Proof.
  intros Hx Hm Hn Ht. split.
  - apply Z.nlt_ge. intros Hlt. rewrite <- (Z.mod_pow2_bits_low x 12) in Ht by lia.
    change (2 ^ 12) with PAGE_SIZE in Ht. rewrite Hm, Z.bits_0 in Ht. done.
  - apply Z.nle_gt. intros Hge. destruct (decide (x = 0)) as [->|]; [by rewrite Z.bits_0 in Ht|].
    rewrite Z.bits_above_log2 in Ht; [done|lia|].
    apply Z.lt_le_trans with 48; [apply Z.log2_lt_pow2; lia|lia].
Qed.

(** The address field of a page address is the address. *)
Lemma land_addr_mask x : 0 <= x < 281474976710656 -> x mod PAGE_SIZE = 0 -> Z.land x PTE_ADDR_MASK = x.
Proof.
  intros Hx Hm. apply Z.bits_inj'. intros n Hn. rewrite Z.land_spec, testbit_addr_mask by done.
  destruct (Z.testbit x n) eqn:E; [|done].
  apply addr_bit in E; try done. simpl. lia.
Qed.

Lemma table_descriptor_spec t :
  page t -> is_table (table_descriptor t) = true /\ target (table_descriptor t) = t /\
    has (table_descriptor t) PTE_VALID = true /\ has (table_descriptor t) PTE_TABLE = true.
Proof.
  intros [Ht Hm]. unfold is_table, target, table_descriptor, has. rewrite land_addr_mask by (lia || done).
  rewrite !Z.land_lor_distr_l.
  assert (Hlow : forall c, Z.land PTE_ADDR_MASK c = 0 -> Z.land t c = 0).
  { intros c Hc. rewrite <- (land_addr_mask t) by (lia || done). by rewrite <- Z.land_assoc, Hc, Z.land_0_r. }
  rewrite !(Hlow PTE_VALID), !(Hlow PTE_TABLE), !(Hlow (Z.lor PTE_VALID PTE_TABLE)) by reflexivity.
  rewrite land_addr_mask by (lia || done).
  split; [reflexivity|]. split; [|split; reflexivity].
  change (Z.land PTE_VALID PTE_ADDR_MASK) with 0. change (Z.land PTE_TABLE PTE_ADDR_MASK) with 0.
  by rewrite !Z.lor_0_r.
Qed.

(** A page descriptor has the address and, outside the address field, the attributes. *)
Lemma page_descriptor_target pa attrs :
  0 <= pa < 281474976710656 -> pa mod PAGE_SIZE = 0 -> Z.land attrs PTE_ADDR_MASK = 0 ->
  target (page_descriptor pa attrs) = pa.
Proof.
  intros Hp Hm Ha. unfold target, page_descriptor. rewrite (land_addr_mask pa) by done.
  rewrite !Z.land_lor_distr_l, Ha, (land_addr_mask pa) by done.
  change (Z.land PTE_VALID PTE_ADDR_MASK) with 0. change (Z.land PTE_TABLE PTE_ADDR_MASK) with 0.
  change (Z.land PTE_AF PTE_ADDR_MASK) with 0. by rewrite !Z.lor_0_r.
Qed.

Lemma page_descriptor_field pa attrs c :
  Z.land PTE_ADDR_MASK c = 0 ->
  Z.land (page_descriptor pa attrs) c = Z.land (Z.lor attrs 1027) c.
Proof.
  intros Hc. unfold page_descriptor.
  replace (Z.lor (Z.lor (Z.lor (Z.lor (Z.land pa PTE_ADDR_MASK) attrs) PTE_VALID) PTE_TABLE) PTE_AF)
    with (Z.lor (Z.land pa PTE_ADDR_MASK) (Z.lor attrs 1027)).
  - by rewrite Z.land_lor_distr_l, <- Z.land_assoc, Hc, Z.land_0_r.
  - rewrite <- !Z.lor_assoc. reflexivity.
Qed.

(** The bits [descriptor_to_flags] looks at. *)
Definition FLAG_BITS : Z := Eval cbv in lors [PTE_VALID; 28; PTE_AP_RO; PTE_AP_EL0; PTE_PXN].

Lemma field_of_flag_bits d c : Z.land FLAG_BITS c = c -> Z.land d c = Z.land (Z.land d FLAG_BITS) c.
Proof. intros Hc. by rewrite <- Z.land_assoc, Hc. Qed.

Lemma descriptor_to_flags_ext s s' va d d' :
  g_mmio_start s' = g_mmio_start s -> g_mmio_end s' = g_mmio_end s ->
  Z.land d FLAG_BITS = Z.land d' FLAG_BITS ->
  descriptor_to_flags s va d = descriptor_to_flags s' va d'.
Proof.
  intros H1 H2 Hd. unfold descriptor_to_flags, has. rewrite H1, H2.
  assert (Hf : forall c, Z.land FLAG_BITS c = c -> Z.land d c = Z.land d' c).
  { intros c Hc. by rewrite (field_of_flag_bits d), (field_of_flag_bits d'), Hd. }
  change 7 with (Z.shiftr 28 2). rewrite <- !Z.shiftr_land.
  by rewrite (Hf 28), (Hf PTE_VALID), (Hf PTE_AP_RO), (Hf PTE_PXN), (Hf PTE_AP_EL0) by reflexivity.
Qed.

Lemma attrs_from_flags_field flags : Z.land (attrs_from_flags flags) PTE_ADDR_MASK = 0.
Proof.
  unfold attrs_from_flags.
  by destruct (has flags XAIOS_VMM_DEVICE), (has flags XAIOS_VMM_USER), (has flags XAIOS_VMM_WRITABLE),
    (has flags XAIOS_VMM_EXECUTABLE).
Qed.

Lemma has_bit x b : 0 <= b -> has x (2 ^ b) = Z.testbit x b.
Proof. intros. unfold has. rewrite land_pow2_zero by done. apply negb_involutive. Qed.

(** ** Indices *)

Lemma index_spec va k : 0 <= k -> Z.land (Z.shiftr va k) 511 = va / 2 ^ k mod 512.
Proof. intros. rewrite Z.shiftr_div_pow2 by done. change 511 with (2 ^ 9 - 1). by apply land_low_mask. Qed.

Lemma index_range va :
  0 <= l0_index va < 512 /\ 0 <= l1_index va < 512 /\ 0 <= l2_index va < 512 /\ 0 <= l3_index va < 512.
Proof.
  unfold l0_index, l1_index, l2_index, l3_index. rewrite !index_spec by lia.
  split_and!; apply Z.mod_pos_bound; lia.
Qed.

(** Two addresses below 2^48 with the same indices are in the same page. *)
Lemma index_inj va va' :
  0 <= va < 281474976710656 -> 0 <= va' < 281474976710656 ->
  l0_index va = l0_index va' -> l1_index va = l1_index va' -> l2_index va = l2_index va' ->
  l3_index va = l3_index va' -> va / PAGE_SIZE = va' / PAGE_SIZE.
Proof.
  unfold l0_index, l1_index, l2_index, l3_index, PAGE_SIZE. rewrite !index_spec by lia.
  change (2 ^ 39) with (4096 * 134217728). change (2 ^ 30) with (4096 * 262144).
  change (2 ^ 21) with (4096 * 512). change (2 ^ 12) with 4096.
  rewrite <- !Z.div_div by lia. intros H H'.
  assert (0 <= va / 4096 < 68719476736) by dlia. assert (0 <= va' / 4096 < 68719476736) by dlia.
  generalize dependent (va / 4096). generalize dependent (va' / 4096). intros. dlia.
Qed.

Lemma slot_inj t t' i j :
  t mod PAGE_SIZE = 0 -> t' mod PAGE_SIZE = 0 -> 0 <= i < 512 -> 0 <= j < 512 ->
  slot t i = slot t' j -> t = t' /\ i = j.
Proof. unfold slot, PAGE_SIZE. intros. split; dlia. Qed.

(** ** The tree of tables *)

(** Tables by position: the root, the L1 table, the L2 table of an L1 entry and the L3
    table of an L2 entry. *)
Inductive tnode := T0 | T1 | T2 (i : Z) | T3 (i k : Z).

Section Invariant.
Context (lay : layout).

Definition child (s : vm) (table i : Z) : option Z :=
  if (0 <=? i) && (i <? 512) && is_table (load s (slot table i))
  then Some (target (load s (slot table i))) else None.

Definition node_addr (s : vm) (n : tnode) : option Z :=
  match n with
  | T0 => Some (g_l0_table lay)
  | T1 => Some (g_l1_table lay)
  | T2 i => child s (g_l1_table lay) i
  | T3 i k => t ← child s (g_l1_table lay) i; child s t k
  end.

(** A valid block entry: the bits below the block address are clear. *)
Definition block_ok (d : Z) : Prop :=
  0 <= d < 18446744073709551616 /\
  (is_table d = false -> has d PTE_VALID = true -> Z.land d 2093056 = 0).

Definition vm_ok (s : vm) : Prop :=
  Pmm.pmm_ok (phys s) /\
  (forall p, Numa.numa_node_of_phys (Pmm.numa (phys s)) p <> Numa.NO_NODE -> p < 281474976710656) /\
  load s (slot (g_l0_table lay) 0) = table_descriptor (g_l1_table lay) /\
  (forall i, 0 < i < 512 -> is_table (load s (slot (g_l0_table lay) i)) = false) /\
  (forall n t, node_addr s n = Some t -> page t /\ Pmm.is_free (phys s) t = false) /\
  (forall n m t, node_addr s n = Some t -> node_addr s m = Some t -> n = m) /\
  (forall i t k, node_addr s (T2 i) = Some t -> 0 <= k < 512 -> block_ok (load s (slot t k))).

Lemma load_store s a v b : load (store s a v) b = if b =? a then v else load s b.
Proof.
  unfold load, store. simpl. destruct (Z.eqb_spec b a) as [->|Hne].
  - by rewrite lookup_insert_eq.
  - by rewrite lookup_insert_ne.
Qed.

Lemma load_store_slot s t i v t' j :
  page t -> page t' -> 0 <= i < 512 -> 0 <= j < 512 ->
  load (store s (slot t i) v) (slot t' j) =
    if bool_decide (t = t' /\ i = j) then v else load s (slot t' j).
Proof.
  intros [_ Ht] [_ Ht'] Hi Hj. rewrite load_store. case_bool_decide as E.
  - destruct E as [-> ->]. by rewrite Z.eqb_refl.
  - destruct (Z.eqb_spec (slot t' j) (slot t i)) as [Hs|]; [|done].
    apply slot_inj in Hs as [-> ->]; try done. by destruct E.
Qed.

(** The tree only depends on the words of the L1 and L2 tables. *)
Lemma child_ext s s' t i :
  (0 <= i < 512 -> load s' (slot t i) = load s (slot t i)) -> child s' t i = child s t i.
Proof.
  intros H. unfold child. destruct (Z.leb_spec 0 i), (Z.ltb_spec i 512); simpl; try done.
  rewrite H by lia. done.
Qed.

Lemma node_addr_ext s s' :
  (forall n t j, node_addr s n = Some t -> 0 <= j < 512 -> load s' (slot t j) = load s (slot t j)) ->
  forall n, node_addr s' n = node_addr s n.
Proof.
  intros H. assert (H2 : forall i, node_addr s' (T2 i) = node_addr s (T2 i)).
  { intros i. apply child_ext. intros. by apply (H T1). }
  intros [| |i|i k]; try done. specialize (H2 i). simpl in *. rewrite H2.
  destruct (child s (g_l1_table lay) i) as [t|] eqn:E; [|done]. simpl.
  apply child_ext. intros. by apply (H (T2 i)).
Qed.

(** The walk of [vmm_translate] in terms of the tree. *)
Definition leaf3 (s : vm) (va d : Z) : option (Z * Z) :=
  if negb (has d PTE_VALID) then None else
  flags ← descriptor_to_flags s va d; Some (target d + Z.land va 4095, flags).

Definition leaf2 (s : vm) (va d : Z) : option (Z * Z) :=
  if negb (has d PTE_VALID) then None else
  flags ← descriptor_to_flags s va d;
  Some (Z.land d PTE_BLOCK_L2_ADDR_MASK + Z.land va (L2_BLOCK_SIZE - 1), flags).

Definition walk (s : vm) (va : Z) : option (Z * Z) :=
  if negb (l0_index va =? 0) then None else
  match node_addr s (T3 (l1_index va) (l2_index va)) with
  | Some t => leaf3 s va (load s (slot t (l3_index va)))
  | None =>
      match node_addr s (T2 (l1_index va)) with
      | Some t => leaf2 s va (load s (slot t (l2_index va)))
      | None => None
      end
  end.

Lemma is_table_bits d : is_table d = has d PTE_VALID && has d PTE_TABLE.
Proof.
  unfold is_table. change (Z.lor PTE_VALID PTE_TABLE) with (2 ^ 2 - 1). rewrite land_low_mask by lia.
  change PTE_VALID with (2 ^ 0). change PTE_TABLE with (2 ^ 1). rewrite !has_bit by lia.
  change (2 ^ 2) with 4. rewrite Z.testbit_eqb, Z.testbit_eqb by lia.
  change (2 ^ 0) with 1. change (2 ^ 1) with 2. rewrite Z.div_1_r.
  destruct (Z.eqb_spec (d mod 4) (4 - 1)), (Z.eqb_spec (d mod 2) 1), (Z.eqb_spec (d / 2 mod 2) 1); simpl;
    try done; exfalso; dlia.
Qed.

Lemma child_Some s t i x :
  child s t i = Some x -> 0 <= i < 512 /\ is_table (load s (slot t i)) = true /\ x = target (load s (slot t i)).
Proof.
  unfold child. destruct (Z.leb_spec 0 i), (Z.ltb_spec i 512); simpl; try done.
  destruct (is_table _); [|done]. intros [= <-]. split; [lia|done].
Qed.

Lemma child_in s t i :
  0 <= i < 512 -> child s t i = if is_table (load s (slot t i)) then Some (target (load s (slot t i))) else None.
Proof. intros. unfold child. by rewrite (proj2 (Z.leb_le 0 i)), (proj2 (Z.ltb_lt i 512)) by lia. Qed.

Lemma l1_page s : vm_ok s -> page (g_l1_table lay) /\ page (g_l0_table lay).
Proof. intros (_ & _ & _ & _ & H & _). split; [by apply (H T1)|by apply (H T0)]. Qed.

Lemma translate_walk s va : vm_ok s -> vmm_translate lay s va = walk s va.
Proof.
  intros Hok. destruct (l1_page s Hok) as [H1 _]. destruct Hok as (_ & _ & Hl0 & Hl0' & _).
  unfold vmm_translate, walk. destruct (index_range va) as (I0 & I1 & I2 & I3).
  destruct (Z.eqb_spec (l0_index va) 0) as [E0|Hne]; cbn [negb].
  2:{ rewrite Hl0' by lia. reflexivity. }
  rewrite E0, Hl0. destruct (table_descriptor_spec _ H1) as (-> & -> & _). cbn [negb node_addr].
  rewrite !(child_in s (g_l1_table lay)) by exact I1.
  destruct (is_table (load s (slot (g_l1_table lay) (l1_index va)))); [|reflexivity].
  cbn [negb mbind option_bind]. rewrite child_in by exact I2. rewrite is_table_bits.
  set (d := load s (slot (target _) (l2_index va))). unfold leaf2, leaf3.
  by destruct (has d PTE_VALID), (has d PTE_TABLE).
Qed.

(** *** Filling a page of entries *)

Definition fill (s : vm) (p : Z) (f : Z -> Z) : vm :=
  for_range 512 0 (fun i s => store s (slot p i) (f i)) s.

Lemma zero_table_fill s p : zero_table s p 512 = fill s p (fun _ => 0).
Proof. reflexivity. Qed.

Definition same_regs (s s' : vm) : Prop :=
  phys s' = phys s /\ g_mmio_start s' = g_mmio_start s /\ g_mmio_end s' = g_mmio_end s.

Lemma fill_spec s p f :
  page p ->
  same_regs s (fill s p f) /\
  (forall j, 0 <= j < 512 -> load (fill s p f) (slot p j) = f j) /\
  (forall t j, page t -> t <> p -> 0 <= j < 512 -> load (fill s p f) (slot t j) = load s (slot t j)).
Proof.
  intros Hp. unfold fill.
  assert (H : same_regs s (for_range (Z.to_nat 512) 0 (fun i s => store s (slot p i) (f i)) s) /\
    (forall j, 0 <= j < 512 -> load (for_range (Z.to_nat 512) 0 (fun i s => store s (slot p i) (f i)) s) (slot p j) = f j) /\
    (forall t j, page t -> t <> p -> 0 <= j < 512 ->
       load (for_range (Z.to_nat 512) 0 (fun i s => store s (slot p i) (f i)) s) (slot t j) = load s (slot t j))); [|exact H].
  pose proof (for_upto_ind (fun i s' => i <= 512 -> same_regs s s' /\
    (forall j, 0 <= j < i -> load s' (slot p j) = f j) /\
    (forall t j, page t -> t <> p -> 0 <= j < 512 -> load s' (slot t j) = load s (slot t j)))
    (fun i s => store s (slot p i) (f i)) 512 s ltac:(lia)) as Hind. cbv beta in Hind.
  apply Hind; [|clear Hind|lia].
  - intros _. split; [done|]. split; [lia|done].
  - intros i s' Hi IH Hi1. destruct (IH ltac:(lia)) as (H1 & H2 & H3). split; [done|]. split.
    + intros j Hj. rewrite load_store_slot by (done || lia). case_bool_decide as E; [by destruct E as [_ ->]|].
      apply H2. destruct (decide (i = j)) as [->|]; [by destruct E|lia].
    + intros t j Ht Hne Hj. rewrite load_store_slot by (done || lia).
      case_bool_decide as E; [by destruct E as [<- _]|]. by apply H3.
Qed.

(** *** Attaching a new table *)

#[local] Instance tnode_eq_dec : EqDecision tnode.
Proof. solve_decision. Defined.

(** The page [p] was taken from the allocator between [s] and [s']. *)
Definition took (s s' : vm) (p : Z) : Prop :=
  Pmm.pmm_ok (phys s') /\ page p /\ Pmm.is_free (phys s) p = true /\ Pmm.is_free (phys s') p = false /\
  (forall q, Numa.numa_node_of_phys (Pmm.numa (phys s')) q = Numa.numa_node_of_phys (Pmm.numa (phys s)) q) /\
  (forall q, q mod PAGE_SIZE = 0 -> q <> p -> Pmm.is_free (phys s') q = Pmm.is_free (phys s) q) /\
  g_mmio_start s' = g_mmio_start s /\ g_mmio_end s' = g_mmio_end s.

Lemma took_fresh s s' p n : vm_ok s -> took s s' p -> node_addr s n <> Some p.
Proof.
  intros (_ & _ & _ & _ & H & _) (_ & _ & Hf & _) Hn. destruct (H n p Hn). congruence.
Qed.

Lemma new_table_spec s s1 p :
  vm_ok s -> new_table s = Some (s1, p) ->
  took s s1 p /\ (forall j, 0 <= j < 512 -> load s1 (slot p j) = 0) /\
  (forall t j, page t -> t <> p -> 0 <= j < 512 -> load s1 (slot t j) = load s (slot t j)).
Proof.
  intros (Hpm & Hlim & _) H. unfold new_table in H.
  destruct (Pmm.pmm_alloc_page_post (phys s) Hpm) as [Hpost Hwith].
  destruct (Pmm.pmm_alloc_page (phys s)) as [p1 [q|]]; [|done].
  pose proof (fill_spec (with_phys s p1) q (fun _ => 0)) as Hfill. rewrite <- zero_table_fill in Hfill.
  revert H Hfill. generalize (zero_table (with_phys s p1) q 512) as z. intros z H Hfill. injection H as <- <-.
  cbn [fst snd Pmm.alloc_post] in Hpost. destruct Hpost as (H1 & H2 & H3 & H4 & H5 & H6 & H7 & H8).
  assert (Hq : page q).
  { split; [|done]. split; [lia|]. apply Hlim. unfold Numa.page_free in H4. breflect.
    by apply Z.eqb_neq in H. }
  cbn [fst] in Hwith. destruct (Hfill Hq) as ((R1 & R2 & R3) & R4 & R5).
  split; [|split; [exact R4|exact R5]].
  unfold took. rewrite R1, R2, R3. cbn [phys with_phys g_mmio_start g_mmio_end].
  split; [rewrite Hwith; by apply Pmm.with_numa_ok|]. clear Hfill R4 R5. by split_and!.
Qed.

(** What both kinds of attachment keep: the tree grows by one table. *)
Lemma grow_ok s s' p new :
  vm_ok s -> took s s' p ->
  (forall n, node_addr s' n = if decide (n = new) then Some p else node_addr s n) ->
  load s' (slot (g_l0_table lay) 0) = load s (slot (g_l0_table lay) 0) ->
  (forall i, 0 < i < 512 -> load s' (slot (g_l0_table lay) i) = load s (slot (g_l0_table lay) i)) ->
  (forall i t k, node_addr s' (T2 i) = Some t -> 0 <= k < 512 -> block_ok (load s' (slot t k))) ->
  vm_ok s'.
Proof.
  intros Hok Ht Hn Hl0 Hl0' Hb. pose proof (fun n => took_fresh s s' p n Hok Ht) as Hfresh.
  destruct Hok as (_ & Hlim & Hr & Hr' & Hpg & Hinj & _). destruct Ht as (H1 & H2 & H3 & H4 & H5 & H6 & _).
  split; [done|]. split; [intros q; rewrite H5; apply Hlim|]. split; [congruence|].
  split; [intros i Hi; rewrite Hl0' by done; by apply Hr'|]. split; [|split; [|done]].
  - intros n t. rewrite Hn. destruct (decide (n = new)) as [->|]; [by intros [= <-]|].
    intros Ha. destruct (Hpg n t Ha) as [Hpt Hft]. split; [done|].
    rewrite H6; [done|apply Hpt|]. intros ->. by apply (Hfresh n).
  - intros n m t. rewrite !Hn. destruct (decide (n = new)) as [->|], (decide (m = new)) as [->|]; try done.
    + intros [= <-] Hm. by destruct (Hfresh m).
    + intros Hm [= <-]. by destruct (Hfresh n).
    + by apply Hinj.
Qed.

Lemma table_descriptor_block_ok t : page t -> block_ok (table_descriptor t).
Proof.
  intros Ht. destruct (table_descriptor_spec t Ht) as (H1 & _). split; [|congruence].
  unfold table_descriptor. apply word_lor; [apply word_lor|]; [|unfold PTE_VALID; lia|unfold PTE_TABLE; lia].
  rewrite land_addr_mask; destruct Ht; [lia|lia|done].
Qed.

(** A new L3 table under entry [k] of the L2 table [t0]. *)
Lemma attach_l3 s s' p i t0 k :
  vm_ok s -> took s s' p -> node_addr s (T2 i) = Some t0 -> 0 <= k < 512 ->
  (forall t j, page t -> t <> p -> 0 <= j < 512 ->
     load s' (slot t j) = if bool_decide (t0 = t /\ k = j) then table_descriptor p else load s (slot t j)) ->
  (forall n, node_addr s' n = if decide (n = T3 i k) then Some p else node_addr s n) /\ vm_ok s'.
Proof.
  intros Hok Ht Ht0 Hk Hload. pose proof (fun n => took_fresh s s' p n Hok Ht) as Hfresh.
  pose proof Hok as (_ & _ & _ & _ & Hpg & Hinj & Hblk). pose proof Ht as (_ & Hp & _).
  destruct (table_descriptor_spec p Hp) as (Dt & Dg & _).
  assert (Hne : forall n t, node_addr s n = Some t -> page t /\ t <> p).
  { intros n t Hn. split; [by apply (Hpg n)|]. intros ->. by apply (Hfresh n). }
  assert (Hother : forall n t j, node_addr s n = Some t -> n <> T2 i -> 0 <= j < 512 ->
    load s' (slot t j) = load s (slot t j)).
  { intros n t j Hn Hni Hj. destruct (Hne n t Hn). rewrite Hload by done.
    case_bool_decide as E; [|done]. destruct E as [<- _]. by destruct Hni, (Hinj n (T2 i) t0). }
  assert (H2 : forall j, node_addr s' (T2 j) = node_addr s (T2 j)).
  { intros j. apply child_ext. intros. by apply (Hother T1). }
  assert (Hn : forall n, node_addr s' n = if decide (n = T3 i k) then Some p else node_addr s n).
  { intros [| |j|j m]; try (destruct (decide _); [done|]; done || apply H2).
    specialize (H2 j). simpl in H2 |- *. rewrite H2.
    destruct (child s (g_l1_table lay) j) as [t|] eqn:Ej.
    - cbn [mbind option_bind]. destruct (decide (j = i)) as [->|Hji].
      + simpl in Ht0. assert (t = t0) as -> by congruence.
        destruct (decide (m = k)) as [->|Hmk].
        * rewrite decide_True by done. rewrite child_in by done. destruct (Hne (T2 i) t0 Ej).
          rewrite Hload by done. rewrite bool_decide_true by done. by rewrite Dt, Dg.
        * rewrite decide_False by congruence. apply child_ext. intros Hm. destruct (Hne (T2 i) t0 Ej).
          rewrite Hload by done. rewrite bool_decide_false by (intros [_ ->]; done). done.
      + rewrite decide_False by congruence. apply child_ext. intros Hm.
        apply (Hother (T2 j)); [done|congruence|done].
    - cbn [mbind option_bind]. rewrite decide_False; [done|]. intros [= -> ->]. simpl in Ht0. congruence. }
  split; [done|]. destruct (l1_page s Hok) as [_ Hl0].
  apply (grow_ok s s' p (T3 i k)); try done.
  - by apply (Hother T0).
  - intros j Hj. apply (Hother T0); [done|done|lia].
  - intros j t m Hj Hm. rewrite H2 in Hj. destruct (Hne (T2 j) t Hj).
    rewrite Hload by done. case_bool_decide; [by apply table_descriptor_block_ok|by eapply Hblk].
Qed.

(** A new, empty L2 table under entry [i] of the L1 table. *)
Lemma attach_l2 s s' p i :
  vm_ok s -> took s s' p -> 0 <= i < 512 -> node_addr s (T2 i) = None ->
  (forall j, 0 <= j < 512 -> load s' (slot p j) = 0) ->
  (forall t j, page t -> t <> p -> 0 <= j < 512 ->
     load s' (slot t j) = if bool_decide (g_l1_table lay = t /\ i = j) then table_descriptor p else load s (slot t j)) ->
  (forall n, node_addr s' n = if decide (n = T2 i) then Some p else node_addr s n) /\ vm_ok s'.
Proof.
  intros Hok Ht Hi Hnone Hzero Hload. pose proof (fun n => took_fresh s s' p n Hok Ht) as Hfresh.
  pose proof Hok as (_ & _ & _ & _ & Hpg & Hinj & Hblk). pose proof Ht as (_ & Hp & _).
  destruct (table_descriptor_spec p Hp) as (Dt & Dg & _).
  assert (Hne : forall n t, node_addr s n = Some t -> page t /\ t <> p).
  { intros n t Hn. split; [by apply (Hpg n)|]. intros ->. by apply (Hfresh n). }
  assert (Hother : forall n t j, node_addr s n = Some t -> n <> T1 -> 0 <= j < 512 ->
    load s' (slot t j) = load s (slot t j)).
  { intros n t j Hn Hni Hj. destruct (Hne n t Hn). rewrite Hload by done.
    case_bool_decide as E; [|done]. destruct E as [<- _]. by destruct Hni, (Hinj n T1 (g_l1_table lay)). }
  assert (H2 : forall j, node_addr s' (T2 j) = if decide (j = i) then Some p else node_addr s (T2 j)).
  { intros j. destruct (Hne T1 (g_l1_table lay) eq_refl). simpl. destruct (decide (j = i)) as [->|Hji].
    - rewrite child_in by done. rewrite Hload by done. rewrite bool_decide_true by done. by rewrite Dt, Dg.
    - apply child_ext. intros Hj. rewrite Hload by done. rewrite bool_decide_false by (intros [_ ->]; done). done. }
  assert (Hn : forall n, node_addr s' n = if decide (n = T2 i) then Some p else node_addr s n).
  { intros [| |j|j m]; try done.
    - rewrite H2. destruct (decide (j = i)) as [->|]; [by rewrite decide_True|by rewrite decide_False by congruence].
    - rewrite decide_False by done. specialize (H2 j). simpl in *. rewrite H2.
      destruct (decide (j = i)) as [->|].
      + rewrite Hnone. cbn [mbind option_bind]. unfold child.
        destruct (Z.leb_spec 0 m), (Z.ltb_spec m 512); try done. rewrite Hzero by lia. done.
      + destruct (child s (g_l1_table lay) j) as [t|] eqn:Ej; [|done]. cbn [mbind option_bind].
        apply child_ext. intros Hm. by apply (Hother (T2 j)). }
  split; [done|]. apply (grow_ok s s' p (T2 i)); try done.
  - by apply (Hother T0).
  - intros j Hj. apply (Hother T0); [done|done|lia].
  - intros j t m Hj Hm. rewrite H2 in Hj. destruct (decide (j = i)) as [->|].
    + injection Hj as <-. rewrite Hzero by done. done.
    + rewrite (Hother (T2 j)) by done. by eapply Hblk.
Qed.

(** *** Leaves *)

Lemma leaf_ext s s' va d :
  g_mmio_start s' = g_mmio_start s -> g_mmio_end s' = g_mmio_end s ->
  leaf3 s' va d = leaf3 s va d /\ leaf2 s' va d = leaf2 s va d.
Proof.
  intros H1 H2. unfold leaf3, leaf2. by rewrite (descriptor_to_flags_ext s s' va d d).
Qed.

Lemma has_valid_page_descriptor pa attrs : has (page_descriptor pa attrs) PTE_VALID = true.
Proof.
  unfold has. rewrite page_descriptor_field by reflexivity. change PTE_VALID with (2 ^ 0).
  rewrite land_pow2_zero, Z.lor_spec, orb_true_r by lia. done.
Qed.

(** The pages a block is split into translate like the block. *)
Lemma split_leaf s va d :
  block_ok d -> has d PTE_VALID = true -> has d PTE_TABLE = false ->
  leaf3 s va (page_descriptor (u64 (Z.land d PTE_BLOCK_L2_ADDR_MASK + l3_index va * PAGE_SIZE))
                (Z.land d (not64 PTE_BLOCK_L2_ADDR_MASK))) = leaf2 s va d.
Proof.
  intros [Hd Hb] Hv Ht. rewrite is_table_bits, Hv, Ht in Hb. specialize (Hb eq_refl eq_refl).
  assert (Hbase : 0 <= Z.land d PTE_BLOCK_L2_ADDR_MASK <= PTE_BLOCK_L2_ADDR_MASK /\
    Z.land d PTE_BLOCK_L2_ADDR_MASK mod L2_BLOCK_SIZE = 0).
  { split; [split; [apply Z.land_nonneg; unfold PTE_BLOCK_L2_ADDR_MASK; lia|]|].
    - rewrite Z.land_comm. apply land_le_l. done.
    - change L2_BLOCK_SIZE with (2 ^ 21). rewrite <- land_low_mask, <- Z.land_assoc by lia.
      change (Z.land PTE_BLOCK_L2_ADDR_MASK (2 ^ 21 - 1)) with 0. apply Z.land_0_r. }
  set (base := Z.land d PTE_BLOCK_L2_ADDR_MASK) in *. destruct (index_range va) as (_ & _ & _ & I3).
  unfold leaf3, leaf2. unfold PTE_BLOCK_L2_ADDR_MASK, PAGE_SIZE, L2_BLOCK_SIZE in *.
  rewrite u64_small by lia. rewrite has_valid_page_descriptor, Hv. cbn [negb].
  rewrite page_descriptor_target.
  - rewrite (descriptor_to_flags_ext s s va _ d); [|done|done|].
    + destruct (descriptor_to_flags s va d); [|done]. cbn [mbind option_bind]. f_equal. f_equal. fold base.
      change (2097152 - 1) with (2 ^ 21 - 1). change 4095 with (2 ^ 12 - 1). rewrite !land_low_mask by lia.
      unfold l3_index. rewrite index_spec by lia. change (2 ^ 21) with 2097152. change (2 ^ 12) with 4096. dlia.
    + rewrite page_descriptor_field by reflexivity. rewrite Z.land_lor_distr_l, <- Z.land_assoc.
      change (Z.land (not64 281474974613504) FLAG_BITS) with FLAG_BITS. change (Z.land 1027 FLAG_BITS) with (2 ^ 0).
      apply Z.bits_inj'. intros n Hn. rewrite lor_pow2_testbit by lia.
      destruct (Z.eqb_spec n 0) as [->|]; [|done]. rewrite Z.land_spec.
      change PTE_VALID with (2 ^ 0) in Hv. rewrite has_bit in Hv by lia. by rewrite Hv.
  - destruct Hbase. dlia.
  - unfold PAGE_SIZE. destruct Hbase. dlia.
  - rewrite <- Z.land_assoc. change (Z.land (not64 281474974613504) PTE_ADDR_MASK) with 2093056. done.
Qed.

(** ** Ensuring a table *)

(** [s'] has more tables than [s], made from pages that were free. *)
Definition grows (s s' : vm) : Prop :=
  vm_ok s' /\ g_mmio_start s' = g_mmio_start s /\ g_mmio_end s' = g_mmio_end s /\
  (forall n t, node_addr s n = Some t -> node_addr s' n = Some t) /\
  (forall n t, node_addr s' n = Some t -> node_addr s n = Some t \/ Pmm.is_free (phys s) t = true) /\
  (forall q, q mod PAGE_SIZE = 0 -> Pmm.is_free (phys s) q = false -> Pmm.is_free (phys s') q = false) /\
  (forall va, walk s' va = walk s va).

Lemma grows_refl s : vm_ok s -> grows s s.
Proof. intros. split_and!; try done; tauto. Qed.

Lemma grows_trans s1 s2 s3 : grows s1 s2 -> grows s2 s3 -> grows s1 s3.
Proof.
  intros (A1 & A2 & A3 & A4 & A5 & A6 & A7) (B1 & B2 & B3 & B4 & B5 & B6 & B7).
  split; [done|]. split; [congruence|]. split; [congruence|]. split; [auto|]. split; [|split; [auto|]].
  - intros n t H. destruct (B5 n t H) as [H'|H']; [by apply A5|]. right.
    destruct (Pmm.is_free (phys s1) t) eqn:E; [done|]. exfalso.
    destruct B1 as (_ & _ & _ & _ & Hpg & _). destruct (Hpg n t H) as [[_ Ha] _].
    rewrite A6 in H' by done. done.
  - intros va. by rewrite B7.
Qed.

(** The parts of [grows] that follow from one attachment. *)
Lemma attach_grows s s' p new :
  took s s' p -> vm_ok s' -> node_addr s new = None ->
  (forall n, node_addr s' n = if decide (n = new) then Some p else node_addr s n) ->
  (forall va, walk s' va = walk s va) -> grows s s'.
Proof.
  intros (_ & _ & T1' & T2' & _ & T3' & T4' & T5') Hok Hnew Hn Hw. split_and!; try done.
  - intros n t H. rewrite Hn. destruct (decide (n = new)) as [->|]; congruence.
  - intros n t. rewrite Hn. destruct (decide (n = new)) as [->|]; [intros [= <-]; by right|by left].
  - intros q Hq Hf. destruct (decide (q = p)) as [->|]; [done|]. by rewrite T3'.
Qed.

Lemma ensure_l2_spec s i s1 :
  vm_ok s -> 0 <= i < 512 -> ensure_l2_table lay s i = Some s1 ->
  grows s s1 /\ exists t, node_addr s1 (T2 i) = Some t.
Proof.
  intros Hok Hi. unfold ensure_l2_table. destruct (is_table _) eqn:Et.
  { intros [= <-]. split; [by apply grows_refl|]. simpl. rewrite child_in, Et by done. by eexists. }
  assert (Hnone : node_addr s (T2 i) = None) by (simpl; by rewrite child_in, Et by done).
  destruct (new_table s) as [[s0 p]|] eqn:En; [|done]. cbn [mbind option_bind]. intros [= <-].
  destruct (new_table_spec s s0 p Hok En) as (Ht & Hz & Hl). destruct (l1_page s Hok) as [Hl1 _].
  pose proof Ht as (_ & Hp & _). assert (Hne : g_l1_table lay <> p).
  { intros E. apply (took_fresh s s0 p T1 Hok Ht). by rewrite <- E. }
  set (s' := store s0 _ _).
  assert (Ht' : took s s' p) by exact Ht.
  assert (Hz' : forall j, 0 <= j < 512 -> load s' (slot p j) = 0).
  { intros j Hj. unfold s'. rewrite load_store_slot by done. rewrite bool_decide_false by tauto. by apply Hz. }
  destruct (attach_l2 s s' p i Hok Ht' Hi Hnone Hz') as [Hn Hok'].
  { intros t j Htp Htn Hj. unfold s'. rewrite load_store_slot by done. case_bool_decide; [done|by apply Hl]. }
  assert (Hnew : node_addr s' (T2 i) = Some p) by (by rewrite Hn, decide_True).
  split; [|by eexists]. apply (attach_grows s s' p (T2 i)); try done.
  intros va. destruct (index_range va) as (_ & I1 & I2 & I3). unfold walk.
  destruct (negb (l0_index va =? 0)); [done|]. rewrite !Hn, decide_False by done.
  assert (Hlf : forall n t j, node_addr s n = Some t -> n <> T1 -> 0 <= j < 512 -> load s' (slot t j) = load s (slot t j)).
  { intros n t j Hnt Hn1 Hj. pose proof Hok as (_ & _ & _ & _ & Hpg & Hinj & _). destruct (Hpg n t Hnt).
    unfold s'. rewrite load_store_slot by done. rewrite bool_decide_false.
    - apply Hl; try done. intros ->. by apply (took_fresh s s0 p n Hok Ht).
    - intros [<- _]. by destruct Hn1, (Hinj n T1 (g_l1_table lay)). }
  destruct (node_addr s (T3 (l1_index va) (l2_index va))) as [t|] eqn:E3.
  { rewrite (Hlf (T3 (l1_index va) (l2_index va))) by done. apply leaf_ext; apply Ht. }
  destruct (decide (T2 (l1_index va) = T2 i)) as [E|E].
  - injection E as ->. rewrite Hnone. unfold leaf2. rewrite Hz' by done. done.
  - destruct (node_addr s (T2 (l1_index va))) as [t|] eqn:E2; [|done].
    rewrite (Hlf (T2 (l1_index va))) by done. apply leaf_ext; apply Ht.
Qed.

(** The words of a table other than the one written. *)
Lemma node_load_store s n t j m t0 k v :
  vm_ok s -> node_addr s n = Some t -> node_addr s m = Some t0 -> 0 <= j < 512 -> 0 <= k < 512 ->
  load (store s (slot t0 k) v) (slot t j) = if bool_decide (m = n /\ k = j) then v else load s (slot t j).
Proof.
  intros (_ & _ & _ & _ & Hpg & Hinj & _) Hn Hm Hj Hk. destruct (Hpg n t Hn), (Hpg m t0 Hm).
  rewrite load_store_slot by done.
  destruct (decide (m = n)) as [->|Hne].
  - assert (t0 = t) as -> by congruence. destruct (decide (k = j)) as [->|].
    + by rewrite !bool_decide_true.
    + by rewrite !bool_decide_false by tauto.
  - rewrite !bool_decide_false; [done|tauto|]. intros [-> _]. by apply Hne, (Hinj m n t).
Qed.

(** The new L3 table: filled from the block, or empty. *)
Definition fresh_l3 (s : vm) (p d : Z) : vm :=
  if has d PTE_VALID && negb (has d PTE_TABLE) then split_block s p d else s.

Lemma fresh_l3_spec s p d :
  page p -> (forall j, 0 <= j < 512 -> load s (slot p j) = 0) ->
  same_regs s (fresh_l3 s p d) /\
  (forall t j, page t -> t <> p -> 0 <= j < 512 -> load (fresh_l3 s p d) (slot t j) = load s (slot t j)) /\
  (forall va, block_ok d -> is_table d = false -> leaf3 s va (load (fresh_l3 s p d) (slot p (l3_index va))) = leaf2 s va d).
Proof.
  intros Hp Hz. unfold fresh_l3. destruct (has d PTE_VALID) eqn:Ev; cbn [andb].
  - destruct (has d PTE_TABLE) eqn:Et; cbn [negb].
    { split; [done|]. split; [done|]. intros va _. by rewrite is_table_bits, Ev, Et. }
    unfold split_block. cbv zeta. set (f := fun i : Z => _ ).
    destruct (fill_spec s p (fun i => page_descriptor (u64 (Z.land d PTE_BLOCK_L2_ADDR_MASK + i * PAGE_SIZE))
                (Z.land d (not64 PTE_BLOCK_L2_ADDR_MASK))) Hp) as (H1 & H2 & H3).
    unfold fill in H1, H2, H3. split; [exact H1|]. split; [exact H3|].
    intros va Hb _. unfold f. rewrite H2 by apply index_range. by apply split_leaf.
  - split; [done|]. split; [done|]. intros va _ _. rewrite Hz by apply index_range.
    unfold leaf2. by rewrite Ev.
Qed.

Lemma ensure_l3_spec s va s' t :
  vm_ok s -> ensure_l3_table lay s va = Some (s', t) ->
  grows s s' /\ node_addr s' (T3 (l1_index va) (l2_index va)) = Some t.
Proof.
  intros Hok. unfold ensure_l3_table. destruct (negb (l0_index va =? 0)); [done|].
  destruct (index_range va) as (_ & I1 & I2 & _).
  destruct (ensure_l2_table lay s (l1_index va)) as [s1|] eqn:E1; [|done]. cbn [mbind option_bind].
  destruct (ensure_l2_spec s _ s1 Hok I1 E1) as (Hg1 & t0 & Ht0). clear E1. pose proof Hg1 as (Hok1 & _).
  assert (Htar : target (load s1 (slot (g_l1_table lay) (l1_index va))) = t0).
  { cbn [node_addr] in Ht0. apply child_Some in Ht0 as (_ & _ & ->). reflexivity. }
  rewrite Htar. set (i := l1_index va) in *. set (k := l2_index va) in *. set (d := load s1 (slot t0 k)).
  assert (Hch : node_addr s1 (T3 i k) = if is_table d then Some (target d) else None).
  { cbn [node_addr] in Ht0 |- *. rewrite Ht0. cbn [mbind option_bind]. by rewrite child_in. }
  destruct (is_table d) eqn:Ed; [by intros [= <- <-]|].
  destruct (new_table s1) as [[s2 p]|] eqn:E2; [|done]. cbn [mbind option_bind].
  destruct (new_table_spec s1 s2 p Hok1 E2) as (Htk & Hz & Hl). clear E2. pose proof Htk as (_ & Hp & _).
  fold (fresh_l3 s2 p d). destruct (fresh_l3_spec s2 p d Hp Hz) as ((R1 & R2 & R3) & Hf & Hlf).
  generalize dependent (fresh_l3 s2 p d). intros s3 R1 R2 R3 Hf Hlf [= <- <-].
  pose proof Hok1 as (_ & _ & _ & _ & Hpg & Hinj & Hblk). destruct (Hpg (T2 i) t0 Ht0) as [Hpt0 _].
  assert (Hne : t0 <> p) by (intros ->; by apply (took_fresh s1 s2 p (T2 i) Hok1 Htk)).
  set (s' := store s3 (slot t0 k) (table_descriptor p)).
  assert (Htk' : took s1 s' p).
  { unfold took in *. simpl. rewrite R1, R2, R3. exact Htk. }
  assert (Hld : forall t j, page t -> t <> p -> 0 <= j < 512 ->
    load s' (slot t j) = if bool_decide (t0 = t /\ k = j) then table_descriptor p else load s1 (slot t j)).
  { intros t j Hpt Htp Hj. unfold s'. rewrite load_store_slot by done. by rewrite Hf, Hl. }
  destruct (attach_l3 s1 s' p i t0 k Hok1 Htk' Ht0 I2 Hld) as [Hn Hok'].
  assert (Hnew : node_addr s' (T3 i k) = Some p) by (by rewrite Hn, decide_True).
  split; [|done]. eapply grows_trans; [exact Hg1|]. apply (attach_grows s1 s' p (T3 i k)); try done.
  intros va'. unfold walk. destruct (negb (l0_index va' =? 0)); [done|].
  destruct (index_range va') as (_ & J1 & J2 & J3).
  assert (Hleaf : forall x, leaf3 s' va' x = leaf3 s1 va' x /\ leaf2 s' va' x = leaf2 s1 va' x).
  { intros x. apply leaf_ext; apply Htk'. }
  assert (Hother : forall n t j, node_addr s1 n = Some t -> (n, j) <> (T2 i, k) -> 0 <= j < 512 ->
    load s' (slot t j) = load s1 (slot t j)).
  { intros n t j Hnt Hnj Hj. destruct (Hpg n t Hnt). rewrite Hld; try done.
    - rewrite bool_decide_false; [done|]. intros [<- <-]. by apply Hnj; f_equal; apply (Hinj n (T2 i) t0).
    - intros ->. by apply (took_fresh s1 s2 p n Hok1 Htk). }
  rewrite Hn. destruct (decide (T3 (l1_index va') (l2_index va') = T3 i k)) as [E|E].
  - injection E as Ei Ek. rewrite Ei, Ek, Hch, Ht0. rewrite (proj1 (Hleaf _)).
    assert (Hpp : load s' (slot p (l3_index va')) = load s3 (slot p (l3_index va'))).
    { unfold s'. rewrite load_store_slot by done. by rewrite bool_decide_false by tauto. }
    rewrite Hpp. destruct (leaf_ext s1 s2 va' (load s3 (slot p (l3_index va')))) as [<- _]; [apply Htk..|].
    rewrite Hlf; [|by eapply Hblk|done]. destruct (leaf_ext s1 s2 va' d) as [_ ->]; [apply Htk..|]. done.
  - destruct (node_addr s1 (T3 (l1_index va') (l2_index va'))) as [t|] eqn:E3.
    + rewrite (Hother (T3 (l1_index va') (l2_index va'))) by done. apply Hleaf.
    + rewrite Hn, decide_False by done. destruct (node_addr s1 (T2 (l1_index va'))) as [t|] eqn:E4; [|done].
      rewrite (Hother (T2 (l1_index va'))); [apply Hleaf|done|congruence|done].
Qed.

(** With its tables present the walk needs no memory. *)
Lemma ensure_l3_present s va t :
  vm_ok s -> l0_index va = 0 -> node_addr s (T3 (l1_index va) (l2_index va)) = Some t ->
  ensure_l3_table lay s va = Some (s, t).
Proof.
  intros Hok H0 Ht. unfold ensure_l3_table. rewrite H0. cbn [Z.eqb negb].
  destruct (index_range va) as (_ & I1 & I2 & _). cbn [node_addr] in Ht.
  rewrite child_in in Ht by done. unfold ensure_l2_table.
  destruct (is_table (load s (slot (g_l1_table lay) (l1_index va)))); [|done].
  cbn [mbind option_bind] in *. rewrite child_in in Ht by done.
  destruct (is_table _); [|done]. by injection Ht as ->.
Qed.

(** ** Writing a leaf *)

Definition same_page_indices (va va' : Z) : Prop :=
  l0_index va = l0_index va' /\ l1_index va = l1_index va' /\ l2_index va = l2_index va' /\
  l3_index va = l3_index va'.

#[local] Instance same_page_dec va va' : Decision (same_page_indices va va').
Proof. unfold same_page_indices. apply _. Defined.

Lemma set_leaf s va t v :
  vm_ok s -> l0_index va = 0 -> node_addr s (T3 (l1_index va) (l2_index va)) = Some t ->
  let s' := store s (slot t (l3_index va)) v in
  vm_ok s' /\ (forall n, node_addr s' n = node_addr s n) /\
  forall va', walk s' va' = if decide (same_page_indices va va') then leaf3 s va' v else walk s va'.
Proof.
  intros Hok H0 Ht s'. destruct (index_range va) as (_ & _ & _ & I3).
  assert (Hld : forall n t' j, node_addr s n = Some t' -> 0 <= j < 512 ->
    load s' (slot t' j) = if bool_decide (T3 (l1_index va) (l2_index va) = n /\ l3_index va = j) then v
                          else load s (slot t' j)).
  { intros n t' j Hn Hj. unfold s'. by erewrite node_load_store. }
  assert (Hkeep : forall n t' j, node_addr s n = Some t' -> n <> T3 (l1_index va) (l2_index va) ->
    0 <= j < 512 -> load s' (slot t' j) = load s (slot t' j)).
  { intros n t' j Hn Hne Hj. rewrite (Hld n) by done. by rewrite bool_decide_false by (intros [<- _]; done). }
  assert (H2 : forall i, node_addr s' (T2 i) = node_addr s (T2 i)).
  { intros i. apply child_ext. intros. by apply (Hkeep T1). }
  assert (Hn : forall n, node_addr s' n = node_addr s n).
  { intros [| |i|i k]; [done|done|apply H2|]. specialize (H2 i). cbn [node_addr] in *. rewrite H2.
    destruct (child s (g_l1_table lay) i) as [t2|] eqn:E; [|done]. cbn [mbind option_bind].
    apply child_ext. intros. by apply (Hkeep (T2 i)). }
  pose proof Hok as (P1 & P2 & P3 & P4 & P5 & P6 & P7). split; [|split; [exact Hn|]].
  - split; [exact P1|]. split; [exact P2|]. split; [by rewrite (Hkeep T0)|].
    split; [intros i Hi; rewrite (Hkeep T0) by (done || lia); by apply P4|].
    split; [intros n t'; rewrite Hn; apply P5|]. split; [intros n m t'; rewrite !Hn; apply P6|].
    intros i t' k. rewrite Hn. intros Hi Hk. rewrite (Hkeep (T2 i)) by done. by eapply P7.
  - intros va'. destruct (index_range va') as (_ & J1 & J2 & J3).
    unfold walk. rewrite !Hn. destruct (decide (same_page_indices va va')) as [(E0 & E1 & E2 & E3)|Hne].
    + rewrite <- E0, <- E1, <- E2, <- E3, H0, Ht. cbn [Z.eqb negb].
      rewrite (Hld (T3 (l1_index va) (l2_index va))) by done. by rewrite bool_decide_true.
    + destruct (Z.eqb_spec (l0_index va') 0) as [Z0|]; [|done]. cbn [negb].
      destruct (node_addr s (T3 (l1_index va') (l2_index va'))) as [t'|] eqn:E.
      * rewrite (Hld (T3 (l1_index va') (l2_index va'))) by done. rewrite bool_decide_false; [done|].
        intros [[= E1 E2] E3]. apply Hne. split_and!; congruence.
      * destruct (node_addr s (T2 (l1_index va'))) as [t'|] eqn:E'; [|done].
        by rewrite (Hkeep (T2 (l1_index va'))).
Qed.

Lemma l0_index_low va : 0 <= va < 549755813888 -> l0_index va = 0.
Proof.
  intros. unfold l0_index. rewrite index_spec by lia. change (2 ^ 39) with 549755813888.
  by rewrite Z.div_small.
Qed.

Lemma same_page_indices_page va va' :
  0 <= va < 281474976710656 -> 0 <= va' < 281474976710656 ->
  same_page_indices va va' -> va / PAGE_SIZE = va' / PAGE_SIZE.
Proof. intros H H' (E0 & E1 & E2 & E3). by apply index_inj. Qed.

(** No page for the at most two tables a mapping may need. *)
Definition out_of_tables (s : vm) : Prop :=
  let '(p1, r) := Pmm.pmm_alloc_page (phys s) in r = None \/ (Pmm.pmm_alloc_page p1).2 = None.

Lemma new_table_None s : new_table s = None -> (Pmm.pmm_alloc_page (phys s)).2 = None.
Proof. unfold new_table. by destruct (Pmm.pmm_alloc_page (phys s)) as [p1 [q|]]. Qed.

Lemma ensure_l3_None s va :
  l0_index va = 0 -> ensure_l3_table lay s va = None -> out_of_tables s.
Proof.
  intros H0. unfold ensure_l3_table, ensure_l2_table, out_of_tables. rewrite H0. cbn [Z.eqb negb].
  destruct (is_table (load s _)).
  - cbn [mbind option_bind]. destruct (is_table _); [done|].
    destruct (new_table s) as [[s2 l3]|] eqn:E; [done|]. intros _. apply new_table_None in E.
    destruct (Pmm.pmm_alloc_page (phys s)). by left.
  - destruct (new_table s) as [[s1 l2]|] eqn:E.
    + cbn [mbind option_bind]. set (s2 := store s1 _ _). destruct (is_table _); [done|].
      destruct (new_table s2) as [[s3 l3]|] eqn:E'; [done|]. intros _. apply new_table_None in E'.
      unfold new_table in E. destruct (Pmm.pmm_alloc_page (phys s)) as [p1 [q|]]; [|done]. right.
      assert (Hph : phys s2 = p1); [|by rewrite Hph in E'].
      revert E. unfold s2. rewrite zero_table_fill.
      assert (Hf : forall s p f, phys (fill s p f) = phys s).
      { intros s0 p f. unfold fill. generalize 512%nat as n. intros n. generalize 0.
        revert s0. induction n as [|n IH]; intros s0 z; [done|]. cbn [for_range]. by rewrite IH. }
      generalize (Hf (with_phys s p1) q (fun _ => 0)). generalize (fill (with_phys s p1) q (fun _ => 0)).
      intros x Hx [= <- _]. exact Hx.
    + intros _. apply new_table_None in E. destruct (Pmm.pmm_alloc_page (phys s)). by left.
Qed.

Lemma page_mask_bits x : has x (PAGE_SIZE - 1) = negb (x mod PAGE_SIZE =? 0).
Proof. unfold has. change (PAGE_SIZE - 1) with (2 ^ 12 - 1). by rewrite land_low_mask by lia. Qed.

(** The flags read back from a mapping that is not executable. *)
Definition flags_match (s : vm) (va flags f : Z) : Prop :=
  Z.testbit f 0 = true /\ Z.testbit f 1 = Z.testbit flags 1 /\ Z.testbit f 2 = false /\
  Z.testbit f 3 = Z.testbit flags 3 || in_range va (g_mmio_start s) (g_mmio_end s) /\
  Z.testbit f 4 = Z.testbit flags 4.

Lemma has_flag flags b : 0 <= b -> has flags (2 ^ b) = Z.testbit flags b.
Proof. apply has_bit. Qed.

Lemma leaf3_mapped s va pa flags :
  0 <= pa < 281474976710656 -> pa mod PAGE_SIZE = 0 ->
  exists f, leaf3 s va (page_descriptor pa (attrs_from_flags flags)) = Some (pa + Z.land va 4095, f) /\
    (Z.testbit flags 2 = false -> flags_match s va flags f).
Proof.
  intros Hpa Ham. unfold leaf3. rewrite has_valid_page_descriptor. cbn [negb].
  rewrite page_descriptor_target by (done || apply attrs_from_flags_field).
  rewrite (descriptor_to_flags_ext s s va _ (Z.lor (attrs_from_flags flags) 1027)); [|done|done|].
  2:{ by rewrite page_descriptor_field. }
  unfold attrs_from_flags, flags_match.
  change XAIOS_VMM_DEVICE with (2 ^ 3). change XAIOS_VMM_USER with (2 ^ 4).
  change XAIOS_VMM_WRITABLE with (2 ^ 1). change XAIOS_VMM_EXECUTABLE with (2 ^ 2).
  rewrite !has_flag by lia. unfold descriptor_to_flags. fold (in_range va (g_mmio_start s) (g_mmio_end s)).
  destruct (Z.testbit flags 2), (Z.testbit flags 3), (Z.testbit flags 4), (Z.testbit flags 1),
    (in_range va (g_mmio_start s) (g_mmio_end s)); eexists; (split; [reflexivity|]); done.
Qed.

(** What a mapping does, in any well-formed state. *)
Lemma map_page_spec s va pa flags :
  vm_ok s -> 0 <= va < 549755813888 -> va mod PAGE_SIZE = 0 ->
  0 <= pa < 281474976710656 -> pa mod PAGE_SIZE = 0 -> Z.testbit flags 0 = true ->
  match vmm_map_page lay s va pa flags with
  | None => out_of_tables s
  | Some (s', st) =>
      st = XAIOS_OK /\ vm_ok s' /\
      (exists s1 t, grows s s1 /\ node_addr s1 (T3 (l1_index va) (l2_index va)) = Some t /\
         s' = store s1 (slot t (l3_index va)) (page_descriptor pa (attrs_from_flags flags))) /\
      (exists f, walk s' va = Some (pa, f) /\ (Z.testbit flags 2 = false -> flags_match s va flags f)) /\
      forall va', 0 <= va' < 281474976710656 -> va' / PAGE_SIZE <> va / PAGE_SIZE -> walk s' va' = walk s va'
  end.
Proof.
  intros Hok Hva Hvm Hpa Hpm Hfl. unfold vmm_map_page. rewrite !page_mask_bits, Hvm, Hpm.
  change XAIOS_VMM_PRESENT with (2 ^ 0). rewrite has_bit, Hfl by lia. cbn [Z.eqb negb orb].
  pose proof (l0_index_low va Hva) as H0.
  destruct (ensure_l3_table lay s va) as [[s1 t]|] eqn:E; cbn [mbind option_bind]; [|by eapply ensure_l3_None].
  destruct (ensure_l3_spec s va s1 t Hok E) as [Hg Ht]. clear E. pose proof Hg as (Hok1 & M1 & M2 & _ & _ & _ & Hw).
  destruct (set_leaf s1 va t (page_descriptor pa (attrs_from_flags flags)) Hok1 H0 Ht) as (Hok' & _ & Hw').
  split; [done|]. split; [exact Hok'|]. split; [by exists s1, t|]. split.
  - destruct (leaf3_mapped s va pa flags Hpa Hpm) as (f & Hf & Hm). exists f.
    split; [|exact Hm]. rewrite Hw', decide_True by done.
    destruct (leaf_ext s s1 va (page_descriptor pa (attrs_from_flags flags)) M1 M2) as [-> _]. rewrite Hf.
    f_equal. f_equal. change 4095 with (2 ^ 12 - 1). rewrite land_low_mask by lia.
    change (2 ^ 12) with PAGE_SIZE. rewrite Hvm. lia.
  - intros va' Hva' Hne. rewrite Hw', decide_False; [apply Hw|].
    intros Hs. apply same_page_indices_page in Hs; [congruence|lia|done].
Qed.

Lemma unmap_page_spec s va :
  vm_ok s -> 0 <= va < 549755813888 -> va mod PAGE_SIZE = 0 ->
  match vmm_unmap_page lay s va with
  | None => out_of_tables s
  | Some (s', st) =>
      st = XAIOS_OK /\ vm_ok s' /\
      (exists s1 t, grows s s1 /\ node_addr s1 (T3 (l1_index va) (l2_index va)) = Some t /\
         s' = store s1 (slot t (l3_index va)) 0) /\
      walk s' va = None /\
      forall va', 0 <= va' < 281474976710656 -> va' / PAGE_SIZE <> va / PAGE_SIZE -> walk s' va' = walk s va'
  end.
Proof.
  intros Hok Hva Hvm. unfold vmm_unmap_page. rewrite page_mask_bits, Hvm. cbn [Z.eqb negb].
  pose proof (l0_index_low va Hva) as H0.
  destruct (ensure_l3_table lay s va) as [[s1 t]|] eqn:E; cbn [mbind option_bind]; [|by eapply ensure_l3_None].
  destruct (ensure_l3_spec s va s1 t Hok E) as [Hg Ht]. clear E. pose proof Hg as (Hok1 & _ & _ & _ & _ & _ & Hw).
  destruct (set_leaf s1 va t 0 Hok1 H0 Ht) as (Hok' & _ & Hw').
  split; [done|]. split; [exact Hok'|]. split; [by exists s1, t|]. split.
  - by rewrite Hw', decide_True.
  - intros va' Hva' Hne. rewrite Hw', decide_False; [apply Hw|].
    intros Hs. apply same_page_indices_page in Hs; [congruence|lia|done].
Qed.

(** ** Pages in use by others *)

(** A page handed out by the allocator that is not a table. *)
Definition held (s : vm) (p : Z) : Prop :=
  page p /\ Pmm.is_free (phys s) p = false /\ forall n, node_addr s n <> Some p.

(** The translations and tables are those of [s]. *)
Definition same_tables (s s' : vm) : Prop :=
  vm_ok s' /\ (forall n, node_addr s' n = node_addr s n) /\ (forall va, walk s' va = walk s va).

Lemma same_words s s' :
  vm_ok s -> Pmm.pmm_ok (phys s') -> g_mmio_start s' = g_mmio_start s -> g_mmio_end s' = g_mmio_end s ->
  (forall p, Numa.numa_node_of_phys (Pmm.numa (phys s')) p = Numa.numa_node_of_phys (Pmm.numa (phys s)) p) ->
  (forall n t, node_addr s n = Some t -> Pmm.is_free (phys s') t = false) ->
  (forall n t j, node_addr s n = Some t -> 0 <= j < 512 -> load s' (slot t j) = load s (slot t j)) ->
  same_tables s s'.
Proof.
  intros (P1 & P2 & P3 & P4 & P5 & P6 & P7) Hpm M1 M2 Hnp Hfr Hld.
  pose proof (node_addr_ext s s' Hld) as Hn. split; [|split; [exact Hn|]].
  - split; [done|]. split; [intros p; rewrite Hnp; apply P2|]. split; [by rewrite (Hld T0)|].
    split; [intros i Hi; rewrite (Hld T0) by (done || lia); by apply P4|].
    split; [intros n t; rewrite Hn; intros Ht; split; [by apply (P5 n)|by apply (Hfr n)]|].
    split; [intros n m t; rewrite !Hn; apply P6|].
    intros i t k. rewrite Hn. intros Hi Hk. rewrite (Hld (T2 i)) by done. by eapply P7.
  - intros va. destruct (index_range va) as (_ & I1 & I2 & I3). unfold walk. rewrite !Hn.
    destruct (negb _); [done|].
    destruct (node_addr s (T3 (l1_index va) (l2_index va))) as [t|] eqn:E.
    + rewrite (Hld (T3 (l1_index va) (l2_index va))) by done. by apply leaf_ext.
    + destruct (node_addr s (T2 (l1_index va))) as [t|] eqn:E'; [|done].
      rewrite (Hld (T2 (l1_index va))) by done. by apply leaf_ext.
Qed.

(** Taking a page. *)
Lemma alloc_page_vm s :
  vm_ok s ->
  match Pmm.pmm_alloc_page (phys s) with
  | (p1, None) => with_phys s p1 = s
  | (p1, Some q) =>
      same_tables s (with_phys s p1) /\ held (with_phys s p1) q /\ ~ held s q /\
      forall p, held s p -> held (with_phys s p1) p
  end.
Proof.
  intros Hok. pose proof Hok as (Hpm & Hlim & _ & _ & Hpg & _).
  destruct (Pmm.pmm_alloc_page_post (phys s) Hpm) as [Hpost Hwith].
  destruct (Pmm.pmm_alloc_page (phys s)) as [p1 [q|]]; cbn [fst snd Pmm.alloc_post] in *.
  - destruct Hpost as (H1 & H2 & H3 & H4 & H5 & H6 & H7 & H8).
    assert (Hq : page q).
    { split; [|done]. split; [lia|]. apply Hlim. unfold Numa.page_free in H4. breflect. by apply Z.eqb_neq in H. }
    assert (Hnq : forall n t, node_addr s n = Some t -> t <> q).
    { intros n t Hn ->. destruct (Hpg n q Hn). unfold Pmm.is_free in *. congruence. }
    assert (Hst : same_tables s (with_phys s p1)).
    { apply same_words; try done.
      - simpl. rewrite Hwith. by apply Pmm.with_numa_ok.
      - intros n t Hn. simpl. unfold Pmm.is_free. rewrite H8; [by apply (Hpg n)|by apply (Hpg n)|by eapply Hnq]. }
    split; [exact Hst|]. destruct Hst as (_ & Hn & _). split; [|split].
    + split; [done|]. split; [done|]. intros n. rewrite Hn. intros Ht. by apply (Hnq n q).
    + intros (_ & Hf & _). unfold Pmm.is_free in Hf. congruence.
    + intros p (Hp & Hf & Hnt). split; [done|]. split; [|intros n; rewrite Hn; apply Hnt].
      destruct (decide (p = q)) as [->|]; [done|]. simpl. unfold Pmm.is_free. rewrite H8; [done|apply Hp|done].
  - destruct Hpost as [Hn _]. assert (p1 = phys s) as -> by (rewrite Hwith, Hn; by destruct (phys s)).
    by destruct s.
Qed.

(** Releasing a held page. *)
Lemma free_page_vm s p :
  vm_ok s -> held s p ->
  same_tables s (free_page s p) /\ forall q, q <> p -> held s q -> held (free_page s p) q.
Proof.
  intros Hok (Hp & Hf & Hnt). pose proof Hok as (Hpm & _ & _ & _ & Hpg & _). unfold free_page.
  pose proof (Pmm.pmm_free_page_post (phys s) p Hpm ltac:(destruct Hp; lia) (proj2 Hp)) as H.
  destruct (Pmm.pmm_free_page (phys s) p) as [p1 w]. destruct H as (H1 & (H2 & H3 & H4) & H5 & H6).
  assert (Hw : forall s0 t j, page t -> t <> p -> 0 <= j < 512 ->
    phys (foldl (fun s w => store s w.1 w.2) s0 w) = phys s0 /\
    g_mmio_start (foldl (fun s w => store s w.1 w.2) s0 w) = g_mmio_start s0 /\
    g_mmio_end (foldl (fun s w => store s w.1 w.2) s0 w) = g_mmio_end s0 /\
    load (foldl (fun s w => store s w.1 w.2) s0 w) (slot t j) = load s0 (slot t j)).
  { intros s0 t j Ht Hne Hj. destruct (Pmm.tracked (phys s) p) eqn:Et.
    { destruct H5 as [_ ->]; [by right|done]. }
    destruct H6 as [_ ->]; [destruct Hp; lia|done|]. simpl. split; [done|]. split; [done|]. split; [done|].
    replace (store s0 p Pmm.PMM_FREE_MAGIC) with (store s0 (slot p 0) Pmm.PMM_FREE_MAGIC)
      by (f_equal; unfold slot; lia). replace (p + 8) with (slot p 1) by (unfold slot; lia).
    rewrite !load_store_slot by (done || lia). by rewrite !bool_decide_false by (intros [? _]; congruence). }
  destruct (l1_page s Hok) as [Hl1 _].
  destruct (Hw (with_phys s p1) (g_l1_table lay) 0 Hl1 ltac:(intros E; by apply (Hnt T1); simpl; rewrite E) ltac:(lia))
    as (W1 & W2 & W3 & _).
  set (s' := foldl _ _ _) in *.
  assert (Hst : same_tables s s').
  { apply same_words; try done; rewrite ?W1; try done.
    - intros n t Hn. simpl. unfold Pmm.is_free. rewrite H4; [by apply (Hpg n)|by apply (Hpg n)|].
      intros ->. by apply (Hnt n).
    - intros n t j Hn Hj. destruct (Hw (with_phys s p1) t j) as (_ & _ & _ & Hx);
        [by apply (Hpg n)|intros ->; by apply (Hnt n)|done|exact Hx]. }
  split; [exact Hst|]. destruct Hst as (_ & Hn & _). intros q Hq (Hq1 & Hq2 & Hq3).
  split; [done|]. split; [|intros n; rewrite Hn; apply Hq3]. rewrite W1. simpl. unfold Pmm.is_free.
  rewrite H4; [done|apply Hq1|done].
Qed.

Lemma grows_held s s' p : grows s s' -> held s p -> held s' p.
Proof.
  intros (_ & _ & _ & _ & H1 & H2 & _) (Hp & Hf & Hn). split; [done|].
  split; [apply H2; [apply Hp|done]|]. intros n Ha. destruct (H1 n p Ha) as [?|?]; [by apply (Hn n)|congruence].
Qed.

(** Writing a leaf keeps the pages held and the tables. *)
Lemma leaf_held s va t v p :
  vm_ok s -> l0_index va = 0 -> node_addr s (T3 (l1_index va) (l2_index va)) = Some t ->
  held s p -> held (store s (slot t (l3_index va)) v) p.
Proof.
  intros Hok H0 Ht (H1 & H2 & H3). destruct (set_leaf s va t v Hok H0 Ht) as (_ & Hn & _).
  split; [done|]. split; [done|]. intros n. rewrite Hn. apply H3.
Qed.

(** All L3 tables of a range of addresses exist. *)
Definition tables_ready (lo hi : Z) (s : vm) : Prop :=
  forall va, lo <= va < hi -> exists t, node_addr s (T3 (l1_index va) (l2_index va)) = Some t.

Lemma ready_mono lo hi s s' :
  (forall n t, node_addr s n = Some t -> node_addr s' n = Some t) ->
  tables_ready lo hi s -> tables_ready lo hi s'.
Proof. intros H Hr va Hva. destruct (Hr va Hva) as [t Ht]. exists t. by apply H. Qed.

(** Mapping and unmapping keep the pages held and the tables present. *)
Lemma map_page_frame s va pa flags s' st :
  vm_ok s -> 0 <= va < 549755813888 -> va mod PAGE_SIZE = 0 ->
  0 <= pa < 281474976710656 -> pa mod PAGE_SIZE = 0 -> Z.testbit flags 0 = true ->
  vmm_map_page lay s va pa flags = Some (s', st) ->
  (forall p, held s p -> held s' p) /\ (forall n t, node_addr s n = Some t -> node_addr s' n = Some t).
Proof.
  intros Hok Hva Hvm Hpa Hpm Hf E. pose proof (map_page_spec s va pa flags Hok Hva Hvm Hpa Hpm Hf) as H.
  rewrite E in H. destruct H as (_ & _ & (s1 & t & Hg & Ht & ->) & _).
  pose proof Hg as (Hok1 & _ & _ & Hn & _). pose proof (l0_index_low va Hva) as H0. split.
  - intros p Hp. apply leaf_held; try done. by eapply grows_held.
  - intros n t' Hnt. destruct (set_leaf s1 va t (page_descriptor pa (attrs_from_flags flags)) Hok1 H0 Ht) as (_ & -> & _).
    by apply Hn.
Qed.

(** Also an executable mapping, whose attributes are lost, leads to its frame. *)
Lemma map_page_target s va pa flags s' st :
  vm_ok s -> 0 <= va < 549755813888 -> va mod PAGE_SIZE = 0 ->
  0 <= pa < 281474976710656 -> pa mod PAGE_SIZE = 0 -> Z.testbit flags 0 = true ->
  vmm_map_page lay s va pa flags = Some (s', st) -> exists f, walk s' va = Some (pa, f).
Proof.
  intros Hok Hva Hvm Hpa Hpm Hf E. pose proof (map_page_spec s va pa flags Hok Hva Hvm Hpa Hpm Hf) as H.
  rewrite E in H. destruct H as (_ & _ & (s1 & t & (Hok1 & _) & Ht & ->) & _).
  destruct (set_leaf s1 va t (page_descriptor pa (attrs_from_flags flags)) Hok1 (l0_index_low va Hva) Ht) as (_ & _ & ->).
  rewrite decide_True by done. unfold leaf3, descriptor_to_flags. rewrite has_valid_page_descriptor.
  rewrite page_descriptor_target by (done || apply attrs_from_flags_field). eexists.
  change 4095 with (2 ^ 12 - 1). rewrite land_low_mask by lia. change (2 ^ 12) with PAGE_SIZE.
  rewrite Hvm, Z.add_0_r. reflexivity.
Qed.

Lemma unmap_page_frame s va s' st :
  vm_ok s -> 0 <= va < 549755813888 -> va mod PAGE_SIZE = 0 -> vmm_unmap_page lay s va = Some (s', st) ->
  (forall p, held s p -> held s' p) /\ (forall n t, node_addr s n = Some t -> node_addr s' n = Some t).
Proof.
  intros Hok Hva Hvm E. pose proof (unmap_page_spec s va Hok Hva Hvm) as H.
  rewrite E in H. destruct H as (_ & _ & (s1 & t & Hg & Ht & ->) & _).
  pose proof Hg as (Hok1 & _ & _ & Hn & _). pose proof (l0_index_low va Hva) as H0. split.
  - intros p Hp. apply leaf_held; try done. by eapply grows_held.
  - intros n t' Hnt. destruct (set_leaf s1 va t 0 Hok1 H0 Ht) as (_ & -> & _). by apply Hn.
Qed.

(** With the tables present neither panics. *)
Lemma map_page_ready lo hi s va pa flags :
  vm_ok s -> tables_ready lo hi s -> lo <= va < hi -> 0 <= va < 549755813888 ->
  is_Some (vmm_map_page lay s va pa flags) /\ is_Some (vmm_unmap_page lay s va).
Proof.
  intros Hok Hr Hin Hva. destruct (Hr va Hin) as [t Ht]. pose proof (l0_index_low va Hva) as H0.
  unfold vmm_map_page, vmm_unmap_page. rewrite (ensure_l3_present s va t Hok H0 Ht).
  split; case_if; by eexists.
Qed.

(** Writing a word of a held page. *)
Lemma store_held s t j v :
  vm_ok s -> held s t -> 0 <= j < 512 ->
  same_tables s (store s (slot t j) v) /\ forall q, held s q -> held (store s (slot t j) v) q.
Proof.
  intros Hok (Hp & _ & Hn) Hj. pose proof Hok as (Hpm & _ & _ & _ & Hpg & _).
  assert (Hst : same_tables s (store s (slot t j) v)).
  { apply same_words; try done; [intros n t' Ha; by apply (Hpg n)|].
    intros n t' i Ha Hi. rewrite load_store_slot by (done || by apply (Hpg n)).
    rewrite bool_decide_false; [done|]. intros [-> _]. by apply (Hn n). }
  split; [exact Hst|]. destruct Hst as (_ & Hna & _). intros q (H1 & H2 & H3). split; [done|]. split; [done|].
  intros n. rewrite Hna. apply H3.
Qed.

(** A table page that is not attached is a held page. *)
Lemma new_table_held s s1 t :
  vm_ok s -> new_table s = Some (s1, t) ->
  same_tables s s1 /\ held s1 t /\ ~ held s t /\ forall q, held s q -> held s1 q.
Proof.
  intros Hok E. destruct (new_table_spec s s1 t Hok E) as (Ht & _ & Hld).
  pose proof (fun n => took_fresh s s1 t n Hok Ht) as Hfresh. pose proof Hok as (_ & _ & _ & _ & Hpg & _).
  destruct Ht as (T1 & T2 & T3 & T4 & T5 & T6 & T7 & T8).
  assert (Hst : same_tables s s1).
  { apply same_words; try done.
    - intros n t' Ha. destruct (Hpg n t' Ha) as [[_ Hm] Hf]. rewrite T6; [done|done|]. intros ->. by apply (Hfresh n).
    - intros n t' j Ha Hj. apply Hld; [by apply (Hpg n)| |done]. intros ->. by apply (Hfresh n). }
  split; [exact Hst|]. destruct Hst as (_ & Hna & _). split; [|split].
  - split; [done|]. split; [done|]. intros n. rewrite Hna. apply Hfresh.
  - intros (_ & Hf & _). congruence.
  - intros q (Q1 & Q2 & Q3). split; [done|]. split; [|intros n; rewrite Hna; apply Q3].
    rewrite T6; [done|apply Q1|]. intros ->. congruence.
Qed.

(** Mapping a held page for a process, whose own tables are held pages. *)
Lemma map_user_page_held s va pa flags tables cnt :
  vm_ok s -> (forall j, 0 <= j < cnt -> tables.[j] <> 0 -> held s (tables.[j])) -> held s pa ->
  match vmm_map_user_page lay s va pa flags tables cnt with
  | None => ~ tables_ready XAIOS_USER_BASE XAIOS_USER_LIMIT s
  | Some (s', st) => vm_ok s' /\ (forall q, held s q -> held s' q) /\
      (forall n t, node_addr s n = Some t -> node_addr s' n = Some t) /\
      (st = XAIOS_OK -> (exists f, walk s' va = Some (pa, f)) /\
         forall va', 0 <= va' < 281474976710656 -> va' / PAGE_SIZE <> va / PAGE_SIZE -> walk s' va' = walk s va')
  end.
Proof.
  intros Hok Htab Hpa. unfold vmm_map_user_page. rewrite !page_mask_bits.
  destruct (_ || _ || _) eqn:E1; [done|]. apply orb_false_iff in E1 as [[E1 E2]%orb_false_iff E3].
  apply negb_false_iff, Z.eqb_eq in E1, E2. apply negb_false_iff in E3.
  destruct ((va <? _) || _) eqn:E4; [done|]. apply orb_false_iff in E4 as [E4%Z.ltb_ge E5%Z.leb_gt].
  destruct (negb (l2_index va =? USER_L2_INDEX)); [done|].
  destruct ((cnt <=? _) || _) eqn:E6; [done|]. apply orb_false_iff in E6 as [E6%Z.leb_gt E7%Z.eqb_neq].
  destruct (index_range va) as (_ & _ & _ & I3).
  assert (Hslot : 0 <= l3_slot va) by (unfold l3_slot; case_if; lia).
  destruct (store_held s (tables.[l3_slot va]) (l3_index va) (page_descriptor pa (attrs_from_flags flags)) Hok
    (Htab (l3_slot va) ltac:(lia) E7) I3) as [(Hok1 & Hn1 & Hw1) Hh1].
  set (s1 := store _ _ _) in *. pose proof (Hh1 pa Hpa) as ([Hp1 Hp2] & _).
  assert (Hfl : Z.testbit flags 0 = true) by (by rewrite <- has_flag by lia).
  unfold XAIOS_USER_BASE, XAIOS_USER_LIMIT in *.
  pose proof (map_page_spec s1 va pa flags Hok1 ltac:(lia) E1 ltac:(lia) Hp2 Hfl) as Hm.
  destruct (vmm_map_page lay s1 va pa flags) as [[s2 st]|] eqn:Em; cbn [mbind option_bind].
  - destruct (map_page_frame s1 va pa flags s2 st Hok1 ltac:(lia) E1 ltac:(lia) Hp2 Hfl Em) as [Hh2 Hn2].
    destruct Hm as (_ & Hok2 & _ & _ & Hw2). split; [done|]. split; [auto|].
    split; [intros n t Ha; apply Hn2; by rewrite Hn1|]. intros _. split.
    + exact (map_page_target s1 va pa flags s2 st Hok1 ltac:(lia) E1 ltac:(lia) Hp2 Hfl Em).
    + intros va' Hva' Hne. rewrite Hw2 by done. apply Hw1.
  - intros Hr. destruct (map_page_ready 1090519040 1342177280 s1 va pa flags Hok1) as [[x Hx] _];
      [|lia|lia|congruence].
    eapply ready_mono; [|exact Hr]. intros n t. by rewrite Hn1.
Qed.

End Invariant.

(** ** Properties *)

(** *** A small address space: one L2 table with one identity block. *)

Definition demo_layout : layout :=
  mk_layout 1342177280 1342181376 1342185472 1342189568 0 0 0 0 0 0 0 0 0 0 0 0 0 0.

Definition demo_pages : Pmm.pmm_state := Pmm.few_pages 8.

Lemma demo_pages_ok : Pmm.pmm_ok demo_pages.
Proof. apply Pmm.few_pages_ok. lia. Qed.

Definition demo_vm : vm :=
  mk_vm demo_pages
    (<[slot 1342177280 0 := table_descriptor 1342181376]>
     (<[slot 1342181376 1 := table_descriptor 1342185472]>
      {[slot 1342185472 0 := block_descriptor 1073741824 normal_rw_nx_attrs]})) 0 0.

Lemma demo_load a :
  load demo_vm a = if a =? 1342177280 then table_descriptor 1342181376 else
                   if a =? 1342181384 then table_descriptor 1342185472 else
                   if a =? 1342185472 then block_descriptor 1073741824 normal_rw_nx_attrs else 0.
Proof.
  unfold load, demo_vm, slot. cbn [mem].
  change (1342177280 + 8 * 0) with 1342177280. change (1342181376 + 8 * 1) with 1342181384.
  change (1342185472 + 8 * 0) with 1342185472.
  destruct (Z.eqb_spec a 1342177280) as [->|]; [by rewrite lookup_insert_eq|].
  rewrite lookup_insert_ne by done.
  destruct (Z.eqb_spec a 1342181384) as [->|]; [by rewrite lookup_insert_eq|].
  rewrite lookup_insert_ne by done.
  destruct (Z.eqb_spec a 1342185472) as [->|]; [by rewrite lookup_singleton_eq|].
  by rewrite lookup_singleton_ne.
Qed.

Lemma demo_tree n :
  node_addr demo_layout demo_vm n =
    match n with
    | T0 => Some 1342177280
    | T1 => Some 1342181376
    | T2 i => if i =? 1 then Some 1342185472 else None
    | T3 _ _ => None
    end.
Proof.
  assert (H2 : forall i, child demo_vm 1342181376 i = if i =? 1 then Some 1342185472 else None).
  { intros i. unfold child. rewrite demo_load. unfold slot.
    destruct (Z.leb_spec 0 i), (Z.ltb_spec i 512); cbn [andb].
    2-4: destruct (Z.eqb_spec i 1); [lia|done].
    rewrite (proj2 (Z.eqb_neq _ 1342177280)), (proj2 (Z.eqb_neq _ 1342185472)) by lia.
    destruct (Z.eqb_spec (1342181376 + 8 * i) 1342181384), (Z.eqb_spec i 1); (lia || reflexivity). }
  destruct n as [| |i|i k]; [reflexivity|reflexivity|apply H2|]. cbn [node_addr g_l1_table demo_layout].
  rewrite H2. destruct (Z.eqb_spec i 1); [|done]. cbn [mbind option_bind]. unfold child. rewrite demo_load. unfold slot.
  destruct (Z.leb_spec 0 k), (Z.ltb_spec k 512); cbn [andb]; try done.
  rewrite (proj2 (Z.eqb_neq _ 1342177280)), (proj2 (Z.eqb_neq _ 1342181384)) by lia.
  destruct (Z.eqb_spec (1342185472 + 8 * k) 1342185472); reflexivity.
Qed.

Lemma demo_node p : Numa.numa_node_of_phys (Pmm.numa demo_pages) p <> Numa.NO_NODE -> 1073741824 <= p < 1073774592.
Proof.
  intros Hp. destruct (Numa.node_of_phys_inv _ p (proj1 demo_pages_ok) Hp) as [Hr Hc].
  change (Numa.g_numa_node_count (Pmm.numa demo_pages)) with 1 in Hr.
  assert (E : Numa.numa_node_of_phys (Pmm.numa demo_pages) p = 0) by lia. rewrite E in Hc.
  unfold Numa.covers in Hc. breflect.
  change (Numa.phys_start (Numa.node (Pmm.numa demo_pages) 0)) with 1073741824 in *.
  change (Numa.phys_end (Numa.node (Pmm.numa demo_pages) 0)) with 1073774592 in *. lia.
Qed.

Lemma demo_free p : Pmm.is_free demo_pages p = true -> 1073741824 <= p < 1073774592.
Proof.
  unfold Pmm.is_free, Numa.page_free. intros H. apply demo_node. intros E. by rewrite E in H.
Qed.

Lemma demo_vm_ok : vm_ok demo_layout demo_vm.
Proof.
  pose proof demo_node as Hnode.
  assert (Hfree : forall t, 1342177280 <= t -> Pmm.is_free demo_pages t = false).
  { intros t Ht. unfold Pmm.is_free, Numa.page_free.
    destruct (Z.eqb_spec (Numa.numa_node_of_phys (Pmm.numa demo_pages) t) Numa.NO_NODE) as [|E]; [done|].
    specialize (Hnode t E). lia. }
  split; [apply demo_pages_ok|]. split; [intros p Hp; specialize (Hnode p Hp); lia|].
  split; [by rewrite demo_load|]. split.
  { intros i Hi. rewrite demo_load. cbn [g_l0_table demo_layout]. unfold slot.
    rewrite !(proj2 (Z.eqb_neq _ _)) by lia. done. }
  split; [|split].
  - intros n t. rewrite demo_tree. cbn [phys demo_vm].
    destruct n as [| |i|i k]; [| |destruct (i =? 1)|]; try done; intros [= <-];
      (split; [done|apply Hfree; lia]).
  - intros n m t. rewrite !demo_tree.
    destruct n as [| |i|i k], m as [| |j|j l]; try done; try (destruct (Z.eqb_spec i 1)); try (destruct (Z.eqb_spec j 1));
      intros ? ?; try done; congruence.
  - intros i t k. rewrite demo_tree. destruct (i =? 1); [|done]. intros [= <-] Hk. rewrite demo_load. unfold slot.
    rewrite (proj2 (Z.eqb_neq _ 1342177280)), (proj2 (Z.eqb_neq _ 1342181384)) by lia.
    by destruct (Z.eqb_spec (1342185472 + 8 * k) 1342185472).
Qed.

(** C3: mapping a page is exact.  In any well-formed state, mapping an aligned page below
    2^39 succeeds unless the allocator has no page for a table; the address then translates
    to the frame, for a mapping that is not executable with the flags requested (the device
    flag also inside the UART window), every other page translates as before, also those of a 2 MiB
    block that had to be split, and the tables stay well formed. *)
Theorem vmm_map_page_exact (lay : layout) (s : vm) (va pa flags : Z) :
  vm_ok lay s -> 0 <= va < 549755813888 -> va mod PAGE_SIZE = 0 ->
  0 <= pa < 281474976710656 -> pa mod PAGE_SIZE = 0 ->
  Z.testbit flags 0 = true ->
  match vmm_map_page lay s va pa flags with
  | None => out_of_tables s
  | Some (s', st) =>
      st = XAIOS_OK /\ vm_ok lay s' /\
      (exists f, vmm_translate lay s' va = Some (pa, f) /\ (Z.testbit flags 2 = false -> flags_match s va flags f)) /\
      forall va', 0 <= va' < 281474976710656 -> va' / PAGE_SIZE <> va / PAGE_SIZE ->
        vmm_translate lay s' va' = vmm_translate lay s va'
  end.
Proof.
  intros Hok Hva Hvm Hpa Hpm H0. pose proof (map_page_spec lay s va pa flags Hok Hva Hvm Hpa Hpm H0) as H.
  destruct (vmm_map_page lay s va pa flags) as [[s' st]|]; [|done].
  destruct H as (-> & Hok' & _ & Hf & Ho). split; [done|]. split; [done|]. split.
  - by rewrite translate_walk by done.
  - intros va' Hva' Hne. rewrite !translate_walk by done. by apply Ho.
Qed.

Lemma vmm_map_page_exact_witness :
  exists s', vmm_map_page demo_layout demo_vm 1073754112 4096 19 = Some (s', XAIOS_OK) /\
    vmm_translate demo_layout s' 1073762304 = vmm_translate demo_layout demo_vm 1073762304.
Proof.
  pose proof (vmm_map_page_exact demo_layout demo_vm 1073754112 4096 19 demo_vm_ok ltac:(lia) eq_refl
    ltac:(lia) eq_refl eq_refl) as H.
  destruct (vmm_map_page demo_layout demo_vm 1073754112 4096 19) as [[s' st]|].
  - destruct H as (-> & _ & _ & H). exists s'. split; [reflexivity|]. apply H; [lia|discriminate].
  - exfalso. revert H. unfold out_of_tables. vm_compute. intros [H|H]; discriminate.
Defined.

(** C37: unmapping a page removes exactly its translation. *)
Theorem vmm_unmap_page_exact (lay : layout) (s : vm) (va : Z) :
  vm_ok lay s -> 0 <= va < 549755813888 -> va mod PAGE_SIZE = 0 ->
  match vmm_unmap_page lay s va with
  | None => out_of_tables s
  | Some (s', st) =>
      st = XAIOS_OK /\ vm_ok lay s' /\ vmm_translate lay s' va = None /\
      forall va', 0 <= va' < 281474976710656 -> va' / PAGE_SIZE <> va / PAGE_SIZE ->
        vmm_translate lay s' va' = vmm_translate lay s va'
  end.
Proof.
  intros Hok Hva Hvm. pose proof (unmap_page_spec lay s va Hok Hva Hvm) as H.
  destruct (vmm_unmap_page lay s va) as [[s' st]|]; [|done].
  destruct H as (-> & Hok' & _ & Hw & Ho). split; [done|]. split; [done|].
  split; [by rewrite translate_walk|]. intros va' Hva' Hne. rewrite !translate_walk by done. by apply Ho.
Qed.

Lemma vmm_unmap_page_exact_witness :
  exists s', vmm_unmap_page demo_layout demo_vm 1073754112 = Some (s', XAIOS_OK) /\
    vmm_translate demo_layout s' 1073754112 = None.
Proof.
  pose proof (vmm_unmap_page_exact demo_layout demo_vm 1073754112 demo_vm_ok ltac:(lia) eq_refl) as H.
  destruct (vmm_unmap_page demo_layout demo_vm 1073754112) as [[s' st]|].
  - destruct H as (-> & _ & H & _). exists s'. split; [reflexivity|exact H].
  - exfalso. revert H. unfold out_of_tables. vm_compute. intros [H|H]; discriminate.
Defined.

(** The pages the validation loop visits. *)
Lemma validate_pages_spec lay fuel s page stop req :
  page mod PAGE_SIZE = 0 -> 0 <= page -> stop < 1342181376 -> stop mod PAGE_SIZE = 0 ->
  Z.max 0 ((stop - page) / PAGE_SIZE) < Z.of_nat fuel ->
  exists st, validate_pages lay fuel s page stop req = Some st /\
    (st = XAIOS_OK <-> forall q, q mod PAGE_SIZE = 0 -> page <= q < stop ->
       exists pa f, vmm_translate lay s q = Some (pa, f) /\ Z.testbit f 4 = true /\ Z.land f req = req).
Proof.
  unfold PAGE_SIZE. revert page. induction fuel as [|fuel IH]; intros page Hm Hp Hs Hsm Hf; [lia|].
  cbn [validate_pages]. destruct (Z.ltb_spec page stop) as [Hlt|Hge].
  2:{ exists XAIOS_OK. split; [done|]. split; [intros _ q Hq Hr; lia|done]. }
  destruct (vmm_translate lay s page) as [[pa f]|] eqn:Et.
  2:{ exists XAIOS_ERR_INVALID. split; [done|]. split; [done|]. intros H.
      destruct (H page) as (? & ? & ? & _); [done|lia|congruence]. }
  change XAIOS_VMM_USER with (2 ^ 4). rewrite has_bit by lia.
  destruct (Z.testbit f 4) eqn:Eu, (Z.eqb_spec (Z.land f req) req) as [Er|Er]; cbn [negb orb].
  2-4: exists XAIOS_ERR_INVALID; split; [done|]; split; [done|]; intros H;
    destruct (H page) as (? & ? & ? & ? & ?); [done|lia|congruence].
  change PAGE_SIZE with 4096. rewrite u64_small by lia.
  destruct (IH (page + 4096)) as (st & -> & Hst); [dlia|lia|done|done|dlia|].
  exists st. split; [done|]. rewrite Hst. split.
  - intros H q Hq Hr. destruct (decide (q = page)) as [->|]; [by exists pa, f|]. apply H; [done|dlia].
  - intros H q Hq Hr. apply H; [done|lia].
Qed.

(** C38: validation of user buffers is sound and complete.  The check always terminates, and
    accepts exactly the non-empty buffers that lie inside the user window without
    wrapping around and whose every page is mapped, accessible to user code and carries
    all required flags. *)
Theorem validate_user_buffer_exact (lay : layout) (s : vm) (va size required_flags : Z) :
  0 <= va < 18446744073709551616 -> 0 <= size < 18446744073709551616 ->
  exists st, vmm_validate_user_buffer lay s va size required_flags = Some st /\
    (st = XAIOS_OK <->
       0 < size /\ XAIOS_USER_BASE <= va /\ va + size <= XAIOS_USER_LIMIT /\
       forall q, q mod PAGE_SIZE = 0 -> va - PAGE_SIZE < q < va + size ->
         exists pa f, vmm_translate lay s q = Some (pa, f) /\ Z.testbit f 4 = true /\
           Z.land f required_flags = required_flags).
Proof.
  intros Hva Hsz. unfold vmm_validate_user_buffer, XAIOS_USER_BASE, XAIOS_USER_LIMIT.
  assert (Hwrap : u64 (va + size) = va + size \/ u64 (va + size) = va + size - 18446744073709551616)
    by (unfold u64; dlia).
  pose proof (u64_range (va + size)) as Hur. destruct (_ || _) eqn:Ebad.
  { exists XAIOS_ERR_INVALID. split; [done|]. split; [done|]. intros (H1 & H2 & H3 & _). exfalso.
    rewrite !orb_true_iff, Z.eqb_eq, !Z.ltb_lt in Ebad. lia. }
  apply orb_false_iff in Ebad as [Ebad E4]. apply orb_false_iff in Ebad as [Ebad E3].
  apply orb_false_iff in Ebad as [E1 E2]. apply Z.eqb_neq in E1. apply Z.ltb_ge in E2, E3, E4.
  assert (Hu : u64 (va + size) = va + size) by lia. clear Hwrap Hur. rewrite Hu in *.
  assert (Hdown : align_down va PAGE_SIZE = 4096 * (va / 4096)).
  { unfold align_down. rewrite u64_small by lia. apply (land_not_mask va 12); [lia|].
    change (2 ^ 64) with 18446744073709551616. lia. }
  destruct (align_up_bounds (va + size) 12 ltac:(lia) ltac:(lia) ltac:(lia)) as [Hup Hupm].
  change (2 ^ 12) with PAGE_SIZE in Hup, Hupm. rewrite Hdown. set (stop := align_up (va + size) PAGE_SIZE) in *.
  unfold PAGE_SIZE in *.
  destruct (validate_pages_spec lay (Z.to_nat ((stop - 4096 * (va / 4096)) / 4096 + 1)) s (4096 * (va / 4096)) stop
    required_flags) as (st & -> & Hst); unfold PAGE_SIZE; [dlia|dlia|lia|done|dlia|].
  exists st. split; [done|]. rewrite Hst. unfold PAGE_SIZE. split.
  - intros H. split; [lia|]. split; [lia|]. split; [lia|]. intros q Hq Hr. apply H; [done|dlia].
  - intros (_ & _ & _ & H) q Hq Hr. apply H; [done|dlia].
Qed.

Lemma validate_user_buffer_exact_witness :
  exists st, vmm_validate_user_buffer demo_layout demo_vm 1090519040 18446744073709551615 0 = Some st /\
    st = XAIOS_ERR_INVALID.
Proof.
  destruct (validate_user_buffer_exact demo_layout demo_vm 1090519040 18446744073709551615 0) as (st & H & _);
    [lia|lia|]. exists st. split; [exact H|]. vm_compute in H. congruence.
Defined.

(** Every mapping requested executable loses all its attributes, because the unparenthesised
    complement masks clear every bit below 53: user code pages are not accessible to user
    code, and are writable and executable for the kernel. *)
Lemma executable_mapping_loses_attrs flags : Z.testbit flags 2 = true -> attrs_from_flags flags = 0.
Proof.
  intros Hx. unfold attrs_from_flags. change XAIOS_VMM_EXECUTABLE with (2 ^ 2). rewrite has_bit, Hx by lia.
  by destruct (has flags XAIOS_VMM_DEVICE), (has flags XAIOS_VMM_USER), (has flags XAIOS_VMM_WRITABLE).
Qed.

(** User stack pages are always refused: their L2 index is not the one index accepted. *)
Lemma map_user_page_refuses_stack lay s va pa flags tables n :
  l3_slot va = 1 -> vmm_map_user_page lay s va pa flags tables n = Some (s, XAIOS_ERR_INVALID).
Proof.
  intros Hs. unfold l3_slot, XAIOS_USER_STACK_TOP, PAGE_SIZE in Hs. unfold vmm_map_user_page.
  destruct (_ || _ || _); [done|]. destruct (_ || _) eqn:Er; [done|].
  unfold XAIOS_USER_BASE, XAIOS_USER_LIMIT in Er. breflect.
  assert (Hl2 : l2_index va <> USER_L2_INDEX).
  { unfold l2_index, USER_L2_INDEX. rewrite index_spec by lia. change (2 ^ 21) with 2097152.
    destruct (Z.leb_spec (1325400064 - 3 * 4096) va); [|done]. dlia. }
  by rewrite (proj2 (Z.eqb_neq _ _) Hl2).
Qed.

End Mmu.
