(* ===== verification/Kheap.v ===== *)
(** * Kernel heap (kernel/mm/kheap.c)

    A bump allocator with a best-fit free list over pages mapped on demand.  The memory of
    the heap is [words], the 64-bit words by address; block headers are two words of it, so
    that a client that writes outside of its block can destroy one.  The link through which
    a block is removed is a [link], the C pointer [prev].  The result [None] is a call that
    does not return: a failed assertion in the page tables, or a traversal of a cyclic free
    list.  The fuel of [search] is the number of words that have been written: a block with
    a successor has a written header, so a longer traversal has met a block twice
    ([search_total] excludes it for well-formed heaps). *)

From S2P Require Import Prelude Numa Pmm Mmu.

Module Kheap.

Definition PAGE_SIZE : Z := 4096.
Definition KHEAP_BASE : Z := 1241513984.
Definition KHEAP_SIZE : Z := 16777216.
Definition KHEAP_LIMIT : Z := KHEAP_BASE + KHEAP_SIZE.
Definition KHEAP_HEADER_SIZE : Z := 16.

Record kheap_header := mk_header { size : Z; next_free : Z }.

Record kheap := mk_kheap {
  space : Mmu.vm;
  g_heap_next : Z;
  g_heap_mapped_end : Z;
  g_heap_pages : Z;
  g_heap_bytes_allocated : Z;
  g_free_list : Z;
  words : gmap Z Z
}.

Definition word (h : kheap) (a : Z) : Z := default 0 (words h !! a).

Definition set_word (h : kheap) (a v : Z) : kheap :=
  mk_kheap (space h) (g_heap_next h) (g_heap_mapped_end h) (g_heap_pages h) (g_heap_bytes_allocated h)
    (g_free_list h) (<[a := v]> (words h)).

(** A byte at an address is part of the word it lies in, lowest byte first. *)
Definition byte_at (h : kheap) (a : Z) : Z := Z.shiftr (word h (a - a mod 8)) (8 * (a mod 8)) mod 256.

Definition write_byte (h : kheap) (a v : Z) : kheap :=
  let k := 2 ^ (8 * (a mod 8)) in
  let w := word h (a - a mod 8) in
  set_word h (a - a mod 8) (w - byte_at h a * k + v * k).

Definition header (h : kheap) (a : Z) : kheap_header := mk_header (word h a) (word h (a + 8)).

Definition kheap_init (h : kheap) : kheap :=
  mk_kheap (space h) KHEAP_BASE KHEAP_BASE 0 0 0 (words h).

Section Heap.
Context (lay : Mmu.layout).

(** The loop of [ensure_mapped]: the address space, the pages mapped so far and the
    status; [g_heap_mapped_end] is written by the caller on success only. *)
Fixpoint map_heap (fuel : nat) (s : Mmu.vm) (mapped stop pages : Z)
    : option (Mmu.vm * Z * Z * xaios_status) :=
  if mapped <? stop then
    match fuel with
    | O => None
    | S fuel' =>
        match Pmm.pmm_alloc_page (Mmu.phys s) with
        | (p1, None) => Some (Mmu.with_phys s p1, mapped, pages, XAIOS_ERR_NO_MEMORY)
        | (p1, Some page) =>
            '(s2, st) ← Mmu.vmm_map_page lay (Mmu.with_phys s p1) mapped page
                          (Z.lor Mmu.XAIOS_VMM_PRESENT Mmu.XAIOS_VMM_WRITABLE);
            if is_ok st then map_heap fuel' s2 (u64 (mapped + PAGE_SIZE)) stop (u64 (pages + 1))
            else Some (Mmu.free_page s2 page, mapped, pages, XAIOS_ERR_INVALID)
        end
    end
  else Some (s, mapped, pages, XAIOS_OK).

Definition ensure_mapped (h : kheap) (stop : Z) : option (kheap * xaios_status) :=
  let start := g_heap_mapped_end h in
  '(s1, mapped, pages, st) ← map_heap (Z.to_nat ((stop - start) / PAGE_SIZE + 1)) (space h) start stop (g_heap_pages h);
  Some (mk_kheap s1 (g_heap_next h) (if is_ok st then mapped else start) pages
          (g_heap_bytes_allocated h) (g_free_list h) (words h), st).

(** [&g_free_list] or [&hdr->next_free]. *)
Inductive link := Head | Next (hdr : Z).

(** The search over the free list: best block and the link to it. *)
Fixpoint search (fuel : nat) (h : kheap) (cur : Z) (prev : link) (best : option (Z * link)) (sz align : Z)
    : option (option (Z * link)) :=
  if cur =? 0 then Some best else
  match fuel with
  | O => None
  | S fuel' =>
      let next := next_free (header h cur) in
      if sz <=? size (header h cur) then
        let data_addr := u64 (cur + KHEAP_HEADER_SIZE) in
        if negb (Z.land data_addr (align - 1) =? 0) then search fuel' h next prev best sz align else
        let best' :=
          match best with
          | None => Some (cur, prev)
          | Some (b, _) => if size (header h cur) <? size (header h b) then Some (cur, prev) else best
          end in
        search fuel' h next (Next cur) best' sz align
      else search fuel' h next (Next cur) best sz align
  end.

Definition set_head (h : kheap) (v : Z) : kheap :=
  mk_kheap (space h) (g_heap_next h) (g_heap_mapped_end h) (g_heap_pages h) (g_heap_bytes_allocated h) v (words h).

(** [*l = v] *)
Definition set_link (h : kheap) (l : link) (v : Z) : kheap :=
  match l with Head => set_head h v | Next a => set_word h (a + 8) v end.

Definition add_bytes (h : kheap) (n : Z) : kheap :=
  mk_kheap (space h) (g_heap_next h) (g_heap_mapped_end h) (g_heap_pages h)
    (u64 (g_heap_bytes_allocated h + n)) (g_free_list h) (words h).

(** Take a block off the free list. *)
Definition reuse (h : kheap) (best : Z) (l : link) (sz : Z) : kheap :=
  let h1 := set_link h l (next_free (header h best)) in
  add_bytes (set_word h1 (best + 8) 0) sz.

(** Carve a new block. *)
Definition bump (h : kheap) (sz align : Z) : option (kheap * option Z) :=
  let data_start := align_up (u64 (g_heap_next h + KHEAP_HEADER_SIZE)) align in
  let header_addr := u64 (data_start - KHEAP_HEADER_SIZE) in
  let stop := u64 (data_start + sz) in
  if (stop <? data_start) || (KHEAP_LIMIT <? stop) then Some (h, None) else
  '(h1, st) ← ensure_mapped h (align_up stop PAGE_SIZE);
  if negb (is_ok st) then Some (h1, None) else
  let h2 := set_word (set_word h1 header_addr sz) (header_addr + 8) 0 in
  Some (mk_kheap (space h2) stop (g_heap_mapped_end h2) (g_heap_pages h2)
          (u64 (g_heap_bytes_allocated h2 + sz)) (g_free_list h2) (words h2), Numa.pointer data_start).

Definition kheap_alloc (h : kheap) (sz align0 : Z) : option (kheap * option Z) :=
  if (sz =? 0) || (align0 =? 0) || negb (is_pow2 align0) then Some (h, None) else
  let align := if align0 <? KHEAP_HEADER_SIZE then KHEAP_HEADER_SIZE else align0 in
  best ← search (S (stdpp.base.size (words h))) h (g_free_list h) Head None sz align;
  match best with
  | Some (b, l) => Some (reuse h b l sz, Some (u64 (b + KHEAP_HEADER_SIZE)))
  | None => bump h sz align
  end.

Definition kheap_free (h : kheap) (ptr : Z) : kheap :=
  if ptr =? 0 then h else
  let hdr := u64 (ptr - KHEAP_HEADER_SIZE) in
  let h1 := set_head (set_word h (hdr + 8) (g_free_list h)) hdr in
  let sz := size (header h1 hdr) in
  if sz <=? g_heap_bytes_allocated h1
  then mk_kheap (space h1) (g_heap_next h1) (g_heap_mapped_end h1) (g_heap_pages h1)
         (g_heap_bytes_allocated h1 - sz) (g_free_list h1) (words h1)
  else h1.

Definition kheap_calloc (h : kheap) (sz align : Z) : option (kheap * option Z) :=
  '(h1, r) ← kheap_alloc h sz align;
  Some (match r with
        | None => h1
        | Some d => for_range (Z.to_nat sz) 0 (fun i h => write_byte h (d + i) 0) h1
        end, r).

End Heap.

(** ** Free list *)

(** The list [l] leads from [a] to [b] through the links [next]. *)
Fixpoint seg (next : Z -> Z) (a : Z) (l : list Z) (b : Z) : Prop :=
  match l with
  | [] => a = b
  | x :: l' => a = x /\ x <> 0 /\ seg next (next x) l' b
  end.

Lemma seg_app next a l1 l2 b :
  seg next a (l1 ++ l2) b <-> exists m, seg next a l1 m /\ seg next m l2 b.
Proof.
  revert a. induction l1 as [|x l1 IH]; intros a; simpl.
  - split; [intros H; by exists a|]. intros (m & -> & H). done.
  - rewrite IH. naive_solver.
Qed.

Lemma seg_ext next next' a l b :
  (forall x, x ∈ l -> next' x = next x) -> seg next a l b -> seg next' a l b.
Proof.
  revert a. induction l as [|x l IH]; intros a Hx; simpl; [done|].
  intros (-> & Hn & H). split; [done|]. split; [done|]. rewrite Hx by set_solver.
  apply IH; [|done]. intros y Hy. apply Hx. set_solver.
Qed.

Definition next_of (h : kheap) (a : Z) : Z := next_free (header h a).
Definition size_of (h : kheap) (a : Z) : Z := size (header h a).

Definition free_chain (h : kheap) (l : list Z) : Prop := seg (next_of h) (g_free_list h) l 0.

(** The link behind a prefix of the free list. *)
Definition link_of (pre : list Z) : link :=
  match last pre with None => Head | Some x => Next x end.

Lemma word_set h a v b : word (set_word h a v) b = if decide (b = a) then v else word h b.
Proof.
  unfold word, set_word. simpl. destruct (decide (b = a)) as [->|].
  - by rewrite lookup_insert_eq.
  - by rewrite lookup_insert_ne.
Qed.

Lemma word_set_ne h a v b : b <> a -> word (set_word h a v) b = word h b.
Proof. intros Hne. by rewrite word_set, decide_False. Qed.

(** Headers lie on multiples of 16. *)
Definition aligned (a : Z) : Prop := a mod 16 = 0.

(** A link of an aligned block is no size of one, and a link of no other one. *)
Lemma set_next_other h a v b : aligned a -> aligned b ->
  size_of (set_word h (a + 8) v) b = size_of h b /\ (b <> a -> next_of (set_word h (a + 8) v) b = next_of h b).
Proof.
  intros Ha Hb. unfold size_of, next_of, header, aligned in *. simpl. split; [|intros]; rewrite word_set_ne; (done || lia || dlia).
Qed.

(** Best fit: the block found is on the list, large enough and aligned, and the link found
    is the one behind a prefix of the list before it. *)
Definition found (h : kheap) (l : list Z) (sz align : Z) (best : option (Z * link)) : Prop :=
  match best with
  | None => True
  | Some (b, lnk) =>
      sz <= size_of h b /\ Z.land (u64 (b + KHEAP_HEADER_SIZE)) (align - 1) = 0 /\
      exists pre skipped suf, l = pre ++ skipped ++ b :: suf /\ lnk = link_of pre
  end.

Lemma search_spec fuel h l pre skipped suf cur best sz align :
  l = pre ++ skipped ++ suf -> seg (next_of h) cur suf 0 -> found h l sz align best ->
  (length suf < fuel)%nat ->
  exists best', search fuel h cur (link_of pre) best sz align = Some best' /\ found h l sz align best'.
Proof.
  revert pre skipped suf cur best. induction fuel as [|fuel IH]; intros pre skipped suf cur best Hl Hs Hb Hf; [lia|].
  destruct suf as [|x suf]; simpl in Hs.
  { subst cur. exists best. done. }
  destruct Hs as (-> & Hx & Hs). cbn [search]. rewrite (proj2 (Z.eqb_neq x 0) Hx).
  fold (next_of h x). fold (size_of h x). simpl in Hf.
  assert (Hadv : forall best', found h l sz align best' ->
    exists b, search fuel h (next_of h x) (Next x) best' sz align = Some b /\ found h l sz align b).
  { intros best' Hb'. replace (Next x) with (link_of (pre ++ skipped ++ [x]))
      by (unfold link_of; by rewrite app_assoc, last_snoc).
    apply (IH _ [] suf); try done; [|lia]. by rewrite Hl, <- !app_assoc. }
  destruct (Z.leb_spec sz (size_of h x)) as [Hsz|Hsz]; [|by apply Hadv].
  destruct (Z.eqb_spec (Z.land (u64 (x + KHEAP_HEADER_SIZE)) (align - 1)) 0) as [Ha|Ha]; cbn [negb].
  - apply Hadv. assert (Hnew : found h l sz align (Some (x, link_of pre))).
    { split; [done|]. split; [done|]. by exists pre, skipped, suf. }
    destruct best as [[b lb]|]; [|done]. by case_if.
  - apply (IH pre (skipped ++ [x]) suf); try done; [|lia]. by rewrite Hl, <- app_assoc.
Qed.

(** Removing through that link leaves a well-formed list, without the skipped blocks. *)
Lemma reuse_chain h pre skipped b suf sz :
  Forall aligned (pre ++ skipped ++ b :: suf) ->
  NoDup (pre ++ skipped ++ b :: suf) -> free_chain h (pre ++ skipped ++ b :: suf) ->
  free_chain (reuse h b (link_of pre) sz) (pre ++ suf) /\
  (forall a, aligned a -> size_of (reuse h b (link_of pre) sz) a = size_of h a).
Proof.
  intros Hal Hnd Hc. unfold reuse. cbv zeta. fold (next_of h b). set (h1 := set_link h (link_of pre) (next_of h b)).
  assert (Halb : aligned b) by (rewrite Forall_forall in Hal; apply Hal; set_solver).
  assert (Hall : forall y, link_of pre = Next y -> aligned y).
  { intros y Hy. unfold link_of in Hy. destruct (last pre) as [z|] eqn:E; [|done]. injection Hy as ->.
    apply last_Some_elem_of in E. rewrite Forall_forall in Hal. apply Hal. set_solver. }
  set (h2 := set_word h1 (b + 8) 0).
  assert (Hsz2 : forall a, aligned a -> size_of h2 a = size_of h a).
  { intros a Ha. unfold h2. rewrite (proj1 (set_next_other h1 b 0 a Halb Ha)). unfold h1, set_link.
    destruct (link_of pre) as [|y] eqn:E; [done|]. apply set_next_other; [by apply Hall|done]. }
  split; [|exact Hsz2].
  unfold free_chain in *. change (next_of (add_bytes h2 sz)) with (next_of h2).
  change (g_free_list (add_bytes h2 sz)) with (g_free_list h1).
  apply seg_app in Hc as (m & Hpre & Hc). apply seg_app in Hc as (m' & _ & Hc).
  simpl in Hc. destruct Hc as (-> & Hb0 & Hsuf).
  assert (Hn2 : forall x, aligned x -> x <> b -> (forall y, link_of pre = Next y -> x <> y) -> next_of h2 x = next_of h x).
  { intros x Hax Hx Hy. unfold h2. rewrite (proj2 (set_next_other h1 b 0 x Halb Hax)) by done. unfold h1, set_link.
    destruct (link_of pre) as [|y]; [done|]. apply set_next_other; [by apply Hall|done|by apply Hy]. }
  assert (Hin : forall x, x ∈ pre ++ suf -> aligned x) by (rewrite Forall_forall in Hal; intros x Hx; apply Hal; set_solver).
  assert (Hsuf' : seg (next_of h2) (next_of h b) suf 0).
  { eapply seg_ext; [|exact Hsuf]. intros x Hx. apply Hn2; [apply Hin; set_solver| |].
    - intros ->. rewrite !NoDup_app, NoDup_cons in Hnd. naive_solver.
    - intros y Hy ->. unfold link_of in Hy. destruct (last pre) as [z|] eqn:E; [|done]. injection Hy as ->.
      apply last_Some_elem_of in E. rewrite NoDup_app in Hnd. destruct Hnd as (_ & Hd & _).
      apply (Hd y E). set_solver. }
  destruct pre as [|z pre _] using rev_ind; [exact Hsuf'|].
  assert (Elnk : link_of (pre ++ [z]) = Next z) by (unfold link_of; by rewrite last_snoc).
  apply seg_app. exists (next_of h b). split; [|exact Hsuf'].
  apply seg_app in Hpre as (w & Hp1 & Hp2). simpl in Hp2. destruct Hp2 as (-> & Hz & _).
  rewrite <- app_assoc in Hnd. pose proof Hnd as (_ & Hd1 & Hd2)%NoDup_app. simpl in Hd2. apply NoDup_cons in Hd2 as [Hd2 _].
  apply seg_app. exists z. split.
  - unfold h1. rewrite Elnk. eapply seg_ext; [|exact Hp1]. intros x Hx. apply Hn2; [apply Hin; set_solver| |].
    + intros ->. apply (Hd1 b Hx). set_solver.
    + rewrite Elnk. intros y [= <-] ->. apply (Hd1 z Hx). set_solver.
  - simpl. split; [done|]. split; [done|]. unfold h2.
    rewrite (proj2 (set_next_other h1 b 0 z Halb ltac:(apply Hin; set_solver))) by set_solver.
    unfold h1. rewrite Elnk. unfold next_of at 1, header. simpl. by rewrite word_set, decide_True.
Qed.

(** ** The heap's address space *)

Ltac consts := unfold KHEAP_LIMIT, KHEAP_BASE, KHEAP_SIZE, KHEAP_HEADER_SIZE, PAGE_SIZE, Mmu.PAGE_SIZE in *.

Section Invariant.
Context (lay : Mmu.layout).

(** Every page of [[KHEAP_BASE, stop)] is mapped writable. *)
Definition mapped_upto (s : Mmu.vm) (stop : Z) : Prop :=
  forall q, q mod PAGE_SIZE = 0 -> KHEAP_BASE <= q < stop ->
    exists pa f, Mmu.walk lay s q = Some (pa, f) /\ Z.testbit f 1 = true.

(** What the heap may do to the rest of the system. *)
Definition frame (s s' : Mmu.vm) : Prop :=
  Mmu.vm_ok lay s' /\
  (forall p, Mmu.held lay s p -> Mmu.held lay s' p) /\
  (forall n t, Mmu.node_addr lay s n = Some t -> Mmu.node_addr lay s' n = Some t) /\
  (forall va, 0 <= va < 281474976710656 -> ~ KHEAP_BASE <= va < KHEAP_LIMIT -> Mmu.walk lay s' va = Mmu.walk lay s va).

Lemma vm_frame_refl s : Mmu.vm_ok lay s -> frame s s.
Proof. by intros. Qed.

Lemma vm_frame_trans s1 s2 s3 : frame s1 s2 -> frame s2 s3 -> frame s1 s3.
Proof.
  intros (A1 & A2 & A3 & A4) (B1 & B2 & B3 & B4). split; [done|]. split; [auto|]. split; [auto|].
  intros va Hva Hn. rewrite B4, A4 by done. done.
Qed.

Lemma map_heap_spec fuel s m stop pages :
  Mmu.vm_ok lay s -> m mod PAGE_SIZE = 0 -> stop mod PAGE_SIZE = 0 -> KHEAP_BASE <= m <= KHEAP_LIMIT ->
  stop <= KHEAP_LIMIT -> mapped_upto s m -> Z.max 0 ((stop - m) / PAGE_SIZE) <= Z.of_nat fuel ->
  match map_heap lay fuel s m stop pages with
  | None => ~ Mmu.tables_ready lay KHEAP_BASE KHEAP_LIMIT s
  | Some (s', m', pages', st) =>
      frame s s' /\ mapped_upto s' m' /\ m <= m' <= KHEAP_LIMIT /\ m' mod PAGE_SIZE = 0 /\
      (st = XAIOS_OK -> m' = Z.max m stop)
  end.
Proof.
  revert s m pages. induction fuel as [|fuel IH]; intros s m pages Hok Hm Hstop Hr Hlim Hmap Hf; cbn [map_heap].
  { destruct (Z.ltb_spec m stop); [exfalso; consts; dlia|]. split; [by apply vm_frame_refl|]. split; [done|].
    split; [lia|]. split; [done|]. lia. }
  destruct (Z.ltb_spec m stop) as [Hlt|].
  2:{ split; [by apply vm_frame_refl|]. split; [done|]. split; [lia|]. split; [done|]. lia. }
  pose proof (Mmu.alloc_page_vm lay s Hok) as Ha.
  destruct (Pmm.pmm_alloc_page (Mmu.phys s)) as [p1 [q|]].
  2:{ rewrite Ha. split; [by apply vm_frame_refl|]. split; [done|]. split; [lia|]. split; [done|]. done. }
  destruct Ha as ((Hok1 & Hn1 & Hw1) & Hq & _ & Hheld1). set (s1 := Mmu.with_phys s p1) in *.
  pose proof Hq as ([Hq1 Hq2] & _).
  assert (Hfr1 : frame s s1).
  { split; [done|]. split; [done|]. split; [intros n t; by rewrite Hn1|]. intros va _ _. apply Hw1. }
  assert (Hva : 0 <= m < 549755813888) by (consts; lia).
  pose proof (Mmu.map_page_spec lay s1 m q 3 Hok1 Hva Hm ltac:(lia) Hq2 eq_refl) as Hmp.
  change (Z.lor Mmu.XAIOS_VMM_PRESENT Mmu.XAIOS_VMM_WRITABLE) with 3.
  pose proof (Mmu.map_page_ready lay KHEAP_BASE KHEAP_LIMIT s1 m q 3 Hok1) as Hrd.
  destruct (Mmu.vmm_map_page lay s1 m q 3) as [[s2 st2]|] eqn:Emap; cbn [mbind option_bind].
  2:{ intros Hready. destruct Hrd as [[x Hx] _]; [|lia|done|done].
      eapply Mmu.ready_mono; [|exact Hready]. intros n t. by rewrite Hn1. }
  destruct Hmp as (-> & Hok2 & _ & Hf2 & Ho2). cbn [is_ok].
  destruct (Mmu.map_page_frame lay s1 m q 3 s2 XAIOS_OK Hok1 Hva Hm ltac:(lia) Hq2 eq_refl Emap) as [Hh2 Hn2].
  clear Emap Hrd.
  assert (Hfr2 : frame s1 s2).
  { split; [done|]. split; [done|]. split; [done|]. intros va Hva' Hout. apply Ho2; [done|]. consts. dlia. }
  assert (Hmap2 : mapped_upto s2 (m + PAGE_SIZE)).
  { intros x Hx Hxr. destruct (decide (x = m)) as [->|Hne].
    - destruct Hf2 as (f & Hwf & Hfm). exists q, f. split; [done|]. by apply Hfm.
    - rewrite Ho2, Hw1; [apply Hmap; [done|]|consts; lia|]; consts; dlia. }
  rewrite u64_small by (consts; lia).
  pose proof (IH s2 (m + PAGE_SIZE) (u64 (pages + 1)) Hok2 ltac:(consts; dlia) Hstop ltac:(consts; dlia) Hlim Hmap2
    ltac:(consts; dlia)) as Hind.
  destruct (map_heap lay fuel s2 (m + PAGE_SIZE) stop (u64 (pages + 1))) as [[[[s3 m3] pages3] st3]|].
  - destruct Hind as (I1 & I2 & I3 & I4 & I5). split; [by eapply vm_frame_trans; [|eapply vm_frame_trans]|].
    split; [done|]. split; [consts; lia|]. split; [done|]. intros Hst. rewrite (I5 Hst). consts. dlia.
  - intros Hready. apply Hind. eapply Mmu.ready_mono; [|exact Hready]. intros n t Hnt. apply Hn2. by rewrite Hn1.
Qed.

(** ** The invariant *)

(** [l] is the free list and [B] the blocks: header address and size. *)
Definition heap_ok (h : kheap) (l : list Z) (B : gmap Z Z) : Prop :=
  Mmu.vm_ok lay (space h) /\ free_chain h l /\ NoDup l /\
  (forall a, a ∈ l -> is_Some (B !! a)) /\
  (forall a n, B !! a = Some n ->
     KHEAP_BASE <= a /\ aligned a /\ 0 < n /\ a + 16 + n <= g_heap_next h /\ size_of h a = n /\ is_Some (words h !! (a + 8))) /\
  (forall a b n m, B !! a = Some n -> B !! b = Some m -> a < b -> a + 16 + n <= b) /\
  KHEAP_BASE <= g_heap_next h <= g_heap_mapped_end h /\ g_heap_mapped_end h <= KHEAP_LIMIT /\
  g_heap_mapped_end h mod PAGE_SIZE = 0 /\ mapped_upto (space h) (g_heap_mapped_end h).

Lemma ensure_mapped_spec h l B stop :
  heap_ok h l B -> stop mod PAGE_SIZE = 0 -> stop <= KHEAP_LIMIT ->
  match ensure_mapped lay h stop with
  | None => ~ Mmu.tables_ready lay KHEAP_BASE KHEAP_LIMIT (space h)
  | Some (h', st) =>
      heap_ok h' l B /\ frame (space h) (space h') /\ words h' = words h /\
      g_heap_next h' = g_heap_next h /\ (st = XAIOS_OK -> stop <= g_heap_mapped_end h')
  end.
Proof.
  intros (H1 & H2 & H3 & H4 & H5 & H6 & H7 & H8 & H9 & H10) Hs Hlim. unfold ensure_mapped.
  pose proof (map_heap_spec (Z.to_nat ((stop - g_heap_mapped_end h) / PAGE_SIZE + 1)) (space h) (g_heap_mapped_end h)
    stop (g_heap_pages h) H1 H9 Hs ltac:(lia) Hlim H10 ltac:(consts; dlia)) as Hm.
  destruct (map_heap _ _ _ _ _ _) as [[[[s1 m1] pages1] st]|]; cbn [mbind option_bind]; [|done].
  destruct Hm as (F & M1 & M2 & M3 & M4). split; [|split; [exact F|]].
  - pose proof F as (F1 & _). split; [done|]. split; [exact H2|]. split; [done|]. split; [done|]. split; [done|].
    split; [done|]. simpl. destruct (is_ok st) eqn:Est.
    + split; [lia|]. split; [lia|]. split; [done|]. done.
    + split; [lia|]. split; [lia|]. split; [done|]. intros q Hq Hr. apply M1; [done|lia].
  - split; [done|]. split; [done|]. intros ->. simpl. rewrite M4 by done. lia.
Qed.

(** ** Allocation *)

Lemma pow2_align a :
  0 < a < 18446744073709551616 -> is_pow2 a = true ->
  let align := if a <? KHEAP_HEADER_SIZE then KHEAP_HEADER_SIZE else a in
  exists k, 4 <= k < 64 /\ align = 2 ^ k /\ (a | align).
Proof.
  intros Ha Hp align. apply is_pow2_sound in Hp; [|lia]. pose proof (Z.log2_nonneg a).
  assert (Hlt : Z.log2 a < 64) by (apply Z.log2_lt_pow2; lia).
  unfold align, KHEAP_HEADER_SIZE. destruct (Z.ltb_spec a 16).
  - exists 4. split; [lia|]. split; [done|]. rewrite Hp. change 16 with (2 ^ 4).
    assert (Z.log2 a < 4) by (apply Z.log2_lt_pow2; lia).
    exists (2 ^ (4 - Z.log2 a)). rewrite <- Z.pow_add_r by lia. f_equal. lia.
  - exists (Z.log2 a). split; [|split; [done|apply Z.divide_refl]]. split; [|done].
    apply Z.log2_le_pow2; lia.
Qed.

(** The headers of the free blocks have been written. *)
Lemma free_list_bound h l B : heap_ok h l B -> (length l < S (stdpp.base.size (words h)))%nat.
Proof.
  intros (_ & _ & Hnd & Hin & Hb & _). rewrite <- size_dom, <- (length_fmap (fun a => a + 8) l).
  rewrite <- (size_list_to_set (C := gset Z) ((fun a => a + 8) <$> l)).
  2:{ apply NoDup_fmap_2; [|done]. intros x y Hxy. lia. }
  apply Nat.lt_succ_r, subseteq_size. intros a Ha%elem_of_list_to_set. apply list_elem_of_fmap in Ha as (b & -> & Hbl).
  destruct (Hin b Hbl) as [n Hn]. apply elem_of_dom. apply (Hb b n Hn).
Qed.

(** The search of a well-formed heap ends. *)
Lemma search_total h l B sz align :
  heap_ok h l B ->
  exists best, search (S (stdpp.base.size (words h))) h (g_free_list h) Head None sz align = Some best /\
    found h l sz align best.
Proof.
  intros Hok. pose proof (free_list_bound h l B Hok). destruct Hok as (_ & Hc & _).
  apply (search_spec _ h l [] [] l); done.
Qed.

(** The sizes in the headers, and that they have been written, are kept. *)
Definition keeps_headers (h h' : kheap) : Prop :=
  (forall a, aligned a -> size_of h' a = size_of h a) /\ (forall a, is_Some (words h !! a) -> is_Some (words h' !! a)).

Lemma set_word_written h a v b : is_Some (words h !! b) -> is_Some (words (set_word h a v) !! b).
Proof. intros Hb. simpl. destruct (decide (b = a)) as [->|]; [by rewrite lookup_insert_eq|by rewrite lookup_insert_ne]. Qed.

(** Same blocks, same bounds: only the free list differs. *)
Lemma heap_ok_relink h h' l l' B :
  heap_ok h l B -> keeps_headers h h' -> space h' = space h -> g_heap_next h' = g_heap_next h ->
  g_heap_mapped_end h' = g_heap_mapped_end h -> free_chain h' l' -> NoDup l' ->
  (forall a, a ∈ l' -> is_Some (B !! a)) -> heap_ok h' l' B.
Proof.
  intros (H1 & H2 & H3 & H4 & H5 & H6 & H7) [K1 K2] E1 E2 E3 Hc Hnd Hin. unfold heap_ok. rewrite E1, E2, E3.
  split; [done|]. split; [done|]. split; [done|]. split; [done|]. split; [|done].
  intros a n Ha. destruct (H5 a n Ha) as (A1 & A2 & A3 & A4 & A5 & A6). split_and!; try done; [|by apply K2].
  by rewrite K1.
Qed.

(** What an allocation promises. *)
Definition alloc_post (h : kheap) (l : list Z) (B : gmap Z Z) (sz align : Z) (r : option (kheap * option Z)) : Prop :=
  match r with
  | None => ~ Mmu.tables_ready lay KHEAP_BASE KHEAP_LIMIT (space h)
  | Some (h', None) => heap_ok h' l B /\ frame (space h) (space h')
  | Some (h', Some d) =>
      exists l' B' n, heap_ok h' l' B' /\ frame (space h) (space h') /\ (forall a, a ∈ l' -> a ∈ l) /\ B ⊆ B' /\
        (align | d) /\ B' !! (d - 16) = Some n /\ sz <= n /\ d - 16 ∉ l' /\ (B !! (d - 16) = None \/ d - 16 ∈ l)
  end.

Lemma block_range h l B a n :
  heap_ok h l B -> B !! a = Some n -> KHEAP_BASE <= a /\ aligned a /\ 0 < n /\ a + 16 + n <= KHEAP_LIMIT.
Proof.
  intros (_ & _ & _ & _ & H5 & _ & H7 & H8 & _) Ha. destruct (H5 a n Ha) as (? & ? & ? & ? & _). split_and!; [done..|]. lia.
Qed.

Lemma reuse_keeps h b lnk sz : aligned b -> (forall a, lnk = Next a -> aligned a) -> keeps_headers h (reuse h b lnk sz).
Proof.
  intros Hb Hl. unfold reuse. cbv zeta. set (h1 := set_link h lnk _). split.
  - intros a Ha. change (size_of (add_bytes ?g sz) a) with (size_of g a). rewrite (proj1 (set_next_other h1 b 0 a Hb Ha)).
    unfold h1, set_link. destruct lnk as [|c]; [done|]. apply set_next_other; [by apply Hl|done].
  - intros a Ha. apply (set_word_written h1 (b + 8) 0). unfold h1, set_link. destruct lnk; [done|]. by apply set_word_written.
Qed.

Lemma chain_aligned h l B : heap_ok h l B -> Forall aligned l.
Proof.
  intros (_ & _ & _ & H4 & H5 & _). apply Forall_forall. intros a Ha. destruct (H4 a Ha) as [n Hn]. by destruct (H5 a n Hn) as (_ & ? & _).
Qed.

Lemma reuse_ok h l B sz k b lnk :
  heap_ok h l B -> 0 <= k < 64 -> found h l sz (2 ^ k) (Some (b, lnk)) ->
  alloc_post h l B sz (2 ^ k) (Some (reuse h b lnk sz, Some (u64 (b + KHEAP_HEADER_SIZE)))).
Proof.
  intros Hok Hk (Hsz & Ha & pre & skipped & suf & -> & ->). pose proof Hok as (Hvm & Hc & Hnd & Hin & Hbl & _).
  pose proof (chain_aligned _ _ _ Hok) as Hal. destruct (Hin b ltac:(set_solver)) as [n Hn]. pose proof (block_range h _ B b n Hok Hn) as Hr.
  destruct (reuse_chain h pre skipped b suf sz Hal Hnd Hc) as [Hc' _].
  assert (Ed : u64 (b + KHEAP_HEADER_SIZE) = b + 16) by (rewrite u64_small; consts; lia).
  rewrite Ed in *. exists (pre ++ suf), B, n. replace (b + 16 - 16) with b by lia. pose proof Hnd as (N1 & N2 & N3)%NoDup_app.
  apply NoDup_app in N3 as (_ & _ & N3). apply NoDup_cons in N3 as [N3 N4]. split_and!.
  - eapply heap_ok_relink; try done; try (by unfold reuse, set_link; destruct (link_of pre)).
    + apply reuse_keeps; [apply Hr|]. intros a Hl. unfold link_of in Hl. destruct (last pre) as [z|] eqn:E; [|done]. injection Hl as ->.
      apply last_Some_elem_of in E. rewrite Forall_forall in Hal. apply Hal. set_solver.
    + apply NoDup_app. split; [done|]. split; [|done]. intros z Hz Hz'. apply (N2 z Hz). set_solver.
    + intros a Ha'. apply Hin. set_solver.
  - unfold reuse, set_link. by destruct (link_of pre); apply vm_frame_refl.
  - set_solver.
  - done.
  - apply Z.mod_divide; [apply Z.pow_nonzero; lia|]. rewrite <- land_low_mask by lia. done.
  - done.
  - destruct (Hbl b n Hn) as (_ & _ & _ & _ & <- & _). done.
  - intros Hbin. apply elem_of_app in Hbin as [Hbin|Hbin]; [apply (N2 b Hbin); set_solver|done].
  - right. set_solver.
Qed.

(** A new block behind all others. *)
Lemma heap_ok_push h l B a sz :
  heap_ok h l B -> g_heap_next h <= a -> aligned a -> 0 < sz -> a + 16 + sz <= g_heap_mapped_end h ->
  B !! a = None /\
  let h2 := set_word (set_word h a sz) (a + 8) 0 in
  heap_ok (mk_kheap (space h2) (a + 16 + sz) (g_heap_mapped_end h2) (g_heap_pages h2)
             (u64 (g_heap_bytes_allocated h2 + sz)) (g_free_list h2) (words h2)) l (<[a := sz]> B).
Proof.
  intros (H1 & H2 & H3 & H4 & H5 & H6 & H7 & H8 & H9 & H10) Ha Ham Hsz Hend. cbv zeta.
  set (h2 := set_word (set_word h a sz) (a + 8) 0).
  assert (Hnone : B !! a = None).
  { destruct (B !! a) as [x|] eqn:E; [|done]. destruct (H5 a x E) as (? & ? & ? & ? & _). lia. }
  assert (Hold : forall b n, B !! b = Some n -> size_of h2 b = size_of h b /\ next_of h2 b = next_of h b).
  { intros b n Hb. destruct (H5 b n Hb) as (? & ? & ? & ? & _). unfold h2, size_of, next_of, header. simpl.
    rewrite !word_set_ne by lia. done. }
  split; [done|]. unfold heap_ok. cbn [space g_heap_next g_heap_mapped_end words]. split; [done|]. split.
  { unfold free_chain in *. change (seg (next_of h2) (g_free_list h) l 0). eapply seg_ext; [|exact H2]. intros x Hx.
    destruct (H4 x Hx) as [n Hn]. by apply (Hold x n). }
  split; [done|]. split; [intros x Hx; destruct (H4 x Hx) as [n Hn]; destruct (decide (x = a)) as [->|]; [by rewrite lookup_insert_eq|]; by exists n; rewrite lookup_insert_ne|].
  split; [|split].
  - intros b n. rewrite lookup_insert_Some. intros [[<- <-]|[_ Hb]].
    + split_and!; [lia|done|done|lia| |].
      * change (word h2 a = sz). unfold h2. rewrite word_set_ne, word_set, decide_True by (done || lia). done.
      * exists 0. unfold h2. simpl. by rewrite lookup_insert_eq.
    + destruct (H5 b n Hb) as (? & ? & ? & ? & ? & ?). split_and!; [done|done|done|lia| |by do 2 apply set_word_written].
      change (size_of h2 b = n). by rewrite (proj1 (Hold b n Hb)).
  - intros b c x y. rewrite !lookup_insert_Some. intros [[<- <-]|[_ Hb]] [[<- <-]|[_ Hc]] Hlt.
    + lia.
    + destruct (H5 c y Hc) as (? & ? & ? & ? & _). lia.
    + destruct (H5 b x Hb) as (? & ? & ? & ? & _). lia.
    + by eapply H6.
  - split; [change (g_heap_mapped_end h2) with (g_heap_mapped_end h); lia|]. done.
Qed.

Lemma bump_ok h l B sz k :
  heap_ok h l B -> 4 <= k < 64 -> 0 < sz < 18446744073709551616 ->
  alloc_post h l B sz (2 ^ k) (bump lay h sz (2 ^ k)).
Proof.
  intros Hok Hk Hsz. pose proof Hok as (Hvm & _ & _ & H4 & _ & _ & H7 & H8 & _). unfold bump.
  assert (Hself : alloc_post h l B sz (2 ^ k) (Some (h, None))).
  { split; [done|]. by apply vm_frame_refl. }
  assert (Hk2 : 2 ^ k <= 2 ^ 63) by (apply Z.pow_le_mono_r; lia).
  rewrite (u64_small (g_heap_next h + KHEAP_HEADER_SIZE)) by (consts; lia).
  destruct (align_up_bounds (g_heap_next h + KHEAP_HEADER_SIZE) k) as [Hd Hdm]; [lia|consts; lia|consts; lia|].
  set (d := align_up (g_heap_next h + KHEAP_HEADER_SIZE) (2 ^ k)) in *.
  destruct (_ || _) eqn:Ebad; [done|]. apply orb_false_iff in Ebad as [E1 E2]. apply Z.ltb_ge in E1, E2.
  assert (Estop : u64 (d + sz) = d + sz).
  { unfold u64 in *. pose proof (u64_range (d + sz)). unfold u64 in *. consts.
    destruct (Z.lt_ge_cases (d + sz) 18446744073709551616); [by rewrite Z.mod_small by lia|]. dlia. }
  rewrite Estop in *. rewrite (u64_small (d - KHEAP_HEADER_SIZE)) by (consts; lia).
  destruct (align_up_bounds (d + sz) 12) as [Hs Hsm]; [lia|consts; lia|consts; lia|].
  change (2 ^ 12) with PAGE_SIZE in Hs, Hsm.
  assert (Hlim : align_up (d + sz) PAGE_SIZE <= KHEAP_LIMIT) by (consts; dlia).
  pose proof (ensure_mapped_spec h l B (align_up (d + sz) PAGE_SIZE) Hok Hsm Hlim) as He.
  destruct (ensure_mapped lay h _) as [[h1 st]|]; cbn [mbind option_bind]; [|done].
  destruct He as (Hok1 & Hf & _ & Enx & Hst). destruct (is_ok st) eqn:Est; cbn [negb]; [|by split].
  apply is_ok_true in Est. specialize (Hst Est). unfold Numa.pointer.
  rewrite (proj2 (Z.eqb_neq d 0)) by (consts; lia).
  assert (Hd16 : d mod 16 = 0).
  { apply Z.mod_divide; [lia|]. apply Z.mod_divide in Hdm; [|apply Z.pow_nonzero; lia].
    eapply Z.divide_trans; [|exact Hdm]. exists (2 ^ (k - 4)). change 16 with (2 ^ 4).
    rewrite <- Z.pow_add_r by lia. f_equal. lia. }
  destruct (heap_ok_push h1 l B (d - 16) sz Hok1) as [Hnone Hok2]; [consts; lia|unfold aligned; dlia|lia|lia|].
  cbv zeta in Hok2. replace (d - 16 + 16 + sz) with (d + sz) in Hok2 by lia.
  exists l, (<[d - 16 := sz]> B), sz. change KHEAP_HEADER_SIZE with 16. split; [exact Hok2|].
  split; [exact Hf|]. split; [done|]. split; [by apply insert_subseteq|]. split; [apply Z.mod_divide; [apply Z.pow_nonzero; lia|done]|].
  split; [by rewrite lookup_insert_eq|]. split; [lia|]. split; [|by left].
  intros Hin. destruct (H4 _ Hin). congruence.
Qed.

Lemma kheap_alloc_ok h l B sz align :
  heap_ok h l B -> 0 <= sz < 18446744073709551616 -> 0 <= align < 18446744073709551616 ->
  alloc_post h l B sz align (kheap_alloc lay h sz align).
Proof.
  intros Hok Hsz Hal. unfold kheap_alloc. destruct (_ || _ || _) eqn:Ebad.
  { pose proof Hok as (Hvm & _). split; [done|]. by apply vm_frame_refl. }
  apply orb_false_iff in Ebad as [Ebad E3]. apply orb_false_iff in Ebad as [E1 E2].
  apply Z.eqb_neq in E1, E2. apply negb_false_iff in E3.
  destruct (pow2_align align ltac:(lia) E3) as (k & Hk & Ek & Hdiv). rewrite Ek in *.
  destruct (search_total h l B sz (2 ^ k) Hok) as (best & -> & Hfound). cbn [mbind option_bind].
  assert (Hweak : forall r, alloc_post h l B sz (2 ^ k) r -> alloc_post h l B sz align r).
  { intros [[h' [d|]]|]; simpl; try done. intros (l' & B' & x & H1 & H2 & H3 & H4 & H5 & H6). exists l', B', x.
    split_and!; try done; [by eapply Z.divide_trans|by destruct H6 as (? & ? & ? & ?)..]. }
  apply Hweak. destruct best as [[b lnk]|].
  - apply reuse_ok; [done|lia|done].
  - apply bump_ok; [done|done|lia].
Qed.

Lemma kheap_free_ok h l B d n :
  heap_ok h l B -> B !! (d - 16) = Some n -> d - 16 ∉ l ->
  heap_ok (kheap_free h d) ((d - 16) :: l) B /\ space (kheap_free h d) = space h.
Proof.
  intros Hok Hx Hnin. pose proof (block_range h l B _ n Hok Hx) as Hr. unfold kheap_free.
  rewrite (proj2 (Z.eqb_neq d 0)) by (consts; lia). change KHEAP_HEADER_SIZE with 16.
  rewrite u64_small by (consts; lia). pose proof Hok as (_ & Hc & Hnd & Hin & _). pose proof (chain_aligned _ _ _ Hok) as Hal.
  set (a := d - 16) in *. set (h1 := set_head (set_word h (a + 8) (g_free_list h)) a). destruct Hr as (Hr1 & Hr2 & Hr3 & Hr4).
  assert (H1 : heap_ok h1 (a :: l) B).
  { apply (heap_ok_relink h h1 l); try done.
    - split; [|intros b Hb; by apply (set_word_written h (a + 8) (g_free_list h))].
      intros b Hb. by apply (set_next_other h a (g_free_list h) b).
    - split; [done|]. split; [consts; lia|].
      assert (E : next_of h1 a = g_free_list h) by (unfold next_of, header; simpl; exact (eq_trans (word_set h (a + 8) _ (a + 8)) (decide_True _ _ eq_refl))).
      rewrite E. eapply seg_ext; [|exact Hc]. intros y Hy. rewrite Forall_forall in Hal.
      apply (set_next_other h a (g_free_list h) y); [done|by apply Hal|]. by intros ->.
    - by constructor.
    - intros y [->|Hy]%elem_of_cons; [by exists n|by apply Hin]. }
  case_if; [|done]. split; [|done]. exact H1.
Qed.

(** A client's write inside of a block leaves the headers alone. *)
Lemma write_byte_ok h l B a n x v : heap_ok h l B -> B !! a = Some n -> a + 16 <= x < a + 16 + n ->
  heap_ok (write_byte h x v) l B /\ space (write_byte h x v) = space h.
Proof.
  intros Hok Ha Hx. split; [|done]. pose proof Hok as (_ & Hc & Hnd & Hin & H5 & H6 & _). destruct (H5 a n Ha) as (A1 & A2 & A3 & A4 & _).
  unfold aligned in A2. set (w := x - x mod 8).
  assert (Hw : forall b m, B !! b = Some m -> w <> b /\ w <> b + 8).
  { intros b m Hb. destruct (H5 b m Hb) as (_ & B2 & B3 & _). unfold aligned in B2. destruct (Z.lt_trichotomy a b) as [Hlt|[<-|Hlt]].
    - pose proof (H6 a b n m Ha Hb Hlt). unfold w. dlia.
    - unfold w. dlia.
    - pose proof (H6 b a m n Hb Ha Hlt). unfold w. dlia. }
  unfold write_byte. fold w. cbv zeta. set (v' := _ - _ + _). clearbody v'.
  destruct Hok as (H1 & _ & _ & _ & _ & _ & H7). split; [done|]. split.
  { unfold free_chain in *. eapply seg_ext; [|exact Hc]. intros y Hy. destruct (Hin y Hy) as [m Hm]. destruct (Hw y m Hm).
    unfold next_of, header. simpl. apply word_set_ne. congruence. }
  split; [done|]. split; [done|]. split; [|done]. intros b m Hb. destruct (Hw b m Hb) as [W1 W2]. destruct (H5 b m Hb) as (? & ? & ? & ? & Es & ?).
  split_and!; try done; [|by apply set_word_written]. rewrite <- Es. unfold size_of, header. simpl. apply word_set_ne. congruence.
Qed.

(** Allocation with zeroing. *)
Lemma kheap_calloc_ok h l B sz align :
  heap_ok h l B -> 0 <= sz < 18446744073709551616 -> 0 <= align < 18446744073709551616 ->
  alloc_post h l B sz align (kheap_calloc lay h sz align).
Proof.
  intros Hok Hsz Hal. pose proof (kheap_alloc_ok h l B sz align Hok Hsz Hal) as H. unfold kheap_calloc.
  destruct (kheap_alloc lay h sz align) as [[h1 [d|]]|]; cbn [mbind option_bind alloc_post] in *; [|done|done].
  destruct H as (l' & B' & n & H1 & H2 & H3 & H4 & H5 & H6 & H7 & H8). exists l', B', n.
  assert (Hz : heap_ok (for_range (Z.to_nat sz) 0 (fun i h => write_byte h (d + i) 0) h1) l' B' /\
    space (for_range (Z.to_nat sz) 0 (fun i h => write_byte h (d + i) 0) h1) = space h1).
  { apply (for_upto_ind (fun _ g => heap_ok g l' B' /\ space g = space h1)); [lia|done|]. intros i g Hi [Hg Es].
    destruct (write_byte_ok g l' B' (d - 16) n (d + i) 0 Hg H6 ltac:(lia)) as [W1 W2]. split; [done|]. by rewrite W2. }
  destruct Hz as [Z1 Z2]. rewrite Z2. split_and!; try done; apply H8.
Qed.

(** ** Client view *)

(** A block that a client holds: the address, and the size and alignment it asked for. *)
Record held_block := mk_held { hb_addr : Z; hb_size : Z; hb_align : Z }.

Definition live_ok (l : list Z) (B : gmap Z Z) (live : list held_block) : Prop :=
  NoDup (hb_addr <$> live) /\
  forall b, b ∈ live -> (hb_align b | hb_addr b) /\
    exists n, B !! (hb_addr b - 16) = Some n /\ 0 < hb_size b <= n /\ hb_addr b - 16 ∉ l.

(** The calls of the allocator, and a client's store of a byte. *)
Inductive heap_op :=
| HAlloc (sz align : Z)
| HCalloc (sz align : Z)
| HFree (d : Z)
| HWrite (a v : Z).

Definition hold (live : list held_block) (sz align : Z) (r : option Z) : list held_block :=
  match r with Some d => mk_held d sz align :: live | None => live end.

Definition heap_step (h : kheap) (live : list held_block) (op : heap_op) : option (kheap * list held_block) :=
  match op with
  | HAlloc sz align => '(h', r) ← kheap_alloc lay h sz align; Some (h', hold live sz align r)
  | HCalloc sz align => '(h', r) ← kheap_calloc lay h sz align; Some (h', hold live sz align r)
  | HFree d => Some (kheap_free h d, filter (fun b => hb_addr b <> d) live)
  | HWrite a v => Some (write_byte h a v, live)
  end.

Fixpoint heap_run (h : kheap) (live : list held_block) (ops : list heap_op) : option (kheap * list held_block) :=
  match ops with
  | [] => Some (h, live)
  | op :: ops' => '(h1, live1) ← heap_step h live op; heap_run h1 live1 ops'
  end.

(** What a client may do: ask for any 64-bit size and alignment, release the blocks it
    holds, or null, and write to the bytes of the blocks it holds. *)
Definition op_ok (live : list held_block) (op : heap_op) : Prop :=
  match op with
  | HAlloc sz align | HCalloc sz align => 0 <= sz < 18446744073709551616 /\ 0 <= align < 18446744073709551616
  | HFree d => d = 0 \/ d ∈ hb_addr <$> live
  | HWrite a v => Exists (fun b => hb_addr b <= a < hb_addr b + hb_size b) live
  end.

Fixpoint ops_ok (h : kheap) (live : list held_block) (ops : list heap_op) : Prop :=
  match ops with
  | [] => True
  | op :: ops' =>
      op_ok live op /\
      match heap_step h live op with Some (h1, live1) => ops_ok h1 live1 ops' | None => True end
  end.

#[global] Instance op_ok_dec live op : Decision (op_ok live op).
Proof. destruct op; cbn [op_ok]; apply _. Defined.

#[global] Instance ops_ok_dec ops : forall h live, Decision (ops_ok h live ops).
Proof.
  induction ops as [|op ops IH]; intros h live; cbn [ops_ok]; [apply _|]. apply and_dec; [apply _|].
  destruct (heap_step h live op) as [[h1 live1]|]; [apply IH|apply _].
Defined.

Lemma live_ok_more l l' B B' live : live_ok l B live -> B ⊆ B' -> (forall a, a ∈ l' -> a ∈ l) -> live_ok l' B' live.
Proof.
  intros [Hnd Hl] HB Hll. split; [done|]. intros b Hb. destruct (Hl b Hb) as (Ha & n & Hn & Hs & Hf). split; [done|].
  exists n. split; [by eapply lookup_weaken|]. split; [done|]. auto.
Qed.

Lemma nonzero_size h sz align h' d : kheap_alloc lay h sz align = Some (h', Some d) -> sz <> 0.
Proof. unfold kheap_alloc. by destruct (Z.eqb_spec sz 0). Qed.

(** A new block joins the ones held. *)
Lemma hold_ok h l B live sz align h' r : live_ok l B live -> 0 <= sz -> (is_Some r -> sz <> 0) -> alloc_post h l B sz align (Some (h', r)) ->
  exists l' B', heap_ok h' l' B' /\ live_ok l' B' (hold live sz align r) /\ frame (space h) (space h').
Proof.
  intros Hlive Hsz Hnz H. destruct r as [d|]; cbn [alloc_post hold] in *; [|exists l, B; by destruct H].
  destruct H as (l' & B' & n & H1 & H2 & H3 & H4 & H5 & H6 & H7 & H8 & H9). exists l', B'. split; [done|]. split; [|done].
  pose proof (live_ok_more l l' B B' live Hlive H4 H3) as [Hnd Hl]. destruct Hlive as [_ Hlv]. split.
  - simpl. constructor; [|done]. intros Hin. apply list_elem_of_fmap in Hin as (b & -> & Hin).
    destruct (Hlv b Hin) as (_ & m & Hm & _ & Hn). destruct H9; [congruence|done].
  - intros b [->|Hin]%elem_of_cons; [|by apply Hl]. simpl. split; [done|]. exists n. split; [done|]. split; [|done].
    specialize (Hnz (ex_intro _ d eq_refl)). lia.
Qed.

Lemma free_live_ok l B live d : live_ok l B live -> d ∈ hb_addr <$> live -> live_ok ((d - 16) :: l) B (filter (fun b => hb_addr b <> d) live).
Proof.
  intros [Hnd Hl] Hd. split.
  - eapply sublist_NoDup; [exact Hnd|]. apply fmap_sublist, sublist_filter.
  - intros b [Hne Hb]%list_elem_of_filter. destruct (Hl b Hb) as (Ha & n & Hn & Hs & Hf). split; [done|]. exists n. split; [done|]. split; [done|].
    intros [E|?]%elem_of_cons; [lia|done].
Qed.

Lemma heap_step_ok h l B live op :
  heap_ok h l B -> live_ok l B live -> op_ok live op ->
  match heap_step h live op with
  | None => ~ Mmu.tables_ready lay KHEAP_BASE KHEAP_LIMIT (space h)
  | Some (h', live') => exists l' B', heap_ok h' l' B' /\ live_ok l' B' live' /\ frame (space h) (space h')
  end.
Proof.
  intros Hok Hlive Hop. pose proof Hok as (Hvm & _). destruct op as [sz align|sz align|d|a v]; cbn [heap_step op_ok] in *.
  - destruct Hop as [Hsz Hal]. pose proof (kheap_alloc_ok h l B sz align Hok Hsz Hal) as H.
    destruct (kheap_alloc lay h sz align) as [[h' r]|] eqn:Ea; cbn [mbind option_bind]; [|done].
    eapply hold_ok; [done|lia| |done]. intros [d ->]. by eapply nonzero_size.
  - destruct Hop as [Hsz Hal]. pose proof (kheap_calloc_ok h l B sz align Hok Hsz Hal) as H. unfold kheap_calloc in *.
    destruct (kheap_alloc lay h sz align) as [[h' r]|] eqn:Ea; cbn [mbind option_bind] in *; [|done].
    eapply hold_ok; [done|lia| |done]. intros [d ->]. by eapply nonzero_size.
  - destruct Hop as [->|Hin].
    { exists l, B. split; [done|]. split; [|by apply vm_frame_refl]. destruct Hlive as [Hnd Hl]. split.
      - eapply sublist_NoDup; [exact Hnd|]. apply fmap_sublist, sublist_filter.
      - intros b [_ Hb]%list_elem_of_filter. by apply Hl. }
    pose proof (free_live_ok _ _ _ _ Hlive Hin) as Hl'. apply list_elem_of_fmap in Hin as (b & -> & Hin).
    destruct Hlive as [_ Hl]. destruct (Hl b Hin) as (_ & n & Hn & _ & Hf).
    destruct (kheap_free_ok h l B (hb_addr b) n Hok Hn Hf) as [H1 H2]. exists ((hb_addr b - 16) :: l), B. split; [done|]. split; [done|].
    rewrite H2. by apply vm_frame_refl.
  - apply Exists_exists in Hop as (b & Hb & Hr). destruct Hlive as [Hnd Hl]. destruct (Hl b Hb) as (_ & n & Hn & Hs & _).
    destruct (write_byte_ok h l B _ n a v Hok Hn ltac:(lia)) as [W1 W2]. exists l, B. split; [done|]. split; [done|].
    rewrite W2. by apply vm_frame_refl.
Qed.

Lemma heap_run_ok ops h l B live :
  heap_ok h l B -> live_ok l B live -> ops_ok h live ops ->
  match heap_run h live ops with
  | None => ~ Mmu.tables_ready lay KHEAP_BASE KHEAP_LIMIT (space h)
  | Some (h', live') => exists l' B', heap_ok h' l' B' /\ live_ok l' B' live'
  end.
Proof.
  revert h l B live. induction ops as [|op ops IH]; intros h l B live Hok Hlive Hops; cbn [heap_run ops_ok] in *.
  { by exists l, B. }
  destruct Hops as [Hop Hops]. pose proof (heap_step_ok h l B live op Hok Hlive Hop) as H.
  destruct (heap_step h live op) as [[h1 live1]|]; cbn [mbind option_bind]; [|done].
  destruct H as (l1 & B1 & Hok1 & Hlive1 & (_ & _ & Hfr & _)). pose proof (IH h1 l1 B1 live1 Hok1 Hlive1 Hops) as H.
  destruct (heap_run h1 live1 ops) as [[h2 live2]|]; [done|]. intros Hr. apply H. by eapply Mmu.ready_mono.
Qed.

Lemma live_disjoint h l B live b1 b2 :
  heap_ok h l B -> live_ok l B live -> b1 ∈ live -> b2 ∈ live -> hb_addr b1 < hb_addr b2 -> hb_addr b1 + hb_size b1 <= hb_addr b2 - 16.
Proof.
  intros (_ & _ & _ & _ & _ & H6 & _) [_ Hl] H1 H2 Hlt. destruct (Hl b1 H1) as (_ & n & Hn & Hs & _).
  destruct (Hl b2 H2) as (_ & m & Hm & _). pose proof (H6 _ _ n m Hn Hm ltac:(lia)). lia.
Qed.

Lemma live_mapped h l B live b x :
  heap_ok h l B -> live_ok l B live -> b ∈ live -> hb_addr b <= x < hb_addr b + hb_size b ->
  exists pa f, Mmu.vmm_translate lay (space h) (x - x mod PAGE_SIZE) = Some (pa, f) /\ Z.testbit f 1 = true.
Proof.
  intros Hok [_ Hl] Hd Hb. destruct (Hl b Hd) as (_ & n & Hn & Hs & _).
  destruct Hok as (Hvm & _ & _ & _ & H5 & _ & H7 & H8 & H9 & H10). destruct (H5 _ n Hn) as (? & ? & ? & ? & _).
  destruct (H10 (x - x mod PAGE_SIZE)) as (pa & f & Hw & Hf); [consts; dlia|consts; dlia|].
  exists pa, f. split; [|done]. by rewrite Mmu.translate_walk.
Qed.

End Invariant.

(** ** Properties *)

(** C6: heap blocks are aligned and never overlap.  For any sequence of allocations, with or
    without zeroing, of releases, and of writes by clients, in which every release is of a
    block that is held (or of null) and every write is inside of a block that is held, on a
    well-formed heap: every call returns, unless the page tables cannot be extended; each
    block held has the alignment it was asked for, the blocks held are pairwise disjoint,
    and every byte of them is in mapped, writable memory. *)
Theorem kheap_blocks_disjoint (lay : Mmu.layout) (ops : list heap_op) (h : kheap) (l : list Z) (B : gmap Z Z) (live : list held_block) :
  heap_ok lay h l B -> live_ok l B live -> ops_ok lay h live ops ->
  match heap_run lay h live ops with
  | None => ~ Mmu.tables_ready lay KHEAP_BASE KHEAP_LIMIT (space h)
  | Some (h', live') =>
      (exists l' B', heap_ok lay h' l' B' /\ live_ok l' B' live') /\
      (forall b, b ∈ live' -> (hb_align b | hb_addr b)) /\
      (forall b1 b2, b1 ∈ live' -> b2 ∈ live' -> hb_addr b1 <> hb_addr b2 ->
         hb_addr b1 + hb_size b1 <= hb_addr b2 \/ hb_addr b2 + hb_size b2 <= hb_addr b1) /\
      (forall b x, b ∈ live' -> hb_addr b <= x < hb_addr b + hb_size b ->
         exists pa f, Mmu.vmm_translate lay (space h') (x - x mod PAGE_SIZE) = Some (pa, f) /\ Z.testbit f 1 = true)
  end.
Proof.
  intros Hok Hlive Hops. pose proof (heap_run_ok lay ops h l B live Hok Hlive Hops) as H.
  destruct (heap_run lay h live ops) as [[h' live']|]; [|done]. destruct H as (l' & B' & H1 & H2).
  split; [by exists l', B'|]. split; [intros b Hb; by apply H2|]. split.
  - intros b1 b2 Hd1 Hd2 Hne. destruct (Z.lt_total (hb_addr b1) (hb_addr b2)) as [Hlt|[E|Hlt]]; [|done|].
    + left. pose proof (live_disjoint lay h' l' B' live' b1 b2 H1 H2 Hd1 Hd2 Hlt). lia.
    + right. pose proof (live_disjoint lay h' l' B' live' b2 b1 H1 H2 Hd2 Hd1 Hlt). lia.
  - intros b x Hb Hx. by eapply live_mapped.
Qed.

Lemma live_nil l B : live_ok l B [].
Proof. split; [constructor|]. set_solver. Qed.

Definition demo_heap : kheap := kheap_init (mk_kheap Mmu.demo_vm 0 0 0 0 0 ∅).

Lemma demo_heap_ok : heap_ok Mmu.demo_layout demo_heap [] ∅.
Proof.
  split; [exact Mmu.demo_vm_ok|]. split; [done|]. split; [constructor|]. split; [set_solver|].
  split; [done|]. split; [done|]. split; [done|]. split; [done|]. split; [done|]. intros q _ Hq. simpl in Hq. lia.
Qed.

(** Three blocks, one of them zeroed; the first one is released and its place reused, and
    the bytes of the others are written. *)
Definition demo_ops : list heap_op :=
  [HAlloc 24 8; HAlloc 128 64; HCalloc 32 16; HAlloc 16 3; HWrite 1241514159 255; HFree 1241514000; HAlloc 20 16; HFree 0].

Definition demo_end : kheap * list held_block := default (demo_heap, []) (heap_run Mmu.demo_layout demo_heap [] demo_ops).

Lemma heap_demo_run : heap_run Mmu.demo_layout demo_heap [] demo_ops = Some demo_end.
Proof.
  assert (H : is_Some (heap_run Mmu.demo_layout demo_heap [] demo_ops)) by (apply returns_is_Some; vm_compute; reflexivity).
  unfold demo_end. by destruct H as [x ->].
Qed.

Lemma demo_end_live : demo_end.2 = [mk_held 1241514000 20 16; mk_held 1241514192 32 16; mk_held 1241514048 128 64].
Proof. vm_compute. reflexivity. Qed.

Lemma demo_ops_ok : ops_ok Mmu.demo_layout demo_heap [] demo_ops.
Proof. apply (bool_decide_unpack _). vm_compute. exact I. Qed.

Lemma kheap_blocks_disjoint_witness :
  List.length demo_end.2 = 3%nat /\ (forall b, b ∈ demo_end.2 -> (hb_align b | hb_addr b)) /\
  (forall b1 b2, b1 ∈ demo_end.2 -> b2 ∈ demo_end.2 -> hb_addr b1 <> hb_addr b2 ->
     hb_addr b1 + hb_size b1 <= hb_addr b2 \/ hb_addr b2 + hb_size b2 <= hb_addr b1).
Proof.
  pose proof (kheap_blocks_disjoint Mmu.demo_layout demo_ops demo_heap [] ∅ [] demo_heap_ok (live_nil _ _) demo_ops_ok) as H.
  rewrite heap_demo_run in H. split; [by rewrite demo_end_live|]. destruct demo_end as [h live].
  destruct H as (_ & H1 & H2 & _). split; [exact H1|exact H2].
Defined.

(** A free list of two blocks, the data of the first one not aligned to 64. *)
Definition two_free : kheap :=
  mk_kheap Mmu.demo_vm 1241514240 1241518080 1 0 1241514016
    (<[1241514016 := 32]> (<[1241514024 := 1241514096]> (<[1241514096 := 64]> {[1241514104 := 0]}))).

(** Taking an aligned block behind a skipped, misaligned one drops the skipped block from
    the free list. *)
Lemma kheap_skip_drops_block :
  g_free_list two_free = 1241514016 /\
  (fun r => (g_free_list r.1, r.2)) <$> kheap_alloc Mmu.demo_layout two_free 32 64 = Some (0, Some 1241514112).
Proof. split; vm_compute; reflexivity. Qed.

(** Releasing a block writes its link; the size stays. *)
Lemma free_header h ptr : 16 < ptr < 18446744073709551616 ->
  header (kheap_free h ptr) (ptr - 16) = mk_header (size (header h (ptr - 16))) (g_free_list h) /\ g_free_list (kheap_free h ptr) = ptr - 16.
Proof.
  intros Hr. unfold kheap_free. rewrite (proj2 (Z.eqb_neq ptr 0)) by lia. change KHEAP_HEADER_SIZE with 16. rewrite u64_small by lia.
  cbv zeta. set (h1 := set_head _ _).
  assert (E : header h1 (ptr - 16) = mk_header (size (header h (ptr - 16))) (g_free_list h)).
  { unfold header. f_equal.
    - exact (word_set_ne h (ptr - 16 + 8) _ (ptr - 16) ltac:(lia)).
    - exact (eq_trans (word_set h (ptr - 16 + 8) _ (ptr - 16 + 8)) (decide_True _ _ eq_refl)). }
  case_if; (split; [exact E|done]).
Qed.

(** A block released twice links to itself, and the next search that does not take it
    never ends. *)
Lemma kheap_double_free_diverges h ptr fuel sz align prev best :
  16 < ptr < 18446744073709551616 -> size (header h (ptr - 16)) < sz ->
  let h2 := kheap_free (kheap_free h ptr) ptr in
  search fuel h2 (g_free_list h2) prev best sz align = None.
Proof.
  intros Hr Hs h2. destruct (free_header h ptr Hr) as [E1 E2]. destruct (free_header (kheap_free h ptr) ptr Hr) as [E3 E4].
  fold h2 in E3, E4. rewrite E4. rewrite E1, E2 in E3. revert prev best.
  induction fuel as [|fuel IH]; intros prev best; cbn [search]; rewrite (proj2 (Z.eqb_neq (ptr - 16) 0)) by lia; [done|].
  rewrite E3. cbn [size next_free]. rewrite (proj2 (Z.leb_gt _ _)) by lia. apply IH.
Qed.

End Kheap.
