(* ===== verification/Arena.v ===== *)
(** * Memory arenas (kernel/mm/arena.c, include/xaios/arena.h)

    The table of 32 arenas at fixed virtual addresses, each backed page by page.
    The page allocator, the kernel heap and the page tables are used through the
    interface [Platform]; [PlatformLaws] states what arena.c relies on, and Memory.v gives
    the instance made of Pmm.v, Mmu.v and Kheap.v.  The zeroing
    of fresh pages is not modelled (page contents are not part of the state), and the
    name kept for log output is the truncated copy.  A failed [kassert] is [None].

    [ArenaService] is the interface of this component used by the sandboxes. *)

From S2P Require Import Prelude.
From Stdlib Require Import String.

Definition PAGE_SIZE : Z := 4096.

(** ** What the arena manager uses *)

(** An outer [None] is a failed assertion; an inner one is the null pointer. *)
Class Platform (B : Type) := {
  pmm_alloc_page : B -> option (Z * B);
  pmm_free_page : B -> Z -> B;
  kheap_calloc : B -> Z -> Z -> option (B * option Z);
  vmm_map_page : B -> Z -> Z -> Z -> option (B * xaios_status);
  vmm_unmap_page : B -> Z -> option (B * xaios_status);
  vmm_translate : B -> Z -> option (Z * Z);
  platform_ok : B -> Prop;
  held : B -> Z -> Prop;
  tables_present : B -> Prop
}.

Definition XAIOS_VMM_PRESENT : Z := 1.
Definition XAIOS_VMM_WRITABLE : Z := 2.
Definition XAIOS_VMM_USER : Z := 16.

(** The page-aligned addresses of the arena region, and of physical frames. *)
Definition arena_va (va : Z) : Prop := 0x4c000000 <= va < 0x50000000 /\ va mod PAGE_SIZE = 0.
Definition frame_addr (p : Z) : Prop := 0 < p < 281474976710656 /\ p mod PAGE_SIZE = 0.

(** What every call keeps: well-formedness, page tables once present, frames held by the
    caller other than those in [lost], translations of the arena region but those in
    [changed]. *)
Definition preserves {B} `{!Platform B} (b b' : B) (lost changed : Z -> Prop) : Prop :=
  platform_ok b' /\ (tables_present b -> tables_present b') /\
  (forall p, held b p -> ~ lost p -> held b' p) /\
  (forall va, arena_va va -> ~ changed va -> vmm_translate b' va = vmm_translate b va).

Definition nothing (_ : Z) : Prop := False.

Class PlatformLaws (B : Type) `{!Platform B} : Prop := {
  alloc_page_ok b p b' :
    platform_ok b -> pmm_alloc_page b = Some (p, b') ->
    preserves b b' nothing nothing /\ frame_addr p /\ ~ held b p /\ held b' p;
  free_page_ok b p : platform_ok b -> held b p -> preserves b (pmm_free_page b p) (eq p) nothing;
  calloc_ok b n :
    platform_ok b -> 0 <= n < 18446744073709551616 ->
    match kheap_calloc b n 16 with
    | None => ~ tables_present b
    | Some (b', _) => preserves b b' nothing nothing
    end;
  map_page_ok b va pa flags :
    platform_ok b -> arena_va va -> frame_addr pa ->
    Z.testbit flags 0 = true -> Z.testbit flags 2 = false ->
    match vmm_map_page b va pa flags with
    | None => ~ tables_present b
    | Some (b', st) => st = XAIOS_OK /\ preserves b b' nothing (eq va) /\
        exists f, vmm_translate b' va = Some (pa, f) /\
          Z.testbit f 1 = Z.testbit flags 1 /\ Z.testbit f 4 = Z.testbit flags 4
    end;
  unmap_page_ok b va :
    platform_ok b -> arena_va va ->
    match vmm_unmap_page b va with
    | None => ~ tables_present b
    | Some (b', st) => st = XAIOS_OK /\ preserves b b' nothing (eq va) /\ vmm_translate b' va = None
    end
}.

Lemma preserves_refl {B} `{!Platform B} (b : B) lost changed : platform_ok b -> preserves b b lost changed.
Proof. by intros. Qed.

Lemma preserves_trans {B} `{!Platform B} (b1 b2 b3 : B) l1 l2 l3 c1 c2 c3 :
  preserves b1 b2 l1 c1 -> preserves b2 b3 l2 c2 ->
  (forall p, held b1 p -> ~ l3 p -> ~ l1 p /\ ~ l2 p) -> (forall va, ~ c3 va -> ~ c1 va /\ ~ c2 va) ->
  preserves b1 b3 l3 c3.
Proof.
  intros (A1 & A2 & A3 & A4) (B1 & B2 & B3 & B4) Hl Hc. split; [done|]. split; [auto|]. split.
  - intros p Hp Hn. destruct (Hl p Hp Hn). auto.
  - intros va Hva Hn. destruct (Hc va Hn). rewrite B4, A4 by done. done.
Qed.

Module Arena.

Definition MAX_ARENAS : Z := 32.
Definition ARENA_VA_BASE : Z := 0x4c000000.
Definition ARENA_VA_STRIDE : Z := 0x00200000.
Definition ARENA_VA_LIMIT : Z := 0x50000000.
Definition XAIOS_ARENA_NAME_MAX : Z := 32.
Definition XAIOS_ARENA_FLAG_READ_ONLY : Z := 1.
Definition XAIOS_ARENA_FLAG_SHARED : Z := 2.
Definition XAIOS_ARENA_FLAG_PREFaultED : Z := 4.
Definition XAIOS_ARENA_FLAG_USER_VISIBLE : Z := 8.

Inductive xaios_arena_state := XAIOS_ARENA_EMPTY | XAIOS_ARENA_READY | XAIOS_ARENA_DESTROYED.

#[global] Instance arena_state_eq_dec : EqDecision xaios_arena_state.
Proof. solve_decision. Defined.

Record xaios_arena := mk_arena {
  arena_id : Z;
  kind : Z;
  state : xaios_arena_state;
  owner_id : Z;
  name : string;
  base : Z;
  size : Z;
  page_count : Z;
  flags : Z;
  ref_count : Z;
  fault_count : Z;
  pages : list Z
}.

Definition blank_arena (i : Z) : xaios_arena :=
  mk_arena i 0 XAIOS_ARENA_EMPTY 0 EmptyString 0 0 0 0 0 0 [].

#[global] Instance arena_inhabited : Inhabited xaios_arena := populate (blank_arena 0).

Definition is_ready (a : xaios_arena) : bool := bool_decide (state a = XAIOS_ARENA_READY).

Record arena_manager := mk_manager {
  g_arenas : list xaios_arena;
  g_committed_pages : Z;
  g_active_count : Z
}.

Definition arena (m : arena_manager) (i : Z) : xaios_arena := (g_arenas m).[i].

Definition str_nonempty (value : option string) : bool :=
  match value with Some (String _ _) => true | _ => false end.

(** [copy_name]: at most 31 characters. *)
Definition copy_name (src : string) : string := String.substring 0 31 src.

Definition vmm_flags_from_arena (arena_flags : Z) : Z :=
  let f1 := XAIOS_VMM_PRESENT in
  let f2 := if Z.land arena_flags XAIOS_ARENA_FLAG_READ_ONLY =? 0
            then Z.lor f1 XAIOS_VMM_WRITABLE else f1 in
  if negb (Z.land arena_flags XAIOS_ARENA_FLAG_USER_VISIBLE =? 0)
  then Z.lor f2 XAIOS_VMM_USER else f2.

Definition arena_manager_init (m : arena_manager) : arena_manager :=
  mk_manager (imap (fun i _ => blank_arena (Z.of_nat i)) (g_arenas m)) 0 0.

Definition arena_validate_create (m : arena_manager) (id knd : Z) (nm : option string) (sz : Z)
    : xaios_status :=
  if (MAX_ARENAS <=? id) || (knd =? 0) || negb (str_nonempty nm) || (sz =? 0) ||
     is_ready (arena m id)
  then XAIOS_ERR_INVALID else
  let b := u64 (ARENA_VA_BASE + u64 (id * ARENA_VA_STRIDE)) in
  if ARENA_VA_LIMIT <? u64 (b + align_up sz PAGE_SIZE) then XAIOS_ERR_NO_MEMORY else XAIOS_OK.

Definition set_arena (m : arena_manager) (i : Z) (a : xaios_arena) : arena_manager :=
  mk_manager ((g_arenas m).[i <- a]) (g_committed_pages m) (g_active_count m).

Definition with_state (a : xaios_arena) (st : xaios_arena_state) (ps : list Z) : xaios_arena :=
  mk_arena (arena_id a) (kind a) st (owner_id a) (name a) (base a) (size a) (page_count a)
    (flags a) (ref_count a) (fault_count a) ps.

Section Manager.
Context {B : Type} `{!Platform B}.

(** [arena_unmap_pages]: the loop over [pages], [i] the index of its head. *)
Fixpoint unmap_pages (b : B) (base i : Z) (ps : list Z) (committed : Z) : option (B * Z) :=
  match ps with
  | [] => Some (b, committed)
  | p :: rest =>
      '(b1, st) ← vmm_unmap_page b (u64 (base + i * PAGE_SIZE));
      if negb (is_ok st) then None else
      if negb (p =? 0)
      then unmap_pages (pmm_free_page b1 p) base (i + 1) rest (u64 (committed - 1))
      else unmap_pages b1 base (i + 1) rest committed
  end.

Inductive map_result :=
| MapDone (b : B) (committed : Z) (ps : list Z)
| MapNoMemory (b : B) (committed : Z) (ps : list Z)
| MapFailed (b : B) (committed : Z) (ps : list Z).

(** The allocation loop of [arena_create], [n] iterations left at index [i]. *)
Fixpoint map_pages (n : nat) (b : B) (base i vflags : Z) (ps : list Z) (committed : Z)
    : option map_result :=
  match n with
  | O => Some (MapDone b committed ps)
  | S n' =>
      match pmm_alloc_page b with
      | None => Some (MapNoMemory b committed ps)
      | Some (p, b1) =>
          let ps1 := ps.[i <- p] in
          '(b2, st) ← vmm_map_page b1 (u64 (base + i * PAGE_SIZE)) p vflags;
          if negb (is_ok st) then Some (MapFailed b2 committed ps1)
          else map_pages n' b2 base (i + 1) vflags ps1 (u64 (committed + 1))
      end
  end.

(** Undo after a failure: unmap, release and mark the arena empty. *)
Definition create_failed (b : B) (m : arena_manager) (id : Z) (a : xaios_arena) (ps : list Z)
    (committed : Z) (st : xaios_status) : option (B * arena_manager * xaios_status) :=
  '(b', committed') ← unmap_pages b (base a) 0 ps committed;
  Some (b', mk_manager ((g_arenas m).[id <- with_state a XAIOS_ARENA_EMPTY
                          (replicate (List.length ps) 0)])
              committed' (g_active_count m), st).

Definition arena_create (b : B) (m : arena_manager) (id knd owner : Z) (nm : option string)
    (sz flgs : Z) : option (B * arena_manager * xaios_status) :=
  if negb (is_ok (arena_validate_create m id knd nm sz)) then Some (b, m, XAIOS_ERR_INVALID) else
  let mapped_size := align_up sz PAGE_SIZE in
  let count := mapped_size / PAGE_SIZE in
  match kheap_calloc b (u64 (8 * count)) 16 with
  | None => None
  | Some (b1, None) => Some (b1, m, XAIOS_ERR_NO_MEMORY)
  | Some (b1, Some _) =>
      let a := mk_arena (arena_id (arena m id)) knd (state (arena m id)) owner
                 (copy_name (default EmptyString nm))
                 (u64 (ARENA_VA_BASE + u64 (id * ARENA_VA_STRIDE))) sz count
                 (Z.lor flgs XAIOS_ARENA_FLAG_PREFaultED) 0 0 [] in
      match map_pages (Z.to_nat count) b1 (base a) 0 (vmm_flags_from_arena (flags a))
              (replicate (Z.to_nat count) 0) (g_committed_pages m) with
      | None => None
      | Some (MapDone b2 committed ps) =>
          Some (b2, mk_manager ((g_arenas m).[id <- with_state a XAIOS_ARENA_READY ps])
                      committed (u64 (g_active_count m + 1)), XAIOS_OK)
      | Some (MapNoMemory b2 committed ps) => create_failed b2 m id a ps committed XAIOS_ERR_NO_MEMORY
      | Some (MapFailed b2 committed ps) => create_failed b2 m id a ps committed XAIOS_ERR_INVALID
      end
  end.

Definition not_ready (m : arena_manager) (id : Z) : bool :=
  (MAX_ARENAS <=? id) || negb (is_ready (arena m id)).

Definition set_refs (a : xaios_arena) (n : Z) : xaios_arena :=
  mk_arena (arena_id a) (kind a) (state a) (owner_id a) (name a) (base a) (size a)
    (page_count a) (flags a) n (fault_count a) (pages a).

Definition arena_acquire (m : arena_manager) (id : Z) : arena_manager * xaios_status :=
  if not_ready m id then (m, XAIOS_ERR_INVALID) else
  (set_arena m id (set_refs (arena m id) (u32 (ref_count (arena m id) + 1))), XAIOS_OK).

Definition arena_release (m : arena_manager) (id : Z) : arena_manager * xaios_status :=
  if not_ready m id || (ref_count (arena m id) =? 0) then (m, XAIOS_ERR_INVALID) else
  (set_arena m id (set_refs (arena m id) (u32 (ref_count (arena m id) - 1))), XAIOS_OK).

Definition arena_destroy (b : B) (m : arena_manager) (id : Z)
    : option (B * arena_manager * xaios_status) :=
  if not_ready m id || negb (ref_count (arena m id) =? 0) then Some (b, m, XAIOS_ERR_INVALID) else
  let a := arena m id in
  '(b', committed') ← unmap_pages b (base a) 0 (pages a) (g_committed_pages m);
  Some (b', mk_manager
              ((g_arenas m).[id <- mk_arena (arena_id a) (kind a) XAIOS_ARENA_DESTROYED
                  (owner_id a) (name a) 0 0 0 0 (ref_count a) (fault_count a) []])
              committed' (u64 (g_active_count m - 1)), XAIOS_OK).

Definition arena_record_fault (m : arena_manager) (id : Z) : arena_manager * xaios_status :=
  if not_ready m id then (m, XAIOS_ERR_INVALID) else
  let a := arena m id in
  (set_arena m id (mk_arena (arena_id a) (kind a) (state a) (owner_id a) (name a) (base a)
     (size a) (page_count a) (flags a) (ref_count a) (u64 (fault_count a + 1)) (pages a)), XAIOS_OK).

End Manager.

(** ** Invariant *)

(** Virtual address of page [j] of arena [i]. *)
Definition page_va (i j : Z) : Z := ARENA_VA_BASE + i * ARENA_VA_STRIDE + j * PAGE_SIZE.

Definition arena_ok (i : Z) (a : xaios_arena) : Prop :=
  is_ready a = true ->
  base a = page_va i 0 /\ page_count a = zlen (pages a) /\ zlen (pages a) <= 512 /\
  Forall (fun p => p <> 0) (pages a).

(** Every page of the arena is mapped to its own frame, writable unless read-only. *)
Definition mapped {B} `{!Platform B} (b : B) (i : Z) (a : xaios_arena) : Prop :=
  forall j, 0 <= j < zlen (pages a) ->
  exists f, vmm_translate b (page_va i j) = Some ((pages a).[j], f) /\
    Z.testbit f 1 = (Z.land (flags a) XAIOS_ARENA_FLAG_READ_ONLY =? 0).

Fixpoint sum_ready (f : xaios_arena -> Z) (l : list xaios_arena) : Z :=
  match l with
  | [] => 0
  | a :: l' => (if is_ready a then f a else 0) + sum_ready f l'
  end.

(** Frame [p] backs page [j] of the ready arena [i]. *)
Definition uses (m : arena_manager) (i j p : Z) : Prop :=
  0 <= i < MAX_ARENAS /\ is_ready (arena m i) = true /\ 0 <= j < zlen (pages (arena m i)) /\
  (pages (arena m i)).[j] = p.

(** The frames of the ready arenas are held, and no frame backs two pages. *)
Definition frames_ok {B} `{!Platform B} (b : B) (m : arena_manager) : Prop :=
  (forall i j p, uses m i j p -> held b p) /\
  (forall i j i' j' p, uses m i j p -> uses m i' j' p -> i = i' /\ j = j').

Definition manager_ok {B} `{!Platform B} (b : B) (m : arena_manager) : Prop :=
  platform_ok b /\ zlen (g_arenas m) = MAX_ARENAS /\
  (forall i, 0 <= i < MAX_ARENAS ->
     arena_ok i (arena m i) /\ (is_ready (arena m i) = true -> mapped b i (arena m i))) /\
  g_committed_pages m = sum_ready page_count (g_arenas m) /\
  g_active_count m = sum_ready (fun _ => 1) (g_arenas m) /\ frames_ok b m.

(** ** Lemmas *)

Lemma page_va_aligned i j : page_va i j mod PAGE_SIZE = 0.
Proof.
  unfold page_va, ARENA_VA_BASE, ARENA_VA_STRIDE, PAGE_SIZE.
  replace (0x4c000000 + i * 0x00200000 + j * 4096) with ((311296 + i * 512 + j) * 4096) by lia.
  by apply Z.mod_mul.
Qed.

Lemma page_va_inj i j i' j' :
  0 <= j < 512 -> 0 <= j' < 512 -> page_va i j = page_va i' j' -> i = i' /\ j = j'.
Proof. unfold page_va, ARENA_VA_BASE, ARENA_VA_STRIDE, PAGE_SIZE. lia. Qed.

Lemma page_va_word i j : 0 <= i < MAX_ARENAS -> 0 <= j < 512 ->
  u64 (page_va i 0 + j * PAGE_SIZE) = page_va i j.
Proof.
  intros Hi Hj. unfold page_va, ARENA_VA_BASE, ARENA_VA_STRIDE, PAGE_SIZE, MAX_ARENAS in *.
  rewrite u64_small; lia.
Qed.

Lemma sum_ready_nonneg f l : (forall a, is_ready a = true -> a ∈ l -> 0 <= f a) -> 0 <= sum_ready f l.
Proof.
  induction l as [|a l IH]; intros Hf; simpl; [lia|].
  assert (0 <= sum_ready f l) by (apply IH; intros; apply Hf; [done|by right]).
  destruct (is_ready a) eqn:E; [|lia]. pose proof (Hf a E ltac:(left)). lia.
Qed.

Lemma sum_ready_insert f l i a :
  (i < List.length l)%nat ->
  sum_ready f (<[i := a]> l) = sum_ready f l -
    (if is_ready (l !!! i) then f (l !!! i) else 0) + (if is_ready a then f a else 0).
Proof.
  revert i. induction l as [|x l IH]; intros [|i] Hi; simpl in *; try lia.
  rewrite (IH i) by lia. lia.
Qed.

Lemma sum_ready_count l : sum_ready (fun _ => 1) l <= zlen l.
Proof.
  induction l as [|a l IH]; [done|]. simpl. unfold zlen in *. simpl. destruct (is_ready a); lia.
Qed.

Section Loops.
Context {B : Type} `{!Platform B} `{!PlatformLaws B}.

(** The addresses of pages [lo, hi) of arena [i]. *)
Definition window (i lo hi : Z) (va : Z) : Prop := exists j, lo <= j < hi /\ va = page_va i j.

Lemma page_va_window i j : 0 <= i < MAX_ARENAS -> 0 <= j < 512 -> arena_va (page_va i j).
Proof.
  intros Hi Hj. split; [|apply page_va_aligned].
  unfold page_va, ARENA_VA_BASE, ARENA_VA_STRIDE, PAGE_SIZE, MAX_ARENAS in *. lia.
Qed.

Lemma not_window i lo hi i' j :
  0 <= lo -> hi <= 512 -> 0 <= j < 512 -> (i <> i' \/ ~ lo <= j < hi) -> ~ window i lo hi (page_va i' j).
Proof. intros Hlo Hhi Hj Hne (j' & Hj' & Heq). apply page_va_inj in Heq; lia. Qed.

Definition nonzero (ps : list Z) : Z := zlen (filter (fun p => p <> 0) ps).

(** Pages of a partly built arena: zero, or a frame of its own. *)
Definition owned (b : B) (ps : list Z) : Prop :=
  forall j p, 0 <= j < zlen ps -> ps.[j] = p -> p <> 0 ->
    held b p /\ forall j', 0 <= j' < zlen ps -> ps.[j'] = p -> j' = j.

Lemma owned_tail b b1 p ps :
  owned b (p :: ps) -> (forall q, held b q -> q <> p -> held b1 q) -> owned b1 ps /\ (p <> 0 -> p ∉ ps).
Proof.
  intros Ho Hh. assert (Hn : p <> 0 -> p ∉ ps).
  { intros Hp [n Hn]%list_elem_of_lookup. pose proof (lookup_lt_Some _ _ _ Hn).
    destruct (Ho 0 p ltac:(unfold zlen; simpl; lia) eq_refl Hp) as [_ Hu].
    assert (Z.of_nat n + 1 = 0); [|lia]. apply Hu; [unfold zlen; simpl; lia|].
    replace (Z.to_nat (Z.of_nat n + 1)) with (S n) by lia. simpl. by apply list_lookup_total_correct. }
  split; [|exact Hn]. intros j q Hj Hq Hz. 
  assert (He : forall i, 0 <= i -> (p :: ps).[i + 1] = ps.[i])
    by (intros i Hi; by replace (Z.to_nat (i + 1)) with (S (Z.to_nat i)) by lia).
  destruct (Ho (j + 1) q ltac:(unfold zlen in *; simpl; lia) ltac:(rewrite He by lia; done) Hz) as [Hq1 Hu].
  split.
  - apply Hh; [done|]. intros ->. apply Hn; [done|]. rewrite <- Hq.
    apply list_elem_of_lookup. exists (Z.to_nat j). by apply arr_lookup.
  - intros j' Hj' Hq'. assert (j' + 1 = j + 1); [|lia].
    apply Hu; [unfold zlen in *; simpl; lia|]. rewrite He by lia. done.
Qed.

(** [arena_unmap_pages] only panics while page tables are missing; it takes back one
    committed page per frame it frees, and leaves no page of the arena mapped. *)
Lemma unmap_pages_spec b i k ps committed :
  0 <= i < MAX_ARENAS -> 0 <= k -> k + zlen ps <= 512 -> platform_ok b -> owned b ps ->
  nonzero ps <= committed < 18446744073709551616 ->
  match unmap_pages b (page_va i 0) k ps committed with
  | None => ~ tables_present b
  | Some (b', c) => c = committed - nonzero ps /\
      preserves b b' (fun p => p ∈ ps) (window i k (k + zlen ps)) /\
      forall j, k <= j < k + zlen ps -> vmm_translate b' (page_va i j) = None
  end.
Proof.
  intros Hi. revert b k committed. induction ps as [|p ps IH]; intros b k committed Hk Hlen Hpok Ho Hc.
  { unfold nonzero. change (zlen (filter (fun p : Z => p <> 0) [])) with 0. cbn [unmap_pages]. split; [lia|]. split; [by apply preserves_refl|]. unfold zlen; simpl. lia. }
  assert (Hzl : zlen (p :: ps) = 1 + zlen ps) by (unfold zlen; simpl; lia). assert (0 <= zlen ps) by zlia.
  cbn [unmap_pages]. rewrite page_va_word by lia.
  pose proof (unmap_page_ok b (page_va i k) Hpok (page_va_window i k Hi ltac:(lia))) as Hu.
  destruct (vmm_unmap_page b (page_va i k)) as [[b1 st]|]; [|done]. cbn [mbind option_bind].
  destruct Hu as (-> & Hpr & Hnone). cbn [is_ok negb].
  assert (Hstep : forall b2 cc, preserves b b2 (fun q => q = p /\ p <> 0) (eq (page_va i k)) ->
    vmm_translate b2 (page_va i k) = None -> nonzero ps <= cc < 18446744073709551616 ->
    match unmap_pages b2 (page_va i 0) (k + 1) ps cc with
    | None => ~ tables_present b
    | Some (b', c) => c = cc - nonzero ps /\
        preserves b b' (fun q => q ∈ p :: ps) (window i k (k + zlen (p :: ps))) /\
        forall j, k <= j < k + zlen (p :: ps) -> vmm_translate b' (page_va i j) = None
    end).
  { intros b2 cc Hp2 Hn2 Hcc. pose proof Hp2 as (Hok2 & Hrd2 & Hh2 & _).
    destruct (owned_tail b b2 p ps Ho) as [Ho2 _]; [intros q Hq Hne; apply Hh2; [done|by intros [? _]]|].
    specialize (IH b2 (k + 1) cc ltac:(lia) ltac:(lia) Hok2 Ho2 Hcc).
    destruct (unmap_pages b2 _ _ _ _) as [[b' c]|]; [|by intros ?%Hrd2]. destruct IH as (-> & Hp' & Hn').
    split; [done|]. split.
    - eapply preserves_trans; [exact Hp2|exact Hp'| |].
      + intros q _ Hq. split; [intros [-> _]|intros ?]; apply Hq; [by left|by right].
      + intros va Hva. split; [intros <-; apply Hva; exists k; split; [lia|done]|].
        intros (j & Hj & ->). apply Hva. exists j. split; [lia|done].
    - intros j Hj. destruct (decide (j = k)) as [->|]; [|apply Hn'; lia].
      destruct Hp' as (_ & _ & _ & ->); [done|apply page_va_window; lia|]. apply not_window; lia. }
  unfold nonzero in *. rewrite filter_cons in *. destruct (decide (p <> 0)) as [Hp|Hp].
  - replace (p =? 0) with false by lia. cbn [negb]. unfold zlen in Hc; simpl in Hc.
    rewrite u64_small by zlia. pose proof Hpr as (Hok1 & _ & Hh1 & _).
    destruct (Ho 0 p ltac:(lia) eq_refl Hp) as [Hheld _].
    pose proof (free_page_ok b1 p Hok1 (Hh1 p Hheld ltac:(by intros []))) as Hf.
    specialize (Hstep (pmm_free_page b1 p) (committed - 1)). destruct (unmap_pages _ _ _ _ _) as [[b' c]|].
    + destruct Hstep as (-> & Hrest); [..|split; [unfold zlen; simpl; lia|exact Hrest]].
      * eapply preserves_trans; [exact Hpr|exact Hf| |intros va Hva; split; [done|by intros []]].
        intros q _ Hq. split; [by intros []|intros <-; by apply Hq].
      * destruct Hf as (_ & _ & _ & ->); [done|apply page_va_window; lia|by intros []].
      * zlia.
    + apply Hstep; [|destruct Hf as (_ & _ & _ & ->); [done|apply page_va_window; lia|by intros []]|zlia].
      eapply preserves_trans; [exact Hpr|exact Hf| |intros va Hva; split; [done|by intros []]].
      intros q _ Hq. split; [by intros []|intros <-; by apply Hq].
  - replace (p =? 0) with true by lia. cbn [negb]. apply Hstep; [|done|zlia].
    destruct Hpr as (? & ? & Hh & ?). split; [done|]. split; [done|]. split; [|done].
    intros q Hq _. apply Hh; [done|by intros []].
Qed.

Lemma nonzero_set ps k p :
  0 <= k < zlen ps -> ps.[k] = 0 -> p <> 0 -> nonzero (ps.[k <- p]) = nonzero ps + 1.
Proof.
  intros Hk Hz Hp. unfold nonzero.
  assert (Hl : ps !! Z.to_nat k = Some 0) by (rewrite <- Hz; by apply arr_lookup).
  rewrite insert_take_drop by zlia.
  rewrite <- (take_drop_middle ps _ _ Hl) at 3.
  rewrite !filter_app, !filter_cons. rewrite decide_True by done. rewrite (decide_False (P := 0 <> 0)) by lia.
  unfold zlen. rewrite !length_app. simpl. lia.
Qed.

(** What the allocation loop from index [k] on makes of the page array. *)
Definition built (b b' : B) (i k : Z) (ps ps' : list Z) : Prop :=
  preserves b b' nothing (window i k (zlen ps)) /\ zlen ps' = zlen ps /\
  (forall j, 0 <= j < k -> ps'.[j] = ps.[j]) /\
  (forall j, k <= j < zlen ps -> ps'.[j] <> 0 ->
     held b' (ps'.[j]) /\ ~ held b (ps'.[j]) /\
     forall j', k <= j' < zlen ps -> ps'.[j'] = ps'.[j] -> j' = j).

Lemma built_cons b b2 b' i k p ps ps' :
  0 <= k < zlen ps -> preserves b b2 nothing (eq (page_va i k)) -> ~ held b p -> held b2 p ->
  built b2 b' i (k + 1) (ps.[k <- p]) ps' -> built b b' i k ps ps' /\ ps'.[k] = p.
Proof.
  intros Hk Hpr Hnp Hp (Hpr' & Hl & Hlow & Hhigh). rewrite zlen_set in *.
  assert (Hpk : ps'.[k] = p) by (rewrite Hlow, arr_get_set_eq by lia; done). split; [|done].
  pose proof Hpr as (_ & _ & Hh & _). pose proof Hpr' as (_ & _ & Hh' & _). split; [|split; [done|split]].
  - eapply preserves_trans; [exact Hpr|exact Hpr'|intros q _ _; split; by intros []|].
    intros va Hva. split; [intros <-; apply Hva; exists k; split; [lia|done]|].
    intros (j & Hj & ->). apply Hva. exists j. split; [lia|done].
  - intros j Hj. rewrite Hlow, arr_get_set_ne by lia. done.
  - assert (Hnew : forall j, k + 1 <= j < zlen ps -> ps'.[j] <> 0 -> ps'.[j] <> p).
    { intros j Hj Hz He. destruct (Hhigh j Hj Hz) as (_ & Hn & _). by rewrite He in Hn. }
    intros j Hj Hz. destruct (decide (j = k)) as [->|Hne].
    + rewrite Hpk in *. split; [apply Hh'; [done|by intros []]|]. split; [done|]. intros j' Hj' He.
      destruct (decide (j' = k)); [done|]. exfalso. apply (Hnew j'); [lia|by rewrite He|done].
    + destruct (Hhigh j ltac:(lia) Hz) as (H1 & H2 & H3). split; [done|]. split.
      { intros Hb. apply H2. apply Hh; [done|by intros []]. }
      intros j' Hj' He. destruct (decide (j' = k)) as [->|]; [|by apply H3; [lia|]].
      exfalso. apply (Hnew j); [lia|done|congruence].
Qed.

Lemma map_pages_spec n b i k vf ps committed :
  0 <= i < MAX_ARENAS -> 0 <= k -> zlen ps = k + Z.of_nat n -> zlen ps <= 512 -> platform_ok b ->
  Z.testbit vf 0 = true -> Z.testbit vf 2 = false ->
  0 <= committed -> committed + Z.of_nat n < 18446744073709551616 ->
  (forall j, k <= j < zlen ps -> ps.[j] = 0) ->
  match map_pages n b (page_va i 0) k vf ps committed with
  | None => ~ tables_present b
  | Some (MapDone b' c ps') => c = committed + Z.of_nat n /\ built b b' i k ps ps' /\
      forall j, k <= j < zlen ps -> ps'.[j] <> 0 /\
        exists f, vmm_translate b' (page_va i j) = Some (ps'.[j], f) /\ Z.testbit f 1 = Z.testbit vf 1
  | Some (MapNoMemory b' c ps') => c = committed + (nonzero ps' - nonzero ps) /\ built b b' i k ps ps' /\
      nonzero ps <= nonzero ps' <= nonzero ps + Z.of_nat n
  | Some (MapFailed _ _ _) => False
  end.
Proof.
  intros Hi. revert b k ps committed.
  induction n as [|n IH]; intros b k ps committed Hk Hlen H512 Hpok Hv0 Hv2 Hc Hcn Hz.
  { cbn [map_pages]. split; [lia|]. split; [|lia]. split; [by apply preserves_refl|]. split; [done|].
    split; [done|]. lia. }
  cbn [map_pages]. destruct (pmm_alloc_page b) as [[p b1]|] eqn:Ea.
  2:{ split; [lia|]. split; [|lia]. split; [by apply preserves_refl|]. split; [done|]. split; [done|].
      intros j Hj Hnz. by rewrite Hz in Hnz. }
  destruct (alloc_page_ok _ _ _ Hpok Ea) as (Hpr1 & Hfa & Hnp & Hp). rewrite page_va_word by lia.
  pose proof Hpr1 as (Hok1 & Hrd1 & _).
  pose proof (map_page_ok b1 (page_va i k) p vf Hok1 (page_va_window i k Hi ltac:(lia)) Hfa Hv0 Hv2) as Hm.
  destruct (vmm_map_page b1 (page_va i k) p vf) as [[b2 st]|]; cbn [mbind option_bind]; [|by intros ?%Hrd1].
  destruct Hm as (-> & Hpr2 & f & Htr & Hf1 & _). cbn [is_ok negb]. rewrite (u64_small (committed + 1)) by lia.
  assert (Hpr : preserves b b2 nothing (eq (page_va i k)))
    by (eapply preserves_trans; [exact Hpr1|exact Hpr2|intros q _ _; split; by intros []|split; [by intros []|done]]).
  pose proof Hpr as (Hok2 & Hrd2 & _). destruct Hpr2 as (_ & _ & Hh2 & _).
  specialize (Hh2 p Hp ltac:(by intros [])). destruct Hfa as [Hfa _].
  specialize (IH b2 (k + 1) (ps.[k <- p]) (committed + 1)). rewrite zlen_set in IH.
  specialize (IH ltac:(lia) ltac:(lia) H512 Hok2 Hv0 Hv2 ltac:(lia) ltac:(lia)).
  specialize (IH ltac:(intros j Hj; rewrite arr_get_set_ne by lia; apply Hz; lia)).
  destruct (map_pages n b2 _ _ _ _ _) as [[b' c ps'|b' c ps'|]|]; [| |done|by intros ?%Hrd2].
  - destruct IH as (-> & Hb & Hm). destruct (built_cons b b2 b' i k p ps ps' ltac:(lia) Hpr Hnp Hh2 Hb) as [Hb' Hpk].
    split; [lia|]. split; [done|]. intros j Hj. destruct (decide (j = k)) as [->|]; [|apply Hm; lia].
    rewrite Hpk. split; [lia|]. exists f. split; [|done]. destruct Hb as ((_ & _ & _ & Ht) & _).
    rewrite Ht; [done|apply page_va_window; lia|]. rewrite zlen_set. apply not_window; lia.
  - destruct IH as (-> & Hb & Hn). destruct (built_cons b b2 b' i k p ps ps' ltac:(lia) Hpr Hnp Hh2 Hb) as [Hb' _].
    rewrite nonzero_set in * by (lia || (apply Hz; lia)). split; [lia|]. split; [done|]. lia.
Qed.

(** ** Preservation *)

Definition contrib (f : xaios_arena -> Z) (a : xaios_arena) : Z := if is_ready a then f a else 0.

Lemma preserves_widen b b' lost i lo hi :
  0 <= lo -> hi <= 512 -> preserves b b' lost (window i lo hi) -> preserves b b' lost (window i 0 512).
Proof.
  intros Hlo Hhi (H1 & H2 & H3 & H4). split; [done|]. split; [done|]. split; [done|].
  intros va Ha Hv. apply H4; [done|]. intros (j & Hj & ->). apply Hv. exists j. split; [lia|done].
Qed.

Lemma uses_set m id a c n i j p :
  0 <= id < MAX_ARENAS -> zlen (g_arenas m) = MAX_ARENAS ->
  uses (mk_manager ((g_arenas m).[id <- a]) c n) i j p ->
  (i <> id /\ uses m i j p) \/
  (i = id /\ is_ready a = true /\ 0 <= j < zlen (pages a) /\ (pages a).[j] = p).
Proof.
  intros Hid Hz (Hi & Hu). unfold uses, arena in *; simpl in *. destruct (decide (i = id)) as [->|Hne].
  - right. by rewrite arr_get_set_eq in Hu by lia.
  - left. by rewrite arr_get_set_ne in Hu by lia.
Qed.

Lemma frames_update b b' m id a c n lost changed :
  frames_ok b m -> 0 <= id < MAX_ARENAS -> zlen (g_arenas m) = MAX_ARENAS ->
  preserves b b' lost changed -> (forall i j p, uses m i j p -> i <> id -> ~ lost p) ->
  (is_ready a = true -> owned b' (pages a) /\ Forall (fun p => p <> 0) (pages a) /\
     forall i j p, uses m i j p -> i <> id -> p ∉ pages a) ->
  frames_ok b' (mk_manager ((g_arenas m).[id <- a]) c n).
Proof.
  intros [Hh Hinj] Hid Hz (_ & _ & Hkeep & _) Hlost Ha.
  assert (Hel : forall j p, 0 <= j < zlen (pages a) -> (pages a).[j] = p -> p ∈ pages a).
  { intros j p Hj <-. apply list_elem_of_lookup. exists (Z.to_nat j). by apply arr_lookup. }
  assert (Hown : forall j p, is_ready a = true -> 0 <= j < zlen (pages a) -> (pages a).[j] = p ->
    held b' p /\ forall j', 0 <= j' < zlen (pages a) -> (pages a).[j'] = p -> j' = j).
  { intros j p Hr Hj Hp. destruct (Ha Hr) as (Ho & Hnz & _). apply Ho; [done|done|].
    rewrite Forall_forall in Hnz. apply Hnz. by eapply Hel. }
  split.
  - intros i j p [[Hne Hu]|(-> & Hr & Hj & Hp)]%uses_set; [|by eapply Hown|done|done].
    apply Hkeep; [by eapply Hh|by eapply Hlost].
  - intros i j i' j' p [[Hne Hu]|(-> & Hr & Hj & Hp)]%uses_set [[Hne' Hu']|(-> & Hr' & Hj' & Hp')]%uses_set; try done.
    + by eapply Hinj.
    + exfalso. destruct (Ha Hr') as (_ & _ & Hn). by eapply (Hn i j p); [..|eapply Hel].
    + exfalso. destruct (Ha Hr) as (_ & _ & Hn). by eapply (Hn i' j' p); [..|eapply Hel].
    + split; [done|]. destruct (Hown j' p Hr Hj' Hp') as [_ Hu]. by apply Hu.
Qed.

(** Replacing one arena: the others stay mapped when only its own pages changed. *)
Lemma manager_update b b' m id a' committed' active' lost :
  manager_ok b m -> 0 <= id < MAX_ARENAS -> arena_ok id a' ->
  preserves b b' lost (window id 0 512) -> (forall i j p, uses m i j p -> i <> id -> ~ lost p) ->
  (is_ready a' = true -> mapped b' id a' /\ owned b' (pages a') /\
     forall i j p, uses m i j p -> i <> id -> p ∉ pages a') ->
  committed' = g_committed_pages m - contrib page_count (arena m id) + contrib page_count a' ->
  active' = g_active_count m - contrib (fun _ => 1) (arena m id) + contrib (fun _ => 1) a' ->
  manager_ok b' (mk_manager ((g_arenas m).[id <- a']) committed' active').
Proof.
  intros (Hpok & Hz & Ha & Hcom & Hact & Hfr) Hid Hok Hpr Hlost Hnew -> ->.
  assert (Hlt : (Z.to_nat id < List.length (g_arenas m))%nat) by (unfold MAX_ARENAS, zlen in *; lia).
  split; [apply Hpr|]. split; [by rewrite <- Hz; apply zlen_set|]. split; [|split; [|split]].
  - intros i Hi. unfold arena; simpl. destruct (decide (i = id)) as [->|Hne].
    + rewrite arr_get_set_eq by lia. split; [done|]. intros Hr. by apply Hnew.
    + rewrite arr_get_set_ne by lia. destruct (Ha i Hi) as [Hoki Hmi]. split; [done|].
      intros Hr j Hj. fold (arena m i) in *. destruct (Hoki Hr) as (_ & _ & H512 & _).
      destruct (Hmi Hr j Hj) as (f & Ht & Hb). exists f. split; [|done]. destruct Hpr as (_ & _ & _ & ->);
        [done|apply page_va_window; lia|apply not_window; lia].
  - simpl. rewrite sum_ready_insert, Hcom by done. done.
  - simpl. rewrite sum_ready_insert, Hact by done. done.
  - eapply frames_update; try done. intros Hr. destruct (Hnew Hr) as (_ & H1 & H2). split; [done|]. split; [|done].
    by apply Hok.
Qed.

Lemma manager_frame b b' m : manager_ok b m -> preserves b b' nothing nothing -> manager_ok b' m.
Proof.
  intros (Hpok & Hz & Ha & Hcom & Hact & Hh & Hinj) (Hok & _ & Hkeep & Htr).
  split; [done|]. split; [done|]. split; [|split; [done|split; [done|split; [|done]]]].
  - intros i Hi. destruct (Ha i Hi) as [Hoki Hm]. split; [done|]. intros Hr j Hj.
    destruct (Hoki Hr) as (_ & _ & H512 & _).
    destruct (Hm Hr j Hj) as (f & Ht & Hb). exists f. rewrite Htr; [done|apply page_va_window; lia|by intros []].
  - intros i j p Hu. apply Hkeep; [by eapply Hh|by intros []].
Qed.

(** The pages of a ready arena are its own. *)
Lemma ready_owned b m id :
  manager_ok b m -> 0 <= id < MAX_ARENAS -> is_ready (arena m id) = true ->
  owned b (pages (arena m id)) /\
  forall i j p, uses m i j p -> i <> id -> p ∉ pages (arena m id).
Proof.
  intros (_ & _ & _ & _ & _ & Hh & Hinj) Hid Hr. split.
  - intros j p Hj Hp _. split; [by apply (Hh id j)|]. intros j' Hj' Hp'.
    by destruct (Hinj id j' id j p).
  - intros i j p Hu Hne [n Hn]%list_elem_of_lookup. pose proof (lookup_lt_Some _ _ _ Hn).
    apply Hne. destruct (Hinj i j id (Z.of_nat n) p Hu) as [? _]; [|done].
    split; [done|]. split; [done|]. split; [zlia|]. rewrite Nat2Z.id. by apply list_lookup_total_correct.
Qed.

Lemma committed_bound b m :
  manager_ok b m -> 0 <= g_committed_pages m <= 16384 /\
  forall i, 0 <= i < MAX_ARENAS -> is_ready (arena m i) = true ->
    zlen (pages (arena m i)) <= g_committed_pages m.
Proof.
  intros (_ & Hz & Ha & Hcom & _). rewrite Hcom.
  assert (Hok : forall a, is_ready a = true -> a ∈ g_arenas m -> 0 <= page_count a <= 512).
  { intros a Hr [n Hn]%list_elem_of_lookup. pose proof (lookup_lt_Some _ _ _ Hn).
    assert (He : arena m (Z.of_nat n) = a)
      by (unfold arena; rewrite Nat2Z.id; by apply list_lookup_total_correct).
    destruct (Ha (Z.of_nat n) ltac:(unfold zlen, MAX_ARENAS in *; lia)) as [Hok _]. rewrite He in Hok.
    destruct (Hok Hr) as (_ & -> & ? & _). unfold zlen in *. lia. }
  split.
  - split; [apply sum_ready_nonneg; intros; by apply Hok|].
    assert (H : sum_ready page_count (g_arenas m) <= 512 * zlen (g_arenas m)); [|unfold MAX_ARENAS in *; lia].
    clear -Hok. induction (g_arenas m) as [|a l IH]; [done|]. simpl. unfold zlen in *. simpl.
    specialize (IH ltac:(intros; apply Hok; [done|by right])).
    destruct (is_ready a) eqn:E; [pose proof (Hok a E ltac:(left))|]; lia.
  - intros i Hi Hr. destruct (Ha i Hi) as [Hoki _]. destruct (Hoki Hr) as (_ & <- & _).
    assert (Hlt : (Z.to_nat i < List.length (g_arenas m))%nat) by (unfold MAX_ARENAS, zlen in *; lia).
    pose proof (sum_ready_insert page_count (g_arenas m) (Z.to_nat i) (blank_arena 0) Hlt) as Hs.
    assert (0 <= sum_ready page_count (<[Z.to_nat i := blank_arena 0]> (g_arenas m))).
    { apply sum_ready_nonneg. intros a Hra Hin. apply list_elem_of_lookup in Hin as [n Hn].
      apply list_lookup_insert_Some in Hn as [(_ & <- & _)|[_ Hn]]; [done|].
      apply Hok; [done|by eapply list_elem_of_lookup_2]. }
    unfold arena in *. rewrite Hr in Hs. simpl in Hs. lia.
Qed.

Lemma nonzero_all ps : Forall (fun p => p <> 0) ps -> nonzero ps = zlen ps.
Proof.
  intros H. unfold nonzero. f_equal. induction H as [|p ps Hp _ IH]; [done|].
  by rewrite filter_cons_True, IH.
Qed.

Lemma active_bound b m id :
  manager_ok b m -> 0 <= id < MAX_ARENAS -> is_ready (arena m id) = true -> 1 <= g_active_count m <= 32.
Proof.
  intros (_ & Hz & _ & _ & -> & _) Hi Hr.
  assert (Hlt : (Z.to_nat id < List.length (g_arenas m))%nat) by (unfold MAX_ARENAS, zlen in *; lia).
  pose proof (sum_ready_insert (fun _ => 1) (g_arenas m) (Z.to_nat id) (blank_arena 0) Hlt) as Hs.
  assert (0 <= sum_ready (fun _ => 1) (<[Z.to_nat id := blank_arena 0]> (g_arenas m)))
    by (apply sum_ready_nonneg; lia).
  pose proof (sum_ready_count (g_arenas m)).
  unfold arena in Hr. rewrite Hr in Hs. simpl in Hs. unfold MAX_ARENAS in *. lia.
Qed.

Lemma arena_destroy_ok b m id :
  manager_ok b m -> 0 <= id ->
  match arena_destroy b m id with
  | None => ~ tables_present b
  | Some (b', m', st) => manager_ok b' m' /\ (tables_present b -> tables_present b') /\
      (st = XAIOS_OK -> state (arena m' id) = XAIOS_ARENA_DESTROYED /\
         g_committed_pages m' = g_committed_pages m - page_count (arena m id) /\
         forall j, 0 <= j < page_count (arena m id) -> vmm_translate b' (page_va id j) = None)
  end.
Proof.
  intros Hok Hid. unfold arena_destroy. destruct (not_ready m id || _) eqn:E; [done|].
  apply orb_false_iff in E as [E _]. unfold not_ready in E. apply orb_false_iff in E as [E1 E2].
  apply negb_false_iff in E2. assert (Hi : 0 <= id < MAX_ARENAS) by lia.
  pose proof (committed_bound b m Hok) as [Hcb Hle]. specialize (Hle id Hi E2).
  pose proof Hok as (Hpok & Hz & Ha & _). destruct (Ha id Hi) as [Hoki _].
  destruct (Hoki E2) as (Hbase & Hpc & H512 & Hnz). destruct (ready_owned b m id Hok Hi E2) as [Hown Hoth].
  pose proof (active_bound b m id Hok Hi E2) as Hact. rewrite Hbase.
  pose proof (unmap_pages_spec b id 0 (pages (arena m id)) (g_committed_pages m) Hi ltac:(lia) ltac:(lia) Hpok Hown
    ltac:(rewrite nonzero_all by done; lia)) as Hu.
  destruct (unmap_pages _ _ _ _ _) as [[b' c]|]; [|done]. cbn [mbind option_bind].
  rewrite nonzero_all in Hu by done. destruct Hu as (-> & Hpr & Hnone). split; [|split; [by apply Hpr|]].
  - eapply (manager_update b); [done|done|by intros|by eapply preserves_widen; [| |exact Hpr]| |by intros| |].
    + intros i j p Hu Hne. by eapply Hoth.
    + unfold contrib. rewrite E2, Hpc. simpl. lia.
    + unfold contrib. rewrite E2. simpl. rewrite u64_small; lia.
  - intros _. rewrite Hpc. split; [unfold arena; simpl; by rewrite arr_get_set_eq by lia|]. split; [done|].
    intros j Hj. apply Hnone. lia.
Qed.

Lemma vmm_flags_bits fl :
  Z.testbit (vmm_flags_from_arena fl) 0 = true /\ Z.testbit (vmm_flags_from_arena fl) 2 = false /\
  Z.testbit (vmm_flags_from_arena fl) 1 = (Z.land fl XAIOS_ARENA_FLAG_READ_ONLY =? 0).
Proof.
  unfold vmm_flags_from_arena.
  by destruct (Z.land fl XAIOS_ARENA_FLAG_READ_ONLY =? 0), (Z.land fl XAIOS_ARENA_FLAG_USER_VISIBLE =? 0).
Qed.

Lemma page_count_bounds sz :
  0 < sz <= ARENA_VA_STRIDE -> 1 <= align_up sz PAGE_SIZE / PAGE_SIZE <= 512 /\
  sz <= align_up sz PAGE_SIZE / PAGE_SIZE * PAGE_SIZE.
Proof.
  unfold ARENA_VA_STRIDE, PAGE_SIZE. intros Hs.
  pose proof (align_up_bounds sz 12 ltac:(lia) ltac:(lia) ltac:(lia)) as [Hb Hm].
  change (2 ^ 12) with 4096 in *. pose proof (Z.div_mod (align_up sz 4096) 4096 ltac:(lia)). lia.
Qed.

(** A fresh array is owned once built, and shares no frame with the other arenas. *)
Lemma built_owned b b' m i n ps' :
  manager_ok b m -> built b b' i 0 (replicate n 0) ps' ->
  owned b' ps' /\ forall i' j p, uses m i' j p -> p <> 0 -> p ∉ ps'.
Proof.
  intros (_ & _ & _ & _ & _ & Hh & _) (_ & Hl & _ & Hb). rewrite <- Hl in Hb. split.
  - intros j p Hj <- Hz. destruct (Hb j ltac:(lia) Hz) as (H1 & _ & H3). split; [done|]. intros j' Hj' He.
    apply H3; [lia|done].
  - intros i' j p Hu Hz [k Hk]%list_elem_of_lookup. pose proof (lookup_lt_Some _ _ _ Hk).
    assert (He : ps'.[Z.of_nat k] = p) by (rewrite Nat2Z.id; by apply list_lookup_total_correct).
    destruct (Hb (Z.of_nat k) ltac:(zlia)) as (_ & H2 & _); [by rewrite He|].
    apply H2. rewrite He. by eapply Hh.
Qed.

Lemma uses_nonzero b m i j p : manager_ok b m -> uses m i j p -> p <> 0.
Proof.
  intros (_ & _ & Ha & _) (Hi & Hr & Hj & <-). destruct (Ha i Hi) as [Hok _].
  destruct (Hok Hr) as (_ & _ & _ & Hnz). rewrite Forall_forall in Hnz. apply Hnz.
  apply list_elem_of_lookup. exists (Z.to_nat j). by apply arr_lookup.
Qed.

(** The undo path returns every frame taken and unmaps the slot. *)
Lemma create_failed_ok b b2 m id a n ps c st :
  manager_ok b m -> 0 <= id < MAX_ARENAS -> is_ready (arena m id) = false -> base a = page_va id 0 ->
  built b b2 id 0 (replicate n 0) ps -> zlen ps <= 512 -> c = g_committed_pages m + nonzero ps ->
  match create_failed b2 m id a ps c st with
  | None => ~ tables_present b
  | Some (b', m', st') => st' = st /\ manager_ok b' m' /\ (tables_present b -> tables_present b') /\
      g_committed_pages m' = g_committed_pages m /\ g_active_count m' = g_active_count m
  end.
Proof.
  intros Hok Hi Hnr Hbase Hb H512 ->. pose proof (committed_bound b m Hok) as [Hcb _].
  destruct (built_owned b b2 m id n ps Hok Hb) as [Hown Hoth]. destruct Hb as (Hpr & Hl & _).
  pose proof Hpr as (Hok2 & Hrd & _). unfold create_failed. rewrite Hbase.
  assert (0 <= nonzero ps <= 512).
  { unfold nonzero, zlen in *. pose proof (length_filter (fun p : Z => p <> 0) ps). lia. }
  pose proof (unmap_pages_spec b2 id 0 ps (g_committed_pages m + nonzero ps) Hi ltac:(lia) ltac:(lia) Hok2 Hown
    ltac:(lia)) as Hu.
  destruct (unmap_pages _ _ _ _ _) as [[b3 c]|]; cbn [mbind option_bind]; [|by intros ?%Hrd].
  destruct Hu as (-> & Hpr3 & _). split; [done|]. split; [|split; [intros ?%Hrd; by apply Hpr3|split; [|done]]].
  2:{ cbn [g_committed_pages]. lia. }
  eapply (manager_update b b3 m id _ _ _ (fun p => p ∈ ps));
    [done|done|by intros| |intros i j p Hu _; eapply Hoth; [done|by eapply uses_nonzero]|by intros| |].
  - eapply preserves_trans; [exact Hpr|exact Hpr3|intros q _ Hq; split; [by intros []|done]|].
    intros va Hva. split; intros (j & Hj & ->); apply Hva; exists j; (split; [lia|done]).
  - unfold contrib. rewrite Hnr. simpl. lia.
  - unfold contrib. rewrite Hnr. simpl. lia.
Qed.

Lemma arena_create_ok b m id knd owner nm sz flgs :
  manager_ok b m -> 0 <= id -> 0 <= sz <= ARENA_VA_STRIDE ->
  match arena_create b m id knd owner nm sz flgs with
  | None => ~ tables_present b
  | Some (b', m', st) => manager_ok b' m' /\ (tables_present b -> tables_present b') /\
      (st = XAIOS_OK -> is_ready (arena m' id) = true /\
         sz <= page_count (arena m' id) * PAGE_SIZE /\
         flags (arena m' id) = Z.lor flgs XAIOS_ARENA_FLAG_PREFaultED) /\
      (st <> XAIOS_OK -> g_committed_pages m' = g_committed_pages m /\ g_active_count m' = g_active_count m)
  end.
Proof.
  intros Hok Hid Hsz. unfold arena_create.
  destruct (is_ok (arena_validate_create m id knd nm sz)) eqn:Ev; cbn [negb]; [|done].
  apply is_ok_true in Ev. unfold arena_validate_create in Ev.
  destruct ((MAX_ARENAS <=? id) || _ || _ || _ || _) eqn:Eg; [done|].
  rewrite !orb_false_iff in Eg. destruct Eg as ((((Eid & _) & _) & Esz) & Enr).
  assert (Hi : 0 <= id < MAX_ARENAS) by lia.
  pose proof (page_count_bounds sz ltac:(lia)) as [Hcnt Hcov].
  set (count := align_up sz PAGE_SIZE / PAGE_SIZE) in *.
  pose proof Hok as (Hpok & _). pose proof (calloc_ok b (u64 (8 * count)) Hpok (u64_range _)) as Hcal.
  destruct (kheap_calloc b _ _) as [[b1 ptr]|]; [|done].
  assert (Hok1 : manager_ok b1 m) by (by eapply manager_frame).
  destruct ptr as [ptr|]; [|split; [done|]; split; [by apply Hcal|done]].
  pose proof (committed_bound b1 m Hok1) as [Hcb _].
  assert (Hbase : u64 (ARENA_VA_BASE + u64 (id * ARENA_VA_STRIDE)) = page_va id 0).
  { unfold page_va, ARENA_VA_BASE, ARENA_VA_STRIDE, MAX_ARENAS, PAGE_SIZE in *.
    rewrite (u64_small (id * _)), u64_small; lia. }
  cbn [base flags]. rewrite Hbase.
  pose proof (vmm_flags_bits (Z.lor flgs XAIOS_ARENA_FLAG_PREFaultED)) as (Hf0 & Hf2 & Hf1).
  assert (Hzl : zlen (replicate (Z.to_nat count) 0) = count)
    by (unfold zlen; rewrite length_replicate; lia).
  assert (Hnz : nonzero (replicate (Z.to_nat count) 0) = 0).
  { unfold nonzero. clear. by induction (Z.to_nat count). }
  pose proof (map_pages_spec (Z.to_nat count) b1 id 0
    (vmm_flags_from_arena (Z.lor flgs XAIOS_ARENA_FLAG_PREFaultED))
    (replicate (Z.to_nat count) 0) (g_committed_pages m) Hi ltac:(lia) ltac:(lia) ltac:(lia) ltac:(apply Hok1)
    Hf0 Hf2 ltac:(lia) ltac:(lia) ltac:(intros; apply arr_get_replicate; lia)) as Hm.
  pose proof Hcal as (_ & Hrd1 & _).
  destruct (map_pages _ _ _ _ _ _ _) as [[b2 c ps|b2 c ps|]|]; [| |done|by intros ?%Hrd1].
  - destruct Hm as (-> & Hb & Hm). destruct (built_owned b1 b2 m id _ ps Hok1 Hb) as [Hown Hoth].
    destruct Hb as (Hpr & Hl & _). rewrite Hzl in *. split; [|split; [intros ?%Hrd1; by apply Hpr|split; [|done]]].
    + eapply (manager_update b1 b2 m id _ _ _ nothing);
        [done|done| |by eapply preserves_widen; [| |exact Hpr]; lia|intros; by intros []| | |].
      * intros _. simpl. split; [done|]. split; [lia|]. split; [lia|]. apply Forall_lookup. intros n x Hx.
        pose proof (lookup_lt_Some _ _ _ Hx). destruct (Hm (Z.of_nat n) ltac:(zlia)) as [Hne _].
        by rewrite Nat2Z.id, (list_lookup_total_correct _ _ _ Hx) in Hne.
      * intros _. split; [|split; [done|intros i j p Hu _; eapply Hoth; [done|by eapply uses_nonzero]]].
        intros j Hj. cbn [pages flags with_state] in Hj |- *.
        destruct (Hm j ltac:(lia)) as (_ & f & Ht & Hbt). exists f. by rewrite Hbt.
      * unfold contrib. rewrite Enr. simpl. lia.
      * unfold contrib. rewrite Enr. simpl. rewrite u64_small; [lia|].
        destruct Hok1 as (_ & Hz & _ & _ & -> & _).
        pose proof (sum_ready_nonneg (fun _ => 1) (g_arenas m) ltac:(lia)).
        pose proof (sum_ready_count (g_arenas m)). unfold MAX_ARENAS in *. lia.
    + intros _. unfold arena; simpl. rewrite arr_get_set_eq by (destruct Hok1 as (_ & -> & _); lia). done.
  - destruct Hm as (-> & Hb & _). rewrite Hnz. pose proof Hb as (_ & Hl & _).
    match goal with |- context [create_failed b2 m id ?a ps ?c ?st] =>
      pose proof (create_failed_ok b1 b2 m id a _ ps c st Hok1 Hi Enr eq_refl Hb ltac:(lia) ltac:(lia)) as Hf;
      destruct (create_failed b2 m id a ps c st) as [[[b3 m3] st3]|] end; [|by intros ?%Hrd1].
    destruct Hf as (-> & Hf & Hrd & Hcc & Hca). split; [done|]. split; [auto|]. done.
Qed.

Lemma keep_ready_ok b m id a :
  manager_ok b m -> 0 <= id < MAX_ARENAS -> is_ready (arena m id) = true ->
  is_ready a = true -> base a = base (arena m id) -> page_count a = page_count (arena m id) ->
  flags a = flags (arena m id) -> pages a = pages (arena m id) ->
  manager_ok b (set_arena m id a).
Proof.
  intros Hok Hi Hr Hra Hb Hc Hf Hp. pose proof Hok as (Hpok & _ & Ha & _). destruct (Ha id Hi) as [Hoki Hm].
  destruct (ready_owned b m id Hok Hi Hr) as [Hown Hoth].
  apply (manager_update b b m id a _ _ nothing); [done|done| |by apply preserves_refl|intros; by intros []| | |].
  - intros _. rewrite Hb, Hc, Hp. by apply Hoki.
  - intros _. rewrite Hp. split; [|done]. unfold mapped. rewrite Hp, Hf. by apply Hm.
  - unfold contrib. rewrite Hr, Hra, Hc. lia.
  - unfold contrib. rewrite Hr, Hra. lia.
Qed.

Lemma ready_in_range m id :
  0 <= id -> not_ready m id = false -> 0 <= id < MAX_ARENAS /\ is_ready (arena m id) = true.
Proof.
  unfold not_ready. intros Hid H. apply orb_false_iff in H as [H1 H2].
  apply negb_false_iff in H2. split; [lia|done].
Qed.

End Loops.

(** ** Properties *)

Inductive arena_op :=
| OCreate (id knd owner : Z) (nm : option string) (sz flgs : Z)
| OAcquire (id : Z)
| ORelease (id : Z)
| ODestroy (id : Z)
| OFault (id : Z).

Definition op_ok (op : arena_op) : Prop :=
  match op with
  | OCreate id _ _ _ sz _ => 0 <= id /\ 0 <= sz <= ARENA_VA_STRIDE
  | OAcquire id | ORelease id | ODestroy id | OFault id => 0 <= id
  end.

Definition arena_step {B} `{!Platform B} (b : B) (m : arena_manager) (op : arena_op)
    : option (B * arena_manager * xaios_status) :=
  match op with
  | OCreate id k o nm sz fl => arena_create b m id k o nm sz fl
  | OAcquire id => Some (b, (arena_acquire m id).1, (arena_acquire m id).2)
  | ORelease id => Some (b, (arena_release m id).1, (arena_release m id).2)
  | ODestroy id => arena_destroy b m id
  | OFault id => Some (b, (arena_record_fault m id).1, (arena_record_fault m id).2)
  end.

Fixpoint arena_run {B} `{!Platform B} (b : B) (m : arena_manager) (ops : list arena_op)
    : option (B * arena_manager) :=
  match ops with
  | [] => Some (b, m)
  | op :: ops' =>
      match arena_step b m op with
      | Some (b1, m1, _) => arena_run b1 m1 ops'
      | None => None
      end
  end.

Lemma arena_step_ok {B} `{!Platform B} `{!PlatformLaws B} (b : B) m op :
  manager_ok b m -> op_ok op ->
  match arena_step b m op with
  | None => ~ tables_present b
  | Some (b', m', _) => manager_ok b' m' /\ (tables_present b -> tables_present b')
  end.
Proof.
  intros Hok Hop. destruct op as [id k o nm sz fl|id|id|id|id]; simpl in *.
  - destruct Hop as [Hid Hsz]. pose proof (arena_create_ok b m id k o nm sz fl Hok Hid Hsz) as H.
    destruct (arena_create _ _ _ _ _ _ _ _) as [[[b' m'] st]|]; [|done]. by destruct H as (? & ? & _).
  - split; [|done]. unfold arena_acquire.
    destruct (not_ready m id) eqn:E; [done|]. apply ready_in_range in E as [Hi Hr]; [|done].
    by apply keep_ready_ok.
  - split; [|done]. unfold arena_release.
    destruct (not_ready m id) eqn:E; [done|]. apply ready_in_range in E as [Hi Hr]; [|done].
    simpl. case_if; [done|]. by apply keep_ready_ok.
  - pose proof (arena_destroy_ok b m id Hok Hop) as H.
    destruct (arena_destroy b m id) as [[[b' m'] st]|]; [|done]. by destruct H as (? & ? & _).
  - split; [|done]. unfold arena_record_fault.
    destruct (not_ready m id) eqn:E; [done|]. apply ready_in_range in E as [Hi Hr]; [|done].
    by apply keep_ready_ok.
Qed.

Lemma arena_run_ok {B} `{!Platform B} `{!PlatformLaws B} (ops : list arena_op) (b : B) m :
  manager_ok b m -> Forall op_ok ops ->
  match arena_run b m ops with
  | None => ~ tables_present b
  | Some (b', m') => manager_ok b' m' /\ (tables_present b -> tables_present b')
  end.
Proof.
  intros Hok Hops. revert b m Hok. induction Hops as [|op ops Hop _ IH]; intros b m Hok; [done|].
  cbn [arena_run]. pose proof (arena_step_ok b m op Hok Hop) as Hs.
  destruct (arena_step b m op) as [[[b1 m1] st]|]; [|done]. destruct Hs as [Hok1 Hrd].
  specialize (IH b1 m1 Hok1). destruct (arena_run b1 m1 ops) as [[b' m']|]; [|by intros ?%Hrd].
  destruct IH. split; [done|auto].
Qed.

(** A small platform: frames handed out in order, page tables as a finite map. *)
Record flat := mk_flat { next_frame : Z; table : gmap Z (Z * Z) }.

Definition FLAT_LIMIT : Z := 4096 * 4096.

#[global] Instance flat_platform : Platform flat := {|
  pmm_alloc_page b :=
    if next_frame b <? FLAT_LIMIT
    then Some (next_frame b, mk_flat (next_frame b + PAGE_SIZE) (table b)) else None;
  pmm_free_page b _ := b;
  kheap_calloc b n _ := Some (b, if n =? 0 then None else Some 1241514000);
  vmm_map_page b va pa fl :=
    if (va mod PAGE_SIZE =? 0) && (pa mod PAGE_SIZE =? 0) && Z.testbit fl 0
    then Some (mk_flat (next_frame b) (<[va := (pa, fl)]> (table b)), XAIOS_OK)
    else Some (b, XAIOS_ERR_INVALID);
  vmm_unmap_page b va :=
    if va mod PAGE_SIZE =? 0 then Some (mk_flat (next_frame b) (delete va (table b)), XAIOS_OK)
    else Some (b, XAIOS_ERR_INVALID);
  vmm_translate b va := table b !! va;
  platform_ok b := 0 < next_frame b /\ next_frame b mod PAGE_SIZE = 0;
  held b p := p < next_frame b;
  tables_present _ := True
|}.

#[global] Instance flat_laws : PlatformLaws flat.
Proof.
  constructor; unfold preserves; simpl.
  - intros b p b' [H1 H2] H. destruct (Z.ltb_spec (next_frame b) FLAT_LIMIT); [|done]. simplify_eq. simpl.
    unfold frame_addr, FLAT_LIMIT, PAGE_SIZE in *. split_and!; try done; try (intros; lia); dlia.
  - intros b p [H1 H1'] H2. by split_and!.
  - intros b n [H1 H1'] H2. by split_and!.
  - intros b va pa fl Hok [_ Hva] [_ Hpa] H0 H2. rewrite Hva, Hpa, H0. simpl. rewrite lookup_insert_eq.
    split; [done|]. split; [|by exists fl]. split_and!; try done; try apply Hok.
    intros va' _ Hne. rewrite lookup_insert_ne; [done|congruence].
  - intros b va Hok [_ Hva]. rewrite Hva. simpl. rewrite lookup_delete_eq. split; [done|]. split; [|done].
    split_and!; try done; try apply Hok. intros va' _ Hne. rewrite lookup_delete_ne; [done|congruence].
Qed.

Definition fresh_manager : arena_manager := mk_manager (blank_arena <$> seqZ 0 32) 0 0.

Lemma fresh_not_ready i : 0 <= i < MAX_ARENAS -> is_ready (arena fresh_manager i) = false.
Proof.
  intros Hi. apply negb_true_iff.
  apply (forallb_below (fun i => negb (is_ready (arena fresh_manager i))) 32); [|done].
  vm_compute. reflexivity.
Qed.

Lemma fresh_manager_ok {B} `{!Platform B} (b : B) : platform_ok b -> manager_ok b fresh_manager.
Proof.
  intros Hok. assert (Hu : forall i j p, ~ uses fresh_manager i j p)
    by (intros i j p (Hi & Hr & _); by rewrite fresh_not_ready in Hr).
  split; [done|]. split; [done|]. split; [|split; [done|split; [done|split]]].
  - intros i Hi. unfold arena_ok. by rewrite fresh_not_ready.
  - intros i j p Hp. by destruct (Hu i j p).
  - intros i j i' j' p Hp. by destruct (Hu i j p).
Qed.

Lemma flat_start_ok : platform_ok (mk_flat 4096 ∅).
Proof. done. Qed.

(** C39: the arena manager keeps its books.  Under any sequence of create (of at most one
    2 MiB slot), acquire, release, destroy and fault calls an assertion can only fail while
    page tables of the arena region are still missing; every ready arena stays mapped page
    by page, writable unless it is read-only, to frames it holds and shares with no other
    page of any arena; and the committed-page and active counters equal the pages and
    number of the ready arenas, failed creations included. *)
Theorem arena_books_balance {B} `{!Platform B} `{!PlatformLaws B}
    (ops : list arena_op) (b : B) (m : arena_manager) :
  manager_ok b m -> Forall op_ok ops ->
  match arena_run b m ops with
  | None => ~ tables_present b
  | Some (b', m') => manager_ok b' m'
  end.
Proof.
  intros Hok Hops. pose proof (arena_run_ok ops b m Hok Hops) as H.
  destruct (arena_run b m ops) as [[b' m']|]; [|done]. by destruct H.
Qed.

Lemma arena_books_balance_witness :
  match arena_run (mk_flat 4096 ∅) fresh_manager
      [OCreate 20 1 0 (Some "model"%string) 8192 1; OAcquire 20; ODestroy 20; ORelease 20;
       OCreate 3 2 7 (Some "kv"%string) 5000 0; ODestroy 20] with
  | None => ~ tables_present (mk_flat 4096 ∅)
  | Some (b', m') => manager_ok b' m'
  end.
Proof.
  apply (arena_books_balance
      [OCreate 20 1 0 (Some "model"%string) 8192 1; OAcquire 20; ODestroy 20; ORelease 20;
       OCreate 3 2 7 (Some "kv"%string) 5000 0; ODestroy 20] (mk_flat 4096 ∅) fresh_manager).
  - apply fresh_manager_ok, flat_start_ok.
  - rewrite !Forall_cons. unfold op_ok, ARENA_VA_STRIDE. split_and!; try lia. by apply Forall_nil.
Defined.

Lemma ready_is_valid b m id :
  0 <= id -> zlen (g_arenas m) = b -> is_ready (arena m id) = true -> 0 <= id < b.
Proof.
  intros Hid Hz Hr. split; [done|]. apply Z.nle_gt. intros Hge. unfold arena in Hr.
  rewrite list_lookup_total_alt, lookup_ge_None_2 in Hr by zlia. done.
Qed.

(** Creation and destruction are inverse on memory.  A creation that succeeds covers the
    requested size with mapped pages and sets the prefault flag; one that fails changes
    neither counter; a destruction that succeeds leaves none of the arena's pages mapped
    and takes exactly its pages off the committed count.  Both return a status whenever the
    page tables of the arena region are present. *)
Theorem arena_create_destroy {B} `{!Platform B} `{!PlatformLaws B}
    (b : B) (m : arena_manager) (id knd owner sz flgs : Z) (nm : option string) :
  manager_ok b m -> 0 <= id -> 0 <= sz <= ARENA_VA_STRIDE ->
  match arena_create b m id knd owner nm sz flgs with
  | None => ~ tables_present b
  | Some (b', m', st) =>
      (st = XAIOS_OK -> mapped b' id (arena m' id) /\ sz <= page_count (arena m' id) * PAGE_SIZE /\
         Z.testbit (flags (arena m' id)) 2 = true) /\
      (st <> XAIOS_OK -> g_committed_pages m' = g_committed_pages m /\
         g_active_count m' = g_active_count m)
  end /\
  match arena_destroy b m id with
  | None => ~ tables_present b
  | Some (b', m', st) =>
      st = XAIOS_OK -> state (arena m' id) = XAIOS_ARENA_DESTROYED /\
        g_committed_pages m' = g_committed_pages m - page_count (arena m id) /\
        forall j, 0 <= j < page_count (arena m id) -> vmm_translate b' (page_va id j) = None
  end.
Proof.
  intros Hok Hid Hsz. split.
  - pose proof (arena_create_ok b m id knd owner nm sz flgs Hok Hid Hsz) as H.
    destruct (arena_create _ _ _ _ _ _ _ _) as [[[b' m'] st]|]; [|done].
    destruct H as ((_ & Hz & Ha & _) & _ & Hs & Hf). split; [|done]. intros ->.
    destruct (Hs eq_refl) as (Hr & Hcov & Hfl). pose proof (ready_is_valid _ _ _ Hid Hz Hr) as Hi.
    split_and!; [by apply Ha|done|]. rewrite Hfl, Z.lor_spec. apply orb_true_r.
  - pose proof (arena_destroy_ok b m id Hok Hid) as H.
    destruct (arena_destroy b m id) as [[[b' m'] st]|]; [|done]. by destruct H as (_ & _ & ?).
Qed.

Lemma arena_create_destroy_witness :
  exists b' m', arena_create (mk_flat 4096 ∅) fresh_manager 3 2 7 (Some "kv"%string) 5000 0
      = Some (b', m', XAIOS_OK) /\ mapped b' 3 (arena m' 3) /\ 5000 <= page_count (arena m' 3) * PAGE_SIZE.
Proof.
  pose proof (proj1 (arena_create_destroy (mk_flat 4096 ∅) fresh_manager 3 2 7 5000 0 (Some "kv"%string)
    (fresh_manager_ok _ flat_start_ok) ltac:(lia) ltac:(unfold ARENA_VA_STRIDE; lia))) as H.
  eexists _, _. split; [vm_compute; reflexivity|].
  destruct (proj1 H eq_refl) as (H1 & H2 & _). split; [exact H1|exact H2].
Defined.

(** Validation only compares with the end of the arena region: 4 MiB are accepted for
    arena 0 although its page 512 is page 0 of arena 1. *)
Lemma arena_slots_overlap :
  arena_validate_create fresh_manager 0 2 (Some "kv"%string) (4 * 1024 * 1024) = XAIOS_OK /\
  arena_validate_create fresh_manager 1 2 (Some "kv"%string) 4096 = XAIOS_OK /\
  page_va 0 512 = page_va 1 0.
Proof. vm_compute. done. Qed.

End Arena.

(** ** The interface offered to the sandboxes *)

(** Creation of a build arena: [None] is a failed assertion; the inner option is the
    arena's base address when creation succeeded. *)
Class ArenaService (A : Type) := {
  arena_new : A -> Z -> Z -> Z -> option (A * option Z);
  service_ok : A -> Prop;
  service_ready : A -> Prop
}.

Class ArenaServiceLaws (A : Type) `{!ArenaService A} : Prop := {
  arena_new_ok a id owner sz :
    service_ok a -> 0 <= id -> 0 < sz <= 262144 ->
    match arena_new a id owner sz with
    | None => ~ service_ready a
    | Some (a', r) => service_ok a' /\ (service_ready a -> service_ready a') /\
        forall base, r = Some base -> 0 < base
    end
}.

#[global] Instance arena_service {B} `{!Platform B} : ArenaService (B * Arena.arena_manager) := {|
  arena_new '(b, m) id owner sz :=
    match Arena.arena_create b m id 4 owner (Some "sandbox-build"%string) sz 0 with
    | Some (b', m', st) =>
        Some ((b', m'), if is_ok st then Some (Arena.base (Arena.arena m' id)) else None)
    | None => None
    end;
  service_ok '(b, m) := Arena.manager_ok b m;
  service_ready '(b, _) := tables_present b
|}.

#[global] Instance arena_service_laws {B} `{!Platform B} `{!PlatformLaws B} :
  ArenaServiceLaws (B * Arena.arena_manager).
Proof.
  constructor. intros [b m] id owner sz Hok Hid Hsz. simpl in *.
  pose proof (Arena.arena_create_ok b m id 4 owner (Some "sandbox-build"%string) sz 0 Hok Hid
    ltac:(unfold Arena.ARENA_VA_STRIDE; lia)) as H.
  destruct (Arena.arena_create _ _ _ _ _ _ _ _) as [[[b' m'] st]|]; [|done].
  destruct H as (Hok' & Hrd & Hs & _). split; [done|]. split; [done|]. intros base Hb.
  destruct (is_ok st) eqn:Est; [|done]. apply is_ok_true in Est. simplify_eq.
  destruct (Hs eq_refl) as (Hr & _). destruct Hok' as (_ & Hz & Ha & _).
  pose proof (Arena.ready_is_valid _ _ _ Hid Hz Hr) as Hi.
  destruct (Ha id Hi) as [Hoki _]. destruct (Hoki Hr) as (-> & _).
  unfold Arena.page_va, Arena.ARENA_VA_BASE, Arena.ARENA_VA_STRIDE, PAGE_SIZE. lia.
Qed.
