(* ===== verification/Memory.v ===== *)
(** * The memory subsystem as one platform

    Pmm.v, Mmu.v and Kheap.v together are an instance of the interface [Platform] of
    Arena.v: the arena manager's calls of [pmm_alloc_page], [pmm_free_page],
    [kheap_calloc], [vmm_map_page], [vmm_unmap_page] and [vmm_translate] are those of
    kernel/mm/pmm.c, kernel/mm/kheap.c and kernel/arch/aarch64/mmu.c on one shared state.
    The theorem at the end is about the whole stack, from the arenas down to the
    allocator's bitmap. *)

From S2P Require Import Prelude Numa Pmm Mmu Kheap Arena.
From Stdlib Require Import String.

Module Memory.

Record kernel := mk_kernel { k_layout : Mmu.layout; k_heap : Kheap.kheap }.

Definition space (k : kernel) : Mmu.vm := Kheap.space (k_heap k).

Definition with_heap (k : kernel) (h : Kheap.kheap) : kernel := mk_kernel (k_layout k) h.

Definition with_space (k : kernel) (s : Mmu.vm) : kernel :=
  let h := k_heap k in
  with_heap k (Kheap.mk_kheap s (Kheap.g_heap_next h) (Kheap.g_heap_mapped_end h)
    (Kheap.g_heap_pages h) (Kheap.g_heap_bytes_allocated h) (Kheap.g_free_list h) (Kheap.words h)).

(** The L3 tables of the heap and of the arena region. *)
Definition windows_ready (k : kernel) : Prop :=
  Mmu.tables_ready (k_layout k) Kheap.KHEAP_BASE Kheap.KHEAP_LIMIT (space k) /\
  Mmu.tables_ready (k_layout k) 0x4c000000 0x50000000 (space k).

#[global] Instance kernel_platform : Platform kernel := {|
  pmm_alloc_page k :=
    match Pmm.pmm_alloc_page (Mmu.phys (space k)) with
    | (p1, Some page) => Some (page, with_space k (Mmu.with_phys (space k) p1))
    | (_, None) => None
    end;
  pmm_free_page k page := with_space k (Mmu.free_page (space k) page);
  kheap_calloc k n align :=
    '(h, ptr) ← Kheap.kheap_calloc (k_layout k) (k_heap k) n align; Some (with_heap k h, ptr);
  vmm_map_page k va pa flags :=
    '(s, st) ← Mmu.vmm_map_page (k_layout k) (space k) va pa flags; Some (with_space k s, st);
  vmm_unmap_page k va :=
    '(s, st) ← Mmu.vmm_unmap_page (k_layout k) (space k) va; Some (with_space k s, st);
  vmm_translate k va := Mmu.vmm_translate (k_layout k) (space k) va;
  platform_ok k := exists l B, Kheap.heap_ok (k_layout k) (k_heap k) l B;
  held k p := Mmu.held (k_layout k) (space k) p;
  tables_present k := windows_ready k
|}.

(** The heap's invariant only reads the translations of the heap region. *)
Lemma heap_ok_space k l B s :
  Kheap.heap_ok (k_layout k) (k_heap k) l B -> Mmu.vm_ok (k_layout k) s ->
  (forall va, Kheap.KHEAP_BASE <= va < Kheap.KHEAP_LIMIT -> va mod 4096 = 0 ->
     Mmu.walk (k_layout k) s va = Mmu.walk (k_layout k) (space k) va) ->
  Kheap.heap_ok (k_layout k) (k_heap (with_space k s)) l B.
Proof.
  intros (_ & H2 & H3 & H4 & H5 & H6 & H7 & H8 & H9 & H10) Hok Hw.
  split; [done|]. do 7 (split; [done|]). split; [done|]. intros q Hq Hr. simpl in Hr |- *.
  rewrite Hw; [by apply H10|lia|done].
Qed.

Lemma ok_vm k : platform_ok k -> Mmu.vm_ok (k_layout k) (space k).
Proof. by intros (l & B & ? & _). Qed.

(** A change of the address space that keeps tables, frames and translations is one the
    platform allows. *)
Lemma preserves_space k s (lost changed : Z -> Prop) :
  platform_ok k -> Mmu.vm_ok (k_layout k) s ->
  (forall n t, Mmu.node_addr (k_layout k) (space k) n = Some t -> Mmu.node_addr (k_layout k) s n = Some t) ->
  (forall p, Mmu.held (k_layout k) (space k) p -> ~ lost p -> Mmu.held (k_layout k) s p) ->
  (forall va, 0 <= va < 549755813888 -> va mod 4096 = 0 -> ~ changed va ->
     Mmu.walk (k_layout k) s va = Mmu.walk (k_layout k) (space k) va) ->
  (forall va, changed va -> arena_va va) ->
  preserves k (with_space k s) lost changed.
Proof.
  intros Hpok Hok Hn Hh Hw Hc. pose proof (ok_vm k Hpok) as Hok0. destruct Hpok as (l & B & Hl).
  split; [|split; [|split; [done|]]].
  - exists l, B. apply (heap_ok_space k l B s); [done|done|]. intros va Hva Hm.
    unfold Kheap.KHEAP_LIMIT, Kheap.KHEAP_BASE, Kheap.KHEAP_SIZE in *. apply Hw; [lia|done|].
    intros [H _]%Hc. lia.
  - intros [H1 H2]. split; (eapply Mmu.ready_mono; [exact Hn|done]).
  - intros va [Hva Hm] Hnc. simpl. rewrite !Mmu.translate_walk by done. apply Hw; [lia|done|done].
Qed.

Lemma arena_page_ne va va' : va mod 4096 = 0 -> va' mod 4096 = 0 -> va <> va' -> va' / 4096 <> va / 4096.
Proof. intros H1 H2 Hne. dlia. Qed.

Lemma calloc_law k n :
  platform_ok k -> 0 <= n < 18446744073709551616 ->
  match kheap_calloc k n 16 with
  | None => ~ tables_present k
  | Some (k', _) => preserves k k' nothing nothing
  end.
Proof.
  intros Hpok Hn. pose proof (ok_vm k Hpok) as Hok. destruct Hpok as (l & B & Hl).
  pose proof (Kheap.kheap_calloc_ok (k_layout k) (k_heap k) l B n 16 Hl Hn ltac:(lia)) as H. simpl.
  destruct (Kheap.kheap_calloc _ _ _ _) as [[h' ptr]|]; cbn [mbind option_bind].
  2:{ intros [Hr _]. by apply H. }
  assert (Hf : (exists l' B', Kheap.heap_ok (k_layout k) h' l' B') /\
    Kheap.frame (k_layout k) (Kheap.space (k_heap k)) (Kheap.space h')).
  { destruct ptr; cbn [Kheap.alloc_post] in H; [destruct H as (l' & B' & x & H1 & H2 & _)|destruct H as (H1 & H2)];
      (split; [by eexists _, _|done]). }
  destruct Hf as [Hl' (F1 & F2 & F3 & F4)]. split; [done|]. split; [|split; [intros; by apply F2|]].
  - intros [H1 H2]. split; (eapply Mmu.ready_mono; [exact F3|done]).
  - intros va [Hva _] _. simpl. unfold space. simpl. rewrite !Mmu.translate_walk by done. apply F4; [lia|].
    unfold Kheap.KHEAP_LIMIT, Kheap.KHEAP_BASE, Kheap.KHEAP_SIZE. lia.
Qed.

#[global] Instance kernel_laws : PlatformLaws kernel.
Proof.
  constructor.
  - intros k p k' Hpok. pose proof (Mmu.alloc_page_vm (k_layout k) (space k) (ok_vm k Hpok)) as Ha.
    cbn [pmm_alloc_page kernel_platform]. destruct (Pmm.pmm_alloc_page _) as [p1 [q|]]; [|done]. intros [= <- <-].
    destruct Ha as ((H1 & H2 & H3) & H4 & H5 & H6). split; [|split; [apply H4|split; [done|exact H4]]].
    apply preserves_space; [done|done|intros n t; by rewrite H2|intros; by apply H6|intros; apply H3|by intros ? []].
  - intros k p Hpok Hp. destruct (Mmu.free_page_vm (k_layout k) (space k) p (ok_vm k Hpok) Hp) as [(H1 & H2 & H3) H4].
    apply preserves_space; [done|done|intros n t; by rewrite H2| |intros; apply H3|by intros ? []].
    intros q Hq Hne. apply H4; [congruence|done].
  - apply calloc_law.
  - intros k va pa flags Hpok [Hva Hm] [Hpa Hpm] H0 H2. pose proof (ok_vm k Hpok) as Hok.
    cbn [vmm_map_page kernel_platform].
    pose proof (Mmu.map_page_spec (k_layout k) (space k) va pa flags Hok ltac:(lia) Hm ltac:(lia) Hpm H0) as Hs.
    destruct (Mmu.vmm_map_page _ _ _ _ _) as [[s st]|] eqn:E; cbn [mbind option_bind].
    + destruct Hs as (-> & Hok' & _ & Hf & Hw). split; [done|].
      destruct (Mmu.map_page_frame (k_layout k) (space k) va pa flags s XAIOS_OK Hok ltac:(lia) Hm ltac:(lia) Hpm H0 E) as [Hh Hn]. split.
      * apply preserves_space; [done|done|done|intros; by apply Hh| |intros ? <-; by split].
        intros va' Hva' Hm' Hne. apply Hw; [lia|by apply arena_page_ne].
      * destruct Hf as (f & Hwf & Hfm). destruct (Hfm H2) as (_ & F1 & _ & _ & F4). exists f. simpl. by rewrite Mmu.translate_walk.
    + intros [_ Hr]. destruct (Mmu.map_page_ready (k_layout k) 0x4c000000 0x50000000 (space k) va pa flags Hok Hr ltac:(lia) ltac:(lia)) as [[x Hx] _].
      congruence.
  - intros k va Hpok [Hva Hm]. pose proof (ok_vm k Hpok) as Hok.
    cbn [vmm_unmap_page kernel_platform].
    pose proof (Mmu.unmap_page_spec (k_layout k) (space k) va Hok ltac:(lia) Hm) as Hs.
    destruct (Mmu.vmm_unmap_page _ _ _) as [[s st]|] eqn:E; cbn [mbind option_bind].
    + destruct Hs as (-> & Hok' & _ & Hf & Hw). split; [done|].
      destruct (Mmu.unmap_page_frame (k_layout k) (space k) va s XAIOS_OK Hok ltac:(lia) Hm E) as [Hh Hn]. split.
      * apply preserves_space; [done|done|done|intros; by apply Hh| |intros ? <-; by split].
        intros va' Hva' Hm' Hne. apply Hw; [lia|by apply arena_page_ne].
      * simpl. by rewrite Mmu.translate_walk.
    + intros [_ Hr]. destruct (Mmu.map_page_ready (k_layout k) 0x4c000000 0x50000000 (space k) va 0 0 Hok Hr ltac:(lia) ltac:(lia)) as [_ [x Hx]].
      congruence.
Qed.

(** ** Properties *)

(** C2: arenas are isolated on the real memory system.  Starting from a well-formed kernel
    with no arenas, after any sequence of arena calls that create arenas of at most 2 MiB
    (the distance between two arena slots) every page of a ready arena translates, in the
    page tables, to a frame that the allocator does not consider free and that is not a page
    table, and distinct arena pages translate to distinct frames.
    The run itself only stops when a page table of the heap or the arena region cannot be
    allocated. *)
Theorem kernel_arenas_isolated (k : kernel) (l : list Z) (B : gmap Z Z) (ops : list Arena.arena_op) :
  Kheap.heap_ok (k_layout k) (k_heap k) l B -> Forall Arena.op_ok ops ->
  match Arena.arena_run k Arena.fresh_manager ops with
  | None => ~ windows_ready k
  | Some (k', m') =>
      (forall i j p, Arena.uses m' i j p ->
         (exists f, Mmu.vmm_translate (k_layout k') (space k') (Arena.page_va i j) = Some (p, f)) /\
         Pmm.is_free (Mmu.phys (space k')) p = false /\
         forall n, Mmu.node_addr (k_layout k') (space k') n <> Some p) /\
      (forall i j i' j' p, Arena.uses m' i j p -> Arena.uses m' i' j' p -> i = i' /\ j = j')
  end.
Proof.
  intros Hl Hops. assert (Hpok : platform_ok k) by (by exists l, B).
  pose proof (Arena.arena_run_ok ops k _ (Arena.fresh_manager_ok k Hpok) Hops) as H.
  destruct (Arena.arena_run k _ ops) as [[k' m']|]; [|done].
  destruct H as [(_ & _ & Ha & _ & _ & Hh & Hinj) _]. split; [|exact Hinj].
  intros i j p Hu. pose proof Hu as (Hi & Hr & Hj & <-). split.
  - destruct (Ha i Hi) as [_ Hm]. destruct (Hm Hr j Hj) as (f & Ht & _). by exists f.
  - destruct (Hh _ _ _ Hu) as (_ & ? & ?). by split.
Qed.

Definition demo_kernel : kernel := mk_kernel Mmu.demo_layout Kheap.demo_heap.

Definition demo_ops : list Arena.arena_op := [Arena.OCreate 3 2 7 (Some "kv"%string) 5000 0; Arena.OAcquire 3].

Definition demo_end : kernel * Arena.arena_manager :=
  default (demo_kernel, Arena.fresh_manager) (Arena.arena_run demo_kernel Arena.fresh_manager demo_ops).

Lemma demo_end_run : Arena.arena_run demo_kernel Arena.fresh_manager demo_ops = Some demo_end.
Proof.
  assert (H : is_Some (Arena.arena_run demo_kernel Arena.fresh_manager demo_ops)) 
    by (apply returns_is_Some; vm_compute; reflexivity).
  unfold demo_end. by destruct H as [x ->].
Qed.

Lemma demo_end_uses : Arena.uses demo_end.2 3 1 1073758208.
Proof. vm_compute. done. Qed.

Lemma kernel_arenas_isolated_witness :
  (exists f, Mmu.vmm_translate (k_layout demo_end.1) (space demo_end.1) (Arena.page_va 3 1) = Some (1073758208, f)) /\
  Pmm.is_free (Mmu.phys (space demo_end.1)) 1073758208 = false.
Proof.
  pose proof (kernel_arenas_isolated demo_kernel [] ∅ demo_ops Kheap.demo_heap_ok
    ltac:(unfold demo_ops; rewrite !Forall_cons; unfold Arena.op_ok, Arena.ARENA_VA_STRIDE;
          split_and!; try lia; by apply Forall_nil)) as H.
  rewrite demo_end_run in H. destruct demo_end as [k m] eqn:E. destruct H as [H _].
  destruct (H 3 1 1073758208) as (H1 & H2 & _); [|split; [exact H1|exact H2]].
  pose proof demo_end_uses as Hu. rewrite E in Hu. exact Hu.
Defined.

End Memory.
