(* ===== verification/Elf.v ===== *)
(** * ELF loader (kernel/mm/elf_loader.c, include/xaios/elf_loader.h)

    Validation of the header, loading of the segments page by page, the stack and the
    reclaim.  The loader works on the allocator and page tables of Pmm.v and Mmu.v.  It
    fills a page through the address the allocator returns, so the bytes go to the frame
    that this address translates to at that moment ([write_page]), which is another one
    when the address lies in the range that user pages are mapped to.  The contents of
    the frames are [contents]; a write that faults is [None].

    The file is the function that reads the byte at an offset from its base address, which
    is defined outside the file as well (the loader's bounds checks are part of the model,
    so are the reads they fail to stop); it does not change while the file is loaded.  A failed assertion, or a page table that cannot
    be allocated, is [None].  Log output is left out. *)

From S2P Require Import Prelude Numa Pmm Mmu.

Module Elf.

Definition PAGE_SIZE : Z := 4096.
Definition ELF_MAGIC : Z := 0x464c457f.
Definition PT_LOAD : Z := 1.
Definition PF_X : Z := 1.
Definition PF_W : Z := 2.
Definition ET_EXEC : Z := 2.
Definition EM_AARCH64 : Z := 183.
Definition SIZEOF_EHDR : Z := 64.
Definition SIZEOF_PHDR : Z := 56.
Definition XAIOS_VMM_NG : Z := 32.
Definition XAIOS_ELF_LOADER_MAX_PAGES : Z := 64.
Definition XAIOS_ELF_LOADER_L3_TABLES : Z := 4.

(** [f_base] reads the byte at an offset from the base; [None] is a null base. *)
Record xaios_initramfs_file := mk_file { f_base : option (Z -> Z); f_size : Z; f_executable : Z }.

Record elf64_ehdr := mk_ehdr {
  e_ident : list Z;
  e_type : Z;
  e_machine : Z;
  e_entry : Z;
  e_phoff : Z;
  e_phentsize : Z;
  e_phnum : Z
}.

Record elf64_phdr := mk_phdr {
  p_type : Z;
  p_flags : Z;
  p_offset : Z;
  p_vaddr : Z;
  p_filesz : Z;
  p_memsz : Z
}.

Record xaios_process_aspace := mk_aspace {
  l3_phys : list Z;
  l3_count : Z;
  page_va : list Z;
  page_pa : list Z;
  page_count : Z
}.

Record machine := mk_machine { space : Mmu.vm; contents : gmap Z (list Z) }.

(** Little-endian field of [n] bytes at an offset. *)
Fixpoint read_le (n : nat) (rd : Z -> Z) (off : Z) : Z :=
  match n with
  | O => 0
  | S n' => rd (u64 off) + 256 * read_le n' rd (off + 1)
  end.

Definition read_ehdr (rd : Z -> Z) : elf64_ehdr :=
  mk_ehdr (rd <$> seqZ 0 16) (read_le 2 rd 16) (read_le 2 rd 18) (read_le 8 rd 24) (read_le 8 rd 32)
    (read_le 2 rd 54) (read_le 2 rd 56).

Definition read_phdr (rd : Z -> Z) (off : Z) : elf64_phdr :=
  mk_phdr (read_le 4 rd off) (read_le 4 rd (off + 4)) (read_le 8 rd (off + 8)) (read_le 8 rd (off + 16))
    (read_le 8 rd (off + 32)) (read_le 8 rd (off + 40)).

Definition elf_magic_value (ident : list Z) : Z :=
  Z.lor (Z.lor (Z.lor (ident.[0]) (Z.shiftl (ident.[1]) 8)) (Z.shiftl (ident.[2]) 16)) (Z.shiftl (ident.[3]) 24).

(** The byte reader and the header on success. *)
Definition validate_elf (file : xaios_initramfs_file) : option ((Z -> Z) * elf64_ehdr) :=
  match f_base file with
  | None => None
  | Some rd =>
      if (f_size file <? SIZEOF_EHDR) || (f_executable file =? 0) then None else
      let h := read_ehdr rd in
      if negb (elf_magic_value (e_ident h) =? ELF_MAGIC) || negb ((e_ident h).[4] =? 2) ||
         negb ((e_ident h).[5] =? 1) || negb (e_type h =? ET_EXEC) || negb (e_machine h =? EM_AARCH64) ||
         negb (e_phentsize h =? SIZEOF_PHDR) || (e_phnum h =? 0) ||
         (f_size file <? u64 (e_phoff h + e_phnum h * e_phentsize h))
      then None else
      if (e_entry h <? Mmu.XAIOS_USER_BASE) || (Mmu.XAIOS_USER_LIMIT <=? e_entry h) then None else
      Some (rd, h)
  end.

Definition vmm_flags_from_phdr (ph : elf64_phdr) : Z :=
  let f := Z.lor (Z.lor Mmu.XAIOS_VMM_PRESENT Mmu.XAIOS_VMM_USER) XAIOS_VMM_NG in
  let f := if Mmu.has (p_flags ph) PF_W then Z.lor f Mmu.XAIOS_VMM_WRITABLE else f in
  if Mmu.has (p_flags ph) PF_X then Z.lor f Mmu.XAIOS_VMM_EXECUTABLE else f.

Definition track_page (a : xaios_process_aspace) (va pa : Z) : xaios_process_aspace * xaios_status :=
  if XAIOS_ELF_LOADER_MAX_PAGES <=? page_count a then (a, XAIOS_ERR_NO_MEMORY) else
  (mk_aspace (l3_phys a) (l3_count a) ((page_va a).[page_count a <- va]) ((page_pa a).[page_count a <- pa])
     (page_count a + 1), XAIOS_OK).

(** [bytes_copy(page + at, base + off, n)] on the contents of a page. *)
Definition copy_into (rd : Z -> Z) (page : list Z) (at_ off : Z) (n : Z) : list Z :=
  for_range (Z.to_nat n) 0 (fun i l => l.[at_ + i <- rd (u64 (off + i))]) page.

(** The contents of one page of a segment as the code fills it. *)
Definition fill_page (rd : Z -> Z) (ph : elf64_phdr) (va : Z) : list Z :=
  let zeroed := replicate (Z.to_nat PAGE_SIZE) 0 in
  let start_va := p_vaddr ph in
  let end_va := u64 (p_vaddr ph + p_filesz ph) in
  if (va <? end_va) && (start_va <? u64 (va + PAGE_SIZE)) then
    let copy_start := if start_va <? va then va else start_va in
    let copy_end := if u64 (va + PAGE_SIZE) <? end_va then u64 (va + PAGE_SIZE) else end_va in
    let file_offset := u64 (p_offset ph + u64 (copy_start - p_vaddr ph)) in
    copy_into rd zeroed (copy_start - va) file_offset (copy_end - copy_start)
  else zeroed.

Definition free_page (m : machine) (page : Z) : machine :=
  mk_machine (Mmu.free_page (space m) page) (contents m).

Section Loader.
Context (lay : Mmu.layout).

(** Filling the page at an address, through the current translation: [None] is a fault. *)
Definition write_page (m : machine) (page : Z) (bytes : list Z) : option machine :=
  '(frame, flags) ← Mmu.vmm_translate lay (space m) page;
  if Mmu.has flags Mmu.XAIOS_VMM_WRITABLE then Some (mk_machine (space m) (<[frame := bytes]> (contents m))) else None.

(** The loop over the pages of a segment. *)
Fixpoint load_pages (fuel : nat) (m : machine) (rd : Z -> Z) (ph : elf64_phdr) (a : xaios_process_aspace)
    (va map_end flags : Z) : option (machine * xaios_process_aspace * xaios_status) :=
  if va <? map_end then
    match fuel with
    | O => None
    | S fuel' =>
        match Pmm.pmm_alloc_page (Mmu.phys (space m)) with
        | (p1, None) => Some (mk_machine (Mmu.with_phys (space m) p1) (contents m), a, XAIOS_ERR_NO_MEMORY)
        | (p1, Some page) =>
            m1 ← write_page (mk_machine (Mmu.with_phys (space m) p1) (contents m)) page (fill_page rd ph va);
            '(s2, st2) ← Mmu.vmm_map_user_page lay (space m1) va page flags (l3_phys a) (l3_count a);
            let m2 := mk_machine s2 (contents m1) in
            if negb (is_ok st2) then Some (free_page m2 page, a, XAIOS_ERR_INVALID) else
            let '(a3, st3) := track_page a va page in
            if negb (is_ok st3) then Some (free_page m2 page, a3, XAIOS_ERR_NO_MEMORY) else
            load_pages fuel' m2 rd ph a3 (u64 (va + PAGE_SIZE)) map_end flags
        end
    end
  else Some (m, a, XAIOS_OK).

Definition map_start (ph : elf64_phdr) : Z := align_down (p_vaddr ph) PAGE_SIZE.
Definition map_end (ph : elf64_phdr) : Z := align_up (u64 (p_vaddr ph + p_memsz ph)) PAGE_SIZE.

Definition segment_rejected (size : Z) (ph : elf64_phdr) : bool :=
  (p_memsz ph <? p_filesz ph) || (size <? u64 (p_offset ph + p_filesz ph)) ||
  (p_vaddr ph <? Mmu.XAIOS_USER_BASE) || (u64 (p_vaddr ph + p_memsz ph) <? p_vaddr ph) ||
  (Mmu.XAIOS_USER_LIMIT <? u64 (p_vaddr ph + p_memsz ph)).

Definition load_segment (m : machine) (rd : Z -> Z) (size : Z) (ph : elf64_phdr) (a : xaios_process_aspace)
    : option (machine * xaios_process_aspace * xaios_status) :=
  if segment_rejected size ph then Some (m, a, XAIOS_ERR_INVALID) else
  load_pages (Z.to_nat ((map_end ph - map_start ph) / PAGE_SIZE + 1)) m rd ph a (map_start ph) (map_end ph)
    (vmm_flags_from_phdr ph).

(** The program header [i] of the file. *)
Definition phdr_at (rd : Z -> Z) (h : elf64_ehdr) (i : Z) : elf64_phdr :=
  read_phdr rd (u64 (e_phoff h + i * e_phentsize h)).

(** The loop over the program headers, [n] of them left from index [i] on. *)
Fixpoint load_segments (n : nat) (m : machine) (rd : Z -> Z) (size : Z) (h : elf64_ehdr) (i : Z)
    (a : xaios_process_aspace) : option (machine * xaios_process_aspace * xaios_status) :=
  match n with
  | O => Some (m, a, XAIOS_OK)
  | S n' =>
      let ph := phdr_at rd h i in
      if p_type ph =? PT_LOAD then
        '(m1, a1, st) ← load_segment m rd size ph a;
        if negb (is_ok st) then Some (m1, a1, XAIOS_ERR_INVALID)
        else load_segments n' m1 rd size h (i + 1) a1
      else load_segments n' m rd size h (i + 1) a
  end.

(** On success the entry point is returned as well. *)
Definition elf_loader_load (m : machine) (file : option xaios_initramfs_file)
    (aspace : option xaios_process_aspace)
    : option (machine * option xaios_process_aspace * xaios_status * option Z) :=
  match file, aspace with
  | Some f, Some a =>
      match validate_elf f with
      | None => Some (m, aspace, XAIOS_ERR_INVALID, None)
      | Some (rd, h) =>
          '(s1, tables, cnt) ← Mmu.vmm_create_user_aspace (space m) XAIOS_ELF_LOADER_L3_TABLES;
          let a1 := mk_aspace tables cnt (page_va a) (page_pa a) 0 in
          '(m2, a2, st) ← load_segments (Z.to_nat (e_phnum h)) (mk_machine s1 (contents m)) rd (f_size f) h 0 a1;
          if negb (is_ok st) then Some (m2, Some a2, XAIOS_ERR_INVALID, None)
          else Some (m2, Some a2, XAIOS_OK, Some (e_entry h))
      end
  | _, _ => Some (m, aspace, XAIOS_ERR_INVALID, None)
  end.

Definition elf_loader_map_stack (m : machine) (aspace : option xaios_process_aspace)
    (stack_va guard_low guard_high : Z) : option (machine * option xaios_process_aspace * xaios_status) :=
  match aspace with
  | None => Some (m, None, XAIOS_ERR_INVALID)
  | Some a =>
      match Pmm.pmm_alloc_page (Mmu.phys (space m)) with
      | (p1, None) =>
          Some (mk_machine (Mmu.with_phys (space m) p1) (contents m), aspace, XAIOS_ERR_NO_MEMORY)
      | (p1, Some page) =>
          m1 ← write_page (mk_machine (Mmu.with_phys (space m) p1) (contents m)) page (replicate (Z.to_nat PAGE_SIZE) 0);
          '(s2, st2) ← Mmu.vmm_unmap_page lay (space m1) guard_low;
          if negb (is_ok st2) then None else
          '(s3, st3) ← Mmu.vmm_unmap_page lay s2 guard_high;
          if negb (is_ok st3) then None else
          '(s4, st4) ← Mmu.vmm_map_user_page lay s3 stack_va page
                         (Z.lor (Z.lor (Z.lor Mmu.XAIOS_VMM_PRESENT Mmu.XAIOS_VMM_USER)
                            Mmu.XAIOS_VMM_WRITABLE) XAIOS_VMM_NG) (l3_phys a) (l3_count a);
          let m4 := mk_machine s4 (contents m1) in
          if negb (is_ok st4) then Some (free_page m4 page, aspace, XAIOS_ERR_INVALID) else
          let '(a5, st5) := track_page a stack_va page in
          if negb (is_ok st5) then Some (free_page m4 page, Some a5, XAIOS_ERR_NO_MEMORY)
          else Some (m4, Some a5, XAIOS_OK)
      end
  end.

(** The loop over the tracked pages. *)
Definition reclaim_tracked (m : machine) (a : xaios_process_aspace) : option machine :=
  for_range (Z.to_nat (page_count a)) 0
    (fun i r =>
       m ← r;
       if negb ((page_pa a).[i] =? 0) then
         '(s, _) ← Mmu.vmm_unmap_user_page lay (space m) ((page_va a).[i]) (l3_phys a) (l3_count a);
         Some (free_page (mk_machine s (contents m)) ((page_pa a).[i]))
       else Some m) (Some m).

(** The walk over the mapped range. *)
Fixpoint reclaim_range (fuel : nat) (m : machine) (a : xaios_process_aspace) (va mapped_high : Z) : option machine :=
  if va <? mapped_high then
    match fuel with
    | O => None
    | S fuel' =>
        match Mmu.vmm_translate lay (space m) va with
        | Some (physical, flags) =>
            if Mmu.has flags Mmu.XAIOS_VMM_USER then
              '(s, _) ← Mmu.vmm_unmap_user_page lay (space m) va (l3_phys a) (l3_count a);
              reclaim_range fuel' (free_page (mk_machine s (contents m)) physical) a (u64 (va + PAGE_SIZE)) mapped_high
            else reclaim_range fuel' m a (u64 (va + PAGE_SIZE)) mapped_high
        | None => reclaim_range fuel' m a (u64 (va + PAGE_SIZE)) mapped_high
        end
    end
  else Some m.

Definition elf_loader_reclaim (m : machine) (aspace : option xaios_process_aspace) (mapped_low mapped_high : Z)
    : option (machine * option xaios_process_aspace) :=
  match aspace with
  | None => Some (m, None)
  | Some a =>
      m1 ← reclaim_tracked m a;
      m2 ← (if negb (mapped_low =? 0) && (mapped_low <? mapped_high)
            then reclaim_range (Z.to_nat ((mapped_high - mapped_low) / PAGE_SIZE + 1)) m1 a mapped_low mapped_high
            else Some m1);
      if 0 <? l3_count a then
        let s3 := Mmu.vmm_switch_user_aspace lay (space m2) None 0 in
        let '(s4, tables) := Mmu.vmm_destroy_user_aspace s3 (l3_phys a) (l3_count a) in
        Some (mk_machine s4 (contents m2), Some (mk_aspace tables 0 (page_va a) (page_pa a) 0))
      else Some (m2, Some (mk_aspace (l3_phys a) (l3_count a) (page_va a) (page_pa a) 0))
  end.

End Loader.

(** ** Specification *)

(** The byte a segment has at an address: file data, then zeros. *)
Definition image (rd : Z -> Z) (ph : elf64_phdr) (a : Z) : Z :=
  if (p_vaddr ph <=? a) && (a <? p_vaddr ph + p_filesz ph)
  then rd (p_offset ph + (a - p_vaddr ph)) else 0.

(** [bytes] is the page at [va] of the segment. *)
Definition page_image (rd : Z -> Z) (ph : elf64_phdr) (va : Z) (bytes : list Z) : Prop :=
  forall o, 0 <= o < PAGE_SIZE -> bytes.[o] = image rd ph (va + o).

(** The page addresses of a segment. *)
Definition in_segment (ph : elf64_phdr) (va : Z) : Prop :=
  va mod PAGE_SIZE = 0 /\ p_vaddr ph - PAGE_SIZE < va < p_vaddr ph + p_memsz ph.

Definition tracked (a : xaios_process_aspace) (i va p : Z) : Prop :=
  0 <= i < page_count a /\ (page_va a).[i] = va /\ (page_pa a).[i] = p.

Definition bytes_ok (rd : Z -> Z) : Prop := forall x, 0 <= rd x < 256.

(** A loadable segment of the file. *)
Definition load_phdr (rd : Z -> Z) (ph : elf64_phdr) : Prop :=
  exists k, 0 <= k < e_phnum (read_ehdr rd) /\ ph = phdr_at rd (read_ehdr rd) k /\ p_type ph = PT_LOAD.

(** The places of the file that the headers name do not wrap around at 2^64. *)
Definition no_wrap (rd : Z -> Z) : Prop :=
  e_phoff (read_ehdr rd) + e_phnum (read_ehdr rd) * e_phentsize (read_ehdr rd) < 18446744073709551616 /\
  forall ph, load_phdr rd ph -> p_offset ph + p_filesz ph < 18446744073709551616.

(** The 2 MiB that user pages can be mapped to. *)
Definition in_user_block (a : Z) : Prop := Mmu.XAIOS_USER_BASE <= a < Mmu.XAIOS_USER_BASE + 2097152.

(** The kernel reaches a page at its own address, and keeps to. *)
Definition reachable_at (lay : Mmu.layout) (s : Mmu.vm) (p : Z) : Prop :=
  ~ in_user_block p /\ exists f, Mmu.vmm_translate lay s p = Some (p, f) /\ Mmu.has f Mmu.XAIOS_VMM_WRITABLE = true.

(** Free pages are mapped at their own address, outside of the block for user pages. *)
Definition free_reachable (lay : Mmu.layout) (s : Mmu.vm) : Prop :=
  forall p, Mmu.page p -> Pmm.is_free (Mmu.phys s) p = true -> reachable_at lay s p.

(** Neither in use nor a table. *)
Definition available (lay : Mmu.layout) (s : Mmu.vm) (p : Z) : Prop :=
  Mmu.page p /\ ~ Mmu.held lay s p /\ forall n, Mmu.node_addr lay s n <> Some p.

(** ** Contents of a page *)

Lemma copy_into_spec rd page at_ off n :
  0 <= at_ -> 0 <= n -> at_ + n <= zlen page ->
  zlen (copy_into rd page at_ off n) = zlen page /\
  forall o, 0 <= o < zlen page ->
    (copy_into rd page at_ off n).[o] =
      if (at_ <=? o) && (o <? at_ + n) then rd (u64 (off + (o - at_))) else page.[o].
Proof.
  intros Ha Hn Hl. unfold copy_into. revert Hl.
  apply (for_upto_ind (fun k l => at_ + k <= zlen page -> zlen l = zlen page /\ forall o, 0 <= o < zlen page ->
    l.[o] = if (at_ <=? o) && (o <? at_ + k) then rd (u64 (off + (o - at_))) else page.[o])); [done| |].
  - intros _. split; [done|]. intros o Ho. case_if; [breflect; lia|done].
  - intros k l Hk IH Hk1. destruct (IH ltac:(lia)) as [Hz Hg]. split; [by rewrite zlen_set|]. intros o Ho.
    destruct (decide (o = at_ + k)) as [->|Hne].
    + rewrite arr_get_set_eq by lia. rewrite (proj2 (Z.leb_le _ _)), (proj2 (Z.ltb_lt _ _)) by lia. cbn [andb].
      do 2 f_equal. lia.
    + rewrite arr_get_set_ne, Hg by lia. by replace (o <? at_ + (k + 1)) with (o <? at_ + k) by lia.
Qed.

Lemma fill_page_spec rd ph va :
  0 <= p_vaddr ph -> 0 <= p_filesz ph -> p_vaddr ph + p_filesz ph < 18446744073709551616 ->
  0 <= p_offset ph -> p_offset ph + p_filesz ph < 18446744073709551616 ->
  0 <= va -> va + PAGE_SIZE < 18446744073709551616 -> page_image rd ph va (fill_page rd ph va).
Proof.
  intros Hv Hf Hw Ho1 Ho2 Hva Hvw o Ho. unfold fill_page, image. rewrite !(u64_small (p_vaddr ph + _)), !(u64_small (va + _)) by (unfold PAGE_SIZE in *; lia).
  set (z := replicate (Z.to_nat PAGE_SIZE) 0).
  assert (Hz : zlen z = PAGE_SIZE /\ forall j, 0 <= j < PAGE_SIZE -> z.[j] = 0).
  { unfold z, zlen. rewrite length_replicate. split; [done|]. intros j Hj. apply arr_get_replicate. lia. }
  destruct Hz as [Hzl Hz0]. clearbody z. unfold PAGE_SIZE in *.
  destruct ((va <? _) && _) eqn:E.
  - apply andb_true_iff in E as [E1%Z.ltb_lt E2%Z.ltb_lt].
    set (cs := if p_vaddr ph <? va then va else p_vaddr ph).
    set (ce := if va + 4096 <? p_vaddr ph + p_filesz ph then va + 4096 else p_vaddr ph + p_filesz ph).
    assert (Hcs : cs = Z.max va (p_vaddr ph)) by (unfold cs; case_if; breflect; lia).
    assert (Hce : ce = Z.min (va + 4096) (p_vaddr ph + p_filesz ph)) by (unfold ce; case_if; breflect; lia).
    clearbody cs ce.
    rewrite (proj2 (copy_into_spec rd z (cs - va) _ (ce - cs) ltac:(lia) ltac:(lia) ltac:(lia))) by lia.
    replace ((p_vaddr ph <=? va + o) && _) with ((cs - va <=? o) && (o <? cs - va + (ce - cs))) by lia.
    case_if; [|by apply Hz0]. breflect. rewrite (u64_small (cs - _)), (u64_small (p_offset ph + _)), u64_small by lia. f_equal. lia.
  - rewrite Hz0 by done. case_if; [breflect; lia|done].
Qed.

(** ** Segments *)

Lemma read_le_range n rd off : bytes_ok rd -> 0 <= read_le n rd off < 256 ^ Z.of_nat n.
Proof.
  intros Hb. revert off. induction n as [|n IH]; intros off; [done|]. cbn [read_le].
  rewrite Nat2Z.inj_succ, Z.pow_succ_r by lia. specialize (IH (off + 1)). specialize (Hb (u64 off)). lia.
Qed.

(** An accepted segment lies in the user window and its end does not wrap. *)
Lemma segment_accepted rd size off :
  bytes_ok rd -> let ph := read_phdr rd off in segment_rejected size ph = false ->
  Mmu.XAIOS_USER_BASE <= p_vaddr ph /\ 0 <= p_filesz ph <= p_memsz ph /\
  p_vaddr ph + p_memsz ph <= Mmu.XAIOS_USER_LIMIT /\ 0 <= p_offset ph /\
  (p_offset ph + p_filesz ph < 18446744073709551616 -> p_offset ph + p_filesz ph <= size).
Proof.
  intros Hb ph. unfold ph, segment_rejected, read_phdr. cbn [p_vaddr p_filesz p_memsz p_offset]. pose proof (read_le_range 8 rd (off + 8) Hb).
  pose proof (read_le_range 8 rd (off + 16) Hb). pose proof (read_le_range 8 rd (off + 32) Hb).
  pose proof (read_le_range 8 rd (off + 40) Hb). unfold Mmu.XAIOS_USER_BASE, Mmu.XAIOS_USER_LIMIT.
  change (256 ^ Z.of_nat 8) with 18446744073709551616 in *. intros E. breflect. unfold u64 in *; Z.to_euclidean_division_equations; lia.
Qed.

(** The page loop visits exactly the pages of an accepted segment. *)
Lemma segment_pages ph va :
  Mmu.XAIOS_USER_BASE <= p_vaddr ph -> 0 <= p_memsz ph -> p_vaddr ph + p_memsz ph <= Mmu.XAIOS_USER_LIMIT ->
  map_start ph mod PAGE_SIZE = 0 /\ 0 <= map_start ph /\ map_end ph <= Mmu.XAIOS_USER_LIMIT + PAGE_SIZE /\
  (va mod PAGE_SIZE = 0 -> in_segment ph va <-> map_start ph <= va < map_end ph).
Proof.
  unfold map_start, map_end, in_segment, Mmu.XAIOS_USER_BASE, Mmu.XAIOS_USER_LIMIT, align_down.
  intros Hv Hm Hl. rewrite !u64_small by lia.
  pose proof (align_up_bounds (p_vaddr ph + p_memsz ph) 12 ltac:(lia) ltac:(lia) ltac:(lia)) as Hu.
  change (2 ^ 12) with PAGE_SIZE in Hu. set (e := align_up _ _) in *. clearbody e.
  pose proof (land_not_mask (p_vaddr ph) 12 ltac:(lia) ltac:(lia)) as Hd.
  change (2 ^ 12) with PAGE_SIZE in Hd. rewrite Hd. unfold PAGE_SIZE in *. dlia.
Qed.

(** ** Where pages are written *)

Lemma user_block_spec va : Mmu.XAIOS_USER_BASE <= va < Mmu.XAIOS_USER_LIMIT -> Mmu.l2_index va = Mmu.USER_L2_INDEX -> in_user_block va.
Proof.
  unfold in_user_block, Mmu.XAIOS_USER_BASE, Mmu.XAIOS_USER_LIMIT, Mmu.l2_index, Mmu.USER_L2_INDEX. intros Hva.
  rewrite Mmu.index_spec by lia. change (2 ^ 21) with 2097152. dlia.
Qed.

Lemma map_user_page_block lay s va pa flags tables cnt s' :
  Mmu.vmm_map_user_page lay s va pa flags tables cnt = Some (s', XAIOS_OK) -> in_user_block va.
Proof.
  unfold Mmu.vmm_map_user_page. destruct (_ || _ || _); [done|]. destruct (_ || _) eqn:E1; [done|].
  destruct (negb _) eqn:E2; [done|]. intros _. apply negb_false_iff, Z.eqb_eq in E2. apply user_block_spec; [breflect; lia|done].
Qed.

Lemma available_free lay s p : available lay s p -> Pmm.is_free (Mmu.phys s) p = true.
Proof. intros (Hp & Hh & Hn). destruct (Pmm.is_free _ p) eqn:E; [done|]. exfalso. by apply Hh. Qed.

Lemma available_mono lay s s' p : (forall q, Mmu.held lay s q -> Mmu.held lay s' q) ->
  (forall n t, Mmu.node_addr lay s n = Some t -> Mmu.node_addr lay s' n = Some t) -> available lay s' p -> available lay s p.
Proof. intros Hh Hn (Hp & H1 & H2). split; [done|]. split; [auto|]. intros n E. by apply (H2 n), Hn. Qed.

(** A page fresh from the allocator is written in its own frame. *)
Lemma write_fresh lay m p1 page bytes : Mmu.vm_ok lay (space m) -> (forall p, available lay (space m) p -> reachable_at lay (space m) p) ->
  Pmm.pmm_alloc_page (Mmu.phys (space m)) = (p1, Some page) ->
  write_page lay (mk_machine (Mmu.with_phys (space m) p1) (contents m)) page bytes =
    Some (mk_machine (Mmu.with_phys (space m) p1) (<[page := bytes]> (contents m))).
Proof.
  intros Hvm Hid Ea. pose proof (Mmu.alloc_page_vm lay (space m) Hvm) as Hal. rewrite Ea in Hal.
  destruct Hal as ((Hvm1 & Hn1 & Hw1) & Hp1 & Hnp & _).
  assert (Hav : available lay (space m) page) by (split; [apply Hp1|split; [done|]]; intros n; rewrite <- Hn1; apply Hp1).
  destruct (Hid page Hav) as (_ & f & Hf & Hw). unfold write_page. cbn [space contents].
  rewrite Mmu.translate_walk, Hw1, <- Mmu.translate_walk, Hf by done. cbn [mbind option_bind]. by rewrite Hw.
Qed.

(** Mapping a user page keeps the pages that are left within reach. *)
Lemma reachable_keeps lay s s' va : Mmu.vm_ok lay s -> Mmu.vm_ok lay s' -> in_user_block va -> va mod PAGE_SIZE = 0 ->
  (forall q, Mmu.held lay s q -> Mmu.held lay s' q) ->
  (forall n t, Mmu.node_addr lay s n = Some t -> Mmu.node_addr lay s' n = Some t) ->
  (forall va', 0 <= va' < 281474976710656 -> va' / Mmu.PAGE_SIZE <> va / Mmu.PAGE_SIZE -> Mmu.walk lay s' va' = Mmu.walk lay s va') ->
  (forall p, available lay s p -> reachable_at lay s p) -> forall p, available lay s' p -> reachable_at lay s' p.
Proof.
  intros Hvm Hvm' Hin Hal Hh Hn Hw Hid p Hp. apply (available_mono lay s) in Hp; [|done|done].
  destruct (Hid p Hp) as (Hout & f & Hf & Hfw). split; [done|]. exists f. split; [|done]. destruct Hp as ([Hp1 Hp2] & _).
  rewrite <- Hf, !Mmu.translate_walk by done. apply Hw; [lia|]. unfold in_user_block, Mmu.XAIOS_USER_BASE, PAGE_SIZE, Mmu.PAGE_SIZE in *. dlia.
Qed.

(** ** The state while segments are loaded *)

Section Loading.
Context (lay : Mmu.layout) (rd : Z -> Z) (segment : elf64_phdr -> Prop).
Context (segment_no_wrap : forall ph, segment ph -> p_offset ph + p_filesz ph < 18446744073709551616).

(** Frame [p] has the bytes of the segment at [va]. *)
Definition holds_image (m : machine) (ph : elf64_phdr) (va p : Z) : Prop :=
  exists bytes, contents m !! p = Some bytes /\ page_image rd ph va bytes.

(** The tracked pages are distinct allocated frames, not the process's tables, each with a
    page of a segment of the file; an address leads to the frame tracked last for it. *)
Record loaded (m : machine) (a : xaios_process_aspace) : Prop := {
  ld_vm : Mmu.vm_ok lay (space m);
  ld_reach : forall p, available lay (space m) p -> reachable_at lay (space m) p;
  ld_size : zlen (page_va a) = XAIOS_ELF_LOADER_MAX_PAGES /\ zlen (page_pa a) = XAIOS_ELF_LOADER_MAX_PAGES;
  ld_count : 0 <= page_count a;
  ld_tables : forall j, 0 <= j < l3_count a -> (l3_phys a).[j] <> 0 -> Mmu.held lay (space m) ((l3_phys a).[j]);
  ld_page : forall i va p, tracked a i va p ->
    Mmu.held lay (space m) p /\ (forall j, 0 <= j < l3_count a -> (l3_phys a).[j] <> p) /\
    exists ph, segment ph /\ in_segment ph va /\ holds_image m ph va p;
  ld_distinct : forall i j va va' p, tracked a i va p -> tracked a j va' p -> i = j;
  ld_mapped : forall i va p, tracked a i va p -> 0 <= va < 281474976710656 /\
    ((forall j p', tracked a j va p' -> j <= i) -> exists f, Mmu.vmm_translate lay (space m) va = Some (p, f))
}.

(** What was tracked stays tracked with its contents, and the kernel's tables stay. *)
Definition extends (m : machine) (a : xaios_process_aspace) (m' : machine) (a' : xaios_process_aspace) : Prop :=
  (forall i va p, tracked a i va p -> tracked a' i va p /\ contents m' !! p = contents m !! p) /\
  (forall n t, Mmu.node_addr lay (space m) n = Some t -> Mmu.node_addr lay (space m') n = Some t).

Definition covered (ph : elf64_phdr) (m : machine) (a : xaios_process_aspace) (va : Z) : Prop :=
  exists i p, tracked a i va p /\ holds_image m ph va p.

Lemma extends_refl m a : extends m a m a.
Proof. by split. Qed.

Lemma extends_trans m1 a1 m2 a2 m3 a3 : extends m1 a1 m2 a2 -> extends m2 a2 m3 a3 -> extends m1 a1 m3 a3.
Proof.
  intros [H1 N1] [H2 N2]. split; [|auto]. intros i va p Ht. destruct (H1 i va p Ht) as [Ht' E1].
  destruct (H2 i va p Ht') as [Ht'' E2]. split; [done|congruence].
Qed.

Lemma extends_covered ph m a m' a' va : extends m a m' a' -> covered ph m a va -> covered ph m' a' va.
Proof.
  intros [H _] (i & p & Ht & b & Hb & Hi). destruct (H i va p Ht) as [Ht' E]. exists i, p. split; [done|].
  exists b. split; [congruence|done].
Qed.

Lemma extends_ready lo hi m a m' a' :
  extends m a m' a' -> Mmu.tables_ready lay lo hi (space m) -> Mmu.tables_ready lay lo hi (space m').
Proof. intros [_ H]. by apply Mmu.ready_mono. Qed.

Lemma track_page_tracked a va p i va' p' :
  zlen (page_va a) = XAIOS_ELF_LOADER_MAX_PAGES -> zlen (page_pa a) = XAIOS_ELF_LOADER_MAX_PAGES ->
  0 <= page_count a < XAIOS_ELF_LOADER_MAX_PAGES ->
  tracked (track_page a va p).1 i va' p' <-> tracked a i va' p' \/ (i = page_count a /\ va' = va /\ p' = p).
Proof.
  intros H1 H2 Hc. unfold track_page, tracked. rewrite (proj2 (Z.leb_gt _ _)) by lia. cbn [fst page_count page_va page_pa].
  destruct (decide (i = page_count a)) as [->|Hne].
  - rewrite !arr_get_set_eq by lia. naive_solver lia.
  - split.
    + intros (Hi & Hv & Hp). rewrite !arr_get_set_ne in * by lia. left. naive_solver lia.
    + intros [(Hi & Hv & Hp)|[? _]]; [|done]. rewrite !arr_get_set_ne by lia. naive_solver lia.
Qed.

Lemma holds_image_insert m s' ph va p q b :
  p <> q -> holds_image m ph va p -> holds_image (mk_machine s' (<[q := b]> (contents m))) ph va p.
Proof. intros Hne (b' & Hb & Hi). exists b'. split; [|done]. cbn [contents]. by rewrite lookup_insert_ne. Qed.

(** Loading one page. *)
Lemma load_page m a p1 page s2 ph va flags b :
  loaded m a -> page_count a < XAIOS_ELF_LOADER_MAX_PAGES ->
  Pmm.pmm_alloc_page (Mmu.phys (space m)) = (p1, Some page) ->
  Mmu.vmm_map_user_page lay (Mmu.with_phys (space m) p1) va page flags (l3_phys a) (l3_count a) = Some (s2, XAIOS_OK) ->
  segment ph -> in_segment ph va -> 0 <= va < 281474976710656 -> page_image rd ph va b ->
  let m' := mk_machine s2 (<[page := b]> (contents m)) in let a' := (track_page a va page).1 in
  loaded m' a' /\ extends m a m' a' /\ covered ph m' a' va.
Proof.
  intros [Hvm Hre [Hs1 Hs2] Hc Htab Hpg Hd Hmap] Hlt Ea Em Hseg Hin Hva Hb m' a'.
  pose proof (Mmu.alloc_page_vm lay (space m) Hvm) as Hal. rewrite Ea in Hal.
  destruct Hal as ((Hvm1 & Hn1 & Hw1) & Hp1 & Hnp & Hh1).
  pose proof (Mmu.map_user_page_held lay _ va page flags (l3_phys a) (l3_count a) Hvm1) as Hm.
  rewrite Em in Hm. destruct Hm as (Hvm2 & Hh2 & Hn2 & Hmm); [auto|done|]. destruct (Hmm eq_refl) as [Hw2 Hw3]. clear Hmm.
  pose proof (fun i va' p' => track_page_tracked a va page i va' p' Hs1 Hs2 ltac:(lia)) as Htr.
  assert (Hfresh : forall i va' p', tracked a i va' p' -> p' <> page).
  { intros i va' p' Ht ->. by apply Hnp, (Hpg i va' page Ht). }
  assert (Hl3 : l3_phys a' = l3_phys a /\ l3_count a' = l3_count a).
  { unfold a', track_page. by case_if. }
  assert (Hnew : tracked a' (page_count a) va page) by (apply Htr; by right).
  assert (Him : holds_image m' ph va page) by (exists b; cbn [m' contents]; by rewrite lookup_insert_eq).
  destruct Hl3 as [L1 L2]. split; [constructor|split].
  - exact Hvm2.
  - cbn [m' space]. apply (reachable_keeps lay (space m) _ va);
      [done|done|by eapply map_user_page_block|apply Hin|auto|intros n t Hn; apply Hn2; by rewrite Hn1| |done].
    intros va' R1 R2. rewrite Hw3 by done. apply Hw1.
  - unfold a', track_page. case_if; cbn [fst page_va page_pa]; rewrite ?zlen_set; done.
  - unfold a', track_page. case_if; cbn [fst page_count]; lia.
  - rewrite L1, L2. auto.
  - rewrite L1, L2. intros i va' p' [Ht|(-> & -> & ->)]%Htr.
    + destruct (Hpg i va' p' Ht) as (Q1 & Q2 & ph' & Q3 & Q4 & Q5). split; [auto|]. split; [done|].
      exists ph'. split; [done|]. split; [done|]. apply holds_image_insert; [by eapply Hfresh|done].
    + split; [auto|]. split; [|by exists ph]. intros j Hj E.
      destruct (decide ((l3_phys a).[j] = 0)) as [E0|Hn0]; [|apply Hnp; rewrite <- E; by apply Htab].
      destruct Hp1 as [[Hp1 _] _]. lia.
  - intros i j v1 v2 p' [Ht|(-> & -> & ->)]%Htr [Ht'|(-> & -> & E)]%Htr; try done.
    + by apply (Hd i j v1 v2 p').
    + subst. by destruct (Hfresh i v1 page Ht).
    + by destruct (Hfresh j v2 page Ht').
  - intros i va' p' [Ht|(-> & -> & ->)]%Htr.
    + destruct (Hmap i va' p' Ht) as [Hr Hlast]. split; [done|]. intros Hmax.
      destruct (decide (va' = va)) as [->|Hne].
      { specialize (Hmax (page_count a) page Hnew). destruct Ht as [? _]. lia. }
      destruct Hlast as [f Hf]. { intros j p'' Ht'. apply (Hmax j p''), Htr. by left. }
      exists f. rewrite <- Hf. cbn [m' space]. rewrite !Mmu.translate_walk by done.
      rewrite Hw3; [apply Hw1|done|]. destruct (Hpg i va' p' Ht) as (_ & _ & ph' & _ & [Hal _] & _).
      destruct Hin as [Hal' _]. unfold Mmu.PAGE_SIZE, PAGE_SIZE in *. dlia.
    + split; [done|]. intros _. destruct Hw2 as [f Hf]. exists f. cbn [m' space]. by rewrite Mmu.translate_walk.
  - split; [|cbn [m' space]; intros n t Hn; apply Hn2; by rewrite Hn1]. intros i va' p' Ht. split; [apply Htr; by left|].
    cbn [m' contents]. apply lookup_insert_ne. intros <-. by eapply Hfresh.
  - by exists (page_count a), page.
Qed.

(** A failed assertion means the user window's tables were not set up. *)
Definition load_post (m : machine) (a : xaios_process_aspace) (Q : machine -> xaios_process_aspace -> Prop)
    (r : option (machine * xaios_process_aspace * xaios_status)) : Prop :=
  match r with
  | None => ~ Mmu.tables_ready lay Mmu.XAIOS_USER_BASE Mmu.XAIOS_USER_LIMIT (space m)
  | Some (m', a', st) => st = XAIOS_OK -> loaded m' a' /\ extends m a m' a' /\ Q m' a'
  end.

Lemma load_post_step m a m1 a1 (Q Q' : machine -> xaios_process_aspace -> Prop) r :
  extends m a m1 a1 -> (forall m' a', extends m1 a1 m' a' -> Q m' a' -> Q' m' a') ->
  load_post m1 a1 Q r -> load_post m a Q' r.
Proof.
  intros He HQ. destruct r as [[[m' a'] st]|]; cbn [load_post].
  - intros H Hst. destruct (H Hst) as (H1 & H2 & H3). split; [done|]. split; [by eapply extends_trans|auto].
  - intros H Hr. by apply H, (extends_ready _ _ m a m1 a1).
Qed.

Lemma load_pages_spec fuel m ph a va stop flags :
  loaded m a -> segment ph -> 0 <= p_vaddr ph -> 0 <= p_filesz ph -> p_vaddr ph + p_filesz ph < 18446744073709551616 ->
  0 <= p_offset ph -> 0 <= va -> va mod PAGE_SIZE = 0 -> stop <= 281474976710656 - PAGE_SIZE -> stop - va < Z.of_nat fuel * PAGE_SIZE ->
  (forall x, x mod PAGE_SIZE = 0 -> va <= x < stop -> in_segment ph x) ->
  load_post m a (fun m' a' => forall x, x mod PAGE_SIZE = 0 -> va <= x < stop -> covered ph m' a' x)
    (load_pages lay fuel m rd ph a va stop flags).
Proof.
  intros Hld Hseg Hv Hf Hvf Ho. pose proof (segment_no_wrap ph Hseg) as Hnw. revert m a va Hld. induction fuel as [|fuel IH]; intros m a va Hld Hva Hal Hst Hfu Hin;
    cbn [load_pages]; unfold PAGE_SIZE in *.
  { rewrite (proj2 (Z.ltb_ge _ _)) by lia. intros _. split; [done|]. split; [apply extends_refl|]. intros; lia. }
  destruct (Z.ltb_spec va stop) as [Hlt|Hge].
  2:{ intros _. split; [done|]. split; [apply extends_refl|]. intros; lia. }
  destruct (Pmm.pmm_alloc_page _) as [p1 [page|]] eqn:Ea; [|done].
  rewrite (write_fresh lay m p1 page _ (ld_vm _ _ Hld) (ld_reach _ _ Hld) Ea). cbn [mbind option_bind space contents].
  pose proof (Mmu.alloc_page_vm lay (space m) (ld_vm _ _ Hld)) as Hp. rewrite Ea in Hp.
  destruct Hp as ((Hvm1 & Hn1 & _) & Hp1 & _ & Hh1).
  pose proof (Mmu.map_user_page_held lay _ va page flags (l3_phys a) (l3_count a) Hvm1) as Hm.
  destruct (Mmu.vmm_map_user_page _ _ _ _ _ _ _) as [[s2 st2]|] eqn:Em; cbn [mbind option_bind].
  2:{ intros Hr. apply Hm; [intros j Hj Hj0; by apply Hh1, Hld|done|]. eapply Mmu.ready_mono; [|exact Hr].
      intros n t. by rewrite Hn1. }
  clear Hm. destruct st2; cbn [is_ok negb]; try done.
  destruct (track_page a va page) as [a3 st3] eqn:Et.
  destruct (decide (page_count a < XAIOS_ELF_LOADER_MAX_PAGES)) as [Hc|Hc].
  2:{ unfold track_page in Et. rewrite (proj2 (Z.leb_le _ _)) in Et by lia. by simplify_eq. }
  destruct (load_page m a p1 page s2 ph va flags (fill_page rd ph va) Hld Hc Ea Em Hseg) as (Hld' & Hext & Hcov);
    [apply Hin; [done|lia]|lia|apply fill_page_spec; unfold PAGE_SIZE; lia|]. rewrite Et in *. cbn [fst] in *.
  unfold track_page in Et. rewrite (proj2 (Z.leb_gt _ _)) in Et by lia. simplify_eq. cbn [is_ok negb].
  rewrite u64_small by lia. eapply load_post_step; [exact Hext| |apply IH; [exact Hld'|lia|dlia|lia|lia|]].
  2:{ intros x Hx Hr. apply Hin; [done|lia]. }
  intros m' a' He HQ x Hx Hr. destruct (decide (x = va)) as [->|Hne]; [by eapply extends_covered|].
  apply HQ; [done|]. dlia.
Qed.

Lemma load_segment_spec m a size off :
  bytes_ok rd -> loaded m a -> segment (read_phdr rd off) ->
  load_post m a (fun m' a' => p_offset (read_phdr rd off) + p_filesz (read_phdr rd off) <= size /\
      forall x, in_segment (read_phdr rd off) x -> covered (read_phdr rd off) m' a' x)
    (load_segment lay m rd size (read_phdr rd off) a).
Proof.
  intros Hb Hld Hseg. pose proof (segment_accepted rd size off Hb) as Hacc. set (ph := read_phdr rd off) in *.
  unfold load_segment. destruct (segment_rejected size ph) eqn:Er; [done|].
  destruct (Hacc Er) as (H1 & H2 & H3 & H4 & H5). clear Hacc. specialize (H5 (segment_no_wrap ph Hseg)).
  pose proof (fun va => segment_pages ph va H1 ltac:(lia) H3) as Hpg.
  destruct (Hpg 0) as (P1 & P2 & P3 & _). unfold Mmu.XAIOS_USER_BASE, Mmu.XAIOS_USER_LIMIT in *.
  eapply (load_post_step m a m a); [apply extends_refl| |apply load_pages_spec].
  - cbv beta. intros m' a' _ HQ. split; [done|]. intros x Hx. apply HQ; [apply Hx|]. apply (Hpg x); [apply Hx|done].
  - done.
  - done.
  - lia.
  - lia.
  - lia.
  - done.
  - lia.
  - done.
  - unfold PAGE_SIZE in *. lia.
  - unfold PAGE_SIZE in *. dlia.
  - intros x Hx Hr. by apply (Hpg x).
Qed.

Lemma load_segments_spec n m a size h i :
  bytes_ok rd -> loaded m a -> (forall k, i <= k < i + Z.of_nat n -> p_type (phdr_at rd h k) = PT_LOAD -> segment (phdr_at rd h k)) ->
  load_post m a (fun m' a' => forall k, i <= k < i + Z.of_nat n -> p_type (phdr_at rd h k) = PT_LOAD ->
      p_offset (phdr_at rd h k) + p_filesz (phdr_at rd h k) <= size /\
      forall x, in_segment (phdr_at rd h k) x -> covered (phdr_at rd h k) m' a' x)
    (load_segments lay n m rd size h i a).
Proof.
  intros Hb. revert m a i. induction n as [|n IH]; intros m a i Hld Hseg; cbn [load_segments].
  { intros _. split; [done|]. split; [apply extends_refl|]. intros; lia. }
  destruct (Z.eqb_spec (p_type (phdr_at rd h i)) PT_LOAD) as [Et|Et].
  - pose proof (load_segment_spec m a size (u64 (e_phoff h + i * e_phentsize h)) Hb Hld
      (Hseg i ltac:(lia) Et)) as Hs. fold (phdr_at rd h i) in Hs.
    destruct (load_segment lay m rd size (phdr_at rd h i) a) as [[[m1 a1] st]|]; cbn [mbind option_bind]; [|exact Hs].
    destruct st; cbn [is_ok negb]; try done. destruct (Hs eq_refl) as (Hld1 & He1 & Hc0 & Hc1).
    eapply load_post_step; [exact He1| |apply IH; [done|intros k Hk; apply Hseg; lia]].
    cbv beta. intros m' a' He HQ k Hk Hp. destruct (decide (k = i)) as [->|Hne].
    + split; [done|]. intros x Hx. eapply extends_covered; [exact He|by apply Hc1].
    + apply HQ; [lia|done].
  - eapply load_post_step; [apply extends_refl| |apply IH; [done|intros k Hk; apply Hseg; lia]].
    cbv beta. intros m' a' He HQ k Hk Hp. apply HQ; [|done].
    destruct (decide (k = i)) as [->|]; [done|lia].
Qed.

End Loading.
(** ** Properties *)

(** The allocator cannot provide the process's two tables. *)
Definition out_of_pages (s : Mmu.vm) : Prop :=
  match Mmu.new_table s with
  | None => True
  | Some (s1, _) => Mmu.new_table s1 = None
  end.

(** A fresh address space, before any page. *)
Lemma create_loaded lay rd m a s1 tables cnt :
  Mmu.vm_ok lay (space m) -> free_reachable lay (space m) -> zlen (page_va a) = XAIOS_ELF_LOADER_MAX_PAGES ->
  zlen (page_pa a) = XAIOS_ELF_LOADER_MAX_PAGES ->
  Mmu.vmm_create_user_aspace (space m) XAIOS_ELF_LOADER_L3_TABLES = Some (s1, tables, cnt) ->
  loaded lay rd (load_phdr rd) (mk_machine s1 (contents m)) (mk_aspace tables cnt (page_va a) (page_pa a) 0) /\
  forall n, Mmu.node_addr lay s1 n = Mmu.node_addr lay (space m) n.
Proof.
  intros Hvm Hre H1 H2. unfold Mmu.vmm_create_user_aspace. cbn [negb Z.leb Z.compare XAIOS_ELF_LOADER_L3_TABLES].
  destruct (Mmu.new_table (space m)) as [[sa t0]|] eqn:E0; [|done]. cbn [mbind option_bind].
  destruct (Mmu.new_table sa) as [[sb t1]|] eqn:E1; [|done]. cbn [mbind option_bind]. intros [= <- <- <-].
  destruct (Mmu.new_table_held lay _ _ _ Hvm E0) as ((Hvma & Hna & Hwa) & Ht0 & _ & Hha).
  destruct (Mmu.new_table_held lay _ _ _ Hvma E1) as ((Hvmb & Hnb & Hwb) & Ht1 & _ & Hhb).
  split; [|intros n; by rewrite Hnb, Hna].
  constructor; cbn [space l3_phys l3_count page_va page_pa page_count]; try done;
    try (intros i; unfold tracked; cbn [page_count]; intros; lia).
  { intros p Hp. apply (available_mono lay (space m)) in Hp; [|auto|intros n t; by rewrite Hnb, Hna].
    destruct (Hre p) as (Ho & f & Hf & Hw); [apply Hp|by eapply available_free|]. split; [done|]. exists f. split; [|done].
    by rewrite <- Hf, !Mmu.translate_walk, Hwb, Hwa. }
  intros j Hj _. assert (j = 0 \/ j = 1) as [->| ->] by lia; [by apply Hhb|exact Ht1].
Qed.

(** C4: what loading an executable does, in any well-formed state in which the free pages
    are mapped at their own addresses outside of the 2 MiB for user pages, for any file
    whose headers name no place beyond 2^64.  On success the program headers and the data
    of every loadable segment lie inside of the file; the entry point is the header's and
    lies in the user window; every page of every loadable segment is tracked in a frame with
    the file's bytes, and zeros beyond them; the frames are allocated, distinct and not page
    tables; an address translates to the frame tracked last for it; and only pages of
    segments are tracked.  On an error no entry point is returned.  An assertion fails only
    when the allocator has no page for the process's tables or the kernel's tables of the
    user window were not set up, and no write faults. *)
Theorem elf_load_image (lay : Mmu.layout) (m : machine) (f : xaios_initramfs_file) (a : xaios_process_aspace) :
  Mmu.vm_ok lay (space m) -> free_reachable lay (space m) ->
  (forall rd, f_base f = Some rd -> bytes_ok rd /\ no_wrap rd) ->
  zlen (page_va a) = XAIOS_ELF_LOADER_MAX_PAGES -> zlen (page_pa a) = XAIOS_ELF_LOADER_MAX_PAGES ->
  match elf_loader_load lay m (Some f) (Some a) with
  | None => ~ Mmu.tables_ready lay Mmu.XAIOS_USER_BASE Mmu.XAIOS_USER_LIMIT (space m) \/ out_of_pages (space m)
  | Some (m', a', XAIOS_OK, entry) => exists rd a2, f_base f = Some rd /\ a' = Some a2 /\
      entry = Some (e_entry (read_ehdr rd)) /\
      Mmu.XAIOS_USER_BASE <= e_entry (read_ehdr rd) < Mmu.XAIOS_USER_LIMIT /\
      e_phoff (read_ehdr rd) + e_phnum (read_ehdr rd) * e_phentsize (read_ehdr rd) <= f_size f /\
      loaded lay rd (load_phdr rd) m' a2 /\
      forall ph, load_phdr rd ph -> p_offset ph + p_filesz ph <= f_size f /\
        forall va, in_segment ph va -> covered rd ph m' a2 va
  | Some (_, _, _, entry) => entry = None
  end.
Proof.
  intros Hvm Hre Hb H1 H2. unfold elf_loader_load, validate_elf. destruct (f_base f) as [rd|]; [|done].
  destruct (Hb rd eq_refl) as [Hby [Hw1 Hw2]]. clear Hb. destruct (_ || (f_executable f =? 0)); [done|].
  cbv zeta. destruct (_ || (f_size f <? u64 _)) eqn:Eh; [done|]. apply orb_false_iff in Eh as [_ Eh%Z.ltb_ge].
  assert (Hp0 : 0 <= e_phnum (read_ehdr rd)) by apply (read_le_range 2 rd 56 Hby).
  pose proof (read_le_range 8 rd 32 Hby : 0 <= e_phoff (read_ehdr rd) < _) as Hp1.
  pose proof (read_le_range 2 rd 54 Hby : 0 <= e_phentsize (read_ehdr rd) < _) as Hp2. rewrite u64_small in Eh by nia.
  destruct (_ || (Mmu.XAIOS_USER_LIMIT <=? _)) eqn:Ee; [done|]. apply orb_false_iff in Ee as [Ee1%Z.ltb_ge Ee2%Z.leb_gt].
  destruct (Mmu.vmm_create_user_aspace _ _) as [[[s1 tables] cnt]|] eqn:Ec; cbn [mbind option_bind].
  2:{ right. revert Ec. unfold out_of_pages, Mmu.vmm_create_user_aspace.
      destruct (Mmu.new_table (space m)) as [[sa t0]|]; [|done]. cbn [mbind option_bind].
      by destruct (Mmu.new_table sa) as [[? ?]|]. }
  destruct (create_loaded lay rd m a s1 tables cnt Hvm Hre H1 H2 Ec) as [Hld Hn].
  pose proof (load_segments_spec lay rd (load_phdr rd) Hw2 (Z.to_nat (e_phnum (read_ehdr rd))) _ _ (f_size f)
    (read_ehdr rd) 0 Hby Hld) as Hs. rewrite Z2Nat.id in Hs by done.
  destruct (load_segments _ _ _ _ _ _ _ _) as [[[m2 a2] st]|]; cbn [mbind option_bind].
  2:{ left. intros Hr. apply Hs; [intros k Hk Ht; by exists k|]. eapply Mmu.ready_mono; [|exact Hr].
      intros n t. cbn [space]. by rewrite Hn. }
  destruct st; cbn [is_ok negb]; try done.
  destruct Hs as (Hl & _ & Hcov); [intros k Hk Ht; by exists k|done|].
  exists rd, a2. split; [done|]. split; [done|]. split; [done|]. split; [done|]. split; [done|]. split; [exact Hl|].
  intros ph (k & Hk & -> & Ht). by apply Hcov.
Qed.

(** *** A file with one segment of four bytes on two pages *)

Fixpoint le_bytes (n : nat) (v : Z) : list Z :=
  match n with O => [] | S n' => v mod 256 :: le_bytes n' (v / 256) end.

Definition demo_bytes (phoff offset : Z) : list Z :=
  [127; 69; 76; 70; 2; 1; 1; 0; 0; 0; 0; 0; 0; 0; 0; 0] ++ le_bytes 2 ET_EXEC ++ le_bytes 2 EM_AARCH64 ++ le_bytes 4 1 ++
  le_bytes 8 1090519040 ++ le_bytes 8 phoff ++ le_bytes 8 0 ++ le_bytes 4 0 ++ le_bytes 2 64 ++ le_bytes 2 56 ++
  le_bytes 2 1 ++ le_bytes 6 0 ++
  le_bytes 4 PT_LOAD ++ le_bytes 4 4 ++ le_bytes 8 offset ++ le_bytes 8 1090519040 ++ le_bytes 8 0 ++
  le_bytes 8 4 ++ le_bytes 8 4100 ++ le_bytes 8 4096 ++ [192; 3; 95; 214].

Definition demo_reader (l : list Z) (x : Z) : Z := if (0 <=? x) && (x <? zlen l) then l.[x] else 0.

Definition demo_file (phoff offset : Z) : xaios_initramfs_file :=
  mk_file (Some (demo_reader (demo_bytes phoff offset))) 124 1.

Definition demo_machine : machine := mk_machine Mmu.demo_vm ∅.
Definition demo_aspace : xaios_process_aspace := mk_aspace (replicate 4 0) 0 (replicate 64 0) (replicate 64 0) 0.

Lemma demo_reader_bytes l : forallb (fun b => (0 <=? b) && (b <? 256)) l = true -> bytes_ok (demo_reader l).
Proof.
  intros H x. unfold demo_reader. case_if; [|lia]. breflect. rewrite forallb_forall in H.
  pose proof (arr_lookup l x ltac:(lia)) as E%list_elem_of_lookup_2%list_elem_of_In. specialize (H _ E). lia.
Qed.

Lemma demo_free_reachable : free_reachable Mmu.demo_layout (space demo_machine).
Proof.
  intros p [_ Hp] Hf. apply Mmu.demo_free in Hf. unfold Mmu.PAGE_SIZE in Hp. assert (Hk : exists k, 0 <= k < 8 /\ p = 1073741824 + 4096 * k).
  { exists ((p - 1073741824) / 4096). dlia. }
  destruct Hk as (k & Hk & ->). split; [unfold in_user_block, Mmu.XAIOS_USER_BASE; lia|].
  assert (C : k = 0 \/ k = 1 \/ k = 2 \/ k = 3 \/ k = 4 \/ k = 5 \/ k = 6 \/ k = 7) by lia.
  destruct C as [->|[->|[->|[->|[->|[->|[->| ->]]]]]]]; (eexists; split; [vm_compute; reflexivity|reflexivity]).
Qed.

Lemma demo_no_wrap : no_wrap (demo_reader (demo_bytes 64 120)).
Proof.
  split; [by vm_compute|]. intros ph (k & Hk & -> & _). change (e_phnum _) with 1 in Hk. assert (k = 0) as -> by lia. by vm_compute.
Qed.

Lemma demo_loads :
  match elf_loader_load Mmu.demo_layout demo_machine (Some (demo_file 64 120)) (Some demo_aspace) with
  | Some (_, Some a', XAIOS_OK, Some e) => (e =? 1090519040) && (page_count a' =? 2)
  | _ => false
  end = true.
Proof. by vm_compute. Qed.

Lemma elf_load_image_witness :
  exists m' a', elf_loader_load Mmu.demo_layout demo_machine (Some (demo_file 64 120)) (Some demo_aspace) =
      Some (m', Some a', XAIOS_OK, Some 1090519040) /\ page_count a' = 2 /\
    let rd := demo_reader (demo_bytes 64 120) in loaded Mmu.demo_layout rd (load_phdr rd) m' a'.
Proof.
  pose proof (elf_load_image Mmu.demo_layout demo_machine (demo_file 64 120) demo_aspace Mmu.demo_vm_ok demo_free_reachable) as H.
  specialize (H ltac:(intros rd [= <-]; split; [by apply demo_reader_bytes|apply demo_no_wrap]) eq_refl eq_refl). pose proof demo_loads as D.
  destruct (elf_loader_load _ _ _ _) as [[[[m' [a'|]] st] [e|]]|]; try discriminate D; destruct st; try discriminate D.
  apply andb_true_iff in D as [D1%Z.eqb_eq D2%Z.eqb_eq].
  destruct H as (rd & a2 & Hrd & Ha & _ & _ & _ & Hl & _). injection Ha as ->. injection Hrd as <-.
  exists m', a2. by rewrite D1.
Defined.

(** The bounds checks wrap at 64 bits.  A segment whose data starts before the file is
    accepted, and its page is filled from there. *)
Lemma segment_reads_before_file :
  exists ph, segment_rejected 124 ph = false /\ load_phdr (demo_reader (demo_bytes 64 18446744073709551612)) ph /\
    forall rd, (fill_page rd ph 1090519040).[0] = rd 18446744073709551612.
Proof.
  exists (mk_phdr 1 4 18446744073709551612 1090519040 4 4100). split; [done|].
  split; [exists 0; vm_compute; intuition discriminate|]. reflexivity.
Qed.

(** Likewise a header whose program headers lie before the file. *)
Lemma program_headers_before_file :
  match validate_elf (demo_file 18446744073709551560 120) with
  | Some (_, h) => u64 (e_phoff h + 0 * e_phentsize h) = 18446744073709551560
  | None => False
  end.
Proof. by vm_compute. Qed.

End Elf.
