(* ===== verification/Sandbox.v ===== *)
(** * Build sandboxes (kernel/runtime/sandbox.c, include/xaios/sandbox.h)

    The manifest check, the life cycle of the four sandboxes and the bytecode VM that
    runs a build.  The runtime calls the security policy (Security.v) and creates one
    build arena per sandbox through [ArenaService] (Arena.v).  The bytes a build emits
    are the list [vm_out], which is what the build arena holds from offset 0.

    Registers are int64.  The C additions and multiplications of the VM are signed, so
    their overflow is undefined in C; the model gives them the two's complement result
    ([s64]).  The VM loop is given [max_cycles] rounds of fuel, which
    [vm_loop_never_starves] shows to be enough for every program. *)

From S2P Require Import Prelude Security Arena.
From Stdlib Require Import String.
#[local] Open Scope string_scope.
#[local] Open Scope Z_scope.

Module Sandbox.

Definition MAX_SANDBOXES : Z := 4.
Definition SANDBOX_BUILD_ARENA_BASE : Z := 25.
Definition SANDBOX_MAX_ARTIFACT_BYTES : Z := 262144.
Definition XAIOS_SANDBOX_VM_MAX_INSTRUCTIONS : Z := 4096.
Definition XAIOS_SANDBOX_VM_REGISTERS : Z := 8.

Inductive xaios_sandbox_state :=
| XAIOS_SANDBOX_EMPTY | XAIOS_SANDBOX_CREATED | XAIOS_SANDBOX_BUILDING
| XAIOS_SANDBOX_BUILT | XAIOS_SANDBOX_ROLLED_BACK | XAIOS_SANDBOX_FAILED.

#[global] Instance sandbox_state_eq_dec : EqDecision xaios_sandbox_state.
Proof. solve_decision. Defined.

Record xaios_sandbox_manifest := mk_manifest {
  sandbox_id : Z;
  cell_id : Z;
  workspace_id : Z;
  repo_path : option string;
  worktree_path : option string;
  build_dir : option string;
  artifact_dir : option string;
  source_revision : option string;
  max_artifact_bytes : Z;
  allow_network : Z
}.

Record xaios_sandbox := mk_sandbox {
  state : xaios_sandbox_state;
  manifest : xaios_sandbox_manifest;
  build_arena_id : Z;
  build_arena_base : Z;
  build_generation : Z;
  rollback_generation : Z;
  last_good_revision : option string;
  current_revision : option string
}.

Definition zero_manifest : xaios_sandbox_manifest := mk_manifest 0 0 0 None None None None None 0 0.
Definition zero_sandbox : xaios_sandbox :=
  mk_sandbox XAIOS_SANDBOX_EMPTY zero_manifest 0 0 0 0 None None.

#[global] Instance sandbox_inhabited : Inhabited xaios_sandbox := populate zero_sandbox.

(** ** The bytecode VM *)

Record xaios_sandbox_vm_insn := mk_insn { op : Z; dst : Z; src1 : Z; src2 : Z; imm : Z }.

#[global] Instance insn_inhabited : Inhabited xaios_sandbox_vm_insn := populate (mk_insn 0 0 0 0 0).

Definition s32 (x : Z) : Z := if u32 x <? 2147483648 then u32 x else u32 x - 4294967296.

Record vm_state := mk_vm { vm_pc : Z; vm_cycles : Z; vm_regs : list Z; vm_out : list Z }.

Definition low_byte (x : Z) : Z := Z.land x 255.

(** The inner loop of EMIT_STR; [fuel] bounds the bytes that still fit. *)
Fixpoint emit_str (fuel : nat) (regs : list Z) (s1 remaining ri cap : Z) (out : list Z) : list Z :=
  match fuel with
  | O => out
  | S fuel' =>
      if (ri <? remaining) && (zlen out <? cap) then
        let reg_idx := u8 ((s1 + ri) mod XAIOS_SANDBOX_VM_REGISTERS) in
        emit_str fuel' regs s1 remaining (ri + 1) cap (out ++ [low_byte (regs.[reg_idx])])
      else out
  end.

(** One iteration of the interpreter; [None] is the invalid opcode return.
    [arena] tells whether there is an output arena, [cap] its size. *)
Definition vm_step (program : list xaios_sandbox_vm_insn) (n : Z) (arena : bool) (cap : Z)
    (st : vm_state) : option vm_state :=
  let i := program.[vm_pc st] in
  let d := dst i mod XAIOS_SANDBOX_VM_REGISTERS in
  let s1 := src1 i mod XAIOS_SANDBOX_VM_REGISTERS in
  let s2 := src2 i mod XAIOS_SANDBOX_VM_REGISTERS in
  let c := u32 (vm_cycles st + 1) in
  let next := u32 (vm_pc st + 1) in
  let regs := vm_regs st in
  let out := vm_out st in
  match op i with
  | 0 => Some (mk_vm next c regs out)
  | 1 => Some (mk_vm next c (regs.[d <- s32 (imm i)]) out)
  | 2 => Some (mk_vm next c (regs.[d <- s64 (regs.[s1] + regs.[s2])]) out)
  | 3 => Some (mk_vm next c (regs.[d <- s64 (regs.[s1] * regs.[s2])]) out)
  | 4 => Some (mk_vm next c regs
           (if arena && (zlen out <? cap) then out ++ [low_byte (regs.[d])] else out))
  | 5 => Some (mk_vm next c (regs.[d <- if regs.[s1] =? regs.[s2] then 0 else 1]) out)
  | 6 => Some (mk_vm (if negb (regs.[d] =? 0) then imm i else next) c regs out)
  | 7 => Some (mk_vm n c regs out)
  | 8 => Some (mk_vm next c regs
           (if arena then emit_str (Z.to_nat (cap - zlen out)) regs (src1 i) (imm i) 0 cap out
            else out))
  | _ => None
  end.

Inductive vm_outcome :=
| VmStopped (st : vm_state)   (* the loop condition failed *)
| VmBadOp (st : vm_state)     (* invalid opcode *)
| VmStarved (st : vm_state).  (* out of fuel: never happens *)

Fixpoint vm_loop (fuel : nat) (program : list xaios_sandbox_vm_insn) (n max_cycles : Z)
    (arena : bool) (cap : Z) (st : vm_state) : vm_outcome :=
  if negb ((vm_pc st <? n) && (vm_cycles st <? max_cycles)) then VmStopped st else
  match fuel with
  | O => VmStarved st
  | S fuel' =>
      match vm_step program n arena cap st with
      | None => VmBadOp (mk_vm (vm_pc st) (u32 (vm_cycles st + 1)) (vm_regs st) (vm_out st))
      | Some st' => vm_loop fuel' program n max_cycles arena cap st'
      end
  end.

Definition vm_start : vm_state := mk_vm 0 0 (replicate 8 0) [].

Definition vm_max_cycles (n : Z) : Z := u32 (n * 64).

Definition vm_run (program : list xaios_sandbox_vm_insn) (n : Z) (arena : bool) (cap : Z)
    : vm_outcome :=
  vm_loop (Z.to_nat (vm_max_cycles n)) program n (vm_max_cycles n) arena cap vm_start.

(** ** Manifests *)

Definition str_nonempty (value : option string) : bool :=
  match value with Some (String _ _) => true | _ => false end.

Definition str_prefix (value prefix : option string) : bool :=
  match value, prefix with
  | Some v, Some p => str_nonempty value && str_nonempty prefix && Security.prefix_loop v p
  | _, _ => false
  end.

(** Four path checks, each only made when the ones before succeeded. *)
Fixpoint validate_paths (sec : Security.policy) (paths : list (option string))
    : Security.policy * xaios_status :=
  match paths with
  | [] => (sec, XAIOS_OK)
  | p :: rest =>
      let '(sec1, st) := Security.security_validate_sandbox_path sec p in
      if negb (is_ok st) then (sec1, XAIOS_ERR_INVALID) else validate_paths sec1 rest
  end.

Definition validate_manifest (sec : Security.policy) (m : xaios_sandbox_manifest)
    : Security.policy * xaios_status :=
  if (MAX_SANDBOXES <=? sandbox_id m) || (MAX_SANDBOXES <=? cell_id m) ||
     (workspace_id m =? 0) || (MAX_SANDBOXES <? workspace_id m) ||
     negb (str_prefix (repo_path m) (Some "/repo/")) ||
     negb (str_prefix (worktree_path m) (Some "/workspace/")) ||
     negb (str_prefix (build_dir m) (Some "/workspace/")) ||
     negb (str_prefix (artifact_dir m) (Some "/artifacts/")) ||
     negb (str_nonempty (source_revision m)) ||
     (max_artifact_bytes m =? 0) || (SANDBOX_MAX_ARTIFACT_BYTES <? max_artifact_bytes m) ||
     negb (allow_network m =? 0)
  then (sec, XAIOS_ERR_INVALID)
  else validate_paths sec [repo_path m; worktree_path m; build_dir m; artifact_dir m].

(** ** The runtime *)

Record runtime (A : Type) := mk_runtime {
  g_sandboxes : list xaios_sandbox;
  g_workspace_owner : list Z;
  g_transition_count : Z;
  g_active_count : Z;
  g_vm_exec_count : Z;
  sec : Security.policy;
  arenas : A
}.
Arguments mk_runtime {A}. Arguments g_sandboxes {A}. Arguments g_workspace_owner {A}.
Arguments g_transition_count {A}. Arguments g_active_count {A}. Arguments g_vm_exec_count {A}.
Arguments sec {A}. Arguments arenas {A}.

Section Runtime.
Context {A : Type} `{!ArenaService A}.

Definition sandbox (r : runtime A) (i : Z) : xaios_sandbox := (g_sandboxes r).[i].

Definition sandbox_runtime_init (r : runtime A) : runtime A :=
  mk_runtime
    ((fun s => mk_sandbox XAIOS_SANDBOX_EMPTY (manifest s) 0 0 0 0 None None) <$> g_sandboxes r)
    ((fun _ => 0) <$> g_workspace_owner r) 0 0 0 (sec r) (arenas r).

Definition with_sec (r : runtime A) (p : Security.policy) : runtime A :=
  mk_runtime (g_sandboxes r) (g_workspace_owner r) (g_transition_count r) (g_active_count r)
    (g_vm_exec_count r) p (arenas r).

(** Replace one sandbox and count a transition. *)
Definition transition (r : runtime A) (i : Z) (s : xaios_sandbox) : runtime A :=
  mk_runtime ((g_sandboxes r).[i <- s]) (g_workspace_owner r) (u64 (g_transition_count r + 1))
    (g_active_count r) (g_vm_exec_count r) (sec r) (arenas r).

Definition sandbox_create (r : runtime A) (m : xaios_sandbox_manifest)
    : option (runtime A * xaios_status) :=
  let '(p1, st) := validate_manifest (sec r) m in
  let r1 := with_sec r p1 in
  if negb (is_ok st) then Some (r1, XAIOS_ERR_INVALID) else
  let id := sandbox_id m in
  if negb (bool_decide (state (sandbox r1 id) = XAIOS_SANDBOX_EMPTY)) ||
     negb ((g_workspace_owner r1).[workspace_id m] =? 0)
  then Some (r1, XAIOS_ERR_BUSY) else
  let arena_id := u32 (SANDBOX_BUILD_ARENA_BASE + id) in
  match arena_new (arenas r1) arena_id id (max_artifact_bytes m) with
  | None => None
  | Some (a1, None) =>
      Some (mk_runtime (g_sandboxes r1) (g_workspace_owner r1) (g_transition_count r1)
              (g_active_count r1) (g_vm_exec_count r1) (sec r1) a1, XAIOS_ERR_NO_MEMORY)
  | Some (a1, Some base) =>
      Some (mk_runtime
              ((g_sandboxes r1).[id <- mk_sandbox XAIOS_SANDBOX_CREATED m arena_id base 0 0
                                         (source_revision m) (source_revision m)])
              ((g_workspace_owner r1).[workspace_id m <- u8 (id + 1)])
              (u64 (g_transition_count r1 + 1)) (u64 (g_active_count r1 + 1))
              (g_vm_exec_count r1) (sec r1) a1, XAIOS_OK)
  end.

Definition in_state (r : runtime A) (id : Z) (st : xaios_sandbox_state) : bool :=
  (id <? MAX_SANDBOXES) && bool_decide (state (sandbox r id) = st).

Definition sandbox_start_build_as (r : runtime A) (actor id : Z) : runtime A * xaios_status :=
  if negb (in_state r id XAIOS_SANDBOX_CREATED) then (r, XAIOS_ERR_INVALID) else
  let s := sandbox r id in
  let '(p1, st) := Security.security_authorize_sandbox (sec r) (cell_id (manifest s)) actor
                     (Some "build") in
  let r1 := with_sec r p1 in
  if negb (is_ok st) then (r1, XAIOS_ERR_INVALID) else
  (transition r1 id (mk_sandbox XAIOS_SANDBOX_BUILDING (manifest s) (build_arena_id s)
     (build_arena_base s) (u64 (build_generation s + 1)) (rollback_generation s)
     (last_good_revision s) (current_revision s)), XAIOS_OK).

Definition sandbox_start_build (r : runtime A) (id : Z) : runtime A * xaios_status :=
  if MAX_SANDBOXES <=? id then (r, XAIOS_ERR_INVALID)
  else sandbox_start_build_as r (cell_id (manifest (sandbox r id))) id.

Definition sandbox_finish_build (r : runtime A) (id : Z) (artifact : option string)
    : runtime A * xaios_status :=
  if negb (in_state r id XAIOS_SANDBOX_BUILDING) || negb (str_nonempty artifact)
  then (r, XAIOS_ERR_INVALID) else
  let s := sandbox r id in
  (transition r id (mk_sandbox XAIOS_SANDBOX_BUILT (manifest s) (build_arena_id s)
     (build_arena_base s) (build_generation s) (rollback_generation s)
     (last_good_revision s) artifact), XAIOS_OK).

Definition sandbox_rollback_as (r : runtime A) (actor id : Z) : runtime A * xaios_status :=
  if negb (in_state r id XAIOS_SANDBOX_BUILT) then (r, XAIOS_ERR_INVALID) else
  let s := sandbox r id in
  let owner := cell_id (manifest s) in
  let '(p1, st1) := Security.security_authorize_sandbox (sec r) owner actor (Some "rollback") in
  if negb (is_ok st1) then (with_sec r p1, XAIOS_ERR_INVALID) else
  let '(p2, st2) := Security.security_authorize_rollback p1 (Some "sandbox")
                      (if actor =? owner then 1 else 0) in
  if negb (is_ok st2) then (with_sec r p2, XAIOS_ERR_INVALID) else
  (transition (with_sec r p2) id (mk_sandbox XAIOS_SANDBOX_ROLLED_BACK (manifest s)
     (build_arena_id s) (build_arena_base s) (build_generation s)
     (u64 (rollback_generation s + 1)) (last_good_revision s) (last_good_revision s)), XAIOS_OK).

Definition sandbox_rollback (r : runtime A) (id : Z) : runtime A * xaios_status :=
  if MAX_SANDBOXES <=? id then (r, XAIOS_ERR_INVALID)
  else sandbox_rollback_as r (cell_id (manifest (sandbox r id))) id.

Definition count_exec (r : runtime A) : runtime A :=
  mk_runtime (g_sandboxes r) (g_workspace_owner r) (g_transition_count r) (g_active_count r)
    (u64 (g_vm_exec_count r + 1)) (sec r) (arenas r).

(** The result also carries the bytes written to the arena when the program ran. *)
Definition sandbox_execute_build (r : runtime A) (id : Z)
    (program : option (list xaios_sandbox_vm_insn)) (insn_count : Z)
    : runtime A * xaios_status * option (list Z) :=
  match program with
  | None => (r, XAIOS_ERR_INVALID, None)
  | Some prog =>
      if (MAX_SANDBOXES <=? id) || (insn_count =? 0) ||
         (XAIOS_SANDBOX_VM_MAX_INSTRUCTIONS <? insn_count)
      then (r, XAIOS_ERR_INVALID, None) else
      if negb (bool_decide (state (sandbox r id) = XAIOS_SANDBOX_BUILDING))
      then (r, XAIOS_ERR_INVALID, None) else
      let s := sandbox r id in
      let arena := negb (build_arena_base s =? 0) in
      let cap := if arena then max_artifact_bytes (manifest s) else 0 in
      match vm_run prog insn_count arena cap with
      | VmBadOp st => (count_exec r, XAIOS_ERR_INVALID, Some (vm_out st))
      | VmStopped st | VmStarved st => (count_exec r, XAIOS_OK, Some (vm_out st))
      end
  end.

End Runtime.

(** ** VM lemmas *)

Definition int64 (x : Z) : Prop := -9223372036854775808 <= x < 9223372036854775808.

Lemma s64_range x : int64 (s64 x).
Proof. unfold int64, s64. pose proof (u64_range x). case_if; lia. Qed.

Lemma s32_range x : int64 (s32 x).
Proof. unfold int64, s32. pose proof (u32_range x). case_if; lia. Qed.

Definition byte (x : Z) : Prop := 0 <= x < 256.

Lemma low_byte_range x : byte (low_byte x).
Proof.
  unfold byte, low_byte. change 255 with (2 ^ 8 - 1). rewrite land_low_mask by lia.
  apply Z.mod_pos_bound. lia.
Qed.

(** What a machine state satisfies at every point of a run. *)
Definition vm_ok (cap : Z) (st : vm_state) : Prop :=
  0 <= vm_pc st /\ zlen (vm_regs st) = XAIOS_SANDBOX_VM_REGISTERS /\ Forall int64 (vm_regs st) /\
  zlen (vm_out st) <= cap /\ Forall byte (vm_out st).

Lemma emit_str_spec fuel regs s1 remaining ri cap out :
  Z.of_nat fuel = cap - zlen out -> Forall byte out ->
  let r := emit_str fuel regs s1 remaining ri cap out in
  zlen r = zlen out + Z.max 0 (Z.min (remaining - ri) (cap - zlen out)) /\ Forall byte r /\
  out `prefix_of` r.
Proof.
  revert ri out. induction fuel as [|fuel IH]; intros ri out Hf Hb; simpl.
  { split_and!; [lia|done|done]. }
  destruct ((ri <? remaining) && (zlen out <? cap)) eqn:E.
  - assert (Hl : forall x, zlen (out ++ [x]) = zlen out + 1)
      by (intros; unfold zlen; rewrite length_app; simpl; lia).
    edestruct (IH (ri + 1)) as (H1 & H2 & H3).
    + rewrite Hl. lia.
    + apply Forall_app. split; [done|]. repeat constructor; apply low_byte_range.
    + rewrite H1, Hl. split_and!; [lia|done|]. etransitivity; [|exact H3]. by apply prefix_app_r.
  - split_and!; [lia|done|done].
Qed.

Lemma vm_step_ok program n arena cap st st' :
  vm_ok cap st -> 0 <= n -> Forall (fun i => 0 <= imm i) program -> vm_step program n arena cap st = Some st' ->
  vm_ok cap st' /\ vm_cycles st' = u32 (vm_cycles st + 1).
Proof.
  intros (Hpc & Hl & Hr & Ho & Hb) Hn Hprog.
  assert (Himm : 0 <= imm (program.[vm_pc st])).
  { rewrite list_lookup_total_alt. destruct (program !! _) eqn:E; [|simpl; lia].
    rewrite Forall_lookup in Hprog. simpl. by eapply Hprog. }
  assert (Hset : forall d x, int64 x -> zlen ((vm_regs st).[d <- x]) = XAIOS_SANDBOX_VM_REGISTERS /\
                                     Forall int64 ((vm_regs st).[d <- x])).
  { intros d x Hx. split; [by rewrite zlen_set|by apply Forall_insert]. }
  pose proof (u32_range (vm_pc st + 1)) as Hnext.
  unfold vm_step. set (i := program.[vm_pc st]) in *.
  destruct (op i) as [|q|q]; [|do 4 (try destruct q as [q|q|])|]; intros Hst; simplify_eq; simpl;
    unfold vm_ok; simpl; (split; [|done]).
  all: try (split_and!; (done || lia || apply Hset; first [apply s32_range|apply s64_range|case_if; unfold int64; lia])).
  - case_if; split_and!; (done || lia).
  - destruct arena; [|split_and!; done || lia].
    edestruct (emit_str_spec (Z.to_nat (cap - zlen (vm_out st)))) as (H1 & H2 & _); [|done|];
      [rewrite Z2Nat.id by lia; reflexivity|].
    split_and!; try (done || lia). rewrite H1. lia.
  - case_if; [|split_and!; done || lia]. breflect.
    split_and!; try (done || lia).
    + unfold zlen in *. rewrite length_app. simpl. lia.
    + apply Forall_app. split; [done|]. repeat constructor; apply low_byte_range.
Qed.

(** The fuel is enough, and the bounds hold whenever the loop stops. *)
Lemma vm_loop_spec fuel program n max arena cap st :
  vm_ok cap st -> 0 <= n -> Forall (fun i => 0 <= imm i) program ->
  0 <= vm_cycles st <= max -> max < 4294967296 -> max - vm_cycles st <= Z.of_nat fuel ->
  exists st', vm_ok cap st' /\ 0 <= vm_cycles st' <= max /\
    (vm_loop fuel program n max arena cap st = VmStopped st' \/
     vm_loop fuel program n max arena cap st = VmBadOp st').
Proof.
  revert st. induction fuel as [|fuel IH]; intros st Hok Hn Hp Hc Hm Hf; cbn [vm_loop].
  - replace (vm_cycles st <? max) with false by lia. rewrite andb_false_r. cbn [negb].
    exists st. split_and!; try (done || lia). by left.
  - destruct ((vm_pc st <? n) && (vm_cycles st <? max)) eqn:E; cbn [negb].
    2:{ exists st. split_and!; try (done || lia). by left. }
    apply andb_true_iff in E as [_ E].
    assert (Hu : u32 (vm_cycles st + 1) = vm_cycles st + 1) by (apply u32_small; lia).
    destruct (vm_step program n arena cap st) as [st1|] eqn:Es.
    + destruct (vm_step_ok _ _ _ _ _ _ Hok Hn Hp Es) as [Hok1 Hc1].
      apply IH; try done; lia.
    + eexists. split; [|split; [|by right]]; [exact Hok|]. simpl. lia.
Qed.

Lemma vm_start_ok cap : 0 <= cap -> vm_ok cap vm_start.
Proof.
  intros Hc. unfold vm_ok, vm_start. cbn [vm_pc vm_regs vm_out]. split_and!; try done.
  apply Forall_replicate. unfold int64. lia.
Qed.

Lemma vm_loop_never_starves program n arena cap :
  0 < n <= XAIOS_SANDBOX_VM_MAX_INSTRUCTIONS -> 0 <= cap -> Forall (fun i => 0 <= imm i) program ->
  exists st, vm_ok cap st /\ 0 <= vm_cycles st <= 64 * n /\
    (vm_run program n arena cap = VmStopped st \/ vm_run program n arena cap = VmBadOp st).
Proof.
  unfold XAIOS_SANDBOX_VM_MAX_INSTRUCTIONS. intros Hn Hc Hp. unfold vm_run, vm_max_cycles.
  rewrite u32_small by lia.
  destruct (vm_loop_spec (Z.to_nat (n * 64)) program n (n * 64) arena cap vm_start)
    as (st & Hok & Hcy & Hst); try (done || lia); [by apply vm_start_ok|simpl; lia|simpl; lia|].
  exists st. split_and!; try (done || lia).
Qed.

(** ** Life cycle *)

(** The edges of the life cycle. *)
Inductive edge : xaios_sandbox_state -> xaios_sandbox_state -> Prop :=
| EdgeCreate : edge XAIOS_SANDBOX_EMPTY XAIOS_SANDBOX_CREATED
| EdgeStart : edge XAIOS_SANDBOX_CREATED XAIOS_SANDBOX_BUILDING
| EdgeFinish : edge XAIOS_SANDBOX_BUILDING XAIOS_SANDBOX_BUILT
| EdgeRollback : edge XAIOS_SANDBOX_BUILT XAIOS_SANDBOX_ROLLED_BACK.

Definition live (s : xaios_sandbox) : bool := negb (bool_decide (state s = XAIOS_SANDBOX_EMPTY)).

(** A live sandbox: its manifest passed validation, its arena exists, its last good
    revision is the one it was created from, and a rolled-back one is at it. *)
Definition sandbox_ok (i : Z) (s : xaios_sandbox) : Prop :=
  live s = true ->
  sandbox_id (manifest s) = i /\ 1 <= workspace_id (manifest s) <= MAX_SANDBOXES /\
  0 < max_artifact_bytes (manifest s) <= SANDBOX_MAX_ARTIFACT_BYTES /\
  allow_network (manifest s) = 0 /\ 0 < build_arena_base s /\
  last_good_revision s = source_revision (manifest s) /\
  state s <> XAIOS_SANDBOX_FAILED /\
  (state s = XAIOS_SANDBOX_ROLLED_BACK -> current_revision s = last_good_revision s).

Section Lifecycle.
Context {A : Type} `{!ArenaService A} `{!ArenaServiceLaws A}.

Definition runtime_ok (r : runtime A) : Prop :=
  zlen (g_sandboxes r) = MAX_SANDBOXES /\ zlen (g_workspace_owner r) = MAX_SANDBOXES + 1 /\
  service_ok (arenas r) /\
  (forall i, 0 <= i < MAX_SANDBOXES -> sandbox_ok i (sandbox r i)) /\
  (forall w, 1 <= w <= MAX_SANDBOXES ->
     (g_workspace_owner r).[w] = 0 \/
     exists i, 0 <= i < MAX_SANDBOXES /\ (g_workspace_owner r).[w] = i + 1 /\
       live (sandbox r i) = true /\ workspace_id (manifest (sandbox r i)) = w) /\
  (forall i, 0 <= i < MAX_SANDBOXES -> live (sandbox r i) = true ->
     (g_workspace_owner r).[workspace_id (manifest (sandbox r i))] = i + 1).

(** What one call may do to sandbox [j]: nothing, or one edge of the life cycle. *)
Definition moves (r r' : runtime A) (j : Z) : Prop :=
  sandbox r' j = sandbox r j \/ edge (state (sandbox r j)) (state (sandbox r' j)).

Lemma transition_get r i s j :
  runtime_ok r -> 0 <= i < MAX_SANDBOXES -> 0 <= j ->
  sandbox (transition r i s) j = if j =? i then s else sandbox r j.
Proof.
  intros (Hz & _) Hi Hj. unfold sandbox, transition; simpl. case_if.
  - apply Z.eqb_eq in Heqb as ->. apply arr_get_set_eq. lia.
  - apply arr_get_set_ne; lia.
Qed.

Lemma with_sec_ok r p : runtime_ok r -> runtime_ok (with_sec r p).
Proof. done. Qed.

(** A transition of a live sandbox that keeps its manifest and arena. *)
Lemma transition_ok r i s :
  runtime_ok r -> 0 <= i < MAX_SANDBOXES -> live (sandbox r i) = true -> live s = true ->
  manifest s = manifest (sandbox r i) -> build_arena_base s = build_arena_base (sandbox r i) ->
  last_good_revision s = last_good_revision (sandbox r i) ->
  state s <> XAIOS_SANDBOX_FAILED ->
  (state s = XAIOS_SANDBOX_ROLLED_BACK -> current_revision s = last_good_revision s) ->
  edge (state (sandbox r i)) (state s) ->
  runtime_ok (transition r i s) /\ forall j, 0 <= j -> moves r (transition r i s) j.
Proof.
  intros Hok Hi Hl Hls Hm Hb Hg Hf Hr He.
  pose proof (transition_get r i s) as Hget.
  pose proof Hok as (Hz & Hw & Hs & Hsb & Hown & Hinj).
  split.
  - split_and!; try done.
    + by rewrite <- Hz; apply zlen_set.
    + intros j Hj. rewrite Hget by (done || lia). case_if; [|by apply Hsb].
      apply Z.eqb_eq in Heqb as ->. intros _. destruct (Hsb i Hi Hl) as (H1 & H2 & H3 & H4 & H5 & H6 & _).
      rewrite Hm, Hb, Hg. split_and!; try done; try lia. intros Hrb. rewrite <- Hg. by apply Hr.
    + intros w Hw1. destruct (Hown w Hw1) as [H0|(j & Hj & Ho & Hlj & Hwj)]; [by left|]. right.
      exists j. rewrite Hget by (done || lia). split_and!; try (done || lia); (case_if; [|done]).
      * done.
      * apply Z.eqb_eq in Heqb as ->. by rewrite Hm.
    + intros j Hj. rewrite Hget by (done || lia). case_if; [|by apply Hinj].
      apply Z.eqb_eq in Heqb as ->. intros _. rewrite Hm. by apply Hinj.
  - intros j Hj. unfold moves. rewrite Hget by done. case_if; [|by left].
    apply Z.eqb_eq in Heqb as ->. by right.
Qed.

Lemma validate_manifest_ok p m p' :
  validate_manifest p m = (p', XAIOS_OK) ->
  sandbox_id m < MAX_SANDBOXES /\ workspace_id m <> 0 /\ workspace_id m <= MAX_SANDBOXES /\
  max_artifact_bytes m <> 0 /\ max_artifact_bytes m <= SANDBOX_MAX_ARTIFACT_BYTES /\
  allow_network m = 0 /\
  forall q, q ∈ [repo_path m; worktree_path m; build_dir m; artifact_dir m] ->
    exists t, q = Some t /\ ".." ∉ Security.split_path t.
Proof.
  unfold validate_manifest. destruct (_ || _) eqn:E; [done|]. rewrite !orb_false_iff in E.
  destruct E as (((((((((((E1 & E2) & E3) & E4) & E5) & E6) & E7) & E8) & E9) & E10) & E11) & E12).
  intros Hv. split_and!; try lia.
  revert p Hv. induction [repo_path m; worktree_path m; build_dir m; artifact_dir m] as [|q l IH];
    intros p Hv x Hx; [by apply not_elem_of_nil in Hx|].
  simpl in Hv. destruct (Security.security_validate_sandbox_path p q) as [p1 st] eqn:Eq.
  destruct (is_ok st) eqn:Est; simpl in Hv; [|done]. apply is_ok_true in Est as ->.
  apply elem_of_cons in Hx as [->|Hx]; [|by eapply IH].
  destruct q as [t|]; [|done]. exists t. split; [done|].
  apply (Security.sandbox_path_ok p t). by rewrite Eq.
Qed.

Lemma authorize_owner p owner actor operation p' :
  Security.security_authorize_sandbox p owner actor operation = (p', XAIOS_OK) -> actor = owner.
Proof.
  unfold Security.security_authorize_sandbox, Security.screened.
  destruct (Security.screen_spec p operation) as [(t & -> & _ & ->)|[_ ->]]; [|done]. simpl.
  destruct (actor =? owner) eqn:E; [lia|done].
Qed.

Lemma moves_refl (r r' : runtime A) j : g_sandboxes r' = g_sandboxes r -> moves r r' j.
Proof. intros H. left. unfold sandbox. by rewrite H. Qed.

Lemma in_state_spec (r : runtime A) id st :
  0 <= id -> in_state r id st = true -> 0 <= id < MAX_SANDBOXES /\ state (sandbox r id) = st.
Proof. unfold in_state. intros Hid H. breflect. apply bool_decide_eq_true in H0. split; [lia|done]. Qed.

Lemma live_not_empty s st : state s = st -> st <> XAIOS_SANDBOX_EMPTY -> live s = true.
Proof. intros <- Hne. unfold live. by rewrite bool_decide_eq_false_2. Qed.

Lemma start_build_ok (r : runtime A) actor id :
  runtime_ok r -> 0 <= id ->
  let '(r', st) := sandbox_start_build_as r actor id in
  runtime_ok r' /\ (forall j, 0 <= j -> moves r r' j) /\
  (st = XAIOS_OK -> actor = cell_id (manifest (sandbox r id))).
Proof.
  intros Hok Hid. unfold sandbox_start_build_as.
  destruct (in_state r id XAIOS_SANDBOX_CREATED) eqn:E; cbn [negb].
  2:{ split_and!; [done| |done]. intros. by apply moves_refl. }
  apply in_state_spec in E as [Hi Hst]; [|done].
  destruct (Security.security_authorize_sandbox _ _ _ _) as [p1 st] eqn:Ea.
  destruct (is_ok st) eqn:Est; cbn [negb].
  - apply is_ok_true in Est as ->. apply authorize_owner in Ea as ->.
    destruct (transition_ok (with_sec r p1) id (mk_sandbox XAIOS_SANDBOX_BUILDING (manifest (sandbox r id))
      (build_arena_id (sandbox r id)) (build_arena_base (sandbox r id))
      (u64 (build_generation (sandbox r id) + 1)) (rollback_generation (sandbox r id))
      (last_good_revision (sandbox r id)) (current_revision (sandbox r id)))); try done.
    + by eapply live_not_empty.
    + change (sandbox (with_sec r p1) id) with (sandbox r id). rewrite Hst. constructor.
  - split_and!; [done| |done]. intros. by apply moves_refl.
Qed.

Lemma finish_build_ok (r : runtime A) id rev :
  runtime_ok r -> 0 <= id ->
  let '(r', st) := sandbox_finish_build r id rev in
  runtime_ok r' /\ (forall j, 0 <= j -> moves r r' j).
Proof.
  intros Hok Hid. unfold sandbox_finish_build.
  destruct (in_state r id XAIOS_SANDBOX_BUILDING) eqn:E; cbn [negb orb].
  2:{ split; [done|]. intros. by apply moves_refl. }
  apply in_state_spec in E as [Hi Hst]; [|done].
  destruct (str_nonempty rev); cbn [negb].
  2:{ split; [done|]. intros. by apply moves_refl. }
  apply transition_ok; try done; [by eapply live_not_empty|]. rewrite Hst. constructor.
Qed.

Lemma rollback_ok (r : runtime A) actor id :
  runtime_ok r -> 0 <= id ->
  let '(r', st) := sandbox_rollback_as r actor id in
  runtime_ok r' /\ (forall j, 0 <= j -> moves r r' j) /\
  (st = XAIOS_OK -> actor = cell_id (manifest (sandbox r id)) /\
     current_revision (sandbox r' id) = source_revision (manifest (sandbox r id))).
Proof.
  intros Hok Hid. unfold sandbox_rollback_as.
  destruct (in_state r id XAIOS_SANDBOX_BUILT) eqn:E; cbn [negb].
  2:{ split_and!; [done| |done]. intros. by apply moves_refl. }
  apply in_state_spec in E as [Hi Hst]; [|done].
  destruct (Security.security_authorize_sandbox _ _ _ _) as [p1 st1] eqn:Ea.
  destruct (is_ok st1) eqn:Est1; cbn [negb].
  2:{ split_and!; [done| |by intros]. intros. by apply moves_refl. }
  apply is_ok_true in Est1 as ->. apply authorize_owner in Ea as ->.
  destruct (Security.security_authorize_rollback _ _ _) as [p2 st2].
  destruct (is_ok st2); cbn [negb].
  2:{ split_and!; [done| |by intros]. intros. by apply moves_refl. }
  set (s' := mk_sandbox _ _ _ _ _ _ _ _).
  assert (Hlive : live (sandbox r id) = true) by (by eapply live_not_empty).
  destruct (transition_ok (with_sec r p2) id s') as [Hok' Hm]; try done.
  { change (sandbox (with_sec r p2) id) with (sandbox r id). rewrite Hst. constructor. }
  split_and!; [done|done|]. intros _. split; [done|].
  rewrite transition_get, Z.eqb_refl by (done || lia).
  destruct Hok as (_ & _ & _ & Hsb & _). destruct (Hsb id Hi Hlive) as (_ & _ & _ & _ & _ & H & _). done.
Qed.

Lemma execute_ok (r : runtime A) id prog n :
  runtime_ok r -> let '(r', st, out) := sandbox_execute_build r id prog n in
  runtime_ok r' /\ (forall j, 0 <= j -> moves r r' j).
Proof.
  intros Hok. unfold sandbox_execute_build. destruct prog as [prog|].
  - case_if; [split; [done|intros; by apply moves_refl]|].
    case_if; [split; [done|intros; by apply moves_refl]|].
    destruct (vm_run _ _ _ _); (split; [done|intros; by apply moves_refl]).
  - split; [done|]. intros. by apply moves_refl.
Qed.

(** What a call promises: the invariant, one edge at most per sandbox; a failed assertion
    only while the arena service lacks page tables. *)
Definition call_ok (r : runtime A) (res : option (runtime A * xaios_status)) : Prop :=
  match res with
  | None => ~ service_ready (arenas r)
  | Some (r', _) => runtime_ok r' /\ (forall j, 0 <= j -> moves r r' j) /\
      (service_ready (arenas r) -> service_ready (arenas r'))
  end.

Lemma create_ok (r : runtime A) m :
  runtime_ok r -> 0 <= sandbox_id m -> 0 <= workspace_id m -> 0 <= max_artifact_bytes m ->
  call_ok r (sandbox_create r m).
Proof.
  intros Hok Hid Hws Hmax. unfold sandbox_create.
  destruct (validate_manifest (sec r) m) as [p1 st] eqn:Ev.
  destruct (is_ok st) eqn:Est; cbn [negb].
  2:{ split; [done|]. split; [|done]. intros. by apply moves_refl. }
  apply is_ok_true in Est as ->. apply validate_manifest_ok in Ev as (H1 & H2 & H3 & H4 & H5 & H6 & _).
  destruct (negb _ || negb _) eqn:Eb.
  { split; [done|]. split; [|done]. intros. by apply moves_refl. }
  apply orb_false_iff in Eb as [Eb1 Eb2]. apply negb_false_iff in Eb1, Eb2.
  apply bool_decide_eq_true in Eb1. apply Z.eqb_eq in Eb2.
  pose proof Hok as (Hz & Hw & Hs & Hsb & Hown & Hinj).
  assert (Hua : u32 (SANDBOX_BUILD_ARENA_BASE + sandbox_id m) = 25 + sandbox_id m)
    by (apply u32_small; unfold MAX_SANDBOXES, SANDBOX_BUILD_ARENA_BASE in *; lia).
  pose proof (arena_new_ok (arenas r) (25 + sandbox_id m) (sandbox_id m) (max_artifact_bytes m) Hs
    ltac:(lia) ltac:(unfold SANDBOX_MAX_ARTIFACT_BYTES in *; lia)) as Harena.
  rewrite Hua. simpl arenas. destruct (arena_new _ _ _ _) as [[a' res]|]; [|done].
  destruct Harena as (Hs' & Hrd & Hbase). destruct res as [base|].
  2:{ split; [done|]. split; [|done]. intros. by apply moves_refl. }
  specialize (Hbase base eq_refl). unfold call_ok.
  set (s' := mk_sandbox _ _ _ _ _ _ _ _).
  assert (Hnew : forall r' : runtime A, g_sandboxes r' = (g_sandboxes r).[sandbox_id m <- s'] ->
    forall j, 0 <= j -> sandbox r' j = if j =? sandbox_id m then s' else sandbox r j).
  { intros r' Hr' j Hj. unfold sandbox. rewrite Hr'. case_if.
    - apply Z.eqb_eq in Heqb as ->. apply arr_get_set_eq. lia.
    - apply arr_get_set_ne; lia. }
  assert (Hu8 : u8 (sandbox_id m + 1) = sandbox_id m + 1)
    by (apply u8_small; unfold MAX_SANDBOXES in *; lia).
  match goal with |- runtime_ok ?x /\ _ => set (r' := x) end.
  specialize (Hnew r' eq_refl).
  assert (Hwo : g_workspace_owner r' = (g_workspace_owner r).[workspace_id m <- sandbox_id m + 1])
    by (unfold r'; simpl; by rewrite Hu8).
  split.
  - split_and!.
    + by rewrite <- Hz; apply zlen_set.
    + by rewrite <- Hw; apply zlen_set.
    + done.
    + intros j Hj. rewrite Hnew by lia. case_if; [|by apply Hsb]. apply Z.eqb_eq in Heqb as ->.
      intros _. simpl. split_and!; try (done || lia).
    + intros w Hw1. rewrite Hwo.
      destruct (decide (w = workspace_id m)) as [->|Hne].
      * right. exists (sandbox_id m). rewrite arr_get_set_eq by lia.
        rewrite Hnew, Z.eqb_refl by lia. split_and!; done || lia.
      * rewrite arr_get_set_ne by lia.
        destruct (Hown w Hw1) as [?|(j & Hj & Ho & Hlj & Hwj)]; [by left|right]. exists j.
        rewrite Hnew by lia. destruct (j =? sandbox_id m) eqn:Ej; [|done].
        apply Z.eqb_eq in Ej as ->. unfold live in Hlj. unfold sandbox in Hlj, Eb1. simpl in Eb1.
        by rewrite bool_decide_eq_true_2 in Hlj.
    + intros j Hj. rewrite Hnew, Hwo by lia.
      destruct (j =? sandbox_id m) eqn:Ej.
      * apply Z.eqb_eq in Ej as ->. intros _. simpl. apply arr_get_set_eq. lia.
      * intros Hlj. rewrite arr_get_set_ne; [by apply Hinj|lia| |].
        -- destruct (Hsb j Hj Hlj) as (_ & ? & _). lia.
        -- intros Hww. specialize (Hinj j Hj Hlj). rewrite <- Hww in Hinj. simpl in Eb2. lia.
  - split; [|exact Hrd]. intros j Hj. unfold moves. rewrite Hnew by done.
    destruct (j =? sandbox_id m) eqn:Ej; [|by left]. apply Z.eqb_eq in Ej as ->. right. unfold sandbox in *. simpl in *. rewrite Eb1. constructor.
Qed.

End Lifecycle.

(** ** Properties *)

(** C33: the sandbox VM terminates and stays in bounds on every program.  Whatever the
    bytecode, a run of up to 4096 instructions stops after at most 64 steps per
    instruction, either at the loop condition or at an invalid opcode; all registers
    stay in the int64 range, every emitted byte is a byte and no more than the arena's
    capacity is written. *)
Theorem sandbox_vm_bounded (program : list xaios_sandbox_vm_insn) (n cap : Z) (arena : bool) :
  0 < n <= XAIOS_SANDBOX_VM_MAX_INSTRUCTIONS -> 0 <= cap ->
  Forall (fun i => 0 <= imm i) program ->
  exists st, (vm_run program n arena cap = VmStopped st \/ vm_run program n arena cap = VmBadOp st) /\
    0 <= vm_cycles st <= 64 * n /\ zlen (vm_out st) <= cap /\ Forall byte (vm_out st) /\
    zlen (vm_regs st) = XAIOS_SANDBOX_VM_REGISTERS /\ Forall int64 (vm_regs st).
Proof.
  intros Hn Hc Hp.
  destruct (vm_loop_never_starves program n arena cap Hn Hc Hp) as (st & (_ & Hl & Hr & Ho & Hb) & Hcy & Hst).
  by exists st.
Qed.

(** A loop that runs into the cycle limit: load 1, emit, jump back. *)
Definition spin_program : list xaios_sandbox_vm_insn :=
  [mk_insn 1 0 0 0 1; mk_insn 4 0 0 0 0; mk_insn 6 0 0 0 1].

Lemma sandbox_vm_bounded_witness :
  exists st, (vm_run spin_program 3 true 5 = VmStopped st \/ vm_run spin_program 3 true 5 = VmBadOp st) /\
    0 <= vm_cycles st <= 192 /\ zlen (vm_out st) <= 5.
Proof.
  destruct (sandbox_vm_bounded spin_program 3 5 true) as (st & H1 & H2 & H3 & _).
  - unfold XAIOS_SANDBOX_VM_MAX_INSTRUCTIONS. lia.
  - lia.
  - repeat constructor; simpl; lia.
  - exists st. split; [exact H1|]. split; [exact H2|exact H3].
Defined.

(** The VM part of the boot self-test: the program emits O and K. *)
Lemma vm_emits_ok :
  exists st, vm_run [mk_insn 1 0 0 0 79; mk_insn 4 0 0 0 0; mk_insn 1 0 0 0 75;
                     mk_insn 4 0 0 0 0; mk_insn 7 0 0 0 0] 5 true 65536 = VmStopped st /\
    vm_out st = [79; 75].
Proof. eexists. split; [vm_compute; reflexivity|]. reflexivity. Qed.

Inductive sandbox_op :=
| OpCreate (m : xaios_sandbox_manifest)
| OpStartAs (actor id : Z)
| OpStart (id : Z)
| OpFinish (id : Z) (rev : option string)
| OpRollbackAs (actor id : Z)
| OpRollback (id : Z)
| OpExecute (id : Z) (program : option (list xaios_sandbox_vm_insn)) (n : Z).

Definition op_ok (op : sandbox_op) : Prop :=
  match op with
  | OpCreate m => 0 <= sandbox_id m /\ 0 <= workspace_id m /\ 0 <= max_artifact_bytes m
  | OpStartAs _ id | OpStart id | OpFinish id _ | OpRollbackAs _ id | OpRollback id => 0 <= id
  | OpExecute _ _ _ => True
  end.

Definition sandbox_step {A} `{!ArenaService A} (r : runtime A) (op : sandbox_op)
    : option (runtime A * xaios_status) :=
  match op with
  | OpCreate m => sandbox_create r m
  | OpStartAs a id => Some (sandbox_start_build_as r a id)
  | OpStart id => Some (sandbox_start_build r id)
  | OpFinish id rev => Some (sandbox_finish_build r id rev)
  | OpRollbackAs a id => Some (sandbox_rollback_as r a id)
  | OpRollback id => Some (sandbox_rollback r id)
  | OpExecute id p n => Some (sandbox_execute_build r id p n).1
  end.

(** Only creation touches the arenas. *)
Lemma arenas_kept {A} `{!ArenaService A} (r : runtime A) a id rev p n :
  arenas (sandbox_start_build_as r a id).1 = arenas r /\ arenas (sandbox_start_build r id).1 = arenas r /\
  arenas (sandbox_finish_build r id rev).1 = arenas r /\ arenas (sandbox_rollback_as r a id).1 = arenas r /\
  arenas (sandbox_rollback r id).1 = arenas r /\ arenas (sandbox_execute_build r id p n).1.1 = arenas r.
Proof.
  unfold sandbox_start_build, sandbox_rollback, sandbox_start_build_as, sandbox_finish_build,
    sandbox_rollback_as, sandbox_execute_build.
  split_and!; repeat first [case_match | case_if]; try done.
Qed.

Lemma sandbox_step_ok {A} `{!ArenaService A} `{!ArenaServiceLaws A} (r : runtime A) op :
  runtime_ok r -> op_ok op -> call_ok r (sandbox_step r op).
Proof.
  intros Hok Hop. destruct op as [m|a id|id|id rev|a id|id|id p n]; simpl in *.
  - destruct Hop as (H1 & H2 & H3). by apply create_ok.
  - destruct (arenas_kept r a id None None 0) as (Hk & _). pose proof (start_build_ok r a id Hok Hop) as H.
    destruct (sandbox_start_build_as r a id) as [r' st]. simpl in Hk. rewrite Hk. naive_solver.
  - destruct (arenas_kept r 0 id None None 0) as (_ & Hk & _). revert Hk. unfold sandbox_start_build.
    case_if; [intros _; split; [done|]; split; [|done]; intros; by apply moves_refl|].
    pose proof (start_build_ok r (cell_id (manifest (sandbox r id))) id Hok Hop) as H.
    destruct (sandbox_start_build_as r _ id) as [r' st]. simpl. intros ->. naive_solver.
  - destruct (arenas_kept r 0 id rev None 0) as (_ & _ & Hk & _). pose proof (finish_build_ok r id rev Hok Hop) as H.
    destruct (sandbox_finish_build r id rev) as [r' st]. simpl in Hk. rewrite Hk. naive_solver.
  - destruct (arenas_kept r a id None None 0) as (_ & _ & _ & Hk & _). pose proof (rollback_ok r a id Hok Hop) as H.
    destruct (sandbox_rollback_as r a id) as [r' st]. simpl in Hk. rewrite Hk. naive_solver.
  - destruct (arenas_kept r 0 id None None 0) as (_ & _ & _ & _ & Hk & _). revert Hk. unfold sandbox_rollback.
    case_if; [intros _; split; [done|]; split; [|done]; intros; by apply moves_refl|].
    pose proof (rollback_ok r (cell_id (manifest (sandbox r id))) id Hok Hop) as H.
    destruct (sandbox_rollback_as r _ id) as [r' st]. simpl. intros ->. naive_solver.
  - destruct (arenas_kept r 0 id None p n) as (_ & _ & _ & _ & _ & Hk). pose proof (execute_ok r id p n Hok) as H.
    destruct (sandbox_execute_build r id p n) as [[r' st] out]. simpl in Hk |- *. rewrite Hk. naive_solver.
Qed.

(** Runs of the runtime that keep the states passed through. *)
Fixpoint sandbox_run {A} `{!ArenaService A} (r : runtime A) (ops : list sandbox_op)
    : option (runtime A) :=
  match ops with
  | [] => Some r
  | op :: ops' =>
      match sandbox_step r op with Some (r1, _) => sandbox_run r1 ops' | None => None end
  end.

(** Several edges. *)
Definition path : xaios_sandbox_state -> xaios_sandbox_state -> Prop := rtc edge.

Lemma sandbox_run_ok {A} `{!ArenaService A} `{!ArenaServiceLaws A}
    (ops : list sandbox_op) (r : runtime A) :
  runtime_ok r -> Forall op_ok ops ->
  match sandbox_run r ops with
  | None => ~ service_ready (arenas r)
  | Some r' => runtime_ok r' /\ forall j, 0 <= j -> path (state (sandbox r j)) (state (sandbox r' j))
  end.
Proof.
  intros Hok Hops. revert r Hok. induction Hops as [|op ops Hop _ IH]; intros r Hok; cbn [sandbox_run].
  { split; [done|]. intros. apply rtc_refl. }
  pose proof (sandbox_step_ok r op Hok Hop) as Hs. destruct (sandbox_step r op) as [[r1 st]|]; [|done].
  destruct Hs as (Hok1 & Hm & Hrd). specialize (IH r1 Hok1). destruct (sandbox_run r1 ops) as [r'|]; [|by intros ?%Hrd].
  destruct IH as [Hok' Hp]. split; [exact Hok'|]. intros j Hj. destruct (Hm j Hj) as [Heq|Hedge].
  - rewrite <- Heq. by apply Hp.
  - eapply rtc_l; [exact Hedge|by apply Hp].
Qed.

Definition empty_runtime : runtime (Arena.flat * Arena.arena_manager) :=
  mk_runtime (replicate 4 zero_sandbox) (replicate 5 0) 0 0 0 Security.security_policy_init
    (Arena.mk_flat 4096 ∅, Arena.fresh_manager).
Lemma empty_runtime_ok : runtime_ok empty_runtime.
Proof.
  assert (H : forall i, 0 <= i < MAX_SANDBOXES -> sandbox empty_runtime i = zero_sandbox).
  { intros i Hi. apply arr_get_replicate. unfold MAX_SANDBOXES in *. lia. }
  split_and!; try done.
  - by apply Arena.fresh_manager_ok, Arena.flat_start_ok.
  - intros i Hi. rewrite H by done. done.
  - intros w Hw. left. apply arr_get_replicate. unfold MAX_SANDBOXES in *. lia.
  - intros i Hi. rewrite H by done. done.
Qed.

(** C32: the sandbox life cycle.  Under any sequence of calls an assertion can only fail
    while page tables for the build arenas are missing; every sandbox only moves along
    created, building, built, rolled back (never back to empty and never to failed), live
    sandboxes never share a workspace, and a rolled-back sandbox is at the revision it was
    created from. *)
Theorem sandbox_lifecycle {A} `{!ArenaService A} `{!ArenaServiceLaws A}
    (ops : list sandbox_op) (r : runtime A) :
  runtime_ok r -> Forall op_ok ops ->
  match sandbox_run r ops with
  | None => ~ service_ready (arenas r)
  | Some r' => runtime_ok r' /\
      (forall j, 0 <= j -> path (state (sandbox r j)) (state (sandbox r' j))) /\
      (forall i j, 0 <= i < MAX_SANDBOXES -> 0 <= j < MAX_SANDBOXES ->
         live (sandbox r' i) = true -> live (sandbox r' j) = true ->
         workspace_id (manifest (sandbox r' i)) = workspace_id (manifest (sandbox r' j)) -> i = j) /\
      (forall i, 0 <= i < MAX_SANDBOXES -> state (sandbox r' i) = XAIOS_SANDBOX_ROLLED_BACK ->
         current_revision (sandbox r' i) = source_revision (manifest (sandbox r' i)))
  end.
Proof.
  intros Hok Hops. pose proof (sandbox_run_ok ops r Hok Hops) as H.
  destruct (sandbox_run r ops) as [r'|]; [|done]. destruct H as [Hok' Hp].
  split; [exact Hok'|]. split; [exact Hp|]. split.
  - intros i j Hi Hj Hli Hlj Hw. destruct Hok' as (_ & _ & _ & _ & _ & Hinj).
    pose proof (Hinj i Hi Hli) as H1. pose proof (Hinj j Hj Hlj) as H2. rewrite Hw in H1. lia.
  - intros i Hi Hst. destruct Hok' as (_ & _ & _ & Hsb & _).
    assert (Hl : live (sandbox r' i) = true) by (by eapply live_not_empty).
    destruct (Hsb i Hi Hl) as (_ & _ & _ & _ & _ & <- & _ & Hc). by apply Hc.
Qed.

Definition sample_manifest : xaios_sandbox_manifest :=
  mk_manifest 0 0 1 (Some "/repo/app") (Some "/workspace/1/app") (Some "/workspace/1/build")
    (Some "/artifacts/1") (Some "rev-good") 65536 0.

Lemma sandbox_lifecycle_witness :
  exists r', sandbox_run empty_runtime [OpCreate sample_manifest; OpStart 0; OpFinish 0 (Some "x");
                                        OpRollback 0] = Some r' /\ runtime_ok r'.
Proof.
  pose proof (sandbox_lifecycle [OpCreate sample_manifest; OpStart 0; OpFinish 0 (Some "x"); OpRollback 0]
    empty_runtime empty_runtime_ok
    ltac:(rewrite !Forall_cons; unfold op_ok; simpl; split_and!; try lia; by apply Forall_nil)) as H.
  destruct (sandbox_run empty_runtime _) as [r'|] eqn:E.
  - exists r'. split; [reflexivity|exact (proj1 H)].
  - exfalso. apply H. exact I.
Defined.

(** Only the owner cell builds and rolls back: a start or rollback that succeeds was
    requested by the cell named in the sandbox's manifest, and a successful rollback
    restores the revision the sandbox was created from. *)
Theorem sandbox_owner_only {A} `{!ArenaService A} `{!ArenaServiceLaws A}
    (r : runtime A) (actor id : Z) :
  runtime_ok r -> 0 <= id ->
  ((sandbox_start_build_as r actor id).2 = XAIOS_OK -> actor = cell_id (manifest (sandbox r id))) /\
  ((sandbox_rollback_as r actor id).2 = XAIOS_OK ->
     actor = cell_id (manifest (sandbox r id)) /\
     current_revision (sandbox (sandbox_rollback_as r actor id).1 id) =
       source_revision (manifest (sandbox r id))).
Proof.
  intros Hok Hid. pose proof (start_build_ok r actor id Hok Hid) as H1.
  pose proof (rollback_ok r actor id Hok Hid) as H2.
  destruct (sandbox_start_build_as r actor id), (sandbox_rollback_as r actor id); simpl. naive_solver.
Qed.

(** A sandbox that was created, started and finished. *)
Definition built_ops : list sandbox_op := [OpCreate sample_manifest; OpStart 0; OpFinish 0 (Some "rev-new")].
Definition built_runtime : runtime (Arena.flat * Arena.arena_manager) :=
  default empty_runtime (sandbox_run empty_runtime built_ops).

Lemma built_runtime_ok : runtime_ok built_runtime.
Proof.
  assert (Forall op_ok built_ops) as Hops.
  { unfold built_ops. rewrite !Forall_cons. unfold op_ok. simpl. split_and!; try lia. by apply Forall_nil. }
  pose proof (sandbox_run_ok built_ops empty_runtime empty_runtime_ok Hops) as H. unfold built_runtime.
  destruct (sandbox_run empty_runtime built_ops) as [r'|]; [apply H|apply empty_runtime_ok].
Qed.

Lemma sandbox_owner_only_witness :
  current_revision (sandbox built_runtime 0) = Some "rev-new" /\
  current_revision (sandbox (sandbox_rollback_as built_runtime 0 0).1 0) =
    source_revision (manifest (sandbox built_runtime 0)).
Proof.
  split; [vm_compute; reflexivity|].
  apply (sandbox_owner_only built_runtime 0 0 built_runtime_ok ltac:(lia)). vm_compute. reflexivity.
Defined.

End Sandbox.
