(* ===== verification/Fips180.v ===== *)
(** * SHA-256 as FIPS 180-4 defines it

    The reference for the compression function of Sha256.v, written from the
    standard and without the definitions of the code: words are functions on bits,
    the constants are computed from the prime numbers, and the message schedule is
    a list that grows by its recurrence. *)

From S2P Require Import Prelude.

Module Fips180.

(** ** Constants (4.2.2 and 5.3.3) *)

Definition is_prime (p : Z) : bool := forallb (fun d => negb (p mod d =? 0)) (seqZ 2 (p - 2)).

Definition primes (n : nat) : list Z := take n (filter (fun p => is_prime p = true) (seqZ 2 400)).

(** The integer cube root of [n], bit by bit from [2 ^ k] down, above [r]. *)
Fixpoint cube_root (k : nat) (n r : Z) : Z :=
  match k with
  | O => r
  | S k' => let r' := r + 2 ^ Z.of_nat k' in cube_root k' n (if r' ^ 3 <=? n then r' else r)
  end.

(** The first 32 bits of the fractional parts of the cube roots of the first 64
    primes, and of the square roots of the first eight. *)
Definition K256 : list Z := (fun p => cube_root 36 (p * 2 ^ 96) 0 mod 2 ^ 32) <$> primes 64.

Definition H0 : list Z := (fun p => Z.sqrt (p * 2 ^ 64) mod 2 ^ 32) <$> primes 8.

(** ** Functions on words (4.1.2) *)

(** The word of [n] bits that [b] describes, from bit [i] on. *)
Fixpoint bits (n : nat) (i : Z) (b : Z -> bool) : Z :=
  match n with O => 0 | S n' => Z.b2z (b i) + 2 * bits n' (i + 1) b end.

Definition word (b : Z -> bool) : Z := bits 32 0 b.

Definition ROTR (n x : Z) : Z := word (fun i => Z.testbit x ((i + n) mod 32)).

Definition SHR (n x : Z) : Z := x / 2 ^ n.

(** Each bit of [x] chooses between the bits of [y] and [z]. *)
Definition Ch (x y z : Z) : Z := word (fun i => if Z.testbit x i then Z.testbit y i else Z.testbit z i).

(** Each bit is the majority of three. *)
Definition Maj (x y z : Z) : Z :=
  word (fun i => 2 <=? Z.b2z (Z.testbit x i) + Z.b2z (Z.testbit y i) + Z.b2z (Z.testbit z i)).

Definition parity3 (x y z : Z) : Z :=
  word (fun i => xorb (Z.testbit x i) (xorb (Z.testbit y i) (Z.testbit z i))).

Definition Sigma0 (x : Z) : Z := parity3 (ROTR 2 x) (ROTR 13 x) (ROTR 22 x).
Definition Sigma1 (x : Z) : Z := parity3 (ROTR 6 x) (ROTR 11 x) (ROTR 25 x).
Definition sig0 (x : Z) : Z := parity3 (ROTR 7 x) (ROTR 18 x) (SHR 3 x).
Definition sig1 (x : Z) : Z := parity3 (ROTR 17 x) (ROTR 19 x) (SHR 10 x).

(** ** Hash computation (6.2.2) *)

Definition plus (l : list Z) : Z := foldr Z.add 0 l mod 2 ^ 32.

(** The words of a block, most significant byte first. *)
Fixpoint block_words (n : nat) (block : list Z) : list Z :=
  match n, block with
  | S n', b0 :: b1 :: b2 :: b3 :: rest => (((b0 * 256 + b1) * 256 + b2) * 256 + b3) :: block_words n' rest
  | _, _ => []
  end.

(** The message schedule: [n] words more than the 16 of the block. *)
Fixpoint message_schedule (n : nat) (block : list Z) : list Z :=
  match n with
  | O => block_words 16 block
  | S n' =>
      let W := message_schedule n' block in
      let t := Z.of_nat (16 + n') in
      W ++ [plus [sig1 (W.[t - 2]); W.[t - 7]; sig0 (W.[t - 15]); W.[t - 16]]]
  end.

(** One step on the working variables, with the constant and the schedule word. *)
Definition hash_step (v : list Z) (kw : Z * Z) : list Z :=
  match v with
  | [a; b; c; d; e; f; g; h] =>
      let T1 := plus [h; Sigma1 e; Ch e f g; fst kw; snd kw] in
      let T2 := plus [Sigma0 a; Maj a b c] in
      [plus [T1; T2]; a; b; c; plus [d; T1]; e; f; g]
  | _ => v
  end.

(** The next intermediate hash value. *)
Definition hash_block (H block : list Z) : list Z :=
  zip_with (fun x y => plus [x; y]) H (foldl hash_step H (zip K256 (message_schedule 48 block))).

(** The intermediate hash value after the first [n] blocks of [m]. *)
Fixpoint hash_blocks (n : nat) (H m : list Z) : list Z :=
  match n with
  | O => H
  | S n' => hash_blocks n' (hash_block H (take 64 m)) (drop 64 m)
  end.

(** The bytes of a word and of the final hash value. *)
Definition word_bytes (w : Z) : list Z := [w / 2 ^ 24 mod 256; w / 2 ^ 16 mod 256; w / 2 ^ 8 mod 256; w mod 256].

Definition digest (m : list Z) : list Z := flat_map word_bytes (hash_blocks (length m / 64) H0 m).

(** ** Lemmas on words *)

Lemma bits_testbit n i b j : 0 <= j -> Z.testbit (bits n i b) j = (j <? Z.of_nat n) && b (i + j).
Proof.
  revert i j. induction n as [|n IH]; intros i j Hj; cbn [bits].
  { by rewrite Z.testbit_0_l, (proj2 (Z.ltb_ge j (Z.of_nat 0))) by lia. }
  rewrite Z.add_comm. destruct (decide (j = 0)) as [->|Hne].
  - by rewrite Z.testbit_0_r, Z.add_0_r.
  - replace j with (Z.succ (j - 1)) at 1 by lia. rewrite Z.testbit_succ_r, IH by lia.
    f_equal; [|f_equal; lia]. destruct (Z.ltb_spec (j - 1) (Z.of_nat n)), (Z.ltb_spec j (Z.of_nat (S n))); (done || lia).
Qed.

Lemma bits_range n i b : 0 <= bits n i b < 2 ^ Z.of_nat n.
Proof.
  revert i. induction n as [|n IH]; intros i; cbn [bits]; [done|]. specialize (IH (i + 1)).
  rewrite Nat2Z.inj_succ, Z.pow_succ_r by lia. destruct (b i); simpl; lia.
Qed.

Lemma word_testbit b j : 0 <= j < 32 -> Z.testbit (word b) j = b j.
Proof. intros Hj. unfold word. rewrite bits_testbit by lia. by rewrite (proj2 (Z.ltb_lt _ _)) by lia. Qed.

Lemma word_range b : 0 <= word b < 4294967296.
Proof. exact (bits_range 32 0 b). Qed.

(** Two words are equal when their 32 bits are. *)
Lemma word_eq x b : 0 <= x < 4294967296 -> (forall j, 0 <= j < 32 -> Z.testbit x j = b j) -> x = word b.
Proof.
  intros Hx H. apply Z.bits_inj'. intros j Hj. unfold word. rewrite bits_testbit by done.
  destruct (Z.ltb_spec j (Z.of_nat 32)); [apply H; lia|]. cbn [andb].
  destruct (decide (x = 0)) as [->|]; [apply Z.testbit_0_l|]. apply Z.bits_above_log2; [lia|]. apply Z.log2_lt_pow2; [lia|].
  apply Z.lt_le_trans with (2 ^ 32); [lia|]. apply Z.pow_le_mono_r; lia.
Qed.

(** With the padding of the standard this gives the published digest of abc. *)
Lemma digest_abc :
  digest ([97; 98; 99; 0x80] ++ replicate 59 0 ++ [24]) =
    [0xba; 0x78; 0x16; 0xbf; 0x8f; 0x01; 0xcf; 0xea; 0x41; 0x41; 0x40; 0xde; 0x5d; 0xae; 0x22; 0x23;
     0xb0; 0x03; 0x61; 0xa3; 0x96; 0x17; 0x7a; 0x9c; 0xb4; 0x10; 0xff; 0x61; 0xf2; 0x00; 0x15; 0xad].
Proof. vm_compute. reflexivity. Qed.

End Fips180.
