(* ===== verification/Sha256.v ===== *)
(** * SHA-256 (kernel/runtime/sha256.c, include/xaios/sha256.h)

    The compression function on 32-bit words, the streaming context and the padding as
    the code writes them.  A byte buffer passed with its length is a list of bytes; a null
    data pointer is [None].

    The reference is Fips180.v.  [compress_fips] shows that the compression function,
    with its constants and the message schedule, is that of the standard, and
    [sha256_streaming] that a context holds the standard's intermediate hash value
    of the bytes hashed so far.  The length field of the padding is not that of the
    standard ([sha256_self_test_fails]). *)

From S2P Require Import Prelude Wire Fips180.

Module Sha256.
Import Wire.

(** The round constants, one list per line of the table. *)
Definition K_rows : list (list Z) :=
  [[0x428a2f98; 0x71374491; 0xb5c0fbcf; 0xe9b5dba5; 0x3956c25b; 0x59f111f1];
   [0x923f82a4; 0xab1c5ed5; 0xd807aa98; 0x12835b01; 0x243185be; 0x550c7dc3];
   [0x72be5d74; 0x80deb1fe; 0x9bdc06a7; 0xc19bf174; 0xe49b69c1; 0xefbe4786];
   [0x0fc19dc6; 0x240ca1cc; 0x2de92c6f; 0x4a7484aa; 0x5cb0a9dc; 0x76f988da];
   [0x983e5152; 0xa831c66d; 0xb00327c8; 0xbf597fc7; 0xc6e00bf3; 0xd5a79147];
   [0x06ca6351; 0x14292967; 0x27b70a85; 0x2e1b2138; 0x4d2c6dfc; 0x53380d13];
   [0x650a7354; 0x766a0abb; 0x81c2c92e; 0x92722c85; 0xa2bfe8a1; 0xa81a664b];
   [0xc24b8b70; 0xc76c51a3; 0xd192e819; 0xd6990624; 0xf40e3585; 0x106aa070];
   [0x19a4c116; 0x1e376c08; 0x2748774c; 0x34b0bcb5; 0x391c0cb3; 0x4ed8aa4a];
   [0x5b9cca4f; 0x682e6ff3; 0x748f82ee; 0x78a5636f; 0x84c87814; 0x8cc70208];
   [0x90befffa; 0xa4506ceb; 0xbef9a3f7; 0xc67178f2]].

Definition K : list Z := concat K_rows.

Definition rotr (x n : Z) : Z := Z.lor (Z.shiftr x n) (u32 (Z.shiftl x (32 - n))).

Definition ch (x y z : Z) : Z := Z.lxor (Z.land x y) (Z.land (not32 x) z).

Definition maj (x y z : Z) : Z := Z.lxor (Z.lxor (Z.land x y) (Z.land x z)) (Z.land y z).

Definition sigma0 (x : Z) : Z := Z.lxor (Z.lxor (rotr x 2) (rotr x 13)) (rotr x 22).
Definition sigma1 (x : Z) : Z := Z.lxor (Z.lxor (rotr x 6) (rotr x 11)) (rotr x 25).
Definition gamma0 (x : Z) : Z := Z.lxor (Z.lxor (rotr x 7) (rotr x 18)) (Z.shiftr x 3).
Definition gamma1 (x : Z) : Z := Z.lxor (Z.lxor (rotr x 17) (rotr x 19)) (Z.shiftr x 10).

Definition load_be32 (p : list Z) : Z :=
  Z.lor (Z.lor (Z.lor (Z.shiftl (p.[0]) 24) (Z.shiftl (p.[1]) 16)) (Z.shiftl (p.[2]) 8)) (p.[3]).

Definition store_be32 (v : Z) : list Z :=
  [u8 (Z.shiftr v 24); u8 (Z.shiftr v 16); u8 (Z.shiftr v 8); u8 v].

(** The message schedule [W], first the 16 words of the block, then the recurrence. *)
Definition schedule (block : list Z) : list Z :=
  for_range 48 16 (fun i W =>
      W.[i <- u32 (gamma1 (W.[i - 2]) + W.[i - 7] + gamma0 (W.[i - 15]) + W.[i - 16])])
    (for_range 16 0 (fun i W => W.[i <- load_be32 (drop (Z.to_nat (i * 4)) block)])
       (replicate 64 0)).

(** One round on the working variables a, ..., h. *)
Definition round (W : list Z) (i : Z) (v : list Z) : list Z :=
  match v with
  | [a; b; c; d; e; f; g; h] =>
      let t1 := u32 (h + sigma1 e + ch e f g + K.[i] + W.[i]) in
      let t2 := u32 (sigma0 a + maj a b c) in
      [u32 (t1 + t2); a; b; c; u32 (d + t1); e; f; g]
  | _ => v
  end.

Definition sha256_compress (state block : list Z) : list Z :=
  zip_with (fun s v => u32 (s + v)) state (for_range 64 0 (round (schedule block)) state).

Record xaios_sha256_ctx := mk_ctx {
  state : list Z;
  bit_count : Z;
  buffer : list Z;
  buffer_len : Z
}.

Definition INIT : list Z :=
  [0x6a09e667; 0xbb67ae85; 0x3c6ef372; 0xa54ff53a; 0x510e527f; 0x9b05688c; 0x1f83d9ab; 0x5be0cd19].

Definition xaios_sha256_init : xaios_sha256_ctx := mk_ctx INIT 0 (replicate 64 0) 0.

(** The loops that copy [n] bytes into the buffer from index [off] on. *)
Definition copy_bytes (buf : list Z) (off : Z) (src : list Z) (n : nat) : list Z :=
  for_range n 0 (fun i b => b.[off + i <- src.[i]]) buf.

(** The branch on buffered data: the context and the bytes left. *)
Definition fill_buffer (c : xaios_sha256_ctx) (bytes : list Z) : xaios_sha256_ctx * list Z :=
  if 0 <? buffer_len c then
    let space := 64 - buffer_len c in
    let to_copy := if zlen bytes <? space then zlen bytes else space in
    let buf := copy_bytes (buffer c) (buffer_len c) bytes (Z.to_nat to_copy) in
    let len := buffer_len c + to_copy in
    let rest := drop (Z.to_nat to_copy) bytes in
    if len =? 64
    then (mk_ctx (sha256_compress (state c) buf) (bit_count c) buf 0, rest)
    else (mk_ctx (state c) (bit_count c) buf len, rest)
  else (c, bytes).

(** The loop over complete blocks. *)
Fixpoint process_blocks (fuel : nat) (st bytes : list Z) : list Z * list Z :=
  if 64 <=? zlen bytes then
    match fuel with
    | O => (st, bytes)
    | S fuel' => process_blocks fuel' (sha256_compress st (take 64 bytes)) (drop 64 bytes)
    end
  else (st, bytes).

(** The part of an update after the buffer was filled, or was empty. *)
Definition absorb_rest (c : xaios_sha256_ctx) (rest1 : list Z) : xaios_sha256_ctx :=
  let '(st, rest) := process_blocks (Z.to_nat (zlen rest1 / 64)) (state c) rest1 in
  if 0 <? zlen rest
  then mk_ctx st (bit_count c) (copy_bytes (buffer c) 0 rest (length rest)) (u32 (zlen rest))
  else mk_ctx st (bit_count c) (buffer c) (buffer_len c).

Definition xaios_sha256_update (c : xaios_sha256_ctx) (data : option (list Z)) : xaios_sha256_ctx :=
  match data with
  | None => c
  | Some bytes =>
      if zlen bytes =? 0 then c else
      let c0 := mk_ctx (state c) (u64 (bit_count c + u64 (zlen bytes * 8))) (buffer c) (buffer_len c) in
      let '(c1, rest) := fill_buffer c0 bytes in
      absorb_rest c1 rest
  end.

(** The padding loop of [xaios_sha256_final]; [None] when the fuel runs out. *)
Fixpoint pad_zeros (fuel : nat) (c : xaios_sha256_ctx) : option xaios_sha256_ctx :=
  if buffer_len c =? 56 then Some c else
  match fuel with
  | O => None
  | S fuel' => pad_zeros fuel' (xaios_sha256_update c (Some [0]))
  end.

Definition count_bytes (n : Z) : list Z :=
  for_range 8 0 (fun i l => l.[7 - i <- u8 (Z.shiftr n (i * 8))]) (replicate 8 0).

(** The context left behind and the 32 bytes of the hash. *)
Definition xaios_sha256_final (c : xaios_sha256_ctx) : option (xaios_sha256_ctx * list Z) :=
  c1 ← pad_zeros 64 (xaios_sha256_update c (Some [0x80]));
  let c2 := xaios_sha256_update c1 (Some (count_bytes (bit_count c1))) in
  Some (c2, flat_map store_be32 (take 8 (state c2))).

Definition xaios_sha256 (data : option (list Z)) : option (list Z) :=
  snd <$> xaios_sha256_final (xaios_sha256_update xaios_sha256_init data).

Definition expected_abc : list Z :=
  [0xba; 0x78; 0x16; 0xbf; 0x8f; 0x01; 0xcf; 0xea; 0x41; 0x41; 0x40;
   0xde; 0x5d; 0xae; 0x22; 0x23; 0xb0; 0x03; 0x61; 0xa3; 0x96; 0x17;
   0x7a; 0x9c; 0xb4; 0x10; 0xff; 0x61; 0xf2; 0x00; 0x15; 0xad].

Definition expected_empty : list Z :=
  [0xe3; 0xb0; 0xc4; 0x42; 0x98; 0xfc; 0x1c; 0x14; 0x9a; 0xfb; 0xf4;
   0xc8; 0x99; 0x6f; 0xb9; 0x24; 0x27; 0xae; 0x41; 0xe4; 0x64; 0x9b;
   0x93; 0x4c; 0xa4; 0x95; 0x99; 0x1b; 0x78; 0x52; 0xb8; 0x55].

(** The boot self-test: [false] when one of its assertions fails. *)
Definition sha256_self_test : bool :=
  bool_decide (xaios_sha256 (Some [97; 98; 99]) = Some expected_abc) &&
  bool_decide (xaios_sha256 (Some []) = Some expected_empty).

(** ** Reference *)

(** Compress the first [n] blocks of a byte sequence. *)
Fixpoint absorb (n : nat) (st m : list Z) : list Z :=
  match n with
  | O => st
  | S n' => absorb n' (sha256_compress st (take 64 m)) (drop 64 m)
  end.

(** The digest of a sequence of complete blocks. *)
Definition digest_blocks (m : list Z) : list Z := flat_map store_be32 (absorb (length m / 64) INIT m).

(** Number of zero bytes between the marker and the length field. *)
Definition zeros_needed (m : list Z) : nat := Z.to_nat ((55 - zlen m) mod 64).

(** The message with its padding as the code appends it: the length field counts the
    marker and the zeros as well. *)
Definition code_padded (m : list Z) : list Z :=
  let body := m ++ [0x80] ++ replicate (zeros_needed m) 0 in
  body ++ count_bytes (u64 (8 * zlen body)).

(** The padding of FIPS 180-4: the length field counts the message. *)
Definition fips_padded (m : list Z) : list Z :=
  m ++ [0x80] ++ replicate (zeros_needed m) 0 ++ count_bytes (u64 (8 * zlen m)).

(** ** Lemmas *)

Lemma copy_bytes_spec buf off bytes n :
  (off + n <= length buf)%nat -> (n <= length bytes)%nat ->
  copy_bytes buf (Z.of_nat off) bytes n = take off buf ++ take n bytes ++ drop (off + n) buf.
Proof.
  unfold copy_bytes. induction n as [|n IH]; intros Hb Hn.
  { simpl. by rewrite Nat.add_0_r, take_drop. }
  rewrite for_range_S, IH by lia. replace (Z.to_nat (Z.of_nat off + (0 + Z.of_nat n))) with (off + n)%nat by lia.
  replace (Z.to_nat (0 + Z.of_nat n)) with n by lia.
  assert (Hl : length (take off buf ++ take n bytes) = (off + n)%nat) by (rewrite length_app, !length_take; lia).
  rewrite app_assoc, insert_app_r_alt by lia. rewrite Hl, Nat.sub_diag.
  destruct (lookup_lt_is_Some_2 buf (off + n)%nat ltac:(lia)) as [x Hx].
  destruct (lookup_lt_is_Some_2 bytes n ltac:(lia)) as [y Hy].
  rewrite (drop_S _ _ _ Hx). simpl. rewrite (take_S_r _ _ _ Hy), <- !app_assoc. simpl.
  rewrite (list_lookup_total_correct _ _ _ Hy). by replace (off + S n)%nat with (S (off + n)) by lia.
Qed.

Lemma absorb_add a b st m : absorb (a + b) st m = absorb b (absorb a st m) (drop (64 * a) m).
Proof.
  revert st m. induction a as [|a IH]; intros st m; [done|].
  cbn [Nat.add absorb]. rewrite IH, drop_drop. do 2 f_equal. lia.
Qed.

Lemma absorb_app n st m d : (64 * n <= length m)%nat -> absorb n st (m ++ d) = absorb n st m.
Proof.
  revert st m. induction n as [|n IH]; intros st m Hn; [done|]. cbn [absorb].
  rewrite take_app_le, drop_app_le by lia. apply IH. rewrite length_drop. lia.
Qed.

Lemma process_blocks_spec fuel st q r bytes :
  length bytes = (64 * q + r)%nat -> (r < 64)%nat -> (q <= fuel)%nat ->
  process_blocks fuel st bytes = (absorb q st bytes, drop (64 * q) bytes).
Proof.
  revert fuel st bytes. induction q as [|q IH]; intros fuel st bytes Hl Hr Hf.
  - assert (E : (64 <=? zlen bytes) = false) by zlia. destruct fuel; simpl; by rewrite E.
  - destruct fuel as [|fuel]; [lia|]. cbn [process_blocks absorb].
    rewrite (proj2 (Z.leb_le 64 (zlen bytes))) by zlia.
    rewrite IH; [|rewrite length_drop; lia|lia|lia]. rewrite drop_drop. do 2 f_equal. lia.
Qed.

(** The context holds the hash of the complete blocks of [m] and the bytes after them. *)
Definition represents (c : xaios_sha256_ctx) (m : list Z) : Prop :=
  exists q r, length m = (64 * q + r)%nat /\ (r < 64)%nat /\
    state c = absorb q INIT m /\ buffer_len c = Z.of_nat r /\
    take r (buffer c) = drop (64 * q) m /\ length (buffer c) = 64%nat /\ bit_count c = u64 (8 * zlen m).

Lemma init_represents : represents xaios_sha256_init [].
Proof. exists 0%nat, 0%nat. by split_and!; try lia. Qed.

Lemma split_blocks (l : list Z) : exists q r, length l = (64 * q + r)%nat /\ (r < 64)%nat.
Proof.
  exists (length l / 64)%nat, (length l mod 64)%nat.
  pose proof (Nat.div_mod_eq (length l) 64). pose proof (Nat.mod_upper_bound (length l) 64). lia.
Qed.

Lemma absorb_rest_represents c m d q :
  length m = (64 * q)%nat -> state c = absorb q INIT m -> buffer_len c = 0 -> length (buffer c) = 64%nat ->
  bit_count c = u64 (8 * zlen (m ++ d)) -> represents (absorb_rest c d) (m ++ d).
Proof.
  intros Hm Hst Hbl Hb Hbc. destruct (split_blocks d) as (n & r & Hd & Hr).
  unfold absorb_rest. rewrite (process_blocks_spec _ _ n r d Hd Hr) by (unfold zlen; rewrite Hd; dlia).
  assert (Hsta : absorb n (state c) d = absorb (q + n) INIT (m ++ d)).
  { rewrite absorb_add, absorb_app, Hst by lia. by rewrite <- Hm, drop_app_length. }
  assert (Hdrop : drop (64 * (q + n)) (m ++ d) = drop (64 * n) d).
  { replace (64 * (q + n))%nat with (length m + 64 * n)%nat by lia. by rewrite drop_app_add. }
  assert (Hlr : length (drop (64 * n) d) = r) by (rewrite length_drop; lia).
  assert (Hz : zlen (drop (64 * n) d) = Z.of_nat r) by (unfold zlen; by rewrite Hlr). rewrite Hz, Hlr.
  destruct (Z.ltb_spec 0 (Z.of_nat r)); exists (q + n)%nat, r; cbn [state buffer_len buffer bit_count];
    rewrite length_app, Hdrop; (split; [lia|]); (split; [done|]); (split; [done|]).
  - split; [apply u32_small; lia|]. rewrite (copy_bytes_spec _ 0) by lia. simpl.
    rewrite (take_ge (drop (64 * n) d)) by lia. rewrite take_app_length' by done.
    split; [done|]. split; [|done]. rewrite length_app, Hlr, length_drop. lia.
  - assert (r = 0%nat) as -> by lia. split; [done|]. split; [|done]. symmetry. by apply nil_length_inv.
Qed.

Lemma update_represents c m d :
  represents c m -> represents (xaios_sha256_update c (Some d)) (m ++ d).
Proof.
  intros (q & r & Hm & Hr & Hst & Hbl & Htk & Hb & Hbc).
  unfold xaios_sha256_update. destruct (Z.eqb_spec (zlen d) 0) as [Hz|Hnz].
  { assert (d = []) as -> by (apply nil_length_inv; zlia). rewrite app_nil_r. by exists q, r. }
  assert (Hbits : u64 (bit_count c + u64 (zlen d * 8)) = u64 (8 * zlen (m ++ d))).
  { rewrite Hbc. unfold u64. rewrite <- Zplus_mod. f_equal. unfold zlen. rewrite length_app. lia. }
  rewrite Hbits.
  unfold fill_buffer. cbn [buffer_len buffer state bit_count]. rewrite Hbl.
  destruct (Z.ltb_spec 0 (Z.of_nat r)) as [Hpos|].
  2:{ assert (r = 0%nat) as -> by lia. apply (absorb_rest_represents _ m d q); try done; lia. }
  destruct (Z.ltb_spec (zlen d) (64 - Z.of_nat r)) as [Hlt|Hge].
  - rewrite (proj2 (Z.eqb_neq _ 64)) by lia. replace (Z.to_nat (zlen d)) with (length d) by zlia.
    rewrite copy_bytes_spec by zlia. rewrite (drop_ge d (length d)) by lia.
    match goal with |- represents (absorb_rest ?x []) _ => change (absorb_rest x []) with x end.
    exists q, (r + length d)%nat. cbn [state buffer_len buffer bit_count]. rewrite length_app, absorb_app by lia.
    split; [lia|]. split; [zlia|]. split; [done|]. split; [zlia|].
    rewrite (take_ge d) by lia. rewrite app_assoc, take_app_length' by (rewrite length_app, length_take; lia).
    rewrite drop_app_le, Htk by lia. split; [done|]. split; [|done].
    rewrite !length_app, !length_drop. zlia.
  - rewrite (proj2 (Z.eqb_eq _ 64)) by lia. replace (Z.to_nat (64 - Z.of_nat r)) with (64 - r)%nat by lia.
    rewrite copy_bytes_spec by zlia. rewrite (drop_ge (buffer c)), app_nil_r, Htk by lia.
    replace (m ++ d) with ((m ++ take (64 - r) d) ++ drop (64 - r) d) by (by rewrite <- app_assoc, take_drop).
    apply (absorb_rest_represents _ _ _ (S q)); cbn [state buffer_len buffer bit_count]; try done.
    + rewrite length_app, length_take. zlia.
    + replace (S q) with (q + 1)%nat by lia. rewrite absorb_add, absorb_app, Hst by lia. cbn [absorb].
      rewrite drop_app_le by lia.
      rewrite (take_ge (drop (64 * q) m ++ _)) by (rewrite length_app, length_take, length_drop; zlia). done.
    + rewrite length_app, length_take, length_drop. zlia.
Qed.

Lemma updates_represent chunks c m :
  represents c m ->
  represents (foldl xaios_sha256_update c chunks) (m ++ concat (default [] <$> chunks)).
Proof.
  revert c m. induction chunks as [|d chunks IH]; intros c m H; simpl; [by rewrite app_nil_r|].
  rewrite app_assoc. apply IH. destruct d as [d|]; [by apply update_represents|]. by rewrite app_nil_r.
Qed.

(** The padding loop ends, having appended the zeros that were missing. *)
Lemma pad_zeros_spec fuel c m k :
  represents c m -> (k <= fuel)%nat -> (k < 64)%nat -> (zlen m + Z.of_nat k) mod 64 = 56 ->
  exists c', pad_zeros fuel c = Some c' /\ represents c' (m ++ replicate k 0).
Proof.
  revert fuel c m. induction k as [|k IH]; intros fuel c m Hc Hf Hk Hmod.
  - pose proof Hc as (q & r & Hm & Hr & _ & Hbl & _). exists c. rewrite app_nil_r. split; [|done].
    assert (E : (buffer_len c =? 56) = true) by (rewrite Hbl; unfold zlen in *; dlia).
    destruct fuel; simpl; by rewrite E.
  - destruct fuel as [|fuel]; [lia|]. cbn [pad_zeros].
    pose proof Hc as (q & r & Hm & Hr & _ & Hbl & _).
    rewrite (proj2 (Z.eqb_neq _ 56)) by (rewrite Hbl; unfold zlen in *; dlia).
    destruct (IH fuel (xaios_sha256_update c (Some [0])) (m ++ [0])) as (c' & He & Hr');
      [by apply update_represents|lia|lia|unfold zlen in *; rewrite length_app; simpl; dlia|].
    exists c'. split; [done|]. by rewrite <- app_assoc in Hr'.
Qed.

Lemma round_length W i v : length (round W i v) = length v.
Proof. unfold round. by repeat case_match. Qed.

Lemma compress_length st block : length (sha256_compress st block) = length st.
Proof.
  unfold sha256_compress. rewrite length_zip_with.
  pose proof (for_range_ind (fun _ v => length v = length st) (round (schedule block)) 64 0 st eq_refl
    ltac:(intros j v _ Hv; rewrite <- Hv; apply round_length)) as H. cbv beta in H. rewrite H. lia.
Qed.

Lemma absorb_length n st m : length (absorb n st m) = length st.
Proof. revert st m. induction n as [|n IH]; intros st m; [done|]. cbn [absorb]. by rewrite IH, compress_length. Qed.

Lemma digest_length m : length (digest_blocks m) = 32%nat.
Proof.
  unfold digest_blocks. pose proof (absorb_length (length m / 64) INIT m) as Hl.
  by destruct (absorb _ _ _) as [|? [|? [|? [|? [|? [|? [|? [|? [|]]]]]]]]].
Qed.

Lemma count_bytes_length n : length (count_bytes n) = 8%nat.
Proof. done. Qed.

Lemma code_padded_bytes m : bytes m -> bytes (code_padded m).
Proof.
  intros Hm. unfold code_padded. repeat apply bytes_app; [done| | |].
  - constructor; [unfold byte; lia|constructor].
  - apply Forall_replicate. unfold byte. lia.
  - set (n := u64 _). clearbody n. unfold count_bytes. cbn. repeat constructor; apply u8_range.
Qed.

(** [xaios_sha256_final] on the context of a message. *)
Lemma final_spec c m :
  represents c m ->
  exists c', xaios_sha256_final c = Some (c', digest_blocks (code_padded m)) /\
    exists n, length (code_padded m) = (64 * n)%nat.
Proof.
  intros Hc. unfold xaios_sha256_final. pose proof (update_represents c m [0x80] Hc) as H1.
  assert (Hz : 0 <= (55 - zlen m) mod 64 < 64) by (apply Z.mod_pos_bound; lia).
  destruct (pad_zeros_spec 64 _ _ (zeros_needed m) H1) as (c1 & -> & H2);
    [unfold zeros_needed; lia|unfold zeros_needed; lia| |].
  { unfold zeros_needed. rewrite Z2Nat.id by lia. unfold zlen in *. rewrite length_app. simpl. dlia. }
  cbn [mbind option_bind]. rewrite <- app_assoc in H2.
  set (body := m ++ [0x80] ++ replicate (zeros_needed m) 0) in *.
  pose proof (update_represents c1 body (count_bytes (bit_count c1)) H2) as H3.
  destruct H2 as (q & r & Hl & Hr & _ & _ & _ & _ & Hbc). rewrite Hbc in *.
  assert (Hlen : zlen body mod 64 = 56).
  { unfold body, zeros_needed, zlen in *. rewrite !length_app, length_replicate. simpl. dlia. }
  assert (r = 56%nat) as -> by (unfold zlen in Hlen; dlia).
  change (body ++ count_bytes (u64 (8 * zlen body))) with (code_padded m) in H3.
  assert (Hcp : length (code_padded m) = (64 * S q)%nat)
    by (unfold code_padded; fold body; rewrite length_app, count_bytes_length, Hl; lia).
  destruct H3 as (q' & r' & Hl' & Hr' & Hst & _). assert (q' = S q) as -> by lia.
  eexists. split; [|by exists (S q)]. do 2 f_equal. rewrite Hst, take_ge by (by rewrite absorb_length).
  unfold digest_blocks. by rewrite Hcp, Nat.mul_comm, Nat.div_mul by done.
Qed.

Lemma one_shot m : xaios_sha256 (Some m) = Some (digest_blocks (code_padded m)).
Proof.
  pose proof (update_represents _ _ m init_represents) as H. destruct (final_spec _ _ H) as (c & Hf & _). unfold xaios_sha256. by rewrite Hf.
Qed.

(** ** The compression function of the standard *)

Definition word32 (x : Z) : Prop := 0 <= x < 4294967296.

Lemma high_bits x j : word32 x -> 32 <= j -> Z.testbit x j = false.
Proof.
  intros Hx Hj. destruct (decide (x = 0)) as [->|]; [apply Z.testbit_0_l|]. apply Z.bits_above_log2; [unfold word32 in *; lia|].
  apply Z.log2_lt_pow2; [unfold word32 in *; lia|]. apply Z.lt_le_trans with (2 ^ 32); [apply Hx|]. apply Z.pow_le_mono_r; lia.
Qed.

(** A word is what its 32 bits make it. *)
Lemma word32_bits x : 0 <= x -> (forall j, 32 <= j -> Z.testbit x j = false) -> word32 x.
Proof.
  intros Hx H. split; [done|]. destruct (Z.lt_ge_cases x (2 ^ 32)) as [|Hge]; [done|]. exfalso.
  assert (Hl : 32 <= Z.log2 x) by (rewrite <- (Z.log2_pow2 32) by lia; by apply Z.log2_le_mono).
  pose proof (Z.bit_log2 x ltac:(lia)) as Hb. rewrite H in Hb by done. done.
Qed.

Lemma u32_testbit x j : Z.testbit (u32 x) j = (j <? 32) && Z.testbit x j.
Proof.
  unfold u32. change 4294967296 with (2 ^ 32). destruct (Z.ltb_spec j 32); [by rewrite Z.mod_pow2_bits_low|].
  by rewrite Z.mod_pow2_bits_high by lia.
Qed.

Lemma rotr_testbit x n j : word32 x -> 0 < n < 32 -> 0 <= j -> Z.testbit (rotr x n) j = (j <? 32) && Z.testbit x ((j + n) mod 32).
Proof.
  intros Hx Hn Hj. unfold rotr. rewrite Z.lor_spec, Z.shiftr_spec, u32_testbit, Z.shiftl_spec by lia.
  destruct (Z.ltb_spec j 32); cbn [andb]; [|by rewrite high_bits by (done || lia)].
  destruct (Z.lt_ge_cases (j + n) 32).
  - by rewrite (Z.testbit_neg_r x (j - _)), orb_false_r, Z.mod_small by lia.
  - rewrite (high_bits x (j + n)) by (done || lia). cbn [orb]. f_equal.
    rewrite <- (Z.mod_small (j - (32 - n)) 32) by lia. replace (j + n) with (j - (32 - n) + 1 * 32) by lia. by rewrite Z.mod_add.
Qed.

Lemma rotr_fips x n : word32 x -> 0 < n < 32 -> rotr x n = Fips180.ROTR n x /\ word32 (rotr x n).
Proof.
  intros Hx Hn. assert (Hw : word32 (rotr x n)).
  { apply word32_bits.
    - apply Z.lor_nonneg. split; [apply Z.shiftr_nonneg; apply Hx|apply u32_range].
    - intros j Hj. rewrite rotr_testbit by (done || lia). by rewrite (proj2 (Z.ltb_ge j 32)). }
  split; [|done]. apply Fips180.word_eq; [exact Hw|]. intros j Hj. rewrite rotr_testbit by (done || lia). by rewrite (proj2 (Z.ltb_lt j 32)) by lia.
Qed.

Lemma lxor_word32 x y : word32 x -> word32 y -> word32 (Z.lxor x y).
Proof.
  intros Hx Hy. apply word32_bits; [apply Z.lxor_nonneg; split; intros; [apply Hy|apply Hx]|].
  intros j Hj. by rewrite Z.lxor_spec, !high_bits.
Qed.

Lemma lxor3_fips x y z : word32 x -> word32 y -> word32 z -> Z.lxor (Z.lxor x y) z = Fips180.parity3 x y z.
Proof.
  intros Hx Hy Hz. apply Fips180.word_eq; [by apply lxor_word32; [apply lxor_word32|]|]. intros j Hj. rewrite !Z.lxor_spec.
  by rewrite xorb_assoc.
Qed.

Lemma shiftr_fips x n : word32 x -> 0 <= n -> Z.shiftr x n = Fips180.SHR n x /\ word32 (Z.shiftr x n).
Proof.
  intros Hx Hn. split; [by apply Z.shiftr_div_pow2|]. apply word32_bits; [apply Z.shiftr_nonneg; apply Hx|].
  intros j Hj. rewrite Z.shiftr_spec by lia. apply high_bits; [done|lia].
Qed.

Lemma sigmas_fips x : word32 x ->
  sigma0 x = Fips180.Sigma0 x /\ sigma1 x = Fips180.Sigma1 x /\ gamma0 x = Fips180.sig0 x /\ gamma1 x = Fips180.sig1 x.
Proof.
  intros Hx. unfold sigma0, sigma1, gamma0, gamma1, Fips180.Sigma0, Fips180.Sigma1, Fips180.sig0, Fips180.sig1.
  pose proof (fun n H => proj1 (rotr_fips x n Hx H)) as R1. pose proof (fun n H => proj2 (rotr_fips x n Hx H)) as R2.
  pose proof (fun n H => proj1 (shiftr_fips x n Hx H)) as S1. pose proof (fun n H => proj2 (shiftr_fips x n Hx H)) as S2.
  rewrite !lxor3_fips by (apply R2 || apply S2; lia). by rewrite !R1, !S1 by lia.
Qed.

Lemma not32_testbit x j : word32 x -> 0 <= j < 32 -> Z.testbit (not32 x) j = negb (Z.testbit x j).
Proof.
  intros Hx Hj. unfold not32. rewrite u32_small by done. replace (UINT32_MAX - x) with (Z.ones 32 - x) by reflexivity.
  rewrite Z.sub_nocarry_ldiff; [by rewrite Z.ldiff_spec, Z.ones_spec_low by lia|].
  apply Z.bits_inj'. intros i Hi. rewrite Z.ldiff_spec, Z.bits_0. destruct (Z.ltb_spec i 32).
  - by rewrite Z.ones_spec_low, andb_false_r by lia.
  - by rewrite high_bits.
Qed.

Lemma not32_word x : word32 (not32 x).
Proof. unfold not32, word32, UINT32_MAX. pose proof (u32_range x). lia. Qed.

Lemma ch_fips x y z : word32 x -> word32 y -> word32 z -> ch x y z = Fips180.Ch x y z.
Proof.
  intros Hx Hy Hz. apply Fips180.word_eq.
  - apply word32_bits; [apply Z.lxor_nonneg; split; intros; apply Z.land_nonneg; left; [apply not32_word|apply Hx]|].
    intros j Hj. unfold ch. by rewrite Z.lxor_spec, !Z.land_spec, (high_bits x), (high_bits z), andb_false_r.
  - intros j Hj. unfold ch. rewrite Z.lxor_spec, !Z.land_spec, not32_testbit by done.
    by destruct (Z.testbit x j), (Z.testbit y j), (Z.testbit z j).
Qed.

Lemma maj_fips x y z : word32 x -> word32 y -> word32 z -> maj x y z = Fips180.Maj x y z.
Proof.
  intros Hx Hy Hz. apply Fips180.word_eq.
  - apply word32_bits; [|intros j Hj; unfold maj; by rewrite !Z.lxor_spec, !Z.land_spec, !high_bits].
    pose proof (fun a b (H : word32 a) => proj2 (Z.land_nonneg a b) (or_introl (proj1 H))) as L.
    unfold maj. rewrite !Z.lxor_nonneg. split; intros; [by apply L|]. split; intros; by apply L.
  - intros j Hj. unfold maj. rewrite !Z.lxor_spec, !Z.land_spec. by destruct (Z.testbit x j), (Z.testbit y j), (Z.testbit z j).
Qed.

Lemma constants_fips : K = Fips180.K256 /\ INIT = Fips180.H0.
Proof. split; vm_compute; reflexivity. Qed.

Lemma plus_u32 l : Fips180.plus l = u32 (foldr Z.add 0 l).
Proof. done. Qed.

(** One round. *)
Lemma round_fips W (i : nat) v k w : length v = 8%nat -> Forall word32 v -> K !! i = Some k -> W !! i = Some w ->
  round W (Z.of_nat i) v = Fips180.hash_step v (k, w) /\ length (round W (Z.of_nat i) v) = 8%nat /\ Forall word32 (round W (Z.of_nat i) v).
Proof.
  intros Hl Hv Hk Hw. destruct v as [|a [|b [|c [|d [|e [|f [|g [|h [|]]]]]]]]]; try done. clear Hl.
  repeat match goal with H : Forall _ (_ :: _) |- _ => apply Forall_cons in H as [? H] end. unfold round, Fips180.hash_step.
  rewrite Nat2Z.id, (list_lookup_total_correct _ _ _ Hk), (list_lookup_total_correct _ _ _ Hw). rewrite !plus_u32. cbn [foldr fst snd].
  destruct (sigmas_fips e) as (_ & <- & _); [done|]. destruct (sigmas_fips a) as (<- & _); [done|].
  rewrite <- ch_fips, <- maj_fips by done. split; [|split; [done|repeat (constructor; [apply u32_range || done|]); constructor]].
  by rewrite !Z.add_0_r, !Z.add_assoc.
Qed.

(** The schedule. *)
Lemma block_words_snoc n block : (4 * S n <= length block)%nat -> bytes block ->
  Fips180.block_words (S n) block = Fips180.block_words n block ++ [load_be32 (drop (4 * n) block)] /\ word32 (load_be32 (drop (4 * n) block)).
Proof.
  revert block. induction n as [|n IH]; intros block Hl Hb; destruct block as [|b0 [|b1 [|b2 [|b3 rest]]]]; try (simpl in Hl; lia).
  - do 4 (apply Forall_cons in Hb as [? Hb]). change (drop (4 * 0) ?l) with l.
    assert (E : load_be32 (b0 :: b1 :: b2 :: b3 :: rest) = ((b0 * 256 + b1) * 256 + b2) * 256 + b3).
    { etransitivity; [apply (be32_value b0 b1 b2 b3); done|lia]. }
    rewrite E. split; [done|]. unfold byte, word32 in *. lia.
  - do 4 (apply Forall_cons in Hb as [? Hb]). destruct (IH rest) as [E1 E2]; [simpl in Hl; lia|done|]. replace (4 * S n)%nat with (S (S (S (S (4 * n))))) by lia. cbn [drop]. split; [|done].
    change (Fips180.block_words (S (S n)) (b0 :: b1 :: b2 :: b3 :: rest)) with ((((b0 * 256 + b1) * 256 + b2) * 256 + b3) :: Fips180.block_words (S n) rest).
    by rewrite E1.
Qed.

(** Writing behind the words that are there. *)
Lemma set_next (l : list Z) k x i : i = zlen l -> (l ++ replicate (S k) 0).[i <- x] = (l ++ [x]) ++ replicate k 0.
Proof.
  intros ->. unfold zlen. rewrite Nat2Z.id, insert_app_r_alt by lia. rewrite Nat.sub_diag, <- app_assoc. done.
Qed.

Lemma get_before (l : list Z) k i : 0 <= i < zlen l -> (l ++ replicate k 0).[i] = l.[i].
Proof. intros Hi. apply lookup_total_app_l. unfold zlen in *. lia. Qed.

Lemma get_word l i : Forall word32 l -> 0 <= i < zlen l -> word32 (l.[i]).
Proof. intros Hl Hi. rewrite Forall_lookup in Hl. eapply Hl. by apply arr_lookup. Qed.

Lemma first_words n block : (n <= 16)%nat -> (64 <= length block)%nat -> bytes block ->
  for_range n 0 (fun i W => W.[i <- load_be32 (drop (Z.to_nat (i * 4)) block)]) (replicate 64 0) =
    Fips180.block_words n block ++ replicate (64 - n) 0 /\
  length (Fips180.block_words n block) = n /\ Forall word32 (Fips180.block_words n block).
Proof.
  intros Hn Hl Hb. induction n as [|n IH]; [by destruct block|]. destruct (IH ltac:(lia)) as (E & L & F). clear IH.
  destruct (block_words_snoc n block ltac:(lia) Hb) as [E2 F2]. rewrite for_range_S, E, E2. replace (64 - n)%nat with (S (64 - S n)) by lia.
  replace (Z.to_nat ((0 + Z.of_nat n) * 4)) with (4 * n)%nat by lia. split; [apply set_next; unfold zlen; lia|].
  rewrite length_app, L. split; [simpl; lia|]. apply Forall_app. split; [done|]. by apply Forall_singleton.
Qed.

Lemma more_words n block : (n <= 48)%nat -> (64 <= length block)%nat -> bytes block ->
  for_range n 16 (fun i W => W.[i <- u32 (gamma1 (W.[i - 2]) + W.[i - 7] + gamma0 (W.[i - 15]) + W.[i - 16])])
    (Fips180.block_words 16 block ++ replicate 48 0) = Fips180.message_schedule n block ++ replicate (48 - n) 0 /\
  zlen (Fips180.message_schedule n block) = 16 + Z.of_nat n /\ Forall word32 (Fips180.message_schedule n block).
Proof.
  intros Hn Hl Hb. induction n as [|n IH].
  { destruct (first_words 16 block ltac:(lia) Hl Hb) as (_ & L & F). split; [done|]. split; [|done]. unfold zlen. cbn [Fips180.message_schedule]. by rewrite L. }
  destruct (IH ltac:(lia)) as (E & L & F). clear IH. rewrite for_range_S, E. cbn [Fips180.message_schedule]. cbv zeta.
  set (W := Fips180.message_schedule n block) in *. replace (Z.of_nat (16 + n)) with (16 + Z.of_nat n) by lia. set (t := 16 + Z.of_nat n) in *.
  replace (48 - n)%nat with (S (48 - S n)) by lia. rewrite set_next by lia. rewrite !get_before by lia. rewrite plus_u32. cbn [foldr].
  destruct (sigmas_fips (W.[t - 15])) as (_ & _ & <- & _); [apply get_word; [done|lia]|].
  destruct (sigmas_fips (W.[t - 2])) as (_ & _ & _ & <-); [apply get_word; [done|lia]|].
  rewrite Z.add_0_r, !Z.add_assoc. split; [done|]. rewrite zlen_app, L. split; [change (zlen [_]) with 1; lia|].
  apply Forall_app. split; [done|]. constructor; [apply u32_range|constructor].
Qed.

Lemma schedule_fips block : (64 <= length block)%nat -> bytes block ->
  schedule block = Fips180.message_schedule 48 block /\ length (schedule block) = 64%nat.
Proof.
  intros Hl Hb. destruct (first_words 16 block ltac:(lia) Hl Hb) as (E1 & _ & _). destruct (more_words 48 block ltac:(lia) Hl Hb) as (E2 & L & _).
  assert (E : schedule block = Fips180.message_schedule 48 block).
  { unfold schedule. rewrite E1. etransitivity; [exact E2|]. generalize (Fips180.message_schedule 48 block). apply app_nil_r. }
  rewrite E. split; [done|]. revert L. generalize (Fips180.message_schedule 48 block). unfold zlen. lia.
Qed.

(** The compression function computes the next intermediate hash value. *)
Lemma compress_fips st block : length st = 8%nat -> Forall word32 st -> (64 <= length block)%nat -> bytes block ->
  sha256_compress st block = Fips180.hash_block st block /\ Forall word32 (sha256_compress st block).
Proof.
  intros Hs Hw Hl Hb. destruct (schedule_fips block Hl Hb) as [E L]. unfold sha256_compress, Fips180.hash_block. rewrite <- E, <- (proj1 constants_fips).
  set (W := schedule block) in *. clearbody W. clear E.
  assert (H : forall n, (n <= 64)%nat -> for_range n 0 (round W) st = foldl Fips180.hash_step st (take n (zip K W)) /\
    length (for_range n 0 (round W) st) = 8%nat /\ Forall word32 (for_range n 0 (round W) st)).
  { induction n as [|n IH]; intros Hn; [done|]. destruct (IH ltac:(lia)) as (E & L1 & F1). clear IH.
    destruct (lookup_lt_is_Some_2 K n) as [k Hk]; [change (length K) with 64%nat; lia|]. destruct (lookup_lt_is_Some_2 W n) as [w HW]; [lia|].
    rewrite for_range_S. change (0 + Z.of_nat n) with (Z.of_nat n). destruct (round_fips W n _ k w L1 F1 Hk HW) as (E1 & L2 & F2). split; [|done].
    rewrite E1, E. rewrite (take_S_r _ _ (k, w)) by (by rewrite lookup_zip_with, Hk, HW). by rewrite foldl_app. }
  destruct (H 64%nat ltac:(lia)) as (-> & _). rewrite (take_ge (zip K W)) by (rewrite length_zip_with; lia). split.
  - clear. revert st. generalize (foldl Fips180.hash_step). intros F st. generalize (F st (zip K W)). clear. intros l. revert l.
    induction st as [|x st IH]; intros [|y l]; try done. cbn [zip_with]. rewrite plus_u32. cbn [foldr]. by rewrite Z.add_0_r, IH.
  - generalize (foldl Fips180.hash_step st (zip K W)). clear. intros l. revert l.
    induction st as [|x st IH]; intros [|y l]; cbn [zip_with]; constructor; [apply u32_range|done].
Qed.

Lemma absorb_fips n st m : length st = 8%nat -> Forall word32 st -> (64 * n <= length m)%nat -> bytes m ->
  absorb n st m = Fips180.hash_blocks n st m.
Proof.
  revert st m. induction n as [|n IH]; intros st m Hs Hw Hl Hb; [done|]. cbn [absorb Fips180.hash_blocks].
  destruct (compress_fips st (take 64 m)) as [E F]; [done|done|rewrite length_take; lia|by apply Forall_take|].
  rewrite <- E. apply IH; [by rewrite compress_length|done|rewrite length_drop; lia|by apply Forall_drop].
Qed.

Lemma init_words : length INIT = 8%nat /\ Forall word32 INIT.
Proof. split; [done|]. unfold INIT, word32. repeat (constructor; [lia|]). constructor. Qed.

Lemma digest_fips m : bytes m -> digest_blocks m = Fips180.digest m.
Proof.
  intros Hm. unfold digest_blocks, Fips180.digest. destruct init_words as [L F].
  rewrite absorb_fips by (done || apply Nat.Div0.mul_div_le). rewrite <- (proj2 constants_fips).
  generalize (Fips180.hash_blocks (length m / 64) INIT m). intros l. induction l as [|x l IH]; [done|]. cbn [flat_map]. rewrite IH. f_equal.
  unfold store_be32, Fips180.word_bytes, u8. by rewrite !Z.shiftr_div_pow2 by lia.
Qed.

(** ** Properties *)

(** C36: streaming.  After any sequence of updates, null ones included, the context
    holds the intermediate hash value of FIPS 180-4 for the complete blocks of the data
    so far, the bytes after them, and the number of bits.  The final call then ends,
    and gives the same 32 bytes as [xaios_sha256] on all of the data at once: the hash
    of FIPS 180-4 for the data, the marker, zeros up to eight bytes before the end of a
    block, and a length field of eight bytes, whose value is not claimed. *)
Theorem sha256_streaming (chunks : list (option (list Z))) :
  let m := concat (default [] <$> chunks) in
  let c := foldl xaios_sha256_update xaios_sha256_init chunks in
  let blocks := (length m / 64)%nat in
  bytes m ->
  state c = Fips180.hash_blocks blocks Fips180.H0 m /\
  take (Z.to_nat (buffer_len c)) (buffer c) = drop (64 * blocks) m /\
  bit_count c = (8 * zlen m) mod 2 ^ 64 /\
  exists c' digest len8,
    xaios_sha256_final c = Some (c', digest) /\ xaios_sha256 (Some m) = Some digest /\ length digest = 32%nat /\
    length len8 = 8%nat /\ digest = Fips180.digest (m ++ [0x80] ++ replicate (Z.to_nat ((55 - zlen m) mod 64)) 0 ++ len8).
Proof.
  intros m c blocks Hm. pose proof (updates_represent chunks _ _ init_represents) as H. rewrite app_nil_l in H. fold m c in H.
  destruct (final_spec _ _ H) as (c1 & Hf & _).
  destruct H as (q & r & Hl & Hr & Hst & Hbl & Htk & _ & Hbc).
  assert (q = blocks) as -> by (unfold blocks; rewrite Hl, (Nat.mul_comm 64), Nat.div_add_l, Nat.div_small by lia; lia).
  destruct init_words as [L F]. split; [rewrite Hst, <- (proj2 constants_fips); apply absorb_fips; (done || lia)|].
  split; [by rewrite Hbl, Nat2Z.id|]. split; [done|].
  eexists c1, _, _. split; [exact Hf|]. split; [apply one_shot|]. split; [|split; [|]].
  - apply digest_length.
  - apply (count_bytes_length (u64 (8 * zlen (m ++ [0x80] ++ replicate (zeros_needed m) 0)))).
  - rewrite digest_fips by (by apply code_padded_bytes). unfold code_padded, zeros_needed. by rewrite <- !app_assoc.
Qed.

Lemma sha256_streaming_witness :
  let chunks := [Some [97; 98]; None; Some (replicate 80 120); Some []] in
  let c := foldl xaios_sha256_update xaios_sha256_init chunks in
  let m := [97; 98] ++ replicate 80 120 in
  state c = Fips180.hash_blocks 1 Fips180.H0 m /\
  take (Z.to_nat (buffer_len c)) (buffer c) = replicate 18 120 /\
  bit_count c = 656 /\
  exists c' digest len8,
    xaios_sha256_final c = Some (c', digest) /\ xaios_sha256 (Some m) = Some digest /\ length digest = 32%nat /\
    length len8 = 8%nat /\ digest = Fips180.digest (m ++ [0x80] ++ replicate 37 0 ++ len8).
Proof.
  intros chunks c m. apply (sha256_streaming chunks). unfold bytes, byte. apply (bool_decide_unpack _). vm_compute. exact I.
Defined.

(** The compression function is that of the standard: with the padding of FIPS 180-4 it
    gives the NIST digests of the boot self-test. *)
Lemma compress_matches_nist :
  digest_blocks (fips_padded [97; 98; 99]) = expected_abc /\
  digest_blocks (fips_padded []) = expected_empty.
Proof. vm_compute. done. Qed.

(** The length field of the code counts its own padding, so the digests differ from
    SHA-256 and both assertions of the boot self-test fail. *)
Lemma sha256_self_test_fails :
  sha256_self_test = false /\
  xaios_sha256 (Some [97; 98; 99]) <> Some expected_abc /\ xaios_sha256 (Some []) <> Some expected_empty.
Proof. split; [vm_compute; reflexivity|]. split; vm_compute; discriminate. Qed.

End Sha256.
