(* ===== verification/Update.v ===== *)
(** * Update transactions (kernel/runtime/update.c, include/xaios/update.h)

    The transaction state machine, the chunked delivery with its running hash and the
    manifest parser.  The static variables are the record [runtime]; the policy of
    Security.v and the hash context of Sha256.v are part of it.  The file system
    (mutable_fs.c) and the snapshot store (persistence.c) are used through the interface
    [UpdateStore], about which nothing is assumed: every theorem holds whatever the calls
    return.  Log output is left out.

    A C string is a [string], null is [None].  The manifest buffer is a list of character
    codes; a position in it is the rest of the list. *)

From S2P Require Import Prelude Security Sha256.
From Stdlib Require Import Ascii String.
#[local] Open Scope string_scope.
#[local] Open Scope Z_scope.

(** The storage services update.c calls. *)
Class UpdateStore (S : Type) := {
  mutable_fs_mkdir : S -> string -> S * xaios_status;
  mutable_fs_open : S -> string -> Z -> S * Z;
  mutable_fs_write_fd : S -> Z -> list Z -> S * Z;
  mutable_fs_close : S -> Z -> S * xaios_status;
  mutable_fs_commit : S -> string -> S * xaios_status;
  mutable_fs_rollback : S -> S * xaios_status;
  mutable_fs_record_update_transaction : S -> Z -> string -> string -> string -> S * xaios_status;
  persistence_snapshot_create : S -> Z -> Z -> string -> S * xaios_status;
  persistence_rollback : S -> Z -> Z -> S * xaios_status
}.

Module Update.

Definition UPDATE_TARGET_MAX : Z := 32.
Definition UPDATE_LABEL_MAX : Z := 32.
Definition XAIOS_UPDATE_CHUNK_MAX : Z := 4096.
Definition XAIOS_UPDATE_STAGING_PATH : string := "/update/staging.bin".
Definition XAIOS_SNAPSHOT_UPDATE : Z := 5.
Definition OPEN_FLAGS : Z := Eval cbv in Z.lor 2 4.

Inductive xaios_update_state :=
| XAIOS_UPDATE_IDLE
| XAIOS_UPDATE_PENDING
| XAIOS_UPDATE_STAGED
| XAIOS_UPDATE_COMMITTED
| XAIOS_UPDATE_FAILED
| XAIOS_UPDATE_RECOVERED
| XAIOS_UPDATE_ROLLED_BACK.

#[global] Instance update_state_eq_dec : EqDecision xaios_update_state.
Proof. solve_decision. Defined.

Record xaios_update_transaction := mk_tx {
  active : Z;
  generation : Z;
  state : xaios_update_state;
  target : string;
  rollback_label : string
}.

Definition zero_tx : xaios_update_transaction := mk_tx 0 0 XAIOS_UPDATE_IDLE "" "".

Record xaios_update_delivery_status := mk_delivery {
  bytes_received : Z;
  bytes_expected : Z;
  chunks_written : Z;
  hash_verified : Z;
  last_error : xaios_status
}.

Inductive counter :=
| transactions | stages | commits | failures | recoveries | rollbacks
| boot_fallbacks | records_persisted | rollback_points | rejects.

#[global] Instance ucounter_eq_dec : EqDecision counter.
Proof. solve_decision. Defined.

Record runtime (S : Type) := mk_runtime {
  g_update : xaios_update_transaction;
  g_count : counter -> Z;
  g_delivery : xaios_update_delivery_status;
  g_chunk_hash_ctx : Sha256.xaios_sha256_ctx;
  g_chunk_staging_active : Z;
  policy : Security.policy;
  store : S
}.
Arguments mk_runtime {S}.
Arguments g_update {S}.
Arguments g_count {S}.
Arguments g_delivery {S}.
Arguments g_chunk_hash_ctx {S}.
Arguments g_chunk_staging_active {S}.
Arguments policy {S}.
Arguments store {S}.

(** ** Strings *)

Fixpoint cstr_len (value : string) : Z :=
  match value with EmptyString => 0 | String _ r => 1 + cstr_len r end.

Definition token_char (c : ascii) : bool :=
  negb ((Security.code c <? 33) || (126 <? Security.code c) || Security.chr_eqb c ":"%char ||
        Security.chr_eqb c "*"%char || Security.chr_eqb c "?"%char || (Security.code c =? 34) ||
        Security.chr_eqb c "<"%char || Security.chr_eqb c ">"%char || Security.chr_eqb c "|"%char).

Definition token_valid (value : option string) (max_len : Z) : bool :=
  match value with
  | None => false
  | Some v =>
      let len := cstr_len v in
      if (len =? 0) || (max_len <=? len) then false else Security.all_chars token_char v
  end.

(** The loop of [target_valid]; [prev] is [target[i - 1]].  False when the loop returns 0. *)
Fixpoint target_loop (prev : option ascii) (cursor : string) : bool :=
  match cursor with
  | EmptyString => true
  | String c rest =>
      if Security.chr_eqb c "/"%char && Security.head_is "/"%char rest then false else
      if Security.chr_eqb c "."%char && Security.head_is "."%char rest &&
         (match prev with None => true | Some p => Security.chr_eqb p "/"%char end) &&
         (match rest with
          | String _ rest2 => Security.head_is "/"%char rest2 || Security.at_end rest2
          | EmptyString => false
          end)
      then false else target_loop (Some c) rest
  end.

Definition target_valid (t : option string) : bool :=
  match t with
  | None => false
  | Some v =>
      let len := cstr_len v in
      if negb (token_valid t UPDATE_TARGET_MAX) || (len <? 2) || negb (Security.head_is "/"%char v) ||
         Security.head_is "/"%char (Security.skip (Z.to_nat (len - 1)) v)
      then false else target_loop None v
  end.

(** [copy_token]: at most [capacity - 1] characters. *)
Definition copy_token (capacity : Z) (src : string) : string :=
  String.substring 0 (Z.to_nat (capacity - 1)) src.

Definition state_name (s : xaios_update_state) : string :=
  match s with
  | XAIOS_UPDATE_IDLE => "idle"
  | XAIOS_UPDATE_PENDING => "pending"
  | XAIOS_UPDATE_STAGED => "staged"
  | XAIOS_UPDATE_COMMITTED => "committed"
  | XAIOS_UPDATE_FAILED => "failed"
  | XAIOS_UPDATE_RECOVERED => "recovered"
  | XAIOS_UPDATE_ROLLED_BACK => "rolled-back"
  end.

Section Operations.
Context {S : Type} `{!UpdateStore S}.
Implicit Types u : runtime S.

Definition count_up (c : counter) (u : runtime S) : runtime S :=
  mk_runtime (g_update u) (fun d => if decide (c = d) then u64 (g_count u d + 1) else g_count u d)
    (g_delivery u) (g_chunk_hash_ctx u) (g_chunk_staging_active u) (policy u) (store u).

Definition with_store (u : runtime S) (s : S) : runtime S :=
  mk_runtime (g_update u) (g_count u) (g_delivery u) (g_chunk_hash_ctx u) (g_chunk_staging_active u)
    (policy u) s.

Definition with_policy (u : runtime S) (p : Security.policy) : runtime S :=
  mk_runtime (g_update u) (g_count u) (g_delivery u) (g_chunk_hash_ctx u) (g_chunk_staging_active u)
    p (store u).

Definition with_tx (u : runtime S) (t : xaios_update_transaction) : runtime S :=
  mk_runtime t (g_count u) (g_delivery u) (g_chunk_hash_ctx u) (g_chunk_staging_active u)
    (policy u) (store u).

Definition with_delivery (u : runtime S) (d : xaios_update_delivery_status) : runtime S :=
  mk_runtime (g_update u) (g_count u) d (g_chunk_hash_ctx u) (g_chunk_staging_active u)
    (policy u) (store u).

Definition with_hash (u : runtime S) (c : Sha256.xaios_sha256_ctx) (staging : Z) : runtime S :=
  mk_runtime (g_update u) (g_count u) (g_delivery u) c staging (policy u) (store u).

Definition set_state (u : runtime S) (s : xaios_update_state) : runtime S :=
  let t := g_update u in with_tx u (mk_tx (active t) (generation t) s (target t) (rollback_label t)).

Definition set_inactive (u : runtime S) : runtime S :=
  let t := g_update u in with_tx u (mk_tx 0 (generation t) (state t) (target t) (rollback_label t)).

Definition reset_transaction (u : runtime S) : runtime S := with_tx u zero_tx.

Definition in_state (u : runtime S) (s : xaios_update_state) : bool :=
  negb (active (g_update u) =? 0) && bool_decide (state (g_update u) = s).

Definition reject (u : runtime S) (st : xaios_status) : runtime S * xaios_status := (count_up rejects u, st).

Definition persist_update_state (u : runtime S) : runtime S * xaios_status :=
  let t := g_update u in
  let '(s, st) := mutable_fs_record_update_transaction (store u) (generation t) (state_name (state t))
                    (target t) (rollback_label t) in
  if negb (is_ok st) then reject (with_store u s) XAIOS_ERR_IO
  else (count_up records_persisted (with_store u s), XAIOS_OK).

(** [persist_update_state() != XAIOS_OK || mutable_fs_commit(label) != XAIOS_OK]: the state
    after the calls made and whether one of them failed. *)
Definition persist_and_commit (u : runtime S) (label : string) : runtime S * bool :=
  let '(u1, st1) := persist_update_state u in
  if negb (is_ok st1) then (u1, true) else
  let '(s, st2) := mutable_fs_commit (store u1) label in
  (with_store u1 s, negb (is_ok st2)).

(** [persistence_rollback(...) != XAIOS_OK || mutable_fs_rollback() != XAIOS_OK]. *)
Definition roll_storage_back (u : runtime S) : runtime S * bool :=
  let '(s1, st1) := persistence_rollback (store u) XAIOS_SNAPSHOT_UPDATE 0 in
  if negb (is_ok st1) then (with_store u s1, true) else
  let '(s2, st2) := mutable_fs_rollback s1 in
  (with_store u s2, negb (is_ok st2)).

Definition update_runtime_init (u : runtime S) : runtime S :=
  let '(s, _) := mutable_fs_mkdir (store u) "/update" in
  mk_runtime zero_tx (fun _ => 0) (mk_delivery 0 0 0 0 XAIOS_OK) (g_chunk_hash_ctx u) 0 (policy u) s.

Definition update_begin (u : runtime S) (gen : Z) (t signature : option string)
    : runtime S * xaios_status :=
  if negb (active (g_update u) =? 0) || (gen =? 0) || negb (target_valid t)
  then reject u XAIOS_ERR_INVALID else
  let '(p, sec) := Security.security_authorize_update_signature (policy u) signature
                     (Z.lor Security.XAIOS_CAP_UPDATE Security.XAIOS_CAP_ADMIN) in
  let u1 := with_policy u p in
  if negb (is_ok sec) then reject u1 XAIOS_ERR_INVALID else
  let u2 := with_tx u1 (mk_tx 1 gen XAIOS_UPDATE_PENDING
              (copy_token UPDATE_TARGET_MAX (default "" t)) (copy_token UPDATE_LABEL_MAX "update-rp")) in
  let '(s3, st3) := persistence_snapshot_create (store u2) XAIOS_SNAPSHOT_UPDATE 0
                      (rollback_label (g_update u2)) in
  let u3 := with_store u2 s3 in
  if negb (is_ok st3) then reject (reset_transaction u3) XAIOS_ERR_IO else
  let '(u4, st4) := persist_update_state u3 in
  if negb (is_ok st4) then (reset_transaction u4, XAIOS_ERR_IO) else
  (count_up rollback_points (count_up transactions u4), XAIOS_OK).

Definition update_stage (u : runtime S) : runtime S * xaios_status :=
  if negb (in_state u XAIOS_UPDATE_PENDING) then reject u XAIOS_ERR_INVALID else
  let '(u1, failed) := persist_and_commit (set_state u XAIOS_UPDATE_STAGED) "update-stage" in
  if failed then reject u1 XAIOS_ERR_IO else (count_up stages u1, XAIOS_OK).

Definition update_commit (u : runtime S) : runtime S * xaios_status :=
  if negb (in_state u XAIOS_UPDATE_STAGED) then reject u XAIOS_ERR_INVALID else
  let '(u1, failed) := persist_and_commit (set_state u XAIOS_UPDATE_COMMITTED) "update-commit" in
  if failed then reject u1 XAIOS_ERR_IO else (count_up commits u1, XAIOS_OK).

Definition update_fail (u : runtime S) : runtime S * xaios_status :=
  if negb (in_state u XAIOS_UPDATE_STAGED) then reject u XAIOS_ERR_INVALID else
  let '(u1, st) := persist_update_state (set_state u XAIOS_UPDATE_FAILED) in
  if negb (is_ok st) then reject u1 XAIOS_ERR_IO else (count_up failures u1, XAIOS_OK).

Definition update_recover_boot (u : runtime S) : runtime S * xaios_status :=
  if negb (in_state u XAIOS_UPDATE_FAILED) then reject u XAIOS_ERR_INVALID else
  let '(u1, failed) := roll_storage_back u in
  if failed then reject u1 XAIOS_ERR_IO else
  let '(u2, st) := persist_update_state (set_state u1 XAIOS_UPDATE_RECOVERED) in
  if negb (is_ok st) then reject u2 XAIOS_ERR_IO else
  (set_inactive (count_up boot_fallbacks (count_up recoveries u2)), XAIOS_OK).

Definition update_rollback (u : runtime S) : runtime S * xaios_status :=
  if negb (in_state u XAIOS_UPDATE_COMMITTED) then reject u XAIOS_ERR_INVALID else
  let '(p, sec) := Security.security_authorize_rollback (policy u) (Some (target (g_update u))) 1 in
  let u0 := with_policy u p in
  if negb (is_ok sec) then reject u0 XAIOS_ERR_INVALID else
  let '(u1, failed) := roll_storage_back u0 in
  if failed then reject u1 XAIOS_ERR_IO else
  let '(u2, st) := persist_update_state (set_state u1 XAIOS_UPDATE_ROLLED_BACK) in
  if negb (is_ok st) then reject u2 XAIOS_ERR_IO else
  (set_inactive (count_up rollbacks u2), XAIOS_OK).

(** ** Chunked delivery *)

Definition set_error (d : xaios_update_delivery_status) (e : xaios_status) : xaios_update_delivery_status :=
  mk_delivery (bytes_received d) (bytes_expected d) (chunks_written d) (hash_verified d) e.

(** [++g_rejects; g_delivery.last_error = e; return e]. *)
Definition refuse (u : runtime S) (e : xaios_status) : runtime S * xaios_status :=
  reject (with_delivery u (set_error (g_delivery u) e)) e.

(** The data pointer and its size; the bytes are those the pointer refers to. *)
Definition update_stage_chunk (u : runtime S) (data : option (list Z)) : runtime S * xaios_status :=
  if negb (in_state u XAIOS_UPDATE_PENDING) then refuse u XAIOS_ERR_INVALID else
  match data with
  | None => refuse u XAIOS_ERR_INVALID
  | Some bytes =>
      let size := zlen bytes in
      if (size =? 0) || (XAIOS_UPDATE_CHUNK_MAX <? size) then refuse u XAIOS_ERR_INVALID else
      if (0 <? bytes_expected (g_delivery u)) &&
         (bytes_expected (g_delivery u) <? u64 (bytes_received (g_delivery u) + size))
      then refuse u XAIOS_ERR_INVALID else
      let u1 := if g_chunk_staging_active u =? 0 then with_hash u Sha256.xaios_sha256_init 1 else u in
      let '(s2, fd) := mutable_fs_open (store u1) XAIOS_UPDATE_STAGING_PATH OPEN_FLAGS in
      if fd <? 0 then refuse (with_store u1 s2) XAIOS_ERR_IO else
      let '(s3, written) := mutable_fs_write_fd s2 (u32 fd) bytes in
      let '(s4, _) := mutable_fs_close s3 (u32 fd) in
      let u4 := with_store u1 s4 in
      if (written <? 0) || negb (u32 written =? size) then refuse u4 XAIOS_ERR_IO else
      let u5 := with_hash u4 (Sha256.xaios_sha256_update (g_chunk_hash_ctx u4) (Some bytes))
                  (g_chunk_staging_active u4) in
      let d := g_delivery u5 in
      (with_delivery u5 (mk_delivery (u64 (bytes_received d + size)) (bytes_expected d)
         (u32 (chunks_written d + 1)) (hash_verified d) (last_error d)), XAIOS_OK)
  end.

Definition set_verified (d : xaios_update_delivery_status) (v : Z) (e : xaios_status)
    : xaios_update_delivery_status :=
  mk_delivery (bytes_received d) (bytes_expected d) (chunks_written d) v e.

(** [expected] are the 32 bytes the pointer refers to; [None] is a padding loop that does
    not end. *)
Definition update_verify_hash (u : runtime S) (expected : option (list Z))
    : option (runtime S * xaios_status) :=
  match expected with
  | None => Some (refuse u XAIOS_ERR_INVALID)
  | Some h =>
      if (active (g_update u) =? 0) || (g_chunk_staging_active u =? 0)
      then Some (refuse u XAIOS_ERR_INVALID) else
      '(ctx, computed) ← Sha256.xaios_sha256_final (g_chunk_hash_ctx u);
      let u1 := with_hash u ctx 0 in
      let d := g_delivery u1 in
      if negb (bool_decide (computed = take 32 h)) then
        let u2 := set_state (with_delivery u1 (set_verified d 0 XAIOS_ERR_INVALID)) XAIOS_UPDATE_FAILED in
        let '(u3, _) := persist_update_state u2 in
        Some (reject u3 XAIOS_ERR_INVALID)
      else
        let u2 := set_state (with_delivery u1 (set_verified d 1 (last_error d))) XAIOS_UPDATE_STAGED in
        let '(u3, failed) := persist_and_commit u2 "update-stage-verified" in
        if failed then Some (refuse u3 XAIOS_ERR_IO)
        else Some (count_up stages u3, XAIOS_OK)
  end.

End Operations.

(** ** Manifests *)

Record xaios_update_manifest := mk_manifest {
  m_version : Z;
  m_target : list Z;
  m_payload_size : Z;
  m_payload_hash : list Z;
  m_generation : Z
}.

Definition hex_digit (ch : Z) : Z :=
  if (48 <=? ch) && (ch <=? 57) then ch - 48 else
  if (97 <=? ch) && (ch <=? 102) then 10 + (ch - 97) else
  if (65 <=? ch) && (ch <=? 70) then 10 + (ch - 65) else -1.

Fixpoint skip_space (rest : list Z) : list Z :=
  match rest with
  | c :: r => if (c =? 10) || (c =? 13) || (c =? 32) then skip_space r else rest
  | [] => []
  end.

(** The key before the next '=' and what follows it; [None] when there is none. *)
Fixpoint split_key (rest : list Z) : option (list Z * list Z) :=
  match rest with
  | [] => None
  | c :: r => if c =? 61 then Some ([], r) else '(k, v) ← split_key r; Some (c :: k, v)
  end.

(** The value up to the end of the line, and the rest from the line end on. *)
Fixpoint split_value (rest : list Z) : list Z * list Z :=
  match rest with
  | [] => ([], [])
  | c :: r => if (c =? 10) || (c =? 13) then ([], rest) else let '(v, t) := split_value r in (c :: v, t)
  end.

(** The digit loops, at the width of the variable they fill. *)
Definition parse_number (width : Z -> Z) (val : list Z) : Z :=
  foldl (fun v c => if (48 <=? c) && (c <=? 57) then width (v * 10 + (c - 48)) else v) 0 val.

(** The loop over the 32 bytes of the hash from byte [i] on; [None] is the error return. *)
Fixpoint parse_hash (n : nat) (val : list Z) : option (list Z) :=
  match n with
  | O => Some []
  | S n' =>
      let hi := hex_digit (val.[0]) in
      let lo := hex_digit (val.[1]) in
      if (hi <? 0) || (lo <? 0) then None else
      l ← parse_hash n' (drop 2 val); Some (u8 (Z.lor (Z.shiftl hi 4) lo) :: l)
  end.

Definition key_is (key : list Z) (len : Z) (start : list Z) : bool :=
  (zlen key =? len) && bool_decide (take (List.length start) key = start).

(** One line: [None] is the error return. *)
Definition parse_field (key val : list Z) (m : xaios_update_manifest) (seen : Z)
    : option (xaios_update_manifest * Z) :=
  if key_is key 7 [118; 101; 114] then
    Some (mk_manifest (parse_number u32 val) (m_target m) (m_payload_size m) (m_payload_hash m)
            (m_generation m), Z.lor seen 1)
  else if key_is key 6 [116; 97] then
    let copy_len := if zlen val <? UPDATE_TARGET_MAX - 1 then zlen val else UPDATE_TARGET_MAX - 1 in
    Some (mk_manifest (m_version m) (take (Z.to_nat copy_len) val) (m_payload_size m)
            (m_payload_hash m) (m_generation m), Z.lor seen 2)
  else if key_is key 4 [115; 105] then
    Some (mk_manifest (m_version m) (m_target m) (parse_number u64 val) (m_payload_hash m)
            (m_generation m), Z.lor seen 4)
  else if key_is key 4 [104; 97] then
    if 64 <=? zlen val then
      h ← parse_hash 32 val;
      Some (mk_manifest (m_version m) (m_target m) (m_payload_size m) h (m_generation m), Z.lor seen 8)
    else Some (m, seen)
  else if key_is key 10 [103; 101] then
    Some (mk_manifest (m_version m) (m_target m) (m_payload_size m) (m_payload_hash m)
            (parse_number u32 val), Z.lor seen 16)
  else Some (m, seen).

Inductive parse_result :=
| Parsed (m : xaios_update_manifest) (seen : Z)
| ParseError
| ParseStarved.

(** The loop over the lines. *)
Fixpoint parse_lines (fuel : nat) (rest : list Z) (m : xaios_update_manifest) (seen : Z) : parse_result :=
  match rest with
  | [] => Parsed m seen
  | _ =>
      match fuel with
      | O => ParseStarved
      | S fuel' =>
          match split_key (skip_space rest) with
          | None => Parsed m seen
          | Some (key, r) =>
              let '(val, r2) := split_value r in
              match parse_field key val m seen with
              | None => ParseError
              | Some (m', seen') => parse_lines fuel' r2 m' seen'
              end
          end
      end
  end.

Definition zero_manifest : xaios_update_manifest := mk_manifest 0 [] 0 (replicate 32 0) 0.

(** The result is the status and, on success, the manifest written to [out]. *)
Definition update_parse_manifest {S} (u : runtime S) (data : option (list Z))
    : runtime S * xaios_status * option xaios_update_manifest :=
  match data with
  | None | Some [] => (u, XAIOS_ERR_INVALID, None)
  | Some text =>
      match parse_lines (List.length text) text zero_manifest 0 with
      | Parsed m seen =>
          if negb (Z.land seen 31 =? 31) then (u, XAIOS_ERR_INVALID, None) else
          let d := g_delivery u in
          (with_delivery u (mk_delivery (bytes_received d) (m_payload_size m) (chunks_written d)
             (hash_verified d) (last_error d)), XAIOS_OK, Some m)
      | _ => (u, XAIOS_ERR_INVALID, None)
      end
  end.

(** ** Calls *)

Inductive op :=
| UInit
| UBegin (gen : Z) (t signature : option string)
| UStage
| UCommit
| UFail
| URecover
| URollback
| UChunk (data : option (list Z))
| UVerify (expected : option (list Z))
| UParse (data : option (list Z)).

Definition step {S} `{!UpdateStore S} (u : runtime S) (o : op) : option (runtime S * xaios_status) :=
  match o with
  | UInit => Some (update_runtime_init u, XAIOS_OK)
  | UBegin gen t sig => Some (update_begin u gen t sig)
  | UStage => Some (update_stage u)
  | UCommit => Some (update_commit u)
  | UFail => Some (update_fail u)
  | URecover => Some (update_recover_boot u)
  | URollback => Some (update_rollback u)
  | UChunk data => Some (update_stage_chunk u data)
  | UVerify h => update_verify_hash u h
  | UParse data => Some (update_parse_manifest u data).1
  end.

(** The bytes staged since hashing began. *)
Definition staged_after {S} (u : runtime S) (o : op) (st : xaios_status) (g : list Z) : list Z :=
  match o with
  | UChunk data =>
      let g0 := if g_chunk_staging_active u =? 0 then [] else g in
      if is_ok st then g0 ++ default [] data else g0
  | _ => g
  end.

Fixpoint run {S} `{!UpdateStore S} (u : runtime S) (g : list Z) (ops : list op) : option (runtime S * list Z) :=
  match ops with
  | [] => Some (u, g)
  | o :: ops' => '(u1, st) ← step u o; run u1 (staged_after u o st g) ops'
  end.

(** Whether a transaction is active, and its state. *)
Definition phase {S} (u : runtime S) : bool * xaios_update_state :=
  (negb (active (g_update u) =? 0), state (g_update u)).

Definition done_or_io (st : xaios_status) : Prop := st = XAIOS_OK \/ st = XAIOS_ERR_IO.

(** The state a call of the life cycle is made for. *)
Definition wanted (o : op) : option xaios_update_state :=
  match o with
  | UStage | UChunk _ => Some XAIOS_UPDATE_PENDING
  | UCommit | UFail => Some XAIOS_UPDATE_STAGED
  | URecover => Some XAIOS_UPDATE_FAILED
  | URollback => Some XAIOS_UPDATE_COMMITTED
  | _ => None
  end.

(** What a call may do to the transaction, with the status it returns. *)
Inductive edge : op -> xaios_status -> bool * xaios_update_state -> bool * xaios_update_state -> Prop :=
| edge_init p : edge UInit XAIOS_OK p (false, XAIOS_UPDATE_IDLE)
| edge_begin g t s x : edge (UBegin g t s) XAIOS_OK (false, x) (true, XAIOS_UPDATE_PENDING)
| edge_begin_undone g t s x : edge (UBegin g t s) XAIOS_ERR_IO (false, x) (false, XAIOS_UPDATE_IDLE)
| edge_stage st : done_or_io st -> edge UStage st (true, XAIOS_UPDATE_PENDING) (true, XAIOS_UPDATE_STAGED)
| edge_commit st : done_or_io st -> edge UCommit st (true, XAIOS_UPDATE_STAGED) (true, XAIOS_UPDATE_COMMITTED)
| edge_fail st : done_or_io st -> edge UFail st (true, XAIOS_UPDATE_STAGED) (true, XAIOS_UPDATE_FAILED)
| edge_recover : edge URecover XAIOS_OK (true, XAIOS_UPDATE_FAILED) (false, XAIOS_UPDATE_RECOVERED)
| edge_recover_io : edge URecover XAIOS_ERR_IO (true, XAIOS_UPDATE_FAILED) (true, XAIOS_UPDATE_RECOVERED)
| edge_rollback : edge URollback XAIOS_OK (true, XAIOS_UPDATE_COMMITTED) (false, XAIOS_UPDATE_ROLLED_BACK)
| edge_rollback_io :
    edge URollback XAIOS_ERR_IO (true, XAIOS_UPDATE_COMMITTED) (true, XAIOS_UPDATE_ROLLED_BACK)
| edge_chunk d : edge (UChunk d) XAIOS_OK (true, XAIOS_UPDATE_PENDING) (true, XAIOS_UPDATE_PENDING)
| edge_match h st x : done_or_io st -> edge (UVerify h) st (true, x) (true, XAIOS_UPDATE_STAGED)
| edge_mismatch h x : edge (UVerify h) XAIOS_ERR_INVALID (true, x) (true, XAIOS_UPDATE_FAILED)
| edge_parse d p : edge (UParse d) XAIOS_OK p p
| edge_wrong_state o s p : wanted o = Some s -> p <> (true, s) -> edge o XAIOS_ERR_INVALID p p
| edge_begin_refused g t s p : edge (UBegin g t s) XAIOS_ERR_INVALID p p
| edge_recover_undone : edge URecover XAIOS_ERR_IO (true, XAIOS_UPDATE_FAILED) (true, XAIOS_UPDATE_FAILED)
| edge_rollback_denied : edge URollback XAIOS_ERR_INVALID (true, XAIOS_UPDATE_COMMITTED) (true, XAIOS_UPDATE_COMMITTED)
| edge_rollback_undone : edge URollback XAIOS_ERR_IO (true, XAIOS_UPDATE_COMMITTED) (true, XAIOS_UPDATE_COMMITTED)
| edge_chunk_refused d : edge (UChunk d) XAIOS_ERR_INVALID (true, XAIOS_UPDATE_PENDING) (true, XAIOS_UPDATE_PENDING)
| edge_chunk_io d : edge (UChunk d) XAIOS_ERR_IO (true, XAIOS_UPDATE_PENDING) (true, XAIOS_UPDATE_PENDING)
| edge_verify_refused h p : edge (UVerify h) XAIOS_ERR_INVALID p p
| edge_parse_refused d p : edge (UParse d) XAIOS_ERR_INVALID p p.

(** ** Lemmas *)

Section Lemmas.
Context {S : Type} `{!UpdateStore S}.
Implicit Types u : runtime S.

(** Everything but the counters and the storage. *)
Definition core (u : runtime S) :=
  (g_update u, g_delivery u, g_chunk_hash_ctx u, g_chunk_staging_active u, policy u).

Lemma persist_core u : core (persist_update_state u).1 = core u /\
  done_or_io (persist_update_state u).2.
Proof.
  unfold persist_update_state. destruct (mutable_fs_record_update_transaction _ _ _ _ _) as [s st].
  destruct (is_ok st); (split; [done|]); [by left|by right].
Qed.

Lemma persist_and_commit_core u label : core (persist_and_commit u label).1 = core u.
Proof.
  unfold persist_and_commit. destruct (persist_core u) as [H _].
  destruct (persist_update_state u) as [u1 st1]. cbn [fst] in H. destruct (is_ok st1); cbn [negb]; [|done].
  by destruct (mutable_fs_commit _ _) as [s st2].
Qed.

Lemma roll_storage_back_core u : core (roll_storage_back u).1 = core u.
Proof.
  unfold roll_storage_back. destruct (persistence_rollback _ _ _) as [s1 st1].
  destruct (is_ok st1); cbn [negb]; [|done]. by destruct (mutable_fs_rollback _) as [s2 st2].
Qed.

Lemma core_phase u u' : core u = core u' -> phase u = phase u'.
Proof. intros [= H _ _ _ _]. unfold phase. by rewrite H. Qed.

Lemma in_state_phase u s : in_state u s = true -> phase u = (true, s).
Proof. unfold in_state, phase. intros [H1 H2]%andb_true_iff. apply bool_decide_eq_true in H2. by rewrite H1, H2. Qed.

(** The three calls that only record a new state. *)
Lemma record_state_spec u from to label c :
  let r := if negb (in_state u from) then reject u XAIOS_ERR_INVALID else
           let '(u1, failed) := persist_and_commit (set_state u to) label in
           if failed then reject u1 XAIOS_ERR_IO else (count_up c u1, XAIOS_OK) in
  (in_state u from = false /\ core r.1 = core u /\ r.2 = XAIOS_ERR_INVALID) \/
  (in_state u from = true /\ core r.1 = core (set_state u to) /\ done_or_io r.2).
Proof.
  cbv zeta. destruct (in_state u from); cbn [negb]; [right|by left].
  pose proof (persist_and_commit_core (set_state u to) label) as H.
  destruct (persist_and_commit _ _) as [u1 failed]. cbn [fst] in H. rewrite <- H. split; [done|].
  destruct failed; (split; [done|]); [by right|by left].
Qed.

Lemma set_state_phase u s s' : phase u = (true, s) -> phase (set_state u s') = (true, s').
Proof. unfold phase. simpl. by intros [= -> _]. Qed.

(** The hash context of an active staging holds the bytes staged. *)
Definition staged_ok (u : runtime S) (g : list Z) : Prop :=
  g_chunk_staging_active u <> 0 -> Sha256.represents (g_chunk_hash_ctx u) g.

Definition last_gen (u : runtime S) : Z := Security.last_update_generation (policy u).

(** What every call guarantees, [u'] and [st] being its result. *)
Definition call_ok (u : runtime S) (o : op) (g : list Z) (u' : runtime S) (st : xaios_status) : Prop :=
  edge o st (phase u) (phase u') /\ staged_ok u' (staged_after u o st g) /\ last_gen u <= last_gen u'.

(** A call that keeps the hash context and the policy. *)
Lemma call_ok_frame u u' o g st :
  staged_ok u g -> edge o st (phase u) (phase u') -> staged_after u o st g = g ->
  g_chunk_hash_ctx u' = g_chunk_hash_ctx u -> g_chunk_staging_active u' = g_chunk_staging_active u ->
  policy u' = policy u -> call_ok u o g u' st.
Proof.
  intros Hg He Hs Hc Ha Hp. split; [done|]. split; [unfold staged_ok; by rewrite Hs, Hc, Ha|].
  unfold last_gen. by rewrite Hp.
Qed.

Lemma core_frame u u' o g st :
  staged_ok u g -> core u' = core u -> edge o st (phase u) (phase u) -> staged_after u o st g = g -> call_ok u o g u' st.
Proof.
  intros Hg Hc He Hs. pose proof Hc as [= H1 H2 H3 H4 H5]. apply call_ok_frame; try done.
  by rewrite (core_phase u' u Hc).
Qed.

Lemma in_state_other u s : in_state u s = false -> phase u <> (true, s).
Proof. unfold in_state, phase. intros [H|H]%andb_false_iff [= E1 E2]; [congruence|]. by rewrite bool_decide_true in H. Qed.

(** A call in another state than the one it is made for. *)
Lemma wrong_state_ok u u' o g s :
  staged_ok u g -> wanted o = Some s -> in_state u s = false -> core u' = core u -> staged_after u o XAIOS_ERR_INVALID g = g ->
  call_ok u o g u' XAIOS_ERR_INVALID.
Proof. intros. apply core_frame; try done. eapply edge_wrong_state; [done|by apply in_state_other]. Qed.

Lemma begin_ok u gen t sig g :
  staged_ok u g ->
  let '(u', st) := update_begin u gen t sig in
  call_ok u (UBegin gen t sig) g u' st /\
  (st = XAIOS_OK -> exists x, Security.acceptable (policy u) sig x /\ last_gen u' = x).
Proof.
  intros Hg. unfold update_begin. destruct (negb (active (g_update u) =? 0) || _ || _) eqn:Eg.
  { split; [|done]. apply core_frame; try done. constructor. }
  apply orb_false_iff in Eg as [[Ea _]%orb_false_iff _]. 
  assert (Hph : exists x, phase u = (false, x)) by (unfold phase; rewrite Ea; by eexists). destruct Hph as [x Hph].
  destruct (Security.authorize_cases (policy u) sig (Z.lor Security.XAIOS_CAP_UPDATE Security.XAIOS_CAP_ADMIN))
    as (_ & Hacc & Hrej).
  destruct (Security.security_authorize_update_signature _ _ _) as [p sec]. cbn [fst snd] in *.
  destruct (is_ok sec); cbn [negb].
  2:{ split; [|done]. split; [constructor|]. split; [done|]. unfold last_gen. simpl. by rewrite Hrej. }
  destruct (Hacc eq_refl) as (y & Hy & _ & _ & ->). clear Hacc Hrej.
  assert (Hgen : last_gen u <= y) by (destruct Hy as (? & _ & _ & _ & Hlt); unfold last_gen; lia).
  set (u2 := with_tx _ _). destruct (persistence_snapshot_create _ _ _ _) as [s3 st3].
  destruct (is_ok st3); cbn [negb].
  2:{ split; [|done]. split; [rewrite Hph; constructor|]. by split. }
  pose proof (persist_core (with_store u2 s3)) as [Hc Hst].
  destruct (persist_update_state (with_store u2 s3)) as [u4 st4]. cbn [fst snd] in Hc, Hst.
  injection Hc as H1 H2 H3 H4 H5. unfold call_ok, staged_ok, last_gen, phase.
  destruct Hst as [->| ->]; cbn [is_ok negb]; simpl; rewrite ?H1, ?H3, ?H4, ?H5; simpl.
  - split; [|by exists y]. split; [|by split]. unfold phase in Hph. rewrite Hph. constructor.
  - split; [|done]. split; [|by split]. unfold phase in Hph. rewrite Hph. constructor.
Qed.

(** A state change through [set_state] and storage calls only. *)
Lemma set_state_call u u' o g st s :
  staged_ok u g -> core u' = core (set_state u s) -> staged_after u o st g = g ->
  edge o st (phase u) (phase (set_state u s)) -> call_ok u o g u' st.
Proof.
  intros Hg Hc Hs He. rewrite <- (core_phase u' _ Hc) in He. injection Hc as H1 H2 H3 H4 H5.
  by apply call_ok_frame.
Qed.

Lemma recorded_ok u o g from to label c :
  staged_ok u g -> wanted o = Some from -> (forall st, staged_after u o st g = g) ->
  (forall st, done_or_io st -> edge o st (true, from) (true, to)) ->
  let r := if negb (in_state u from) then reject u XAIOS_ERR_INVALID else
           let '(u1, failed) := persist_and_commit (set_state u to) label in
           if failed then reject u1 XAIOS_ERR_IO else (count_up c u1, XAIOS_OK) in
  call_ok u o g r.1 r.2.
Proof.
  intros Hg Hw Hs He. destruct (record_state_spec u from to label c) as [(Hi & Hc & Hst)|(Hi & Hc & Hst)]; cbv zeta in *.
  - rewrite Hst. by eapply wrong_state_ok.
  - apply in_state_phase in Hi. apply (set_state_call u _ o g _ to Hg Hc (Hs _)).
    rewrite (set_state_phase u from to Hi), Hi. by apply He.
Qed.

Lemma fail_ok u g : staged_ok u g -> let '(u', st) := update_fail u in call_ok u UFail g u' st.
Proof.
  intros Hg. unfold update_fail. destruct (in_state u XAIOS_UPDATE_STAGED) eqn:E; cbn [negb]; [|by eapply wrong_state_ok].
  apply in_state_phase in E. pose proof (persist_core (set_state u XAIOS_UPDATE_FAILED)) as [Hc Hst].
  destruct (persist_update_state _) as [u1 st]. cbn [fst snd] in Hc, Hst.
  assert (He : edge UFail st (phase u) (phase (set_state u XAIOS_UPDATE_FAILED)))
    by (rewrite (set_state_phase _ _ _ E), E; by constructor).
  destruct Hst as [->| ->]; cbn [is_ok negb]; by eapply set_state_call.
Qed.

(** Storage rolled back, the state recorded, and the transaction closed. *)
Lemma close_ok u u0 o g s0 s c :
  staged_ok u g -> phase u = (true, s0) -> (forall st, staged_after u o st g = g) ->
  g_update u0 = g_update u -> g_chunk_hash_ctx u0 = g_chunk_hash_ctx u ->
  g_chunk_staging_active u0 = g_chunk_staging_active u -> last_gen u <= last_gen u0 ->
  edge o XAIOS_OK (true, s0) (false, s) -> edge o XAIOS_ERR_IO (true, s0) (true, s) -> edge o XAIOS_ERR_IO (true, s0) (true, s0) ->
  (forall v : runtime S, core (c v) = core v) ->
  let r := let '(u1, failed) := roll_storage_back u0 in
           if failed then reject u1 XAIOS_ERR_IO else
           let '(u2, st) := persist_update_state (set_state u1 s) in
           if negb (is_ok st) then reject u2 XAIOS_ERR_IO else (set_inactive (c u2), XAIOS_OK) in
  call_ok u o g r.1 r.2.
Proof.
  intros Hg Hph Hs Htx Hctx Hsa Hgen E1 E2 E3 Hcc. cbv zeta. pose proof (roll_storage_back_core u0) as Hr.
  destruct (roll_storage_back u0) as [u1 failed]. cbn [fst] in Hr. injection Hr as R1 R2 R3 R4 R5.
  assert (Hpu : phase u1 = phase u) by (unfold phase; by rewrite R1, Htx).
  unfold call_ok, staged_ok. rewrite !Hs. destruct failed.
  { cbn [fst snd reject]. change (phase (count_up rejects u1)) with (phase u1). rewrite Hpu, Hph.
    split; [done|]. simpl. rewrite R3, R4, Hctx, Hsa. split; [done|]. unfold last_gen in *. simpl. by rewrite R5. }
  pose proof (persist_core (set_state u1 s)) as [Hc Hst].
  destruct (persist_update_state _) as [u2 st]. cbn [fst snd] in Hc, Hst.
  pose proof (core_phase _ _ Hc) as Hp2. rewrite (set_state_phase u1 s0 s) in Hp2 by congruence.
  injection Hc as C1 C2 C3 C4 C5. rewrite Hph.
  destruct Hst as [->| ->]; cbn [is_ok negb fst snd reject].
  - pose proof (Hcc u2) as Hc2. pose proof (core_phase _ _ Hc2) as Hp3. injection Hc2 as D1 D2 D3 D4 D5.
    assert (Hp4 : phase (set_inactive (c u2)) = (false, s)).
    { rewrite Hp2 in Hp3. unfold phase in *. simpl. by injection Hp3 as _ ->. }
    rewrite Hp4. split; [done|]. simpl. rewrite D3, D4, C3, C4, R3, R4, Hctx, Hsa. split; [done|].
    unfold last_gen in *. simpl. by rewrite D5, C5, R5.
  - change (phase (count_up rejects u2)) with (phase u2). rewrite Hp2. split; [done|]. simpl.
    rewrite C3, C4, R3, R4, Hctx, Hsa. split; [done|]. unfold last_gen in *. simpl. by rewrite C5, R5.
Qed.

Lemma recover_ok u g : staged_ok u g -> call_ok u URecover g (update_recover_boot u).1 (update_recover_boot u).2.
Proof.
  intros Hg. unfold update_recover_boot. destruct (in_state u XAIOS_UPDATE_FAILED) eqn:E; cbn [negb]; [|by eapply wrong_state_ok].
  apply in_state_phase in E. eapply (close_ok u u URecover g _ _ (fun v => count_up boot_fallbacks (count_up recoveries v)));
    try done; constructor.
Qed.

Lemma update_rollback_ok u g : staged_ok u g -> call_ok u URollback g (update_rollback u).1 (update_rollback u).2.
Proof.
  intros Hg. unfold update_rollback. destruct (in_state u XAIOS_UPDATE_COMMITTED) eqn:E; cbn [negb]; [|by eapply wrong_state_ok].
  apply in_state_phase in E.
  assert (Hp : Security.last_update_generation
    (Security.security_authorize_rollback (policy u) (Some (target (g_update u))) 1).1 =
    Security.last_update_generation (policy u)) by (by apply Security.screened_generation).
  destruct (Security.security_authorize_rollback _ _ _) as [p sec]. cbn [fst] in Hp.
  destruct (is_ok sec); cbn [negb].
  - eapply (close_ok u (with_policy u p) URollback g _ _ (count_up rollbacks)); try done; try constructor.
    unfold last_gen. simpl. by rewrite Hp.
  - split; [change (edge URollback XAIOS_ERR_INVALID (phase u) (phase u)); rewrite E; constructor|]. split; [done|]. unfold last_gen. simpl. by rewrite Hp.
Qed.

Lemma chunk_ok u data g : staged_ok u g -> call_ok u (UChunk data) g (update_stage_chunk u data).1 (update_stage_chunk u data).2.
Proof.
  intros Hg. unfold update_stage_chunk.
  assert (Hearly : edge (UChunk data) XAIOS_ERR_INVALID (phase u) (phase u) ->
    call_ok u (UChunk data) g (refuse u XAIOS_ERR_INVALID).1 (refuse u XAIOS_ERR_INVALID).2).
  { intros He. split; [exact He|]. split; [|done]. unfold staged_ok. simpl.
    destruct (Z.eqb_spec (g_chunk_staging_active u) 0); [done|]. by intros ?%Hg. }
  destruct (in_state u XAIOS_UPDATE_PENDING) eqn:E; cbn [negb].
  2:{ apply Hearly. eapply edge_wrong_state; [done|by apply in_state_other]. }
  apply in_state_phase in E. specialize (Hearly ltac:(rewrite E; constructor)). destruct data as [bytes|]; [|exact Hearly]. case_if; [exact Hearly|].
  case_if; [exact Hearly|]. clear Heqb Heqb0.
  set (u1 := if g_chunk_staging_active u =? 0 then _ else _).
  set (g0 := if g_chunk_staging_active u =? 0 then [] else g).
  assert (H1 : phase u1 = phase u /\ policy u1 = policy u /\ Sha256.represents (g_chunk_hash_ctx u1) g0).
  { unfold u1, g0. destruct (Z.eqb_spec (g_chunk_staging_active u) 0) as [|Hne]; (split; [done|]; split; [done|]).
    - apply Sha256.init_represents.
    - by apply Hg. }
  destruct H1 as (Hp & Hpol & Hrep).
  assert (Hio : forall s, call_ok u (UChunk (Some bytes)) g (refuse (with_store u1 s) XAIOS_ERR_IO).1
    (refuse (with_store u1 s) XAIOS_ERR_IO).2).
  { intros s. split; [|split].
    - change (phase _) with (phase u1) at 2. rewrite Hp, E. constructor.
    - intros _. exact Hrep.
    - unfold last_gen. simpl. by rewrite Hpol. }
  destruct (mutable_fs_open _ _ _) as [s2 fd]. destruct (fd <? 0); [apply Hio|].
  destruct (mutable_fs_write_fd _ _ _) as [s3 written]. destruct (mutable_fs_close _ _) as [s4 cst].
  destruct ((written <? 0) || _); [apply Hio|]. split; [|split].
  - change (phase _) with (phase u1) at 2. rewrite Hp, E. constructor.
  - intros _. simpl. fold g0. by apply Sha256.update_represents.
  - unfold last_gen. simpl. by rewrite Hpol.
Qed.

(** The two outcomes of the verification. *)
Lemma verify_spec u h g :
  staged_ok u g ->
  exists u' st, update_verify_hash u h = Some (u', st) /\ call_ok u (UVerify h) g u' st /\
  match h with
  | Some x =>
      if (active (g_update u) =? 0) || (g_chunk_staging_active u =? 0)
      then st = XAIOS_ERR_INVALID /\ g_update u' = g_update u
      else if bool_decide (Sha256.xaios_sha256 (Some g) = Some (take 32 x))
      then done_or_io st /\ state (g_update u') = XAIOS_UPDATE_STAGED /\ hash_verified (g_delivery u') = 1
      else st = XAIOS_ERR_INVALID /\ state (g_update u') = XAIOS_UPDATE_FAILED /\ hash_verified (g_delivery u') = 0
  | None => st = XAIOS_ERR_INVALID
  end.
Proof.
  intros Hg. unfold update_verify_hash.
  assert (Hearly : call_ok u (UVerify h) g (refuse u XAIOS_ERR_INVALID).1 XAIOS_ERR_INVALID).
  { split; [constructor|]. by split. }
  destruct h as [x|]; [|by eexists _, _]. destruct (_ || _) eqn:Eg; [by eexists _, _|].
  apply orb_false_iff in Eg as [Ea Es%Z.eqb_neq].
  assert (Hph : exists s, phase u = (true, s)) by (unfold phase; rewrite Ea; by eexists). destruct Hph as [s0 Hph].
  destruct (Sha256.final_spec _ _ (Hg Es)) as (ctx & -> & _). cbn [mbind option_bind]. rewrite Sha256.one_shot.
  set (dg := Sha256.digest_blocks _). rewrite (bool_decide_ext (Some dg = Some (take 32 x)) (dg = take 32 x)) by (split; congruence).
  destruct (bool_decide (dg = take 32 x)); cbn [negb].
  - set (u2 := set_state _ XAIOS_UPDATE_STAGED). pose proof (persist_and_commit_core u2 "update-stage-verified") as Hc.
    destruct (persist_and_commit u2 _) as [u3 failed]. cbn [fst] in Hc.
    assert (Hp3 : phase u3 = (true, XAIOS_UPDATE_STAGED)).
    { rewrite (core_phase _ _ Hc). apply (set_state_phase _ s0). done. }
    injection Hc as C1 C2 C3 C4 C5. unfold call_ok, staged_ok, last_gen. rewrite Hph.
    destruct failed; [exists (refuse u3 XAIOS_ERR_IO).1, XAIOS_ERR_IO|exists (count_up stages u3), XAIOS_OK];
      (split; [done|]).
    + change (phase (refuse u3 XAIOS_ERR_IO).1) with (phase u3). rewrite Hp3. simpl. rewrite C1, C2, C4, C5. simpl.
      split; [|split; [by right|done]]. split; [by constructor; right|]. split; [done|done].
    + change (phase (count_up stages u3)) with (phase u3). rewrite Hp3. simpl. rewrite C1, C2, C4, C5. simpl.
      split; [|split; [by left|done]]. split; [by constructor; left|]. split; [done|done].
  - set (u2 := set_state _ XAIOS_UPDATE_FAILED). pose proof (persist_core u2) as [Hc _].
    destruct (persist_update_state u2) as [u3 st3]. cbn [fst] in Hc.
    assert (Hp3 : phase u3 = (true, XAIOS_UPDATE_FAILED)).
    { rewrite (core_phase _ _ Hc). apply (set_state_phase _ s0). done. }
    injection Hc as C1 C2 C3 C4 C5. exists (count_up rejects u3), XAIOS_ERR_INVALID. split; [done|]. unfold call_ok, staged_ok, last_gen.
    rewrite Hph. change (phase (count_up rejects u3)) with (phase u3). rewrite Hp3. simpl. rewrite C1, C2, C4, C5.
    split; [|done]. split; [constructor|]. split; [done|done].
Qed.

Lemma parse_ok u data g : staged_ok u g -> call_ok u (UParse data) g (update_parse_manifest u data).1.1 (update_parse_manifest u data).1.2.
Proof.
  intros Hg. unfold update_parse_manifest. assert (Hr : call_ok u (UParse data) g u XAIOS_ERR_INVALID) by (apply core_frame; try done; constructor).
  destruct data as [[|c text]|]; [done| |done]. destruct (parse_lines _ _ _ _) as [m seen| |]; [|done|done].
  destruct (negb _); [done|]. split; [constructor|]. split; [exact Hg|reflexivity].
Qed.

Lemma step_ok u o g :
  staged_ok u g -> exists u' st, step u o = Some (u', st) /\ call_ok u o g u' st.
Proof.
  intros Hg. destruct o; cbn [step].
  - eexists _, _. split; [done|]. unfold update_runtime_init. destruct (mutable_fs_mkdir _ _) as [s st].
    split; [constructor|]. split; [by unfold staged_ok; simpl|reflexivity].
  - pose proof (begin_ok u gen t signature g Hg) as H. destruct (update_begin u gen t signature) as [u' st].
    exists u', st. split; [done|]. by destruct H.
  - eexists _, _. split; [by rewrite <- surjective_pairing|]. by apply recorded_ok; [done|done|done|intros; constructor].
  - eexists _, _. split; [by rewrite <- surjective_pairing|]. by apply recorded_ok; [done|done|done|intros; constructor].
  - pose proof (fail_ok u g Hg) as H. destruct (update_fail u) as [u' st]. by exists u', st.
  - eexists _, _. split; [by rewrite <- surjective_pairing|]. by apply recover_ok.
  - eexists _, _. split; [by rewrite <- surjective_pairing|]. by apply update_rollback_ok.
  - eexists _, _. split; [by rewrite <- surjective_pairing|]. by apply chunk_ok.
  - destruct (verify_spec u expected g Hg) as (u' & st & H1 & H2 & _). by exists u', st.
  - eexists _, _. split; [by rewrite <- surjective_pairing|]. by apply parse_ok.
Qed.

Lemma run_ok ops u g :
  staged_ok u g ->
  exists u' g', run u g ops = Some (u', g') /\ staged_ok u' g' /\ last_gen u <= last_gen u'.
Proof.
  revert u g. induction ops as [|o ops IH]; intros u g Hg; [by exists u, g|].
  destruct (step_ok u o g Hg) as (u1 & st & He & _ & Hg1 & Hl1). cbn [run]. rewrite He. cbn [mbind option_bind].
  destruct (IH u1 _ Hg1) as (u' & g' & Hr & Hg' & Hl'). exists u', g'. split; [done|]. split; [done|]. lia.
Qed.

Lemma init_staged u : staged_ok (update_runtime_init u) [].
Proof. unfold update_runtime_init, staged_ok. by destruct (mutable_fs_mkdir _ _) as [s st]. Qed.

End Lemmas.

(** ** Manifest lemmas *)

(** Decimal digits of a number, with fuel for the number of digits. *)
Fixpoint decimal (fuel : nat) (n : Z) : list Z :=
  match fuel with
  | O => []
  | S fuel' => if n <? 10 then [48 + n] else (decimal fuel' (n / 10) ++ [48 + n mod 10])%list
  end.

Definition hex_char (d : Z) : Z := if d <? 10 then 48 + d else 87 + d.

Definition hex_string (h : list Z) : list Z := flat_map (fun b => [hex_char (b / 16); hex_char (b mod 16)]) h.

Definition codes (s : string) : list Z := Security.code <$> list_ascii_of_string s.

(** One line of a manifest file. *)
Definition line (key : string) (val : list Z) : list Z := (codes key ++ [61] ++ val ++ [10])%list.

Definition print_manifest (m : xaios_update_manifest) : list Z :=
  (line "version" (decimal 20 (m_version m)) ++ line "target" (m_target m) ++
   line "size" (decimal 20 (m_payload_size m)) ++ line "hash" (hex_string (m_payload_hash m)) ++
   line "generation" (decimal 20 (m_generation m)))%list.

Definition line_end (c : Z) : bool := (c =? 10) || (c =? 13).

Definition manifest_ok (m : xaios_update_manifest) : Prop :=
  0 <= m_version m < 4294967296 /\ 0 <= m_generation m < 4294967296 /\
  0 <= m_payload_size m < 18446744073709551616 /\
  zlen (m_target m) < UPDATE_TARGET_MAX /\ Forall (fun c => line_end c = false) (m_target m) /\
  List.length (m_payload_hash m) = 32%nat /\ Forall (fun b => 0 <= b < 256) (m_payload_hash m).

Lemma parse_decimal width fuel n b :
  0 <= n < 10 ^ Z.of_nat fuel -> n < b -> (forall x, 0 <= x < b -> width x = x) ->
  parse_number width (decimal fuel n) = n.
Proof.
  intros Hn Hb Hw. unfold parse_number. revert n Hn Hb. induction fuel as [|fuel IH]; intros n Hn Hb.
  { change (10 ^ Z.of_nat 0) with 1 in Hn. simpl. lia. }
  cbn [decimal]. rewrite Nat2Z.inj_succ, Z.pow_succ_r in Hn by lia.
  destruct (Z.ltb_spec n 10) as [Hlt|Hge].
  - cbn [foldl]. rewrite (proj2 (Z.leb_le 48 (48 + n))), (proj2 (Z.leb_le (48 + n) 57)) by lia. cbn [andb].
    rewrite Hw; lia.
  - pose proof (Z.mod_pos_bound n 10 ltac:(lia)). pose proof (Z.div_mod n 10 ltac:(lia)).
    rewrite foldl_app, IH by lia. cbn [foldl].
    rewrite (proj2 (Z.leb_le 48 _)), (proj2 (Z.leb_le _ 57)) by lia. cbn [andb]. rewrite Hw; lia.
Qed.

Lemma decimal_chars fuel n : 0 <= n -> Forall (fun c => line_end c = false) (decimal fuel n).
Proof.
  revert n. induction fuel as [|fuel IH]; intros n Hn; [constructor|]. cbn [decimal].
  destruct (Z.ltb_spec n 10).
  - constructor; [unfold line_end; lia|constructor].
  - apply Forall_app. split; [apply IH; dlia|]. constructor; [|constructor].
    pose proof (Z.mod_pos_bound n 10 ltac:(lia)). unfold line_end. lia.
Qed.

Lemma hex_digit_char d : 0 <= d < 16 -> hex_digit (hex_char d) = d.
Proof.
  intros Hd. apply Z.eqb_eq. apply (forallb_below (fun d => hex_digit (hex_char d) =? d) 16); [|done].
  vm_compute. reflexivity.
Qed.

Lemma byte_of_nibbles b : 0 <= b < 256 -> u8 (Z.lor (Z.shiftl (b / 16) 4) (b mod 16)) = b.
Proof.
  intros Hb. apply Z.eqb_eq.
  apply (forallb_below (fun b => u8 (Z.lor (Z.shiftl (b / 16) 4) (b mod 16)) =? b) 256); [|done].
  vm_compute. reflexivity.
Qed.

Lemma parse_hex h : Forall (fun b => 0 <= b < 256) h -> parse_hash (List.length h) (hex_string h) = Some h.
Proof.
  induction 1 as [|b h Hb _ IH]; [done|]. cbn [List.length parse_hash hex_string flat_map app].
  change ((hex_char (b / 16) :: ?l).[0]) with (hex_char (b / 16)).
  change ((_ :: hex_char (b mod 16) :: ?l).[1]) with (hex_char (b mod 16)).
  rewrite !hex_digit_char by dlia.
  rewrite (proj2 (Z.ltb_ge (b / 16) 0)), (proj2 (Z.ltb_ge (b mod 16) 0)) by dlia. cbn [orb].
  change (drop 2 _) with (hex_string h). rewrite IH. cbn [mbind option_bind]. by rewrite byte_of_nibbles.
Qed.

Lemma hex_string_length h : List.length (hex_string h) = (2 * List.length h)%nat.
Proof. unfold hex_string. induction h as [|b h IH]; [done|]. cbn [flat_map app List.length]. lia. Qed.

Lemma hex_chars h :
  Forall (fun b => 0 <= b < 256) h -> Forall (fun c => line_end c = false) (hex_string h).
Proof.
  assert (Hc : forall d, 0 <= d < 16 -> line_end (hex_char d) = false).
  { intros d Hd. apply negb_true_iff. apply (forallb_below (fun d => negb (line_end (hex_char d))) 16); [|done].
    vm_compute. reflexivity. }
  induction 1 as [|b h Hb _ IH]; [constructor|]. cbn [hex_string flat_map app].
  constructor; [apply Hc; dlia|]. constructor; [apply Hc; dlia|exact IH].
Qed.

Lemma split_key_spec k r : Forall (fun c => (c =? 61) = false) k -> split_key (k ++ 61 :: r) = Some (k, r).
Proof. induction 1 as [|c k Hc _ IH]; [done|]. cbn [app split_key]. by rewrite Hc, IH. Qed.

Lemma split_value_spec v r :
  Forall (fun c => line_end c = false) v -> split_value (v ++ 10 :: r) = (v, 10 :: r).
Proof. induction 1 as [|c v Hc _ IH]; [done|]. cbn [app split_value]. unfold line_end in Hc. by rewrite Hc, IH. Qed.

Definition key_ok (key : list Z) : bool :=
  match key with
  | c :: _ => negb (line_end c) && negb (c =? 32) && forallb (fun c => negb (c =? 61)) key
  | [] => false
  end.

(** One turn of the loop on a line, possibly after the newline of the line before it. *)
Lemma parse_line fuel (newline : bool) key val r m seen :
  key_ok (codes key) = true -> Forall (fun c => line_end c = false) val ->
  parse_lines (S fuel) ((if newline then [10] else []) ++ line key val ++ r) m seen =
    match parse_field (codes key) val m seen with
    | None => ParseError
    | Some (m', seen') => parse_lines fuel (10 :: r) m' seen'
    end.
Proof.
  unfold line. destruct (codes key) as [|c k]; [done|]. intros Hk Hv. unfold key_ok in Hk.
  apply andb_true_iff in Hk as [[Hc H32]%andb_true_iff Hk]. apply negb_true_iff in Hc, H32.
  assert (Hk' : Forall (fun c => (c =? 61) = false) (c :: k)).
  { apply Forall_forall. intros x Hx. rewrite forallb_forall in Hk. apply negb_true_iff, Hk. by apply list_elem_of_In. }
  clear Hk. set (text := ((if newline then [10] else []) ++ _)%list).
  assert (Hsk : skip_space text = ((c :: k) ++ 61 :: val ++ 10 :: r)%list).
  { unfold text, line_end in *. destruct newline; simpl; rewrite Hc, H32; simpl; f_equal;
      rewrite <- app_assoc; f_equal; simpl; by rewrite <- app_assoc. }
  assert (Hne : exists x l, text = x :: l) by (unfold text; destruct newline; by eexists _, _).
  destruct Hne as (x & l & Hne). rewrite Hne in *. cbn [parse_lines].
  rewrite Hsk, split_key_spec by done. by rewrite split_value_spec.
Qed.

Lemma parse_trailing fuel m seen : parse_lines (S fuel) [10] m seen = Parsed m seen.
Proof. done. Qed.

(** The five fields. *)
Lemma parse_fields v t z h g m seen :
  zlen t < UPDATE_TARGET_MAX -> List.length h = 32%nat -> Forall (fun b => 0 <= b < 256) h ->
  parse_field (codes "version") v m seen =
    Some (mk_manifest (parse_number u32 v) (m_target m) (m_payload_size m) (m_payload_hash m) (m_generation m),
          Z.lor seen 1) /\
  parse_field (codes "target") t m seen =
    Some (mk_manifest (m_version m) t (m_payload_size m) (m_payload_hash m) (m_generation m), Z.lor seen 2) /\
  parse_field (codes "size") z m seen =
    Some (mk_manifest (m_version m) (m_target m) (parse_number u64 z) (m_payload_hash m) (m_generation m),
          Z.lor seen 4) /\
  parse_field (codes "hash") (hex_string h) m seen =
    Some (mk_manifest (m_version m) (m_target m) (m_payload_size m) h (m_generation m), Z.lor seen 8) /\
  parse_field (codes "generation") g m seen =
    Some (mk_manifest (m_version m) (m_target m) (m_payload_size m) (m_payload_hash m) (parse_number u32 g),
          Z.lor seen 16).
Proof.
  intros Ht Hl Hb. split; [reflexivity|]. split; [|split; [reflexivity|split; [|reflexivity]]].
  - unfold parse_field. change (key_is (codes "target") 7 _) with false. change (key_is (codes "target") 6 _) with true.
    cbn match. do 3 f_equal. unfold UPDATE_TARGET_MAX in *. apply take_ge. case_if; zlia.
  - unfold parse_field. change (key_is (codes "hash") 7 _) with false. change (key_is (codes "hash") 6 _) with false.
    change (key_is (codes "hash") 4 [115; 105]) with false. change (key_is (codes "hash") 4 [104; 97]) with true.
    cbn match. rewrite (proj2 (Z.leb_le 64 _)) by (unfold zlen; rewrite hex_string_length, Hl; lia).
    pose proof (parse_hex h Hb) as Hp. rewrite Hl in Hp. by rewrite Hp.
Qed.

(** ** Properties *)

(** A store on which every call succeeds. *)
#[global] Instance ok_store : UpdateStore unit := {|
  mutable_fs_mkdir s _ := (s, XAIOS_OK);
  mutable_fs_open s _ _ := (s, 1);
  mutable_fs_write_fd s _ bytes := (s, zlen bytes);
  mutable_fs_close s _ := (s, XAIOS_OK);
  mutable_fs_commit s _ := (s, XAIOS_OK);
  mutable_fs_rollback s := (s, XAIOS_OK);
  mutable_fs_record_update_transaction s _ _ _ _ := (s, XAIOS_OK);
  persistence_snapshot_create s _ _ _ := (s, XAIOS_OK);
  persistence_rollback s _ _ := (s, XAIOS_OK)
|}.

Definition booted : runtime unit :=
  update_runtime_init (mk_runtime zero_tx (fun _ => 0) (mk_delivery 0 0 0 0 XAIOS_OK)
    Sha256.xaios_sha256_init 0 Security.security_policy_init tt).


(** C10: the delivery hash decides.  After any sequence of calls since initialisation,
    verification of a 32-byte hash ends; with a transaction active and staging begun it
    stages the update exactly when the hash is what [xaios_sha256] gives for precisely the
    chunks accepted since staging began, in order, and marks it failed otherwise; without
    one it is refused and the transaction stays as it was. *)
Theorem update_verify_exact {S} `{!UpdateStore S} (u0 : runtime S) (ops : list op) (h : list Z) :
  exists u g u' st,
    run (update_runtime_init u0) [] ops = Some (u, g) /\
    update_verify_hash u (Some h) = Some (u', st) /\
    if (active (g_update u) =? 0) || (g_chunk_staging_active u =? 0)
    then st = XAIOS_ERR_INVALID /\ g_update u' = g_update u
    else if bool_decide (Sha256.xaios_sha256 (Some g) = Some (take 32 h))
    then done_or_io st /\ state (g_update u') = XAIOS_UPDATE_STAGED /\ hash_verified (g_delivery u') = 1
    else st = XAIOS_ERR_INVALID /\ state (g_update u') = XAIOS_UPDATE_FAILED /\ hash_verified (g_delivery u') = 0.
Proof.
  destruct (run_ok ops _ _ (init_staged u0)) as (u & g & Hr & Hg & _).
  destruct (verify_spec u (Some h) g Hg) as (u' & st & He & _ & Hv). by exists u, g, u', st.
Qed.

(** A signature that began one transaction begins no other one: the security policy keeps
    the generation of the last signature, and no call of the update component resets it. *)
Lemma signature_used_once {S} `{!UpdateStore S} (u : runtime S) gen t sig g ops gen' t' :
  staged_ok u g -> (update_begin u gen t sig).2 = XAIOS_OK ->
  exists u2 g2, run (update_begin u gen t sig).1 g ops = Some (u2, g2) /\ (update_begin u2 gen' t' sig).2 <> XAIOS_OK.
Proof.
  intros Hg Hst. pose proof (begin_ok u gen t sig g Hg) as Hb. destruct (update_begin u gen t sig) as [u' st]. simpl in *. subst st.
  destruct Hb as [(_ & Hg' & _) Hb]. destruct (Hb eq_refl) as (x & (txt & Hs & _ & Hfmt & _) & Hx).
  destruct (run_ok ops u' g Hg') as (u2 & g2 & Hr2 & Hg2 & Hl2). exists u2, g2. split; [done|].
  pose proof (begin_ok u2 gen' t' sig g2 Hg2) as Hb2. destruct (update_begin u2 gen' t' sig) as [u3 st3].
  destruct Hb2 as [_ Hb2]. simpl. intros Hok. destruct (Hb2 Hok) as (y & Hy & _).
  pose proof Hy as (txt' & Hs' & Hcl & Hfmt' & Hlt). rewrite Hs in Hs'. injection Hs' as <-.
  assert (y = x); [|unfold last_gen in *; lia].
  apply (Security.acceptable_unique (Security.mk_policy (fun _ => 0) (Z.min x y - 1)) sig);
    exists txt; (split; [done|]; split; [done|]; split; [done|]; simpl; lia).
Qed.

(** Manifests round-trip.  Printing a manifest, with numbers of their width, a target
    that fits and has no line ends and a 32-byte hash, and parsing the text gives back
    exactly that manifest and records its payload size as the size to expect. *)
Theorem manifest_roundtrip {S} (u : runtime S) (m : xaios_update_manifest) :
  manifest_ok m ->
  exists u', update_parse_manifest u (Some (print_manifest m)) = (u', XAIOS_OK, Some m) /\
    bytes_expected (g_delivery u') = m_payload_size m.
Proof.
  intros (Hv & Hg & Hs & Ht & Htc & Hl & Hb). unfold update_parse_manifest.
  assert (Hp : parse_lines (List.length (print_manifest m)) (print_manifest m) zero_manifest 0 = Parsed m 31).
  2:{ destruct (print_manifest m) as [|c l]; [done|]. rewrite Hp. by eexists. }
  assert (Hn : exists k, List.length (print_manifest m) = (6 + k)%nat).
  { exists (List.length (print_manifest m) - 6)%nat. unfold print_manifest, line. rewrite !length_app.
    change (List.length (codes "version")) with 7%nat. lia. }
  destruct Hn as [k ->]. unfold print_manifest. cbn [Nat.add].
  pose proof (fun v z g => parse_fields v (m_target m) z (m_payload_hash m) g) as Hf.
  pose proof (parse_line (5 + k) false "version" (decimal 20 (m_version m))) as H1. cbn [app] in H1.
  rewrite H1 by (done || apply decimal_chars; lia). clear H1.
  destruct (Hf (decimal 20 (m_version m)) [] [] zero_manifest 0 Ht Hl Hb) as (-> & _).
  pose proof (parse_line (4 + k) true "target" (m_target m)) as H1. cbn [app] in H1. rewrite H1 by done. clear H1.
  edestruct (Hf [] [] []) as (_ & -> & _); [done..|].
  pose proof (parse_line (3 + k) true "size" (decimal 20 (m_payload_size m))) as H1. cbn [app] in H1.
  rewrite H1 by (done || apply decimal_chars; lia). clear H1.
  edestruct (Hf [] (decimal 20 (m_payload_size m)) []) as (_ & _ & -> & _); [done..|].
  pose proof (parse_line (2 + k) true "hash" (hex_string (m_payload_hash m))) as H1. cbn [app] in H1.
  rewrite H1 by (done || by apply hex_chars). clear H1.
  edestruct (Hf [] [] []) as (_ & _ & _ & -> & _); [done..|].
  pose proof (parse_line (1 + k) true "generation" (decimal 20 (m_generation m)) []) as H1. cbn [app] in H1.
  rewrite app_nil_r in H1. rewrite H1 by (done || apply decimal_chars; lia). clear H1.
  edestruct (Hf [] [] (decimal 20 (m_generation m))) as (_ & _ & _ & _ & ->); [done..|].
  rewrite parse_trailing. cbn [m_version m_target m_payload_size m_payload_hash m_generation].
  rewrite (parse_decimal u32 20 _ 4294967296), (parse_decimal u64 20 _ 18446744073709551616),
    (parse_decimal u32 20 _ 4294967296) by (apply u32_small || apply u64_small || lia).
  by destruct m.
Qed.

Definition sample_manifest : xaios_update_manifest :=
  mk_manifest 1 (codes "/system/xaios") 1024 Sha256.expected_abc 42.

Lemma manifest_roundtrip_witness :
  exists u', update_parse_manifest booted (Some (print_manifest sample_manifest)) =
    (u', XAIOS_OK, Some sample_manifest) /\ bytes_expected (g_delivery u') = 1024.
Proof.
  apply (manifest_roundtrip booted sample_manifest). unfold manifest_ok, UPDATE_TARGET_MAX. simpl.
  split_and!; try lia; try done; repeat constructor; lia || reflexivity.
Defined.

(** ** Signatures of the boot self-tests *)

Definition HEX64 : string := "ba7816bf8f01cfea414140de5dae2223b00361a396177a9cb410ff61f20015ad".

Definition signature (gen : string) : option string :=
  Some ("xaios-update:v1:gen=" ++ gen ++ ":sha256=" ++ HEX64 ++ ":key=XAIOS-QEMU-DEV-PUBKEY:sig=" ++ HEX64).

Definition xaios_target : option string := Some "/system/xaios".

Definition run_status (ops : list op) (o : op) : option xaios_status :=
  '(u, _) ← run booted [] ops; snd <$> step u o.

Definition run_state (ops : list op) : option (Z * xaios_update_state) :=
  (fun r => (hash_verified (g_delivery r.1), state (g_update r.1))) <$> run booted [] ops.

(** The delivery self-test begins its second transaction with the signature of the first,
    which is rejected as a replay. *)
Lemma delivery_self_test_replays :
  run_status [] (UBegin 10 xaios_target (signature "10")) = Some XAIOS_OK /\
  run_status [UBegin 10 xaios_target (signature "10"); UInit] (UBegin 11 xaios_target (signature "10"))
    = Some XAIOS_ERR_INVALID.
Proof. split; vm_compute; reflexivity. Qed.

(** A transaction is staged and committed without its chunks ever being verified; the hash
    of the chunks can still be checked afterwards and then fails the committed update. *)
Lemma commit_without_verification :
  let ops := [UBegin 2 xaios_target (signature "2"); UChunk (Some [97; 98; 99]); UStage] in
  run_status ops UCommit = Some XAIOS_OK /\
  run_state (ops ++ [UCommit])%list = Some (0, XAIOS_UPDATE_COMMITTED) /\
  run_state (ops ++ [UCommit; UVerify (Some (replicate 32 0))])%list = Some (0, XAIOS_UPDATE_FAILED).
Proof. split; [|split]; vm_compute; reflexivity. Qed.

(** When recording a recovery fails, the transaction stays active in state recovered, and
    from there every call of the life cycle is refused. *)
Lemma recovered_io_stuck {S} `{!UpdateStore S} (u : runtime S) gen t sig :
  phase u = (true, XAIOS_UPDATE_RECOVERED) ->
  (update_begin u gen t sig).2 = XAIOS_ERR_INVALID /\ (update_stage u).2 = XAIOS_ERR_INVALID /\
  (update_commit u).2 = XAIOS_ERR_INVALID /\ (update_fail u).2 = XAIOS_ERR_INVALID /\
  (update_recover_boot u).2 = XAIOS_ERR_INVALID /\ (update_rollback u).2 = XAIOS_ERR_INVALID.
Proof.
  intros [= Ha Hs].
  assert (H : forall s, s <> XAIOS_UPDATE_RECOVERED -> in_state u s = false).
  { intros s Hne. unfold in_state. rewrite Hs, bool_decide_false by congruence. apply andb_false_r. }
  unfold update_begin, update_stage, update_commit, update_fail, update_recover_boot, update_rollback.
  rewrite Ha, !H by done. done.
Qed.

End Update.
