(* ===== verification/Mfs.v ===== *)
(** * Mutable file system (kernel/fs/mutable_fs.c, include/xaios/mutable_fs.h)

    The volume with its nodes and block bitmap, its image on disk, the journal, files and
    directories, snapshots, open files and the records other subsystems keep in it.

    The disk is reached through the interface [BlockDevice]; of the driver only what its
    laws say is used.  A byte is a [Z], a C string the list of its characters without the
    terminator; null pointers are rejected like empty paths and are not separate values.  A
    [char] array is the list of its bytes, terminator and what lies behind it included.  A
    node pointer is the index of the node.  The counters are one function of the counter.
    Log output is left out. *)

From S2P Require Import Prelude.
From Stdlib Require Import Ascii String.
#[local] Open Scope Z_scope.
#[local] Open Scope list_scope.

(** ** The block device *)

Class BlockDevice (D : Type) := {
  dev_read : D -> Z -> option (list Z);
  dev_write : D -> Z -> list Z -> D * bool;
  dev_capacity : D -> Z
}.

(** A sector written can be read back, and a write touches its sector only. *)
Class BlockDeviceLaws (D : Type) `{!BlockDevice D} : Prop := {
  dev_write_read d s b d' : dev_write d s b = (d', true) -> List.length b = 512%nat -> dev_read d' s = Some b;
  dev_write_other d s b d' ok s' : dev_write d s b = (d', ok) -> s' <> s -> dev_read d' s' = dev_read d s'
}.

Module Mfs.

Definition MFS_MAGIC : list Z := Eval cbv in chars "XAIOSMFS"%string.
Definition MFS_JOURNAL_MAGIC : list Z := Eval cbv in chars "XAIOSMFJ"%string.
Definition MFS_VERSION : Z := 2.
Definition MFS_JOURNAL_VERSION : Z := 1.
Definition MFS_SECTOR_SIZE : Z := 512.
Definition MFS_START_SECTOR : Z := 3072.
Definition MFS_METADATA_SECTORS : Z := 16.
Definition MFS_JOURNAL_HEADER_SECTOR : Z := Eval cbv in MFS_START_SECTOR + MFS_METADATA_SECTORS.
Definition MFS_JOURNAL_DATA_SECTOR : Z := Eval cbv in MFS_JOURNAL_HEADER_SECTOR + 1.
Definition MFS_DATA_START_SECTOR : Z := Eval cbv in MFS_START_SECTOR + MFS_METADATA_SECTORS + 2.
Definition MFS_DATA_SECTORS : Z := 96.
Definition MFS_MAX_NODES : Z := 32.
Definition MFS_PATH_MAX : Z := 96.
Definition MFS_FILE_MAX_BLOCKS : Z := 16.
Definition MFS_MAX_FILE_BYTES : Z := 8192.
Definition MFS_MAX_OPEN_FILES : Z := 8.
Definition MFS_V3_METADATA_SECTORS : Z := 32.
Definition MFS_V3_DATA_SECTORS : Z := 256.
Definition MFS_V3_MAX_NODES : Z := 64.
Definition MFS_V3_VERSION : Z := 3.
Definition MFS_NODE_FREE : Z := 0.
Definition MFS_NODE_DIR : Z := 1.
Definition MFS_NODE_FILE : Z := 2.
Definition MFS_MOUNT_READ_WRITE : Z := 1.
Definition MFS_JOURNAL_EMPTY : Z := 0.
Definition MFS_JOURNAL_PENDING : Z := 1.
Definition MFS_JOURNAL_OP_WRITE_FILE : Z := 1.
Definition FNV1A64_OFFSET : Z := 14695981039346656037.
Definition FNV1A64_PRIME : Z := 1099511628211.
Definition XAIOS_MFS_OPEN_READ : Z := 1.
Definition XAIOS_MFS_OPEN_WRITE : Z := 2.
Definition XAIOS_MFS_OPEN_CREATE : Z := 4.
Definition XAIOS_MFS_OPEN_TRUNCATE : Z := 8.
Definition RAW_BYTES : Z := Eval cbv in MFS_V3_METADATA_SECTORS * MFS_SECTOR_SIZE.

(** ** Data *)

(** [n_pad] is the padding at the end of the structure, which is copied with it. *)
Record xaios_mfs_node := mk_node {
  n_active : Z;
  n_snapshot_active : Z;
  n_type : Z;
  n_snapshot_type : Z;
  n_size : Z;
  n_content_hash : Z;
  n_generation : Z;
  n_snapshot_size : Z;
  n_snapshot_hash : Z;
  n_snapshot_generation : Z;
  n_block_count : Z;
  n_snapshot_block_count : Z;
  n_blocks : list Z;
  n_snapshot_blocks : list Z;
  n_path : list Z;
  n_pad : list Z
}.

Definition no_blocks : list Z := replicate 16 0.
Definition zero_node : xaios_mfs_node :=
  mk_node 0 0 0 0 0 0 0 0 0 0 0 0 no_blocks no_blocks (replicate 96 0) (replicate 4 0).

#[global] Instance node_inhabited : Inhabited xaios_mfs_node := populate zero_node.

Record xaios_mfs_state := mk_vol {
  magic : list Z;
  version : Z;
  sector_size : Z;
  metadata_sectors : Z;
  max_nodes : Z;
  start_sector : Z;
  journal_header_sector : Z;
  journal_data_sector : Z;
  data_start_sector : Z;
  data_sectors : Z;
  generation : Z;
  committed_generation : Z;
  checksum : Z;
  block_bitmap : list Z;
  nodes : list xaios_mfs_node
}.

Definition zero_vol : xaios_mfs_state :=
  mk_vol (replicate 8 0) 0 0 0 0 0 0 0 0 0 0 0 0 (replicate 256 0) (replicate 64 zero_node).

Record xaios_mfs_journal := mk_journal {
  j_magic : list Z;
  j_version : Z;
  j_state : Z;
  j_op : Z;
  j_reserved : Z;
  j_size : Z;
  j_content_hash : Z;
  j_checksum : Z;
  j_path : list Z;
  j_padding : list Z
}.

Record xaios_mfs_file_handle := mk_handle { in_use : Z; flags : Z; cursor : Z; h_path : list Z }.

#[global] Instance handle_inhabited : Inhabited xaios_mfs_file_handle :=
  populate (mk_handle 0 0 0 (replicate 96 0)).

(** The layout in force: [g_active_*]. *)
Record active_layout := mk_active {
  g_active_metadata_sectors : Z;
  g_active_max_nodes : Z;
  g_active_file_max_blocks : Z;
  g_active_max_file_bytes : Z;
  g_active_data_sectors : Z;
  g_active_version : Z
}.

Definition set_active_v2 : active_layout := mk_active 16 32 16 8192 96 2.
Definition set_active_v3 : active_layout := mk_active 32 64 16 8192 256 3.

Inductive counter :=
| mount_count | format_count | boot_load_count | write_count | read_count | delete_count | commit_count
| rollback_count | reject_count | checksum_error_count | allocation_count | free_count | directory_count
| replay_count | journal_write_count | multi_sector_file_count | state_record_count | rename_count | list_count
| stat_count | open_count | close_count | persistent_mount_count.

#[global] Instance counter_eq_dec : EqDecision counter.
Proof. solve_decision. Defined.

Record xaios_mfs_stat := mk_stat { st_type : Z; st_block_count : Z; st_size : Z; st_generation : Z; st_content_hash : Z }.

Record xaios_mfs_fsck_result := mk_fsck {
  fsck_valid : bool; fsck_version : Z; fsck_files : Z; fsck_directories : Z; fsck_blocks_used : Z; fsck_errors : Z
}.

(** ** Strings and paths *)

(** The string a [char] array holds. *)
Fixpoint c_str (l : list Z) : list Z :=
  match l with
  | [] => []
  | c :: l' => if c =? 0 then [] else c :: c_str l'
  end.

Definition str_eq (a b : list Z) : bool := bool_decide (a = b).

Definition copy_path (dst src : list Z) : list Z :=
  let s := take 95 src in s ++ 0 :: drop (S (List.length s)) dst.

Definition bad_char (c : Z) : bool :=
  (c <? 33) || (126 <? c) || (c =? 58) || (c =? 42) || (c =? 63) || (c =? 34) || (c =? 60) || (c =? 62) || (c =? 124).

(** The loop of [validate_path], [n] positions before the limit. *)
Fixpoint validate_loop (n : nat) (first : bool) (len : Z) (last_slash : bool) (l : list Z) : bool :=
  match n with
  | O => false
  | S n' =>
      match l with
      | [] => negb ((len =? 0) || ((1 <? len) && last_slash))
      | c :: l' =>
          if bad_char c then false
          else if (c =? 47) && last_slash && negb first then false
          else validate_loop n' false (len + 1) (c =? 47) l'
      end
  end.

Definition validate_path (path : list Z) : bool :=
  match path with
  | c :: _ => (c =? 47) && validate_loop 96 true 0 true path
  | [] => false
  end.

Definition normalize_path (path : list Z) : option (list Z) :=
  if validate_path path then Some (c_str (copy_path (replicate 96 0) path)) else None.

Fixpoint last_slash_from (n : nat) (i last : Z) (l : list Z) : Z :=
  match n, l with
  | S n', c :: l' => last_slash_from n' (i + 1) (if c =? 47 then i else last) l'
  | _, _ => last
  end.

Definition parent_path_of (path : list Z) : list Z :=
  let last_slash := last_slash_from 96 0 0 path in
  if last_slash =? 0 then [47] else take (Z.to_nat last_slash) path.

Fixpoint basename_from (l base : list Z) : list Z :=
  match l with
  | [] => base
  | c :: l' => basename_from l' (if (c =? 47) && negb (bool_decide (l' = [])) then l' else base)
  end.

Definition basename_of (path : list Z) : list Z := basename_from path path.

(** Appending to a buffer of a given capacity: what the buffer then holds, and whether there
    was room. *)
Definition append_char (capacity : Z) (buffer : list Z) (value : Z) : list Z * bool :=
  if capacity <=? zlen buffer + 1 then (buffer, false) else (buffer ++ [value], true).

Fixpoint append_cstr (capacity : Z) (buffer value : list Z) : list Z * bool :=
  match value with
  | [] => (buffer, true)
  | c :: value' =>
      let '(b, ok) := append_char capacity buffer c in
      if ok then append_cstr capacity b value' else (b, false)
  end.

Fixpoint u32_digits (n : nat) (value : Z) (acc : list Z) : list Z :=
  match n with
  | O => acc
  | S n' => if value =? 0 then acc else u32_digits n' (value / 10) (48 + value mod 10 :: acc)
  end.

Definition append_u32 (capacity : Z) (buffer : list Z) (value : Z) : list Z * bool :=
  if value =? 0 then append_char capacity buffer 48 else append_cstr capacity buffer (u32_digits 10 value []).

(** A record is put together from strings and numbers, until one has no room. *)
Inductive part := Text (t : list Z) | Number (v : Z).

Fixpoint build (capacity : Z) (buffer : list Z) (l : list part) : option (list Z) :=
  match l with
  | [] => Some buffer
  | p :: l' =>
      let '(b, ok) := match p with Text t => append_cstr capacity buffer t | Number v => append_u32 capacity buffer v end in
      if ok then build capacity b l' else None
  end.

(** ** Hashes and images *)

Definition fnv1a64 (bytes : list Z) : Z :=
  foldl (fun hash b => u64 (Z.lxor hash b * FNV1A64_PRIME)) FNV1A64_OFFSET bytes.

Fixpoint le_bytes (n : nat) (v : Z) : list Z :=
  match n with
  | O => []
  | S n' => v mod 256 :: le_bytes n' (v / 256)
  end.

Fixpoint le_value (l : list Z) : Z :=
  match l with
  | [] => 0
  | b :: l' => b + 256 * le_value l'
  end.

(** [size] bytes of [raw] at an offset; writing bytes at an offset. *)
Definition slice (raw : list Z) (off size : nat) : list Z := take size (drop off raw).
Definition blit (raw : list Z) (off : nat) (bytes : list Z) : list Z :=
  take off raw ++ bytes ++ drop (off + List.length bytes) raw.

Definition field (raw : list Z) (off size : nat) : Z := le_value (slice raw off size).

Definition mfs_checksum (raw : list Z) (size : Z) : Z :=
  fnv1a64 (take (Z.to_nat size) (blit raw 72 (replicate 8 0))).

Definition node_bytes (n : xaios_mfs_node) : list Z :=
  le_bytes 4 (n_active n) ++ le_bytes 4 (n_snapshot_active n) ++ le_bytes 4 (n_type n) ++ le_bytes 4 (n_snapshot_type n) ++
  le_bytes 8 (n_size n) ++ le_bytes 8 (n_content_hash n) ++ le_bytes 8 (n_generation n) ++
  le_bytes 8 (n_snapshot_size n) ++ le_bytes 8 (n_snapshot_hash n) ++ le_bytes 8 (n_snapshot_generation n) ++
  le_bytes 2 (n_block_count n) ++ le_bytes 2 (n_snapshot_block_count n) ++
  List.concat (le_bytes 2 <$> n_blocks n) ++ List.concat (le_bytes 2 <$> n_snapshot_blocks n) ++ n_path n ++ n_pad n.

Definition NODE_BYTES : nat := 232.

Definition le_array (raw : list Z) (off : nat) : list Z :=
  (fun i => le_value (slice raw (off + 2 * i) 2)) <$> seq 0 16.

Definition read_node (raw : list Z) (p : nat) : xaios_mfs_node :=
  mk_node (field raw p 4) (field raw (p + 4) 4) (field raw (p + 8) 4) (field raw (p + 12) 4) (field raw (p + 16) 8)
    (field raw (p + 24) 8) (field raw (p + 32) 8) (field raw (p + 40) 8) (field raw (p + 48) 8) (field raw (p + 56) 8)
    (field raw (p + 64) 2) (field raw (p + 66) 2) (le_array raw (p + 68)) (le_array raw (p + 100))
    (slice raw (p + 132) 96) (slice raw (p + 228) 4).

(** What [write_metadata] puts in its buffer before the checksum. *)
Definition volume_bytes (v : xaios_mfs_state) (bitmap count : nat) : list Z :=
  magic v ++ le_bytes 4 (version v) ++ le_bytes 4 (sector_size v) ++ le_bytes 4 (metadata_sectors v) ++
  le_bytes 4 (max_nodes v) ++ le_bytes 8 (start_sector v) ++ le_bytes 8 (journal_header_sector v) ++
  le_bytes 8 (journal_data_sector v) ++ le_bytes 8 (data_start_sector v) ++ le_bytes 8 (data_sectors v) ++
  le_bytes 8 (generation v) ++ le_bytes 8 (committed_generation v) ++ le_bytes 8 0 ++
  take bitmap (block_bitmap v) ++ List.concat (node_bytes <$> take count (nodes v)).

Definition CHECKSUM_OFFSET : nat := 80.
Definition BITMAP_OFFSET : nat := 88.

Definition pad_to (n : nat) (l : list Z) : list Z := l ++ replicate (n - List.length l) 0.

(** The volume in an image of the metadata sectors. *)
Definition parse_volume (raw : list Z) (bitmap count : nat) : xaios_mfs_state :=
  mk_vol (slice raw 0 8) (field raw 8 4) (field raw 12 4) (field raw 16 4) (field raw 20 4) (field raw 24 8)
    (field raw 32 8) (field raw 40 8) (field raw 48 8) (field raw 56 8) (field raw 64 8) (field raw 72 8) (field raw 80 8)
    (slice raw BITMAP_OFFSET bitmap ++ replicate (256 - bitmap) 0)
    (((fun i => read_node raw (BITMAP_OFFSET + bitmap + i * NODE_BYTES)) <$> seq 0 count) ++
     replicate (64 - count) zero_node).

Definition journal_bytes (j : xaios_mfs_journal) : list Z :=
  j_magic j ++ le_bytes 4 (j_version j) ++ le_bytes 4 (j_state j) ++ le_bytes 4 (j_op j) ++ le_bytes 4 (j_reserved j) ++
  le_bytes 8 (j_size j) ++ le_bytes 8 (j_content_hash j) ++ le_bytes 8 (j_checksum j) ++ j_path j ++ j_padding j.

Definition parse_journal (raw : list Z) : xaios_mfs_journal :=
  mk_journal (slice raw 0 8) (field raw 8 4) (field raw 12 4) (field raw 16 4) (field raw 20 4) (field raw 24 8)
    (field raw 32 8) (field raw 40 8) (slice raw 48 96) (slice raw 144 368).

Definition set_j_checksum (j : xaios_mfs_journal) (c : Z) : xaios_mfs_journal :=
  mk_journal (j_magic j) (j_version j) (j_state j) (j_op j) (j_reserved j) (j_size j) (j_content_hash j) c
    (j_path j) (j_padding j).

Definition journal_checksum (j : xaios_mfs_journal) : Z := fnv1a64 (journal_bytes (set_j_checksum j 0)).

(** ** State *)

Record fs {D : Type} := mk_fs {
  vol : xaios_mfs_state;
  g_open_files : list xaios_mfs_file_handle;
  g_mounted : bool;
  g_mount_flags : Z;
  lay : active_layout;
  stats : counter -> Z;
  g_metadata_verified_checksum : Z;
  disk : D;
  g_persistent_handle : option D
}.
#[global] Arguments fs : clear implicits.

Section Fs.
Context {D : Type} `{!BlockDevice D}.

Definition with_vol (s : fs D) (v : xaios_mfs_state) : fs D :=
  mk_fs _ v (g_open_files s) (g_mounted s) (g_mount_flags s) (lay s) (stats s) (g_metadata_verified_checksum s)
    (disk s) (g_persistent_handle s).
Definition with_opens (s : fs D) (l : list xaios_mfs_file_handle) : fs D :=
  mk_fs _ (vol s) l (g_mounted s) (g_mount_flags s) (lay s) (stats s) (g_metadata_verified_checksum s)
    (disk s) (g_persistent_handle s).
Definition with_mount (s : fs D) (m : bool) (fl : Z) : fs D :=
  mk_fs _ (vol s) (g_open_files s) m fl (lay s) (stats s) (g_metadata_verified_checksum s) (disk s)
    (g_persistent_handle s).
Definition with_layout (s : fs D) (l : active_layout) : fs D :=
  mk_fs _ (vol s) (g_open_files s) (g_mounted s) (g_mount_flags s) l (stats s) (g_metadata_verified_checksum s)
    (disk s) (g_persistent_handle s).
Definition with_verified (s : fs D) (c : Z) : fs D :=
  mk_fs _ (vol s) (g_open_files s) (g_mounted s) (g_mount_flags s) (lay s) (stats s) c (disk s) (g_persistent_handle s).
Definition with_devices (s : fs D) (d : D) (p : option D) : fs D :=
  mk_fs _ (vol s) (g_open_files s) (g_mounted s) (g_mount_flags s) (lay s) (stats s) (g_metadata_verified_checksum s) d p.

Definition bump (c : counter) (s : fs D) : fs D :=
  mk_fs _ (vol s) (g_open_files s) (g_mounted s) (g_mount_flags s) (lay s)
    (fun x => if decide (x = c) then u64 (stats s x + 1) else stats s x) (g_metadata_verified_checksum s) (disk s)
    (g_persistent_handle s).

Definition set_nodes (v : xaios_mfs_state) (l : list xaios_mfs_node) : xaios_mfs_state :=
  mk_vol (magic v) (version v) (sector_size v) (metadata_sectors v) (max_nodes v) (start_sector v)
    (journal_header_sector v) (journal_data_sector v) (data_start_sector v) (data_sectors v) (generation v)
    (committed_generation v) (checksum v) (block_bitmap v) l.
Definition set_bitmap (v : xaios_mfs_state) (l : list Z) : xaios_mfs_state :=
  mk_vol (magic v) (version v) (sector_size v) (metadata_sectors v) (max_nodes v) (start_sector v)
    (journal_header_sector v) (journal_data_sector v) (data_start_sector v) (data_sectors v) (generation v)
    (committed_generation v) (checksum v) l (nodes v).
Definition set_generations (v : xaios_mfs_state) (g c : Z) : xaios_mfs_state :=
  mk_vol (magic v) (version v) (sector_size v) (metadata_sectors v) (max_nodes v) (start_sector v)
    (journal_header_sector v) (journal_data_sector v) (data_start_sector v) (data_sectors v) g c (checksum v)
    (block_bitmap v) (nodes v).
Definition set_checksum (v : xaios_mfs_state) (c : Z) : xaios_mfs_state :=
  mk_vol (magic v) (version v) (sector_size v) (metadata_sectors v) (max_nodes v) (start_sector v)
    (journal_header_sector v) (journal_data_sector v) (data_start_sector v) (data_sectors v) (generation v)
    (committed_generation v) c (block_bitmap v) (nodes v).

Definition node (s : fs D) (i : Z) : xaios_mfs_node := (nodes (vol s)).[i].
Definition upd_node (s : fs D) (i : Z) (f : xaios_mfs_node -> xaios_mfs_node) : fs D :=
  with_vol s (set_nodes (vol s) (upd (nodes (vol s)) i f)).
Definition set_block (s : fs D) (b x : Z) : fs D :=
  with_vol s (set_bitmap (vol s) ((block_bitmap (vol s)).[b <- x])).

(** ** The device *)

Definition current_device (s : fs D) : D := default (disk s) (g_persistent_handle s).

Definition blk_read (s : fs D) (sector : Z) : option (list Z) := dev_read (current_device s) sector.

Definition blk_write (s : fs D) (sector : Z) (bytes : list Z) : fs D * bool :=
  match g_persistent_handle s with
  | Some p => let '(d, ok) := dev_write p sector bytes in (with_devices s (disk s) (Some d), ok)
  | None => let '(d, ok) := dev_write (disk s) sector bytes in (with_devices s d None, ok)
  end.

Definition blk_capacity (s : fs D) : Z := dev_capacity (current_device s).

(** ** Nodes *)

Definition node_is_visible (n : xaios_mfs_node) : bool := negb (n_active n =? 0) || negb (n_snapshot_active n =? 0).

Definition node_count_by_type (s : fs D) (type : Z) : Z :=
  for_range (Z.to_nat (g_active_max_nodes (lay s))) 0
    (fun i c => if negb (n_active (node s i) =? 0) && (n_type (node s i) =? type) then c + 1 else c) 0.

Definition block_count_used (s : fs D) : Z :=
  for_range (Z.to_nat (g_active_data_sectors (lay s))) 0
    (fun i c => if negb ((block_bitmap (vol s)).[i] =? 0) then c + 1 else c) 0.

Definition find_node (s : fs D) (path : list Z) (include_snapshot : bool) : option Z :=
  first_below (g_active_max_nodes (lay s))
    (fun i => (negb (n_active (node s i) =? 0) || (include_snapshot && negb (n_snapshot_active (node s i) =? 0))) &&
              str_eq (c_str (n_path (node s i))) path).

Definition find_free_node (s : fs D) : option Z :=
  first_below (g_active_max_nodes (lay s))
    (fun i => (n_active (node s i) =? 0) && (n_snapshot_active (node s i) =? 0)).

(** ** Metadata *)

(** Sectors [i, i+1, ...] of the metadata area, [n] of them, appended to what was read. *)
Fixpoint read_sectors (n : nat) (s : fs D) (i : Z) (raw : list Z) : option (list Z) :=
  match n with
  | O => Some raw
  | S n' => b ← blk_read s (MFS_START_SECTOR + i); read_sectors n' s (i + 1) (raw ++ b)
  end.

Definition read_metadata (s : fs D) : fs D * xaios_status :=
  match blk_read s MFS_START_SECTOR with
  | None => (s, XAIOS_ERR_IO)
  | Some first_sector =>
      let v3 := field first_sector 8 4 =? MFS_V3_VERSION in
      let sectors := if v3 then MFS_V3_METADATA_SECTORS else MFS_METADATA_SECTORS in
      match read_sectors (Z.to_nat (sectors - 1)) s 1 first_sector with
      | None => (s, XAIOS_ERR_IO)
      | Some bytes =>
          let raw := pad_to (Z.to_nat RAW_BYTES) bytes in
          let bitmap := if v3 then 256%nat else 96%nat in
          let count := if v3 then 64%nat else 32%nat in
          (with_vol (with_verified s (mfs_checksum raw (sectors * MFS_SECTOR_SIZE))) (parse_volume raw bitmap count),
           XAIOS_OK)
      end
  end.

(** Sectors [i, i+1, ...] of the image, [n] of them, until a write fails. *)
Fixpoint write_sectors (n : nat) (s : fs D) (i : Z) (raw : list Z) : fs D * bool :=
  match n with
  | O => (s, true)
  | S n' =>
      match blk_write s (MFS_START_SECTOR + i) (slice raw (Z.to_nat (i * MFS_SECTOR_SIZE)) 512) with
      | (s1, true) => write_sectors n' s1 (i + 1) raw
      | (s1, false) => (s1, false)
      end
  end.

Definition write_metadata (s : fs D) : fs D * xaios_status :=
  let v3 := g_active_version (lay s) =? MFS_V3_VERSION in
  let raw := pad_to (Z.to_nat RAW_BYTES)
    (volume_bytes (vol s) (if v3 then 256%nat else 96%nat) (if v3 then 64%nat else 32%nat)) in
  let sum := mfs_checksum raw (g_active_metadata_sectors (lay s) * MFS_SECTOR_SIZE) in
  let s1 := with_vol s (set_checksum (vol s) sum) in
  match write_sectors (Z.to_nat (g_active_metadata_sectors (lay s))) s1 0 (blit raw CHECKSUM_OFFSET (le_bytes 8 sum)) with
  | (s2, true) => (s2, XAIOS_OK)
  | (s2, false) => (bump reject_count s2, XAIOS_ERR_IO)
  end.

(** ** Journal *)

Definition clear_journal (s : fs D) : fs D * xaios_status :=
  match blk_write s MFS_JOURNAL_HEADER_SECTOR (replicate 512 0) with
  | (s1, false) => (bump reject_count s1, XAIOS_ERR_IO)
  | (s1, true) =>
      match blk_write s1 MFS_JOURNAL_DATA_SECTOR (replicate 512 0) with
      | (s2, false) => (bump reject_count s2, XAIOS_ERR_IO)
      | (s2, true) => (s2, XAIOS_OK)
      end
  end.

Definition write_journal (s : fs D) (j : xaios_mfs_journal) : fs D * xaios_status :=
  let j1 := set_j_checksum j (journal_checksum j) in
  match blk_write s MFS_JOURNAL_HEADER_SECTOR (journal_bytes j1) with
  | (s1, false) => (bump reject_count s1, XAIOS_ERR_IO)
  | (s1, true) => (bump journal_write_count s1, XAIOS_OK)
  end.

(** ** Blocks *)

Definition absolute_data_sector (block_index : Z) : Z := MFS_DATA_START_SECTOR + block_index.

(** The search of [allocate_blocks] from block [i] on, [n] blocks left. *)
Fixpoint alloc_loop (n : nat) (s : fs D) (i count : Z) (found : list Z) : fs D * list Z :=
  match n with
  | O => (s, found)
  | S n' =>
      if zlen found <? count then
        if (block_bitmap (vol s)).[i] =? 0
        then alloc_loop n' (bump allocation_count (set_block s i 1)) (i + 1) count (found ++ [i])
        else alloc_loop n' s (i + 1) count found
      else (s, found)
  end.

(** The block array, zero behind the blocks found. *)
Definition allocate_blocks (s : fs D) (count : Z) : fs D * option (list Z) :=
  if g_active_file_max_blocks (lay s) <? count then (s, None) else
  if count =? 0 then (s, Some no_blocks) else
  let '(s1, found) := alloc_loop (Z.to_nat (g_active_data_sectors (lay s))) s 0 count [] in
  if zlen found =? count then (s1, Some (pad_to 16 found))
  else (bump reject_count (foldl (fun s b => bump free_count (set_block s b 0)) s1 found), None).

Definition free_blocks (s : fs D) (count : Z) (blocks : list Z) : fs D :=
  for_range (Z.to_nat count) 0
    (fun i s => let b := blocks.[i] in
       if (b <? g_active_data_sectors (lay s)) && negb ((block_bitmap (vol s)).[b] =? 0)
       then bump free_count (set_block s b 0) else s) s.

Definition block_count_for_size (size : Z) : Z := u16 (u64 (size + MFS_SECTOR_SIZE - 1) / MFS_SECTOR_SIZE).

(** The bytes of the file that go with block [i]. *)
Definition block_copy (i size : Z) : Z :=
  let remaining := u64 (size - i * MFS_SECTOR_SIZE) in
  if remaining <? MFS_SECTOR_SIZE then remaining else MFS_SECTOR_SIZE.

(** Blocks [i, i+1, ...], [n] of them, until a write fails. *)
Fixpoint write_blocks_from (n : nat) (s : fs D) (i : Z) (blocks data : list Z) (size : Z) : fs D * bool :=
  match n with
  | O => (s, true)
  | S n' =>
      let sector := pad_to 512 (slice data (Z.to_nat (i * MFS_SECTOR_SIZE)) (Z.to_nat (block_copy i size))) in
      match blk_write s (absolute_data_sector (blocks.[i])) sector with
      | (s1, true) => write_blocks_from n' s1 (i + 1) blocks data size
      | (s1, false) => (bump reject_count s1, false)
      end
  end.

Definition write_blocks (s : fs D) (blocks : list Z) (block_count : Z) (data : list Z) (size : Z) : fs D * bool :=
  write_blocks_from (Z.to_nat block_count) s 0 blocks data size.

Fixpoint read_blocks_from (n : nat) (s : fs D) (i : Z) (blocks buffer : list Z) (size : Z) : option (list Z) :=
  match n with
  | O => Some buffer
  | S n' =>
      sector ← blk_read s (absolute_data_sector (blocks.[i]));
      read_blocks_from n' s (i + 1) blocks
        (blit buffer (Z.to_nat (i * MFS_SECTOR_SIZE)) (take (Z.to_nat (block_copy i size)) sector)) size
  end.

Definition read_blocks (s : fs D) (blocks : list Z) (block_count : Z) (buffer : list Z) (size : Z)
    : fs D * option (list Z) :=
  match read_blocks_from (Z.to_nat block_count) s 0 blocks buffer size with
  | Some b => (s, Some b)
  | None => (bump reject_count s, None)
  end.

(** ** Directories and files *)

Definition writable (s : fs D) : bool := g_mounted s && negb (Z.land (g_mount_flags s) MFS_MOUNT_READ_WRITE =? 0).

Definition parent_exists_for (s : fs D) (path : list Z) : bool :=
  let parent := parent_path_of path in
  if str_eq parent [47] then true else
  match find_node s parent false with
  | Some i => negb (n_active (node s i) =? 0) && (n_type (node s i) =? MFS_NODE_DIR)
  | None => false
  end.

Definition make_dir (path : list Z) (g : Z) (n : xaios_mfs_node) : xaios_mfs_node :=
  let n := if n_snapshot_active n =? 0 then zero_node else n in
  mk_node 1 (n_snapshot_active n) MFS_NODE_DIR (n_snapshot_type n) 0 0 g (n_snapshot_size n) (n_snapshot_hash n)
    (n_snapshot_generation n) 0 (n_snapshot_block_count n) no_blocks (n_snapshot_blocks n) (copy_path (n_path n) path)
    (n_pad n).

Definition next_generation (s : fs D) : fs D :=
  with_vol s (set_generations (vol s) (u64 (generation (vol s) + 1)) (committed_generation (vol s))).

(** The node a new entry of this path goes to. *)
Definition target_node (s : fs D) (path : list Z) : option Z :=
  match find_node s path true with Some i => Some i | None => find_free_node s end.

Definition create_dir (s : fs D) (path : list Z) : fs D * xaios_status :=
  if negb (writable s) || negb (validate_path path) || negb (parent_exists_for s path)
  then (bump reject_count s, XAIOS_ERR_INVALID) else
  match target_node s path with
  | None => (bump reject_count s, XAIOS_ERR_NO_MEMORY)
  | Some i =>
      if negb (n_active (node s i) =? 0)
      then (s, if n_type (node s i) =? MFS_NODE_DIR then XAIOS_OK else XAIOS_ERR_INVALID)
      else write_metadata (bump directory_count
             (next_generation (upd_node s i (make_dir path (generation (vol s))))))
  end.

Definition make_file (path data : list Z) (count : Z) (blocks : list Z) (g : Z) (n : xaios_mfs_node) : xaios_mfs_node :=
  mk_node 1 (n_snapshot_active n) MFS_NODE_FILE (n_snapshot_type n) (zlen data) (fnv1a64 data) g (n_snapshot_size n)
    (n_snapshot_hash n) (n_snapshot_generation n) count (n_snapshot_block_count n) blocks (n_snapshot_blocks n)
    (copy_path (n_path n) path) (n_pad n).

(** Make the file of these blocks the entry of the path. *)
Definition install_file (s : fs D) (path data : list Z) (new_count : Z) (new_blocks : list Z) : fs D * xaios_status :=
  match target_node s path with
  | None => (bump reject_count (free_blocks s new_count new_blocks), XAIOS_ERR_NO_MEMORY)
  | Some i =>
      let n := node s i in
      if negb (n_active n =? 0) && negb (n_type n =? MFS_NODE_FILE)
      then (bump reject_count (free_blocks s new_count new_blocks), XAIOS_ERR_INVALID) else
      let s1 := if negb (n_active n =? 0) && (n_type n =? MFS_NODE_FILE)
                then free_blocks s (n_block_count n) (n_blocks n) else s in
      let s2 := next_generation (upd_node s1 i (make_file path data new_count new_blocks (generation (vol s1)))) in
      let s3 := if 1 <? new_count then bump multi_sector_file_count s2 else s2 in
      write_metadata (bump write_count s3)
  end.

Definition write_file (s : fs D) (path data : list Z) : fs D * xaios_status :=
  if negb (writable s) || negb (validate_path path) || negb (parent_exists_for s path) ||
     (g_active_max_file_bytes (lay s) <? zlen data)
  then (bump reject_count s, XAIOS_ERR_INVALID) else
  let new_count := block_count_for_size (zlen data) in
  match allocate_blocks s new_count with
  | (s1, None) => (s1, XAIOS_ERR_NO_MEMORY)
  | (s1, Some new_blocks) =>
      match write_blocks s1 new_blocks new_count data (zlen data) with
      | (s2, false) => (free_blocks s2 new_count new_blocks, XAIOS_ERR_IO)
      | (s2, true) => install_file s2 path data new_count new_blocks
      end
  end.

(** What a read gives: a status, or the caller's buffer and the size of the file. *)
Definition read_file (s : fs D) (path buffer : list Z) : fs D * (xaios_status + list Z * Z) :=
  if negb (g_mounted s) || negb (validate_path path) then (bump reject_count s, inl XAIOS_ERR_INVALID) else
  match find_node s path false with
  | None => (bump reject_count s, inl XAIOS_ERR_NOT_FOUND)
  | Some i =>
      let n := node s i in
      if negb (n_type n =? MFS_NODE_FILE) || (zlen buffer <? n_size n)
      then (bump reject_count s, inl XAIOS_ERR_NOT_FOUND) else
      match read_blocks s (n_blocks n) (n_block_count n) buffer (n_size n) with
      | (s1, None) => (s1, inl XAIOS_ERR_IO)
      | (s1, Some buffer') =>
          if negb (fnv1a64 (take (Z.to_nat (n_size n)) buffer') =? n_content_hash n)
          then (bump reject_count (bump checksum_error_count s1), inl XAIOS_ERR_INVALID)
          else (bump read_count s1, inr (buffer', n_size n))
      end
  end.

(** [child] is strictly below [parent], by the comparison of [has_active_children]. *)
Definition below (parent child : list Z) : bool :=
  bool_decide (take (List.length parent) child = parent) && bool_decide (child !! List.length parent = Some 47).

Definition has_active_children (s : fs D) (path : list Z) : bool :=
  existsb (fun i => negb (n_active (node s i) =? 0) && negb (str_eq (c_str (n_path (node s i))) path) &&
                    below path (c_str (n_path (node s i))))
    (seqZ 0 (g_active_max_nodes (lay s))).

Definition deactivate (count g : Z) (n : xaios_mfs_node) : xaios_mfs_node :=
  mk_node 0 (n_snapshot_active n) (n_type n) (n_snapshot_type n) (n_size n) (n_content_hash n) g (n_snapshot_size n)
    (n_snapshot_hash n) (n_snapshot_generation n) count (n_snapshot_block_count n) (n_blocks n) (n_snapshot_blocks n)
    (n_path n) (n_pad n).

Definition delete_node (s : fs D) (path : list Z) : fs D * xaios_status :=
  if negb (writable s) || negb (validate_path path) then (bump reject_count s, XAIOS_ERR_INVALID) else
  match find_node s path false with
  | None => (bump reject_count s, XAIOS_ERR_NOT_FOUND)
  | Some i =>
      let n := node s i in
      if (n_type n =? MFS_NODE_DIR) && has_active_children s path then (bump reject_count s, XAIOS_ERR_BUSY) else
      let file := n_type n =? MFS_NODE_FILE in
      let s1 := if file then free_blocks s (n_block_count n) (n_blocks n) else s in
      let s2 := upd_node s1 i (deactivate (if file then 0 else n_block_count n) (generation (vol s1))) in
      write_metadata (bump delete_count (next_generation s2))
  end.

Definition set_path (path : list Z) (g : Z) (n : xaios_mfs_node) : xaios_mfs_node :=
  mk_node (n_active n) (n_snapshot_active n) (n_type n) (n_snapshot_type n) (n_size n) (n_content_hash n) g
    (n_snapshot_size n) (n_snapshot_hash n) (n_snapshot_generation n) (n_block_count n) (n_snapshot_block_count n)
    (n_blocks n) (n_snapshot_blocks n) (copy_path (n_path n) path) (n_pad n).

Definition rename_node (s : fs D) (old_path new_path : list Z) : fs D * xaios_status :=
  match normalize_path old_path, normalize_path new_path with
  | Some normalized_old, Some normalized_new =>
      if negb (writable s) || negb (parent_exists_for s normalized_new)
      then (bump reject_count s, XAIOS_ERR_INVALID) else
      match find_node s normalized_old false with
      | None => (bump reject_count s, XAIOS_ERR_NOT_FOUND)
      | Some i =>
          if bool_decide (is_Some (find_node s normalized_new false)) then (bump reject_count s, XAIOS_ERR_BUSY) else
          if (n_type (node s i) =? MFS_NODE_DIR) && has_active_children s normalized_old
          then (bump reject_count s, XAIOS_ERR_BUSY) else
          write_metadata (bump rename_count
            (next_generation (upd_node s i (set_path normalized_new (generation (vol s))))))
      end
  | _, _ => (bump reject_count s, XAIOS_ERR_INVALID)
  end.

Definition stat_node (s : fs D) (path : list Z) : fs D * (xaios_status + xaios_mfs_stat) :=
  match normalize_path path with
  | None => (bump reject_count s, inl XAIOS_ERR_INVALID)
  | Some normalized =>
      match find_node s normalized true with
      | None => (bump reject_count s, inl XAIOS_ERR_NOT_FOUND)
      | Some i =>
          let n := node s i in
          (bump stat_count s,
           inr (mk_stat (n_type n) (n_block_count n) (n_size n) (n_generation n) (n_content_hash n)))
      end
  end.

Definition direct_child_of (parent child : list Z) : option (list Z) :=
  let tail := if str_eq parent [47]
    then match child with c :: t => if c =? 47 then t else [] | [] => [] end
    else if below parent child then drop (S (List.length parent)) child else [] in
  if bool_decide (tail = []) || existsb (fun c => c =? 47) tail then None else Some tail.

(** The entries from node [i] on, [n] of them left, until one has no room. *)
Fixpoint list_loop (n : nat) (s : fs D) (i : Z) (path : list Z) (capacity : Z) (buffer : list Z) : list Z * bool :=
  match n with
  | O => (buffer, true)
  | S n' =>
      let p := c_str (n_path (node s i)) in
      match (if negb (node_is_visible (node s i)) || str_eq p path then None else direct_child_of path p) with
      | None => list_loop n' s (i + 1) path capacity buffer
      | Some name =>
          match append_cstr capacity buffer name with
          | (b, false) => (b, false)
          | (b, true) =>
              match append_char capacity b 10 with
              | (b', false) => (b', false)
              | (b', true) => list_loop n' s (i + 1) path capacity b'
              end
          end
      end
  end.

(** The status and what the buffer of [buffer_size] bytes then holds, before its terminator. *)
Definition list_dir (s : fs D) (path : list Z) (buffer_size : Z) : fs D * (xaios_status * list Z) :=
  match normalize_path path with
  | None => (bump reject_count s, (XAIOS_ERR_INVALID, []))
  | Some normalized =>
      if buffer_size =? 0 then (bump reject_count s, (XAIOS_ERR_INVALID, [])) else
      let is_dir := match find_node s normalized true with
                    | Some i => n_type (node s i) =? MFS_NODE_DIR
                    | None => false
                    end in
      if negb is_dir && negb (str_eq normalized [47]) then (bump reject_count s, (XAIOS_ERR_NOT_FOUND, [])) else
      match list_loop (Z.to_nat (g_active_max_nodes (lay s))) s 0 normalized buffer_size [] with
      | (b, false) => (bump reject_count s, (XAIOS_ERR_NO_MEMORY, b))
      | (b, true) =>
          if str_eq normalized [47] && (zlen b =? 0) then (bump reject_count s, (XAIOS_ERR_NOT_FOUND, b))
          else (bump list_count s, (XAIOS_OK, b))
      end
  end.

(** ** Snapshots *)

(** The snapshot fields of a node: none, or what [commit_snapshot] copies. *)
Definition set_snapshot (active type size hash g count : Z) (blocks : list Z) (n : xaios_mfs_node) : xaios_mfs_node :=
  mk_node (n_active n) active (n_type n) type (n_size n) (n_content_hash n) (n_generation n) size hash g (n_block_count n)
    count (n_blocks n) blocks (n_path n) (n_pad n).

Definition clear_snapshot : xaios_mfs_node -> xaios_mfs_node := set_snapshot 0 MFS_NODE_FREE 0 0 0 0 no_blocks.

Definition take_snapshot (n : xaios_mfs_node) : xaios_mfs_node :=
  set_snapshot 1 (n_type n) (n_size n) (n_content_hash n) (n_generation n) (n_snapshot_block_count n)
    (n_snapshot_blocks n) n.

Definition set_snapshot_blocks (count : Z) (blocks : list Z) (n : xaios_mfs_node) : xaios_mfs_node :=
  set_snapshot (n_snapshot_active n) (n_snapshot_type n) (n_snapshot_size n) (n_snapshot_hash n)
    (n_snapshot_generation n) count blocks n.

(** Copy blocks that hold a file of a given size to new ones, through [buffer]: the new
    blocks, or what went wrong. *)
Definition copy_blocks (s : fs D) (blocks : list Z) (count : Z) (buffer : list Z) (size : Z)
    : fs D * list Z * (xaios_status + list Z) :=
  match read_blocks s blocks count buffer size with
  | (s1, None) => (s1, buffer, inl XAIOS_ERR_IO)
  | (s1, Some buffer') =>
      match allocate_blocks s1 count with
      | (s2, None) => (s2, buffer', inl XAIOS_ERR_NO_MEMORY)
      | (s2, Some new_blocks) =>
          match write_blocks s2 new_blocks count buffer' size with
          | (s3, false) => (free_blocks s3 count new_blocks, buffer', inl XAIOS_ERR_IO)
          | (s3, true) => (s3, buffer', inr new_blocks)
          end
      end
  end.

(** One node of [commit_snapshot]. *)
Definition commit_node (s : fs D) (i : Z) (buffer : list Z) : fs D * list Z * xaios_status :=
  let n := node s i in
  let s1 := if negb (n_snapshot_active n =? 0) && (n_snapshot_type n =? MFS_NODE_FILE)
            then free_blocks s (n_snapshot_block_count n) (n_snapshot_blocks n) else s in
  let s2 := upd_node s1 i clear_snapshot in
  if n_active n =? 0 then (s2, buffer, XAIOS_OK) else
  let s3 := upd_node s2 i take_snapshot in
  if negb (n_type n =? MFS_NODE_FILE) then (s3, buffer, XAIOS_OK) else
  match copy_blocks s3 (n_blocks n) (n_block_count n) buffer (n_size n) with
  | (s4, b, inl e) => (s4, b, e)
  | (s4, b, inr new_blocks) => (upd_node s4 i (set_snapshot_blocks (n_block_count n) new_blocks), b, XAIOS_OK)
  end.

Fixpoint commit_loop (n : nat) (s : fs D) (i : Z) (buffer : list Z) : fs D * xaios_status :=
  match n with
  | O => (s, XAIOS_OK)
  | S n' =>
      match commit_node s i buffer with
      | (s1, b, XAIOS_OK) => commit_loop n' s1 (i + 1) b
      | (s1, b, e) => (s1, e)
      end
  end.

(** The buffer on the stack is taken as zero at first: what it holds is written before it is
    used. *)
Definition stack_buffer : list Z := replicate (Z.to_nat MFS_MAX_FILE_BYTES) 0.

Definition commit_snapshot (s : fs D) : fs D * xaios_status :=
  if negb (writable s) then (bump reject_count s, XAIOS_ERR_INVALID) else
  match commit_loop (Z.to_nat (g_active_max_nodes (lay s))) s 0 stack_buffer with
  | (s1, XAIOS_OK) =>
      write_metadata (bump commit_count
        (with_vol s1 (set_generations (vol s1) (generation (vol s1)) (generation (vol s1)))))
  | (s1, e) => (s1, e)
  end.

(** The node as in the snapshot, without blocks yet. *)
Definition revive (n : xaios_mfs_node) : xaios_mfs_node :=
  mk_node 1 (n_snapshot_active n) (n_snapshot_type n) (n_snapshot_type n) (n_snapshot_size n) (n_snapshot_hash n)
    (n_snapshot_generation n) (n_snapshot_size n) (n_snapshot_hash n) (n_snapshot_generation n) 0
    (n_snapshot_block_count n) no_blocks (n_snapshot_blocks n) (n_path n) (n_pad n).

Definition set_file_blocks (count : Z) (blocks : list Z) (n : xaios_mfs_node) : xaios_mfs_node :=
  mk_node (n_active n) (n_snapshot_active n) (n_type n) (n_snapshot_type n) (n_size n) (n_content_hash n)
    (n_generation n) (n_snapshot_size n) (n_snapshot_hash n) (n_snapshot_generation n) count (n_snapshot_block_count n)
    blocks (n_snapshot_blocks n) (n_path n) (n_pad n).

Definition restore_snapshot_node (s : fs D) (i : Z) : fs D * xaios_status :=
  let n := node s i in
  if n_snapshot_active n =? 0 then (s, XAIOS_OK) else
  let s1 := if negb (n_active n =? 0) && (n_type n =? MFS_NODE_FILE)
            then free_blocks s (n_block_count n) (n_blocks n) else s in
  let s2 := upd_node s1 i revive in
  if negb (n_snapshot_type n =? MFS_NODE_FILE) then (s2, XAIOS_OK) else
  match copy_blocks s2 (n_snapshot_blocks n) (n_snapshot_block_count n) stack_buffer (n_snapshot_size n) with
  | (s3, _, inl e) => (s3, e)
  | (s3, _, inr new_blocks) => (upd_node s3 i (set_file_blocks (n_snapshot_block_count n) new_blocks), XAIOS_OK)
  end.

(** A node of no snapshot, written since the last commit, is dropped. *)
Definition drop_new_node (i : Z) (s : fs D) : fs D :=
  let n := node s i in
  if (n_snapshot_active n =? 0) && negb (n_active n =? 0) &&
     (committed_generation (vol s) <=? n_generation n)
  then
    let s1 := if n_type n =? MFS_NODE_FILE then free_blocks s (n_block_count n) (n_blocks n) else s in
    upd_node s1 i (fun n => set_file_blocks 0 no_blocks (deactivate 0 (n_generation n) n))
  else s.

(** The nodes of the snapshot that have a given type, from [i] on, [n] of them left. *)
Fixpoint restore_pass (n : nat) (s : fs D) (i type : Z) : fs D * bool :=
  match n with
  | O => (s, true)
  | S n' =>
      if negb (n_snapshot_active (node s i) =? 0) && (n_snapshot_type (node s i) =? type) then
        match restore_snapshot_node s i with
        | (s1, XAIOS_OK) => restore_pass n' s1 (i + 1) type
        | (s1, _) => (s1, false)
        end
      else restore_pass n' s (i + 1) type
  end.

Definition rollback_snapshot (s : fs D) : fs D * xaios_status :=
  if negb (writable s) then (bump reject_count s, XAIOS_ERR_INVALID) else
  let max := Z.to_nat (g_active_max_nodes (lay s)) in
  let s1 := for_range max 0 drop_new_node s in
  match restore_pass max s1 0 MFS_NODE_DIR with
  | (s2, false) => (s2, XAIOS_ERR_IO)
  | (s2, true) =>
      match restore_pass max s2 0 MFS_NODE_FILE with
      | (s3, false) => (s3, XAIOS_ERR_IO)
      | (s3, true) => write_metadata (bump rollback_count (next_generation s3))
      end
  end.

(** ** Mounting *)

Definition node_ok (l : active_layout) (n : xaios_mfs_node) : bool :=
  (negb (node_is_visible n) || validate_path (c_str (n_path n))) &&
  ((n_active n =? 0) || (n_type n =? MFS_NODE_DIR) || (n_type n =? MFS_NODE_FILE)) &&
  ((n_snapshot_active n =? 0) || (n_snapshot_type n =? MFS_NODE_DIR) || (n_snapshot_type n =? MFS_NODE_FILE)) &&
  (n_block_count n <=? g_active_file_max_blocks l) && (n_snapshot_block_count n <=? g_active_file_max_blocks l) &&
  (n_size n <=? g_active_max_file_bytes l) && (n_snapshot_size n <=? g_active_max_file_bytes l).

Definition validate_disk (s : fs D) (expected_checksum : Z) : fs D * xaios_status :=
  let v := vol s in
  if negb (bool_decide (magic v = MFS_MAGIC)) || negb (version v =? g_active_version (lay s)) ||
     negb (sector_size v =? MFS_SECTOR_SIZE) || negb (metadata_sectors v =? g_active_metadata_sectors (lay s)) ||
     negb (max_nodes v =? g_active_max_nodes (lay s)) || negb (start_sector v =? MFS_START_SECTOR) ||
     negb (journal_header_sector v =? MFS_JOURNAL_HEADER_SECTOR) ||
     negb (journal_data_sector v =? MFS_JOURNAL_DATA_SECTOR) ||
     negb (data_start_sector v =? MFS_DATA_START_SECTOR) || negb (data_sectors v =? g_active_data_sectors (lay s))
  then (s, XAIOS_ERR_INVALID) else
  if negb (checksum v =? expected_checksum) then (bump checksum_error_count s, XAIOS_ERR_INVALID) else
  (s, if forallb (fun i => node_ok (lay s) (node s i)) (seqZ 0 (g_active_max_nodes (lay s)))
      then XAIOS_OK else XAIOS_ERR_INVALID).

Definition empty_volume (l : active_layout) : xaios_mfs_state :=
  mk_vol MFS_MAGIC (g_active_version l) MFS_SECTOR_SIZE (g_active_metadata_sectors l) (g_active_max_nodes l)
    MFS_START_SECTOR MFS_JOURNAL_HEADER_SECTOR MFS_JOURNAL_DATA_SECTOR MFS_DATA_START_SECTOR (g_active_data_sectors l) 1 0
    0 (replicate 256 0) (replicate 64 zero_node).

Definition format_volume (s : fs D) : fs D * xaios_status :=
  match clear_journal (bump format_count (with_vol s (empty_volume (lay s)))) with
  | (s1, XAIOS_OK) => write_metadata s1
  | (s1, _) => (s1, XAIOS_ERR_IO)
  end.

Definition read_journal (s : fs D) : option xaios_mfs_journal := parse_journal <$> blk_read s MFS_JOURNAL_HEADER_SECTOR.

Definition replay_journal (s : fs D) : fs D * xaios_status :=
  match read_journal s with
  | None => (bump reject_count s, XAIOS_ERR_IO)
  | Some journal =>
      if negb (bool_decide (j_magic journal = MFS_JOURNAL_MAGIC)) || (j_state journal =? MFS_JOURNAL_EMPTY)
      then (s, XAIOS_OK) else
      if negb (j_version journal =? MFS_JOURNAL_VERSION) || negb (j_state journal =? MFS_JOURNAL_PENDING) ||
         negb (j_op journal =? MFS_JOURNAL_OP_WRITE_FILE) || (j_size journal =? 0) ||
         (MFS_SECTOR_SIZE <? j_size journal) || negb (journal_checksum journal =? j_checksum journal) ||
         negb (validate_path (c_str (j_path journal)))
      then clear_journal (bump reject_count (bump checksum_error_count s)) else
      match blk_read s MFS_JOURNAL_DATA_SECTOR with
      | None => (bump reject_count s, XAIOS_ERR_IO)
      | Some sector =>
          let data := take (Z.to_nat (j_size journal)) sector in
          if negb (fnv1a64 data =? j_content_hash journal)
          then clear_journal (bump reject_count (bump checksum_error_count s)) else
          match write_file s (c_str (j_path journal)) data with
          | (s1, XAIOS_OK) =>
              match clear_journal s1 with
              | (s2, XAIOS_OK) => (bump replay_count s2, XAIOS_OK)
              | (s2, _) => (s2, XAIOS_ERR_IO)
              end
          | (s1, _) => (s1, XAIOS_ERR_IO)
          end
      end
  end.

(** Load the volume that is on the device, or format it. *)
Definition load_or_format (s : fs D) : fs D * xaios_status :=
  let saved_checksum := checksum (vol s) in
  match validate_disk s (g_metadata_verified_checksum s) with
  | (s1, st) =>
      if is_ok st && (saved_checksum =? g_metadata_verified_checksum s1) then (bump boot_load_count s1, XAIOS_OK)
      else format_volume s1
  end.

Definition mount_root (s : fs D) : fs D * xaios_status :=
  match find_node s [47] true with
  | None => let '(s1, st) := create_dir s [47] in (s1, if is_ok st then XAIOS_OK else XAIOS_ERR_IO)
  | Some root =>
      if n_active (node s root) =? 0 then
        let '(s1, st) := restore_snapshot_node s root in (s1, if is_ok st then XAIOS_OK else XAIOS_ERR_IO)
      else if negb (n_type (node s root) =? MFS_NODE_DIR) then (bump reject_count s, XAIOS_ERR_INVALID)
      else (s, XAIOS_OK)
  end.

Definition mount_volume (s : fs D) (mount_flags : Z) : fs D * xaios_status :=
  let s0 := with_layout s set_active_v2 in
  if blk_capacity s0 <? MFS_DATA_START_SECTOR + g_active_data_sectors (lay s0)
  then (bump reject_count s0, XAIOS_ERR_IO) else
  match read_metadata (with_mount s0 (g_mounted s0) mount_flags) with
  | (s1, XAIOS_OK) =>
      match load_or_format s1 with
      | (s2, XAIOS_OK) =>
          match replay_journal (bump mount_count (with_mount s2 true (g_mount_flags s2))) with
          | (s3, XAIOS_OK) =>
              if negb (Z.land (g_mount_flags s3) MFS_MOUNT_READ_WRITE =? 0) then mount_root s3 else (s3, XAIOS_OK)
          | (s3, _) => (s3, XAIOS_ERR_IO)
          end
      | (s2, _) => (s2, XAIOS_ERR_IO)
      end
  | (s1, _) => (bump reject_count s1, XAIOS_ERR_IO)
  end.

(** Give up a persistent device. *)
Definition leave_persistent (s : fs D) : fs D := with_layout (with_devices s (disk s) None) set_active_v2.

(** [opened] is what the driver's [virtio_block_open_slot] gives for the slot. *)
Definition mutable_fs_mount_persistent (s : fs D) (opened : xaios_status + D) : fs D * xaios_status :=
  match opened with
  | inl e => (s, e)
  | inr handle =>
      if dev_capacity handle <? MFS_DATA_START_SECTOR + MFS_V3_DATA_SECTORS then (s, XAIOS_ERR_IO) else
      let s0 := with_mount (with_layout (with_devices s (disk s) (Some handle)) set_active_v3) false 0 in
      match read_metadata s0 with
      | (s1, XAIOS_OK) =>
          match load_or_format s1 with
          | (s2, XAIOS_OK) =>
              match replay_journal
                      (bump persistent_mount_count (bump mount_count (with_mount s2 true MFS_MOUNT_READ_WRITE))) with
              | (s3, XAIOS_OK) =>
                  match find_node s3 [47] true with
                  | None =>
                      match create_dir s3 [47] with
                      | (s4, XAIOS_OK) => (s4, XAIOS_OK)
                      | (s4, _) => (leave_persistent s4, XAIOS_ERR_IO)
                      end
                  | Some _ => (s3, XAIOS_OK)
                  end
              | (s3, _) => (leave_persistent s3, XAIOS_ERR_IO)
              end
          | (s2, _) => (leave_persistent s2, XAIOS_ERR_IO)
          end
      | (s1, _) => (leave_persistent s1, XAIOS_ERR_IO)
      end
  end.

(** ** The journal of a pending write *)

Definition pending_journal (path data : list Z) : xaios_mfs_journal :=
  mk_journal MFS_JOURNAL_MAGIC MFS_JOURNAL_VERSION MFS_JOURNAL_PENDING MFS_JOURNAL_OP_WRITE_FILE 0 (zlen data)
    (fnv1a64 data) 0 (copy_path (replicate 96 0) path) (replicate 368 0).

Definition write_pending_journal_file (s : fs D) (path data : list Z) : fs D * xaios_status :=
  if negb (validate_path path) || (zlen data =? 0) || (MFS_SECTOR_SIZE <? zlen data)
  then (bump reject_count s, XAIOS_ERR_INVALID) else
  match blk_write s MFS_JOURNAL_DATA_SECTOR (pad_to 512 data) with
  | (s1, false) => (bump reject_count s1, XAIOS_ERR_IO)
  | (s1, true) => write_journal s1 (pending_journal path data)
  end.

(** ** Records of other subsystems *)

(** A record is written with its terminator. *)
Definition write_record (s : fs D) (path record : list Z) : fs D * xaios_status :=
  match write_file s path (record ++ [0]) with
  | (s1, XAIOS_OK) => (bump state_record_count s1, XAIOS_OK)
  | (s1, st) => (s1, st)
  end.

Definition text (t : string) : part := Text (chars t).
Definition newline : part := Text [10].

Definition mutable_fs_record_service_state (s : fs D) (name state : list Z) : fs D * xaios_status :=
  let base := basename_of name in
  match (if bool_decide (base = []) then None
         else build 96 [] [text "/state/services/"; Text base; text ".state"]),
        build 256 [] [text "service="; Text name; newline; text "state="; Text state; newline] with
  | Some path, Some record => write_record s path record
  | _, _ => (bump reject_count s, XAIOS_ERR_INVALID)
  end.

Definition mutable_fs_record_workspace_state (s : fs D) (workspace_id : Z) (revision : list Z) : fs D * xaios_status :=
  match build 96 [] [text "/state/workspaces/workspace-"; Number workspace_id; text ".state"],
        build 256 [] [text "workspace="; Number workspace_id; newline; text "path=/repo/workspaces/source-index";
                      newline; text "revision="; Text revision; newline] with
  | Some path, Some record => write_record s path record
  | _, _ => (bump reject_count s, XAIOS_ERR_INVALID)
  end.

Definition update_state_path : list Z := chars "/state/updates/update.state".

Definition mutable_fs_record_update_state (s : fs D) (policy : list Z) : fs D * xaios_status :=
  match build 256 [] [text "policy="; Text policy; newline; text "rollback=enabled"; newline] with
  | Some record => write_record s update_state_path record
  | None => (bump reject_count s, XAIOS_ERR_INVALID)
  end.

Definition mutable_fs_record_update_transaction (s : fs D) (g : Z) (state target rollback_label : list Z)
    : fs D * xaios_status :=
  match build 256 [] [text "policy=signed-update-required"; newline; text "transaction_generation="; Number g; newline;
                      text "state="; Text state; newline; text "target="; Text target; newline; text "rollback=";
                      Text rollback_label; newline] with
  | Some record => write_record s update_state_path record
  | None => (bump reject_count s, XAIOS_ERR_INVALID)
  end.

Definition mutable_fs_record_admin_status (s : fs D) (service state : list Z) (starts restarts logs : Z)
    : fs D * xaios_status :=
  match build 256 [] [text "admin=ssh-only"; newline; text "service="; Text service; newline; text "state="; Text state;
                      newline; text "starts="; Number starts; newline; text "restarts="; Number restarts; newline;
                      text "logs="; Number logs; newline; text "remote_safe=allowlist"; newline] with
  | Some record => write_record s (chars "/state/services/admin.state") record
  | None => (bump reject_count s, XAIOS_ERR_INVALID)
  end.

(** ** Open files *)

Definition handle_for_fd (s : fs D) (fd : Z) : option Z :=
  if (fd =? 0) || (MFS_MAX_OPEN_FILES <? fd) then None else
  if negb (in_use ((g_open_files s).[fd - 1]) =? 0) then Some (fd - 1) else None.

Definition handle (s : fs D) (h : Z) : xaios_mfs_file_handle := (g_open_files s).[h].

Definition set_cursor (s : fs D) (h c : Z) : fs D :=
  with_opens s (upd (g_open_files s) h (fun x => mk_handle (in_use x) (flags x) c (h_path x))).

Definition reset_open_files (s : fs D) : fs D :=
  with_opens s ((fun x => mk_handle 0 0 0 ((h_path x).[0 <- 0])) <$> g_open_files s).

Definition has (fl bit : Z) : bool := negb (Z.land fl bit =? 0).

(** The slot that the open file takes. *)
Definition take_handle (s : fs D) (path : list Z) (fl : Z) : fs D * Z :=
  match first_below MFS_MAX_OPEN_FILES (fun i => in_use (handle s i) =? 0) with
  | Some i =>
      (bump open_count (with_opens s
         (upd (g_open_files s) i (fun x => mk_handle 1 fl 0 (copy_path (h_path x) path)))), i + 1)
  | None => (bump reject_count s, status_code XAIOS_ERR_NO_MEMORY)
  end.

Definition mutable_fs_open (s : fs D) (path : list Z) (fl : Z) : fs D * Z :=
  match normalize_path path with
  | None => (bump reject_count s, status_code XAIOS_ERR_INVALID)
  | Some normalized =>
      if (Z.land fl 3 =? 0) || has fl (u32 (Z.lnot 15)) then (bump reject_count s, status_code XAIOS_ERR_INVALID) else
      let existing := find_node s normalized false in
      match existing with
      | None =>
          if negb (has fl XAIOS_MFS_OPEN_CREATE) then (bump reject_count s, status_code XAIOS_ERR_NOT_FOUND) else
          if negb (has fl XAIOS_MFS_OPEN_WRITE) || negb (parent_exists_for s normalized)
          then (bump reject_count s, status_code XAIOS_ERR_INVALID) else
          match write_file s normalized [] with
          | (s1, XAIOS_OK) =>
              if has fl XAIOS_MFS_OPEN_TRUNCATE && bool_decide (is_Some (find_node s1 normalized false)) then
                match write_file s1 normalized [] with
                | (s2, XAIOS_OK) => take_handle s2 normalized fl
                | (s2, _) => (s2, status_code XAIOS_ERR_IO)
                end
              else take_handle s1 normalized fl
          | (s1, _) => (s1, status_code XAIOS_ERR_IO)
          end
      | Some i =>
          if negb (n_type (node s i) =? MFS_NODE_FILE) then (bump reject_count s, status_code XAIOS_ERR_INVALID) else
          if has fl XAIOS_MFS_OPEN_TRUNCATE then
            match write_file s normalized [] with
            | (s1, XAIOS_OK) => take_handle s1 normalized fl
            | (s1, _) => (s1, status_code XAIOS_ERR_IO)
            end
          else take_handle s normalized fl
      end
  end.

(** The result and the bytes that go to the caller's buffer. *)
Definition mutable_fs_read_fd (s : fs D) (fd size : Z) : fs D * Z * list Z :=
  match handle_for_fd s fd with
  | None => (bump reject_count s, status_code XAIOS_ERR_INVALID, [])
  | Some h =>
      if (size =? 0) || negb (has (flags (handle s h)) XAIOS_MFS_OPEN_READ)
      then (bump reject_count s, status_code XAIOS_ERR_INVALID, []) else
      match read_file s (c_str (h_path (handle s h))) stack_buffer with
      | (s1, inl _) => (s1, status_code XAIOS_ERR_IO, [])
      | (s1, inr (file_buffer, file_size)) =>
          let c := cursor (handle s1 h) in
          if file_size <=? c then (s1, 0, []) else
          let copy := if file_size - c <? size then file_size - c else size in
          (set_cursor s1 h (u64 (c + copy)), copy, slice file_buffer (Z.to_nat c) (Z.to_nat copy))
      end
  end.

Definition mutable_fs_write_fd (s : fs D) (fd : Z) (buffer : list Z) : fs D * Z :=
  match handle_for_fd s fd with
  | None => (bump reject_count s, status_code XAIOS_ERR_INVALID)
  | Some h =>
      let c := cursor (handle s h) in
      let path := c_str (h_path (handle s h)) in
      if (zlen buffer =? 0) || negb (has (flags (handle s h)) XAIOS_MFS_OPEN_WRITE) ||
         (g_active_max_file_bytes (lay s) <? c) || (g_active_max_file_bytes (lay s) - c <? zlen buffer)
      then (bump reject_count s, status_code XAIOS_ERR_INVALID) else
      let '(s1, found) := match find_node s path false with
                          | None => (s, inr (stack_buffer, 0))
                          | Some _ => read_file s path stack_buffer
                          end in
      match found with
      | inl _ => (s1, status_code XAIOS_ERR_IO)
      | inr (file_buffer, file_size) =>
          let new_size := Z.max (c + zlen buffer) file_size in
          match write_file s1 path (take (Z.to_nat new_size) (blit file_buffer (Z.to_nat c) buffer)) with
          | (s2, XAIOS_OK) => (set_cursor s2 h (u64 (c + zlen buffer)), zlen buffer)
          | (s2, _) => (s2, status_code XAIOS_ERR_IO)
          end
      end
  end.

Definition mutable_fs_close (s : fs D) (fd : Z) : fs D * xaios_status :=
  match handle_for_fd s fd with
  | None => (bump reject_count s, XAIOS_ERR_INVALID)
  | Some h =>
      (bump close_count (with_opens s
         (upd (g_open_files s) h (fun x => mk_handle 0 0 0 ((h_path x).[0 <- 0])))), XAIOS_OK)
  end.

(** ** Consistency check *)

(** A block that a live file has among its blocks. *)
Definition referenced (s : fs D) (b : Z) : bool :=
  existsb (fun i => let n := node s i in
             negb (n_active n =? 0) && (n_type n =? MFS_NODE_FILE) &&
             existsb (fun k => (n_blocks n).[k] =? b) (seqZ 0 (n_block_count n)))
    (seqZ 0 (g_active_max_nodes (lay s))).

Definition mutable_fs_fsck (s : fs D) : xaios_mfs_fsck_result :=
  let errors := for_range (Z.to_nat (g_active_data_sectors (lay s))) 0
    (fun b e => if Bool.eqb (negb ((block_bitmap (vol s)).[b] =? 0)) (referenced s b) then e else e + 1) 0 in
  mk_fsck (errors =? 0) (g_active_version (lay s)) (node_count_by_type s MFS_NODE_FILE)
    (node_count_by_type s MFS_NODE_DIR) (block_count_used s) errors.

(** ** Boot self-test *)

(** The assertions: a call returns the status, a file reads as given, a file is missing, a
    condition holds. *)
Definition expect (st : xaios_status) (r : fs D * xaios_status) : option (fs D) :=
  if status_eqb r.2 st then Some r.1 else None.

Definition expect_file (s : fs D) (path data : list Z) : option (fs D) :=
  match read_file s path stack_buffer with
  | (s1, inr (b, size)) => if (size =? zlen data) && bool_decide (take (List.length data) b = data) then Some s1 else None
  | (_, inl _) => None
  end.

Definition expect_missing (s : fs D) (path : list Z) : option (fs D) :=
  match read_file s path stack_buffer with
  | (s1, inl XAIOS_ERR_NOT_FOUND) => Some s1
  | _ => None
  end.

Definition expect_stat (s : fs D) (path : list Z) (test : xaios_mfs_stat -> bool) : option (fs D) :=
  match stat_node s path with
  | (s1, inr st) => if test st then Some s1 else None
  | (_, inl _) => None
  end.

Definition expect_open (s : fs D) (path : list Z) (fl : Z) : option (fs D * Z) :=
  let '(s1, fd) := mutable_fs_open s path fl in if 0 <? fd then Some (s1, fd) else None.

Definition kassert (b : bool) : option unit := if b then Some tt else None.

(** A C string constant with its terminator. *)
Definition literal (lines : list string) : list Z := List.concat ((fun l => chars l ++ [10]) <$> lines) ++ [0].

Definition k_config_v1 : list Z := literal ["mode=qemu-full-os"; "mutable=true"]%string.
Definition k_service_running : list Z := literal ["service=/svc/source-index"; "state=running"]%string.
Definition k_service_restarting : list Z := literal ["service=/svc/source-index"; "state=restarting"]%string.
Definition k_update_state : list Z := literal ["policy=signed-update-required"; "rollback=enabled"]%string.
Definition k_boot_log : list Z := literal ["boot=ok"]%string.
Definition k_replayed_state : list Z := literal ["service=/svc/replayed"; "state=recovered"]%string.
Definition k_fd_payload : list Z := literal ["fd-api=ok"]%string.

Definition self_test_reset (s : fs D) : fs D :=
  let s1 := with_layout (with_devices (with_mount s false 0) (disk s) None) set_active_v2 in
  reset_open_files
    (mk_fs _ (vol s1) (g_open_files s1) (g_mounted s1) (g_mount_flags s1) (lay s1)
       (fun c => if decide (c = persistent_mount_count) then stats s1 c else 0) (g_metadata_verified_checksum s1)
       (disk s1) (g_persistent_handle s1)).

Fixpoint create_dirs (s : fs D) (l : list string) : option (fs D) :=
  match l with
  | [] => Some s
  | p :: l' => s1 ← expect XAIOS_OK (create_dir s (chars p)); create_dirs s1 l'
  end.

(** The part up to the first snapshot: directories, records, files, listing, rename. *)
Definition self_test_files (s : fs D) : option (fs D) :=
  s ← create_dirs s ["/etc"; "/bin"; "/state"; "/state/services"; "/state/workspaces"; "/state/updates"; "/config";
                     "/logs"; "/workspaces"; "/models"]%string;
  s ← expect XAIOS_OK (mutable_fs_record_service_state s (chars "/svc/source-index") (chars "running"));
  s ← expect XAIOS_OK (mutable_fs_record_workspace_state s 0 (chars "boot"));
  s ← expect XAIOS_OK (mutable_fs_record_update_state s (chars "signed-update-required"));
  s ← expect XAIOS_OK (mutable_fs_record_admin_status s (chars "/svc/source-index") (chars "running") 1 0 0);
  s ← expect XAIOS_OK (write_file s (chars "/config/xaios.conf") k_config_v1);
  let large := (fun i => 65 + Z.of_nat i mod 23) <$> seq 0 1536 in
  s ← expect XAIOS_OK (write_file s (chars "/state/services/large.state") large);
  s ← expect_file s (chars "/state/services/large.state") large;
  '(s, l) ← (let '(s1, (st, l)) := list_dir s (chars "/state") 512 in
             if is_ok st then Some (s1, l) else None);
  _ ← kassert (0 <? zlen l);
  s ← expect_stat s (chars "/state/services/large.state")
        (fun st => (st_type st =? MFS_NODE_FILE) && (st_size st =? zlen large));
  s ← expect XAIOS_OK (rename_node s (chars "/config/xaios.conf") (chars "/config/xaios-renamed.conf"));
  s ← expect_stat s (chars "/config/xaios-renamed.conf") (fun _ => true);
  expect_missing s (chars "/config/xaios.conf").

(** Open files. *)
Definition self_test_fds (s : fs D) : option (fs D) :=
  let log := chars "/logs/fd-api.log" in
  '(s, fd) ← expect_open s log 7;
  s ← (let '(s1, n) := mutable_fs_write_fd s (u32 fd) k_fd_payload in
       if n =? zlen k_fd_payload then Some s1 else None);
  s ← expect XAIOS_OK (mutable_fs_close s (u32 fd));
  '(s, fd) ← expect_open s log XAIOS_MFS_OPEN_READ;
  s ← (let '(s1, n, b) := mutable_fs_read_fd s (u32 fd) (zlen k_fd_payload) in
       if (n =? zlen k_fd_payload) && bool_decide (b = k_fd_payload) then Some s1 else None);
  s ← expect XAIOS_OK (mutable_fs_close s (u32 fd));
  '(s, fd) ← expect_open s log 11;
  s ← expect_stat s log (fun st => st_size st =? 0);
  s ← expect XAIOS_OK (mutable_fs_close s (u32 fd));
  (let '(s1, fd) := mutable_fs_open s (chars "/missing/nope") XAIOS_MFS_OPEN_READ in
   if fd =? status_code XAIOS_ERR_NOT_FOUND then Some s1 else None).

(** A snapshot, changes on top of it, and a write that is only in the journal. *)
Definition self_test_snapshot (s : fs D) : option (fs D) :=
  s ← expect XAIOS_OK (commit_snapshot s);
  s ← expect XAIOS_OK (write_file s (chars "/state/services/source-index.state") k_service_restarting);
  s ← expect XAIOS_OK (delete_node s update_state_path);
  s ← expect XAIOS_OK (write_file s (chars "/logs/boot.log") k_boot_log);
  expect XAIOS_OK (write_pending_journal_file s (chars "/state/services/replayed.state") k_replayed_state).

Definition self_test_remount (s : fs D) : option (fs D) :=
  s ← expect XAIOS_OK (mount_volume (with_mount s false (g_mount_flags s)) MFS_MOUNT_READ_WRITE);
  expect_file s (chars "/state/services/replayed.state") k_replayed_state.

Definition self_test_rollback (s : fs D) : option (fs D) :=
  s ← expect XAIOS_OK (rollback_snapshot s);
  s ← expect_file s (chars "/state/services/source-index.state") k_service_running;
  s ← expect_file s update_state_path k_update_state;
  s ← expect_missing s (chars "/logs/boot.log");
  s ← expect_missing s (chars "/state/services/replayed.state");
  s ← expect XAIOS_ERR_INVALID (write_file s (chars "/bad/missing-parent") k_config_v1);
  s ← expect XAIOS_OK (create_dir s (chars "/state/services/bad"));
  s ← expect XAIOS_ERR_BUSY (delete_node s (chars "/state/services"));
  s ← expect XAIOS_ERR_INVALID (write_file s (chars "/state/services/too-large") (replicate 8193 0));
  expect_missing s (chars "/state/missing.state").

Definition self_test_counts (s : fs D) : bool :=
  (stats s mount_count =? 2) && (1 <=? stats s format_count) && (stats s format_count <=? 2) &&
  (6 <=? node_count_by_type s MFS_NODE_FILE) && (11 <=? node_count_by_type s MFS_NODE_DIR) &&
  (12 <=? stats s write_count) && (5 <=? stats s read_count) && (stats s delete_count =? 1) &&
  (stats s commit_count =? 1) && (stats s rollback_count =? 1) && (stats s replay_count =? 1) &&
  (stats s journal_write_count =? 1) && (1 <=? stats s multi_sector_file_count) &&
  (stats s state_record_count =? 4) && (7 <=? stats s reject_count) && (stats s checksum_error_count =? 0) &&
  (stats s rename_count =? 1) && (stats s list_count =? 1) && (stats s stat_count =? 3) && (stats s open_count =? 3) &&
  (stats s close_count =? 3).

Definition mutable_fs_self_test (s : fs D) : option (fs D) :=
  let s := self_test_reset s in
  s ← expect XAIOS_OK (mount_volume s MFS_MOUNT_READ_WRITE);
  s ← expect XAIOS_OK (format_volume s);
  s ← self_test_files s;
  s ← self_test_fds s;
  s ← self_test_snapshot s;
  s ← self_test_remount s;
  s ← self_test_rollback s;
  _ ← kassert (self_test_counts s);
  Some s.

End Fs.

(** ** A disk in memory *)

Record ram_disk := mk_ram { sectors : gmap Z (list Z); capacity : Z }.

#[global] Instance ram_device : BlockDevice ram_disk := {
  dev_read d s := if (0 <=? s) && (s <? capacity d) then Some (default (replicate 512 0) (sectors d !! s)) else None;
  dev_write d s b :=
    if (0 <=? s) && (s <? capacity d) && (zlen b =? 512) then (mk_ram (<[s := b]> (sectors d)) (capacity d), true)
    else (d, false);
  dev_capacity d := capacity d
}.

#[global] Instance ram_device_laws : BlockDeviceLaws ram_disk.
Proof.
  split; simpl.
  - intros d s b d' H Hb. destruct (_ && _ && _) eqn:E; simplify_eq. simpl. breflect.
    rewrite H, H1. simpl. by rewrite lookup_insert_eq.
  - intros d s b d' ok s' H Hs. destruct (_ && _ && _); simplify_eq; [|done]. simpl.
    by rewrite lookup_insert_ne.
Qed.

Definition blank_disk : ram_disk := mk_ram ∅ 4096.

Definition boot_fs (d : ram_disk) : fs ram_disk :=
  mk_fs _ zero_vol (replicate 8 (mk_handle 0 0 0 (replicate 96 0))) false 0 set_active_v2 (fun _ => 0) 0 d None.

End Mfs.
