(* ===== verification/MfsStore.v ===== *)
(** * Volumes of the mutable file system (kernel/fs/mutable_fs.c)

    What a volume of [Mfs] stands for and when it is in order.  [Inv] is the invariant: no
    block belongs to two files or snapshots, the bitmap marks exactly the blocks that belong
    to one, every file is on the device in full, and a path names at most one node.  [now]
    and [saved] read off what the paths name, in memory and in the snapshot. *)

From S2P Require Import Prelude Mfs.
#[local] Open Scope Z_scope.
#[local] Open Scope list_scope.

Module MfsStore.
Import Mfs.

(** ** Bytes of a file in its blocks *)

(** The sector that holds the bytes of block [k]. *)
Definition chunk (data : list Z) (k : Z) : list Z :=
  pad_to 512 (slice data (Z.to_nat (k * MFS_SECTOR_SIZE)) (Z.to_nat (block_copy k (zlen data)))).

Lemma block_count_small n : 0 <= n <= 8192 -> block_count_for_size n = (n + 511) / 512.
Proof. intros. unfold block_count_for_size, MFS_SECTOR_SIZE, u16, u64. dlia. Qed.

Lemma block_count_bounds n :
  0 <= n <= 8192 -> 0 <= block_count_for_size n <= 16 /\ n <= 512 * block_count_for_size n < n + 512.
Proof. intros. rewrite block_count_small by done. dlia. Qed.

Lemma block_copy_small k n :
  0 <= n <= 8192 -> 0 <= k < block_count_for_size n ->
  0 < block_copy k n <= 512 /\ 512 * k + block_copy k n = Z.min n (512 * (k + 1)).
Proof.
  intros Hn Hk. pose proof (block_count_bounds n Hn). unfold block_copy, MFS_SECTOR_SIZE in *.
  rewrite u64_small by lia. case_if; lia.
Qed.

Lemma slice_length l off n : (off + n <= length l)%nat -> length (slice l off n) = n.
Proof. intros. unfold slice. rewrite length_take, length_drop. lia. Qed.

Lemma pad_to_length n l : (length l <= n)%nat -> length (pad_to n l) = n.
Proof. intros. unfold pad_to. rewrite length_app, length_replicate. lia. Qed.

Lemma take_pad_to n l m : m = length l -> take m (pad_to n l) = l.
Proof. intros ->. unfold pad_to. by rewrite take_app_length. Qed.

Lemma blit_extend data b m c :
  (m + c <= length data)%nat -> (length data <= length b)%nat ->
  blit (take m data ++ drop m b) m (slice data m c) = take (m + c) data ++ drop (m + c) b.
Proof.
  intros H1 H2. unfold blit.
  rewrite take_app_length' by (rewrite length_take; lia).
  rewrite slice_length by lia.
  rewrite drop_app_ge by (rewrite length_take; lia).
  rewrite length_take, drop_drop.
  rewrite <- (take_take_drop data m c), <- app_assoc. do 3 f_equal. lia.
Qed.

Lemma chunk_length data k :
  zlen data <= 8192 -> 0 <= k < block_count_for_size (zlen data) -> length (chunk data k) = 512%nat.
Proof.
  intros Hd Hk. pose proof (block_copy_small k (zlen data) ltac:(zlia) Hk) as [? ?].
  unfold chunk. apply pad_to_length. unfold slice. rewrite length_take. lia.
Qed.

Lemma take_chunk data k :
  zlen data <= 8192 -> 0 <= k < block_count_for_size (zlen data) ->
  take (Z.to_nat (block_copy k (zlen data))) (chunk data k) =
  slice data (Z.to_nat (k * MFS_SECTOR_SIZE)) (Z.to_nat (block_copy k (zlen data))).
Proof.
  intros Hd Hk. pose proof (block_copy_small k (zlen data) ltac:(zlia) Hk) as [? ?].
  unfold chunk. apply take_pad_to. symmetry. apply slice_length. unfold MFS_SECTOR_SIZE. zlia.
Qed.

(** A directory, or a file with its contents. *)
Inductive entry := Dir | File (data : list Z).


Section Store.
Context {D : Type} `{!BlockDevice D} `{!BlockDeviceLaws D}.
Implicit Types s : fs D.

(** The blocks hold the file. *)
Definition holds s (blocks : list Z) (count : Z) (data : list Z) : Prop :=
  zlen data <= 8192 /\ count = block_count_for_size (zlen data) /\ length blocks = 16%nat /\
  forall k, 0 <= k < count -> blk_read s (absolute_data_sector (blocks.[k])) = Some (chunk data k).

Lemma read_blocks_from_holds s blocks count data buffer n i :
  holds s blocks count data -> zlen data <= zlen buffer -> 0 <= i -> i + Z.of_nat n = count ->
  read_blocks_from n s i blocks
    (take (Z.to_nat (i * 512)) data ++ drop (Nat.min (Z.to_nat (i * 512)) (length data)) buffer) (zlen data)
  = Some (data ++ drop (length data) buffer).
Proof.
  intros (Hd & Hc & Hlen & Hr) Hb. revert i. induction n as [|n IH]; intros i Hi Hin; simpl.
  - pose proof (block_count_bounds (zlen data) ltac:(zlia)).
    rewrite take_ge by zlia. by rewrite Nat.min_r by zlia.
  - rewrite Hr by lia. simpl. pose proof (block_copy_small i (zlen data) ltac:(zlia) ltac:(lia)) as [Hc1 Hc2].
    rewrite take_chunk by (done || lia). unfold MFS_SECTOR_SIZE.
    rewrite Nat.min_l by zlia.
    rewrite blit_extend by zlia. rewrite <- (IH (i + 1)) by lia.
    f_equal. f_equal; [|f_equal; zlia].
    destruct (decide (512 * (i + 1) <= zlen data)); [f_equal; zlia|]. rewrite !take_ge by zlia. done.
Qed.

Lemma read_blocks_holds s blocks count data buffer :
  holds s blocks count data -> zlen data <= zlen buffer ->
  read_blocks s blocks count buffer (zlen data) = (s, Some (data ++ drop (length data) buffer)).
Proof.
  intros H Hb. pose proof H as (Hd & Hc & _). unfold read_blocks.
  pose proof (block_count_bounds (zlen data) ltac:(zlia)).
  pose proof (read_blocks_from_holds s blocks count data buffer (Z.to_nat count) 0 H Hb ltac:(lia) ltac:(lia)) as E.
  simpl in E. rewrite drop_0 in E. by rewrite E.
Qed.

(** ** The device *)

(** Every sector of the volume can be written, now and after any such writes. *)
Definition dependable (d : D) : Prop :=
  exists P : D -> Prop, P d /\
  forall d sec b, P d -> 3072 <= sec < 3186 -> length b = 512%nat -> exists d', dev_write d sec b = (d', true) /\ P d'.

Lemma blk_write_device s sec b s' ok :
  blk_write s sec b = (s', ok) -> 3072 <= sec < 3186 -> length b = 512%nat -> dependable (current_device s) ->
  ok = true /\ dependable (current_device s').
Proof.
  unfold blk_write, current_device. intros H Hs Hb (P & HP & Hw).
  destruct (g_persistent_handle s) as [d|]; simpl in HP;
    destruct (Hw _ sec b HP Hs Hb) as (d' & E & HP'); rewrite E in H; simplify_eq; (split; [done|]); by exists P.
Qed.

(** ** What an operation leaves alone *)

(** The nodes and the bitmap become the given ones and the blocks in [touched] may have been
    written; else only counters, checksums and sectors outside the data area may differ. *)
Record evolves (nds : list xaios_mfs_node) (bm touched : list Z) s s' : Prop := {
  e_nodes : nodes (vol s') = nds;
  e_bitmap : block_bitmap (vol s') = bm;
  e_generation : generation (vol s') = generation (vol s);
  e_committed : committed_generation (vol s') = committed_generation (vol s);
  e_layout : lay s' = lay s;
  e_mounted : g_mounted s' = g_mounted s;
  e_flags : g_mount_flags s' = g_mount_flags s;
  e_opens : g_open_files s' = g_open_files s;
  e_data b : 0 <= b -> b ∉ touched -> blk_read s' (absolute_data_sector b) = blk_read s (absolute_data_sector b);
  e_device : dependable (current_device s) -> dependable (current_device s')
}.

Definition keeps s s' : Prop := evolves (nodes (vol s)) (block_bitmap (vol s)) [] s s'.

Lemma evolves_trans n1 b1 X1 n2 b2 X2 s1 s2 s3 :
  evolves n1 b1 X1 s1 s2 -> evolves n2 b2 X2 s2 s3 -> evolves n2 b2 (X1 ++ X2) s1 s3.
Proof.
  intros [] []. constructor; try congruence; [|by auto].
  intros b Hb Hin. rewrite elem_of_app in Hin. rewrite e_data1 by tauto. apply e_data0; tauto.
Qed.

#[global] Instance keeps_preorder : PreOrder keeps.
Proof.
  split; [by constructor|]. intros s1 s2 s3 H1 H2. unfold keeps in *.
  rewrite (e_nodes _ _ _ _ _ H1), (e_bitmap _ _ _ _ _ H1) in H2. exact (evolves_trans _ _ _ _ _ _ _ _ _ H1 H2).
Qed.

Lemma evolves_keeps n b X s1 s2 s3 : evolves n b X s1 s2 -> keeps s2 s3 -> evolves n b X s1 s3.
Proof.
  intros H1 H2. unfold keeps in H2. rewrite (e_nodes _ _ _ _ _ H1), (e_bitmap _ _ _ _ _ H1) in H2.
  rewrite <- (app_nil_r X). by eapply evolves_trans.
Qed.

Lemma bump_keeps c s : keeps s (bump c s).
Proof. by constructor. Qed.

Lemma blk_write_spec s sec b s' ok :
  blk_write s sec b = (s', ok) ->
  vol s' = vol s /\ lay s' = lay s /\ g_mounted s' = g_mounted s /\ g_mount_flags s' = g_mount_flags s /\
  g_open_files s' = g_open_files s /\
  (forall t, t <> sec -> blk_read s' t = blk_read s t) /\
  (ok = true -> length b = 512%nat -> blk_read s' sec = Some b).
Proof.
  unfold blk_write. intros H.
  destruct (g_persistent_handle s) as [p|] eqn:Hp; destruct (dev_write _ _ _) as [d o] eqn:Hw; simplify_eq;
    split_and!; try done; unfold blk_read, current_device; rewrite ?Hp; simpl.
  - intros t Ht. by eapply dev_write_other.
  - intros -> Hb. by eapply dev_write_read.
  - intros t Ht. by eapply dev_write_other.
  - intros -> Hb. by eapply dev_write_read.
Qed.

Lemma blk_write_keeps s sec b s' ok :
  blk_write s sec b = (s', ok) -> 3072 <= sec < MFS_DATA_START_SECTOR -> length b = 512%nat ->
  keeps s s' /\ (dependable (current_device s) -> ok = true).
Proof.
  intros H Hs Hb. unfold MFS_DATA_START_SECTOR in Hs.
  pose proof (blk_write_device s sec b s' ok H ltac:(lia) Hb) as Hd.
  apply blk_write_spec in H as (Hv & ? & ? & ? & ? & Hr & _). split; [|tauto]. constructor; rewrite ?Hv; try done; [|tauto].
  intros k Hk _. apply Hr. unfold absolute_data_sector, MFS_DATA_START_SECTOR. lia.
Qed.

Lemma write_sectors_keeps n s i raw s' ok :
  write_sectors n s i raw = (s', ok) -> 0 <= i -> i + Z.of_nat n <= 16 -> 8192 <= zlen raw ->
  keeps s s' /\ (dependable (current_device s) -> ok = true).
Proof.
  revert s i. induction n as [|n IH]; cbn [write_sectors]; intros s i H Hi Hn Hr; simplify_eq; [done|].
  destruct (blk_write _ _ _) as [s1 o] eqn:Hw.
  apply blk_write_keeps in Hw as [Hw Ho];
    [|unfold MFS_START_SECTOR, MFS_DATA_START_SECTOR; lia|apply slice_length; unfold MFS_SECTOR_SIZE; zlia].
  destruct o; simplify_eq; [|done]. apply IH in H as [H1 H2]; [|lia..]. split; [by etrans|].
  intros Hd. apply H2, (e_device _ _ _ _ _ Hw), Hd.
Qed.

Lemma pad_to_ge n l : (n <= length (pad_to n l))%nat.
Proof. unfold pad_to. rewrite length_app, length_replicate. lia. Qed.

Lemma blit_length l off b : (off + length b <= length l)%nat -> length (blit l off b) = length l.
Proof. intros. unfold blit. rewrite !length_app, length_take, length_drop. lia. Qed.

Lemma le_bytes_length n v : length (le_bytes n v) = n.
Proof. revert v. induction n as [|n IH]; intros v; simpl; [done|]. by rewrite IH. Qed.

(** The metadata is written, or the device has failed. *)
Definition written s (st : xaios_status) : Prop :=
  st = XAIOS_OK \/ (st = XAIOS_ERR_IO /\ ~ dependable (current_device s)).

Lemma write_metadata_keeps s s' st :
  write_metadata s = (s', st) -> lay s = set_active_v2 -> keeps s s' /\ written s st.
Proof.
  unfold write_metadata. intros H Hl. set (raw := pad_to _ _) in H. set (sum := mfs_checksum _ _) in H.
  assert (Hn : 0 + Z.of_nat (Z.to_nat (g_active_metadata_sectors (lay s))) <= 16) by (by rewrite Hl).
  assert (Hr : 8192 <= zlen (blit raw CHECKSUM_OFFSET (le_bytes 8 sum))).
  { pose proof (pad_to_ge (Z.to_nat RAW_BYTES) (volume_bytes (vol s) (if g_active_version (lay s) =? MFS_V3_VERSION
      then 256%nat else 96%nat) (if g_active_version (lay s) =? MFS_V3_VERSION then 64%nat else 32%nat))) as Hp.
    fold raw in Hp. unfold RAW_BYTES, CHECKSUM_OFFSET in *. unfold zlen. rewrite blit_length; rewrite ?le_bytes_length; lia. }
  destruct (write_sectors _ _ _ _) as [s2 ok] eqn:Hw. apply write_sectors_keeps in Hw as [Hw Ho]; [|done..].
  destruct ok; simplify_eq.
  - split; [|by left]. destruct Hw. by constructor.
  - split; [|right; split; [done|]; intros Hd; by specialize (Ho Hd)].
    etrans; [|apply bump_keeps]. destruct Hw. by constructor.
Qed.

(** ** Blocks *)

(** The bitmap marks exactly these blocks. *)
Record marks (bm l : list Z) : Prop := {
  m_length : zlen bm = 256;
  m_nodup : NoDup l;
  m_range : Forall (fun b => 0 <= b < 96) l;
  m_exact b : 0 <= b < 96 -> (bm.[b] =? 0) = negb (bool_decide (b ∈ l))
}.

#[global] Instance marks_perm bm : Proper (Permutation ==> iff) (marks bm).
Proof.
  intros l k H. split; intros [Hl Hn Hr He]; constructor; try done.
  - by rewrite <- H.
  - by rewrite <- H.
  - intros b Hb. rewrite He by done. f_equal. apply bool_decide_ext. by rewrite H.
  - by rewrite H.
  - by rewrite H.
  - intros b Hb. rewrite He by done. f_equal. apply bool_decide_ext. by rewrite H.
Qed.

Lemma marks_add bm l b : marks bm l -> 0 <= b < 96 -> (bm.[b] =? 0) = true -> marks (bm.[b <- 1]) (b :: l).
Proof.
  intros [Hl Hn Hr He] Hb Hz. rewrite He in Hz by done. rewrite negb_true_iff, bool_decide_eq_false in Hz.
  constructor.
  - by rewrite zlen_set.
  - by constructor.
  - by constructor.
  - intros c Hc. destruct (decide (c = b)) as [->|Hne].
    + rewrite arr_get_set_eq by lia. by rewrite bool_decide_eq_true_2 by set_solver.
    + rewrite arr_get_set_ne, He by lia. f_equal. apply bool_decide_ext. set_solver.
Qed.

Lemma marks_remove bm l b : marks bm (b :: l) -> marks (bm.[b <- 0]) l.
Proof.
  intros [Hl Hn Hr He]. apply NoDup_cons in Hn as [Hbl Hn]. apply Forall_cons in Hr as [Hb Hr]. constructor; try done.
  - by rewrite zlen_set.
  - intros c Hc. destruct (decide (c = b)) as [->|Hne].
    + rewrite arr_get_set_eq by lia. by rewrite bool_decide_eq_false_2.
    + rewrite arr_get_set_ne, He by lia. f_equal. apply bool_decide_ext. set_solver.
Qed.

Lemma marks_member bm l b : marks bm l -> b ∈ l -> 0 <= b < 96 /\ (bm.[b] =? 0) = false.
Proof.
  intros [_ _ Hr He] Hb. rewrite Forall_forall in Hr. specialize (Hr _ Hb). split; [done|].
  rewrite He by done. by rewrite bool_decide_eq_true_2.
Qed.

(** The blocks of a block array that are in use. *)
Definition used (count : Z) (blocks : list Z) : list Z := take (Z.to_nat count) blocks.

Lemma set_block_evolves s b x :
  evolves (nodes (vol s)) ((block_bitmap (vol s)).[b <- x]) [] s (set_block s b x).
Proof. by constructor. Qed.

(** Blocks set or cleared. *)
Definition rebitmap s s' : Prop := evolves (nodes (vol s)) (block_bitmap (vol s')) [] s s'.

#[global] Instance rebitmap_preorder : PreOrder rebitmap.
Proof.
  split; [by constructor|]. intros s1 s2 s3 H1 H2. unfold rebitmap in *.
  rewrite (e_nodes _ _ _ _ _ H1) in H2. exact (evolves_trans _ _ _ _ _ _ _ _ _ H1 H2).
Qed.

Lemma set_block_rebitmap c s b x : rebitmap s (bump c (set_block s b x)).
Proof. by constructor. Qed.

Lemma alloc_loop_spec n s i count found s' found' l :
  alloc_loop n s i count found = (s', found') -> 0 <= i -> i + Z.of_nat n <= 96 -> zlen found <= count ->
  marks (block_bitmap (vol s)) (found ++ l) ->
  (forall b, 0 <= b < i -> b ∈ found ++ l) ->
  rebitmap s s' /\ zlen found' <= count /\ marks (block_bitmap (vol s')) (found' ++ l) /\
  (zlen found' < count -> forall b, 0 <= b < i + Z.of_nat n -> b ∈ found' ++ l).
Proof.
  revert s i found. induction n as [|n IH]; cbn [alloc_loop]; intros s i found H Hi Hn Hf Hm Hall; simplify_eq.
  { split_and!; [done..|]. intros _ b Hb. apply Hall. lia. }
  destruct (Z.ltb_spec (zlen found) count); simplify_eq; [|split_and!; [done..|lia]].
  destruct (_ =? 0) eqn:Hz.
  - apply IH in H as (Hr & Hc & Hm' & Hf'); [|lia|lia|unfold zlen in *; rewrite length_app; simpl; lia| |].
    + split_and!; [etrans; [apply set_block_rebitmap|done]|done..|]. intros Hlt b Hb. apply Hf'; [done|lia].
    + rewrite <- app_assoc. simpl. rewrite <- Permutation_middle. apply marks_add; [done|lia|done].
    + intros b Hb. destruct (decide (b = i)) as [->|]; [set_solver|]. specialize (Hall b ltac:(lia)). set_solver.
  - apply IH in H as (Hr & Hc & Hm' & Hf'); [|lia|lia|done|done|].
    + split_and!; [done..|]. intros Hlt b Hb. apply Hf'; [done|lia].
    + intros b Hb. destruct (decide (b = i)) as [->|]; [|apply Hall; lia].
      rewrite (m_exact _ _ Hm) in Hz by lia. by apply negb_false_iff, bool_decide_eq_true in Hz.
Qed.

(** All blocks are marked. *)
Lemma all_marked bm l : marks bm l -> (forall b, 0 <= b < 96 -> b ∈ l) -> 96 <= zlen l.
Proof.
  intros Hm Hall. assert (Hs : seqZ 0 96 ⊆+ l).
  { apply NoDup_submseteq; [apply NoDup_seqZ|]. intros b Hb%elem_of_seqZ. apply Hall. lia. }
  apply submseteq_length in Hs. rewrite length_seqZ in Hs. zlia.
Qed.

Lemma drop_found_spec s found l :
  marks (block_bitmap (vol s)) (found ++ l) ->
  let s' := foldl (fun s b => bump free_count (set_block s b 0)) s found in
  rebitmap s s' /\ marks (block_bitmap (vol s')) l.
Proof.
  revert s. induction found as [|b found IH]; simpl; intros s Hm; [by split|].
  apply marks_remove in Hm. destruct (IH (bump free_count (set_block s b 0)) Hm) as [Hr Hm']. split; [|done].
  etrans; [apply set_block_rebitmap|done].
Qed.

(** Allocation marks as many new blocks as asked for, or none when they do not fit. *)
Lemma allocate_blocks_spec s count s' r l :
  allocate_blocks s count = (s', r) -> lay s = set_active_v2 -> 0 <= count -> marks (block_bitmap (vol s)) l ->
  rebitmap s s' /\
  match r with
  | None => marks (block_bitmap (vol s')) l /\ (count <= 16 -> 96 < count + zlen l)
  | Some blocks => count <= 16 /\ length blocks = 16%nat /\ marks (block_bitmap (vol s')) (used count blocks ++ l)
  end.
Proof.
  unfold allocate_blocks. intros H Hl Hc Hm. rewrite Hl in H. cbn [g_active_file_max_blocks g_active_data_sectors set_active_v2] in H.
  destruct (Z.ltb_spec 16 count); simplify_eq; [split_and!; [done..|lia]|].
  destruct (Z.eqb_spec count 0) as [->|]; simplify_eq; [by split|].
  destruct (alloc_loop _ _ _ _ _) as [s1 found] eqn:Ha.
  apply alloc_loop_spec with (l := l) in Ha as (Hr & Hf & Hm' & Hall); [|lia..|unfold zlen; simpl; lia|done|lia].
  destruct (Z.eqb_spec (zlen found) count); simplify_eq.
  - split; [done|]. split; [lia|]. rewrite pad_to_length by zlia. split; [done|].
    unfold used. rewrite take_pad_to by zlia. done.
  - destruct (drop_found_spec s1 found l Hm') as [Hr2 Hm2]. split_and!; [|done|].
    + etrans; [done|]. etrans; [done|]. by constructor.
    + intros _. pose proof (all_marked _ _ Hm' (Hall ltac:(lia))) as Hlen. unfold zlen in *.
      rewrite length_app in Hlen. lia.
Qed.

(** Freeing blocks that are marked clears exactly their marks. *)
Lemma free_blocks_spec s count blocks l :
  lay s = set_active_v2 -> 0 <= count <= zlen blocks -> marks (block_bitmap (vol s)) (used count blocks ++ l) ->
  rebitmap s (free_blocks s count blocks) /\ marks (block_bitmap (vol (free_blocks s count blocks))) l.
Proof.
  intros Hl Hc Hm. unfold free_blocks.
  match goal with |- rebitmap _ ?t /\ _ => set (s' := t) end.
  assert (H : rebitmap s s' /\ marks (block_bitmap (vol s')) (drop (Z.to_nat count) (used count blocks) ++ l)).
  2:{ rewrite drop_ge in H; [done|]. unfold used. rewrite length_take. lia. }
  apply (for_upto_ind (fun i t => rebitmap s t /\
           marks (block_bitmap (vol t)) (drop (Z.to_nat i) (used count blocks) ++ l))); [lia|by split|].
  intros i t Hi [Hr Hi2].
  assert (Hb : used count blocks !! Z.to_nat i = Some (blocks.[i])).
  { unfold used. rewrite lookup_take by lia. rewrite decide_True by lia. apply arr_lookup. lia. }
  rewrite (drop_S _ _ _ Hb) in Hi2. replace (Z.to_nat (i + 1)) with (S (Z.to_nat i)) by lia.
  pose proof (marks_member _ _ (blocks.[i]) Hi2 ltac:(set_solver)) as [Hrange Hset].
  rewrite (e_layout _ _ _ _ _ Hr), Hl, Hset. cbn [g_active_data_sectors set_active_v2 negb].
  rewrite (proj2 (Z.ltb_lt _ _)) by lia. simpl. split; [etrans; [done|apply set_block_rebitmap]|].
  by apply marks_remove.
Qed.

Lemma used_get count blocks k :
  0 <= k < count -> count <= zlen blocks -> used count blocks !! Z.to_nat k = Some (blocks.[k]).
Proof. intros. unfold used. rewrite lookup_take by lia. rewrite decide_True by lia. apply arr_lookup. lia. Qed.

(** Blocks may have been written, nothing else changed. *)
Definition rewrites (touched : list Z) s s' : Prop :=
  evolves (nodes (vol s)) (block_bitmap (vol s)) touched s s'.

Lemma rewrites_trans X s1 s2 s3 : rewrites X s1 s2 -> rewrites X s2 s3 -> rewrites X s1 s3.
Proof.
  unfold rewrites. intros H1 H2. rewrite (e_nodes _ _ _ _ _ H1), (e_bitmap _ _ _ _ _ H1) in H2.
  destruct (evolves_trans _ _ _ _ _ _ _ _ _ H1 H2). constructor; try done.
  intros b Hb Hx. apply e_data0; [done|]. rewrite elem_of_app. tauto.
Qed.

Lemma write_block_step s blocks count k b s' ok :
  blk_write s (absolute_data_sector (blocks.[k])) b = (s', ok) -> 0 <= k < count -> count <= zlen blocks ->
  NoDup (used count blocks) -> Forall (fun b => 0 <= b < 96) (used count blocks) ->
  length b = 512%nat ->
  rewrites (used count blocks) s s' /\ (dependable (current_device s) -> ok = true) /\
  (forall j, 0 <= j < count -> j <> k ->
     blk_read s' (absolute_data_sector (blocks.[j])) = blk_read s (absolute_data_sector (blocks.[j]))) /\
  (ok = true -> blk_read s' (absolute_data_sector (blocks.[k])) = Some b).
Proof.
  intros H Hk Hc Hn Hall Hb. pose proof (used_get count blocks k Hk Hc) as Hgk.
  pose proof (blk_write_device _ _ _ _ _ H) as Hd. pose proof (Forall_lookup_1 _ _ _ _ Hall Hgk) as Hrange.
  unfold absolute_data_sector, MFS_DATA_START_SECTOR in Hd. specialize (Hd ltac:(cbv beta in Hrange; lia) Hb).
  apply blk_write_spec in H as (Hv & Hl & Hm & Hf & Ho & Hr & Hw). split; [|split; [tauto|split]].
  - constructor; rewrite ?Hv; try done; [|tauto]. intros c Hc0 Hin. apply Hr. unfold absolute_data_sector. intros E.
    apply Hin. replace c with (blocks.[k]) by lia. by eapply list_elem_of_lookup_2.
  - intros j Hj Hjk. apply Hr. unfold absolute_data_sector. intros E.
    pose proof (used_get count blocks j Hj Hc) as Hgj. replace (blocks.[j]) with (blocks.[k]) in Hgj by lia.
    apply Hjk. pose proof (NoDup_lookup _ _ _ _ Hn Hgj Hgk). lia.
  - auto.
Qed.

Lemma write_blocks_from_spec n s i blocks count data s' ok :
  write_blocks_from n s i blocks data (zlen data) = (s', ok) ->
  zlen data <= 8192 -> count = block_count_for_size (zlen data) -> length blocks = 16%nat ->
  NoDup (used count blocks) -> Forall (fun b => 0 <= b < 96) (used count blocks) ->
  0 <= i -> i + Z.of_nat n = count ->
  (forall k, 0 <= k < i -> blk_read s (absolute_data_sector (blocks.[k])) = Some (chunk data k)) ->
  rewrites (used count blocks) s s' /\ (dependable (current_device s) -> ok = true) /\
  (ok = true -> forall k, 0 <= k < count -> blk_read s' (absolute_data_sector (blocks.[k])) = Some (chunk data k)).
Proof.
  intros H Hd Hc Hlen Hn Hr. assert (Hc16 : count <= zlen blocks).
  { pose proof (block_count_bounds (zlen data) ltac:(zlia)). zlia. }
  revert s i H. induction n as [|n IH]; intros s i H Hi Hin Hold; cbn [write_blocks_from] in H.
  - simplify_eq. split_and!; [by constructor|done|]. intros _ k Hk. apply Hold. lia.
  - destruct (blk_write _ _ _) as [s1 o] eqn:Hw. change (pad_to 512 _) with (chunk data i) in Hw.
    apply (write_block_step s blocks count i) in Hw as (Hs1 & Hdev & Hother & Hthis);
      [|lia|done..|apply chunk_length; lia].
    destruct o; simplify_eq.
    + apply IH in H as (H1 & Hd1 & H2); [|lia..|].
      * split_and!; [by eapply rewrites_trans| |done]. intros Hok. apply Hd1, (e_device _ _ _ _ _ Hs1), Hok.
      * intros k Hk. destruct (decide (k = i)) as [->|]; [by apply Hthis|]. rewrite Hother by lia. apply Hold. lia.
    + split_and!; [|intros Hok; by specialize (Hdev Hok)|done]. by eapply evolves_keeps, bump_keeps.
Qed.

(** After a successful write the blocks hold the data. *)
Lemma write_blocks_spec s blocks count data s' ok :
  write_blocks s blocks count data (zlen data) = (s', ok) ->
  zlen data <= 8192 -> count = block_count_for_size (zlen data) -> length blocks = 16%nat ->
  NoDup (used count blocks) -> Forall (fun b => 0 <= b < 96) (used count blocks) ->
  rewrites (used count blocks) s s' /\ (dependable (current_device s) -> ok = true) /\
  (ok = true -> holds s' blocks count data).
Proof.
  unfold write_blocks. intros H Hd Hc Hlen Hn Hr.
  pose proof (block_count_bounds (zlen data) ltac:(zlia)).
  apply (write_blocks_from_spec _ _ _ _ count) in H as (H1 & Hdev & H2); [|done..|lia|lia|].
  - split; [done|]. split; [done|]. intros Hok. by split_and!; auto.
  - intros; lia.
Qed.

(** ** Nodes *)

Definition path_of s i : list Z := c_str (n_path (node s i)).

Definition file_data s (blocks : list Z) (count size : Z) : list Z :=
  match read_blocks_from (Z.to_nat count) s 0 blocks stack_buffer size with
  | Some b => take (Z.to_nat size) b
  | None => []
  end.

(** What a node stands for now, and in the snapshot. *)
Definition cur s i : option entry :=
  let n := node s i in
  if n_active n =? 0 then None else
  Some (if n_type n =? MFS_NODE_DIR then Dir else File (file_data s (n_blocks n) (n_block_count n) (n_size n))).

Definition snap s i : option entry :=
  let n := node s i in
  if n_snapshot_active n =? 0 then None else
  Some (if n_snapshot_type n =? MFS_NODE_DIR then Dir
        else File (file_data s (n_snapshot_blocks n) (n_snapshot_block_count n) (n_snapshot_size n))).

Definition now_blocks (n : xaios_mfs_node) : list Z :=
  if negb (n_active n =? 0) && (n_type n =? MFS_NODE_FILE) then used (n_block_count n) (n_blocks n) else [].
Definition snap_blocks (n : xaios_mfs_node) : list Z :=
  if negb (n_snapshot_active n =? 0) && (n_snapshot_type n =? MFS_NODE_FILE)
  then used (n_snapshot_block_count n) (n_snapshot_blocks n) else [].
Definition owned_node (n : xaios_mfs_node) : list Z := now_blocks n ++ snap_blocks n.

Definition owned s : list Z := List.concat ((fun i => owned_node (node s i)) <$> seqZ 0 32).
Definition others s i : list Z :=
  List.concat ((fun j => owned_node (node s j)) <$> filter (fun j => j <> i) (seqZ 0 32)).

(** A file on the device, with its size and hash in the node. *)
Definition file_ok s (blocks : list Z) (count size hash : Z) : Prop :=
  exists data, holds s blocks count data /\ size = zlen data /\ hash = fnv1a64 data.

Record node_wf s (n : xaios_mfs_node) : Prop := {
  w_path : node_is_visible n = true -> validate_path (c_str (n_path n)) = true;
  w_now : (n_active n =? 0) = false ->
    n_type n = MFS_NODE_DIR \/
    n_type n = MFS_NODE_FILE /\ file_ok s (n_blocks n) (n_block_count n) (n_size n) (n_content_hash n);
  w_snap : (n_snapshot_active n =? 0) = false ->
    n_snapshot_type n = MFS_NODE_DIR \/
    n_snapshot_type n = MFS_NODE_FILE /\
    file_ok s (n_snapshot_blocks n) (n_snapshot_block_count n) (n_snapshot_size n) (n_snapshot_hash n)
}.

Record Inv s : Prop := {
  i_layout : lay s = set_active_v2;
  i_nodes : zlen (nodes (vol s)) = 64;
  i_node i : 0 <= i < 32 -> node_wf s (node s i);
  i_marks : marks (block_bitmap (vol s)) (owned s);
  i_paths i j : 0 <= i < 32 -> 0 <= j < 32 -> node_is_visible (node s i) = true -> node_is_visible (node s j) = true ->
    path_of s i = path_of s j -> i = j;
  i_new i : 0 <= i < 32 -> (n_active (node s i) =? 0) = false -> (n_snapshot_active (node s i) =? 0) = true ->
    committed_generation (vol s) <= n_generation (node s i);
  i_committed : committed_generation (vol s) <= generation (vol s)
}.

Lemma holds_frame s s' blocks count data :
  holds s blocks count data ->
  (forall b, b ∈ used count blocks -> blk_read s' (absolute_data_sector b) = blk_read s (absolute_data_sector b)) ->
  holds s' blocks count data.
Proof.
  intros (Hd & Hc & Hl & Hr) Hf. split_and!; try done. intros k Hk. rewrite <- Hr by done. apply Hf.
  eapply list_elem_of_lookup_2. apply used_get; [done|].
  pose proof (block_count_bounds (zlen data) ltac:(zlia)). zlia.
Qed.

Lemma file_data_holds s blocks count data :
  holds s blocks count data -> file_data s blocks count (zlen data) = data.
Proof.
  intros H. unfold file_data. pose proof H as (Hd & Hc & _).
  pose proof (block_count_bounds (zlen data) ltac:(zlia)).
  assert (Hb : zlen data <= zlen stack_buffer) by (unfold zlen, stack_buffer at 1; rewrite length_replicate; done).
  pose proof (read_blocks_from_holds s blocks count data stack_buffer (Z.to_nat count) 0 H Hb ltac:(lia) ltac:(lia)) as E.
  change (Z.to_nat (0 * 512)) with 0%nat in E. rewrite take_0, Nat.min_0_l, drop_0, app_nil_l in E. rewrite E.
  apply take_app_length'. zlia.
Qed.

Lemma node_frame s s' n :
  node_wf s n ->
  (forall b, b ∈ owned_node n -> blk_read s' (absolute_data_sector b) = blk_read s (absolute_data_sector b)) ->
  node_wf s' n.
Proof.
  intros [Hp Hn Hs] Hf. constructor; [done|..]; intros Ha.
  - destruct (Hn Ha) as [?|[Ht (data & Hh & ? & ?)]]; [by left|right]. split; [done|]. exists data. split; [|done].
    eapply holds_frame; [done|]. intros b Hb. apply Hf. unfold owned_node, now_blocks. rewrite Ha, Ht. set_solver.
  - destruct (Hs Ha) as [?|[Ht (data & Hh & ? & ?)]]; [by left|right]. split; [done|]. exists data. split; [|done].
    eapply holds_frame; [done|]. intros b Hb. apply Hf. unfold owned_node, snap_blocks. rewrite Ha, Ht. set_solver.
Qed.

Lemma cur_dir s i : (n_active (node s i) =? 0) = false -> n_type (node s i) = MFS_NODE_DIR -> cur s i = Some Dir.
Proof. intros Ha Ht. unfold cur. by rewrite Ha, Ht. Qed.

Lemma cur_file s i data :
  (n_active (node s i) =? 0) = false -> n_type (node s i) = MFS_NODE_FILE -> n_size (node s i) = zlen data ->
  holds s (n_blocks (node s i)) (n_block_count (node s i)) data -> cur s i = Some (File data).
Proof. intros Ha Ht Hs Hh. unfold cur. rewrite Ha, Ht, Hs. simpl. by rewrite file_data_holds. Qed.

Lemma snap_dir s i :
  (n_snapshot_active (node s i) =? 0) = false -> n_snapshot_type (node s i) = MFS_NODE_DIR -> snap s i = Some Dir.
Proof. intros Ha Ht. unfold snap. by rewrite Ha, Ht. Qed.

Lemma snap_file s i data :
  (n_snapshot_active (node s i) =? 0) = false -> n_snapshot_type (node s i) = MFS_NODE_FILE ->
  n_snapshot_size (node s i) = zlen data ->
  holds s (n_snapshot_blocks (node s i)) (n_snapshot_block_count (node s i)) data -> snap s i = Some (File data).
Proof. intros Ha Ht Hs Hh. unfold snap. rewrite Ha, Ht, Hs. simpl. by rewrite file_data_holds. Qed.

(** A node that did not change, in blocks that did not, stands for the same. *)
Lemma entry_frame s s' i :
  node_wf s (node s i) -> node s' i = node s i ->
  (forall b, b ∈ owned_node (node s i) -> blk_read s' (absolute_data_sector b) = blk_read s (absolute_data_sector b)) ->
  cur s' i = cur s i /\ snap s' i = snap s i.
Proof.
  intros Hw Hi Hf. pose proof (node_frame s s' _ Hw Hf) as Hw'. rewrite <- Hi in Hw'. split.
  - destruct (n_active (node s i) =? 0) eqn:Ha; [unfold cur; by rewrite Hi, Ha|].
    destruct (w_now _ _ Hw Ha) as [Ht|[Ht (data & Hh & Hs & _)]].
    + by rewrite !cur_dir by (rewrite ?Hi; done).
    + rewrite (cur_file s i data) by done. apply cur_file; rewrite ?Hi; try done.
      eapply holds_frame; [done|]. intros b Hb. apply Hf. unfold owned_node, now_blocks. rewrite Ha, Ht. set_solver.
  - destruct (n_snapshot_active (node s i) =? 0) eqn:Ha; [unfold snap; by rewrite Hi, Ha|].
    destruct (w_snap _ _ Hw Ha) as [Ht|[Ht (data & Hh & Hs & _)]].
    + by rewrite !snap_dir by (rewrite ?Hi; done).
    + rewrite (snap_file s i data) by done. apply snap_file; rewrite ?Hi; try done.
      eapply holds_frame; [done|]. intros b Hb. apply Hf. unfold owned_node, snap_blocks. rewrite Ha, Ht. set_solver.
Qed.

(** ** Changing one node *)

Lemma concat_split {A} (f : Z -> list A) (l : list Z) i :
  NoDup l -> i ∈ l -> List.concat (f <$> l) ≡ₚ f i ++ List.concat (f <$> filter (fun j => j <> i) l).
Proof.
  induction 1 as [|x l Hx Hl IH]; intros Hi; [set_solver|]. rewrite filter_cons.
  destruct (decide (x = i)) as [->|Hne].
  - rewrite decide_False by (intros []; done). simpl.
    rewrite (filter_true (fun j => j <> i) l); [done|]. intros y Hy ->. done.
  - rewrite decide_True by done. simpl. rewrite IH by set_solver. rewrite !app_assoc. by rewrite (Permutation_app_comm (f x)).
Qed.

Lemma owned_split s i : 0 <= i < 32 -> owned s ≡ₚ owned_node (node s i) ++ others s i.
Proof. intros. apply (concat_split (fun j => owned_node (node s j))); [apply NoDup_seqZ|]. apply elem_of_seqZ. lia. Qed.

Lemma elem_of_others s i b :
  b ∈ others s i <-> exists j, 0 <= j < 32 /\ j <> i /\ b ∈ owned_node (node s j).
Proof.
  unfold others. rewrite list_elem_of_In, in_concat. split.
  - intros (l & Hl & Hb). apply list_elem_of_In in Hl, Hb. apply list_elem_of_fmap in Hl as (j & -> & Hj).
    apply list_elem_of_filter in Hj as [Hne Hj]. apply elem_of_seqZ in Hj. exists j. split_and!; [lia..|done].
  - intros (j & Hj & Hne & Hb). exists (owned_node (node s j)). rewrite <- !list_elem_of_In. split; [|done].
    apply list_elem_of_fmap. exists j. split; [done|]. apply list_elem_of_filter. split; [done|]. apply elem_of_seqZ. lia.
Qed.

Lemma others_same s s' i : (forall j, 0 <= j < 32 -> j <> i -> node s' j = node s j) -> others s' i = others s i.
Proof.
  intros H. unfold others. f_equal. apply list_fmap_ext. intros k j Hj. apply list_elem_of_lookup_2 in Hj.
  apply list_elem_of_filter in Hj as [Hne Hj]. apply elem_of_seqZ in Hj. f_equal. apply H; [lia|done].
Qed.

(** The volume with node [i] replaced. *)
Record replaces s s' i (n : xaios_mfs_node) : Prop := {
  r_layout : lay s' = lay s;
  r_nodes : nodes (vol s') = (nodes (vol s)).[i <- n];
  r_committed : committed_generation (vol s') = committed_generation (vol s);
  r_generation : generation (vol s) <= generation (vol s');
  r_marks : marks (block_bitmap (vol s')) (owned_node n ++ others s i);
  r_data b : b ∈ others s i -> blk_read s' (absolute_data_sector b) = blk_read s (absolute_data_sector b)
}.

Lemma replaces_node s s' i n j :
  Inv s -> replaces s s' i n -> 0 <= i < 32 -> 0 <= j < 32 -> node s' j = if decide (j = i) then n else node s j.
Proof.
  intros HI HR Hi Hj. unfold node. rewrite (r_nodes _ _ _ _ HR). pose proof (i_nodes _ HI). destruct (decide (j = i)) as [->|].
  - apply arr_get_set_eq. lia.
  - apply arr_get_set_ne; lia.
Qed.

Lemma replaces_entries s s' i n j :
  Inv s -> replaces s s' i n -> 0 <= i < 32 -> 0 <= j < 32 -> j <> i ->
  node s' j = node s j /\ cur s' j = cur s j /\ snap s' j = snap s j.
Proof.
  intros HI HR Hi Hj Hne. pose proof (replaces_node _ _ _ _ j HI HR Hi Hj) as Hn. rewrite decide_False in Hn by done.
  split; [done|]. apply entry_frame; [by apply i_node|done|]. intros b Hb. apply (r_data _ _ _ _ HR).
  apply elem_of_others. eauto.
Qed.

Lemma replaces_inv s s' i n :
  Inv s -> replaces s s' i n -> 0 <= i < 32 -> node_wf s' n ->
  (node_is_visible n = true -> forall j, 0 <= j < 32 -> j <> i -> node_is_visible (node s j) = true ->
     path_of s j <> c_str (n_path n)) ->
  ((n_active n =? 0) = false -> (n_snapshot_active n =? 0) = true -> committed_generation (vol s) <= n_generation n) ->
  Inv s'.
Proof.
  intros HI HR Hi Hw Hpath Hgen. pose proof (fun j => replaces_node s s' i n j HI HR Hi) as Hnode.
  constructor.
  - rewrite (r_layout _ _ _ _ HR). apply HI.
  - rewrite (r_nodes _ _ _ _ HR), zlen_set. apply HI.
  - intros j Hj. rewrite Hnode by done. destruct (decide (j = i)) as [->|Hne]; [done|].
    eapply node_frame; [by apply i_node|]. intros b Hb. apply (r_data _ _ _ _ HR). apply elem_of_others. eauto.
  - rewrite (owned_split s' i) by done. rewrite Hnode, decide_True by done.
    rewrite (others_same s s' i); [apply HR|]. intros j Hj Hne. rewrite Hnode by done. by rewrite decide_False.
  - intros j k Hj Hk. unfold path_of. rewrite !Hnode by done.
    destruct (decide (j = i)) as [->|], (decide (k = i)) as [->|]; [done|..]; intros Hvj Hvk E.
    + by destruct (Hpath Hvj k Hk ltac:(done) Hvk).
    + by destruct (Hpath Hvk j Hj ltac:(done) Hvj).
    + by apply (i_paths _ HI).
  - intros j Hj. rewrite Hnode by done. rewrite (r_committed _ _ _ _ HR).
    destruct (decide (j = i)); [done|]. by apply HI.
  - rewrite (r_committed _ _ _ _ HR). pose proof (r_generation _ _ _ _ HR). pose proof (i_committed _ HI). lia.
Qed.

(** Blocks of no file were marked, unmarked or written: the volume is the same. *)
Lemma evolves_entries s s' bm X :
  Inv s -> evolves (nodes (vol s)) bm X s s' -> (forall b, b ∈ owned s -> b ∉ X) ->
  forall j, 0 <= j < 32 -> node s' j = node s j /\ cur s' j = cur s j /\ snap s' j = snap s j.
Proof.
  intros HI HE Hx j Hj. assert (Hn : node s' j = node s j) by (unfold node; by rewrite (e_nodes _ _ _ _ _ HE)).
  split; [done|]. apply entry_frame; [by apply i_node|done|]. intros b Hb.
  assert (Ho : b ∈ owned s) by (rewrite (owned_split s j) by done; set_solver).
  apply (e_data _ _ _ _ _ HE); [|by apply Hx]. by apply (marks_member _ _ _ (i_marks _ HI)).
Qed.

Lemma evolves_inv s s' bm X :
  Inv s -> evolves (nodes (vol s)) bm X s s' -> marks bm (owned s) -> (forall b, b ∈ owned s -> b ∉ X) -> Inv s'.
Proof.
  intros HI HE Hm Hx. pose proof (fun j Hj => proj1 (evolves_entries s s' bm X HI HE Hx j Hj)) as Hn.
  assert (Ho : owned s' = owned s).
  { unfold owned. f_equal. apply list_fmap_ext. intros k j Hj. apply list_elem_of_lookup_2, elem_of_seqZ in Hj.
    f_equal. apply Hn. lia. }
  destruct HE. constructor.
  - rewrite e_layout0. apply HI.
  - rewrite e_nodes0. apply HI.
  - intros j Hj. rewrite Hn by done. eapply node_frame; [by apply i_node|]. intros b Hb.
    assert (Hbo : b ∈ owned s) by (rewrite (owned_split s j) by done; set_solver).
    apply e_data0; [|by apply Hx]. by apply (marks_member _ _ _ (i_marks _ HI)).
  - by rewrite e_bitmap0, Ho.
  - intros j k Hj Hk. unfold path_of. rewrite !Hn by done. by apply HI.
  - intros j Hj. rewrite !Hn, e_committed0 by done. by apply HI.
  - rewrite e_committed0, e_generation0. apply HI.
Qed.

(** ** The store a volume stands for *)

Definition now s (p : list Z) : option entry := find_node s p false ≫= cur s.
Definition saved s (p : list Z) : option entry :=
  first_below (g_active_max_nodes (lay s))
    (fun i => negb (n_snapshot_active (node s i) =? 0) && str_eq (path_of s i) p) ≫= snap s.

Definition same_view s s' : Prop := forall p, now s' p = now s p /\ saved s' p = saved s p.

Lemma str_eq_spec a b : str_eq a b = true <-> a = b.
Proof. apply bool_decide_eq_true. Qed.

Lemma find_node_Some s p include i :
  Inv s -> find_node s p include = Some i ->
  0 <= i < 32 /\ path_of s i = p /\ node_is_visible (node s i) = true /\
  (include = false -> (n_active (node s i) =? 0) = false).
Proof.
  intros HI (Hi & Ht & _)%first_below_Some. rewrite (i_layout _ HI) in Hi. split; [done|].
  breflect. apply str_eq_spec in H0. split; [done|]. unfold node_is_visible.
  destruct (n_active (node s i) =? 0), (n_snapshot_active (node s i) =? 0), include; done.
Qed.

Lemma find_node_None s p include j :
  Inv s -> find_node s p include = None -> 0 <= j < 32 -> path_of s j = p ->
  (n_active (node s j) =? 0) = true /\ (include = true -> (n_snapshot_active (node s j) =? 0) = true).
Proof.
  intros HI Hf Hj Hp. unfold find_node in Hf. rewrite first_below_None in Hf. rewrite (i_layout _ HI) in Hf.
  specialize (Hf j Hj). fold (path_of s j) in Hf. rewrite Hp, (proj2 (str_eq_spec p p) eq_refl), andb_true_r in Hf.
  destruct (n_active (node s j) =? 0), (n_snapshot_active (node s j) =? 0), include; done.
Qed.

Lemma visible_now s i : (n_active (node s i) =? 0) = false -> node_is_visible (node s i) = true.
Proof. intros H. unfold node_is_visible. by rewrite H. Qed.

Lemma visible_snap s i : (n_snapshot_active (node s i) =? 0) = false -> node_is_visible (node s i) = true.
Proof. intros H. unfold node_is_visible. rewrite H. apply orb_true_r. Qed.

Lemma now_at s i : Inv s -> 0 <= i < 32 -> (n_active (node s i) =? 0) = false -> now s (path_of s i) = cur s i.
Proof.
  intros HI Hi Ha. unfold now. destruct (find_node s (path_of s i) false) as [j|] eqn:Hf; simpl.
  - apply find_node_Some in Hf as (Hj & Hp & Hv & _); [|done]. f_equal. apply (i_paths _ HI); try done. by apply visible_now.
  - eapply find_node_None in Hf as [Hf _]; [|done..]. congruence.
Qed.

Lemma now_none s p :
  Inv s -> (forall i, 0 <= i < 32 -> path_of s i = p -> (n_active (node s i) =? 0) = true) -> now s p = None.
Proof.
  intros HI H. unfold now. destruct (find_node s p false) as [j|] eqn:Hf; [|done]. simpl.
  apply find_node_Some in Hf as (Hj & Hp & _ & Ha); [|done]. specialize (Ha eq_refl). rewrite (H j) in Ha by done. done.
Qed.

Lemma now_cases s p :
  Inv s -> (now s p = None /\ forall i, 0 <= i < 32 -> path_of s i = p -> (n_active (node s i) =? 0) = true) \/
  (exists i, 0 <= i < 32 /\ path_of s i = p /\ (n_active (node s i) =? 0) = false /\ now s p = cur s i).
Proof.
  intros HI. destruct (find_node s p false) as [i|] eqn:Hf.
  - pose proof Hf as (Hi & Hp & _ & Ha)%find_node_Some; [|done]. right. exists i. split_and!; try done; [lia..|by apply Ha|].
    subst p. apply now_at; [done|lia|by apply Ha].
  - left. split; [unfold now; by rewrite Hf|]. intros i Hi Hp. by eapply find_node_None.
Qed.

Lemma saved_at s i :
  Inv s -> 0 <= i < 32 -> (n_snapshot_active (node s i) =? 0) = false -> saved s (path_of s i) = snap s i.
Proof.
  intros HI Hi Ha. unfold saved. rewrite (i_layout _ HI). cbn [g_active_max_nodes set_active_v2].
  destruct (first_below 32 _) as [j|] eqn:Hf; simpl.
  - apply first_below_Some in Hf as (Hj & Ht & _). breflect. apply str_eq_spec in H0. f_equal.
    apply (i_paths _ HI); try done; by apply visible_snap.
  - rewrite first_below_None in Hf. specialize (Hf i Hi). rewrite Ha, (proj2 (str_eq_spec _ _) eq_refl) in Hf. done.
Qed.

Lemma saved_cases s p :
  Inv s -> (saved s p = None /\ forall i, 0 <= i < 32 -> path_of s i = p -> (n_snapshot_active (node s i) =? 0) = true) \/
  (exists i, 0 <= i < 32 /\ path_of s i = p /\ (n_snapshot_active (node s i) =? 0) = false /\ saved s p = snap s i).
Proof.
  intros HI. unfold saved. rewrite (i_layout _ HI). cbn [g_active_max_nodes set_active_v2].
  destruct (first_below 32 _) as [i|] eqn:Hf; simpl.
  - apply first_below_Some in Hf as (Hi & Ht & _). breflect. apply str_eq_spec in H0. right. by exists i.
  - left. split; [done|]. intros i Hi Hp. rewrite first_below_None in Hf. specialize (Hf i Hi).
    rewrite Hp, (proj2 (str_eq_spec _ _) eq_refl), andb_true_r in Hf. by apply negb_false_iff in Hf.
Qed.

(** Node [j] is what the path names now, or in the snapshot. *)
Definition names s j p : Prop := (n_active (node s j) =? 0) = false /\ path_of s j = p.
Definition names_snap s j p : Prop := (n_snapshot_active (node s j) =? 0) = false /\ path_of s j = p.

(** Nodes that stand for the same make the same store. *)
Lemma now_ext s s' p :
  Inv s -> Inv s' ->
  (forall j, 0 <= j < 32 -> (names s j p -> names s' j p /\ cur s' j = cur s j) /\ (names s' j p -> names s j p)) ->
  now s' p = now s p.
Proof.
  intros HI HI' H. destruct (now_cases s p HI) as [[-> Hn]|(i & Hi & Hp & Ha & ->)].
  - apply now_none; [done|]. intros j Hj Hp. destruct (n_active (node s' j) =? 0) eqn:Ha; [done|].
    destruct (proj2 (H j Hj) (conj Ha Hp)) as [Ha' ?]. by rewrite Hn in Ha' by done.
  - destruct (proj1 (H i Hi) (conj Ha Hp)) as [[Ha' Hp'] Hc]. rewrite <- Hc, <- Hp'. by apply now_at.
Qed.

Lemma saved_ext s s' p :
  Inv s -> Inv s' ->
  (forall j, 0 <= j < 32 ->
     (names_snap s j p -> names_snap s' j p /\ snap s' j = snap s j) /\ (names_snap s' j p -> names_snap s j p)) ->
  saved s' p = saved s p.
Proof.
  intros HI HI' H. destruct (saved_cases s p HI) as [[-> Hn]|(i & Hi & Hp & Ha & ->)].
  - destruct (saved_cases s' p HI') as [[-> _]|(j & Hj & Hp & Ha & _)]; [done|].
    destruct (proj2 (H j Hj) (conj Ha Hp)) as [Ha' Hp']. by rewrite Hn in Ha' by done.
  - destruct (proj1 (H i Hi) (conj Ha Hp)) as [[Ha' Hp'] Hc]. rewrite <- Hc, <- Hp'. by apply saved_at.
Qed.

Lemma same_entries_view s s' :
  Inv s -> Inv s' ->
  (forall j, 0 <= j < 32 -> node s' j = node s j /\ cur s' j = cur s j /\ snap s' j = snap s j) -> same_view s s'.
Proof.
  intros HI HI' H p.
  split; [apply now_ext|apply saved_ext]; try done; intros j Hj; destruct (H j Hj) as (Hn & Hc & Hs);
    unfold names, names_snap, path_of; rewrite Hn; tauto.
Qed.

(** Replacing a node by one of path [p]: what other paths name is the same. *)
Lemma replaces_view s s' i n p :
  Inv s -> Inv s' -> replaces s s' i n -> 0 <= i < 32 -> c_str (n_path n) = p ->
  (node_is_visible (node s i) = true -> path_of s i = p) ->
  node_is_visible n = true \/ node_is_visible (node s i) = true ->
  (forall q, now s' q = if decide (q = p) then cur s' i else now s q) /\
  (forall q, saved s' q = if decide (q = p) then snap s' i else saved s q).
Proof.
  intros HI HI' HR Hi Hp Hold Hvis.
  pose proof (replaces_node s s' i n i HI HR Hi Hi) as Hn. rewrite decide_True in Hn by done.
  assert (Hpi : path_of s' i = p) by (unfold path_of; by rewrite Hn).
  assert (Hother : forall j, 0 <= j < 32 -> j <> i -> node s' j = node s j /\ cur s' j = cur s j /\ snap s' j = snap s j)
    by (intros; by apply replaces_entries with i n).
  assert (Huniq : forall j, 0 <= j < 32 -> path_of s' j = p -> node_is_visible (node s' j) = true -> j = i).
  { intros j Hj Hjp Hjv. destruct (decide (j = i)) as [|Hne]; [done|]. destruct Hvis as [Hv|Hv].
    - apply (i_paths _ HI'); try done; congruence.
    - destruct (Hother j Hj Hne) as [E _]. unfold path_of in Hjp. rewrite E in Hjp, Hjv.
      apply (i_paths _ HI); try done. by rewrite Hold. }
  split; intros q; (destruct (decide (q = p)) as [->|Hq]).
  - destruct (now_cases s' p HI') as [[-> Hnone]|(j & Hj & Hjp & Hja & ->)].
    + unfold cur. by rewrite Hnone.
    + rewrite (Huniq j); [done|done|done|by apply visible_now].
  - apply now_ext; try done. intros j Hj. destruct (decide (j = i)) as [->|Hne].
    + split; intros [Ha E]; [|congruence]. rewrite Hold in E; [congruence|by apply visible_now].
    + destruct (Hother j Hj Hne) as (E & Hc & _). unfold names, path_of. rewrite E. tauto.
  - destruct (saved_cases s' p HI') as [[-> Hnone]|(j & Hj & Hjp & Hja & ->)].
    + unfold snap. by rewrite Hnone.
    + rewrite (Huniq j); [done|done|done|by apply visible_snap].
  - apply saved_ext; try done. intros j Hj. destruct (decide (j = i)) as [->|Hne].
    + split; intros [Ha E]; [|congruence]. rewrite Hold in E; [congruence|by apply visible_snap].
    + destruct (Hother j Hj Hne) as (E & _ & Hs). unfold names_snap, path_of. rewrite E. tauto.
Qed.

End Store.
End MfsStore.
