(* ===== verification/MfsSpec.v ===== *)
(** * The mutable file system implements a versioned store (kernel/fs/mutable_fs.c)

    The operations of [Mfs] seen from outside: a map from paths to directories and file
    contents, and a second one with the snapshot ([store], [step]).  Every operation keeps
    the invariant of the volume and does one step of the store, unless it is a commit or
    rollback that fails half way or a rename onto a path that only the snapshot has
    ([undisturbed]); errors have their cause in the store, or in a device that is faulty. *)

From S2P Require Import Prelude Mfs MfsStore.
#[local] Open Scope Z_scope.
#[local] Open Scope list_scope.

Module MfsSpec.
Import Mfs MfsStore.

(** ** The store: what the operations promise *)

(** What the paths name now, and what they named when the last snapshot was taken. *)
Record store := mk_store { s_now : list Z -> option entry; s_saved : list Z -> option entry }.

Definition set_path_entry (m : list Z -> option entry) (p : list Z) (e : option entry) : list Z -> option entry :=
  fun q => if decide (q = p) then e else m q.
Definition set_now (a : store) (p : list Z) (e : option entry) : store :=
  mk_store (set_path_entry (s_now a) p e) (s_saved a).

(** The entry of [old], now and in the snapshot, goes to [new]. *)
Definition move (a : store) (old new : list Z) : store :=
  mk_store (set_path_entry (set_path_entry (s_now a) old None) new (s_now a old))
    (set_path_entry (set_path_entry (s_saved a) old None) new (s_saved a old)).

Definition parent_ok (a : store) (p : list Z) : Prop :=
  parent_path_of p = [47] \/ s_now a (parent_path_of p) = Some Dir.

Definition has_children (a : store) (p : list Z) : Prop :=
  exists q, s_now a q <> None /\ q <> p /\ below p q = true.

Inductive op :=
| Mkdir (p : list Z)
| Write (p data : list Z)
| Read (p buffer : list Z)
| Stat (p : list Z)
| Delete (p : list Z)
| Rename (old new : list Z)
| Commit
| Rollback.

Inductive outcome :=
| Done (st : xaios_status)
| Bytes (data : list Z)
| Info (type size hash : Z).

(** The blocks an entry takes up, and those of a list of paths, now and in the snapshot. *)
Definition blocks_of (e : option entry) : Z :=
  match e with Some (File d) => block_count_for_size (zlen d) | _ => 0 end.
Definition space (a : store) (l : list (list Z)) : Z :=
  foldr (fun p n => blocks_of (s_now a p) + blocks_of (s_saved a p) + n) 0 l.

(** So many more blocks do not fit, and no node is left. *)
Definition blocks_short (a : store) (n : Z) : Prop := exists l, NoDup l /\ 96 < n + space a l.
Definition nodes_full (a : store) : Prop :=
  exists l, NoDup l /\ zlen l = 32 /\ Forall (fun p => s_now a p <> None \/ s_saved a p <> None) l.

Section Step.
Variable mounted rw faulty : bool.

Definition creatable (a : store) (p : list Z) : Prop := rw = true /\ validate_path p = true /\ parent_ok a p.

(** The change is made; only a device that fails makes its status an error. *)
Definition stored (st : xaios_status) : Prop := st = XAIOS_OK \/ (faulty = true /\ st = XAIOS_ERR_IO).

(** One operation of the store with its outcome.  Commit and rollback are here when they
    succeed, and a rename when the snapshot does not have the new path. *)
Inductive step (a : store) : op -> outcome -> store -> Prop :=
| mkdir_rejects p :
    ~ creatable a p \/ (exists d, s_now a p = Some (File d)) -> step a (Mkdir p) (Done XAIOS_ERR_INVALID) a
| mkdir_exists p : creatable a p -> s_now a p = Some Dir -> step a (Mkdir p) (Done XAIOS_OK) a
| mkdir_full p :
    creatable a p -> s_now a p = None -> s_saved a p = None -> nodes_full a ->
    step a (Mkdir p) (Done XAIOS_ERR_NO_MEMORY) a
| mkdir_creates p st :
    creatable a p -> s_now a p = None -> stored st ->
    step a (Mkdir p) (Done st) (set_now a p (Some Dir))
| write_rejects p d :
    ~ creatable a p \/ 8192 < zlen d \/ s_now a p = Some Dir -> step a (Write p d) (Done XAIOS_ERR_INVALID) a
| write_full p d :
    creatable a p -> zlen d <= 8192 ->
    blocks_short a (block_count_for_size (zlen d)) \/ (s_now a p = None /\ s_saved a p = None /\ nodes_full a) ->
    step a (Write p d) (Done XAIOS_ERR_NO_MEMORY) a
| write_fails p d :
    creatable a p -> zlen d <= 8192 -> faulty = true -> step a (Write p d) (Done XAIOS_ERR_IO) a
| write_writes p d st :
    creatable a p -> zlen d <= 8192 -> s_now a p <> Some Dir -> stored st ->
    step a (Write p d) (Done st) (set_now a p (Some (File d)))
| read_rejects p b :
    mounted = false \/ validate_path p = false -> step a (Read p b) (Done XAIOS_ERR_INVALID) a
| read_misses p b :
    mounted = true -> validate_path p = true -> (forall d, s_now a p = Some (File d) -> zlen b < zlen d) ->
    step a (Read p b) (Done XAIOS_ERR_NOT_FOUND) a
| read_reads p b d :
    mounted = true -> validate_path p = true -> s_now a p = Some (File d) -> zlen d <= zlen b ->
    step a (Read p b) (Bytes d) a
| stat_rejects p : validate_path p = false -> step a (Stat p) (Done XAIOS_ERR_INVALID) a
| stat_misses p :
    validate_path p = true -> s_now a p = None -> s_saved a p = None ->
    step a (Stat p) (Done XAIOS_ERR_NOT_FOUND) a
| stat_dir p size hash :
    validate_path p = true -> s_now a p = Some Dir -> step a (Stat p) (Info MFS_NODE_DIR size hash) a
| stat_file p d :
    validate_path p = true -> s_now a p = Some (File d) ->
    step a (Stat p) (Info MFS_NODE_FILE (zlen d) (fnv1a64 d)) a
| stat_deleted p type size hash :
    validate_path p = true -> s_now a p = None -> s_saved a p <> None -> step a (Stat p) (Info type size hash) a
| delete_rejects p : rw = false \/ validate_path p = false -> step a (Delete p) (Done XAIOS_ERR_INVALID) a
| delete_misses p :
    rw = true -> validate_path p = true -> s_now a p = None -> step a (Delete p) (Done XAIOS_ERR_NOT_FOUND) a
| delete_busy p :
    rw = true -> validate_path p = true -> s_now a p = Some Dir -> has_children a p ->
    step a (Delete p) (Done XAIOS_ERR_BUSY) a
| delete_deletes p e st :
    rw = true -> validate_path p = true -> s_now a p = Some e -> ~ (e = Dir /\ has_children a p) ->
    stored st -> step a (Delete p) (Done st) (set_now a p None)
| rename_rejects o n :
    validate_path o = false \/ ~ creatable a n -> step a (Rename o n) (Done XAIOS_ERR_INVALID) a
| rename_misses o n :
    validate_path o = true -> creatable a n -> s_now a o = None -> step a (Rename o n) (Done XAIOS_ERR_NOT_FOUND) a
| rename_busy o n :
    validate_path o = true -> creatable a n -> s_now a n <> None \/ (s_now a o = Some Dir /\ has_children a o) ->
    step a (Rename o n) (Done XAIOS_ERR_BUSY) a
| rename_moves o n e st :
    validate_path o = true -> creatable a n -> s_now a o = Some e -> s_now a n = None -> s_saved a n = None ->
    ~ (e = Dir /\ has_children a o) -> stored st -> step a (Rename o n) (Done st) (move a o n)
| commit_rejects : rw = false -> step a Commit (Done XAIOS_ERR_INVALID) a
| commit_commits : rw = true -> step a Commit (Done XAIOS_OK) (mk_store (s_now a) (s_now a))
| rollback_rejects : rw = false -> step a Rollback (Done XAIOS_ERR_INVALID) a
| rollback_restores : rw = true -> step a Rollback (Done XAIOS_OK) (mk_store (s_saved a) (s_saved a)).

(** A sequence of operations. *)
Inductive steps : store -> list op -> list outcome -> store -> Prop :=
| steps_nil a : steps a [] [] a
| steps_cons a a1 o r ops rs a2 : step a o r a1 -> steps a1 ops rs a2 -> steps a (o :: ops) (r :: rs) a2.

End Step.

Section Spec.
Context {D : Type} `{!BlockDevice D} `{!BlockDeviceLaws D}.
Implicit Types s : fs D.

(** ** Paths *)

Lemma validate_loop_chars n first len ls l :
  validate_loop n first len ls l = true -> (length l < n)%nat /\ Forall (fun c => bad_char c = false) l.
Proof.
  revert first len ls l. induction n as [|n IH]; intros first len ls l H; [done|].
  destruct l as [|c l]; simpl in *; [split; [lia|done]|].
  destruct (bad_char c) eqn:Hc; [done|]. case_if; [done|]. apply IH in H as [? ?]. split; [lia|by constructor].
Qed.

Lemma validate_path_chars p :
  validate_path p = true -> (length p < 96)%nat /\ Forall (fun c => bad_char c = false) p.
Proof. unfold validate_path. destruct p; [done|]. intros [_ H]%andb_true_iff. by apply validate_loop_chars in H. Qed.

Lemma c_str_app l k : Forall (fun c => bad_char c = false) l -> c_str (l ++ 0 :: k) = l.
Proof.
  induction 1 as [|c l Hc _ IH]; simpl; [done|]. unfold bad_char in Hc.
  destruct (Z.eqb_spec c 0) as [->|]; [done|]. by rewrite IH.
Qed.

Lemma copy_path_valid dst p : validate_path p = true -> c_str (copy_path dst p) = p.
Proof.
  intros [Hl Hc]%validate_path_chars. unfold copy_path. rewrite take_ge by lia. by apply c_str_app.
Qed.

Lemma normalize_valid p : validate_path p = true -> normalize_path p = Some p.
Proof. intros H. unfold normalize_path. rewrite H. by rewrite copy_path_valid. Qed.

(** ** Single operations *)

Record stable s s' : Prop := {
  t_mounted : g_mounted s' = g_mounted s;
  t_flags : g_mount_flags s' = g_mount_flags s;
  t_opens : g_open_files s' = g_open_files s;
  t_generation : generation (vol s) <= generation (vol s') <= generation (vol s) + 1;
  t_device : dependable (current_device s) -> dependable (current_device s')
}.

Lemma evolves_stable n b X s s' : evolves n b X s s' -> stable s s'.
Proof. intros []. constructor; [done..|lia|done]. Qed.

(** The volume and its store are as before. *)
Definition unchanged s s' : Prop := Inv s' /\ stable s s' /\ same_view s s'.

Lemma evolves_unchanged s s' bm X :
  Inv s -> evolves (nodes (vol s)) bm X s s' -> marks bm (owned s) -> (forall b, b ∈ owned s -> b ∉ X) ->
  unchanged s s'.
Proof.
  intros HI HE Hm Hx. pose proof (evolves_inv s s' bm X HI HE Hm Hx) as HI'. split; [done|].
  split; [by eapply evolves_stable|]. apply same_entries_view; [done..|]. by eapply evolves_entries.
Qed.

Lemma keeps_unchanged s s' : Inv s -> keeps s s' -> unchanged s s'.
Proof. intros HI HK. eapply evolves_unchanged; [done|exact HK|apply HI|set_solver]. Qed.

Lemma bump_unchanged c s : Inv s -> unchanged s (bump c s).
Proof. intros. apply keeps_unchanged; [done|apply bump_keeps]. Qed.

Lemma unchanged_keeps s s1 s2 : unchanged s s1 -> keeps s1 s2 -> unchanged s s2.
Proof.
  intros (HI & Ht & Hv) HK. destruct (keeps_unchanged _ _ HI HK) as (HI2 & _ & Hv2). split; [done|]. split.
  - destruct Ht, HK. constructor; [congruence..|lia|auto].
  - intros p. destruct (Hv p), (Hv2 p). split; congruence.
Qed.

(** Node [i] is the one for path [p]. *)
Record node_for s (p : list Z) i : Prop := {
  nf_index : 0 <= i < 32;
  nf_path : node_is_visible (node s i) = true -> path_of s i = p;
  nf_unique j : 0 <= j < 32 -> j <> i -> node_is_visible (node s j) = true -> path_of s j <> p
}.

(** The node a path goes to: the one it names, or a free one. *)
Lemma target_spec s p i : Inv s -> target_node s p = Some i -> node_for s p i.
Proof.
  intros HI. unfold target_node. destruct (find_node s p true) as [j|] eqn:Hf; intros H; simplify_eq.
  - apply find_node_Some in Hf as (Hi & Hp & Hv & _); [|done]. constructor; [done..|].
    intros j Hj Hne Hvj E. apply Hne. apply (i_paths _ HI); congruence.
  - apply first_below_Some in H as (Hi & Ht & _). rewrite (i_layout _ HI) in Hi. breflect.
    constructor; [done|unfold node_is_visible; by rewrite H, H0|].
    intros j Hj _ Hvj E. eapply find_node_None in Hf as [Ha Hs]; [|done..]. unfold node_is_visible in Hvj.
    by rewrite Ha, Hs in Hvj.
Qed.

(** The end of an operation that changes a node. *)
Lemma finish_spec s s1 bm X i f t s' st :
  Inv s -> 0 <= i < 32 -> generation (vol s) + 1 < 18446744073709551616 -> 0 <= generation (vol s) ->
  evolves (nodes (vol s)) bm X s s1 -> marks bm (owned_node (f (node s i)) ++ others s i) ->
  (forall b, b ∈ others s i -> b ∉ X) ->
  keeps (next_generation (upd_node s1 i f)) t -> write_metadata t = (s', st) ->
  replaces s s' i (f (node s i)) /\ stable s s' /\ written s st /\
  (forall b, 0 <= b -> b ∉ X -> blk_read s' (absolute_data_sector b) = blk_read s (absolute_data_sector b)) /\
  (forall b, 0 <= b -> blk_read s' (absolute_data_sector b) = blk_read s1 (absolute_data_sector b)).
Proof.
  intros HI Hi Hg Hg0 HE Hm Hx Ht Hw.
  apply write_metadata_keeps in Hw as [HK Hst]; [|rewrite (e_layout _ _ _ _ _ Ht); simpl; rewrite (e_layout _ _ _ _ _ HE); apply HI].
  assert (Hst' : written s st).
  { destruct Hst as [|[? Hnd]]; [by left|right]. split; [done|]. intros Hd. by apply Hnd, Ht, HE. }
  pose proof (transitivity Ht HK) as HK'. clear HK Ht. destruct HK'; simpl in *. destruct HE.
  assert (Hd : forall b, 0 <= b -> b ∉ X -> blk_read s' (absolute_data_sector b) = blk_read s (absolute_data_sector b)).
  { intros b Hb Hbx. rewrite e_data0 by set_solver. by apply e_data1. }
  split; [|split; [|split; [done|split; [done|]]]].
  - constructor; try congruence.
    + by rewrite e_nodes0, e_nodes1.
    + rewrite e_generation0, e_generation1, u64_small by lia. lia.
    + intros b Hb. apply Hd; [|by apply Hx].
      assert (Ho : b ∈ owned s) by (rewrite (owned_split s i) by done; set_solver).
      by apply (marks_member _ _ _ (i_marks _ HI)).
  - constructor; try congruence; [|auto]. rewrite e_generation0, e_generation1, u64_small by lia. lia.
  - intros b Hb. apply e_data0; [done|set_solver].
Qed.

(** ** The operations implement the store *)

Definition status_outcome (r : fs D * xaios_status) : fs D * outcome := (r.1, Done r.2).

Definition perform s (o : op) : fs D * outcome :=
  match o with
  | Mkdir p => status_outcome (create_dir s p)
  | Write p d => status_outcome (write_file s p d)
  | Read p b =>
      match read_file s p b with
      | (s', inl e) => (s', Done e)
      | (s', inr (b', size)) => (s', Bytes (take (Z.to_nat size) b'))
      end
  | Stat p =>
      match stat_node s p with
      | (s', inl e) => (s', Done e)
      | (s', inr i) => (s', Info (st_type i) (st_size i) (st_content_hash i))
      end
  | Delete p => status_outcome (delete_node s p)
  | Rename o n => status_outcome (rename_node s o n)
  | Commit => status_outcome (commit_snapshot s)
  | Rollback => status_outcome (rollback_snapshot s)
  end.

(** What is asked of an operation: a commit or a rollback succeeds, and a file is not renamed
    to the path of a deleted one that the snapshot still has. *)
Definition undisturbed s (o : op) : Prop :=
  match o with
  | Rename _ n => now s n = None -> saved s n = None
  | Commit | Rollback => writable s = true -> (perform s o).2 = Done XAIOS_OK
  | _ => True
  end.

(** A device that is not faulty is one that can be written. *)
Variable faulty : bool.

(** The volume stands for the store, and [k] more operations do not exhaust its generations. *)
Record stands_for s (a : store) (k : Z) : Prop := {
  sf_inv : Inv s;
  sf_now p : now s p = s_now a p;
  sf_saved p : saved s p = s_saved a p;
  sf_generation : 0 <= generation (vol s) /\ generation (vol s) + k < 18446744073709551616;
  sf_device : faulty = false -> dependable (current_device s)
}.

(** An operation of the store that ends in [s'] with this outcome. *)
Definition ends s (a : store) (k : Z) (o : op) (s' : fs D) (r : outcome) : Prop :=
  exists a', step (g_mounted s) (writable s) faulty a o r a' /\ stands_for s' a' (k - 1) /\ stable s s'.

(** What is shown of each operation. *)
Definition implements s (a : store) (k : Z) (o : op) : Prop :=
  undisturbed s o -> let '(s', r) := perform s o in ends s a k o s' r.

Lemma written_stored s a k st : stands_for s a k -> written s st -> stored faulty st.
Proof.
  intros Hsf [->|[-> Hd]]; [by left|right]. split; [|done]. destruct faulty eqn:E; [done|]. by destruct Hd; apply Hsf.
Qed.

Lemma unchanged_stands s s' a k : stands_for s a k -> unchanged s s' -> stands_for s' a (k - 1) /\ stable s s'.
Proof.
  intros [HI Hn Hs Hg Hd] (HI' & Ht & Hv). split; [|done]. constructor; [done|..].
  - intros p. by rewrite (proj1 (Hv p)).
  - intros p. by rewrite (proj2 (Hv p)).
  - pose proof (t_generation _ _ Ht). lia.
  - intros Hf. by apply Ht, Hd.
Qed.

Lemma parent_exists_spec s a k p : stands_for s a k -> (parent_exists_for s p = true <-> parent_ok a p).
Proof.
  intros [HI Hn _ _ _]. unfold parent_exists_for, parent_ok. destruct (str_eq _ [47]) eqn:E.
  - apply str_eq_spec in E. tauto.
  - assert (E' : parent_path_of p <> [47]) by (intros E'; apply str_eq_spec in E'; congruence).
    rewrite <- Hn. unfold now. destruct (find_node s (parent_path_of p) false) as [i|] eqn:Hf; simpl; [|naive_solver].
    apply find_node_Some in Hf as (Hi & _ & _ & Ha); [|done]. specialize (Ha eq_refl). unfold cur. rewrite Ha. simpl.
    destruct (n_type (node s i) =? MFS_NODE_DIR); naive_solver.
Qed.

Lemma creatable_spec s a k p :
  stands_for s a k ->
  (negb (writable s) || negb (validate_path p) || negb (parent_exists_for s p) = false <-> creatable (writable s) a p).
Proof.
  intros H. pose proof (parent_exists_spec s a k p H) as E. unfold creatable.
  rewrite !orb_false_iff, !negb_false_iff. tauto.
Qed.

Lemma not_creatable s a k p :
  stands_for s a k ->
  negb (writable s) || negb (validate_path p) || negb (parent_exists_for s p) = true -> ~ creatable (writable s) a p.
Proof. intros H Hb Hc%(creatable_spec s a k p H). congruence. Qed.

(** The node at the target of a path says what the path names. *)
Lemma target_now s a k p i :
  stands_for s a k -> target_node s p = Some i ->
  s_now a p = cur s i /\ (s_saved a p = snap s i).
Proof.
  intros [HI Hn Hs _ _] Ht. pose proof (target_spec s p i HI Ht) as [Hi Hp Ho]. rewrite <- Hn, <- Hs. split.
  - destruct (n_active (node s i) =? 0) eqn:Ha.
    + unfold cur. rewrite Ha. apply now_none; [done|]. intros j Hj Hjp.
      destruct (decide (j = i)) as [->|Hne]; [done|]. destruct (n_active (node s j) =? 0) eqn:Hja; [done|].
      destruct (Ho j Hj Hne (visible_now s j Hja) Hjp).
    + rewrite <- (Hp (visible_now s i Ha)). by apply now_at.
  - destruct (saved_cases s p HI) as [[-> Hno]|(j & Hj & Hjp & Hja & ->)].
    + unfold snap. destruct (n_snapshot_active (node s i) =? 0) eqn:Ha; [done|].
      rewrite Hno in Ha; [done|done|]. by apply Hp, visible_snap.
    + destruct (decide (j = i)) as [->|Hne]; [done|]. destruct (Ho j Hj Hne (visible_snap s j Hja) Hjp).
Qed.

Lemma target_none s a k p :
  stands_for s a k -> target_node s p = None -> s_now a p = None /\ s_saved a p = None.
Proof.
  intros [HI Hn Hs _ _] Ht. unfold target_node in Ht. destruct (find_node s p true) as [j|] eqn:Hf; [done|].
  rewrite <- Hn, <- Hs. split.
  - apply now_none; [done|]. intros j Hj Hp. by apply (find_node_None _ _ _ _ HI Hf).
  - destruct (saved_cases s p HI) as [[-> _]|(j & Hj & Hp & Ha & _)]; [done|].
    eapply find_node_None in Hf as [_ Hf]; [|done..]. rewrite Hf in Ha; done.
Qed.

(** All nodes are taken when there is none for a path. *)
Lemma target_none_full s a k p : stands_for s a k -> target_node s p = None -> nodes_full a.
Proof.
  intros [HI Hn Hs _ _] Ht. unfold target_node in Ht. destruct (find_node s p true); [done|].
  assert (Hv : forall i, 0 <= i < 32 -> node_is_visible (node s i) = true).
  { intros i Hi. unfold find_free_node in Ht. rewrite first_below_None, (i_layout _ HI) in Ht. specialize (Ht i Hi).
    unfold node_is_visible. destruct (n_active _ =? 0), (n_snapshot_active _ =? 0); done. }
  exists (path_of s <$> seqZ 0 32). split_and!; [|done|].
  - apply NoDup_fmap_2_strong; [|apply NoDup_seqZ]. intros i j Hi%elem_of_seqZ Hj%elem_of_seqZ. apply (i_paths _ HI); auto with lia.
  - apply Forall_fmap, Forall_forall. intros i Hi%elem_of_seqZ. simpl. rewrite <- Hn, <- Hs. specialize (Hv i ltac:(lia)).
    unfold node_is_visible in Hv. apply orb_true_iff in Hv as [Hv|Hv]; apply negb_true_iff in Hv; [left|right].
    + rewrite now_at by (done || lia). unfold cur. by rewrite Hv.
    + rewrite saved_at by (done || lia). unfold snap. by rewrite Hv.
Qed.

Lemma holds_length s blocks count data : holds s blocks count data -> zlen (used count blocks) = block_count_for_size (zlen data).
Proof.
  intros (Hd & -> & Hl & _). pose proof (block_count_bounds (zlen data) ltac:(zlia)).
  unfold used, zlen at 1. rewrite length_take. lia.
Qed.

(** The blocks of a node are those its entries take up. *)
Lemma now_blocks_length s i : Inv s -> 0 <= i < 32 -> zlen (now_blocks (node s i)) = blocks_of (cur s i).
Proof.
  intros HI Hi. destruct (n_active (node s i) =? 0) eqn:Ha; [unfold now_blocks, cur; by rewrite Ha|].
  destruct (w_now _ _ (i_node _ HI i Hi) Ha) as [Ht|[Ht (data & Hh & Hs & _)]].
  - rewrite cur_dir by done. unfold now_blocks. by rewrite Ha, Ht.
  - rewrite (cur_file s i data) by done. unfold now_blocks. rewrite Ha, Ht. by eapply holds_length.
Qed.

Lemma snap_blocks_length s i : Inv s -> 0 <= i < 32 -> zlen (snap_blocks (node s i)) = blocks_of (snap s i).
Proof.
  intros HI Hi. destruct (n_snapshot_active (node s i) =? 0) eqn:Ha; [unfold snap_blocks, snap; by rewrite Ha|].
  destruct (w_snap _ _ (i_node _ HI i Hi) Ha) as [Ht|[Ht (data & Hh & Hs & _)]].
  - rewrite snap_dir by done. unfold snap_blocks. by rewrite Ha, Ht.
  - rewrite (snap_file s i data) by done. unfold snap_blocks. rewrite Ha, Ht. by eapply holds_length.
Qed.

Lemma node_space s a k i :
  stands_for s a k -> 0 <= i < 32 -> node_is_visible (node s i) = true ->
  zlen (owned_node (node s i)) = blocks_of (s_now a (path_of s i)) + blocks_of (s_saved a (path_of s i)).
Proof.
  intros [HI Hn Hs _ _] Hi Hv. unfold owned_node. rewrite zlen_app, now_blocks_length, snap_blocks_length by done.
  rewrite <- Hn, <- Hs. f_equal; f_equal.
  - destruct (now_cases s (path_of s i) HI) as [[-> Hno]|(j & Hj & Hjp & Hja & ->)]; [unfold cur; by rewrite Hno|].
    f_equal. apply (i_paths _ HI); try done. by apply visible_now.
  - destruct (saved_cases s (path_of s i) HI) as [[-> Hno]|(j & Hj & Hjp & Hja & ->)]; [unfold snap; by rewrite Hno|].
    f_equal. apply (i_paths _ HI); try done. by apply visible_snap.
Qed.

(** The blocks in use are those of the paths in use. *)
Lemma owned_space s a k : stands_for s a k -> exists l, NoDup l /\ zlen (owned s) = space a l.
Proof.
  intros Hsf. pose proof (sf_inv _ _ _ Hsf) as HI.
  exists (path_of s <$> filter (fun i => node_is_visible (node s i) = true) (seqZ 0 32)). split.
  - apply NoDup_fmap_2_strong; [|apply NoDup_filter, NoDup_seqZ].
    intros i j [Hi ?%elem_of_seqZ]%list_elem_of_filter [Hj ?%elem_of_seqZ]%list_elem_of_filter.
    apply (i_paths _ HI); auto with lia.
  - unfold owned. assert (Hr : Forall (fun i => 0 <= i < 32) (seqZ 0 32)).
    { apply Forall_forall. intros i Hi%elem_of_seqZ. lia. }
    induction Hr as [|i l Hi _ IH]; [done|]. cbn [fmap list_fmap List.concat]. rewrite zlen_app, filter_cons, IH.
    destruct (decide _) as [Hv|Hv]; cbn [fmap list_fmap foldr space]; [by rewrite (node_space s a k)|].
    apply not_true_is_false in Hv. unfold node_is_visible in Hv. apply orb_false_iff in Hv as [H1 H2].
    apply negb_false_iff in H1, H2. unfold owned_node, now_blocks, snap_blocks. rewrite H1, H2. done.
Qed.

Lemma owned_short s a k n : stands_for s a k -> 96 < n + zlen (owned s) -> blocks_short a n.
Proof. intros Hsf Hn. destruct (owned_space s a k Hsf) as (l & Hl & E). exists l. split; [done|]. lia. Qed.

(** The snapshot part of a node is as before. *)
Definition same_snapshot (n n' : xaios_mfs_node) : Prop :=
  (n_snapshot_active n' =? 0) = (n_snapshot_active n =? 0) /\
  ((n_snapshot_active n =? 0) = false ->
   n_snapshot_type n' = n_snapshot_type n /\ n_snapshot_size n' = n_snapshot_size n /\
   n_snapshot_hash n' = n_snapshot_hash n /\ n_snapshot_block_count n' = n_snapshot_block_count n /\
   n_snapshot_blocks n' = n_snapshot_blocks n).

Lemma same_snapshot_blocks n n' : same_snapshot n n' -> snap_blocks n' = snap_blocks n.
Proof.
  intros [E H]. unfold snap_blocks. rewrite E. destruct (n_snapshot_active n =? 0); [done|].
  by destruct (H eq_refl) as (-> & _ & _ & -> & ->).
Qed.

Lemma same_snapshot_entry s s' i :
  node_wf s (node s i) -> same_snapshot (node s i) (node s' i) ->
  (forall b, b ∈ snap_blocks (node s i) -> blk_read s' (absolute_data_sector b) = blk_read s (absolute_data_sector b)) ->
  snap s' i = snap s i.
Proof.
  intros Hw [E H] Hf. destruct (n_snapshot_active (node s i) =? 0) eqn:Ha; [unfold snap; by rewrite E, Ha|].
  destruct (H eq_refl) as (Ht & Hs & _ & Hc & Hb). destruct (w_snap _ _ Hw Ha) as [Hd|[Hd (data & Hh & Hz & _)]].
  - rewrite !snap_dir; congruence.
  - rewrite (snap_file s i data), (snap_file s' i data); try congruence. rewrite Hc, Hb.
    eapply holds_frame; [done|]. intros b Hin. apply Hf. unfold snap_blocks. by rewrite Ha, Hd.
Qed.

Lemma same_snapshot_wf s n n' :
  node_wf s n -> same_snapshot n n' -> validate_path (c_str (n_path n')) = true ->
  ((n_active n' =? 0) = false ->
   n_type n' = MFS_NODE_DIR \/
   n_type n' = MFS_NODE_FILE /\ file_ok s (n_blocks n') (n_block_count n') (n_size n') (n_content_hash n')) ->
  node_wf s n'.
Proof.
  intros Hw [E H] Hp Hn. constructor; [done|done|]. rewrite E. intros Ha. destruct (H Ha) as (-> & -> & -> & -> & ->).
  by apply Hw.
Qed.

(** The entry of a path changes: its node is replaced. *)
Lemma change_spec s a k p i f s1 bm X t s' st :
  stands_for s a k -> 1 <= k -> node_for s p i -> s_saved a p = snap s i ->
  evolves (nodes (vol s)) bm X s s1 -> marks bm (owned_node (f (node s i)) ++ others s i) ->
  (forall b, b ∈ snap_blocks (node s i) ++ others s i -> b ∉ X) ->
  c_str (n_path (f (node s i))) = p ->
  node_is_visible (f (node s i)) = true \/ node_is_visible (node s i) = true ->
  n_generation (f (node s i)) = generation (vol s) -> same_snapshot (node s i) (f (node s i)) ->
  node_wf s1 (f (node s i)) ->
  keeps (next_generation (upd_node s1 i f)) t -> write_metadata t = (s', st) ->
  node s' i = f (node s i) /\ (forall b, 0 <= b -> blk_read s' (absolute_data_sector b) = blk_read s1 (absolute_data_sector b)) /\
  stands_for s' (set_now a p (cur s' i)) (k - 1) /\ stable s s' /\ written s st.
Proof.
  intros Hsf Hk [Hi Hold Huniq] Hsv HE Hm Hx Hp Hvis Hg Hsn Hw Hkt Hfin. pose proof Hsf as [HI Hnow Hsaved Hgen Hdev].
  eapply finish_spec in Hfin as (HR & Hst & Hok & Hd & Hd1); [|done|done|lia|lia|done|done|set_solver|done].
  set (n := f (node s i)) in *.
  assert (Hni : node s' i = n) by (rewrite (replaces_node s s' i n) by done; by rewrite decide_True).
  assert (Hpos : forall b, b ∈ owned_node n -> 0 <= b) by (intros b Hb; apply (marks_member _ _ b Hm); set_solver).
  assert (HI' : Inv s').
  { eapply replaces_inv; [done..| | |].
    - eapply node_frame; [done|]. intros b Hb. apply Hd1. by apply Hpos.
    - intros _ j Hj Hne Hvj. rewrite Hp. by apply Huniq.
    - intros _ _. rewrite Hg. apply HI. }
  destruct (replaces_view s s' i n p HI HI' HR Hi Hp Hold Hvis) as [Hn' Hs'].
  assert (Hsnap : snap s' i = snap s i).
  { apply same_snapshot_entry; [by apply HI|by rewrite Hni|]. intros b Hb. apply Hd; [|set_solver].
    apply (marks_member _ _ b (i_marks _ HI)). rewrite (owned_split s i) by done. unfold owned_node. set_solver. }
  split; [done|]. split; [done|]. split; [|done]. constructor; [done|..].
  - intros q. rewrite Hn'. simpl. unfold set_path_entry. by rewrite Hnow.
  - intros q. rewrite Hs'. simpl. destruct (decide (q = p)) as [->|]; [|done]. by rewrite Hsnap, Hsv.
  - pose proof (t_generation _ _ Hst). lia.
  - intros Hfine. by apply Hst, Hdev.
Qed.

Lemma mkdir_implements s a k p : stands_for s a k -> 1 <= k -> implements s a k (Mkdir p).
Proof.
  intros Hsf Hk. unfold implements. intros Hund. simpl. destruct (create_dir s p) as [s' st] eqn:H. unfold status_outcome. simpl.
  unfold create_dir in H. destruct (_ || _ || _) eqn:Hc.
  { simplify_eq. exists a. split; [constructor; left; by eapply not_creatable|].
    apply unchanged_stands; [done|]. apply bump_unchanged, Hsf. }
  apply (creatable_spec s a k) in Hc; [|done]. destruct (target_node s p) as [i|] eqn:Ht.
  2:{ simplify_eq. exists a. destruct (target_none s a k p Hsf Ht) as [? ?]. pose proof (target_none_full s a k p Hsf Ht).
      split; [by constructor|].
      apply unchanged_stands; [done|]. apply bump_unchanged, Hsf. }
  destruct (target_now s a k p i Hsf Ht) as [Hn Hs]. pose proof (target_spec s p i (sf_inv _ _ _ Hsf) Ht) as Hnf. pose proof Hnf as [Hi Hold _].
  destruct (n_active (node s i) =? 0) eqn:Ha; simpl in H.
  - set (f := make_dir p (generation (vol s))) in H.
    assert (Hsn : same_snapshot (node s i) (f (node s i))).
    { unfold f, make_dir, same_snapshot. destruct (n_snapshot_active (node s i) =? 0) eqn:E; simpl; by rewrite ?E. }
    assert (Ho : owned_node (f (node s i)) = owned_node (node s i)).
    { unfold owned_node. rewrite (same_snapshot_blocks _ _ Hsn). unfold now_blocks. rewrite Ha. done. }
    eapply (change_spec s a k p i f s _ [] _) in H as (Hni & _ & H1 & H2 & H3); try done.
    + exists (set_now a p (Some Dir)). rewrite (cur_dir s' i) in H1; [|by rewrite Hni..]. split; [|done].
      constructor; try done; [|eauto using written_stored]. rewrite Hn. unfold cur. by rewrite Ha.
    + rewrite Ho, <- owned_split by done. apply Hsf.
    + set_solver.
    + apply copy_path_valid, Hc.
    + by left.
    + eapply same_snapshot_wf; [by apply Hsf|done| |by left]. unfold f, make_dir. simpl. rewrite copy_path_valid; apply Hc.
  - simplify_eq. exists a. split; [|apply unchanged_stands; [done|]; apply keeps_unchanged; [apply Hsf|done]].
    unfold cur in Hn. rewrite Ha in Hn. destruct (n_type _ =? MFS_NODE_DIR); [by constructor|].
    constructor. right. eauto.
Qed.

(** New blocks for a file: marked, and with the data in them. *)
Lemma new_file_spec s count data s1 s2 blocks :
  Inv s -> zlen data <= 8192 -> count = block_count_for_size (zlen data) ->
  allocate_blocks s count = (s1, Some blocks) -> forall ok, write_blocks s1 blocks count data (zlen data) = (s2, ok) ->
  evolves (nodes (vol s)) (block_bitmap (vol s1)) (used count blocks) s s2 /\
  marks (block_bitmap (vol s1)) (used count blocks ++ owned s) /\ length blocks = 16%nat /\ 0 <= count <= 16 /\
  (dependable (current_device s) -> ok = true) /\ (ok = true -> holds s2 blocks count data).
Proof.
  intros HI Hd Hc Ha ok Hw. pose proof (block_count_bounds (zlen data) ltac:(zlia)) as [Hb _].
  eapply allocate_blocks_spec in Ha as (Hr & Hc16 & Hl & Hm); [|apply HI|lia|apply HI].
  pose proof (m_nodup _ _ Hm) as Hnd. apply NoDup_app in Hnd as (Hnd & _ & _).
  pose proof (m_range _ _ Hm) as Hrg. apply Forall_app in Hrg as [Hrg _].
  apply write_blocks_spec in Hw as (Hw & Hdev & Hh); [|done..].
  split; [|split_and!; [done|done|lia|lia|intros Hd'; by apply Hdev, Hr|done]].
  unfold rewrites in Hw. rewrite (e_nodes _ _ _ _ _ Hr) in Hw. exact (evolves_trans _ _ _ _ _ _ _ _ _ Hr Hw).
Qed.

(** Blocks that were marked for a file that is not made are given back. *)
Lemma give_back s s2 bm count blocks :
  Inv s -> evolves (nodes (vol s)) bm (used count blocks) s s2 -> marks bm (used count blocks ++ owned s) ->
  length blocks = 16%nat -> 0 <= count <= 16 -> unchanged s (free_blocks s2 count blocks).
Proof.
  intros HI HE Hm Hl Hc. pose proof (m_nodup _ _ Hm) as Hnd. apply NoDup_app in Hnd as (_ & Hdisj & _).
  rewrite <- (e_bitmap _ _ _ _ _ HE) in Hm.
  destruct (free_blocks_spec s2 count blocks (owned s)) as [Hr Hm']; [|zlia|done|].
  { rewrite (e_layout _ _ _ _ _ HE). apply HI. }
  eapply evolves_unchanged; [done| |done|].
  - unfold rebitmap in Hr. rewrite (e_nodes _ _ _ _ _ HE) in Hr. exact (evolves_trans _ _ _ _ _ _ _ _ _ HE Hr).
  - intros b Hb. rewrite app_nil_r. intros Hin. by apply (Hdisj b).
Qed.

Lemma evolves_target s s' bm X p :
  evolves (nodes (vol s)) bm X s s' -> target_node s' p = target_node s p.
Proof.
  intros HE. unfold target_node, find_node, find_free_node, node. by rewrite (e_nodes _ _ _ _ _ HE), (e_layout _ _ _ _ _ HE).
Qed.

Lemma free_blocks_reads s count blocks sec : blk_read (free_blocks s count blocks) sec = blk_read s sec.
Proof.
  unfold free_blocks. apply (for_range_ind (fun _ t => blk_read t sec = blk_read s sec)); [done|].
  intros j t _ <-. by case_if.
Qed.

(** Giving back the blocks of the file a node is now. *)
Definition free_now s t i : fs D :=
  if negb (n_active (node s i) =? 0) && (n_type (node s i) =? MFS_NODE_FILE)
  then free_blocks t (n_block_count (node s i)) (n_blocks (node s i)) else t.

Lemma free_now_spec s t i bm X new l :
  Inv s -> 0 <= i < 32 -> evolves (nodes (vol s)) bm X s t ->
  marks bm (new ++ owned_node (node s i) ++ l) ->
  evolves (nodes (vol s)) (block_bitmap (vol (free_now s t i))) X s (free_now s t i) /\
  marks (block_bitmap (vol (free_now s t i))) (new ++ snap_blocks (node s i) ++ l).
Proof.
  intros HI Hi HE Hm. unfold free_now, owned_node, now_blocks in *.
  destruct (_ && _) eqn:Hb.
  2:{ rewrite (e_bitmap _ _ _ _ _ HE). by split. }
  apply andb_true_iff in Hb as [Ha Ht]. apply negb_true_iff in Ha. apply Z.eqb_eq in Ht.
  destruct (w_now _ _ (i_node _ HI i Hi) Ha) as [Hdir|[_ (data & (Hd & Hc & Hl & _) & _)]]; [by rewrite Ht in Hdir|].
  pose proof (block_count_bounds (zlen data) ltac:(zlia)).
  rewrite <- (e_bitmap _ _ _ _ _ HE) in Hm. rewrite <- app_assoc in Hm. rewrite Permutation_app_swap_app in Hm.
  apply free_blocks_spec in Hm as [Hr Hm]; [|rewrite (e_layout _ _ _ _ _ HE); apply HI|zlia]. split; [|done].
  unfold rebitmap in Hr. rewrite (e_nodes _ _ _ _ _ HE) in Hr. rewrite <- (app_nil_r X).
  exact (evolves_trans _ _ _ _ _ _ _ _ _ HE Hr).
Qed.

Lemma write_new s a k p d i s1 s2 blocks t s' st :
  stands_for s a k -> 1 <= k -> validate_path p = true -> zlen d <= 8192 ->
  let count := block_count_for_size (zlen d) in
  allocate_blocks s count = (s1, Some blocks) -> write_blocks s1 blocks count d (zlen d) = (s2, true) ->
  target_node s p = Some i ->
  let s3 := free_now s s2 i in
  keeps (next_generation (upd_node s3 i (make_file p d count blocks (generation (vol s3))))) t ->
  write_metadata t = (s', st) ->
  stands_for s' (set_now a p (Some (File d))) (k - 1) /\ stable s s' /\ written s st.
Proof.
  intros Hsf Hk Hp Hd count Hal Hwr Ht s3 Hkt Hfin. pose proof (sf_inv _ _ _ Hsf) as HI.
  pose proof (target_spec s p i HI Ht) as Hnf. pose proof (nf_index _ _ _ Hnf) as Hi.
  destruct (new_file_spec s count d s1 s2 blocks HI Hd eq_refl Hal true Hwr) as (HE & Hm & Hl & Hc & _ & Hh).
  specialize (Hh eq_refl). rewrite (owned_split s i) in Hm by done.
  destruct (free_now_spec s s2 i _ _ _ _ HI Hi HE Hm) as [HE3 Hm3]. fold s3 in HE3, Hm3.
  assert (Hh3 : holds s3 blocks count d).
  { eapply holds_frame; [exact Hh|]. intros b _. unfold s3, free_now. case_if; [apply free_blocks_reads|done]. }
  set (f := make_file p d count blocks (generation (vol s3))) in *.
  assert (Hsn : same_snapshot (node s i) (f (node s i))) by done.
  assert (Ho : owned_node (f (node s i)) = used count blocks ++ snap_blocks (node s i)) by done.
  eapply (change_spec s a k p i f s3 _ (used count blocks)) in Hfin as (Hni & Hd' & H1 & H2 & H3); try done.
  - rewrite (cur_file s' i d) in H1; rewrite ?Hni; try done. eapply holds_frame; [exact Hh3|]. intros b Hb.
    apply Hd'. apply (marks_member _ _ b Hm3). set_solver.
  - by eapply target_now.
  - by rewrite Ho, <- app_assoc.
  - intros b Hb. pose proof (m_nodup _ _ Hm3) as Hnd. apply NoDup_app in Hnd as (_ & Hdisj & _).
    intros Hin. by apply (Hdisj b).
  - by apply copy_path_valid.
  - by left.
  - simpl. apply HE3.
  - eapply same_snapshot_wf; [|done| |].
    + eapply node_frame; [by apply HI|]. intros b Hb. apply HE3.
      * apply (marks_member _ _ b Hm). set_solver.
      * pose proof (m_nodup _ _ Hm) as Hnd. apply NoDup_app in Hnd as (_ & Hdisj & _).
        intros Hin. apply (Hdisj b); [done|set_solver].
    + simpl. by rewrite copy_path_valid.
    + intros _. right. split; [done|]. by exists d.
Qed.

Lemma ends_unchanged s a k o s' r :
  stands_for s a k -> step (g_mounted s) (writable s) faulty a o r a -> unchanged s s' -> ends s a k o s' r.
Proof. intros Hsf Hs Hu. exists a. split; [done|]. by apply unchanged_stands. Qed.

Lemma install_implements s a k p d s1 s2 blocks s' st :
  stands_for s a k -> 1 <= k -> creatable (writable s) a p -> zlen d <= 8192 ->
  let count := block_count_for_size (zlen d) in
  allocate_blocks s count = (s1, Some blocks) -> write_blocks s1 blocks count d (zlen d) = (s2, true) ->
  install_file s2 p d count blocks = (s', st) -> ends s a k (Write p d) s' (Done st).
Proof.
  intros Hsf Hk Hc Hd count Hal Hwr H. pose proof (sf_inv _ _ _ Hsf) as HI. unfold install_file in H.
  destruct (new_file_spec s _ d s1 s2 blocks HI Hd eq_refl Hal true Hwr) as (HE & Hm & Hl & Hcc & _ & Hh).
  pose proof (unchanged_keeps _ _ _ (give_back s s2 _ _ _ HI HE Hm Hl Hcc) (bump_keeps reject_count _)) as Hgive.
  assert (Hn2 : forall i, node s2 i = node s i) by (intros; unfold node; by rewrite (e_nodes _ _ _ _ _ HE)).
  rewrite (evolves_target s s2 _ _ _ HE) in H. destruct (target_node s p) as [i|] eqn:Ht.
  2:{ simplify_eq. destruct (target_none s a k p Hsf Ht) as [? ?]. pose proof (target_none_full s a k p Hsf Ht).
      apply ends_unchanged; [done|constructor; auto|done]. }
  rewrite Hn2 in H. destruct (target_now s a k p i Hsf Ht) as [Hn _].
  pose proof (nf_index _ _ _ (target_spec s p i HI Ht)) as Hi.
  destruct (_ && negb _) eqn:Hdir in H.
  { simplify_eq. apply ends_unchanged; [done| |done]. constructor. right. right. rewrite Hn. breflect.
    apply cur_dir; [done|]. destruct (w_now _ _ (i_node _ HI i Hi) H) as [?|[Hf _]]; [done|]. by rewrite Hf in H0. }
  eapply (write_new s a k p d i s1 s2 blocks) in H as (H1 & H2 & H3); try done; [|apply Hc|by case_if].
  exists (set_now a p (Some (File d))). split; [|done]. constructor; try done; [|eauto using written_stored].
  rewrite Hn. unfold cur. destruct (n_active (node s i) =? 0); [done|]. simpl in Hdir.
  apply negb_false_iff, Z.eqb_eq in Hdir. rewrite Hdir. simpl. congruence.
Qed.

Lemma write_implements s a k p d : stands_for s a k -> 1 <= k -> implements s a k (Write p d).
Proof.
  intros Hsf Hk. pose proof (sf_inv _ _ _ Hsf) as HI. unfold implements. intros Hund. simpl.
  destruct (write_file s p d) as [s' st] eqn:H. unfold status_outcome. simpl. unfold write_file in H.
  rewrite (i_layout _ HI) in H. cbn [g_active_max_file_bytes set_active_v2] in H.
  destruct (negb (writable s) || _ || _) eqn:Hc; cbn [orb] in H.
  { simplify_eq. apply ends_unchanged; [done| |by apply bump_unchanged]. constructor; left; by eapply not_creatable. }
  apply (creatable_spec s a k) in Hc; [|done]. destruct (Z.ltb_spec 8192 (zlen d)) as [Hd|Hd].
  { simplify_eq. apply ends_unchanged; [done| |by apply bump_unchanged]. constructor; by right; left. }
  pose proof (block_count_bounds (zlen d) ltac:(zlia)) as [Hcount _].
  destruct (allocate_blocks _ _) as [s1 [blocks|]] eqn:Hal.
  2:{ simplify_eq. eapply allocate_blocks_spec in Hal as (Hr & Hm & Hshort); [|apply HI|lia|apply HI].
      apply ends_unchanged; [done| |eapply evolves_unchanged; [done|exact Hr|done|set_solver]].
      constructor; [done..|]. left. apply (owned_short s a k); [done|]. apply Hshort. lia. }
  destruct (write_blocks _ _ _ _ _) as [s2 [|]] eqn:Hwr; [by eapply install_implements|].
  destruct (new_file_spec s _ d s1 s2 blocks HI Hd eq_refl Hal false Hwr) as (HE & Hm & Hl & Hcc & Hdev & _).
  simplify_eq. apply ends_unchanged; [done| |by eapply give_back]. constructor; [done..|].
  destruct faulty eqn:E; [done|]. by specialize (Hdev (sf_device _ _ _ Hsf E)).
Qed.

(** The node a live path names. *)
Lemma found_now s a k p i :
  stands_for s a k -> find_node s p false = Some i ->
  0 <= i < 32 /\ path_of s i = p /\ (n_active (node s i) =? 0) = false /\ s_now a p = cur s i.
Proof.
  intros [HI Hn _ _ _] Hf. pose proof (find_node_Some _ _ _ _ HI Hf) as (Hi & Hp & _ & Ha). specialize (Ha eq_refl).
  split_and!; try done; [lia..|]. rewrite <- Hn, <- Hp. by apply now_at.
Qed.

Lemma missing_now s a k p : stands_for s a k -> find_node s p false = None -> s_now a p = None.
Proof. intros [HI Hn _ _ _] Hf. rewrite <- Hn. unfold now. by rewrite Hf. Qed.

Lemma read_implements s a k p b : stands_for s a k -> 1 <= k -> implements s a k (Read p b).
Proof.
  intros Hsf Hk. pose proof (sf_inv _ _ _ Hsf) as HI. unfold implements. intros Hund. simpl. unfold read_file.
  destruct (g_mounted s) eqn:Hm, (validate_path p) eqn:Hp; cbn [negb orb];
    try (apply ends_unchanged; [done|constructor; auto|by apply bump_unchanged]).
  destruct (find_node s p false) as [i|] eqn:Hf.
  2:{ apply ends_unchanged; [done| |by apply bump_unchanged]. rewrite Hm. constructor; [done..|].
      rewrite (missing_now s a k p) by done. done. }
  destruct (found_now s a k p i Hsf Hf) as (Hi & _ & Ha & Hn).
  destruct (w_now _ _ (i_node _ HI i Hi) Ha) as [Ht|[Ht (data & Hh & Hs & Hhash)]].
  { rewrite Ht. cbn. apply ends_unchanged; [done| |by apply bump_unchanged]. rewrite Hm. constructor; [done..|].
    rewrite Hn, cur_dir by done. done. }
  rewrite (cur_file s i data) in Hn by done. rewrite Ht, Hs. cbn.
  destruct (Z.ltb_spec (zlen b) (zlen data)).
  { apply ends_unchanged; [done| |by apply bump_unchanged]. rewrite Hm. constructor; [done..|]. rewrite Hn. naive_solver. }
  rewrite (read_blocks_holds s _ _ data) by done.
  rewrite take_app_length' by zlia. rewrite Hhash, Z.eqb_refl. cbn. rewrite take_app_length' by zlia.
  apply ends_unchanged; [done| |by apply bump_unchanged]. rewrite Hm. by constructor.
Qed.

Lemma stat_implements s a k p : stands_for s a k -> 1 <= k -> implements s a k (Stat p).
Proof.
  intros Hsf Hk. pose proof Hsf as [HI Hnow Hsaved _ _]. unfold implements. intros Hund. simpl. unfold stat_node.
  destruct (validate_path p) eqn:Hp.
  2:{ unfold normalize_path. rewrite Hp. apply ends_unchanged; [done|by constructor|by apply bump_unchanged]. }
  rewrite normalize_valid by done. destruct (find_node s p true) as [i|] eqn:Hf.
  2:{ destruct (saved_cases s p HI) as [[Hs _]|(j & Hj & Hjp & Hja & _)].
      - apply ends_unchanged; [done| |by apply bump_unchanged]. constructor; [done| |by rewrite <- Hsaved].
        rewrite <- Hnow. apply now_none; [done|]. intros j Hj Hjp. by eapply find_node_None.
      - eapply find_node_None in Hf as [_ Hf]; [|done..]. by rewrite Hf in Hja. }
  pose proof (find_node_Some _ _ _ _ HI Hf) as (Hi & Hip & Hv & _). simpl.
  apply ends_unchanged; [done| |by apply bump_unchanged]. destruct (n_active (node s i) =? 0) eqn:Ha.
  - constructor; [done|..].
    + rewrite <- Hnow. apply now_none; [done|]. intros j Hj Hjp. destruct (n_active (node s j) =? 0) eqn:Hja; [done|].
      rewrite (i_paths _ HI j i) in Hja; try done; [congruence|by apply visible_now|congruence].
    + rewrite <- Hsaved, <- Hip. unfold node_is_visible in Hv. rewrite Ha in Hv. simpl in Hv.
      apply negb_true_iff in Hv. rewrite saved_at by done. unfold snap. by rewrite Hv.
  - assert (Hn : s_now a p = cur s i) by (rewrite <- Hnow, <- Hip; by apply now_at).
    destruct (w_now _ _ (i_node _ HI i Hi) Ha) as [Ht|[Ht (data & Hh & Hs & Hhash)]]; rewrite Ht.
    + constructor; [done|]. by rewrite Hn, cur_dir.
    + rewrite Hs, Hhash. constructor; [done|]. rewrite Hn. by apply cur_file.
Qed.

(** The search for children is that of the store. *)
Lemma has_active_children_spec s a k p :
  stands_for s a k -> (has_active_children s p = true <-> has_children a p).
Proof.
  intros [HI Hnow _ _ _]. unfold has_active_children, has_children. rewrite existsb_exists. rewrite (i_layout _ HI). split.
  - intros (i & Hi & Hb). apply list_elem_of_In, elem_of_seqZ in Hi. cbn in Hi. breflect. fold (path_of s i) in *.
    exists (path_of s i). rewrite <- Hnow, now_at by (done || lia). split_and!; [|by intros E%str_eq_spec; congruence|done].
    unfold cur. by rewrite H.
  - intros (q & Hq & Hne & Hb). rewrite <- Hnow in Hq. destruct (now_cases s q HI) as [[? _]|(i & Hi & Hip & Ha & _)]; [done|].
    exists i. split; [apply list_elem_of_In, elem_of_seqZ; cbn; lia|]. fold (path_of s i). rewrite Ha, Hip, Hb. simpl.
    rewrite andb_true_r. apply negb_true_iff. apply not_true_iff_false. by intros E%str_eq_spec.
Qed.

Lemma found_for s a k p i :
  stands_for s a k -> find_node s p false = Some i -> node_for s p i /\ s_saved a p = snap s i.
Proof.
  intros Hsf Hf. destruct (found_now s a k p i Hsf Hf) as (Hi & Hp & Ha & _). pose proof Hsf as [HI _ Hsaved _ _].
  split.
  - constructor; [done..|]. intros j Hj Hne Hv E. apply Hne. apply (i_paths _ HI); try done; [by apply visible_now|congruence].
  - rewrite <- Hsaved. destruct (saved_cases s p HI) as [[-> Hno]|(j & Hj & Hjp & Hja & ->)].
    + unfold snap. by rewrite Hno.
    + f_equal. apply (i_paths _ HI); try done; [by apply visible_snap|by apply visible_now|congruence].
Qed.

Lemma delete_implements s a k p : stands_for s a k -> 1 <= k -> implements s a k (Delete p).
Proof.
  intros Hsf Hk. pose proof (sf_inv _ _ _ Hsf) as HI. unfold implements. intros Hund. simpl.
  destruct (delete_node s p) as [s' st] eqn:H. unfold status_outcome. simpl. unfold delete_node in H.
  destruct (writable s) eqn:Hrw, (validate_path p) eqn:Hp; cbn [negb orb] in H;
    try (simplify_eq; apply ends_unchanged; [done|constructor; auto|by apply bump_unchanged]).
  destruct (find_node s p false) as [i|] eqn:Hf.
  2:{ simplify_eq. apply ends_unchanged; [done| |by apply bump_unchanged]. rewrite Hrw. constructor; try done.
      by eapply missing_now. }
  destruct (found_now s a k p i Hsf Hf) as (Hi & Hip & Ha & Hn). destruct (found_for s a k p i Hsf Hf) as [Hnf Hsv].
  destruct (_ && has_active_children s p) eqn:Hch.
  { simplify_eq. apply andb_true_iff in Hch as [Ht Hch]. apply Z.eqb_eq in Ht. rewrite (has_active_children_spec s a k) in Hch by done.
    apply ends_unchanged; [done| |by apply bump_unchanged]. rewrite Hrw. constructor; try done. by rewrite Hn, cur_dir. }
  set (f := deactivate _ _) in H.
  assert (Hs1 : (if n_type (node s i) =? MFS_NODE_FILE then free_blocks s (n_block_count (node s i)) (n_blocks (node s i))
                 else s) = free_now s s i) by (unfold free_now; by rewrite Ha).
  rewrite Hs1 in H.
  destruct (free_now_spec s s i (block_bitmap (vol s)) [] [] (others s i) HI Hi) as [HE Hm]; [done| |].
  { cbn. rewrite <- owned_split by done. apply HI. }
  eapply (change_spec s a k p i f _ _ []) in H as (Hni & _ & H1 & H2 & H3); try done.
  - exists (set_now a p None). unfold cur at 1 in H1. rewrite Hni in H1. split; [|done]. rewrite Hrw.
    econstructor; try done; [by rewrite Hn; unfold cur; rewrite Ha| |eauto using written_stored].
    intros [Hd Hc]. rewrite <- (has_active_children_spec s a k) in Hc by done. rewrite Hc, andb_true_r in Hch.
    by rewrite Hch in Hd.
  - set_solver.
  - right. by apply visible_now.
  - unfold f. simpl. rewrite Hs1. apply HE.
  - eapply (same_snapshot_wf _ (node s i)); [|done| |done].
    + eapply node_frame; [by apply HI|]. intros b Hb. unfold free_now. case_if; [apply free_blocks_reads|done].
    + simpl. fold (path_of s i). by rewrite Hip.
Qed.

(** A node under a new name stands for what it stood for. *)
Lemma renamed_entries s s' i p g :
  node_wf s (node s i) -> node s' i = set_path p g (node s i) ->
  (forall b, b ∈ owned_node (node s i) -> blk_read s' (absolute_data_sector b) = blk_read s (absolute_data_sector b)) ->
  cur s' i = cur s i /\ snap s' i = snap s i.
Proof.
  intros Hw Hi Hf. split.
  - destruct (n_active (node s i) =? 0) eqn:Ha; [unfold cur; rewrite Hi; simpl; by rewrite Ha|].
    destruct (w_now _ _ Hw Ha) as [Ht|[Ht (data & Hh & Hs & _)]].
    + rewrite !cur_dir; rewrite ?Hi; done.
    + rewrite (cur_file s i data) by done. apply cur_file; rewrite ?Hi; try done.
      eapply holds_frame; [done|]. intros b Hb. apply Hf. unfold owned_node, now_blocks. rewrite Ha, Ht. set_solver.
  - apply same_snapshot_entry; [done|by rewrite Hi|]. intros b Hb. apply Hf. unfold owned_node. set_solver.
Qed.

(** What a renamed node does to the store. *)
Lemma renamed_view s s' i o n g :
  Inv s -> Inv s' -> replaces s s' i (set_path n g (node s i)) -> 0 <= i < 32 -> (n_active (node s i) =? 0) = false ->
  path_of s i = o -> o <> n -> validate_path n = true -> cur s' i = cur s i -> snap s' i = snap s i ->
  (forall j, 0 <= j < 32 -> node_is_visible (node s j) = true -> path_of s j <> n) ->
  (forall q, now s' q = set_path_entry (set_path_entry (now s) o None) n (now s o) q) /\
  (forall q, saved s' q = set_path_entry (set_path_entry (saved s) o None) n (saved s o) q).
Proof.
  intros HI HI' HR Hi Ha Ho Hon Hv Hc Hs Hfree.
  pose proof (replaces_node s s' i _ i HI HR Hi Hi) as Hni. rewrite decide_True in Hni by done.
  assert (Hpi : path_of s' i = n) by (unfold path_of; rewrite Hni; simpl; by apply copy_path_valid).
  assert (Hother : forall j, 0 <= j < 32 -> j <> i -> node s' j = node s j /\ cur s' j = cur s j /\ snap s' j = snap s j)
    by (intros; by eapply replaces_entries).
  assert (Ho' : forall j, 0 <= j < 32 -> path_of s' j = o -> node_is_visible (node s' j) = true -> False).
  { intros j Hj Hjp Hjv. destruct (decide (j = i)) as [->|Hne]; [congruence|]. destruct (Hother j Hj Hne) as (E & _).
    unfold path_of in Hjp. rewrite E in Hjp, Hjv. apply Hne. apply (i_paths _ HI); try done; [by apply visible_now|by rewrite Ho]. }
  split; intros q; unfold set_path_entry; (destruct (decide (q = n)) as [->|Hqn]; [|destruct (decide (q = o)) as [->|Hqo]]).
  - rewrite <- Hpi, now_at, Hc, <- Ho, now_at by (done || by rewrite Hni). done.
  - apply now_none; [done|]. intros j Hj Hjp. destruct (n_active (node s' j) =? 0) eqn:E; [done|].
    destruct (Ho' j Hj Hjp). by apply visible_now.
  - apply now_ext; try done. intros j Hj. destruct (decide (j = i)) as [->|Hne]; [split; intros [_ ?]; congruence|].
    destruct (Hother j Hj Hne) as (E & Ec & _). unfold names, path_of. rewrite E. tauto.
  - destruct (saved_cases s' n HI') as [[-> Hno]|(j & Hj & Hjp & Hja & ->)].
    + destruct (saved_cases s o HI) as [[-> _]|(j & Hj & Hjp & Hja & ->)]; [done|].
      assert (j = i) as -> by (apply (i_paths _ HI); try done; [by apply visible_snap|by apply visible_now|congruence]).
      exfalso. specialize (Hno i Hi Hpi). rewrite Hni in Hno. simpl in Hno. congruence.
    + assert (j = i) as ->.
      { apply (i_paths _ HI'); try done; [by apply visible_snap|apply visible_now; by rewrite Hni|congruence]. }
      rewrite Hs, <- Ho. symmetry. apply saved_at; [done..|]. rewrite Hni in Hja. done.
  - destruct (saved_cases s' o HI') as [[-> _]|(j & Hj & Hjp & Hja & _)]; [done|].
    destruct (Ho' j Hj Hjp). by apply visible_snap.
  - apply saved_ext; try done. intros j Hj. destruct (decide (j = i)) as [->|Hne]; [split; intros [_ ?]; congruence|].
    destruct (Hother j Hj Hne) as (E & _ & Es). unfold names_snap, path_of. rewrite E. tauto.
Qed.

Lemma rename_moves_node s a k o n i s' st :
  stands_for s a k -> 1 <= k -> validate_path n = true -> find_node s o false = Some i ->
  s_now a n = None -> s_saved a n = None ->
  write_metadata (bump rename_count (next_generation (upd_node s i (set_path n (generation (vol s)))))) = (s', st) ->
  stands_for s' (move a o n) (k - 1) /\ stable s s' /\ written s st.
Proof.
  intros Hsf Hk Hv Hf Hnn Hsn H. pose proof Hsf as [HI Hnow Hsaved Hgen Hdev].
  destruct (found_now s a k o i Hsf Hf) as (Hi & Hip & Ha & Hn). set (f := set_path n _) in H.
  assert (Hfree : forall j, 0 <= j < 32 -> node_is_visible (node s j) = true -> path_of s j <> n).
  { intros j Hj Hvj E. unfold node_is_visible in Hvj. apply orb_true_iff in Hvj as [Hja|Hja]; apply negb_true_iff in Hja.
    - rewrite <- Hnow, <- E, now_at in Hnn by done. unfold cur in Hnn. by rewrite Hja in Hnn.
    - rewrite <- Hsaved, <- E, saved_at in Hsn by done. unfold snap in Hsn. by rewrite Hja in Hsn. }
  assert (Hon : o <> n) by (intros ->; by apply (Hfree i Hi (visible_now s i Ha))).
  eapply (finish_spec s s _ [] i f) in H as (HR & Hst & Hok & Hd & _);
    [|done|done|lia|lia|by constructor| |set_solver|apply bump_keeps].
  2:{ change (owned_node (f (node s i))) with (owned_node (node s i)). rewrite <- (owned_split s i) by done. apply HI. }
  pose proof (replaces_node s s' i _ i HI HR Hi Hi) as Hni. rewrite decide_True in Hni by done.
  assert (Hreads : forall b, b ∈ owned_node (node s i) ->
            blk_read s' (absolute_data_sector b) = blk_read s (absolute_data_sector b)).
  { intros b Hb. apply Hd; [|set_solver]. apply (marks_member _ _ b (i_marks _ HI)).
    rewrite (owned_split s i) by done. set_solver. }
  assert (HI' : Inv s').
  { eapply replaces_inv; [done..| | |].
    - eapply (same_snapshot_wf _ (node s i)); [|done| |].
      + eapply node_frame; [by apply HI|done].
      + simpl. by rewrite copy_path_valid.
      + intros _. by apply (w_now _ _ (node_frame _ s' _ (i_node _ HI i Hi) Hreads)).
    - simpl. intros _ j Hj _ Hvj. rewrite copy_path_valid by done. by apply Hfree.
    - intros _ _. apply HI. }
  destruct (renamed_entries s s' i n _ (i_node _ HI i Hi) Hni Hreads) as [Hc Hs].
  destruct (renamed_view s s' i o n _ HI HI' HR Hi Ha Hip Hon Hv Hc Hs Hfree) as [Hn' Hs'].
  split; [|done]. constructor; [done|..].
  - intros q. rewrite Hn'. simpl. unfold set_path_entry. by rewrite !Hnow.
  - intros q. rewrite Hs'. simpl. unfold set_path_entry. by rewrite !Hsaved.
  - pose proof (t_generation _ _ Hst). lia.
  - intros Hfine. by apply Hst, Hdev.
Qed.

Lemma rename_implements s a k o n : stands_for s a k -> 1 <= k -> implements s a k (Rename o n).
Proof.
  intros Hsf Hk. pose proof Hsf as [HI Hnow Hsaved Hgen Hdev]. unfold implements. intros Hund. simpl.
  destruct (rename_node s o n) as [s' st] eqn:H. unfold status_outcome. simpl. unfold rename_node in H.
  destruct (validate_path o) eqn:Ho.
  2:{ unfold normalize_path at 1 in H. rewrite Ho in H. simplify_eq.
      apply ends_unchanged; [done|constructor; auto|by apply bump_unchanged]. }
  rewrite (normalize_valid o) in H by done. destruct (validate_path n) eqn:Hv.
  2:{ unfold normalize_path in H. rewrite Hv in H. simplify_eq.
      apply ends_unchanged; [done|constructor; right; unfold creatable; naive_solver congruence|by apply bump_unchanged]. }
  rewrite (normalize_valid n) in H by done.
  pose proof (creatable_spec s a k n Hsf) as Hcr. rewrite Hv in Hcr. cbn [negb] in Hcr. rewrite orb_false_r in Hcr.
  destruct (_ || _) eqn:Hc in H.
  { simplify_eq. apply ends_unchanged; [done| |by apply bump_unchanged]. constructor. right. intros E%Hcr. congruence. }
  apply Hcr in Hc. destruct (find_node s o false) as [i|] eqn:Hf.
  2:{ simplify_eq. apply ends_unchanged; [done|constructor; try done; by eapply missing_now|by apply bump_unchanged]. }
  destruct (found_now s a k o i Hsf Hf) as (Hi & Hip & Ha & Hn).
  destruct (bool_decide _) eqn:Hb in H.
  { simplify_eq. apply bool_decide_eq_true in Hb as [j Hj]. destruct (found_now s a k n j Hsf Hj) as (_ & _ & Haj & Hnj).
    apply ends_unchanged; [done| |by apply bump_unchanged]. constructor; try done. left. rewrite Hnj. unfold cur. by rewrite Haj. }
  apply bool_decide_eq_false in Hb. apply eq_None_not_Some in Hb. pose proof (missing_now s a k n Hsf Hb) as Hnn.
  destruct (_ && has_active_children s o) eqn:Hch.
  { simplify_eq. apply andb_true_iff in Hch as [Ht Hch]. apply Z.eqb_eq in Ht. rewrite (has_active_children_spec s a k) in Hch by done.
    apply ends_unchanged; [done| |by apply bump_unchanged]. constructor; try done. right. by rewrite Hn, cur_dir. }
  assert (Hsn : s_saved a n = None) by (rewrite <- Hsaved; apply Hund; by rewrite Hnow).
  destruct (rename_moves_node s a k o n i s' st) as (H1 & H2 & H3); try done.
  exists (move a o n). split; [|done].
  econstructor; try done; [by rewrite Hn; unfold cur; rewrite Ha| |eauto using written_stored].
  intros [Hd Hc']. rewrite <- (has_active_children_spec s a k) in Hc' by done. rewrite Hc', andb_true_r in Hch.
  by rewrite Hch in Hd.
Qed.

(** ** Snapshots *)

Record frame s s' : Prop := {
  f_generation : generation (vol s') = generation (vol s);
  f_committed : committed_generation (vol s') = committed_generation (vol s);
  f_layout : lay s' = lay s;
  f_mounted : g_mounted s' = g_mounted s;
  f_flags : g_mount_flags s' = g_mount_flags s;
  f_opens : g_open_files s' = g_open_files s;
  f_device : dependable (current_device s) -> dependable (current_device s')
}.

#[global] Instance frame_preorder : PreOrder frame.
Proof. split; [by constructor|]. intros s1 s2 s3 [] []. constructor; try congruence; auto. Qed.

Lemma evolves_frame n b X s s' : evolves n b X s s' -> frame s s'.
Proof. intros []. by constructor. Qed.

Lemma upd_node_evolves s i f : evolves (upd (nodes (vol s)) i f) (block_bitmap (vol s)) [] s (upd_node s i f).
Proof. by constructor. Qed.

Lemma upd_upd (l : list xaios_mfs_node) i f g : 0 <= i < zlen l -> upd (upd l i f) i g = upd l i (fun n => g (f n)).
Proof. intros. unfold upd. rewrite arr_get_set_eq by done. by rewrite list_insert_insert_eq. Qed.

(** A node replaced along the way. *)
Lemma evolves_replaces s s' i n bm X :
  Inv s -> 0 <= i < 32 -> evolves ((nodes (vol s)).[i <- n]) bm X s s' -> marks bm (owned_node n ++ others s i) ->
  (forall b, b ∈ others s i -> b ∉ X) -> replaces s s' i n.
Proof.
  intros HI Hi HE Hm Hx. destruct HE. constructor; try done; [lia|by rewrite e_bitmap0|]. intros b Hb.
  apply e_data0; [|by apply Hx]. apply (marks_member _ _ b (i_marks _ HI)). rewrite (owned_split s i) by done. set_solver.
Qed.

(** What lies behind the end of the file is not written. *)
Lemma write_blocks_prefix s blocks count data rest :
  zlen data <= 8192 -> count = block_count_for_size (zlen data) ->
  write_blocks s blocks count (data ++ rest) (zlen data) = write_blocks s blocks count data (zlen data).
Proof.
  intros Hd Hc. unfold write_blocks. pose proof (block_count_bounds (zlen data) ltac:(zlia)) as [Hcount _].
  assert (Hin : 0 + Z.of_nat (Z.to_nat count) <= count) by lia. revert Hin. generalize (Z.le_refl 0). generalize 0 at 2 3 4 5.
  generalize (Z.to_nat count) as n. intros n. revert s.
  induction n as [|n IH]; intros s i Hi Hin; cbn [write_blocks_from]; [done|].
  pose proof (block_copy_small i (zlen data) ltac:(zlia) ltac:(lia)) as [? ?].
  replace (slice (data ++ rest) _ _) with
    (slice data (Z.to_nat (i * MFS_SECTOR_SIZE)) (Z.to_nat (block_copy i (zlen data)))).
  2:{ unfold slice, MFS_SECTOR_SIZE. rewrite drop_app_le, take_app_le; [done| |zlia]. rewrite length_drop. zlia. }
  destruct (blk_write _ _ _) as [s1 [|]]; [|done]. apply IH; lia.
Qed.

Lemma copy_blocks_error s blocks count buffer size s' b' e :
  copy_blocks s blocks count buffer size = (s', b', inl e) -> e <> XAIOS_OK.
Proof.
  unfold copy_blocks. destruct (read_blocks _ _ _ _ _) as [s1 [b|]]; [|intros; by simplify_eq].
  destruct (allocate_blocks _ _) as [s2 [new|]]; [|intros; by simplify_eq].
  destruct (write_blocks _ _ _ _ _) as [s3 [|]]; intros; by simplify_eq.
Qed.

(** Copying a file to new blocks. *)
Lemma copy_blocks_spec s blocks count buffer data s' b' r l :
  copy_blocks s blocks count buffer (zlen data) = (s', b', r) -> lay s = set_active_v2 ->
  holds s blocks count data -> zlen buffer = 8192 -> marks (block_bitmap (vol s)) l ->
  match r with
  | inr new =>
      zlen b' = 8192 /\ length new = 16%nat /\
      evolves (nodes (vol s)) (block_bitmap (vol s')) (used count new) s s' /\
      marks (block_bitmap (vol s')) (used count new ++ l) /\ holds s' new count data
  | inl _ => True
  end.
Proof.
  intros H Hl Hh Hb Hm. pose proof Hh as (Hd & Hc & _). unfold copy_blocks in H.
  rewrite (read_blocks_holds s blocks count data) in H by (done || lia).
  pose proof (block_count_bounds (zlen data) ltac:(zlia)) as [Hcount _].
  destruct (allocate_blocks s count) as [s2 [new|]] eqn:Ha; [|by simplify_eq].
  eapply allocate_blocks_spec in Ha as (Hr & Hc16 & Hln & Hm2); [|done|lia|done].
  rewrite write_blocks_prefix in H by done.
  pose proof (m_nodup _ _ Hm2) as Hnd. apply NoDup_app in Hnd as (Hnd & _ & _).
  pose proof (m_range _ _ Hm2) as Hrg. apply Forall_app in Hrg as [Hrg _].
  destruct (write_blocks _ _ _ _ _) as [s3 ok] eqn:Hw. apply write_blocks_spec in Hw as [Hw Hh3]; [|done..].
  destruct ok; simplify_eq; [|done].
  unfold rewrites in Hw. rewrite (e_nodes _ _ _ _ _ Hr) in Hw. split_and!; [|done|..].
  - unfold zlen in *. rewrite length_app, length_drop. lia.
  - rewrite (e_bitmap _ _ _ _ _ Hw). exact (evolves_trans _ _ _ _ _ _ _ _ _ Hr Hw).
  - by rewrite (e_bitmap _ _ _ _ _ Hw).
  - by apply Hh3.
Qed.

(** Giving back the blocks of the file a node was in the snapshot. *)
Definition free_snap s i : fs D :=
  if negb (n_snapshot_active (node s i) =? 0) && (n_snapshot_type (node s i) =? MFS_NODE_FILE)
  then free_blocks s (n_snapshot_block_count (node s i)) (n_snapshot_blocks (node s i)) else s.

Lemma free_snap_spec s i l :
  Inv s -> 0 <= i < 32 -> marks (block_bitmap (vol s)) (owned_node (node s i) ++ l) ->
  rebitmap s (free_snap s i) /\ marks (block_bitmap (vol (free_snap s i))) (now_blocks (node s i) ++ l).
Proof.
  intros HI Hi Hm. unfold free_snap, owned_node, snap_blocks in *. destruct (_ && _) eqn:Hb.
  2:{ rewrite app_nil_r in Hm. by split. }
  apply andb_true_iff in Hb as [Ha Ht]. apply negb_true_iff in Ha. apply Z.eqb_eq in Ht.
  destruct (w_snap _ _ (i_node _ HI i Hi) Ha) as [Hdir|[_ (data & (Hd & Hc & Hl & _) & _)]]; [by rewrite Ht in Hdir|].
  pose proof (block_count_bounds (zlen data) ltac:(zlia)).
  rewrite <- app_assoc in Hm. rewrite Permutation_app_swap_app in Hm.
  apply free_blocks_spec in Hm; [done|apply HI|zlia].
Qed.

Lemma free_snap_reads s i sec : blk_read (free_snap s i) sec = blk_read s sec.
Proof. unfold free_snap. case_if; [apply free_blocks_reads|done]. Qed.

(** The node after its commit. *)
Definition committed_node (new : list Z) (n : xaios_mfs_node) : xaios_mfs_node :=
  let n1 := clear_snapshot n in
  if n_active n =? 0 then n1 else
  if negb (n_type n =? MFS_NODE_FILE) then take_snapshot n1 else
  set_snapshot_blocks (n_block_count n) new (take_snapshot n1).

(** What a committed node and its blocks are. *)
Definition node_committed s i (s' : fs D) (new : list Z) : Prop :=
  frame s s' /\ replaces s s' i (committed_node new (node s i)) /\
  (forall b, b ∈ now_blocks (node s i) -> blk_read s' (absolute_data_sector b) = blk_read s (absolute_data_sector b)) /\
  ((n_active (node s i) =? 0) = false -> n_type (node s i) = MFS_NODE_FILE -> forall data,
     holds s (n_blocks (node s i)) (n_block_count (node s i)) data -> n_size (node s i) = zlen data ->
     holds s' new (n_block_count (node s i)) data).

Lemma evolves_committed s i s' new bm X :
  Inv s -> 0 <= i < 32 -> evolves ((nodes (vol s)).[i <- committed_node new (node s i)]) bm X s s' ->
  marks bm (owned_node (committed_node new (node s i)) ++ others s i) ->
  (forall b, b ∈ now_blocks (node s i) ++ others s i -> b ∉ X) ->
  ((n_active (node s i) =? 0) = false -> n_type (node s i) = MFS_NODE_FILE -> forall data,
     holds s (n_blocks (node s i)) (n_block_count (node s i)) data -> n_size (node s i) = zlen data ->
     holds s' new (n_block_count (node s i)) data) ->
  node_committed s i s' new.
Proof.
  intros HI Hi HE Hm Hx Hh. split; [by eapply evolves_frame|]. split; [|split; [|done]].
  - eapply evolves_replaces; try done. set_solver.
  - intros b Hb. apply (e_data _ _ _ _ _ HE); [|set_solver]. apply (marks_member _ _ b (i_marks _ HI)).
    rewrite (owned_split s i) by done. unfold owned_node. set_solver.
Qed.

(** A file in the snapshot: its blocks are copied. *)
Lemma commit_file s i buffer bm s3 s4 new b' data :
  Inv s -> 0 <= i < 32 -> zlen buffer = 8192 -> (n_active (node s i) =? 0) = false ->
  n_type (node s i) = MFS_NODE_FILE -> n_size (node s i) = zlen data ->
  holds s (n_blocks (node s i)) (n_block_count (node s i)) data ->
  evolves (upd (nodes (vol s)) i (fun n => take_snapshot (clear_snapshot n))) bm [] s s3 ->
  marks bm (now_blocks (node s i) ++ others s i) ->
  copy_blocks s3 (n_blocks (node s i)) (n_block_count (node s i)) buffer (n_size (node s i)) = (s4, b', inr new) ->
  zlen b' = 8192 /\ node_committed s i (upd_node s4 i (set_snapshot_blocks (n_block_count (node s i)) new)) new.
Proof.
  intros HI Hi Hb Ha Ht Hs Hh HE Hm Hc. rewrite Hs in Hc.
  assert (Hh3 : holds s3 (n_blocks (node s i)) (n_block_count (node s i)) data).
  { eapply holds_frame; [done|]. intros b Hin. apply (e_data _ _ _ _ _ HE); [|set_solver].
    apply (marks_member _ _ b Hm). unfold now_blocks. rewrite Ha, Ht. set_solver. }
  rewrite <- (e_bitmap _ _ _ _ _ HE) in Hm.
  eapply copy_blocks_spec in Hc as (Hb' & Hl & HE4 & Hm4 & Hh4); [|rewrite (e_layout _ _ _ _ _ HE); apply HI|done..].
  split; [done|]. set (X := used _ new) in *.
  assert (Hx : forall b, b ∈ now_blocks (node s i) ++ others s i -> b ∉ X).
  { pose proof (m_nodup _ _ Hm4) as Hnd. apply NoDup_app in Hnd as (_ & Hdisj & _). intros b Hin Hin'. by apply (Hdisj b). }
  rewrite (e_nodes _ _ _ _ _ HE) in HE4. pose proof (evolves_trans _ _ _ _ _ _ _ _ _ HE HE4) as HE'. cbn [app] in HE'.
  pose proof (upd_node_evolves s4 i (set_snapshot_blocks (n_block_count (node s i)) new)) as HE5.
  rewrite (e_nodes _ _ _ _ _ HE'), upd_upd in HE5 by (pose proof (i_nodes _ HI); lia).
  pose proof (evolves_trans _ _ _ _ _ _ _ _ _ HE' HE5) as HE6. rewrite app_nil_r in HE6.
  eapply evolves_committed; [done|done| | |exact Hx|].
  - unfold committed_node. rewrite Ha, Ht. exact HE6.
  - rewrite Permutation_app_swap_app in Hm4.
    unfold committed_node. rewrite Ha, Ht. unfold owned_node, snap_blocks, now_blocks in *. simpl. rewrite Ha, Ht in *.
    simpl in *. rewrite <- app_assoc. exact Hm4.
  - intros _ _ data' Hh' Hs'. assert (data' = data) as ->; [|exact Hh4].
    rewrite <- (file_data_holds s _ _ data' Hh'), <- (file_data_holds s _ _ data Hh). by rewrite <- Hs', <- Hs.
Qed.

Lemma commit_node_spec s i buffer s' b' :
  Inv s -> 0 <= i < 32 -> zlen buffer = 8192 -> commit_node s i buffer = (s', b', XAIOS_OK) ->
  exists new, zlen b' = 8192 /\ node_committed s i s' new.
Proof.
  intros HI Hi Hb H. unfold commit_node in H. fold (free_snap s i) in H.
  destruct (free_snap_spec s i (others s i) HI Hi) as [Hr Hm]; [rewrite <- owned_split by done; apply HI|].
  set (s1 := free_snap s i) in *. set (s2 := upd_node s1 i clear_snapshot) in *.
  assert (Hs2 : evolves (upd (nodes (vol s)) i clear_snapshot) (block_bitmap (vol s1)) [] s s2).
  { pose proof (upd_node_evolves s1 i clear_snapshot) as E. rewrite (e_nodes _ _ _ _ _ Hr) in E.
    exact (evolves_trans _ _ _ _ _ _ _ _ _ Hr E). }
  destruct (n_active (node s i) =? 0) eqn:Ha.
  { simplify_eq. exists []. split; [done|]. eapply evolves_committed; [done|done| | | |by rewrite Ha].
    - unfold committed_node. rewrite Ha. exact Hs2.
    - unfold committed_node, owned_node, now_blocks, snap_blocks in *. rewrite Ha in *. simpl. rewrite Ha. exact Hm.
    - set_solver. }
  set (s3 := upd_node s2 i take_snapshot) in *.
  assert (Hs3 : evolves (upd (nodes (vol s)) i (fun n => take_snapshot (clear_snapshot n))) (block_bitmap (vol s1)) [] s s3).
  { pose proof (upd_node_evolves s2 i take_snapshot) as E.
    rewrite (e_nodes _ _ _ _ _ Hs2), upd_upd in E by (pose proof (i_nodes _ HI); lia).
    exact (evolves_trans _ _ _ _ _ _ _ _ _ Hs2 E). }
  destruct (w_now _ _ (i_node _ HI i Hi) Ha) as [Ht|[Ht (data & Hh & Hs & _)]]; rewrite Ht in H; cbn [negb Z.eqb Pos.eqb MFS_NODE_DIR MFS_NODE_FILE] in H.
  - simplify_eq. exists []. split; [done|]. eapply evolves_committed; [done|done| | | |by rewrite Ht].
    + unfold committed_node. rewrite Ha, Ht. exact Hs3.
    + unfold committed_node, owned_node, now_blocks, snap_blocks in *. rewrite Ha, Ht in *. simpl. rewrite Ha, Ht. exact Hm.
    + set_solver.
  - destruct (copy_blocks _ _ _ _ _) as [[s4 b4] [e|new]] eqn:Hc.
    + simplify_eq. by destruct (copy_blocks_error _ _ _ _ _ _ _ _ Hc).
    + simplify_eq. exists new. by eapply commit_file.
Qed.

Lemma node_committed_entries s i s' new :
  Inv s -> 0 <= i < 32 -> node_committed s i s' new -> node s' i = committed_node new (node s i) ->
  node_wf s' (node s' i) /\ cur s' i = cur s i /\ snap s' i = cur s i.
Proof.
  intros HI Hi (Hfr & HR & Hd & Hh) Hni. pose proof (i_node _ HI i Hi) as Hw. unfold committed_node in Hni.
  destruct (n_active (node s i) =? 0) eqn:Ha.
  { split; [|unfold cur, snap; rewrite Hni; simpl; by rewrite Ha].
    constructor; rewrite Hni; simpl; [|by rewrite Ha|done]. unfold node_is_visible. simpl. by rewrite Ha. }
  assert (Hp : validate_path (path_of s i) = true) by (apply Hw; by apply visible_now).
  destruct (w_now _ _ Hw Ha) as [Ht|[Ht (data & Hhd & Hs & Hhash)]]; rewrite Ht in Hni; cbn in Hni.
  - split; [|by rewrite !cur_dir, snap_dir by (rewrite ?Hni; done)]. constructor; rewrite Hni; simpl; auto.
  - specialize (Hh eq_refl Ht data Hhd Hs).
    assert (Hhd' : holds s' (n_blocks (node s i)) (n_block_count (node s i)) data).
    { eapply holds_frame; [done|]. intros b Hb. apply Hd. unfold now_blocks. by rewrite Ha, Ht. }
    split; [|rewrite (cur_file s i data), (cur_file s' i data), (snap_file s' i data) by (rewrite ?Hni; done); done].
    constructor; rewrite Hni; simpl; [done|..]; intros _; right; (split; [done|]); by exists data.
Qed.

(** A committed node stands for what it stood for, now and in the snapshot. *)
Lemma node_committed_spec s i s' new :
  Inv s -> 0 <= i < 32 -> node_committed s i s' new ->
  Inv s' /\ frame s s' /\ cur s' i = cur s i /\ snap s' i = cur s i /\ path_of s' i = path_of s i /\
  (n_active (node s' i) =? 0) = (n_active (node s i) =? 0) /\
  (n_snapshot_active (node s' i) =? 0) = (n_active (node s i) =? 0) /\
  forall j, 0 <= j < 32 -> j <> i -> node s' j = node s j /\ cur s' j = cur s j /\ snap s' j = snap s j.
Proof.
  intros HI Hi Hcom. pose proof Hcom as (Hfr & HR & _). pose proof (replaces_node s s' i _ i HI HR Hi Hi) as Hni.
  rewrite decide_True in Hni by done. pose proof (i_node _ HI i Hi) as Hw.
  assert (Hact : (n_active (node s' i) =? 0) = (n_active (node s i) =? 0) /\
                 (n_snapshot_active (node s' i) =? 0) = (n_active (node s i) =? 0) /\ path_of s' i = path_of s i).
  { unfold path_of. rewrite Hni. unfold committed_node. destruct (n_active (node s i) =? 0) eqn:Ha; simpl; [by rewrite Ha|].
    case_if; simpl; by rewrite Ha. }
  destruct Hact as (Hact & Hsact & Hpath).
  destruct (node_committed_entries s i s' new HI Hi Hcom Hni) as (Hw' & Hc & Hs). split; [|split_and!; try done].
  - eapply replaces_inv; [done..|by rewrite <- Hni| |].
    + rewrite <- Hni. intros Hv j Hj Hne Hvj. change (path_of s j <> path_of s' i). rewrite Hpath. intros E. apply Hne.
      apply (i_paths _ HI); try done. unfold node_is_visible in *. rewrite Hact, Hsact in Hv. by destruct (n_active (node s i) =? 0).
    + rewrite <- Hni. rewrite Hact, Hsact. congruence.
  - intros j Hj Hne. by eapply replaces_entries.
Qed.

(** Nodes below [i] are committed, and all stand for what they stood for in [s]. *)
Record commits_upto s t i : Prop := {
  cu_inv : Inv t;
  cu_frame : frame s t;
  cu_node j : 0 <= j < 32 ->
    path_of t j = path_of s j /\ (n_active (node t j) =? 0) = (n_active (node s j) =? 0) /\ cur t j = cur s j;
  cu_snap j : 0 <= j < Z.min i 32 ->
    (n_snapshot_active (node t j) =? 0) = (n_active (node s j) =? 0) /\ snap t j = cur s j;
  cu_rest j : i <= j < 32 -> snap t j = snap s j
}.

Lemma commits_next s t i t1 new :
  commits_upto s t i -> 0 <= i < 32 -> node_committed t i t1 new -> commits_upto s t1 (i + 1).
Proof.
  intros [HI Hf Hnode Hsnap Hrest] Hi Hcom.
  destruct (node_committed_spec t i t1 new) as (HI1 & Hf1 & Hc1 & Hs1 & Hp1 & Ha1 & Hsa1 & Ho); [done..|].
  constructor; [done|by etrans|..].
  - intros j Hj. destruct (Hnode j Hj) as (Hp & Ha & Hcj). destruct (decide (j = i)) as [->|Hne].
    + split_and!; congruence.
    + destruct (Ho j Hj Hne) as (E & Ec & _). unfold path_of in *. rewrite E. by rewrite Ec.
  - intros j Hj. destruct (Hnode j ltac:(lia)) as (Hp & Ha & Hcj). destruct (decide (j = i)) as [->|Hne].
    + split; congruence.
    + destruct (Ho j ltac:(lia) Hne) as (E & _ & Es). rewrite E, Es. apply Hsnap. lia.
  - intros j Hj. destruct (Ho j ltac:(lia) ltac:(lia)) as (_ & _ & ->). apply Hrest. lia.
Qed.

Lemma commit_loop_spec n s t i buffer s' :
  commits_upto s t i -> 0 <= i -> i + Z.of_nat n = 32 -> zlen buffer = 8192 ->
  commit_loop n t i buffer = (s', XAIOS_OK) -> commits_upto s s' 32.
Proof.
  revert t i buffer. induction n as [|n IH]; intros t i buffer HC Hi Hn Hb H; cbn [commit_loop] in H.
  { simplify_eq. by replace 32 with i by lia. }
  destruct (commit_node t i buffer) as [[t1 b1] e] eqn:Hc. destruct e; simplify_eq.
  destruct (commit_node_spec t i buffer t1 b1) as (new & Hb1 & Hcom); [apply HC|lia|done..|].
  apply (IH t1 (i + 1) b1); [|lia|lia|exact Hb1|exact H]. eapply commits_next; [done|lia|done].
Qed.

(** A volume all of whose nodes are committed. *)
Lemma committed_view s t t' :
  Inv s -> commits_upto s t 32 -> keeps (with_vol t (set_generations (vol t) (generation (vol t)) (generation (vol t)))) t' ->
  Inv t' /\ (forall p, now t' p = now s p) /\ (forall p, saved t' p = now s p).
Proof.
  intros HI [HIt Hf Hnode Hsnap _] HK.
  set (t1 := with_vol t (set_generations (vol t) (generation (vol t)) (generation (vol t)))) in *.
  assert (HI' : Inv t1).
  { pose proof HIt as []. constructor; try done; simpl; [intros j Hj; by eapply node_frame; [apply HIt|]|]. intros j Hj Ha Hs.
    destruct (Hsnap j ltac:(lia)) as [E _]. destruct (Hnode j Hj) as (_ & Ea & _). unfold node in *. simpl in *. congruence. }
  assert (Hv1 : same_view t t1).
  { apply same_entries_view; [done..|]. intros j Hj. split; [done|]. by apply entry_frame; [apply HIt|..]. }
  destruct (keeps_unchanged _ _ HI' HK) as (HI2 & _ & Hv). split; [done|].
  assert (Hnow : forall p, now t p = now s p).
  { intros p. apply now_ext; [done..|]. intros j Hj. destruct (Hnode j Hj) as (Hp & Ha & Hc).
    unfold names. rewrite Hp, Ha. tauto. }
  split; intros p; destruct (Hv p) as [E1 E2], (Hv1 p) as [E3 E4]; [rewrite E1, E3|rewrite E2, E4].
  - apply Hnow.
  - destruct (saved_cases t p HIt) as [[-> Hno]|(j & Hj & Hjp & Hja & ->)].
    + symmetry. apply now_none; [done|]. intros j Hj Hjp. destruct (Hnode j Hj) as (Hp & _ & _).
      destruct (Hsnap j ltac:(lia)) as [E _]. rewrite <- E. apply Hno; congruence.
    + destruct (Hsnap j ltac:(lia)) as [E ->]. destruct (Hnode j Hj) as (Hp & _ & _).
      rewrite <- Hjp, Hp. symmetry. apply now_at; [done..|congruence].
Qed.

Lemma commit_implements s a k : stands_for s a k -> 1 <= k -> implements s a k Commit.
Proof.
  intros Hsf Hk. pose proof Hsf as [HI Hnow Hsaved Hgen Hdev]. unfold implements. intros Hund. simpl.
  destruct (commit_snapshot s) as [s' st] eqn:H. unfold status_outcome. simpl. unfold commit_snapshot in H.
  destruct (writable s) eqn:Hrw; cbn [negb] in H.
  2:{ simplify_eq. apply ends_unchanged; [done| |by apply bump_unchanged]. by constructor. }
  assert (st = XAIOS_OK) as -> by (specialize (Hund Hrw); simpl in Hund; unfold commit_snapshot in Hund;
    rewrite Hrw in Hund; cbn [negb] in Hund; rewrite H in Hund; by simplify_eq).
  rewrite (i_layout _ HI) in H.
  destruct (commit_loop _ s 0 stack_buffer) as [s1 e] eqn:Hl. destruct e; simplify_eq.
  eapply (commit_loop_spec _ s s 0) in Hl; [|constructor; try done; intros; lia|lia|done|done].
  apply write_metadata_keeps in H as [HK _]; [|simpl; rewrite (f_layout _ _ (cu_frame _ _ _ Hl)); apply HI].
  destruct (committed_view s s1 s' HI Hl) as (HI' & Hn & Hs); [etrans; [apply bump_keeps|exact HK]|].
  exists (mk_store (s_now a) (s_now a)). split; [rewrite Hrw; by constructor|].
  destruct HK; simpl in *. destruct (cu_frame _ _ _ Hl). split; constructor; try congruence; simpl.
  - intros p. by rewrite Hn.
  - intros p. by rewrite Hs.
  - rewrite e_generation0, f_generation0. lia.
  - intros Hfine. by apply e_device0, f_device0, Hdev.
  - rewrite e_generation0, f_generation0. lia.
  - intros Hd. by apply e_device0, f_device0.
Qed.

(** ** Rollback *)

(** Node [j] is as in the snapshot. *)
Definition rolled s j : Prop :=
  (n_active (node s j) =? 0) = (n_snapshot_active (node s j) =? 0) /\ cur s j = snap s j.

(** The snapshot of a node is the same. *)
Definition snapshot_kept s s' j : Prop :=
  path_of s' j = path_of s j /\ (n_snapshot_active (node s' j) =? 0) = (n_snapshot_active (node s j) =? 0) /\
  n_snapshot_type (node s' j) = n_snapshot_type (node s j) /\ snap s' j = snap s j.

(** Node [i] goes back to the snapshot, all others stay. *)
Record turns s s' i : Prop := {
  tu_inv : Inv s';
  tu_frame : frame s s';
  tu_kept j : 0 <= j < 32 -> snapshot_kept s s' j;
  tu_same j : 0 <= j < 32 -> j <> i -> cur s' j = cur s j;
  tu_other j : 0 <= j < 32 -> j <> i -> rolled s j -> rolled s' j;
  tu_rolled : rolled s' i
}.

(** A node replaced by one with the same snapshot that is as in it. *)
Lemma replaces_turns s s' i n :
  Inv s -> 0 <= i < 32 -> frame s s' -> replaces s s' i n -> n_path n = n_path (node s i) ->
  same_snapshot (node s i) n -> n_snapshot_type n = n_snapshot_type (node s i) -> node_wf s' n ->
  (n_active n =? 0) = (n_snapshot_active n =? 0) -> node_is_visible (node s i) = true ->
  (forall b, b ∈ snap_blocks (node s i) -> blk_read s' (absolute_data_sector b) = blk_read s (absolute_data_sector b)) ->
  (node s' i = n -> cur s' i = snap s' i) -> turns s s' i.
Proof.
  intros HI Hi Hf HR Hp Hsn Hst Hw Hact Hvis Hd Hcur.
  pose proof (replaces_node s s' i n i HI HR Hi Hi) as Hni. rewrite decide_True in Hni by done.
  assert (Hsnap : snap s' i = snap s i) by (apply same_snapshot_entry; [by apply HI|by rewrite Hni|done]).
  assert (Hoth : forall j, 0 <= j < 32 -> j <> i -> node s' j = node s j /\ cur s' j = cur s j /\ snap s' j = snap s j)
    by (intros; by eapply replaces_entries).
  constructor; [|done|..].
  - eapply replaces_inv; [done..| |].
    + intros _ j Hj Hne Hv E. rewrite Hp in E. apply Hne. by apply (i_paths _ HI).
    + rewrite Hact. congruence.
  - intros j Hj. destruct (decide (j = i)) as [->|Hne].
    + unfold snapshot_kept, path_of. rewrite Hni, Hp. split_and!; [done|apply Hsn|done|done].
    + destruct (Hoth j Hj Hne) as (E & _ & Es). unfold snapshot_kept, path_of. by rewrite E, Es.
  - intros j Hj Hne. by apply Hoth.
  - intros j Hj Hne. destruct (Hoth j Hj Hne) as (E & Ec & Es). unfold rolled. by rewrite E, Ec, Es.
  - unfold rolled. rewrite Hni. split; [done|by apply Hcur].
Qed.

Lemma drop_new_spec s i :
  Inv s -> 0 <= i < 32 -> (n_snapshot_active (node s i) =? 0) = true -> turns s (drop_new_node i s) i.
Proof.
  intros HI Hi Hs. unfold drop_new_node. rewrite Hs. destruct (n_active (node s i) =? 0) eqn:Ha; cbn [negb andb].
  { constructor; try done. unfold rolled, cur, snap. by rewrite Ha, Hs. }
  rewrite (proj2 (Z.leb_le _ _)) by (by apply HI).
  set (f := fun n => set_file_blocks 0 no_blocks (deactivate 0 (n_generation n) n)).
  assert (E : (if n_type (node s i) =? MFS_NODE_FILE then free_blocks s (n_block_count (node s i)) (n_blocks (node s i))
               else s) = free_now s s i) by (unfold free_now; by rewrite Ha).
  rewrite E. destruct (free_now_spec s s i (block_bitmap (vol s)) [] [] (others s i) HI Hi) as [HE Hm]; [done| |].
  { cbn. rewrite <- owned_split by done. apply HI. }
  pose proof (upd_node_evolves (free_now s s i) i f) as HU. rewrite (e_nodes _ _ _ _ _ HE) in HU.
  pose proof (evolves_trans _ _ _ _ _ _ _ _ _ HE HU) as HE'.
  assert (Hsb : snap_blocks (node s i) = []) by (unfold snap_blocks; by rewrite Hs).
  eapply (replaces_turns s _ i (f (node s i))); try done.
  - by eapply evolves_frame.
  - eapply evolves_replaces; [done..| |set_solver]. change (owned_node (f (node s i))) with (snap_blocks (node s i)). exact Hm.
  - constructor; simpl; [|done|by rewrite Hs]. unfold node_is_visible. simpl. by rewrite Hs.
  - by apply visible_now.
  - rewrite Hsb. set_solver.
  - intros Hn. unfold cur, snap. rewrite Hn. simpl. by rewrite Hs.
Qed.

(** Restoring a file: its blocks are copied from those of the snapshot. *)
Lemma restore_file s i bm s2 s3 b' new data :
  Inv s -> 0 <= i < 32 -> (n_snapshot_active (node s i) =? 0) = false -> n_snapshot_type (node s i) = MFS_NODE_FILE ->
  n_snapshot_size (node s i) = zlen data -> n_snapshot_hash (node s i) = fnv1a64 data ->
  holds s (n_snapshot_blocks (node s i)) (n_snapshot_block_count (node s i)) data ->
  evolves (upd (nodes (vol s)) i revive) bm [] s s2 -> marks bm (snap_blocks (node s i) ++ others s i) ->
  copy_blocks s2 (n_snapshot_blocks (node s i)) (n_snapshot_block_count (node s i)) stack_buffer
    (n_snapshot_size (node s i)) = (s3, b', inr new) ->
  turns s (upd_node s3 i (set_file_blocks (n_snapshot_block_count (node s i)) new)) i.
Proof.
  intros HI Hi Hs Ht Hsize Hhash Hh HE Hm Hc. rewrite Hsize in Hc. pose proof (i_nodes _ HI) as Hlen.
  assert (Hh2 : holds s2 (n_snapshot_blocks (node s i)) (n_snapshot_block_count (node s i)) data).
  { eapply holds_frame; [done|]. intros b Hin. apply (e_data _ _ _ _ _ HE); [|set_solver].
    apply (marks_member _ _ b Hm). unfold snap_blocks. rewrite Hs, Ht. set_solver. }
  rewrite <- (e_bitmap _ _ _ _ _ HE) in Hm.
  eapply copy_blocks_spec in Hc as (_ & Hl & HE3 & Hm3 & Hh3); [|rewrite (e_layout _ _ _ _ _ HE); apply HI|done..].
  set (X := used _ new) in *.
  assert (Hx : forall b, b ∈ snap_blocks (node s i) ++ others s i -> b ∉ X).
  { pose proof (m_nodup _ _ Hm3) as Hnd. apply NoDup_app in Hnd as (_ & Hdisj & _). intros b Hin Hin'. by apply (Hdisj b). }
  rewrite (e_nodes _ _ _ _ _ HE) in HE3. pose proof (evolves_trans _ _ _ _ _ _ _ _ _ HE HE3) as HE'. cbn [app] in HE'.
  pose proof (upd_node_evolves s3 i (set_file_blocks (n_snapshot_block_count (node s i)) new)) as HE4.
  rewrite (e_nodes _ _ _ _ _ HE'), upd_upd in HE4 by lia.
  pose proof (evolves_trans _ _ _ _ _ _ _ _ _ HE' HE4) as HE5. rewrite app_nil_r in HE5.
  set (s' := upd_node s3 i _) in *. set (n := set_file_blocks (n_snapshot_block_count (node s i)) new (revive (node s i))).
  assert (Hd : forall b, b ∈ snap_blocks (node s i) -> blk_read s' (absolute_data_sector b) = blk_read s (absolute_data_sector b)).
  { intros b Hb. apply (e_data _ _ _ _ _ HE5); [|set_solver]. apply (marks_member _ _ b Hm3). set_solver. }
  assert (Hsh : holds s' (n_snapshot_blocks (node s i)) (n_snapshot_block_count (node s i)) data).
  { eapply holds_frame; [exact Hh|]. intros b Hb. apply Hd. unfold snap_blocks. by rewrite Hs, Ht. }
  assert (Hnh : holds s' new (n_snapshot_block_count (node s i)) data) by exact Hh3.
  assert (Hvis : node_is_visible (node s i) = true) by (by apply visible_snap).
  eapply (replaces_turns s s' i n); try done.
  - by eapply evolves_frame.
  - eapply evolves_replaces; [done|done|exact HE5| |set_solver].
    assert (owned_node n = X ++ snap_blocks (node s i)) as ->; [|by rewrite <- app_assoc].
    unfold owned_node, now_blocks, snap_blocks. simpl. by rewrite Ht.
  - constructor; simpl; intros _; [by apply HI|right; split; [done|]; by exists data..].
  - intros Hn. rewrite (cur_file s' i data), (snap_file s' i data); rewrite ?Hn; done.
Qed.

Lemma restore_snapshot_spec s i s' :
  Inv s -> 0 <= i < 32 -> (n_snapshot_active (node s i) =? 0) = false ->
  restore_snapshot_node s i = (s', XAIOS_OK) -> turns s s' i.
Proof.
  intros HI Hi Hs H. unfold restore_snapshot_node in H. rewrite Hs in H. fold (free_now s s i) in H.
  destruct (free_now_spec s s i (block_bitmap (vol s)) [] [] (others s i) HI Hi) as [HE Hm]; [done| |].
  { cbn. rewrite <- owned_split by done. apply HI. }
  pose proof (upd_node_evolves (free_now s s i) i revive) as HU. rewrite (e_nodes _ _ _ _ _ HE) in HU.
  pose proof (evolves_trans _ _ _ _ _ _ _ _ _ HE HU) as HE'.
  destruct (w_snap _ _ (i_node _ HI i Hi) Hs) as [Ht|[Ht (data & Hh & Hsize & Hhash)]]; rewrite Ht in H; cbn in H.
  - simplify_eq. eapply (replaces_turns s _ i (revive (node s i))); try done.
    + by eapply evolves_frame.
    + eapply evolves_replaces; [done..| |set_solver].
      assert (owned_node (revive (node s i)) = snap_blocks (node s i)) as ->; [|exact Hm].
      unfold owned_node, now_blocks, snap_blocks. simpl. by rewrite Ht.
    + constructor; simpl; intros _; [by apply HI, visible_snap|by left..].
    + by apply visible_snap.
    + intros b Hb. apply (e_data _ _ _ _ _ HE'); [|set_solver]. apply (marks_member _ _ b Hm). set_solver.
    + intros Hn. rewrite cur_dir, snap_dir; rewrite ?Hn; done.
  - destruct (copy_blocks _ _ _ _ _) as [[s3 b'] [e|new]] eqn:Hc; simplify_eq.
    + by destruct (copy_blocks_error _ _ _ _ _ _ _ _ Hc).
    + by eapply restore_file.
Qed.

(** On the way from [s] to its snapshot: the nodes in [P] are there. *)
Record rolling s t (P : Z -> Prop) : Prop := {
  ro_inv : Inv t;
  ro_frame : frame s t;
  ro_kept j : 0 <= j < 32 -> snapshot_kept s t j;
  ro_cur j : 0 <= j < 32 -> cur t j = cur s j \/ rolled t j;
  ro_rolled j : 0 <= j < 32 -> P j -> rolled t j
}.

Lemma rolling_turns s t t1 (P Q : Z -> Prop) i :
  rolling s t P -> turns t t1 i -> (forall j, 0 <= j < 32 -> Q j -> j = i \/ P j) -> rolling s t1 Q.
Proof.
  intros [HI Hf Hk Hc Hr] [HI1 Hf1 Hk1 Hs1 Ho1 Hr1] HQ. constructor; [done|by etrans|..].
  - intros j Hj. destruct (Hk j Hj) as (? & ? & ? & ?), (Hk1 j Hj) as (? & ? & ? & ?). split_and!; congruence.
  - intros j Hj. destruct (decide (j = i)) as [->|Hne]; [by right|]. rewrite Hs1 by done.
    destruct (Hc j Hj); [by left|right]. by apply Ho1.
  - intros j Hj Hq. destruct (decide (j = i)) as [->|Hne]; [done|]. apply Ho1; try done. apply Hr; [done|].
    by destruct (HQ j Hj Hq).
Qed.

Lemma rolling_weaken s t (P Q : Z -> Prop) :
  rolling s t P -> (forall j, 0 <= j < 32 -> Q j -> P j) -> rolling s t Q.
Proof. intros [HI Hf Hk Hc Hr] HQ. constructor; auto. Qed.

Definition no_snapshot s j : Prop := (n_snapshot_active (node s j) =? 0) = true.

Lemma drop_all_spec s :
  Inv s -> rolling s (for_range 32 0 drop_new_node s) (no_snapshot s).
Proof.
  intros HI. eapply rolling_weaken.
  - apply (for_upto_ind (fun i t => rolling s t (fun j => j < i /\ no_snapshot s j)) drop_new_node 32 s); [done| |].
    + constructor; try done; [by left|intros; lia].
    + intros i t Hi HR. destruct (n_snapshot_active (node t i) =? 0) eqn:E.
      * eapply rolling_turns; [exact HR|apply drop_new_spec; [apply HR|done|done]|]. intros j Hj [? ?].
        destruct (decide (j = i)); [by left|right]. split; [lia|done].
      * unfold drop_new_node. rewrite E. cbn [andb]. eapply rolling_weaken; [exact HR|]. intros j Hj [? Hn].
        split; [|done]. destruct (decide (j = i)) as [->|]; [|lia]. destruct (ro_kept _ _ _ HR i Hi) as (_ & E' & _).
        unfold no_snapshot in Hn. congruence.
  - intros j Hj Hn. split; [lia|done].
Qed.

(** One pass: the nodes of the snapshot that have this type. *)
Lemma restore_pass_spec n s t i type s' (P : Z -> Prop) :
  rolling s t (fun j => P j \/ (j < i /\ n_snapshot_type (node s j) = type /\ ~ no_snapshot s j)) ->
  0 <= i -> i + Z.of_nat n = 32 -> restore_pass n t i type = (s', true) ->
  rolling s s' (fun j => P j \/ (n_snapshot_type (node s j) = type /\ ~ no_snapshot s j)).
Proof.
  revert t i. induction n as [|n IH]; intros t i HR Hi Hn H; cbn [restore_pass] in H.
  { simplify_eq. eapply rolling_weaken; [exact HR|]. intros j Hj [?|?]; [by left|right]. split; [lia|done]. }
  destruct (ro_kept _ _ _ HR i ltac:(lia)) as (_ & Ea & Et & _). rewrite Et, Ea in H.
  destruct (_ && _) eqn:Hb in H.
  - destruct (restore_snapshot_node t i) as [t1 e] eqn:Hr. destruct e; simplify_eq.
    apply andb_true_iff in Hb as [Hb _]. apply negb_true_iff in Hb.
    eapply (IH t1 (i + 1)); [|lia|lia|done]. eapply (rolling_turns s t t1 _ _ i); [exact HR| |].
    + eapply restore_snapshot_spec; [apply HR|lia|by rewrite Ea|exact Hr].
    + intros j Hj [?|(? & ?)]; [right; by left|]. destruct (decide (j = i)); [by left|]. right. right. split; [lia|done].
  - eapply (IH t (i + 1)); [|lia|lia|done]. eapply rolling_weaken; [exact HR|].
    intros j Hj [?|(? & Hty & Hns)]; [by left|]. right. split_and!; try done. destruct (decide (j = i)) as [->|]; [|lia].
    exfalso. rewrite Hty, Z.eqb_refl, andb_true_r in Hb. apply Hns. by apply negb_false_iff.
Qed.

(** All nodes are as in the snapshot. *)
Lemma rolled_view s t :
  Inv s -> rolling s t (fun _ => True) -> (forall p, now t p = saved s p) /\ (forall p, saved t p = saved s p).
Proof.
  intros HI [HIt Hf Hk _ Hr].
  assert (Hs : forall p, saved t p = saved s p).
  { intros p. apply saved_ext; [done..|]. intros j Hj. destruct (Hk j Hj) as (Hp & Ha & _ & Hc).
    unfold names_snap. rewrite Hp, Ha. tauto. }
  split; [|done]. intros p. rewrite <- Hs. destruct (saved_cases t p HIt) as [[-> Hno]|(j & Hj & Hjp & Hja & ->)].
  - apply now_none; [done|]. intros j Hj Hjp. destruct (Hr j Hj I) as [-> _]. by apply Hno.
  - destruct (Hr j Hj I) as [E <-]. rewrite <- Hjp. apply now_at; [done..|congruence].
Qed.

Lemma next_generation_view s :
  Inv s -> 0 <= generation (vol s) -> generation (vol s) + 1 < 18446744073709551616 ->
  Inv (next_generation s) /\ same_view s (next_generation s).
Proof.
  intros HI Hg0 Hg. assert (HI' : Inv (next_generation s)).
  { pose proof HI as []. constructor; try done; simpl; [intros j Hj; by eapply node_frame; [apply HI|]|].
    rewrite u64_small by lia. lia. }
  split; [done|]. apply same_entries_view; [done..|]. intros j Hj. split; [done|]. by apply entry_frame; [apply HI|..].
Qed.

Lemma rollback_implements s a k : stands_for s a k -> 1 <= k -> implements s a k Rollback.
Proof.
  intros Hsf Hk. pose proof Hsf as [HI Hnow Hsaved Hgen Hdev]. unfold implements. intros Hund. simpl.
  destruct (rollback_snapshot s) as [s' st] eqn:H. unfold status_outcome. simpl. unfold rollback_snapshot in H.
  destruct (writable s) eqn:Hrw; cbn [negb] in H.
  2:{ simplify_eq. apply ends_unchanged; [done| |by apply bump_unchanged]. by constructor. }
  assert (st = XAIOS_OK) as -> by (specialize (Hund Hrw); simpl in Hund; unfold rollback_snapshot in Hund;
    rewrite Hrw in Hund; cbn [negb] in Hund; rewrite H in Hund; by simplify_eq).
  rewrite (i_layout _ HI) in H. change (Z.to_nat (g_active_max_nodes set_active_v2)) with 32%nat in H.
  pose proof (drop_all_spec s HI) as H1. set (s1 := for_range 32 0 drop_new_node s) in *.
  destruct (restore_pass 32 s1 0 MFS_NODE_DIR) as [s2 [|]] eqn:Hp1; [|done].
  destruct (restore_pass 32 s2 0 MFS_NODE_FILE) as [s3 [|]] eqn:Hp2; [|done].
  eapply (restore_pass_spec 32 s s1 0 _ s2 (no_snapshot s)) in Hp1; [|eapply rolling_weaken; [exact H1|]|done|done].
  2:{ intros j Hj [?|?]; [done|lia]. }
  eapply (restore_pass_spec 32 s s2 0) in Hp2; [|eapply rolling_weaken; [exact Hp1|]|done|done].
  2:{ intros j Hj [Hq|?]; [exact Hq|lia]. }
  assert (HR : rolling s s3 (fun _ => True)).
  { eapply rolling_weaken; [exact Hp2|]. intros j Hj _. destruct (n_snapshot_active (node s j) =? 0) eqn:Hn.
    - left. by left.
    - assert (Hns : ~ no_snapshot s j) by (unfold no_snapshot; congruence).
      destruct (w_snap _ _ (i_node _ HI j Hj) Hn) as [?|[? _]]; [left; by right|by right]. }
  destruct (rolled_view s s3 HI HR) as [Hn3 Hs3]. destruct HR as [HI3 [] _ _ _].
  destruct (next_generation_view s3 HI3) as [HI4 Hv4]; [lia..|].
  apply write_metadata_keeps in H as [HK _]; [|simpl; apply HI3].
  destruct (keeps_unchanged _ s' HI4) as (HI5 & _ & Hv5); [etrans; [apply bump_keeps|exact HK]|].
  exists (mk_store (s_saved a) (s_saved a)). split; [rewrite Hrw; by constructor|].
  destruct HK; simpl in *. rewrite u64_small in e_generation0 by lia.
  split; constructor; try congruence; try lia; simpl; [intros p; destruct (Hv4 p) as [E1 E2], (Hv5 p) as [E3 E4]..| |].
  - by rewrite E3, E1, Hn3.
  - by rewrite E4, E2, Hs3.
  - intros Hfine. by apply e_device0, f_device0, Hdev.
  - intros Hd. by apply e_device0, f_device0.
Qed.

(** ** Sequences of operations *)

Fixpoint perform_all s (ops : list op) : fs D * list outcome :=
  match ops with
  | [] => (s, [])
  | o :: ops' =>
      let '(s1, r) := perform s o in
      let '(s2, rs) := perform_all s1 ops' in (s2, r :: rs)
  end.

(** All operations of a sequence are undisturbed where they are done. *)
Fixpoint orderly s (ops : list op) : Prop :=
  match ops with
  | [] => True
  | o :: ops' => undisturbed s o /\ orderly (perform s o).1 ops'
  end.

Lemma perform_implements s a k o : stands_for s a k -> 1 <= k -> implements s a k o.
Proof.
  destruct o; auto using mkdir_implements, write_implements, read_implements, stat_implements, delete_implements,
    rename_implements, commit_implements, rollback_implements.
Qed.

Lemma stable_writable s s' : stable s s' -> g_mounted s' = g_mounted s /\ writable s' = writable s.
Proof. intros []. unfold writable. by rewrite t_mounted0, t_flags0. Qed.

Lemma perform_all_steps s a k ops s' rs :
  stands_for s a k -> zlen ops <= k -> orderly s ops -> perform_all s ops = (s', rs) ->
  (exists a', steps (g_mounted s) (writable s) faulty a ops rs a' /\ stands_for s' a' (k - zlen ops)) /\
  writable s' = writable s.
Proof.
  revert s a k rs. induction ops as [|o ops IH]; intros s a k rs Hsf Hk Ho H; cbn [perform_all] in H.
  { simplify_eq. split; [|done]. exists a. split; [constructor|]. by replace (k - zlen []) with k by (unfold zlen; simpl; lia). }
  assert (Hlen : zlen (o :: ops) = zlen ops + 1) by (unfold zlen; simpl; lia). destruct Ho as [Hu Ho].
  pose proof (perform_implements s a k o Hsf ltac:(zlia) Hu) as Hi.
  destruct (perform s o) as [s1 r]. destruct Hi as (a1 & Hs & Hsf1 & Hst).
  destruct (perform_all s1 ops) as [s2 rs2] eqn:Hp. simplify_eq. destruct (stable_writable _ _ Hst) as [Hm Hw].
  destruct (IH s1 a1 (k - 1) rs2 Hsf1 ltac:(zlia) Ho Hp) as [(a2 & Hs2 & Ha2) Hw2]. rewrite Hm, Hw in Hs2.
  split; [|congruence]. exists a2. split; [by econstructor|]. by replace (k - zlen (o :: ops)) with (k - 1 - zlen ops) by lia.
Qed.

(** A formatted volume is empty. *)
Definition empty_store : store := mk_store (fun _ => None) (fun _ => None).

Lemma blk_write_frame s sec b s' ok : blk_write s sec b = (s', ok) -> vol s' = vol s /\ lay s' = lay s.
Proof. intros (? & ? & _)%blk_write_spec. done. Qed.

Lemma clear_journal_vol s s' : clear_journal s = (s', XAIOS_OK) -> vol s' = vol s /\ lay s' = lay s.
Proof.
  unfold clear_journal. intros H. destruct (blk_write s _ _) as [s1 [|]] eqn:H1; [|done].
  destruct (blk_write s1 _ _) as [s2 [|]] eqn:H2; simplify_eq.
  apply blk_write_frame in H1 as [<- <-]. by apply blk_write_frame in H2.
Qed.

Lemma clear_journal_keeps s s' : clear_journal s = (s', XAIOS_OK) -> keeps s s'.
Proof.
  unfold clear_journal. intros H. destruct (blk_write s _ _) as [s1 [|]] eqn:H1; [|done].
  destruct (blk_write s1 _ _) as [s2 [|]] eqn:H2; simplify_eq.
  apply blk_write_keeps in H1 as [H1 _], H2 as [H2 _]; [by etrans|done..].
Qed.

Lemma owned_zero s : (forall j, 0 <= j < 32 -> node s j = zero_node) -> owned s = [].
Proof.
  intros H. unfold owned. rewrite (list_fmap_ext _ (fun _ => [])); [done|].
  intros k j Hj. apply list_elem_of_lookup_2, elem_of_seqZ in Hj. rewrite H by lia. done.
Qed.

Lemma format_stands s s1 m fl :
  lay s = set_active_v2 -> format_volume s = (s1, XAIOS_OK) -> (faulty = false -> dependable (current_device s)) ->
  stands_for (with_mount s1 m fl) empty_store 18446744073709551614.
Proof.
  intros Hl H Hd. unfold format_volume in H. destruct (clear_journal _) as [s0 e] eqn:Hc. destruct e; try done.
  apply clear_journal_keeps in Hc. pose proof (e_layout _ _ _ _ _ Hc) as Hl0.
  apply write_metadata_keeps in H as [HK _]; [|by rewrite Hl0].
  pose proof (transitivity Hc HK) as []. rewrite Hl in *. simpl in *.
  assert (Hz : forall j, 0 <= j < 32 -> node (with_mount s1 m fl) j = zero_node).
  { intros j Hj. unfold node. simpl. rewrite e_nodes0. apply (arr_get_replicate 64). lia. }
  assert (HI : Inv (with_mount s1 m fl)).
  { constructor; simpl.
    - congruence.
    - by rewrite e_nodes0.
    - intros j Hj. by rewrite Hz.
    - rewrite owned_zero by done. constructor; [by rewrite e_bitmap0|constructor|constructor|].
      intros b Hb. assert (E : (block_bitmap (vol s1)).[b] = 0); [|by rewrite E].
      rewrite e_bitmap0. apply (arr_get_replicate 256). lia.
    - intros i j Hi Hj. by rewrite Hz.
    - intros j Hj. by rewrite Hz.
    - rewrite e_committed0, e_generation0. simpl. lia. }
  constructor; [done|..].
  - intros p. apply now_none; [done|]. intros j Hj _. by rewrite Hz.
  - intros p. destruct (saved_cases _ p HI) as [[-> _]|(j & Hj & _ & Ha & _)]; [done|]. by rewrite Hz in Ha.
  - simpl. rewrite e_generation0. simpl. lia.
  - intros Hfine. by apply e_device0, Hd.
Qed.

(** ** The consistency check *)

Definition snapshot_blocks s : list Z := List.concat ((fun i => snap_blocks (node s i)) <$> seqZ 0 32).

Lemma elem_of_blocks s (f : xaios_mfs_node -> list Z) b :
  b ∈ List.concat ((fun i => f (node s i)) <$> seqZ 0 32) <-> exists i, 0 <= i < 32 /\ b ∈ f (node s i).
Proof.
  rewrite list_elem_of_In, in_concat. split.
  - intros (l & Hl & Hb). apply list_elem_of_In in Hl, Hb. apply list_elem_of_fmap in Hl as (i & -> & Hi).
    apply elem_of_seqZ in Hi. exists i. split; [lia|done].
  - intros (i & Hi & Hb). exists (f (node s i)). rewrite <- !list_elem_of_In. split; [|done].
    apply list_elem_of_fmap. exists i. split; [done|]. apply elem_of_seqZ. lia.
Qed.

Lemma referenced_spec s b : Inv s -> (referenced s b = true <-> exists i, 0 <= i < 32 /\ b ∈ now_blocks (node s i)).
Proof.
  intros HI. unfold referenced. rewrite existsb_exists, (i_layout _ HI). split.
  - intros (i & Hi & Hb). apply list_elem_of_In, elem_of_seqZ in Hi. cbn in Hi. exists i. split; [lia|].
    apply andb_true_iff in Hb as [Hf Hb]. unfold now_blocks. rewrite Hf. apply andb_true_iff in Hf as [Ha Ht].
    apply negb_true_iff in Ha. apply Z.eqb_eq in Ht.
    destruct (w_now _ _ (i_node _ HI i ltac:(lia)) Ha) as [Hd|[_ (data & (Hd & Hc & Hl & _) & _)]]; [by rewrite Ht in Hd|].
    pose proof (block_count_bounds (zlen data) ltac:(zlia)).
    apply existsb_exists in Hb as (k & Hk & E). apply list_elem_of_In, elem_of_seqZ in Hk. apply Z.eqb_eq in E as <-.
    eapply list_elem_of_lookup_2. apply used_get; [lia|zlia].
  - intros (i & Hi & Hb). exists i. split; [apply list_elem_of_In, elem_of_seqZ; cbn; lia|]. unfold now_blocks in Hb.
    destruct (_ && _) eqn:Hf; [|set_solver]. cbn [andb]. apply list_elem_of_lookup in Hb as [k Hk].
    pose proof (lookup_lt_Some _ _ _ Hk) as Hlt. unfold used in *. rewrite length_take in Hlt.
    rewrite lookup_take, decide_True in Hk by lia. apply existsb_exists. exists (Z.of_nat k). split.
    + apply list_elem_of_In, elem_of_seqZ. lia.
    + rewrite Nat2Z.id. rewrite (list_lookup_total_correct _ _ _ Hk). apply Z.eqb_refl.
Qed.

Lemma now_snap_disjoint s i j b :
  Inv s -> 0 <= i < 32 -> 0 <= j < 32 -> b ∈ now_blocks (node s i) -> b ∈ snap_blocks (node s j) -> False.
Proof.
  intros HI Hi Hj Hb Hc. pose proof (m_nodup _ _ (i_marks _ HI)) as Hnd. rewrite (owned_split s i) in Hnd by done.
  apply NoDup_app in Hnd as (Hnd & Hdisj & _). destruct (decide (j = i)) as [->|Hne].
  - unfold owned_node in Hnd. apply NoDup_app in Hnd as (_ & Hd & _). by apply (Hd b).
  - apply (Hdisj b); [unfold owned_node; set_solver|]. apply elem_of_others. exists j. unfold owned_node. set_solver.
Qed.

(** The check counts as errors exactly the blocks of the snapshot: on a volume in order
    it reports it valid if the snapshot has no block. *)
Theorem mfs_fsck_exact s :
  Inv s ->
  fsck_errors (mutable_fs_fsck s) = count (fun b => bool_decide (b ∈ snapshot_blocks s)) 96 /\
  fsck_valid (mutable_fs_fsck s) = (fsck_errors (mutable_fs_fsck s) =? 0).
Proof.
  intros HI. split; [|done]. unfold mutable_fs_fsck. cbn [fsck_errors]. rewrite (i_layout _ HI).
  cbn [g_active_data_sectors set_active_v2]. rewrite count_loop by done. apply count_ext. intros b Hb.
  rewrite (m_exact _ _ (i_marks _ HI) b Hb), negb_involutive.
  pose proof (referenced_spec s b HI) as Href. pose proof (elem_of_blocks s owned_node b) as Ho.
  pose proof (elem_of_blocks s snap_blocks b) as Hs. fold (owned s) in Ho. fold (snapshot_blocks s) in Hs.
  destruct (referenced s b) eqn:E.
  - destruct (proj1 Href eq_refl) as (i & Hi & Hib).
    rewrite bool_decide_eq_true_2 by (apply Ho; exists i; unfold owned_node; set_solver).
    rewrite bool_decide_eq_false_2; [done|]. intros (j & Hj & Hjb)%Hs. exact (now_snap_disjoint s i j b HI Hi Hj Hib Hjb).
  - assert (bool_decide (b ∈ owned s) = bool_decide (b ∈ snapshot_blocks s)) as ->; [|by destruct (bool_decide _)].
    apply bool_decide_ext. rewrite Ho, Hs. split; intros (i & Hi & Hib); exists i; (split; [done|]).
    + unfold owned_node in Hib. apply elem_of_app in Hib as [Hib|Hib]; [|done].
      assert (false = true) by (apply Href; by exists i). done.
    + unfold owned_node. set_solver.
Qed.

(** ** Shortcomings *)

(** The root is never seen to have children, so it can be deleted or renamed under them. *)
Lemma root_children_unseen s : Inv s -> has_active_children s [47] = false.
Proof.
  intros HI. apply not_true_iff_false. unfold has_active_children. rewrite existsb_exists, (i_layout _ HI).
  intros (i & Hi & Hb). apply list_elem_of_In, elem_of_seqZ in Hi. cbn in Hi.
  apply andb_true_iff in Hb as [Hb Hbelow]. apply andb_true_iff in Hb as [Ha _]. apply negb_true_iff in Ha.
  assert (Hp : validate_path (path_of s i) = true) by (apply (w_path _ _ (i_node _ HI i ltac:(lia))); by apply visible_now).
  fold (path_of s i) in Hbelow. unfold below in Hbelow. apply andb_true_iff in Hbelow as [H1 H2].
  apply bool_decide_eq_true in H1, H2. destruct (path_of s i) as [|c [|d l]]; try done. simpl in H1, H2. by simplify_eq.
Qed.

(** In the layout of persistent disks the metadata sectors reach over the journal and the
    first data blocks. *)
Lemma v3_metadata_overlaps_data :
  MFS_START_SECTOR <= MFS_JOURNAL_HEADER_SECTOR < MFS_START_SECTOR + g_active_metadata_sectors set_active_v3 /\
  forall b, 0 <= b < 14 ->
    MFS_START_SECTOR <= absolute_data_sector b < MFS_START_SECTOR + g_active_metadata_sectors set_active_v3.
Proof. unfold absolute_data_sector, MFS_DATA_START_SECTOR, MFS_START_SECTOR, MFS_JOURNAL_HEADER_SECTOR. simpl. split; [lia|]. intros; lia. Qed.

End Spec.

(** ** A disk in memory *)

Lemma ram_write s sec b :
  g_persistent_handle s = None -> 0 <= sec < capacity (disk s) -> zlen b = 512 ->
  exists s', blk_write s sec b = (s', true) /\ g_persistent_handle s' = None /\ capacity (disk s') = capacity (disk s).
Proof.
  intros Hp Hs Hb. unfold blk_write. rewrite Hp. simpl.
  rewrite (proj2 (Z.leb_le _ _)), (proj2 (Z.ltb_lt _ _)), Hb by lia. simpl. eexists. done.
Qed.

Lemma ram_write_sectors n s i raw :
  g_persistent_handle s = None -> 0 <= i -> i + Z.of_nat n <= 32 -> zlen raw = 16384 -> 3104 <= capacity (disk s) ->
  exists s', write_sectors n s i raw = (s', true).
Proof.
  revert s i. induction n as [|n IH]; intros s i Hp Hi Hn Hr Hc; cbn [write_sectors]; [by eexists|].
  destruct (ram_write s (MFS_START_SECTOR + i) (slice raw (Z.to_nat (i * MFS_SECTOR_SIZE)) 512)) as (s1 & -> & Hp1 & Hc1);
    [done|unfold MFS_START_SECTOR; lia| |].
  - unfold zlen in *. rewrite slice_length; [done|]. unfold MFS_SECTOR_SIZE. lia.
  - apply IH; [done|lia|lia|done|lia].
Qed.

Lemma ram_write_metadata s :
  g_persistent_handle s = None -> lay s = set_active_v2 -> 3104 <= capacity (disk s) ->
  zlen (volume_bytes (vol s) 96 32) <= 16384 -> exists s1, write_metadata s = (s1, XAIOS_OK).
Proof.
  intros Hp Hl Hc Hb. unfold write_metadata. rewrite Hl. cbn [g_active_version g_active_metadata_sectors set_active_v2].
  change (2 =? MFS_V3_VERSION) with false. cbn iota. set (raw := pad_to _ _). set (sum := mfs_checksum _ _).
  assert (Hr : zlen raw = 16384).
  { unfold raw, zlen in *. rewrite pad_to_length; [done|]. change (Z.to_nat RAW_BYTES) with (Z.to_nat 16384). lia. }
  destruct (ram_write_sectors (Z.to_nat 16) (with_vol s (set_checksum (vol s) sum)) 0 (blit raw CHECKSUM_OFFSET (le_bytes 8 sum)))
    as (s3 & ->); [done|lia|lia| |done|by eexists].
  unfold zlen in *. rewrite blit_length; [done|]. rewrite le_bytes_length. change CHECKSUM_OFFSET with 80%nat. lia.
Qed.

(** A disk in memory can be formatted. *)
Lemma ram_format s :
  g_persistent_handle s = None -> lay s = set_active_v2 -> 3104 <= capacity (disk s) ->
  exists s1, format_volume s = (s1, XAIOS_OK).
Proof.
  intros Hp Hl Hc. unfold format_volume, clear_journal. set (s0 := bump format_count _).
  destruct (ram_write s0 MFS_JOURNAL_HEADER_SECTOR (replicate 512 0)) as (s1 & E1 & Hp1 & Hc1);
    [done|unfold MFS_JOURNAL_HEADER_SECTOR; simpl; lia|done|]. rewrite E1.
  destruct (ram_write s1 MFS_JOURNAL_DATA_SECTOR (replicate 512 0)) as (s2 & E2 & Hp2 & Hc2);
    [done|unfold MFS_JOURNAL_DATA_SECTOR; rewrite Hc1; simpl; lia|done|]. rewrite E2.
  apply blk_write_frame in E1 as [Hv1 Hl1], E2 as [Hv2 Hl2].
  apply ram_write_metadata; [done|by rewrite Hl2, Hl1|by rewrite Hc2, Hc1|].
  rewrite Hv2, Hv1. unfold s0. cbn [vol bump with_vol]. rewrite Hl. vm_compute. discriminate.
Qed.

Lemma mfs_fsck_exact_witness :
  exists s, format_volume (boot_fs blank_disk) = (s, XAIOS_OK) /\
    fsck_errors (mutable_fs_fsck s) = count (fun b => bool_decide (b ∈ snapshot_blocks s)) 96.
Proof.
  destruct (ram_format (boot_fs blank_disk) eq_refl eq_refl ltac:(discriminate)) as [s1 Hf].
  exists s1. split; [exact Hf|]. apply mfs_fsck_exact.
  assert (Hb : true = false -> dependable (current_device (boot_fs blank_disk))) by done.
  pose proof (sf_inv _ _ _ _ (format_stands true (boot_fs blank_disk) s1 (g_mounted s1) (g_mount_flags s1) eq_refl Hf Hb)) as HI.
  by destruct s1.
Defined.

End MfsSpec.
