(* ===== verification/MfsRefine.v ===== *)
(** * Sequences of operations on a volume (kernel/fs/mutable_fs.c)

    The operations of [MfsSpec] put together.  On a formatted volume a sequence of them is a
    sequence of the store, as long as no commit or rollback fails and no file is renamed onto
    a path that only the snapshot has; a commit or rollback succeeds when the device does
    and the copies fit next to what is there.  A disk in memory shows that all of this
    happens. *)

From S2P Require Import Prelude Mfs MfsStore MfsSpec.
#[local] Open Scope Z_scope.
#[local] Open Scope list_scope.

Module MfsRefine.
Import Mfs MfsStore MfsSpec.

(** ** Sums over the nodes *)

Definition sum_over (l : list Z) (f : Z -> Z) : Z := foldr (fun i n => f i + n) 0 l.

Lemma sum_over_le l f g : (forall i, i ∈ l -> f i <= g i) -> sum_over l f <= sum_over l g.
Proof.
  induction l as [|i l IH]; simpl; intros H; [lia|]. pose proof (H i ltac:(set_solver)).
  specialize (IH ltac:(set_solver)). lia.
Qed.

Lemma sum_over_ext l f g : (forall i, i ∈ l -> f i = g i) -> sum_over l f = sum_over l g.
Proof. induction l as [|i l IH]; simpl; intros H; [done|]. rewrite (H i), IH by set_solver. done. Qed.

Lemma concat_sum {A} (f : Z -> list A) l : zlen (List.concat (f <$> l)) = sum_over l (fun i => zlen (f i)).
Proof. induction l as [|i l IH]; [done|]. cbn [fmap list_fmap List.concat]. rewrite zlen_app, IH. done. Qed.

(** All but one of the lists, and something else for that one. *)
Lemma concat_others {A} (f : Z -> list A) l i x :
  NoDup l -> i ∈ l ->
  zlen (List.concat (f <$> filter (fun j => j <> i) l)) + x = sum_over l (fun j => if decide (j = i) then x else zlen (f j)).
Proof.
  intros Hn Hi. rewrite concat_sum. induction Hn as [|j l Hj Hl IH]; [set_solver|].
  rewrite filter_cons. simpl. destruct (decide (j = i)) as [->|Hne].
  - rewrite decide_False by tauto. rewrite filter_true by (intros y Hy ->; done).
    rewrite (sum_over_ext l (fun j => if decide (j = i) then x else zlen (f j)) (fun j => zlen (f j))); [lia|].
    intros j Hin. rewrite decide_False; [done|]. by intros ->.
  - rewrite decide_True by done. simpl. rewrite <- IH by set_solver. lia.
Qed.

Section Refine.
Context {D : Type} `{!BlockDevice D} `{!BlockDeviceLaws D}.
Implicit Types s t : fs D.

(** ** Space *)

(** The blocks of the files there are now, and of those in the snapshot. *)
Definition now_space s : Z := sum_over (seqZ 0 32) (fun i => blocks_of (cur s i)).
Definition saved_space s : Z := sum_over (seqZ 0 32) (fun i => blocks_of (snap s i)).

Lemma blocks_of_nonneg s i : Inv s -> 0 <= i < 32 -> 0 <= blocks_of (cur s i) /\ 0 <= blocks_of (snap s i).
Proof. intros HI Hi. rewrite <- now_blocks_length, <- snap_blocks_length by done. zlia. Qed.

Lemma space_bound s g x y :
  0 <= x -> 0 <= y ->
  (forall i, 0 <= i < 32 -> g i <= x * blocks_of (cur s i) + y * blocks_of (snap s i)) ->
  sum_over (seqZ 0 32) g <= x * now_space s + y * saved_space s.
Proof.
  intros Hx Hy H. unfold now_space, saved_space.
  assert (Hr : Forall (fun i => 0 <= i < 32) (seqZ 0 32)) by (apply Forall_forall; intros i Hi%elem_of_seqZ; lia).
  induction Hr as [|i l Hi _ IH]; simpl; [lia|]. specialize (H i Hi). lia.
Qed.

(** The blocks of the nodes other than [i]. *)
Lemma others_space s i x :
  Inv s -> 0 <= i < 32 ->
  zlen (others s i) + x =
  sum_over (seqZ 0 32) (fun j => if decide (j = i) then x else blocks_of (cur s j) + blocks_of (snap s j)).
Proof.
  intros HI Hi. unfold others. rewrite concat_others; [|apply NoDup_seqZ|apply elem_of_seqZ; lia].
  apply sum_over_ext. intros j Hj%elem_of_seqZ. case_decide; [done|].
  unfold owned_node. rewrite zlen_app, now_blocks_length, snap_blocks_length by (done || lia). done.
Qed.

Lemma copy_blocks_succeeds s blocks count buffer data l :
  lay s = set_active_v2 -> holds s blocks count data -> zlen buffer = 8192 -> marks (block_bitmap (vol s)) l ->
  dependable (current_device s) -> block_count_for_size (zlen data) + zlen l <= 96 ->
  exists s' b' new, copy_blocks s blocks count buffer (zlen data) = (s', b', inr new).
Proof.
  intros Hl Hh Hb Hm Hdev Hroom. pose proof Hh as (Hd & Hc & _). unfold copy_blocks.
  rewrite (read_blocks_holds s blocks count data) by (done || lia).
  pose proof (block_count_bounds (zlen data) ltac:(zlia)) as [Hcount _].
  destruct (allocate_blocks s count) as [s2 r] eqn:Ha.
  eapply allocate_blocks_spec in Ha as (Hr & Ha); [|done|lia|done].
  destruct r as [new|]; [|destruct Ha as [_ Ha]; specialize (Ha ltac:(lia)); lia].
  destruct Ha as (Hc16 & Hln & Hm2). rewrite write_blocks_prefix by done.
  pose proof (m_nodup _ _ Hm2) as Hnd. apply NoDup_app in Hnd as (Hnd & _ & _).
  pose proof (m_range _ _ Hm2) as Hrg. apply Forall_app in Hrg as [Hrg _].
  destruct (write_blocks _ _ _ _ _) as [s3 ok] eqn:Hw. apply write_blocks_spec in Hw as (_ & Hok & _); [|done..].
  rewrite Hok by (by apply Hr). by do 3 eexists.
Qed.

(** ** Commit *)

Lemma commit_node_succeeds s i buffer :
  Inv s -> 0 <= i < 32 -> zlen buffer = 8192 -> dependable (current_device s) ->
  zlen (others s i) + 2 * blocks_of (cur s i) <= 96 -> exists s' b', commit_node s i buffer = (s', b', XAIOS_OK).
Proof.
  intros HI Hi Hb Hdev Hroom. unfold commit_node. fold (free_snap s i).
  destruct (n_active (node s i) =? 0) eqn:Ha; [by do 2 eexists|].
  destruct (w_now _ _ (i_node _ HI i Hi) Ha) as [Ht|[Ht (data & Hh & Hs & _)]]; rewrite Ht;
    cbn [negb Z.eqb Pos.eqb MFS_NODE_DIR MFS_NODE_FILE]; [by do 2 eexists|].
  destruct (free_snap_spec s i (others s i) HI Hi) as [Hr Hm]; [rewrite <- owned_split by done; apply HI|].
  rewrite (cur_file s i data) in Hroom by done. simpl in Hroom.
  assert (Hlen : zlen (now_blocks (node s i)) = block_count_for_size (zlen data)).
  { rewrite now_blocks_length, (cur_file s i data) by done. done. }
  rewrite Hs. destruct (copy_blocks_succeeds (upd_node (upd_node (free_snap s i) i clear_snapshot) i take_snapshot)
    (n_blocks (node s i)) (n_block_count (node s i)) buffer data (now_blocks (node s i) ++ others s i))
    as (s4 & b4 & new & ->); [| |done|exact Hm|by apply Hr| |by do 2 eexists].
  - simpl. rewrite (e_layout _ _ _ _ _ Hr). apply HI.
  - eapply holds_frame; [exact Hh|]. intros b _. apply free_snap_reads.
  - rewrite zlen_app. lia.
Qed.

Lemma commit_room s t i :
  Inv s -> commits_upto s t i -> 0 <= i < 32 ->
  zlen (others t i) + 2 * blocks_of (cur t i) <= 2 * now_space s + saved_space s.
Proof.
  intros HI [HIt _ Hnode Hsnap Hrest] Hi. rewrite others_space by done.
  replace (saved_space s) with (1 * saved_space s) by lia. apply space_bound; [lia..|]. intros j Hj.
  destruct (Hnode j Hj) as (_ & _ & Ec). pose proof (blocks_of_nonneg s j HI Hj).
  destruct (decide (j = i)) as [->|Hne]; rewrite ?Ec; [lia|]. destruct (decide (j < i)).
  - destruct (Hsnap j ltac:(lia)) as [_ ->]. lia.
  - rewrite Hrest by lia. lia.
Qed.

Lemma commit_loop_succeeds n s t i buffer :
  Inv s -> commits_upto s t i -> 0 <= i -> i + Z.of_nat n = 32 -> zlen buffer = 8192 ->
  dependable (current_device s) -> 2 * now_space s + saved_space s <= 96 ->
  exists s', commit_loop n t i buffer = (s', XAIOS_OK).
Proof.
  intros HI. revert t i buffer. induction n as [|n IH]; intros t i buffer HC Hi Hn Hb Hdev Hroom; cbn [commit_loop];
    [by eexists|].
  pose proof (commit_room s t i HI HC ltac:(lia)). pose proof HC as [HIt Hf _ _ _].
  destruct (commit_node_succeeds t i buffer) as (t1 & b1 & Hc); [done|lia|done|by apply Hf|lia|]. rewrite Hc.
  destruct (commit_node_spec t i buffer t1 b1) as (new & Hb1 & Hcom); [done|lia|done..|].
  apply IH; [|lia|lia|done..]. eapply commits_next; [done|lia|done].
Qed.

Lemma commit_succeeds s :
  Inv s -> writable s = true -> dependable (current_device s) -> 2 * now_space s + saved_space s <= 96 ->
  (perform s Commit).2 = Done XAIOS_OK.
Proof.
  intros HI Hw Hdev Hroom. simpl. unfold commit_snapshot. rewrite Hw, (i_layout _ HI). cbn [negb].
  change (Z.to_nat (g_active_max_nodes set_active_v2)) with 32%nat.
  assert (H0 : commits_upto s s 0) by (constructor; try done; intros; lia).
  destruct (commit_loop_succeeds 32 s s 0 stack_buffer) as [s1 E]; [done..|]. rewrite E.
  apply (commit_loop_spec 32 s s 0) in E as [HI1 Hf _ _ _]; [|done..].
  destruct (write_metadata _) as [s2 st] eqn:Hwm. apply write_metadata_keeps in Hwm as [_ Hst]; [|simpl; apply HI1].
  destruct Hst as [->|[_ Hnd]]; [done|]. destruct Hnd. simpl. by apply Hf.
Qed.

(** ** Rollback *)

Lemma restore_node_succeeds s i :
  Inv s -> 0 <= i < 32 -> dependable (current_device s) ->
  zlen (others s i) + 2 * blocks_of (snap s i) <= 96 -> exists s', restore_snapshot_node s i = (s', XAIOS_OK).
Proof.
  intros HI Hi Hdev Hroom. unfold restore_snapshot_node. fold (free_now s s i).
  destruct (n_snapshot_active (node s i) =? 0) eqn:Ha; [by eexists|].
  destruct (w_snap _ _ (i_node _ HI i Hi) Ha) as [Ht|[Ht (data & Hh & Hs & _)]]; rewrite Ht;
    cbn [negb Z.eqb Pos.eqb MFS_NODE_DIR MFS_NODE_FILE]; [by eexists|].
  destruct (free_now_spec s s i (block_bitmap (vol s)) [] [] (others s i) HI Hi) as [HE Hm]; [done| |].
  { cbn. rewrite <- owned_split by done. apply HI. }
  rewrite (snap_file s i data) in Hroom by done. simpl in Hroom.
  assert (Hlen : zlen (snap_blocks (node s i)) = block_count_for_size (zlen data)).
  { rewrite snap_blocks_length, (snap_file s i data) by done. done. }
  rewrite Hs. destruct (copy_blocks_succeeds (upd_node (free_now s s i) i revive)
    (n_snapshot_blocks (node s i)) (n_snapshot_block_count (node s i)) stack_buffer data
    (snap_blocks (node s i) ++ others s i))
    as (s3 & b3 & new & ->); [| |done|exact Hm|by apply HE| |by eexists].
  - simpl. rewrite (e_layout _ _ _ _ _ HE). apply HI.
  - eapply holds_frame; [exact Hh|]. intros b _. unfold free_now. by case_if; [apply free_blocks_reads|].
  - rewrite zlen_app. lia.
Qed.

Lemma restore_room s t i P :
  Inv s -> rolling s t P -> 0 <= i < 32 ->
  zlen (others t i) + 2 * blocks_of (snap t i) <= now_space s + 2 * saved_space s.
Proof.
  intros HI [HIt _ Hkept Hcur _] Hi. rewrite others_space by done.
  replace (now_space s) with (1 * now_space s) by lia. apply space_bound; [lia..|]. intros j Hj.
  destruct (Hkept j Hj) as (_ & _ & _ & Es). pose proof (blocks_of_nonneg s j HI Hj).
  destruct (decide (j = i)) as [->|Hne]; rewrite Es; [lia|]. destruct (Hcur j Hj) as [->|[_ ->]]; rewrite ?Es; lia.
Qed.

Lemma restore_pass_succeeds n s t i type P :
  Inv s -> rolling s t P -> 0 <= i -> i + Z.of_nat n = 32 -> dependable (current_device s) ->
  now_space s + 2 * saved_space s <= 96 -> exists s', restore_pass n t i type = (s', true).
Proof.
  intros HI. revert t i P. induction n as [|n IH]; intros t i P HR Hi Hn Hdev Hroom; cbn [restore_pass]; [by eexists|].
  destruct (_ && _) eqn:Hb; [|eapply (IH t); [done|lia..|done|done]].
  pose proof (restore_room s t i P HI HR ltac:(lia)). pose proof HR as [HIt Hf _ _ _].
  destruct (restore_node_succeeds t i) as [t1 E]; [done|lia|by apply Hf|lia|]. rewrite E.
  apply andb_true_iff in Hb as [Ha _]. apply negb_true_iff in Ha.
  eapply (IH t1 (i + 1) (fun _ => False)); [|lia..|done|done].
  eapply (rolling_turns s t t1 P _ i); [done|by apply restore_snapshot_spec; [|lia|..]|]. by intros j _ [].
Qed.

Lemma rollback_succeeds s :
  Inv s -> writable s = true -> dependable (current_device s) -> now_space s + 2 * saved_space s <= 96 ->
  (perform s Rollback).2 = Done XAIOS_OK.
Proof.
  intros HI Hw Hdev Hroom. simpl. unfold rollback_snapshot. rewrite Hw, (i_layout _ HI). cbn [negb].
  change (Z.to_nat (g_active_max_nodes set_active_v2)) with 32%nat.
  pose proof (drop_all_spec s HI) as H1. set (s1 := for_range 32 0 drop_new_node s) in *.
  destruct (restore_pass_succeeds 32 s s1 0 MFS_NODE_DIR (no_snapshot s)) as [s2 E2]; [done..|]. rewrite E2.
  eapply (restore_pass_spec 32 s s1 0 _ s2 (no_snapshot s)) in E2; [|eapply rolling_weaken; [exact H1|]|done|done].
  2:{ intros j Hj [?|?]; [done|lia]. }
  destruct (restore_pass_succeeds 32 s s2 0 MFS_NODE_FILE _ HI E2) as [s3 E3]; [done..|]. rewrite E3.
  eapply (restore_pass_spec 32 s s2 0) in E3 as [HI3 Hf _ _ _]; [|eapply rolling_weaken; [exact E2|]|done|done].
  2:{ intros j Hj [Hq|?]; [exact Hq|lia]. }
  destruct (write_metadata _) as [s4 st] eqn:Hwm. apply write_metadata_keeps in Hwm as [_ Hst]; [|simpl; apply HI3].
  destruct Hst as [->|[_ Hnd]]; [done|]. destruct Hnd. simpl. by apply Hf.
Qed.

(** ** Small files *)

(** No file takes up more than a block. *)
Definition small (a : store) : Prop := forall p, blocks_of (s_now a p) <= 1 /\ blocks_of (s_saved a p) <= 1.

Definition small_op (o : op) : Prop :=
  match o with
  | Write _ d => zlen d <= 512
  | Rename _ _ => False
  | _ => True
  end.

Lemma small_set a p e : small a -> blocks_of e <= 1 -> small (set_now a p e).
Proof.
  intros Ha He q. simpl. unfold set_path_entry. destruct (Ha q). by case_decide.
Qed.

Lemma step_small m rw faulty a o r a' : step m rw faulty a o r a' -> small a -> small_op o -> small a'.
Proof.
  intros Hs Ha Ho. destruct Hs; simpl in Ho; try done; try (by apply small_set).
  - apply small_set; [done|]. simpl. rewrite block_count_small by zlia. dlia.
  - intros p. simpl. by destruct (Ha p).
  - intros p. simpl. by destruct (Ha p).
Qed.

Lemma steps_small m rw faulty a ops rs a' :
  steps m rw faulty a ops rs a' -> small a -> Forall small_op ops -> small a'.
Proof.
  induction 1 as [|a a1 o r ops rs a2 Hs _ IH]; intros Ha Ho; [done|]. apply Forall_cons in Ho as [Ho Hops].
  apply IH; [|done]. by eapply step_small.
Qed.

Lemma sum_over_small l f : (forall i, i ∈ l -> f i <= 1) -> sum_over l f <= zlen l.
Proof.
  induction l as [|i l IH]; intros H; [done|]. unfold zlen. simpl. pose proof (H i ltac:(set_solver)).
  specialize (IH ltac:(set_solver)). zlia.
Qed.

Lemma small_space faulty s a k :
  stands_for faulty s a k -> small a -> now_space s <= 32 /\ saved_space s <= 32.
Proof.
  intros [HI Hn Hs _ _] Ha.
  split; apply (sum_over_small (seqZ 0 32)); intros i Hi%elem_of_seqZ; destruct (Ha (path_of s i)) as [H1 H2].
  - destruct (n_active (node s i) =? 0) eqn:E; [unfold cur; by rewrite E|]. by rewrite <- now_at, Hn by (done || lia).
  - destruct (n_snapshot_active (node s i) =? 0) eqn:E; [unfold snap; by rewrite E|].
    by rewrite <- saved_at, Hs by (done || lia).
Qed.

(** With files of up to a block commits and rollbacks always succeed. *)
Lemma small_orderly s a k ops :
  stands_for false s a k -> small a -> Forall small_op ops -> zlen ops <= k -> orderly s ops.
Proof.
  intros Hsf Ha Hops. revert s a k Hsf Ha. induction Hops as [|o ops Ho Hops IH]; intros s a k Hsf Ha Hk; [done|].
  assert (Hlen : zlen (o :: ops) = zlen ops + 1) by (unfold zlen; simpl; lia).
  destruct (small_space _ s a k Hsf Ha) as [H1 H2].
  assert (Hu : undisturbed s o).
  { destruct o; try done; intros Hw; [apply commit_succeeds|apply rollback_succeeds]; try apply Hsf; done || lia. }
  split; [done|]. pose proof (perform_implements false s a k o Hsf ltac:(zlia) Hu) as Hi.
  destruct (perform s o) as [s1 r]. destruct Hi as (a1 & Hs & Hsf1 & _).
  eapply (IH s1 a1 (k - 1)); [done|by eapply step_small|lia].
Qed.

(** C1: on a freshly formatted volume of the layout of the boot disk ([set_active_v2]), mounted
    in any way, a sequence of mkdir, write, read, stat, delete, rename, commit and rollback in
    which no commit or rollback of a writable volume fails and no file is renamed onto a path
    that only the snapshot has ([orderly]) is one of the store: what is read is what was last
    written to the path; a rollback brings back what was there at the last commit, under its
    new name what has been renamed since; an error has its cause in the store (a path or
    parent that is not there, a busy directory, 32 paths in use, too few of the 96 blocks
    left) or, if the device is [faulty], in a write that failed.  At the end the volume is in
    order and stands for the store. *)
Theorem mfs_refines_store faulty s s1 m fl ops s' rs :
  lay s = set_active_v2 -> format_volume s = (s1, XAIOS_OK) ->
  (faulty = false -> dependable (current_device s)) -> zlen ops <= 18446744073709551614 ->
  orderly (with_mount s1 m fl) ops -> perform_all (with_mount s1 m fl) ops = (s', rs) ->
  exists a, steps m (writable (with_mount s1 m fl)) faulty empty_store ops rs a /\
    Inv s' /\ (forall p, now s' p = s_now a p) /\ (forall p, saved s' p = s_saved a p).
Proof.
  intros Hl Hf Hd Hn Ho Hp.
  destruct (perform_all_steps faulty _ _ _ ops s' rs (format_stands faulty s s1 m fl Hl Hf Hd) Hn Ho Hp) as [(a & Hs & Ha) _].
  exists a. split; [exact Hs|]. by destruct Ha.
Qed.

(** C30: commit and rollback do their work whenever they can.  On a volume in order that is
    mounted for writing, with a device that writes what it is given, a commit succeeds if the
    files there are, counted twice, and those of the snapshot take up no more than the 96
    blocks, and makes what is there the snapshot; a rollback succeeds if the files of the
    snapshot, counted twice, and those there are do, and makes what is there the snapshot
    again.  Both leave the volume in order. *)
Theorem mfs_snapshots_succeed s :
  Inv s -> writable s = true -> dependable (current_device s) ->
  0 <= generation (vol s) < 18446744073709551615 ->
  (2 * now_space s + saved_space s <= 96 ->
     exists s', commit_snapshot s = (s', XAIOS_OK) /\ Inv s' /\ forall p, now s' p = now s p /\ saved s' p = now s p) /\
  (now_space s + 2 * saved_space s <= 96 ->
     exists s', rollback_snapshot s = (s', XAIOS_OK) /\ Inv s' /\
       forall p, now s' p = saved s p /\ saved s' p = saved s p).
Proof.
  intros HI Hw Hd Hg. assert (Hsf : stands_for false s (mk_store (now s) (saved s)) 1) by (constructor; try done; lia).
  split; intros Hroom.
  - pose proof (commit_succeeds s HI Hw Hd Hroom) as E.
    pose proof (commit_implements false s _ 1 Hsf ltac:(lia) (fun _ => E)) as Hi. simpl in E, Hi.
    destruct (commit_snapshot s) as [s' st]. simpl in E. simplify_eq. destruct Hi as (a' & Hs & [HI' Hn Hsv _ _] & _).
    exists s'. split_and!; [done..|]. intros p. rewrite Hn, Hsv. inversion Hs; simplify_eq; done.
  - pose proof (rollback_succeeds s HI Hw Hd Hroom) as E.
    pose proof (rollback_implements false s _ 1 Hsf ltac:(lia) (fun _ => E)) as Hi. simpl in E, Hi.
    destruct (rollback_snapshot s) as [s' st]. simpl in E. simplify_eq. destruct Hi as (a' & Hs & [HI' Hn Hsv _ _] & _).
    exists s'. split_and!; [done..|]. intros p. rewrite Hn, Hsv. inversion Hs; simplify_eq; done.
Qed.

End Refine.

(** ** A disk in memory *)

Lemma ram_dependable (d : ram_disk) : 3186 <= capacity d -> dependable d.
Proof.
  intros Hc. exists (fun d => 3186 <= capacity d). split; [done|]. intros d' sec b Hc' Hs Hb. simpl.
  rewrite (proj2 (Z.leb_le _ _)), (proj2 (Z.ltb_lt _ _)) by lia. unfold zlen. rewrite Hb. simpl. by eexists.
Qed.

Lemma boot_dependable : false = false -> dependable (current_device (boot_fs blank_disk)).
Proof. intros _. by apply ram_dependable. Qed.

Lemma small_empty : small empty_store.
Proof. done. Qed.

(** A directory with a file is committed, the file changed, deleted and brought back. *)
Definition demo_ops : list op :=
  [Mkdir [47; 97]; Write [47; 97; 47; 102] [1; 2; 3]; Commit; Write [47; 97; 47; 102] [4]; Delete [47; 97; 47; 102];
   Rollback; Read [47; 97; 47; 102] (replicate 8 0)].

Lemma mfs_refines_store_witness :
  exists s1 s' rs a,
    format_volume (boot_fs blank_disk) = (s1, XAIOS_OK) /\
    perform_all (with_mount s1 true MFS_MOUNT_READ_WRITE) demo_ops = (s', rs) /\
    orderly (with_mount s1 true MFS_MOUNT_READ_WRITE) demo_ops /\
    steps true true false empty_store demo_ops rs a /\ Inv s'.
Proof.
  destruct (ram_format (boot_fs blank_disk) eq_refl eq_refl ltac:(discriminate)) as [s1 Hf].
  destruct (perform_all (with_mount s1 true MFS_MOUNT_READ_WRITE) demo_ops) as [s' rs] eqn:Hp.
  assert (Hn : zlen demo_ops <= 18446744073709551614) by (vm_compute; discriminate).
  pose proof (format_stands false (boot_fs blank_disk) s1 true MFS_MOUNT_READ_WRITE eq_refl Hf boot_dependable) as Hsf.
  assert (Ho : orderly (with_mount s1 true MFS_MOUNT_READ_WRITE) demo_ops).
  { apply (small_orderly _ _ _ _ Hsf small_empty); [|exact Hn]. repeat constructor; vm_compute; discriminate. }
  destruct (mfs_refines_store false (boot_fs blank_disk) s1 true MFS_MOUNT_READ_WRITE demo_ops s' rs
    eq_refl Hf boot_dependable Hn Ho Hp) as (a & Hs & HI & _).
  exists s1, s', rs, a. split; [exact Hf|]. split; [exact Hp|]. split; [exact Ho|]. split; [exact Hs|exact HI].
Defined.

Lemma mfs_snapshots_succeed_witness :
  exists s1 s2 rs s', format_volume (boot_fs blank_disk) = (s1, XAIOS_OK) /\
    perform_all (with_mount s1 true MFS_MOUNT_READ_WRITE) (take 2 demo_ops) = (s2, rs) /\
    commit_snapshot s2 = (s', XAIOS_OK) /\ Inv s'.
Proof.
  destruct (ram_format (boot_fs blank_disk) eq_refl eq_refl ltac:(discriminate)) as [s1 Hf].
  destruct (perform_all (with_mount s1 true MFS_MOUNT_READ_WRITE) (take 2 demo_ops)) as [s2 rs] eqn:Hp.
  pose proof (format_stands false (boot_fs blank_disk) s1 true MFS_MOUNT_READ_WRITE eq_refl Hf boot_dependable) as Hsf.
  assert (Hops : Forall small_op (take 2 demo_ops)) by (repeat constructor; vm_compute; discriminate).
  assert (Hn : zlen (take 2 demo_ops) <= 18446744073709551614) by (vm_compute; discriminate).
  pose proof (small_orderly _ _ _ _ Hsf small_empty Hops Hn) as Ho.
  destruct (perform_all_steps false _ _ _ _ s2 rs Hsf Hn Ho Hp) as [(a & Hs & Hsf2) Hw].
  destruct (small_space false s2 a _ Hsf2 (steps_small _ _ _ _ _ _ _ Hs small_empty Hops)) as [H1 H2].
  destruct Hsf2 as [HI _ _ Hg Hd]. change (zlen (take 2 demo_ops)) with 2 in Hg.
  destruct (proj1 (mfs_snapshots_succeed s2 HI Hw (Hd eq_refl) ltac:(lia)) ltac:(lia)) as (s' & E & HI' & _).
  exists s1, s2, rs, s'. split; [exact Hf|]. split; [exact Hp|]. split; [exact E|exact HI'].
Defined.

End MfsRefine.
