(* ===== verification/MfsImage.v ===== *)
(** * The volume on disk (kernel/fs/mutable_fs.c)

    The fields of a volume keep their widths under every operation ([typed_volume]); such a
    volume is written to the metadata sectors and read back unchanged, and a pending write in
    the journal is replayed as it was recorded.  The checksum stored with the metadata does
    not match the one computed when it is read back. *)

From S2P Require Import Prelude Mfs MfsStore MfsSpec.
From Stdlib Require Import Zpow_facts.
#[local] Open Scope Z_scope.
#[local] Open Scope list_scope.

Module MfsImage.
Import Mfs MfsStore MfsSpec.

(** ** Widths *)

Definition width (n : nat) (v : Z) : Prop := 0 <= v < 256 ^ Z.of_nat n.
Definition bytes (n : nat) (l : list Z) : Prop := length l = n /\ Forall (width 1) l.

Record typed_node (n : xaios_mfs_node) : Prop := {
  ty_active : width 4 (n_active n);
  ty_snapshot_active : width 4 (n_snapshot_active n);
  ty_type : width 4 (n_type n);
  ty_snapshot_type : width 4 (n_snapshot_type n);
  ty_size : width 8 (n_size n);
  ty_hash : width 8 (n_content_hash n);
  ty_generation : width 8 (n_generation n);
  ty_snapshot_size : width 8 (n_snapshot_size n);
  ty_snapshot_hash : width 8 (n_snapshot_hash n);
  ty_snapshot_generation : width 8 (n_snapshot_generation n);
  ty_block_count : width 2 (n_block_count n);
  ty_snapshot_block_count : width 2 (n_snapshot_block_count n);
  ty_blocks : length (n_blocks n) = 16%nat /\ Forall (width 2) (n_blocks n);
  ty_snapshot_blocks : length (n_snapshot_blocks n) = 16%nat /\ Forall (width 2) (n_snapshot_blocks n);
  ty_path : bytes 96 (n_path n);
  ty_pad : bytes 4 (n_pad n)
}.

Record typed_volume (v : xaios_mfs_state) : Prop := {
  tv_magic : bytes 8 (magic v);
  tv_version : width 4 (version v);
  tv_sector_size : width 4 (sector_size v);
  tv_metadata_sectors : width 4 (metadata_sectors v);
  tv_max_nodes : width 4 (max_nodes v);
  tv_start : width 8 (start_sector v);
  tv_journal_header : width 8 (journal_header_sector v);
  tv_journal_data : width 8 (journal_data_sector v);
  tv_data_start : width 8 (data_start_sector v);
  tv_data_sectors : width 8 (data_sectors v);
  tv_generation : width 8 (generation v);
  tv_committed : width 8 (committed_generation v);
  tv_checksum : width 8 (checksum v);
  tv_bitmap : bytes 256 (block_bitmap v);
  tv_nodes : length (nodes v) = 64%nat /\ Forall typed_node (nodes v)
}.

(** ** Numbers and arrays in an image *)

Lemma le_value_bytes n v : width n v -> le_value (le_bytes n v) = v.
Proof.
  revert v. induction n as [|n IH]; intros v [H0 H1]; cbn [le_bytes le_value].
  - change (256 ^ Z.of_nat 0) with 1 in H1. lia.
  - rewrite Nat2Z.inj_succ, Z.pow_succ_r in H1 by lia. rewrite IH.
    + pose proof (Z.div_mod v 256). lia.
    + split; [apply Z.div_pos; lia|]. apply Z.div_lt_upper_bound; lia.
Qed.

Lemma slice_skip a b off n : (length a <= off)%nat -> slice (a ++ b) off n = slice b (off - length a) n.
Proof. intros. unfold slice. by rewrite drop_app_ge. Qed.

Lemma slice_here a b n : n = length a -> slice (a ++ b) 0 n = a.
Proof. intros ->. unfold slice. by rewrite drop_0, take_app_length. Qed.

Lemma slice_drop raw p off n : slice raw (p + off) n = slice (drop p raw) off n.
Proof. unfold slice. by rewrite drop_drop. Qed.

Lemma field_skip a b off n : (length a <= off)%nat -> field (a ++ b) off n = field b (off - length a) n.
Proof. intros. unfold field. by rewrite slice_skip. Qed.

Lemma field_here n v b : width n v -> field (le_bytes n v ++ b) 0 n = v.
Proof. intros. unfold field. rewrite slice_here by (by rewrite le_bytes_length). by apply le_value_bytes. Qed.

Lemma array_length l : length (List.concat (le_bytes 2 <$> l)) = (2 * length l)%nat.
Proof.
  induction l as [|x l IH]; [done|]. rewrite fmap_cons. cbn [List.concat length].
  rewrite length_app, le_bytes_length, IH. lia.
Qed.

Lemma array_get l rest i x :
  Forall (width 2) l -> l !! i = Some x -> le_value (slice (List.concat (le_bytes 2 <$> l) ++ rest) (2 * i) 2) = x.
Proof.
  revert i. induction l as [|y l IH]; intros i Hl Hi; [done|]. apply Forall_cons in Hl as [Hy Hl].
  rewrite fmap_cons. cbn [List.concat]. rewrite <- app_assoc. destruct i as [|i]; simpl in Hi; simplify_eq.
  - rewrite slice_here by done. by apply le_value_bytes.
  - rewrite slice_skip by (rewrite le_bytes_length; lia). rewrite le_bytes_length.
    replace (2 * S i - 2)%nat with (2 * i)%nat by lia. by apply IH.
Qed.

Lemma le_array_here l rest :
  length l = 16%nat -> Forall (width 2) l -> le_array (List.concat (le_bytes 2 <$> l) ++ rest) 0 = l.
Proof.
  intros Hlen Hl. unfold le_array. apply list_eq. intros i. rewrite list_lookup_fmap.
  destruct (l !! i) as [x|] eqn:Hx.
  - rewrite lookup_seq_lt by (apply lookup_lt_Some in Hx; lia). simpl. f_equal. by apply array_get.
  - rewrite lookup_seq_ge by (apply lookup_ge_None in Hx; lia). done.
Qed.

Lemma le_array_drop raw p off : le_array raw (p + off) = le_array (drop p raw) off.
Proof. unfold le_array. apply list_fmap_ext. intros. f_equal. rewrite <- slice_drop. f_equal. lia. Qed.

(** Walk over the parts of an image to the one at the offset that is read. *)
Lemma le_array_skip a b off : (length a <= off)%nat -> le_array (a ++ b) off = le_array b (off - length a).
Proof. intros. unfold le_array. apply list_fmap_ext. intros i k _. f_equal. rewrite slice_skip by lia. f_equal. lia. Qed.

Lemma field_at n v b o : o = 0%nat -> width n v -> field (le_bytes n v ++ b) o n = v.
Proof. intros ->. apply field_here. Qed.

Lemma slice_at a b o n : o = 0%nat -> n = length a -> slice (a ++ b) o n = a.
Proof. intros ->. apply slice_here. Qed.

Lemma le_array_at l b o :
  o = 0%nat -> length l = 16%nat -> Forall (width 2) l -> le_array (List.concat (le_bytes 2 <$> l) ++ b) o = l.
Proof. intros ->. apply le_array_here. Qed.

Ltac part_length := rewrite ?le_bytes_length, ?array_length.
Ltac walk :=
  repeat first
    [ rewrite field_skip by (part_length; lia)
    | rewrite slice_skip by (part_length; lia)
    | rewrite le_array_skip by (part_length; lia) ];
  first [apply field_at | apply slice_at | apply le_array_at]; part_length; first [done | lia].

Lemma node_bytes_length n : typed_node n -> length (node_bytes n) = NODE_BYTES.
Proof.
  intros []. destruct ty_path0 as [Hp _], ty_pad0 as [Hq _]. unfold node_bytes. rewrite !length_app. part_length.
  rewrite Hp, Hq, (proj1 ty_blocks0), (proj1 ty_snapshot_blocks0). done.
Qed.

Lemma read_node_here n rest : typed_node n -> read_node (node_bytes n ++ rest) 0 = n.
Proof.
  intros [].
  destruct ty_blocks0 as [Hb1 Hb2], ty_snapshot_blocks0 as [Hs1 Hs2], ty_path0 as [Hp1 Hp2], ty_pad0 as [Hq1 Hq2].
  unfold node_bytes. rewrite <- !app_assoc. destruct n as [? ? ? ? ? ? ? ? ? ? ? ? bl sbl pa pd]. unfold read_node.
  cbn [n_active n_snapshot_active n_type n_snapshot_type n_size n_content_hash n_generation n_snapshot_size n_snapshot_hash
       n_snapshot_generation n_block_count n_snapshot_block_count n_blocks n_snapshot_blocks n_path n_pad] in *.
  f_equal; walk.
Qed.

Lemma fnv_fold_range l h :
  0 <= h < 18446744073709551616 ->
  0 <= foldl (fun hash b => u64 (Z.lxor hash b * FNV1A64_PRIME)) h l < 18446744073709551616.
Proof. revert h. induction l as [|x l IH]; intros h Hh; simpl; [done|]. apply IH, u64_range. Qed.

Lemma fnv_width l : width 8 (fnv1a64 l).
Proof. apply fnv_fold_range. done. Qed.

(** ** The volume *)

Lemma read_node_drop raw p : read_node raw p = read_node (drop p raw) 0.
Proof.
  unfold read_node, field. rewrite !le_array_drop, !slice_drop. cbn [Nat.add].
  replace (slice raw p 4) with (slice (drop p raw) 0 4); [done|]. by rewrite <- slice_drop, Nat.add_0_r.
Qed.

Lemma drop_nodes l rest i n :
  Forall typed_node l -> l !! i = Some n ->
  exists rest', drop (i * NODE_BYTES) (List.concat (node_bytes <$> l) ++ rest) = node_bytes n ++ rest'.
Proof.
  revert i. induction l as [|m l IH]; intros i Hl Hi; [done|]. apply Forall_cons in Hl as [Hm Hl].
  rewrite fmap_cons. cbn [List.concat]. rewrite <- app_assoc. destruct i as [|i]; simpl in Hi; simplify_eq.
  - cbn [Nat.mul]. rewrite drop_0. eauto.
  - rewrite drop_app_ge; rewrite node_bytes_length by done; [|lia].
    replace (S i * NODE_BYTES - NODE_BYTES)%nat with (i * NODE_BYTES)%nat by lia. by apply IH.
Qed.

Lemma read_nodes pre l rest :
  Forall typed_node l ->
  (fun i => read_node (pre ++ List.concat (node_bytes <$> l) ++ rest) (length pre + i * NODE_BYTES)) <$> seq 0 (length l) = l.
Proof.
  intros Hl. apply list_eq. intros i. rewrite list_lookup_fmap. destruct (l !! i) as [n|] eqn:Hi.
  - rewrite lookup_seq_lt by (by eapply lookup_lt_Some). cbn [fmap option_fmap option_map]. f_equal. cbn [Nat.add].
    destruct (drop_nodes l rest i n Hl Hi) as [rest' E].
    rewrite read_node_drop, <- drop_drop, drop_app_length, E. apply read_node_here. rewrite Forall_lookup in Hl. eauto.
  - by rewrite lookup_seq_ge by (by apply lookup_ge_None).
Qed.

Lemma blit_at a x y b off : off = length a -> length x = length y -> blit (a ++ x ++ b) off y = a ++ y ++ b.
Proof.
  intros -> Hl. unfold blit. rewrite take_app_length. f_equal. f_equal. rewrite <- Hl.
  by rewrite <- drop_drop, drop_app_length, drop_app_length.
Qed.

(** The part of the image before the checksum and the one behind it. *)
Definition head_bytes (v : xaios_mfs_state) : list Z :=
  magic v ++ le_bytes 4 (version v) ++ le_bytes 4 (sector_size v) ++ le_bytes 4 (metadata_sectors v) ++
  le_bytes 4 (max_nodes v) ++ le_bytes 8 (start_sector v) ++ le_bytes 8 (journal_header_sector v) ++
  le_bytes 8 (journal_data_sector v) ++ le_bytes 8 (data_start_sector v) ++ le_bytes 8 (data_sectors v) ++
  le_bytes 8 (generation v) ++ le_bytes 8 (committed_generation v).

Definition tail_bytes (v : xaios_mfs_state) (bitmap count : nat) : list Z :=
  take bitmap (block_bitmap v) ++ List.concat (node_bytes <$> take count (nodes v)).

Lemma volume_bytes_split v bitmap count :
  volume_bytes v bitmap count = head_bytes v ++ le_bytes 8 0 ++ tail_bytes v bitmap count.
Proof. unfold volume_bytes, head_bytes, tail_bytes. by rewrite <- !app_assoc. Qed.

Lemma head_length v : typed_volume v -> length (head_bytes v) = CHECKSUM_OFFSET.
Proof. intros [[Hm _]]. unfold head_bytes. rewrite !length_app. part_length. by rewrite Hm. Qed.

(** What lies behind the part of the volume that is on disk. *)
Definition rest_zero (v : xaios_mfs_state) (bitmap count : nat) : Prop :=
  drop bitmap (block_bitmap v) = replicate (256 - bitmap) 0 /\ drop count (nodes v) = replicate (64 - count) zero_node.

Lemma parse_volume_image v bitmap count sum pad :
  typed_volume v -> (bitmap <= 256)%nat -> (count <= 64)%nat -> rest_zero v bitmap count -> width 8 sum ->
  parse_volume (head_bytes v ++ le_bytes 8 sum ++ tail_bytes v bitmap count ++ pad) bitmap count = set_checksum v sum.
Proof.
  intros Hv Hb Hc [Hrb Hrn] Hsum. pose proof (head_length v Hv) as Hh. pose proof Hv as [].
  destruct tv_magic0 as [Hm1 Hm2], tv_bitmap0 as [Hb1 Hb2], tv_nodes0 as [Hn1 Hn2].
  assert (Hlb : length (take bitmap (block_bitmap v)) = bitmap) by (rewrite length_take; lia).
  assert (Hlc : length (take count (nodes v)) = count) by (rewrite length_take; lia).
  unfold parse_volume, set_checksum, tail_bytes. f_equal.
  15:{ etrans; [|exact (take_drop count (nodes v))]. rewrite Hrn. f_equal.
       pose proof (read_nodes (head_bytes v ++ le_bytes 8 sum ++ take bitmap (block_bitmap v)) (take count (nodes v)) pad
         (Forall_take _ _ _ Hn2)) as E.
       rewrite Hlc in E. etrans; [|exact E]. apply list_fmap_ext. intros i k _. rewrite <- !app_assoc. f_equal.
       rewrite !length_app, Hh, Hlb. part_length. unfold BITMAP_OFFSET, CHECKSUM_OFFSET. lia. }
  14:{ etrans; [|exact (take_drop bitmap (block_bitmap v))]. rewrite Hrb. f_equal. rewrite <- !app_assoc.
       unfold BITMAP_OFFSET, CHECKSUM_OFFSET in *. walk. }
  all: unfold head_bytes; rewrite <- !app_assoc; walk.
Qed.

(** ** Writing and reading the metadata sectors *)

Section Image.
Context {D : Type} `{!BlockDevice D} `{!BlockDeviceLaws D}.
Implicit Types s : fs D.

Definition sector_of (raw : list Z) (k : Z) : list Z := slice raw (Z.to_nat (k * 512)) 512.

Lemma write_sectors_reads n s i raw s' :
  write_sectors n s i raw = (s', true) -> 0 <= i -> (i + Z.of_nat n) * 512 <= zlen raw ->
  (forall t, t < MFS_START_SECTOR + i -> blk_read s' t = blk_read s t) /\
  (forall k, i <= k < i + Z.of_nat n -> blk_read s' (MFS_START_SECTOR + k) = Some (sector_of raw k)).
Proof.
  revert s i. induction n as [|n IH]; intros s i H Hi Hl; cbn [write_sectors] in H.
  { simplify_eq. split; [done|]. intros; lia. }
  destruct (blk_write _ _ _) as [s1 [|]] eqn:Hw; [|done].
  apply blk_write_spec in Hw as (_ & _ & _ & _ & _ & Ho & Hr).
  destruct (IH s1 (i + 1) H) as [IH1 IH2]; [lia|lia|]. split.
  - intros t Ht. rewrite IH1 by lia. apply Ho. lia.
  - intros k Hk. destruct (decide (k = i)) as [->|]; [|apply IH2; lia]. rewrite IH1 by lia. apply Hr; [done|].
    apply slice_length. unfold MFS_SECTOR_SIZE. zlia.
Qed.

Lemma sectors_concat raw i :
  0 <= i -> (i + 1) * 512 <= zlen raw -> take (Z.to_nat (i * 512)) raw ++ sector_of raw i = take (Z.to_nat ((i + 1) * 512)) raw.
Proof.
  intros Hi Hl. unfold sector_of, slice. rewrite take_take_drop. f_equal. lia.
Qed.

Lemma read_sectors_image n s i raw :
  0 <= i -> (i + Z.of_nat n) * 512 <= zlen raw ->
  (forall k, i <= k < i + Z.of_nat n -> blk_read s (MFS_START_SECTOR + k) = Some (sector_of raw k)) ->
  read_sectors n s i (take (Z.to_nat (i * 512)) raw) = Some (take (Z.to_nat ((i + Z.of_nat n) * 512)) raw).
Proof.
  revert i. induction n as [|n IH]; intros i Hi Hl H; cbn [read_sectors].
  { do 3 f_equal. lia. }
  rewrite H by lia. simpl. rewrite sectors_concat by lia. rewrite IH; [|lia|lia|intros; apply H; lia].
  do 3 f_equal. lia.
Qed.

End Image.

(** The version decides the size of the image. *)
Definition disk_bitmap (l : active_layout) : nat := if g_active_version l =? MFS_V3_VERSION then 256%nat else 96%nat.
Definition disk_nodes (l : active_layout) : nat := if g_active_version l =? MFS_V3_VERSION then 64%nat else 32%nat.

(** The image that [write_metadata] writes. *)
Definition body (v : xaios_mfs_state) (l : active_layout) (sum : Z) : list Z :=
  head_bytes v ++ le_bytes 8 sum ++ tail_bytes v (disk_bitmap l) (disk_nodes l).
Definition image (v : xaios_mfs_state) (l : active_layout) (sum : Z) : list Z := pad_to (Z.to_nat RAW_BYTES) (body v l sum).

Definition written_checksum (v : xaios_mfs_state) (l : active_layout) : Z :=
  mfs_checksum (image v l 0) (g_active_metadata_sectors l * MFS_SECTOR_SIZE).

Lemma tail_length v bitmap count :
  typed_volume v -> (bitmap <= 256)%nat -> (count <= 64)%nat -> length (tail_bytes v bitmap count) = (bitmap + count * NODE_BYTES)%nat.
Proof.
  intros [] Hb Hc. destruct tv_bitmap0 as [Hb1 _], tv_nodes0 as [Hn1 Hn2]. unfold tail_bytes. rewrite length_app, length_take, Hb1.
  assert (Hl : forall l, Forall typed_node l -> length (List.concat (node_bytes <$> l)) = (length l * NODE_BYTES)%nat).
  { induction 1 as [|n l Hn _ IH]; [done|]. rewrite fmap_cons. cbn [List.concat length]. rewrite length_app, IH, node_bytes_length by done. lia. }
  rewrite Hl by (by apply Forall_take). rewrite length_take, Hn1, !Nat.min_l by lia. done.
Qed.

Definition known_layout (l : active_layout) : Prop := l = set_active_v2 \/ l = set_active_v3.

Lemma body_length v l sum :
  typed_volume v -> known_layout l -> zlen (body v l sum) <= g_active_metadata_sectors l * 512 <= 16384.
Proof.
  intros Hv Hl. unfold zlen, body. rewrite !length_app, (head_length v Hv), tail_length by first [done | destruct Hl as [-> | ->]; apply Nat.leb_le; reflexivity].
  part_length. destruct Hl as [-> | ->]; vm_compute; split; discriminate.
Qed.

Lemma image_blit v l sum :
  typed_volume v -> blit (image v l 0) CHECKSUM_OFFSET (le_bytes 8 sum) = image v l sum.
Proof.
  intros Hv. unfold image, pad_to, body. rewrite <- !app_assoc. rewrite blit_at; [|by rewrite head_length|done].
  rewrite !length_app, !le_bytes_length. reflexivity.
Qed.

Lemma image_length v l sum : typed_volume v -> known_layout l -> zlen (image v l sum) = 16384.
Proof.
  intros Hv Hl. pose proof (body_length v l sum Hv Hl). unfold image, zlen in *. rewrite pad_to_length; [done|].
  change (Z.to_nat RAW_BYTES) with (Z.to_nat 16384). lia.
Qed.

Section Roundtrip.
Context {D : Type} `{!BlockDevice D} `{!BlockDeviceLaws D}.
Implicit Types s : fs D.

Lemma write_sectors_vol n s i raw s' ok : write_sectors n s i raw = (s', ok) -> vol s' = vol s /\ lay s' = lay s.
Proof.
  revert s i. induction n as [|n IH]; intros s i H; cbn [write_sectors] in H; simplify_eq; [done|].
  destruct (blk_write _ _ _) as [s1 [|]] eqn:Hw; simplify_eq; apply blk_write_frame in Hw as [E1 E2]; [|done].
  by apply IH in H as [-> ->].
Qed.

(** What [write_metadata] leaves on the device. *)
Lemma write_metadata_image s s1 :
  write_metadata s = (s1, XAIOS_OK) -> typed_volume (vol s) -> known_layout (lay s) ->
  let sum := written_checksum (vol s) (lay s) in
  vol s1 = set_checksum (vol s) sum /\ lay s1 = lay s /\
  forall k, 0 <= k < g_active_metadata_sectors (lay s) ->
    blk_read s1 (MFS_START_SECTOR + k) = Some (sector_of (image (vol s) (lay s) sum) k).
Proof.
  unfold write_metadata. rewrite volume_bytes_split. fold (disk_bitmap (lay s)) (disk_nodes (lay s)).
  fold (body (vol s) (lay s) 0). fold (image (vol s) (lay s) 0). fold (written_checksum (vol s) (lay s)).
  intros H Hv Hl. rewrite image_blit in H by done. set (sum := written_checksum (vol s) (lay s)) in *.
  destruct (write_sectors _ _ _ _) as [s2 [|]] eqn:Hw; simplify_eq.
  destruct (write_sectors_vol _ _ _ _ _ _ Hw) as [E1 E2]. split; [done|]. split; [done|].
  pose proof (image_length (vol s) (lay s) sum Hv Hl). pose proof (body_length (vol s) (lay s) sum Hv Hl).
  apply write_sectors_reads in Hw as [_ Hr]; [|lia|lia]. intros k Hk. apply Hr. lia.
Qed.

(** Only padding lies behind the sectors that are read back. *)
Lemma take_image v l sum m :
  typed_volume v -> zlen (body v l sum) <= m <= 16384 ->
  pad_to (Z.to_nat RAW_BYTES) (take (Z.to_nat m) (image v l sum)) = image v l sum.
Proof.
  intros Hv [Hm Hm']. unfold image, pad_to at 2 3. rewrite take_app_ge by zlia. rewrite take_replicate.
  unfold pad_to. rewrite <- app_assoc, <- replicate_add. f_equal. f_equal. rewrite length_app, length_replicate.
  change (Z.to_nat RAW_BYTES) with (Z.to_nat 16384). zlia.
Qed.

Lemma version_of_first_sector v l sum :
  typed_volume v -> known_layout l -> field (sector_of (image v l sum) 0) 8 4 = version v.
Proof.
  intros Hv Hl. pose proof (image_length v l sum Hv Hl) as Hlen. unfold sector_of. change (Z.to_nat (0 * 512)) with 0%nat.
  unfold field. assert (E : slice (slice (image v l sum) 0 512) 8 4 = slice (image v l sum) 8 4).
  { unfold slice. rewrite drop_0, skipn_firstn_comm, take_take. done. }
  rewrite E. change (le_value (slice (image v l sum) 8 4)) with (field (image v l sum) 8 4).
  pose proof Hv as [[Hm _]]. unfold image, pad_to, body, head_bytes. rewrite <- !app_assoc. walk.
Qed.

(** Reading back what was written. *)
Lemma read_back s s1 :
  write_metadata s = (s1, XAIOS_OK) -> typed_volume (vol s) -> known_layout (lay s) ->
  version (vol s) = g_active_version (lay s) -> rest_zero (vol s) (disk_bitmap (lay s)) (disk_nodes (lay s)) ->
  let sum := written_checksum (vol s) (lay s) in
  read_metadata s1 =
    (with_vol (with_verified s1 (mfs_checksum (image (vol s) (lay s) sum) (g_active_metadata_sectors (lay s) * MFS_SECTOR_SIZE)))
       (set_checksum (vol s) sum), XAIOS_OK).
Proof.
  intros H Hv Hl Hver Hz sum. destruct (write_metadata_image s s1 H Hv Hl) as (Hvol & Hlay & Hr).
  fold sum in Hr, Hvol. set (raw := image (vol s) (lay s) sum) in *.
  pose proof (version_of_first_sector (vol s) (lay s) sum Hv Hl) as Hf. fold raw in Hf. rewrite Hver in Hf.
  pose proof (image_length (vol s) (lay s) sum Hv Hl) as Hlen. fold raw in Hlen.
  pose proof (body_length (vol s) (lay s) sum Hv Hl) as Hbody.
  assert (Hsec : (if g_active_version (lay s) =? MFS_V3_VERSION then MFS_V3_METADATA_SECTORS else MFS_METADATA_SECTORS) =
                 g_active_metadata_sectors (lay s)) by (destruct Hl as [-> | ->]; done).
  assert (Hpos : 1 <= g_active_metadata_sectors (lay s)) by (destruct Hl as [-> | ->]; done).
  unfold read_metadata. change (blk_read s1 MFS_START_SECTOR) with (blk_read s1 (MFS_START_SECTOR + 0)).
  rewrite Hr, Hf, Hsec by lia.
  assert (E0 : sector_of raw 0 = take (Z.to_nat (1 * 512)) raw) by (unfold sector_of, slice; by rewrite drop_0).
  rewrite E0, read_sectors_image; [|lia|lia|intros; apply Hr; lia].
  replace (1 + Z.of_nat (Z.to_nat (g_active_metadata_sectors (lay s) - 1))) with (g_active_metadata_sectors (lay s)) by lia.
  pose proof (take_image (vol s) (lay s) sum (g_active_metadata_sectors (lay s) * 512) Hv Hbody) as Ek.
  fold raw in Ek. rewrite Ek. fold (disk_bitmap (lay s)) (disk_nodes (lay s)).
  assert (Ep : parse_volume raw (disk_bitmap (lay s)) (disk_nodes (lay s)) = set_checksum (vol s) sum); [|by rewrite Ep].
  unfold raw, image, pad_to, body. rewrite <- !app_assoc.
  apply parse_volume_image; try done; try (destruct Hl as [-> | ->]; apply Nat.leb_le; reflexivity). apply fnv_width.
Qed.

(** C29: a volume whose fields have their widths is read back from the metadata sectors as it
    was written, for both layouts, with the checksum that was stored. *)
Theorem mfs_metadata_roundtrip s s1 :
  write_metadata s = (s1, XAIOS_OK) -> typed_volume (vol s) -> known_layout (lay s) ->
  version (vol s) = g_active_version (lay s) -> rest_zero (vol s) (disk_bitmap (lay s)) (disk_nodes (lay s)) ->
  exists s2, read_metadata s1 = (s2, XAIOS_OK) /\ vol s2 = vol s1 /\
    vol s2 = set_checksum (vol s) (written_checksum (vol s) (lay s)).
Proof.
  intros H Hv Hl Hver Hz. destruct (write_metadata_image s s1 H Hv Hl) as (Hvol & _).
  eexists. split; [by apply read_back|]. by split.
Qed.

End Roundtrip.

(** ** Every operation keeps the widths *)

Create HintDb mfs_typed.

Section Typed.
Context {D : Type} `{!BlockDevice D} `{!BlockDeviceLaws D}.
Implicit Types s : fs D.

Definition well_typed s : Prop := typed_volume (vol s) /\ known_layout (lay s).

Lemma typed_same s s' : vol s' = vol s -> lay s' = lay s -> well_typed s -> well_typed s'.
Proof. intros Hv Hl. unfold well_typed. by rewrite Hv, Hl. Qed.

Lemma width_small n v : 0 <= v < 256 -> (0 < n)%nat -> width n v.
Proof.
  intros Hv Hn. split; [lia|]. apply Z.lt_le_trans with (256 ^ 1); [lia|]. apply Z.pow_le_mono_r; lia.
Qed.

Lemma bytes_set n l i x : bytes n l -> width 1 x -> bytes n (l.[i <- x]).
Proof. intros [Hl Hb] Hx. split; [by rewrite length_insert|]. by apply Forall_insert. Qed.

Lemma bump_typed c s : well_typed s -> well_typed (bump c s).
Proof. done. Qed.

Lemma set_block_typed s b x : well_typed s -> width 1 x -> well_typed (set_block s b x).
Proof. intros [[] Hl] Hx. split; [|done]. constructor; try done. by apply bytes_set. Qed.

Lemma upd_node_typed s i f :
  well_typed s -> (forall n, typed_node n -> typed_node (f n)) -> well_typed (upd_node s i f).
Proof.
  intros [[] Hl] Hf. destruct tv_nodes0 as [Hlen Hn]. split; [|done]. constructor; try done. simpl. unfold upd.
  split; [by rewrite length_insert|]. by apply Forall_upd.
Qed.

Lemma next_generation_typed s : well_typed s -> well_typed (next_generation s).
Proof. intros [[] Hl]. split; [|done]. constructor; try done. apply u64_range. Qed.

Lemma write_metadata_typed s : well_typed s -> well_typed (write_metadata s).1.
Proof.
  intros [Hv Hl]. unfold write_metadata. destruct (write_sectors _ _ _ _) as [s2 [|]] eqn:Hw;
    apply write_sectors_vol in Hw as [E1 E2]; split; simpl; rewrite ?E2; try done; rewrite E1;
    destruct Hv; constructor; try done; apply fnv_width.
Qed.

Lemma clear_journal_typed s : well_typed s -> well_typed (clear_journal s).1.
Proof.
  intros Ht. unfold clear_journal. destruct (blk_write s _ _) as [s1 [|]] eqn:H1; apply blk_write_frame in H1 as [E1 E2].
  - destruct (blk_write s1 _ _) as [s2 [|]] eqn:H2; apply blk_write_frame in H2 as [E3 E4]; simpl.
    + eapply typed_same; [..|exact Ht]; congruence.
    + apply bump_typed. eapply typed_same; [..|exact Ht]; congruence.
  - simpl. apply bump_typed. by eapply typed_same.
Qed.

Lemma alloc_loop_typed n s i count found :
  well_typed s -> 0 <= i -> i + Z.of_nat n <= 256 -> Forall (width 2) found -> zlen found <= count ->
  let r := alloc_loop n s i count found in
  well_typed r.1 /\ Forall (width 2) r.2 /\ zlen r.2 <= count.
Proof.
  revert s i found. induction n as [|n IH]; intros s i found Hs Hi Hn Hf Hc; cbn [alloc_loop]; [done|].
  destruct (Z.ltb_spec (zlen found) count); [|done]. case_if.
  - apply IH; [|lia|lia| |].
    + apply bump_typed, set_block_typed; [done|]. apply width_small; lia.
    + apply Forall_app. split; [done|]. constructor; [|done]. split; [lia|]. change (256 ^ Z.of_nat 2) with 65536. lia.
    + unfold zlen in *. rewrite length_app. simpl. lia.
  - apply IH; [done|lia|lia|done|done].
Qed.

Lemma fold_typed {A} (f : fs D -> A -> fs D) l s :
  (forall t x, well_typed t -> well_typed (f t x)) -> well_typed s -> well_typed (foldl f s l).
Proof. intros Hf. revert s. induction l as [|x l IH]; intros s Hs; simpl; [done|]. by apply IH, Hf. Qed.

Definition typed_blocks (l : list Z) : Prop := length l = 16%nat /\ Forall (width 2) l.

Lemma no_blocks_typed : typed_blocks no_blocks.
Proof. split; [done|]. apply Forall_replicate. apply width_small; lia. Qed.

Lemma allocate_typed s count :
  well_typed s -> 0 <= count ->
  well_typed (allocate_blocks s count).1 /\
  forall blocks, (allocate_blocks s count).2 = Some blocks -> typed_blocks blocks.
Proof.
  intros Hs Hc. unfold allocate_blocks.
  assert (Hl : g_active_file_max_blocks (lay s) = 16 /\ g_active_data_sectors (lay s) <= 256)
    by (destruct Hs as [_ [-> | ->]]; done).
  destruct Hl as [Hl1 Hl2]. rewrite Hl1. destruct (Z.ltb_spec 16 count); [done|].
  destruct (count =? 0); [split; [done|]; intros; simplify_eq/=; apply no_blocks_typed|].
  pose proof (alloc_loop_typed (Z.to_nat (g_active_data_sectors (lay s))) s 0 count []) as Ha.
  destruct Ha as (H1 & H2 & H3); [done|lia|lia|done|done|].
  destruct (alloc_loop _ _ _ _ _) as [s1 found]. simpl in *. case_if; simpl.
  - split; [done|]. intros blocks [= <-]. split; [apply pad_to_length; zlia|]. apply Forall_app. split; [done|].
    apply Forall_replicate. apply width_small; lia.
  - split; [|done]. apply bump_typed, fold_typed; [|done]. intros t x Ht. apply bump_typed, set_block_typed; [done|].
    apply width_small; lia.
Qed.

Lemma free_typed s count blocks : well_typed s -> well_typed (free_blocks s count blocks).
Proof.
  intros Hs. unfold free_blocks. apply (for_range_ind (fun _ t => well_typed t)); [done|]. intros j t _ Ht.
  case_if; [|done]. apply bump_typed, set_block_typed; [done|]. apply width_small; lia.
Qed.

Lemma write_blocks_vol s blocks count data size s' ok :
  write_blocks s blocks count data size = (s', ok) -> vol s' = vol s /\ lay s' = lay s.
Proof.
  unfold write_blocks. generalize (Z.to_nat count) as n. generalize 0 as i. intros i n. revert s i.
  induction n as [|n IH]; intros s i H; cbn [write_blocks_from] in H; simplify_eq; [done|].
  destruct (blk_write _ _ _) as [s1 [|]] eqn:Hw; simplify_eq; apply blk_write_frame in Hw as [E1 E2]; [|done].
  by apply IH in H as [-> ->].
Qed.

Lemma read_blocks_vol s blocks count buffer size :
  vol (read_blocks s blocks count buffer size).1 = vol s /\ lay (read_blocks s blocks count buffer size).1 = lay s.
Proof. unfold read_blocks. by destruct (read_blocks_from _ _ _ _ _ _). Qed.

Lemma copy_blocks_typed s blocks count buffer size s' b r :
  copy_blocks s blocks count buffer size = (s', b, r) -> well_typed s -> 0 <= count ->
  well_typed s' /\ forall new, r = inr new -> typed_blocks new.
Proof.
  unfold copy_blocks. intros H Hs Hc. destruct (read_blocks_vol s blocks count buffer size) as [E1 E2].
  destruct (read_blocks _ _ _ _ _) as [s1 [b1|]]; simpl in E1, E2; [|simplify_eq; split; [by eapply typed_same|done]].
  destruct (allocate_typed s1 count) as [Ha1 Ha2]; [by eapply typed_same|done|].
  destruct (allocate_blocks s1 count) as [s2 [new|]]; [|by simplify_eq]. simpl in *. specialize (Ha2 new eq_refl).
  destruct (write_blocks _ _ _ _ _) as [s3 [|]] eqn:Hw; simplify_eq; apply write_blocks_vol in Hw as [E3 E4].
  - split; [by eapply typed_same|]. naive_solver.
  - split; [|done]. apply free_typed. by eapply typed_same.
Qed.

(** *** Nodes *)

Lemma copy_path_typed dst p : bytes 96 dst -> validate_path p = true -> bytes 96 (copy_path dst p).
Proof.
  intros [Hl Hb] [Hp Hc]%validate_path_chars. unfold copy_path. rewrite take_ge by lia. split.
  - rewrite length_app. cbn [length]. rewrite length_drop. lia.
  - apply Forall_app. split; [|constructor; [done|by apply Forall_drop]]. eapply Forall_impl; [exact Hc|].
    intros c E. unfold bad_char in E. apply width_small; lia.
Qed.

Lemma zero_node_typed : typed_node zero_node.
Proof.
  constructor; try (apply width_small; simpl; lia); try apply no_blocks_typed; (split; [done|]);
    apply Forall_replicate; apply width_small; lia.
Qed.

Lemma make_dir_typed p g n :
  validate_path p = true -> width 8 g -> typed_node n -> typed_node (make_dir p g n).
Proof.
  intros Hp Hg Hn. unfold make_dir. set (m := if n_snapshot_active n =? 0 then zero_node else n).
  assert (Hm : typed_node m) by (unfold m; case_if; [apply zero_node_typed|done]).
  destruct Hm. constructor; simpl; try done; try apply no_blocks_typed. by apply copy_path_typed.
Qed.

Lemma make_file_typed p d count blocks g n :
  validate_path p = true -> zlen d <= 8192 -> width 2 count -> typed_blocks blocks -> width 8 g -> typed_node n ->
  typed_node (make_file p d count blocks g n).
Proof.
  intros Hp Hd Hc Hb Hg []. constructor; simpl; try done; [|apply fnv_width|by apply copy_path_typed].
  split; [zlia|]. change (256 ^ Z.of_nat 8) with 18446744073709551616. lia.
Qed.

Lemma deactivate_typed count g n : width 2 count -> width 8 g -> typed_node n -> typed_node (deactivate count g n).
Proof. intros Hc Hg []. by constructor. Qed.

Lemma set_path_typed p g n : validate_path p = true -> width 8 g -> typed_node n -> typed_node (set_path p g n).
Proof. intros Hp Hg []. constructor; simpl; try done. by apply copy_path_typed. Qed.

Lemma clear_snapshot_typed n : typed_node n -> typed_node (clear_snapshot n).
Proof. intros []. constructor; simpl; try done. apply no_blocks_typed. Qed.

Lemma take_snapshot_typed n : typed_node n -> typed_node (take_snapshot n).
Proof. intros []. by constructor. Qed.

Lemma set_snapshot_blocks_typed count blocks n :
  width 2 count -> typed_blocks blocks -> typed_node n -> typed_node (set_snapshot_blocks count blocks n).
Proof. intros Hc Hb []. by constructor. Qed.

Lemma revive_typed n : typed_node n -> typed_node (revive n).
Proof. intros []. constructor; simpl; try done. apply no_blocks_typed. Qed.

Lemma set_file_blocks_typed count blocks n :
  width 2 count -> typed_blocks blocks -> typed_node n -> typed_node (set_file_blocks count blocks n).
Proof. intros Hc Hb []. by constructor. Qed.

End Typed.

#[export] Hint Resolve bump_typed next_generation_typed write_metadata_typed free_typed zero_node_typed make_dir_typed
  make_file_typed deactivate_typed set_path_typed clear_snapshot_typed take_snapshot_typed set_snapshot_blocks_typed
  revive_typed set_file_blocks_typed upd_node_typed no_blocks_typed ty_generation ty_block_count
  ty_snapshot_block_count tv_generation : mfs_typed.

Section TypedOps.
Context {D : Type} `{!BlockDevice D} `{!BlockDeviceLaws D}.
Implicit Types s : fs D.

Lemma node_typed s i : well_typed s -> typed_node (node s i).
Proof.
  intros [Hv _]. destruct (tv_nodes _ Hv) as [Hl Hn]. unfold node. rewrite Forall_lookup in Hn.
  destruct (decide (Z.to_nat i < length (nodes (vol s)))%nat).
  - eapply Hn. by apply list_lookup_lookup_total_lt.
  - rewrite list_lookup_total_alt, lookup_ge_None_2 by lia. apply zero_node_typed.
Qed.

Lemma generation_width s : well_typed s -> width 8 (generation (vol s)).
Proof. intros [Hv _]. apply Hv. Qed.
#[local] Hint Resolve node_typed generation_width : mfs_typed.

Lemma create_dir_typed s p : well_typed s -> well_typed (create_dir s p).1.
Proof.
  intros Hs. unfold create_dir. destruct (_ || _ || _) eqn:Hc; [by apply bump_typed|]. breflect.
  destruct (target_node s p) as [i|]; [|by apply bump_typed]. case_if; [done|]. auto 10 with mfs_typed.
Qed.

Lemma block_count_width n : width 2 (block_count_for_size n).
Proof. unfold block_count_for_size, width, u16. change (256 ^ Z.of_nat 2) with 65536. apply Z.mod_pos_bound. lia. Qed.

Lemma install_file_typed s p d blocks :
  well_typed s -> validate_path p = true -> zlen d <= 8192 -> typed_blocks blocks ->
  well_typed (install_file s p d (block_count_for_size (zlen d)) blocks).1.
Proof.
  intros Hs Hp Hd Hb. unfold install_file. destruct (target_node s p) as [i|]; [|by apply bump_typed, free_typed].
  case_if; [by apply bump_typed, free_typed|]. apply write_metadata_typed, bump_typed. fold (free_now s s i).
  assert (H1 : well_typed (free_now s s i)) by (unfold free_now; case_if; auto with mfs_typed).
  set (s1 := free_now s s i) in *.
  assert (H2 : well_typed (next_generation (upd_node s1 i
    (make_file p d (block_count_for_size (zlen d)) blocks (generation (vol s1)))))); [|by case_if].
  pose proof (block_count_width (zlen d)). auto 10 with mfs_typed.
Qed.

Lemma write_file_typed s p d : well_typed s -> well_typed (write_file s p d).1.
Proof.
  intros Hs. unfold write_file. destruct (negb (writable s) || _ || _ || _) eqn:Hc; [by apply bump_typed|]. breflect.
  assert (Hd : zlen d <= 8192) by (destruct Hs as [_ [E|E]]; rewrite E in *; simpl in *; lia).
  pose proof (block_count_bounds (zlen d) ltac:(zlia)) as [Hcount _].
  destruct (allocate_typed s (block_count_for_size (zlen d))) as [Ha1 Ha2]; [done|lia|].
  destruct (allocate_blocks _ _) as [s1 [blocks|]]; [|done]. simpl in *. specialize (Ha2 blocks eq_refl).
  destruct (write_blocks _ _ _ _ _) as [s2 [|]] eqn:Hw; apply write_blocks_vol in Hw as [E1 E2].
  - apply install_file_typed; try done. by eapply typed_same.
  - apply free_typed. by eapply typed_same.
Qed.

Lemma read_file_typed s p b : well_typed s -> well_typed (read_file s p b).1.
Proof.
  intros Hs. unfold read_file. case_if; [by apply bump_typed|]. destruct (find_node _ _ _) as [i|]; [|by apply bump_typed].
  case_if; [by apply bump_typed|]. destruct (read_blocks_vol s (n_blocks (node s i)) (n_block_count (node s i)) b (n_size (node s i))) as [E1 E2].
  destruct (read_blocks _ _ _ _ _) as [s1 [b1|]]; simpl in *; [|by eapply typed_same].
  case_if; simpl; repeat apply bump_typed; by eapply typed_same.
Qed.

Lemma delete_node_typed s p : well_typed s -> well_typed (delete_node s p).1.
Proof.
  intros Hs. unfold delete_node. case_if; [by apply bump_typed|]. destruct (find_node _ _ _) as [i|]; [|by apply bump_typed].
  case_if; [by apply bump_typed|]. apply write_metadata_typed, bump_typed, next_generation_typed.
  match goal with |- well_typed (upd_node ?t _ _) => assert (H1 : well_typed t) by (case_if; auto with mfs_typed) end.
  apply upd_node_typed; [done|]. intros n Hn. apply deactivate_typed; [|by auto with mfs_typed|done].
  case_if; [apply width_small; lia|]. by apply ty_block_count, node_typed.
Qed.

Lemma rename_node_typed s o n : well_typed s -> well_typed (rename_node s o n).1.
Proof.
  intros Hs. unfold rename_node. destruct (normalize_path o); [|by apply bump_typed].
  unfold normalize_path. destruct (validate_path n) eqn:Hn; [|by apply bump_typed]. rewrite copy_path_valid by done.
  case_if; [by apply bump_typed|]. destruct (find_node _ _ _); [|by apply bump_typed]. case_if; [by apply bump_typed|].
  case_if; [by apply bump_typed|]. auto 10 with mfs_typed.
Qed.

Lemma commit_node_typed s i buffer : well_typed s -> well_typed (commit_node s i buffer).1.1.
Proof.
  intros Hs. unfold commit_node. fold (free_snap s i).
  assert (H1 : well_typed (free_snap s i)) by (unfold free_snap; case_if; auto with mfs_typed).
  assert (H2 : well_typed (upd_node (free_snap s i) i clear_snapshot)) by auto with mfs_typed.
  case_if; [done|]. assert (H3 : well_typed (upd_node (upd_node (free_snap s i) i clear_snapshot) i take_snapshot))
    by auto with mfs_typed.
  case_if; [done|]. pose proof (ty_block_count _ (node_typed s i Hs)) as Hc.
  destruct (copy_blocks _ _ _ _ _) as [[s4 b] r] eqn:Hcp. apply copy_blocks_typed in Hcp as [H4 H5]; [|done|apply Hc].
  destruct r as [e|new]; [done|]. specialize (H5 new eq_refl). apply upd_node_typed; auto with mfs_typed.
Qed.

Lemma commit_loop_typed n s i buffer : well_typed s -> well_typed (commit_loop n s i buffer).1.
Proof.
  revert s i buffer. induction n as [|n IH]; intros s i buffer Hs; cbn [commit_loop]; [done|].
  pose proof (commit_node_typed s i buffer Hs) as H1. destruct (commit_node s i buffer) as [[s1 b] e]. simpl in H1.
  destruct e; [by apply IH|done..].
Qed.

Lemma commit_snapshot_typed s : well_typed s -> well_typed (commit_snapshot s).1.
Proof.
  intros Hs. unfold commit_snapshot. case_if; [by apply bump_typed|].
  pose proof (commit_loop_typed (Z.to_nat (g_active_max_nodes (lay s))) s 0 stack_buffer Hs) as H1.
  destruct (commit_loop _ _ _ _) as [s1 e]. simpl in H1. destruct e; try done. apply write_metadata_typed, bump_typed.
  destruct H1 as [[] Hl]. split; [|done]. by constructor.
Qed.

Lemma restore_snapshot_typed s i : well_typed s -> well_typed (restore_snapshot_node s i).1.
Proof.
  intros Hs. unfold restore_snapshot_node. case_if; [done|]. fold (free_now s s i).
  assert (H1 : well_typed (free_now s s i)) by (unfold free_now; case_if; auto with mfs_typed).
  assert (H2 : well_typed (upd_node (free_now s s i) i revive)) by auto with mfs_typed.
  case_if; [done|]. pose proof (ty_snapshot_block_count _ (node_typed s i Hs)) as Hc.
  destruct (copy_blocks _ _ _ _ _) as [[s4 b] r] eqn:Hcp. apply copy_blocks_typed in Hcp as [H4 H5]; [|done|apply Hc].
  destruct r as [e|new]; [done|]. specialize (H5 new eq_refl). apply upd_node_typed; auto with mfs_typed.
Qed.

Lemma drop_new_typed i s : well_typed s -> well_typed (drop_new_node i s).
Proof.
  intros Hs. unfold drop_new_node. case_if; [|done].
  match goal with |- well_typed (upd_node ?t _ _) => assert (H1 : well_typed t) by (case_if; auto with mfs_typed) end.
  apply upd_node_typed; [done|]. intros n Hn. assert (width 2 0) by (apply width_small; lia).
  apply set_file_blocks_typed; [done|apply no_blocks_typed|]. apply deactivate_typed; [done|by apply ty_generation|done].
Qed.

Lemma restore_pass_typed n s i type : well_typed s -> well_typed (restore_pass n s i type).1.
Proof.
  revert s i. induction n as [|n IH]; intros s i Hs; cbn [restore_pass]; [done|]. case_if; [|by apply IH].
  pose proof (restore_snapshot_typed s i Hs) as H1. destruct (restore_snapshot_node s i) as [s1 e]. simpl in H1.
  destruct e; [by apply IH|done..].
Qed.

Lemma rollback_snapshot_typed s : well_typed s -> well_typed (rollback_snapshot s).1.
Proof.
  intros Hs. unfold rollback_snapshot. case_if; [by apply bump_typed|].
  set (m := Z.to_nat _). set (s1 := for_range m 0 drop_new_node s).
  assert (H1 : well_typed s1) by (apply (for_range_ind (fun _ t => well_typed t)); [done|intros; by apply drop_new_typed]).
  pose proof (restore_pass_typed m s1 0 MFS_NODE_DIR H1) as H2. destruct (restore_pass m s1 0 _) as [s2 [|]]; [|done].
  pose proof (restore_pass_typed m s2 0 MFS_NODE_FILE H2) as H3. destruct (restore_pass m s2 0 _) as [s3 [|]]; [|done].
  simpl in *. auto with mfs_typed.
Qed.

Lemma perform_typed s o : well_typed s -> well_typed (perform s o).1.
Proof.
  intros Hs. destruct o as [p|p d|p b|p|p|o n| |]; simpl.
  - by apply create_dir_typed.
  - by apply write_file_typed.
  - pose proof (read_file_typed s p b Hs). by destruct (read_file s p b) as [s1 [|[]]].
  - unfold stat_node. destruct (normalize_path p); [|by apply bump_typed]. by destruct (find_node _ _ _); apply bump_typed.
  - by apply delete_node_typed.
  - by apply rename_node_typed.
  - by apply commit_snapshot_typed.
  - by apply rollback_snapshot_typed.
Qed.

Lemma perform_all_typed s ops : well_typed s -> well_typed (perform_all s ops).1.
Proof.
  revert s. induction ops as [|o ops IH]; intros s Hs; simpl; [done|]. pose proof (perform_typed s o Hs) as H1.
  destruct (perform s o) as [s1 r]. simpl in H1. specialize (IH s1 H1). by destruct (perform_all s1 ops).
Qed.

Lemma empty_volume_typed l : known_layout l -> typed_volume (empty_volume l).
Proof.
  intros Hl. constructor; cbn [empty_volume magic version sector_size metadata_sectors max_nodes start_sector
    journal_header_sector journal_data_sector data_start_sector data_sectors generation committed_generation checksum
    block_bitmap nodes]; try (destruct Hl as [-> | ->]; split; vm_compute; congruence).
  - split; [done|]. repeat constructor; done.
  - split; [by rewrite length_replicate|]. apply Forall_replicate, width_small; lia.
  - split; [by rewrite length_replicate|]. apply Forall_replicate, zero_node_typed.
Qed.

Lemma format_typed s s1 : known_layout (lay s) -> format_volume s = (s1, XAIOS_OK) -> well_typed s1.
Proof.
  intros Hl H. unfold format_volume in H.
  assert (H0 : well_typed (bump format_count (with_vol s (empty_volume (lay s))))).
  { split; [|done]. by apply empty_volume_typed. }
  pose proof (clear_journal_typed _ H0) as H1. destruct (clear_journal _) as [s2 e]. simpl in H1. destruct e; try done.
  pose proof (write_metadata_typed s2 H1) as H2. by rewrite H in H2.
Qed.

(** So every volume reached from a formatted one can be written and read back. *)
Lemma volume_typed s s1 m fl ops :
  known_layout (lay s) -> format_volume s = (s1, XAIOS_OK) ->
  typed_volume (vol (perform_all (with_mount s1 m fl) ops).1).
Proof. intros Hl H. apply perform_all_typed. by apply (format_typed s s1). Qed.

End TypedOps.

Lemma mfs_metadata_roundtrip_witness :
  exists s1 s2, write_metadata (with_vol (boot_fs blank_disk) (empty_volume set_active_v2)) = (s1, XAIOS_OK) /\
    read_metadata s1 = (s2, XAIOS_OK) /\ vol s2 = vol s1.
Proof.
  destruct (ram_write_metadata (with_vol (boot_fs blank_disk) (empty_volume set_active_v2)) eq_refl eq_refl
              ltac:(discriminate) ltac:(vm_compute; discriminate)) as [s1 Hw].
  assert (Hk : known_layout set_active_v2) by (left; reflexivity).
  destruct (mfs_metadata_roundtrip (with_vol (boot_fs blank_disk) (empty_volume set_active_v2)) s1 Hw
              (empty_volume_typed set_active_v2 Hk) Hk eq_refl ltac:(split; reflexivity)) as (s2 & H1 & H2 & _).
  exists s1, s2. split; [exact Hw|]. split; [exact H1|exact H2].
Defined.

(** ** The journal *)

Record typed_journal (j : xaios_mfs_journal) : Prop := {
  tj_magic : bytes 8 (j_magic j);
  tj_version : width 4 (j_version j);
  tj_state : width 4 (j_state j);
  tj_op : width 4 (j_op j);
  tj_reserved : width 4 (j_reserved j);
  tj_size : width 8 (j_size j);
  tj_hash : width 8 (j_content_hash j);
  tj_checksum : width 8 (j_checksum j);
  tj_path : bytes 96 (j_path j);
  tj_padding : bytes 368 (j_padding j)
}.

Lemma parse_journal_bytes j : typed_journal j -> parse_journal (journal_bytes j) = j.
Proof.
  intros []. destruct tj_magic0 as [Hm _], tj_path0 as [Hp _], tj_padding0 as [Hq _].
  rewrite <- (app_nil_r (journal_bytes j)). unfold journal_bytes. rewrite <- !app_assoc.
  destruct j as [? ? ? ? ? ? ? ? pa pd]. unfold parse_journal.
  cbn [j_magic j_version j_state j_op j_reserved j_size j_content_hash j_checksum j_path j_padding] in *.
  f_equal; walk.
Qed.

Lemma journal_bytes_length j : typed_journal j -> length (journal_bytes j) = 512%nat.
Proof.
  intros []. destruct tj_magic0 as [Hm _], tj_path0 as [Hp _], tj_padding0 as [Hq _]. unfold journal_bytes.
  rewrite !length_app. part_length. by rewrite Hm, Hp, Hq.
Qed.

Lemma pending_journal_typed p d c :
  validate_path p = true -> zlen d <= 512 -> width 8 c -> typed_journal (set_j_checksum (pending_journal p d) c).
Proof.
  intros Hp Hd Hc. constructor;
    cbn [set_j_checksum pending_journal j_magic j_version j_state j_op j_reserved j_size j_content_hash j_checksum j_path j_padding].
  2,3,4,5: apply width_small; unfold MFS_JOURNAL_VERSION, MFS_JOURNAL_PENDING, MFS_JOURNAL_OP_WRITE_FILE; lia.
  - split; [reflexivity|]. repeat constructor; done.
  - split; [zlia|]. change (256 ^ Z.of_nat 8) with 18446744073709551616. lia.
  - apply fnv_width.
  - exact Hc.
  - apply copy_path_typed; [|done]. split; [reflexivity|]. apply Forall_replicate, width_small; lia.
  - split; [by rewrite length_replicate|]. apply Forall_replicate, width_small; lia.
Qed.

Section Journal.
Context {D : Type} `{!BlockDevice D} `{!BlockDeviceLaws D}.
Implicit Types s : fs D.

(** A write recorded in the journal: the two sectors on the device. *)
Lemma pending_sectors s p d s1 :
  write_pending_journal_file s p d = (s1, XAIOS_OK) ->
  validate_path p = true /\ 0 < zlen d <= 512 /\ vol s1 = vol s /\
  blk_read s1 MFS_JOURNAL_DATA_SECTOR = Some (pad_to 512 d) /\
  read_journal s1 = Some (set_j_checksum (pending_journal p d) (journal_checksum (pending_journal p d))).
Proof.
  unfold write_pending_journal_file. intros H. destruct (_ || _ || _) eqn:Hc; [done|]. breflect.
  assert (Hd : 0 < zlen d <= 512) by (unfold MFS_SECTOR_SIZE in *; zlia).
  destruct (blk_write s _ _) as [s0 [|]] eqn:Hw; [|done]. unfold write_journal in H.
  destruct (blk_write s0 _ _) as [s2 [|]] eqn:Hw2; simplify_eq.
  apply blk_write_spec in Hw as (Hv1 & _ & _ & _ & _ & Ho1 & Hr1), Hw2 as (Hv2 & _ & _ & _ & _ & Ho2 & Hr2).
  assert (Ht : typed_journal (set_j_checksum (pending_journal p d) (journal_checksum (pending_journal p d))))
    by (apply pending_journal_typed; [done|lia|apply fnv_width]).
  split; [done|]. split; [done|]. split; [simpl; congruence|]. split.
  - change (blk_read (bump _ s2) ?t) with (blk_read s2 t). rewrite Ho2 by done. apply Hr1; [done|]. apply pad_to_length. zlia.
  - unfold read_journal. change (blk_read (bump _ s2) ?t) with (blk_read s2 t).
    rewrite Hr2; [|done|by apply journal_bytes_length]. simpl. by rewrite parse_journal_bytes.
Qed.

(** C31: a write that was recorded in the journal is replayed as exactly that write, and the
    journal is then cleared. *)
Theorem mfs_journal_replay s p d s1 :
  write_pending_journal_file s p d = (s1, XAIOS_OK) ->
  vol s1 = vol s /\
  replay_journal s1 =
    match write_file s1 p d with
    | (s2, XAIOS_OK) =>
        match clear_journal s2 with
        | (s3, XAIOS_OK) => (bump replay_count s3, XAIOS_OK)
        | (s3, _) => (s3, XAIOS_ERR_IO)
        end
    | (s2, _) => (s2, XAIOS_ERR_IO)
    end.
Proof.
  intros (Hp & Hd & Hv & Hdata & Hj)%pending_sectors. split; [done|]. unfold replay_journal. rewrite Hj, Hdata.
  set (c := journal_checksum (pending_journal p d)).
  assert (Hc : journal_checksum (set_j_checksum (pending_journal p d) c) = c) by done. rewrite Hc.
  cbn [set_j_checksum pending_journal j_magic j_version j_state j_op j_size j_content_hash j_checksum j_path].
  rewrite copy_path_valid, Hp by done. rewrite bool_decide_eq_true_2 by done.
  rewrite (proj2 (Z.eqb_neq (zlen d) 0)), (proj2 (Z.ltb_ge MFS_SECTOR_SIZE (zlen d))) by (unfold MFS_SECTOR_SIZE; lia).
  rewrite take_pad_to by zlia. rewrite !Z.eqb_refl. reflexivity.
Qed.

End Journal.

Lemma mfs_journal_replay_witness :
  exists s1, write_pending_journal_file (boot_fs blank_disk) [47; 97] [7] = (s1, XAIOS_OK) /\ vol s1 = zero_vol.
Proof.
  destruct (write_pending_journal_file (boot_fs blank_disk) [47; 97] [7]) as [s1 st] eqn:H.
  assert (Hst : st = XAIOS_OK) by (apply (f_equal snd) in H; vm_compute in H; congruence). subst st.
  exists s1. split; [reflexivity|]. exact (proj1 (mfs_journal_replay (boot_fs blank_disk) [47; 97] [7] s1 H)).
Defined.

(** ** The checksum of the metadata *)

Notation fnv_step := (fun hash b => u64 (Z.lxor hash b * FNV1A64_PRIME)).

Lemma fnv_zeros n h :
  0 <= h < 18446744073709551616 ->
  foldl fnv_step h (replicate n 0) = u64 (h * Zpow_mod FNV1A64_PRIME (Z.of_nat n) 18446744073709551616).
Proof.
  intros Hh. rewrite Zpow_mod_correct by done. unfold u64 at 2. rewrite Zmult_mod_idemp_r. revert h Hh.
  induction n as [|n IH]; intros h Hh.
  - cbn [replicate foldl]. change (Z.of_nat 0) with 0. rewrite Z.pow_0_r, Z.mul_1_r. symmetry. by apply Z.mod_small.
  - cbn [replicate foldl]. rewrite IH by apply u64_range. rewrite Z.lxor_0_r. unfold u64. rewrite Zmult_mod_idemp_l.
    f_equal. rewrite Nat2Z.inj_succ, Z.pow_succ_r by lia. ring.
Qed.

(** The bytes of the checksum of an empty volume: those of [mfs_checksum], with [sum] in the
    place of the checksum. *)
Definition empty_head : list Z := Eval vm_compute in take 72 (head_bytes (empty_volume set_active_v2)).

Lemma empty_image sum :
  exists k, (Z.to_nat 8104 <= k)%nat /\
    image (empty_volume set_active_v2) set_active_v2 sum = empty_head ++ replicate 8 0 ++ le_bytes 8 sum ++ replicate k 0.
Proof.
  assert (Hh : head_bytes (empty_volume set_active_v2) = empty_head ++ replicate 8 0) by (vm_compute; reflexivity).
  assert (Ht : tail_bytes (empty_volume set_active_v2) 96 32 = replicate (Z.to_nat 7520) 0) by (vm_compute; reflexivity).
  unfold image, pad_to, body. rewrite Hh. change (disk_bitmap set_active_v2) with 96%nat.
  change (disk_nodes set_active_v2) with 32%nat. rewrite Ht. set (k := (Z.to_nat RAW_BYTES - _)%nat).
  exists (Z.to_nat 7520 + k)%nat. split.
  - unfold k. rewrite !length_app, le_bytes_length, !length_replicate. change (length empty_head) with 72%nat.
    change (Z.to_nat RAW_BYTES) with (Z.to_nat 16384). lia.
  - rewrite <- !app_assoc, replicate_add. reflexivity.
Qed.

Lemma empty_checksum sum :
  mfs_checksum (image (empty_volume set_active_v2) set_active_v2 sum) (16 * MFS_SECTOR_SIZE) =
  foldl fnv_step (foldl fnv_step (fnv1a64 (empty_head ++ replicate 8 0)) (le_bytes 8 sum)) (replicate (Z.to_nat 8104) 0).
Proof.
  unfold mfs_checksum. destruct (empty_image sum) as (k & Hk & ->). rewrite blit_at by reflexivity.
  change (16 * MFS_SECTOR_SIZE) with 8192. replace k with (Z.to_nat 8104 + (k - Z.to_nat 8104))%nat by lia.
  rewrite replicate_add, !app_assoc, take_app_length'.
  - unfold fnv1a64. by rewrite !foldl_app.
  - rewrite !length_app, !length_replicate, le_bytes_length. change (length empty_head) with 72%nat. lia.
Qed.

Lemma checksum_value sum h c :
  foldl fnv_step (fnv1a64 (empty_head ++ replicate 8 0)) (le_bytes 8 sum) = h -> 0 <= h < 18446744073709551616 ->
  u64 (h * Zpow_mod FNV1A64_PRIME 8104 18446744073709551616) = c ->
  mfs_checksum (image (empty_volume set_active_v2) set_active_v2 sum) (16 * MFS_SECTOR_SIZE) = c.
Proof. intros Hh Hr Hc. rewrite empty_checksum, Hh, fnv_zeros by done. by rewrite Z2Nat.id. Qed.

Definition EMPTY_CHECKSUM : Z := Eval vm_compute in
  u64 (foldl fnv_step (fnv1a64 (empty_head ++ replicate 8 0)) (le_bytes 8 0) *
       Zpow_mod FNV1A64_PRIME 8104 18446744073709551616).

Lemma empty_checksum_value : written_checksum (empty_volume set_active_v2) set_active_v2 = EMPTY_CHECKSUM.
Proof. eapply checksum_value; [vm_compute; reflexivity|done|vm_compute; reflexivity]. Qed.

Lemma empty_checksum_differs :
  EMPTY_CHECKSUM <> mfs_checksum (image (empty_volume set_active_v2) set_active_v2 EMPTY_CHECKSUM) (16 * MFS_SECTOR_SIZE).
Proof. erewrite checksum_value; [|vm_compute; reflexivity|done|vm_compute; reflexivity]. discriminate. Qed.

Lemma validate_disk_checksum `{!BlockDevice D} (s : fs D) c :
  checksum (vol s) <> c -> (validate_disk s c).2 = XAIOS_ERR_INVALID.
Proof. intros Hne. unfold validate_disk. case_if; [done|]. by rewrite (proj2 (Z.eqb_neq _ _) Hne). Qed.

(** The checksum is taken with zeros at byte 72, where the committed generation is, and not
    at byte 80, where the checksum is stored: the one computed when a formatted volume is read
    back is another one, and the volume is rejected. *)
Lemma formatted_volume_rejected `{!BlockDevice D, !BlockDeviceLaws D} (s s1 : fs D) :
  lay s = set_active_v2 -> format_volume s = (s1, XAIOS_OK) ->
  exists s2, read_metadata s1 = (s2, XAIOS_OK) /\ checksum (vol s2) <> g_metadata_verified_checksum s2 /\
    (validate_disk s2 (g_metadata_verified_checksum s2)).2 = XAIOS_ERR_INVALID.
Proof.
  intros Hl H. assert (Hk : known_layout set_active_v2) by (by left).
  unfold format_volume in H. destruct (clear_journal _) as [s0 e] eqn:Hc. destruct e; try done.
  apply clear_journal_vol in Hc as [Hv0 Hl0]. cbn [vol lay bump with_vol] in Hv0, Hl0. rewrite Hl in Hv0, Hl0.
  eapply read_back in H; rewrite ?Hv0, ?Hl0 in *; [|by apply empty_volume_typed|done|done|by split].
  set (sum := written_checksum _ _) in H. eexists. split; [exact H|].
  cbn [checksum vol with_vol g_metadata_verified_checksum with_verified set_checksum].
  assert (Hne : sum <> mfs_checksum (image (empty_volume set_active_v2) set_active_v2 sum) (16 * MFS_SECTOR_SIZE)).
  { unfold sum. rewrite empty_checksum_value. apply empty_checksum_differs. }
  split; [exact Hne|]. by apply validate_disk_checksum.
Qed.

End MfsImage.
